(* ===== verification/_CoqProject ===== *)
-Q . S2P
Prelude.v
Security.v
Privacy.v
Leases.v
Capabilities.v
Policy.v
Scheduler.v
CompletionModels.v
Verification.v
Evidence.v
Usage.v
MissionGraph.v
Orchestrator.v
OrchestratorProofs.v
RouteLeases.v
Delivery.v
DeliveryProofs.v
TaskAnalysis.v
CapabilityRouting.v
Execution.v
Router.v
RouterProofs.v
RouteSelection.v
LeaseInterface.v
Coordinator.v
CoordinatorProofs.v
Connectors.v
Readiness.v
ConnectorStore.v
ConnectorLifecycle.v
ConnectorLifecycleProofs.v
NodeSecurity.v
NodeProtocol.v
NodeAgent.v
NodeAgentProofs.v
NodeGateway.v
NodeGatewayProofs.v
ControlPlaneService.v
ControlPlaneServiceProofs.v
Processes.v
Harness.v
Backends.v
BackendsProofs.v
Workers.v
CodingWorker.v
CodingWorkerProofs.v
RuntimeStore.v
RuntimeService.v
RuntimeServiceProofs.v
SessionModels.v
HarnessRegistry.v
Quota.v
RuntimeSnapshots.v
LaunchValidation.v
SessionRouting.v
SessionStore.v
Sessions.v
SessionsProofs.v
