(* ===== verification/Prelude.v ===== *)
(** * JoyMesh, verified

    This library models the core of JoyMesh (the Python package under [src/src/joymesh]) and
    proves what makes its parts correct. JoyMesh runs coding harnesses (Codex, Claude, Cursor
    and others) for its users: it decides which harness, provider and backend a mission goes
    to, runs it there, decides from evidence whether it was completed, delivers what happened,
    and installs and attests the harnesses on the users' machines.

    ** The parts and how they interact

    A mission enters through the execution router. It scores the routes of the mission
    ([CapabilityRouting]), ranks the backends, and tries them in order until one succeeds or a
    failure forbids a fallback ([Router]). A backend's answer goes to the completion
    orchestrator ([Orchestrator]), which stores a record, takes evidence in at a boundary
    ([Evidence]), verifies it by a strategy ([Verification]), finalises the usage ([Usage]),
    projects the mission graph ([MissionGraph]) and emits one terminal event. Events go to
    durable delivery ([Delivery]). Local runs are guarded by task leases ([Leases]), the
    capability registry ([Capabilities]), the policy engine ([Policy]) and the scheduler
    ([Scheduler]); the provider route of a run is held by one owner at a time ([RouteLeases],
    [Coordinator]). Harnesses reach a machine through the connector lifecycle: a plan is made
    from a reviewed catalogue ([Connectors]), approved by its hash, queued as a task, offered
    to the machine's node over a signed channel ([ConnectorLifecycle], [NodeGateway],
    [NodeAgent]), and what the node reports becomes evidence from which readiness is derived
    ([ConnectorStore], [Readiness]). The control-plane service pairs nodes with workspaces and
    approves what they may do ([ControlPlaneService], [NodeSecurity]).

    The runtime service ([RuntimeService]) composes these parts for the tasks of its API: a
    task is judged by the policy, waits for an approval or is routed, runs on a backend (the
    coding worker, [CodingWorker], for Codex on this machine; a lease of a node otherwise), and
    what comes of it goes to the orchestrator, whose answer becomes the status of the task.

    Beside it stands the sessions service of the SDK and the command line ([Sessions]): a run
    is routed over the harnesses and subscriptions that are open ([SessionRouting], [Quota],
    [HarnessRegistry]), checked once more when it starts ([RuntimeSnapshots]; a caller that
    routed by itself sends a directive, [LaunchValidation]), followed as a task of its own, and
    kept with its events ([SessionStore]).

    ** Files

    - [Prelude]: Python values, exceptions, dictionaries, text, JSON, integers and floats as
      the code uses them; the state-and-exception monad [M] with its triples ([hoare], [keeps]),
      tactics and hint database.
    - [Security], [Privacy]: [security.py], [runtime_snapshot/validators.py].
    - [Leases], [Capabilities], [Policy], [Scheduler]: the files of these names in
      [runtime_v1/], with [runtime_v1/retry.py] and [connectors/lifecycle_models.py].
    - [CompletionModels], [Verification], [Evidence], [Usage], [MissionGraph], [Orchestrator],
      [OrchestratorProofs]: [runtime_v1/completion/]. Every entry point of the orchestrator is
      one definition over the orchestrator's state (the record store, the boundary's intake, the
      usage attempts, the event log and the graph).
    - [RouteLeases]: [runtime_v1/provider_routes/lease_store.py], both the memory form and the
      database form. [LeaseInterface] is the class of what a client may rely on, with the memory
      form as an instance; [RouteSelection], [Coordinator] and [CoordinatorProofs] are the rest
      of [runtime_v1/provider_routes/], proved against the class.
    - [Delivery], [DeliveryProofs]: [delivery/] without its transports: envelope, outbox, worker
      and intake.
    - [TaskAnalysis], [CapabilityRouting]: [runtime_v1/execution_routing/capability_routing/].
      [Execution], [Router], [RouterProofs]: [runtime_v1/execution_routing/]. Its backends are
      parameters of the router; [Processes] (the process runner), [Harness] (the harness
      adapters), [Backends] and [BackendsProofs] are the ones it is built with.
    - [Workers]: [runtime_v1/workers/] and [runtime_v1/contracts/workers.py]. [CodingWorker],
      [CodingWorkerProofs]: [runtime_v1/coding_worker/].
    - [RuntimeStore], [RuntimeService], [RuntimeServiceProofs]: [runtime_v1/store.py] in memory
      and [runtime_v1/service.py]. The world of the router is the state of the service, so that
      a backend's operation may be a request of the service itself, as the submission of a
      remote execution is.
    - [Connectors], [Readiness], [ConnectorStore], [ConnectorLifecycle],
      [ConnectorLifecycleProofs]: [connectors/] without the node runner.
    - [NodeSecurity], [NodeProtocol], [NodeGateway], [NodeGatewayProofs], [NodeAgent],
      [NodeAgentProofs], [ControlPlaneService],
      [ControlPlaneServiceProofs]: [control_plane/], [execution/approval.py] and
      the message loop of the websocket route of [api.py].

    - [SessionModels], [HarnessRegistry], [Quota], [RuntimeSnapshots], [LaunchValidation],
      [SessionRouting], [SessionStore], [Sessions], [SessionsProofs]: [models.py], the registries
      and the selection of [harnesses/], [quota/], [runtime_snapshot/], the directives and
      checkpoints of [execution/], [routing.py], the tables of [persistence.py] that a run
      touches, and [service.py] with the supervision of [runtime.py].

    A comment [@src path:first-last symbol] before a definition names the lines it translates,
    below [src/src/joymesh].

    ** How the code is modelled

    A class of the code is a record with the class's mutable fields, a method a definition in
    the monad [M] over that record (state passing, with Python's exceptions as values), or a
    plain function where the method is one. Guards, early returns and the order of effects are
    those of the code; a call that may raise between two effects leaves the first one done.
    Dictionaries are association lists in insertion order ([dict_set] keeps a key's place, as
    Python does), JSON-like values are [pyval], integers are [Z] and unbounded as in Python,
    floats are the 53-bit floats of [SpecFloat] with the interpreter's rounding. Strings are
    ASCII. An [async] method is atomic between the places where other code can run; where that
    matters the method is split there ([NodeGateway.send_challenge] and
    [complete_authentication]; [NodeAgent.accept_new] and [launch]), and operations that
    interleave are step relations or lists of events ([ConnectorLifecycleProofs.store_step],
    [NodeGatewayProofs.gateway_step], [NodeAgent.next], [NodeSecurity.service_step],
    [Sessions.SessionOp]). A database session that reads, checks and commits is two steps: in
    [RouteLeases] every call is a read that plans and a commit, and [db_step] interleaves them
    freely; in [ConnectorStore] a transition is [transition_read] and [transition_commit], and
    the theorems about its operations, the gateway's included, take each transition as a whole,
    as [LeaseInterface] takes each call of a coordinator. What overlapping sessions do to these
    is shown by [claim_races_the_release] and [overlapping_transitions_both_succeed].

    Code that is not in the repository is a parameter. [PyLib] holds the clock (its n-th
    reading), the random identifiers, SHA-256, the text of floats and times; [SqlEngine] the
    order in which a database returns rows that no [ORDER BY] orders, any permutation;
    [NodeLib] Ed25519 and base64 with the laws [NodeLibLaws] (a signature verifies under its own
    key, encoding can be undone); [WireLib] pydantic's reading of an envelope, with the law that
    it reads what was written; transports, backends, strategies of other packages and the runner
    of connector tasks are arguments of the operations that call them. Each has a concrete
    instance ([counting_lib], [insertion_order], [toy_node_lib], [toy_wire]) on which the
    witnesses evaluate.

    ** What the theorems show

    - Completion: only a verified record is completed and every way to it has grounds; a closed
      record stays closed, a late or foreign attempt changes nothing, every run is decided.
    - Routing: a routed success is a success of a backend that was admitted; a fallback needs a
      failure that allows one; the attempts follow the decided order; the selected route
      respects capability, privacy, subscription and quota.
    - Backends: a child process inherits no secret and runs where it may; a success under a
      provider route means that the route was restored; the events of a remote node stay in
      order; every line of a stream ends or is cut off.
    - The runtime service: every succeeded task has a completed, verified record of its
      execution, whatever other requests run meanwhile; nothing runs that the policy refused or
      that waits for an approval when it is created; an event of a node counts only under the
      lease of its task. A finished run of the coding worker holds no lease, and a completed one
      was a process of Codex, with the command line of its connector in the inspected
      repository, that ended with code 0; a worker lease is accepted once.
    - Provider routes: one holder of a route at a time in the memory store and, when its calls
      come one after the other, in the database store, against one abstract specification; one
      active lease in the database store however its sessions overlap; a successful lifecycle
      inspected, leased, enabled, ran and restored the route in this order; every mutation
      carries the authority of the lease.
    - Delivery: what is acknowledged leaves the outbox, the outbox reads back what was written,
      a message delivered twice is accepted once; the number of tries is bounded.
    - Leases, policy, privacy, capabilities, scheduling: fencing tokens grow by one, a decision
      is exactly what its gates say, the privacy scan is exact.
    - Connectors: plans run the reviewed commands, none of six named shells; an approval is of
      the exact plan, a task that has finished is never changed, a change of a version that
      comes after another change of it is refused, readiness has exactly the grounds of its
      evidence, inline nodes never make a connector ready in production.
    - Nodes: a session needs a fresh challenge signed with the registered key, and a challenge
      serves once; a node changes only what belongs to it; what a node executes was signed for
      it and is the offered plan; a finished task is not run again, its end is sent from the
      journal; approvals are not replayed within their life; the tasks of the control plane run
      on nodes that registered with an approved pairing of the organisation.
    - Sessions: a run is created only on an open route, on a harness that was found fit at that
      moment and under a valid directive where one is given; it ends as its process ended;
      events are numbered without gaps and the history stays, whatever tasks run side by side.
      A route is open for exactly the reasons of the code and the best open one is selected;
      a snapshot is always valid and passes the privacy guard; a failed login, quota or rate
      limit blocks the harness at once.

    Each file with theorems ends with runs on concrete inputs: the witnesses, and the traces
    that show where the code falls short of its intention.

    ** Bounds and fuel

    [Verification.verify] recurses through composite strategies with fuel; [verify_fuel] is
    computed from the strategy and [verify_total] shows that it is enough. The privacy scan has
    fuel from the size of its value ([dsize]), which bounds the work list. The poll loops of the
    coordinator take the number of polls that the deadline allows; [lease_wait_ends] shows that
    more changes nothing. The loop over the lines of a process has one step for each byte it may
    collect, and one more; [stream_ends] shows that it never runs out. The decoder of text escapes
    has one step for each character. All other recursion is structural.

    ** Not modelled

    The HTTP and command-line surface ([api.py], [cli.py]) beyond the websocket loop; the
    process tree of [runtime.py] and the tables of [persistence.py] no run touches;
    the drivers of the harnesses ([runtime_v1/connectors/], the single adapters of [adapters/] and
    [harnesses/]) and the node runner, which start programs; HTTP clients ([fireconnect.py],
    [joymux_*.py]); the reading of configuration, secrets and keys. The manifest lists every part with its reason. *)

From stdpp Require Export base gmap strings list fin_maps pretty.
From Stdlib Require Export ZArith Lia Sorting.Sorted.
From Stdlib Require Import Ascii SpecFloat.

(** ** Notations of the development *)

Declare Scope mesh_scope.
Delimit Scope mesh_scope with mesh.
Open Scope mesh_scope.

(** Python's [==], [!=] and [in] as booleans. *)
Notation "a == b" := (bool_decide (a = b))
  (at level 70, no associativity, only parsing) : mesh_scope.
Notation "a != b" := (negb (bool_decide (a = b)))
  (at level 70, no associativity, only parsing) : mesh_scope.
Notation "a 'in?' l" := (bool_decide (a ∈ l))
  (at level 70, no associativity, only parsing) : mesh_scope.

(** ** Exceptions, results and the state monad with exceptions

    A Python statement runs in a state and either returns or raises; the
    changes made before an exception stay in the state. *)

(** The class of the exception, its [reason_code]/[code] attribute ("" when the
    class has none) and its message. *)
Record exn := Exn { exn_class : string; exn_code : string; exn_msg : string }.

Inductive res (A : Type) : Type :=
| Ok (a : A)
| Raise (e : exn).
Arguments Ok {A} a.
Arguments Raise {A} e.

Definition M (S A : Type) : Type := S → res A * S.

#[export] Instance M_ret S : MRet (M S) := λ A a s, (Ok a, s).
#[export] Instance M_bind S : MBind (M S) := λ A B f m s,
  match m s with
  | (Ok a, s') => f a s'
  | (Raise e, s') => (Raise e, s')
  end.

Definition raise {S A} (e : exn) : M S A := λ s, (Raise e, s).
Definition get_state {S} : M S S := λ s, (Ok s, s).
Definition modify_state {S} (f : S → S) : M S unit := λ s, (Ok (), f s).
(** [try m except h]: the handler runs in the state the body left behind. *)
Definition catch {S A} (m : M S A) (h : exn → M S A) : M S A := λ s,
  match m s with
  | (Ok a, s') => (Ok a, s')
  | (Raise e, s') => h e s'
  end.
(** [try: m finally: f]: an exception of [f] replaces the outcome of [m]. *)
Definition finally {S A} (m : M S A) (f : M S unit) : M S A := λ s,
  match m s with
  | (r, s1) => match f s1 with
               | (Ok _, s2) => (r, s2)
               | (Raise e, s2) => (Raise e, s2)
               end
  end.
(** A pure computation that may raise, run in the monad. *)
Definition lift_res {S A} (r : res A) : M S A := λ s, (r, s).

Definition res_bind {A B} (r : res A) (f : A → res B) : res B :=
  match r with Ok a => f a | Raise e => Raise e end.

(** The value of a run that returned, a default when it raised. *)
Definition from_ok {A} (d : A) (r : res A) : A := match r with Ok a => a | Raise _ => d end.
Definition res_ok {A} (r : res A) : bool := match r with Ok _ => true | Raise _ => false end.
Lemma from_ok_eq {A} (d : A) (r : res A) : res_ok r = true → r = Ok (from_ok d r).
Proof. by destruct r. Qed.

Definition is_ok {A} (r : res A) : Prop := match r with Ok _ => True | Raise _ => False end.

Definition ValueError (m : string) := Exn "ValueError" "" m.
Definition TypeError (m : string) := Exn "TypeError" "" m.
Definition KeyError (m : string) := Exn "KeyError" "" m.
Definition PermissionError (m : string) := Exn "PermissionError" "" m.
Definition OverflowError (m : string) := Exn "OverflowError" "" m.
Definition AssertionError := Exn "AssertionError" "" "".

Definition RuntimeError (m : string) := Exn "RuntimeError" "" m.
Definition TimeoutError : exn := Exn "TimeoutError" "" "".
Definition CancelledError : exn := Exn "CancelledError" "" "".
Definition is_TimeoutError (e : exn) : bool := exn_class e == "TimeoutError".
Definition is_CancelledError (e : exn) : bool := exn_class e == "CancelledError".
(** The loop of a run that the fuel did not see end. *)
Definition OutOfFuel : exn := Exn "OutOfFuel" "" "".

(** [except Exception] does not catch the cancellation of the task. *)
Definition is_Exception (e : exn) : bool := exn_class e != "CancelledError".

(** [OSError] and its subclasses, [TimeoutError] among them. *)
Definition is_OSError (e : exn) : bool :=
  bool_decide (exn_class e ∈ ["OSError"; "PermissionError"; "ProcessLookupError";
    "FileNotFoundError"; "FileExistsError"; "NotADirectoryError"; "IsADirectoryError";
    "InterruptedError"; "ChildProcessError"; "BlockingIOError"; "ConnectionError";
    "BrokenPipeError"; "ConnectionAbortedError"; "ConnectionRefusedError";
    "ConnectionResetError"; "TimeoutError"]).

(** ** Python values

    [Any] in the source. A [dict] keeps insertion order and has string keys; a
    [float] is a binary64 number. *)
Inductive pyval : Type :=
| PNone
| PBool (b : bool)
| PInt (z : Z)
| PFloat (f : spec_float)
| PStr (s : string)
| PList (l : list pyval)
| PDict (d : list (string * pyval)).

Abbreviation dict := (list (string * pyval)).

Section dicts.
Context {V : Type}.

Fixpoint dict_get (k : string) (d : list (string * V)) : option V :=
  match d with
  | [] => None
  | (k', v) :: d' => if k == k' then Some v else dict_get k d'
  end.

(** [d[k] = v]: in place when the key is there, at the end otherwise. *)
Fixpoint dict_set (k : string) (v : V) (d : list (string * V)) : list (string * V) :=
  match d with
  | [] => [(k, v)]
  | (k', v') :: d' => if k == k' then (k, v) :: d' else (k', v') :: dict_set k v d'
  end.

(** [d.pop(k, None)]. *)
Fixpoint dict_del (k : string) (d : list (string * V)) : list (string * V) :=
  match d with
  | [] => []
  | (k', v') :: d' => if k == k' then d' else (k', v') :: dict_del k d'
  end.

Definition dict_has (k : string) (d : list (string * V)) : bool :=
  match dict_get k d with Some _ => true | None => false end.

(** [{**d1, **d2}]. *)
Definition dict_update (d1 d2 : list (string * V)) : list (string * V) :=
  fold_left (λ d '(k, v), dict_set k v d) d2 d1.

Definition dict_values (d : list (string * V)) : list V := d.*2.
Definition dict_keys (d : list (string * V)) : list string := d.*1.
End dicts.

(** [d.get(k)], [None] when the key is missing. *)
Definition dget (k : string) (d : dict) : pyval := default PNone (dict_get k d).

Definition sf_zero (f : spec_float) : bool :=
  match f with S754_zero _ => true | _ => false end.

(** Python's truth value. *)
Definition truthy (v : pyval) : bool :=
  match v with
  | PNone => false
  | PBool b => b
  | PInt z => negb (z =? 0)%Z
  | PFloat f => negb (sf_zero f)
  | PStr s => s != ""
  | PList l => match l with [] => false | _ => true end
  | PDict d => match d with [] => false | _ => true end
  end.

(** [a or b]. *)
Definition py_or (a b : pyval) : pyval := if truthy a then a else b.

(** A [str | None] and its truth value. *)
Definition ostr (o : option string) : pyval :=
  match o with Some s => PStr s | None => PNone end.
Definition otruthy (o : option string) : bool :=
  match o with Some s => s != "" | None => false end.

(** Numbers compare by value: [True == 1], [1 == 1.0]. *)
Definition z_to_float (z : Z) : spec_float := binary_normalize 53 1024 z 0 false.
Definition sf_eqb (f g : spec_float) : bool := SFeqb f g.
(** A float equals an int when it is that integer exactly. *)
Definition sf_is_int (f : spec_float) (z : Z) : bool :=
  match f with
  | S754_zero _ => (z =? 0)%Z
  | S754_finite sg m e =>
      let v := (if sg then Z.neg m else Z.pos m) in
      if (0 <=? e)%Z then (v * 2 ^ e =? z)%Z else (v =? z * 2 ^ (- e))%Z
  | _ => false
  end.

(** The arithmetic of floats, the literal [m / 10^k] and [max(a, b)]. *)
Definition fadd (x y : spec_float) : spec_float := SFadd 53 1024 x y.
Definition fsub (x y : spec_float) : spec_float := SFsub 53 1024 x y.
Definition fmul (x y : spec_float) : spec_float := SFmul 53 1024 x y.
Definition fdiv (x y : spec_float) : spec_float := SFdiv 53 1024 x y.
Definition flit (m : Z) (k : Z) : spec_float := fdiv (z_to_float m) (z_to_float (10 ^ k)).
Definition flt (x y : spec_float) : bool := SFltb x y.
Definition fle (x y : spec_float) : bool := SFleb x y.
Definition fmax (a b : spec_float) : spec_float := if flt a b then b else a.
Definition is_nan (f : spec_float) : bool := match f with S754_nan => true | _ => false end.

(** Python's [==] on values; dictionaries compare without order. *)
Fixpoint py_eqb (a b : pyval) {struct a} : bool :=
  match a, b with
  | PNone, PNone => true
  | PBool x, PBool y => Bool.eqb x y
  | PBool x, PInt y => (Z.b2z x =? y)%Z
  | PInt x, PBool y => (x =? Z.b2z y)%Z
  | PInt x, PInt y => (x =? y)%Z
  | PFloat x, PFloat y => sf_eqb x y
  | PFloat x, PInt y => sf_is_int x y
  | PInt x, PFloat y => sf_is_int y x
  | PFloat x, PBool y => sf_is_int x (Z.b2z y)
  | PBool x, PFloat y => sf_is_int y (Z.b2z x)
  | PStr x, PStr y => x == y
  | PList xs, PList ys =>
      (fix go (xs ys : list pyval) {struct xs} : bool :=
         match xs, ys with
         | [], [] => true
         | x :: xs', y :: ys' => py_eqb x y && go xs' ys'
         | _, _ => false
         end) xs ys
  | PDict d1, PDict d2 =>
      bool_decide (length d1 = length d2) &&
      (fix go (d : list (string * pyval)) {struct d} : bool :=
         match d with
         | [] => true
         | (k, v) :: d' =>
             match dict_get k d2 with
             | Some v' => py_eqb v v' && go d'
             | None => false
             end
         end) d1
  | _, _ => false
  end.

(** The size of a value, for the fuel of the recursions over nested ones. *)
Fixpoint vsize (v : pyval) : nat :=
  match v with
  | PList l => S (foldr (λ x n, vsize x + n) 0 l)
  | PDict d => S (foldr (λ kv n, vsize kv.2 + n) 0 d)
  | _ => 1
  end.
Definition dsize (d : dict) : nat := foldr (λ kv n, vsize kv.2 + n) 0 d.

(** ** The order on strings and stable sorting *)

Definition str_leb (a b : string) : bool :=
  match String.compare a b with Gt => false | _ => true end.

(** [sorted(l, key=...)] with a boolean [leb] on the keys: stable insertion. *)
Section sorting.
Context {A : Type} (leb : A → A → bool).

Fixpoint insert_sorted (x : A) (l : list A) : list A :=
  match l with
  | [] => [x]
  | y :: l' => if leb x y then x :: l else y :: insert_sorted x l'
  end.

Definition py_sorted (l : list A) : list A := foldr insert_sorted [] l.
End sorting.

(** [sorted(s)] of strings. *)
Definition sorted_strs : list string → list string := py_sorted str_leb.

(** [", ".join(l)] with a separator. *)
Fixpoint join (sep : string) (l : list string) : string :=
  match l with
  | [] => ""
  | [x] => x
  | x :: l' => x +:+ sep +:+ join sep l'
  end.

(** [s.startswith(p)], [s.endswith(p)]. *)
Definition startswith (p s : string) : bool := String.prefix p s.
Definition endswith (p s : string) : bool :=
  String.prefix (String.rev p) (String.rev s).

(** [s.lower()], [s.replace(a, b)] for single characters, [part in s]; on ASCII text. *)
Fixpoint str_map (f : Ascii.ascii → Ascii.ascii) (s : string) : string :=
  match s with
  | EmptyString => EmptyString
  | String.String c s' => String.String (f c) (str_map f s')
  end.
Definition lower_char (c : Ascii.ascii) : Ascii.ascii :=
  let n := Ascii.nat_of_ascii c in
  if bool_decide (65 ≤ n ≤ 90) then Ascii.ascii_of_nat (n + 32) else c.
Definition lower : string → string := str_map lower_char.
Definition replace_char (a b : Ascii.ascii) : string → string :=
  str_map (λ c, if Ascii.eqb c a then b else c).
Fixpoint str_in (part s : string) : bool :=
  startswith part s ||
  match s with EmptyString => false | String.String _ s' => str_in part s' end.

(** [s.splitlines()]: a carriage return with a line feed is one end of a line. *)
Definition line_end (c : Ascii.ascii) : bool :=
  let n := Ascii.nat_of_ascii c in bool_decide (10 ≤ n ≤ 13) || bool_decide (28 ≤ n ≤ 30).
Fixpoint splitlines_go (acc : string) (s : string) : list string :=
  match s with
  | EmptyString => if acc == "" then [] else [acc]
  | String.String c s' =>
      if line_end c then
        acc :: match s' with
               | String.String c' s'' =>
                   if (Ascii.nat_of_ascii c =? 13)%nat && (Ascii.nat_of_ascii c' =? 10)%nat
                   then splitlines_go "" s'' else splitlines_go "" s'
               | EmptyString => []
               end
      else splitlines_go (acc +:+ String.String c "") s'
  end.
Definition splitlines (s : string) : list string := splitlines_go "" s.

(** [s[:n]]. *)
Definition str_take (n : nat) (s : string) : string := String.substring 0 n s.

(** ** Text and number conversions of the language

    Strings are ASCII. The shortest decimal text of a float, the reading of a
    decimal text as a float, the ISO text of a time, SHA-256 (in hexadecimal), the
    readings of the clock and the random identifiers are the platform's, kept as
    parameters. *)
Class PyLib := {
  float_repr : spec_float → string;
  float_of_str : string → option spec_float;
  sha256_hex : string → string;
  isoformat : Z → string;
  fromisoformat : string → option Z;
  (** The [n]-th reading of [utc_now()], and the [n]-th [uuid4()] as [.hex] and [str]. *)
  clock : nat → Z;
  uuid_hex : nat → string;
  uuid_str : nat → string
}.

Definition ascii_space (c : Ascii.ascii) : bool :=
  let n := Ascii.nat_of_ascii c in
  bool_decide (9 ≤ n ≤ 13) || bool_decide (28 ≤ n ≤ 32).
Definition ascii_digit (c : Ascii.ascii) : bool :=
  let n := Ascii.nat_of_ascii c in bool_decide (48 ≤ n ≤ 57).

Fixpoint lstrip (s : string) : string :=
  match s with
  | String.String c s' => if ascii_space c then lstrip s' else s
  | EmptyString => EmptyString
  end.
(** [s.strip()]. *)
Definition strip (s : string) : string := String.rev (lstrip (String.rev (lstrip s))).

(** The digits of an [int] literal: single underscores may sit between digits. *)
Fixpoint digits_value (s : string) (acc : Z) (after_digit : bool) : option Z :=
  match s with
  | EmptyString => if after_digit then Some acc else None
  | String.String c s' =>
      if ascii_digit c then
        digits_value s' (acc * 10 + (Z.of_nat (Ascii.nat_of_ascii c) - 48))%Z true
      else if Ascii.eqb c "_"%char && after_digit then
        match s' with
        | String.String c' _ => if ascii_digit c' then digits_value s' acc false else None
        | EmptyString => None
        end
      else None
  end.

Definition int_of_str (s : string) : option Z :=
  match strip s with
  | String.String "-" s' => Z.opp <$> digits_value s' 0 false
  | String.String "+" s' => digits_value s' 0 false
  | s' => digits_value s' 0 false
  end.

(** A concrete platform, for evaluating the definitions on inputs: the digest is the
    text itself, the clock ticks once a microsecond and identifiers count up. *)
Definition counting_lib : PyLib :=
  {| float_repr _ := "0.0"; float_of_str _ := None; sha256_hex s := s;
     isoformat t := pretty t; fromisoformat := int_of_str; clock n := Z.of_nat n;
     uuid_hex n := pretty n; uuid_str n := pretty n |}.

(** [int(v)]. *)
Definition py_int (v : pyval) : res Z :=
  match v with
  | PInt z => Ok z
  | PBool b => Ok (Z.b2z b)
  | PFloat S754_nan => Raise (ValueError "cannot convert float NaN to integer")
  | PFloat (S754_infinity _) =>
      Raise (OverflowError "cannot convert float infinity to integer")
  | PFloat (S754_zero _) => Ok 0%Z
  | PFloat (S754_finite sg m e) =>
      let v := (if (0 <=? e)%Z then Z.pos m * 2 ^ e else Z.pos m / 2 ^ (- e))%Z in
      Ok (if sg then (- v)%Z else v)
  | PStr s => match int_of_str s with
              | Some z => Ok z
              | None => Raise (ValueError "invalid literal for int() with base 10")
              end
  | _ => Raise (TypeError "int() argument must be a string or a real number")
  end.

(** Python's [repr] of a string. *)
Definition hex_digit (n : nat) : string :=
  String.substring n 1 "0123456789abcdef".
Definition str_contains_char (c : Ascii.ascii) (s : string) : bool :=
  existsb (Ascii.eqb c) (String.list_ascii_of_string s).
Definition repr_char (quote : Ascii.ascii) (c : Ascii.ascii) : string :=
  let n := Ascii.nat_of_ascii c in
  if Ascii.eqb c quote || Ascii.eqb c "\"%char then String.String "\" (String.String c "")
  else if n == 9 then "\t" else if n == 10 then "\n" else if n == 13 then "\r"
  else if bool_decide (n < 32) || (n == 127)
  then "\x" +:+ hex_digit (n / 16) +:+ hex_digit (n mod 16)
  else String.String c "".
Definition repr_str (s : string) : string :=
  let dq := Ascii.ascii_of_nat 34 in
  let q := if str_contains_char "'"%char s && negb (str_contains_char dq s)
           then dq else "'"%char in
  String.String q
    (String.concat "" (repr_char q <$> String.list_ascii_of_string s)
       +:+ String.String q "").

Section py_text.
Context `{PyLib}.

Fixpoint py_repr (v : pyval) : string :=
  match v with
  | PNone => "None"
  | PBool b => if b then "True" else "False"
  | PInt z => pretty z
  | PFloat f => float_repr f
  | PStr s => repr_str s
  | PList l => "[" +:+ join ", " (py_repr <$> l) +:+ "]"
  | PDict d =>
      "{" +:+ join ", " ((λ '(k, v), repr_str k +:+ ": " +:+ py_repr v) <$> d) +:+ "}"
  end.

(** [f"{v:.<d>f}"]: the exact value rounded half to even at [d] decimals. *)
Definition pad_zeros (d : nat) (s : string) : string :=
  String.concat "" (replicate (d - String.length s) "0") +:+ s.
Definition fixed_digits (d : nat) (m : positive) (e : Z) : Z :=
  let n := (Z.pos m * 10 ^ Z.of_nat d)%Z in
  if (0 <=? e)%Z then (n * 2 ^ e)%Z
  else
    let q := (n / 2 ^ (- e))%Z in
    let r := (n mod 2 ^ (- e))%Z in
    if (2 ^ (- e) <? 2 * r)%Z || ((2 ^ (- e) =? 2 * r)%Z && Z.odd q)
    then (q + 1)%Z else q.
Definition fmt_fixed (d : nat) (f : spec_float) : string :=
  let text (sg : bool) (z : Z) :=
    (if sg then "-" else "") +:+ pretty (z / 10 ^ Z.of_nat d)%Z +:+
    (if d == 0 then "" else "." +:+ pad_zeros d (pretty (z mod 10 ^ Z.of_nat d)%Z)) in
  match f with
  | S754_nan => "nan"
  | S754_infinity sg => if sg then "-inf" else "inf"
  | S754_zero sg => text sg 0%Z
  | S754_finite sg m e => text sg (fixed_digits d m e)
  end.

(** [str(v)]. *)
Definition py_str (v : pyval) : string :=
  match v with PStr s => s | _ => py_repr v end.

(** [float(v)]. *)
Definition py_float (v : pyval) : res spec_float :=
  match v with
  | PFloat f => Ok f
  | PInt z =>
      match z_to_float z with
      | S754_infinity _ => Raise (OverflowError "int too large to convert to float")
      | f => Ok f
      end
  | PBool b => Ok (z_to_float (Z.b2z b))
  | PStr s => match float_of_str s with
              | Some f => Ok f
              | None => Raise (ValueError "could not convert string to float")
              end
  | _ => Raise (TypeError "float() argument must be a string or a real number")
  end.
End py_text.

(** *** JSON *)

#[export] Instance spec_float_eq_dec : EqDecision SpecFloat.spec_float.
Proof. solve_decision. Defined.
#[export] Instance pyval_eq_dec : EqDecision pyval.
Proof.
  refine (fix go (a b : pyval) {struct a} : Decision (a = b) :=
    match a, b with
    | PNone, PNone => left eq_refl
    | PBool x, PBool y => cast_if (decide (x = y))
    | PInt x, PInt y => cast_if (decide (x = y))
    | PFloat x, PFloat y => cast_if (decide (x = y))
    | PStr x, PStr y => cast_if (decide (x = y))
    | PList x, PList y => cast_if (@list_eq_dec _ go x y)
    | PDict x, PDict y => cast_if (@list_eq_dec _ (@prod_eq_dec _ _ _ go) x y)
    | _, _ => right _
    end); clear go; abstract congruence.
Defined.

(** [json.dumps(v, sort_keys=True)] read back: the keys of every mapping are sorted. A
    JSON text column is kept as the value its text reads back. *)
Fixpoint json_norm (v : pyval) : pyval :=
  match v with
  | PList l => PList (json_norm <$> l)
  | PDict d => PDict (py_sorted (λ a b, str_leb a.1 b.1)
                        ((λ '(k, x), (k, json_norm x)) <$> d))
  | _ => v
  end.
Definition json_dict (d : dict) : dict :=
  py_sorted (λ a b, str_leb a.1 b.1) ((λ '(k, x), (k, json_norm x)) <$> d).

(** A string as [json.dumps] writes it. *)
Definition json_char (c : Ascii.ascii) : string :=
  let n := Ascii.nat_of_ascii c in
  if n == 34 then String.String "\" (String.String (Ascii.ascii_of_nat 34) "")
  else if n == 92 then "\\" else if n == 10 then "\n" else if n == 13 then "\r"
  else if n == 9 then "\t" else if n == 12 then "\f" else if n == 8 then "\b"
  else if bool_decide (n < 32) || (n == 127)
  then "\u00" +:+ hex_digit (n / 16) +:+ hex_digit (n mod 16)
  else String.String c "".
Definition json_str (s : string) : string :=
  let q := String.String (Ascii.ascii_of_nat 34) "" in
  q +:+ String.concat "" (json_char <$> String.list_ascii_of_string s) +:+ q.

(** [json.dumps(v, sort_keys=True, separators=(",", ":"))]. *)
Fixpoint json_compact `{PyLib} (v : pyval) : string :=
  match v with
  | PNone => "null"
  | PBool b => if b then "true" else "false"
  | PInt z => pretty z
  | PFloat S754_nan => "NaN"
  | PFloat (S754_infinity sg) => if sg then "-Infinity" else "Infinity"
  | PFloat f => float_repr f
  | PStr s => json_str s
  | PList l => "[" +:+ join "," (json_compact <$> l) +:+ "]"
  | PDict d =>
      "{" +:+ join "," (snd <$> py_sorted (λ a b, str_leb a.1 b.1)
        ((λ '(k, x), (k, json_str k +:+ ":" +:+ json_compact x)) <$> d)) +:+ "}"
  end.

(** [dict(v)]: a mapping is copied; a list of pairs with string keys is read as one.
    The elements of a list are lists of length two or strings of length two. *)
Fixpoint pairs_to_dict (l : list pyval) (acc : dict) : res dict :=
  match l with
  | [] => Ok acc
  | PList [PStr k; v] :: l' => pairs_to_dict l' (dict_set k v acc)
  | PStr (String.String a (String.String b EmptyString)) :: l' =>
      pairs_to_dict l' (dict_set (String.String a "") (PStr (String.String b "")) acc)
  | PList _ :: _ | PStr _ :: _ =>
      Raise (ValueError "dictionary update sequence element has the wrong length")
  | _ => Raise (TypeError "cannot convert dictionary update sequence element to a sequence")
  end.
Definition py_dict (v : pyval) : res dict :=
  match v with
  | PDict d => Ok d
  | PList l => pairs_to_dict l []
  | PStr EmptyString => Ok []
  | PStr _ => Raise (ValueError "dictionary update sequence element #0 has length 1; 2 is required")
  | _ => Raise (TypeError "object is not iterable")
  end.

(** [tuple(v)]. *)
Definition py_tuple (v : pyval) : res (list pyval) :=
  match v with
  | PList l => Ok l
  | PStr s => Ok ((λ c, PStr (String.String c "")) <$> String.list_ascii_of_string s)
  | PDict d => Ok (PStr <$> dict_keys d)
  | _ => Raise (TypeError "object is not iterable")
  end.

(** Lists and dictionaries cannot be members of a set or keys. *)
Definition hashable (v : pyval) : bool :=
  match v with PList _ | PDict _ => false | _ => true end.

(** [k in v] for a text: a member of a sequence, a part of a text, a key of a mapping. *)
Definition py_in (k : string) (v : pyval) : res bool :=
  match v with
  | PList l => Ok (existsb (py_eqb (PStr k)) l)
  | PStr s => Ok (str_in k s)
  | PDict d => Ok (dict_has k d)
  | _ => Raise (TypeError "argument is not iterable")
  end.

(** [d.setdefault(k, v)]. *)
Definition dict_setdefault {V} (k : string) (v : V) (d : list (string * V)) : list (string * V) :=
  if dict_has k d then d else dict_set k v d.

(** [list(dict.fromkeys(l))]: the first of equal members, which must be hashable. *)
Fixpoint nub_vals (l seen : list pyval) : res (list pyval) :=
  match l with
  | [] => Ok []
  | v :: l' =>
      if negb (hashable v) then Raise (TypeError "unhashable type")
      else if existsb (py_eqb v) seen then nub_vals l' seen
      else res_bind (nub_vals l' (v :: seen)) (λ r, Ok (v :: r))
  end.
Fixpoint nub_strs (l seen : list string) : list string :=
  match l with
  | [] => []
  | x :: l' => if x in? seen then nub_strs l' seen else x :: nub_strs l' (x :: seen)
  end.

(** [", ".join(l)] of values: a member that is not a string raises. *)
Fixpoint strs_of (l : list pyval) : res (list string) :=
  match l with
  | [] => Ok []
  | PStr s :: l' => res_bind (strs_of l') (λ ss, Ok (s :: ss))
  | _ => Raise (TypeError "sequence item: expected str instance")
  end.

(** [Enum(value)]: the member with that value, if there is one. *)
Definition enum_of {A} (value : A → string) (members : list A) (s : string) : option A :=
  List.find (λ m, value m == s) members.

(** A component's operation run on its part of a larger state. *)
Definition zoom {S T A} (get : S → T) (set : T → S → S) (m : M T A) : M S A :=
  λ s, match m (get s) with (r, t) => (r, set t s) end.

(** [for x in l: body], stopping at the first exception. *)
Fixpoint for_each {S A} (l : list A) (body : A → M S unit) : M S unit :=
  match l with
  | [] => mret tt
  | x :: l' => body x;; for_each l' body
  end.

(** A computation that may raise on every element, in order. *)
Fixpoint traverse {A B} (f : A → res B) (l : list A) : res (list B) :=
  match l with
  | [] => Ok []
  | x :: l' => res_bind (f x) (λ y, res_bind (traverse f l') (λ ys, Ok (y :: ys)))
  end.

(** ** Triples over the monad

    [hoare P m Q E]: run in a state of [P], [m] ends in [Q] with its value, or in [E]
    with an exception. *)
Definition hoare {S A} (P : S → Prop) (m : M S A) (Q : A → S → Prop)
    (E : exn → S → Prop) : Prop :=
  ∀ s, P s → match m s with (Ok a, s') => Q a s' | (Raise e, s') => E e s' end.

(** [keeps I m]: [m] preserves [I], whether it returns or raises. *)
Definition keeps {S A} (I : S → Prop) (m : M S A) : Prop := ∀ s, I s → I (m s).2.

(** ** Shared tactics *)

(** Case analysis on the boolean tests and matches of a handler's goal. *)
Ltac bd := repeat (case_bool_decide; simplify_eq/=); try done; try congruence.

(** Split the guards of a handler: one case per [if]/[match] on the way. *)
Ltac guards :=
  repeat match goal with
  | H : context [if ?b then _ else _] |- _ => destruct b eqn:?; simplify_eq/=
  | H : context [match ?x with _ => _ end] |- _ => destruct x eqn:?; simplify_eq/=
  end.

Ltac goal_guards :=
  repeat match goal with
  | |- context [if ?b then _ else _] => destruct b eqn:?; simplify_eq/=
  | |- context [match ?x with _ => _ end] => destruct x eqn:?; simplify_eq/=
  end.

(** Boolean facts as propositions. *)
Ltac boolify :=
  repeat match goal with
  | H : (_ && _) = true |- _ => apply andb_true_iff in H as [? ?]
  | H : (_ || _) = false |- _ => apply orb_false_iff in H as [? ?]
  | H : negb _ = true |- _ => apply negb_true_iff in H
  | H : negb _ = false |- _ => apply negb_false_iff in H
  | H : bool_decide _ = true |- _ => apply bool_decide_eq_true_1 in H
  | H : bool_decide _ = false |- _ => apply bool_decide_eq_false_1 in H
  end.

(** ** Generic lemmas *)

Create HintDb mesh.
Create Rewrite HintDb mesh.

Section dict_lemmas.
Context {V : Type}.
Implicit Types (d : list (string * V)) (k : string) (v : V).

Lemma dict_get_set_eq k v d : dict_get k (dict_set k v d) = Some v.
Proof. induction d as [|[k' v'] d IH]; simpl; bd. Qed.

Lemma dict_get_set_ne k k' v d :
  k ≠ k' → dict_get k' (dict_set k v d) = dict_get k' d.
Proof. intros Hne. induction d as [|[k'' v''] d IH]; simpl; bd. Qed.

Lemma dict_get_Some_elem k v d : dict_get k d = Some v → (k, v) ∈ d.
Proof.
  induction d as [|[k' v'] d IH]; simpl; [done|].
  bd; intros; simplify_eq; [apply list_elem_of_here | apply list_elem_of_further; auto].
Qed.

Lemma dict_get_None k d : dict_get k d = None ↔ k ∉ dict_keys d.
Proof.
  unfold dict_keys. induction d as [|[k' v'] d IH]; simpl; [set_solver|].
  bd; [set_solver|]. rewrite IH. set_solver.
Qed.

Lemma dict_set_keys k v d :
  dict_keys (dict_set k v d) =
  if dict_has k d then dict_keys d else dict_keys d ++ [k].
Proof.
  unfold dict_has, dict_keys. induction d as [|[k' v'] d IH]; simpl; [done|].
  bd. rewrite IH. destruct (dict_get k d); done.
Qed.

Lemma dict_set_NoDup k v d : NoDup (dict_keys d) → NoDup (dict_keys (dict_set k v d)).
Proof.
  intros Hd. rewrite dict_set_keys. unfold dict_has.
  destruct (dict_get k d) eqn:E; [done|].
  apply dict_get_None in E. apply NoDup_app. split_and!; [done| |apply NoDup_singleton].
  set_solver.
Qed.

Lemma dict_set_new k v d : dict_has k d = false → dict_set k v d = d ++ [(k, v)].
Proof.
  unfold dict_has. induction d as [|[k' v'] d IH]; simpl; [done|].
  case_bool_decide; [done|]. intros Hh. by rewrite IH.
Qed.

Lemma dict_set_Forall (P : string * V → Prop) k v d :
  P (k, v) → Forall P d → Forall P (dict_set k v d).
Proof.
  intros Hkv. induction 1 as [|[k' v'] d Hx Hd IH]; simpl; [by constructor|].
  case_bool_decide; simplify_eq; by constructor.
Qed.

Lemma dict_del_Forall (P : string * V → Prop) k d : Forall P d → Forall P (dict_del k d).
Proof.
  induction 1 as [|[k' v'] d Hx Hd IH]; simpl; [constructor|].
  case_bool_decide; [done|by constructor].
Qed.

Lemma dict_get_del_ne k k' d : k ≠ k' → dict_get k' (dict_del k d) = dict_get k' d.
Proof. intros Hne. induction d as [|[k'' v''] d IH]; simpl; bd. Qed.

Lemma dict_del_keys k d : dict_keys (dict_del k d) `sublist_of` dict_keys d.
Proof.
  unfold dict_keys. induction d as [|[k' v'] d IH]; simpl; [done|].
  case_bool_decide; simpl; by constructor.
Qed.

Lemma dict_del_NoDup k d : NoDup (dict_keys d) → NoDup (dict_keys (dict_del k d)).
Proof. intros Hd. eapply sublist_NoDup; [exact Hd|apply dict_del_keys]. Qed.

Lemma dict_get_del_Some k k' v d :
  NoDup (dict_keys d) → dict_get k' (dict_del k d) = Some v → dict_get k' d = Some v.
Proof.
  unfold dict_keys. induction d as [|[k'' v''] d IH]; simpl; [done|].
  intros [Hni Hnd]%NoDup_cons. repeat (case_bool_decide; simplify_eq/=); try done; auto.
  intros Hg%dict_get_Some_elem. destruct Hni. apply list_elem_of_fmap. by exists (k'', v).
Qed.

Lemma dict_get_del_eq k d : NoDup (dict_keys d) → dict_get k (dict_del k d) = None.
Proof.
  unfold dict_keys. induction d as [|[k' v'] d IH]; simpl; [done|].
  intros [Hni Hnd]%NoDup_cons. case_bool_decide as E; simplify_eq/=.
  - by apply dict_get_None.
  - rewrite bool_decide_eq_false_2 by done. auto.
Qed.

Lemma dict_elem_get k v d : NoDup (dict_keys d) → (k, v) ∈ d → dict_get k d = Some v.
Proof.
  unfold dict_keys. induction d as [|[k' v'] d IH]; simpl; [set_solver|].
  intros [Hni Hnd]%NoDup_cons [?|Hin]%elem_of_cons; bd; [|by auto].
  destruct Hni. apply list_elem_of_fmap. by eexists (_, _).
Qed.
End dict_lemmas.

Lemma elem_of_filter_bool {A} (f : A → bool) x l :
  x ∈ List.filter f l ↔ x ∈ l ∧ f x = true.
Proof. rewrite !list_elem_of_In. apply filter_In. Qed.

Lemma NoDup_filter_bool {A} (f : A → bool) (l : list A) : NoDup l → NoDup (List.filter f l).
Proof.
  induction 1 as [|x l Hx Hl IH]; simpl; [constructor|]. destruct (f x); [|done].
  constructor; [|done]. by intros [? _]%elem_of_filter_bool.
Qed.

(** *** The decimal text of an integer *)

Definition no_space (s : string) : bool :=
  forallb (λ c, negb (ascii_space c)) (String.list_ascii_of_string s).

Lemma rev_app_rev_app s t u : String.rev_app (String.rev_app s t) u = String.rev_app t (s +:+ u).
Proof. revert t. induction s as [|c s IH]; intros t; simpl; [done|]. by rewrite IH. Qed.

Lemma string_rev_involutive s : String.rev (String.rev s) = s.
Proof.
  unfold String.rev. rewrite rev_app_rev_app. simpl.
  induction s as [|c s IH]; [done|]. exact (f_equal (String.String c) IH).
Qed.

Lemma no_space_rev_app s t :
  no_space s = true → no_space t = true → no_space (String.rev_app s t) = true.
Proof.
  unfold no_space. revert t. induction s as [|c s IH]; intros t; simpl; [done|].
  intros [Hc Hs]%andb_true_iff Ht. apply IH; [done|]. simpl. by rewrite Hc.
Qed.

Lemma lstrip_no_space s : no_space s = true → lstrip s = s.
Proof.
  destruct s as [|c s]; [done|]. unfold no_space. simpl.
  intros [Hc _]%andb_true_iff. by apply negb_true_iff in Hc as ->.
Qed.

Lemma strip_no_space s : no_space s = true → strip s = s.
Proof.
  intros Hs. unfold strip. rewrite (lstrip_no_space s) by done.
  rewrite lstrip_no_space; [apply string_rev_involutive|].
  by apply (no_space_rev_app s "").
Qed.

Lemma small_digit (P : N → Prop) :
  P 0%N → P 1%N → P 2%N → P 3%N → P 4%N → P 5%N → P 6%N → P 7%N → P 8%N → P 9%N →
  ∀ d, (d < 10)%N → P d.
Proof.
  intros ?????????? d Hd. assert (d = 0 ∨ d = 1 ∨ d = 2 ∨ d = 3 ∨ d = 4 ∨ d = 5 ∨ d = 6 ∨ d = 7 ∨ d = 8 ∨ d = 9)%N
    as Hd' by lia.
  clear Hd. by repeat destruct Hd' as [->|Hd']; [..|subst].
Qed.

Lemma digits_value_char d s acc b :
  (d < 10)%N →
  digits_value (String.String (pretty_N_char d) s) acc b =
  digits_value s (acc * 10 + Z.of_N d)%Z true.
Proof. revert d. apply small_digit; reflexivity. Qed.

Lemma mod_10_lt x : (x `mod` 10 < 10)%N.
Proof. by apply N.mod_lt. Qed.

Lemma digits_value_pretty x s b :
  (0 < x)%N → digits_value (pretty_N_go x s) 0 b = digits_value s (Z.of_N x) true.
Proof.
  revert s b. induction (N.lt_wf_0 x) as [x _ IH]; intros s b Hx.
  rewrite pretty_N_go_step by done. pose proof (N.div_mod x 10 ltac:(done)) as Hdm.
  pose proof (mod_10_lt x) as Hr. pose proof (N.div_lt x 10 Hx ltac:(done)) as Hq.
  revert Hdm Hr Hq. generalize (x / 10)%N (x `mod` 10)%N. intros q r Hdm Hr Hq.
  destruct (decide (q = 0)%N) as [->|Hz].
  - rewrite pretty_N_go_0, digits_value_char by done. f_equal. lia.
  - rewrite IH by lia. rewrite digits_value_char by done. f_equal. lia.
Qed.

Lemma pretty_go_shape x s :
  (0 < x)%N → no_space s = true →
  no_space (pretty_N_go x s) = true ∧
  ∃ d s', (d < 10)%N ∧ pretty_N_go x s = String.String (pretty_N_char d) s'.
Proof.
  revert s. induction (N.lt_wf_0 x) as [x _ IH]; intros s Hx Hs.
  rewrite pretty_N_go_step by done.
  assert (no_space (String.String (pretty_N_char (x `mod` 10)) s) = true) as Hc.
  { generalize (mod_10_lt x). revert Hs. generalize (x `mod` 10)%N. intros d Hs.
    revert d. by apply small_digit. }
  destruct (decide (x `div` 10 = 0)%N) as [->|Hz].
  - rewrite pretty_N_go_0. split; [done|]. eexists _, s. split; [apply mod_10_lt|done].
  - apply IH; [by apply N.div_lt|by apply N.neq_0_lt_0|done].
Qed.

(** [int(str(z)) == z]. *)
Lemma int_of_str_pretty z : int_of_str (pretty z) = Some z.
Proof.
  destruct z as [|p|p]; [reflexivity|..]; unfold int_of_str;
    destruct (pretty_go_shape (Npos p) "" ltac:(done) ltac:(done)) as (Hns & d & s' & Hd & Hsh);
    pose proof (digits_value_pretty (Npos p) "" false ltac:(done)) as Hv.
  - change (pretty (Z.pos p)) with (pretty_N_go (Npos p) "").
    rewrite strip_no_space by done. rewrite Hsh in Hv |- *. clear Hsh Hns.
    revert Hv. pattern d. match goal with |- ?P _ =>
      refine (small_digit P _ _ _ _ _ _ _ _ _ _ d Hd); intros Hv; exact Hv end.
  - change (pretty (Z.neg p)) with (String.String "-" (pretty_N_go (Npos p) "")).
    rewrite strip_no_space by done. by rewrite Hv.
Qed.

(** [str_leb] is a total order. *)
Lemma str_leb_total a b : str_leb a b = true ∨ str_leb b a = true.
Proof.
  unfold str_leb. rewrite (String.compare_antisym b a).
  destruct (String.compare a b); auto.
Qed.

Lemma str_leb_refl a : str_leb a a = true.
Proof. destruct (str_leb_total a a); done. Qed.

Lemma str_leb_antisym a b : str_leb a b = true → str_leb b a = true → a = b.
Proof.
  unfold str_leb. rewrite (String.compare_antisym b a).
  destruct (String.compare a b) eqn:E; simpl; [|done|done].
  intros _ _. by apply String.compare_eq_iff.
Qed.

Lemma str_leb_trans a b c : str_leb a b = true → str_leb b c = true → str_leb a c = true.
Proof.
  unfold str_leb. revert b c.
  induction a as [|x a IH]; intros [|y b] [|z c]; simpl; try done.
  unfold Ascii.compare.
  destruct (N.compare_spec (Ascii.N_of_ascii x) (Ascii.N_of_ascii y)),
    (N.compare_spec (Ascii.N_of_ascii y) (Ascii.N_of_ascii z)),
    (N.compare_spec (Ascii.N_of_ascii x) (Ascii.N_of_ascii z)); try lia; try done.
  apply IH.
Qed.

Section sorting_lemmas.
Context {A : Type} (leb : A → A → bool).

Lemma insert_sorted_Permutation x l : insert_sorted leb x l ≡ₚ x :: l.
Proof.
  induction l as [|y l IH]; simpl; [done|].
  destruct (leb x y); [done|]. rewrite IH. apply Permutation_swap.
Qed.

Lemma py_sorted_Permutation l : py_sorted leb l ≡ₚ l.
Proof.
  induction l as [|x l IH]; simpl; [done|].
  by rewrite insert_sorted_Permutation, IH.
Qed.

Lemma elem_of_py_sorted x l : x ∈ py_sorted leb l ↔ x ∈ l.
Proof. by rewrite py_sorted_Permutation. Qed.

Context (leb_total : ∀ a b, leb a b = true ∨ leb b a = true).
Context (leb_trans : ∀ a b c, leb a b = true → leb b c = true → leb a c = true).

Lemma insert_sorted_Sorted x l :
  StronglySorted (λ a b, leb a b = true) l →
  StronglySorted (λ a b, leb a b = true) (insert_sorted leb x l).
Proof.
  induction 1 as [|y l Hl IH Hy]; simpl; [repeat constructor|].
  destruct (leb x y) eqn:E.
  - constructor; [by constructor|]. constructor; [done|].
    eapply Forall_impl; [exact Hy|]. intros z Hz. by eapply leb_trans.
  - constructor; [done|]. rewrite insert_sorted_Permutation. constructor; [|done].
    destruct (leb_total x y); congruence.
Qed.

Lemma py_sorted_Sorted l : StronglySorted (λ a b, leb a b = true) (py_sorted leb l).
Proof. induction l; simpl; [constructor | by apply insert_sorted_Sorted]. Qed.

Lemma py_sorted_head_le x l y :
  head (py_sorted leb l) = Some x → y ∈ l → leb x y = true.
Proof.
  intros Hh Hy. pose proof (py_sorted_Sorted l) as Hs.
  apply (elem_of_py_sorted y) in Hy.
  destruct (py_sorted leb l) as [|z t]; simplify_eq/=.
  apply StronglySorted_inv in Hs as [_ Hf].
  apply elem_of_cons in Hy as [->|Hy]; [destruct (leb_total x x); done|].
  rewrite Forall_forall in Hf. auto.
Qed.
End sorting_lemmas.

(** The same on lists whose members satisfy [P], where the order is total. *)
Section sorting_on.
Context {A : Type} (leb : A → A → bool) (P : A → Prop).
Context (leb_total : ∀ a b, P a → P b → leb a b = true ∨ leb b a = true).
Context (leb_trans : ∀ a b c, P a → P b → P c →
  leb a b = true → leb b c = true → leb a c = true).

Lemma insert_sorted_Sorted_on x l :
  P x → Forall P l → StronglySorted (λ a b, leb a b = true) l →
  StronglySorted (λ a b, leb a b = true) (insert_sorted leb x l).
Proof.
  intros Hx Hl. induction 1 as [|y l Hs IH Hy]; simpl; [repeat constructor|].
  apply Forall_cons in Hl as [Py Pl]. destruct (leb x y) eqn:E.
  - constructor; [by constructor|]. constructor; [done|].
    rewrite Forall_forall in Hy, Pl |- *. intros z Hz. eapply leb_trans; eauto.
  - constructor; [auto|]. rewrite insert_sorted_Permutation. constructor; [|done].
    destruct (leb_total x y); congruence.
Qed.

Lemma py_sorted_Sorted_on l :
  Forall P l → StronglySorted (λ a b, leb a b = true) (py_sorted leb l).
Proof.
  induction 1 as [|z l Hz Hl IH]; simpl; [constructor|].
  apply insert_sorted_Sorted_on; [done| |done].
  by change (Forall P (py_sorted leb l)); rewrite py_sorted_Permutation.
Qed.

Lemma py_sorted_head_le_on x l y :
  Forall P l → head (py_sorted leb l) = Some x → y ∈ l → leb x y = true.
Proof.
  intros Hl Hh Hy. pose proof (py_sorted_Sorted_on l Hl) as Hs.
  assert (∀ z, z ∈ py_sorted leb l → P z) as HP.
  { intros z Hz%elem_of_py_sorted. by rewrite Forall_forall in Hl; apply Hl. }
  apply (elem_of_py_sorted leb) in Hy.
  destruct (py_sorted leb l) as [|z t]; simplify_eq/=.
  apply StronglySorted_inv in Hs as [_ Hf].
  apply elem_of_cons in Hy as [->|Hy].
  - destruct (leb_total x x) as [?|?]; auto using list_elem_of_here.
  - rewrite Forall_forall in Hf. auto.
Qed.
End sorting_on.

(** *** The order of floats that are numbers *)

Definition float_key (f : spec_float) : Z * Z * Z :=
  match f with
  | S754_infinity sg => (if sg then -2 else 2, 0, 0)%Z
  | S754_zero _ | S754_nan => (0, 0, 0)%Z
  | S754_finite sg m e => if sg then (-1, - e, Z.neg m)%Z else (1, e, Z.pos m)%Z
  end.
Definition key_le (a b : Z * Z * Z) : Prop :=
  let '(a1, a2, a3) := a in let '(b1, b2, b3) := b in
  (a1 < b1 ∨ (a1 = b1 ∧ (a2 < b2 ∨ (a2 = b2 ∧ a3 <= b3))))%Z.

Lemma fle_key x y :
  is_nan x = false → is_nan y = false → fle x y = true ↔ key_le (float_key x) (float_key y).
Proof.
  unfold fle, SFleb.
  destruct x as [sx|sx| |sx mx ex], y as [sy|sy| |sy my ey]; try done; intros _ _;
    try (destruct sx); try (destruct sy); simpl; try first [split; [done|lia] | split; [lia|done]];
    try (split; intros; done || lia);
    destruct (Z.compare_spec ex ey); simpl; try first [split; [done|lia] | split; [lia|done]];
    try (split; intros; done || lia);
    change (Pos.compare_cont Eq mx my) with (Pos.compare mx my);
    destruct (Pos.compare_spec mx my); simpl; split; intros; done || lia.
Qed.

Lemma sf_eqb_key x y :
  is_nan x = false → is_nan y = false → sf_eqb x y = true ↔ float_key x = float_key y.
Proof.
  unfold sf_eqb, SFeqb.
  destruct x as [sx|sx| |sx mx ex], y as [sy|sy| |sy my ey]; try done; intros _ _;
    try (destruct sx); try (destruct sy); simpl; try done;
    destruct (Z.compare_spec ex ey); simpl; try (split; intros; simplify_eq; done || lia);
    change (Pos.compare_cont Eq mx my) with (Pos.compare mx my);
    destruct (Pos.compare_spec mx my); simpl; split; intros; simplify_eq; done || lia.
Qed.

Lemma fle_total x y : is_nan x = false → is_nan y = false → fle x y = true ∨ fle y x = true.
Proof.
  intros Hx Hy. rewrite !fle_key by done.
  destruct (float_key x) as [[??]?], (float_key y) as [[??]?]. simpl. lia.
Qed.

Lemma fle_trans x y z :
  is_nan x = false → is_nan y = false → is_nan z = false →
  fle x y = true → fle y z = true → fle x z = true.
Proof.
  intros Hx Hy Hz. rewrite !fle_key by done.
  destruct (float_key x) as [[??]?], (float_key y) as [[??]?], (float_key z) as [[??]?].
  simpl. lia.
Qed.

Lemma flt_fle x y : is_nan x = false → is_nan y = false → flt x y = negb (fle y x).
Proof.
  intros Hx Hy. pose proof (fle_key y x Hy Hx) as Hk.
  unfold flt, fle, SFltb, SFleb in *.
  destruct x as [sx|sx| |sx mx ex], y as [sy|sy| |sy my ey]; try done;
    try (destruct sx); try (destruct sy); try done; simpl in *;
    rewrite (Z.compare_antisym ex ey) in *; destruct (Z.compare_spec ex ey); simpl in *; try done;
    change (Pos.compare_cont Eq mx my) with (Pos.compare mx my) in *;
    change (Pos.compare_cont Eq my mx) with (Pos.compare my mx) in *;
    rewrite (Pos.compare_antisym mx my) in *; by destruct (Pos.compare mx my).
Qed.

(** A shift keeps a mantissa from becoming negative. *)
Lemma iter_shr_1_nonneg p mrs :
  (0 ≤ shr_m mrs)%Z → (0 ≤ shr_m (iter_pos shr_1 p mrs))%Z.
Proof.
  revert mrs. assert (∀ r, (0 ≤ shr_m r)%Z → (0 ≤ shr_m (shr_1 r))%Z) as H1.
  { intros [[|[]|[]] r s]; simpl; lia. }
  induction p as [p IH|p IH|]; intros mrs H; simpl; auto.
Qed.

Lemma shr_fexp_nonneg m e l :
  (0 ≤ m)%Z → (0 ≤ shr_m (shr_fexp 53 1024 m e l).1)%Z.
Proof.
  intros Hm. unfold shr_fexp, shr.
  assert (0 ≤ shr_m (shr_record_of_loc m l))%Z by by destruct l as [|[]].
  destruct (_ - _)%Z; simpl; [done|by apply iter_shr_1_nonneg|done].
Qed.

Lemma round_nearest_even_nonneg m l : (0 ≤ m)%Z → (0 ≤ round_nearest_even m l)%Z.
Proof. intros. unfold round_nearest_even. destruct l as [|[]]; try destruct (Z.even m); lia. Qed.

Lemma binary_round_number sg m e : is_nan (binary_round 53 1024 sg m e) = false.
Proof.
  unfold binary_round. destruct (shl_align _ _ _) as [mz ez]. unfold binary_round_aux.
  pose proof (shr_fexp_nonneg (Z.pos mz) ez loc_Exact ltac:(lia)) as H1.
  destruct (shr_fexp 53 1024 (Z.pos mz) ez loc_Exact) as [mrs e']. simpl in H1.
  pose proof (shr_fexp_nonneg _ e' loc_Exact
    (round_nearest_even_nonneg _ (loc_of_shr_record mrs) H1)) as H2.
  destruct (shr_fexp _ _ (round_nearest_even _ _) e' _) as [mrs'' e'']. simpl in H2.
  destruct (shr_m mrs''); [done|by destruct (_ <=? _)%Z|lia].
Qed.

Lemma z_to_float_number z : is_nan (z_to_float z) = false.
Proof. destruct z; simpl; [done|apply binary_round_number..]. Qed.

Lemma surjective_pairing_Ok {S A} (p : res A * S) a : p.1 = Ok a → p = (Ok a, p.2).
Proof. destruct p. by intros [= ->]. Qed.

(** *** Triples *)
Section hoare_lemmas.
Context {S : Type}.
Implicit Types (P I : S → Prop) (E : exn → S → Prop).

Lemma hoare_ret {A} P (a : A) E : hoare P (mret a) (λ x s, x = a ∧ P s) E.
Proof. by intros s Hs. Qed.

Lemma hoare_bind {A B} P (m : M S A) (k : A → M S B) R Q E :
  hoare P m R E → (∀ a, hoare (R a) (k a) Q E) → hoare P (m ≫= k) Q E.
Proof.
  intros Hm Hk s Hs. unfold mbind, M_bind. specialize (Hm s Hs).
  destruct (m s) as [[a|e] s']; [by apply Hk|done].
Qed.

Lemma hoare_conseq {A} P P' (m : M S A) (Q Q' : A → S → Prop) E E' :
  hoare P' m Q' E' → (∀ s, P s → P' s) → (∀ a s, Q' a s → Q a s) →
  (∀ e s, E' e s → E e s) → hoare P m Q E.
Proof.
  intros Hm HP HQ HE s Hs. specialize (Hm s (HP s Hs)).
  destruct (m s) as [[a|e] s']; auto.
Qed.

Lemma keeps_ret {A} I (a : A) : keeps I (mret a).
Proof. by intros s. Qed.

Lemma keeps_raise {A} I e : keeps I (raise (A := A) e).
Proof. by intros s. Qed.

Lemma keeps_get I : keeps I get_state.
Proof. by intros s. Qed.

Lemma keeps_lift {A} I (r : res A) : keeps I (lift_res r).
Proof. by intros s. Qed.

Lemma keeps_modify I f : (∀ s, I s → I (f s)) → keeps I (modify_state f).
Proof. intros Hf s. apply Hf. Qed.

Lemma keeps_bind {A B} I (m : M S A) (k : A → M S B) :
  keeps I m → (∀ a, keeps I (k a)) → keeps I (m ≫= k).
Proof.
  intros Hm Hk s Hs. unfold mbind, M_bind. specialize (Hm s Hs).
  destruct (m s) as [[a|e] s']; [by apply Hk|done].
Qed.

Lemma keeps_catch {A} I (m : M S A) h :
  keeps I m → (∀ e, keeps I (h e)) → keeps I (catch m h).
Proof.
  intros Hm Hk s Hs. unfold catch. specialize (Hm s Hs).
  destruct (m s) as [[a|e] s']; [done|by apply Hk].
Qed.

Lemma keeps_for_each {A} I (l : list A) body :
  (∀ x, keeps I (body x)) → keeps I (for_each l body).
Proof.
  intros Hb. induction l as [|x l IH]; simpl; [apply keeps_ret|by apply keeps_bind].
Qed.

Lemma keeps_zoom {T A} I (get : S → T) (set : T → S → S) (m : M T A) :
  (∀ s t, I s → I (set t s)) → keeps I (zoom get set m).
Proof. intros Hs s HI. unfold zoom. destruct (m (get s)). by apply Hs. Qed.
End hoare_lemmas.

(** *** What a computation does to the state

    [within R m]: every run of [m] leads from a state to one that [R] relates to it, whether
    it returns or raises. With a preorder [R] this composes. *)
Definition within {S A} (R : S → S → Prop) (m : M S A) : Prop := ∀ s, R s (m s).2.

Section within_lemmas.
Context {S : Type} (R : S → S → Prop) `{!PreOrder R}.

Lemma within_ret {A} (a : A) : within R (mret a).
Proof. intros s. simpl. reflexivity. Qed.

Lemma within_raise {A} e : within R (raise (A := A) e).
Proof. intros s. simpl. reflexivity. Qed.

Lemma within_get : within R get_state.
Proof. intros s. simpl. reflexivity. Qed.

Lemma within_lift {A} (r : res A) : within R (lift_res r).
Proof. intros s. simpl. reflexivity. Qed.

Lemma within_modify f : (∀ s, R s (f s)) → within R (modify_state f).
Proof. intros Hf s. apply Hf. Qed.

Lemma within_bind {A B} (m : M S A) (k : A → M S B) :
  within R m → (∀ a, within R (k a)) → within R (m ≫= k).
Proof.
  intros Hm Hk s. unfold mbind, M_bind. specialize (Hm s).
  destruct (m s) as [[a|e] s']; [|exact Hm]. etrans; [exact Hm|apply Hk].
Qed.

Lemma within_catch {A} (m : M S A) h :
  within R m → (∀ e, within R (h e)) → within R (catch m h).
Proof.
  intros Hm Hk s. unfold catch. specialize (Hm s).
  destruct (m s) as [[a|e] s']; [exact Hm|]. etrans; [exact Hm|apply Hk].
Qed.

Lemma within_finally {A} (m : M S A) f : within R m → within R f → within R (finally m f).
Proof.
  intros Hm Hf s. unfold finally. specialize (Hm s).
  destruct (m s) as [r s1]. specialize (Hf s1). destruct (f s1) as [[]]; by etrans.
Qed.

Lemma within_for_each {A} (l : list A) body :
  (∀ x, within R (body x)) → within R (for_each l body).
Proof.
  intros Hb. induction l as [|x l IH]; simpl; [apply within_ret|by apply within_bind].
Qed.
End within_lemmas.

Lemma within_zoom {S T A} (R : S → S → Prop) (get : S → T) (set : T → S → S) (m : M T A) :
  (∀ s t, R s (set t s)) → within R (zoom get set m).
Proof. intros Hs s. unfold zoom. destruct (m (get s)). apply Hs. Qed.

(** The steps of a handler one after the other; what a call does is found in the database. *)
Create HintDb within.
#[export] Hint Resolve within_ret within_raise within_get within_lift : within.
Ltac within_steps :=
  repeat match goal with
  | |- within _ (_ ≫= _) => apply within_bind; [try typeclasses eauto| |intros ?]
  | |- within _ (catch _ _) => apply within_catch; [try typeclasses eauto| |intros ?]
  | |- within _ (finally _ _) => apply within_finally; [try typeclasses eauto| |]
  | |- within _ (for_each _ _) => apply within_for_each; [try typeclasses eauto|intros ?]
  | |- within _ (if ?b then _ else _) => destruct b
  | |- within _ (match ?x with _ => _ end) => destruct x
  | |- within _ (let '_ := ?x in _) => destruct x
  | |- within _ _ => solve [eauto with within typeclass_instances]
  end.

(** [I] as a preorder: a state of [I] is followed by one of [I]. *)
Definition preserving {S} (I : S → Prop) (s s' : S) : Prop := I s → I s'.
#[export] Instance preserving_preorder {S} (I : S → Prop) : PreOrder (preserving I).
Proof. split; unfold preserving; [by intros s|by intros s1 s2 s3 ? ? ?; auto]. Qed.

(** An invariant is kept by what stays within a relation that keeps it. *)
Lemma within_keeps {S A} (R : S → S → Prop) (I : S → Prop) (m : M S A) :
  within R m → (∀ s s', R s s' → I s → I s') → keeps I m.
Proof. intros Hm HI s Hs. by eapply HI. Qed.

Lemma enum_of_Some {A} (value : A → string) members s m :
  enum_of value members s = Some m → value m = s ∧ m ∈ members.
Proof.
  intros Hf%List.find_some. destruct Hf as [Hin He]. boolify. by rewrite list_elem_of_In.
Qed.

Lemma enum_of_value {A} (value : A → string) members m :
  (∀ a b, value a = value b → a = b) → m ∈ members → enum_of value members (value m) = Some m.
Proof.
  intros Hinj Hin. unfold enum_of. destruct (List.find _ members) as [a|] eqn:E.
  - apply List.find_some in E as [_ E]. boolify. f_equal. by apply Hinj.
  - apply list_elem_of_In in Hin. pose proof (List.find_none _ _ E _ Hin) as Hn.
    cbv beta in Hn. boolify. done.
Qed.

(** Inversion of runs that returned. *)
Lemma bind_Ok_inv {S A B} (m : M S A) (k : A → M S B) s b s' :
  (m ≫= k) s = (Ok b, s') → ∃ a s1, m s = (Ok a, s1) ∧ k a s1 = (Ok b, s').
Proof.
  unfold mbind, M_bind. destruct (m s) as [[a|e] s1]; [|done]. intros Hk. by exists a, s1.
Qed.

Lemma catch_Ok_inv {S A} (m : M S A) h s a s' :
  catch m h s = (Ok a, s') →
  m s = (Ok a, s') ∨ ∃ e s1, m s = (Raise e, s1) ∧ h e s1 = (Ok a, s').
Proof.
  unfold catch. destruct (m s) as [[x|e] s1] eqn:Hm; [by left|].
  intros Hh. right. by exists e, s1.
Qed.

(** Two computations are equal when they agree on every state. *)
#[export] Instance M_equiv {S A} : Equiv (M S A) := λ m1 m2, ∀ s, m1 s = m2 s.
#[export] Instance M_equivalence {S A} : Equivalence (≡@{M S A}).
Proof.
  split; [by intros m s|by intros m1 m2 H s|].
  intros m1 m2 m3 H1 H2 s. by rewrite (H1 s).
Qed.

#[export] Instance M_bind_proper {S A B} :
  Proper (pointwise_relation A (≡@{M S B}) ==> (≡@{M S A}) ==> (≡@{M S B})) (mbind (M := M S)).
Proof.
  intros k1 k2 Hk m1 m2 Hm s. unfold mbind, M_bind. rewrite (Hm s).
  destruct (m2 s) as [[a|e] s']; [apply Hk|done].
Qed.

#[export] Instance catch_proper {S A} :
  Proper ((≡@{M S A}) ==> pointwise_relation exn (≡@{M S A}) ==> (≡@{M S A})) catch.
Proof.
  intros m1 m2 Hm h1 h2 Hh s. unfold catch. rewrite (Hm s).
  destruct (m2 s) as [[a|e] s']; [done|apply Hh].
Qed.

#[export] Instance zoom_proper {S T A} get set :
  Proper ((≡@{M T A}) ==> (≡@{M S A})) (zoom get set).
Proof. intros m1 m2 Hm s. unfold zoom. by rewrite (Hm (get s)). Qed.

#[export] Hint Resolve keeps_ret keeps_raise keeps_get keeps_lift keeps_bind keeps_catch
  keeps_for_each : mesh.

#[export] Hint Resolve dict_get_set_eq dict_set_NoDup str_leb_refl : mesh.
#[export] Hint Rewrite @dict_get_set_eq : mesh.
