(* ===== verification/Security.v ===== *)
(** * Secret redaction

    [redact_secrets] of [security.py]. The three patterns only repeat single
    character classes, so a backtracking matcher for them is structural on the text.
    Text is ASCII. *)

From Stdlib Require Import Ascii.
From S2P Require Import Prelude.

(** ** A matcher for the [re] patterns used *)

Inductive regex :=
| REps
| RClass (p : ascii → bool)
| RRep (p : ascii → bool) (min : nat)
| ROpt (p : ascii → bool)
| RSeq (r1 r2 : regex)
| RAlt (r1 r2 : regex)
| RBound.

Definition in_range (lo hi : ascii) (c : ascii) : bool :=
  bool_decide (nat_of_ascii lo ≤ nat_of_ascii c ≤ nat_of_ascii hi).
Definition is_alnum (c : ascii) : bool :=
  in_range "a" "z" c || in_range "A" "Z" c || in_range "0" "9" c.
Definition is_word (c : ascii) : bool := is_alnum c || Ascii.eqb c "_".
Definition one_of (l : string) (c : ascii) : bool := str_contains_char c l.
Definition lower (c : ascii) : ascii :=
  if in_range "A" "Z" c then ascii_of_nat (nat_of_ascii c + 32) else c.
(** A literal, and a literal under [(?i)]. *)
Definition lit (l : string) : regex :=
  foldr (λ c r, RSeq (RClass (Ascii.eqb c)) r) REps (String.list_ascii_of_string l).
Definition lit_i (l : string) : regex :=
  foldr (λ c r, RSeq (RClass (λ x, Ascii.eqb (lower x) c)) r) REps
    (String.list_ascii_of_string l).

(** The matcher: [prev] is the character before the rest of the text, the result the
    character before and the text after the match. Repetition is greedy and gives back. *)
Abbreviation rest := (option ascii * list ascii)%type.

Fixpoint match_rep (p : ascii → bool) (min : nat) (prev : option ascii) (s : list ascii)
    (k : option ascii → list ascii → option rest) {struct s} : option rest :=
  match s with
  | c :: s' =>
      if p c then
        match match_rep p (Nat.pred min) (Some c) s' k with
        | Some r => Some r
        | None => if min == 0 then k prev s else None
        end
      else if min == 0 then k prev s else None
  | [] => if min == 0 then k prev s else None
  end.

Definition word_at (o : option ascii) : bool :=
  match o with Some c => is_word c | None => false end.

Fixpoint match_at (r : regex) (prev : option ascii) (s : list ascii)
    (k : option ascii → list ascii → option rest) {struct r} : option rest :=
  match r with
  | REps => k prev s
  | RClass p => match s with
                | c :: s' => if p c then k (Some c) s' else None
                | [] => None
                end
  | RRep p min => match_rep p min prev s k
  | ROpt p => match s with
              | c :: s' => if p c then match k (Some c) s' with
                                       | Some x => Some x
                                       | None => k prev s
                                       end
                           else k prev s
              | [] => k prev s
              end
  | RSeq r1 r2 => match_at r1 prev s (λ prev' s', match_at r2 prev' s' k)
  | RAlt r1 r2 => match match_at r1 prev s k with
                  | Some x => Some x
                  | None => match_at r2 prev s k
                  end
  | RBound => if Bool.eqb (word_at prev) (word_at (head s)) then None else k prev s
  end.

(** [pattern.sub(repl, text)] for a pattern that matches no empty text: leftmost
    matches, without overlap; [skip] counts the characters a match has taken. *)
Fixpoint sub_go (r : regex) (repl : list ascii) (skip : nat) (prev : option ascii)
    (s : list ascii) {struct s} : list ascii :=
  match s with
  | [] => []
  | c :: s' =>
      match skip with
      | S n => sub_go r repl n (Some c) s'
      | O => match match_at r prev s (λ p q, Some (p, q)) with
             | Some (_, q) =>
                 repl ++ sub_go r repl (length s - length q - 1) (Some c) s'
             | None => c :: sub_go r repl 0 (Some c) s'
             end
      end
  end.

Definition re_sub (r : regex) (repl text : string) : string :=
  String.string_of_list_ascii
    (sub_go r (String.list_ascii_of_string repl) 0 None (String.list_ascii_of_string text)).

(** ** The patterns *)

(* @src security.py:29-33 SECRET_PATTERNS *)
Definition SECRET_PATTERNS : list regex :=
  [ RSeq RBound
      (RSeq (RAlt (lit "sk") (RAlt (lit "ghp") (RAlt (lit "github_pat")
              (RSeq (lit "xox") (RClass (one_of "baprs"))))))
        (RSeq (RClass (Ascii.eqb "-"))
          (RSeq (RRep (λ c, is_alnum c || one_of "_-" c) 8) RBound)));
    RSeq RBound
      (RSeq (lit_i "bearer")
        (RSeq (RRep ascii_space 1) (RRep (λ c, is_alnum c || one_of "._~+/=-" c) 8)));
    RSeq (RAlt (RSeq (lit_i "api") (RSeq (ROpt (one_of "_-")) (lit_i "key")))
           (RAlt (lit_i "token") (RAlt (lit_i "password") (lit_i "secret"))))
      (RSeq (RRep ascii_space 0)
        (RSeq (RClass (one_of "=:"))
          (RSeq (RRep ascii_space 0) (RRep (λ c, negb (ascii_space c)) 1)))) ].

(* @src security.py:54-58 redact_secrets *)
Definition redact_secrets (value : string) : string :=
  fold_left (λ redacted pattern, re_sub pattern "[REDACTED]" redacted) SECRET_PATTERNS value.

Example redact_token : redact_secrets "api_key = abc123 ok" = "[REDACTED] ok".
Proof. vm_compute. reflexivity. Qed.
Example redact_bearer : redact_secrets "x Bearer abcdefgh1 y" = "x [REDACTED] y".
Proof. vm_compute. reflexivity. Qed.
Example redact_boundary : redact_secrets "sk-abcdefgh- task-abcdefghi" = "[REDACTED]- task-abcdefghi".
Proof. vm_compute. reflexivity. Qed.

(** ** The environment of a child process *)

(* @src security.py:9-21 SAFE_ENVIRONMENT_KEYS *)
Definition SAFE_ENVIRONMENT_KEYS : list string :=
  ["HOME"; "LANG"; "LC_ALL"; "NO_COLOR"; "PATH"; "SYSTEMROOT"; "TEMP"; "TERM"; "TMP"; "TMPDIR";
   "USERPROFILE"].

(** The words of the first pattern and the prefixes of the second, without case. *)
(* @src security.py:24-27 SECRET_ENVIRONMENT_KEY_DENYLIST *)
Definition SECRET_WORDS : list regex :=
  [ RSeq (lit_i "api") (RSeq (ROpt (one_of "_-")) (lit_i "key"));
    lit_i "token"; lit_i "secret"; lit_i "password"; lit_i "credential";
    RSeq (lit_i "private") (RSeq (ROpt (one_of "_-")) (lit_i "key")) ].
(* @src security.py:24-27 SECRET_ENVIRONMENT_KEY_DENYLIST *)
Definition SECRET_PREFIXES : list string :=
  ["aws_"; "azure_"; "google_"; "openai_"; "anthropic_"; "xai_"; "fireworks_"; "github_"].

(** [(_|$)]: the word ends the key, also before a final line feed, or an underscore follows. *)
Definition word_end (s : list ascii) : bool :=
  match s with
  | [] => true
  | c :: s' => Ascii.eqb c "_" || (Ascii.eqb c (ascii_of_nat 10) && match s' with [] => true | _ => false end)
  end.
(** A secret word between [(^|_)] and [(_|$)] somewhere in the rest of a key. *)
Fixpoint secret_word_in (prev : option ascii) (s : list ascii) : bool :=
  (match prev with None => true | Some c => Ascii.eqb c "_" end &&
   existsb (λ w, match match_at w prev s (λ p q, if word_end q then Some (p, q) else None) with
                 | Some _ => true | None => false end) SECRET_WORDS) ||
  match s with [] => false | c :: s' => secret_word_in (Some c) s' end.

(* @src security.py:36-37 _is_denied_secret_key *)
Definition _is_denied_secret_key (key : string) : bool :=
  secret_word_in None (String.list_ascii_of_string key) ||
  existsb (λ p, startswith p (Prelude.lower key)) SECRET_PREFIXES.

(** [environ] is [os.environ], read when the source is empty. *)
(* @src security.py:40-51 filter_environment *)
Definition filter_environment (environ source : list (string * string))
    (extra_keys : list string) : list (string * string) :=
  List.filter (λ '(key, _),
    ((key in? SAFE_ENVIRONMENT_KEYS ++ extra_keys) || startswith "JOYMESH_" key) &&
    negb (_is_denied_secret_key key))
    (match source with [] => environ | _ => source end).

Example denied_keys : _is_denied_secret_key <$>
  ["JOYMESH_API_KEY"; "my-token"; "MY_Token_2"; "OPENAI_BASE"; "TOKENS"; "PATH"] =
  [true; false; true; true; false; false].
Proof. vm_compute. reflexivity. Qed.

(** *** No secret is inherited *)

(** The character before what follows [p]. *)
Definition after (prev : option ascii) (p : list ascii) : option ascii :=
  fold_left (λ _ c, Some c) p prev.

Lemma match_lit_i w t prev s k :
  lower <$> t = String.list_ascii_of_string w →
  match_at (lit_i w) prev (t ++ s) k = k (after prev t) s.
Proof.
  revert t prev. unfold lit_i. induction w as [|c w IH]; intros [|x t] prev Ht; try discriminate Ht.
  - reflexivity.
  - injection Ht as Hc Hl. simpl. rewrite Hc, Ascii.eqb_refl. exact (IH t (Some x) Hl).
Qed.

Lemma secret_word_later p s prev :
  secret_word_in (after prev p) s = true → secret_word_in prev (p ++ s) = true.
Proof.
  revert prev. induction p as [|c p IH]; intros prev Hs; [exact Hs|].
  simpl. apply orb_true_iff. right. by apply IH.
Qed.

Lemma secret_word_here prev s :
  match prev with None => true | Some c => Ascii.eqb c "_" end = true →
  existsb (λ w, match match_at w prev s (λ p q, if word_end q then Some (p, q) else None) with
                | Some _ => true | None => false end) SECRET_WORDS = true →
  secret_word_in prev s = true.
Proof. intros Hp Hw. destruct s; apply orb_true_iff; left; by apply andb_true_iff. Qed.

(** The prefix of a key ends before a word, the suffix begins after one. *)
Definition ends_part (p : list ascii) : Prop := p = [] ∨ last p = Some "_"%char.
Definition starts_part (s : list ascii) : Prop := s = [] ∨ head s = Some "_"%char.

Lemma after_ends p : ends_part p →
  match after None p with None => true | Some c => Ascii.eqb c "_" end = true.
Proof.
  intros [->|Hl]; [done|]. destruct p as [|x p] using rev_ind; [done|].
  rewrite last_snoc in Hl. injection Hl as ->. unfold after. by rewrite fold_left_app.
Qed.

Lemma secret_word_found w p t s :
  lit_i w ∈ SECRET_WORDS → lower <$> t = String.list_ascii_of_string w →
  ends_part p → starts_part s → secret_word_in None (p ++ t ++ s) = true.
Proof.
  intros Hw Ht Hp Hs. apply secret_word_later, secret_word_here; [by apply after_ends|].
  apply existsb_exists. exists (lit_i w). split; [by apply list_elem_of_In|].
  rewrite match_lit_i by done. destruct Hs as [->|Hs]; [done|].
  destruct s as [|c s]; [done|]. by injection Hs as ->.
Qed.

(** A variable named after a secret, by a word of the list between underscores, in any
    spelling of its case, is never inherited, whatever keys the caller asks for. *)
Theorem secrets_are_not_inherited environ source extra_keys p t s w v :
  lit_i w ∈ SECRET_WORDS → lower <$> t = String.list_ascii_of_string w →
  ends_part p → starts_part s →
  (String.string_of_list_ascii (p ++ t ++ s), v) ∉ filter_environment environ source extra_keys.
Proof.
  intros Hw Ht Hp Hs [_ Hin]%elem_of_filter_bool. apply andb_true_iff in Hin as [_ Hd].
  unfold _is_denied_secret_key in Hd. rewrite String.list_ascii_of_string_of_list_ascii in Hd.
  rewrite (secret_word_found w) in Hd by done. done.
Qed.

Lemma secrets_are_not_inherited_witness :
  ("MY_Password_1", "x") ∉ filter_environment [("MY_Password_1", "x"); ("PATH", "/bin")] []
    ["MY_Password_1"].
Proof.
  apply (secrets_are_not_inherited _ _ _ (String.list_ascii_of_string "MY_")
    (String.list_ascii_of_string "Password") (String.list_ascii_of_string "_1") "password").
  - right; right; right; left.
  - reflexivity.
  - right. reflexivity.
  - right. reflexivity.
Defined.
