(* ===== verification/Privacy.v ===== *)
(** * The privacy guard of outgoing facts

    [sanitize_provider_metadata] and [assert_privacy] of
    [runtime_snapshot/validators.py]: what a snapshot, an event or an envelope may not
    carry. Text is ASCII. *)

From Stdlib Require Import Ascii.
From S2P Require Import Prelude.

(* @src runtime_snapshot/validators.py:16-17 RuntimeSnapshotValidationError *)
Definition RuntimeSnapshotValidationError (m : string) : exn :=
  Exn "RuntimeSnapshotValidationError" "" m.

(* @src runtime_snapshot/validators.py:20-51 _FORBIDDEN_METADATA_KEYS *)
Definition _FORBIDDEN_METADATA_KEYS : list string :=
  ["api_key"; "apikey"; "token"; "access_token"; "refresh_token"; "cookie"; "cookies";
   "session"; "session_secret"; "password"; "secret"; "credential"; "credentials";
   "authorization"; "user_id"; "userid"; "user"; "email"; "subscription";
   "subscription_id"; "subscription_name"; "billing"; "prompt"; "conversation";
   "repository"; "workspace"; "terminal_output"; "source_code"; "checkpoint"].

Definition lowered (key : string) : string := replace_char "-"%char "_"%char (lower key).
Definition forbidden (key : string) : bool := lowered key in? _FORBIDDEN_METADATA_KEYS.

(** The keys [sanitize_provider_metadata] drops. *)
(* @src runtime_snapshot/validators.py:59-63 sanitize_provider_metadata *)
Definition dropped (key : string) : bool :=
  forbidden key ||
  existsb (λ part, str_in part (lowered key))
    ["token"; "secret"; "password"; "cookie"; "api_key"].

(** Nested mappings are cleaned, any other value is kept as it is. *)
(* @src runtime_snapshot/validators.py:54-68 sanitize_provider_metadata *)
Fixpoint sanitize_value (v : pyval) : pyval :=
  match v with
  | PDict d =>
      PDict ((fix go (d : dict) : dict :=
                match d with
                | [] => []
                | (k, x) :: d' => if dropped k then go d' else (k, sanitize_value x) :: go d'
                end) d)
  | _ => v
  end.
(* @src runtime_snapshot/validators.py:54-68 sanitize_provider_metadata *)
Fixpoint sanitize_provider_metadata (metadata : dict) : dict :=
  match metadata with
  | [] => []
  | (k, x) :: d' =>
      if dropped k then sanitize_provider_metadata d'
      else (k, sanitize_value x) :: sanitize_provider_metadata d'
  end.

Definition privacy_violation (key : string) : exn :=
  RuntimeSnapshotValidationError ("privacy violation: forbidden key " +:+ repr_str key).

(** The inner loop over one mapping; the stack's top is its head. *)
(* @src runtime_snapshot/validators.py:120-126 assert_privacy *)
Fixpoint scan_keys (items : dict) (stack : list pyval) : res (list pyval) :=
  match items with
  | [] => Ok stack
  | (k, v) :: items' =>
      if forbidden k then Raise (privacy_violation k) else scan_keys items' (v :: stack)
  end.

(* @src runtime_snapshot/validators.py:117-128 assert_privacy *)
Fixpoint assert_privacy_loop (fuel : nat) (stack : list pyval) : option (res unit) :=
  match stack with
  | [] => Some (Ok tt)
  | current :: stack =>
      match fuel with
      | O => None
      | S fuel =>
          match current with
          | PDict d => match scan_keys d stack with
                       | Raise e => Some (Raise e)
                       | Ok stack => assert_privacy_loop fuel stack
                       end
          | PList l => assert_privacy_loop fuel (rev l ++ stack)
          | _ => assert_privacy_loop fuel stack
          end
      end
  end.

(** Every value is popped once, so the size of the payload is enough fuel. *)
(* @src runtime_snapshot/validators.py:113-128 assert_privacy *)
Definition assert_privacy (payload : dict) : option (res unit) :=
  assert_privacy_loop (vsize (PDict payload)) [PDict payload].

(** ** Specification: the keys that occur in a value, at any depth *)

Inductive key_in (k : string) : pyval → Prop :=
| key_here d v : (k, v) ∈ d → key_in k (PDict d)
| key_in_dict d k' v : (k', v) ∈ d → key_in k v → key_in k (PDict d)
| key_in_list l v : v ∈ l → key_in k v → key_in k (PList l).

(** No list of the value holds anything but scalars. *)
Fixpoint flat_lists (v : pyval) : bool :=
  match v with
  | PDict d => forallb (λ '(_, x), flat_lists x) d
  | PList l => forallb (λ x, match x with PDict _ | PList _ => false | _ => true end) l
  | _ => true
  end.

(** ** Lemmas *)

Definition stack_size (l : list pyval) : nat := foldr (λ x n, vsize x + n) 0 l.

Lemma stack_size_app l1 l2 : stack_size (l1 ++ l2) = stack_size l1 + stack_size l2.
Proof. induction l1; simpl; lia. Qed.

Lemma stack_size_rev l : stack_size (rev l) = stack_size l.
Proof. induction l; simpl; [done|]. rewrite stack_size_app. simpl. lia. Qed.

Lemma vsize_dict d : vsize (PDict d) = S (stack_size d.*2).
Proof. simpl. f_equal. induction d as [|[k v] d IH]; simpl; [done|]. by rewrite IH. Qed.

Lemma vsize_list l : vsize (PList l) = S (stack_size l).
Proof. done. Qed.

Lemma elem_of_rev_list {A} (x : A) l : x ∈ rev l ↔ x ∈ l.
Proof. rewrite rev_alt. apply elem_of_reverse. Qed.

Lemma vsize_pos v : 0 < vsize v.
Proof. destruct v; simpl; lia. Qed.

Lemma scan_keys_spec d stack :
  (scan_keys d stack = Ok (rev d.*2 ++ stack) ∧ ∀ k v, (k, v) ∈ d → forbidden k = false) ∨
  ∃ k v, scan_keys d stack = Raise (privacy_violation k) ∧ (k, v) ∈ d ∧ forbidden k = true.
Proof.
  revert stack. induction d as [|[k v] d IH]; intros stack; simpl.
  { left. split; [done|]. intros k v []%not_elem_of_nil. }
  destruct (forbidden k) eqn:Hk; [right; exists k, v; split_and!; [done|left|done]|].
  destruct (IH (v :: stack)) as [[-> Hd]|(k' & v' & -> & Hin & Hf)].
  - left. split; [by rewrite <- (assoc_L (++))|].
    intros k' v' [[= -> ->]|Hin]%elem_of_cons; [done|by eapply Hd].
  - right. exists k', v'. split_and!; [done|by right|done].
Qed.

(** A run of the loop on a stack: nothing forbidden on it, or the offender's name. *)
Definition stack_verdict (stack : list pyval) (o : option (res unit)) : Prop :=
  (o = Some (Ok tt) ∧ ∀ k v, v ∈ stack → key_in k v → forbidden k = false) ∨
  ∃ k v, o = Some (Raise (privacy_violation k)) ∧ v ∈ stack ∧ key_in k v ∧ forbidden k = true.

(** What replaces a popped value: its members, unless one of its keys is forbidden. *)
Lemma stack_verdict_pop v vs stack o :
  (∀ k, key_in k v → forbidden k = true → ∃ x, x ∈ vs ∧ key_in k x) →
  (∀ x k, x ∈ vs → key_in k x → key_in k v) →
  stack_verdict (rev vs ++ stack) o → stack_verdict (v :: stack) o.
Proof.
  intros Hdown Hup [[-> Hs]|(k & x & -> & Hx & Hk & Hf)].
  - left. split; [done|]. intros k x [->|Hx]%elem_of_cons Hk.
    + destruct (forbidden k) eqn:Hf; [|done].
      destruct (Hdown k Hk Hf) as (x & Hx & Hkx). rewrite <- Hf.
      apply (Hs k x); [|done]. apply elem_of_app. left. by apply elem_of_rev_list.
    + apply (Hs k x); [|done]. apply elem_of_app. by right.
  - right. apply elem_of_app in Hx as [Hx|Hx].
    + exists k, v. split_and!; [done|left| |done]. apply (Hup x); [|done].
      by apply elem_of_rev_list.
    + exists k, x. split_and!; [done|by right|done..].
Qed.

Lemma assert_privacy_loop_spec fuel stack :
  stack_size stack ≤ fuel → stack_verdict stack (assert_privacy_loop fuel stack).
Proof.
  revert stack. induction fuel as [|fuel IH]; intros [|v stack]; simpl; intros Hsz.
  - left. split; [done|]. intros k v []%not_elem_of_nil.
  - pose proof (vsize_pos v). lia.
  - left. split; [done|]. intros k v []%not_elem_of_nil.
  - assert (∀ vs, vsize v = S (stack_size vs) →
      stack_verdict (rev vs ++ stack) (assert_privacy_loop fuel (rev vs ++ stack))) as Hgo.
    { intros vs Hv. apply IH. rewrite stack_size_app, stack_size_rev.
      unfold stack_size in *. lia. }
    destruct v as [| | | | |l|d].
    1-5: apply (stack_verdict_pop _ []); [by intros k Hk; inversion Hk|
      by intros x k []%not_elem_of_nil|by apply (Hgo [])].
    + apply (stack_verdict_pop _ l); [|by intros; eapply key_in_list|by apply Hgo].
      intros k Hk _. inversion Hk; subst. by eexists.
    + destruct (scan_keys_spec d stack) as [[-> Hd]|(k & x & -> & Hin & Hf)].
      * apply (stack_verdict_pop _ d.*2); [| |apply Hgo, vsize_dict].
        -- intros k Hk Hf. inversion Hk; subst; [by rewrite (Hd _ _ H0) in Hf|].
           eexists. split; [|done]. apply list_elem_of_fmap. by eexists (_, _).
        -- intros x k [[k' x'] [-> Hin]]%list_elem_of_fmap Hk. by eapply key_in_dict.
      * right. exists k, (PDict d). split_and!; [done|left|by eapply key_here|done].
Qed.

Lemma sanitize_value_dict d : sanitize_value (PDict d) = PDict (sanitize_provider_metadata d).
Proof. reflexivity. Qed.

Lemma elem_of_sanitize k v d :
  (k, v) ∈ sanitize_provider_metadata d ↔
  dropped k = false ∧ ∃ x, (k, x) ∈ d ∧ v = sanitize_value x.
Proof.
  induction d as [|[k' x'] d IH]; simpl; [set_solver|].
  destruct (dropped k') eqn:Hk'.
  - rewrite IH. split; intros (Hk & x & Hx & ->); (split; [done|]); exists x; split; try done.
    + by right.
    + apply elem_of_cons in Hx as [[= -> ->]|Hx]; [congruence|done].
  - rewrite elem_of_cons, IH. split.
    + intros [[= -> ->]|(Hk & x & Hx & ->)]; [|split; [done|]; exists x; split; [by right|done]].
      split; [done|]. exists x'. split; [left|done].
    + intros (Hk & x & [[= -> ->]|Hx]%elem_of_cons & ->); [by left|right; eauto].
Qed.

Lemma sanitize_keys v w k :
  key_in k w → w = sanitize_value v → flat_lists v = true → dropped k = false.
Proof.
  intros Hk. revert v. induction Hk as [d x Hx|d k' x Hx _ IH|l x Hx Hk _]; intros v Hw Hf;
    destruct v as [| | | | |l0|d0]; try done; rewrite ?sanitize_value_dict in Hw;
    injection Hw as ->.
  - by apply elem_of_sanitize in Hx as [? _].
  - apply elem_of_sanitize in Hx as (_ & y & Hy & ->). apply (IH y); [done|].
    simpl in Hf. rewrite forallb_forall in Hf. by apply (Hf (k', y)), list_elem_of_In.
  - simpl in Hf. rewrite forallb_forall in Hf.
    specialize (Hf x (proj1 (list_elem_of_In _ _) Hx)). by inversion Hk; subst.
Qed.

Lemma sanitize_get k d :
  dict_get k (sanitize_provider_metadata d) =
  if dropped k then None else sanitize_value <$> dict_get k d.
Proof.
  induction d as [|[k' x] d IH]; simpl; [by destruct (dropped k)|].
  destruct (dropped k') eqn:Hk'; simpl; case_bool_decide as Heq; try done; subst.
  - by rewrite IH, Hk'.
  - by rewrite Hk'.
Qed.

(** ** Properties *)

(** C21: The guard is exact and total: [assert_privacy] returns when no forbidden key
    occurs in the payload at any depth of mappings and lists, raises naming a forbidden
    key that does occur otherwise, and never runs out of fuel. *)
Theorem assert_privacy_exact payload :
  (assert_privacy payload = Some (Ok tt) ∧
     ∀ k, key_in k (PDict payload) → forbidden k = false) ∨
  (∃ k, assert_privacy payload = Some (Raise (privacy_violation k)) ∧
     key_in k (PDict payload) ∧ forbidden k = true).
Proof.
  destruct (assert_privacy_loop_spec (vsize (PDict payload)) [PDict payload])
    as [[Ho Hk]|(k & v & Ho & Hv & Hk & Hf)]; [simpl; lia|left|right].
  - split; [exact Ho|]. intros k. apply Hk. left.
  - apply list_elem_of_singleton in Hv as ->. by exists k.
Qed.

(** Cleaned provider metadata keeps the value of every key that is not secret, nested
    mappings cleaned in turn, and passes the guard, provided the lists in it hold scalars
    only. *)
Theorem sanitized_metadata_passes metadata :
  flat_lists (PDict metadata) = true →
  assert_privacy (sanitize_provider_metadata metadata) = Some (Ok tt) ∧
  ∀ k, dict_get k (sanitize_provider_metadata metadata) =
    if dropped k then None else sanitize_value <$> dict_get k metadata.
Proof.
  intros Hf. split; [|by intros; apply sanitize_get].
  destruct (assert_privacy_loop_spec _ [PDict (sanitize_provider_metadata metadata)] (le_n _))
    as [[Ho _]|(k & v & _ & Hv & Hk & Hfk)].
  - by rewrite <- Ho; unfold assert_privacy; simpl; rewrite Nat.add_0_r.
  - apply list_elem_of_singleton in Hv as ->.
    assert (dropped k = false) as Hd by by eapply (sanitize_keys (PDict metadata)).
    unfold dropped in Hd. by rewrite Hfk in Hd.
Qed.

Definition sample_metadata : dict :=
  [("plan", PStr "pro"); ("Access-Token", PStr "t");
   ("limits", PDict [("daily", PInt 5); ("session", PStr "s")]); ("tags", PList [PInt 1])].

Lemma sanitized_metadata_passes_witness :
  sanitize_provider_metadata sample_metadata =
    [("plan", PStr "pro"); ("limits", PDict [("daily", PInt 5)]); ("tags", PList [PInt 1])] ∧
  assert_privacy (sanitize_provider_metadata sample_metadata) = Some (Ok tt).
Proof.
  split; [vm_compute; reflexivity|].
  refine (proj1 (sanitized_metadata_passes sample_metadata _)). reflexivity.
Defined.

(** A mapping inside a list is not cleaned: its secrets stay, and the guard refuses the
    cleaned metadata. *)
Example secret_in_list_survives :
  let d := [("entries", PList [PDict [("api_key", PStr "k")]])] in
  sanitize_provider_metadata d = d ∧
  assert_privacy d = Some (Raise (privacy_violation "api_key")).
Proof. vm_compute. split; reflexivity. Qed.
