(* ===== verification/Leases.v ===== *)
(** * Task leases with fencing tokens

    [runtime_v1/leases.py] and the lease records of [runtime_v1/models.py]. The
    service keeps the last lease and the last fencing token of every task. Each
    [utc_now()] reading and each [uuid4()] is an argument of the operation that
    makes it. *)

From S2P Require Import Prelude.

(** ** Data *)

(* @src runtime_v1/models.py:56-60 LeaseStatus *)
Inductive LeaseStatus := ACTIVE | EXPIRED | RELEASED | RECONCILING.

#[export] Instance LeaseStatus_eq_dec : EqDecision LeaseStatus.
Proof. solve_decision. Defined.

(* @src runtime_v1/models.py:56-60 LeaseStatus.value *)
Definition LeaseStatus_value (s : LeaseStatus) : string :=
  match s with
  | ACTIVE => "active" | EXPIRED => "expired"
  | RELEASED => "released" | RECONCILING => "reconciling"
  end.

(* @src runtime_v1/models.py:163-174 TaskLease *)
Record TaskLease := {
  lease_id : string;
  lease_task_id : string;
  lease_node_id : string;
  lease_connector_id : string;
  lease_attempt_id : string;
  fencing_token : Z;
  acquired_at : Z;
  expires_at : Z;
  heartbeat_at : Z;
  lease_status : LeaseStatus
}.

(* @src runtime_v1/leases.py:12-18 LeaseService *)
Record LeaseService := {
  ttl_seconds : Z;
  active_map : gmap string TaskLease;
  tokens : gmap string Z
}.

(** Times are microseconds; [timedelta(seconds=n)]. *)
Definition seconds (n : Z) : Z := (n * 1000000)%Z.

(* @src runtime_v1/leases.py:15-18 LeaseService.__init__ *)
Definition LeaseService_init (ttl : Z) : LeaseService :=
  {| ttl_seconds := ttl; active_map := ∅; tokens := ∅ |}.

Definition set_active (task_id : string) (l : TaskLease) (s : LeaseService) : LeaseService :=
  {| ttl_seconds := ttl_seconds s; active_map := <[task_id := l]> (active_map s);
     tokens := tokens s |}.

Definition set_token (task_id : string) (t : Z) (s : LeaseService) : LeaseService :=
  {| ttl_seconds := ttl_seconds s; active_map := active_map s;
     tokens := <[task_id := t]> (tokens s) |}.

Definition with_status (st : LeaseStatus) (l : TaskLease) : TaskLease :=
  {| lease_id := lease_id l; lease_task_id := lease_task_id l;
     lease_node_id := lease_node_id l; lease_connector_id := lease_connector_id l;
     lease_attempt_id := lease_attempt_id l; fencing_token := fencing_token l;
     acquired_at := acquired_at l; expires_at := expires_at l;
     heartbeat_at := heartbeat_at l; lease_status := st |}.

(** ** Operations *)

(* @src runtime_v1/leases.py:20-39 LeaseService.active_lease *)
Definition active_lease (now : Z) (task_id : string) : M LeaseService (option TaskLease) :=
  s ← get_state;
  match active_map s !! task_id with
  | None => mret None
  | Some lease =>
      if (expires_at lease <=? now)%Z then
        let expired := with_status EXPIRED lease in
        modify_state (set_active task_id expired);;
        mret (Some expired)
      else mret (Some lease)
  end.

(** [now_arg] is the optional [now] parameter, [t1] and [t2] the clock readings,
    [uid] the fresh identifier. *)
(* @src runtime_v1/leases.py:41-69 LeaseService.acquire *)
Definition acquire (t1 t2 : Z) (uid : string)
    (task_id node_id connector_id attempt_id : string) (now_arg : option Z) :
    M LeaseService TaskLease :=
  current ← active_lease t1 task_id;
  if match current with
     | Some c => lease_status c == ACTIVE
     | None => false
     end
  then raise (PermissionError "task already has an active lease")
  else
    let now := default t2 now_arg in
    s ← get_state;
    let token := (default 0 (tokens s !! task_id) + 1)%Z in
    modify_state (set_token task_id token);;
    let lease :=
      {| lease_id := uid; lease_task_id := task_id; lease_node_id := node_id;
         lease_connector_id := connector_id; lease_attempt_id := attempt_id;
         fencing_token := token; acquired_at := now;
         expires_at := (now + seconds (ttl_seconds s))%Z; heartbeat_at := now;
         lease_status := ACTIVE |} in
    modify_state (set_active task_id lease);;
    mret lease.

(* @src runtime_v1/leases.py:71-91 LeaseService.heartbeat *)
Definition heartbeat (t1 t2 : Z) (task_id : string) (tok : Z) : M LeaseService TaskLease :=
  lease ← active_lease t1 task_id;
  match lease with
  | None => raise (PermissionError "no active lease")
  | Some lease =>
      if lease_status lease != ACTIVE then raise (PermissionError "no active lease")
      else if tok != fencing_token lease then raise (PermissionError "stale fencing token")
      else
        s ← get_state;
        let renewed :=
          {| lease_id := lease_id lease; lease_task_id := lease_task_id lease;
             lease_node_id := lease_node_id lease;
             lease_connector_id := lease_connector_id lease;
             lease_attempt_id := lease_attempt_id lease;
             fencing_token := fencing_token lease; acquired_at := acquired_at lease;
             expires_at := (t2 + seconds (ttl_seconds s))%Z; heartbeat_at := t2;
             lease_status := ACTIVE |} in
        modify_state (set_active task_id renewed);;
        mret renewed
  end.

(* @src runtime_v1/leases.py:93-112 LeaseService.release *)
Definition release (t1 : Z) (task_id : string) (tok : Z) : M LeaseService TaskLease :=
  lease ← active_lease t1 task_id;
  match lease with
  | None => raise (PermissionError "no lease to release")
  | Some lease =>
      if tok != fencing_token lease then raise (PermissionError "stale fencing token")
      else
        let released := with_status RELEASED lease in
        modify_state (set_active task_id released);;
        mret released
  end.

(* @src runtime_v1/leases.py:114-133 LeaseService.validate_event *)
Definition validate_event (t1 : Z) (task_id lid : string) (tok : Z) (aid : string) :
    M LeaseService TaskLease :=
  lease ← active_lease t1 task_id;
  match lease with
  | None => raise (PermissionError "no lease for task")
  | Some lease =>
      if lease_id lease != lid then raise (PermissionError "lease_id mismatch")
      else if lease_attempt_id lease != aid then raise (PermissionError "attempt_id mismatch")
      else if tok != fencing_token lease then raise (PermissionError "stale fencing token")
      else if lease_status lease != ACTIVE then
        raise (PermissionError ("lease is " +:+ LeaseStatus_value (lease_status lease)))
      else mret lease
  end.

(** ** Executions of the service

    A step is one call with any arguments and any clock readings; it carries the
    lease the call granted, if it granted one. *)

Inductive call :=
| CActive (now : Z) (task : string)
| CAcquire (t1 t2 : Z) (uid task node conn att : string) (now : option Z)
| CHeartbeat (t1 t2 : Z) (task : string) (tok : Z)
| CRelease (t1 : Z) (task : string) (tok : Z)
| CValidate (t1 : Z) (task lid : string) (tok : Z) (att : string).

Definition exec (c : call) (s : LeaseService) : option TaskLease * LeaseService :=
  match c with
  | CActive now task => (None, (active_lease now task s).2)
  | CAcquire t1 t2 uid task node conn att now =>
      match acquire t1 t2 uid task node conn att now s with
      | (Ok l, s') => (Some l, s')
      | (Raise _, s') => (None, s')
      end
  | CHeartbeat t1 t2 task tok => (None, (heartbeat t1 t2 task tok s).2)
  | CRelease t1 task tok => (None, (release t1 task tok s).2)
  | CValidate t1 task lid tok att => (None, (validate_event t1 task lid tok att s).2)
  end.

(** [run s log s']: calls lead from [s] to [s'], granting the leases [log], oldest
    first. *)
Inductive run (s : LeaseService) : list TaskLease → LeaseService → Prop :=
| run_nil : run s [] s
| run_quiet log s1 c s2 : run s log s1 → exec c s1 = (None, s2) → run s log s2
| run_grant log s1 c l s2 :
    run s log s1 → exec c s1 = (Some l, s2) → run s (log ++ [l]) s2.

(** The fencing tokens granted for one task, oldest first. *)
Definition granted (task : string) (log : list TaskLease) : list Z :=
  fencing_token <$> filter (λ l, lease_task_id l = task) log.

(** Every stored lease sits under its own task and holds the task's last token. *)
Definition lease_inv (s : LeaseService) : Prop :=
  ∀ task l, active_map s !! task = Some l →
    lease_task_id l = task ∧ tokens s !! task = Some (fencing_token l).

(** No lease of [task] is current and unexpired at the clock reading [now]. *)
Definition free_at (now : Z) (task : string) (s : LeaseService) : Prop :=
  ∀ l, active_map s !! task = Some l → lease_status l = ACTIVE → (expires_at l ≤ now)%Z.

(** ** Lemmas *)

(** What [active_lease] does to the state: it may only mark the task's lease
    expired. *)
Lemma active_lease_spec now task s :
  ∃ o s', active_lease now task s = (Ok o, s') ∧
    tokens s' = tokens s ∧ ttl_seconds s' = ttl_seconds s ∧
    active_map s' !! task = o ∧
    (∀ t, t ≠ task → active_map s' !! t = active_map s !! t) ∧
    match active_map s !! task with
    | None => o = None
    | Some l => o = Some (if (expires_at l <=? now)%Z then with_status EXPIRED l else l)
    end.
Proof.
  unfold active_lease, mbind, M_bind, get_state, modify_state; simpl.
  destruct (active_map s !! task) as [l|] eqn:E; simpl; [|by eexists _, _].
  destruct (expires_at l <=? now)%Z eqn:He; simpl; eexists _, _; split_and!; try done; simpl.
  - by simplify_map_eq.
  - intros t Ht. by simplify_map_eq.
Qed.

(** Reduce the monadic plumbing after the call to [active_lease]. *)
Ltac run_active now task s :=
  let o := fresh "o" in let s' := fresh "s1" in
  destruct (active_lease_spec now task s) as (o & s' & ? & ? & ? & ? & ? & ?);
  repeat match goal with
  | H : active_lease now task s = _ |- _ => rewrite H in *; clear H
  end; simpl in *.

Ltac unfold_ops :=
  unfold acquire, heartbeat, release, validate_event, mbind, M_bind, mret, M_ret,
    raise, get_state, modify_state in *.

Lemma inv_active now task s o s' :
  lease_inv s → active_lease now task s = (Ok o, s') → lease_inv s'.
Proof.
  intros Hi Ha. destruct (active_lease_spec now task s)
    as (o2 & s2 & E & Ht & _ & Ho & Hne & Hm). rewrite E in Ha. simplify_eq.
  intros t l Hl. destruct (decide (t = task)) as [->|Hn].
  - destruct (active_map s !! task) as [l0|] eqn:E0; [|congruence].
    destruct (Hi _ _ E0). rewrite Ht. rewrite Hl in Hm.
    destruct (expires_at l0 <=? now)%Z; simplify_eq; done.
  - rewrite Hne in Hl by done. rewrite Ht. by apply Hi.
Qed.

Lemma inv_set_active task l s :
  lease_inv s → lease_task_id l = task → tokens s !! task = Some (fencing_token l) →
  lease_inv (set_active task l s).
Proof.
  intros Hi Ht Hk t l' Hl. simpl in *.
  destruct (decide (t = task)) as [->|Hn]; simplify_map_eq; [done|by apply Hi].
Qed.

(** What one call does to the invariant and to the token counters. *)
Definition token_effect (o : option TaskLease) (s s' : LeaseService) : Prop :=
  match o with
  | None => tokens s' = tokens s
  | Some l =>
      tokens s' = <[lease_task_id l := fencing_token l]> (tokens s) ∧
      fencing_token l = (default 0 (tokens s !! lease_task_id l) + 1)%Z
  end.

Lemma acquire_effect t1 t2 uid task node conn att now s :
  lease_inv s →
  ∃ o s', exec (CAcquire t1 t2 uid task node conn att now) s = (o, s') ∧
    lease_inv s' ∧ token_effect o s s'.
Proof.
  intros Hi. simpl. unfold acquire, mbind, M_bind.
  destruct (active_lease_spec t1 task s) as (o & s1 & E & Ht & _ & _ & _ & _).
  pose proof (inv_active _ _ _ _ _ Hi E) as Hi1. rewrite E.
  destruct (match o with Some c => _ | None => _ end); simpl.
  { by eexists None, s1. }
  eexists (Some _), _. split_and!; [done| |simpl; by rewrite Ht].
  intros t l Hl. simpl in *. destruct (decide (t = task)) as [->|Hn]; simplify_map_eq.
  - done.
  - by apply Hi1.
Qed.

Lemma quiet_effect c s :
  lease_inv s → (∀ t1 t2 uid task node conn att now, c ≠ CAcquire t1 t2 uid task node conn att now) →
  ∃ s', exec c s = (None, s') ∧ lease_inv s' ∧ tokens s' = tokens s.
Proof.
  intros Hi Hc. destruct c as [t1 task| |t1 t2 task tok|t1 task tok|t1 task lid tok aid];
    [|by edestruct Hc| | |]; simpl; unfold_ops;
    destruct (active_lease_spec t1 task s) as (o & s1 & E & Ht & _ & Ho & _ & _);
    pose proof (inv_active _ _ _ _ _ Hi E) as Hi1; rewrite E; simpl;
    try (by eexists); destruct o as [l|]; try (by eexists);
    destruct (Hi1 _ _ Ho) as [Hl Hk]; goal_guards; eexists; split_and!; try done;
    by apply inv_set_active.
Qed.

Lemma exec_effect c s o s' :
  lease_inv s → exec c s = (o, s') → lease_inv s' ∧ token_effect o s s'.
Proof.
  intros Hi He. destruct c as [| | | |] eqn:Ec.
  2: { edestruct acquire_effect as (o' & s2 & E & ? & ?); [exact Hi|].
       rewrite E in He. by simplify_eq. }
  all: edestruct (quiet_effect c s) as (s2 & E & ? & ?); [done|by subst|];
    subst c; rewrite E in He; by simplify_eq.
Qed.

Lemma granted_snoc task log l :
  granted task (log ++ [l]) =
  if decide (lease_task_id l = task) then granted task log ++ [fencing_token l]
  else granted task log.
Proof.
  unfold granted. rewrite filter_app. cbn [filter list_filter].
  destruct (decide _); rewrite fmap_app; simpl; by rewrite ?app_nil_r.
Qed.

(** The counters record exactly the grants of the log. *)
Lemma run_granted ttl log s :
  run (LeaseService_init ttl) log s →
  lease_inv s ∧
  ∀ task, granted task log = seqZ 1 (default 0%Z (tokens s !! task)) ∧
    (0 ≤ default 0 (tokens s !! task))%Z.
Proof.
  induction 1 as [|log s1 c s2 Hr [Hi IH] He|log s1 c l s2 Hr [Hi IH] He].
  - split; [by intros ??|]. intros task. by simpl.
  - apply exec_effect in He as [? Ht]; [|done]. split; [done|]. simpl in Ht. by rewrite Ht.
  - apply exec_effect in He as [? [Ht Hf]]; [|done]. split; [done|]. intros task.
    rewrite granted_snoc, Ht. destruct (IH task) as [Hg Hp].
    destruct (decide _) as [<-|Hn]; simplify_map_eq; [|done].
    rewrite Hf. split; [|lia]. rewrite Hg, seqZ_app by lia. f_equal.
    rewrite (Z.add_comm 1). unfold seqZ; simpl. by rewrite Z.add_0_l.
Qed.

(** The stored lease of [task] is held under [tok] at the clock reading [now]. *)
Definition held (now : Z) (task : string) (tok : Z) (s : LeaseService) : Prop :=
  ∃ l, active_map s !! task = Some l ∧ lease_status l = ACTIVE ∧
    (now < expires_at l)%Z ∧ fencing_token l = tok.

Lemma active_lease_held now task s o s' :
  active_lease now task s = (Ok o, s') →
  (∀ tok, held now task tok s ↔
     ∃ l, o = Some l ∧ lease_status l = ACTIVE ∧ fencing_token l = tok) ∧
  (free_at now task s ↔ ∀ l, o = Some l → lease_status l ≠ ACTIVE).
Proof.
  intros E. destruct (active_lease_spec now task s) as (o2 & s2 & E2 & _ & _ & _ & _ & Hm).
  rewrite E2 in E. simplify_eq. unfold held, free_at.
  destruct (active_map s !! task) as [l|] eqn:El.
  2: { subst o. naive_solver. }
  subst o. destruct (Z.leb_spec (expires_at l) now) as [He|He].
  - split; [intros tok; split|].
    + intros (l' & ? & ? & ? & ?). simplify_eq. lia.
    + intros (l' & Hl & Hs & ?). by simplify_eq.
    + split; [intros _ l' Hl; by simplify_eq|]. intros _ l' ? ?. by simplify_eq.
  - split; [intros tok; split|].
    + intros (l' & ? & ? & ? & ?). simplify_eq. eauto.
    + intros (l' & Hl & Hs & ?). simplify_eq. eauto.
    + split; [intros Hf l' Hl Ha; simplify_eq; specialize (Hf _ eq_refl Ha); lia|].
      intros Hf l' ? ?. simplify_eq. by destruct (Hf l').
Qed.

Lemma stale_ops_raise s task tok lst :
  lease_inv s → tokens s !! task = Some lst → tok ≠ lst →
  ∀ t1 t2 lid att,
    ¬ is_ok (heartbeat t1 t2 task tok s).1 ∧ ¬ is_ok (release t1 task tok s).1 ∧
    ¬ is_ok (validate_event t1 task lid tok att s).1.
Proof.
  intros Hi Hl Hne t1 t2 lid att. unfold_ops.
  destruct (active_lease_spec t1 task s) as (o & s1 & E & Ht & _ & Ho & _ & _).
  pose proof (inv_active _ _ _ _ _ Hi E) as Hi1. rewrite E.
  destruct o as [l|]; [|simpl; tauto]. destruct (Hi1 _ _ Ho) as [_ Hk].
  rewrite Ht, Hl in Hk. simplify_eq.
  repeat case_bool_decide; simpl; tauto.
Qed.

(** ** Properties *)

(** C20: over any sequence of calls with any arguments and any clock readings, the
    fencing tokens the service grants for one task are exactly 1, 2, 3, ... in
    order: none is skipped, repeated or lowered. *)
Theorem fencing_tokens_consecutive ttl log s task :
  run (LeaseService_init ttl) log s →
  granted task log = seqZ 1 (Z.of_nat (length (granted task log))).
Proof.
  intros Hr. destruct (run_granted _ _ _ Hr) as [_ Hg]. destruct (Hg task) as [-> Hp].
  rewrite length_seqZ, Z2Nat.id; done.
Qed.

(** once a task has been granted a later lease, an earlier holder's fencing
    token is refused by heartbeat, release and event validation, whatever the lease
    and attempt identifiers it presents and whatever the clock shows. *)
Theorem superseded_token_refused ttl log1 l log2 l2 s :
  run (LeaseService_init ttl) (log1 ++ l :: log2) s →
  l2 ∈ log2 → lease_task_id l2 = lease_task_id l →
  ∀ t1 t2 lid att,
    ¬ is_ok (heartbeat t1 t2 (lease_task_id l) (fencing_token l) s).1 ∧
    ¬ is_ok (release t1 (lease_task_id l) (fencing_token l) s).1 ∧
    ¬ is_ok (validate_event t1 (lease_task_id l) lid (fencing_token l) att s).1.
Proof.
  intros Hr Hin Ht. destruct (run_granted _ _ _ Hr) as [Hi Hg].
  set (task := lease_task_id l) in *. destruct (Hg task) as [Hseq Hp].
  assert (granted task (log1 ++ l :: log2) =
          granted task log1 ++ fencing_token l :: granted task log2) as Hsplit.
  { unfold granted. rewrite filter_app, filter_cons_True, fmap_app by done. done. }
  rewrite Hsplit in Hseq. clear Hsplit.
  assert (fencing_token l2 ∈ granted task log2) as Hin2.
  { apply list_elem_of_fmap. exists l2. split; [done|]. by apply list_elem_of_filter. }
  pose proof (NoDup_seqZ 1 (default 0%Z (tokens s !! task))) as Hnd. rewrite <-Hseq in Hnd.
  destruct (tokens s !! task) as [lst|] eqn:El; simpl in Hseq.
  2: { rewrite seqZ_nil in Hseq by done. by destruct (granted task log1). }
  apply (stale_ops_raise s task (fencing_token l) lst); [done..|]. intros Heq.
  apply list_elem_of_lookup in Hin2 as [i Hi2].
  assert ((granted task log1 ++ fencing_token l :: granted task log2)
            !! (length (granted task log1) + S i) = Some (fencing_token l2)) as Hk2.
  { by rewrite lookup_app_r, Nat.add_comm, Nat.add_sub by lia. }
  assert ((granted task log1 ++ fencing_token l :: granted task log2)
            !! length (granted task log1) = Some (fencing_token l)) as Hk1.
  { by rewrite lookup_app_r, Nat.sub_diag by lia. }
  rewrite Hseq in Hk1, Hk2. apply lookup_seqZ in Hk1, Hk2. lia.
Qed.

(** [acquire] grants a lease exactly when no lease of the task is active and
    unexpired at the clock reading; a granted lease is then the stored one, held until
    its time to live has passed. *)
Theorem acquire_iff_free t1 t2 uid task node conn att now s :
  (free_at t1 task s ↔ is_ok (acquire t1 t2 uid task node conn att now s).1) ∧
  ∀ l s', acquire t1 t2 uid task node conn att now s = (Ok l, s') →
    active_map s' !! task = Some l ∧
    fencing_token l = (default 0 (tokens s !! task) + 1)%Z ∧
    ∀ t, (t < default t2 now + seconds (ttl_seconds s))%Z →
      held t task (fencing_token l) s'.
Proof.
  unfold acquire, mbind, M_bind.
  destruct (active_lease_spec t1 task s) as (o & s1 & E & Ht & Httl & _ & _ & _).
  destruct (active_lease_held _ _ _ _ _ E) as [_ Hf]. rewrite E, Hf. clear Hf E.
  destruct o as [c|]; simpl; [case_bool_decide as Hc|]; simpl.
  - split; [|done]. split; [|done]. intros Hall. by destruct (Hall c).
  - split; [naive_solver|]. intros l s' [= <- <-]. simpl. rewrite lookup_insert_eq, Ht.
    split_and!; [done..|]. intros t Hlt. eexists. simpl.
    rewrite lookup_insert_eq, Httl. by split_and!.
  - split; [naive_solver|]. intros l s' [= <- <-]. simpl. rewrite lookup_insert_eq, Ht.
    split_and!; [done..|]. intros t Hlt. eexists. simpl.
    rewrite lookup_insert_eq, Httl. by split_and!.
Qed.

(** [heartbeat] succeeds exactly for the holder, that is for the current token of
    an active lease not yet expired; it then extends the lease to the second reading
    plus the time to live and changes no token, and otherwise raises PermissionError. *)
Theorem heartbeat_iff_held t1 t2 task tok s :
  match heartbeat t1 t2 task tok s with
  | (Ok l, s') =>
      held t1 task tok s ∧ tokens s' = tokens s ∧ active_map s' !! task = Some l ∧
      expires_at l = (t2 + seconds (ttl_seconds s))%Z ∧
      (∀ t, (t < expires_at l)%Z → held t task tok s')
  | (Raise e, s') => ¬ held t1 task tok s ∧ exn_class e = "PermissionError"
  end.
Proof.
  unfold heartbeat, mbind, M_bind.
  destruct (active_lease_spec t1 task s) as (o & s1 & E & Ht & Httl & _ & _ & _).
  destruct (active_lease_held _ _ _ _ _ E) as [Hh _]. rewrite E. specialize (Hh tok).
  clear E. destruct o as [l|]; simpl; [|rewrite Hh; naive_solver].
  repeat case_bool_decide; simpl; rewrite Hh; try (split; [naive_solver|done]).
  rewrite lookup_insert_eq, Httl. split_and!; try done.
  - exists l. by split_and!.
  - intros t Hlt. eexists. simpl. rewrite lookup_insert_eq. by split_and!.
Qed.

(** ** Witnesses

    A task granted, released, and granted again. *)

Definition lease_states : LeaseService * LeaseService * LeaseService :=
  let s1 := (exec (CAcquire 0 1 "u1" "t" "n" "c" "a1" None) (LeaseService_init 60)).2 in
  let s2 := (exec (CRelease 2 "t" 1) s1).2 in
  (s1, s2, (exec (CAcquire 3 4 "u2" "t" "n" "c" "a2" None) s2).2).

Definition granted_lease (uid att : string) (tok now : Z) : TaskLease :=
  {| lease_id := uid; lease_task_id := "t"; lease_node_id := "n"; lease_connector_id := "c";
     lease_attempt_id := att; fencing_token := tok; acquired_at := now;
     expires_at := (now + seconds 60)%Z; heartbeat_at := now; lease_status := ACTIVE |}.

Lemma lease_run :
  run (LeaseService_init 60) [granted_lease "u1" "a1" 1 1; granted_lease "u2" "a2" 2 4]
    lease_states.2.
Proof.
  apply (run_grant _ [granted_lease "u1" "a1" 1 1] lease_states.1.2
    (CAcquire 3 4 "u2" "t" "n" "c" "a2" None)); [|vm_compute; reflexivity].
  apply (run_quiet _ _ lease_states.1.1 (CRelease 2 "t" 1)); [|vm_compute; reflexivity].
  apply (run_grant _ [] (LeaseService_init 60) (CAcquire 0 1 "u1" "t" "n" "c" "a1" None));
    [constructor|vm_compute; reflexivity].
Qed.

Lemma fencing_tokens_consecutive_witness :
  granted "t" [granted_lease "u1" "a1" 1 1; granted_lease "u2" "a2" 2 4] = seqZ 1 2.
Proof. exact (fencing_tokens_consecutive 60 _ _ "t" lease_run). Defined.

Lemma superseded_token_refused_witness :
  ¬ is_ok (heartbeat 5 6 "t" 1 lease_states.2).1 ∧
  is_ok (heartbeat 5 6 "t" 2 lease_states.2).1.
Proof.
  split; [|vm_compute; exact I].
  apply (superseded_token_refused 60 [] (granted_lease "u1" "a1" 1 1)
    [granted_lease "u2" "a2" 2 4] (granted_lease "u2" "a2" 2 4) lease_states.2 lease_run)
    with (lid := "u1") (att := "a1"); [left|reflexivity].
Defined.
