(* ===== verification/Capabilities.v ===== *)
(** * Capability registry and dependency expansion

    [runtime_v1/capabilities.py]. A [frozenset] of strings is a [gset]; the order in
    which Python iterates over one is a parameter ([HashOrder]). *)

From S2P Require Import Prelude.

(** The order in which a set of strings is iterated: some order of its elements. *)
Class HashOrder := {
  set_iter : gset string → list string;
  set_iter_perm : ∀ X, set_iter X ≡ₚ elements X
}.

(** ** Data *)

(* @src runtime_v1/capabilities.py:8-18 CapabilityDefinition *)
Record CapabilityDefinition := MkCap {
  capability_id : string;
  cap_description : string;
  risk_level : string;
  dependencies : gset string;
  conflicts : gset string;
  default_approval_class : string;
  routable : bool;
  experimental : bool
}.

(* @src runtime_v1/capabilities.py:18-18 CapabilityDefinition.definition_revision *)
Definition definition_revision : string := "2026-07-29.1".

(* @src runtime_v1/capabilities.py:21-161 _CAPABILITIES *)
Definition _CAPABILITIES_1 : list CapabilityDefinition := [
  MkCap "repository.read"
    "Read repository files and structure" "low"
    {[ "filesystem.read"; "workspace.contained" ]} ∅ "none" true false;
  MkCap "repository.search"
    "Search repository contents" "low"
    {[ "repository.read" ]} ∅ "none" true false;
  MkCap "repository.summarise"
    "Summarise repository architecture or contents" "low"
    {[ "repository.read"; "structured_output" ]} ∅ "none" true false;
  MkCap "repository.write"
    "Create or modify repository files" "high"
    {[ "filesystem.write" ]} ∅ "explicit" true false;
  MkCap "repository.patch"
    "Apply patches to repository files" "high"
    {[ "repository.write" ]} ∅ "explicit" true false;
  MkCap "filesystem.read"
    "Read files inside an approved workspace" "low"
    {[ "workspace.contained" ]} ∅ "none" true false;
  MkCap "filesystem.write"
    "Write files inside an approved workspace" "high"
    {[ "workspace.contained" ]} ∅ "explicit" true false;
  MkCap "structured_output"
    "Emit structured machine-readable output" "low"
    ∅ ∅ "none" true false;
  MkCap "streaming_output"
    "Stream incremental execution events" "low"
    ∅ ∅ "none" true false;
  MkCap "shell.execute"
    "Execute shell commands" "critical"
    {[ "process_tree.cancel" ]} ∅ "explicit" true false;
  MkCap "shell.cancel"
    "Cancel shell command processes" "medium"
    {[ "process_tree.cancel" ]} ∅ "none" true false;
  MkCap "git.read"
    "Read Git metadata and history" "low"
    {[ "repository.read" ]} ∅ "none" true false;
  MkCap "git.diff"
    "Inspect Git diffs" "low"
    {[ "git.read" ]} ∅ "none" true false;
  MkCap "git.commit"
    "Create Git commits" "high"
    {[ "filesystem.write"; "repository.write" ]} ∅ "explicit" true false
].

(* @src runtime_v1/capabilities.py:162-291 _CAPABILITIES *)
Definition _CAPABILITIES_2 : list CapabilityDefinition := [
  MkCap "git.push"
    "Push Git commits to a remote" "critical"
    {[ "git.commit" ]} ∅ "step_up" true false;
  MkCap "dependency.install"
    "Install package dependencies" "critical"
    {[ "shell.execute" ]} ∅ "explicit" true false;
  MkCap "test.execute"
    "Run tests" "high"
    {[ "process_tree.cancel"; "shell.execute" ]} ∅ "explicit" true false;
  MkCap "build.execute"
    "Run builds" "high"
    {[ "process_tree.cancel"; "shell.execute" ]} ∅ "explicit" true false;
  MkCap "network.read"
    "Read from the network" "medium"
    ∅ ∅ "explicit" true false;
  MkCap "network.write"
    "Write to the network" "critical"
    {[ "network.read" ]} ∅ "step_up" true false;
  MkCap "session.resume"
    "Resume a prior connector session" "medium"
    ∅ ∅ "explicit" true true;
  MkCap "session.fork"
    "Fork a connector session" "medium"
    {[ "session.resume" ]} ∅ "explicit" true true;
  MkCap "browser.use"
    "Drive a browser" "high"
    {[ "network.write" ]} ∅ "explicit" true true;
  MkCap "mcp.use"
    "Call MCP tools" "high"
    ∅ ∅ "explicit" true true;
  MkCap "images.read"
    "Read image inputs" "low"
    {[ "filesystem.read" ]} ∅ "none" true false;
  MkCap "workspace.contained"
    "Execution is confined to an approved workspace" "low"
    ∅ ∅ "none" true false;
  MkCap "process_tree.cancel"
    "Cancel the full process tree for an execution" "medium"
    ∅ ∅ "none" true false
].

Definition _CAPABILITIES : list CapabilityDefinition := _CAPABILITIES_1 ++ _CAPABILITIES_2.

(* @src runtime_v1/capabilities.py:352-363 READ_ONLY_CAPABILITIES *)
Definition READ_ONLY_CAPABILITIES : gset string :=
  {[ "repository.read"; "repository.search"; "repository.summarise"; "filesystem.read";
     "structured_output"; "streaming_output"; "workspace.contained";
     "process_tree.cancel" ]}.

(* @src runtime_v1/capabilities.py:365-378 MUTATING_CAPABILITIES *)
Definition MUTATING_CAPABILITIES : gset string :=
  {[ "repository.write"; "repository.patch"; "filesystem.write"; "shell.execute";
     "git.commit"; "git.push"; "dependency.install"; "test.execute"; "build.execute";
     "network.write" ]}.

(** ** The registry *)

(* @src runtime_v1/capabilities.py:295-298 CapabilityRegistry *)
Record CapabilityRegistry := { by_id : gmap string CapabilityDefinition }.

(* @src runtime_v1/capabilities.py:296-298 CapabilityRegistry.__init__ *)
Definition CapabilityRegistry_init (definitions : option (list CapabilityDefinition)) :
    CapabilityRegistry :=
  let items := match definitions with
               | Some (d :: ds) => d :: ds
               | _ => _CAPABILITIES
               end in
  {| by_id := fold_left (λ m item, <[capability_id item := item]> m) items ∅ |}.

(* @src runtime_v1/capabilities.py:300-304 CapabilityRegistry.get *)
Definition cap_get (r : CapabilityRegistry) (c : string) : res CapabilityDefinition :=
  match by_id r !! c with
  | Some d => Ok d
  | None => Raise (KeyError ("unknown capability: " +:+ c))
  end.

(* @src runtime_v1/capabilities.py:306-307 CapabilityRegistry.all *)
Definition cap_all (r : CapabilityRegistry) : list CapabilityDefinition :=
  omap (λ k, by_id r !! k) (sorted_strs (elements (dom (by_id r)))).

(* @src runtime_v1/capabilities.py:309-310 CapabilityRegistry.known *)
Definition known (r : CapabilityRegistry) (c : string) : bool :=
  match by_id r !! c with Some _ => true | None => false end.

(** ** Expansion *)

Section expansion.
Context `{HashOrder}.

(** The [while stack] loop; the stack's top is the list's last element, as in
    [list.pop()]. [None] when the fuel runs out. *)
(* @src runtime_v1/capabilities.py:332-342 expand_capabilities *)
Fixpoint expand_loop (fuel : nat) (r : CapabilityRegistry) (prohibited : gset string)
    (stack : list string) (expanded : gset string) : option (res (gset string)) :=
  match fuel with
  | O => None
  | S fuel =>
      match last stack with
      | None => Some (Ok expanded)
      | Some current =>
          let stack := removelast stack in
          if current in? expanded then expand_loop fuel r prohibited stack expanded
          else if current in? prohibited then
            Some (Raise (ValueError
              ("prohibited capability required by expansion: " +:+ current)))
          else
            match cap_get r current with
            | Raise e => Some (Raise e)
            | Ok d =>
                let expanded := {[current]} ∪ expanded in
                expand_loop fuel r prohibited
                  (stack ++ filter (λ dep, dep ∉ expanded) (set_iter (dependencies d)))
                  expanded
            end
      end
  end.

(** The iterations the loop can need: one per requested capability and one per
    dependency edge of the registry, and the last test. *)
Definition deps_size (r : CapabilityRegistry) (skip : gset string) : nat :=
  map_fold (λ c d n, (if c in? skip then 0 else size (dependencies d)) + n) 0 (by_id r).
Definition expand_fuel (r : CapabilityRegistry) (stack : list string) : nat :=
  S (length stack + deps_size r ∅).

(** The [for capability_id in expanded] check. *)
(* @src runtime_v1/capabilities.py:343-348 expand_capabilities *)
Fixpoint check_conflicts (r : CapabilityRegistry) (expanded : gset string)
    (l : list string) : res () :=
  match l with
  | [] => Ok ()
  | c :: l' =>
      res_bind (cap_get r c) (λ d,
        let found := conflicts d ∩ expanded in
        if found == ∅ then check_conflicts r expanded l'
        else Raise (ValueError ("capability " +:+ c +:+ " conflicts with "
                                 +:+ join ", " (sorted_strs (set_iter found)))))
  end.

(* @src runtime_v1/capabilities.py:313-349 expand_capabilities *)
Definition expand_capabilities (r : CapabilityRegistry)
    (requested prohibited : gset string) : option (res (gset string)) :=
  let unknown := sorted_strs
    (filter (λ c, known r c = false) (set_iter (requested ∪ prohibited))) in
  if negb (unknown == []) then
    Some (Raise (ValueError ("unknown capabilities: " +:+ join ", " unknown)))
  else
  let overridden := sorted_strs (set_iter (requested ∩ prohibited)) in
  if negb (overridden == []) then
    Some (Raise (ValueError
      ("prohibited capabilities override requested capabilities: "
         +:+ join ", " overridden)))
  else
  let stack := set_iter requested in
  match expand_loop (expand_fuel r stack) r prohibited stack ∅ with
  | None => None
  | Some (Raise e) => Some (Raise e)
  | Some (Ok expanded) =>
      Some (res_bind (check_conflicts r expanded (set_iter expanded))
              (λ _, Ok expanded))
  end.
End expansion.


(** ** Lemmas *)

(** [c] depends directly on [d]. *)
Definition dep (r : CapabilityRegistry) (c d : string) : Prop :=
  ∃ def, by_id r !! c = Some def ∧ d ∈ dependencies def.

Lemma by_id_of_get r c d : cap_get r c = Ok d ↔ by_id r !! c = Some d.
Proof. unfold cap_get. destruct (by_id r !! c); naive_solver. Qed.

Lemma known_Some r c : known r c = true ↔ ∃ d, by_id r !! c = Some d.
Proof. unfold known. destruct (by_id r !! c); naive_solver. Qed.

Lemma foldr_ext_elem {A B} (f g : A → B → B) (b : B) l :
  (∀ x y, x ∈ l → f x y = g x y) → foldr f b l = foldr g b l.
Proof.
  induction l as [|x l IH]; intros Hf; simpl; [done|].
  rewrite IH by set_solver. apply Hf. set_solver.
Qed.

Lemma deps_size_skip r E c d :
  by_id r !! c = Some d → c ∉ E →
  deps_size r E = size (dependencies d) + deps_size r ({[c]} ∪ E).
Proof.
  intros Hc HE. unfold deps_size.
  rewrite !(map_fold_delete_L _ 0 c d (by_id r)) by (done || (intros; simpl; lia)).
  rewrite bool_decide_eq_false_2 by done. rewrite bool_decide_eq_true_2 by set_solver.
  simpl. f_equal. rewrite !map_fold_foldr. apply foldr_ext_elem.
  intros [j z] n Hj%elem_of_map_to_list. simpl. f_equal.
  rewrite lookup_delete_Some in Hj. repeat case_bool_decide; set_solver.
Qed.

Lemma elem_of_removelast_last {A} (l : list A) x :
  last l = Some x → l = removelast l ++ [x].
Proof.
  intros Hl. destruct (decide (l = [])) as [->|Hne]; [done|].
  rewrite (app_removelast_last x Hne) at 1. f_equal. f_equal.
  apply last_Some in Hl as [l' ->]. apply List.last_last.
Qed.

Section expansion_lemmas.
Context `{HashOrder}.
Implicit Types (r : CapabilityRegistry) (P E X : gset string).

Lemma elem_of_set_iter X c : c ∈ set_iter X ↔ c ∈ X.
Proof. by rewrite set_iter_perm, elem_of_elements. Qed.

Lemma length_set_iter X : length (set_iter X) = size X.
Proof. by rewrite set_iter_perm. Qed.

Lemma elem_of_sorted_iter X c : c ∈ sorted_strs (set_iter X) ↔ c ∈ X.
Proof. unfold sorted_strs. by rewrite elem_of_py_sorted, elem_of_set_iter. Qed.

(** Enough fuel always ends the loop. *)
Lemma expand_loop_total fuel r P stack E :
  length stack + deps_size r E < fuel → expand_loop fuel r P stack E ≠ None.
Proof.
  revert stack E. induction fuel as [|fuel IH]; intros stack E Hf; [lia|]. simpl.
  destruct (last stack) as [c|] eqn:El; [|done].
  pose proof (elem_of_removelast_last _ _ El) as Hs.
  assert (length stack = S (length (removelast stack))) as Hlen.
  { rewrite Hs at 1. rewrite length_app. simpl. lia. }
  case_bool_decide as HE; [apply IH; lia|].
  case_bool_decide as HP; [done|].
  destruct (cap_get r c) as [d|e] eqn:Ed; [|done]. apply by_id_of_get in Ed.
  apply IH. rewrite length_app.
  pose proof (length_filter (λ dep, dep ∉ {[c]} ∪ E) (set_iter (dependencies d))) as Hl.
  rewrite length_set_iter in Hl. pose proof (deps_size_skip r E c d Ed HE). lia.
Qed.

(** A loop that returns: its set contains the start, is closed under
    dependencies, holds nothing that is not reachable, unknown or prohibited. *)
Lemma expand_loop_ok fuel r P stack E X :
  (∀ c, c ∈ E → (c ∉ P) ∧ known r c = true) →
  (∀ c d, c ∈ E → dep r c d → d ∈ E ∨ d ∈ stack) →
  expand_loop fuel r P stack E = Some (Ok X) →
  E ⊆ X ∧ (∀ s, s ∈ stack → s ∈ X) ∧
  (∀ c, c ∈ X → (c ∉ P) ∧ known r c = true) ∧
  (∀ c d, c ∈ X → dep r c d → d ∈ X) ∧
  (∀ c, c ∈ X → c ∈ E ∨ ∃ s, s ∈ stack ∧ rtc (dep r) s c).
Proof.
  revert stack E. induction fuel as [|fuel IH]; intros stack E HE Hcl Hr; [done|].
  simpl in Hr. destruct (last stack) as [c|] eqn:El.
  2: { simplify_eq. apply last_None in El as ->. set_solver. }
  pose proof (elem_of_removelast_last _ _ El) as Hs.
  set (st := removelast stack) in *. clearbody st. subst stack. clear El.
  case_bool_decide as Hc.
  { apply IH in Hr as (?&?&?&?&Hx); [|done|set_solver].
    split_and!; [done|set_solver|done|done|].
    intros x Hx'. destruct (Hx x Hx') as [|(s & ? & ?)]; set_solver. }
  case_bool_decide as HP; [done|].
  destruct (cap_get r c) as [d|e] eqn:Ed; [|done]. apply by_id_of_get in Ed.
  apply IH in Hr as (HEX&Hst&?&Hcx&Hx).
  - split_and!; [set_solver|set_solver|done|done|].
    intros x Hx'. destruct (Hx x Hx') as [|(s & Hin & Hrt)]; [set_solver|].
    apply elem_of_app in Hin as [Hin|Hin]; [set_solver|].
    apply list_elem_of_filter in Hin as [_ Hin]. apply elem_of_set_iter in Hin.
    right. exists c. split; [set_solver|]. eapply rtc_l; [|done]. by exists d.
  - intros x [->%elem_of_singleton|]%elem_of_union; [|by apply HE].
    split; [done|]. apply known_Some. by exists d.
  - intros x y Hx (d' & Hd & Hy). rewrite elem_of_app, list_elem_of_filter, elem_of_set_iter.
    destruct (decide (y ∈ {[c]} ∪ E)) as [|Hn]; [by left|].
    apply elem_of_union in Hx as [->%elem_of_singleton|Hx]; [simplify_eq; auto|].
    destruct (Hcl x y Hx) as [|Hy']; [by exists d'|set_solver|].
    apply elem_of_app in Hy' as [|Hy']; set_solver.
Qed.

(** A loop that raises has met a reachable capability that is prohibited or unknown. *)
Lemma expand_loop_raise fuel r P stack E e :
  expand_loop fuel r P stack E = Some (Raise e) →
  ∃ s c, s ∈ stack ∧ rtc (dep r) s c ∧ (c ∈ P ∨ known r c = false).
Proof.
  revert stack E. induction fuel as [|fuel IH]; intros stack E Hr; [done|].
  simpl in Hr. destruct (last stack) as [c|] eqn:El; [|done].
  pose proof (elem_of_removelast_last _ _ El) as Hs.
  set (st := removelast stack) in *. clearbody st. subst stack. clear El.
  case_bool_decide as Hc.
  { destruct (IH _ _ Hr) as (s & x & ? & ? & ?). exists s, x. split_and!; [set_solver|done|done]. }
  case_bool_decide as HP.
  { exists c, c. split_and!; [set_solver|done|by left]. }
  destruct (cap_get r c) as [d|e'] eqn:Ed.
  2: { exists c, c. split_and!; [set_solver|done|right]. unfold cap_get, known in *.
       by destruct (by_id r !! c). }
  apply by_id_of_get in Ed. apply IH in Hr as (s & x & Hin & Hrt & Hx).
  apply elem_of_app in Hin as [Hin|Hin].
  { exists s, x. split_and!; [set_solver|done|done]. }
  apply list_elem_of_filter in Hin as [_ Hin]. apply elem_of_set_iter in Hin.
  exists c, x. split_and!; [set_solver| |done]. eapply rtc_l; [|done]. by exists d.
Qed.

Lemma check_conflicts_ok r X l :
  (∀ c, c ∈ l → known r c = true) →
  check_conflicts r X l = Ok () ↔
  ∀ c d, c ∈ l → by_id r !! c = Some d → conflicts d ∩ X = ∅.
Proof.
  induction l as [|c l IH]; intros Hk; simpl; [set_solver|].
  destruct (proj1 (known_Some r c)) as [d Hd]; [apply Hk; set_solver|].
  rewrite (proj2 (by_id_of_get r c d) Hd). simpl.
  case_bool_decide as Hf.
  - rewrite IH by (intros; apply Hk; set_solver). set_solver.
  - split; [done|]. intros Hall. destruct Hf. apply (Hall c); set_solver.
Qed.
End expansion_lemmas.

Lemma expand_fuel_enough r stack : length stack + deps_size r ∅ < expand_fuel r stack.
Proof. unfold expand_fuel. lia. Qed.

#[global] Opaque expand_fuel.

(** ** Specification and properties *)

(** [X] is the expansion of [requested] under [prohibited]. *)
Record expansion_of (r : CapabilityRegistry) (requested prohibited X : gset string) : Prop := {
  exp_known : ∀ c, c ∈ requested ∪ prohibited → known r c = true;
  exp_disjoint : requested ∩ prohibited = ∅;
  exp_closure : ∀ c, c ∈ X ↔ ∃ s, s ∈ requested ∧ rtc (dep r) s c;
  exp_allowed : ∀ c, c ∈ X → (c ∉ prohibited) ∧ known r c = true;
  exp_consistent : ∀ c d, c ∈ X → by_id r !! c = Some d → conflicts d ∩ X = ∅
}.

Lemma closed_rtc (R : string → string → Prop) (X : gset string) s c :
  (∀ c d, c ∈ X → R c d → d ∈ X) → s ∈ X → rtc R s c → c ∈ X.
Proof. intros HX Hs Hr. induction Hr; eauto. Qed.

Section expansion_spec.
Context `{HashOrder}.

(** The guards before the loop. *)
Lemma expand_guards r requested prohibited :
  (∀ c, c ∈ requested ∪ prohibited → known r c = true) →
  requested ∩ prohibited = ∅ →
  expand_capabilities r requested prohibited =
  match expand_loop (expand_fuel r (set_iter requested)) r prohibited
          (set_iter requested) ∅ with
  | None => None
  | Some (Raise e) => Some (Raise e)
  | Some (Ok X) => Some (res_bind (check_conflicts r X (set_iter X)) (λ _, Ok X))
  end.
Proof.
  intros Hk Hd. unfold expand_capabilities.
  rewrite bool_decide_eq_true_2; simpl.
  2: { apply elem_of_nil_inv. intros c. unfold sorted_strs.
       rewrite elem_of_py_sorted, list_elem_of_filter, elem_of_set_iter.
       intros [Hf Hc]. rewrite Hk in Hf; done. }
  rewrite bool_decide_eq_true_2; simpl; [done|].
  apply elem_of_nil_inv. intros c. rewrite elem_of_sorted_iter. set_solver.
Qed.

Lemma expand_Ok_guards r requested prohibited X :
  expand_capabilities r requested prohibited = Some (Ok X) →
  (∀ c, c ∈ requested ∪ prohibited → known r c = true) ∧ requested ∩ prohibited = ∅.
Proof.
  unfold expand_capabilities. case_bool_decide as Hu; simpl; [|done].
  case_bool_decide as Ho; simpl; [|done]. intros _. split.
  - intros c Hc. destruct (known r c) eqn:Hk; [done|].
    assert (c ∈ @nil string); [|set_solver]. rewrite <-Hu. unfold sorted_strs.
    by rewrite elem_of_py_sorted, list_elem_of_filter, elem_of_set_iter.
  - apply set_eq. intros c. rewrite <-elem_of_sorted_iter, Ho. set_solver.
Qed.

Lemma expand_Ok_expansion r requested prohibited X :
  expand_capabilities r requested prohibited = Some (Ok X) →
  expansion_of r requested prohibited X.
Proof.
  intros Hok. destruct (expand_Ok_guards _ _ _ _ Hok) as [Hk Hd].
  rewrite expand_guards in Hok by done.
  destruct (expand_loop _ _ _ _ _) as [[Y|]|] eqn:El; simplify_eq.
  destruct (check_conflicts r Y (set_iter Y)) as [[]|] eqn:Ec; simpl in Hok; [|done].
  injection Hok as ->.
  apply expand_loop_ok in El as (_ & Hst & Hal & Hcl & Hre); [|set_solver|set_solver].
  split; [done|done| |done|].
  - intros c. split.
    + intros Hc. destruct (Hre c Hc) as [|(s & Hs & ?)]; [set_solver|].
      exists s. by rewrite elem_of_set_iter in Hs.
    + intros (s & Hs & Hr). eapply closed_rtc; [done| |done].
      apply Hst. by apply elem_of_set_iter.
  - intros c d Hc. apply (proj1 (check_conflicts_ok r X (set_iter X)
      ltac:(intros; by apply Hal, elem_of_set_iter)) Ec). by apply elem_of_set_iter.
Qed.

Lemma expansion_expand_Ok r requested prohibited X :
  expansion_of r requested prohibited X →
  expand_capabilities r requested prohibited = Some (Ok X).
Proof.
  intros [Hk Hd Hcl Hal Hco]. rewrite expand_guards by done.
  destruct (expand_loop _ _ _ _ _) as [[Y|e]|] eqn:El.
  - pose proof El as El2.
    apply expand_loop_ok in El as (_ & Hst & Ha & HclY & Hre); [|set_solver|set_solver].
    assert (Y = X) as ->.
    { apply set_eq. intros c. rewrite Hcl. split.
      - intros Hc. destruct (Hre c Hc) as [|(s & Hs & ?)]; [set_solver|].
        exists s. by rewrite elem_of_set_iter in Hs.
      - intros (s & Hs & Hr). eapply closed_rtc; [done| |done].
        apply Hst. by apply elem_of_set_iter. }
    rewrite (proj2 (check_conflicts_ok r X (set_iter X)
      ltac:(intros; by apply Hal, elem_of_set_iter))); [done|].
    intros c d Hc. apply elem_of_set_iter in Hc. by apply Hco.
  - apply expand_loop_raise in El as (s & c & Hs & Hr & Hx). exfalso.
    assert (c ∈ X) as Hc.
    { apply Hcl. exists s. by rewrite elem_of_set_iter in Hs. }
    destruct (Hal c Hc). naive_solver congruence.
  - exfalso. revert El. apply expand_loop_total, expand_fuel_enough.
Qed.

Lemma expand_total_spec r requested prohibited :
  ∃ o, expand_capabilities r requested prohibited = Some o ∧
    ∀ X, o = Ok X ↔ expansion_of r requested prohibited X.
Proof.
  destruct (expand_capabilities r requested prohibited) as [o|] eqn:E.
  - exists o. split; [done|]. intros X. split.
    + intros ->. by apply expand_Ok_expansion.
    + intros HX. apply expansion_expand_Ok in HX. congruence.
  - exfalso. revert E. unfold expand_capabilities.
    case_bool_decide; simpl; [|done]. case_bool_decide; simpl; [|done].
    destruct (expand_loop _ _ _ _ _) as [[]|] eqn:El; [done|done|].
    intros _. revert El. apply expand_loop_total, expand_fuel_enough.
Qed.

(** C22: the expansion loop terminates within its fuel, and [expand_capabilities]
    returns [X] exactly when [X] is the least dependency-closed set above the request,
    every name is known, nothing in it is prohibited and no two members conflict. The
    result does not depend on the order in which Python iterates over sets. *)
Theorem expand_capabilities_spec r requested prohibited :
  ∃ o, expand_capabilities r requested prohibited = Some o ∧
    ∀ X, o = Ok X ↔ expansion_of r requested prohibited X.
Proof. apply expand_total_spec. Qed.
End expansion_spec.

(** The order [elements] gives, for concrete runs. *)
Definition elements_order : HashOrder :=
  {| set_iter := elements; set_iter_perm := λ X, Permutation_refl (elements X) |}.

Definition default_registry : CapabilityRegistry := CapabilityRegistry_init None.

(** Every dependency of the default table is in the table, and nothing conflicts. *)
Definition closed_table (r : CapabilityRegistry) : bool :=
  bool_decide (map_Forall (λ _ d, dependencies d ⊆ dom (by_id r) ∧ conflicts d = ∅) (by_id r)).

Lemma default_closed : closed_table default_registry = true.
Proof. vm_compute. reflexivity. Qed.

(** with the built-in table every request of known capabilities that prohibits
    nothing expands; the loop never meets an unknown dependency or a conflict. *)
Theorem default_expansion_succeeds `{HashOrder} (requested : gset string) :
  requested ⊆ dom (by_id default_registry) →
  ∃ X, expand_capabilities default_registry requested ∅ = Some (Ok X) ∧ requested ⊆ X.
Proof.
  intros Hr. set (r := default_registry) in *.
  pose proof default_closed as Hc. apply bool_decide_eq_true_1 in Hc. fold r in Hc.
  clearbody r.
  assert (∀ s c, s ∈ dom (by_id r) → rtc (dep r) s c → known r c = true) as Hreach.
  { intros s c Hs Hrt. apply known_Some, elem_of_dom.
    eapply closed_rtc; [|exact Hs|exact Hrt].
    intros x y _ (d & Hd & Hy). destruct (Hc x d Hd) as [Hsub _]. by apply Hsub. }
  destruct (expand_total_spec r requested ∅) as ([X|e] & E & HX).
  - exists X. split; [done|]. destruct (proj1 (HX X) eq_refl) as [_ _ Hcl _ _].
    intros c Hin. apply Hcl. exists c. done.
  - exfalso. assert (∀ c, c ∈ requested ∪ ∅ → known r c = true) as Hk.
    { intros c Hin. eapply Hreach; [|reflexivity]. set_solver. }
    rewrite expand_guards in E; [|done|set_solver].
    destruct (expand_loop _ _ _ _ _) as [[Y|e']|] eqn:El; simplify_eq.
    + destruct (check_conflicts r Y (set_iter Y)) as [|] eqn:Ec; simpl in E; [done|].
      apply expand_loop_ok in El as (_ & _ & Hal & _); [|set_solver|set_solver].
      rewrite (proj2 (check_conflicts_ok r Y (set_iter Y)
        ltac:(intros; by apply Hal, elem_of_set_iter))) in Ec; [done|].
      intros c d _ Hd. destruct (Hc c d Hd) as [_ ->]. set_solver.
    + apply expand_loop_raise in El as (s & c & Hs & Hrt & [|Hu]); [set_solver|].
      apply elem_of_set_iter in Hs. rewrite (Hreach s c) in Hu; [done|set_solver|done].
Qed.

(** ** Witness *)

Lemma default_expansion_succeeds_witness :
  ∃ X, expand_capabilities (H := elements_order) default_registry {[ "git.diff" ]} ∅ = Some (Ok X) ∧
    {[ "git.diff" ]} ⊆ X.
Proof.
  apply (@default_expansion_succeeds elements_order).
  refine (bool_decide_unpack _ _). vm_compute. exact I.
Defined.
