(* ===== verification/Policy.v ===== *)
(** * Policy profiles, policy evaluation and retry decisions

    [runtime_v1/policy.py], [runtime_v1/retry.py] and the request, decision and
    candidate records of [runtime_v1/models.py] they use. *)

From S2P Require Import Prelude Capabilities.

(** ** Data *)

(* @src runtime_v1/models.py:63-80 RuntimeTaskRequest *)
Record RuntimeTaskRequest := {
  workspace_id : string;
  prompt : string;
  requested_capabilities : gset string;
  policy_profile : string;
  prohibited_capabilities : gset string;
  preferred_connectors : list string;
  required_connector : option string;
  preferred_providers : list string;
  required_provider : option string;
  preferred_nodes : list string;
  required_node : option string;
  timeout_seconds : Z;
  max_attempts : Z;
  user_id : string;
  req_task_id : string;
  req_created_at : Z
}.

(* @src runtime_v1/models.py:131-137 PolicyDecision *)
Record PolicyDecision := {
  allowed : bool;
  granted_capabilities : gset string;
  denied_capabilities : gset string;
  approval_requirements : list string;
  reasons : list string
}.

(** Scores and factors are the floats of the scheduler, all whole numbers. *)
(* @src runtime_v1/models.py:151-160 RouteCandidate *)
Record RouteCandidate := {
  cand_node_id : string;
  cand_connector_id : string;
  cand_policy_profile : string;
  certified_capabilities : gset string;
  score : Z;
  eligible : bool;
  rejection_reasons : list string;
  scoring_factors : list (string * Z)
}.

(* @src runtime_v1/policy.py:17-26 PolicyProfile *)
Record PolicyProfile := {
  profile_id : string;
  description : string;
  p_allowed : gset string;
  p_denied : gset string;
  require_node_attested : bool;
  require_noninteractive_auth : bool;
  enabled : bool;
  approval_for : gset string
}.

(* @src runtime_v1/policy.py:30-38 _PROFILES *)
Definition profile_read_only : PolicyProfile := {|
  profile_id := "read_only";
  description := "Read-only repository analysis without mutation or shell";
  p_allowed := READ_ONLY_CAPABILITIES;
  p_denied := MUTATING_CAPABILITIES ∪ {[ "session.resume"; "session.fork" ]};
  require_node_attested := true; require_noninteractive_auth := false;
  enabled := true; approval_for := ∅ |}.

(* @src runtime_v1/policy.py:39-69 _PROFILES *)
Definition profile_developer : PolicyProfile := {|
  profile_id := "developer";
  description := "Local developer work with explicit approvals for mutation";
  p_allowed := READ_ONLY_CAPABILITIES ∪
    {[ "repository.write"; "repository.patch"; "filesystem.write"; "shell.execute";
       "git.read"; "git.diff"; "test.execute"; "build.execute" ]};
  p_denied := {[ "git.push"; "network.write" ]};
  require_node_attested := true; require_noninteractive_auth := false;
  enabled := true;
  approval_for :=
    {[ "repository.write"; "repository.patch"; "filesystem.write"; "shell.execute";
       "test.execute"; "build.execute" ]} |}.

(* @src runtime_v1/policy.py:70-80 _PROFILES *)
Definition profile_ci : PolicyProfile := {|
  profile_id := "ci";
  description := "Deterministic CI with non-interactive authentication";
  p_allowed := READ_ONLY_CAPABILITIES ∪
    {[ "test.execute"; "build.execute"; "shell.execute"; "git.read"; "git.diff" ]};
  p_denied := {[ "git.push"; "git.commit"; "network.write"; "session.resume" ]};
  require_node_attested := true; require_noninteractive_auth := true;
  enabled := true;
  approval_for := {[ "test.execute"; "build.execute"; "shell.execute" ]} |}.

(* @src runtime_v1/policy.py:81-89 _PROFILES *)
Definition profile_production_restricted : PolicyProfile := {|
  profile_id := "production_restricted";
  description := "Production-safe restricted capabilities with node-attested evidence";
  p_allowed := READ_ONLY_CAPABILITIES;
  p_denied := MUTATING_CAPABILITIES ∪ {[ "session.resume"; "browser.use" ]};
  require_node_attested := true; require_noninteractive_auth := false;
  enabled := true; approval_for := ∅ |}.

(* @src runtime_v1/policy.py:90-98 _PROFILES *)
Definition profile_autonomous : PolicyProfile := {|
  profile_id := "autonomous";
  description := "Autonomous multi-step work (disabled by default)";
  p_allowed := ∅; p_denied := ∅;
  require_node_attested := true; require_noninteractive_auth := false;
  enabled := false; approval_for := ∅ |}.

(* @src runtime_v1/policy.py:29-99 _PROFILES *)
Definition _PROFILES : gmap string PolicyProfile :=
  <["read_only" := profile_read_only]>
  (<["developer" := profile_developer]>
  (<["ci" := profile_ci]>
  (<["production_restricted" := profile_production_restricted]>
  (<["autonomous" := profile_autonomous]> ∅)))).

(** ** The engine *)

(* @src runtime_v1/policy.py:102-111 PolicyEngine *)
Record PolicyEngine := {
  registry : CapabilityRegistry;
  profiles : gmap string PolicyProfile
}.

(** [env] is [os.environ.get("JOYMESH_AUTONOMOUS_POLICY")]; a dictionary passed in is
    taken by value. *)
(* @src runtime_v1/policy.py:103-124 PolicyEngine.__init__ *)
Definition PolicyEngine_init (reg : option CapabilityRegistry)
    (profs : option (gmap string PolicyProfile)) (autonomous_enabled : option bool)
    (env : option string) : PolicyEngine :=
  let reg := default (CapabilityRegistry_init None) reg in
  let profs := match profs with
               | Some m => if m == ∅ then _PROFILES else m
               | None => _PROFILES
               end in
  let auto := match autonomous_enabled with
              | Some b => b
              | None => default "0" env == "1"
              end in
  {| registry := reg;
     profiles :=
       match profs !! "autonomous" with
       | Some p =>
           if auto then
             <["autonomous" := {|
               profile_id := profile_id p; description := description p;
               p_allowed := list_to_set (capability_id <$> cap_all reg);
               p_denied := ∅; require_node_attested := true;
               require_noninteractive_auth := false; enabled := true;
               approval_for := ∅ |}]> profs
           else profs
       | None => profs
       end |}.

(* @src runtime_v1/policy.py:126-127 PolicyEngine.list_profiles *)
Definition list_profiles (e : PolicyEngine) : list PolicyProfile :=
  omap (λ k, profiles e !! k) (sorted_strs (elements (dom (profiles e)))).

(* @src runtime_v1/policy.py:129-133 PolicyEngine.get *)
Definition policy_get (e : PolicyEngine) (pid : string) : res PolicyProfile :=
  match profiles e !! pid with
  | Some p => Ok p
  | None => Raise (KeyError ("unknown policy profile: " +:+ pid))
  end.

Section evaluation.
Context `{HashOrder}.

(** The result of the expansion, which always terminates
    ([Capabilities.expand_total_spec]); the default is never taken. *)
Definition expand_result (r : CapabilityRegistry) (req proh : gset string) :
    res (gset string) :=
  default (Raise AssertionError) (expand_capabilities r req proh).

Definition reject (denied : gset string) (why : list string) : PolicyDecision :=
  {| allowed := false; granted_capabilities := ∅; denied_capabilities := denied;
     approval_requirements := []; reasons := why |}.

(* @src runtime_v1/policy.py:135-200 PolicyEngine.evaluate *)
Definition evaluate (e : PolicyEngine) (request : RuntimeTaskRequest)
    (candidate : option RouteCandidate) : res PolicyDecision :=
  res_bind (policy_get e (policy_profile request)) (λ profile,
  if negb (enabled profile) then
    Ok (reject (requested_capabilities request)
          ["policy " +:+ profile_id profile +:+ " is disabled"])
  else
  match expand_result (registry e) (requested_capabilities request)
          (prohibited_capabilities request) with
  | Raise exc =>
      if exn_class exc == "ValueError"
      then Ok (reject (requested_capabilities request) [exn_msg exc])
      else Raise exc
  | Ok expanded =>
      let denied := filter (λ item, item ∈ p_denied profile ∨ item ∉ p_allowed profile)
                      expanded in
      if negb (denied == ∅) then
        Ok (reject denied ["policy rejected capabilities: "
                             +:+ join ", " (sorted_strs (set_iter denied))])
      else
      let missing := match candidate with
                     | Some c => expanded ∖ certified_capabilities c
                     | None => ∅
                     end in
      if negb (missing == ∅) then
        Ok (reject missing ["capabilities not certified: "
                              +:+ join ", " (sorted_strs (set_iter missing))])
      else
      let approvals := sorted_strs (set_iter (approval_for profile ∩ expanded)) in
      Ok {| allowed := true; granted_capabilities := expanded;
            denied_capabilities := ∅; approval_requirements := approvals;
            reasons :=
              (if approvals == [] then []
               else ["explicit approval required for: " +:+ join ", " approvals]) ++
              ["policy " +:+ profile_id profile +:+ " allowed expanded capabilities"] |}
  end).
End evaluation.

(** ** Retry decisions *)

(* @src runtime_v1/models.py:38-53 FailureClass *)
Inductive FailureClass :=
| NODE_UNAVAILABLE | NODE_DISCONNECTED | CONNECTOR_UNAVAILABLE | AUTHENTICATION_INVALID
| CERTIFICATION_INVALID | WORKSPACE_UNAVAILABLE | QUOTA_EXHAUSTED | RATE_LIMITED
| OFFER_TIMEOUT | TASK_TIMEOUT | PROCESS_FAILURE | POLICY_REJECTED | USER_CANCELLED
| UNCERTAIN_EXECUTION | FC_UNKNOWN.

#[export] Instance FailureClass_eq_dec : EqDecision FailureClass.
Proof. solve_decision. Defined.

(* @src runtime_v1/retry.py:11-15 RetryDecision *)
Record RetryDecision := MkRetry {
  retry : bool;
  retry_reason : string;
  retry_failure_class : FailureClass
}.

(* @src runtime_v1/retry.py:18-26 _SAFE_BEFORE_START *)
Definition _SAFE_BEFORE_START : list FailureClass :=
  [NODE_UNAVAILABLE; OFFER_TIMEOUT; CONNECTOR_UNAVAILABLE; RATE_LIMITED;
   WORKSPACE_UNAVAILABLE].

(** The task enters with its [max_attempts] and its [expanded_capabilities]. *)
(* @src runtime_v1/retry.py:29-69 decide_retry *)
Definition decide_retry (task_max_attempts : Z) (expanded_capabilities : list string)
    (failure_class : FailureClass) (attempt_number : Z)
    (execution_started uncertain : bool) : RetryDecision :=
  if (task_max_attempts <=? attempt_number)%Z
  then MkRetry false "max attempts reached" failure_class
  else if failure_class == USER_CANCELLED
  then MkRetry false "user cancellation is not retried" failure_class
  else if failure_class == POLICY_REJECTED
  then MkRetry false "policy rejection is not retried" failure_class
  else if failure_class == AUTHENTICATION_INVALID
  then MkRetry false "authentication failure is not automatically retried" failure_class
  else if uncertain || (failure_class == UNCERTAIN_EXECUTION)
  then MkRetry false "uncertain execution requires reconciliation first" failure_class
  else
  let mutating :=
    negb ((list_to_set expanded_capabilities ∩ MUTATING_CAPABILITIES : gset string) == ∅) in
  if mutating && execution_started
  then MkRetry false "side-effecting attempt already started; not retry-safe" failure_class
  else if (failure_class in? _SAFE_BEFORE_START) && negb execution_started
  then MkRetry true "pre-start failure is retry-safe" failure_class
  else if negb mutating && negb execution_started &&
          (failure_class in? [NODE_DISCONNECTED; PROCESS_FAILURE; CONNECTOR_UNAVAILABLE])
  then MkRetry true "read-only pre-start failure may fail over" failure_class
  else MkRetry false "failure class is not automatically retryable" failure_class.

(** ** Properties *)

Section evaluation_properties.
Context `{HashOrder}.

Lemma expand_result_Ok r req proh X :
  expand_result r req proh = Ok X ↔ expansion_of r req proh X.
Proof.
  unfold expand_result. destruct (expand_total_spec r req proh) as (o & -> & Ho).
  apply Ho.
Qed.

(** What a request may be granted: the expansion, when the profile is enabled, allows
    and does not deny any of it, and the candidate is certified for all of it. *)
Record grantable (e : PolicyEngine) (request : RuntimeTaskRequest)
    (candidate : option RouteCandidate) (p : PolicyProfile) (X : gset string) : Prop := {
  g_profile : profiles e !! policy_profile request = Some p;
  g_enabled : enabled p = true;
  g_expansion : expansion_of (registry e) (requested_capabilities request)
                  (prohibited_capabilities request) X;
  g_allowed : X ⊆ p_allowed p;
  g_denied : X ## p_denied p;
  g_certified : ∀ c, candidate = Some c → X ⊆ certified_capabilities c
}.

Lemma evaluate_granted e request candidate d :
  evaluate e request candidate = Ok d →
  if allowed d then
    ∃ p, grantable e request candidate p (granted_capabilities d) ∧
      denied_capabilities d = ∅ ∧
      ∀ c, c ∈ approval_requirements d ↔ c ∈ approval_for p ∩ granted_capabilities d
  else granted_capabilities d = ∅.
Proof.
  unfold evaluate, policy_get.
  destruct (profiles e !! policy_profile request) as [p|] eqn:Ep; simpl; [|done].
  destruct (enabled p) eqn:Een; simpl; [|by intros; simplify_eq].
  destruct (expand_result _ _ _) as [X|exc] eqn:Ex; simpl;
    [|case_bool_decide; [by intros; simplify_eq|done]].
  apply expand_result_Ok in Ex. case_bool_decide as Hd; simpl; [|by intros; simplify_eq].
  case_bool_decide as Hm; simpl; [|by intros; simplify_eq].
  intros [= <-]; simpl. exists p. split_and!; [|done|].
  - split; [done|done|done| | |]; [set_solver..|]. intros c ->. set_solver.
  - intros c. by rewrite elem_of_sorted_iter.
Qed.

Lemma grantable_evaluate e request candidate p X :
  grantable e request candidate p X →
  ∃ d, evaluate e request candidate = Ok d ∧ allowed d = true ∧ granted_capabilities d = X.
Proof.
  intros [Hp Hen Hex Hal Hde Hce].
  unfold evaluate, policy_get. rewrite Hp; simpl. rewrite Hen; simpl.
  rewrite (proj2 (expand_result_Ok _ _ _ X) Hex); simpl.
  rewrite bool_decide_eq_true_2 by set_solver; simpl.
  rewrite bool_decide_eq_true_2; simpl; [by eexists|].
  destruct candidate as [c|]; [specialize (Hce c eq_refl)|]; set_solver.
Qed.

(** a policy decision allows a request exactly when the profile exists and is
    enabled, the request expands, and the expansion is allowed, not denied and, for a
    given candidate, certified. It then grants exactly that expansion and asks approval
    for exactly the granted capabilities the profile lists; a decision that does not
    allow grants nothing. *)
Theorem evaluate_allowed_iff e request candidate :
  (∀ d, evaluate e request candidate = Ok d →
     if allowed d then
       ∃ p, grantable e request candidate p (granted_capabilities d) ∧
         denied_capabilities d = ∅ ∧
         ∀ c, c ∈ approval_requirements d ↔ c ∈ approval_for p ∩ granted_capabilities d
     else granted_capabilities d = ∅) ∧
  (∀ p X, grantable e request candidate p X →
     ∃ d, evaluate e request candidate = Ok d ∧ allowed d = true ∧
       granted_capabilities d = X).
Proof.
  split; [apply evaluate_granted|apply grantable_evaluate].
Qed.
End evaluation_properties.

Lemma restricted_profile_lookup reg auto env pid :
  pid ∈ ["read_only"; "production_restricted"] →
  ∃ p, profiles (PolicyEngine_init reg None auto env) !! pid = Some p ∧
    p_allowed p = READ_ONLY_CAPABILITIES.
Proof.
  intros Hp.
  assert (pid ≠ "autonomous" ∧
          ∃ p, _PROFILES !! pid = Some p ∧ p_allowed p = READ_ONLY_CAPABILITIES)
    as (Hne & p & Hl & Ha).
  { apply elem_of_cons in Hp as [->|Hp%list_elem_of_singleton]; [|subst];
      (split; [done|by eexists]). }
  exists p. split; [|done]. cbn -[_PROFILES].
  repeat case_match; rewrite ?lookup_insert_ne by done; done.
Qed.

Lemma read_only_disjoint : READ_ONLY_CAPABILITIES ## MUTATING_CAPABILITIES.
Proof. refine (bool_decide_unpack _ _). vm_compute. exact I. Qed.

(** under the built-in profiles [read_only] and [production_restricted] no request,
    candidate, registry or autonomous switch makes the engine grant a mutating
    capability: what is granted is read-only. *)
Theorem restricted_profiles_never_mutate `{HashOrder} reg auto env request candidate d :
  policy_profile request ∈ ["read_only"; "production_restricted"] →
  evaluate (PolicyEngine_init reg None auto env) request candidate = Ok d →
  granted_capabilities d ⊆ READ_ONLY_CAPABILITIES ∧
  granted_capabilities d ∩ MUTATING_CAPABILITIES = ∅.
Proof.
  intros Hp Hd. apply evaluate_granted in Hd. pose proof read_only_disjoint as Hdis.
  destruct (restricted_profile_lookup reg auto env _ Hp) as (p & Hl & Hal).
  assert (granted_capabilities d ⊆ READ_ONLY_CAPABILITIES) as Hsub.
  { destruct (allowed d); [|by rewrite Hd].
    destruct Hd as (p' & [Hp' _ _ Ha _ _] & _). rewrite Hl in Hp'. simplify_eq.
    by rewrite <-Hal. }
  split; [done|]. clear -Hsub Hdis. set_solver.
Qed.

(** [decide_retry] retries exactly when attempts are left, the execution has
    neither started nor is uncertain, and the failure is one of the five pre-start
    classes or, for a task without mutating capabilities, a lost node or process: an
    attempt that has started is never retried. *)
Theorem decide_retry_iff max_att caps fc n started uncertain :
  retry (decide_retry max_att caps fc n started uncertain) = true ↔
  (n < max_att)%Z ∧ started = false ∧ uncertain = false ∧
  (fc ∈ _SAFE_BEFORE_START ∨
   (list_to_set caps ∩ MUTATING_CAPABILITIES : gset string) = ∅ ∧
   fc ∈ [NODE_DISCONNECTED; PROCESS_FAILURE]).
Proof.
  unfold decide_retry.
  destruct (Z.leb_spec max_att n) as [Hn|Hn]; simpl; [split; [done|lia]|].
  destruct (bool_decide ((list_to_set caps ∩ MUTATING_CAPABILITIES : gset string) = ∅))
    eqn:Hm; [apply bool_decide_eq_true_1 in Hm|apply bool_decide_eq_false_1 in Hm].
  all: destruct fc, started, uncertain; simpl; repeat (case_bool_decide; try done);
    unfold _SAFE_BEFORE_START in *; set_solver.
Qed.

(** ** Witness *)

Definition sample_request (profile : string) : RuntimeTaskRequest :=
  {| workspace_id := "ws"; prompt := ""; requested_capabilities := {[ "repository.read" ]};
     policy_profile := profile; prohibited_capabilities := ∅; preferred_connectors := [];
     required_connector := None; preferred_providers := []; required_provider := None;
     preferred_nodes := []; required_node := None; timeout_seconds := 60;
     max_attempts := 2; user_id := "user"; req_task_id := "task"; req_created_at := 0 |}.

Definition sample_engine : PolicyEngine := PolicyEngine_init None None None None.

Lemma restricted_profiles_never_mutate_witness :
  ∃ d, evaluate (H := elements_order) sample_engine (sample_request "read_only") None = Ok d ∧
    allowed d = true ∧ granted_capabilities d ∩ MUTATING_CAPABILITIES = ∅.
Proof.
  eexists. split; [vm_compute; reflexivity|]. split; [reflexivity|].
  eapply (@restricted_profiles_never_mutate elements_order None None None
    (sample_request "read_only") None); [left|vm_compute; reflexivity].
Defined.
