(* ===== verification/Scheduler.v ===== *)
(** * The deterministic route scheduler

    [runtime_v1/scheduler.py], with the connector states, trust levels and execution
    origins of [connectors/lifecycle_models.py]. Scores are the whole-number floats of
    the source, exact below 2^53; [production_mode()] is an argument. *)

From stdpp Require Import sorting.
From S2P Require Import Prelude Capabilities Policy.

(** ** Data *)

(* @src connectors/lifecycle_models.py:17-42 NodeConnectorState *)
Inductive NodeConnectorState :=
| NCS_UNKNOWN | NOT_AVAILABLE | AVAILABLE_TO_INSTALL | INSTALL_PLAN_REQUIRED
| INSTALL_APPROVAL_REQUIRED | INSTALLING | INSTALLED | EXECUTABLE_BROKEN
| AUTHENTICATION_REQUIRED | AUTHENTICATION_IN_PROGRESS | AUTHENTICATED
| AUTHENTICATION_FAILED | VERIFICATION_REQUIRED | VERIFICATION_IN_PROGRESS | VERIFIED
| CERTIFICATION_REQUIRED | CERTIFICATION_IN_PROGRESS | CERTIFIED | CERTIFICATION_FAILED
| IDE_ONLY | NCS_BLOCKED | NEEDS_REPAIR | UNSUPPORTED_PLATFORM | ROUTING_DISABLED | READY.

#[export] Instance NodeConnectorState_eq_dec : EqDecision NodeConnectorState.
Proof. solve_decision. Defined.

(* @src connectors/lifecycle_models.py:17-42 NodeConnectorState.value *)
Definition NodeConnectorState_value (s : NodeConnectorState) : string :=
  match s with
  | NCS_UNKNOWN => "unknown" | NOT_AVAILABLE => "not_available"
  | AVAILABLE_TO_INSTALL => "available_to_install"
  | INSTALL_PLAN_REQUIRED => "install_plan_required"
  | INSTALL_APPROVAL_REQUIRED => "install_approval_required"
  | INSTALLING => "installing" | INSTALLED => "installed"
  | EXECUTABLE_BROKEN => "executable_broken"
  | AUTHENTICATION_REQUIRED => "authentication_required"
  | AUTHENTICATION_IN_PROGRESS => "authentication_in_progress"
  | AUTHENTICATED => "authenticated" | AUTHENTICATION_FAILED => "authentication_failed"
  | VERIFICATION_REQUIRED => "verification_required"
  | VERIFICATION_IN_PROGRESS => "verification_in_progress" | VERIFIED => "verified"
  | CERTIFICATION_REQUIRED => "certification_required"
  | CERTIFICATION_IN_PROGRESS => "certification_in_progress" | CERTIFIED => "certified"
  | CERTIFICATION_FAILED => "certification_failed" | IDE_ONLY => "ide_only"
  | NCS_BLOCKED => "blocked" | NEEDS_REPAIR => "needs_repair"
  | UNSUPPORTED_PLATFORM => "unsupported_platform"
  | ROUTING_DISABLED => "routing_disabled" | READY => "ready"
  end.

(* @src connectors/lifecycle_models.py:87-90 ConnectorExecutionOrigin *)
Inductive ConnectorExecutionOrigin := REMOTE_NODE | INLINE_DEVELOPMENT | MOCK_TEST.
#[export] Instance ConnectorExecutionOrigin_eq_dec : EqDecision ConnectorExecutionOrigin.
Proof. solve_decision. Defined.

(* @src connectors/lifecycle_models.py:93-96 EvidenceTrustLevel *)
Inductive EvidenceTrustLevel := TRUST_MOCK | DEVELOPMENT | NODE_ATTESTED.
#[export] Instance EvidenceTrustLevel_eq_dec : EqDecision EvidenceTrustLevel.
Proof. solve_decision. Defined.

(* @src runtime_v1/models.py:140-148 WorkspacePlacement *)
Record WorkspacePlacement := {
  pl_workspace_id : string;
  pl_node_id : string;
  local_path : string;
  fingerprint : string;
  writable : bool;
  last_verified_at : Z;
  expose_path : bool
}.

(** The [certified] tuple is carried by the source and read by nothing here. *)
(* @src runtime_v1/scheduler.py:37-47 SchedulerConnectorSnapshot *)
Record SchedulerConnectorSnapshot := {
  sc_connector_id : string;
  installed : bool;
  readiness : NodeConnectorState;
  authenticated : bool;
  routing_enabled : bool;
  sc_certified_capabilities : gset string;
  trust_level : option EvidenceTrustLevel;
  execution_origin : option ConnectorExecutionOrigin
}.

(* @src runtime_v1/scheduler.py:24-34 SchedulerNodeSnapshot *)
Record SchedulerNodeSnapshot := {
  node_id : string;
  online : bool;
  revoked : bool;
  session_authenticated : bool;
  connectors : gmap string SchedulerConnectorSnapshot;
  placements : list WorkspacePlacement;
  concurrency : Z;
  queue_depth : Z;
  recent_failures : Z
}.

(** ** The ranking *)

(* @src runtime_v1/scheduler.py:167-171 _placement_for *)
Definition _placement_for (node : SchedulerNodeSnapshot) (ws : string) :
    option WorkspacePlacement :=
  head (filter (λ p, pl_workspace_id p = ws) (placements node)).

(* @src runtime_v1/scheduler.py:174-184 _needs_write *)
Definition _needs_write (caps : gset string) : bool :=
  negb ((caps ∩ {[ "repository.write"; "repository.patch"; "filesystem.write";
                   "git.commit"; "dependency.install" ]}) == ∅).

(** [t.index(x)] of a tuple that holds [x]. *)
Definition index_of (x : string) (l : list string) : Z :=
  default 0%Z (Z.of_nat <$> (fst <$> list_find (λ y, y = x) l)).

Definition when (b : bool) (why : string) : list string := if b then [why] else [].

Section scheduler.
Context `{HashOrder}.
Context (production_mode : bool).

(** The reasons collected before the policy is asked again, in order. *)
(* @src runtime_v1/scheduler.py:83-114 RuntimeScheduler.rank_candidates *)
Definition gate_reasons (request : RuntimeTaskRequest) (required : gset string)
    (node : SchedulerNodeSnapshot) (cid : string) (c : SchedulerConnectorSnapshot) :
    list string :=
  let missing := required ∖ sc_certified_capabilities c in
  when (match required_node request with
        | Some n => negb (n == "") && negb (node_id node == n) | None => false end)
    "required node mismatch" ++
  when (match required_connector request with
        | Some n => negb (n == "") && negb (cid == n) | None => false end)
    "required connector mismatch" ++
  when (revoked node) "node revoked" ++
  when (negb (online node)) "node offline" ++
  when (negb (session_authenticated node)) "node session not authenticated" ++
  when (negb (installed c)) "connector not installed" ++
  when (readiness c != READY)
    ("connector readiness is " +:+ NodeConnectorState_value (readiness c)) ++
  when (negb (authenticated c)) "connector authentication invalid" ++
  when (negb (routing_enabled c)) "routing disabled" ++
  when (negb (missing == ∅))
    ("capabilities not certified: " +:+ join ", " (sorted_strs (set_iter missing))) ++
  when (production_mode && (trust_level c != Some NODE_ATTESTED))
    "production requires node-attested evidence" ++
  when (production_mode && (execution_origin c != Some REMOTE_NODE))
    "production requires remote_node execution origin" ++
  match _placement_for node (workspace_id request) with
  | None => ["workspace placement missing"]
  | Some p => when (negb (writable p) && _needs_write required)
                "read-only workspace rejects write capabilities"
  end.

(** The factors in insertion order; a [-float(n) * 2.0] is the integer [-2n]. *)
(* @src runtime_v1/scheduler.py:131-143 RuntimeScheduler.rank_candidates *)
Definition factors_of (request : RuntimeTaskRequest) (node : SchedulerNodeSnapshot)
    (cid : string) : list (string * Z) :=
  [("base", 100%Z); ("concurrency", (- concurrency node * 2)%Z);
   ("queue_depth", (- queue_depth node)%Z);
   ("recent_failures", (- recent_failures node * 3)%Z)] ++
  (if cid in? preferred_connectors request
   then [("preferred_connector", (10 - index_of cid (preferred_connectors request))%Z)]
   else []) ++
  (if node_id node in? preferred_nodes request
   then [("preferred_node", (8 - index_of (node_id node) (preferred_nodes request))%Z)]
   else []) ++
  match _placement_for node (workspace_id request) with
  | Some _ => [("workspace_locality", 15%Z)]
  | None => []
  end.

Definition sum_factors (f : list (string * Z)) : Z := foldr (λ kv z, (kv.2 + z)%Z) 0%Z f.

(* @src runtime_v1/scheduler.py:115-155 RuntimeScheduler.rank_candidates *)
Definition candidate_for (pol : PolicyEngine) (request : RuntimeTaskRequest)
    (required : gset string) (node : SchedulerNodeSnapshot) (cid : string)
    (c : SchedulerConnectorSnapshot) : res RouteCandidate :=
  res_bind
    (evaluate pol request (Some {|
       cand_node_id := node_id node; cand_connector_id := cid;
       cand_policy_profile := policy_profile request;
       certified_capabilities := sc_certified_capabilities c;
       score := 0; eligible := false; rejection_reasons := []; scoring_factors := [] |}))
    (λ decision,
     let reasons := gate_reasons request required node cid c ++
                    (if allowed decision then [] else reasons decision) in
     let factors := factors_of request node cid in
     let score := (100 + sum_factors factors - default 0 (dict_get "base" factors))%Z in
     let eligible := reasons == [] in
     Ok {| cand_node_id := node_id node; cand_connector_id := cid;
           cand_policy_profile := policy_profile request;
           certified_capabilities := sc_certified_capabilities c;
           score := if eligible then score else 0%Z;
           eligible := eligible;
           rejection_reasons := reasons;
           scoring_factors := if eligible then factors else [] |}).

(** The (node, connector) pairs in the order of the two loops. *)
(* @src runtime_v1/scheduler.py:77-79 RuntimeScheduler.rank_candidates *)
Definition pairs (nodes : list SchedulerNodeSnapshot) :
    list (SchedulerNodeSnapshot * string * SchedulerConnectorSnapshot) :=
  node ← py_sorted (λ a b, str_leb (node_id a) (node_id b)) nodes;
  cid ← sorted_strs (elements (dom (connectors node)));
  match connectors node !! cid with Some c => [(node, cid, c)] | None => [] end.

(** The sort key [(0 if eligible else 1, -score, node_id, connector_id)]. *)
(* @src runtime_v1/scheduler.py:157-163 RuntimeScheduler.rank_candidates *)
Definition cand_leb (a b : RouteCandidate) : bool :=
  if eligible a != eligible b then eligible a
  else if score a != score b then (score b <? score a)%Z
  else if cand_node_id a != cand_node_id b then str_leb (cand_node_id a) (cand_node_id b)
  else str_leb (cand_connector_id a) (cand_connector_id b).

(* @src runtime_v1/scheduler.py:54-164 RuntimeScheduler.rank_candidates *)
Definition rank_candidates (pol : PolicyEngine) (request : RuntimeTaskRequest)
    (nodes : list SchedulerNodeSnapshot) : res (list RouteCandidate) :=
  res_bind (evaluate pol request None) (λ base,
  if negb (allowed base) then
    Ok [{| cand_node_id := "*"; cand_connector_id := "*";
           cand_policy_profile := policy_profile request; certified_capabilities := ∅;
           score := 0; eligible := false; rejection_reasons := reasons base;
           scoring_factors := [] |}]
  else
    let required := granted_capabilities base in
    res_bind
      (traverse (λ '(node, cid, c), candidate_for pol request required node cid c)
         (pairs nodes))
      (λ candidates, Ok (py_sorted cand_leb candidates))).
End scheduler.

(** ** Lemmas *)

Section scheduler_lemmas.
Context `{HashOrder}.
Context (production_mode : bool).

(** What the gates check of one (node, connector) pair. *)
Record admissible (request : RuntimeTaskRequest) (required : gset string)
    (node : SchedulerNodeSnapshot) (cid : string) (c : SchedulerConnectorSnapshot) : Prop := {
  ad_node : ∀ n, required_node request = Some n → n = "" ∨ node_id node = n;
  ad_connector : ∀ n, required_connector request = Some n → n = "" ∨ cid = n;
  ad_live : revoked node = false ∧ online node = true ∧ session_authenticated node = true;
  ad_ready : installed c = true ∧ readiness c = READY ∧ authenticated c = true ∧
             routing_enabled c = true;
  ad_certified : required ⊆ sc_certified_capabilities c;
  ad_production : production_mode = true →
    trust_level c = Some NODE_ATTESTED ∧ execution_origin c = Some REMOTE_NODE;
  ad_placement : ∃ p, _placement_for node (workspace_id request) = Some p ∧
    (_needs_write required = true → writable p = true)
}.

Lemma when_nil b why : when b why = [] ↔ b = false.
Proof. by destruct b. Qed.

Lemma gate_reasons_nil request required node cid c :
  gate_reasons production_mode request required node cid c = [] ↔
  admissible request required node cid c.
Proof.
  unfold gate_reasons. rewrite !app_nil, !when_nil. split.
  - intros (Hn & Hc & Hr & Ho & Hs & Hi & Hre & Ha & Hro & Hm & Ht & He & Hp).
    boolify. split; [| |naive_solver|naive_solver|set_solver| |].
    + intros n En. rewrite En in Hn. by repeat case_bool_decide; auto.
    + intros n En. rewrite En in Hc. by repeat case_bool_decide; auto.
    + intros ->. simpl in *. by boolify.
    + destruct (_placement_for _ _) as [p|]; [|done]. exists p. split; [done|].
      intros Hw. rewrite Hw in Hp. by destruct (writable p).
  - intros [Hn Hc (?&?&?) (?&?&?&?) Hm Hp (p & Hpl & Hw)]. rewrite Hpl, when_nil.
    split_and!; try (by repeat match goal with E : _ = _ |- _ => rewrite E end).
    + destruct (required_node request) as [n|]; [|done].
      destruct (Hn n eq_refl); repeat case_bool_decide; done.
    + destruct (required_connector request) as [n|]; [|done].
      destruct (Hc n eq_refl); repeat case_bool_decide; done.
    + rewrite bool_decide_eq_true_2; [done|set_solver].
    + destruct production_mode; [|done]. destruct Hp as [-> ?]; [done|].
      by rewrite bool_decide_eq_true_2.
    + destruct production_mode; [|done]. destruct Hp as [? ->]; [done|].
      by rewrite bool_decide_eq_true_2.
    + destruct (_needs_write required); [by rewrite Hw|by rewrite andb_false_r].
Qed.

(** A base decision that allows makes the second policy check pass exactly when the
    connector is certified for what the base granted. *)
Lemma evaluate_candidate pol request base cand :
  evaluate pol request None = Ok base → allowed base = true →
  granted_capabilities base ⊆ certified_capabilities cand →
  ∃ d, evaluate pol request (Some cand) = Ok d ∧ allowed d = true.
Proof.
  intros Hb Ha Hsub. pose proof (evaluate_granted _ _ _ _ Hb) as Hb'. rewrite Ha in Hb'. destruct Hb' as (p & [] & _).
  destruct (grantable_evaluate pol request (Some cand) p (granted_capabilities base)) as (d & ? & ? & _); [|by exists d].
  split; try done. intros c [= <-]. done.
Qed.

Lemma candidate_eligible pol request base node cid c cand :
  evaluate pol request None = Ok base → allowed base = true →
  candidate_for production_mode pol request (granted_capabilities base) node cid c = Ok cand →
  cand_node_id cand = node_id node ∧ cand_connector_id cand = cid ∧
  (eligible cand = true ↔ admissible request (granted_capabilities base) node cid c).
Proof.
  intros Hb Ha. unfold candidate_for.
  destruct (evaluate pol request (Some _)) as [d|] eqn:Ed; simpl; [|done].
  intros [= <-]; simpl. split_and!; [done..|].
  rewrite bool_decide_eq_true, app_nil, gate_reasons_nil. split; [by intros []|].
  intros Had. split; [done|].
  destruct (evaluate_candidate pol request base
    {| cand_node_id := node_id node; cand_connector_id := cid;
       cand_policy_profile := policy_profile request;
       certified_capabilities := sc_certified_capabilities c;
       score := 0; eligible := false; rejection_reasons := []; scoring_factors := [] |})
    as (d' & Ed' & Had'); [done|done|by destruct Had|].
  rewrite Ed in Ed'. simplify_eq. by rewrite Had'.
Qed.

Lemma elem_of_traverse {A B} (f : A → res B) l ys :
  traverse f l = Ok ys →
  (∀ y, y ∈ ys ↔ ∃ x, x ∈ l ∧ f x = Ok y) ∧ (∀ x, x ∈ l → ∃ y, f x = Ok y).
Proof.
  revert ys. induction l as [|x l IH]; intros ys; simpl.
  { intros [= <-]. set_solver. }
  destruct (f x) as [y|] eqn:Ey; simpl; [|done].
  destruct (traverse f l) as [ys'|]; simpl; [|done]. intros [= <-].
  destruct (IH _ eq_refl) as [IH1 IH2]. split.
  - intros z. rewrite elem_of_cons, IH1. split.
    + intros [->|(x' & ? & ?)]; [exists x|exists x']; set_solver.
    + intros (x' & [->|?]%elem_of_cons & E); [left; congruence|right; eauto].
  - intros x' [->|?]%elem_of_cons; eauto.
Qed.

Lemma elem_of_pairs nodes node cid c :
  (node, cid, c) ∈ pairs nodes ↔ node ∈ nodes ∧ connectors node !! cid = Some c.
Proof.
  unfold pairs. rewrite list_elem_of_bind. split.
  - intros (node' & Hin & Hn%elem_of_py_sorted).
    apply list_elem_of_bind in Hin as (cid' & Hin & _).
    destruct (connectors node' !! cid') eqn:E; set_unfold; naive_solver.
  - intros [Hn Hc]. exists node. split; [|by apply elem_of_py_sorted].
    apply list_elem_of_bind. exists cid. rewrite Hc. split; [set_solver|].
    apply elem_of_py_sorted, elem_of_elements, elem_of_dom. by eexists.
Qed.

Lemma cand_leb_total a b : cand_leb a b = true ∨ cand_leb b a = true.
Proof.
  unfold cand_leb. destruct (eligible a), (eligible b); simpl; auto;
    repeat case_bool_decide; simpl; try congruence; auto;
    try apply str_leb_total;
    destruct (Z.ltb_spec (score b) (score a)), (Z.ltb_spec (score a) (score b)); auto; lia.
Qed.

Lemma cand_leb_trans a b c :
  cand_leb a b = true → cand_leb b c = true → cand_leb a c = true.
Proof.
  unfold cand_leb. destruct (eligible a), (eligible b), (eligible c); simpl; try done;
    repeat case_bool_decide; simpl; rewrite ?Z.ltb_lt; intros Hab Hbc; try lia;
    try congruence;
    repeat match goal with E : cand_node_id _ = cand_node_id _ |- _ => rewrite E in * end;
    first [done | by eapply str_leb_trans | exfalso; eauto using str_leb_antisym].
Qed.
End scheduler_lemmas.

(** ** Properties *)

Section scheduler_properties.
Context `{HashOrder}.
Context (production_mode : bool).

Lemma rank_Ok pol request nodes l base :
  evaluate pol request None = Ok base → allowed base = true →
  rank_candidates production_mode pol request nodes = Ok l →
  ∃ cs, l = py_sorted cand_leb cs ∧
    traverse (λ '(node, cid, c), candidate_for production_mode pol request
               (granted_capabilities base) node cid c) (pairs nodes) = Ok cs.
Proof.
  intros Hb Ha. unfold rank_candidates. rewrite Hb; simpl. rewrite Ha; simpl.
  destruct (traverse _ _) as [cs|]; simpl; [|done]. intros [= <-]. by exists cs.
Qed.

(** for a request the policy allows, a ranked candidate is eligible exactly when
    it comes from a node and one of its connectors that pass every gate: the required
    node and connector, liveness, readiness, certification of all granted
    capabilities, a placement that is writable when writing is granted, and in
    production node-attested evidence from a remote node. *)
Theorem eligible_iff_admissible pol request nodes l base :
  evaluate pol request None = Ok base → allowed base = true →
  rank_candidates production_mode pol request nodes = Ok l →
  (∀ cand, cand ∈ l → eligible cand = true →
     ∃ node c, node ∈ nodes ∧ node_id node = cand_node_id cand ∧
       connectors node !! cand_connector_id cand = Some c ∧
       admissible production_mode request (granted_capabilities base) node
         (cand_connector_id cand) c) ∧
  (∀ node cid c, node ∈ nodes → connectors node !! cid = Some c →
     ∃ cand, cand ∈ l ∧ cand_node_id cand = node_id node ∧
       cand_connector_id cand = cid ∧
       (eligible cand = true ↔
        admissible production_mode request (granted_capabilities base) node cid c)).
Proof.
  intros Hb Ha Hr. destruct (rank_Ok _ _ _ _ _ Hb Ha Hr) as (cs & -> & Hm).
  destruct (elem_of_traverse _ _ _ Hm) as [Hin Hall]. split.
  - intros cand Hc He. apply elem_of_py_sorted, Hin in Hc as ([[node cid] c] & Hp & Hcf).
    apply elem_of_pairs in Hp as [Hn Hc].
    destruct (candidate_eligible _ _ _ _ _ _ _ _ Hb Ha Hcf) as (E1 & E2 & Hadm).
    exists node, c. rewrite E2. naive_solver.
  - intros node cid c Hn Hc.
    assert ((node, cid, c) ∈ pairs nodes) as Hp by by apply elem_of_pairs.
    destruct (Hall _ Hp) as [cand Hcf]. exists cand.
    destruct (candidate_eligible _ _ _ _ _ _ _ _ Hb Ha Hcf) as (E1 & E2 & Hadm).
    split; [|done]. apply elem_of_py_sorted, Hin. by exists (node, cid, c).
Qed.

(** the ranking starts with a best candidate: when any candidate is eligible the
    first one is, with the highest score among the eligible ones. *)
Theorem head_is_best pol request nodes l cand :
  rank_candidates production_mode pol request nodes = Ok l →
  cand ∈ l → eligible cand = true →
  ∃ best, head l = Some best ∧ eligible best = true ∧ (score cand ≤ score best)%Z.
Proof.
  unfold rank_candidates. destruct (evaluate pol request None) as [base|]; simpl; [|done].
  destruct (allowed base); simpl.
  2: { intros [= <-] ->%list_elem_of_singleton. done. }
  destruct (traverse _ _) as [cs|]; simpl; [|done]. intros [= <-] Hin He.
  destruct (head (py_sorted cand_leb cs)) as [best|] eqn:Eh.
  2: { apply head_None in Eh. rewrite Eh in Hin. set_solver. }
  exists best. split; [done|]. apply elem_of_py_sorted in Hin.
  pose proof (py_sorted_head_le cand_leb cand_leb_total cand_leb_trans best cs cand Eh Hin)
    as Hle. unfold cand_leb in Hle. rewrite He in Hle.
  destruct (eligible best); simpl in Hle; [|done]. split; [done|].
  case_bool_decide; simpl in Hle; [lia|]. apply Z.ltb_lt in Hle. lia.
Qed.

Lemma pairs_permutation nodes nodes' :
  nodes ≡ₚ nodes' → NoDup (node_id <$> nodes) → pairs nodes = pairs nodes'.
Proof.
  intros Hp Hnd. unfold pairs. f_equal.
  eapply (StronglySorted_unique_strong (λ a b, str_leb (node_id a) (node_id b) = true)).
  - intros x y Hx%elem_of_py_sorted Hy%elem_of_py_sorted Hxy Hyx.
    pose proof (str_leb_antisym _ _ Hxy Hyx) as Heq. rewrite <-Hp in Hy.
    apply list_elem_of_lookup in Hx as [i Hi]. apply list_elem_of_lookup in Hy as [j Hj].
    assert (i = j) as ->; [|congruence].
    eapply (NoDup_lookup _ _ _ (node_id x) Hnd); rewrite list_lookup_fmap.
    + by rewrite Hi.
    + rewrite Hj. simpl. by rewrite Heq.
  - apply py_sorted_Sorted; [intros; apply str_leb_total | intros ???; apply str_leb_trans].
  - apply py_sorted_Sorted; [intros; apply str_leb_total | intros ???; apply str_leb_trans].
  - by rewrite !py_sorted_Permutation.
Qed.

(** the ranking is deterministic: nodes with distinct identifiers listed in any
    order give the same result, candidates, scores, reasons and order included. *)
Theorem rank_permutation pol request nodes nodes' :
  nodes ≡ₚ nodes' → NoDup (node_id <$> nodes) →
  rank_candidates production_mode pol request nodes =
  rank_candidates production_mode pol request nodes'.
Proof.
  intros Hp Hnd. unfold rank_candidates. by rewrite (pairs_permutation _ _ Hp Hnd).
Qed.
End scheduler_properties.

(** ** Witnesses *)

#[local] Existing Instance elements_order.

Definition sample_connector : SchedulerConnectorSnapshot :=
  {| sc_connector_id := "codex"; installed := true; readiness := READY;
     authenticated := true; routing_enabled := true;
     sc_certified_capabilities :=
       {[ "repository.read"; "filesystem.read"; "workspace.contained" ]};
     trust_level := Some NODE_ATTESTED; execution_origin := Some REMOTE_NODE |}.
Definition sample_node (id : string) : SchedulerNodeSnapshot :=
  {| node_id := id; online := true; revoked := false; session_authenticated := true;
     connectors := {[ "codex" := sample_connector ]};
     placements := [{| pl_workspace_id := "ws"; pl_node_id := id; local_path := "/w";
                       fingerprint := "f"; writable := false; last_verified_at := 0;
                       expose_path := false |}];
     concurrency := 1; queue_depth := 0; recent_failures := 0 |}.

Definition sample_ranking (nodes : list SchedulerNodeSnapshot) : res (list RouteCandidate) :=
  rank_candidates true sample_engine (sample_request "read_only") nodes.

Lemma eligible_iff_admissible_witness :
  ∃ base l, evaluate sample_engine (sample_request "read_only") None = Ok base ∧
    sample_ranking [sample_node "n1"; sample_node "n0"] = Ok l ∧
    ∃ cand, cand ∈ l ∧ cand_node_id cand = "n1" ∧ cand_connector_id cand = "codex" ∧
      (eligible cand = true ↔ admissible true (sample_request "read_only")
         (granted_capabilities base) (sample_node "n1") "codex" sample_connector).
Proof.
  eexists _, _. split; [vm_compute; reflexivity|]. split; [vm_compute; reflexivity|].
  refine (proj2 (eligible_iff_admissible true sample_engine (sample_request "read_only")
    [sample_node "n1"; sample_node "n0"] _ _ _ _ _) (sample_node "n1") "codex"
    sample_connector _ _).
  - vm_compute. reflexivity.
  - reflexivity.
  - vm_compute. reflexivity.
  - left.
  - reflexivity.
Defined.

Lemma head_is_best_witness :
  ∃ l cand best, sample_ranking [sample_node "n1"; sample_node "n0"] = Ok l ∧ cand ∈ l ∧
    head l = Some best ∧ eligible best = true ∧ (score cand ≤ score best)%Z.
Proof.
  eexists _, _.
  edestruct (head_is_best true sample_engine (sample_request "read_only")
    [sample_node "n1"; sample_node "n0"]) as (best & Hh & He & Hs);
    [vm_compute; reflexivity|left|reflexivity|].
  exists best. split; [vm_compute; reflexivity|]. split; [left|].
  split; [exact Hh|]. split; [exact He|exact Hs].
Defined.

Lemma rank_permutation_witness :
  sample_ranking [sample_node "n1"; sample_node "n0"] =
  sample_ranking [sample_node "n0"; sample_node "n1"] ∧
  is_ok (sample_ranking [sample_node "n1"; sample_node "n0"]).
Proof.
  split; [|vm_compute; exact I].
  apply (rank_permutation true sample_engine (sample_request "read_only")).
  - apply Permutation_swap.
  - refine (bool_decide_unpack _ _). vm_compute. exact I.
Defined.
