(* ===== verification/CompletionModels.v ===== *)
(** * Completion states and records

    [runtime_v1/completion/states.py], [completion/models.py] and the
    [ExecutionResult] of [execution_routing/models.py]. Values that the source holds as
    [dict[str, Any]] are [dict]s; times are microseconds. *)

From S2P Require Import Prelude.

(* @src runtime_v1/completion/states.py:8-24 CompletionLifecycleState *)
Inductive CompletionLifecycleState :=
| QUEUED | ROUTING | PREPARING | RUNNING | BACKEND_COMPLETED | EVIDENCE_PENDING
| EVIDENCE_ACCEPTED | VERIFICATION_PENDING | VERIFYING | VERIFIED | FINALISING
| COMPLETED | FAILED | BLOCKED | CANCELLED | TIMED_OUT.

#[export] Instance CompletionLifecycleState_eq_dec : EqDecision CompletionLifecycleState.
Proof. solve_decision. Defined.

(* @src runtime_v1/completion/states.py:8-24 CompletionLifecycleState.value *)
Definition CompletionLifecycleState_value (x : CompletionLifecycleState) : string :=
  match x with
  | QUEUED => "queued"
  | ROUTING => "routing"
  | PREPARING => "preparing"
  | RUNNING => "running"
  | BACKEND_COMPLETED => "backend_completed"
  | EVIDENCE_PENDING => "evidence_pending"
  | EVIDENCE_ACCEPTED => "evidence_accepted"
  | VERIFICATION_PENDING => "verification_pending"
  | VERIFYING => "verifying"
  | VERIFIED => "verified"
  | FINALISING => "finalising"
  | COMPLETED => "completed"
  | FAILED => "failed"
  | BLOCKED => "blocked"
  | CANCELLED => "cancelled"
  | TIMED_OUT => "timed_out"
  end.

(* @src runtime_v1/completion/states.py:28-36 TERMINAL_COMPLETION_STATES *)
Definition TERMINAL_COMPLETION_STATES : list CompletionLifecycleState :=
  [COMPLETED; FAILED; BLOCKED; CANCELLED; TIMED_OUT].

(* @src runtime_v1/completion/states.py:38-47 RESUMABLE_COMPLETION_STATES *)
Definition RESUMABLE_COMPLETION_STATES : list CompletionLifecycleState :=
  [BACKEND_COMPLETED; EVIDENCE_PENDING; EVIDENCE_ACCEPTED; VERIFICATION_PENDING;
   VERIFYING; FINALISING].

(* @src runtime_v1/completion/states.py:49-54 EvidenceTrustClassification *)
Inductive EvidenceTrustClassification :=
| TRUST_UNTRUSTED_BACKEND_OUTPUT | TRUST_DECLARED | TRUST_ACCEPTED
| TRUST_VERIFIED | TRUST_REJECTED.

#[export] Instance EvidenceTrustClassification_eq_dec : EqDecision EvidenceTrustClassification.
Proof. solve_decision. Defined.

(* @src runtime_v1/completion/states.py:49-54 EvidenceTrustClassification.value *)
Definition EvidenceTrustClassification_value (x : EvidenceTrustClassification) : string :=
  match x with
  | TRUST_UNTRUSTED_BACKEND_OUTPUT => "untrusted_backend_output"
  | TRUST_DECLARED => "declared"
  | TRUST_ACCEPTED => "accepted"
  | TRUST_VERIFIED => "verified"
  | TRUST_REJECTED => "rejected"
  end.

(* @src runtime_v1/completion/states.py:57-64 VerificationOutcome *)
Inductive VerificationOutcome :=
| VO_VERIFIED | VO_FAILED | VO_INCONCLUSIVE | VO_BLOCKED | VO_CANCELLED
| VO_VERIFICATION_ERROR | VO_PENDING_HUMAN_APPROVAL.

#[export] Instance VerificationOutcome_eq_dec : EqDecision VerificationOutcome.
Proof. solve_decision. Defined.

(* @src runtime_v1/completion/states.py:57-64 VerificationOutcome.value *)
Definition VerificationOutcome_value (x : VerificationOutcome) : string :=
  match x with
  | VO_VERIFIED => "verified"
  | VO_FAILED => "failed"
  | VO_INCONCLUSIVE => "inconclusive"
  | VO_BLOCKED => "blocked"
  | VO_CANCELLED => "cancelled"
  | VO_VERIFICATION_ERROR => "verification_error"
  | VO_PENDING_HUMAN_APPROVAL => "pending_human_approval"
  end.

(* @src runtime_v1/completion/states.py:67-82 EvidenceRejectionReason *)
Inductive EvidenceRejectionReason :=
| RR_IDENTITY_MISMATCH | RR_WRONG_TENANT | RR_WRONG_PROJECT | RR_WRONG_MISSION
| RR_WRONG_EXECUTION | RR_WRONG_ATTEMPT | RR_INVALID_SEQUENCE
| RR_DUPLICATE_CONFLICTING | RR_UNSUPPORTED_TYPE | RR_OVERSIZED
| RR_INVALID_CONTENT_HASH | RR_MISSING_PROVENANCE | RR_STALE_ATTEMPT
| RR_LATE_AFTER_TERMINAL | RR_CANCELLED_EXECUTION.

#[export] Instance EvidenceRejectionReason_eq_dec : EqDecision EvidenceRejectionReason.
Proof. solve_decision. Defined.

(* @src runtime_v1/completion/states.py:67-82 EvidenceRejectionReason.value *)
Definition EvidenceRejectionReason_value (x : EvidenceRejectionReason) : string :=
  match x with
  | RR_IDENTITY_MISMATCH => "identity_mismatch"
  | RR_WRONG_TENANT => "wrong_tenant"
  | RR_WRONG_PROJECT => "wrong_project"
  | RR_WRONG_MISSION => "wrong_mission"
  | RR_WRONG_EXECUTION => "wrong_execution"
  | RR_WRONG_ATTEMPT => "wrong_attempt"
  | RR_INVALID_SEQUENCE => "invalid_sequence"
  | RR_DUPLICATE_CONFLICTING => "duplicate_conflicting"
  | RR_UNSUPPORTED_TYPE => "unsupported_evidence_type"
  | RR_OVERSIZED => "oversized_evidence"
  | RR_INVALID_CONTENT_HASH => "invalid_content_hash"
  | RR_MISSING_PROVENANCE => "missing_provenance"
  | RR_STALE_ATTEMPT => "stale_attempt"
  | RR_LATE_AFTER_TERMINAL => "late_evidence_after_terminal_state"
  | RR_CANCELLED_EXECUTION => "cancelled_execution"
  end.

(* @src runtime_v1/completion/states.py:85-99 CompletionFailureClass *)
Inductive CompletionFailureClass :=
| FC_EVIDENCE_REJECTED | FC_EVIDENCE_MISSING | FC_VERIFICATION_FAILED
| FC_VERIFICATION_INCONCLUSIVE | FC_VERIFICATION_TIMEOUT | FC_VERIFICATION_ERROR
| FC_STALE_ATTEMPT | FC_SUPERSEDED_ATTEMPT | FC_LATE_EVENT
| FC_USAGE_FINALISATION_FAILED | FC_MISSION_PROJECTION_FAILED
| FC_RESTORE_FAILED | FC_CLEANUP_FAILED | FC_LEASE_LOST.

#[export] Instance CompletionFailureClass_eq_dec : EqDecision CompletionFailureClass.
Proof. solve_decision. Defined.

(* @src runtime_v1/completion/states.py:85-99 CompletionFailureClass.value *)
Definition CompletionFailureClass_value (x : CompletionFailureClass) : string :=
  match x with
  | FC_EVIDENCE_REJECTED => "evidence_rejected"
  | FC_EVIDENCE_MISSING => "evidence_missing"
  | FC_VERIFICATION_FAILED => "verification_failed"
  | FC_VERIFICATION_INCONCLUSIVE => "verification_inconclusive"
  | FC_VERIFICATION_TIMEOUT => "verification_timeout"
  | FC_VERIFICATION_ERROR => "verification_error"
  | FC_STALE_ATTEMPT => "stale_attempt"
  | FC_SUPERSEDED_ATTEMPT => "superseded_attempt"
  | FC_LATE_EVENT => "late_event"
  | FC_USAGE_FINALISATION_FAILED => "usage_finalisation_failed"
  | FC_MISSION_PROJECTION_FAILED => "mission_projection_failed"
  | FC_RESTORE_FAILED => "restore_failed"
  | FC_CLEANUP_FAILED => "cleanup_failed"
  | FC_LEASE_LOST => "lease_lost"
  end.

(** ** Evidence *)

(* @src runtime_v1/completion/models.py:21-32 CandidateEvidence *)
Record CandidateEvidence := {
  ce_evidence_type : string;
  ce_content_ref : option string;
  ce_content_hash : option string;
  ce_size_bytes : Z;
  ce_sequence : Z;
  ce_provenance : dict;
  ce_payload : dict;
  ce_evidence_id : string
}.

(* @src runtime_v1/completion/models.py:34-44 CandidateEvidence.as_dict *)
Definition CandidateEvidence_as_dict (c : CandidateEvidence) : dict :=
  [("evidence_id", PStr (ce_evidence_id c)); ("evidence_type", PStr (ce_evidence_type c));
   ("content_ref", ostr (ce_content_ref c)); ("content_hash", ostr (ce_content_hash c));
   ("size_bytes", PInt (ce_size_bytes c)); ("sequence", PInt (ce_sequence c));
   ("provenance", PDict (ce_provenance c)); ("payload", PDict (ce_payload c))].

(* @src runtime_v1/completion/models.py:47-69 EvidenceEnvelope *)
Record EvidenceEnvelope := {
  ev_evidence_id : string;
  ev_execution_id : string;
  ev_attempt_id : string;
  ev_mission_id : string;
  ev_project_id : option string;
  ev_organisation_id : option string;
  ev_evidence_type : string;
  ev_source_backend : string;
  ev_source_harness : option string;
  ev_content_ref : option string;
  ev_content_hash : option string;
  ev_size_bytes : Z;
  ev_sequence : Z;
  ev_trust : EvidenceTrustClassification;
  ev_producer_identity : string;
  ev_provenance : dict;
  ev_payload : dict;
  ev_created_at : Z;
  ev_rejection_reason : option EvidenceRejectionReason
}.

(* @src runtime_v1/completion/models.py:71-92 EvidenceEnvelope.as_dict *)
Definition EvidenceEnvelope_as_dict `{PyLib} (e : EvidenceEnvelope) : dict :=
  [("evidence_id", PStr (ev_evidence_id e)); ("execution_id", PStr (ev_execution_id e));
   ("attempt_id", PStr (ev_attempt_id e)); ("mission_id", PStr (ev_mission_id e));
   ("project_id", ostr (ev_project_id e)); ("organisation_id", ostr (ev_organisation_id e));
   ("evidence_type", PStr (ev_evidence_type e));
   ("source_backend", PStr (ev_source_backend e));
   ("source_harness", ostr (ev_source_harness e));
   ("content_ref", ostr (ev_content_ref e)); ("content_hash", ostr (ev_content_hash e));
   ("size_bytes", PInt (ev_size_bytes e)); ("sequence", PInt (ev_sequence e));
   ("trust", PStr (EvidenceTrustClassification_value (ev_trust e)));
   ("producer_identity", PStr (ev_producer_identity e));
   ("provenance", PDict (ev_provenance e)); ("payload", PDict (ev_payload e));
   ("created_at", PStr (isoformat (ev_created_at e)));
   ("rejection_reason", ostr (EvidenceRejectionReason_value <$> ev_rejection_reason e))].

(** ** Verification *)

(* @src runtime_v1/completion/models.py:95-105 VerificationRequest *)
Record VerificationRequest := {
  vr_mission_id : string;
  vr_execution_id : string;
  vr_attempt_id : string;
  vr_strategy : string;
  vr_required_evidence_types : list string;
  vr_policy : dict;
  vr_accepted_evidence : list EvidenceEnvelope;
  vr_backend_ok : bool;
  vr_restore_ok : bool
}.

(* @src runtime_v1/completion/models.py:108-114 VerificationResult *)
Record VerificationResult := {
  vs_outcome : VerificationOutcome;
  vs_strategy : string;
  vs_detail : string;
  vs_failure_class : option CompletionFailureClass;
  vs_checks : dict
}.

(* @src runtime_v1/completion/models.py:116-123 VerificationResult.as_dict *)
Definition VerificationResult_as_dict (v : VerificationResult) : dict :=
  [("outcome", PStr (VerificationOutcome_value (vs_outcome v)));
   ("strategy", PStr (vs_strategy v)); ("detail", PStr (vs_detail v));
   ("failure_class", ostr (CompletionFailureClass_value <$> vs_failure_class v));
   ("checks", PDict (vs_checks v))].

(** ** Usage *)

(* @src runtime_v1/completion/models.py:126-135 UsageFact *)
Record UsageFact := {
  uf_organisation_id : pyval;
  uf_project_id : pyval;
  uf_mission_id : string;
  uf_execution_id : string;
  uf_attempt_id : string;
  uf_backend_id : string;
  uf_harness_id : pyval;
  uf_facts : dict
}.

(* @src runtime_v1/completion/models.py:137-147 UsageFact.as_dict *)
Definition UsageFact_as_dict (u : UsageFact) : dict :=
  [("organisation_id", uf_organisation_id u); ("project_id", uf_project_id u);
   ("mission_id", PStr (uf_mission_id u)); ("execution_id", PStr (uf_execution_id u));
   ("attempt_id", PStr (uf_attempt_id u)); ("backend_id", PStr (uf_backend_id u));
   ("harness_id", uf_harness_id u); ("facts", PDict (uf_facts u))].

(** ** Contexts, results and outcomes *)

(* @src runtime_v1/completion/models.py:150-169 CompletionContext *)
Record CompletionContext := {
  ctx_organisation_id : option string;
  ctx_project_id : option string;
  ctx_mission_id : string;
  ctx_execution_id : string;
  ctx_attempt_id : string;
  ctx_authoritative_attempt_id : string;
  ctx_backend_id : string;
  ctx_harness_id : option string;
  ctx_correlation_id : option string;
  ctx_user_id : option string;
  ctx_cancelled : bool;
  ctx_require_evidence : bool;
  ctx_verification_strategy : string;
  ctx_required_evidence_types : list string;
  ctx_max_evidence_bytes : Z;
  ctx_metadata : dict
}.

(** A running execution of one attempt that asks for evidence. *)
Definition sample_context : CompletionContext :=
  {| ctx_organisation_id := Some "org"; ctx_project_id := Some "proj";
     ctx_mission_id := "mission"; ctx_execution_id := "exec"; ctx_attempt_id := "a1";
     ctx_authoritative_attempt_id := "a1"; ctx_backend_id := "local";
     ctx_harness_id := Some "harness"; ctx_correlation_id := None; ctx_user_id := None;
     ctx_cancelled := false; ctx_require_evidence := true;
     ctx_verification_strategy := "required_artifact_presence";
     ctx_required_evidence_types := ["test_report"]; ctx_max_evidence_bytes := 100;
     ctx_metadata := [] |}.

(** Evidence an execution may hand in. *)
Definition sample_candidate : CandidateEvidence :=
  {| ce_evidence_type := "test_report"; ce_content_ref := None;
     ce_content_hash := Some "h1"; ce_size_bytes := 10; ce_sequence := 1;
     ce_provenance := [("execution_id", PStr "exec")]; ce_payload := [];
     ce_evidence_id := "e1" |}.

(** The fields of a backend result that completion reads. *)
(* @src runtime_v1/execution_routing/models.py:237-260 ExecutionResult *)
Record ExecutionResult := {
  xr_ok : bool;
  xr_execution_id : string;
  xr_backend_id : string;
  xr_harness_id : string;
  xr_message : string;
  xr_output : dict;
  xr_failure_class : option string;
  xr_usage : dict;
  xr_evidence_refs : list string;
  xr_candidate_verification : dict;
  xr_restore_status : option string;
  xr_verification : dict
}.

(* @src runtime_v1/completion/models.py:172-198 CompletionRecord *)
Record CompletionRecord := {
  rec_execution_id : string;
  rec_mission_id : string;
  rec_state : CompletionLifecycleState;
  rec_attempt_id : string;
  rec_authoritative_attempt_id : string;
  rec_backend_id : string;
  rec_harness_id : option string;
  rec_organisation_id : option string;
  rec_project_id : option string;
  rec_backend_ok : bool;
  rec_restore_ok : bool;
  rec_evidence_ids : list string;
  rec_verification : dict;
  rec_usage_finalised : bool;
  rec_usage_aggregate : dict;
  rec_graph_nodes : list dict;
  rec_events : list dict;
  rec_failure_class : option string;
  rec_detail : option string;
  rec_sequence : Z;
  rec_created_at : Z;
  rec_updated_at : Z;
  rec_terminal_emitted : bool
}.

(* @src runtime_v1/completion/models.py:200-225 CompletionRecord.as_dict *)
Definition CompletionRecord_as_dict `{PyLib} (r : CompletionRecord) : dict :=
  [("execution_id", PStr (rec_execution_id r)); ("mission_id", PStr (rec_mission_id r));
   ("state", PStr (CompletionLifecycleState_value (rec_state r)));
   ("attempt_id", PStr (rec_attempt_id r));
   ("authoritative_attempt_id", PStr (rec_authoritative_attempt_id r));
   ("backend_id", PStr (rec_backend_id r)); ("harness_id", ostr (rec_harness_id r));
   ("organisation_id", ostr (rec_organisation_id r));
   ("project_id", ostr (rec_project_id r)); ("backend_ok", PBool (rec_backend_ok r));
   ("restore_ok", PBool (rec_restore_ok r));
   ("evidence_ids", PList (PStr <$> rec_evidence_ids r));
   ("verification", PDict (rec_verification r));
   ("usage_finalised", PBool (rec_usage_finalised r));
   ("usage_aggregate", PDict (rec_usage_aggregate r));
   ("graph_nodes", PList (PDict <$> rec_graph_nodes r));
   ("events", PList (PDict <$> rec_events r));
   ("failure_class", ostr (rec_failure_class r)); ("detail", ostr (rec_detail r));
   ("sequence", PInt (rec_sequence r));
   ("created_at", PStr (isoformat (rec_created_at r)));
   ("updated_at", PStr (isoformat (rec_updated_at r)));
   ("terminal_emitted", PBool (rec_terminal_emitted r))].

(* @src runtime_v1/completion/models.py:228-244 CompletionOutcome *)
Record CompletionOutcome := {
  out_ok : bool;
  out_state : CompletionLifecycleState;
  out_execution_id : string;
  out_mission_id : string;
  out_attempt_id : string;
  out_detail : string;
  out_failure_class : option string;
  out_verification : dict;
  out_evidence_ids : list string;
  out_usage : dict;
  out_events : list dict;
  out_graph_nodes : list dict;
  out_record : dict
}.

(* @src runtime_v1/completion/models.py:246-261 CompletionOutcome.as_dict *)
Definition CompletionOutcome_as_dict (o : CompletionOutcome) : dict :=
  [("ok", PBool (out_ok o)); ("state", PStr (CompletionLifecycleState_value (out_state o)));
   ("execution_id", PStr (out_execution_id o)); ("mission_id", PStr (out_mission_id o));
   ("attempt_id", PStr (out_attempt_id o)); ("detail", PStr (out_detail o));
   ("failure_class", ostr (out_failure_class o));
   ("verification", PDict (out_verification o));
   ("evidence_ids", PList (PStr <$> out_evidence_ids o)); ("usage", PDict (out_usage o));
   ("events", PList (PDict <$> out_events o));
   ("graph_nodes", PList (PDict <$> out_graph_nodes o)); ("record", PDict (out_record o))].

(** ** Assignments to a record's attributes *)

(** [set_<field> v r] is [r.<field> = v]. *)
Definition set_state (v : CompletionLifecycleState) (r : CompletionRecord) : CompletionRecord :=
  {| rec_execution_id := rec_execution_id r; rec_mission_id := rec_mission_id r;
     rec_state := v; rec_attempt_id := rec_attempt_id r; rec_authoritative_attempt_id :=
     rec_authoritative_attempt_id r; rec_backend_id := rec_backend_id r; rec_harness_id
     := rec_harness_id r; rec_organisation_id := rec_organisation_id r; rec_project_id
     := rec_project_id r; rec_backend_ok := rec_backend_ok r; rec_restore_ok :=
     rec_restore_ok r; rec_evidence_ids := rec_evidence_ids r; rec_verification :=
     rec_verification r; rec_usage_finalised := rec_usage_finalised r;
     rec_usage_aggregate := rec_usage_aggregate r; rec_graph_nodes := rec_graph_nodes r;
     rec_events := rec_events r; rec_failure_class := rec_failure_class r; rec_detail :=
     rec_detail r; rec_sequence := rec_sequence r; rec_created_at := rec_created_at r;
     rec_updated_at := rec_updated_at r; rec_terminal_emitted := rec_terminal_emitted r
     |}.

Definition set_attempt_id (v : string) (r : CompletionRecord) : CompletionRecord :=
  {| rec_execution_id := rec_execution_id r; rec_mission_id := rec_mission_id r;
     rec_state := rec_state r; rec_attempt_id := v; rec_authoritative_attempt_id :=
     rec_authoritative_attempt_id r; rec_backend_id := rec_backend_id r; rec_harness_id
     := rec_harness_id r; rec_organisation_id := rec_organisation_id r; rec_project_id
     := rec_project_id r; rec_backend_ok := rec_backend_ok r; rec_restore_ok :=
     rec_restore_ok r; rec_evidence_ids := rec_evidence_ids r; rec_verification :=
     rec_verification r; rec_usage_finalised := rec_usage_finalised r;
     rec_usage_aggregate := rec_usage_aggregate r; rec_graph_nodes := rec_graph_nodes r;
     rec_events := rec_events r; rec_failure_class := rec_failure_class r; rec_detail :=
     rec_detail r; rec_sequence := rec_sequence r; rec_created_at := rec_created_at r;
     rec_updated_at := rec_updated_at r; rec_terminal_emitted := rec_terminal_emitted r
     |}.

Definition set_backend_ok (v : bool) (r : CompletionRecord) : CompletionRecord :=
  {| rec_execution_id := rec_execution_id r; rec_mission_id := rec_mission_id r;
     rec_state := rec_state r; rec_attempt_id := rec_attempt_id r;
     rec_authoritative_attempt_id := rec_authoritative_attempt_id r; rec_backend_id :=
     rec_backend_id r; rec_harness_id := rec_harness_id r; rec_organisation_id :=
     rec_organisation_id r; rec_project_id := rec_project_id r; rec_backend_ok := v;
     rec_restore_ok := rec_restore_ok r; rec_evidence_ids := rec_evidence_ids r;
     rec_verification := rec_verification r; rec_usage_finalised := rec_usage_finalised
     r; rec_usage_aggregate := rec_usage_aggregate r; rec_graph_nodes := rec_graph_nodes
     r; rec_events := rec_events r; rec_failure_class := rec_failure_class r; rec_detail
     := rec_detail r; rec_sequence := rec_sequence r; rec_created_at := rec_created_at
     r; rec_updated_at := rec_updated_at r; rec_terminal_emitted := rec_terminal_emitted
     r |}.

Definition set_restore_ok (v : bool) (r : CompletionRecord) : CompletionRecord :=
  {| rec_execution_id := rec_execution_id r; rec_mission_id := rec_mission_id r;
     rec_state := rec_state r; rec_attempt_id := rec_attempt_id r;
     rec_authoritative_attempt_id := rec_authoritative_attempt_id r; rec_backend_id :=
     rec_backend_id r; rec_harness_id := rec_harness_id r; rec_organisation_id :=
     rec_organisation_id r; rec_project_id := rec_project_id r; rec_backend_ok :=
     rec_backend_ok r; rec_restore_ok := v; rec_evidence_ids := rec_evidence_ids r;
     rec_verification := rec_verification r; rec_usage_finalised := rec_usage_finalised
     r; rec_usage_aggregate := rec_usage_aggregate r; rec_graph_nodes := rec_graph_nodes
     r; rec_events := rec_events r; rec_failure_class := rec_failure_class r; rec_detail
     := rec_detail r; rec_sequence := rec_sequence r; rec_created_at := rec_created_at
     r; rec_updated_at := rec_updated_at r; rec_terminal_emitted := rec_terminal_emitted
     r |}.

Definition set_evidence_ids (v : list string) (r : CompletionRecord) : CompletionRecord :=
  {| rec_execution_id := rec_execution_id r; rec_mission_id := rec_mission_id r;
     rec_state := rec_state r; rec_attempt_id := rec_attempt_id r;
     rec_authoritative_attempt_id := rec_authoritative_attempt_id r; rec_backend_id :=
     rec_backend_id r; rec_harness_id := rec_harness_id r; rec_organisation_id :=
     rec_organisation_id r; rec_project_id := rec_project_id r; rec_backend_ok :=
     rec_backend_ok r; rec_restore_ok := rec_restore_ok r; rec_evidence_ids := v;
     rec_verification := rec_verification r; rec_usage_finalised := rec_usage_finalised
     r; rec_usage_aggregate := rec_usage_aggregate r; rec_graph_nodes := rec_graph_nodes
     r; rec_events := rec_events r; rec_failure_class := rec_failure_class r; rec_detail
     := rec_detail r; rec_sequence := rec_sequence r; rec_created_at := rec_created_at
     r; rec_updated_at := rec_updated_at r; rec_terminal_emitted := rec_terminal_emitted
     r |}.

Definition set_verification (v : dict) (r : CompletionRecord) : CompletionRecord :=
  {| rec_execution_id := rec_execution_id r; rec_mission_id := rec_mission_id r;
     rec_state := rec_state r; rec_attempt_id := rec_attempt_id r;
     rec_authoritative_attempt_id := rec_authoritative_attempt_id r; rec_backend_id :=
     rec_backend_id r; rec_harness_id := rec_harness_id r; rec_organisation_id :=
     rec_organisation_id r; rec_project_id := rec_project_id r; rec_backend_ok :=
     rec_backend_ok r; rec_restore_ok := rec_restore_ok r; rec_evidence_ids :=
     rec_evidence_ids r; rec_verification := v; rec_usage_finalised :=
     rec_usage_finalised r; rec_usage_aggregate := rec_usage_aggregate r;
     rec_graph_nodes := rec_graph_nodes r; rec_events := rec_events r; rec_failure_class
     := rec_failure_class r; rec_detail := rec_detail r; rec_sequence := rec_sequence r;
     rec_created_at := rec_created_at r; rec_updated_at := rec_updated_at r;
     rec_terminal_emitted := rec_terminal_emitted r |}.

Definition set_usage_finalised (v : bool) (r : CompletionRecord) : CompletionRecord :=
  {| rec_execution_id := rec_execution_id r; rec_mission_id := rec_mission_id r;
     rec_state := rec_state r; rec_attempt_id := rec_attempt_id r;
     rec_authoritative_attempt_id := rec_authoritative_attempt_id r; rec_backend_id :=
     rec_backend_id r; rec_harness_id := rec_harness_id r; rec_organisation_id :=
     rec_organisation_id r; rec_project_id := rec_project_id r; rec_backend_ok :=
     rec_backend_ok r; rec_restore_ok := rec_restore_ok r; rec_evidence_ids :=
     rec_evidence_ids r; rec_verification := rec_verification r; rec_usage_finalised :=
     v; rec_usage_aggregate := rec_usage_aggregate r; rec_graph_nodes := rec_graph_nodes
     r; rec_events := rec_events r; rec_failure_class := rec_failure_class r; rec_detail
     := rec_detail r; rec_sequence := rec_sequence r; rec_created_at := rec_created_at
     r; rec_updated_at := rec_updated_at r; rec_terminal_emitted := rec_terminal_emitted
     r |}.

Definition set_usage_aggregate (v : dict) (r : CompletionRecord) : CompletionRecord :=
  {| rec_execution_id := rec_execution_id r; rec_mission_id := rec_mission_id r;
     rec_state := rec_state r; rec_attempt_id := rec_attempt_id r;
     rec_authoritative_attempt_id := rec_authoritative_attempt_id r; rec_backend_id :=
     rec_backend_id r; rec_harness_id := rec_harness_id r; rec_organisation_id :=
     rec_organisation_id r; rec_project_id := rec_project_id r; rec_backend_ok :=
     rec_backend_ok r; rec_restore_ok := rec_restore_ok r; rec_evidence_ids :=
     rec_evidence_ids r; rec_verification := rec_verification r; rec_usage_finalised :=
     rec_usage_finalised r; rec_usage_aggregate := v; rec_graph_nodes := rec_graph_nodes
     r; rec_events := rec_events r; rec_failure_class := rec_failure_class r; rec_detail
     := rec_detail r; rec_sequence := rec_sequence r; rec_created_at := rec_created_at
     r; rec_updated_at := rec_updated_at r; rec_terminal_emitted := rec_terminal_emitted
     r |}.

Definition set_graph_nodes (v : list dict) (r : CompletionRecord) : CompletionRecord :=
  {| rec_execution_id := rec_execution_id r; rec_mission_id := rec_mission_id r;
     rec_state := rec_state r; rec_attempt_id := rec_attempt_id r;
     rec_authoritative_attempt_id := rec_authoritative_attempt_id r; rec_backend_id :=
     rec_backend_id r; rec_harness_id := rec_harness_id r; rec_organisation_id :=
     rec_organisation_id r; rec_project_id := rec_project_id r; rec_backend_ok :=
     rec_backend_ok r; rec_restore_ok := rec_restore_ok r; rec_evidence_ids :=
     rec_evidence_ids r; rec_verification := rec_verification r; rec_usage_finalised :=
     rec_usage_finalised r; rec_usage_aggregate := rec_usage_aggregate r;
     rec_graph_nodes := v; rec_events := rec_events r; rec_failure_class :=
     rec_failure_class r; rec_detail := rec_detail r; rec_sequence := rec_sequence r;
     rec_created_at := rec_created_at r; rec_updated_at := rec_updated_at r;
     rec_terminal_emitted := rec_terminal_emitted r |}.

Definition set_events (v : list dict) (r : CompletionRecord) : CompletionRecord :=
  {| rec_execution_id := rec_execution_id r; rec_mission_id := rec_mission_id r;
     rec_state := rec_state r; rec_attempt_id := rec_attempt_id r;
     rec_authoritative_attempt_id := rec_authoritative_attempt_id r; rec_backend_id :=
     rec_backend_id r; rec_harness_id := rec_harness_id r; rec_organisation_id :=
     rec_organisation_id r; rec_project_id := rec_project_id r; rec_backend_ok :=
     rec_backend_ok r; rec_restore_ok := rec_restore_ok r; rec_evidence_ids :=
     rec_evidence_ids r; rec_verification := rec_verification r; rec_usage_finalised :=
     rec_usage_finalised r; rec_usage_aggregate := rec_usage_aggregate r;
     rec_graph_nodes := rec_graph_nodes r; rec_events := v; rec_failure_class :=
     rec_failure_class r; rec_detail := rec_detail r; rec_sequence := rec_sequence r;
     rec_created_at := rec_created_at r; rec_updated_at := rec_updated_at r;
     rec_terminal_emitted := rec_terminal_emitted r |}.

Definition set_failure_class (v : option string) (r : CompletionRecord) : CompletionRecord :=
  {| rec_execution_id := rec_execution_id r; rec_mission_id := rec_mission_id r;
     rec_state := rec_state r; rec_attempt_id := rec_attempt_id r;
     rec_authoritative_attempt_id := rec_authoritative_attempt_id r; rec_backend_id :=
     rec_backend_id r; rec_harness_id := rec_harness_id r; rec_organisation_id :=
     rec_organisation_id r; rec_project_id := rec_project_id r; rec_backend_ok :=
     rec_backend_ok r; rec_restore_ok := rec_restore_ok r; rec_evidence_ids :=
     rec_evidence_ids r; rec_verification := rec_verification r; rec_usage_finalised :=
     rec_usage_finalised r; rec_usage_aggregate := rec_usage_aggregate r;
     rec_graph_nodes := rec_graph_nodes r; rec_events := rec_events r; rec_failure_class
     := v; rec_detail := rec_detail r; rec_sequence := rec_sequence r; rec_created_at :=
     rec_created_at r; rec_updated_at := rec_updated_at r; rec_terminal_emitted :=
     rec_terminal_emitted r |}.

Definition set_detail (v : option string) (r : CompletionRecord) : CompletionRecord :=
  {| rec_execution_id := rec_execution_id r; rec_mission_id := rec_mission_id r;
     rec_state := rec_state r; rec_attempt_id := rec_attempt_id r;
     rec_authoritative_attempt_id := rec_authoritative_attempt_id r; rec_backend_id :=
     rec_backend_id r; rec_harness_id := rec_harness_id r; rec_organisation_id :=
     rec_organisation_id r; rec_project_id := rec_project_id r; rec_backend_ok :=
     rec_backend_ok r; rec_restore_ok := rec_restore_ok r; rec_evidence_ids :=
     rec_evidence_ids r; rec_verification := rec_verification r; rec_usage_finalised :=
     rec_usage_finalised r; rec_usage_aggregate := rec_usage_aggregate r;
     rec_graph_nodes := rec_graph_nodes r; rec_events := rec_events r; rec_failure_class
     := rec_failure_class r; rec_detail := v; rec_sequence := rec_sequence r;
     rec_created_at := rec_created_at r; rec_updated_at := rec_updated_at r;
     rec_terminal_emitted := rec_terminal_emitted r |}.

Definition set_sequence (v : Z) (r : CompletionRecord) : CompletionRecord :=
  {| rec_execution_id := rec_execution_id r; rec_mission_id := rec_mission_id r;
     rec_state := rec_state r; rec_attempt_id := rec_attempt_id r;
     rec_authoritative_attempt_id := rec_authoritative_attempt_id r; rec_backend_id :=
     rec_backend_id r; rec_harness_id := rec_harness_id r; rec_organisation_id :=
     rec_organisation_id r; rec_project_id := rec_project_id r; rec_backend_ok :=
     rec_backend_ok r; rec_restore_ok := rec_restore_ok r; rec_evidence_ids :=
     rec_evidence_ids r; rec_verification := rec_verification r; rec_usage_finalised :=
     rec_usage_finalised r; rec_usage_aggregate := rec_usage_aggregate r;
     rec_graph_nodes := rec_graph_nodes r; rec_events := rec_events r; rec_failure_class
     := rec_failure_class r; rec_detail := rec_detail r; rec_sequence := v;
     rec_created_at := rec_created_at r; rec_updated_at := rec_updated_at r;
     rec_terminal_emitted := rec_terminal_emitted r |}.

Definition set_updated_at (v : Z) (r : CompletionRecord) : CompletionRecord :=
  {| rec_execution_id := rec_execution_id r; rec_mission_id := rec_mission_id r;
     rec_state := rec_state r; rec_attempt_id := rec_attempt_id r;
     rec_authoritative_attempt_id := rec_authoritative_attempt_id r; rec_backend_id :=
     rec_backend_id r; rec_harness_id := rec_harness_id r; rec_organisation_id :=
     rec_organisation_id r; rec_project_id := rec_project_id r; rec_backend_ok :=
     rec_backend_ok r; rec_restore_ok := rec_restore_ok r; rec_evidence_ids :=
     rec_evidence_ids r; rec_verification := rec_verification r; rec_usage_finalised :=
     rec_usage_finalised r; rec_usage_aggregate := rec_usage_aggregate r;
     rec_graph_nodes := rec_graph_nodes r; rec_events := rec_events r; rec_failure_class
     := rec_failure_class r; rec_detail := rec_detail r; rec_sequence := rec_sequence r;
     rec_created_at := rec_created_at r; rec_updated_at := v; rec_terminal_emitted :=
     rec_terminal_emitted r |}.

Definition set_terminal_emitted (v : bool) (r : CompletionRecord) : CompletionRecord :=
  {| rec_execution_id := rec_execution_id r; rec_mission_id := rec_mission_id r;
     rec_state := rec_state r; rec_attempt_id := rec_attempt_id r;
     rec_authoritative_attempt_id := rec_authoritative_attempt_id r; rec_backend_id :=
     rec_backend_id r; rec_harness_id := rec_harness_id r; rec_organisation_id :=
     rec_organisation_id r; rec_project_id := rec_project_id r; rec_backend_ok :=
     rec_backend_ok r; rec_restore_ok := rec_restore_ok r; rec_evidence_ids :=
     rec_evidence_ids r; rec_verification := rec_verification r; rec_usage_finalised :=
     rec_usage_finalised r; rec_usage_aggregate := rec_usage_aggregate r;
     rec_graph_nodes := rec_graph_nodes r; rec_events := rec_events r; rec_failure_class
     := rec_failure_class r; rec_detail := rec_detail r; rec_sequence := rec_sequence r;
     rec_created_at := rec_created_at r; rec_updated_at := rec_updated_at r;
     rec_terminal_emitted := v |}.

