(* ===== verification/Verification.v ===== *)
(** * Verification strategies over accepted evidence

    [runtime_v1/completion/verification.py]. A [composite] request verifies child
    requests under a policy nested in its own; the recursion runs on fuel, and the
    size of the policy is enough ([verify_some]). *)

From S2P Require Import Prelude CompletionModels.

Section verification.
Context `{PyLib}.

(** [item not in s] for members of a tuple and a set (or the keys of a dictionary):
    an item that cannot be hashed raises. *)
Fixpoint not_in (items : list pyval) (s : list string) : res (list pyval) :=
  match items with
  | [] => Ok []
  | x :: items' =>
      if hashable x then
        res_bind (not_in items' s) (λ r,
          Ok (match x with
              | PStr k => if k in? s then r else x :: r
              | _ => x :: r
              end))
      else Raise (TypeError "unhashable type")
  end.

Definition policy_of (r : VerificationRequest) (k : string) : pyval := dget k (vr_policy r).

(* @src runtime_v1/completion/verification.py:74-104 VerificationService._backend_success_with_evidence *)
Definition _backend_success_with_evidence (r : VerificationRequest) : VerificationResult :=
  if negb (vr_backend_ok r) then
    {| vs_outcome := VO_FAILED; vs_strategy := vr_strategy r;
       vs_detail := "backend did not succeed";
       vs_failure_class := Some FC_VERIFICATION_FAILED;
       vs_checks := [("backend_ok", PBool false)] |}
  else
  let missing := filter
    (λ item, item ∉ (ev_evidence_type <$> vr_accepted_evidence r))
    (vr_required_evidence_types r) in
  if negb (missing == []) then
    {| vs_outcome := VO_FAILED; vs_strategy := vr_strategy r;
       vs_detail := "missing required evidence: " +:+ join ", " missing;
       vs_failure_class := Some FC_EVIDENCE_MISSING;
       vs_checks := [("missing", PList (PStr <$> missing))] |}
  else
    {| vs_outcome := VO_VERIFIED; vs_strategy := vr_strategy r;
       vs_detail := "backend success with required evidence";
       vs_failure_class := None;
       vs_checks := [("backend_ok", PBool true);
                     ("evidence_count", PInt (Z.of_nat (length (vr_accepted_evidence r))))] |}.

(** The set [present]: its members, sorted, each once. *)
Definition present_artifacts (r : VerificationRequest) : list string :=
  sorted_strs (elements (list_to_set
    ((λ ev, py_str (py_or (dget "artifact" (ev_payload ev))
                     (py_or (ostr (ev_content_ref ev)) (PStr (ev_evidence_type ev)))))
       <$> vr_accepted_evidence r) : gset string)).

(* @src runtime_v1/completion/verification.py:106-128 VerificationService._artifact_existence *)
Definition _artifact_existence (r : VerificationRequest) : res VerificationResult :=
  res_bind (py_tuple (py_or (policy_of r "required_artifacts")
                            (PList (PStr <$> vr_required_evidence_types r)))) (λ required,
  let present := present_artifacts r in
  res_bind (not_in required present) (λ missing,
  match missing with
  | _ :: _ =>
      res_bind (strs_of missing) (λ names,
      Ok {| vs_outcome := VO_FAILED; vs_strategy := "artifact_existence";
            vs_detail := "missing artifacts: " +:+ join ", " names;
            vs_failure_class := Some FC_EVIDENCE_MISSING;
            vs_checks := [("missing", PList missing)] |})
  | [] =>
      Ok {| vs_outcome := VO_VERIFIED; vs_strategy := "artifact_existence";
            vs_detail := "required artifacts present"; vs_failure_class := None;
            vs_checks := [("artifacts", PList (PStr <$> present))] |}
  end)).

(* @src runtime_v1/completion/verification.py:130-153 VerificationService._test_command *)
Definition _test_command (r : VerificationRequest) : VerificationResult :=
  match list_find (λ ev, ev_evidence_type ev ∈ ["test_summary"; "test_command"])
          (vr_accepted_evidence r) with
  | Some (_, ev) =>
      let p := ev_payload ev in
      if truthy (match dict_get "passed" p with Some v => v | None => dget "ok" p end) then
        {| vs_outcome := VO_VERIFIED; vs_strategy := "test_command";
           vs_detail := "tests passed"; vs_failure_class := None; vs_checks := p |}
      else
        {| vs_outcome := VO_FAILED; vs_strategy := "test_command";
           vs_detail := "tests failed"; vs_failure_class := Some FC_VERIFICATION_FAILED;
           vs_checks := p |}
  | None =>
      {| vs_outcome := VO_FAILED; vs_strategy := "test_command";
         vs_detail := "no test evidence"; vs_failure_class := Some FC_EVIDENCE_MISSING;
         vs_checks := [] |}
  end.

(* @src runtime_v1/completion/verification.py:155-177 VerificationService._content_hash_match *)
Definition _content_hash_match (r : VerificationRequest) : VerificationResult :=
  let expected := py_str (py_or (policy_of r "expected_hash") (PStr "")) in
  if expected == "" then
    {| vs_outcome := VO_INCONCLUSIVE; vs_strategy := "content_hash_match";
       vs_detail := "expected_hash not configured";
       vs_failure_class := Some FC_VERIFICATION_INCONCLUSIVE; vs_checks := [] |}
  else if existsb (λ ev, ev_content_hash ev == Some expected) (vr_accepted_evidence r) then
    {| vs_outcome := VO_VERIFIED; vs_strategy := "content_hash_match";
       vs_detail := "content hash matched"; vs_failure_class := None;
       vs_checks := [("hash", PStr expected)] |}
  else
    {| vs_outcome := VO_FAILED; vs_strategy := "content_hash_match";
       vs_detail := "content hash mismatch";
       vs_failure_class := Some FC_VERIFICATION_FAILED; vs_checks := [] |}.

(* @src runtime_v1/completion/verification.py:179-201 VerificationService._schema_validation *)
Definition _schema_validation (r : VerificationRequest) : res VerificationResult :=
  res_bind (py_tuple (py_or (policy_of r "required_keys") (PList []))) (λ required_keys,
  match list_find (λ ev, ev_evidence_type ev = "structured_result")
          (vr_accepted_evidence r) with
  | Some (_, ev) =>
      res_bind (not_in required_keys (dict_keys (ev_payload ev))) (λ missing,
      match missing with
      | _ :: _ =>
          res_bind (strs_of missing) (λ names,
          Ok {| vs_outcome := VO_FAILED; vs_strategy := "schema_validation";
                vs_detail := "schema missing keys: " +:+ join ", " names;
                vs_failure_class := Some FC_VERIFICATION_FAILED; vs_checks := [] |})
      | [] =>
          Ok {| vs_outcome := VO_VERIFIED; vs_strategy := "schema_validation";
                vs_detail := "schema valid"; vs_failure_class := None; vs_checks := [] |}
      end)
  | None =>
      Ok {| vs_outcome := VO_FAILED; vs_strategy := "schema_validation";
            vs_detail := "no structured_result evidence";
            vs_failure_class := Some FC_EVIDENCE_MISSING; vs_checks := [] |}
  end).

Definition is_true (v : pyval) : bool := match v with PBool true => true | _ => false end.
Definition is_false (v : pyval) : bool := match v with PBool false => true | _ => false end.

(** The verdict the first deciding piece of evidence gives. *)
(* @src runtime_v1/completion/verification.py:204-221 VerificationService._remote_verifier *)
Fixpoint remote_verdict (evs : list EvidenceEnvelope) : option VerificationResult :=
  match evs with
  | [] => None
  | ev :: evs' =>
      if ev_evidence_type ev in? ["remote_verification"; "verification"] then
        let outcome := py_str (py_or (dget "outcome" (ev_payload ev)) (PStr "")) in
        if (outcome == "verified") || is_true (dget "passed" (ev_payload ev)) then
          Some {| vs_outcome := VO_VERIFIED; vs_strategy := "remote_verifier_event";
                  vs_detail := "remote verifier accepted"; vs_failure_class := None;
                  vs_checks := ev_payload ev |}
        else if (outcome == "failed") || is_false (dget "passed" (ev_payload ev)) then
          Some {| vs_outcome := VO_FAILED; vs_strategy := "remote_verifier_event";
                  vs_detail := "remote verifier rejected";
                  vs_failure_class := Some FC_VERIFICATION_FAILED;
                  vs_checks := ev_payload ev |}
        else remote_verdict evs'
      else remote_verdict evs'
  end.

(* @src runtime_v1/completion/verification.py:203-230 VerificationService._remote_verifier *)
Definition _remote_verifier (r : VerificationRequest) : VerificationResult :=
  match remote_verdict (vr_accepted_evidence r) with
  | Some v => v
  | None =>
      if vr_backend_ok r && (vr_required_evidence_types r == []) then
        {| vs_outcome := VO_FAILED; vs_strategy := "remote_verifier_event";
           vs_detail := "remote completion without verification evidence";
           vs_failure_class := Some FC_EVIDENCE_MISSING; vs_checks := [] |}
      else _backend_success_with_evidence r
  end.

(** The loop of [_composite] over the strategies; [verify_child] is [self.verify] on
    the child request of a strategy. *)
(* @src runtime_v1/completion/verification.py:232-262 VerificationService._composite *)
Fixpoint composite_loop (verify_child : string → option (res VerificationResult))
    (strategies : list pyval) (checks : dict) : option (res VerificationResult) :=
  match strategies with
  | [] =>
      Some (Ok {| vs_outcome := VO_VERIFIED; vs_strategy := "composite";
                  vs_detail := "all composite strategies verified";
                  vs_failure_class := None; vs_checks := checks |})
  | s :: strategies' =>
      match verify_child (py_str s) with
      | None => None
      | Some (Raise e) => Some (Raise e)
      | Some (Ok result) =>
          let checks := dict_set (py_str s) (PDict (VerificationResult_as_dict result))
                          checks in
          if vs_outcome result == VO_VERIFIED then
            composite_loop verify_child strategies' checks
          else
            Some (Ok {| vs_outcome := vs_outcome result; vs_strategy := "composite";
                        vs_detail := "composite failed at " +:+ py_str s +:+ ": "
                                       +:+ vs_detail result;
                        vs_failure_class := vs_failure_class result;
                        vs_checks := checks |})
      end
  end.

(* @src runtime_v1/completion/verification.py:236-246 VerificationService._composite *)
Definition child_request (r : VerificationRequest) (policy : dict) (s : string) :
    VerificationRequest :=
  {| vr_mission_id := vr_mission_id r; vr_execution_id := vr_execution_id r;
     vr_attempt_id := vr_attempt_id r; vr_strategy := s;
     vr_required_evidence_types := vr_required_evidence_types r;
     vr_policy := policy; vr_accepted_evidence := vr_accepted_evidence r;
     vr_backend_ok := vr_backend_ok r; vr_restore_ok := vr_restore_ok r |}.

(** The outcomes decided before the strategy is looked at. *)
(* @src runtime_v1/completion/verification.py:14-49 VerificationService.verify *)
Definition verify_policy (r : VerificationRequest) : option VerificationResult :=
  if truthy (policy_of r "cancelled") then
    Some {| vs_outcome := VO_CANCELLED; vs_strategy := vr_strategy r;
            vs_detail := "verification cancelled"; vs_failure_class := None;
            vs_checks := [] |}
  else if negb (vr_restore_ok r) then
    Some {| vs_outcome := VO_BLOCKED; vs_strategy := vr_strategy r;
            vs_detail := "provider route restoration unresolved";
            vs_failure_class := Some FC_RESTORE_FAILED;
            vs_checks := [("restore_ok", PBool false)] |}
  else if truthy (policy_of r "require_human_approval") then
    Some {| vs_outcome := VO_PENDING_HUMAN_APPROVAL; vs_strategy := vr_strategy r;
            vs_detail := "human approval required";
            vs_failure_class := Some FC_VERIFICATION_INCONCLUSIVE; vs_checks := [] |}
  else if truthy (policy_of r "force_timeout") then
    Some {| vs_outcome := VO_VERIFICATION_ERROR; vs_strategy := vr_strategy r;
            vs_detail := "verification timed out";
            vs_failure_class := Some FC_VERIFICATION_TIMEOUT; vs_checks := [] |}
  else if truthy (policy_of r "force_error") then
    Some {| vs_outcome := VO_VERIFICATION_ERROR; vs_strategy := vr_strategy r;
            vs_detail := "verification infrastructure error";
            vs_failure_class := Some FC_VERIFICATION_ERROR; vs_checks := [] |}
  else None.

(* @src runtime_v1/completion/verification.py:14-72 VerificationService.verify *)
Fixpoint verify_fuel (fuel : nat) (r : VerificationRequest) :
    option (res VerificationResult) :=
  match fuel with
  | O => None
  | S fuel =>
      match verify_policy r with
      | Some v => Some (Ok v)
      | None =>
          let strategy := vr_strategy r in
          if strategy == "always_pass" then
            Some (Ok {| vs_outcome := VO_VERIFIED; vs_strategy := strategy;
                        vs_detail := "strategy always_pass"; vs_failure_class := None;
                        vs_checks := [("backend_ok", PBool (vr_backend_ok r))] |})
          else if strategy == "artifact_existence" then Some (_artifact_existence r)
          else if strategy == "test_command" then Some (Ok (_test_command r))
          else if strategy == "content_hash_match" then Some (Ok (_content_hash_match r))
          else if strategy == "schema_validation" then Some (_schema_validation r)
          else if strategy == "composite" then
            match py_tuple (py_or (policy_of r "strategies")
                              (PList [PStr "backend_success_with_evidence"])) with
            | Raise e => Some (Raise e)
            | Ok [] => composite_loop (λ _, None) [] []
            | Ok strategies =>
                match py_dict (py_or (policy_of r "child_policy") (PDict [])) with
                | Raise e => Some (Raise e)
                | Ok policy =>
                    composite_loop (λ s, verify_fuel fuel (child_request r policy s))
                      strategies []
                end
            end
          else if strategy == "remote_verifier_event" then Some (Ok (_remote_verifier r))
          else Some (Ok (_backend_success_with_evidence r))
      end
  end.

(** [verify] with the fuel its policy needs. *)
(* @src runtime_v1/completion/verification.py:14-72 VerificationService.verify *)
Definition verify (r : VerificationRequest) : option (res VerificationResult) :=
  verify_fuel (S (S (dsize (vr_policy r)))) r.
End verification.

(** ** Lemmas *)

Lemma dsize_get k d v : dict_get k d = Some v → vsize v ≤ dsize d.
Proof.
  unfold dsize. induction d as [|[k' v'] d IH]; simpl; [done|].
  case_bool_decide; intros; simplify_eq; [lia|]. specialize (IH ltac:(done)). lia.
Qed.

Lemma dsize_set k v d : dsize (dict_set k v d) ≤ vsize v + dsize d.
Proof.
  unfold dsize. induction d as [|[k' v'] d IH]; simpl; [lia|].
  case_bool_decide; simpl; lia.
Qed.

Lemma pairs_to_dict_size l acc d :
  pairs_to_dict l acc = Ok d → dsize d ≤ dsize acc + foldr (λ x n, vsize x + n) 0 l.
Proof.
  revert acc. induction l as [|x l IH]; intros acc; cbn [pairs_to_dict foldr].
  { intros [= <-]. lia. }
  destruct x as [| | | |s|xs|]; try done.
  - destruct s as [|a [|b []]]; try done. intros Hd. apply IH in Hd.
    pose proof (dsize_set (String.String a "") (PStr (String.String b "")) acc). simpl in *. lia.
  - destruct xs as [|k [|v []]]; try (destruct k); try done. intros Hd. apply IH in Hd.
    pose proof (dsize_set s v acc). simpl in *. lia.
Qed.

Lemma py_dict_size v d : py_dict v = Ok d → dsize d < vsize v.
Proof.
  destruct v as [| | | |s|l|d']; simpl; try done.
  - destruct s; [|done]. intros [= <-]. simpl. lia.
  - intros Hd. apply pairs_to_dict_size in Hd. simpl in *. lia.
  - intros [= <-]. unfold dsize. lia.
Qed.

Section verification_lemmas.
Context `{PyLib}.

Lemma composite_loop_ext f g strategies checks o :
  (∀ s o, s ∈ strategies → f (py_str s) = Some o → g (py_str s) = Some o) →
  composite_loop f strategies checks = Some o →
  composite_loop g strategies checks = Some o.
Proof.
  revert checks. induction strategies as [|s l IH]; intros checks Hfg; simpl; [done|].
  destruct (f (py_str s)) as [o'|] eqn:E; [|done].
  rewrite (Hfg s o') by (done || set_solver). destruct o' as [v|]; [|done].
  case_bool_decide; [|done]. apply IH. intros. apply Hfg; set_solver.
Qed.

Lemma composite_loop_total f strategies checks :
  (∀ s, s ∈ strategies → f (py_str s) ≠ None) →
  composite_loop f strategies checks ≠ None.
Proof.
  revert checks. induction strategies as [|s l IH]; intros checks Hf; simpl; [done|].
  pose proof (Hf s ltac:(set_solver)). destruct (f (py_str s)) as [[v|]|]; try done.
  case_bool_decide; [|done]. apply IH. intros. apply Hf. set_solver.
Qed.

Lemma verify_fuel_mono n m r o :
  n ≤ m → verify_fuel n r = Some o → verify_fuel m r = Some o.
Proof.
  revert m r o. induction n as [|n IH]; intros m r o Hle Hn; [done|].
  destruct m as [|m]; [lia|]. cbn [verify_fuel] in *.
  destruct (verify_policy r); [done|]. repeat case_bool_decide; try done.
  destruct (py_tuple _) as [[|s l]|]; [done| |done].
  destruct (py_dict _) as [p|]; [|done].
  eapply composite_loop_ext; [|exact Hn]. intros s' o' _. apply IH. lia.
Qed.

Lemma verify_fuel_simple n r :
  vr_strategy r ≠ "composite" → verify_fuel (S n) r ≠ None.
Proof.
  intros Hs. cbn [verify_fuel]. destruct (verify_policy r); [done|].
  by repeat case_bool_decide.
Qed.

Lemma verify_fuel_enough n r : dsize (vr_policy r) + 2 ≤ n → verify_fuel n r ≠ None.
Proof.
  revert r. induction n as [|n IH]; intros r Hn; [lia|].
  destruct (decide (vr_strategy r = "composite")) as [Hs|]; [|by apply verify_fuel_simple].
  cbn [verify_fuel]. destruct (verify_policy r); [done|]. repeat case_bool_decide; try done.
  destruct (py_tuple _) as [[|s l]|] eqn:Et; [done| |done].
  destruct (py_dict _) as [p|] eqn:Ep; [|done].
  apply composite_loop_total. intros s' Hs'. unfold py_or, policy_of, dget in *.
  destruct (dict_get "strategies" (vr_policy r)) as [v|] eqn:Ev; simpl in Et.
  - assert (1 ≤ dsize (vr_policy r)) as Hpos.
    { apply dsize_get in Ev. destruct v; simpl in *; lia. }
    apply IH. cbn [child_request vr_policy].
    destruct (dict_get "child_policy" (vr_policy r)) as [c|] eqn:Ec; simpl in Ep.
    + apply dsize_get in Ec. destruct (truthy c); [apply py_dict_size in Ep; lia|].
      simpl in Ep. simplify_eq. simpl. lia.
    + simplify_eq. simpl. lia.
  - simplify_eq. apply list_elem_of_singleton in Hs' as ->.
    destruct n as [|n]; [lia|]. by apply verify_fuel_simple.
Qed.

Lemma verify_some r : verify r ≠ None.
Proof. unfold verify. apply verify_fuel_enough. lia. Qed.

(** A composite request is the run of [verify] on its children. *)
Lemma verify_composite r s l policy :
  verify_policy r = None → vr_strategy r = "composite" →
  py_tuple (py_or (policy_of r "strategies")
              (PList [PStr "backend_success_with_evidence"])) = Ok (s :: l) →
  py_dict (py_or (policy_of r "child_policy") (PDict [])) = Ok policy →
  verify r = composite_loop (λ s, verify (child_request r policy s)) (s :: l) [].
Proof.
  intros Hp Hs Ht Hd. set (child := λ s, verify (child_request r policy s)).
  destruct (composite_loop child (s :: l) []) as [o|] eqn:E.
  2: { exfalso. revert E. apply composite_loop_total. intros. apply verify_some. }
  destruct (verify r) as [o'|] eqn:E'; [|by destruct (verify_some r)]. f_equal.
  unfold verify in E'. set (n := S (dsize (vr_policy r))) in E'.
  cbn [verify_fuel] in E'. rewrite Hp, Hs, Ht, Hd in E'. cbn [bool_decide decide_rel] in E'.
  repeat case_bool_decide; try done.
  apply (composite_loop_ext _ child) in E'; [rewrite E in E'; by injection E'|].
  intros s' o2 _ Hf. unfold child.
  destruct (verify (child_request r policy (py_str s'))) as [o3|] eqn:E3;
    [|by destruct (verify_some (child_request r policy (py_str s')))].
  unfold verify in E3.
  set (k := S (S (dsize (vr_policy (child_request r policy (py_str s')))))) in E3.
  apply (verify_fuel_mono n (n `max` k)) in Hf; [|lia].
  apply (verify_fuel_mono k (n `max` k)) in E3; [|lia]. congruence.
Qed.
End verification_lemmas.

(** ** Properties *)

Section verification_totality.
Context `{PyLib}.

(** verification always terminates: nested [composite] requests are bounded by
    the size of the policy, so every request has a result (or raises), and a
    composite request is exactly the run of [verify] on its children. *)
Theorem verify_total r :
  (∃ o, verify r = Some o) ∧
  (∀ s strategies policy, verify_policy r = None → vr_strategy r = "composite" →
     py_tuple (py_or (policy_of r "strategies")
                 (PList [PStr "backend_success_with_evidence"])) = Ok (s :: strategies) →
     py_dict (py_or (policy_of r "child_policy") (PDict [])) = Ok policy →
     verify r = composite_loop (λ s, verify (child_request r policy s))
                  (s :: strategies) []).
Proof.
  split; [|apply verify_composite].
  destruct (verify r) eqn:E; [by eexists|by destruct (verify_some r)].
Qed.
End verification_totality.

Section verification_properties.
Context `{PyLib}.

Definition verified (r : VerificationRequest) : Prop :=
  ∃ v, verify r = Some (Ok v) ∧ vs_outcome v = VO_VERIFIED.

(** Every required evidence type is among the accepted evidence. *)
Definition types_present (r : VerificationRequest) : Prop :=
  ∀ t, t ∈ vr_required_evidence_types r →
    t ∈ (ev_evidence_type <$> vr_accepted_evidence r).

(** The strategies [verify] names; any other runs the default. *)
Definition named_strategies : list string :=
  ["always_pass"; "artifact_existence"; "test_command"; "content_hash_match";
   "schema_validation"; "composite"; "remote_verifier_event"].

Lemma backend_success_outcome r :
  vs_outcome (_backend_success_with_evidence r) = VO_VERIFIED ↔
  vr_backend_ok r = true ∧ types_present r.
Proof.
  unfold _backend_success_with_evidence, types_present.
  destruct (vr_backend_ok r); simpl; [|naive_solver].
  case_bool_decide as Hm; simpl; (split; [try done|]).
  - intros _. split; [done|]. intros t Ht.
    destruct (decide (t ∈ (ev_evidence_type <$> vr_accepted_evidence r))) as [|Hn]; [done|].
    assert (t ∈ @nil string); [|set_solver]. rewrite <-Hm. by apply list_elem_of_filter.
  - done.
  - intros [_ Hall]. destruct Hm. apply elem_of_nil_inv. intros t.
    rewrite list_elem_of_filter. intros [Hn Ht]. by apply Hn, Hall.
Qed.

(** The early outcomes of [verify_policy] are never a success. *)
Lemma verify_policy_not_verified r v :
  verify_policy r = Some v → vs_outcome v ≠ VO_VERIFIED.
Proof. unfold verify_policy. intros Hv. guards; naive_solver. Qed.

(** A request decided by a function of the request, whatever the fuel. *)
Lemma verified_by (f : VerificationRequest → VerificationResult) r :
  (verify_policy r = None → verify r = Some (Ok (f r))) →
  verified r ↔ verify_policy r = None ∧ vs_outcome (f r) = VO_VERIFIED.
Proof.
  intros Hf. unfold verified. destruct (verify_policy r) as [v|] eqn:Ep.
  - split; [|naive_solver]. intros (v' & Hv & Ho). unfold verify in Hv.
    cbn [verify_fuel] in Hv. rewrite Ep in Hv. simplify_eq.
    by apply verify_policy_not_verified in Ep.
  - rewrite Hf by done. naive_solver.
Qed.

(** a request with the default strategy, or an unknown one, is verified exactly
    when no policy switch stops it, routes are restored, the backend succeeded and
    every required evidence type was accepted. *)
Theorem backend_strategy_verified_iff r :
  vr_strategy r ∉ named_strategies →
  verified r ↔
  verify_policy r = None ∧ vr_backend_ok r = true ∧ types_present r.
Proof.
  intros Hs. rewrite (verified_by _backend_success_with_evidence).
  - by rewrite backend_success_outcome.
  - intros Hp. unfold verify. cbn [verify_fuel]. rewrite Hp.
    unfold named_strategies in Hs. repeat case_bool_decide; set_solver.
Qed.

(** under the remote-verifier strategy a request that no policy switch stops is
    verified exactly when the first deciding remote evidence is positive, or when no
    remote evidence decides (an outcome other than verified or failed, for instance)
    but the backend succeeded and some required evidence types are all present. *)
Theorem remote_strategy_verified_iff r :
  vr_strategy r = "remote_verifier_event" →
  verified r ↔
  verify_policy r = None ∧
  ((∃ v, remote_verdict (vr_accepted_evidence r) = Some v ∧ vs_outcome v = VO_VERIFIED) ∨
   (remote_verdict (vr_accepted_evidence r) = None ∧ vr_backend_ok r = true ∧
    vr_required_evidence_types r ≠ [] ∧ types_present r)).
Proof.
  intros Hs. rewrite (verified_by _remote_verifier).
  - unfold _remote_verifier. destruct (remote_verdict _) as [v|].
    { split; [intros [? ?]; split; eauto|]. intros [? [(v' & ? & ?)|[? ?]]]; naive_solver. }
    destruct (vr_backend_ok r) eqn:Eb; simpl; [case_bool_decide as Er; simpl|];
      rewrite ?backend_success_outcome, ?Eb; split.
    + by intros [_ ?].
    + by intros [_ [(? & ? & _)|(_ & _ & ? & _)]].
    + intros (? & _ & ?). split; [done|]. by right.
    + intros (? & [(? & ? & _)|(_ & _ & _ & ?)]); [done|by split_and!].
    + by intros (_ & ? & _).
    + by intros (_ & [(? & ? & _)|(_ & ? & _)]).
  - intros Hp. unfold verify. cbn [verify_fuel]. rewrite Hp, Hs. done.
Qed.

Lemma composite_loop_verified f l checks v :
  composite_loop f l checks = Some (Ok v) → vs_outcome v = VO_VERIFIED →
  ∀ s, s ∈ l → ∃ v', f (py_str s) = Some (Ok v') ∧ vs_outcome v' = VO_VERIFIED.
Proof.
  revert checks. induction l as [|s l IH]; intros checks Hl Ho s' Hs'; [set_solver|].
  simpl in Hl. destruct (f (py_str s)) as [[v'|]|] eqn:E; try done.
  case_bool_decide; [|simplify_eq; done].
  apply elem_of_cons in Hs' as [->|Hs']; [by eexists|]. by eapply IH.
Qed.

(** a verified composite request has at least one child strategy, and every child
    is verified under the nested policy. *)
Theorem composite_verified_children r :
  vr_strategy r = "composite" → verified r →
  ∃ s strategies policy,
    py_tuple (py_or (policy_of r "strategies")
                (PList [PStr "backend_success_with_evidence"])) = Ok (s :: strategies) ∧
    py_dict (py_or (policy_of r "child_policy") (PDict [])) = Ok policy ∧
    ∀ s', s' ∈ s :: strategies → verified (child_request r policy (py_str s')).
Proof.
  intros Hs (v & Hv & Ho). destruct (verify_policy r) as [v'|] eqn:Hp.
  { unfold verify in Hv. cbn [verify_fuel] in Hv. rewrite Hp in Hv. simplify_eq.
    by apply verify_policy_not_verified in Hp. }
  destruct (py_tuple (py_or (policy_of r "strategies") _)) as [l|] eqn:Et.
  2: { unfold verify in Hv. cbn [verify_fuel] in Hv. by rewrite Hp, Hs, Et in Hv. }
  destruct l as [|s l].
  { exfalso. unfold py_or in Et. destruct (truthy _) eqn:Eq; [|done].
    destruct (policy_of r "strategies") as [| | | |s|l|d]; try done; simpl in *.
    - destruct s; [done|]. by simplify_eq/=.
    - by destruct l.
    - destruct d as [|[]]; [done|]. by simplify_eq/=. }
  destruct (py_dict (py_or (policy_of r "child_policy") (PDict []))) as [p|] eqn:Ed.
  2: { unfold verify in Hv. cbn [verify_fuel] in Hv. by rewrite Hp, Hs, Et, Ed in Hv. }
  exists s, l, p. split_and!; [done|done|].
  rewrite (verify_composite r s l p) in Hv by done.
  intros s' Hs'. destruct (composite_loop_verified _ _ _ _ Hv Ho s' Hs') as (v' & ? & ?).
  by exists v'.
Qed.
End verification_properties.

(** ** Witnesses *)

#[local] Existing Instance counting_lib.

Definition sample_verification (strategy : string) (policy : dict) : VerificationRequest :=
  {| vr_mission_id := "mission"; vr_execution_id := "exec"; vr_attempt_id := "a1";
     vr_strategy := strategy; vr_required_evidence_types := []; vr_policy := policy;
     vr_accepted_evidence := []; vr_backend_ok := true; vr_restore_ok := true |}.

Lemma backend_strategy_verified_iff_witness :
  verified (sample_verification "backend_success_with_evidence" []).
Proof.
  apply (proj2 (backend_strategy_verified_iff
    (sample_verification "backend_success_with_evidence" [])
    ltac:(refine (bool_decide_unpack _ _); vm_compute; exact I))).
  split; [reflexivity|]. split; [reflexivity|]. intros t Ht. by apply not_elem_of_nil in Ht.
Defined.

Lemma remote_strategy_verified_iff_witness :
  ¬ verified (sample_verification "remote_verifier_event" []).
Proof.
  intros Hv.
  apply (proj1 (remote_strategy_verified_iff (sample_verification "remote_verifier_event" [])
    eq_refl)) in Hv as (_ & [(v & Hr & _)|(_ & _ & Hne & _)]); [discriminate|by apply Hne].
Defined.

Definition nested_policy : dict :=
  [("strategies", PList [PStr "always_pass"; PStr "composite"]);
   ("child_policy", PDict [("strategies", PList [PStr "always_pass"])])].

Lemma composite_verified_children_witness :
  ∃ s strategies policy,
    py_tuple (py_or (policy_of (sample_verification "composite" nested_policy) "strategies")
      (PList [PStr "backend_success_with_evidence"])) = Ok (s :: strategies) ∧
    verified (child_request (sample_verification "composite" nested_policy) policy (py_str s)).
Proof.
  destruct (composite_verified_children (sample_verification "composite" nested_policy))
    as (s & l & policy & Hl & _ & Hall).
  - reflexivity.
  - eexists. split; [vm_compute; reflexivity|reflexivity].
  - exists s, l, policy. split; [exact Hl|]. apply Hall. left.
Defined.
