(* ===== verification/Evidence.v ===== *)
(** * The evidence boundary

    [runtime_v1/completion/evidence.py]: backends hand in candidates, the boundary
    stores every candidate as an accepted or a rejected envelope. *)

From S2P Require Import Prelude Security CompletionModels.

(* @src runtime_v1/completion/evidence.py:23-29 EvidenceBoundary *)
Record EvidenceBoundary := {
  max_bytes : Z;
  by_execution : gmap string (list EvidenceEnvelope);
  fingerprints : gmap string (gset string)
}.

(* @src runtime_v1/completion/evidence.py:26-29 EvidenceBoundary.__init__ *)
Definition EvidenceBoundary_init (mb : Z) : EvidenceBoundary :=
  {| max_bytes := mb; by_execution := ∅; fingerprints := ∅ |}.

(** What is stored for an execution. *)
(* @src runtime_v1/completion/evidence.py:35-36 EvidenceBoundary.list_all *)
Definition list_all (b : EvidenceBoundary) (eid : string) : list EvidenceEnvelope :=
  default [] (by_execution b !! eid).

Definition is_accepted (e : EvidenceEnvelope) : bool := ev_trust e == TRUST_ACCEPTED.

(* @src runtime_v1/completion/evidence.py:31-33 EvidenceBoundary.list_accepted *)
Definition list_accepted (b : EvidenceBoundary) (eid : string) : list EvidenceEnvelope :=
  filter (λ e, is_accepted e = true) (list_all b eid).

(** A claimed value that is set and is not the expected string. *)
Definition claims_other (claimed : pyval) (expected : string) : bool :=
  truthy claimed && negb (py_eqb claimed (PStr expected)).

(** The same for an expected value that may be unset. *)
Definition claims_other_opt (claimed : pyval) (expected : option string) : bool :=
  otruthy expected && claims_other claimed (default "" expected).

(** An [if c: reason = r] after the first chain of tests: the last one that holds wins. *)
Definition override (c : bool) (r : EvidenceRejectionReason)
    (prev : option EvidenceRejectionReason) : option EvidenceRejectionReason :=
  if c then Some r else prev.

(** The first chain of tests. *)
(* @src runtime_v1/completion/evidence.py:98-110 EvidenceBoundary._accept_one *)
Definition basic_reason (c : CandidateEvidence) (ctx : CompletionContext)
    (lifecycle_state : CompletionLifecycleState) : option EvidenceRejectionReason :=
  if ctx_cancelled ctx || (lifecycle_state == CANCELLED) then Some RR_CANCELLED_EXECUTION
  else if lifecycle_state in? TERMINAL_COMPLETION_STATES then Some RR_LATE_AFTER_TERMINAL
  else if ctx_attempt_id ctx != ctx_authoritative_attempt_id ctx then Some RR_STALE_ATTEMPT
  else if (ctx_max_evidence_bytes ctx <? ce_size_bytes c)%Z then Some RR_OVERSIZED
  else if (ce_evidence_type c == "") || (ce_evidence_type c == "unknown")
  then Some RR_UNSUPPORTED_TYPE
  else if negb (truthy (PDict (ce_provenance c))) && negb (otruthy (ce_content_hash c)) &&
          negb (truthy (PDict (ce_payload c)))
  then Some RR_MISSING_PROVENANCE
  else None.

(* @src runtime_v1/completion/evidence.py:98-129 EvidenceBoundary._accept_one *)
Definition context_reason (c : CandidateEvidence) (ctx : CompletionContext)
    (lifecycle_state : CompletionLifecycleState) : option EvidenceRejectionReason :=
  let claim k := dget k (ce_provenance c) in
  override (claims_other (claim "attempt_id") (ctx_attempt_id ctx)) RR_WRONG_ATTEMPT
  (override (claims_other (claim "execution_id") (ctx_execution_id ctx)) RR_WRONG_EXECUTION
  (override (claims_other (claim "mission_id") (ctx_mission_id ctx)) RR_WRONG_MISSION
  (override (claims_other_opt (claim "project_id") (ctx_project_id ctx)) RR_WRONG_PROJECT
  (override (claims_other_opt (claim "organisation_id") (ctx_organisation_id ctx))
     RR_WRONG_TENANT
     (basic_reason c ctx lifecycle_state))))).

Section evidence.
Context `{PyLib}.

(** [repr] of the sorted item pairs, then SHA-256. *)
(* @src runtime_v1/completion/evidence.py:199-201 _hash_payload *)
Definition _hash_payload (payload : dict) : string :=
  let items := py_sorted (λ a b, str_leb a.1 b.1) payload in
  sha256_hex ("[" +:+ join ", "
    ((λ '(k, v), "(" +:+ repr_str k +:+ ", " +:+ py_repr v +:+ ")") <$> items) +:+ "]").

(* @src runtime_v1/completion/evidence.py:204-213 _redact_payload *)
Fixpoint redact_value (v : pyval) : pyval :=
  match v with
  | PStr s => PStr (redact_secrets s)
  | PDict d => PDict ((λ '(k, x), (k, redact_value x)) <$> d)
  | _ => v
  end.
Definition _redact_payload (d : dict) : dict := (λ '(k, x), (k, redact_value x)) <$> d.

(** A stored item of the same sequence and type under another content hash. *)
Definition conflicts (c : CandidateEvidence) (content_hash : string)
    (item : EvidenceEnvelope) : bool :=
  (ev_sequence item == ce_sequence c) && (ev_evidence_type item == ce_evidence_type c) &&
  otruthy (ev_content_hash item) && negb (content_hash == "") &&
  negb (ev_content_hash item == Some content_hash).

(** An accepted item of a higher sequence. *)
Definition ahead (c : CandidateEvidence) (item : EvidenceEnvelope) : bool :=
  is_accepted item && (ce_sequence c <? ev_sequence item)%Z.

(** The two tests against what is stored: the same sequence and type under another
    content hash, and a sequence below an accepted one. *)
(* @src runtime_v1/completion/evidence.py:145-166 EvidenceBoundary._accept_one *)
Definition stored_reason (items : list EvidenceEnvelope) (c : CandidateEvidence)
    (content_hash : string) : option EvidenceRejectionReason :=
  if existsb (conflicts c content_hash) items then Some RR_DUPLICATE_CONFLICTING
  else if existsb (ahead c) items
  then Some RR_INVALID_SEQUENCE
  else None.

Definition content_hash_of (c : CandidateEvidence) : string :=
  match ce_content_hash c with
  | Some h => if h == "" then _hash_payload (ce_payload c) else h
  | None => _hash_payload (ce_payload c)
  end.

Definition fingerprint_of (c : CandidateEvidence) : string :=
  ce_evidence_type c +:+ ":" +:+ content_hash_of c +:+ ":" +:+ pretty (ce_sequence c).

(** The stored accepted envelope of an identical candidate. *)
Definition same_accepted (c : CandidateEvidence) (item : EvidenceEnvelope) : bool :=
  (ev_content_hash item == Some (content_hash_of c)) &&
  (ev_evidence_type item == ce_evidence_type c) &&
  (ev_sequence item == ce_sequence c) && is_accepted item.

Definition make_envelope (now : Z) (c : CandidateEvidence) (ctx : CompletionContext)
    (source_backend : string) (source_harness : option string)
    (reason : option EvidenceRejectionReason) : EvidenceEnvelope :=
  {| ev_evidence_id := ce_evidence_id c; ev_execution_id := ctx_execution_id ctx;
     ev_attempt_id := ctx_attempt_id ctx; ev_mission_id := ctx_mission_id ctx;
     ev_project_id := ctx_project_id ctx; ev_organisation_id := ctx_organisation_id ctx;
     ev_evidence_type := ce_evidence_type c; ev_source_backend := source_backend;
     ev_source_harness := source_harness; ev_content_ref := ce_content_ref c;
     ev_content_hash := Some (content_hash_of c); ev_size_bytes := ce_size_bytes c;
     ev_sequence := ce_sequence c;
     ev_trust := match reason with Some _ => TRUST_REJECTED | None => TRUST_ACCEPTED end;
     ev_producer_identity := source_backend; ev_provenance := ce_provenance c;
     ev_payload := _redact_payload (ce_payload c); ev_created_at := now;
     ev_rejection_reason := reason |}.

(** (envelope, accepted, newly stored) and the boundary; [setdefault] leaves an
    empty fingerprint set behind. [now] is the clock reading of the envelope. *)
(* @src runtime_v1/completion/evidence.py:87-196 EvidenceBoundary._accept_one *)
Definition _accept_one (now : Z) (c : CandidateEvidence) (ctx : CompletionContext)
    (lifecycle_state : CompletionLifecycleState) (source_backend : string)
    (source_harness : option string) (b : EvidenceBoundary) :
    EvidenceEnvelope * bool * bool * EvidenceBoundary :=
  let eid := ctx_execution_id ctx in
  let reason := context_reason c ctx lifecycle_state in
  let existing := default ∅ (fingerprints b !! eid) in
  let put fps := {| max_bytes := max_bytes b; by_execution := by_execution b;
                    fingerprints := <[eid := fps]> (fingerprints b) |} in
  let fresh :=
    let reason := match reason with
                  | Some r => Some r
                  | None => stored_reason (list_all b eid) c (content_hash_of c)
                  end in
    let envelope := make_envelope now c ctx source_backend source_harness reason in
    match reason with
    | None => (envelope, true, true, put ({[fingerprint_of c]} ∪ existing))
    | Some _ => (envelope, false, true, put existing)
    end in
  match reason with
  | None =>
      if fingerprint_of c in? existing then
        match list_find (λ item, same_accepted c item = true) (list_all b eid) with
        | Some (_, item) => (item, true, false, put existing)
        | None => fresh
        end
      else fresh
  | Some _ => fresh
  end.

(** A candidate object, or the mapping a remote worker sent. *)
Inductive raw_candidate :=
| RawCandidate (c : CandidateEvidence)
| RawMapping (d : dict).

Definition str_or_none (v : pyval) : option string :=
  match v with PStr s => Some s | _ => None end.

(* @src runtime_v1/completion/evidence.py:51-71 EvidenceBoundary.intake *)
Definition candidate_of_raw (raw : raw_candidate) : res CandidateEvidence :=
  match raw with
  | RawCandidate c => Ok c
  | RawMapping d =>
      res_bind (py_int (py_or (dget "size_bytes" d) (PInt 0))) (λ size,
      res_bind (py_int (py_or (dget "sequence" d) (PInt 0))) (λ sequence,
      res_bind (py_dict (py_or (dget "provenance" d) (PDict []))) (λ provenance,
      res_bind (py_dict (py_or (dget "payload" d) (PDict []))) (λ payload,
      Ok {| ce_evidence_type := py_str (py_or (dget "evidence_type" d) (PStr "unknown"));
            ce_content_ref := str_or_none (dget "content_ref" d);
            ce_content_hash := str_or_none (dget "content_hash" d);
            ce_size_bytes := size; ce_sequence := sequence;
            ce_provenance := provenance; ce_payload := _redact_payload payload;
            ce_evidence_id :=
              py_str (py_or (dget "evidence_id" d)
                (PStr ("evidence_" +:+ py_str (py_or (dget "sequence" d) (PInt 0))))) |}))))
  end.

(** One turn of the loop of [intake]. *)
Definition intake_one (now : Z) (raw : raw_candidate) (ctx : CompletionContext)
    (lifecycle_state : CompletionLifecycleState) (source_backend : string)
    (source_harness : option string) : M EvidenceBoundary (EvidenceEnvelope * bool) :=
  candidate ← lift_res (candidate_of_raw raw);
  b ← get_state;
  let '(envelope, ok, stored, b') :=
    _accept_one now candidate ctx lifecycle_state source_backend source_harness b in
  let eid := ctx_execution_id ctx in
  modify_state (λ _,
    if stored then
      {| max_bytes := max_bytes b';
         by_execution := <[eid := list_all b' eid ++ [envelope]]> (by_execution b');
         fingerprints := fingerprints b' |}
    else b');;
  mret (envelope, ok).

(** [now i] is the clock reading for the [i]-th candidate. *)
(* @src runtime_v1/completion/evidence.py:38-85 EvidenceBoundary.intake *)
Fixpoint intake (now : nat → Z) (candidates : list raw_candidate)
    (ctx : CompletionContext) (lifecycle_state : CompletionLifecycleState)
    (source_backend : string) (source_harness : option string) :
    M EvidenceBoundary (list EvidenceEnvelope * list EvidenceEnvelope) :=
  match candidates with
  | [] => mret ([], [])
  | raw :: candidates' =>
      '(envelope, ok) ←
        intake_one (now 0) raw ctx lifecycle_state source_backend source_harness;
      '(accepted, rejected) ←
        intake (λ i, now (S i)) candidates' ctx lifecycle_state source_backend
          source_harness;
      mret (if (ok : bool) then (envelope :: accepted, rejected)
            else (accepted, envelope :: rejected))
  end.
End evidence.

(** ** What one candidate does *)

Section evidence_props.
Context `{PyLib}.
Implicit Types (b : EvidenceBoundary) (c : CandidateEvidence) (ctx : CompletionContext)
  (e : EvidenceEnvelope) (eid : string).

(** The three ways [_accept_one] ends: a new accepted envelope, the stored envelope of
    an identical candidate, a new rejected envelope. *)
Inductive accept_case now c ctx st sb sh b :
    EvidenceEnvelope → bool → bool → EvidenceBoundary → Prop :=
| accept_new b' :
    context_reason c ctx st = None →
    stored_reason (list_all b (ctx_execution_id ctx)) c (content_hash_of c) = None →
    (fingerprint_of c ∈ default ∅ (fingerprints b !! ctx_execution_id ctx) →
     Forall (λ e, same_accepted c e = false) (list_all b (ctx_execution_id ctx))) →
    by_execution b' = by_execution b →
    fingerprints b' = <[ctx_execution_id ctx :=
      {[fingerprint_of c]} ∪ default ∅ (fingerprints b !! ctx_execution_id ctx)]>
      (fingerprints b) →
    accept_case now c ctx st sb sh b (make_envelope now c ctx sb sh None) true true b'
| accept_again e b' :
    context_reason c ctx st = None →
    e ∈ list_all b (ctx_execution_id ctx) → same_accepted c e = true →
    by_execution b' = by_execution b →
    fingerprints b' = <[ctx_execution_id ctx :=
      default ∅ (fingerprints b !! ctx_execution_id ctx)]> (fingerprints b) →
    accept_case now c ctx st sb sh b e true false b'
| accept_reject r b' :
    by_execution b' = by_execution b →
    fingerprints b' = <[ctx_execution_id ctx :=
      default ∅ (fingerprints b !! ctx_execution_id ctx)]> (fingerprints b) →
    accept_case now c ctx st sb sh b (make_envelope now c ctx sb sh (Some r)) false true b'.

Lemma accept_one_case now c ctx st sb sh b env ok stored b' :
  _accept_one now c ctx st sb sh b = (env, ok, stored, b') →
  accept_case now c ctx st sb sh b env ok stored b'.
Proof.
  unfold _accept_one. intros E.
  destruct (context_reason c ctx st) as [r|] eqn:Hc; [simplify_eq; by constructor|].
  destruct (fingerprint_of c in? _) eqn:Hf; boolify.
  - destruct (list_find _ _) as [[i e]|] eqn:Hl.
    + simplify_eq. apply list_find_Some in Hl as (Hl & Hs & _).
      apply accept_again; [done| |done..]. by eapply list_elem_of_lookup_2.
    + apply list_find_None in Hl.
      destruct (stored_reason _ _ _) as [r|] eqn:Hs; simplify_eq; [by constructor|].
      constructor; [done|done| |done|done]. intros _. eapply Forall_impl; [exact Hl|].
      intros e He. by apply not_true_is_false.
  - destruct (stored_reason _ _ _) as [r|] eqn:Hs; simplify_eq; [by constructor|].
    by constructor.
Qed.

(** A step of the boundary: one candidate of some [intake]. *)
Definition boundary_step b b' : Prop :=
  ∃ now raw ctx st sb sh r, intake_one now raw ctx st sb sh b = (r, b').

Lemma intake_one_Ok now raw ctx st sb sh b env ok b' :
  intake_one now raw ctx st sb sh b = (Ok (env, ok), b') ↔
  ∃ c stored b1, candidate_of_raw raw = Ok c ∧
    _accept_one now c ctx st sb sh b = (env, ok, stored, b1) ∧
    b' = (if stored then
      {| max_bytes := max_bytes b1;
         by_execution := <[ctx_execution_id ctx :=
           list_all b1 (ctx_execution_id ctx) ++ [env]]> (by_execution b1);
         fingerprints := fingerprints b1 |} else b1).
Proof.
  unfold intake_one, mbind, M_bind, lift_res, get_state, modify_state, mret, M_ret.
  destruct (candidate_of_raw raw) as [c|ex] eqn:Ec; [|naive_solver].
  destruct (_accept_one now c ctx st sb sh b) as [[[env' ok'] stored] b1] eqn:Ea.
  split; [intros E; simplify_eq; eauto 10|].
  intros (c2 & st2 & b2 & [= <-] & E2 & ->). rewrite Ea in E2. by simplify_eq.
Qed.

Lemma intake_one_Raise now raw ctx st sb sh b ex b' :
  intake_one now raw ctx st sb sh b = (Raise ex, b') → b' = b.
Proof.
  unfold intake_one, mbind, M_bind, lift_res, get_state, modify_state, mret, M_ret.
  destruct (candidate_of_raw raw) as [c|]; [|naive_solver].
  by destruct (_accept_one now c ctx st sb sh b) as [[[env' ok'] stored] b1].
Qed.

(** ** The invariant of the boundary *)

Definition truthy_accepted e : bool := is_accepted e && otruthy (ev_content_hash e).
Definition envelope_fingerprint e : string :=
  ev_evidence_type e +:+ ":" +:+ default "" (ev_content_hash e) +:+ ":" +:+
    pretty (ev_sequence e).

Lemma same_accepted_new now c ctx sb sh :
  same_accepted c (make_envelope now c ctx sb sh None) = true.
Proof.
  unfold same_accepted, is_accepted. cbn.
  rewrite (bool_decide_eq_true_2 (Some _ = Some _)) by done.
  by rewrite !(bool_decide_eq_true_2 (_ = _)) by done.
Qed.

(** What is stored for one execution, with its fingerprint set: every envelope names
    the execution, is accepted exactly when it has no rejection reason, accepted
    sequences never go down, no two accepted envelopes with a hash share type and
    sequence, and the fingerprints of the accepted ones are known. *)
Record items_ok eid (fps : gset string) (items : list EvidenceEnvelope) : Prop := {
  items_execution : Forall (λ e, ev_execution_id e = eid) items;
  items_trust : Forall (λ e, is_accepted e = true ↔ ev_rejection_reason e = None) items;
  items_monotone : StronglySorted (λ e e', ev_sequence e ≤ ev_sequence e')%Z
                     (filter (λ e, is_accepted e = true) items);
  items_unique : NoDup ((λ e, (ev_evidence_type e, ev_sequence e)) <$>
                     filter (λ e, truthy_accepted e = true) items);
  items_known : ∀ e, e ∈ items → is_accepted e = true → envelope_fingerprint e ∈ fps
}.

Definition boundary_inv b : Prop :=
  ∀ eid, items_ok eid (default ∅ (fingerprints b !! eid)) (list_all b eid).

Lemma stored_reason_None items c h :
  stored_reason items c h = None ↔
  Forall (λ e, ev_sequence e = ce_sequence c → ev_evidence_type e = ce_evidence_type c →
    otruthy (ev_content_hash e) = true → h ≠ "" → ev_content_hash e = Some h) items ∧
  Forall (λ e, is_accepted e = true → (ev_sequence e ≤ ce_sequence c)%Z) items.
Proof.
  unfold stored_reason.
  assert (∀ (p : EvidenceEnvelope → bool) (P : EvidenceEnvelope → Prop),
    (∀ e, p e = false ↔ P e) → existsb p items = false ↔ Forall P items) as Hex.
  { intros p P HpP. induction items as [|e items IH]; simpl; [split; auto|].
    rewrite orb_false_iff, Forall_cons, HpP, IH. done. }
  rewrite <-(Hex (conflicts c h)), <-(Hex (ahead c)).
  - destruct (existsb (conflicts c h) items), (existsb (ahead c) items); naive_solver.
  - intros e. unfold ahead.
    destruct (is_accepted e), (Z.ltb_spec (ce_sequence c) (ev_sequence e)); simpl;
      naive_solver lia.
  - intros e. unfold conflicts.
    destruct (otruthy _); repeat case_bool_decide; simpl; naive_solver.
Qed.

Lemma content_hash_same c e :
  same_accepted c e = true →
  ev_content_hash e = Some (content_hash_of c) ∧ ev_evidence_type e = ce_evidence_type c ∧
  ev_sequence e = ce_sequence c ∧ is_accepted e = true.
Proof. unfold same_accepted. intros ?. by boolify. Qed.

Lemma items_ok_reject eid fps items e :
  items_ok eid fps items → ev_execution_id e = eid → is_accepted e = false →
  ev_rejection_reason e ≠ None → items_ok eid fps (items ++ [e]).
Proof.
  intros [H1 H2 H3 H4 H5] He Ha Hr. split.
  - apply Forall_app. auto.
  - apply Forall_app. split; [done|]. constructor; [|done]. rewrite Ha. naive_solver.
  - rewrite filter_app. cbn [filter list_filter]. rewrite decide_False, app_nil_r; [done|].
    by rewrite Ha.
  - rewrite filter_app. cbn [filter list_filter]. rewrite decide_False, app_nil_r; [done|].
    unfold truthy_accepted. by rewrite Ha.
  - intros e' [Hin| ->%list_elem_of_singleton]%elem_of_app ?; [by apply H5|congruence].
Qed.

Lemma StronglySorted_snoc {A} (R : A → A → Prop) l x :
  StronglySorted R l → Forall (λ y, R y x) l → StronglySorted R (l ++ [x]).
Proof.
  induction 1 as [|y l Hl IH Hy]; simpl; intros Hx.
  - repeat constructor.
  - apply Forall_cons in Hx as [??]. constructor; [auto|].
    apply Forall_app. auto.
Qed.

Lemma items_ok_accept now c ctx st sb sh b b' :
  boundary_inv b →
  accept_case now c ctx st sb sh b (make_envelope now c ctx sb sh None) true true b' →
  items_ok (ctx_execution_id ctx)
    ({[fingerprint_of c]} ∪ default ∅ (fingerprints b !! ctx_execution_id ctx))
    (list_all b (ctx_execution_id ctx) ++ [make_envelope now c ctx sb sh None]).
Proof.
  intros Hi Hcase. inversion Hcase as [b1 _ [Hconf Hseq]%stored_reason_None Hfp _ _| |]; subst.
  destruct (Hi (ctx_execution_id ctx)) as [H1 H2 H3 H4 H5].
  rewrite Forall_forall in Hconf, Hseq. split.
  - apply Forall_app. auto.
  - apply Forall_app. split; [done|]. by constructor.
  - rewrite filter_app. cbn [filter list_filter]. rewrite decide_True by done.
    apply StronglySorted_snoc; [done|]. apply Forall_forall.
    intros e [He Hin]%list_elem_of_filter. by apply Hseq.
  - rewrite filter_app. cbn [filter list_filter].
    case_decide as Ht; [|by rewrite app_nil_r]. rewrite fmap_app.
    apply NoDup_app. split_and!; [done| |apply NoDup_singleton].
    intros [ty sq] (e & [= -> ->] & [He Hin]%list_elem_of_filter)%list_elem_of_fmap.
    intros [= Hty Hsq]%list_elem_of_singleton.
    unfold truthy_accepted in *. simpl in *. boolify.
    assert (ev_content_hash e = Some (content_hash_of c)) as Hh.
    { by apply Hconf. }
    assert (same_accepted c e = true) as Hsame.
    { unfold same_accepted. rewrite Hh, Hty, Hsq, !bool_decide_eq_true_2 by done. done. }
    assert (Forall (λ e, same_accepted c e = false) (list_all b (ctx_execution_id ctx)))
      as Hno.
    { apply Hfp. replace (fingerprint_of c) with (envelope_fingerprint e); [by apply H5|].
      unfold envelope_fingerprint. by rewrite Hh, Hty, Hsq. }
    rewrite Forall_forall in Hno. specialize (Hno _ Hin). congruence.
  - intros e [Hin| ->%list_elem_of_singleton]%elem_of_app Ha; apply elem_of_union.
    + right. by apply H5.
    + left. by apply elem_of_singleton.
Qed.

Lemma items_ok_ext eid b b' :
  boundary_inv b → by_execution b' !! eid = by_execution b !! eid →
  default ∅ (fingerprints b' !! eid) = default ∅ (fingerprints b !! eid) →
  items_ok eid (default ∅ (fingerprints b' !! eid)) (list_all b' eid).
Proof. intros Hi Hb Hf. unfold list_all. rewrite Hb, Hf. apply Hi. Qed.

Lemma boundary_inv_step b b' : boundary_inv b → boundary_step b b' → boundary_inv b'.
Proof.
  intros Hi (now & raw & ctx & st & sb & sh & [[env ok]|ex] & E).
  2: { apply intake_one_Raise in E. by subst. }
  apply intake_one_Ok in E as (c & stored & b1 & _ & Ha & ->).
  apply accept_one_case in Ha as Hcase. intros eid.
  inversion Hcase as [b2 Hc Hs Hf Hb Hfp|e b2 Hc Hin Hsm Hb Hfp|r b2 Hb Hfp]; subst;
    (destruct (decide (eid = ctx_execution_id ctx)) as [->|Hne];
     [|apply (items_ok_ext eid b); simpl; rewrite ?Hb, ?Hfp; simplify_map_eq; done]).
  - unfold list_all; simpl. rewrite Hfp, Hb; simplify_map_eq. by eapply items_ok_accept.
  - apply (items_ok_ext _ b); [done|by rewrite Hb|]. rewrite Hfp. by simplify_map_eq.
  - unfold list_all; simpl. rewrite Hfp, Hb; simplify_map_eq.
    by apply items_ok_reject.
Qed.

Lemma intake_steps now cands ctx st sb sh b r b' :
  intake now cands ctx st sb sh b = (r, b') → rtc boundary_step b b'.
Proof.
  revert now b r. induction cands as [|raw cands IH]; intros now b r; cbn [intake].
  { intros [= <- <-]. apply rtc_refl. }
  unfold mbind, M_bind.
  destruct (intake_one (now 0) raw ctx st sb sh b) as [[[env ok]|ex] b1] eqn:E1.
  - destruct (intake (λ i, now (S i)) cands ctx st sb sh b1) as [r2 b2] eqn:E2.
    intros E. assert (b2 = b') as -> by (destruct r2 as [[??]|]; by injection E).
    eapply rtc_l; [|by eapply IH]. unfold boundary_step. eauto 10.
  - intros [= <- <-]. apply rtc_once. unfold boundary_step. eauto 10.
Qed.

(** ** What is accepted *)

(** A claim of the provenance agrees with the expected value, or is not made. *)
Definition claim_agrees (claimed : pyval) (expected : string) : Prop :=
  truthy claimed = true → claimed = PStr expected.

(** What the boundary demands of a candidate and of the context it comes in. *)
Record admissible c ctx (st : CompletionLifecycleState) : Prop := {
  adm_running : ctx_cancelled ctx = false ∧ st ∉ TERMINAL_COMPLETION_STATES;
  adm_attempt : ctx_attempt_id ctx = ctx_authoritative_attempt_id ctx;
  adm_size : (ce_size_bytes c ≤ ctx_max_evidence_bytes ctx)%Z;
  adm_type : ce_evidence_type c ∉ [""; "unknown"];
  adm_backed : ce_provenance c ≠ [] ∨ otruthy (ce_content_hash c) = true ∨ ce_payload c ≠ [];
  adm_tenant : ∀ org, ctx_organisation_id ctx = Some org → org ≠ "" →
    claim_agrees (dget "organisation_id" (ce_provenance c)) org;
  adm_project : ∀ proj, ctx_project_id ctx = Some proj → proj ≠ "" →
    claim_agrees (dget "project_id" (ce_provenance c)) proj;
  adm_mission : claim_agrees (dget "mission_id" (ce_provenance c)) (ctx_mission_id ctx);
  adm_execution : claim_agrees (dget "execution_id" (ce_provenance c)) (ctx_execution_id ctx);
  adm_claimed : claim_agrees (dget "attempt_id" (ce_provenance c)) (ctx_attempt_id ctx)
}.

Lemma py_eqb_str v s : py_eqb v (PStr s) = true ↔ v = PStr s.
Proof.
  destruct v; simpl; try (split; congruence).
  rewrite bool_decide_eq_true. split; congruence.
Qed.

Lemma claims_other_false v s : claims_other v s = false ↔ claim_agrees v s.
Proof.
  unfold claims_other, claim_agrees. rewrite <-py_eqb_str.
  destruct (truthy v), (py_eqb v (PStr s)); simpl; naive_solver.
Qed.

Lemma claims_other_opt_false v o :
  claims_other_opt v o = false ↔ ∀ s, o = Some s → s ≠ "" → claim_agrees v s.
Proof.
  unfold claims_other_opt. destruct o as [s|]; simpl; [|naive_solver].
  case_bool_decide; simpl; [naive_solver|]. rewrite claims_other_false. naive_solver.
Qed.

Lemma override_None x r prev : override x r prev = None ↔ x = false ∧ prev = None.
Proof. destruct x; naive_solver. Qed.

Lemma basic_reason_None c ctx st :
  basic_reason c ctx st = None ↔
  (ctx_cancelled ctx = false ∧ st ∉ TERMINAL_COMPLETION_STATES) ∧
  ctx_attempt_id ctx = ctx_authoritative_attempt_id ctx ∧
  (ce_size_bytes c ≤ ctx_max_evidence_bytes ctx)%Z ∧
  (ce_evidence_type c ∉ [""; "unknown"]) ∧
  (ce_provenance c ≠ [] ∨ otruthy (ce_content_hash c) = true ∨ ce_payload c ≠ []).
Proof.
  unfold basic_reason.
  assert (st = CANCELLED → st ∈ TERMINAL_COMPLETION_STATES) as Hcan.
  { intros ->. unfold TERMINAL_COMPLETION_STATES. set_solver. }
  destruct (ctx_cancelled ctx); simpl; [by split; [|intros [[? ?] ?]]|].
  case_bool_decide as Hst; simpl; [split; [done|intros [[_ []] _]; auto]|].
  case_bool_decide as Ht; simpl; [by split; [|intros [[_ ?] _]]|].
  case_bool_decide as Ha; simpl; [|by split; [|intros (_ & ? & _)]].
  destruct (Z.ltb_spec (ctx_max_evidence_bytes ctx) (ce_size_bytes c)) as [Hz|Hz];
    [split; [done|intros (_ & _ & ? & _); lia]|].
  rewrite !not_elem_of_cons.
  case_bool_decide as Hn; simpl; [by split; [|intros (_ & _ & _ & [? _] & _)]|].
  case_bool_decide as Hu; simpl; [by split; [|intros (_ & _ & _ & [_ [? _]] & _)]|].
  pose proof (not_elem_of_nil (ce_evidence_type c)).
  destruct (ce_provenance c), (otruthy (ce_content_hash c)), (ce_payload c); simpl;
    split; try done; intros; repeat (split; try done); auto.
  by destruct H1 as (_ & _ & _ & _ & [?|[?|?]]).
Qed.

Lemma context_reason_None c ctx st : context_reason c ctx st = None ↔ admissible c ctx st.
Proof.
  unfold context_reason.
  rewrite !override_None, !claims_other_false, !claims_other_opt_false, basic_reason_None.
  split; [|by intros []]. intros (?&?&?&?&?&?&?&?&?&?). by split.
Qed.

(** Nothing stored speaks against the candidate: no item of its type and sequence
    under another hash, and no accepted item of a higher sequence. *)
Definition compatible c (items : list EvidenceEnvelope) : Prop :=
  Forall (λ e, ev_sequence e = ce_sequence c → ev_evidence_type e = ce_evidence_type c →
    otruthy (ev_content_hash e) = true → content_hash_of c ≠ "" →
    ev_content_hash e = Some (content_hash_of c)) items ∧
  Forall (λ e, is_accepted e = true → (ev_sequence e ≤ ce_sequence c)%Z) items.

(** One call of [intake] on any candidates, in any context. *)
Definition intake_call b b' : Prop :=
  ∃ now cands ctx st sb sh r, intake now cands ctx st sb sh b = (r, b').

Lemma intake_calls_steps b b' : rtc intake_call b b' → rtc boundary_step b b'.
Proof.
  induction 1 as [|b b1 b2 (?&?&?&?&?&?&?&E) _ IH]; [apply rtc_refl|].
  apply intake_steps in E. by etrans.
Qed.

Lemma boundary_inv_steps b b' : boundary_inv b → rtc boundary_step b b' → boundary_inv b'.
Proof. intros Hi. induction 1 as [|b b1 b2 E _ IH]; [done|]. eauto using boundary_inv_step. Qed.

Lemma boundary_inv_init mb : boundary_inv (EvidenceBoundary_init mb).
Proof. intros eid. split; try apply Forall_nil_2; try constructor. set_solver. Qed.

Lemma known_fingerprint b eid c e :
  boundary_inv b → e ∈ list_all b eid → same_accepted c e = true →
  fingerprint_of c ∈ default ∅ (fingerprints b !! eid).
Proof.
  intros Hi Hin (Hh & Ht & Hs & Ha)%content_hash_same.
  pose proof (items_known _ _ _ (Hi eid) _ Hin Ha) as Hk.
  unfold envelope_fingerprint in Hk. by rewrite Hh, Ht, Hs in Hk.
Qed.

(** An admissible candidate that is stored already. *)
Lemma accept_one_again now c ctx st sb sh b e :
  boundary_inv b → admissible c ctx st →
  e ∈ list_all b (ctx_execution_id ctx) → same_accepted c e = true →
  ∃ e' b', _accept_one now c ctx st sb sh b = (e', true, false, b') ∧
    e' ∈ list_all b (ctx_execution_id ctx) ∧ same_accepted c e' = true ∧
    by_execution b' = by_execution b.
Proof.
  intros Hi Hadm Hin Hs. unfold _accept_one.
  apply context_reason_None in Hadm as ->.
  rewrite bool_decide_eq_true_2 by (by eapply known_fingerprint).
  destruct (list_find _ _) as [[i e']|] eqn:Hl.
  - apply list_find_Some in Hl as (Hl & ? & _). eexists e', _. split_and!; try done.
    by eapply list_elem_of_lookup_2.
  - apply list_find_None in Hl. rewrite Forall_forall in Hl. by specialize (Hl _ Hin).
Qed.

Lemma steps_keep b b' eid e :
  rtc boundary_step b b' → e ∈ list_all b eid → e ∈ list_all b' eid.
Proof.
  induction 1 as [|b b1 b2 (now & raw & ctx & st & sb & sh & [[env ok]|ex] & E) _ IH];
    [done| |]; intros Hin; apply IH.
  2: { apply intake_one_Raise in E. by subst. }
  apply intake_one_Ok in E as (c & stored & b3 & _ & Ha & ->).
  apply accept_one_case in Ha.
  assert (by_execution b3 = by_execution b) as Hb by (by inversion Ha).
  destruct stored; unfold list_all in *; simpl; rewrite Hb; [|done].
  destruct (decide (eid = ctx_execution_id ctx)) as [->|]; simplify_map_eq; [|done].
  apply elem_of_app. auto.
Qed.

(** What [intake] returns as accepted is stored as accepted. *)
Lemma intake_accepted_stored now cands ctx st sb sh b accepted rejected b' :
  intake now cands ctx st sb sh b = (Ok (accepted, rejected), b') →
  ∀ e, e ∈ accepted → e ∈ list_accepted b' (ctx_execution_id ctx).
Proof.
  revert now b accepted rejected.
  induction cands as [|raw cands IH]; intros now b accepted rejected; cbn [intake].
  { intros [= <- <- <-] e []%not_elem_of_nil. }
  unfold mbind, M_bind, mret, M_ret.
  destruct (intake_one (now 0) raw ctx st sb sh b) as [[[env ok]|ex] b1] eqn:E1; [|done].
  destruct (intake (λ i, now (S i)) cands ctx st sb sh b1) as [[[acc rej]|ex] b2] eqn:E2;
    [|done].
  intros E e He. assert (b2 = b') as -> by (destruct ok; by injection E).
  assert (ok = true ∧ e = env ∨ e ∈ acc) as [[-> ->]|Hin].
  { destruct ok; injection E as <- <-; [|by right].
    apply elem_of_cons in He as [->|]; auto. }
  - apply intake_one_Ok in E1 as (c & stored & b0 & _ & Ha & ->).
    apply accept_one_case in Ha. apply intake_steps in E2.
    apply list_elem_of_filter. inversion Ha as [? _ _ _ Hb _|? ? _ Hm Hs Hb _|]; subst.
    + split; [done|]. eapply steps_keep; [exact E2|]. unfold list_all; simpl.
      simplify_map_eq. apply elem_of_app. right. by left.
    + split; [by apply content_hash_same in Hs as (_ & _ & _ & ?)|]. eapply steps_keep; [exact E2|].
      unfold list_all in *. by rewrite Hb.
  - by eapply IH.
Qed.
End evidence_props.

(** ** Properties *)

Section evidence_theorems.
Context `{PyLib}.

(** C10: A candidate is accepted exactly when it is admissible (execution neither
    cancelled nor terminal, attempt authoritative, size within the context's bound,
    type known, some provenance, hash or payload, no provenance claim against the
    context) and either an identical accepted envelope is stored or nothing stored
    contradicts it (same type and sequence under another hash, or a higher accepted
    sequence). *)
Theorem accepted_iff_admissible now c ctx st sb sh b env ok stored b' :
  boundary_inv b →
  _accept_one now c ctx st sb sh b = (env, ok, stored, b') →
  (ok = true ↔ admissible c ctx st ∧
     ((∃ e, e ∈ list_all b (ctx_execution_id ctx) ∧ same_accepted c e = true) ∨
      compatible c (list_all b (ctx_execution_id ctx)))).
Proof.
  intros Hi E. pose proof (accept_one_case _ _ _ _ _ _ _ _ _ _ _ E) as Hcase. split.
  - intros ->. inversion Hcase as [? Hc Hs|? ? Hc|]; subst;
      (split; [by apply context_reason_None|]); [|by eauto].
    right. by apply stored_reason_None.
  - intros [Hadm [(e & Hin & Hs)|Hcomp]].
    + destruct (accept_one_again now c ctx st sb sh b e Hi Hadm Hin Hs) as (? & ? & E2 & _).
      rewrite E in E2. by simplify_eq.
    + unfold _accept_one in E. apply context_reason_None in Hadm. rewrite Hadm in E.
      apply stored_reason_None in Hcomp. rewrite Hcomp in E.
      destruct (_ in? _); [destruct (list_find _ _) as [[??]|]|]; by simplify_eq.
Qed.

(** Whatever intake calls run from a fresh boundary, in whatever contexts and
    whether or not they raise: every stored envelope names the execution it is stored
    under and is accepted exactly when it has no rejection reason, the accepted
    sequences of an execution never go down, and no two accepted envelopes with a
    hash have the same type and sequence. *)
Theorem evidence_boundary_invariant mb b :
  rtc intake_call (EvidenceBoundary_init mb) b → boundary_inv b.
Proof.
  intros Hr%intake_calls_steps. eapply boundary_inv_steps; [apply boundary_inv_init|done].
Qed.

(** Intake is idempotent for what it accepted: after any further calls, the same
    candidate presented in an admissible context of the same execution is accepted
    again as a stored envelope of the same type, hash and sequence, and nothing is
    stored. *)
Theorem reintake_stores_nothing mb b now raw ctx st sb sh env b1 b2 now' c ctx' st' sb' sh' :
  rtc intake_call (EvidenceBoundary_init mb) b →
  intake_one now raw ctx st sb sh b = (Ok (env, true), b1) →
  rtc intake_call b1 b2 →
  candidate_of_raw raw = Ok c →
  ctx_execution_id ctx' = ctx_execution_id ctx → admissible c ctx' st' →
  ∃ env' b3, intake_one now' raw ctx' st' sb' sh' b2 = (Ok (env', true), b3) ∧
    by_execution b3 = by_execution b2 ∧
    env' ∈ list_accepted b2 (ctx_execution_id ctx) ∧
    ev_evidence_type env' = ev_evidence_type env ∧
    ev_content_hash env' = ev_content_hash env ∧ ev_sequence env' = ev_sequence env.
Proof.
  intros Hr E Hr2 Hc Hctx Hadm. apply intake_calls_steps in Hr, Hr2.
  assert (boundary_inv b2) as Hi2.
  { eapply boundary_inv_steps; [apply (boundary_inv_init mb)|].
    etrans; [exact Hr|]. eapply rtc_l; [|exact Hr2].
    unfold boundary_step. eauto 10. }
  apply intake_one_Ok in E as (c2 & stored & b0 & Hc2 & Ha & ->).
  rewrite Hc in Hc2. injection Hc2 as <-.
  apply accept_one_case in Ha.
  assert (same_accepted c env = true ∧
    ∃ e, e = env ∧ e ∈ list_all b2 (ctx_execution_id ctx)) as (Hs & e & -> & Hin).
  { inversion Ha as [? _ _ _ Hb _|? ? _ Hin Hs Hb _|]; subst.
    - split; [apply same_accepted_new|].
      eexists; split; [done|]. eapply steps_keep; [exact Hr2|].
      unfold list_all; simpl. simplify_map_eq. apply elem_of_app. right. by left.
    - split; [done|]. eexists; split; [done|]. eapply steps_keep; [exact Hr2|].
      unfold list_all in *. by rewrite Hb. }
  rewrite <-Hctx in Hin.
  destruct (accept_one_again now' c ctx' st' sb' sh' b2 env Hi2 Hadm Hin Hs)
    as (e' & b4 & E4 & Hin' & Hs' & Hb4).
  exists e', b4. apply content_hash_same in Hs as (? & ? & ? & _).
  pose proof (content_hash_same _ _ Hs') as (? & ? & ? & ?).
  split; [apply intake_one_Ok; eauto 10|]. split_and!; try congruence.
  unfold list_accepted. apply list_elem_of_filter. by rewrite <-Hctx.
Qed.
End evidence_theorems.

(** ** Witnesses *)

#[local] Existing Instance counting_lib.

Lemma accepted_iff_admissible_witness :
  admissible sample_candidate sample_context EVIDENCE_PENDING ∧
  ((∃ e, e ∈ list_all (EvidenceBoundary_init 10) "exec" ∧
      same_accepted sample_candidate e = true) ∨
   compatible sample_candidate (list_all (EvidenceBoundary_init 10) "exec")).
Proof.
  refine (proj1 (accepted_iff_admissible 0%Z sample_candidate
    sample_context EVIDENCE_PENDING "local" None (EvidenceBoundary_init 10) _ true true _
    (boundary_inv_init _) _) eq_refl); reflexivity.
Defined.

Definition boundary_after (b : EvidenceBoundary) : EvidenceBoundary :=
  (intake (λ _, 0%Z) [RawCandidate sample_candidate] sample_context
    EVIDENCE_PENDING "local" None b).2.

Lemma boundary_after_call b : intake_call b (boundary_after b).
Proof.
  unfold intake_call, boundary_after. repeat eexists. by apply surjective_pairing.
Qed.

Lemma evidence_boundary_invariant_witness :
  boundary_inv (boundary_after (EvidenceBoundary_init 10)) ∧
  length (list_all (boundary_after (EvidenceBoundary_init 10)) "exec") = 1.
Proof.
  split; [|reflexivity].
  exact (evidence_boundary_invariant 10 _
    (rtc_once _ _ (boundary_after_call _))).
Defined.

Lemma reintake_stores_nothing_witness :
  ∃ env b1 env' b3,
    intake_one 0 (RawCandidate sample_candidate) sample_context
      EVIDENCE_PENDING "local" None (EvidenceBoundary_init 10) = (Ok (env, true), b1) ∧
    intake_one 5 (RawCandidate sample_candidate) sample_context
      RUNNING "local" None (boundary_after b1) = (Ok (env', true), b3) ∧
    by_execution b3 = by_execution (boundary_after b1).
Proof.
  eexists _, _.
  edestruct (reintake_stores_nothing 10 (EvidenceBoundary_init 10) 0
    (RawCandidate sample_candidate) sample_context EVIDENCE_PENDING "local" None) with
    (now' := 5%Z) (ctx' := sample_context) (st' := RUNNING) (sb' := "local")
    (sh' := @None string) as (env' & b3 & E & Hb & _).
  - apply rtc_refl.
  - vm_compute; reflexivity.
  - apply rtc_once, boundary_after_call.
  - reflexivity.
  - reflexivity.
  - apply context_reason_None. reflexivity.
  - exists env', b3. split; [vm_compute; reflexivity|]. split; [exact E|exact Hb].
Defined.
