(* ===== verification/Usage.v ===== *)
(** * Usage finalisation

    [runtime_v1/completion/usage.py]: usage facts are recorded once per attempt and
    summed once per execution. *)

From Stdlib Require Import Ascii SpecFloat.
From S2P Require Import Prelude CompletionModels.

(** ** Sums

    [sum] of floats, as the interpreter adds them: the start is the integer [0], and
    the additions carry Neumaier's compensation. *)

Definition fabs_ge (x y : spec_float) : bool := SFleb (SFabs y) (SFabs x).
Definition sf_finite (f : spec_float) : bool :=
  match f with S754_zero _ | S754_finite _ _ _ => true | _ => false end.

Fixpoint neumaier (l : list spec_float) (total c : spec_float) : spec_float :=
  match l with
  | [] => if negb (sf_zero c) && sf_finite c then fadd total c else total
  | x :: l' =>
      let t := fadd total x in
      let c' := if fabs_ge total x then fadd c (fadd (fsub total t) x)
                else fadd c (fadd (fsub x t) total) in
      neumaier l' t c'
  end.

Definition sum_floats (l : list spec_float) : pyval :=
  match l with
  | [] => PInt 0
  | x :: l' => PFloat (neumaier l' (fadd (S754_zero false) x) (S754_zero false))
  end.

Definition sum_ints (l : list Z) : Z := foldr Z.add 0%Z l.

(** ** The finaliser *)

(* @src runtime_v1/completion/usage.py:11-15 UsageFinaliser *)
Record UsageFinaliser := {
  attempt_usage : list (string * dict);
  execution_finalised : gset string;
  execution_aggregate : gmap string dict
}.

(* @src runtime_v1/completion/usage.py:12-15 UsageFinaliser.__init__ *)
Definition UsageFinaliser_init : UsageFinaliser :=
  {| attempt_usage := []; execution_finalised := ∅; execution_aggregate := ∅ |}.

Definition set_attempt_usage (key : string) (row : dict) (u : UsageFinaliser) :
    UsageFinaliser :=
  {| attempt_usage := dict_set key row (attempt_usage u);
     execution_finalised := execution_finalised u;
     execution_aggregate := execution_aggregate u |}.

Definition attempt_key (execution_id attempt_id : string) : string :=
  execution_id +:+ ":" +:+ attempt_id.

(** The aggregate of the fact's execution belongs to another tenant. *)
(* @src runtime_v1/completion/usage.py:22-24 UsageFinaliser.record_attempt *)
Definition foreign_tenant (fact : UsageFact) (u : UsageFinaliser) : bool :=
  match execution_aggregate u !! uf_execution_id fact with
  | None => false
  | Some existing =>
      truthy (PDict existing) && truthy (dget "organisation_id" existing) &&
      truthy (uf_organisation_id fact) &&
      negb (py_eqb (dget "organisation_id" existing) (uf_organisation_id fact))
  end.

(* @src runtime_v1/completion/usage.py:17-28 UsageFinaliser.record_attempt *)
Definition record_attempt (fact : UsageFact) : M UsageFinaliser dict :=
  let key := attempt_key (uf_execution_id fact) (uf_attempt_id fact) in
  u ← get_state;
  match dict_get key (attempt_usage u) with
  | Some row => mret row
  | None =>
      if foreign_tenant fact u then raise (PermissionError "wrong-tenant usage cannot be attached")
      else
        let row := UsageFact_as_dict fact in
        modify_state (set_attempt_usage key row);;
        mret row
  end.

(** A fact object, or a mapping. *)
Inductive raw_fact :=
| RawFact (f : UsageFact)
| RawFactMapping (d : dict).

(** The stored facts of a row. *)
Definition row_facts (row : dict) : dict :=
  match dget "facts" row with PDict d => d | _ => [] end.

Section usage.
Context `{PyLib}.

(** The fact a mapping stands for. *)
(* @src runtime_v1/completion/usage.py:47-56 UsageFinaliser.finalise *)
Definition fact_of_raw (execution_id mission_id : string) (raw : raw_fact) :
    res UsageFact :=
  match raw with
  | RawFact f => Ok f
  | RawFactMapping item =>
      res_bind (py_dict (py_or (dget "facts" item) (PDict []))) (λ facts,
      Ok {| uf_organisation_id := dget "organisation_id" item;
            uf_project_id := dget "project_id" item;
            uf_mission_id := py_str (py_or (dget "mission_id" item) (PStr mission_id));
            uf_execution_id := execution_id;
            uf_attempt_id := py_str (py_or (dget "attempt_id" item) (PStr "unknown"));
            uf_backend_id := py_str (py_or (dget "backend_id" item) (PStr "unknown"));
            uf_harness_id := dget "harness_id" item;
            uf_facts := facts |})
  end.

(** The body of the loop over [attempt_facts]. *)
(* @src runtime_v1/completion/usage.py:42-57 UsageFinaliser.finalise *)
Definition record_raw (execution_id mission_id : string) (item : raw_fact) :
    M UsageFinaliser unit :=
  fact ← lift_res (fact_of_raw execution_id mission_id item);
  record_attempt fact;;
  mret tt.

(* @src runtime_v1/completion/usage.py:59-63 UsageFinaliser.finalise *)
Definition attempts_of (execution_id : string) (u : UsageFinaliser) : list dict :=
  (filter (λ kv, startswith (execution_id +:+ ":") kv.1 = true) (attempt_usage u)).*2.

Definition wall_of (row : dict) : res spec_float :=
  py_float (py_or (dget "wall_clock_seconds" (row_facts row)) (PInt 0)).
Definition tokens_of (k : string) (row : dict) : res Z :=
  py_int (py_or (dget k (row_facts row)) (PInt 0)).

(** The aggregate over the recorded attempts. *)
(* @src runtime_v1/completion/usage.py:59-78 UsageFinaliser.finalise *)
Definition aggregate_of (execution_id : string) (organisation_id project_id : option string)
    (mission_id : string) (attempts : list dict) : res dict :=
  res_bind (traverse wall_of attempts) (λ walls,
  res_bind (traverse (tokens_of "input_tokens") attempts) (λ tokens_in,
  res_bind (traverse (tokens_of "output_tokens") attempts) (λ tokens_out,
  Ok [("execution_id", PStr execution_id); ("organisation_id", ostr organisation_id);
      ("project_id", ostr project_id); ("mission_id", PStr mission_id);
      ("attempt_count", PInt (Z.of_nat (length attempts)));
      ("wall_clock_seconds", sum_floats walls);
      ("input_tokens", PInt (sum_ints tokens_in));
      ("output_tokens", PInt (sum_ints tokens_out));
      ("attempts", PList (PDict <$> attempts)); ("finalised", PBool true)]))).

(* @src runtime_v1/completion/usage.py:30-81 UsageFinaliser.finalise *)
Definition finalise (execution_id : string) (organisation_id project_id : option string)
    (mission_id : string) (attempt_facts : list raw_fact) : M UsageFinaliser dict :=
  u ← get_state;
  if execution_id in? execution_finalised u then
    match execution_aggregate u !! execution_id with
    | Some aggregate => mret aggregate
    | None => raise (KeyError execution_id)
    end
  else
    for_each attempt_facts (record_raw execution_id mission_id);;
    u ← get_state;
    aggregate ← lift_res (aggregate_of execution_id organisation_id project_id mission_id
                            (attempts_of execution_id u));
    modify_state (λ u,
      {| attempt_usage := attempt_usage u;
         execution_finalised := {[execution_id]} ∪ execution_finalised u;
         execution_aggregate := <[execution_id := aggregate]> (execution_aggregate u) |});;
    mret aggregate.

(* @src runtime_v1/completion/usage.py:83-84 UsageFinaliser.is_finalised *)
Definition is_finalised (execution_id : string) (u : UsageFinaliser) : bool :=
  execution_id in? execution_finalised u.
End usage.

(** ** Lemmas *)

Section usage_lemmas.
Context `{PyLib}.
Implicit Types (u : UsageFinaliser) (fact : UsageFact).

(** One call of the finaliser. *)
Inductive usage_call u : UsageFinaliser → Prop :=
| call_record fact r u' : record_attempt fact u = (r, u') → usage_call u u'
| call_finalise eid org proj mission facts r u' :
    finalise eid org proj mission facts u = (r, u') → usage_call u u'.

Lemma record_attempt_keeps fact I :
  (∀ u, dict_get (attempt_key (uf_execution_id fact) (uf_attempt_id fact))
          (attempt_usage u) = None → I u →
    I (set_attempt_usage (attempt_key (uf_execution_id fact) (uf_attempt_id fact))
         (UsageFact_as_dict fact) u)) →
  keeps I (record_attempt fact).
Proof.
  intros Hset u HI. unfold record_attempt, mbind, M_bind, get_state. simpl.
  destruct (dict_get _ (attempt_usage u)) eqn:Hg; [done|].
  destruct (foreign_tenant fact u); [exact HI|].
  by apply Hset.
Qed.

Lemma finalise_keeps eid org proj mission facts I :
  (∀ fact, keeps I (record_attempt fact)) →
  (∀ u agg, I u → eid ∉ execution_finalised u →
    I {| attempt_usage := attempt_usage u;
         execution_finalised := {[eid]} ∪ execution_finalised u;
         execution_aggregate := <[eid := agg]> (execution_aggregate u) |}) →
  (∀ fact n, keeps (λ u, eid ∈ execution_finalised u ↔ n = true) (record_attempt fact)) →
  keeps I (finalise eid org proj mission facts).
Proof.
  intros Hrec Hfin Hset u HI.
  unfold finalise, mbind, M_bind, get_state. cbn [fst snd].
  case_bool_decide as Hin; [by destruct (execution_aggregate u !! eid)|].
  assert (keeps (λ u, I u ∧ (eid ∈ execution_finalised u ↔ false = true))
            (for_each facts (record_raw eid mission))) as Hb.
  { apply keeps_for_each. intros x. unfold record_raw.
    apply keeps_bind; [apply keeps_lift|intros f].
    apply keeps_bind; [|intros; apply keeps_ret].
    intros u' [? ?]. split; [by apply Hrec|by apply Hset]. }
  specialize (Hb u). destruct (for_each facts (record_raw eid mission) u) as [[[]|e] u1]; simpl in *.
  - destruct Hb as [? Hn]; [naive_solver|].
    unfold lift_res. destruct (aggregate_of _ _ _ _ _) as [agg|e]; [|done].
    apply Hfin; naive_solver.
  - destruct Hb; [naive_solver|done].
Qed.

Lemma record_attempt_finalised fact eid n :
  keeps (λ u, eid ∈ execution_finalised u ↔ n = true) (record_attempt fact).
Proof. by apply record_attempt_keeps. Qed.

Lemma usage_call_keeps I :
  (∀ fact, keeps I (record_attempt fact)) →
  (∀ eid u agg, I u → eid ∉ execution_finalised u →
    I {| attempt_usage := attempt_usage u;
         execution_finalised := {[eid]} ∪ execution_finalised u;
         execution_aggregate := <[eid := agg]> (execution_aggregate u) |}) →
  ∀ u u', rtc usage_call u u' → I u → I u'.
Proof.
  intros Hrec Hfin u u'. induction 1 as [|u u1 u2 Hc _ IH]; [done|]. intros HI. apply IH.
  destruct Hc as [fact r u1 E|eid org proj mission facts r u1 E].
  - specialize (Hrec fact u HI). by rewrite E in Hrec.
  - pose proof (finalise_keeps eid org proj mission facts I Hrec (Hfin eid)
      (λ f n, record_attempt_finalised f eid n) u HI) as Hk. by rewrite E in Hk.
Qed.

(** The aggregate of a finalised execution. *)
Definition finalised_as (eid : string) (agg : dict) u : Prop :=
  eid ∈ execution_finalised u ∧ execution_aggregate u !! eid = Some agg.

Lemma finalise_known eid agg org proj mission facts u :
  finalised_as eid agg u → finalise eid org proj mission facts u = (Ok agg, u).
Proof.
  intros [Hin Hagg]. unfold finalise, mbind, M_bind, get_state.
  by rewrite bool_decide_eq_true_2, Hagg.
Qed.

Lemma finalise_Ok eid org proj mission facts agg u u' :
  finalise eid org proj mission facts u = (Ok agg, u') →
  finalised_as eid agg u'.
Proof.
  unfold finalise, mbind, M_bind, get_state. case_bool_decide as Hin.
  - destruct (execution_aggregate u !! eid) eqn:E; [|done]. intros [= -> ->]. done.
  - destruct (for_each facts (record_raw eid mission) u) as [[[]|e] u1]; [|done].
    unfold lift_res. destruct (aggregate_of _ _ _ _ _) as [agg'|e]; [|done].
    intros [= -> <-].
    split; simpl; [set_solver|by simplify_map_eq].
Qed.

(** ** Rows *)

Definition colon_free (s : string) : Prop := str_contains_char ":"%char s = false.

Lemma append_cons c s t : String c s +:+ t = String c (s +:+ t).
Proof. done. Qed.

Lemma append_nil s : "" +:+ s = s.
Proof. done. Qed.

Lemma prefix_attempt_key eid e a :
  colon_free eid → colon_free e →
  startswith (eid +:+ ":") (attempt_key e a) = true ↔ e = eid.
Proof.
  unfold colon_free, str_contains_char, startswith, attempt_key. revert e.
  induction eid as [|c eid IH]; intros [|c' e];
    rewrite ?append_cons, ?append_nil; cbn [String.prefix existsb String.list_ascii_of_string].
  - intros _ _. split; [done|]. intros _. by destruct a.
  - intros _ [Hc _]%orb_false_iff. destruct (ascii_dec ":" c') as [<-|]; [done|].
    by split.
  - intros [Hc _]%orb_false_iff _. destruct (ascii_dec c ":") as [->|]; [done|].
    by split.
  - intros [_ H1]%orb_false_iff [_ H2]%orb_false_iff.
    destruct (ascii_dec c c') as [<-|Hne]; [|split; [done|congruence]].
    rewrite (IH e H1 H2). split; congruence.
Qed.

(** Every row sits under the key of its execution and attempt, once, and the
    execution ids hold no colon. *)
Definition row_ok (kv : string * dict) : Prop :=
  ∃ e a, kv.1 = attempt_key e a ∧ colon_free e ∧
    dget "execution_id" kv.2 = PStr e ∧ dget "attempt_id" kv.2 = PStr a.
Definition rows_inv u : Prop :=
  NoDup (dict_keys (attempt_usage u)) ∧ Forall row_ok (attempt_usage u).

Lemma rows_inv_record fact :
  colon_free (uf_execution_id fact) → keeps rows_inv (record_attempt fact).
Proof.
  intros Hf. apply record_attempt_keeps. intros u Hg [Hn Hr]. split; simpl.
  - by apply dict_set_NoDup.
  - apply dict_set_Forall; [|done]. do 2 eexists; by split_and!.
Qed.

Lemma fact_of_raw_execution eid mission raw f :
  fact_of_raw eid mission raw = Ok f →
  match raw with RawFact f' => f = f' | RawFactMapping _ => uf_execution_id f = eid end.
Proof.
  destruct raw as [f'|d]; simpl; [by intros [= ->]|].
  destruct (py_dict _); simpl; [|done]. by intros [= <-].
Qed.

(** The facts of a call name colon-free executions. *)
Definition raw_ok (raw : raw_fact) : Prop :=
  match raw with RawFact f => colon_free (uf_execution_id f) | RawFactMapping _ => True end.

Lemma rows_inv_raw eid mission facts :
  colon_free eid → Forall raw_ok facts →
  keeps rows_inv (for_each facts (record_raw eid mission)).
Proof.
  intros He. induction 1 as [|raw facts Hraw _ IH]; simpl; [apply keeps_ret|].
  apply keeps_bind; [|done]. unfold record_raw. intros u Hu.
  unfold mbind, M_bind, lift_res at 1.
  destruct (fact_of_raw eid mission raw) as [f|] eqn:Ef; [|done].
  apply fact_of_raw_execution in Ef.
  assert (colon_free (uf_execution_id f)) as Hf by (destruct raw; by subst).
  pose proof (rows_inv_record f Hf u Hu).
  by destruct (record_attempt f u) as [[]].
Qed.

Lemma rows_filter eid u :
  colon_free eid → rows_inv u →
  (∀ row, row ∈ attempts_of eid u ↔
     row ∈ (attempt_usage u).*2 ∧ dget "execution_id" row = PStr eid) ∧
  NoDup (dget "attempt_id" <$> attempts_of eid u).
Proof.
  intros He [Hn Hr]. unfold attempts_of, dict_keys in *. split.
  - intros row. rewrite !list_elem_of_fmap. rewrite Forall_forall in Hr. split.
    + intros ([k v] & -> & [Hp Hin]%list_elem_of_filter). simpl in *.
      destruct (Hr _ Hin) as (e & a & Hk & Hc & Hd & _). simpl in *. subst k.
      apply prefix_attempt_key in Hp as <-; [|done..].
      split; [|done]. by eexists (_, _).
    + intros [([k v] & -> & Hin) Hd]. exists (k, v). split; [done|].
      apply list_elem_of_filter. split; [|done]. simpl in *.
      destruct (Hr _ Hin) as (e & a & Hk & Hc & Hd' & _). simpl in *. subst k.
      apply prefix_attempt_key; congruence.
  - induction (attempt_usage u) as [|[k v] d IH]; [constructor|].
    apply NoDup_cons in Hn as [Hni Hn]. apply Forall_cons in Hr as [Hx Hr].
    cbn [filter list_filter]. case_decide as Hp; [|by apply IH].
    simpl. constructor; [|by apply IH]. intros Hin.
    apply list_elem_of_fmap in Hin as (row & Ha & Hin).
    apply list_elem_of_fmap in Hin as ([k2 v2] & -> & [Hp2 Hin]%list_elem_of_filter).
    destruct Hx as (e & a & Hk & Hc & _ & Hda). rewrite Forall_forall in Hr.
    destruct (Hr _ Hin) as (e2 & a2 & Hk2 & Hc2 & _ & Hda2). simpl in *. subst k k2.
    apply prefix_attempt_key in Hp, Hp2; [|done..]. subst e e2.
    apply Hni, list_elem_of_fmap. eexists (_, _). split; [|exact Hin]. simpl. congruence.
Qed.

(** The finaliser after a call that computed the aggregate. *)
Lemma finalise_new eid org proj mission facts agg u u' :
  finalise eid org proj mission facts u = (Ok agg, u') → eid ∉ execution_finalised u →
  ∃ u1, for_each facts (record_raw eid mission) u = (Ok tt, u1) ∧
    aggregate_of eid org proj mission (attempts_of eid u1) = Ok agg ∧
    attempt_usage u' = attempt_usage u1.
Proof.
  unfold finalise, mbind, M_bind, get_state. intros E Hin.
  rewrite bool_decide_eq_false_2 in E by done.
  destruct (for_each facts (record_raw eid mission) u) as [[[]|e] u1]; [|done].
  unfold lift_res in E. destruct (aggregate_of _ _ _ _ _) as [agg'|e] eqn:Ha; [|done].
  injection E as -> <-. eauto.
Qed.

Lemma traverse_length {A B} (f : A → res B) l ys : traverse f l = Ok ys → length ys = length l.
Proof.
  revert ys. induction l as [|x l IH]; simpl; intros ys; [by intros [= <-]|].
  destruct (f x); simpl; [|done]. destruct (traverse f l); simpl; [|done].
  intros [= <-]. simpl. f_equal. by apply IH.
Qed.

(** One call whose facts and execution name no colon. *)
Inductive clean_call u : UsageFinaliser → Prop :=
| clean_record fact r u' :
    colon_free (uf_execution_id fact) → record_attempt fact u = (r, u') → clean_call u u'
| clean_finalise eid org proj mission facts r u' :
    colon_free eid → Forall raw_ok facts →
    finalise eid org proj mission facts u = (r, u') → clean_call u u'.

Lemma rows_inv_calls u u' : rtc clean_call u u' → rows_inv u → rows_inv u'.
Proof.
  induction 1 as [|u u1 u2 Hc _ IH]; [done|]. intros Hu. apply IH.
  destruct Hc as [fact r u1 Hf E|eid org proj mission facts r u1 He Hf E].
  - pose proof (rows_inv_record fact Hf u Hu) as Hk. by rewrite E in Hk.
  - unfold finalise, mbind, M_bind, get_state in E.
    case_bool_decide; [destruct (execution_aggregate u !! eid); by injection E as _ <-|].
    pose proof (rows_inv_raw eid mission facts He Hf u Hu) as Hk.
    destruct (for_each facts (record_raw eid mission) u) as [[[]|e] u3];
      [|by injection E as _ <-].
    unfold lift_res in E. destruct (aggregate_of _ _ _ _ _) as [agg'|e];
      injection E as _ <-; done.
Qed.
End usage_lemmas.

(** ** Properties *)

Section usage_theorems.
Context `{PyLib}.

(** Finalisation happens once: when a call returned an aggregate, every later call
    for the execution, after any records and finalisations and with any facts or
    owner, returns the same aggregate and changes nothing. *)
Theorem finalise_once eid org proj mission facts agg u u1 u2 org' proj' mission' facts' :
  finalise eid org proj mission facts u = (Ok agg, u1) →
  rtc usage_call u1 u2 →
  finalise eid org' proj' mission' facts' u2 = (Ok agg, u2).
Proof.
  intros Hf%finalise_Ok Hr. apply finalise_known.
  apply (usage_call_keeps (finalised_as eid agg)) with u1; [| |exact Hr|exact Hf].
  - intros fact. apply record_attempt_keeps. by intros u' _ [? ?].
  - intros e u' agg' [Hin Ha] Hne. split; simpl; [set_solver|].
    assert (e ≠ eid) by congruence. by simplify_map_eq.
Qed.

(** While execution ids hold no colon, a first finalisation aggregates exactly the
    recorded rows of its execution, each attempt once, and its counts and token totals
    are those of these rows. *)
Theorem finalise_totals eid org proj mission facts agg u u' :
  rtc clean_call UsageFinaliser_init u →
  colon_free eid → Forall raw_ok facts → eid ∉ execution_finalised u →
  finalise eid org proj mission facts u = (Ok agg, u') →
  ∃ rows ins outs,
    dget "attempts" agg = PList (PDict <$> rows) ∧
    (∀ row, row ∈ rows ↔
       row ∈ (attempt_usage u').*2 ∧ dget "execution_id" row = PStr eid) ∧
    NoDup (dget "attempt_id" <$> rows) ∧
    dget "attempt_count" agg = PInt (Z.of_nat (length rows)) ∧
    traverse (tokens_of "input_tokens") rows = Ok ins ∧
    dget "input_tokens" agg = PInt (sum_ints ins) ∧
    traverse (tokens_of "output_tokens") rows = Ok outs ∧
    dget "output_tokens" agg = PInt (sum_ints outs).
Proof.
  intros Hr He Hf Hn E. apply finalise_new in E as (u1 & Hrec & Hagg & Hu'); [|done].
  assert (rows_inv u1) as Hinv.
  { apply rows_inv_calls in Hr; [|by split; constructor].
    pose proof (rows_inv_raw eid mission facts He Hf u Hr) as Hk. by rewrite Hrec in Hk. }
  destruct (rows_filter eid u1 He Hinv) as [Hrows Hnd]. rewrite Hu'.
  unfold aggregate_of in Hagg.
  destruct (traverse wall_of _) as [walls|]; [|done].
  destruct (traverse (tokens_of "input_tokens") _) as [ins|] eqn:Hins; [|done].
  destruct (traverse (tokens_of "output_tokens") _) as [outs|] eqn:Houts; [|done].
  injection Hagg as <-. exists (attempts_of eid u1), ins, outs. by split_and!.
Qed.
End usage_theorems.

(** ** Witnesses *)

#[local] Existing Instance counting_lib.

Definition sample_fact (attempt : string) (tokens : Z) : UsageFact :=
  {| uf_organisation_id := PStr "org"; uf_project_id := PNone; uf_mission_id := "mission";
     uf_execution_id := "exec"; uf_attempt_id := attempt; uf_backend_id := "local";
     uf_harness_id := PNone; uf_facts := [("input_tokens", PInt tokens)] |}.

Definition sample_facts : list raw_fact :=
  [RawFact (sample_fact "a1" 3); RawFact (sample_fact "a1" 9); RawFact (sample_fact "a2" 4)].

Definition sample_finalise : M UsageFinaliser dict :=
  finalise "exec" (Some "org") None "mission" sample_facts.

Lemma finalise_once_witness :
  ∃ agg u1,
    sample_finalise UsageFinaliser_init = (Ok agg, u1) ∧
    dget "input_tokens" agg = PInt 7 ∧
    finalise "exec" None None "other" [RawFact (sample_fact "a3" 5)] u1 = (Ok agg, u1).
Proof.
  eexists _, _. split; [vm_compute; reflexivity|]. split; [reflexivity|].
  eapply (finalise_once "exec" (Some "org") None "mission" sample_facts _ UsageFinaliser_init);
    [|apply rtc_refl]. vm_compute; reflexivity.
Defined.

Lemma finalise_totals_witness :
  ∃ agg u', sample_finalise UsageFinaliser_init = (Ok agg, u') ∧
    ∃ rows, dget "attempts" agg = PList (PDict <$> rows) ∧ NoDup (dget "attempt_id" <$> rows).
Proof.
  eexists _, _. split; [vm_compute; reflexivity|].
  edestruct (finalise_totals "exec" (Some "org") None "mission" sample_facts)
    with (u := UsageFinaliser_init) as (rows & ins & outs & Ha & _ & Hn & _).
  - apply rtc_refl.
  - reflexivity.
  - repeat constructor.
  - apply not_elem_of_empty.
  - vm_compute; reflexivity.
  - exists rows. split; [exact Ha|exact Hn].
Defined.
