(* ===== verification/MissionGraph.v ===== *)
(** * The mission graph projection

    [runtime_v1/completion/graph.py]: nodes per execution, one per dedupe key. The
    fresh identifier and the clock reading a new node takes are arguments. *)

From S2P Require Import Prelude CompletionModels.

(* @src runtime_v1/completion/graph.py:14-17 MissionGraphProjector *)
Record MissionGraphProjector := {
  graph_nodes : gmap string (list dict);
  node_keys : gmap string (gset string)
}.

(* @src runtime_v1/completion/graph.py:15-17 MissionGraphProjector.__init__ *)
Definition MissionGraphProjector_init : MissionGraphProjector :=
  {| graph_nodes := ∅; node_keys := ∅ |}.

(* @src runtime_v1/completion/graph.py:19-20 MissionGraphProjector.nodes_for *)
Definition nodes_for (execution_id : string) (g : MissionGraphProjector) : list dict :=
  default [] (graph_nodes g !! execution_id).

Definition keys_for (execution_id : string) (g : MissionGraphProjector) : gset string :=
  default ∅ (node_keys g !! execution_id).

(** [node.get("dedupe_key") == key]. *)
Definition has_key (key : string) (node : dict) : bool :=
  py_eqb (dget "dedupe_key" node) (PStr key).

Section graph.
Context `{PyLib}.

(* @src runtime_v1/completion/graph.py:105-112 MissionGraphProjector._add *)
Definition make_node (uid : string) (now : Z) (execution_id kind key : string)
    (payload : dict) : dict :=
  [("node_id", PStr ("graph_" +:+ uid)); ("kind", PStr kind); ("dedupe_key", PStr key);
   ("execution_id", PStr execution_id); ("payload", PDict payload);
   ("created_at", PStr (isoformat now))].

(* @src runtime_v1/completion/graph.py:92-115 MissionGraphProjector._add *)
Definition _add (uid : string) (now : Z) (execution_id kind key : string) (payload : dict) :
    M MissionGraphProjector dict :=
  modify_state (λ g, {| graph_nodes := graph_nodes g;
    node_keys := <[execution_id := keys_for execution_id g]> (node_keys g) |});;
  g ← get_state;
  match (if key in? keys_for execution_id g
         then list_find (λ node, has_key key node = true) (nodes_for execution_id g)
         else None) with
  | Some (_, node) => mret node
  | None =>
      let node := make_node uid now execution_id kind key payload in
      modify_state (λ g,
        {| graph_nodes := <[execution_id := nodes_for execution_id g ++ [node]]>
                            (graph_nodes g);
           node_keys := <[execution_id := {[key]} ∪ keys_for execution_id g]>
                          (node_keys g) |});;
      mret node
  end.

(* @src runtime_v1/completion/graph.py:22-30 MissionGraphProjector.project_request *)
Definition project_request uid now (execution_id mission_id : string) (payload : dict) :=
  _add uid now execution_id "ExecutionRequest" ("request:" +:+ execution_id)
    (dict_update [("mission_id", PStr mission_id)] payload).

(* @src runtime_v1/completion/graph.py:32-40 MissionGraphProjector.project_decision *)
Definition project_decision uid now (execution_id : string) (payload : dict) :=
  _add uid now execution_id "ExecutionDecision"
    ("decision:" +:+ execution_id +:+ ":" +:+ py_str (dget "selected_backend_id" payload))
    payload.

(* @src runtime_v1/completion/graph.py:42-50 MissionGraphProjector.project_attempt *)
Definition project_attempt uid now (execution_id attempt_id : string) (payload : dict) :=
  _add uid now execution_id "ExecutionAttempt" ("attempt:" +:+ attempt_id)
    (dict_update [("attempt_id", PStr attempt_id)] payload).

(* @src runtime_v1/completion/graph.py:52-65 MissionGraphProjector.project_evidence *)
Definition project_evidence uid now (execution_id : string) (evidence : EvidenceEnvelope)
    (accepted : bool) :=
  let kind := if accepted then "AcceptedEvidence" else "CandidateEvidence" in
  _add uid now execution_id kind
    ("evidence:" +:+ ev_evidence_id evidence +:+ ":" +:+ kind)
    (EvidenceEnvelope_as_dict evidence).

(* @src runtime_v1/completion/graph.py:67-75 MissionGraphProjector.project_verification *)
Definition project_verification uid now (execution_id : string) (payload : dict) :=
  _add uid now execution_id "Verification"
    ("verification:" +:+ execution_id +:+ ":" +:+ py_str (dget "outcome" payload)) payload.

(* @src runtime_v1/completion/graph.py:77-90 MissionGraphProjector.project_result *)
Definition project_result uid now (record : CompletionRecord) :=
  let state := CompletionLifecycleState_value (rec_state record) in
  _add uid now (rec_execution_id record) "ExecutionResult"
    ("result:" +:+ rec_execution_id record +:+ ":" +:+ state)
    [("state", PStr state); ("ok", PBool (rec_state record == COMPLETED));
     ("failure_class", ostr (rec_failure_class record));
     ("detail", ostr (rec_detail record));
     ("verification", PDict (rec_verification record));
     ("evidence_ids", PList (PStr <$> rec_evidence_ids record))].

(** ** Lemmas *)

(** The nodes of every execution have distinct keys, which are the known ones. *)
Definition graph_inv (g : MissionGraphProjector) : Prop :=
  ∀ eid, ∃ keys,
    (dget "dedupe_key" <$> nodes_for eid g) = PStr <$> keys ∧ NoDup keys ∧
    (∀ k, k ∈ keys ↔ k ∈ keys_for eid g) ∧
    Forall (λ node, dget "execution_id" node = PStr eid) (nodes_for eid g).

Lemma has_key_spec key node : has_key key node = true ↔ dget "dedupe_key" node = PStr key.
Proof.
  unfold has_key. destruct (dget "dedupe_key" node); simpl; try (split; congruence).
  rewrite bool_decide_eq_true. split; congruence.
Qed.

(** What [_add] does: the node of the key is returned as it is, or appended. *)
Lemma add_spec uid now eid kind key payload g :
  graph_inv g →
  ∃ node g', _add uid now eid kind key payload g = (Ok node, g') ∧
    dget "dedupe_key" node = PStr key ∧ node ∈ nodes_for eid g' ∧
    (∀ e, e ≠ eid → nodes_for e g' = nodes_for e g ∧ keys_for e g' = keys_for e g) ∧
    (if key in? keys_for eid g
     then node ∈ nodes_for eid g ∧ nodes_for eid g' = nodes_for eid g ∧
          keys_for eid g' = keys_for eid g
     else node = make_node uid now eid kind key payload ∧
          nodes_for eid g' = nodes_for eid g ++ [node] ∧
          keys_for eid g' = {[key]} ∪ keys_for eid g).
Proof.
  intros Hi. destruct (Hi eid) as (keys & Hk & _ & Hin & _).
  unfold _add, mbind, M_bind, modify_state, get_state. cbn [fst snd].
  set (g1 := {| graph_nodes := graph_nodes g; node_keys := _ |}).
  assert (keys_for eid g1 = keys_for eid g) as Hk1.
  { unfold keys_for, g1; simpl. by simplify_map_eq. }
  assert (∀ e, e ≠ eid → keys_for e g1 = keys_for e g) as Hk2.
  { intros e He. unfold keys_for at 1, g1; simpl. by simplify_map_eq. }
  assert (∀ e, nodes_for e g1 = nodes_for e g) as Hn1 by done.
  rewrite Hk1. case_bool_decide as Hkey.
  - destruct (list_find _ (nodes_for eid g1)) as [[i node]|] eqn:Hl.
    + apply list_find_Some in Hl as (Hl & Hd & _). apply list_elem_of_lookup_2 in Hl.
      eexists node, g1. rewrite Hn1 in *. split_and!; try done; [by apply has_key_spec|].
      intros e He. by rewrite Hk2.
    + apply list_find_None in Hl. exfalso.
      assert (PStr key ∈ dget "dedupe_key" <$> nodes_for eid g) as Hf.
      { rewrite Hk. apply list_elem_of_fmap. exists key. split; [done|by apply Hin]. }
      apply list_elem_of_fmap in Hf as (node & Hd & Hnode).
      rewrite Forall_forall in Hl. apply (Hl node); [done|]. by apply has_key_spec.
  - eexists _, _. split; [done|]. unfold nodes_for, keys_for in *; simpl.
    simplify_map_eq. split_and!; try done.
    + apply elem_of_app. right. by apply list_elem_of_singleton.
    + intros e He. by simplify_map_eq.
Qed.

Lemma add_inv uid now eid kind key payload g :
  graph_inv g → graph_inv (_add uid now eid kind key payload g).2.
Proof.
  intros Hi. destruct (add_spec uid now eid kind key payload g Hi)
    as (node & g' & -> & Hd & _ & Hne & Hcase). simpl. intros e.
  destruct (decide (e = eid)) as [->|He].
  2: { destruct (Hne e He) as [-> ->]. apply Hi. }
  destruct (Hi eid) as (keys & Hk & Hnd & Hin & Hex). case_bool_decide as Hkey.
  - destruct Hcase as (_ & -> & ->). by exists keys.
  - destruct Hcase as (-> & -> & ->). exists (keys ++ [key]). split_and!.
    + by rewrite !fmap_app, Hk.
    + apply NoDup_app. split_and!; [done| |apply NoDup_singleton].
      intros k Hk1 ->%list_elem_of_singleton. by apply Hkey, Hin.
    + intros k. rewrite elem_of_app, list_elem_of_singleton, Hin. set_solver.
    + apply Forall_app. split; [done|]. by constructor.
Qed.

(** One projection. *)
Inductive projection (g : MissionGraphProjector) : MissionGraphProjector → Prop :=
| proj_request uid now eid mission payload :
    projection g (project_request uid now eid mission payload g).2
| proj_decision uid now eid payload : projection g (project_decision uid now eid payload g).2
| proj_attempt uid now eid att payload :
    projection g (project_attempt uid now eid att payload g).2
| proj_evidence uid now eid ev acc :
    projection g (project_evidence uid now eid ev acc g).2
| proj_verification uid now eid payload :
    projection g (project_verification uid now eid payload g).2
| proj_result uid now record : projection g (project_result uid now record g).2.

Lemma projection_inv g g' : graph_inv g → projection g g' → graph_inv g'.
Proof. intros Hi []; by apply add_inv. Qed.

Lemma graph_inv_init : graph_inv MissionGraphProjector_init.
Proof. intros eid. exists []. split_and!; [done|constructor|set_solver|constructor]. Qed.

Lemma projections_inv g : rtc projection MissionGraphProjector_init g → graph_inv g.
Proof.
  intros Hr. assert (∀ g0, rtc projection g0 g → graph_inv g0 → graph_inv g) as Hp.
  { induction 1 as [|g0 g1 g2 E _ IH]; [done|]. intros. by eapply IH, projection_inv. }
  by apply (Hp _ Hr), graph_inv_init.
Qed.

(** ** Properties *)

(** Replaying a projection is harmless: in every graph that projections built, a
    projection of an attempt returns a node of that attempt and a second one, with any
    payload, returns the same node and changes neither nodes nor keys; the nodes of
    an execution never share a dedupe key. *)
Theorem projection_idempotent uid now eid att payload uid' now' payload' g :
  rtc projection MissionGraphProjector_init g →
  ∃ node g1 g2, project_attempt uid now eid att payload g = (Ok node, g1) ∧
    project_attempt uid' now' eid att payload' g1 = (Ok node, g2) ∧
    (∀ e, nodes_for e g2 = nodes_for e g1 ∧ keys_for e g2 = keys_for e g1) ∧
    NoDup (dget "dedupe_key" <$> nodes_for eid g2).
Proof.
  intros Hi%projections_inv. unfold project_attempt.
  set (key := "attempt:" +:+ att).
  destruct (add_spec uid now eid "ExecutionAttempt" key
    (dict_update [("attempt_id", PStr att)] payload) g Hi) as (node & g1 & E1 & Hd & Hin & _ & Hc).
  assert (graph_inv g1) as Hi1.
  { pose proof (add_inv uid now eid "ExecutionAttempt" key
      (dict_update [("attempt_id", PStr att)] payload) g Hi) as H1. by rewrite E1 in H1. }
  destruct (add_spec uid' now' eid "ExecutionAttempt" key
    (dict_update [("attempt_id", PStr att)] payload') g1 Hi1)
    as (node2 & g2 & E2 & Hd2 & Hin2 & Hne & Hc2).
  destruct (Hi1 eid) as (keys & Hk & Hnd & Hkin & _).
  assert (key ∈ keys) as Hkey.
  { assert (PStr key ∈ PStr <$> keys) as Hp.
    { rewrite <-Hk, <-Hd. by apply list_elem_of_fmap_2. }
    apply list_elem_of_fmap in Hp as (k & [= ->] & ?). done. }
  rewrite bool_decide_eq_true_2 in Hc2 by by apply Hkin.
  destruct Hc2 as (Hin2' & Hn2 & Hk2).
  assert (NoDup (dget "dedupe_key" <$> nodes_for eid g1)) as Hnd1.
  { rewrite Hk. apply NoDup_fmap_2; [by intros ?? [= ->]|done]. }
  assert (node2 = node) as ->.
  { apply list_elem_of_lookup in Hin as [i Hi'], Hin2' as [j Hj].
    assert (i = j) as ->; [|congruence].
    eapply NoDup_lookup; [exact Hnd1| |]; rewrite list_lookup_fmap.
    - by rewrite Hi'; simpl; rewrite Hd.
    - by rewrite Hj; simpl; rewrite Hd2. }
  exists node, g1, g2. split_and!; [done|done| |by rewrite Hn2].
  intros e. destruct (decide (e = eid)) as [->|He]; [done|]. by apply Hne.
Qed.
End graph.

(** ** Witness *)

#[local] Existing Instance counting_lib.

Lemma projection_idempotent_witness :
  ∃ node g1 g2,
    project_attempt "u1" 1 "exec" "a1" [("ok", PBool true)] MissionGraphProjector_init =
      (Ok node, g1) ∧
    project_attempt "u2" 2 "exec" "a1" [] g1 = (Ok node, g2).
Proof.
  destruct (projection_idempotent "u1" 1 "exec" "a1" [("ok", PBool true)] "u2" 2 []
    MissionGraphProjector_init) as (node & g1 & g2 & E1 & E2 & _); [apply rtc_refl|].
  exists node, g1, g2. split; [exact E1|exact E2].
Defined.
