(* ===== verification/Orchestrator.v ===== *)
(** * The completion orchestrator

    [runtime_v1/completion/store.py] and [completion/orchestrator.py]. A record is an
    object the store holds and the handlers mutate: here it is named by its execution id
    and every assignment goes to the store, so a later [store.save] of the same object
    changes nothing. Every [utc_now()] and [uuid4()] takes a fresh number. *)

From S2P Require Import Prelude CompletionModels Verification Evidence Usage MissionGraph.

(** ** The store *)

(* @src runtime_v1/completion/store.py:12-14 CompletionStore *)
Definition CompletionStore : Type := list (string * CompletionRecord).

(* @src runtime_v1/completion/store.py:16-17 CompletionStore.get *)
Definition store_get (execution_id : string) (st : CompletionStore) : option CompletionRecord :=
  dict_get execution_id st.

(* @src runtime_v1/completion/store.py:19-21 CompletionStore.save *)
Definition store_save (record : CompletionRecord) (st : CompletionStore) : CompletionStore :=
  dict_set (rec_execution_id record) record st.

(* @src runtime_v1/completion/store.py:23-26 CompletionStore.list_resumable *)
Definition store_list_resumable (st : CompletionStore) : list CompletionRecord :=
  filter (λ r, rec_state r ∈ RESUMABLE_COMPLETION_STATES) (dict_values st).

(* @src runtime_v1/completion/store.py:28-38 CompletionStore.is_terminal *)
Definition store_is_terminal (execution_id : string) (st : CompletionStore) : bool :=
  match store_get execution_id st with
  | None => false
  | Some r => rec_state r in? [COMPLETED; FAILED; BLOCKED; CANCELLED; TIMED_OUT]
  end.

(** ** The orchestrator *)

(* @src runtime_v1/completion/orchestrator.py:41-67 ExecutionCompletionOrchestrator.__init__ *)
Record Orchestrator := {
  evidence : EvidenceBoundary;
  usage : UsageFinaliser;
  graph : MissionGraphProjector;
  store : CompletionStore;
  ticks : nat
}.

Definition set_evidence (b : EvidenceBoundary) (s : Orchestrator) : Orchestrator :=
  {| evidence := b; usage := usage s; graph := graph s; store := store s; ticks := ticks s |}.
Definition set_usage (u : UsageFinaliser) (s : Orchestrator) : Orchestrator :=
  {| evidence := evidence s; usage := u; graph := graph s; store := store s;
     ticks := ticks s |}.
Definition set_graph (g : MissionGraphProjector) (s : Orchestrator) : Orchestrator :=
  {| evidence := evidence s; usage := usage s; graph := g; store := store s;
     ticks := ticks s |}.
Definition set_store (st : CompletionStore) (s : Orchestrator) : Orchestrator :=
  {| evidence := evidence s; usage := usage s; graph := graph s; store := st;
     ticks := ticks s |}.
Definition add_ticks (n : nat) (s : Orchestrator) : Orchestrator :=
  {| evidence := evidence s; usage := usage s; graph := graph s; store := store s;
     ticks := ticks s + n |}.

(* @src runtime_v1/completion/orchestrator.py:48-67 ExecutionCompletionOrchestrator.__init__ *)
Definition Orchestrator_init : Orchestrator :=
  {| evidence := EvidenceBoundary_init 2000000; usage := UsageFinaliser_init;
     graph := MissionGraphProjector_init; store := []; ticks := 0 |}.

(** Take [n] fresh numbers; the first one is returned. *)
Definition take_ticks (n : nat) : M Orchestrator nat :=
  s ← get_state;
  modify_state (add_ticks n);;
  mret (ticks s).

(** The record object of an execution, and an assignment to it. *)
Definition the_record (eid : string) : M Orchestrator CompletionRecord :=
  s ← get_state;
  match store_get eid (store s) with
  | Some r => mret r
  | None => raise (KeyError eid)
  end.
Definition assign (eid : string) (f : CompletionRecord → CompletionRecord) :
    M Orchestrator unit :=
  modify_state (λ s,
    match store_get eid (store s) with
    | Some r => set_store (dict_set eid (f r) (store s)) s
    | None => s
    end).

Definition when {S} (b : bool) (m : M S unit) : M S unit := if b then m else mret tt.

Definition is_terminal_state (st : CompletionLifecycleState) : bool :=
  st in? TERMINAL_COMPLETION_STATES.

Section orchestrator.
Context `{PyLib}.

(** [execution.<terminal>] events repeat only when forced. The [startswith] test keeps
    [usage.finalised] out of the second test's set. *)
(* @src runtime_v1/completion/orchestrator.py:595-611 ExecutionCompletionOrchestrator._emit *)
Definition repeats (event_type : string) (payload : dict) (prior : dict) : bool :=
  py_eqb (dget "event_type" prior) (PStr event_type) &&
  py_eqb (dget "payload" prior) (PDict payload) &&
  startswith "execution." event_type &&
  (event_type in? ["execution.completed"; "execution.failed"; "execution.blocked";
                   "execution.cancelled"; "usage.finalised"]).

(* @src runtime_v1/completion/orchestrator.py:581-594 ExecutionCompletionOrchestrator._emit *)
Definition make_event (uid : string) (now : Z) (event_type : string) (payload : dict)
    (record : CompletionRecord) : dict :=
  [("event_id", PStr ("evt_" +:+ uid)); ("event_type", PStr event_type);
   ("organisation_id", ostr (rec_organisation_id record));
   ("project_id", ostr (rec_project_id record));
   ("mission_id", PStr (rec_mission_id record));
   ("execution_id", PStr (rec_execution_id record));
   ("attempt_id", PStr (rec_attempt_id record));
   ("sequence", PInt (rec_sequence record)); ("timestamp", PStr (isoformat now));
   ("correlation_id", PStr (rec_execution_id record));
   ("producer", PStr "ExecutionCompletionOrchestrator"); ("payload", PDict payload)].

(* @src runtime_v1/completion/orchestrator.py:572-614 ExecutionCompletionOrchestrator._emit *)
Definition _emit (eid event_type : string) (payload : dict) (force : bool) :
    M Orchestrator unit :=
  assign eid (λ r, set_sequence (rec_sequence r + 1) r);;
  t ← take_ticks 3;
  r ← the_record eid;
  if negb force && existsb (repeats event_type payload) (rec_events r) then mret tt
  else
    assign eid (λ r, set_events (rec_events r ++
      [make_event (uuid_hex t) (clock (t + 1)) event_type payload r]) r);;
    assign eid (set_updated_at (clock (t + 2))).

(* @src runtime_v1/completion/orchestrator.py:616-631 ExecutionCompletionOrchestrator._outcome_from_record *)
Definition _outcome_from_record (record : CompletionRecord) : CompletionOutcome :=
  {| out_ok := rec_state record == COMPLETED; out_state := rec_state record;
     out_execution_id := rec_execution_id record; out_mission_id := rec_mission_id record;
     out_attempt_id := rec_attempt_id record;
     out_detail := (if otruthy (rec_detail record) then default "" (rec_detail record)
                    else CompletionLifecycleState_value (rec_state record));
     out_failure_class := rec_failure_class record;
     out_verification := rec_verification record;
     out_evidence_ids := rec_evidence_ids record; out_usage := rec_usage_aggregate record;
     out_events := rec_events record; out_graph_nodes := rec_graph_nodes record;
     out_record := CompletionRecord_as_dict record |}.

(* @src runtime_v1/completion/orchestrator.py:540-570 ExecutionCompletionOrchestrator._ensure_record *)
Definition _ensure_record (context : CompletionContext) (backend_ok restore_ok : bool)
    (update_attempt : bool) : M Orchestrator unit :=
  let eid := ctx_execution_id context in
  t ← take_ticks 2;
  s ← get_state;
  match store_get eid (store s) with
  | Some _ =>
      when update_attempt
        (assign eid (set_backend_ok backend_ok);;
         assign eid (set_restore_ok restore_ok);;
         assign eid (set_attempt_id (ctx_attempt_id context)));;
      assign eid (set_updated_at (clock t))
  | None =>
      modify_state (λ s, set_store (store_save
        {| rec_execution_id := eid; rec_mission_id := ctx_mission_id context;
           rec_state := RUNNING; rec_attempt_id := ctx_attempt_id context;
           rec_authoritative_attempt_id := ctx_authoritative_attempt_id context;
           rec_backend_id := ctx_backend_id context;
           rec_harness_id := ctx_harness_id context;
           rec_organisation_id := ctx_organisation_id context;
           rec_project_id := ctx_project_id context; rec_backend_ok := backend_ok;
           rec_restore_ok := restore_ok; rec_evidence_ids := []; rec_verification := [];
           rec_usage_finalised := false; rec_usage_aggregate := []; rec_graph_nodes := [];
           rec_events := []; rec_failure_class := None; rec_detail := None;
           rec_sequence := 0; rec_created_at := clock t; rec_updated_at := clock (t + 1);
           rec_terminal_emitted := false |} (store s)) s)
  end.

(** A projection to the mission graph, with its fresh identifier and clock reading. *)
Definition project (p : string → Z → M MissionGraphProjector dict) : M Orchestrator dict :=
  t ← take_ticks 2;
  zoom graph set_graph (p (uuid_hex t) (clock (t + 1))).

(* @src runtime_v1/completion/orchestrator.py:634-642 _restore_ok *)
Definition _restore_ok (result : ExecutionResult) : bool :=
  if xr_failure_class result == Some "provider_restore_failure" then false
  else if match xr_restore_status result with
          | Some s => s in? ["failed"; "unresolved"; "blocked"]
          | None => false
          end then false
  else match dict_get "restored" (xr_output result) with
       | Some (PBool false) => false
       | _ => true
       end.

(* @src runtime_v1/completion/orchestrator.py:649-658 _candidates_from_result *)
Fixpoint ref_candidates (uid : nat → string) (execution_id : string) (index : nat)
    (refs : list string) : list CandidateEvidence :=
  match refs with
  | [] => []
  | ref :: refs' =>
      {| ce_evidence_type := "structured_result"; ce_content_ref := Some ref;
         ce_content_hash := None; ce_size_bytes := 0;
         ce_sequence := Z.of_nat index + 1;
         ce_provenance := [("execution_id", PStr execution_id)];
         ce_payload := [("ref", PStr ref)];
         ce_evidence_id := "evidence_" +:+ uid index |}
      :: ref_candidates uid execution_id (S index) refs'
  end.

(** [uid i] is the identifier of the [i]-th candidate. *)
(* @src runtime_v1/completion/orchestrator.py:645-684 _candidates_from_result *)
Definition _candidates_from_result (uid : nat → string) (result : ExecutionResult) :
    list CandidateEvidence :=
  let provenance := [("execution_id", PStr (xr_execution_id result))] in
  let out := ref_candidates uid (xr_execution_id result) 0 (xr_evidence_refs result) in
  let out :=
    if xr_ok result then
      out ++ [{| ce_evidence_type := "backend_output"; ce_content_ref := None;
                 ce_content_hash := None;
                 ce_size_bytes := Z.of_nat (String.length (xr_message result));
                 ce_sequence := Z.of_nat (length out) + 1; ce_provenance := provenance;
                 ce_payload := [("message", PStr (xr_message result));
                                ("backend_id", PStr (xr_backend_id result));
                                ("harness_id", PStr (xr_harness_id result))];
                 ce_evidence_id := "evidence_" +:+ uid (length out) |}]
    else out in
  let verification := match xr_candidate_verification result with
                      | [] => xr_verification result
                      | v => v
                      end in
  match verification with
  | [] => out
  | _ => out ++ [{| ce_evidence_type := "remote_verification"; ce_content_ref := None;
                    ce_content_hash := None; ce_size_bytes := 0;
                    ce_sequence := Z.of_nat (length out) + 1;
                    ce_provenance := provenance; ce_payload := verification;
                    ce_evidence_id := "evidence_" +:+ uid (length out) |}]
  end.

Definition usage_fact (context : CompletionContext) (facts : dict) : UsageFact :=
  {| uf_organisation_id := ostr (ctx_organisation_id context);
     uf_project_id := ostr (ctx_project_id context);
     uf_mission_id := ctx_mission_id context; uf_execution_id := ctx_execution_id context;
     uf_attempt_id := ctx_attempt_id context; uf_backend_id := ctx_backend_id context;
     uf_harness_id := ostr (ctx_harness_id context); uf_facts := facts |}.

(* @src runtime_v1/completion/orchestrator.py:687-704 _usage_from_result *)
Definition _usage_from_result (result : ExecutionResult) (context : CompletionContext) :
    list raw_fact :=
  [RawFact (usage_fact context
    match xr_usage result with
    | [] => [("wall_clock_seconds", PInt 0); ("input_tokens", PInt 0);
             ("output_tokens", PInt 0)]
    | facts => facts
    end)].

(* @src runtime_v1/completion/orchestrator.py:707-721 _usage_from_payload *)
Definition _usage_from_payload (payload : dict) (context : CompletionContext) :
    res (list raw_fact) :=
  res_bind (py_dict (py_or (dget "usage" payload) (PDict []))) (λ facts,
    Ok [RawFact (usage_fact context facts)]).

(** ** The end of a run *)

(** The [try] around the usage: whether the run is still a success. *)
(* @src runtime_v1/completion/orchestrator.py:469-485 ExecutionCompletionOrchestrator._finalise_terminal *)
Definition finalise_usage (eid : string) (success : bool) (usage_facts : list raw_fact) :
    M Orchestrator bool :=
  catch
    (r ← the_record eid;
     aggregate ← zoom usage set_usage
       (finalise (rec_execution_id r) (rec_organisation_id r) (rec_project_id r)
          (rec_mission_id r) usage_facts);
     assign eid (set_usage_finalised true);;
     assign eid (set_usage_aggregate aggregate);;
     _emit eid "usage.finalised" [("execution_id", PStr (rec_execution_id r))] false;;
     mret success)
    (λ exc,
     assign eid (set_state BLOCKED);;
     assign eid (set_failure_class
       (Some (CompletionFailureClass_value FC_USAGE_FINALISATION_FAILED)));;
     assign eid (set_detail (Some ("usage finalisation failed: " +:+ exn_class exc)));;
     _emit eid "execution.blocked" [("reason", PStr "usage_finalisation_failed")] false;;
     mret false).

(** The [try] around the projection of the result. *)
(* @src runtime_v1/completion/orchestrator.py:494-501 ExecutionCompletionOrchestrator._finalise_terminal *)
Definition project_outcome (eid : string) : M Orchestrator unit :=
  catch
    (r ← the_record eid;
     node ← project (λ uid now, project_result uid now r);
     assign eid (λ r, set_graph_nodes (rec_graph_nodes r ++ [node]) r))
    (λ exc,
     assign eid (set_state BLOCKED);;
     assign eid (set_failure_class
       (Some (CompletionFailureClass_value FC_MISSION_PROJECTION_FAILED)));;
     assign eid (set_detail (Some ("mission projection failed: " +:+ exn_class exc)));;
     _emit eid "execution.blocked" [("reason", PStr "mission_projection_failed")] false).

(** [completed or failed], after the usage. *)
(* @src runtime_v1/completion/orchestrator.py:487-492 ExecutionCompletionOrchestrator._finalise_terminal *)
Definition settle (eid : string) (success : bool) : M Orchestrator unit :=
  if success then
    assign eid (set_state COMPLETED);;
    assign eid (λ r, set_detail (if otruthy (rec_detail r) then rec_detail r
                                 else Some "verified completion") r);;
    _emit eid "execution.completed" [("verified", PBool true)] false
  else
    r ← the_record eid;
    when (rec_state r == FINALISING) (assign eid (set_state FAILED)).

(* @src runtime_v1/completion/orchestrator.py:450-506 ExecutionCompletionOrchestrator._finalise_terminal *)
Definition _finalise_terminal (eid : string) (success : bool) (usage_facts : list raw_fact) :
    M Orchestrator CompletionOutcome :=
  r ← the_record eid;
  if rec_terminal_emitted r && is_terminal_state (rec_state r)
  then mret (_outcome_from_record r)
  else
    assign eid (λ r, set_state (if success then FINALISING
      else if is_terminal_state (rec_state r) then rec_state r else FAILED) r);;
    when success (_emit eid "execution.finalising" [] false);;
    success ← finalise_usage eid success usage_facts;
    settle eid success;;
    project_outcome eid;;
    assign eid (set_terminal_emitted true);;
    t ← take_ticks 1;
    assign eid (set_updated_at (clock t));;
    r ← the_record eid;
    mret (_outcome_from_record r).

(* @src runtime_v1/completion/orchestrator.py:508-538 ExecutionCompletionOrchestrator._reject_stale *)
Definition _reject_stale (context : CompletionContext) (reason : CompletionFailureClass)
    (detail : string) : M Orchestrator CompletionOutcome :=
  let eid := ctx_execution_id context in
  _ensure_record context false true false;;
  _emit eid "execution.stale_attempt_rejected"
    [("attempt_id", PStr (ctx_attempt_id context));
     ("reason", PStr (CompletionFailureClass_value reason))] true;;
  r ← the_record eid;
  if is_terminal_state (rec_state r) then mret (_outcome_from_record r)
  else mret
    {| out_ok := false; out_state := rec_state r; out_execution_id := eid;
       out_mission_id := ctx_mission_id context;
       out_attempt_id := ctx_attempt_id context; out_detail := detail;
       out_failure_class := Some (CompletionFailureClass_value reason);
       out_verification := []; out_evidence_ids := []; out_usage := [];
       out_events := rec_events r; out_graph_nodes := [];
       out_record := CompletionRecord_as_dict r |}.

(* @src runtime_v1/completion/orchestrator.py:305-323 ExecutionCompletionOrchestrator.finalise_cancelled *)
Definition finalise_cancelled (context : CompletionContext) (cleanup_completed : bool) :
    M Orchestrator CompletionOutcome :=
  let eid := ctx_execution_id context in
  _ensure_record context false true true;;
  r ← the_record eid;
  if is_terminal_state (rec_state r) && rec_terminal_emitted r
  then mret (_outcome_from_record r)
  else if negb cleanup_completed then
    assign eid (set_state BLOCKED);;
    assign eid (set_failure_class (Some (CompletionFailureClass_value FC_CLEANUP_FAILED)));;
    assign eid (set_detail (Some "cancellation cleanup incomplete"));;
    _emit eid "execution.blocked" [("reason", PStr "cleanup_timeout")] false;;
    _finalise_terminal eid false []
  else
    assign eid (set_state CANCELLED);;
    assign eid (set_detail (Some "execution cancelled"));;
    _emit eid "execution.cancelled" [("cleanup_completed", PBool true)] false;;
    _finalise_terminal eid false [].

(** ** Verification *)

(** [verify] never runs out of fuel ([Verification.v]). *)
Definition verify_now (r : VerificationRequest) : M Orchestrator VerificationResult :=
  match verify r with
  | Some v => lift_res v
  | None => raise AssertionError
  end.

(** The branches that refuse: an event, the terminal state and the reasons. *)
(* @src runtime_v1/completion/orchestrator.py:403-448 ExecutionCompletionOrchestrator._run_verification *)
Definition refuse (eid event_type : string) (v : VerificationResult)
    (state : CompletionLifecycleState) (failure_class : string) (facts : list raw_fact) :
    M Orchestrator CompletionOutcome :=
  _emit eid event_type (VerificationResult_as_dict v) false;;
  assign eid (set_state state);;
  assign eid (set_failure_class (Some failure_class));;
  assign eid (set_detail (Some (vs_detail v)));;
  _finalise_terminal eid false facts.

(** [verify.failure_class.value if verify.failure_class else other]. *)
Definition class_or (v : VerificationResult) (other : string) : string :=
  match vs_failure_class v with
  | Some c => CompletionFailureClass_value c
  | None => other
  end.

(* @src runtime_v1/completion/orchestrator.py:394-448 ExecutionCompletionOrchestrator._run_verification *)
Definition conclude (eid : string) (v : VerificationResult) (facts : list raw_fact) :
    M Orchestrator CompletionOutcome :=
  match vs_outcome v with
  | VO_VERIFIED =>
      _emit eid "verification.passed" (VerificationResult_as_dict v) false;;
      assign eid (set_state VERIFIED);;
      assign eid (set_detail (Some (vs_detail v)));;
      _finalise_terminal eid true facts
  | VO_PENDING_HUMAN_APPROVAL =>
      refuse eid "verification.blocked" v BLOCKED (class_or v "verification_inconclusive") facts
  | VO_BLOCKED =>
      refuse eid "verification.blocked" v BLOCKED (class_or v "restore_failed") facts
  | VO_INCONCLUSIVE =>
      refuse eid "verification.inconclusive" v BLOCKED
        (CompletionFailureClass_value FC_VERIFICATION_INCONCLUSIVE) facts
  | VO_VERIFICATION_ERROR =>
      refuse eid "verification.failed" v
        (if vs_failure_class v == Some FC_VERIFICATION_TIMEOUT then TIMED_OUT else FAILED)
        (class_or v (CompletionFailureClass_value FC_VERIFICATION_ERROR)) facts
  | VO_FAILED | VO_CANCELLED =>
      refuse eid "verification.failed" v FAILED
        (class_or v (CompletionFailureClass_value FC_VERIFICATION_FAILED)) facts
  end.

(** The request [_run_verification] builds. *)
(* @src runtime_v1/completion/orchestrator.py:379-389 ExecutionCompletionOrchestrator._run_verification *)
Definition verification_request (context : CompletionContext) (policy : dict)
    (accepted : list EvidenceEnvelope) (backend_ok restore_ok : bool) : VerificationRequest :=
  {| vr_mission_id := ctx_mission_id context; vr_execution_id := ctx_execution_id context;
     vr_attempt_id := ctx_attempt_id context;
     vr_strategy := ctx_verification_strategy context;
     vr_required_evidence_types := ctx_required_evidence_types context;
     vr_policy := policy; vr_accepted_evidence := accepted; vr_backend_ok := backend_ok;
     vr_restore_ok := restore_ok |}.

(* @src runtime_v1/completion/orchestrator.py:367-448 ExecutionCompletionOrchestrator._run_verification *)
Definition _run_verification (context : CompletionContext) (result : ExecutionResult) :
    M Orchestrator CompletionOutcome :=
  let eid := ctx_execution_id context in
  assign eid (set_state VERIFICATION_PENDING);;
  _emit eid "verification.requested"
    [("strategy", PStr (ctx_verification_strategy context))] false;;
  assign eid (set_state VERIFYING);;
  _emit eid "verification.started" [] false;;
  s ← get_state;
  policy ← lift_res (py_dict (py_or (dget "verification_policy" (ctx_metadata context))
                                (PDict [])));
  r ← the_record eid;
  v ← verify_now (verification_request context policy (list_accepted (evidence s) eid)
        (xr_ok result && rec_backend_ok r) (rec_restore_ok r));
  assign eid (set_verification (VerificationResult_as_dict v));;
  project (λ uid now, project_verification uid now eid (VerificationResult_as_dict v));;
  conclude eid v (_usage_from_result result context).

(** ** The entry points *)

(** State, failure class and detail, an event, then the end of the run. *)
(* @src runtime_v1/completion/orchestrator.py:92-97 ExecutionCompletionOrchestrator.complete_from_backend *)
Definition end_with (eid : string) (state : CompletionLifecycleState)
    (failure_class detail event_type : string) (payload : dict) (facts : list raw_fact) :
    M Orchestrator CompletionOutcome :=
  assign eid (set_state state);;
  assign eid (set_failure_class (Some failure_class));;
  assign eid (set_detail (Some detail));;
  _emit eid event_type payload false;;
  _finalise_terminal eid false facts.

(** What happens to the accepted and the rejected envelopes of an intake. *)
(* @src runtime_v1/completion/orchestrator.py:144-161 ExecutionCompletionOrchestrator.complete_from_backend *)
Definition record_accepted (eid : string) (item : EvidenceEnvelope) : M Orchestrator unit :=
  assign eid (λ r, set_evidence_ids (rec_evidence_ids r ++ [ev_evidence_id item]) r);;
  project (λ uid now, project_evidence uid now eid item true);;
  _emit eid "evidence.accepted" [("evidence_id", PStr (ev_evidence_id item))] false.
(* @src runtime_v1/completion/orchestrator.py:150-161 ExecutionCompletionOrchestrator.complete_from_backend *)
Definition record_rejected (eid : string) (item : EvidenceEnvelope) : M Orchestrator unit :=
  project (λ uid now, project_evidence uid now eid item false);;
  _emit eid "evidence.rejected"
    [("evidence_id", PStr (ev_evidence_id item));
     ("reason", ostr (EvidenceRejectionReason_value <$> ev_rejection_reason item))] false.

(** The candidates handed in, or those of the result. *)
(* @src runtime_v1/completion/orchestrator.py:125-143 ExecutionCompletionOrchestrator.complete_from_backend *)
Definition intake_evidence (context : CompletionContext) (result : ExecutionResult)
    (candidate_evidence : list raw_candidate) :
    M Orchestrator (list EvidenceEnvelope * list EvidenceEnvelope) :=
  t ← take_ticks (length (xr_evidence_refs result) + 2);
  let candidates :=
    match candidate_evidence with
    | [] => RawCandidate <$> _candidates_from_result (λ i, uuid_hex (t + i)) result
    | _ => candidate_evidence
    end in
  t' ← take_ticks (length candidates);
  zoom evidence set_evidence
    (intake (λ i, clock (t' + i)) candidates context EVIDENCE_PENDING
       (ctx_backend_id context) (ctx_harness_id context)).

(* @src runtime_v1/completion/orchestrator.py:69-171 ExecutionCompletionOrchestrator.complete_from_backend *)
Definition complete_from_backend (result : ExecutionResult) (context : CompletionContext)
    (decision : option dict) (candidate_evidence : list raw_candidate) :
    M Orchestrator CompletionOutcome :=
  let eid := ctx_execution_id context in
  let facts := _usage_from_result result context in
  s ← get_state;
  match store_get eid (store s) with
  | Some existing =>
      if is_terminal_state (rec_state existing) && rec_terminal_emitted existing
      then mret (Some (_outcome_from_record existing)) else mret None
  | None => mret None
  end ≫= λ early,
  match early with
  | Some outcome => mret outcome
  | None =>
      if ctx_attempt_id context != ctx_authoritative_attempt_id context then
        _reject_stale context FC_STALE_ATTEMPT "stale attempt cannot finalise"
      else if negb (_restore_ok result) then
        _ensure_record context false false true;;
        end_with eid BLOCKED (CompletionFailureClass_value FC_RESTORE_FAILED)
          "provider route restoration unresolved" "execution.blocked"
          [("reason", PStr "restore_failed")] facts
      else
        _ensure_record context (xr_ok result) true true;;
        assign eid (set_state BACKEND_COMPLETED);;
        _emit eid "backend.completed"
          [("ok", PBool (xr_ok result)); ("message", PStr (xr_message result))] false;;
        project (λ uid now, project_attempt uid now eid (ctx_attempt_id context)
          [("backend_id", PStr (ctx_backend_id context)); ("ok", PBool (xr_ok result))]);;
        match decision with
        | Some ((_ :: _) as d) =>
            project (λ uid now, project_decision uid now eid d);; mret tt
        | _ => mret tt
        end;;
        project (λ uid now, project_request uid now eid (ctx_mission_id context)
          [("execution_id", PStr eid)]);;
        if ctx_cancelled context then finalise_cancelled context true
        else if negb (xr_ok result) then
          end_with eid FAILED
            (if otruthy (xr_failure_class result) then default "" (xr_failure_class result)
             else "process_failure")
            (xr_message result) "execution.failed" [("backend_ok", PBool false)] facts
        else
          assign eid (set_state EVIDENCE_PENDING);;
          _emit eid "evidence.received" [] false;;
          '(accepted, rejected) ← intake_evidence context result candidate_evidence;
          for_each accepted (record_accepted eid);;
          for_each rejected (record_rejected eid);;
          if ctx_require_evidence context && (length accepted =? 0)%nat then
            end_with eid FAILED (CompletionFailureClass_value FC_EVIDENCE_MISSING)
              "required evidence missing or rejected" "execution.failed"
              [("reason", PStr "evidence_missing")] facts
          else
            assign eid (set_state EVIDENCE_ACCEPTED);;
            _run_verification context result
  end.

(** The context of a remote run that must be verified by remote evidence. *)
(* @src runtime_v1/completion/orchestrator.py:244-261 ExecutionCompletionOrchestrator.complete_from_remote_event *)
Definition remote_context (context : CompletionContext) (types : list string) :
    CompletionContext :=
  {| ctx_organisation_id := ctx_organisation_id context;
     ctx_project_id := ctx_project_id context; ctx_mission_id := ctx_mission_id context;
     ctx_execution_id := ctx_execution_id context;
     ctx_attempt_id := ctx_attempt_id context;
     ctx_authoritative_attempt_id := ctx_authoritative_attempt_id context;
     ctx_backend_id := ctx_backend_id context; ctx_harness_id := ctx_harness_id context;
     ctx_correlation_id := ctx_correlation_id context; ctx_user_id := ctx_user_id context;
     ctx_cancelled := ctx_cancelled context; ctx_require_evidence := true;
     ctx_verification_strategy := "remote_verifier_event";
     ctx_required_evidence_types := types;
     ctx_max_evidence_bytes := ctx_max_evidence_bytes context;
     ctx_metadata := ctx_metadata context |}.

(** The candidate made of the event's own verification. *)
(* @src runtime_v1/completion/orchestrator.py:262-276 ExecutionCompletionOrchestrator.complete_from_remote_event *)
Definition remote_candidate (uid : string) (context : CompletionContext) (payload : dict) :
    res CandidateEvidence :=
  res_bind (py_int (py_or (dget "sequence" payload) (PInt 1))) (λ sequence,
  res_bind (py_dict (py_or (dget "verification" payload) (PDict payload))) (λ body,
  Ok {| ce_evidence_type := "remote_verification"; ce_content_ref := None;
        ce_content_hash := None; ce_size_bytes := 0; ce_sequence := sequence;
        ce_provenance :=
          [("execution_id", PStr (ctx_execution_id context));
           ("attempt_id", PStr (ctx_attempt_id context));
           ("mission_id", PStr (ctx_mission_id context));
           ("organisation_id", ostr (ctx_organisation_id context));
           ("project_id", ostr (ctx_project_id context))];
        ce_payload := body; ce_evidence_id := "evidence_" +:+ uid |})).

(** A result as the remote backend reported it. *)
(* @src runtime_v1/completion/orchestrator.py:233-241 ExecutionCompletionOrchestrator.complete_from_remote_event *)
Definition synthetic_result (ok : bool) (eid backend : string) (harness : option string)
    (message : string) (output : dict) : ExecutionResult :=
  {| xr_ok := ok; xr_execution_id := eid; xr_backend_id := backend;
     xr_harness_id := (if otruthy harness then default "" harness else "unknown");
     xr_message := message; xr_output := output; xr_failure_class := None;
     xr_usage := []; xr_evidence_refs := []; xr_candidate_verification := [];
     xr_restore_status := None; xr_verification := [] |}.

(* @src runtime_v1/completion/orchestrator.py:232-303 ExecutionCompletionOrchestrator.complete_from_remote_event *)
Definition remote_success (context : CompletionContext) (event_type : string)
    (payload : dict) (candidate_evidence : list raw_candidate) :
    M Orchestrator CompletionOutcome :=
  let synthetic := synthetic_result true (ctx_execution_id context)
    (ctx_backend_id context) (ctx_harness_id context) "remote backend reported success"
    payload in
  let types := match ctx_required_evidence_types context with
               | [] => ["remote_verification"]
               | ts => ts
               end in
  let verification := truthy (dget "verification" payload) in
  if (event_type == "verification.completed") || verification then
    let context := remote_context context types in
    t ← take_ticks 1;
    candidates ←
      match candidate_evidence with
      | [] => if verification
              then c ← lift_res (remote_candidate (uuid_hex t) context payload);
                   mret [RawCandidate c]
              else mret []
      | _ => mret candidate_evidence
      end;
    complete_from_backend synthetic context None candidates
  else if ctx_require_evidence context ||
          (ctx_verification_strategy context == "remote_verifier_event") then
    complete_from_backend synthetic context None candidate_evidence
  else
    complete_from_backend synthetic (remote_context context ["remote_verification"]) None
      candidate_evidence.

(* @src runtime_v1/completion/orchestrator.py:173-303 ExecutionCompletionOrchestrator.complete_from_remote_event *)
Definition complete_from_remote_event (context : CompletionContext) (event_type : string)
    (payload : dict) (candidate_evidence : list raw_candidate) :
    M Orchestrator CompletionOutcome :=
  let eid := ctx_execution_id context in
  s ← get_state;
  let closed := match store_get eid (store s) with
                | Some e => is_terminal_state (rec_state e) && rec_terminal_emitted e
                | None => false
                end in
  if closed then
    when (event_type in? ["task.succeeded"; "task.failed"; "execution.completed"])
      (_emit eid "execution.late_event_ignored" [("event_type", PStr event_type)] true);;
    r ← the_record eid;
    mret (_outcome_from_record r)
  else if ctx_attempt_id context != ctx_authoritative_attempt_id context then
    _reject_stale context FC_SUPERSEDED_ATTEMPT "superseded remote attempt rejected"
  else if event_type in? ["task.cancelled"; "execution.cancelled"] then
    finalise_cancelled context true
  else if event_type in? ["task.failed"; "execution.failed"] then
    _ensure_record context false true true;;
    assign eid (set_state FAILED);;
    assign eid (set_detail (Some
      (py_str (py_or (dget "detail" payload) (PStr "remote execution failed")))));;
    assign eid (set_failure_class (Some
      (py_str (py_or (dget "failure_class" payload) (PStr "process_failure")))));;
    _emit eid "backend.completed" [("ok", PBool false); ("remote", PBool true)] false;;
    facts ← lift_res (_usage_from_payload payload context);
    _finalise_terminal eid false facts
  else if negb (event_type in?
                  ["task.succeeded"; "execution.completed"; "verification.completed"]) then
    _ensure_record context false true true;;
    assign eid (set_state RUNNING);;
    _emit eid event_type payload false;;
    r ← the_record eid;
    mret {| out_ok := false; out_state := rec_state r; out_execution_id := eid;
            out_mission_id := ctx_mission_id context;
            out_attempt_id := ctx_attempt_id context;
            out_detail := "progress event recorded"; out_failure_class := None;
            out_verification := []; out_evidence_ids := []; out_usage := [];
            out_events := rec_events r; out_graph_nodes := [];
            out_record := CompletionRecord_as_dict r |}
  else remote_success context event_type payload candidate_evidence.

(** The context [resume] rebuilds: the defaults of [CompletionContext] for everything
    the record does not hold. *)
(* @src runtime_v1/completion/orchestrator.py:333-342 ExecutionCompletionOrchestrator.resume *)
Definition resume_context (r : CompletionRecord) : CompletionContext :=
  {| ctx_organisation_id := rec_organisation_id r; ctx_project_id := rec_project_id r;
     ctx_mission_id := rec_mission_id r; ctx_execution_id := rec_execution_id r;
     ctx_attempt_id := rec_attempt_id r;
     ctx_authoritative_attempt_id := rec_authoritative_attempt_id r;
     ctx_backend_id := rec_backend_id r; ctx_harness_id := rec_harness_id r;
     ctx_correlation_id := None; ctx_user_id := None; ctx_cancelled := false;
     ctx_require_evidence := false;
     ctx_verification_strategy := "backend_success_with_evidence";
     ctx_required_evidence_types := []; ctx_max_evidence_bytes := 2000000;
     ctx_metadata := [] |}.

(* @src runtime_v1/completion/orchestrator.py:325-362 ExecutionCompletionOrchestrator.resume *)
Definition resume (execution_id : string) : M Orchestrator (option CompletionOutcome) :=
  s ← get_state;
  match store_get execution_id (store s) with
  | None => mret None
  | Some r =>
      if is_terminal_state (rec_state r) then mret (Some (_outcome_from_record r))
      else if rec_state r in? [BACKEND_COMPLETED; EVIDENCE_PENDING; EVIDENCE_ACCEPTED;
                               VERIFICATION_PENDING; VERIFYING] then
        o ← _run_verification (resume_context r)
          (synthetic_result (rec_backend_ok r) (rec_execution_id r) (rec_backend_id r)
             (rec_harness_id r) "resumed completion" []);
        mret (Some o)
      else if rec_state r == FINALISING then
        o ← _finalise_terminal (rec_execution_id r) false [];
        mret (Some o)
      else mret (Some (_outcome_from_record r))
  end.

(* @src runtime_v1/completion/orchestrator.py:364-365 ExecutionCompletionOrchestrator.list_resumable *)
Definition list_resumable (s : Orchestrator) : list CompletionRecord :=
  store_list_resumable (store s).
End orchestrator.
