(* ===== verification/OrchestratorProofs.v ===== *)
(** * What the completion orchestrator guarantees

    The proofs follow a run of a handler through the record of its execution: the record
    is open (not emitted, not completed) until [_finalise_terminal] closes it. *)

From Stdlib Require Import SpecFloat.
From S2P Require Import Prelude CompletionModels Verification Evidence Usage.
From S2P Require Import MissionGraph Orchestrator.

Section orchestrator_lemmas.
Context `{PyLib}.
Implicit Types (s : Orchestrator) (r : CompletionRecord) (eid : string) (ver : dict).

(** ** Records *)

(** The sequence number of an event. *)
Definition event_sequence (e : dict) : pyval := dget "sequence" e.

(** A log of events numbered upwards, the last number not above [n]. *)
Inductive numbered : list dict → Z → Prop :=
| numbered_nil n : (0 ≤ n)%Z → numbered [] n
| numbered_snoc l e m n : numbered l m → event_sequence e = PInt n → (m < n)%Z →
    ∀ k, (n ≤ k)%Z → numbered (l ++ [e]) k.

Lemma numbered_le l m n : numbered l m → (m ≤ n)%Z → numbered l n.
Proof.
  destruct 1 as [m Hm|l e m0 n0 Hl He Hlt k Hk]; intros Hle;
    [constructor; lia|eapply numbered_snoc; eauto; lia].
Qed.

(** The record names its execution and its events are numbered upwards. *)
Definition base eid r : Prop :=
  rec_execution_id r = eid ∧ numbered (rec_events r) (rec_sequence r).
Definition opened eid r : Prop :=
  base eid r ∧ rec_terminal_emitted r = false ∧ rec_state r ≠ COMPLETED.
Definition is_verified ver : Prop :=
  dget "outcome" ver = PStr (VerificationOutcome_value VO_VERIFIED).
(** What holds of every record between two calls. *)
Definition record_inv eid r : Prop :=
  base eid r ∧
  (rec_terminal_emitted r = true → rec_state r ∈ TERMINAL_COMPLETION_STATES) ∧
  (rec_state r = COMPLETED → rec_terminal_emitted r = true ∧
     rec_usage_finalised r = true ∧ is_verified (rec_verification r)).
Definition closed eid r : Prop := record_inv eid r ∧ rec_terminal_emitted r = true.

Lemma opened_inv eid r : opened eid r → record_inv eid r.
Proof. intros (Hb & Ht & Hs). split_and!; [done|congruence|done]. Qed.

(** The record of [eid] satisfies [P]; the others are those of [s0]. *)
Definition at_rec eid s0 (P : CompletionRecord → Prop) s : Prop :=
  (∃ r, store_get eid (store s) = Some r ∧ P r) ∧
  ∀ e, e ≠ eid → store_get e (store s) = store_get e (store s0).

Lemma at_rec_impl eid s0 (P Q : CompletionRecord → Prop) s :
  at_rec eid s0 P s → (∀ r, P r → Q r) → at_rec eid s0 Q s.
Proof. intros [(r & ? & ?) ?] HPQ. split; [|done]. eauto. Qed.

(** ** The primitives *)

Lemma hoare_assign eid s0 (P Q : CompletionRecord → Prop) f E :
  (∀ r, P r → Q (f r)) →
  hoare (at_rec eid s0 P) (assign eid f) (λ _, at_rec eid s0 Q) E.
Proof.
  intros Hf s [(r & Hr & HP) Ho]. unfold assign, modify_state. rewrite Hr.
  unfold store_get in *. split; simpl.
  - exists (f r). split; [apply dict_get_set_eq|by apply Hf].
  - intros e He. unfold store_get. rewrite dict_get_set_ne; auto.
Qed.

Lemma hoare_take eid s0 P n E :
  hoare (at_rec eid s0 P) (take_ticks n) (λ _, at_rec eid s0 P) E.
Proof. by intros s Hs. Qed.

Lemma hoare_record eid s0 P E :
  hoare (at_rec eid s0 P) (the_record eid) (λ r s, at_rec eid s0 (λ r', r' = r ∧ P r) s) E.
Proof.
  intros s [(r & Hr & HP) Ho]. unfold the_record, mbind, M_bind, get_state. rewrite Hr.
  split; [|done]. eauto.
Qed.

Lemma add_returns uid now eid kind key payload g :
  ∃ node g', _add uid now eid kind key payload g = (Ok node, g').
Proof.
  unfold _add, mbind, M_bind, modify_state, get_state. simpl.
  destruct (if key in? _ then _ else _) as [[i node]|]; by eexists _, _.
Qed.

(** A projection that cannot raise. *)
Definition projects (p : string → Z → M MissionGraphProjector dict) : Prop :=
  ∀ uid now g, ∃ node g', p uid now g = (Ok node, g').

Lemma hoare_project eid s0 P p E :
  projects p → hoare (at_rec eid s0 P) (project p) (λ _, at_rec eid s0 P) E.
Proof.
  intros Hp s Hs. unfold project, take_ticks, zoom, mbind, M_bind, get_state, modify_state.
  destruct (Hp (uuid_hex (ticks s)) (clock (ticks s + 1)) (graph s)) as (node & g' & Ep).
  cbn. by rewrite Ep.
Qed.

Lemma projects_all :
  (∀ eid m d, projects (λ uid now, project_request uid now eid m d)) ∧
  (∀ eid d, projects (λ uid now, project_decision uid now eid d)) ∧
  (∀ eid a d, projects (λ uid now, project_attempt uid now eid a d)) ∧
  (∀ eid e b, projects (λ uid now, project_evidence uid now eid e b)) ∧
  (∀ eid d, projects (λ uid now, project_verification uid now eid d)) ∧
  (∀ r, projects (λ uid now, project_result uid now r)).
Proof. split_and!; intros; intros ???; apply add_returns. Qed.

(** A predicate that the log does not enter. *)
Definition log_free (C : CompletionRecord → Prop) : Prop :=
  ∀ r, C r → (∀ v, C (set_sequence v r)) ∧ (∀ l, C (set_events l r)) ∧
    ∀ t, C (set_updated_at t r).

Lemma event_sequence_make uid now ty d r :
  event_sequence (make_event uid now ty d r) = PInt (rec_sequence r).
Proof. reflexivity. Qed.

Lemma hoare_emit eid s0 C ty d force E :
  log_free C →
  hoare (at_rec eid s0 (λ r, base eid r ∧ C r)) (_emit eid ty d force)
    (λ _, at_rec eid s0 (λ r, base eid r ∧ C r)) E.
Proof.
  intros HC. unfold _emit.
  set (P1 := λ r, rec_execution_id r = eid ∧
    (∃ m, numbered (rec_events r) m ∧ (m < rec_sequence r)%Z) ∧ C r).
  eapply hoare_bind with (R := λ _, at_rec eid s0 P1).
  { apply hoare_assign. intros r [[He Hn] Hr]. split_and!; [done| |by apply HC].
    exists (rec_sequence r). simpl. split; [done|lia]. }
  intros _. eapply hoare_bind; [apply hoare_take|]. intros t.
  eapply hoare_bind; [apply hoare_record|]. intros r0.
  destruct (negb force && _).
  { intros s [(r & Hr & Heq & HP) Ho]. subst r.
    destruct HP as (He & (m & Hn & Hlt) & Hc). split; [|done]. exists r0.
    split_and!; [done|split; [done|]|done]. eapply numbered_le; [done|lia]. }
  eapply hoare_bind; [|intros ?; apply hoare_assign with
    (P := λ r, base eid r ∧ C r)].
  - apply hoare_assign. intros r [Hr HP]. subst r. destruct HP as (He & (m & Hn & Hlt) & Hc).
    split; [split; [done|]|by apply HC]. simpl. eapply numbered_snoc; [done| |done|lia].
    apply event_sequence_make.
  - intros r [Hb Hc]. split; [done|by apply HC].
Qed.

(** ** Chaining *)

Lemma hoare_then {A B} P (m : M Orchestrator A) R (k : A → M Orchestrator B) Q E :
  hoare P m (λ _, R) E → (∀ a, hoare R (k a) Q E) → hoare P (m ≫= k) Q E.
Proof. intros Hm Hk. by eapply hoare_bind. Qed.

Lemma hoare_when eid s0 P (b : bool) m E :
  (b = true → hoare (at_rec eid s0 P) m (λ _, at_rec eid s0 P) E) →
  hoare (at_rec eid s0 P) (when b m) (λ _, at_rec eid s0 P) E.
Proof. destruct b; simpl; [auto|]. intros ? s Hs. done. Qed.

Lemma hoare_pre eid s0 (P P' : CompletionRecord → Prop) {A} (m : M Orchestrator A) Q E :
  hoare (at_rec eid s0 P') m Q E → (∀ r, P r → P' r) → hoare (at_rec eid s0 P) m Q E.
Proof. intros Hm HP s Hs. apply Hm. by eapply at_rec_impl. Qed.

Lemma hoare_post {A} P (m : M Orchestrator A) (Q Q' : A → Orchestrator → Prop) E :
  hoare P m Q E → (∀ a s, Q a s → Q' a s) → hoare P m Q' E.
Proof. intros Hm HQ. by eapply hoare_conseq. Qed.

Lemma hoare_catch {A} P (m : M Orchestrator A) h Q (E : exn → Orchestrator → Prop) E' :
  hoare P m Q E → (∀ e, hoare (E e) (h e) Q E') → hoare P (catch m h) Q E'.
Proof.
  intros Hm Hh s Hs. unfold catch. specialize (Hm s Hs).
  destruct (m s) as [[a|e] s']; [done|]. by apply Hh.
Qed.

Lemma hoare_zoom_usage {A} eid s0 P (m : M UsageFinaliser A) :
  hoare (at_rec eid s0 P) (zoom usage set_usage m) (λ _, at_rec eid s0 P)
    (λ _, at_rec eid s0 P).
Proof. intros s Hs. unfold zoom. by destruct (m (usage s)) as [[a|e] u]. Qed.

Lemma hoare_zoom_evidence {A} eid s0 P (m : M EvidenceBoundary A) :
  hoare (at_rec eid s0 P) (zoom evidence set_evidence m) (λ _, at_rec eid s0 P)
    (λ _, at_rec eid s0 P).
Proof. intros s Hs. unfold zoom. by destruct (m (evidence s)) as [[a|e] u]. Qed.

(** Assignments outside the log keep [base]. *)
Ltac plain := intros ? []; split_and!; simpl in *; try done; intuition congruence.

(** ** Closing a record *)

(** Before the usage is settled: not emitted, not completed, the verification [ver]. *)
Definition pending ver r : Prop :=
  rec_terminal_emitted r = false ∧ rec_state r ≠ COMPLETED ∧ rec_verification r = ver.

Lemma hoare_finalise_usage eid s0 ver (success : bool) facts E :
  hoare (at_rec eid s0 (λ r, base eid r ∧ pending ver r ∧
           (success = false → rec_state r ∈ TERMINAL_COMPLETION_STATES)))
    (finalise_usage eid success facts)
    (λ b, at_rec eid s0 (λ r, base eid r ∧ pending ver r ∧
            (if b : bool then success = true ∧ rec_usage_finalised r = true
             else rec_state r ∈ TERMINAL_COMPLETION_STATES))) E.
Proof.
  unfold finalise_usage. eapply hoare_catch with
    (E := λ _, at_rec eid s0 (λ r, base eid r ∧ pending ver r)).
  - eapply hoare_bind; [apply hoare_record|]. intros r0.
    eapply hoare_pre with (P' := λ r, base eid r ∧ pending ver r ∧
      (success = false → rec_state r ∈ TERMINAL_COMPLETION_STATES)).
    2: { intros r [Hr HP]. by subst r. }
    eapply hoare_bind.
    { eapply hoare_conseq; [apply hoare_zoom_usage|done|done|].
      intros ? s Hs. eapply at_rec_impl; [exact Hs|]. by intros r (? & ? & _). }
    intros agg. cbv beta.
    set (C := λ r, pending ver r ∧ rec_usage_finalised r = true ∧
      (success = false → rec_state r ∈ TERMINAL_COMPLETION_STATES)).
    eapply hoare_then with (R := at_rec eid s0 (λ r, base eid r ∧ C r)).
    { apply hoare_assign. by intros r ([? ?] & (? & ? & ?) & ?). }
    intros _. eapply hoare_then with (R := at_rec eid s0 (λ r, base eid r ∧ C r)).
    { apply hoare_assign. by intros r ([? ?] & (? & ? & ?) & ?). }
    intros _. eapply hoare_then; [by apply hoare_emit|]. intros ? s Hs. cbn.
    eapply at_rec_impl; [exact Hs|]. intros r (Hb & Hp & Hu & Hf). split_and!; [done..|].
    destruct success; auto.
  - intros e. set (C := λ r, pending ver r ∧ rec_state r = BLOCKED).
    eapply hoare_then with (R := at_rec eid s0 (λ r, base eid r ∧ C r)).
    { apply hoare_assign. by intros r ([? ?] & (? & ? & ?)). }
    intros _. eapply hoare_then with (R := at_rec eid s0 (λ r, base eid r ∧ C r)).
    { apply hoare_assign. by intros r ([? ?] & (? & ? & ?) & ?). }
    intros _. eapply hoare_then with (R := at_rec eid s0 (λ r, base eid r ∧ C r)).
    { apply hoare_assign. by intros r ([? ?] & (? & ? & ?) & ?). }
    intros _. eapply hoare_then; [by apply hoare_emit|]. intros ? s Hs. cbn.
    eapply at_rec_impl; [exact Hs|]. intros r (Hb & Hp & Hu). split_and!; [done..|].
    rewrite Hu. unfold TERMINAL_COMPLETION_STATES. set_solver.
Qed.

(** Settled: a terminal state, completed only by a success with its usage. *)
Definition settled ver (success : bool) r : Prop :=
  rec_terminal_emitted r = false ∧ rec_verification r = ver ∧
  rec_state r ∈ TERMINAL_COMPLETION_STATES ∧
  (rec_state r = COMPLETED → success = true ∧ rec_usage_finalised r = true).

Lemma hoare_settle eid s0 ver (success b : bool) E :
  hoare (at_rec eid s0 (λ r, base eid r ∧ pending ver r ∧
           (if b then success = true ∧ rec_usage_finalised r = true
            else rec_state r ∈ TERMINAL_COMPLETION_STATES)))
    (settle eid b) (λ _, at_rec eid s0 (λ r, base eid r ∧ settled ver success r)) E.
Proof.
  destruct b; simpl.
  - eapply hoare_then with (R := at_rec eid s0 (λ r, base eid r ∧ settled ver success r)).
    { apply hoare_assign. intros r ([? ?] & (? & ? & ?) & ? & ?). split; [done|].
      unfold settled. split_and!; try done. simpl.
      unfold TERMINAL_COMPLETION_STATES. set_solver. }
    intros _. eapply hoare_then with
      (R := at_rec eid s0 (λ r, base eid r ∧ settled ver success r)).
    { apply hoare_assign. by intros r ([? ?] & ? & ? & ? & ?). }
    intros _. by apply hoare_emit.
  - eapply hoare_bind; [apply hoare_record|]. intros r0.
    intros s [(r & Hr & Heq & Hb & (? & ? & ?) & Ht) Ho]. subst r.
    rewrite bool_decide_eq_false_2.
    + cbn. split; [|done]. exists r0. split; [done|]. split; [done|].
      unfold settled. split_and!; done.
    + intros Hs. rewrite Hs in Ht. unfold TERMINAL_COMPLETION_STATES in Ht. set_solver.
Qed.

Lemma hoare_project_outcome eid s0 ver success E :
  hoare (at_rec eid s0 (λ r, base eid r ∧ settled ver success r))
    (project_outcome eid) (λ _, at_rec eid s0 (λ r, base eid r ∧ settled ver success r)) E.
Proof.
  unfold project_outcome. eapply hoare_catch with (E := λ _ _, False); [|by intros e s].
  eapply hoare_bind; [apply hoare_record|]. intros r0.
  eapply hoare_then; [apply hoare_project, projects_all|].
  intros node. apply hoare_assign. intros r [Heq ([? ?] & Hc)]. subst r. done.
Qed.

(** The call ended with the record closed, and answers with it. *)
Definition decided eid s0 ver (success : bool) (o : CompletionOutcome) s : Prop :=
  at_rec eid s0 (λ r, closed eid r ∧ rec_verification r = ver ∧
    o = _outcome_from_record r ∧ (rec_state r = COMPLETED → success = true)) s.

Lemma hoare_finalise_terminal eid s0 ver (success : bool) facts E :
  (success = true → is_verified ver) →
  hoare (at_rec eid s0 (λ r, base eid r ∧ pending ver r))
    (_finalise_terminal eid success facts) (decided eid s0 ver success) E.
Proof.
  intros Hver. unfold _finalise_terminal.
  eapply hoare_bind; [apply hoare_record|]. intros r0.
  destruct (rec_terminal_emitted r0) eqn:Hem; simpl.
  { intros s [(r & _ & _ & _ & ? & _) _]. congruence. }
  eapply hoare_pre with (P' := λ r, base eid r ∧ pending ver r).
  2: { intros r [Heq ?]. by subst r. }
  set (C := λ r, pending ver r ∧
    (success = false → rec_state r ∈ TERMINAL_COMPLETION_STATES)).
  eapply hoare_then with (R := at_rec eid s0 (λ r, base eid r ∧ C r)).
  { apply hoare_assign. intros r ([? ?] & ? & ? & ?). split; [done|]. unfold C, pending. simpl.
    unfold is_terminal_state. destruct success; [done|].
    case_bool_decide; split_and!; try done. intros _.
    unfold TERMINAL_COMPLETION_STATES. set_solver. }
  intros _. eapply hoare_then; [apply hoare_when; intros _; by apply hoare_emit|].
  intros _. eapply hoare_bind; [apply hoare_finalise_usage|]. intros b.
  eapply hoare_then; [apply (hoare_settle eid s0 ver success b)|].
  intros _. eapply hoare_then; [apply hoare_project_outcome|].
  set (Q := λ r, closed eid r ∧ rec_verification r = ver ∧
    (rec_state r = COMPLETED → success = true)).
  intros _. eapply hoare_then with (R := at_rec eid s0 Q).
  { apply hoare_assign. intros r (Hb & ? & ? & ? & Hc). unfold Q, closed, record_inv. simpl.
    split_and!; try done; [|naive_solver]. intros Hst. destruct (Hc Hst) as [Hsu ?].
    split_and!; try done. subst ver. by apply Hver. }
  intros _. eapply hoare_then; [apply hoare_take|]. intros t.
  eapply hoare_then with (R := at_rec eid s0 Q).
  { by apply hoare_assign. }
  intros _. eapply hoare_bind; [apply hoare_record|]. intros r1 s [(r & Hr & Heq & Hq) Ho].
  subst r. split; [|done]. exists r1. by destruct Hq as (? & ? & ?).
Qed.

(** *** Open records *)

Lemma hoare_open_pending {A} eid s0 (m : M Orchestrator A) Q E :
  (∀ ver, hoare (at_rec eid s0 (λ r, base eid r ∧ pending ver r)) m Q E) →
  hoare (at_rec eid s0 (opened eid)) m Q E.
Proof.
  intros Hm s [(r & Hr & Hb & ? & ?) Ho]. apply (Hm (rec_verification r)).
  split; [|done]. exists r. by split_and!.
Qed.

(** The call closed the record without completing it. *)
Definition refused eid s0 (o : CompletionOutcome) s : Prop :=
  at_rec eid s0 (λ r, closed eid r ∧ o = _outcome_from_record r ∧ rec_state r ≠ COMPLETED) s.

Lemma hoare_finalise_refused eid s0 facts E :
  hoare (at_rec eid s0 (opened eid)) (_finalise_terminal eid false facts)
    (refused eid s0) E.
Proof.
  apply hoare_open_pending. intros ver.
  eapply hoare_post; [by apply hoare_finalise_terminal|].
  intros o s Hs. eapply at_rec_impl; [exact Hs|]. intros r (? & _ & ? & Hc).
  split_and!; try done. intros Hst. by specialize (Hc Hst).
Qed.

Lemma hoare_assign_open eid s0 f E :
  (∀ r, opened eid r → opened eid (f r)) →
  hoare (at_rec eid s0 (opened eid)) (assign eid f) (λ _, at_rec eid s0 (opened eid)) E.
Proof. apply hoare_assign. Qed.

Lemma hoare_emit_open eid s0 ty d force E :
  hoare (at_rec eid s0 (opened eid)) (_emit eid ty d force)
    (λ _, at_rec eid s0 (opened eid)) E.
Proof.
  by apply (hoare_emit eid s0 (λ r, rec_terminal_emitted r = false ∧ rec_state r ≠ COMPLETED)).
Qed.

(** One step of a run over an open record. *)
Ltac open_step :=
  eapply hoare_then;
    [first [ apply hoare_assign_open; by intros ? ([? ?] & ? & ?)
           | apply hoare_emit_open
           | apply hoare_take
           | apply hoare_project, projects_all ]|];
  let a := fresh "a" in intros a.

Lemma hoare_end_with eid s0 st fc detail ty d facts E :
  st ≠ COMPLETED →
  hoare (at_rec eid s0 (opened eid)) (end_with eid st fc detail ty d facts)
    (refused eid s0) E.
Proof. intros Hst. unfold end_with. do 4 open_step. apply hoare_finalise_refused. Qed.

Lemma hoare_refuse eid s0 ty v st fc facts E :
  st ≠ COMPLETED →
  hoare (at_rec eid s0 (opened eid)) (refuse eid ty v st fc facts) (refused eid s0) E.
Proof. intros Hst. unfold refuse. do 4 open_step. apply hoare_finalise_refused. Qed.

(** The exceptional end of a run: the record is still open. *)
Definition left_open eid s0 (e : exn) s : Prop := at_rec eid s0 (opened eid) s.

(** What a completed answer rests on. *)
Definition completes eid s0 (G : Orchestrator → Prop) (o : CompletionOutcome) s : Prop :=
  at_rec eid s0 (λ r, closed eid r ∧ o = _outcome_from_record r ∧
    (rec_state r = COMPLETED → G s)) s.

Lemma refused_completes eid s0 G o s : refused eid s0 o s → completes eid s0 G o s.
Proof. intros Hs. eapply at_rec_impl; [exact Hs|]. by intros r (? & ? & ?). Qed.

(** ** The boundary during a run *)

Definition same_evidence (b : EvidenceBoundary) s : Prop := evidence s = b.

Lemma keeps_assign_ev b eid f : keeps (same_evidence b) (assign eid f).
Proof. apply keeps_modify. intros s Hs. by destruct (store_get eid (store s)). Qed.
Lemma keeps_take_ev b n : keeps (same_evidence b) (take_ticks n).
Proof. by intros s Hs. Qed.
Lemma keeps_record_ev b eid : keeps (same_evidence b) (the_record eid).
Proof.
  intros s Hs. unfold the_record, mbind, M_bind, get_state.
  by destruct (store_get eid (store s)).
Qed.
Lemma keeps_zoom_graph_ev {A} b (m : M MissionGraphProjector A) :
  keeps (same_evidence b) (zoom graph set_graph m).
Proof. by apply keeps_zoom. Qed.
Lemma keeps_zoom_usage_ev {A} b (m : M UsageFinaliser A) :
  keeps (same_evidence b) (zoom usage set_usage m).
Proof. by apply keeps_zoom. Qed.

Ltac keep known :=
  repeat first
    [ known
    | apply keeps_assign_ev | apply keeps_take_ev | apply keeps_record_ev
    | apply keeps_zoom_graph_ev | apply keeps_zoom_usage_ev | apply keeps_ret
    | apply keeps_catch; [|intros ?] | apply keeps_bind; [|intros ?]
    | case_match | progress unfold when, project ].

#[local] Opaque assign take_ticks the_record zoom.

Lemma keeps_emit_ev b eid ty d force : keeps (same_evidence b) (_emit eid ty d force).
Proof. unfold _emit. keep fail. Qed.

#[local] Opaque _emit.

Lemma keeps_finalise_ev b eid success facts :
  keeps (same_evidence b) (_finalise_terminal eid success facts).
Proof.
  unfold _finalise_terminal, finalise_usage, settle, project_outcome.
  keep ltac:(apply keeps_emit_ev).
Qed.

#[local] Opaque _finalise_terminal.

Lemma keeps_refuse_ev b eid ty v st fc facts :
  keeps (same_evidence b) (refuse eid ty v st fc facts).
Proof. unfold refuse. keep ltac:(first [apply keeps_emit_ev | apply keeps_finalise_ev]). Qed.

Lemma keeps_end_with_ev b eid st fc detail ty d facts :
  keeps (same_evidence b) (end_with eid st fc detail ty d facts).
Proof. unfold end_with. keep ltac:(first [apply keeps_emit_ev | apply keeps_finalise_ev]). Qed.

Lemma keeps_conclude_ev b eid v facts : keeps (same_evidence b) (conclude eid v facts).
Proof.
  unfold conclude. destruct (vs_outcome v); try apply keeps_refuse_ev.
  keep ltac:(first [apply keeps_emit_ev | apply keeps_finalise_ev]).
Qed.

#[local] Transparent assign take_ticks the_record zoom _emit _finalise_terminal.

Lemma hoare_keeps {A} (P I : Orchestrator → Prop) (m : M Orchestrator A) Q E :
  hoare P m Q E → keeps I m →
  hoare (λ s, P s ∧ I s) m (λ a s, Q a s ∧ I s) (λ e s, E e s ∧ I s).
Proof.
  intros Hm Hk s [HP HI]. specialize (Hm s HP). specialize (Hk s HI).
  destruct (m s) as [[a|e] s']; auto.
Qed.

(** ** Verification *)

Lemma hoare_conclude eid s0 v facts E :
  hoare (at_rec eid s0 (λ r, base eid r ∧ pending (VerificationResult_as_dict v) r))
    (conclude eid v facts)
    (λ o s, at_rec eid s0 (λ r, closed eid r ∧ o = _outcome_from_record r ∧
       (rec_state r = COMPLETED → vs_outcome v = VO_VERIFIED)) s) E.
Proof.
  set (ver := VerificationResult_as_dict v).
  assert (∀ ty st fc, st ≠ COMPLETED →
    hoare (at_rec eid s0 (λ r, base eid r ∧ pending ver r)) (refuse eid ty v st fc facts)
      (λ o s, at_rec eid s0 (λ r, closed eid r ∧ o = _outcome_from_record r ∧
         (rec_state r = COMPLETED → vs_outcome v = VO_VERIFIED)) s) E) as Href.
  { intros ty st fc Hst. eapply hoare_post; [eapply hoare_pre; [by apply hoare_refuse|]|].
    - by intros r (? & ? & ? & ?).
    - intros o s Hs. eapply at_rec_impl; [exact Hs|]. by intros r (? & ? & ?). }
  unfold conclude. destruct (vs_outcome v) eqn:Hv.
  2-7: apply Href; first [done|by case_match].
  eapply hoare_then; [by apply hoare_emit|]. intros _.
  eapply hoare_then with (R := at_rec eid s0 (λ r, base eid r ∧ pending ver r)).
  { apply hoare_assign. by intros r ([? ?] & ? & ? & ?). }
  intros _. eapply hoare_then with (R := at_rec eid s0 (λ r, base eid r ∧ pending ver r)).
  { apply hoare_assign. by intros r ([? ?] & ? & ? & ?). }
  intros _. eapply hoare_post; [apply hoare_finalise_terminal|].
  - intros _. unfold is_verified, ver, VerificationResult_as_dict. by rewrite Hv.
  - intros o s Hs. eapply at_rec_impl; [exact Hs|]. by intros r (? & _ & ? & _).
Qed.

(** The verification that lets a run complete: over the accepted evidence of the
    boundary, with the strategy, types and policy of the context. *)
Definition verified_run (ctx : CompletionContext) (result : ExecutionResult)
    (b : EvidenceBoundary) : Prop :=
  ∃ policy v backend_ok restore_ok,
    py_dict (py_or (dget "verification_policy" (ctx_metadata ctx)) (PDict [])) = Ok policy ∧
    verify (verification_request ctx policy (list_accepted b (ctx_execution_id ctx))
      (xr_ok result && backend_ok) restore_ok) = Some (Ok v) ∧
    vs_outcome v = VO_VERIFIED.

Lemma hoare_run_verification ctx result s0 b :
  hoare (λ s, at_rec (ctx_execution_id ctx) s0 (opened (ctx_execution_id ctx)) s ∧
           same_evidence b s)
    (_run_verification ctx result)
    (λ o s, at_rec (ctx_execution_id ctx) s0 (λ r, closed (ctx_execution_id ctx) r ∧
       o = _outcome_from_record r ∧ (rec_state r = COMPLETED → verified_run ctx result b)) s ∧
       same_evidence b s)
    (λ e s, left_open (ctx_execution_id ctx) s0 e s ∧ same_evidence b s).
Proof.
  set (eid := ctx_execution_id ctx). unfold _run_verification. fold eid.
  set (I := λ s, at_rec eid s0 (opened eid) s ∧ same_evidence b s).
  assert (∀ f, (∀ r, opened eid r → opened eid (f r)) →
    hoare I (assign eid f) (λ _, I) (λ e s, left_open eid s0 e s ∧ same_evidence b s)) as Hass.
  { intros f Hf. apply hoare_keeps; [by apply hoare_assign|apply keeps_assign_ev]. }
  assert (∀ ty d force, hoare I (_emit eid ty d force) (λ _, I)
    (λ e s, left_open eid s0 e s ∧ same_evidence b s)) as Hemit.
  { intros. apply hoare_keeps; [apply hoare_emit_open|apply keeps_emit_ev]. }
  eapply hoare_then; [apply Hass; by intros ? ([? ?] & ? & ?)|]. intros _.
  eapply hoare_then; [apply Hemit|]. intros _.
  eapply hoare_then; [apply Hass; by intros ? ([? ?] & ? & ?)|]. intros _.
  eapply hoare_then; [apply Hemit|]. intros _.
  eapply hoare_bind with (R := λ s1 s, s1 = s ∧ I s); [by intros s Hs|]. intros s1.
  destruct (py_dict _) as [policy|ex] eqn:Hpol.
  2: { intros s [-> [? ?]]. done. }
  eapply hoare_bind with (R := λ p s, p = policy ∧ s1 = s ∧ I s); [by intros s Hs|].
  intros p.
  eapply hoare_bind with (R := λ _ s, p = policy ∧ evidence s1 = b ∧ I s).
  { intros s (-> & -> & Hs). destruct Hs as [[(r & Hr & Ho) Hf] Hb].
    unfold the_record, mbind, M_bind, get_state. rewrite Hr.
    split_and!; [done|done|]. split; [split; [by exists r|done]|done]. }
  intros r. unfold verify_now.
  destruct (verify _) as [[v|ex]|] eqn:Hv.
  2,3: by intros s (_ & _ & ? & ?).
  eapply hoare_bind with (R := λ v' s, v' = v ∧ p = policy ∧ evidence s1 = b ∧ I s);
    [by intros s Hs|]. intros v'.
  intros s (-> & -> & Hb & Hs). revert s Hs.
  set (ver := VerificationResult_as_dict v).
  set (J := λ s, at_rec eid s0 (λ r, base eid r ∧ pending ver r) s ∧ same_evidence b s).
  assert (hoare I (assign eid (set_verification ver)) (λ _, J)
    (λ e s, left_open eid s0 e s ∧ same_evidence b s)) as H1.
  { apply hoare_keeps; [|apply keeps_assign_ev]. apply hoare_assign.
    by intros r1 ([? ?] & ? & ?). }
  assert (∀ p0, projects p0 → hoare J (project p0) (λ _, J)
    (λ e s, left_open eid s0 e s ∧ same_evidence b s)) as H2.
  { intros p0 Hp. apply hoare_keeps; [by apply hoare_project|].
    unfold project. apply keeps_bind; [apply keeps_take_ev|intros ?].
    apply keeps_zoom_graph_ev. }
  eapply hoare_then; [exact H1|]. intros _. eapply hoare_then; [apply H2; intros ???; apply add_returns|].
  intros _. eapply hoare_post; [apply hoare_keeps; [apply hoare_conclude|apply keeps_conclude_ev]|].
  intros o s [Hs Hev]. split; [|done]. eapply at_rec_impl; [exact Hs|].
  intros r0 (? & ? & Hc). split_and!; try done. intros Hst.
  exists policy, v, (rec_backend_ok r), (rec_restore_ok r). split_and!; [done| |auto].
  by rewrite <-Hb.
Qed.

(** ** Entering a run *)

(** Only the attempt, the flags of the backend and the log differ. *)
Definition header_free (P : CompletionRecord → Prop) : Prop :=
  ∀ r, P r → (∀ v, P (set_backend_ok v r)) ∧ (∀ v, P (set_restore_ok v r)) ∧
    (∀ v, P (set_attempt_id v r)) ∧ ∀ t, P (set_updated_at t r).

Lemma ensure_record_spec ctx bo ro ua (P : CompletionRecord → Prop) s :
  header_free P →
  (∀ r, store_get (ctx_execution_id ctx) (store s) = Some r → P r) →
  (store_get (ctx_execution_id ctx) (store s) = None →
   ∀ r, opened (ctx_execution_id ctx) r → P r) →
  ∃ s', _ensure_record ctx bo ro ua s = (Ok tt, s') ∧
    at_rec (ctx_execution_id ctx) s P s' ∧ evidence s' = evidence s.
Proof.
  set (eid := ctx_execution_id ctx). intros Hh Hsome Hnone.
  unfold _ensure_record, take_ticks, mbind, M_bind, get_state, modify_state. fold eid.
  simpl. destruct (store_get eid (store s)) as [r|] eqn:Hr.
  - specialize (Hsome r eq_refl).
    assert (at_rec eid s P (add_ticks 2 s)) as Hs by (split; [by exists r|done]).
    assert (∀ f, (∀ r, P r → P (f r)) →
      keeps (λ s', at_rec eid s P s' ∧ evidence s' = evidence s) (assign eid f)) as Hass.
    { intros f Hf s1 [H1 H2]. pose proof (hoare_assign eid s P P f (λ _ _, False) Hf s1 H1).
      destruct H1 as [(r1 & Hr1 & _) _]. unfold assign, modify_state in *. simpl in *.
      by rewrite Hr1 in *. }
    assert (∀ f m, (∀ r, P r → P (f r)) →
      (∀ s1, at_rec eid s P s1 ∧ evidence s1 = evidence s →
         ∃ s', m s1 = (Ok tt, s') ∧ at_rec eid s P s' ∧ evidence s' = evidence s) →
      ∀ s1, at_rec eid s P s1 ∧ evidence s1 = evidence s →
         ∃ s', (assign eid f;; m) s1 = (Ok tt, s') ∧ at_rec eid s P s' ∧
           evidence s' = evidence s) as Hseq.
    { intros f m Hf Hm s1 Hs1. unfold mbind, M_bind, assign, modify_state.
      apply Hm. by apply (Hass f Hf s1). }
    assert (∀ t s1, at_rec eid s P s1 ∧ evidence s1 = evidence s →
      ∃ s', assign eid (set_updated_at t) s1 = (Ok tt, s') ∧ at_rec eid s P s' ∧
        evidence s' = evidence s) as Hlast.
    { intros t s1 Hs1. eexists. split; [done|]. apply (Hass (set_updated_at t)); [|done].
      intros r1 H1. by apply Hh. }
    destruct ua; [|by apply Hlast].
    destruct (Hseq (set_backend_ok bo) (assign eid (set_restore_ok ro);;
      assign eid (set_attempt_id (ctx_attempt_id ctx));;
      assign eid (set_updated_at (clock (ticks s)))) ) with (add_ticks 2 s)
      as (s' & E & Hs'); [| |done|].
    + intros r1 H1. by apply Hh.
    + apply Hseq; [intros r1 H1; by apply Hh|]. apply Hseq; [intros r1 H1; by apply Hh|].
      apply Hlast.
    + exists s'. split; [|done]. exact E.
  - eexists. split; [reflexivity|]. split; [|done].
    unfold set_store, store_save, store_get in *; simpl. split; simpl.
    + eexists. split; [apply dict_get_set_eq|]. apply Hnone; [done|].
      split_and!; [split; [done|]|done|done]. simpl. constructor. lia.
    + intros e He. by apply dict_get_set_ne.
Qed.

Lemma header_free_opened eid : header_free (opened eid).
Proof. intros r (? & ? & ?). split_and!; intros; by split_and!. Qed.

Lemma hoare_ensure_open ctx bo ro ua s0 E :
  hoare (λ s, s = s0 ∧ ∀ r, store_get (ctx_execution_id ctx) (store s) = Some r →
           opened (ctx_execution_id ctx) r)
    (_ensure_record ctx bo ro ua)
    (λ _, at_rec (ctx_execution_id ctx) s0 (opened (ctx_execution_id ctx))) E.
Proof.
  intros s [-> Hs].
  destruct (ensure_record_spec ctx bo ro ua (opened (ctx_execution_id ctx)) s0)
    as (s' & -> & Hs' & _); [apply header_free_opened|done|done|done].
Qed.

(** ** Cancellation *)

(** Cancellation once the record is ensured. *)
Lemma hoare_cancel_after eid s0 (cleanup : bool) E :
  hoare (at_rec eid s0 (opened eid))
    (r ← the_record eid;
     if is_terminal_state (rec_state r) && rec_terminal_emitted r
     then mret (_outcome_from_record r)
     else if negb cleanup then
       assign eid (set_state BLOCKED);;
       assign eid (set_failure_class (Some (CompletionFailureClass_value FC_CLEANUP_FAILED)));;
       assign eid (set_detail (Some "cancellation cleanup incomplete"));;
       _emit eid "execution.blocked" [("reason", PStr "cleanup_timeout")] false;;
       _finalise_terminal eid false []
     else
       assign eid (set_state CANCELLED);;
       assign eid (set_detail (Some "execution cancelled"));;
       _emit eid "execution.cancelled" [("cleanup_completed", PBool true)] false;;
       _finalise_terminal eid false [])
    (refused eid s0) E.
Proof.
  eapply hoare_bind; [apply hoare_record|]. intros r0.
  destruct (is_terminal_state (rec_state r0) && rec_terminal_emitted r0) eqn:Hem.
  { intros s [(r & _ & _ & _ & ? & _) _]. boolify. congruence. }
  eapply hoare_pre with (P' := opened eid); [|intros r [Heq ?]; by subst r].
  destruct (negb cleanup).
  - do 4 open_step. apply hoare_finalise_refused.
  - do 3 open_step. apply hoare_finalise_refused.
Qed.

Lemma hoare_cancel_open ctx cleanup s0 E :
  hoare (at_rec (ctx_execution_id ctx) s0 (opened (ctx_execution_id ctx)))
    (finalise_cancelled ctx cleanup) (refused (ctx_execution_id ctx) s0) E.
Proof.
  set (eid := ctx_execution_id ctx). unfold finalise_cancelled. fold eid.
  eapply hoare_then with (R := at_rec eid s0 (opened eid)).
  { intros s [(r & Hr & Ho) Hf].
    destruct (ensure_record_spec ctx false true true (opened eid) s)
      as (s' & -> & [Hs' Hf'] & _); fold eid.
    - apply header_free_opened.
    - intros r'. fold eid. rewrite Hr. by intros [= <-].
    - done.
    - split; [done|]. intros e He. by rewrite Hf', Hf. }
  intros _. apply hoare_cancel_after.
Qed.

Lemma hoare_cancel_fresh ctx cleanup s0 E :
  let eid := ctx_execution_id ctx in
  hoare (λ s, s = s0 ∧ ∀ r, store_get eid (store s) = Some r → opened eid r)
    (finalise_cancelled ctx cleanup) (refused eid s0) E.
Proof.
  intros eid. eapply hoare_then; [apply hoare_ensure_open|]. intros _.
  apply hoare_cancel_after.
Qed.

(** ** Completion from a backend result *)

(** What a completed answer to a backend result rests on. *)
Definition grounds (ctx : CompletionContext) (result : ExecutionResult) s : Prop :=
  xr_ok result = true ∧ _restore_ok result = true ∧ ctx_cancelled ctx = false ∧
  (ctx_require_evidence ctx = true →
     list_accepted (evidence s) (ctx_execution_id ctx) ≠ []) ∧
  verified_run ctx result (evidence s).

Lemma hoare_for_each {A} (I : Orchestrator → Prop) (l : list A) body E :
  (∀ x, hoare I (body x) (λ _, I) E) → hoare I (for_each l body) (λ _, I) E.
Proof.
  intros Hb. induction l as [|x l IH]; simpl; [by intros s Hs|].
  by eapply hoare_then.
Qed.

(** A run over an open record that leaves the boundary alone. *)
Definition running eid s0 b s : Prop := at_rec eid s0 (opened eid) s ∧ same_evidence b s.
Definition left_running eid s0 b (e : exn) s : Prop :=
  left_open eid s0 e s ∧ same_evidence b s.

Lemma running_assign eid s0 b f :
  (∀ r, opened eid r → opened eid (f r)) →
  hoare (running eid s0 b) (assign eid f) (λ _, running eid s0 b) (left_running eid s0 b).
Proof. intros Hf. apply hoare_keeps; [by apply hoare_assign|apply keeps_assign_ev]. Qed.

Lemma running_emit eid s0 b ty d force :
  hoare (running eid s0 b) (_emit eid ty d force) (λ _, running eid s0 b)
    (left_running eid s0 b).
Proof. apply hoare_keeps; [apply hoare_emit_open|apply keeps_emit_ev]. Qed.

Lemma running_project eid s0 b p :
  projects p →
  hoare (running eid s0 b) (project p) (λ _, running eid s0 b) (left_running eid s0 b).
Proof.
  intros Hp. apply hoare_keeps; [by apply hoare_project|].
  unfold project. apply keeps_bind; [apply keeps_take_ev|intros ?].
  apply keeps_zoom_graph_ev.
Qed.

(** The end of the run after the intake. *)
Lemma hoare_after_intake ctx result accepted rejected s0 b :
  let eid := ctx_execution_id ctx in
  xr_ok result = true → _restore_ok result = true → ctx_cancelled ctx = false →
  (∀ e, e ∈ accepted → e ∈ list_accepted b eid) →
  hoare (running eid s0 b)
    (for_each accepted (record_accepted eid);;
     for_each rejected (record_rejected eid);;
     if ctx_require_evidence ctx && (length accepted =? 0)%nat then
       end_with eid FAILED (CompletionFailureClass_value FC_EVIDENCE_MISSING)
         "required evidence missing or rejected" "execution.failed"
         [("reason", PStr "evidence_missing")] (_usage_from_result result ctx)
     else
       assign eid (set_state EVIDENCE_ACCEPTED);;
       _run_verification ctx result)
    (completes eid s0 (grounds ctx result)) (left_open eid s0).
Proof.
  intros eid Hok Hres Hcan Hacc.
  assert (∀ {A} P (m : M Orchestrator A) Q,
    hoare P m Q (left_running eid s0 b) → hoare P m Q (left_open eid s0)) as Hweak.
  { intros A P m Q Hm. eapply hoare_conseq; [exact Hm|done|done|]. by intros e s []. }
  eapply hoare_then with (R := running eid s0 b).
  { apply Hweak, hoare_for_each. intros item. unfold record_accepted.
    eapply hoare_then; [apply running_assign; by intros r ([? ?] & ? & ?)|]. intros _.
    eapply hoare_then; [apply running_project; intros ???; apply add_returns|]. intros _.
    apply running_emit. }
  intros _. eapply hoare_then with (R := running eid s0 b).
  { apply Hweak, hoare_for_each. intros item. unfold record_rejected.
    eapply hoare_then; [apply running_project; intros ???; apply add_returns|]. intros _.
    apply running_emit. }
  intros _. destruct (ctx_require_evidence ctx && _) eqn:Hreq.
  - eapply hoare_conseq; [apply hoare_end_with; done|by intros s []| |done].
    apply refused_completes.
  - eapply hoare_then;
      [apply Hweak, running_assign; by intros r ([? ?] & ? & ?)|]. intros _.
    eapply hoare_conseq; [apply hoare_run_verification|done| |by intros e s []].
    intros o s [Hs Hb]. eapply at_rec_impl; [exact Hs|]. intros r (Hcl & Ho & Hv).
    split_and!; [done|done|]. intros Hst. unfold grounds. rewrite Hb.
    split_and!; try done; [|by apply Hv]. intros Hq. rewrite Hq in Hreq. simpl in Hreq.
    destruct accepted as [|e accepted]; [done|].
    intros Hnil. assert (e ∈ list_accepted b eid) as Hin by (apply Hacc; by left).
    unfold eid in *. rewrite Hnil in Hin. by apply not_elem_of_nil in Hin.
Qed.

(** The intake over an open record. *)
Lemma hoare_intake ctx result cands s0 :
  let eid := ctx_execution_id ctx in
  hoare (at_rec eid s0 (opened eid)) (intake_evidence ctx result cands)
    (λ out s, at_rec eid s0 (opened eid) s ∧
       ∀ e, e ∈ out.1 → e ∈ list_accepted (evidence s) eid) (left_open eid s0).
Proof.
  intros eid. unfold intake_evidence. open_step. open_step.
  set (m := intake _ _ _ _ _ _). intros s Hs. unfold zoom.
  destruct (m (evidence s)) as [[[acc rej]|ex] b'] eqn:Em; [|done].
  split; [done|]. simpl. by eapply intake_accepted_stored.
Qed.

Lemma hoare_complete_open result ctx decision cands s0 :
  let eid := ctx_execution_id ctx in
  ctx_attempt_id ctx = ctx_authoritative_attempt_id ctx →
  hoare (λ s, s = s0 ∧ ∀ r, store_get eid (store s) = Some r → opened eid r)
    (complete_from_backend result ctx decision cands)
    (completes eid s0 (grounds ctx result)) (left_open eid s0).
Proof.
  intros eid Hatt. unfold complete_from_backend. fold eid.
  eapply hoare_bind with (R := λ s1 s, s1 = s0 ∧ s = s0 ∧
    ∀ r, store_get eid (store s) = Some r → opened eid r); [by intros s [-> Hs]|].
  intros s1. eapply hoare_bind with (R := λ early s, early = None ∧ s = s0 ∧
    ∀ r, store_get eid (store s) = Some r → opened eid r).
  { intros s (-> & -> & Hs). destruct (store_get eid (store s0)) as [r|] eqn:Hr.
    2: { cbn. split_and!; [done|done|]. intros r. by rewrite Hr. }
    destruct (Hs r eq_refl) as (_ & Hem & _). rewrite Hem, andb_false_r.
    split_and!; [done|done|]. intros r2. rewrite Hr. apply Hs. }
  intros [outcome|]; [by intros s (? & _)|].
  rewrite bool_decide_eq_true_2 by done. simpl.
  assert (∀ bo ro, hoare (λ s, None = @None CompletionOutcome ∧ s = s0 ∧
      ∀ r, store_get eid (store s) = Some r → opened eid r)
    (_ensure_record ctx bo ro true) (λ _, at_rec eid s0 (opened eid)) (left_open eid s0))
    as Hens.
  { intros bo ro s (_ & ? & ?).
    by apply (hoare_ensure_open ctx bo ro true s0 (left_open eid s0) s). }
  destruct (_restore_ok result) eqn:Hres; simpl.
  2: { eapply hoare_then; [apply Hens|]. intros _.
       eapply hoare_post; [by apply hoare_end_with|apply refused_completes]. }
  eapply hoare_then; [apply Hens|]. intros _. do 2 open_step.
  eapply hoare_then; [apply hoare_project; intros ???; apply add_returns|]. intros _.
  eapply hoare_then with (R := at_rec eid s0 (opened eid)).
  { destruct decision as [[|kv d]|]; [by intros s Hs| |by intros s Hs].
    eapply hoare_then; [apply hoare_project; intros ???; apply add_returns|].
    by intros _ s Hs. }
  intros _. eapply hoare_then; [apply hoare_project; intros ???; apply add_returns|].
  intros _. destruct (ctx_cancelled ctx) eqn:Hcan.
  { eapply hoare_post; [apply hoare_cancel_open|apply refused_completes]. }
  destruct (xr_ok result) eqn:Hok; simpl.
  2: { eapply hoare_post; [by apply hoare_end_with|apply refused_completes]. }
  do 2 open_step. eapply hoare_bind; [apply hoare_intake|].
  intros [accepted rejected] s [Hs Hacc].
  by apply (hoare_after_intake ctx result accepted rejected s0 (evidence s) Hok Hres Hcan Hacc).
Qed.

(** ** Remote events *)

(** The context a remote success is completed in, and the result it reports. *)
Definition remote_result (ctx : CompletionContext) (payload : dict) : ExecutionResult :=
  synthetic_result true (ctx_execution_id ctx) (ctx_backend_id ctx) (ctx_harness_id ctx)
    "remote backend reported success" payload.
(** [ctx'] is [ctx] with remote evidence of [types] required and the strategy of the remote
    verifier; nothing else differs. *)
Record remotely (types : list string) (ctx ctx' : CompletionContext) : Prop := {
  rm_require : ctx_require_evidence ctx' = true;
  rm_strategy : ctx_verification_strategy ctx' = "remote_verifier_event";
  rm_types : ctx_required_evidence_types ctx' = types;
  rm_execution : ctx_execution_id ctx' = ctx_execution_id ctx;
  rm_mission : ctx_mission_id ctx' = ctx_mission_id ctx;
  rm_scope : (ctx_organisation_id ctx', ctx_project_id ctx', ctx_user_id ctx') =
    (ctx_organisation_id ctx, ctx_project_id ctx, ctx_user_id ctx);
  rm_attempt : (ctx_attempt_id ctx', ctx_authoritative_attempt_id ctx') =
    (ctx_attempt_id ctx, ctx_authoritative_attempt_id ctx);
  rm_backend : (ctx_backend_id ctx', ctx_harness_id ctx', ctx_correlation_id ctx') =
    (ctx_backend_id ctx, ctx_harness_id ctx, ctx_correlation_id ctx);
  rm_cancelled : ctx_cancelled ctx' = ctx_cancelled ctx;
  rm_limit : ctx_max_evidence_bytes ctx' = ctx_max_evidence_bytes ctx;
  rm_metadata : ctx_metadata ctx' = ctx_metadata ctx
}.

(** The grounds of a remote success, by what the event brings and what the context asks. *)
Definition remote_grounds (ctx : CompletionContext) (ty : string) (payload : dict) s : Prop :=
  let under types :=
    ∃ ctx', remotely types ctx ctx' ∧ grounds ctx' (remote_result ctx payload) s in
  if (ty == "verification.completed") || truthy (dget "verification" payload) then
    under (if ctx_required_evidence_types ctx == [] then ["remote_verification"]
           else ctx_required_evidence_types ctx)
  else if ctx_require_evidence ctx ||
          (ctx_verification_strategy ctx == "remote_verifier_event") then
    grounds ctx (remote_result ctx payload) s
  else under ["remote_verification"].

Lemma completes_impl eid s0 (G G' : Orchestrator → Prop) o s :
  completes eid s0 G o s → (G s → G' s) → completes eid s0 G' o s.
Proof. intros Hs HG. eapply at_rec_impl; [exact Hs|]. intros r (? & ? & ?). split_and!; auto. Qed.

Lemma hoare_remote_success ctx ty payload cands s0 :
  let eid := ctx_execution_id ctx in
  ctx_attempt_id ctx = ctx_authoritative_attempt_id ctx →
  hoare (λ s, (∀ e, store_get e (store s) = store_get e (store s0)) ∧
           ∀ r, store_get eid (store s) = Some r → opened eid r)
    (remote_success ctx ty payload cands)
    (completes eid s0 (remote_grounds ctx ty payload))
    (λ e s, left_open eid s0 e s ∨ ∀ e, store_get e (store s) = store_get e (store s0)).
Proof.
  intros eid Hatt.
  set (P := λ s, (∀ e, store_get e (store s) = store_get e (store s0)) ∧
           ∀ r, store_get eid (store s) = Some r → opened eid r).
  set (E := λ (e : exn) s, left_open eid s0 e s ∨
           ∀ e, store_get e (store s) = store_get e (store s0)).
  assert (∀ (G : Orchestrator → Prop) ctx' cands, ctx_execution_id ctx' = eid →
    ctx_attempt_id ctx' = ctx_authoritative_attempt_id ctx' →
    (∀ s, grounds ctx' (remote_result ctx payload) s → G s) →
    hoare P (complete_from_backend (remote_result ctx payload) ctx' None cands)
      (completes eid s0 G) E) as Hrun.
  { intros G ctx' cs Heid Hatt' HG s [Hsame Hopen].
    pose proof (hoare_complete_open (remote_result ctx payload) ctx' None cs s Hatt' s) as Hc.
    cbv zeta in Hc. rewrite Heid in Hc. specialize (Hc (conj eq_refl Hopen)).
    destruct (complete_from_backend _ ctx' None cs s) as [[o|ex] s'].
    - apply (completes_impl eid s0 (grounds ctx' (remote_result ctx payload))); [|by apply HG].
      destruct Hc as [Hr Hf]. split; [exact Hr|]. intros e He. by rewrite Hf, Hsame.
    - left. destruct Hc as [Hr Hf]. split; [exact Hr|]. intros e He. by rewrite Hf, Hsame. }
  unfold remote_success, remote_grounds. fold (remote_result ctx payload).
  destruct (_ || truthy (dget "verification" payload)).
  - eapply hoare_bind with (R := λ _, P); [by intros s Hs|]. intros t.
    eapply hoare_bind with (R := λ _, P).
    2: { intros cs. apply Hrun; [done|done|]. intros s Hg. eexists. split; [|exact Hg].
         split; try done. simpl. by destruct (ctx_required_evidence_types ctx). }
    destruct cands as [|c cands]; [|by intros s Hs].
    destruct (truthy _); [|by intros s Hs]. intros s Hs.
    unfold mbind, M_bind, lift_res. destruct (remote_candidate _ _ _) as [c|ex]; [done|].
    right. apply Hs.
  - destruct (ctx_require_evidence ctx || _) eqn:Hreq; (apply Hrun; [done|done|]); [done|].
    intros s Hg. eexists. split; [|exact Hg]. by split.
Qed.

(** ** Stale attempts *)

(** What a call that does not belong to the run may not touch. *)
Definition same_core r r' : Prop :=
  rec_state r' = rec_state r ∧ rec_verification r' = rec_verification r ∧
  rec_evidence_ids r' = rec_evidence_ids r ∧
  rec_usage_finalised r' = rec_usage_finalised r ∧
  rec_usage_aggregate r' = rec_usage_aggregate r ∧
  rec_graph_nodes r' = rec_graph_nodes r ∧ rec_failure_class r' = rec_failure_class r ∧
  rec_detail r' = rec_detail r ∧ rec_terminal_emitted r' = rec_terminal_emitted r.

Definition kept r0 r : Prop := record_inv (rec_execution_id r0) r ∧ same_core r0 r.

Lemma same_core_trans r1 r2 r3 : same_core r1 r2 → same_core r2 r3 → same_core r1 r3.
Proof.
  intros (?&?&?&?&?&?&?&?&?) (?&?&?&?&?&?&?&?&?). unfold same_core. split_and!; congruence.
Qed.

Lemma hoare_emit_kept r0 s0 ty d force E :
  let eid := rec_execution_id r0 in
  hoare (at_rec eid s0 (kept r0)) (_emit eid ty d force) (λ _, at_rec eid s0 (kept r0)) E.
Proof.
  intros eid.
  set (C := λ r,
    (rec_terminal_emitted r = true → rec_state r ∈ TERMINAL_COMPLETION_STATES) ∧
    (rec_state r = COMPLETED → rec_terminal_emitted r = true ∧
       rec_usage_finalised r = true ∧ is_verified (rec_verification r)) ∧ same_core r0 r).
  eapply hoare_conseq; [apply (hoare_emit eid s0 C ty d force E)| | |done].
  - intros r Hr. by split_and!.
  - intros s Hs. eapply at_rec_impl; [exact Hs|]. intros r [(? & ? & ?) ?]. by split_and!.
  - intros a s Hs. eapply at_rec_impl; [exact Hs|]. by intros r (? & ? & ? & ?).
Qed.

Lemma header_free_kept r0 : header_free (kept r0).
Proof.
  intros r [([? ?] & ? & ?) (?&?&?&?&?&?&?&?&?)].
  split_and!; intros; (split; [by split_and!|unfold same_core; by split_and!]).
Qed.

Lemma same_core_refl r : same_core r r.
Proof. by split_and!. Qed.

(** Ensuring a record that exists changes its header only. *)
Lemma ensure_kept ctx bo ro ua s r0 :
  store_get (ctx_execution_id ctx) (store s) = Some r0 →
  record_inv (ctx_execution_id ctx) r0 →
  ∃ s', _ensure_record ctx bo ro ua s = (Ok tt, s') ∧
    at_rec (ctx_execution_id ctx) s (kept r0) s'.
Proof.
  intros Hr Hi. destruct (ensure_record_spec ctx bo ro ua (kept r0) s)
    as (s' & E & Hs' & _); [apply header_free_kept| |by rewrite Hr|by eauto].
  intros r. rewrite Hr. intros [= <-]. split; [|apply same_core_refl].
  destruct Hi as ((He & ?) & ?). by rewrite He.
Qed.

(** A stale attempt leaves the core of an existing record, and opens a new one. *)
Lemma reject_stale_spec ctx reason detail s :
  let eid := ctx_execution_id ctx in
  (∀ r, store_get eid (store s) = Some r → record_inv eid r) →
  ∃ o s', _reject_stale ctx reason detail s = (Ok o, s') ∧
    match store_get eid (store s) with
    | Some r0 => at_rec eid s (kept r0) s'
    | None => at_rec eid s (opened eid) s'
    end ∧
    (∀ r', store_get eid (store s') = Some r' →
       out_state o = rec_state r' ∧ (rec_state r' ≠ COMPLETED → out_ok o = false)).
Proof.
  intros eid Hi. unfold _reject_stale. fold eid.
  set (P := match store_get eid (store s) with Some r0 => kept r0 | None => opened eid end).
  assert (∃ s1, _ensure_record ctx false true false s = (Ok tt, s1) ∧ at_rec eid s P s1)
    as (s1 & E1 & H1).
  { unfold P. destruct (store_get eid (store s)) as [r0|] eqn:Hr.
    - apply ensure_kept; [done|by apply Hi].
    - destruct (ensure_record_spec ctx false true false (opened eid) s)
        as (s1 & E1 & H1 & _); [apply header_free_opened| |done|by eauto].
      intros r. fold eid. by rewrite Hr. }
  assert (∀ ty d, hoare (at_rec eid s P) (_emit eid ty d true) (λ _, at_rec eid s P)
    (λ _ _, False)) as Hemit.
  { intros ty d. unfold P. destruct (store_get eid (store s)) as [r0|] eqn:Hr.
    - destruct (Hi r0 eq_refl) as ((He & _) & _). rewrite <-He. apply hoare_emit_kept.
    - apply hoare_emit_open. }
  unfold mbind, M_bind. rewrite E1.
  set (ty := "execution.stale_attempt_rejected"). set (d := [("attempt_id", _); _]).
  specialize (Hemit ty d s1 H1).
  destruct (_emit eid ty d true s1) as [[[]|ex] s2]; [|done].
  pose proof (hoare_record eid s P (λ _ _, False) s2 Hemit) as Hrec.
  destruct (the_record eid s2) as [[r|ex] s3]; [|done].
  assert (at_rec eid s P s3) as H3.
  { eapply at_rec_impl; [exact Hrec|]. intros r' [Heq ?]. by subst r'. }
  destruct Hrec as [(r1 & Hr1 & Heq & _) _]. subst r1.
  exists (if is_terminal_state (rec_state r) then _outcome_from_record r else
    {| out_ok := false; out_state := rec_state r; out_execution_id := eid;
       out_mission_id := ctx_mission_id ctx; out_attempt_id := ctx_attempt_id ctx;
       out_detail := detail;
       out_failure_class := Some (CompletionFailureClass_value reason);
       out_verification := []; out_evidence_ids := []; out_usage := [];
       out_events := rec_events r; out_graph_nodes := [];
       out_record := CompletionRecord_as_dict r |}), s3.
  split; [by destruct (is_terminal_state (rec_state r))|]. split.
  - unfold P in H3. by destruct (store_get eid (store s)).
  - intros r'. rewrite Hr1. intros [= <-].
    destruct (is_terminal_state (rec_state r)); [|done]. split; [done|intros Hne]. simpl.
    by apply bool_decide_eq_false_2.
Qed.

(** ** Calls *)

Definition store_inv s : Prop :=
  ∀ e r, store_get e (store s) = Some r → record_inv e r.

(** What a call on [eid] does: the other records stay, its own satisfies the invariant,
    and if it was closed its core stays. *)
Definition call_ok eid s s' : Prop :=
  (∀ e, e ≠ eid → store_get e (store s') = store_get e (store s)) ∧
  (∀ r', store_get eid (store s') = Some r' → record_inv eid r') ∧
  (∀ r, store_get eid (store s) = Some r → rec_terminal_emitted r = true →
     ∃ r', store_get eid (store s') = Some r' ∧ same_core r r').

(** The record of [eid] when a call starts. *)
Definition is_closed eid s : Prop :=
  ∃ r, store_get eid (store s) = Some r ∧ rec_terminal_emitted r = true.

Lemma not_closed_open eid s :
  store_inv s → ¬ is_closed eid s →
  ∀ r, store_get eid (store s) = Some r → opened eid r.
Proof.
  intros Hi Hc r Hr. destruct (Hi _ _ Hr) as (Hb & Ht & Hs).
  assert (rec_terminal_emitted r = false) as Hem.
  { apply not_true_is_false. intros ?. apply Hc. by exists r. }
  split_and!; [done|done|]. intros Hst. destruct (Hs Hst). congruence.
Qed.

Lemma closed_dec eid s : is_closed eid s ∨ ¬ is_closed eid s.
Proof.
  unfold is_closed. destruct (store_get eid (store s)) as [r|]; [|right; by intros (? & ? & ?)].
  destruct (rec_terminal_emitted r) eqn:E; [by left; exists r|].
  right. intros (? & [= <-] & ?). congruence.
Qed.

Lemma closed_terminal eid s r :
  store_inv s → store_get eid (store s) = Some r → rec_terminal_emitted r = true →
  is_terminal_state (rec_state r) = true.
Proof.
  intros Hi Hr Hem. destruct (Hi _ _ Hr) as (_ & Ht & _). apply bool_decide_eq_true_2. auto.
Qed.

Lemma call_ok_same eid s s' :
  store_inv s → (∀ e, store_get e (store s') = store_get e (store s)) → call_ok eid s s'.
Proof.
  intros Hi Hs. split_and!; [by intros e _|intros r'; rewrite Hs; apply Hi|].
  intros r Hr _. exists r. rewrite Hs. split; [done|apply same_core_refl].
Qed.

Lemma call_ok_rec eid s s' (P : CompletionRecord → Prop) :
  ¬ is_closed eid s → at_rec eid s P s' → (∀ r, P r → record_inv eid r) → call_ok eid s s'.
Proof.
  intros Hc [(r & Hr & HP) Hf] Hinv. split_and!; [done| |].
  - intros r'. rewrite Hr. intros [= <-]. by apply Hinv.
  - intros r0 Hr0 Hem. destruct Hc. by exists r0.
Qed.

Lemma call_ok_completes eid s s' G o :
  ¬ is_closed eid s → completes eid s G o s' → call_ok eid s s'.
Proof. intros Hc Hs. eapply call_ok_rec; [done|exact Hs|]. by intros r ([? ?] & _). Qed.

Lemma call_ok_open eid s s' e :
  ¬ is_closed eid s → left_open eid s e s' → call_ok eid s s'.
Proof. intros Hc Hs. eapply call_ok_rec; [done|exact Hs|apply opened_inv]. Qed.

Lemma call_ok_kept eid s s' r0 :
  store_get eid (store s) = Some r0 → rec_execution_id r0 = eid →
  at_rec eid s (kept r0) s' → call_ok eid s s'.
Proof.
  intros Hr0 He [(r & Hr & Hi & Hk) Hf]. split_and!; [done| |].
  - intros r'. rewrite Hr. intros [= <-]. by rewrite <-He.
  - intros r1. rewrite Hr0. intros [= <-] _. by exists r.
Qed.

Lemma stale_call_ok ctx reason detail s :
  store_inv s → call_ok (ctx_execution_id ctx) s (_reject_stale ctx reason detail s).2.
Proof.
  intros Hi. destruct (reject_stale_spec ctx reason detail s) as (o & s' & -> & Hs & _);
    [by intros r; apply Hi|]. simpl.
  destruct (store_get (ctx_execution_id ctx) (store s)) as [r0|] eqn:Hr.
  - eapply call_ok_kept; [done| |done]. by destruct (Hi _ _ Hr) as ((? & _) & _).
  - eapply call_ok_rec; [|exact Hs|apply opened_inv]. intros (r & Hr' & _). congruence.
Qed.

(** A run on a closed record answers at once. *)
Lemma complete_closed result ctx decision cands s r :
  store_inv s → store_get (ctx_execution_id ctx) (store s) = Some r →
  rec_terminal_emitted r = true →
  complete_from_backend result ctx decision cands s = (Ok (_outcome_from_record r), s).
Proof.
  intros Hi Hr Hem. unfold complete_from_backend, mbind, M_bind, get_state. rewrite Hr.
  by rewrite (closed_terminal _ _ _ Hi Hr Hem), Hem.
Qed.

Lemma complete_stale result ctx decision cands s :
  store_inv s → ¬ is_closed (ctx_execution_id ctx) s →
  ctx_attempt_id ctx ≠ ctx_authoritative_attempt_id ctx →
  complete_from_backend result ctx decision cands s =
    _reject_stale ctx FC_STALE_ATTEMPT "stale attempt cannot finalise" s.
Proof.
  intros Hi Hc Hatt. unfold complete_from_backend, mbind, M_bind, get_state.
  pose proof (not_closed_open _ _ Hi Hc) as Hopen.
  destruct (store_get (ctx_execution_id ctx) (store s)) as [r|] eqn:Hr; cbn.
  - destruct (Hopen r eq_refl) as (_ & -> & _). rewrite andb_false_r. cbn.
    by rewrite bool_decide_eq_false_2.
  - by rewrite bool_decide_eq_false_2.
Qed.

Lemma complete_call_ok result ctx decision cands s :
  store_inv s →
  call_ok (ctx_execution_id ctx) s (complete_from_backend result ctx decision cands s).2.
Proof.
  intros Hi. destruct (closed_dec (ctx_execution_id ctx) s) as [(r & Hr & Hem)|Hc].
  { rewrite (complete_closed _ _ _ _ _ r) by done. by apply call_ok_same. }
  destruct (decide (ctx_attempt_id ctx = ctx_authoritative_attempt_id ctx)) as [Ha|Ha].
  2: { rewrite complete_stale by done. by apply stale_call_ok. }
  pose proof (hoare_complete_open result ctx decision cands s Ha s) as Hrun.
  destruct (complete_from_backend result ctx decision cands s) as [[o|ex] s'];
    [eapply call_ok_completes|eapply call_ok_open]; try done;
    apply Hrun; split; [done| |done|]; by apply not_closed_open.
Qed.

Lemma cancel_call_ok ctx cleanup s :
  store_inv s → call_ok (ctx_execution_id ctx) s (finalise_cancelled ctx cleanup s).2.
Proof.
  intros Hi. set (eid := ctx_execution_id ctx).
  destruct (closed_dec eid s) as [(r & Hr & Hem)|Hc].
  - destruct (ensure_kept ctx false true true s r) as (s1 & E & [(r1 & Hr1 & Hk) Hf]);
      [done|by apply Hi|].
    unfold finalise_cancelled, mbind, M_bind. rewrite E. unfold the_record, mbind, M_bind, get_state.
    fold eid in Hr1 |- *. rewrite Hr1. cbn.
    destruct (Hi _ _ Hr) as ((He & _) & Ht & _).
    destruct Hk as [Hinv Hsame]. pose proof Hsame as (Hst & _ & _ & _ & _ & _ & _ & _ & He1).
    rewrite He1, Hem, Hst. unfold is_terminal_state.
    rewrite bool_decide_eq_true_2 by auto. cbn.
    eapply call_ok_kept; [done|done|]. split; [by exists r1|done].
  - pose proof (hoare_cancel_fresh ctx cleanup s (λ _ _, False) s) as Hrun. fold eid in Hrun.
    destruct (finalise_cancelled ctx cleanup s) as [[o|ex] s2].
    + eapply call_ok_completes; [done|]. apply (refused_completes _ _ (λ _, True)), Hrun.
      split; [done|]. by apply not_closed_open.
    + destruct Hrun. split; [done|]. by apply not_closed_open.
Qed.

(** *** Remote events *)

(** How a remote event on an open record ends: closed with an answer that rests on the
    remote grounds, or still open (progress, or an exception). *)
Definition remote_end ctx ty payload s0 (o : CompletionOutcome) s : Prop :=
  completes (ctx_execution_id ctx) s0 (remote_grounds ctx ty payload) o s ∨
  at_rec (ctx_execution_id ctx) s0 (opened (ctx_execution_id ctx)) s ∧
    out_ok o = false ∧ out_state o ≠ COMPLETED.

Lemma remote_event_open ctx ty payload cands s :
  let eid := ctx_execution_id ctx in
  store_inv s → ¬ is_closed eid s →
  ctx_attempt_id ctx = ctx_authoritative_attempt_id ctx →
  match complete_from_remote_event ctx ty payload cands s with
  | (Ok o, s') => remote_end ctx ty payload s o s'
  | (Raise e, s') => left_open eid s e s' ∨
      ∀ e, store_get e (store s') = store_get e (store s)
  end.
Proof.
  intros eid Hi Hc Hatt. pose proof (not_closed_open _ _ Hi Hc) as Hopen.
  unfold complete_from_remote_event. fold eid.
  unfold mbind at 1, M_bind at 1, get_state at 1.
  assert (match store_get eid (store s) with
          | Some e => is_terminal_state (rec_state e) && rec_terminal_emitted e
          | None => false end = false) as ->.
  { destruct (store_get eid (store s)) as [r|]; [|done].
    destruct (Hopen r eq_refl) as (_ & -> & _). apply andb_false_r. }
  rewrite bool_decide_eq_true_2 by done. simpl.
  assert (∀ (m : M Orchestrator CompletionOutcome),
    hoare (λ s1, s1 = s ∧ ∀ r, store_get eid (store s1) = Some r → opened eid r) m
      (remote_end ctx ty payload s) (λ e s', left_open eid s e s' ∨
         ∀ e, store_get e (store s') = store_get e (store s)) →
    match m s with
    | (Ok o, s') => remote_end ctx ty payload s o s'
    | (Raise e, s') => left_open eid s e s' ∨
        ∀ e, store_get e (store s') = store_get e (store s)
    end) as Hrun.
  { intros m Hm. by apply (Hm s). }
  assert (∀ (m : M Orchestrator CompletionOutcome) P E,
    hoare P m (refused eid s) E → hoare P m (remote_end ctx ty payload s) E) as Href.
  { intros m P E Hm. eapply hoare_post; [exact Hm|]. intros o s' Hs. left.
    by apply refused_completes. }
  destruct (ty in? ["task.cancelled"; "execution.cancelled"]).
  { apply Hrun, Href, hoare_cancel_fresh. }
  destruct (ty in? ["task.failed"; "execution.failed"]).
  { apply Hrun, Href. eapply hoare_then; [apply hoare_ensure_open|]. intros _.
    do 4 open_step. destruct (_usage_from_payload payload ctx) as [facts|ex].
    - eapply hoare_bind with (R := λ f s', f = facts ∧ at_rec eid s (opened eid) s');
        [by intros s' Hs|]. intros f s' [-> Hs]. by apply (hoare_finalise_refused eid s facts _ s').
    - intros s' Hs. by left. }
  destruct (negb _).
  { apply Hrun. eapply hoare_then; [apply hoare_ensure_open|]. intros _. do 2 open_step.
    eapply hoare_bind; [apply hoare_record|]. intros r0 s' [(r & Hr & Heq & Hop) Hf].
    subst r. right. split; [split; [by exists r0|done]|]. split; [done|by apply Hop]. }
  pose proof (hoare_remote_success ctx ty payload cands s Hatt s (conj (λ e, eq_refl) Hopen))
    as Hs. destruct (remote_success ctx ty payload cands s) as [[o|ex] s']; [by left|done].
Qed.

Lemma remote_event_closed ctx ty payload cands s r :
  store_inv s → store_get (ctx_execution_id ctx) (store s) = Some r →
  rec_terminal_emitted r = true →
  ∃ o s', complete_from_remote_event ctx ty payload cands s = (Ok o, s') ∧
    at_rec (ctx_execution_id ctx) s (kept r) s' ∧ out_state o = rec_state r.
Proof.
  intros Hi Hr Hem. unfold complete_from_remote_event.
  unfold mbind at 1, M_bind at 1, get_state at 1. rewrite Hr.
  rewrite (closed_terminal _ _ _ Hi Hr Hem), Hem. cbn [andb].
  destruct (Hi _ _ Hr) as ((He & _) & _). set (eid := ctx_execution_id ctx) in *.
  assert (at_rec eid s (kept r) s) as Hs.
  { split; [|done]. exists r. split; [done|]. split; [rewrite He; by apply Hi|].
    apply same_core_refl. }
  set (m := when _ _). assert (hoare (at_rec eid s (kept r)) m (λ _, at_rec eid s (kept r))
    (λ _ _, False)) as Hm.
  { apply hoare_when. intros _. rewrite <-He. apply hoare_emit_kept. }
  specialize (Hm s Hs). unfold mbind at 1, M_bind at 1.
  destruct (m s) as [[[]|ex] s1]; [|done].
  pose proof (hoare_record eid s (kept r) (λ _ _, False) s1 Hm) as Hrec.
  unfold mbind, M_bind. destruct (the_record eid s1) as [[r1|ex] s2]; [|done].
  eexists _, _. split; [reflexivity|]. split.
  - eapply at_rec_impl; [exact Hrec|]. intros r2 [Heq ?]. by subst r2.
  - destruct Hrec as [(r2 & _ & -> & _ & Hst & _) _]. exact Hst.
Qed.

Lemma remote_event_stale ctx ty payload cands s :
  store_inv s → ¬ is_closed (ctx_execution_id ctx) s →
  ctx_attempt_id ctx ≠ ctx_authoritative_attempt_id ctx →
  complete_from_remote_event ctx ty payload cands s =
    _reject_stale ctx FC_SUPERSEDED_ATTEMPT "superseded remote attempt rejected" s.
Proof.
  intros Hi Hc Hatt. pose proof (not_closed_open _ _ Hi Hc) as Hopen.
  unfold complete_from_remote_event. unfold mbind at 1, M_bind at 1, get_state at 1.
  assert (match store_get (ctx_execution_id ctx) (store s) with
          | Some e => is_terminal_state (rec_state e) && rec_terminal_emitted e
          | None => false end = false) as ->.
  { destruct (store_get _ (store s)) as [r|]; [|done].
    destruct (Hopen r eq_refl) as (_ & -> & _). apply andb_false_r. }
  by rewrite bool_decide_eq_false_2.
Qed.

Lemma remote_call_ok ctx ty payload cands s :
  store_inv s →
  call_ok (ctx_execution_id ctx) s (complete_from_remote_event ctx ty payload cands s).2.
Proof.
  intros Hi. set (eid := ctx_execution_id ctx).
  destruct (closed_dec eid s) as [(r & Hr & Hem)|Hc].
  { destruct (remote_event_closed ctx ty payload cands s r) as (o & s' & -> & Hs & _); try done.
    eapply call_ok_kept; [done| |done]. by destruct (Hi _ _ Hr) as ((? & _) & _). }
  destruct (decide (ctx_attempt_id ctx = ctx_authoritative_attempt_id ctx)) as [Ha|Ha].
  2: { rewrite remote_event_stale by done. by apply stale_call_ok. }
  pose proof (remote_event_open ctx ty payload cands s Hi Hc Ha) as Hs. fold eid in Hs.
  destruct (complete_from_remote_event ctx ty payload cands s) as [[o|ex] s']; simpl.
  - destruct Hs as [Hs|[Hs _]]; [by eapply call_ok_completes|].
    eapply call_ok_rec; [done|exact Hs|apply opened_inv].
  - destruct Hs as [Hs|Hs]; [by eapply call_ok_open|by apply call_ok_same].
Qed.

(** *** Answers

    An answer in state [COMPLETED] is about a record that is completed. *)
Definition completed s eid : Prop :=
  ∃ r, store_get eid (store s) = Some r ∧ rec_state r = COMPLETED.

Lemma call_keeps_completed eid s s' e :
  store_inv s → call_ok eid s s' → completed s e → completed s' e.
Proof.
  intros Hi (Hf & _ & Hk) (r & Hr & Hst). destruct (decide (e = eid)) as [->|Hne].
  - destruct (Hi _ _ Hr) as (_ & _ & Hc). destruct (Hk r Hr) as (r' & Hr' & Hsame & _);
      [by apply Hc|]. exists r'. by rewrite Hsame.
  - exists r. by rewrite Hf.
Qed.

Lemma stale_answer ctx reason detail s o s' :
  store_inv s → _reject_stale ctx reason detail s = (Ok o, s') → out_state o = COMPLETED →
  completed s' (ctx_execution_id ctx).
Proof.
  intros Hi E Hst. destruct (reject_stale_spec ctx reason detail s) as (o' & s1 & E' & Hs & Ho);
    [by intros r; apply Hi|]. rewrite E in E'. injection E' as <- <-.
  assert (∃ r, store_get (ctx_execution_id ctx) (store s') = Some r) as [r Hr].
  { destruct (store_get (ctx_execution_id ctx) (store s)); destruct Hs as [(r & ? & _) _]; eauto. }
  exists r. destruct (Ho r Hr) as [Heq _]. by rewrite <-Heq.
Qed.

Lemma completes_answer eid s0 G o s :
  completes eid s0 G o s → out_state o = COMPLETED → completed s eid.
Proof. intros [(r & Hr & _ & -> & _) _] Hst. by exists r. Qed.

Lemma complete_answer result ctx decision cands s o s' :
  store_inv s → complete_from_backend result ctx decision cands s = (Ok o, s') →
  out_state o = COMPLETED → completed s' (ctx_execution_id ctx).
Proof.
  intros Hi E Hst. destruct (closed_dec (ctx_execution_id ctx) s) as [(r & Hr & Hem)|Hc].
  { rewrite (complete_closed _ _ _ _ _ r) in E by done. injection E as <- <-. by exists r. }
  destruct (decide (ctx_attempt_id ctx = ctx_authoritative_attempt_id ctx)) as [Ha|Ha].
  2: { rewrite complete_stale in E by done. by eapply stale_answer. }
  pose proof (hoare_complete_open result ctx decision cands s Ha s) as Hrun. rewrite E in Hrun.
  eapply completes_answer; [|exact Hst]. apply Hrun. split; [done|]. by apply not_closed_open.
Qed.

Lemma remote_answer ctx ty payload cands s o s' :
  store_inv s → complete_from_remote_event ctx ty payload cands s = (Ok o, s') →
  out_state o = COMPLETED → completed s' (ctx_execution_id ctx).
Proof.
  intros Hi E Hst. destruct (closed_dec (ctx_execution_id ctx) s) as [(r & Hr & Hem)|Hc].
  { destruct (remote_event_closed ctx ty payload cands s r) as (o' & s1 & E' & Hs & Ho);
      try done. rewrite E in E'. injection E' as <- <-.
    destruct Hs as [(r' & Hr' & _ & Hsame & _) _]. exists r'. by rewrite Hsame, <-Ho. }
  destruct (decide (ctx_attempt_id ctx = ctx_authoritative_attempt_id ctx)) as [Ha|Ha].
  2: { rewrite remote_event_stale in E by done. by eapply stale_answer. }
  pose proof (remote_event_open ctx ty payload cands s Hi Hc Ha) as Hs. rewrite E in Hs.
  destruct Hs as [Hs|(_ & _ & ?)]; [by eapply completes_answer|done].
Qed.

(** *** Resumption *)

Lemma resume_call_ok eid s : store_inv s → call_ok eid s (resume eid s).2.
Proof.
  intros Hi. unfold resume, mbind, M_bind, get_state.
  destruct (store_get eid (store s)) as [r|] eqn:Hr; [|by apply call_ok_same].
  destruct (is_terminal_state (rec_state r)) eqn:Ht; [by apply call_ok_same|].
  assert (opened eid r) as Hop.
  { destruct (Hi _ _ Hr) as (Hb & Ht' & Hc). apply bool_decide_eq_false_1 in Ht.
    split_and!; [done| |].
    - apply not_true_is_false. intros Hem. by apply Ht, Ht'.
    - intros Hst. apply Ht. rewrite Hst. unfold TERMINAL_COMPLETION_STATES. set_solver. }
  assert (¬ is_closed eid s) as Hnc.
  { intros (r' & Hr' & Hem). rewrite Hr in Hr'. injection Hr' as <-.
    destruct Hop as (_ & ? & _). congruence. }
  assert (at_rec eid s (opened eid) s) as Hs by (split; [by exists r|done]).
  pose proof Hop as ((He & _) & _).
  destruct (rec_state r in? _).
  - set (res := synthetic_result _ _ _ _ _ _).
    pose proof (hoare_run_verification (resume_context r) res s (evidence s) s) as Hrun.
    change (ctx_execution_id (resume_context r)) with (rec_execution_id r) in Hrun.
    rewrite He in Hrun. specialize (Hrun (conj Hs eq_refl)).
    destruct (_run_verification (resume_context r) res s) as [[o|ex] s'].
    + destruct Hrun as [Hrun _]. eapply call_ok_rec; [done|exact Hrun|].
      by intros r' ([? ?] & _).
    + destruct Hrun as [Hrun _]. by eapply call_ok_open.
  - destruct (rec_state r == FINALISING); [|by apply call_ok_same].
    rewrite He.
    pose proof (hoare_finalise_refused eid s [] (λ _ _, False) s Hs) as Hrun.
    destruct (_finalise_terminal eid false [] s) as [[o|ex] s']; [|done].
    eapply call_ok_rec; [done|exact Hrun|]. by intros r' ([? ?] & _).
Qed.

(** ** Executions *)

(** One public call, with any arguments. *)
Inductive call s : Orchestrator → Prop :=
| call_complete result ctx decision cands :
    call s (complete_from_backend result ctx decision cands s).2
| call_remote ctx ty payload cands :
    call s (complete_from_remote_event ctx ty payload cands s).2
| call_cancel ctx cleanup : call s (finalise_cancelled ctx cleanup s).2
| call_resume eid : call s (resume eid s).2.

Lemma call_effect s s' : store_inv s → call s s' → ∃ eid, call_ok eid s s'.
Proof.
  intros Hi []; eexists;
    [by apply complete_call_ok|by apply remote_call_ok|by apply cancel_call_ok
    |by apply resume_call_ok].
Qed.

Lemma call_inv s s' : store_inv s → call s s' → store_inv s'.
Proof.
  intros Hi (eid & Hf & Hinv & _)%call_effect; [|done]. intros e r.
  destruct (decide (e = eid)) as [->|Hne]; [apply Hinv|]. rewrite Hf by done. apply Hi.
Qed.

Lemma store_inv_init : store_inv Orchestrator_init.
Proof. by intros e r. Qed.

Lemma calls_inv s s' : store_inv s → rtc call s s' → store_inv s'.
Proof. intros Hi. induction 1; eauto using call_inv. Qed.

Lemma reachable_inv s : rtc call Orchestrator_init s → store_inv s.
Proof. apply calls_inv, store_inv_init. Qed.

Lemma call_keeps_closed s s' eid r :
  store_inv s → call s s' → store_get eid (store s) = Some r →
  rec_terminal_emitted r = true →
  ∃ r', store_get eid (store s') = Some r' ∧ same_core r r'.
Proof.
  intros Hi (eid' & Hf & _ & Hk)%call_effect Hr Hem; [|done].
  destruct (decide (eid = eid')) as [->|Hne]; [by apply Hk|].
  exists r. rewrite Hf by done. split; [done|apply same_core_refl].
Qed.

(** ** What a stale attempt leaves alone *)

(** [r'] is [r] in every field but the counter of its events, the time of its last change, and
    its log, to which events of type [ty] alone were added. *)
Definition logged (ty : string) r r' : Prop :=
  ∃ now seq evs, r' = set_updated_at now (set_events (rec_events r ++ evs) (set_sequence seq r)) ∧
    Forall (λ e, dget "event_type" e = PStr ty) evs.

Lemma logged_refl ty r : logged ty r r.
Proof.
  exists (rec_updated_at r), (rec_sequence r), []. rewrite app_nil_r. split; [by destruct r|done].
Qed.

Definition logged_at ty eid r s : Prop :=
  ∃ r', store_get eid (store s) = Some r' ∧ logged ty r r'.

Lemma keeps_assign_logged ty eid r f :
  (∀ r', logged ty r r' → logged ty r (f r')) → keeps (logged_at ty eid r) (assign eid f).
Proof.
  intros Hf. apply keeps_modify. intros s (r' & Hr' & Hl). unfold logged_at. rewrite Hr'.
  exists (f r'). split; [|by apply Hf]. unfold store_get. simpl. by rewrite dict_get_set_eq.
Qed.
Lemma keeps_record_logged ty eid r e : keeps (logged_at ty eid r) (the_record e).
Proof.
  intros s Hs. unfold the_record, mbind, M_bind, get_state.
  by destruct (store_get e (store s)).
Qed.

Lemma keeps_emit_logged ty eid r d force :
  keeps (logged_at ty eid r) (_emit eid ty d force).
Proof.
  unfold _emit. apply keeps_bind.
  { apply keeps_assign_logged. intros r' (now & seq & evs & -> & He). by eexists now, _, evs. }
  intros _. apply keeps_bind; [by intros s Hs|intros t].
  apply keeps_bind; [apply keeps_record_logged|intros r0].
  destruct (negb force && _); [apply keeps_ret|].
  apply keeps_bind.
  - apply keeps_assign_logged. intros r' (now & seq & evs & -> & He).
    eexists now, seq, (evs ++ [_]). split; [simpl; by rewrite app_assoc|].
    apply Forall_app. by split; [|constructor].
  - intros _. apply keeps_assign_logged. intros r' (now & seq & evs & -> & He).
    by eexists _, seq, evs.
Qed.

(** The attempt is not the record's: its header stays. *)
Lemma keeps_ensure_logged ty ctx bo ro r :
  keeps (logged_at ty (ctx_execution_id ctx) r) (_ensure_record ctx bo ro false).
Proof.
  intros s Hs. unfold _ensure_record, mbind at 1, M_bind at 1, take_ticks, mbind at 1, M_bind at 1.
  simpl. destruct Hs as (r' & Hr' & Hl). unfold mbind at 1, M_bind at 1, get_state. simpl.
  rewrite Hr'. apply (keeps_assign_logged ty _ r); [|by exists r'].
  intros r2 (now & seq & evs & -> & He). by eexists _, seq, evs.
Qed.

Lemma keeps_stale_logged ctx reason detail r :
  keeps (logged_at "execution.stale_attempt_rejected" (ctx_execution_id ctx) r)
    (_reject_stale ctx reason detail).
Proof.
  unfold _reject_stale. apply keeps_bind; [apply keeps_ensure_logged|intros _].
  apply keeps_bind; [apply keeps_emit_logged|intros _].
  apply keeps_bind; [apply keeps_record_logged|intros r0].
  destruct (is_terminal_state (rec_state r0)); apply keeps_ret.
Qed.

Definition same_parts (x : EvidenceBoundary * UsageFinaliser * MissionGraphProjector) s :
    Prop := (evidence s, usage s, graph s) = x.

Lemma keeps_assign_parts x eid f : keeps (same_parts x) (assign eid f).
Proof. apply keeps_modify. intros s Hs. by destruct (store_get eid (store s)). Qed.
Lemma keeps_record_parts x eid : keeps (same_parts x) (the_record eid).
Proof.
  intros s Hs. unfold the_record, mbind, M_bind, get_state.
  by destruct (store_get eid (store s)).
Qed.

Lemma keeps_emit_parts x eid ty d force : keeps (same_parts x) (_emit eid ty d force).
Proof.
  unfold _emit. apply keeps_bind; [apply keeps_assign_parts|intros _].
  apply keeps_bind; [by intros s Hs|intros t].
  apply keeps_bind; [apply keeps_record_parts|intros r].
  destruct (negb force && _); [apply keeps_ret|].
  apply keeps_bind; [apply keeps_assign_parts|intros _; apply keeps_assign_parts].
Qed.

Lemma keeps_ensure_parts x ctx bo ro ua :
  keeps (same_parts x) (_ensure_record ctx bo ro ua).
Proof.
  unfold _ensure_record. apply keeps_bind; [by intros s Hs|intros t].
  apply keeps_bind; [apply keeps_get|intros s1].
  destruct (store_get _ (store s1)); [|by apply keeps_modify].
  apply keeps_bind; [|intros _; apply keeps_assign_parts].
  destruct ua; [|apply keeps_ret].
  repeat (apply keeps_bind; [apply keeps_assign_parts|intros _]). apply keeps_assign_parts.
Qed.

Lemma keeps_stale_parts x ctx reason detail :
  keeps (same_parts x) (_reject_stale ctx reason detail).
Proof.
  unfold _reject_stale. apply keeps_bind; [apply keeps_ensure_parts|intros _].
  apply keeps_bind; [apply keeps_emit_parts|intros _].
  apply keeps_bind; [apply keeps_record_parts|intros r].
  destruct (is_terminal_state (rec_state r)); apply keeps_ret.
Qed.
End orchestrator_lemmas.

(** ** Properties *)

Section orchestrator_theorems.
Context `{PyLib}.

(** C1: Completion only by verification: after any calls of the orchestrator on any
    inputs (backend results, remote events, cancellations, resumptions, stale attempts,
    exceptions included), a record in state [COMPLETED] has emitted its terminal event,
    has its usage finalised, and holds a verification whose outcome is [verified]. *)
Theorem completed_only_verified s eid r :
  rtc call Orchestrator_init s → store_get eid (store s) = Some r →
  rec_state r = COMPLETED →
  rec_terminal_emitted r = true ∧ rec_usage_finalised r = true ∧
  is_verified (rec_verification r).
Proof. intros Hs Hr Hst. by destruct (reachable_inv s Hs eid r Hr) as (_ & _ & ?); auto. Qed.

(** C7: A closed record is final: whatever calls follow, for this or other executions,
    by current or stale attempts, its state, verification, evidence, usage, graph
    nodes, failure class and detail stay as they are. *)
Theorem closed_record_is_final s s' eid r :
  rtc call Orchestrator_init s → rtc call s s' →
  store_get eid (store s) = Some r → rec_terminal_emitted r = true →
  ∃ r', store_get eid (store s') = Some r' ∧ same_core r r'.
Proof.
  intros Hs%reachable_inv Hr. revert r. induction Hr as [s|s s1 s2 Hc _ IH]; intros r Hr Hem.
  { exists r. split; [done|apply same_core_refl]. }
  destruct (call_keeps_closed _ _ _ _ Hs Hc Hr Hem) as (r1 & Hr1 & Hk1).
  destruct (IH (call_inv _ _ Hs Hc) r1 Hr1) as (r2 & Hr2 & Hk2).
  { destruct Hk1 as (?&?&?&?&?&?&?&?&->). done. }
  exists r2. split; [done|]. by eapply same_core_trans.
Qed.

(** C8: A call that returns for the authoritative attempt of a backend run has decided
    it: the record is closed in a terminal state and the answer is the record's. *)
Theorem backend_run_decides s s' result ctx decision cands o :
  rtc call Orchestrator_init s →
  ctx_attempt_id ctx = ctx_authoritative_attempt_id ctx →
  complete_from_backend result ctx decision cands s = (Ok o, s') →
  ∃ r, store_get (ctx_execution_id ctx) (store s') = Some r ∧
    rec_terminal_emitted r = true ∧ rec_state r ∈ TERMINAL_COMPLETION_STATES ∧
    o = _outcome_from_record r.
Proof.
  intros Hi%reachable_inv Ha E.
  destruct (closed_dec (ctx_execution_id ctx) s) as [(r & Hr & Hem)|Hc].
  - rewrite (complete_closed _ _ _ _ _ r) in E by done. injection E as <- <-.
    exists r. destruct (Hi _ _ Hr) as (_ & Ht & _). by split_and!; auto.
  - pose proof (hoare_complete_open result ctx decision cands s Ha s) as Hrun.
    rewrite E in Hrun. destruct Hrun as [(r & Hr & [Hcl ?] & Ho & _) _].
    { split; [done|]. by apply not_closed_open. }
    exists r. destruct Hcl as (_ & Ht & _). by split_and!; auto.
Qed.

(** C5: An [ok] answer to a backend result of an undecided execution means: the backend
    succeeded, its route is restored, the run is not cancelled, required evidence was
    accepted, and the strategy of the context verified the accepted evidence of the
    boundary. *)
Theorem ok_answer_has_grounds s s' result ctx decision cands o :
  rtc call Orchestrator_init s → ¬ is_closed (ctx_execution_id ctx) s →
  ctx_attempt_id ctx = ctx_authoritative_attempt_id ctx →
  complete_from_backend result ctx decision cands s = (Ok o, s') →
  out_ok o = true → grounds ctx result s'.
Proof.
  intros Hi%reachable_inv Hc Ha E Hok.
  pose proof (hoare_complete_open result ctx decision cands s Ha s) as Hrun.
  rewrite E in Hrun. destruct Hrun as [(r & _ & _ & -> & Hg) _].
  { split; [done|]. by apply not_closed_open. }
  by apply Hg, (bool_decide_eq_true_1 _ Hok).
Qed.

(** C6: A remote node cannot declare an execution complete: an [ok] answer to a remote event
    of an undecided execution rests on the grounds of a backend result (accepted evidence,
    no cancellation, and a verification by the strategy of the context over the accepted
    evidence). When the event is a verification or carries one, the context is the caller's
    in every field but three: evidence is required, the strategy is that of the remote
    verifier, the types are the caller's or [remote_verification]. When it carries none, the
    caller's own context counts if it requires evidence or names the remote verifier, and
    otherwise again the context that asks for [remote_verification]. *)
Theorem remote_ok_has_grounds s s' ctx ty payload cands o :
  rtc call Orchestrator_init s → ¬ is_closed (ctx_execution_id ctx) s →
  ctx_attempt_id ctx = ctx_authoritative_attempt_id ctx →
  complete_from_remote_event ctx ty payload cands s = (Ok o, s') →
  out_ok o = true → remote_grounds ctx ty payload s'.
Proof.
  intros Hi%reachable_inv Hc Ha E Hok.
  pose proof (remote_event_open ctx ty payload cands s Hi Hc Ha) as Hrun.
  rewrite E in Hrun. destruct Hrun as [[(r & _ & _ & -> & Hg) _]|(_ & ? & _)]; [|congruence].
  by apply Hg, (bool_decide_eq_true_1 _ Hok).
Qed.

(** C9: A result of an attempt that is not the authoritative one is harmless: the boundary, the
    usage and the graph stay, and every existing record, of its execution and of others, is
    the same in every field (state, attempt, backend and restore flags, evidence,
    verification, usage, verdict) but for the time of the last change, the counter of events
    and the events that report the rejected attempt. *)
Theorem stale_attempt_is_harmless s result ctx decision cands eid r :
  rtc call Orchestrator_init s →
  ctx_attempt_id ctx ≠ ctx_authoritative_attempt_id ctx →
  store_get eid (store s) = Some r →
  ∃ o s' r', complete_from_backend result ctx decision cands s = (Ok o, s') ∧
    evidence s' = evidence s ∧ usage s' = usage s ∧ graph s' = graph s ∧
    store_get eid (store s') = Some r' ∧ logged "execution.stale_attempt_rejected" r r'.
Proof.
  intros Hi%reachable_inv Ha Hr.
  destruct (closed_dec (ctx_execution_id ctx) s) as [(r0 & Hr0 & Hem)|Hc].
  { rewrite (complete_closed _ _ _ _ _ r0) by done. eexists _, s, r.
    split_and!; try done. apply logged_refl. }
  rewrite complete_stale by done.
  pose proof (keeps_stale_parts (evidence s, usage s, graph s) ctx FC_STALE_ATTEMPT
    "stale attempt cannot finalise" s eq_refl) as Hp.
  pose proof (keeps_stale_logged ctx FC_STALE_ATTEMPT "stale attempt cannot finalise" r s) as Hl.
  destruct (reject_stale_spec ctx FC_STALE_ATTEMPT "stale attempt cannot finalise" s)
    as (o & s' & E & Hs & _); [by intros r1; apply Hi|]. rewrite E in Hp, Hl |- *.
  injection Hp as Hp1 Hp2 Hp3.
  assert (logged_at "execution.stale_attempt_rejected" eid r s') as (r' & Hr' & Hk).
  { destruct (decide (eid = ctx_execution_id ctx)) as [->|Hne].
    - apply Hl. exists r. split; [done|apply logged_refl].
    - assert (store_get eid (store s') = store_get eid (store s)) as Hf.
      { destruct (store_get (ctx_execution_id ctx) (store s)); by apply Hs. }
      exists r. rewrite Hf. split; [done|apply logged_refl]. }
  exists o, s', r'. by split_and!.
Qed.

(** In every reachable state the events of a record are numbered strictly upwards,
    with no number above the record's counter, and the record names its execution. *)
Theorem event_log_is_numbered s eid r :
  rtc call Orchestrator_init s → store_get eid (store s) = Some r →
  rec_execution_id r = eid ∧ numbered (rec_events r) (rec_sequence r).
Proof. intros Hs Hr. by destruct (reachable_inv s Hs eid r Hr) as ([? ?] & _). Qed.
End orchestrator_theorems.

(** ** Witnesses

    A backend result with the evidence its context asks for, completed; then a late
    remote failure, and a stale attempt of the same execution. *)

#[local] Existing Instance counting_lib.

Definition sample_result : ExecutionResult :=
  {| xr_ok := true; xr_execution_id := "exec"; xr_backend_id := "local";
     xr_harness_id := "harness"; xr_message := "done"; xr_output := [];
     xr_failure_class := None; xr_usage := [("input_tokens", PInt 5)];
     xr_evidence_refs := []; xr_candidate_verification := []; xr_restore_status := None;
     xr_verification := [] |}.

Definition sample_run : M Orchestrator CompletionOutcome :=
  complete_from_backend sample_result sample_context None [RawCandidate sample_candidate].
Definition sample_end : Orchestrator := (sample_run Orchestrator_init).2.

(** The context of an attempt that was superseded. *)
Definition stale_context : CompletionContext :=
  {| ctx_organisation_id := Some "org"; ctx_project_id := Some "proj";
     ctx_mission_id := "mission"; ctx_execution_id := "exec"; ctx_attempt_id := "a0";
     ctx_authoritative_attempt_id := "a1"; ctx_backend_id := "local";
     ctx_harness_id := Some "harness"; ctx_correlation_id := None; ctx_user_id := None;
     ctx_cancelled := false; ctx_require_evidence := true;
     ctx_verification_strategy := "always_pass"; ctx_required_evidence_types := [];
     ctx_max_evidence_bytes := 100; ctx_metadata := [] |}.

Lemma sample_reached : rtc call Orchestrator_init sample_end.
Proof. apply rtc_once. exact (call_complete _ _ _ _ _). Qed.

Lemma completed_only_verified_witness :
  ∃ r, store_get "exec" (store sample_end) = Some r ∧ rec_state r = COMPLETED ∧
    is_verified (rec_verification r).
Proof.
  eexists. split; [vm_compute; reflexivity|]. split; [reflexivity|].
  eapply (completed_only_verified sample_end "exec");
    [exact sample_reached|vm_compute; reflexivity|reflexivity].
Defined.

Lemma closed_record_is_final_witness :
  ∃ r r', store_get "exec" (store sample_end) = Some r ∧
    store_get "exec" (store
      (complete_from_remote_event sample_context "task.failed" [] [] sample_end).2) = Some r' ∧
    same_core r r'.
Proof.
  eexists.
  edestruct (closed_record_is_final sample_end
    (complete_from_remote_event sample_context "task.failed" [] [] sample_end).2 "exec")
    as (r' & Hr' & Hk).
  - exact sample_reached.
  - apply rtc_once. exact (call_remote _ _ _ _ _).
  - vm_compute; reflexivity.
  - reflexivity.
  - exists r'. split; [vm_compute; reflexivity|]. split; [exact Hr'|exact Hk].
Defined.

Lemma backend_run_decides_witness :
  ∃ o r, (sample_run Orchestrator_init).1 = Ok o ∧
    store_get "exec" (store sample_end) = Some r ∧ rec_terminal_emitted r = true ∧
    o = _outcome_from_record r.
Proof.
  eexists. edestruct (backend_run_decides Orchestrator_init sample_end sample_result
    sample_context None [RawCandidate sample_candidate]) as (r & Hr & Hem & _ & Ho).
  - apply rtc_refl.
  - reflexivity.
  - unfold sample_end. apply surjective_pairing_Ok. vm_compute; reflexivity.
  - exists r. split; [vm_compute; reflexivity|]. split; [exact Hr|]. split; [exact Hem|exact Ho].
Defined.

Lemma ok_answer_has_grounds_witness : grounds sample_context sample_result sample_end.
Proof.
  eapply (ok_answer_has_grounds Orchestrator_init sample_end sample_result sample_context
    None [RawCandidate sample_candidate]).
  - apply rtc_refl.
  - by intros (r & ? & _).
  - reflexivity.
  - unfold sample_end. apply surjective_pairing_Ok. vm_compute; reflexivity.
  - reflexivity.
Defined.

(** A remote event that carries a verification verdict. *)
Definition remote_payload : dict :=
  [("verification", PDict [("outcome", PStr "verified")]); ("sequence", PInt 1)].
Definition remote_ctx : CompletionContext :=
  {| ctx_organisation_id := Some "org"; ctx_project_id := Some "proj";
     ctx_mission_id := "mission"; ctx_execution_id := "exec"; ctx_attempt_id := "a1";
     ctx_authoritative_attempt_id := "a1"; ctx_backend_id := "remote";
     ctx_harness_id := None; ctx_correlation_id := None; ctx_user_id := None;
     ctx_cancelled := false; ctx_require_evidence := false;
     ctx_verification_strategy := "always_pass"; ctx_required_evidence_types := [];
     ctx_max_evidence_bytes := 1000; ctx_metadata := [] |}.
Definition remote_end_state : Orchestrator :=
  (complete_from_remote_event remote_ctx "task.succeeded" remote_payload []
     Orchestrator_init).2.

Lemma remote_ok_has_grounds_witness :
  remote_grounds remote_ctx "task.succeeded" remote_payload remote_end_state.
Proof.
  eapply (remote_ok_has_grounds Orchestrator_init remote_end_state remote_ctx "task.succeeded"
    remote_payload []).
  - apply rtc_refl.
  - by intros (r & ? & _).
  - reflexivity.
  - unfold remote_end_state. apply surjective_pairing_Ok. vm_compute; reflexivity.
  - reflexivity.
Defined.

(** An intake that raises leaves its record open, at [EVIDENCE_PENDING]. *)
Definition broken_candidate : raw_candidate :=
  RawMapping [("evidence_type", PStr "test_report"); ("sequence", PStr "first")].

Definition interrupted : Orchestrator :=
  (complete_from_backend sample_result sample_context None [broken_candidate]
     Orchestrator_init).2.

Lemma stale_attempt_is_harmless_witness :
  ∃ o s' r r', complete_from_backend sample_result stale_context None [] interrupted = (Ok o, s') ∧
    store_get "exec" (store interrupted) = Some r ∧ store_get "exec" (store s') = Some r' ∧
    rec_state r = EVIDENCE_PENDING ∧ logged "execution.stale_attempt_rejected" r r' ∧ usage s' = usage interrupted.
Proof.
  edestruct (stale_attempt_is_harmless interrupted sample_result stale_context None [] "exec")
    as (o & s' & r' & E & _ & Hu & _ & Hr' & Hk).
  - apply rtc_once. exact (call_complete _ _ _ _ _).
  - discriminate.
  - vm_compute; reflexivity.
  - exists o, s'. eexists. exists r'. split; [exact E|]. split; [vm_compute; reflexivity|].
    split; [exact Hr'|]. split; [vm_compute; reflexivity|]. split; [exact Hk|exact Hu].
Defined.

Lemma event_log_is_numbered_witness :
  ∃ r, store_get "exec" (store sample_end) = Some r ∧
    (length (rec_events r) =? 0)%nat = false ∧ numbered (rec_events r) (rec_sequence r).
Proof.
  eexists. split; [vm_compute; reflexivity|]. split; [reflexivity|].
  eapply (event_log_is_numbered sample_end "exec");
    [exact sample_reached|vm_compute; reflexivity].
Defined.

(** ** Resumption forgets the strategy

    An intake that raises leaves the record at [EVIDENCE_PENDING]; [resume] then verifies
    with the default strategy and no required type, and the execution completes although
    its context requires evidence and none was ever accepted. *)
Example resume_completes_without_evidence :
  list_accepted (evidence (resume "exec" interrupted).2) "exec" = [] ∧
  match (resume "exec" interrupted).1 with
  | Ok (Some o) => out_ok o = true
  | _ => False
  end.
Proof. split; vm_compute; reflexivity. Qed.
