(* ===== verification/RouteLeases.v ===== *)
(** * Provider-route mutation leases

    [runtime_v1/provider_routes/lease_store.py]: at most one execution at a time may
    change the route of a manager and connector. The store has a memory form, modelled
    outright, and a database form, over a table interface ([RowTable]) that states what
    the database promises: the primary key and the two unique constraints the row class
    declares. A call of the database form is a session: a read that ends in a plan ([Plan],
    a function [.._read] for each method), and the commit of that plan, which finds the table
    as it then is. [session] puts the two together; [db_step] is the relation of many
    sessions side by side, whose reads and commits interleave freely. Clock readings and fresh identifiers are arguments; a duration is the
    [timedelta] of [ttl_seconds] in microseconds. *)

From S2P Require Import Prelude.

(** ** Data *)

(* @src runtime_v1/provider_routes/lease_store.py:52-67 ProviderRouteLease *)
Record ProviderRouteLease := {
  rl_id : string;
  rl_manager : string;
  rl_connector : string;
  rl_owner : string;
  rl_token : string;
  rl_status : string;
  rl_original : dict;
  rl_provider : option string;
  rl_model : option string;
  rl_acquired : Z;
  rl_expires : Z;
  rl_heartbeat : Z;
  rl_recovery : option string;
  rl_details : dict
}.

(* @src runtime_v1/provider_routes/lease_store.py:69-85 ProviderRouteLease.as_dict *)
Definition ProviderRouteLease_as_dict `{PyLib} (l : ProviderRouteLease) : dict :=
  [("lease_id", PStr (rl_id l)); ("manager_id", PStr (rl_manager l));
   ("connector_id", PStr (rl_connector l)); ("owner_execution_id", PStr (rl_owner l));
   ("lease_token", PStr (rl_token l)); ("status", PStr (rl_status l));
   ("original_state", PDict (rl_original l)); ("target_provider_id", ostr (rl_provider l));
   ("target_model_id", ostr (rl_model l)); ("acquired_at", PStr (isoformat (rl_acquired l)));
   ("expires_at", PStr (isoformat (rl_expires l)));
   ("heartbeat_at", PStr (isoformat (rl_heartbeat l)));
   ("recovery_status", ostr (rl_recovery l)); ("details", PDict (rl_details l))].

(* @src runtime_v1/provider_routes/lease_store.py:88-92 ProviderRouteLeaseError *)
Definition ProviderRouteLeaseError (reason_code message : string) : exn :=
  Exn "ProviderRouteLeaseError" reason_code message.

Definition lease_key (l : ProviderRouteLease) : string * string := (rl_manager l, rl_connector l).

(** The copies the handlers build: a status, an expiry, a heartbeat, a recovery status
    and details of their own, the rest of [l]. *)
Definition relet (status : string) (expires heartbeat : Z) (recovery : option string)
    (details : dict) (l : ProviderRouteLease) : ProviderRouteLease :=
  {| rl_id := rl_id l; rl_manager := rl_manager l; rl_connector := rl_connector l;
     rl_owner := rl_owner l; rl_token := rl_token l; rl_status := status;
     rl_original := rl_original l; rl_provider := rl_provider l; rl_model := rl_model l;
     rl_acquired := rl_acquired l; rl_expires := expires; rl_heartbeat := heartbeat;
     rl_recovery := recovery; rl_details := details |}.

Definition is_active (l : ProviderRouteLease) : bool := rl_status l == "active".
(** [status in {"active", "recovering"}]. *)
Definition is_held (l : ProviderRouteLease) : bool := rl_status l in? ["active"; "recovering"].

(** The lease [try_acquire] asks for. *)
(* @src runtime_v1/provider_routes/lease_store.py:113-143 ProviderRouteLeaseStore.try_acquire *)
Definition new_lease (now ttl : Z) (lease_id token : string)
    (manager_id connector_id owner_execution_id : string) (original_state : dict)
    (target_provider_id target_model_id : option string) (details : option dict) :
    ProviderRouteLease :=
  {| rl_id := lease_id; rl_manager := manager_id; rl_connector := connector_id;
     rl_owner := owner_execution_id; rl_token := token; rl_status := "active";
     rl_original := original_state; rl_provider := target_provider_id;
     rl_model := target_model_id; rl_acquired := now; rl_expires := (now + ttl)%Z;
     rl_heartbeat := now; rl_recovery := None; rl_details := default [] details |}.

(** The statuses that end a recovery. *)
(* @src runtime_v1/provider_routes/lease_store.py:252-255 ProviderRouteLeaseStore.mark_recovery *)
Definition clears_active (recovery_status : string) : bool :=
  startswith "restored" recovery_status ||
  (recovery_status in? ["recovery_failed"; "expired_no_restore"]).

(** [existing_owner not in {None, recovery_owner_id}]; a value that cannot be hashed
    raises. *)
Definition claimed_by_other (existing : pyval) (recovery_owner_id : string) : res bool :=
  if hashable existing
  then Ok (negb (py_eqb existing PNone || py_eqb existing (PStr recovery_owner_id)))
  else Raise (TypeError "unhashable type").

(* @src runtime_v1/provider_routes/lease_store.py:657-669 sanitise_route_state *)
Definition sanitise_route_state (snapshot : dict) : dict :=
  omap (λ k, (λ v, (k, v)) <$> dict_get k snapshot)
    ["connector_id"; "provider_id"; "enabled"; "model_id"; "configuration_status";
     "available"; "authenticated"].

(** ** The store in memory *)

(* @src runtime_v1/provider_routes/lease_store.py:95-103 ProviderRouteLeaseStore.__init__ *)
Record MemoryStore := {
  memory : list (string * ProviderRouteLease);
  memory_by_key : gmap (string * string) string
}.

Definition MemoryStore_init : MemoryStore := {| memory := []; memory_by_key := ∅ |}.

Definition put_lease (l : ProviderRouteLease) (s : MemoryStore) : MemoryStore :=
  {| memory := dict_set (rl_id l) l (memory s); memory_by_key := memory_by_key s |}.
Definition mark_key (k : string * string) (id : string) (s : MemoryStore) : MemoryStore :=
  {| memory := memory s; memory_by_key := <[k := id]> (memory_by_key s) |}.
Definition pop_key (k : string * string) (s : MemoryStore) : MemoryStore :=
  {| memory := memory s; memory_by_key := delete k (memory_by_key s) |}.

(** The lock of [_gate] makes the body one step. *)
(* @src runtime_v1/provider_routes/lease_store.py:387-398 ProviderRouteLeaseStore._memory_acquire *)
Definition _memory_acquire (lease : ProviderRouteLease) :
    M MemoryStore (option ProviderRouteLease) :=
  let key := lease_key lease in
  s ← get_state;
  let held := match memory_by_key s !! key with
              | Some id => (id != "") && match dict_get id (memory s) with
                                         | Some e => is_held e
                                         | None => false
                                         end
              | None => false
              end in
  if held then mret None
  else
    modify_state (put_lease lease);;
    modify_state (mark_key key (rl_id lease));;
    mret (Some lease).

(* @src runtime_v1/provider_routes/lease_store.py:400-434 ProviderRouteLeaseStore._memory_renew *)
Definition _memory_renew (now : Z) (lease_id lease_token owner_execution_id : string)
    (ttl : Z) : M MemoryStore ProviderRouteLease :=
  s ← get_state;
  match dict_get lease_id (memory s) with
  | None => raise (ProviderRouteLeaseError "lease_not_found" "lease not found")
  | Some l =>
      if (rl_token l != lease_token) || (rl_owner l != owner_execution_id) then
        raise (ProviderRouteLeaseError "stale_lease_token" "lease token or owner mismatch")
      else if negb (is_active l) then
        raise (ProviderRouteLeaseError "lease_not_active" ("lease status is " +:+ rl_status l))
      else if (rl_expires l <=? now)%Z then
        raise (ProviderRouteLeaseError "lease_expired" "lease expired")
      else
        let updated := relet (rl_status l) (now + ttl) now (rl_recovery l) (rl_details l) l in
        modify_state (put_lease updated);;
        mret updated
  end.

(* @src runtime_v1/provider_routes/lease_store.py:436-467 ProviderRouteLeaseStore._memory_release *)
Definition _memory_release (now : Z) (lease_id lease_token owner_execution_id : string) :
    M MemoryStore ProviderRouteLease :=
  s ← get_state;
  match dict_get lease_id (memory s) with
  | None => raise (ProviderRouteLeaseError "lease_not_found" "lease not found")
  | Some l =>
      if (rl_token l != lease_token) || (rl_owner l != owner_execution_id) then
        raise (ProviderRouteLeaseError "stale_lease_token" "lease token or owner mismatch")
      else if negb (is_active l) then
        raise (ProviderRouteLeaseError "duplicate_release" "lease already released")
      else
        let updated := relet "released" (rl_expires l) now (rl_recovery l) (rl_details l) l in
        modify_state (put_lease updated);;
        modify_state (pop_key (lease_key l));;
        mret updated
  end.

(* @src runtime_v1/provider_routes/lease_store.py:469-505 ProviderRouteLeaseStore._memory_claim_recovery *)
Definition _memory_claim_recovery (now t2 : Z) (lease_id lease_token recovery_owner_id : string) :
    M MemoryStore ProviderRouteLease :=
  s ← get_state;
  match dict_get lease_id (memory s) with
  | None => raise (ProviderRouteLeaseError "stale_lease_token" "invalid lease token")
  | Some l =>
      if rl_token l != lease_token then
        raise (ProviderRouteLeaseError "stale_lease_token" "invalid lease token")
      else if negb (memory_by_key s !! lease_key l == Some lease_id) then
        raise (ProviderRouteLeaseError "lease_not_active" "lease is not the active marker")
      else if (now <? rl_expires l)%Z && is_active l then
        raise (ProviderRouteLeaseError "lease_not_expired" "lease has not expired")
      else
        other ← (if rl_status l == "recovering"
                 then lift_res (claimed_by_other (dget "recovery_owner_id" (rl_details l))
                                  recovery_owner_id)
                 else mret false);
        if (other : bool) then
          raise (ProviderRouteLeaseError "recovery_claimed"
                   "recovery already claimed by another owner")
        else
          let updated := relet "recovering" (rl_expires l) t2 (rl_recovery l)
            (dict_set "recovery_owner_id" (PStr recovery_owner_id) (rl_details l)) l in
          modify_state (put_lease updated);;
          mret updated
  end.

(* @src runtime_v1/provider_routes/lease_store.py:240-275 ProviderRouteLeaseStore.mark_recovery *)
Definition memory_mark_recovery (lease_id lease_token recovery_status : string)
    (details : option dict) : M MemoryStore ProviderRouteLease :=
  s ← get_state;
  match dict_get lease_id (memory s) with
  | None => raise (ProviderRouteLeaseError "stale_lease_token" "invalid lease token")
  | Some l =>
      if rl_token l != lease_token then
        raise (ProviderRouteLeaseError "stale_lease_token" "invalid lease token")
      else
        let clear := clears_active recovery_status in
        let updated := relet (if clear then "expired" else rl_status l) (rl_expires l)
          (rl_heartbeat l) (Some recovery_status)
          (dict_update (rl_details l) (default [] details)) l in
        modify_state (λ s, {| memory := dict_set lease_id updated (memory s);
                              memory_by_key := memory_by_key s |});;
        (if clear then modify_state (pop_key (lease_key l)) else mret tt);;
        mret updated
  end.

(* @src runtime_v1/provider_routes/lease_store.py:171-174 ProviderRouteLeaseStore.get *)
Definition memory_get (lease_id : string) (s : MemoryStore) : option ProviderRouteLease :=
  dict_get lease_id (memory s).

(* @src runtime_v1/provider_routes/lease_store.py:178-188 ProviderRouteLeaseStore.get_active *)
Definition memory_get_active (now : Z) (manager_id connector_id : string) (s : MemoryStore) :
    option ProviderRouteLease :=
  match memory_by_key s !! (manager_id, connector_id) with
  | None => None
  | Some id =>
      if id == "" then None
      else match dict_get id (memory s) with
           | None => None
           | Some l => if negb (is_active l) then None
                       else if (rl_expires l <=? now)%Z then None else Some l
           end
  end.

(* @src runtime_v1/provider_routes/lease_store.py:200-212 ProviderRouteLeaseStore.list_expired_active *)
Definition memory_list_expired_active (moment : Z) (s : MemoryStore) :
    list ProviderRouteLease :=
  filter (λ l, is_held l = true ∧ (rl_expires l ≤ moment)%Z ∧
               memory_by_key s !! lease_key l = Some (rl_id l)) (dict_values (memory s)).

Definition block_id (manager_id connector_id : string) : string :=
  "block:" +:+ manager_id +:+ ":" +:+ connector_id.

(** [t0 .. t3] are the four clock readings. *)
(* @src runtime_v1/provider_routes/lease_store.py:295-324 ProviderRouteLeaseStore.block_connector *)
Definition memory_block_connector `{PyLib} (t0 t1 t2 t3 : Z)
    (manager_id connector_id reason : string) (s : MemoryStore) : MemoryStore :=
  put_lease
    {| rl_id := block_id manager_id connector_id; rl_manager := manager_id;
       rl_connector := connector_id; rl_owner := "recovery"; rl_token := "block";
       rl_status := "blocked"; rl_original := []; rl_provider := None; rl_model := None;
       rl_acquired := t1; rl_expires := t2; rl_heartbeat := t3;
       rl_recovery := Some "recovery_failed";
       rl_details := [("blocked", PBool true); ("reason", PStr reason);
                      ("at", PStr (isoformat t0))] |} s.

(* @src runtime_v1/provider_routes/lease_store.py:349-354 ProviderRouteLeaseStore.is_blocked *)
Definition memory_is_blocked `{PyLib} (manager_id connector_id : string) (s : MemoryStore) :
    option string :=
  match dict_get (block_id manager_id connector_id) (memory s) with
  | Some l => if rl_status l == "blocked"
              then Some (py_str (py_or (dget "reason" (rl_details l)) (PStr "recovery_failed")))
              else None
  | None => None
  end.

(* @src runtime_v1/provider_routes/lease_store.py:371-374 ProviderRouteLeaseStore.clear_block *)
Definition memory_clear_block (manager_id connector_id : string) (s : MemoryStore) : MemoryStore :=
  {| memory := dict_del (block_id manager_id connector_id) (memory s);
     memory_by_key := memory_by_key s |}.

(** ** The store in the database *)

(* @src runtime_v1/provider_routes/lease_store.py:20-49 ProviderRouteLeaseRow *)
Record ProviderRouteLeaseRow := {
  row_id : string;
  row_manager : string;
  row_connector : string;
  row_owner : string;
  row_token : string;
  row_status : string;
  row_marker : option string;
  row_original : dict;
  row_provider : option string;
  row_model : option string;
  row_acquired : Z;
  row_expires : Z;
  row_heartbeat : Z;
  row_released : option Z;
  row_recovery : option string;
  row_details : dict
}.

Definition row_key (r : ProviderRouteLeaseRow) : string * string :=
  (row_manager r, row_connector r).

(** [uq_active_provider_route_lease]: rows that share manager, connector and a non-null
    marker are the same row; null markers never conflict. *)
Definition marker_conflict (a b : ProviderRouteLeaseRow) : Prop :=
  row_key a = row_key b ∧ row_marker a = row_marker b ∧ row_marker a ≠ None.

(** What a row may not share with another one: its identifier, its token, and the unique
    constraint on the marker. *)
Definition compatible_rows (a b : ProviderRouteLeaseRow) : Prop :=
  row_id a ≠ row_id b ∧ row_token a ≠ row_token b ∧ ¬ marker_conflict a b.

#[export] Instance compatible_rows_dec a b : Decision (compatible_rows a b).
Proof. unfold compatible_rows, marker_conflict. apply _. Defined.

(** The table as the code uses it. [insert_row] is the [commit] of an added row, [None] when it
    fails; [update_row] puts the row in the place of the one of its identifier. *)
Class RowTable := {
  table : Type;
  rows : table → list ProviderRouteLeaseRow;
  insert_row : ProviderRouteLeaseRow → table → option table;
  update_row : ProviderRouteLeaseRow → table → table
}.

(** What the database documents: the constraints of the row class hold between the rows
    of a table that was filled through it ([db_ok]), a row that respects them is inserted,
    one that does not is refused, and an update that respects them replaces the row of its
    identifier only. *)
Class RowTableLaws `{RowTable} := {
  db_ok : table → Prop;
  rows_distinct : ∀ t i j a b, db_ok t → rows t !! i = Some a → rows t !! j = Some b →
    i ≠ j → compatible_rows a b;
  insert_accepts : ∀ r t, db_ok t → Forall (compatible_rows r) (rows t) →
    ∃ t', insert_row r t = Some t' ∧ db_ok t' ∧ rows t' ≡ₚ r :: rows t;
  insert_refuses : ∀ r t, db_ok t → ¬ Forall (compatible_rows r) (rows t) →
    insert_row r t = None;
  update_replaces : ∀ r r0 t, db_ok t → r0 ∈ rows t →
    row_id r0 = row_id r → row_token r0 = row_token r →
    (row_marker r = None ∨ row_key r0 = row_key r ∧ row_marker r0 = row_marker r) →
    db_ok (update_row r t) ∧
    rows (update_row r t) ≡ₚ ((λ x, if row_id x == row_id r then r else x) <$> rows t)
}.

(* @src runtime_v1/provider_routes/lease_store.py:638-654 _row_to_lease *)
Definition _row_to_lease (r : ProviderRouteLeaseRow) : ProviderRouteLease :=
  {| rl_id := row_id r; rl_manager := row_manager r; rl_connector := row_connector r;
     rl_owner := row_owner r; rl_token := row_token r; rl_status := row_status r;
     rl_original := row_original r; rl_provider := row_provider r; rl_model := row_model r;
     rl_acquired := row_acquired r; rl_expires := row_expires r;
     rl_heartbeat := row_heartbeat r; rl_recovery := row_recovery r;
     rl_details := row_details r |}.

(** Assignments to a loaded row. *)
Definition rerow (status : string) (marker : option string) (expires heartbeat : Z)
    (released : option Z) (recovery : option string) (details : dict)
    (r : ProviderRouteLeaseRow) : ProviderRouteLeaseRow :=
  {| row_id := row_id r; row_manager := row_manager r; row_connector := row_connector r;
     row_owner := row_owner r; row_token := row_token r; row_status := status;
     row_marker := marker; row_original := row_original r; row_provider := row_provider r;
     row_model := row_model r; row_acquired := row_acquired r; row_expires := expires;
     row_heartbeat := heartbeat; row_released := released; row_recovery := recovery;
     row_details := details |}.

(** *** Sessions

    A session reads, decides, and commits what it changed; between its read and its commit
    other sessions may commit. What it commits is the row it added, or the columns of the rows
    it loaded to which it assigned another value: the other columns stay what they are by then.
    [None] when the commit fails. *)
Inductive Pending :=
| PendInsert (r : ProviderRouteLeaseRow)
| PendUpdate (l : list (ProviderRouteLeaseRow * ProviderRouteLeaseRow)).

(** What a session has decided after its read: the end without a commit, or a commit and the
    result that follows it, by whether it succeeded. *)
Inductive Plan A := Done (r : res A) | Commit (p : Pending) (k : bool → res A).
Arguments Done {A}.
Arguments Commit {A}.

Section database.
Context `{RowTable}.

(** [session.get(ProviderRouteLeaseRow, lease_id)]. *)
Definition find_row (lease_id : string) (t : table) : option ProviderRouteLeaseRow :=
  snd <$> list_find (λ r, row_id r = lease_id) (rows t).

(** The rows of a manager and connector with the active marker. *)
Definition marked (key : string * string) (t : table) : list ProviderRouteLeaseRow :=
  filter (λ r, row_key r = key ∧ row_marker r = Some "active") (rows t).

(** [scalar_one_or_none]: more than one row raises. *)
Definition one_or_none (l : list ProviderRouteLeaseRow) : res (option ProviderRouteLeaseRow) :=
  match l with
  | [] => Ok None
  | [r] => Ok (Some r)
  | _ => Raise (Exn "MultipleResultsFound" "" "")
  end.

(** A column with its loaded, its assigned and its current value. *)
Definition column {A} `{EqDecision A} (loaded assigned current : A) : A :=
  if assigned == loaded then current else assigned.
Definition write (loaded assigned current : ProviderRouteLeaseRow) : ProviderRouteLeaseRow :=
  rerow (column (row_status loaded) (row_status assigned) (row_status current))
    (column (row_marker loaded) (row_marker assigned) (row_marker current))
    (column (row_expires loaded) (row_expires assigned) (row_expires current))
    (column (row_heartbeat loaded) (row_heartbeat assigned) (row_heartbeat current))
    (column (row_released loaded) (row_released assigned) (row_released current))
    (column (row_recovery loaded) (row_recovery assigned) (row_recovery current))
    (column (row_details loaded) (row_details assigned) (row_details current)) current.

Definition write_row (t : table) (p : ProviderRouteLeaseRow * ProviderRouteLeaseRow) : table :=
  match find_row (row_id p.1) t with
  | Some current => update_row (write p.1 p.2 current) t
  | None => t
  end.
Definition commit_pending (p : Pending) (t : table) : option table :=
  match p with
  | PendInsert r => insert_row r t
  | PendUpdate l => Some (foldl write_row t l)
  end.

(** A session that nothing comes between. *)
Definition session {A} (read : table → Plan A) : M table A := λ t,
  match read t with
  | Done r => (r, t)
  | Commit p k => match commit_pending p t with
                  | Some t' => (k true, t')
                  | None => (k false, t)
                  end
  end.

(** The assignments to the loaded row are committed, the lease made of them is returned. *)
Definition assign_row (loaded assigned : ProviderRouteLeaseRow) : Plan ProviderRouteLease :=
  Commit (PendUpdate [(loaded, assigned)]) (λ _, Ok (_row_to_lease assigned)).
Definition refuse_lease {A} (code m : string) : Plan A := Done (Raise (ProviderRouteLeaseError code m)).

(* @src runtime_v1/provider_routes/lease_store.py:523-542 ProviderRouteLeaseStore._db_acquire *)
Definition row_of_lease (l : ProviderRouteLease) : ProviderRouteLeaseRow :=
  {| row_id := rl_id l; row_manager := rl_manager l; row_connector := rl_connector l;
     row_owner := rl_owner l; row_token := rl_token l; row_status := "active";
     row_marker := Some "active"; row_original := json_dict (rl_original l);
     row_provider := rl_provider l; row_model := rl_model l;
     row_acquired := rl_acquired l; row_expires := rl_expires l;
     row_heartbeat := rl_heartbeat l; row_released := None; row_recovery := None;
     row_details := json_dict (rl_details l) |}.

(* @src runtime_v1/provider_routes/lease_store.py:507-548 ProviderRouteLeaseStore._db_acquire *)
Definition acquire_read (lease : ProviderRouteLease) (t : table) :
    Plan (option ProviderRouteLease) :=
  match one_or_none (marked (lease_key lease) t) with
  | Raise e => Done (Raise e)
  | Ok (Some _) => Done (Ok None)
  | Ok None => Commit (PendInsert (row_of_lease lease))
                 (λ committed, Ok (if committed : bool then Some lease else None))
  end.
(* @src runtime_v1/provider_routes/lease_store.py:507-548 ProviderRouteLeaseStore._db_acquire *)
Definition _db_acquire (lease : ProviderRouteLease) : M table (option ProviderRouteLease) :=
  session (acquire_read lease).

(* @src runtime_v1/provider_routes/lease_store.py:550-575 ProviderRouteLeaseStore._db_renew *)
Definition renew_read (now : Z) (lease_id lease_token owner_execution_id : string) (ttl : Z)
    (t : table) : Plan ProviderRouteLease :=
  match find_row lease_id t with
  | None => refuse_lease "lease_not_found" "lease not found"
  | Some r =>
      if (row_token r != lease_token) || (row_owner r != owner_execution_id) then
        refuse_lease "stale_lease_token" "lease token or owner mismatch"
      else if (row_status r != "active") || (row_marker r != Some "active") then
        refuse_lease "lease_not_active" ("lease status is " +:+ row_status r)
      else if (row_expires r <=? now)%Z then
        Commit (PendUpdate [(r, rerow "expired" None (row_expires r) (row_heartbeat r)
                                  (row_released r) (row_recovery r) (row_details r) r)])
          (λ _, Raise (ProviderRouteLeaseError "lease_expired" "lease expired"))
      else
        assign_row r (rerow (row_status r) (row_marker r) (now + ttl) now (row_released r)
                        (row_recovery r) (row_details r) r)
  end.
(* @src runtime_v1/provider_routes/lease_store.py:550-575 ProviderRouteLeaseStore._db_renew *)
Definition _db_renew (now : Z) (lease_id lease_token owner_execution_id : string) (ttl : Z) :
    M table ProviderRouteLease :=
  session (renew_read now lease_id lease_token owner_execution_id ttl).

(* @src runtime_v1/provider_routes/lease_store.py:577-597 ProviderRouteLeaseStore._db_release *)
Definition release_read (t1 t2 : Z) (lease_id lease_token owner_execution_id : string)
    (t : table) : Plan ProviderRouteLease :=
  match find_row lease_id t with
  | None => refuse_lease "lease_not_found" "lease not found"
  | Some r =>
      if (row_token r != lease_token) || (row_owner r != owner_execution_id) then
        refuse_lease "stale_lease_token" "lease token or owner mismatch"
      else if (row_status r != "active") || (row_marker r == None) then
        refuse_lease "duplicate_release" "lease already released"
      else
        assign_row r (rerow "released" None (row_expires r) t2 (Some t1) (row_recovery r)
                        (row_details r) r)
  end.
(* @src runtime_v1/provider_routes/lease_store.py:577-597 ProviderRouteLeaseStore._db_release *)
Definition _db_release (t1 t2 : Z) (lease_id lease_token owner_execution_id : string) :
    M table ProviderRouteLease :=
  session (release_read t1 t2 lease_id lease_token owner_execution_id).

(* @src runtime_v1/provider_routes/lease_store.py:599-627 ProviderRouteLeaseStore._db_claim_recovery *)
Definition claim_read (now : Z) (lease_id lease_token recovery_owner_id : string) (t : table) :
    Plan ProviderRouteLease :=
  match find_row lease_id t with
  | None => refuse_lease "stale_lease_token" "invalid lease token"
  | Some r =>
      if row_token r != lease_token then refuse_lease "stale_lease_token" "invalid lease token"
      else if row_marker r != Some "active" then
        refuse_lease "lease_not_active" "lease is not active"
      else if (now <? row_expires r)%Z && (row_status r == "active") then
        refuse_lease "lease_not_expired" "lease has not expired"
      else
        match (if row_status r == "recovering"
               then claimed_by_other (dget "recovery_owner_id" (row_details r)) recovery_owner_id
               else Ok false) with
        | Raise e => Done (Raise e)
        | Ok true =>
            refuse_lease "recovery_claimed" "recovery already claimed by another owner"
        | Ok false =>
            assign_row r (rerow "recovering" (row_marker r) (row_expires r) now (row_released r)
                            (row_recovery r)
                            (json_dict (dict_set "recovery_owner_id" (PStr recovery_owner_id)
                                          (row_details r))) r)
        end
  end.
(* @src runtime_v1/provider_routes/lease_store.py:599-627 ProviderRouteLeaseStore._db_claim_recovery *)
Definition _db_claim_recovery (now : Z) (lease_id lease_token recovery_owner_id : string) :
    M table ProviderRouteLease :=
  session (claim_read now lease_id lease_token recovery_owner_id).

(* @src runtime_v1/provider_routes/lease_store.py:276-293 ProviderRouteLeaseStore.mark_recovery *)
Definition mark_read (now : Z) (lease_id lease_token recovery_status : string)
    (details : option dict) (t : table) : Plan ProviderRouteLease :=
  match find_row lease_id t with
  | None => refuse_lease "stale_lease_token" "invalid lease token"
  | Some r =>
      if row_token r != lease_token then refuse_lease "stale_lease_token" "invalid lease token"
      else
        let details := match details with
                       | Some ((_ :: _) as d) => json_dict (dict_update (row_details r) d)
                       | _ => row_details r
                       end in
        if clears_active recovery_status then
          assign_row r (rerow "expired" None (row_expires r) (row_heartbeat r) (Some now)
                          (Some recovery_status) details r)
        else
          assign_row r (rerow (row_status r) (row_marker r) (row_expires r) (row_heartbeat r)
                          (row_released r) (Some recovery_status) details r)
  end.
(* @src runtime_v1/provider_routes/lease_store.py:276-293 ProviderRouteLeaseStore.mark_recovery *)
Definition db_mark_recovery (now : Z) (lease_id lease_token recovery_status : string)
    (details : option dict) : M table ProviderRouteLease :=
  session (mark_read now lease_id lease_token recovery_status details).

(* @src runtime_v1/provider_routes/lease_store.py:171-176 ProviderRouteLeaseStore.get *)
Definition db_get (lease_id : string) (t : table) : option ProviderRouteLease :=
  _row_to_lease <$> find_row lease_id t.

(* @src runtime_v1/provider_routes/lease_store.py:189-198 ProviderRouteLeaseStore.get_active *)
Definition db_get_active (manager_id connector_id : string) (t : table) :
    res (option ProviderRouteLease) :=
  res_bind (one_or_none (marked (manager_id, connector_id) t)) (λ r, Ok (_row_to_lease <$> r)).

(* @src runtime_v1/provider_routes/lease_store.py:213-221 ProviderRouteLeaseStore.list_expired_active *)
Definition db_list_expired_active (moment : Z) (t : table) : list ProviderRouteLease :=
  _row_to_lease <$> filter (λ r, row_marker r = Some "active" ∧
    row_status r ∈ ["active"; "recovering"] ∧ (row_expires r ≤ moment)%Z) (rows t).

(** The row that records a block; its identifier and token are fresh, [t1 .. t4] the
    clock readings after [t0]. *)
(* @src runtime_v1/provider_routes/lease_store.py:305-346 ProviderRouteLeaseStore.block_connector *)
Definition block_row `{PyLib} (t0 t1 t2 t3 t4 : Z) (id token manager_id connector_id reason : string) :
    ProviderRouteLeaseRow :=
  {| row_id := id; row_manager := manager_id; row_connector := connector_id;
     row_owner := "recovery"; row_token := token; row_status := "blocked";
     row_marker := None; row_original := []; row_provider := None; row_model := None;
     row_acquired := t1; row_expires := t2; row_heartbeat := t3; row_released := Some t4;
     row_recovery := Some "recovery_failed";
     row_details := json_dict [("blocked", PBool true); ("reason", PStr reason);
                               ("at", PStr (isoformat t0))] |}.

(** A commit that fails raises. *)
(* @src runtime_v1/provider_routes/lease_store.py:295-347 ProviderRouteLeaseStore.block_connector *)
Definition block_read (r : ProviderRouteLeaseRow) (t : table) : Plan unit :=
  Commit (PendInsert r)
    (λ committed, if committed : bool then Ok tt else Raise (Exn "IntegrityError" "" "")).
(* @src runtime_v1/provider_routes/lease_store.py:295-347 ProviderRouteLeaseStore.block_connector *)
Definition db_block_connector (r : ProviderRouteLeaseRow) : M table unit := session (block_read r).

Definition blocked_rows (key : string * string) (t : table) : list ProviderRouteLeaseRow :=
  filter (λ r, row_key r = key ∧ row_status r = "blocked") (rows t).

(** The newest first; the order of rows of the same instant is the table's. *)
(* @src runtime_v1/provider_routes/lease_store.py:355-369 ProviderRouteLeaseStore.is_blocked *)
Definition db_is_blocked `{PyLib} (manager_id connector_id : string) (t : table) :
    option string :=
  (λ r, py_str (py_or (dget "reason" (row_details r)) (PStr "recovery_failed"))) <$>
    head (py_sorted (λ a b, (row_acquired b <=? row_acquired a)%Z)
            (blocked_rows (manager_id, connector_id) t)).

Definition clear_row (r : ProviderRouteLeaseRow) : ProviderRouteLeaseRow :=
  rerow "block_cleared" (row_marker r) (row_expires r) (row_heartbeat r) (row_released r)
    (row_recovery r) (row_details r) r.

(** The assignments to the blocked rows, in one commit. *)
(* @src runtime_v1/provider_routes/lease_store.py:375-385 ProviderRouteLeaseStore.clear_block *)
Definition clear_read (manager_id connector_id : string) (t : table) : Plan unit :=
  Commit (PendUpdate ((λ r, (r, clear_row r)) <$> blocked_rows (manager_id, connector_id) t))
    (λ _, Ok tt).
(* @src runtime_v1/provider_routes/lease_store.py:375-385 ProviderRouteLeaseStore.clear_block *)
Definition db_clear_block (manager_id connector_id : string) (t : table) : table :=
  (session (clear_read manager_id connector_id) t).2.

(** ** The invariant of the table

    The marker is set exactly while the lease is active or recovering. *)
Definition row_ok (r : ProviderRouteLeaseRow) : Prop :=
  (row_marker r = Some "active" ∧ row_status r ∈ ["active"; "recovering"]) ∨
  (row_marker r = None ∧ row_status r ∉ ["active"; "recovering"]).
Definition table_inv (t : table) : Prop := Forall row_ok (rows t).
End database.

(** ** Lemmas on the memory store *)

(** A lease sits under its identifier, and holds the marker of its key while it is
    active or recovering. *)
Definition memory_inv (s : MemoryStore) : Prop :=
  ∀ id l, dict_get id (memory s) = Some l →
    rl_id l = id ∧ id ≠ "" ∧
    (is_held l = true → memory_by_key s !! lease_key l = Some id).

Lemma memory_inv_put l s :
  memory_inv s → rl_id l ≠ "" →
  (is_held l = true → memory_by_key s !! lease_key l = Some (rl_id l)) →
  memory_inv (put_lease l s).
Proof.
  intros Hi Hne Hl id l'. simpl. destruct (decide (id = rl_id l)) as [->|Hid].
  - rewrite dict_get_set_eq. by intros [= <-].
  - rewrite dict_get_set_ne by done. apply Hi.
Qed.

(** Releasing the marker is safe when no lease of the key is held. *)
Lemma memory_inv_pop k s :
  memory_inv s →
  (∀ id l, dict_get id (memory s) = Some l → lease_key l = k → is_held l = false) →
  memory_inv (pop_key k s).
Proof.
  intros Hi Hk id l Hl. simpl in *. destruct (Hi id l Hl) as (? & ? & Hh).
  split_and!; [done..|]. intros Hheld. rewrite lookup_delete_ne; [by apply Hh|].
  intros Heq. rewrite (Hk id l Hl) in Hheld; done.
Qed.

(** What a memory call may be given: fresh identifiers, and recoveries ended only by the
    lease that holds the marker. *)
Inductive memory_call `{PyLib} (s : MemoryStore) : MemoryStore → Prop :=
| mc_acquire l : dict_get (rl_id l) (memory s) = None → rl_id l ≠ "" →
    startswith "block:" (rl_id l) = false → rl_status l = "active" → memory_call s (_memory_acquire l s).2
| mc_renew now id tok owner ttl : memory_call s (_memory_renew now id tok owner ttl s).2
| mc_release now id tok owner : memory_call s (_memory_release now id tok owner s).2
| mc_claim now t2 id tok owner :
    memory_call s (_memory_claim_recovery now t2 id tok owner s).2
| mc_mark id tok st details l :
    dict_get id (memory s) = Some l → memory_by_key s !! lease_key l = Some id →
    memory_call s (memory_mark_recovery id tok st details s).2
| mc_block t0 t1 t2 t3 m c reason :
    memory_call s (memory_block_connector t0 t1 t2 t3 m c reason s)
| mc_clear m c : memory_call s (memory_clear_block m c s).

Lemma memory_holder_unique s id1 id2 l1 l2 :
  memory_inv s → dict_get id1 (memory s) = Some l1 → dict_get id2 (memory s) = Some l2 →
  lease_key l1 = lease_key l2 → is_held l1 = true → is_held l2 = true → id1 = id2.
Proof.
  intros Hi H1 H2 Hk Hh1 Hh2.
  destruct (Hi _ _ H1) as (_ & _ & Hm1). destruct (Hi _ _ H2) as (_ & _ & Hm2).
  specialize (Hm1 Hh1). specialize (Hm2 Hh2). congruence.
Qed.

(** A store in which the lease of [id] is replaced by one that is not held, and its key
    freed. *)
Lemma memory_inv_free s id l l' :
  memory_inv s → dict_get id (memory s) = Some l →
  memory_by_key s !! lease_key l = Some id →
  rl_id l' = id → lease_key l' = lease_key l → is_held l' = false →
  memory_inv (pop_key (lease_key l) (put_lease l' s)).
Proof.
  intros Hi Hl Hm Hid Hk Hh. destruct (Hi _ _ Hl) as (_ & Hne & _).
  apply memory_inv_pop.
  - apply memory_inv_put; [done|congruence|congruence].
  - intros id2 l2. simpl. rewrite Hid. destruct (decide (id2 = id)) as [->|Hd].
    + rewrite dict_get_set_eq. by intros [= <-].
    + rewrite dict_get_set_ne by done. intros H2 Hk2.
      apply not_true_is_false. intros Hh2. destruct (Hi _ _ H2) as (_ & _ & Hm2).
      specialize (Hm2 Hh2). rewrite Hk2 in Hm2. congruence.
Qed.

Lemma is_active_held l : is_active l = true → is_held l = true.
Proof.
  unfold is_active, is_held. intros Ha%bool_decide_eq_true_1.
  apply bool_decide_eq_true_2. rewrite Ha. left.
Qed.

(** The key is held: its marker names a lease that is active or recovering. *)
Definition key_held (k : string * string) (s : MemoryStore) : Prop :=
  ∃ id l, dict_get id (memory s) = Some l ∧ lease_key l = k ∧ is_held l = true.

Lemma memory_acquire_cases l s :
  memory_inv s →
  (∃ id l0, memory_by_key s !! lease_key l = Some id ∧
     dict_get id (memory s) = Some l0 ∧ is_held l0 = true) ∧
    _memory_acquire l s = (Ok None, s) ∨
  ¬ key_held (lease_key l) s ∧
    _memory_acquire l s = (Ok (Some l), mark_key (lease_key l) (rl_id l) (put_lease l s)).
Proof.
  intros Hi. unfold _memory_acquire, mbind, M_bind, get_state.
  destruct (memory_by_key s !! lease_key l) as [id|] eqn:Hm.
  - destruct (dict_get id (memory s)) as [l0|] eqn:Hg.
    + destruct (Hi _ _ Hg) as (_ & Hne & _). rewrite bool_decide_eq_false_2 by done. simpl.
      destruct (is_held l0) eqn:Hh; [left; split; [by eexists _, _|done]|right].
      split; [|done]. intros (id2 & l2 & H2 & Hk & Hh2).
      destruct (Hi _ _ H2) as (_ & _ & Hm2). specialize (Hm2 Hh2). rewrite Hk in Hm2. congruence.
    + rewrite andb_false_r. right. split; [|done]. intros (id2 & l2 & H2 & Hk & Hh2).
      destruct (Hi _ _ H2) as (_ & _ & Hm2). specialize (Hm2 Hh2). rewrite Hk in Hm2. congruence.
  - right. split; [|done]. intros (id2 & l2 & H2 & Hk & Hh2).
    destruct (Hi _ _ H2) as (_ & _ & Hm2). specialize (Hm2 Hh2). rewrite Hk in Hm2. congruence.
Qed.

Lemma memory_inv_acquired l s :
  memory_inv s → ¬ key_held (lease_key l) s → rl_id l ≠ "" →
  memory_inv (mark_key (lease_key l) (rl_id l) (put_lease l s)).
Proof.
  intros Hi Hn Hne id l'. simpl. destruct (decide (id = rl_id l)) as [->|Hd].
  - rewrite dict_get_set_eq. intros [= <-]. split_and!; [done..|]. intros _. by simplify_map_eq.
  - rewrite dict_get_set_ne by done. intros Hl'. destruct (Hi _ _ Hl') as (? & ? & Hm).
    split_and!; [done..|]. intros Hh. rewrite lookup_insert_ne; [by apply Hm|].
    intros Heq. apply Hn. by exists id, l'.
Qed.

Lemma memory_call_inv `{PyLib} s s' :
  memory_inv s → NoDup (dict_keys (memory s)) → memory_call s s' → memory_inv s'.
Proof.
  intros Hi Hnd [l Hfresh Hne Hb Hst|now id tok owner ttl|now id tok owner|now t2 id tok owner
    |id tok st details l Hl Hm|t0 t1 t2 t3 m c reason|m c].
  - destruct (memory_acquire_cases l s Hi) as [[_ ->]|[Hn ->]]; [done|].
    by apply memory_inv_acquired.
  - unfold _memory_renew, mbind, M_bind, get_state.
    destruct (dict_get id (memory s)) as [l|] eqn:Hl; [|done].
    destruct (Hi _ _ Hl) as (Hid & Hne & Hm).
    goal_guards; try done. apply memory_inv_put; [done|simpl; congruence|].
    intros Hh. by apply Hm.
  - unfold _memory_release, mbind, M_bind, get_state.
    destruct (dict_get id (memory s)) as [l|] eqn:Hl; [|done].
    destruct (Hi _ _ Hl) as (Hid & Hne & Hm). goal_guards; try done. boolify.
    apply (memory_inv_free s (rl_id l) l); try done. by apply Hm, is_active_held.
  - unfold _memory_claim_recovery, mbind, M_bind, get_state.
    destruct (dict_get id (memory s)) as [l|] eqn:Hl; [|done].
    destruct (Hi _ _ Hl) as (Hid & Hne & Hm).
    destruct (negb (bool_decide (rl_token l = tok))); [done|].
    destruct (bool_decide (memory_by_key s !! lease_key l = Some id)) eqn:Hmk; [|done]. simpl.
    destruct (_ && is_active l); [done|]. apply bool_decide_eq_true_1 in Hmk.
    assert (memory_inv (put_lease (relet "recovering" (rl_expires l) t2 (rl_recovery l)
      (dict_set "recovery_owner_id" (PStr owner) (rl_details l)) l) s)) as Hput.
    { apply memory_inv_put; [done|simpl; congruence|]. intros _. simpl. by rewrite Hid. }
    destruct (bool_decide (rl_status l = "recovering")); [|done].
    unfold lift_res. destruct (claimed_by_other _ _) as [[]|]; done.
  - unfold memory_mark_recovery, mbind, M_bind, get_state. rewrite Hl.
    destruct (Hi _ _ Hl) as (Hid & Hne & _).
    destruct (negb (bool_decide (rl_token l = tok))); [done|].
    subst id. set (l' := relet (if clears_active st then "expired" else rl_status l)
      (rl_expires l) (rl_heartbeat l) (Some st)
      (dict_update (rl_details l) (default [] details)) l).
    destruct (clears_active st); simpl.
    + by apply (memory_inv_free s (rl_id l) l l').
    + apply (memory_inv_put l' s); [done|done|]. by intros _.
  - apply memory_inv_put; [done|done|]. by intros ?.
  - intros id l Hl. simpl in *. by apply Hi, (dict_get_del_Some (block_id m c)).
Qed.

Lemma memory_inv_init : memory_inv MemoryStore_init.
Proof. by intros id l. Qed.

Lemma block_id_prefix m c : startswith "block:" (block_id m c) = true.
Proof. unfold startswith, block_id. simpl. by destruct m, c. Qed.

(** The markers name stored leases that are not blocks, and no two of them the same one. *)
Definition marks_inv (s : MemoryStore) : Prop :=
  (∀ k id, memory_by_key s !! k = Some id →
     is_Some (dict_get id (memory s)) ∧ startswith "block:" id = false) ∧
  (∀ k1 k2 id, memory_by_key s !! k1 = Some id → memory_by_key s !! k2 = Some id → k1 = k2) ∧
  NoDup (dict_keys (memory s)).

Lemma marks_inv_put l s : marks_inv s → marks_inv (put_lease l s).
Proof.
  intros (Hd & Hi & Hn). split; [|by split; [|apply dict_set_NoDup]]. intros k id Hk. destruct (Hd _ _ Hk) as [Hs ?]. split; [|done].
  simpl. destruct (decide (id = rl_id l)) as [->|].
  - rewrite dict_get_set_eq. by eexists.
  - by rewrite dict_get_set_ne.
Qed.

Lemma marks_inv_pop k s : marks_inv s → marks_inv (pop_key k s).
Proof.
  intros (Hd & Hi & Hn). split_and!; simpl; [| |done].
  - intros k' id [_ ?]%lookup_delete_Some. by apply (Hd k').
  - intros k1 k2 id [_ ?]%lookup_delete_Some [_ ?]%lookup_delete_Some. by apply (Hi _ _ id).
Qed.

Lemma marks_inv_acquired l s :
  marks_inv s → dict_get (rl_id l) (memory s) = None → startswith "block:" (rl_id l) = false →
  marks_inv (mark_key (lease_key l) (rl_id l) (put_lease l s)).
Proof.
  intros Hm Hf Hb. pose proof Hm as (Hd & Hi & Hn).
  assert (∀ k, memory_by_key s !! k ≠ Some (rl_id l)) as Hnew.
  { intros k Hk. destruct (Hd _ _ Hk) as [[? ?] _]. congruence. }
  split_and!; simpl; [| |by apply dict_set_NoDup].
  - intros k id [[_ <-]|[_ Hk]]%lookup_insert_Some.
    + rewrite dict_get_set_eq. split; [by eexists|done].
    + by apply (proj1 (marks_inv_put l s Hm) k).
  - intros k1 k2 id [[<- <-]|[_ H1]]%lookup_insert_Some [[<- H2]|[_ H2]]%lookup_insert_Some;
      try done; [by destruct (Hnew k2)|subst; by destruct (Hnew k1)|by apply (Hi _ _ id)].
Qed.

Lemma memory_call_marks `{PyLib} s s' :
  memory_inv s → marks_inv s → memory_call s s' → marks_inv s'.
Proof.
  intros Hinv Hi [l Hfresh Hne Hb Hst|now id tok owner ttl|now id tok owner|now t2 id tok owner
    |id tok st details l Hl Hm|t0 t1 t2 t3 m c reason|m c].
  - destruct (memory_acquire_cases l s Hinv) as [[_ ->]|[Hn ->]]; [done|].
    by apply marks_inv_acquired.
  - unfold _memory_renew, mbind, M_bind, get_state.
    destruct (dict_get id (memory s)) as [l|]; [|done].
    goal_guards; try done. by apply marks_inv_put.
  - unfold _memory_release, mbind, M_bind, get_state.
    destruct (dict_get id (memory s)) as [l|]; [|done].
    goal_guards; try done. by apply marks_inv_pop, marks_inv_put.
  - unfold _memory_claim_recovery, mbind, M_bind, get_state.
    destruct (dict_get id (memory s)) as [l|]; [|done].
    destruct (negb (bool_decide (rl_token l = tok))); [done|].
    destruct (negb _); [done|]. destruct (_ && is_active l); [done|].
    destruct (bool_decide (rl_status l = "recovering")); [|by apply marks_inv_put].
    unfold lift_res. destruct (claimed_by_other _ _) as [[]|]; try done. by apply marks_inv_put.
  - unfold memory_mark_recovery, mbind, M_bind, get_state. rewrite Hl.
    destruct (Hinv _ _ Hl) as (<- & _).
    destruct (negb (bool_decide (rl_token l = tok))); [done|].
    set (l' := relet (if clears_active st then "expired" else rl_status l)
      (rl_expires l) (rl_heartbeat l) (Some st)
      (dict_update (rl_details l) (default [] details)) l).
    destruct (clears_active st); simpl;
      [by apply marks_inv_pop, (marks_inv_put l')|by apply (marks_inv_put l')].
  - by apply marks_inv_put.
  - destruct Hi as (Hd & Hj & Hn). split; [|by split; [|apply dict_del_NoDup]]. intros k id Hk.
    destruct (Hd _ _ Hk) as [Hs Hb]. split; [|done]. simpl.
    rewrite dict_get_del_ne; [done|]. intros <-. by rewrite block_id_prefix in Hb.
Qed.

Lemma memory_reachable `{PyLib} s :
  rtc memory_call MemoryStore_init s → memory_inv s ∧ marks_inv s.
Proof.
  intros Hr. assert (memory_inv MemoryStore_init ∧ marks_inv MemoryStore_init) as H0.
  { split; [apply memory_inv_init|]. split; [|split; [|constructor]]; by intros ??. }
  revert H0. induction Hr as [|s1 s2 s3 Hc _ IH]; [done|]. intros [Hi Hm].
  apply IH. split; [eapply memory_call_inv; [done|apply Hm|done]|by eapply memory_call_marks].
Qed.

Lemma filter_two {A} (P : A → Prop) `{∀ x, Decision (P x)} l a b r :
  filter P l = a :: b :: r → ∃ i j, i ≠ j ∧ l !! i = Some a ∧ l !! j = Some b.
Proof.
  induction l as [|x l IH]; [done|]. rewrite filter_cons.
  destruct (decide (P x)) as [Hx|Hx].
  - intros [= -> Hl]. assert (b ∈ filter P l) as Hin by (rewrite Hl; left).
    apply list_elem_of_filter in Hin as [_ [j Hj]%list_elem_of_lookup].
    by exists 0, (S j).
  - intros (i & j & Hne & Hi & Hj)%IH. exists (S i), (S j). split_and!; [congruence|done|done].
Qed.

(** The held leases of a key. *)
Definition holders (k : string * string) (s : MemoryStore) :
    list (string * ProviderRouteLease) :=
  filter (λ p, lease_key p.2 = k ∧ is_held p.2 = true) (memory s).

Lemma holders_unique k s :
  memory_inv s → NoDup (dict_keys (memory s)) → length (holders k s) ≤ 1.
Proof.
  intros Hi Hn. destruct (holders k s) as [|[id1 l1] [|[id2 l2] r]] eqn:Hh; simpl; try lia.
  unfold holders in Hh. exfalso.
  assert (∀ p, p ∈ (id1, l1) :: (id2, l2) :: r →
    dict_get p.1 (memory s) = Some p.2 ∧ lease_key p.2 = k ∧ is_held p.2 = true) as Hall.
  { intros [id l]. rewrite <- Hh. intros [[Hk Hl] Hin]%list_elem_of_filter.
    split; [|done]. by apply dict_elem_get. }
  destruct (Hall (id1, l1)) as (H1 & Hk1 & Hh1); [left|].
  destruct (Hall (id2, l2)) as (H2 & Hk2 & Hh2); [right; left|].
  destruct (filter_two _ _ _ _ _ Hh) as (i & j & Hne & Ha & Hb). apply Hne.
  eapply (NoDup_lookup _ _ _ id1 Hn); unfold dict_keys; rewrite list_lookup_fmap;
    [by rewrite Ha|rewrite Hb; simpl; f_equal; symmetry].
  apply (memory_holder_unique s id1 id2 l1 l2 Hi H1 H2); simpl in *; congruence.
Qed.

(** ** Lemmas on the table *)

Section table_lemmas.
Context `{RowTableLaws}.
Implicit Types (t : table) (r : ProviderRouteLeaseRow).

Definition good t : Prop := db_ok t ∧ table_inv t.

Definition row_held r : bool := row_status r in? ["active"; "recovering"].

Lemma row_held_marker r : row_ok r → row_held r = true ↔ row_marker r = Some "active".
Proof.
  unfold row_held. rewrite bool_decide_eq_true.
  intros [[? ?]|[Hm Hs]]; [done|]. rewrite Hm. naive_solver.
Qed.

Lemma find_row_Some id t r : find_row id t = Some r → r ∈ rows t ∧ row_id r = id.
Proof.
  unfold find_row. destruct (list_find _ _) as [[i r']|] eqn:Hf; simpl; [|done].
  intros [= <-]. apply list_find_Some in Hf as (Hl & ? & _).
  split; [by eapply list_elem_of_lookup_2|done].
Qed.

Lemma find_row_None id t : find_row id t = None → Forall (λ r, row_id r ≠ id) (rows t).
Proof.
  unfold find_row. destruct (list_find _ _) as [[i r']|] eqn:Hf; simpl; [done|].
  intros _. by apply list_find_None in Hf.
Qed.

(** What a session assigned is what it finds, when nothing came between. *)
Lemma column_same {A} `{EqDecision A} (x y : A) : column x y x = y.
Proof. unfold column. by case_bool_decide. Qed.
Lemma write_same st m e h rel rec d r :
  write r (rerow st m e h rel rec d r) r = rerow st m e h rel rec d r.
Proof. unfold write. simpl. by rewrite !column_same. Qed.

Lemma commit_assigned id t r st m e h rel rec d :
  find_row id t = Some r →
  commit_pending (PendUpdate [(r, rerow st m e h rel rec d r)]) t =
    Some (update_row (rerow st m e h rel rec d r) t).
Proof.
  intros Hf. pose proof (find_row_Some _ _ _ Hf) as [_ Hid].
  unfold commit_pending, write_row. simpl. by rewrite Hid, Hf, write_same.
Qed.

(** The sessions that nothing comes between: as one step each. *)
Abbreviation refused_as code m t := (Raise (ProviderRouteLeaseError code m), t).
Abbreviation committed r t := (Ok (_row_to_lease r), update_row r t).
Ltac as_one_step :=
  unfold session, assign_row, refuse_lease;
  repeat (case_match; try done); simplify_eq;
  repeat match goal with
  | Hf : find_row _ _ = Some ?r, Hc : commit_pending _ _ = _ |- _ =>
      rewrite (commit_assigned _ _ _ _ _ _ _ _ _ _ Hf) in Hc; simplify_eq
  end; try done.

Lemma db_acquire_eq l t :
  _db_acquire l t =
  match one_or_none (marked (lease_key l) t) with
  | Raise e => (Raise e, t)
  | Ok (Some _) => (Ok None, t)
  | Ok None => match insert_row (row_of_lease l) t with
               | Some t' => (Ok (Some l), t')
               | None => (Ok None, t)
               end
  end.
Proof. unfold _db_acquire, acquire_read, session. by repeat (case_match; simplify_eq/=). Qed.

Lemma db_renew_eq now id tok owner ttl t :
  _db_renew now id tok owner ttl t =
  match find_row id t with
  | None => refused_as "lease_not_found" "lease not found" t
  | Some r =>
      if (row_token r != tok) || (row_owner r != owner) then
        refused_as "stale_lease_token" "lease token or owner mismatch" t
      else if (row_status r != "active") || (row_marker r != Some "active") then
        refused_as "lease_not_active" ("lease status is " +:+ row_status r) t
      else if (row_expires r <=? now)%Z then
        refused_as "lease_expired" "lease expired"
          (update_row (rerow "expired" None (row_expires r) (row_heartbeat r) (row_released r)
                         (row_recovery r) (row_details r) r) t)
      else
        committed (rerow (row_status r) (row_marker r) (now + ttl) now (row_released r)
                     (row_recovery r) (row_details r) r) t
  end.
Proof. unfold _db_renew, renew_read. as_one_step. Qed.

Lemma db_release_eq (t1 t2 : Z) id tok owner t :
  _db_release t1 t2 id tok owner t =
  match find_row id t with
  | None => refused_as "lease_not_found" "lease not found" t
  | Some r =>
      if (row_token r != tok) || (row_owner r != owner) then
        refused_as "stale_lease_token" "lease token or owner mismatch" t
      else if (row_status r != "active") || (row_marker r == None) then
        refused_as "duplicate_release" "lease already released" t
      else
        committed (rerow "released" None (row_expires r) t2 (Some t1) (row_recovery r)
                     (row_details r) r) t
  end.
Proof. unfold _db_release, release_read. as_one_step. Qed.

Lemma find_row_of r t : db_ok t → r ∈ rows t → find_row (row_id r) t = Some r.
Proof.
  intros Hok [j Hj]%list_elem_of_lookup. unfold find_row.
  destruct (list_find _ _) as [[i r']|] eqn:Hf; simpl.
  - apply list_find_Some in Hf as (Hi & Hid & _). destruct (decide (i = j)) as [->|Hne].
    + by rewrite Hi in Hj.
    + by destruct (rows_distinct t i j r' r Hok Hi Hj Hne).
  - apply list_find_None in Hf. rewrite Forall_forall in Hf.
    by destruct (Hf r (list_elem_of_lookup_2 _ _ _ Hj)).
Qed.

(** Two held rows of a key are one row. *)
Lemma held_row_unique t i j a b :
  good t → rows t !! i = Some a → rows t !! j = Some b → row_key a = row_key b →
  row_held a = true → row_held b = true → i = j.
Proof.
  intros [Hok Hinv] Ha Hb Hk Hha Hhb. destruct (decide (i = j)) as [|Hne]; [done|].
  pose proof (Forall_lookup_1 _ _ _ _ Hinv Ha) as Hra.
  pose proof (Forall_lookup_1 _ _ _ _ Hinv Hb) as Hrb.
  apply row_held_marker in Hha, Hhb; [|done..].
  destruct (rows_distinct t i j a b Hok Ha Hb Hne) as (_ & _ & Hc).
  destruct Hc. split_and!; [done|congruence|congruence].
Qed.

Lemma marked_cases key t : good t → marked key t = [] ∨ ∃ r, marked key t = [r].
Proof.
  intros Hg. destruct (marked key t) as [|a [|b l]] eqn:Hm; [by left|by right; eexists|].
  unfold marked in Hm. destruct (filter_two _ _ _ _ _ Hm) as (i & j & Hne & Hi & Hj).
  assert (∀ x, x ∈ filter (λ r, row_key r = key ∧ row_marker r = Some "active") (rows t) →
    row_key x = key ∧ row_held x = true) as Hin.
  { intros x [[Hk Hmk] Hx]%list_elem_of_filter. split; [done|].
    apply row_held_marker; [|done]. destruct Hg as [_ Hinv].
    by apply (proj1 (Forall_forall _ _) Hinv). }
  rewrite Hm in Hin. destruct (Hin a) as [Hka Hha]; [left|].
  destruct (Hin b) as [Hkb Hhb]; [right; left|].
  destruct Hne. eapply (held_row_unique t i j a b); [done..|congruence|done|done].
Qed.

(** The commit of a row that keeps its identity and at most gives up its marker. *)
Lemma update_good t r r' :
  good t → r ∈ rows t → row_id r = row_id r' → row_token r = row_token r' →
  row_key r = row_key r' → (row_marker r' = None ∨ row_marker r = row_marker r') →
  row_ok r' → good (update_row r' t).
Proof.
  intros [Hok Hinv] Hin Hid Htok Hk Hm Hr'.
  destruct (update_replaces r' r t Hok Hin Hid Htok) as [Hok' Hrows].
  { destruct Hm; [by left|by right]. }
  split; [done|]. unfold table_inv. rewrite Hrows. apply Forall_fmap.
  eapply Forall_impl; [exact Hinv|]. intros x Hx. simpl. by case_bool_decide.
Qed.

(** One transaction. *)
Inductive db_call t : table → Prop :=
| dc_acquire l : db_call t (_db_acquire l t).2
| dc_renew now id tok owner ttl : db_call t (_db_renew now id tok owner ttl t).2
| dc_release (t1 t2 : Z) id tok owner : db_call t (_db_release t1 t2 id tok owner t).2
| dc_claim now id tok owner : db_call t (_db_claim_recovery now id tok owner t).2
| dc_mark now id tok st details : db_call t (db_mark_recovery now id tok st details t).2
| dc_block `{PyLib} (t0 t1 t2 t3 t4 : Z) id tok m c reason :
    db_call t (db_block_connector (block_row t0 t1 t2 t3 t4 id tok m c reason) t).2
| dc_clear m c : db_call t (db_clear_block m c t).

Lemma row_ok_active st marker exp hb rel rec det r :
  marker = Some "active" → st ∈ ["active"; "recovering"] →
  row_ok (rerow st marker exp hb rel rec det r).
Proof. by left. Qed.

Lemma row_ok_done st exp hb rel rec det r :
  st ∉ ["active"; "recovering"] → row_ok (rerow st None exp hb rel rec det r).
Proof. by right. Qed.

(** An accepted row that is itself in order. *)
Lemma insert_good r t t' : good t → row_ok r → insert_row r t = Some t' → good t'.
Proof.
  intros [Hok Hinv] Hr Hins.
  destruct (decide (Forall (compatible_rows r) (rows t))) as [Hc|Hc];
    [|by rewrite insert_refuses in Hins].
  destruct (insert_accepts _ _ Hok Hc) as (t2 & Hins2 & Hok2 & Hrows).
  rewrite Hins in Hins2. injection Hins2 as <-. split; [done|]. unfold table_inv.
  rewrite Hrows. by constructor.
Qed.

(** The rows of other identifiers stay. *)
Lemma update_keeps_others t r r' x :
  good t → r ∈ rows t → row_id r = row_id r' → row_token r = row_token r' →
  row_key r = row_key r' → (row_marker r' = None ∨ row_marker r = row_marker r') →
  x ∈ rows t → row_id x ≠ row_id r' → x ∈ rows (update_row r' t).
Proof.
  intros [Hok Hinv] Hin Hid Htok Hk Hm Hx Hne.
  destruct (update_replaces r' r t Hok Hin Hid Htok) as [_ Hrows].
  { destruct Hm; [by left|by right]. }
  rewrite Hrows. apply list_elem_of_fmap. exists x. by rewrite bool_decide_eq_false_2.
Qed.

Lemma rows_ids_NoDup t : db_ok t → NoDup (row_id <$> rows t).
Proof.
  intros Hok. apply NoDup_alt. intros i j x. rewrite !list_lookup_fmap.
  destruct (rows t !! i) as [a|] eqn:Ha; [|done].
  destruct (rows t !! j) as [b|] eqn:Hb; [|done]. simpl. intros [= <-] [= Hid].
  destruct (decide (i = j)) as [|Hne]; [done|].
  by destruct (rows_distinct t i j a b Hok Ha Hb Hne) as (? & _).
Qed.

(** *** What a session may commit *)

(** The weaker half of [row_ok], which no order of reads and commits breaks: a row with the
    marker is active or recovering, an active row has the marker. *)
Definition row_inv r : Prop :=
  (row_marker r = Some "active" ∧ row_status r ∈ ["active"; "recovering"]) ∨
  (row_marker r = None ∧ row_status r ≠ "active").
Lemma row_ok_inv r : row_ok r → row_inv r.
Proof. intros [|[? Hs]]; [by left|right]. split; [done|]. intros E. rewrite E in Hs. set_solver. Qed.

(** An assignment keeps the identity of the row, at most gives the marker up, and then changes
    the status too; it makes no row active. *)
Record assignable (o n : ProviderRouteLeaseRow) : Prop := {
  as_id : row_id n = row_id o;
  as_token : row_token n = row_token o;
  as_key : row_key n = row_key o;
  as_columns : write o n o = n;
  as_marker : row_marker n = None ∨ row_marker n = row_marker o;
  as_held : row_marker n = Some "active" → row_status n ∈ ["active"; "recovering"];
  as_dropped : row_marker n ≠ row_marker o → row_status n ≠ row_status o;
  as_status : row_status n ≠ row_status o → row_status n ≠ "active";
  as_ok : row_ok o → row_ok n
}.

(** The sessions, by what they may commit after a read of [t]. *)
Inductive plans t : Pending → Prop :=
| pl_acquire l p k : acquire_read l t = Commit p k → plans t p
| pl_renew now id tok owner ttl p k : renew_read now id tok owner ttl t = Commit p k → plans t p
| pl_release (t1 t2 : Z) id tok owner p k :
    release_read t1 t2 id tok owner t = Commit p k → plans t p
| pl_claim now id tok owner p k : claim_read now id tok owner t = Commit p k → plans t p
| pl_mark now id tok st details p k : mark_read now id tok st details t = Commit p k → plans t p
| pl_block `{PyLib} (t0 t1 t2 t3 t4 : Z) id tok m c reason :
    plans t (PendInsert (block_row t0 t1 t2 t3 t4 id tok m c reason))
| pl_clear m c p k : clear_read m c t = Commit p k → plans t p.

Lemma assign_inv r n p k :
  assign_row r n = Commit p k → p = PendUpdate [(r, n)].
Proof. by intros [= <- _]. Qed.

(** What is planned: a row in order, or assignments to different rows of the table. *)
Definition planned t (p : Pending) : Prop :=
  match p with
  | PendInsert r => row_ok r
  | PendUpdate l => NoDup ((λ x, row_id x.1) <$> l) ∧
                    Forall (λ x, x.1 ∈ rows t ∧ assignable x.1 x.2) l
  end.

Lemma planned_one t r n : r ∈ rows t → assignable r n → planned t (PendUpdate [(r, n)]).
Proof. intros Hr Ha. split; [apply NoDup_singleton|by constructor]. Qed.

Lemma assignable_rerow st marker exp hb rel rec det r :
  marker = None ∨ marker = row_marker r →
  (marker = Some "active" → st ∈ ["active"; "recovering"]) →
  (marker ≠ row_marker r → st ≠ row_status r) → (st ≠ row_status r → st ≠ "active") →
  (row_ok r → row_ok (rerow st marker exp hb rel rec det r)) →
  assignable r (rerow st marker exp hb rel rec det r).
Proof. intros. split; try done. apply write_same. Qed.

Lemma find_row_inv id t r :
  Forall row_inv (rows t) → find_row id t = Some r → r ∈ rows t ∧ row_inv r.
Proof.
  intros Hi [Hin _]%find_row_Some. split; [done|]. by apply (proj1 (Forall_forall _ _) Hi).
Qed.

(** Facts of a status and a marker. *)
Ltac settle_row :=
  unfold row_ok, row_inv in *; simpl in *; rewrite ?elem_of_cons, ?elem_of_nil in *;
  first [intuition congruence | naive_solver congruence].
(** The ways of a plan that end in a commit. *)
Ltac plan_cases :=
  match goal with
  | Hi : Forall row_inv _, E : _ = Commit _ _ |- _ =>
      unfold refuse_lease in E;
      repeat (let Hf := fresh "Hf" in case_match eqn:Hf; try done); simplify_eq;
      match goal with
      | Hf : find_row _ _ = Some _ |- _ =>
          let Hin := fresh "Hin" in let Hr := fresh "Hr" in
          apply (find_row_inv _ _ _ Hi) in Hf as [Hin Hr]; apply planned_one; [exact Hin|]
      end; boolify; apply assignable_rerow; simpl
  end.

Lemma plans_planned t p : NoDup (row_id <$> rows t) → Forall row_inv (rows t) → plans t p → planned t p.
Proof.
  intros Hnd Hi [l p' k E|now id tok owner ttl p' k E|t1 t2 id tok owner p' k E
    |now id tok owner p' k E|now id tok st details p' k E|? t0 t1 t2 t3 t4 id tok m c reason
    |m c p' k E].
  - unfold acquire_read in E. repeat (case_match; try done). simplify_eq. by left; split; [|left].
  - unfold renew_read, assign_row in E. plan_cases; settle_row.
  - unfold release_read, assign_row in E. plan_cases; settle_row.
  - unfold claim_read, assign_row in E. plan_cases; settle_row.
  - unfold mark_read, assign_row in E. plan_cases; settle_row.
  - right. split; [done|]. simpl. set_solver.
  - unfold clear_read in E. simplify_eq. split.
    + rewrite <- list_fmap_compose. eapply sublist_NoDup; [exact Hnd|].
      apply fmap_sublist, sublist_filter.
    + apply Forall_fmap, Forall_forall. intros r [[_ Hs] Hin]%list_elem_of_filter.
      split; [done|]. assert (row_inv r) as Hr by by apply (proj1 (Forall_forall _ _) Hi).
      apply assignable_rerow; simpl; settle_row.
Qed.

(** *** One session after the other *)

Lemma commit_rows_good l t :
  good t → NoDup ((λ x, row_id x.1) <$> l) → Forall (λ x, x.1 ∈ rows t ∧ assignable x.1 x.2) l →
  good (foldl write_row t l).
Proof.
  revert t. induction l as [|[o n] l IH]; intros t Hg Hnd Hl; simpl; [done|].
  apply NoDup_cons in Hnd as [Hni Hnd]. apply Forall_cons in Hl as [[Hin Ha] Hl].
  simpl in Hin, Ha, Hni. pose proof Ha as [Hid Htok Hk Hc Hm _ _ _ Hok].
  assert (row_ok o) as Hr by by apply (proj1 (Forall_forall _ _) (proj2 Hg)).
  assert (write_row t (o, n) = update_row n t) as ->.
  { unfold write_row. simpl. by rewrite (find_row_of o t), Hc by (apply Hg || done). }
  apply IH; [|done|].
  - eapply (update_good t o n); try done; [by destruct Hm; [left|right]|auto].
  - apply Forall_forall. intros [o' n'] Hx. rewrite Forall_forall in Hl.
    destruct (Hl _ Hx) as [Hin' Ha']. split; [|done]. simpl in *.
    apply (update_keeps_others t o n); try done; [by destruct Hm; [left|right]|].
    rewrite Hid. intros E. apply Hni.
    apply list_elem_of_fmap. by exists (o', n').
Qed.

Lemma plans_good t p : good t → plans t p → good (default t (commit_pending p t)).
Proof.
  intros Hg Hp. pose proof Hg as [Hok Hinv].
  apply plans_planned in Hp; [|by apply rows_ids_NoDup|].
  2:{ eapply Forall_impl; [exact Hinv|]. apply row_ok_inv. }
  destruct p as [r|l]; simpl in *.
  - destruct (insert_row r t) as [t'|] eqn:Hins; [|done]. by eapply insert_good.
  - destruct Hp as [Hnd Hl]. by apply commit_rows_good.
Qed.

(** A session alone ends where it began, or after the commit it planned. *)
Lemma session_end {A} (read : table → Plan A) t :
  (session read t).2 = t ∨
  ∃ p k, read t = Commit p k ∧ (session read t).2 = default t (commit_pending p t).
Proof.
  unfold session. destruct (read t) as [r|p k] eqn:E; [by left|]. right. exists p, k.
  split; [done|]. by destruct (commit_pending p t).
Qed.

Lemma session_good {A} (read : table → Plan A) t :
  good t → (∀ p k, read t = Commit p k → plans t p) → good (session read t).2.
Proof.
  intros Hg Hp. destruct (session_end read t) as [->|(p & k & E & ->)]; [done|].
  apply plans_good; [done|by eapply Hp].
Qed.

Lemma acquire_good l t : good t → good (_db_acquire l t).2.
Proof. intros Hg. apply session_good; [done|]. intros. by eapply pl_acquire. Qed.

Lemma db_call_good t t' : good t → db_call t t' → good t'.
Proof.
  intros Hg [l|now id tok owner ttl|t1 t2 id tok owner|now id tok owner|now id tok st details
    |? t0 t1 t2 t3 t4 id tok m c reason|m c]; (apply session_good; [done|]); intros p k E.
  - by eapply pl_acquire.
  - by eapply pl_renew.
  - by eapply pl_release.
  - by eapply pl_claim.
  - by eapply pl_mark.
  - injection E as <- _. apply pl_block.
  - by eapply pl_clear.
Qed.

Lemma db_calls_good t t' : good t → rtc db_call t t' → good t'.
Proof. intros Hg. induction 1; eauto using db_call_good. Qed.

(** *** Sessions side by side *)

(** The table with the sessions that have read and not committed. One of them reads, commits,
    or is given up. *)
Inductive db_step : table * list Pending → table * list Pending → Prop :=
| db_reads t ps p : plans t p → db_step (t, ps) (t, p :: ps)
| db_commits t ps ps' p : db_step (t, ps ++ p :: ps') (default t (commit_pending p t), ps ++ ps')
| db_gives_up t ps ps' p : db_step (t, ps ++ p :: ps') (t, ps ++ ps').

Definition sound t : Prop := db_ok t ∧ Forall row_inv (rows t).

(** What a row may have become since a session loaded it. *)
Definition follows (o cur : ProviderRouteLeaseRow) : Prop :=
  row_token cur = row_token o ∧ row_key cur = row_key o ∧
  (row_marker cur = None ∨ row_marker cur = row_marker o).
Definition awaited t (x : ProviderRouteLeaseRow * ProviderRouteLeaseRow) : Prop :=
  assignable x.1 x.2 ∧ (∃ cur, cur ∈ rows t ∧ row_id cur = row_id x.1) ∧
  ∀ cur, cur ∈ rows t → row_id cur = row_id x.1 → follows x.1 cur.
Definition pending_ok t (p : Pending) : Prop :=
  match p with PendInsert r => row_inv r | PendUpdate l => Forall (awaited t) l end.

Lemma same_id_same_row t a b :
  db_ok t → a ∈ rows t → b ∈ rows t → row_id a = row_id b → a = b.
Proof.
  intros Hok [i Hi]%list_elem_of_lookup [j Hj]%list_elem_of_lookup Hid.
  destruct (decide (i = j)) as [->|Hne]; [congruence|].
  by destruct (rows_distinct t i j a b Hok Hi Hj Hne).
Qed.

(** A late write keeps the row in order. *)
Lemma write_inv o n cur :
  assignable o n → follows o cur → row_inv cur →
  row_inv (write o n cur) ∧
  (row_marker (write o n cur) = None ∨ row_marker (write o n cur) = row_marker cur).
Proof.
  intros [_ _ _ _ Hm Hh Hd Hs _] (_ & _ & Hf) Hr. unfold row_inv, write, column. simpl.
  case_bool_decide as Emk; case_bool_decide as Est.
  - split; [exact Hr|by right].
  - split; [|by right]. destruct Hr as [[Hc _]|[Hc _]].
    + left. split; [done|]. apply Hh. destruct Hf; congruence.
    + right. auto.
  - by destruct (Hd Emk).
  - destruct Hm as [Hm|]; [|done]. rewrite Hm. split; [right; auto|by left].
Qed.

(** A commit leaves the table sound and the sessions that wait in order. *)
Lemma write_row_sound t x :
  sound t → awaited t x →
  sound (write_row t x) ∧ ∀ y, awaited t y → awaited (write_row t x) y.
Proof.
  destruct x as [o n]. intros [Hok Hinv] (Ha & (cur & Hin & Hid) & Hf).
  specialize (Hf cur Hin Hid) as Hfc. simpl in *.
  assert (row_inv cur) as Hcur by by apply (proj1 (Forall_forall _ _) Hinv).
  destruct (write_inv o n cur Ha Hfc Hcur) as [Hw Hwm].
  set (r' := write o n cur) in *.
  assert (write_row t (o, n) = update_row r' t) as ->.
  { unfold write_row. simpl. by rewrite <- Hid, (find_row_of cur t). }
  destruct (update_replaces r' cur t Hok Hin) as [Hok' Hrows]; [done..|by destruct Hwm; auto|].
  assert (∀ z, z ∈ rows (update_row r' t) → z = r' ∨ z ∈ rows t ∧ row_id z ≠ row_id cur) as Hz.
  { intros z. rewrite Hrows, list_elem_of_fmap. intros (w & -> & Hwin).
    case_bool_decide as E; [by left|by right]. }
  split; [split; [done|]|].
  - apply Forall_forall. intros z [->|[Hzin _]]%Hz; [done|].
    by apply (proj1 (Forall_forall _ _) Hinv).
  - intros [o2 n2] (Ha2 & (c2 & Hc2 & Hi2) & Hf2). split_and!; [done| |].
    + simpl in *. destruct (decide (row_id c2 = row_id cur)) as [E|E].
      * exists r'. split; [|by rewrite <- Hi2, E]. rewrite Hrows. apply list_elem_of_fmap.
        exists cur. by rewrite bool_decide_eq_true_2.
      * exists c2. split; [|done]. rewrite Hrows. apply list_elem_of_fmap. exists c2.
        by rewrite bool_decide_eq_false_2.
    + intros z [->|[Hzin _]]%Hz Hzid; [|by apply Hf2]. simpl in Hzid.
      destruct (Hf2 cur Hin Hzid) as (Ht & Hk & Hm). split_and!; [done..|].
      change (row_marker r' = None ∨ row_marker r' = row_marker o2).
      destruct Hwm as [->| ->]; [by left|exact Hm].
Qed.

Lemma commit_sound t p :
  sound t → pending_ok t p →
  sound (default t (commit_pending p t)) ∧
  ∀ q, pending_ok t q → pending_ok (default t (commit_pending p t)) q.
Proof.
  destruct p as [r|l]; simpl.
  - intros [Hok Hinv] Hr. destruct (insert_row r t) as [t'|] eqn:Hins; [|done]. simpl.
    destruct (decide (Forall (compatible_rows r) (rows t))) as [Hc|Hc];
      [|by rewrite insert_refuses in Hins].
    destruct (insert_accepts _ _ Hok Hc) as (t2 & Hins2 & Hok2 & Hrows). simplify_eq.
    split; [split; [done|]; rewrite Hrows; by constructor|].
    intros [q|l]; [done|]. simpl. intros Hl. eapply Forall_impl; [exact Hl|].
    intros [o n] (Ha & (cur & Hin & Hid) & Hf). split_and!; [done| |].
    + exists cur. rewrite Hrows. split; [by right|done].
    + intros z. rewrite Hrows, elem_of_cons. intros [->|Hz] Hzid; [|by apply Hf].
      rewrite Forall_forall in Hc. destruct (Hc cur Hin) as [Hne _]. simpl in *. congruence.
  - intros Hs Hl. revert t Hs Hl. induction l as [|x l IH]; intros t Hs Hl; simpl; [done|].
    apply Forall_cons in Hl as [Hx Hl]. destruct (write_row_sound t x Hs Hx) as [Hs' Hk].
    destruct (IH _ Hs') as [Hs2 Hk2]; [eapply Forall_impl; [exact Hl|exact Hk]|].
    split; [done|]. intros q Hq. apply Hk2. destruct q as [r|l']; [done|].
    eapply Forall_impl; [exact Hq|exact Hk].
Qed.

Lemma planned_pending t p : sound t → planned t p → pending_ok t p.
Proof.
  intros [Hok _]. destruct p as [r|l]; simpl; [apply row_ok_inv|]. intros [_ Hl].
  eapply Forall_impl; [exact Hl|]. intros [o n] [Hin Ha]. simpl in *.
  split_and!; [done|by exists o|]. simpl. intros cur Hc Hid.
  assert (cur = o) as -> by by eapply same_id_same_row. split_and!; auto.
Qed.

Lemma db_step_sound c c' :
  db_step c c' → sound c.1 → Forall (pending_ok c.1) c.2 →
  sound c'.1 ∧ Forall (pending_ok c'.1) c'.2.
Proof.
  intros [t ps p Hp|t ps ps' p|t ps ps' p] Hs Hps; simpl in *.
  - split; [done|]. constructor; [|done]. apply planned_pending; [done|].
    apply plans_planned; [by apply rows_ids_NoDup, Hs|apply Hs|done].
  - rewrite !Forall_app, Forall_cons in Hps. destruct Hps as (H1 & Hp & H2).
    destruct (commit_sound t p Hs Hp) as [Hs' Hk]. split; [done|].
    apply Forall_app. split; (eapply Forall_impl; [done|exact Hk]).
  - rewrite !Forall_app, Forall_cons in Hps. destruct Hps as (H1 & _ & H2).
    split; [done|]. by apply Forall_app.
Qed.

Lemma db_steps_sound c c' :
  rtc db_step c c' → sound c.1 → Forall (pending_ok c.1) c.2 → sound c'.1.
Proof.
  induction 1 as [|c1 c2 c3 H12 _ IH]; [done|]. intros Hs Hps.
  destruct (db_step_sound _ _ H12 Hs Hps). by apply IH.
Qed.
End table_lemmas.

(** ** Properties *)

Section lease_theorems.
Context `{RowTableLaws}.

(** C15: In the database form at most one lease of a manager and connector is ever active,
    however the calls run side by side: each call reads the table, and its commit comes at
    any later moment or never, with the reads and commits of any number of other
    acquisitions, renewals, releases, recovery claims, recovery marks, blocks and clears of
    blocks in between. From any empty table, two active rows of a key are one row, an active
    row has the marker of its key, and a row with the marker is active or recovering. (A row
    in recovery may have lost its marker; see [claim_races_the_release].) *)
Theorem one_active_lease t t' ps i j a b :
  db_ok t → rows t = [] → rtc db_step (t, []) (t', ps) →
  rows t' !! i = Some a → rows t' !! j = Some b →
  (row_key a = row_key b → row_status a = "active" → row_status b = "active" → i = j) ∧
  (row_status a = "active" → row_marker a = Some "active") ∧
  (row_marker a = Some "active" → row_status a ∈ ["active"; "recovering"]).
Proof.
  intros Hok Hempty Hr Ha Hb.
  assert (sound t') as [Hok' Hinv].
  { apply (db_steps_sound _ _ Hr); [|done]. split; [done|]. simpl. by rewrite Hempty. }
  pose proof (Forall_lookup_1 _ _ _ _ Hinv Ha) as Hra.
  pose proof (Forall_lookup_1 _ _ _ _ Hinv Hb) as Hrb.
  split_and!.
  - intros Hk Hsa Hsb. destruct (decide (i = j)) as [|Hne]; [done|].
    destruct (rows_distinct t' i j a b Hok' Ha Hb Hne) as (_ & _ & Hc). destruct Hc.
    destruct Hra as [[? _]|[_ ?]], Hrb as [[? _]|[_ ?]]; split_and!; congruence.
  - by destruct Hra as [[? _]|[_ ?]].
  - by destruct Hra as [[_ ?]|[? _]]; [|congruence].
Qed.

(** When the calls of the database form come one after the other no two leases of a manager
    and connector are ever held at once: from any empty table, after any calls with any
    arguments, two rows of a key that are active or recovering are the same row, and the
    marker is set on exactly the held rows. *)
Theorem db_single_holder t t' i j a b :
  db_ok t → rows t = [] → rtc db_call t t' →
  rows t' !! i = Some a → rows t' !! j = Some b →
  (row_key a = row_key b → row_held a = true → row_held b = true → i = j) ∧
  (row_held a = true ↔ row_marker a = Some "active").
Proof.
  intros Hok Hempty Hr Ha Hb.
  assert (good t') as Hg.
  { eapply db_calls_good; [|done]. split; [done|]. unfold table_inv. by rewrite Hempty. }
  split; [intros; by eapply (held_row_unique t' i j a b)|].
  apply row_held_marker. destruct Hg as [_ Hinv]. by eapply Forall_lookup_1.
Qed.

(** [_db_acquire] with a fresh identifier and token grants the lease exactly when no
    row of its manager and connector is held; it never raises, a refusal changes
    nothing, and a granted lease is stored with the marker. *)
Theorem db_acquire_iff_free t0 t l :
  db_ok t0 → rows t0 = [] → rtc db_call t0 t →
  Forall (λ r, row_id r ≠ rl_id l ∧ row_token r ≠ rl_token l) (rows t) →
  (Exists (λ r, row_key r = lease_key l ∧ row_held r = true) (rows t) ∧
     _db_acquire l t = (Ok None, t)) ∨
  (Forall (λ r, row_key r = lease_key l → row_held r = false) (rows t) ∧
     ∃ t', _db_acquire l t = (Ok (Some l), t') ∧ rows t' ≡ₚ row_of_lease l :: rows t).
Proof.
  intros Hok0 Hempty Hr Hfresh.
  assert (good t) as Hg.
  { eapply db_calls_good; [|done]. split; [done|]. unfold table_inv. by rewrite Hempty. }
  pose proof Hg as [Hok Hinv].
  rewrite db_acquire_eq.
  destruct (marked_cases (lease_key l) t Hg) as [Hm|[r Hm]]; rewrite Hm; simpl.
  - assert (Forall (λ r, row_key r = lease_key l → row_held r = false) (rows t)) as Hfree.
    { apply Forall_forall. intros r Hin Hk. apply not_true_is_false. intros Hh.
      apply row_held_marker in Hh; [|by apply (proj1 (Forall_forall _ _) Hinv)].
      assert (r ∈ marked (lease_key l) t) as Hin' by by apply list_elem_of_filter.
      rewrite Hm in Hin'. by apply not_elem_of_nil in Hin'. }
    right. split; [done|].
    destruct (insert_accepts (row_of_lease l) t Hok) as (t' & -> & _ & Hrows); [|by exists t'].
    apply Forall_forall. intros r Hin. unfold table_inv in Hinv. rewrite Forall_forall in Hfresh, Hfree, Hinv.
    destruct (Hfresh r Hin) as [Hid Htok]. split_and!; [done|done|].
    intros (Hk & Hmk & _). simpl in Hmk.
    specialize (Hfree r Hin (eq_sym Hk)).
    assert (row_held r = true); [|congruence]. apply row_held_marker; [by apply Hinv|done].
  - left. split; [|done]. apply Exists_exists. exists r.
    assert (r ∈ marked (lease_key l) t) as [[Hk Hmk] Hin]%list_elem_of_filter
      by (rewrite Hm; left).
    split; [done|]. split; [done|]. apply row_held_marker; [|done].
    by apply (proj1 (Forall_forall _ _) Hinv).
Qed.
End lease_theorems.

(** In the memory form, as long as recoveries are ended by the lease that holds the
    marker, at most one stored lease of a manager and connector is ever held (active or
    recovering), whatever acquisitions, renewals, releases, recovery claims and marks,
    blocks and unblocks came before, and the marker of the key names it. *)
Theorem memory_single_holder `{PyLib} s k :
  rtc memory_call MemoryStore_init s →
  length (holders k s) ≤ 1 ∧
  ∀ id l, (id, l) ∈ holders k s → memory_by_key s !! k = Some id.
Proof.
  intros (Hi & _ & _ & Hn)%memory_reachable. split; [by apply holders_unique|].
  intros id l [[<- Hh] Hin]%list_elem_of_filter.
  apply dict_elem_get in Hin; [|done]. by apply (Hi _ _ Hin).
Qed.

(** [_memory_acquire] in a reachable store grants a lease exactly when no lease of its
    manager and connector is active or recovering, and refuses it otherwise without a
    change: an expired lease keeps blocking until its recovery ends, as in the database. *)
Theorem memory_acquire_iff_free `{PyLib} s l :
  rtc memory_call MemoryStore_init s →
  key_held (lease_key l) s ∧ _memory_acquire l s = (Ok None, s) ∨
  ¬ key_held (lease_key l) s ∧
    _memory_acquire l s = (Ok (Some l), mark_key (lease_key l) (rl_id l) (put_lease l s)).
Proof.
  intros [Hi [_ [Hinj _]]]%memory_reachable.
  destruct (memory_acquire_cases l s Hi) as [[(id & l0 & Hm & Hl & Hh) ->]|]; [left|by right].
  split; [|done]. exists id, l0. split_and!; [done| |done].
  apply (Hinj _ _ id); [|done]. by apply (Hi _ _ Hl).
Qed.

(** ** A table kept as a list, and concrete runs *)

Definition list_insert_row (r : ProviderRouteLeaseRow) (t : list ProviderRouteLeaseRow) :
    option (list ProviderRouteLeaseRow) :=
  if decide (Forall (compatible_rows r) t) then Some (r :: t) else None.

Definition list_update_row (r : ProviderRouteLeaseRow) (t : list ProviderRouteLeaseRow) :
    list ProviderRouteLeaseRow :=
  (λ x, if row_id x == row_id r then r else x) <$> t.

Definition list_table : RowTable :=
  {| table := list ProviderRouteLeaseRow; rows t := t; insert_row := list_insert_row;
     update_row := list_update_row |}.

Definition list_db_ok (t : list ProviderRouteLeaseRow) : Prop :=
  ∀ i j a b, t !! i = Some a → t !! j = Some b → i ≠ j → compatible_rows a b.

#[export] Instance compatible_rows_sym : Symmetric compatible_rows.
Proof.
  intros a b (Hid & Htok & Hm). split_and!; [done|done|].
  intros (? & ? & Hn). apply Hm. split_and!; [done|done|congruence].
Qed.

Lemma list_db_ok_insert r t :
  list_db_ok t → Forall (compatible_rows r) t → list_db_ok (r :: t).
Proof.
  intros Hok Hr [|i] [|j] a b; simpl; intros Ha Hb Hne; try done.
  - simplify_eq. by eapply Forall_lookup_1.
  - simplify_eq. symmetry. by eapply Forall_lookup_1.
  - apply (Hok i j); congruence.
Qed.

Lemma list_db_ok_update r r0 t :
  list_db_ok t → r0 ∈ t → row_id r0 = row_id r → row_token r0 = row_token r →
  (row_marker r = None ∨ row_key r0 = row_key r ∧ row_marker r0 = row_marker r) →
  list_db_ok (list_update_row r t).
Proof.
  intros Hok [k Hk]%list_elem_of_lookup Hid Htok Hm.
  assert (∀ i j a b, t !! i = Some a → t !! j = Some b → i ≠ j → row_id a = row_id r →
    compatible_rows r b) as Hnew.
  { intros i j a b Ha Hb Hne Hida. destruct (decide (i = k)) as [->|Hik].
    - rewrite Hk in Ha. injection Ha as <-.
      destruct (Hok _ _ _ _ Hk Hb Hne) as (H1 & H2 & H3).
      split_and!; [congruence|congruence|]. intros (Hc1 & Hc2 & Hc3). apply H3.
      destruct Hm as [|[? ?]]; [done|]. split_and!; congruence.
    - destruct (Hok _ _ _ _ Ha Hk Hik) as (H1 & _). congruence. }
  intros i j a b. unfold list_update_row. rewrite !list_lookup_fmap.
  destruct (t !! i) as [x|] eqn:Hx; [|done]. destruct (t !! j) as [y|] eqn:Hy; [|done].
  simpl. intros [= <-] [= <-] Hne. repeat case_bool_decide.
  - destruct (Hok _ _ _ _ Hx Hy Hne) as (? & _). congruence.
  - by eapply (Hnew i j).
  - symmetry. by eapply (Hnew j i).
  - by apply (Hok i j).
Qed.

Definition list_table_laws : @RowTableLaws list_table.
Proof.
  refine (@Build_RowTableLaws list_table list_db_ok _ _ _ _).
  - intros t i j a b Hok. apply (Hok i j).
  - intros r t Hok Hr. exists (r :: t). simpl. unfold list_insert_row.
    rewrite decide_True by done. split; [done|]. split; [by apply list_db_ok_insert|done].
  - intros r t _ Hr. simpl. unfold list_insert_row. by rewrite decide_False.
  - intros r r0 t Hok Hin Hid Htok Hm. split; [|done]. by apply (list_db_ok_update r r0).
Defined.

Section runs.
#[local] Existing Instance list_table.
#[local] Existing Instance list_table_laws.
#[local] Existing Instance counting_lib.

(** Lease [id] on the route of hermes and c1, for ten microseconds from [now]. *)
Definition lease_on (now : Z) (id : string) : ProviderRouteLease :=
  new_lease now 10 id ("tok-" +:+ id) "hermes" "c1" ("exec-" +:+ id) [] None None None.

Definition run_acquired : list ProviderRouteLeaseRow := (_db_acquire (lease_on 0 "a") []).2.
Definition run_released : list ProviderRouteLeaseRow :=
  (_db_release 1 1 "a" "tok-a" "exec-a" run_acquired).2.
Definition run_again : list ProviderRouteLeaseRow :=
  (_db_acquire (lease_on 2 "b") run_released).2.

Lemma run_again_reachable : rtc db_call [] run_again.
Proof.
  eapply rtc_l; [apply (dc_acquire _ (lease_on 0 "a"))|].
  eapply rtc_l; [apply (dc_release _ 1 1 "a" "tok-a" "exec-a")|].
  apply rtc_once, (dc_acquire _ (lease_on 2 "b")).
Qed.

(** Two calls of each table, side by side: the sessions of two acquisitions read the free
    key before either commits; the one that commits second is refused by the constraint. *)
Definition plan_of {A} (p : Plan A) : Pending :=
  match p with Commit p _ => p | Done _ => PendUpdate [] end.
Definition acquires (l : ProviderRouteLease) (t : list ProviderRouteLeaseRow) : Pending :=
  plan_of (acquire_read l t).
Definition commits (p : Pending) (t : list ProviderRouteLeaseRow) : list ProviderRouteLeaseRow :=
  default t (commit_pending p t).

Abbreviation no_rows := ([] : list ProviderRouteLeaseRow).
Abbreviation pending_b := (acquires (lease_on 0 "b") no_rows).
Abbreviation two_acquired := (commits pending_b (commits (acquires (lease_on 0 "a") no_rows) no_rows)).

Lemma two_acquired_reachable :
  rtc (@db_step list_table) (no_rows, []) (two_acquired, []).
Proof.
  eapply rtc_l; [eapply (@db_reads list_table _ [] pending_b), pl_acquire; reflexivity|].
  eapply rtc_l; [eapply (@db_reads list_table _ _ (acquires (lease_on 0 "a") no_rows)), pl_acquire; reflexivity|].
  eapply rtc_l; [apply (@db_commits list_table _ [] [pending_b])|].
  apply rtc_once. apply (@db_commits list_table _ [] []).
Qed.

Lemma one_active_lease_witness :
  row_id <$> two_acquired = ["a"] ∧
  match two_acquired !! 0 with
  | Some a => row_status a = "active" ∧
      (row_key a = row_key a → row_status a = "active" → row_status a = "active" → 0 = 0) ∧
      (row_status a = "active" → row_marker a = Some "active") ∧
      (row_marker a = Some "active" → row_status a ∈ ["active"; "recovering"])
  | None => False
  end.
Proof.
  split; [vm_compute; reflexivity|].
  destruct (two_acquired !! 0) as [a|] eqn:Ha; [|vm_compute in Ha; discriminate].
  split; [vm_compute in Ha; injection Ha as <-; reflexivity|].
  refine (one_active_lease [] two_acquired [] 0 0 a a _ _ two_acquired_reachable Ha Ha).
  - intros i j x y Hx. discriminate.
  - reflexivity.
Defined.

(** The claim of an expired lease reads it; before it commits, the owner releases the lease
    and another execution acquires the route. The claim then commits the status alone, for
    the marker it loaded has not changed: lease a is in recovery without a marker, with b
    active on the same route. *)
Definition race_claim : Pending := plan_of (claim_read 20 "a" "tok-a" "r" run_acquired).
Definition race_release : Pending :=
  plan_of (release_read 20 20 "a" "tok-a" "exec-a" run_acquired).
Definition race_released : list ProviderRouteLeaseRow := commits race_release run_acquired.
Definition race_acquired : list ProviderRouteLeaseRow :=
  commits (acquires (lease_on 20 "b") race_released) race_released.

Example claim_races_the_release :
  rtc (@db_step list_table) (run_acquired, []) (commits race_claim race_acquired, []) ∧
  (λ r, (row_id r, row_status r, row_marker r)) <$> commits race_claim race_acquired =
    [("b", "active", Some "active"); ("a", "recovering", None)].
Proof.
  split; [|vm_compute; reflexivity].
  eapply rtc_l; [eapply (@db_reads list_table _ [] race_claim), (pl_claim _ 20 "a" "tok-a" "r"); reflexivity|].
  eapply rtc_l; [eapply (@db_reads list_table _ _ race_release), (pl_release _ 20 20 "a" "tok-a" "exec-a"); reflexivity|].
  eapply rtc_l; [apply (@db_commits list_table _ [] [race_claim])|].
  eapply rtc_l;
    [eapply (@db_reads list_table _ _ (acquires (lease_on 20 "b") race_released)), (pl_acquire _ (lease_on 20 "b")); reflexivity|].
  eapply rtc_l; [apply (@db_commits list_table _ [] [race_claim])|].
  apply rtc_once. apply (@db_commits list_table _ [] []).
Qed.

Lemma db_acquire_iff_free_witness :
  (_db_acquire (lease_on 2 "b") run_acquired).1 = Ok None ∧
  (Exists (λ r, row_key r = lease_key (lease_on 2 "b") ∧ row_held r = true) run_acquired ∧
     _db_acquire (lease_on 2 "b") run_acquired = (Ok None, run_acquired) ∨
   Forall (λ r, row_key r = lease_key (lease_on 2 "b") → row_held r = false) run_acquired ∧
     ∃ t', _db_acquire (lease_on 2 "b") run_acquired = (Ok (Some (lease_on 2 "b")), t') ∧
       t' ≡ₚ row_of_lease (lease_on 2 "b") :: run_acquired).
Proof.
  split; [vm_compute; reflexivity|].
  refine (db_acquire_iff_free [] run_acquired (lease_on 2 "b") _ _ _ _).
  - intros i j x y Hx. discriminate.
  - reflexivity.
  - apply rtc_once, (dc_acquire _ (lease_on 0 "a")).
  - vm_compute. repeat constructor; discriminate.
Defined.

Definition mem_acquired : MemoryStore := (_memory_acquire (lease_on 0 "a") MemoryStore_init).2.
Definition mem_released : MemoryStore :=
  (_memory_release 1 "a" "tok-a" "exec-a" mem_acquired).2.
Definition mem_again : MemoryStore := (_memory_acquire (lease_on 2 "b") mem_released).2.

Lemma mem_again_reachable : rtc memory_call MemoryStore_init mem_again.
Proof.
  eapply rtc_l; [by apply (mc_acquire _ (lease_on 0 "a"))|].
  eapply rtc_l; [apply (mc_release _ 1 "a" "tok-a" "exec-a")|].
  apply rtc_once. by apply (mc_acquire _ (lease_on 2 "b")).
Qed.

Lemma memory_single_holder_witness :
  dict_keys (memory mem_again) = ["a"; "b"] ∧
  (holders ("hermes", "c1") mem_again).*1 = ["b"] ∧
  length (holders ("hermes", "c1") mem_again) ≤ 1 ∧
  (∀ id l, (id, l) ∈ holders ("hermes", "c1") mem_again →
     memory_by_key mem_again !! ("hermes", "c1") = Some id).
Proof.
  split; [vm_compute; reflexivity|]. split; [vm_compute; reflexivity|].
  exact (memory_single_holder mem_again ("hermes", "c1") mem_again_reachable).
Defined.

Lemma memory_acquire_iff_free_witness :
  (_memory_acquire (lease_on 3 "c") mem_again).1 = Ok None ∧
  (key_held (lease_key (lease_on 3 "c")) mem_again ∧
     _memory_acquire (lease_on 3 "c") mem_again = (Ok None, mem_again) ∨
   ¬ key_held (lease_key (lease_on 3 "c")) mem_again ∧
     _memory_acquire (lease_on 3 "c") mem_again =
       (Ok (Some (lease_on 3 "c")),
        mark_key (lease_key (lease_on 3 "c")) "c" (put_lease (lease_on 3 "c") mem_again))).
Proof.
  split; [vm_compute; reflexivity|].
  exact (memory_acquire_iff_free mem_again (lease_on 3 "c") mem_again_reachable).
Defined.

(** Ending the recovery of a lease that was already released frees the key of the next
    holder in the memory form: leases b and c are then both active. *)
Example stale_recovery_frees_the_next_holder :
  let s := (memory_mark_recovery "a" "tok-a" "restored" None mem_again).2 in
  let s' := (_memory_acquire (lease_on 3 "c") s).2 in
  is_active <$> memory_get "b" s' = Some true ∧ is_active <$> memory_get "c" s' = Some true.
Proof. vm_compute. split; reflexivity. Qed.

(** The same recovery in the database form leaves the holder's marker alone. *)
Example stale_recovery_in_the_database :
  let t := (db_mark_recovery 3 "a" "tok-a" "restored" None run_again).2 in
  (_db_acquire (lease_on 3 "c") t).1 = Ok None.
Proof. vm_compute. reflexivity. Qed.

(** The identifier of a block does not separate its parts: in the memory form a block of
    connector c:d of manager m is one of connector d of manager m:c too, and clearing
    either clears both. *)
Example blocks_collide :
  let s := memory_block_connector 0 0 0 0 "m" "c:d" "why" MemoryStore_init in
  memory_is_blocked "m:c" "d" s = Some "why" ∧
  memory_is_blocked "m" "c:d" (memory_clear_block "m:c" "d" s) = None.
Proof. vm_compute. split; reflexivity. Qed.

(** A renewal that comes too late frees the key in the database form, where the memory
    form keeps it blocked until a recovery. *)
Example late_renewal_diverges :
  (_db_acquire (lease_on 12 "b") (_db_renew 11 "a" "tok-a" "exec-a" 10 run_acquired).2).1 =
    Ok (Some (lease_on 12 "b")) ∧
  (_memory_acquire (lease_on 12 "b")
     (_memory_renew 11 "a" "tok-a" "exec-a" 10 mem_acquired).2).1 = Ok None.
Proof. vm_compute. split; reflexivity. Qed.
End runs.
