(* ===== verification/Delivery.v ===== *)
(** * Durable delivery of runtime facts

    [delivery/contracts.py], [delivery/outbox.py], [delivery/publisher.py],
    [delivery/worker.py] and the reference receiver [delivery/intake.py]. The outbox is
    one SQLite table and a counter; the table is a list of rows in the order they were
    inserted, and rows of one sequence number are read in that order. A JSON column holds
    the value its text reads back. Signing (Ed25519) is a parameter. The transport's
    answers, and what other tasks publish while the worker waits for one, are arguments. *)

From S2P Require Import Prelude Privacy.

(** ** Contracts *)

(* @src delivery/contracts.py:24-28 DeliveryKind *)
Inductive DeliveryKind := RUNTIME_SNAPSHOT | RUNTIME_EVENT | APPROVAL_REQUEST | HEARTBEAT.

Definition DeliveryKind_value (k : DeliveryKind) : string :=
  match k with
  | RUNTIME_SNAPSHOT => "runtime_snapshot"
  | RUNTIME_EVENT => "runtime_event"
  | APPROVAL_REQUEST => "approval_request"
  | HEARTBEAT => "heartbeat"
  end.
(** [DeliveryKind(s)]. *)
Definition DeliveryKind_of (s : string) : res DeliveryKind :=
  if s == "runtime_snapshot" then Ok RUNTIME_SNAPSHOT
  else if s == "runtime_event" then Ok RUNTIME_EVENT
  else if s == "approval_request" then Ok APPROVAL_REQUEST
  else if s == "heartbeat" then Ok HEARTBEAT
  else Raise (ValueError (repr_str s +:+ " is not a valid DeliveryKind")).

(* @src delivery/contracts.py:31-36 DeliveryAckStatus *)
Inductive DeliveryAckStatus := PENDING | SENT | ACKED | FAILED | DROPPED.

#[export] Instance DeliveryAckStatus_eq_dec : EqDecision DeliveryAckStatus.
Proof. solve_decision. Defined.

Definition DeliveryAckStatus_value (s : DeliveryAckStatus) : string :=
  match s with
  | PENDING => "pending" | SENT => "sent" | ACKED => "acked" | FAILED => "failed"
  | DROPPED => "dropped"
  end.
(** [DeliveryAckStatus(s)]. *)
Definition DeliveryAckStatus_of (s : string) : res DeliveryAckStatus :=
  if s == "pending" then Ok PENDING
  else if s == "sent" then Ok SENT
  else if s == "acked" then Ok ACKED
  else if s == "failed" then Ok FAILED
  else if s == "dropped" then Ok DROPPED
  else Raise (ValueError (repr_str s +:+ " is not a valid DeliveryAckStatus")).

(* @src delivery/contracts.py:39-44 PublisherIdentity *)
Record PublisherIdentity := {
  publisher_id : string;
  public_key : option string;
  instance_id : string;
  organisation_id : string
}.

(* @src delivery/contracts.py:46-52 PublisherIdentity.as_dict *)
Definition PublisherIdentity_as_dict (p : PublisherIdentity) : dict :=
  [("publisher_id", PStr (publisher_id p)); ("public_key", ostr (public_key p));
   ("instance_id", PStr (instance_id p)); ("organisation_id", PStr (organisation_id p))].

(* @src delivery/contracts.py:55-71 DeliveryEnvelope *)
Record DeliveryEnvelope := {
  envelope_id : string;
  kind : DeliveryKind;
  sequence : Z;
  observed_at : Z;
  publisher : PublisherIdentity;
  payload : dict;
  payload_hash : string;
  schema_version : Z;
  transport_version : Z;
  signature : option string;
  key_id : option string;
  signature_algorithm : option string;
  idempotency_key : string
}.

(** [envelope.idempotency_key or envelope.envelope_id]. *)
Definition envelope_key (e : DeliveryEnvelope) : string :=
  if idempotency_key e == "" then envelope_id e else idempotency_key e.

Section contracts.
Context `{PyLib}.

(* @src delivery/contracts.py:73-88 DeliveryEnvelope.as_dict *)
Definition DeliveryEnvelope_as_dict (e : DeliveryEnvelope) : dict :=
  [("envelope_id", PStr (envelope_id e)); ("kind", PStr (DeliveryKind_value (kind e)));
   ("sequence", PInt (sequence e)); ("observed_at", PStr (isoformat (observed_at e)));
   ("publisher", PDict (PublisherIdentity_as_dict (publisher e)));
   ("payload", PDict (payload e)); ("payload_hash", PStr (payload_hash e));
   ("schema_version", PInt (schema_version e));
   ("transport_version", PInt (transport_version e)); ("signature", ostr (signature e));
   ("key_id", ostr (key_id e)); ("signature_algorithm", ostr (signature_algorithm e));
   ("idempotency_key", PStr (envelope_key e))].

(* @src delivery/contracts.py:90-101 DeliveryEnvelope.canonical_signed_bytes *)
Definition canonical_signed_bytes (e : DeliveryEnvelope) : string :=
  json_compact (PDict
    [("protocol_version", PInt (transport_version e));
     ("publisher_id", PStr (publisher_id (publisher e)));
     ("organisation_id", PStr (organisation_id (publisher e)));
     ("sequence", PInt (sequence e));
     ("message_type", PStr (DeliveryKind_value (kind e)));
     ("content_hash", PStr (payload_hash e));
     ("observed_at", PStr (isoformat (observed_at e)));
     ("payload_hash", PStr (payload_hash e))]).

(* @src delivery/contracts.py:103-106 DeliveryEnvelope.hash_payload *)
Definition hash_payload (payload : dict) : string := sha256_hex (json_compact (PDict payload)).

(** [uid] is the fresh identifier and [now] the clock reading. *)
(* @src delivery/contracts.py:108-133 DeliveryEnvelope.build *)
Definition DeliveryEnvelope_build (uid : string) (now : Z) (k : DeliveryKind) (seq : Z)
    (p : PublisherIdentity) (body : dict) (key algorithm idempotency : option string) :
    DeliveryEnvelope :=
  {| envelope_id := uid; kind := k; sequence := seq; observed_at := now; publisher := p;
     payload := body; payload_hash := hash_payload body; schema_version := 1;
     transport_version := 1; signature := None; key_id := key;
     signature_algorithm := algorithm; idempotency_key := default "" idempotency |}.
End contracts.

(** ** The outbox *)

(* @src delivery/outbox.py:57-70 DeliveryOutbox._init_schema *)
Record OutboxRow := {
  ob_id : string;
  ob_kind : string;
  ob_sequence : Z;
  ob_status : string;
  ob_attempts : Z;
  ob_key : string;
  ob_hash : string;
  ob_json : dict;
  ob_created : string;
  ob_updated : string
}.

(** The rows, and the value of the key [sequence] of the meta table. *)
(* @src delivery/outbox.py:37-85 DeliveryOutbox.__init__ *)
Record DeliveryOutbox := {
  ob_rows : list OutboxRow;
  ob_counter : option string;
  max_entries : Z
}.

Definition DeliveryOutbox_init (max : Z) : DeliveryOutbox :=
  {| ob_rows := []; ob_counter := None; max_entries := Z.max 1 max |}.

Definition set_rows (l : list OutboxRow) (b : DeliveryOutbox) : DeliveryOutbox :=
  {| ob_rows := l; ob_counter := ob_counter b; max_entries := max_entries b |}.

(* @src delivery/outbox.py:26-33 OutboxRecord *)
Record OutboxRecord := {
  or_envelope : DeliveryEnvelope;
  or_status : DeliveryAckStatus;
  or_attempts : Z;
  or_created_at : Z;
  or_updated_at : Z
}.

Definition ob_leb (a b : OutboxRow) : bool := (ob_sequence a <=? ob_sequence b)%Z.

(** [SELECT * ... WHERE envelope_id=?] and [WHERE idempotency_key=?], [fetchone]. *)
Definition row_of_id (id : string) (l : list OutboxRow) : option OutboxRow :=
  snd <$> list_find (λ r, ob_id r = id) l.
Definition row_of_key (key : string) (l : list OutboxRow) : option OutboxRow :=
  snd <$> list_find (λ r, ob_key r = key) l.

(* @src delivery/outbox.py:87-100 DeliveryOutbox.next_sequence *)
Definition next_sequence : M DeliveryOutbox Z :=
  b ← get_state;
  current ← lift_res (match ob_counter b with
                      | Some v => py_int (PStr v)
                      | None => Ok 0%Z
                      end);
  let nxt := (current + 1)%Z in
  modify_state (λ b, {| ob_rows := ob_rows b; ob_counter := Some (pretty nxt);
                        max_entries := max_entries b |});;
  mret nxt.

(** The loop of [compact]; a table too large has an oldest row, and every turn deletes
    one, so as many turns as rows are enough. *)
(* @src delivery/outbox.py:189-208 DeliveryOutbox.compact *)
Fixpoint compact_loop (fuel : nat) (max : Z) (l : list OutboxRow) : list OutboxRow :=
  match fuel with
  | O => l
  | S fuel =>
      if (Z.of_nat (length l) <=? max)%Z then l
      else match py_sorted ob_leb l with
           | [] => l
           | r :: _ => compact_loop fuel max (filter (λ x, ob_id x ≠ ob_id r) l)
           end
  end.

(* @src delivery/outbox.py:185-211 DeliveryOutbox.compact *)
Definition compact : M DeliveryOutbox Z :=
  b ← get_state;
  let l := compact_loop (length (ob_rows b)) (max_entries b) (ob_rows b) in
  modify_state (set_rows l);;
  mret (Z.of_nat (length (ob_rows b)) - Z.of_nat (length l))%Z.

(** Readings of a stored envelope. The rows hold what [append] wrote: a value of another
    type, which no row has, is refused. *)
Definition read_str (v : pyval) : res string :=
  match v with PStr s => Ok s | _ => Raise (TypeError "str expected") end.
Definition read_ostr (v : pyval) : res (option string) :=
  match v with
  | PStr s => Ok (Some s) | PNone => Ok None | _ => Raise (TypeError "str expected")
  end.
Definition read_dict (v : pyval) : res dict :=
  match v with PDict d => Ok d | _ => Raise (TypeError "mapping expected") end.
(** [payload[k]]. *)
Definition item (k : string) (d : dict) : res pyval :=
  match dict_get k d with Some v => Ok v | None => Raise (KeyError k) end.
(** [payload.get(k, v)]. *)
Definition get_or (k : string) (v : pyval) (d : dict) : pyval := default v (dict_get k d).

Section outbox.
Context `{PyLib}.

Definition read_time (v : string) : res Z :=
  match fromisoformat v with
  | Some t => Ok t
  | None => Raise (ValueError ("Invalid isoformat string: " +:+ repr_str v))
  end.

(* @src delivery/outbox.py:247-252 DeliveryOutbox._row_to_record *)
Definition read_publisher (d : dict) : res PublisherIdentity :=
  res_bind (read_str (get_or "publisher_id" (PStr "joymesh") d)) (λ pid,
  res_bind (read_ostr (dget "public_key" d)) (λ pk,
  res_bind (read_str (get_or "instance_id" (PStr "unknown") d)) (λ iid,
  res_bind (read_str (get_or "organisation_id" (PStr "local") d)) (λ org,
  Ok {| publisher_id := pid; public_key := pk; instance_id := iid;
        organisation_id := org |})))).

(* @src delivery/outbox.py:240-261 DeliveryOutbox._row_to_record *)
Definition read_envelope (d : dict) : res DeliveryEnvelope :=
  res_bind (read_dict (py_or (dget "publisher" d) (PDict []))) (λ pd,
  res_bind (res_bind (item "envelope_id" d) read_str) (λ id,
  res_bind (res_bind (res_bind (item "kind" d) read_str) DeliveryKind_of) (λ k,
  res_bind (res_bind (item "sequence" d) py_int) (λ seq,
  res_bind (res_bind (res_bind (item "observed_at" d) read_str) read_time) (λ t,
  res_bind (read_publisher pd) (λ p,
  res_bind (read_dict (py_or (dget "payload" d) (PDict []))) (λ body,
  res_bind (res_bind (item "payload_hash" d) read_str) (λ hash,
  res_bind (py_int (get_or "schema_version" (PInt 1) d)) (λ sv,
  res_bind (py_int (get_or "transport_version" (PInt 1) d)) (λ tv,
  res_bind (read_ostr (dget "signature" d)) (λ sg,
  res_bind (read_ostr (dget "key_id" d)) (λ kid,
  res_bind (read_ostr (dget "signature_algorithm" d)) (λ alg,
  res_bind (if truthy (dget "idempotency_key" d) then read_str (dget "idempotency_key" d)
            else Ok id) (λ key,
  Ok {| envelope_id := id; kind := k; sequence := seq; observed_at := t; publisher := p;
        payload := body; payload_hash := hash; schema_version := sv;
        transport_version := tv; signature := sg; key_id := kid;
        signature_algorithm := alg; idempotency_key := key |})))))))))))))).

(* @src delivery/outbox.py:239-268 DeliveryOutbox._row_to_record *)
Definition _row_to_record (r : OutboxRow) : res OutboxRecord :=
  res_bind (read_envelope (ob_json r)) (λ e,
  res_bind (DeliveryAckStatus_of (ob_status r)) (λ st,
  res_bind (read_time (ob_created r)) (λ created,
  res_bind (read_time (ob_updated r)) (λ updated,
  Ok {| or_envelope := e; or_status := st; or_attempts := ob_attempts r;
        or_created_at := created; or_updated_at := updated |})))).

(* @src delivery/outbox.py:113-133 DeliveryOutbox.append *)
Definition new_row (now : Z) (e : DeliveryEnvelope) : OutboxRow :=
  {| ob_id := envelope_id e; ob_kind := DeliveryKind_value (kind e);
     ob_sequence := sequence e; ob_status := DeliveryAckStatus_value PENDING;
     ob_attempts := 0; ob_key := envelope_key e; ob_hash := payload_hash e;
     ob_json := json_dict (DeliveryEnvelope_as_dict e); ob_created := isoformat now;
     ob_updated := isoformat now |}.

(* @src delivery/outbox.py:102-141 DeliveryOutbox.append *)
Definition append (now : Z) (e : DeliveryEnvelope) : M DeliveryOutbox OutboxRecord :=
  b ← get_state;
  match row_of_key (envelope_key e) (ob_rows b) with
  | Some existing => lift_res (_row_to_record existing)
  | None =>
      match row_of_id (envelope_id e) (ob_rows b) with
      | Some _ => raise (Exn "IntegrityError" "" "UNIQUE constraint failed")
      | None =>
          modify_state (set_rows (ob_rows b ++ [new_row now e]));;
          compact;;
          b ← get_state;
          match row_of_id (envelope_id e) (ob_rows b) with
          | None => raise AssertionError
          | Some row => lift_res (_row_to_record row)
          end
      end
  end.

(** [bump_attempts] is set by both callers. *)
(* @src delivery/outbox.py:213-237 DeliveryOutbox._set_status *)
Definition _set_status (now : Z) (id : string) (status : DeliveryAckStatus) :
    M DeliveryOutbox unit :=
  modify_state (λ b, set_rows ((λ r,
    if ob_id r == id then
      {| ob_id := ob_id r; ob_kind := ob_kind r; ob_sequence := ob_sequence r;
         ob_status := DeliveryAckStatus_value status; ob_attempts := ob_attempts r + 1;
         ob_key := ob_key r; ob_hash := ob_hash r; ob_json := ob_json r;
         ob_created := ob_created r; ob_updated := isoformat now |}
    else r) <$> ob_rows b) b).

(* @src delivery/outbox.py:143-144 DeliveryOutbox.mark_sent *)
Definition mark_sent (now : Z) (id : string) : M DeliveryOutbox unit := _set_status now id SENT.
(* @src delivery/outbox.py:154-155 DeliveryOutbox.mark_failed *)
Definition mark_failed (now : Z) (id : string) : M DeliveryOutbox unit :=
  _set_status now id FAILED.
(* @src delivery/outbox.py:146-152 DeliveryOutbox.mark_acked *)
Definition mark_acked (id : string) : M DeliveryOutbox unit :=
  modify_state (λ b, set_rows (filter (λ r, ob_id r ≠ id) (ob_rows b)) b).

(** The rows [pending] selects. *)
(* @src delivery/outbox.py:159-173 DeliveryOutbox.pending *)
Definition pending_rows (limit : Z) (l : list OutboxRow) : list OutboxRow :=
  take (Z.to_nat (Z.max 1 limit))
    (py_sorted ob_leb (filter (λ r, ob_status r ∈ ["pending"; "failed"]) l)).

(* @src delivery/outbox.py:157-174 DeliveryOutbox.pending *)
Definition pending (limit : Z) (b : DeliveryOutbox) : res (list OutboxRecord) :=
  traverse _row_to_record (pending_rows limit (ob_rows b)).

(* @src delivery/outbox.py:176-179 DeliveryOutbox.size *)
Definition size (b : DeliveryOutbox) : Z := Z.of_nat (length (ob_rows b)).
End outbox.

(** ** Publisher and worker

    The worker's state holds the outbox it drains and the publisher that fills it, the
    number of clock readings and identifiers taken so far, and [wk_sent], the identifiers
    handed to [transport.publish] in order. *)

(* @src delivery/publisher.py:28-71 RuntimeDeliveryPublisher *)
Record RuntimeDeliveryPublisher := {
  private_key : option string;
  pub_key_id : option string;
  identity : PublisherIdentity
}.

(* @src delivery/worker.py:13-39 DeliveryWorker.__init__ *)
Record DeliveryWorker := {
  outbox : DeliveryOutbox;
  batch_size : Z;
  max_attempts : Z;
  st_published : Z;
  st_acked : Z;
  st_failed : Z;
  st_replays : Z;
  st_unavailable : Z;
  wk_sent : list string;
  wk_ticks : nat
}.

Definition DeliveryWorker_init (b : DeliveryOutbox) (batch attempts : Z) : DeliveryWorker :=
  {| outbox := b; batch_size := Z.max 1 batch; max_attempts := Z.max 1 attempts;
     st_published := 0; st_acked := 0; st_failed := 0; st_replays := 0;
     st_unavailable := 0; wk_sent := []; wk_ticks := 0 |}.

Definition set_outbox (b : DeliveryOutbox) (w : DeliveryWorker) : DeliveryWorker :=
  {| outbox := b; batch_size := batch_size w; max_attempts := max_attempts w;
     st_published := st_published w; st_acked := st_acked w; st_failed := st_failed w;
     st_replays := st_replays w; st_unavailable := st_unavailable w;
     wk_sent := wk_sent w; wk_ticks := wk_ticks w |}.

(** [stats["..."] += n] for each counter. *)
Definition bump (published acked failed replays unavailable : Z) : M DeliveryWorker unit :=
  modify_state (λ w,
    {| outbox := outbox w; batch_size := batch_size w; max_attempts := max_attempts w;
       st_published := st_published w + published; st_acked := st_acked w + acked;
       st_failed := st_failed w + failed; st_replays := st_replays w + replays;
       st_unavailable := st_unavailable w + unavailable; wk_sent := wk_sent w;
       wk_ticks := wk_ticks w |}).

Definition on_outbox {A} (m : M DeliveryOutbox A) : M DeliveryWorker A := zoom outbox set_outbox m.

(** One clock reading or identifier. *)
Definition tick : M DeliveryWorker nat :=
  w ← get_state;
  modify_state (λ w,
    {| outbox := outbox w; batch_size := batch_size w; max_attempts := max_attempts w;
       st_published := st_published w; st_acked := st_acked w; st_failed := st_failed w;
       st_replays := st_replays w; st_unavailable := st_unavailable w;
       wk_sent := wk_sent w; wk_ticks := S (wk_ticks w) |});;
  mret (wk_ticks w).

(** The call of [transport.publish] is observed. *)
Definition hand_over (id : string) : M DeliveryWorker unit :=
  modify_state (λ w,
    {| outbox := outbox w; batch_size := batch_size w; max_attempts := max_attempts w;
       st_published := st_published w; st_acked := st_acked w; st_failed := st_failed w;
       st_replays := st_replays w; st_unavailable := st_unavailable w;
       wk_sent := wk_sent w ++ [id]; wk_ticks := wk_ticks w |}).

(** What a caller of the publisher asks for. *)
Record request := { rq_kind : DeliveryKind; rq_payload : dict; rq_key : option string }.

(** What the transport does with an envelope: an acknowledgement or an exception, and
    what other tasks publish in the meantime. *)
Record answer := { at_ack : res DeliveryAckStatus; at_meanwhile : list request }.

Section worker.
Context `{PyLib}.
(** [sign_bytes(message, private_key)] of the cryptography package. *)
Context (sign_bytes : string → string → res string) (pub : RuntimeDeliveryPublisher).

(* @src delivery/publisher.py:128-135 RuntimeDeliveryPublisher._append *)
Definition signed (e : DeliveryEnvelope) : res DeliveryEnvelope :=
  match private_key pub with
  | None => Ok e
  | Some k =>
      res_bind (sign_bytes (canonical_signed_bytes e) k) (λ sg,
      Ok {| envelope_id := envelope_id e; kind := kind e; sequence := sequence e;
            observed_at := observed_at e; publisher := publisher e; payload := payload e;
            payload_hash := payload_hash e; schema_version := schema_version e;
            transport_version := transport_version e; signature := Some sg;
            key_id := key_id e; signature_algorithm := signature_algorithm e;
            idempotency_key := idempotency_key e |})
  end.

(* @src delivery/publisher.py:111-137 RuntimeDeliveryPublisher._append *)
Definition _append (rq : request) : M DeliveryWorker DeliveryEnvelope :=
  seq ← on_outbox next_sequence;
  u ← tick;
  t ← tick;
  e ← lift_res (signed (DeliveryEnvelope_build (uuid_str u) (clock t) (rq_kind rq) seq
        (identity pub) (rq_payload rq) (pub_key_id pub)
        (match private_key pub with
         | Some k => if k == "" then None else Some "ed25519"
         | None => None
         end) (rq_key rq)));
  t' ← tick;
  on_outbox (append (clock t') e);;
  mret e.

(** The guard in front of every publication. *)
Definition guard_privacy (body : dict) : M DeliveryWorker unit :=
  match assert_privacy body with
  | Some r => lift_res r
  | None => mret tt
  end.

(** [snapshot.as_dict()] and its identifier are given. *)
(* @src delivery/publisher.py:73-80 RuntimeDeliveryPublisher.publish_snapshot *)
Definition publish_snapshot (snapshot_id : string) (body : dict) :
    M DeliveryWorker DeliveryEnvelope :=
  guard_privacy body;;
  _append {| rq_kind := RUNTIME_SNAPSHOT; rq_payload := body;
             rq_key := Some ("snapshot:" +:+ snapshot_id) |}.

(* @src delivery/publisher.py:82-95 RuntimeDeliveryPublisher.publish_event *)
Definition publish_event (event_type : string) (body : dict) (key : option string) :
    M DeliveryWorker DeliveryEnvelope :=
  let body := [("event_type", PStr event_type); ("payload", PDict body)] in
  guard_privacy body;;
  _append {| rq_kind := RUNTIME_EVENT; rq_payload := body; rq_key := key |}.

(* @src delivery/publisher.py:97-109 RuntimeDeliveryPublisher.publish_approval_request *)
Definition publish_approval_request (body : dict) (key : string) :
    M DeliveryWorker DeliveryEnvelope :=
  guard_privacy body;;
  _append {| rq_kind := APPROVAL_REQUEST; rq_payload := body; rq_key := Some key |}.

(** A publication of another task; what it raises is that task's. *)
Definition other_task (rq : request) : M DeliveryWorker unit :=
  λ w, (Ok tt, (_append rq w).2).

Definition timed (m : Z → M DeliveryOutbox unit) : M DeliveryWorker unit :=
  t ← tick;
  on_outbox (m (clock t)).

(** One turn of the loop, with what it adds to [drained]. *)
(* @src delivery/worker.py:77-106 DeliveryWorker.flush_once *)
Definition flush_record (a : answer) (record : OutboxRecord) : M DeliveryWorker Z :=
  let id := envelope_id (or_envelope record) in
  w ← get_state;
  if (max_attempts w <=? or_attempts record)%Z then
    timed (λ t, mark_failed t id);;
    bump 0 0 1 0 0;;
    mret 0%Z
  else
    catch
      ((if (0 <? or_attempts record)%Z then bump 0 0 0 1 0 else mret tt);;
       timed (λ t, mark_sent t id);;
       bump 1 0 0 0 0;;
       hand_over id;;
       for_each (at_meanwhile a) other_task;;
       ack ← lift_res (at_ack a);
       if ack == ACKED then
         on_outbox (mark_acked id);;
         bump 0 1 0 0 0;;
         mret 1%Z
       else
         timed (λ t, mark_failed t id);;
         bump 0 0 1 0 0;;
         mret 0%Z)
      (λ e,
         if is_Exception e then
           timed (λ t, mark_failed t id);;
           bump 0 0 1 0 0;;
           mret 0%Z
         else raise e).

(* @src delivery/worker.py:75-106 DeliveryWorker.flush_once *)
Fixpoint flush_records (answers : list answer) (records : list OutboxRecord) (drained : Z) :
    M DeliveryWorker Z :=
  match records, answers with
  | [], _ | _, [] => mret drained
  | record :: records, a :: answers =>
      n ← flush_record a record;
      flush_records answers records (drained + n)
  end.

(** [connected]: whether [transport.connect()] returns. The transport answers the whole
    batch, one answer to a record. *)
(* @src delivery/worker.py:63-107 DeliveryWorker.flush_once *)
Definition flush_once (connected : bool) (answer_of : nat → answer) : M DeliveryWorker Z :=
  if connected then
    w ← get_state;
    records ← lift_res (pending (batch_size w) (outbox w));
    flush_records (answer_of <$> seq 0 (length records)) records 0
  else
    bump 0 0 0 0 1;;
    mret 0%Z.

(** [alive]: whether [transport.heartbeat()] returns. *)
(* @src delivery/worker.py:109-117 DeliveryWorker.heartbeat *)
Definition heartbeat (alive : bool) : M DeliveryWorker unit :=
  if alive then mret tt else bump 0 0 0 0 1.

(** What happens to the worker's state: publications, flushes (one that is cancelled
    included), heartbeats. *)
Inductive delivery_step (w : DeliveryWorker) : DeliveryWorker → Prop :=
| ds_publish rq : delivery_step w (_append rq w).2
| ds_flush connected answer_of : delivery_step w (flush_once connected answer_of w).2
| ds_heartbeat alive : delivery_step w (heartbeat alive w).2.
End worker.

(** ** The reference receiver *)

(* @src delivery/intake.py:94-104 RuntimeStateIntakeService._init_schema *)
Record IntakeRow := {
  in_id : string;
  in_kind : string;
  in_sequence : Z;
  in_key : string;
  in_hash : string;
  in_publisher : string;
  in_json : dict;
  in_accepted_at : string
}.

(* @src delivery/intake.py:68-86 RuntimeStateIntakeService.__init__ *)
Record RuntimeStateIntakeService := {
  allowed_publisher_ids : list string;
  require_publisher_id : option string;
  in_rows : list IntakeRow;
  received : list DeliveryEnvelope
}.

(** An empty [allowed_publisher_ids] means the default one. *)
Definition RuntimeStateIntakeService_init (allowed : list string) (required : option string) :
    RuntimeStateIntakeService :=
  {| allowed_publisher_ids := (match allowed with [] => ["joymesh"] | _ => allowed end);
     require_publisher_id := required; in_rows := []; received := [] |}.

(* @src delivery/intake.py:38-42 IntakeRejected *)
Definition IntakeRejected (code detail : string) : exn := Exn "IntakeRejected" code detail.

Section intake.
Context `{PyLib}.

(* @src delivery/intake.py:171-203 RuntimeStateIntakeService._validate *)
Definition _validate (s : RuntimeStateIntakeService) (e : DeliveryEnvelope) : res unit :=
  let pid := publisher_id (publisher e) in
  if negb (transport_version e =? 1)%Z then
    Raise (IntakeRejected "transport_version_mismatch"
             ("expected 1 got " +:+ pretty (transport_version e)))
  else if match require_publisher_id s with
          | Some r => (r != "") && (pid != r)
          | None => false
          end then
    Raise (IntakeRejected "invalid_publisher_identity"
             ("publisher_id " +:+ repr_str pid +:+ " not accepted"))
  else if negb (pid in? allowed_publisher_ids s) then
    Raise (IntakeRejected "invalid_publisher_identity"
             ("publisher_id " +:+ repr_str pid +:+ " not allowed"))
  else if payload_hash e != hash_payload (payload e) then
    Raise (IntakeRejected "payload_hash_mismatch" "payload hash does not match payload body")
  else match assert_privacy (payload e) with
       | Some (Raise exc) => Raise (IntakeRejected "privacy_violation" (exn_msg exc))
       | _ => Ok tt
       end.

(* @src delivery/intake.py:127-143 RuntimeStateIntakeService.accept *)
Definition intake_row (now : Z) (e : DeliveryEnvelope) : IntakeRow :=
  {| in_id := envelope_id e; in_kind := DeliveryKind_value (kind e);
     in_sequence := sequence e; in_key := envelope_key e; in_hash := payload_hash e;
     in_publisher := publisher_id (publisher e);
     in_json := json_dict (DeliveryEnvelope_as_dict e); in_accepted_at := isoformat now |}.

Definition set_intake (rows : list IntakeRow) (got : list DeliveryEnvelope)
    (s : RuntimeStateIntakeService) : RuntimeStateIntakeService :=
  {| allowed_publisher_ids := allowed_publisher_ids s;
     require_publisher_id := require_publisher_id s; in_rows := rows; received := got |}.

(* @src delivery/intake.py:111-147 RuntimeStateIntakeService.accept *)
Definition accept (now : Z) (e : DeliveryEnvelope) :
    M RuntimeStateIntakeService DeliveryAckStatus :=
  s ← get_state;
  lift_res (_validate s e);;
  match snd <$> list_find (λ r, in_key r = envelope_key e) (in_rows s) with
  | Some existing =>
      if in_hash existing == payload_hash e then
        modify_state (λ s, set_intake (in_rows s) (received s ++ [e]) s);;
        mret ACKED
      else raise (IntakeRejected "duplicate_conflict"
                    "idempotency key reused with conflicting payload")
  | None =>
      if envelope_id e in? (in_id <$> in_rows s) then
        raise (Exn "IntegrityError" "" "UNIQUE constraint failed")
      else
        modify_state (λ s, set_intake (in_rows s ++ [intake_row now e])
                             (received s ++ [e]) s);;
        mret ACKED
  end.
End intake.
