(* ===== verification/DeliveryProofs.v ===== *)
(** * Delivery: lemmas and properties

    The outbox stays bounded, unambiguous and readable; a flush deletes what was
    acknowledged and nothing else; no envelope is handed to the transport more often than
    half its attempts. *)

From Stdlib Require Import SpecFloat.
From S2P Require Import Prelude Privacy Delivery.

(** ** Dictionaries read back from JSON *)

Lemma dict_get_perm {V} k (d1 d2 : list (string * V)) :
  NoDup (dict_keys d1) → d1 ≡ₚ d2 → dict_get k d1 = dict_get k d2.
Proof.
  intros Hn Hp. assert (NoDup (dict_keys d2)) as Hn2.
  { unfold dict_keys in *. by rewrite <- Hp. }
  destruct (dict_get k d1) as [v|] eqn:H1.
  - symmetry. apply dict_elem_get; [done|]. rewrite <- Hp. by apply dict_get_Some_elem.
  - symmetry. apply dict_get_None. apply dict_get_None in H1. unfold dict_keys in *.
    by rewrite <- Hp.
Qed.

Lemma json_dict_get k d :
  NoDup (dict_keys d) → dict_get k (json_dict d) = json_norm <$> dict_get k d.
Proof.
  intros Hn. unfold json_dict. rewrite <- (dict_get_perm k ((λ '(k, x), (k, json_norm x)) <$> d)).
  - clear Hn. induction d as [|[k' x] d IH]; simpl; [done|]. by case_bool_decide.
  - clear k. unfold dict_keys in *. rewrite <- list_fmap_compose.
    erewrite list_fmap_ext; [exact Hn|]. by intros i [k x] _.
  - by rewrite py_sorted_Permutation.
Qed.

Section read_back.
Context `{PyLib}.
(** The text of a time reads back. *)
Context (iso_law : ∀ t, fromisoformat (isoformat t) = Some t).

(** What an envelope reads back as: its payload as JSON keeps it, its key filled in. *)
Definition stored_form (e : DeliveryEnvelope) : DeliveryEnvelope :=
  {| envelope_id := envelope_id e; kind := kind e; sequence := sequence e;
     observed_at := observed_at e; publisher := publisher e;
     payload := json_dict (payload e); payload_hash := payload_hash e;
     schema_version := schema_version e; transport_version := transport_version e;
     signature := signature e; key_id := key_id e;
     signature_algorithm := signature_algorithm e; idempotency_key := envelope_key e |}.

Lemma read_ostr_ostr o : read_ostr (json_norm (ostr o)) = Ok o.
Proof. by destruct o. Qed.

Lemma read_publisher_stored p :
  read_publisher (json_dict (PublisherIdentity_as_dict p)) = Ok p.
Proof.
  unfold read_publisher, get_or, dget.
  rewrite !json_dict_get by (apply (bool_decide_unpack _); reflexivity).
  simpl. rewrite read_ostr_ostr. by destruct p.
Qed.

Lemma as_dict_keys e : NoDup (dict_keys (DeliveryEnvelope_as_dict e)).
Proof. apply (bool_decide_unpack _). reflexivity. Qed.

Lemma DeliveryKind_of_value k : DeliveryKind_of (DeliveryKind_value k) = Ok k.
Proof. by destruct k. Qed.

Lemma DeliveryAckStatus_of_value s : DeliveryAckStatus_of (DeliveryAckStatus_value s) = Ok s.
Proof. by destruct s. Qed.

Lemma read_dict_stored d : read_dict (py_or (json_norm (PDict d)) (PDict [])) = Ok (json_dict d).
Proof. unfold py_or. change (json_norm (PDict d)) with (PDict (json_dict d)). by destruct (json_dict d). Qed.

#[local] Arguments json_norm : simpl never.
#[local] Arguments json_dict : simpl never.
#[local] Arguments PublisherIdentity_as_dict : simpl never.
#[local] Arguments read_publisher : simpl never.

Lemma read_envelope_stored e :
  read_envelope (json_dict (DeliveryEnvelope_as_dict e)) = Ok (stored_form e).
Proof.
  unfold read_envelope, item, get_or, dget.
  rewrite !json_dict_get by apply as_dict_keys. simpl.
  rewrite !read_dict_stored. simpl. rewrite DeliveryKind_of_value. simpl.
  unfold read_time. rewrite iso_law. simpl. 
  match goal with |- context [read_publisher ?d] =>
    change d with (json_dict (PublisherIdentity_as_dict (publisher e))) end.
  rewrite read_publisher_stored. simpl.
  rewrite !read_ostr_ostr. simpl. unfold stored_form.
  destruct (decide (envelope_key e = "")) as [Hk|Hk].
  - rewrite bool_decide_eq_true_2 by done. simpl. rewrite Hk. unfold envelope_key in Hk.
    destruct (decide (idempotency_key e = "")) as [Hi|Hi].
    + rewrite bool_decide_eq_true_2 in Hk by done. by rewrite Hk.
    + by rewrite bool_decide_eq_false_2 in Hk.
  - by rewrite bool_decide_eq_false_2.
Qed.
End read_back.

(** ** The rows of the outbox *)

Abbreviation ids l := (fmap (M := list) ob_id l) (only parsing).
Abbreviation keys l := (fmap (M := list) ob_key l) (only parsing).
Abbreviation seqs l := (fmap (M := list) ob_sequence l) (only parsing).

Lemma row_of_id_Some id l r : row_of_id id l = Some r → r ∈ l ∧ ob_id r = id.
Proof.
  unfold row_of_id. destruct (list_find _ _) as [[i r']|] eqn:Hf; simpl; [|done].
  intros [= <-]. apply list_find_Some in Hf as (Hl & ? & _).
  split; [by eapply list_elem_of_lookup_2|done].
Qed.

Lemma row_of_id_None id l : row_of_id id l = None ↔ id ∉ ids l.
Proof.
  unfold row_of_id. destruct (list_find _ _) as [[i r']|] eqn:Hf; simpl; split; try done.
  - apply list_find_Some in Hf as (Hl & Hid & _). intros Hni. destruct Hni.
    apply list_elem_of_fmap. exists r'. split; [done|by eapply list_elem_of_lookup_2].
  - apply list_find_None in Hf. intros _ [r [-> Hr]]%list_elem_of_fmap.
    by rewrite Forall_forall in Hf; apply (Hf r Hr).
Qed.

Lemma row_of_id_unique r l : NoDup (ids l) → r ∈ l → row_of_id (ob_id r) l = Some r.
Proof.
  intros Hn Hr. destruct (row_of_id (ob_id r) l) as [r'|] eqn:Hf.
  - apply row_of_id_Some in Hf as [Hr' Hid]. f_equal.
    apply list_elem_of_lookup in Hr as [i Hi]. apply list_elem_of_lookup in Hr' as [j Hj].
    assert (i = j); [|congruence].
    eapply (NoDup_lookup _ _ _ (ob_id r) Hn); rewrite list_lookup_fmap;
      [by rewrite Hi|by rewrite Hj; simpl; rewrite Hid].
  - apply row_of_id_None in Hf. destruct Hf. by apply list_elem_of_fmap_2.
Qed.

Lemma row_of_key_cases key l :
  (∃ r, row_of_key key l = Some r ∧ r ∈ l ∧ ob_key r = key) ∨
  row_of_key key l = None ∧ key ∉ keys l.
Proof.
  unfold row_of_key. destruct (list_find _ _) as [[i r]|] eqn:Hf; simpl; [left|right].
  - apply list_find_Some in Hf as (Hl & ? & _). exists r.
    split_and!; [done|by eapply list_elem_of_lookup_2|done].
  - split; [done|]. apply list_find_None in Hf. intros [r [-> Hr]]%list_elem_of_fmap.
    by rewrite Forall_forall in Hf; apply (Hf r Hr).
Qed.

(** Rows in the order of their sequence numbers are already sorted. *)
Lemma py_sorted_id {A} (leb : A → A → bool) l :
  StronglySorted (λ a b, leb a b = true) l → py_sorted leb l = l.
Proof.
  induction 1 as [|x l _ IH Hx]; simpl; [done|]. fold (py_sorted leb l). rewrite IH.
  destruct l as [|y l]; simpl; [done|]. apply Forall_cons in Hx as [-> _]. done.
Qed.

Lemma sorted_rows l : StronglySorted Z.lt (seqs l) → StronglySorted (λ a b, ob_leb a b = true) l.
Proof.
  induction l as [|r l IH]; simpl; [constructor|].
  intros [Hs Hf]%StronglySorted_inv. constructor; [by apply IH|].
  rewrite Forall_fmap in Hf. eapply Forall_impl; [exact Hf|]. intros x Hx. simpl in Hx.
  apply Z.leb_le. lia.
Qed.

Lemma sublist_Forall {A} (P : A → Prop) l1 l2 :
  l1 `sublist_of` l2 → Forall P l2 → Forall P l1.
Proof.
  induction 1; [done| |]; intros Hf; apply Forall_cons in Hf as [? ?]; [constructor|]; auto.
Qed.

Lemma StronglySorted_sublist {A} (R : A → A → Prop) l1 l2 :
  l1 `sublist_of` l2 → StronglySorted R l2 → StronglySorted R l1.
Proof.
  induction 1 as [|x l1 l2 Hl IH|x l1 l2 Hl IH]; intros Hs; [constructor| |].
  - apply StronglySorted_inv in Hs as [Hs Hf]. constructor; [by apply IH|].
    by eapply sublist_Forall.
  - apply StronglySorted_inv in Hs as [Hs _]. by apply IH.
Qed.

Lemma StronglySorted_app_1 l x :
  StronglySorted Z.lt l → Forall (λ y, y < x)%Z l → StronglySorted Z.lt (l ++ [x]).
Proof.
  induction 1 as [|y l Hl IH Hy]; simpl; intros Hf; [repeat constructor|].
  apply Forall_cons in Hf as [Hyx Hf]. constructor; [by apply IH|].
  apply Forall_app. split; [done|by repeat constructor].
Qed.

Lemma filter_other_id r l :
  NoDup (ids (r :: l)) → filter (λ x, ob_id x ≠ ob_id r) (r :: l) = l.
Proof.
  intros [Hni Hn]%NoDup_cons. rewrite filter_cons_False by (intros []; done).
  clear Hn. induction l as [|x l IH]; [done|].
  rewrite filter_cons_True by set_solver. f_equal. apply IH. set_solver.
Qed.

(** Compaction keeps the newest rows. *)
Lemma compact_loop_spec fuel max l :
  (0 ≤ max)%Z → length l ≤ fuel → NoDup (ids l) → StronglySorted Z.lt (seqs l) →
  compact_loop fuel max l = drop (length l - Z.to_nat max) l.
Proof.
  intros Hmax. revert l. induction fuel as [|fuel IH]; intros l Hf Hn Hs; simpl.
  { by destruct l; simpl in *; [|lia]. }
  destruct (Z.leb_spec (Z.of_nat (length l)) max) as [Hle|Hgt].
  { by replace (length l - Z.to_nat max) with 0 by lia. }
  rewrite py_sorted_id by by apply sorted_rows.
  destruct l as [|r l]; [done|]. rewrite filter_other_id by done.
  assert (NoDup (ids l)) as Hn' by by apply NoDup_cons in Hn as [_ ?].
  assert (StronglySorted Z.lt (seqs l)) as Hs'.
  { change (StronglySorted Z.lt (ob_sequence r :: seqs l)) in Hs.
    by apply StronglySorted_inv in Hs as [? _]. }
  simpl in Hf, Hgt. rewrite IH by (done || lia).
  replace (length (r :: l) - Z.to_nat max) with (S (length l - Z.to_nat max))
    by (simpl; lia). done.
Qed.

(** ** The invariant *)

Section delivery_lemmas.
Context `{PyLib}.
Context (iso_law : ∀ t, fromisoformat (isoformat t) = Some t).
Context (uuid_inj : Inj (=) (=) uuid_str).
Context (sign_bytes : string → string → res string) (pub : RuntimeDeliveryPublisher).
(** The bounds the outbox and the worker were made with. *)
Context (limit attempts : Z).

(** A row that holds an envelope. *)
Definition holds (e : DeliveryEnvelope) (r : OutboxRow) : Prop :=
  ob_id r = envelope_id e ∧ ob_sequence r = sequence e ∧ ob_key r = envelope_key e ∧
  ob_json r = json_dict (DeliveryEnvelope_as_dict e) ∧
  (∃ st, ob_status r = DeliveryAckStatus_value st) ∧
  (∃ t, ob_created r = isoformat t) ∧ (∃ t, ob_updated r = isoformat t).

Definition counter_is (b : DeliveryOutbox) (c : Z) : Prop :=
  (ob_counter b = None ∧ c = 0%Z) ∨ ob_counter b = Some (pretty c).

(** [c] is the last sequence number given out. *)
Definition box_inv (b : DeliveryOutbox) (c : Z) : Prop :=
  (1 ≤ max_entries b ∧ max_entries b = limit)%Z ∧ (Z.of_nat (length (ob_rows b)) ≤ max_entries b)%Z ∧
  counter_is b c ∧ Forall (λ x, x ≤ c)%Z (seqs (ob_rows b)) ∧
  StronglySorted Z.lt (seqs (ob_rows b)) ∧ NoDup (ids (ob_rows b)) ∧
  NoDup (keys (ob_rows b)) ∧ Forall (λ r, ∃ e, holds e r) (ob_rows b).

Lemma row_reads_back e r :
  holds e r → ∃ rec, _row_to_record r = Ok rec ∧ or_envelope rec = stored_form e ∧
    or_attempts rec = ob_attempts r.
Proof.
  intros (Hid & Hseq & Hkey & Hjson & [st Hst] & [t1 Ht1] & [t2 Ht2]).
  unfold _row_to_record. rewrite Hjson, read_envelope_stored by done. simpl.
  rewrite Hst, DeliveryAckStatus_of_value, Ht1, Ht2. unfold read_time.
  rewrite !iso_law. simpl. by eexists.
Qed.

Lemma new_row_holds now e : holds e (new_row now e).
Proof. split_and!; try done; by eexists. Qed.

Lemma holds_id_key e1 e2 r : holds e1 r → holds e2 r → envelope_id e1 = envelope_id e2.
Proof. intros (<- & _) (<- & _). done. Qed.

Lemma next_sequence_spec b c :
  counter_is b c →
  next_sequence b = (Ok (c + 1)%Z, {| ob_rows := ob_rows b; ob_counter := Some (pretty (c + 1)%Z);
                                     max_entries := max_entries b |}).
Proof.
  intros Hc. unfold next_sequence, mbind, M_bind, get_state, lift_res.
  destruct Hc as [[-> ->]| ->]; [done|].
  unfold py_int. by rewrite int_of_str_pretty.
Qed.

(** The rows of the outbox after an accepted envelope. *)
Definition appended (now : Z) (e : DeliveryEnvelope) (b : DeliveryOutbox) : DeliveryOutbox :=
  set_rows (drop (S (length (ob_rows b)) - Z.to_nat (max_entries b))
              (ob_rows b ++ [new_row now e])) b.

Lemma sublist_drop {A} n (l : list A) : (drop n l) `sublist_of` l.
Proof. revert n. induction l as [|x l IH]; intros [|n]; simpl; try done. by constructor. Qed.

Lemma appended_inv now e b c :
  box_inv b c → Forall (λ x, x < sequence e)%Z (seqs (ob_rows b)) → (sequence e ≤ c)%Z →
  envelope_id e ∉ ids (ob_rows b) → envelope_key e ∉ keys (ob_rows b) →
  box_inv (appended now e b) c.
Proof.
  intros ([Hm Hlim] & Hl & Hc & Hle & Hs & Hid & Hkey & Hr) Hlt Hec Hnid Hnkey.
  set (l := ob_rows b ++ [new_row now e]).
  assert ((drop (S (length (ob_rows b)) - Z.to_nat (max_entries b)) l) `sublist_of` l) as Hsub
    by apply sublist_drop.
  split_and!; simpl; try done.
  - rewrite length_drop. unfold l. rewrite length_app. simpl. lia.
  - eapply sublist_Forall; [by apply fmap_sublist, Hsub|].
    unfold l. rewrite fmap_app. apply Forall_app. split; [done|by repeat constructor].
  - eapply StronglySorted_sublist; [by apply fmap_sublist, Hsub|].
    unfold l. rewrite fmap_app. by apply StronglySorted_app_1.
  - eapply sublist_NoDup; [|by apply fmap_sublist, Hsub].
    unfold l. rewrite fmap_app. apply NoDup_app. split_and!; [done| |by apply NoDup_singleton].
    intros x Hx ->%list_elem_of_singleton. done.
  - eapply sublist_NoDup; [|by apply fmap_sublist, Hsub].
    unfold l. rewrite fmap_app. apply NoDup_app. split_and!; [done| |by apply NoDup_singleton].
    intros x Hx ->%list_elem_of_singleton. done.
  - eapply sublist_Forall; [exact Hsub|]. apply Forall_app. split; [done|].
    constructor; [|done]. by eexists; apply new_row_holds.
Qed.

(** [append] either finds the key, and changes nothing, or stores the envelope. *)
Lemma append_cases now e b c :
  box_inv b c → Forall (λ x, x < sequence e)%Z (seqs (ob_rows b)) →
  envelope_id e ∉ ids (ob_rows b) →
  (∃ rec, envelope_key e ∈ keys (ob_rows b) ∧ append now e b = (Ok rec, b)) ∨
  (∃ rec, (envelope_key e ∉ keys (ob_rows b)) ∧ append now e b = (Ok rec, appended now e b)).
Proof.
  intros ([Hm Hlim] & Hl & Hc & Hle & Hs & Hid & Hkey & Hr) Hlt Hnid.
  unfold append, mbind, M_bind, get_state, lift_res, compact, modify_state.
  destruct (row_of_key_cases (envelope_key e) (ob_rows b)) as [(r & -> & Hin & Hk)|[-> Hni]].
  - left. rewrite Forall_forall in Hr. destruct (Hr r Hin) as [e' He'].
    destruct (row_reads_back e' r He') as (rec & -> & _). exists rec. split; [|done].
    rewrite <- Hk. by apply list_elem_of_fmap_2.
  - right. rewrite (proj2 (row_of_id_None _ _) Hnid). simpl.
    set (l := ob_rows b ++ [new_row now e]).
    assert (NoDup (ids l)) as Hnl.
    { unfold l. rewrite fmap_app. apply NoDup_app. split_and!; [done| |by apply NoDup_singleton].
      by intros x Hx ->%list_elem_of_singleton. }
    rewrite compact_loop_spec; [|lia|done|done|
      by unfold l; rewrite fmap_app; apply StronglySorted_app_1].
    assert (length l = S (length (ob_rows b))) as -> by (unfold l; rewrite length_app; simpl; lia).
    assert (new_row now e ∈ drop (S (length (ob_rows b)) - Z.to_nat (max_entries b)) l) as Hin.
    { unfold l. rewrite drop_app_le by lia. apply elem_of_app. right. left. }
    change (envelope_id e) with (ob_id (new_row now e)).
    rewrite row_of_id_unique; [| |done].
    + destruct (row_reads_back e _ (new_row_holds now e)) as (rec & -> & _). by exists rec.
    + eapply sublist_NoDup; [exact Hnl|]. by apply fmap_sublist, sublist_drop.
Qed.

(** *** What the operations do to the rows *)

Definition restatus (now : Z) (id : string) (status : DeliveryAckStatus) (r : OutboxRow) :
    OutboxRow :=
  if ob_id r == id then
    {| ob_id := ob_id r; ob_kind := ob_kind r; ob_sequence := ob_sequence r;
       ob_status := DeliveryAckStatus_value status; ob_attempts := ob_attempts r + 1;
       ob_key := ob_key r; ob_hash := ob_hash r; ob_json := ob_json r;
       ob_created := ob_created r; ob_updated := isoformat now |}
  else r.

Lemma restatus_same now id st r :
  ob_id (restatus now id st r) = ob_id r ∧ ob_key (restatus now id st r) = ob_key r ∧
  ob_sequence (restatus now id st r) = ob_sequence r ∧
  ob_json (restatus now id st r) = ob_json r.
Proof. unfold restatus. by case_bool_decide. Qed.

Lemma restatus_other now id st r : ob_id r ≠ id → restatus now id st r = r.
Proof. intros. unfold restatus. by rewrite bool_decide_eq_false_2. Qed.

Lemma restatus_this now id st r :
  ob_id r = id → ob_status (restatus now id st r) = DeliveryAckStatus_value st ∧
    ob_attempts (restatus now id st r) = (ob_attempts r + 1)%Z.
Proof. intros. unfold restatus. by rewrite bool_decide_eq_true_2. Qed.

Lemma restatus_map {A} (f : OutboxRow → A) now id st (l : list OutboxRow) :
  (∀ r, f (restatus now id st r) = f r) → f <$> (restatus now id st <$> l) = f <$> l.
Proof. intros Hf. rewrite <- list_fmap_compose. apply list_fmap_ext. intros i r _. apply Hf. Qed.

Lemma box_inv_restatus now id st b c :
  box_inv b c → box_inv (set_rows (restatus now id st <$> ob_rows b) b) c.
Proof.
  intros ([Hm Hlim] & Hl & Hc & Hle & Hs & Hid & Hkey & Hr).
  unfold box_inv. simpl. rewrite length_fmap.
  rewrite !restatus_map by (intros r; apply (restatus_same now id st r)).
  split_and!; try done. apply Forall_fmap. eapply Forall_impl; [exact Hr|].
  intros r [e (H1 & H2 & H3 & H4 & H5 & H6 & H7)]. exists e. simpl.
  unfold restatus. case_bool_decide; [|done]. split_and!; simpl; try done; by eexists.
Qed.

Lemma box_inv_sublist l b c :
  l `sublist_of` ob_rows b → box_inv b c → box_inv (set_rows l b) c.
Proof.
  intros Hsub ([Hm Hlim] & Hl & Hc & Hle & Hs & Hid & Hkey & Hr).
  unfold box_inv. simpl. split_and!; try done.
  - apply sublist_length in Hsub. lia.
  - eapply sublist_Forall; [by apply fmap_sublist, Hsub|done].
  - eapply StronglySorted_sublist; [by apply fmap_sublist, Hsub|done].
  - eapply sublist_NoDup; [exact Hid|by apply fmap_sublist].
  - eapply sublist_NoDup; [exact Hkey|by apply fmap_sublist].
  - by eapply sublist_Forall.
Qed.

(** *** The worker *)

(** How often an envelope was handed to the transport. *)
Definition handed (id : string) (sent : list string) : Z :=
  Z.of_nat (length (filter (λ x, x = id) sent)).

Lemma handed_snoc_same id sent : handed id (sent ++ [id]) = (handed id sent + 1)%Z.
Proof.
  unfold handed. rewrite filter_app, length_app, filter_cons_True by done. simpl. lia.
Qed.

Lemma handed_snoc_other id id' sent : id ≠ id' → handed id (sent ++ [id']) = handed id sent.
Proof.
  intros. unfold handed. rewrite filter_app, length_app, filter_cons_False by done.
  rewrite filter_nil. simpl. lia.
Qed.

Lemma handed_zero id sent : id ∉ sent → handed id sent = 0%Z.
Proof.
  unfold handed. induction sent as [|x sent IH]; [done|].
  intros [Hx Hni]%not_elem_of_cons. rewrite filter_cons_False by congruence. by apply IH.
Qed.

Definition known (n : nat) (id : string) : Prop := ∃ k, k < n ∧ id = uuid_str k.

Lemma known_mono n n' id : n ≤ n' → known n id → known n' id.
Proof. intros ? (k & ? & ->). exists k. split; [lia|done]. Qed.

Lemma fresh_unknown n k : n ≤ k → ¬ known n (uuid_str k).
Proof. intros Hk (j & Hj & Heq). apply uuid_inj in Heq. lia. Qed.

Lemma known_uuid n k : k < n → known n (uuid_str k).
Proof. intros. by exists k. Qed.

Definition worker_inv (w : DeliveryWorker) : Prop :=
  (∃ c, box_inv (outbox w) c) ∧ (1 ≤ max_attempts w ∧ max_attempts w = attempts)%Z ∧
  (∀ r, r ∈ ob_rows (outbox w) → known (wk_ticks w) (ob_id r)) ∧
  (∀ id, id ∈ wk_sent w → known (wk_ticks w) id) ∧
  (∀ id, 2 * handed id (wk_sent w) ≤ max_attempts w + 1)%Z ∧
  (∀ r, r ∈ ob_rows (outbox w) → ob_status r ≠ "sent" →
     (2 * handed (ob_id r) (wk_sent w) ≤ ob_attempts r)%Z).

(** Another task only adds rows of fresh identifiers, and compaction only drops rows. *)
Definition grows (w w' : DeliveryWorker) : Prop :=
  wk_sent w' = wk_sent w ∧ max_attempts w' = max_attempts w ∧
  batch_size w' = batch_size w ∧ wk_ticks w ≤ wk_ticks w' ∧
  ∀ r, r ∈ ob_rows (outbox w') → r ∈ ob_rows (outbox w) ∨ ¬ known (wk_ticks w) (ob_id r).

Lemma grows_refl w : grows w w.
Proof. split_and!; try done. by left. Qed.

(** The rows that follow when one envelope of a fresh identifier is published. *)
Lemma signed_same e e' : signed sign_bytes pub e = Ok e' →
  envelope_id e' = envelope_id e ∧ sequence e' = sequence e ∧ envelope_key e' = envelope_key e.
Proof.
  unfold signed. destruct (private_key pub) as [k|]; [|by intros [= ->]].
  destruct (sign_bytes _ k); simpl; [|done]. by intros [= <-].
Qed.

(** The envelope a request is published as, [n] readings having been taken. *)
Definition envelope_for (rq : request) (n : nat) (c : Z) : DeliveryEnvelope :=
  DeliveryEnvelope_build (uuid_str n) (clock (S n)) (rq_kind rq) (c + 1) (identity pub)
    (rq_payload rq) (pub_key_id pub)
    (match private_key pub with
     | Some k => if k == "" then None else Some "ed25519"
     | None => None
     end) (rq_key rq).

(** [_append]: the counter advances; then the signature fails, or the key is known, or
    the envelope is stored. *)
Lemma publish_cases rq w c :
  worker_inv w → box_inv (outbox w) c →
  ∃ w', _append sign_bytes pub rq w =
      (signed sign_bytes pub (envelope_for rq (wk_ticks w) c), w') ∧
    box_inv (outbox w') (c + 1) ∧
    wk_sent w' = wk_sent w ∧ max_attempts w' = max_attempts w ∧
    batch_size w' = batch_size w ∧ wk_ticks w < wk_ticks w' ∧
    match signed sign_bytes pub (envelope_for rq (wk_ticks w) c) with
    | Raise _ => ob_rows (outbox w') = ob_rows (outbox w)
    | Ok e =>
        if envelope_key e in? keys (ob_rows (outbox w))
        then ob_rows (outbox w') = ob_rows (outbox w)
        else ob_rows (outbox w') =
          ob_rows (appended (clock (2 + wk_ticks w)) e (outbox w))
    end.
Proof.
  intros Hw Hb. pose proof Hb as ([Hm Hlim] & Hl & Hc & Hle & Hs & Hid & Hkey & Hr).
  set (b' := {| ob_rows := ob_rows (outbox w); ob_counter := Some (pretty (c + 1)%Z);
                max_entries := max_entries (outbox w) |}).
  assert (box_inv b' (c + 1)) as Hb'.
  { split_and!; simpl; try done; [by right|]. eapply Forall_impl; [exact Hle|]. simpl. lia. }
  unfold _append, on_outbox, zoom, tick, mbind, M_bind, get_state, modify_state, lift_res.
  rewrite (next_sequence_spec _ c) by done. simpl. fold b'. fold (envelope_for rq (wk_ticks w) c).
  destruct (signed sign_bytes pub (envelope_for rq (wk_ticks w) c)) as [e|ex] eqn:Hsg.
  2: { eexists. split; [reflexivity|]. simpl. split_and!; try done. lia. }
  apply signed_same in Hsg as (He1 & He2 & He3).
  assert (envelope_id e ∉ ids (ob_rows b')) as Hfresh.
  { rewrite He1. intros [r [Hrid Hin]]%list_elem_of_fmap.
    destruct Hw as (_ & _ & Hk & _). apply (fresh_unknown (wk_ticks w) (wk_ticks w)); [lia|].
    change (uuid_str (wk_ticks w)) with (envelope_id (envelope_for rq (wk_ticks w) c)).
    rewrite Hrid. by apply Hk. }
  assert (Forall (λ x, x < sequence e)%Z (seqs (ob_rows b'))) as Hlt.
  { rewrite He2. eapply Forall_impl; [exact Hle|]. simpl. lia. }
  destruct (append_cases (clock (2 + wk_ticks w)) e b' (c + 1) Hb' Hlt Hfresh)
    as [(rec & Hk & Ha)|(rec & Hk & Ha)]; simpl in Ha, Hk |- *; rewrite Ha; simpl.
  - eexists. split; [reflexivity|]. simpl. rewrite bool_decide_eq_true_2 by done.
    split_and!; try done. lia.
  - eexists. split; [reflexivity|]. simpl. rewrite bool_decide_eq_false_2 by done.
    split_and!; try done; [|lia]. apply (appended_inv _ _ b'); try done. rewrite He2. simpl. lia.
Qed.

(** A publication keeps the worker's invariant, whatever it does to the rows. *)
Lemma publish_inv rq w : worker_inv w →
  worker_inv (_append sign_bytes pub rq w).2 ∧ grows w (_append sign_bytes pub rq w).2.
Proof.
  intros Hw. pose proof Hw as ([c Hb] & Hm & Hk & Hks & Hh & Ha).
  destruct (publish_cases rq w c Hw Hb) as (w' & -> & Hb' & Hs & Hmax & Hbs & Ht & Hrows). simpl.
  assert (∀ r, r ∈ ob_rows (outbox w') →
    r ∈ ob_rows (outbox w) ∨ ob_attempts r = 0%Z ∧ ob_id r = uuid_str (wk_ticks w)) as Hnew.
  { intros r. destruct (signed _ _ _) as [e|] eqn:Hsg; [|rewrite Hrows; by left].
    apply signed_same in Hsg as (He & _).
    case_bool_decide; rewrite Hrows; [by left|]. unfold appended. simpl.
    intros Hin%(sublist_subseteq _ _ (sublist_drop _ _) r).
    apply elem_of_app in Hin as [Hin|Hin]; [by left|right].
    by apply list_elem_of_singleton in Hin as ->. }
  split.
  - split_and!; [by eexists|by rewrite Hmax; apply Hm|by rewrite Hmax; apply Hm|..].
    + intros r [Hr|[_ ->]]%Hnew; [|by apply known_uuid].
      apply (known_mono (wk_ticks w)); [lia|by apply Hk].
    + intros id. rewrite Hs. intros Hid. apply (known_mono (wk_ticks w)); [lia|by apply Hks].
    + intros id. rewrite Hs, Hmax. apply Hh.
    + intros r Hr Hst. rewrite Hs. apply Hnew in Hr as [Hr|[-> Hid]]; [by apply Ha|].
      rewrite handed_zero; [done|]. intros Hin%Hks. rewrite Hid in Hin.
      by apply (fresh_unknown (wk_ticks w) (wk_ticks w)) in Hin.
  - split_and!; try done; [lia|]. intros r [Hr|[_ Hid]]%Hnew; [by left|right].
    rewrite Hid. by apply fresh_unknown.
Qed.

(** *** One flush *)

Definition record_id (rec : OutboxRecord) : string := envelope_id (or_envelope rec).

(** The records a flush has still to handle. *)
Definition waiting (records : list OutboxRecord) (w : DeliveryWorker) : Prop :=
  NoDup (record_id <$> records) ∧
  ∀ rec, rec ∈ records →
    known (wk_ticks w) (record_id rec) ∧
    (2 * handed (record_id rec) (wk_sent w) ≤ or_attempts rec)%Z ∧
    ∀ r, r ∈ ob_rows (outbox w) → ob_id r = record_id rec → ob_status r ≠ "sent".

Lemma grows_waiting records w w' : grows w w' → waiting records w → waiting records w'.
Proof.
  intros (Hs & _ & _ & Ht & Hnew) [Hn Hr]. split; [done|]. intros rec Hrec.
  destruct (Hr rec Hrec) as (Hk & Hh & Hst). split_and!.
  - by eapply known_mono.
  - by rewrite Hs.
  - intros r [Hin|Hun]%Hnew Hid; [by eapply Hst|]. by rewrite Hid in Hun.
Qed.

Definition ready (records : list OutboxRecord) (w : DeliveryWorker) : Prop :=
  worker_inv w ∧ waiting records w.

(** The envelope of [id] is with the transport. *)
Definition in_flight (id : string) (records : list OutboxRecord) (w : DeliveryWorker) : Prop :=
  ready records w ∧ (id ∉ (record_id <$> records)) ∧ known (wk_ticks w) id ∧
  ∀ r, r ∈ ob_rows (outbox w) → ob_id r = id →
    (2 * handed id (wk_sent w) ≤ ob_attempts r + 1)%Z.

Lemma in_flight_other id records a :
  keeps (in_flight id records) (for_each (at_meanwhile a) (other_task sign_bytes pub)).
Proof.
  apply keeps_for_each. intros rq w ([Hw Hr] & Hni & Hk & Hrow). unfold other_task. simpl.
  destruct (publish_inv rq w Hw) as [Hw' Hg]. pose proof Hg as (Hs & _ & _ & Ht & Hnew).
  split; [split; [done|by eapply grows_waiting]|].
  split; [done|]. split; [by eapply known_mono|].
  intros r [Hin|Hun]%Hnew Hid; [rewrite Hs; by apply Hrow|]. by rewrite Hid in Hun.
Qed.

(** A state that differs in the rows' bookkeeping and in later readings only. *)
Lemma ready_rows records w w' :
  wk_sent w' = wk_sent w → max_attempts w' = max_attempts w → wk_ticks w ≤ wk_ticks w' →
  (∃ c, box_inv (outbox w') c) →
  (∀ r', r' ∈ ob_rows (outbox w') → ∃ r, r ∈ ob_rows (outbox w) ∧ ob_id r = ob_id r' ∧
     (r' = r ∨ (ob_id r ∉ (record_id <$> records)) ∧
        (ob_status r' ≠ "sent" →
         2 * handed (ob_id r) (wk_sent w) ≤ ob_attempts r')%Z)) →
  ready records w → ready records w'.
Proof.
  intros Hs Hm Ht Hb Hrows [(_ & Hm1 & Hk & Hks & Hh & Ha) [Hn Hr]]. split.
  - split_and!; [done|by rewrite Hm; apply Hm1|by rewrite Hm; apply Hm1|..].
    + intros r' (r & Hin & <- & _)%Hrows. by eapply known_mono, Hk.
    + intros id. rewrite Hs. intros Hid. by eapply known_mono, Hks.
    + intros id. by rewrite Hs, Hm.
    + intros r' (r & Hin & Hid & Hcase)%Hrows Hst. rewrite Hs, <- Hid.
      destruct Hcase as [->|[_ Hle]]; [by apply Ha|by apply Hle].
  - split; [done|]. intros rec Hrec. destruct (Hr rec Hrec) as (Hkr & Hhr & Hst).
    split_and!; [by eapply known_mono|by rewrite Hs|].
    intros r' (r & Hin & Hid & [->|[Hni _]])%Hrows Hid'; [by apply (Hst r)|].
    destruct Hni. apply list_elem_of_fmap. exists rec. by rewrite Hid, Hid'.
Qed.

Lemma timed_status id st w :
  timed (λ t, _set_status t id st) w =
  (Ok tt, set_outbox (set_rows (restatus (clock (wk_ticks w)) id st <$> ob_rows (outbox w))
                        (outbox w)) (tick w).2).
Proof. reflexivity. Qed.

Lemma set_status_ready id st records w :
  ready records w → id ∉ (record_id <$> records) →
  (∀ r, r ∈ ob_rows (outbox w) → ob_id r = id → st ≠ SENT →
     2 * handed id (wk_sent w) ≤ ob_attempts r + 1)%Z →
  ready records (timed (λ t, _set_status t id st) w).2.
Proof.
  intros Hr Hni Hle. rewrite timed_status. pose proof Hr as [([c Hb] & _) _].
  apply (ready_rows records w); simpl; try done; [lia| |].
  - exists c. by apply box_inv_restatus.
  - intros r' [r [-> Hin]]%list_elem_of_fmap. exists r. split; [done|].
    destruct (restatus_same (clock (wk_ticks w)) id st r) as (Hid & _).
    split; [by rewrite Hid|]. destruct (decide (ob_id r = id)) as [Hrid|Hrid].
    + right. rewrite Hrid. split; [done|].
      destruct (restatus_this (clock (wk_ticks w)) id st r Hrid) as [-> ->].
      intros Hst. apply Hle; [done..|]. by intros ->.
    + left. by apply restatus_other.
Qed.

Lemma bump_ready p a f r u records : keeps (ready records) (bump p a f r u).
Proof. intros w Hr. exact Hr. Qed.

Lemma failed_ready id records w :
  in_flight id records w → ready records (timed (λ t, mark_failed t id) w).2.
Proof. intros (Hr & Hni & _ & Hrow). apply set_status_ready; try done. intros. by apply Hrow. Qed.

Lemma acked_ready id records w :
  in_flight id records w → ready records (on_outbox (mark_acked id) w).2.
Proof.
  intros (Hr & _). pose proof Hr as [([c Hb] & _) _].
  apply (ready_rows records w); simpl; try done.
  - exists c. apply box_inv_sublist; [apply sublist_filter|done].
  - intros r [_ Hin]%list_elem_of_filter. exists r. split_and!; [done|done|by left].
Qed.

(** The beginning of a turn: the row is marked, the envelope handed over. *)
Definition hand_out (id : string) (replay : bool) : M DeliveryWorker unit :=
  (if replay then bump 0 0 0 1 0 else mret tt);;
  timed (λ t, mark_sent t id);;
  bump 1 0 0 0 0;;
  hand_over id.

Lemma hand_out_in_flight rec records replay w :
  ready (rec :: records) w → (or_attempts rec < max_attempts w)%Z →
  ∃ w', hand_out (record_id rec) replay w = (Ok tt, w') ∧
    in_flight (record_id rec) records w'.
Proof.
  intros [Hw [Hn Hr]] Hatt. set (id := record_id rec).
  assert (∃ w1, (if replay then bump 0 0 0 1 0 else mret tt) w = (Ok tt, w1) ∧
    outbox w1 = outbox w ∧ wk_sent w1 = wk_sent w ∧ wk_ticks w1 = wk_ticks w ∧
    max_attempts w1 = max_attempts w) as (w1 & E & Hbox & Hs & Ht & Hm).
  { destruct replay; by eexists. }
  unfold hand_out, mbind, M_bind. rewrite E. eexists. split; [reflexivity|].
  rewrite fmap_cons in Hn. apply NoDup_cons in Hn as [Hni Hn].
  destruct (Hr rec) as (Hk & Hh & Hst); [left|]. fold id in Hk, Hh, Hst.
  destruct Hw as ([c Hb] & [Hm1 Hm2] & Hkr & Hks & Hhm & Ha).
  assert (∀ r', r' ∈ ob_rows (set_rows (restatus (clock (wk_ticks w)) id SENT <$>
      ob_rows (outbox w)) (outbox w)) → ∃ r, r ∈ ob_rows (outbox w) ∧ ob_id r' = ob_id r ∧
      (ob_id r ≠ id ∧ r' = r ∨
       ob_id r = id ∧ ob_status r' = "sent" ∧ ob_attempts r' = (ob_attempts r + 1)%Z))
    as Hrows.
  { intros r' [r [-> Hin]]%list_elem_of_fmap. exists r. split; [done|].
    destruct (restatus_same (clock (wk_ticks w)) id SENT r) as (-> & _). split; [done|].
    destruct (decide (ob_id r = id)) as [Hid|Hid]; [right|left].
    - split; [done|]. by apply restatus_this.
    - split; [done|]. by apply restatus_other. }
  split; [|split; [exact Hni|split]]; simpl; rewrite ?Hbox, ?Hs, ?Ht, ?Hm.
  - split; [split_and!|split; [done|]]; simpl; rewrite ?Hbox, ?Hs, ?Ht, ?Hm; try done.
    + exists c. by apply (box_inv_restatus (clock (wk_ticks w)) id SENT).
    + intros r' (r & Hin & -> & _)%Hrows. eapply known_mono; [|by apply Hkr]. lia.
    + intros id' [Hin|Hin]%elem_of_app.
      * eapply known_mono; [|by apply Hks]. lia.
      * apply list_elem_of_singleton in Hin as ->. eapply known_mono; [|done]. lia.
    + intros id'. destruct (decide (id' = id)) as [->|Hne].
      * rewrite handed_snoc_same. lia.
      * by rewrite handed_snoc_other.
    + intros r' (r & Hin & -> & [[Hid ->]|(Hid & Hst' & _)])%Hrows; [|by rewrite Hst'].
      rewrite handed_snoc_other by done. by apply Ha.
    + intros rec' Hrec'. destruct (Hr rec') as (Hk' & Hh' & Hst'); [by right|].
      assert (record_id rec' ≠ id) as Hne.
      { intros Heq. apply Hni. fold id. rewrite <- Heq. by apply list_elem_of_fmap_2. }
      split_and!.
      * eapply known_mono; [|done]. lia.
      * by rewrite handed_snoc_other.
      * intros r' (r & Hin & Hidr & [[Hid ->]|(Hid & _)])%Hrows Heq; [by eapply Hst'|congruence].
  - eapply known_mono; [|done]. lia.
  - intros r' (r & Hin & Hidr & [[Hid ->]|(Hid & Hst' & ->)])%Hrows Heq; [congruence|].
    rewrite handed_snoc_same. assert (2 * handed id (wk_sent w) ≤ ob_attempts r)%Z; [|lia].
    rewrite <- Hid. apply Ha; [done|]. by apply Hst.
Qed.

Definition fail_turn (id : string) : M DeliveryWorker Z :=
  timed (λ t, mark_failed t id);;
  bump 0 0 1 0 0;;
  mret 0%Z.

(** What follows the hand-over. *)
Definition after_hand_out (a : answer) (id : string) : M DeliveryWorker Z :=
  for_each (at_meanwhile a) (other_task sign_bytes pub);;
  ack ← lift_res (at_ack a);
  if ack == ACKED then
    on_outbox (mark_acked id);;
    bump 0 1 0 0 0;;
    mret 1%Z
  else fail_turn id.

Definition on_failure (id : string) (e : exn) : M DeliveryWorker Z :=
  if is_Exception e then fail_turn id else raise e.

Lemma get_state_bind {S A} (k : S → M S A) s : (get_state ≫= k) s = k s s.
Proof. reflexivity. Qed.

Lemma flush_record_cases a rec w :
  (max_attempts w ≤ or_attempts rec)%Z ∧
    flush_record sign_bytes pub a rec w = fail_turn (record_id rec) w ∨
  (or_attempts rec < max_attempts w)%Z ∧ ∀ w',
    hand_out (record_id rec) (0 <? or_attempts rec)%Z w = (Ok tt, w') →
    flush_record sign_bytes pub a rec w =
      catch (after_hand_out a (record_id rec)) (on_failure (record_id rec)) w'.
Proof.
  unfold flush_record. rewrite get_state_bind.
  destruct (Z.leb_spec (max_attempts w) (or_attempts rec)) as [Hle|Hlt]; [by left|right].
  split; [done|]. intros w'. unfold hand_out, after_hand_out, on_failure, record_id, catch.
  destruct (0 <? or_attempts rec)%Z; intros [= <-]; reflexivity.
Qed.

Lemma flush_record_ready a rec records w :
  ready (rec :: records) w → ready records (flush_record sign_bytes pub a rec w).2.
Proof.
  intros Hr. pose proof Hr as [Hw [Hn Hrec]].
  assert (record_id rec ∉ (record_id <$> records)) as Hni.
  { rewrite fmap_cons in Hn. by apply NoDup_cons in Hn as [? _]. }
  assert (ready records w) as Hr'.
  { split; [done|]. split; [by apply NoDup_cons in Hn as [_ ?]|]. intros r ?.
    apply Hrec. by right. }
  destruct (Hrec rec) as (_ & _ & Hst); [left|].
  assert (∀ w', in_flight (record_id rec) records w' →
    ready records (fail_turn (record_id rec) w').2) as Hfail.
  { intros w' Hf. apply (failed_ready _ _ _ Hf). }
  destruct (flush_record_cases a rec w) as [[Hle ->]|[Hlt Hrun]].
  - apply (set_status_ready (record_id rec) FAILED records w); [done..|].
    intros r Hin Hid _. destruct Hw as (_ & _ & _ & _ & _ & Ha).
    rewrite <- Hid. assert (2 * handed (ob_id r) (wk_sent w) ≤ ob_attempts r)%Z; [|lia].
    apply Ha; [done|]. by apply Hst.
  - destruct (hand_out_in_flight rec records (0 <? or_attempts rec)%Z w Hr Hlt)
      as (w' & Ho & Hf).
    rewrite (Hrun w' Ho). unfold catch, after_hand_out, mbind, M_bind.
    pose proof (in_flight_other (record_id rec) records a w' Hf) as Hf2.
    destruct (for_each _ _ w') as [[[]|e] w2]; simpl in Hf2; unfold lift_res.
    + destruct (at_ack a) as [st|e].
      * case_bool_decide; [apply (acked_ready _ _ _ Hf2)|apply (Hfail _ Hf2)].
      * unfold on_failure. destruct (is_Exception e); [apply (Hfail _ Hf2)|apply Hf2].
    + unfold on_failure. destruct (is_Exception e); [apply (Hfail _ Hf2)|apply Hf2].
Qed.

Lemma flush_records_inv answers records drained w :
  ready records w → worker_inv (flush_records sign_bytes pub answers records drained w).2.
Proof.
  revert answers drained w. induction records as [|rec records IH];
    intros [|a answers] drained w Hr; simpl; try apply Hr.
  unfold mbind, M_bind. pose proof (flush_record_ready a rec records w Hr) as Hr'.
  destruct (flush_record _ _ _ _ w) as [[n|e] w']; simpl in *; [by apply IH|apply Hr'].
Qed.

(** *** The batch of a flush *)

Lemma pending_rows_spec n l r :
  r ∈ pending_rows n l → r ∈ l ∧ ob_status r ∈ ["pending"; "failed"].
Proof.
  unfold pending_rows. intros Hin%(sublist_subseteq _ _ (sublist_take _ _) r).
  apply elem_of_py_sorted in Hin. by apply list_elem_of_filter in Hin as [? ?].
Qed.

(** A record and the row it was read from. *)
Definition read_from (r : OutboxRow) (rec : OutboxRecord) : Prop :=
  record_id rec = ob_id r ∧ or_attempts rec = ob_attempts r.

Lemma traverse_rows l :
  Forall (λ r, ∃ e, holds e r) l →
  ∃ recs, traverse _row_to_record l = Ok recs ∧ Forall2 read_from l recs.
Proof.
  induction 1 as [|r l [e He] _ (recs & IH & Hf)]; simpl; [by exists []; split|].
  destruct (row_reads_back e r He) as (rec & -> & Henv & Hatt). simpl. rewrite IH. simpl.
  exists (rec :: recs). split; [done|]. constructor; [|done]. split; [|done].
  unfold record_id. rewrite Henv. by destruct He as (-> & _).
Qed.

Lemma read_from_ids l recs : Forall2 read_from l recs → record_id <$> recs = ids l.
Proof. induction 1 as [|r rec l recs [Hid _] _ IH]; [done|]. by rewrite !fmap_cons, Hid, IH. Qed.

Lemma pending_NoDup n b c : box_inv b c → NoDup (ids (pending_rows n (ob_rows b))).
Proof.
  intros (_ & _ & _ & _ & _ & Hid & _). unfold pending_rows.
  eapply sublist_NoDup; [|by apply fmap_sublist, sublist_take].
  rewrite py_sorted_Permutation.
  eapply sublist_NoDup; [exact Hid|]. by apply fmap_sublist, sublist_filter.
Qed.

Lemma batch_ready w :
  worker_inv w → ∃ recs, pending (batch_size w) (outbox w) = Ok recs ∧
    Forall2 read_from (pending_rows (batch_size w) (ob_rows (outbox w))) recs ∧ ready recs w.
Proof.
  intros Hw. pose proof Hw as ([c Hb] & _ & Hk & _ & _ & Ha).
  pose proof Hb as (_ & _ & _ & _ & _ & _ & _ & Hr).
  set (batch := pending_rows (batch_size w) (ob_rows (outbox w))).
  destruct (traverse_rows batch) as (recs & Htr & Hf).
  { apply Forall_forall. intros r [Hin _]%pending_rows_spec. rewrite Forall_forall in Hr. by apply Hr. }
  exists recs. split; [exact Htr|]. split; [done|]. split; [done|].
  split; [rewrite (read_from_ids batch) by done; by eapply pending_NoDup|].
  intros rec Hrec. apply list_elem_of_lookup in Hrec as [i Hi].
  destruct (Forall2_lookup_r _ _ _ _ _ Hf Hi) as (r & Hri & Hid & Hatt).
  apply list_elem_of_lookup_2, pending_rows_spec in Hri as [Hin Hst].
  assert (ob_status r ≠ "sent") as Hns by (intros Heq; rewrite Heq in Hst; set_solver).
  rewrite Hid, Hatt. split_and!; [by apply Hk|by apply Ha|].
  intros r' Hin' Hid'. assert (r' = r) as ->; [|done].
  destruct Hb as (_ & _ & _ & _ & _ & Hnd & _).
  pose proof (row_of_id_unique r _ Hnd Hin) as H1.
  pose proof (row_of_id_unique r' _ Hnd Hin') as H2. rewrite Hid' in H2. congruence.
Qed.

Lemma delivery_step_inv w w' : worker_inv w → delivery_step sign_bytes pub w w' → worker_inv w'.
Proof.
  intros Hw [rq|[] answer_of|alive].
  - by apply publish_inv.
  - destruct (batch_ready w Hw) as (recs & Hp & _ & Hr).
    unfold flush_once. rewrite get_state_bind. unfold mbind, M_bind, lift_res. rewrite Hp.
    by apply flush_records_inv.
  - exact Hw.
  - destruct alive; exact Hw.
Qed.

(** *** The fate of a batch when nothing else happens during the flush *)

Definition quiet (a : answer) : Prop :=
  at_meanwhile a = [] ∧ ∀ e, at_ack a = Raise e → is_Exception e = true.

(** The row [r] is still there, failed, with [n] more attempts. *)
Definition failed_row (r : OutboxRow) (n : Z) (l : list OutboxRow) : Prop :=
  ∃ r', r' ∈ l ∧ ob_id r' = ob_id r ∧ ob_status r' = "failed" ∧
    ob_attempts r' = (ob_attempts r + n)%Z ∧ ob_key r' = ob_key r ∧ ob_json r' = ob_json r.

(** Exhausted, acknowledged, or not. *)
Definition fate (a : answer) (r : OutboxRow) (l : list OutboxRow) : Prop :=
  if (attempts <=? ob_attempts r)%Z then failed_row r 1 l
  else match at_ack a with
       | Ok ACKED => ob_id r ∉ ids l
       | _ => failed_row r 2 l
       end.

(** What the transport is handed of [l]: every entry with attempts left, once, in order. *)
Definition tried (l : list OutboxRow) : list string :=
  ob_id <$> filter (λ r, (ob_attempts r < attempts)%Z) l.

Lemma tried_cons r l : tried (r :: l) = tried [r] ++ tried l.
Proof. unfold tried. rewrite !filter_cons. by destruct (decide _). Qed.

(** What a turn for the row of [id] leaves alone. *)
Definition others_kept (id : string) (l l' : list OutboxRow) : Prop :=
  (∀ x, x ∈ l → ob_id x ≠ id → x ∈ l') ∧ (∀ x, x ∈ l' → ob_id x ∈ ids l).

Lemma others_kept_trans id l1 l2 l3 :
  others_kept id l1 l2 → others_kept id l2 l3 → others_kept id l1 l3.
Proof.
  intros [H1 H2] [H3 H4]. split; [auto|].
  intros x [y [-> Hy]]%H4%list_elem_of_fmap. by apply H2.
Qed.

Lemma others_kept_restatus now id st l : others_kept id l (restatus now id st <$> l).
Proof.
  split.
  - intros x Hx Hne. apply list_elem_of_fmap. exists x. by rewrite restatus_other.
  - intros x [y [-> Hy]]%list_elem_of_fmap.
    destruct (restatus_same now id st y) as (-> & _). by apply list_elem_of_fmap_2.
Qed.

Lemma others_kept_filter id l : others_kept id l (filter (λ r, ob_id r ≠ id) l).
Proof.
  split.
  - intros x Hx Hne. by apply list_elem_of_filter.
  - intros x [_ Hx]%list_elem_of_filter. by apply list_elem_of_fmap_2.
Qed.

Lemma failed_once now r l :
  r ∈ l → failed_row r 1 (restatus now (ob_id r) FAILED <$> l).
Proof.
  intros Hr. exists (restatus now (ob_id r) FAILED r).
  destruct (restatus_same now (ob_id r) FAILED r) as (? & ? & _ & ?).
  destruct (restatus_this now (ob_id r) FAILED r eq_refl).
  split_and!; try done. by apply list_elem_of_fmap_2.
Qed.

Lemma failed_twice t1 t2 r l :
  r ∈ l →
  failed_row r 2 (restatus t2 (ob_id r) FAILED <$> (restatus t1 (ob_id r) SENT <$> l)).
Proof.
  intros Hr. set (r1 := restatus t1 (ob_id r) SENT r).
  destruct (restatus_same t1 (ob_id r) SENT r) as (Hid & Hk & _ & Hj).
  destruct (restatus_this t1 (ob_id r) SENT r eq_refl) as [_ Hatt].
  fold r1 in Hid, Hk, Hj, Hatt.
  destruct (failed_once t2 r1 (restatus t1 (ob_id r) SENT <$> l))
    as (r' & Hin & Hid' & Hst & Hatt' & Hk' & Hj'); [by apply list_elem_of_fmap_2|].
  rewrite Hid in Hin. exists r'. split_and!; congruence || lia || done.
Qed.

Lemma fail_turn_spec id w :
  ∃ w', fail_turn id w = (Ok 0%Z, w') ∧ max_attempts w' = max_attempts w ∧
    wk_sent w' = wk_sent w ∧
    ob_rows (outbox w') = restatus (clock (wk_ticks w)) id FAILED <$> ob_rows (outbox w).
Proof. eexists. by split_and!. Qed.

(** One turn of a quiet flush. *)
Lemma flush_record_quiet a r rec w :
  max_attempts w = attempts → quiet a → read_from r rec → r ∈ ob_rows (outbox w) →
  ∃ n w', flush_record sign_bytes pub a rec w = (Ok n, w') ∧ max_attempts w' = attempts ∧
    wk_sent w' = wk_sent w ++ tried [r] ∧
    others_kept (ob_id r) (ob_rows (outbox w)) (ob_rows (outbox w')) ∧
    fate a r (ob_rows (outbox w')).
Proof.
  intros Hm [Hq He] [Hid Hatt] Hr. unfold fate, tried. rewrite filter_cons, filter_nil.
  destruct (flush_record_cases a rec w) as [[Hle ->]|[Hlt Hrun]].
  - rewrite Hid. destruct (fail_turn_spec (ob_id r) w) as (w' & -> & Hm' & Hs & Hrows).
    exists 0%Z, w'. rewrite Hrows, Hm', Hs, decide_False by lia.
    rewrite (proj2 (Z.leb_le _ _)) by lia.
    split_and!; [done..|by rewrite app_nil_r|apply others_kept_restatus|by apply failed_once].
  - rewrite (proj2 (Z.leb_gt _ _)), decide_True by lia.
    assert (∃ w', hand_out (record_id rec) (0 <? or_attempts rec)%Z w = (Ok tt, w') ∧
      max_attempts w' = attempts ∧ wk_sent w' = wk_sent w ++ [ob_id r] ∧
      ob_rows (outbox w') = restatus (clock (wk_ticks w)) (ob_id r) SENT <$> ob_rows (outbox w))
      as (w' & Ho & Hm' & Hs & Hrows).
    { rewrite <- Hid. unfold hand_out. destruct (0 <? or_attempts rec)%Z;
        (eexists; split; [reflexivity|]; split; [exact Hm|by split]). }
    rewrite (Hrun w' Ho), Hid. unfold catch, after_hand_out, on_failure.
    rewrite Hq. simpl. unfold mbind, M_bind, lift_res. simpl.
    set (l1 := restatus (clock (wk_ticks w)) (ob_id r) SENT <$> ob_rows (outbox w)) in *.
    assert (others_kept (ob_id r) (ob_rows (outbox w)) l1) as Hk1 by apply others_kept_restatus.
    assert (∃ n w2, fail_turn (ob_id r) w' = (Ok n, w2) ∧
      max_attempts w2 = attempts ∧ wk_sent w2 = wk_sent w ++ [ob_id r] ∧
      others_kept (ob_id r) (ob_rows (outbox w)) (ob_rows (outbox w2)) ∧
      failed_row r 2 (ob_rows (outbox w2))) as Hfail.
    { destruct (fail_turn_spec (ob_id r) w') as (w2 & E & Hm2 & Hs2 & Hrows2).
      exists 0%Z, w2. rewrite Hrows2, Hrows, Hm2, Hs2. split_and!; [done..| |].
      - apply (others_kept_trans _ _ l1); [exact Hk1|apply others_kept_restatus].
      - by apply failed_twice. }
    destruct (at_ack a) as [st|e] eqn:Hack.
    + case_bool_decide as Hst; [subst st|].
      * eexists _, _. split; [reflexivity|]. simpl. do 2 (split; [done|]). rewrite Hrows.
        split; [apply (others_kept_trans _ _ l1); [exact Hk1|apply others_kept_filter]|].
        intros [x [Hx [Hne _]%list_elem_of_filter]]%list_elem_of_fmap. by destruct Hne.
      * destruct Hfail as (n & w2 & -> & ? & ? & ? & ?). exists n, w2. by destruct st.
    + rewrite (He e eq_refl). destruct Hfail as (n & w2 & -> & ? & ? & ? & ?). by exists n, w2.
Qed.

Lemma fate_kept a r r2 l l' :
  ob_id r ≠ ob_id r2 → others_kept (ob_id r2) l l' → fate a r l → fate a r l'.
Proof.
  intros Hne [Hin Hids]. unfold fate.
  assert (∀ n, failed_row r n l → failed_row r n l') as Hf.
  { intros n (r' & Hr' & Hid & Hrest). exists r'. split; [|done]. apply Hin; [done|congruence]. }
  destruct (attempts <=? ob_attempts r)%Z; [apply Hf|].
  destruct (at_ack a) as [[]|]; try apply Hf.
  intros Hni [x [Hx Hxin]]%list_elem_of_fmap. apply Hni. rewrite Hx. by apply Hids.
Qed.

Lemma flush_records_quiet batch recs answers drained w :
  max_attempts w = attempts → Forall2 read_from batch recs → NoDup (ids batch) →
  (∀ r, r ∈ batch → r ∈ ob_rows (outbox w)) → Forall quiet answers →
  length answers = length recs →
  ∃ n w', flush_records sign_bytes pub answers recs drained w = (Ok n, w') ∧
    wk_sent w' = wk_sent w ++ tried batch ∧
    (∀ x, x ∈ ob_rows (outbox w) → (ob_id x ∉ ids batch) → x ∈ ob_rows (outbox w')) ∧
    (∀ r0 a l, (ob_id r0 ∉ ids batch) → l = ob_rows (outbox w) → fate a r0 l →
       fate a r0 (ob_rows (outbox w'))) ∧
    (∀ i r a, batch !! i = Some r → answers !! i = Some a → fate a r (ob_rows (outbox w'))).
Proof.
  intros Hm Hf. revert answers drained w Hm.
  induction Hf as [|r rec batch recs Hr Hf IH]; intros [|a answers] drained w Hm Hn Hin Hq Hl;
    try done; simpl.
  { exists drained, w. split_and!; try done; [by rewrite app_nil_r|by intros ????->]. }
  rewrite fmap_cons in Hn. apply NoDup_cons in Hn as [Hni Hn].
  apply Forall_cons in Hq as [Hqa Hq].
  destruct (flush_record_quiet a r rec w Hm Hqa Hr) as (n & w1 & E & Hm1 & Hs1 & Hk & Hfate);
    [apply Hin; left|].
  unfold mbind, M_bind. rewrite E.
  destruct (IH answers (drained + n)%Z w1) as (n' & w' & E' & Hs' & Hkeep & Hpast & Hall);
    try done.
  { intros x Hx. apply Hk; [apply Hin; by right|]. intros Heq. apply Hni. rewrite <- Heq.
    by apply list_elem_of_fmap_2. }
  { by injection Hl. }
  exists n', w'. split; [exact E'|]. split_and!.
  - by rewrite Hs', Hs1, <- app_assoc, <- tried_cons.
  - intros x Hx [Hxr Hxb]%not_elem_of_cons. apply Hkeep; [|done]. by apply Hk.
  - intros r0 a0 l [Hne Hnb]%not_elem_of_cons -> H0. eapply Hpast; [done|reflexivity|].
    by eapply fate_kept.
  - intros [|i] r0 a0; simpl.
    + intros [= <-] [= <-]. by eapply Hpast.
    + intros Hi Ha. by eapply Hall.
Qed.
End delivery_lemmas.

(** ** Properties *)

Section delivery_theorems.
Context `{PyLib}.
Context (sign_bytes : string → string → res string) (pub : RuntimeDeliveryPublisher).

(** The states of a worker made with an outbox of at most [limit] rows, batches of
    [batch] and [attempts]. *)
Definition reachable (limit batch attempts : Z) : DeliveryWorker → Prop :=
  rtc (delivery_step sign_bytes pub)
    (DeliveryWorker_init (DeliveryOutbox_init limit) batch attempts).

Lemma delivery_reachable_inv limit batch attempts w :
  (∀ t, fromisoformat (isoformat t) = Some t) → Inj (=) (=) uuid_str →
  reachable limit batch attempts w →
  worker_inv (Z.max 1 limit) (Z.max 1 attempts) w.
Proof.
  intros Hiso Hinj Hr.
  assert (worker_inv (Z.max 1 limit) (Z.max 1 attempts)
    (DeliveryWorker_init (DeliveryOutbox_init limit) batch attempts)) as H0.
  { split_and!; simpl; try lia; try (intros ? []%not_elem_of_nil).
    - exists 0%Z. split_and!; simpl; first [lia|by left|constructor].
    - intros id. unfold handed. simpl. lia. }
  revert H0. induction Hr as [|w1 w2 w3 Hs _ IH]; [done|]. intros H0. apply IH.
  by eapply delivery_step_inv.
Qed.

(** C18: The outbox is bounded, unambiguous and readable in every reachable state:
    at most [max_entries] rows, no identifier, idempotency key or sequence number twice
    (the rows stand in sequence order), and every row reads back as the envelope it was
    made of, its payload as JSON keeps it. *)
Theorem outbox_invariant limit batch attempts w :
  (∀ t, fromisoformat (isoformat t) = Some t) → Inj (=) (=) uuid_str →
  reachable limit batch attempts w →
  (size (outbox w) ≤ Z.max 1 limit)%Z ∧
  NoDup (ob_id <$> ob_rows (outbox w)) ∧ NoDup (ob_key <$> ob_rows (outbox w)) ∧
  StronglySorted Z.lt (ob_sequence <$> ob_rows (outbox w)) ∧
  ∀ r, r ∈ ob_rows (outbox w) → ∃ e rec, holds e r ∧ _row_to_record r = Ok rec ∧
    or_envelope rec = stored_form e.
Proof.
  intros Hiso Hinj Hr. destruct (delivery_reachable_inv limit batch attempts w Hiso Hinj Hr)
    as ([c ([Hm Hlim] & Hl & Hc & Hle & Hs & Hid & Hkey & Hrows)] & _).
  split_and!; try done; [unfold size; lia|]. intros r Hin. rewrite Forall_forall in Hrows.
  destruct (Hrows r Hin) as [e He]. destruct (row_reads_back Hiso e r He) as (rec & ? & ? & _).
  by exists e, rec.
Qed.

(** A publication whose signature succeeds returns the envelope; it changes nothing
    when its idempotency key is in the outbox, and otherwise adds one pending row that
    holds it, after which the oldest rows beyond [max_entries] are dropped and no others. *)
Theorem publish_stores limit batch attempts w rq :
  (∀ t, fromisoformat (isoformat t) = Some t) → Inj (=) (=) uuid_str →
  (∀ m k, is_ok (sign_bytes m k)) → reachable limit batch attempts w →
  ∃ e w', _append sign_bytes pub rq w = (Ok e, w') ∧
    kind e = rq_kind rq ∧ payload e = rq_payload rq ∧
    payload_hash e = hash_payload (rq_payload rq) ∧
    if envelope_key e in? (ob_key <$> ob_rows (outbox w))
    then ob_rows (outbox w') = ob_rows (outbox w)
    else ∃ row, holds e row ∧ ob_status row = "pending" ∧ ob_attempts row = 0%Z ∧
      Forall (λ r, ob_sequence r < ob_sequence row)%Z (ob_rows (outbox w)) ∧
      ob_rows (outbox w') =
        drop (S (length (ob_rows (outbox w))) - Z.to_nat (Z.max 1 limit))
          (ob_rows (outbox w) ++ [row]).
Proof.
  intros Hiso Hinj Hsign Hr.
  pose proof (delivery_reachable_inv limit batch attempts w Hiso Hinj Hr) as Hw.
  pose proof Hw as ([c Hb] & _). pose proof Hb as ([_ Hlim] & _ & _ & Hle & _).
  destruct (publish_cases Hiso Hinj sign_bytes pub _ _ rq w c Hw Hb)
    as (w' & -> & _ & _ & _ & _ & _ & Hrows).
  destruct (signed sign_bytes pub (envelope_for pub rq (wk_ticks w) c)) as [e|ex] eqn:Hsg.
  - exists e, w'. split; [done|].
    assert (kind e = rq_kind rq ∧ payload e = rq_payload rq ∧
      payload_hash e = hash_payload (rq_payload rq) ∧ sequence e = (c + 1)%Z)
      as (? & ? & ? & Hseq).
    { revert Hsg. unfold signed. destruct (private_key pub); [|by intros [= <-]].
      destruct (sign_bytes _ _); simpl; [|done]. by intros [= <-]. }
    split_and!; try done. case_bool_decide; [done|].
    exists (new_row (clock (2 + wk_ticks w)) e).
    split_and!; try done; [apply new_row_holds| |by rewrite Hrows, <- Hlim].
    simpl. rewrite Hseq. rewrite Forall_fmap in Hle. eapply Forall_impl; [exact Hle|].
    simpl. lia.
  - exfalso. revert Hsg. unfold signed. destruct (private_key pub) as [k|]; [|done].
    pose proof (Hsign (canonical_signed_bytes (envelope_for pub rq (wk_ticks w) c)) k) as Hk.
    by destruct (sign_bytes _ _).
Qed.

(** C16: A flush during which nothing else happens hands over exactly the entries of its batch
    that have attempts left, each once and in order, deletes the acknowledged ones and nothing
    else: entries outside the batch stay as they are, an entry whose attempts are exhausted
    fails without being handed over, any other answer of the transport, an exception
    included, leaves the entry failed with its content unchanged. *)
Theorem flush_deletes_acked limit batch attempts w answer_of :
  (∀ t, fromisoformat (isoformat t) = Some t) → Inj (=) (=) uuid_str →
  reachable limit batch attempts w → (∀ i, quiet (answer_of i)) →
  let due := pending_rows (batch_size w) (ob_rows (outbox w)) in
  ∃ n w', flush_once sign_bytes pub true answer_of w = (Ok n, w') ∧
    wk_sent w' = wk_sent w ++ tried (Z.max 1 attempts) due ∧
    (∀ r, r ∈ ob_rows (outbox w) → r ∉ due → r ∈ ob_rows (outbox w')) ∧
    (∀ i r, due !! i = Some r →
       fate (Z.max 1 attempts) (answer_of i) r (ob_rows (outbox w'))).
Proof.
  intros Hiso Hinj Hr Hq due.
  pose proof (delivery_reachable_inv limit batch attempts w Hiso Hinj Hr) as Hw.
  destruct (batch_ready Hiso Hinj _ _ w Hw) as (recs & Hp & Hf & _).
  pose proof Hw as ([c Hb] & [_ Hm] & _).
  pose proof Hb as (_ & _ & _ & _ & _ & Hid & _).
  unfold flush_once. rewrite get_state_bind. unfold mbind, M_bind, lift_res. rewrite Hp.
  destruct (flush_records_quiet sign_bytes pub (Z.max 1 attempts) due recs
    (answer_of <$> seq 0 (length recs)) 0 w Hm Hf) as (n & w' & E & Hs & Hkeep & _ & Hall).
  - by eapply pending_NoDup.
  - intros r Hin. by apply pending_rows_spec in Hin as [? _].
  - apply Forall_fmap, Forall_forall. intros i _. apply Hq.
  - by rewrite length_fmap, length_seq.
  - exists n, w'. split; [exact E|]. split; [exact Hs|]. split.
    + intros r Hin Hni. apply Hkeep; [done|]. intros [x [Hx Hxin]]%list_elem_of_fmap.
      assert (x = r) as ->; [|done].
      pose proof Hxin as [Hx' _]%pending_rows_spec.
      pose proof (row_of_id_unique r _ Hid Hin) as H1.
      pose proof (row_of_id_unique x _ Hid Hx') as H2. rewrite Hx in H1. congruence.
    + intros i r Hi. apply (Hall i); [done|]. rewrite list_lookup_fmap, lookup_seq_lt; [done|].
      apply Forall2_length in Hf. rewrite <- Hf. by eapply lookup_lt_Some.
Qed.

(** C17: Every hand-over counts two attempts, one when it is sent and one when it fails, so
    no envelope is ever given to the transport more than half of [max_attempts] times,
    rounded up, whatever the transport answers and whatever is published meanwhile. *)
Theorem handed_at_most_half limit batch attempts w id :
  (∀ t, fromisoformat (isoformat t) = Some t) → Inj (=) (=) uuid_str →
  reachable limit batch attempts w →
  (handed id (wk_sent w) ≤ (Z.max 1 attempts + 1) / 2)%Z.
Proof.
  intros Hiso Hinj Hr. destruct (delivery_reachable_inv limit batch attempts w Hiso Hinj Hr)
    as (_ & [_ Hm] & _ & _ & Hh & _).
  specialize (Hh id). rewrite Hm in Hh. apply Z.div_le_lower_bound; lia.
Qed.
End delivery_theorems.

(** *** The receiver *)

Section intake_theorems.
Context `{PyLib}.

Lemma find_key_spec key (l : list IntakeRow) :
  (∃ r, snd <$> list_find (λ r, in_key r = key) l = Some r ∧ r ∈ l ∧ in_key r = key) ∨
  snd <$> list_find (λ r, in_key r = key) l = None ∧ Forall (λ r, in_key r ≠ key) l.
Proof.
  destruct (list_find _ _) as [[i r]|] eqn:Hf; [left|right].
  - apply list_find_Some in Hf as (Hl & ? & _). exists r.
    split_and!; [done|by eapply list_elem_of_lookup_2|done].
  - split; [done|]. by apply list_find_None in Hf.
Qed.

Lemma find_key_unique key r (l1 l2 : list IntakeRow) :
  Forall (λ r, in_key r ≠ key) l1 → in_key r = key →
  snd <$> list_find (λ r, in_key r = key) (l1 ++ r :: l2) = Some r.
Proof.
  intros Hf Hr. induction Hf as [|x l1 Hx _ IH]; simpl.
  - by rewrite decide_True.
  - rewrite decide_False by done. rewrite <- IH.
    rewrite <- option_fmap_compose. by destruct (list_find _ (l1 ++ r :: l2)) as [[i y]|].
Qed.

Lemma accept_known now e s r :
  _validate s e = Ok tt → snd <$> list_find (λ r, in_key r = envelope_key e) (in_rows s) = Some r →
  accept now e s =
    if in_hash r == payload_hash e
    then (Ok ACKED, set_intake (in_rows s) (received s ++ [e]) s)
    else (Raise (IntakeRejected "duplicate_conflict"
                   "idempotency key reused with conflicting payload"), s).
Proof.
  intros Hv Hf. unfold accept. rewrite get_state_bind. unfold mbind, M_bind, lift_res.
  rewrite Hv, Hf. by destruct (bool_decide (in_hash r = payload_hash e)).
Qed.

Lemma accept_new now e s :
  _validate s e = Ok tt → snd <$> list_find (λ r, in_key r = envelope_key e) (in_rows s) = None →
  accept now e s =
    if envelope_id e in? (in_id <$> in_rows s)
    then (Raise (Exn "IntegrityError" "" "UNIQUE constraint failed"), s)
    else (Ok ACKED, set_intake (in_rows s ++ [intake_row now e]) (received s ++ [e]) s).
Proof.
  intros Hv Hf. unfold accept. rewrite get_state_bind. unfold mbind, M_bind, lift_res.
  rewrite Hv, Hf. by destruct (bool_decide (envelope_id e ∈ _)).
Qed.

(** What an acknowledged envelope leaves behind makes a redelivery a no-op. *)
Lemma accept_again now e s r :
  _validate s e = Ok tt → snd <$> list_find (λ r, in_key r = envelope_key e) (in_rows s) = Some r →
  in_hash r = payload_hash e →
  ∃ s', accept now e s = (Ok ACKED, s') ∧ in_rows s' = in_rows s.
Proof.
  intros Hv Hf Hh. rewrite (accept_known now e s r Hv Hf), bool_decide_eq_true_2 by done.
  by eexists.
Qed.

(** C19: Redelivery is harmless: an envelope the receiver acknowledges is valid, what was
    stored stays first and unchanged, a row holds its key with its payload hash, and a
    second delivery of it, at any time after, is acknowledged without another row; a
    delivery that raises stores nothing. *)
Theorem redelivery_is_harmless now s e :
  match accept now e s with
  | (Ok st, s') =>
      st = ACKED ∧ _validate s e = Ok tt ∧
      (∃ rest, in_rows s' = in_rows s ++ rest ∧ length rest ≤ 1) ∧
      (∃ r, r ∈ in_rows s' ∧ in_key r = envelope_key e ∧ in_hash r = payload_hash e) ∧
      ∀ now', ∃ s2, accept now' e s' = (Ok ACKED, s2) ∧ in_rows s2 = in_rows s'
  | (Raise _, s') => in_rows s' = in_rows s
  end.
Proof.
  destruct (_validate s e) as [[]|ex] eqn:Hv.
  2: { unfold accept. rewrite get_state_bind. unfold mbind, M_bind, lift_res. by rewrite Hv. }
  destruct (find_key_spec (envelope_key e) (in_rows s)) as [(r & Hf & Hin & Hk)|[Hf Hno]].
  - rewrite (accept_known now e s r Hv Hf). case_bool_decide as Hh; [|done].
    split_and!; [done|done|exists []; rewrite app_nil_r; split; [done|simpl; lia]|by exists r|].
    intros now'. by apply (accept_again now' e _ r).
  - rewrite (accept_new now e s Hv Hf). case_bool_decide; [done|].
    split_and!; [done|done|exists [intake_row now e]; split; [done|simpl; lia]| |].
    + exists (intake_row now e). split_and!; [|done|done]. apply elem_of_app. right. left.
    + intros now'. apply (accept_again now' e _ (intake_row now e)); [done| |done].
      by apply find_key_unique.
Qed.
End intake_theorems.

(** ** Concrete runs

    An outbox of two entries and a worker with two attempts to an entry. *)

Section runs.
#[local] Existing Instance counting_lib.

Definition no_sign (m k : string) : res string := Ok (m +:+ k).
Definition sample_pub : RuntimeDeliveryPublisher :=
  {| private_key := None; pub_key_id := None;
     identity := {| publisher_id := "joymesh"; public_key := None; instance_id := "i";
                    organisation_id := "local" |} |}.
Definition ask (key : string) : request :=
  {| rq_kind := RUNTIME_EVENT; rq_payload := [("event_type", PStr key)]; rq_key := Some key |}.
Definition answer_with (r : res DeliveryAckStatus) : nat → answer :=
  λ _, {| at_ack := r; at_meanwhile := [] |}.

Definition w_start : DeliveryWorker := DeliveryWorker_init (DeliveryOutbox_init 2) 1 2.
Definition publish (key : string) (w : DeliveryWorker) : DeliveryWorker :=
  (_append no_sign sample_pub (ask key) w).2.
Definition flushed (r : res DeliveryAckStatus) (w : DeliveryWorker) : DeliveryWorker :=
  (flush_once no_sign sample_pub true (answer_with r) w).2.

Definition w_two : DeliveryWorker := publish "k2" (publish "k1" w_start).

Lemma counting_iso : ∀ t, @fromisoformat counting_lib (@isoformat counting_lib t) = Some t.
Proof. intros t. apply int_of_str_pretty. Qed.

Lemma counting_uuid_inj : Inj (=) (=) (@uuid_str counting_lib).
Proof. exact (pretty_nat_inj). Qed.

Lemma w_two_reachable : reachable no_sign sample_pub 2 1 2 w_two.
Proof.
  eapply rtc_l; [apply (ds_publish no_sign sample_pub _ (ask "k1"))|].
  apply rtc_once, (ds_publish no_sign sample_pub _ (ask "k2")).
Qed.

Lemma outbox_invariant_witness :
  size (outbox w_two) = 2%Z ∧
  (size (outbox w_two) ≤ Z.max 1 2)%Z ∧
  NoDup (ob_id <$> ob_rows (outbox w_two)) ∧ NoDup (ob_key <$> ob_rows (outbox w_two)) ∧
  StronglySorted Z.lt (ob_sequence <$> ob_rows (outbox w_two)) ∧
  ∀ r, r ∈ ob_rows (outbox w_two) → ∃ e rec, holds e r ∧ _row_to_record r = Ok rec ∧
    or_envelope rec = stored_form e.
Proof.
  split; [vm_compute; reflexivity|].
  exact (outbox_invariant no_sign sample_pub 2 1 2 w_two counting_iso counting_uuid_inj
           w_two_reachable).
Defined.

(** A third key makes the oldest of two entries go. *)
Lemma publish_stores_witness :
  ob_key <$> ob_rows (outbox (publish "k3" w_two)) = ["k2"; "k3"] ∧
  ∃ e w', _append no_sign sample_pub (ask "k3") w_two = (Ok e, w') ∧
    kind e = RUNTIME_EVENT ∧ payload e = rq_payload (ask "k3") ∧
    payload_hash e = hash_payload (rq_payload (ask "k3")) ∧
    if envelope_key e in? (ob_key <$> ob_rows (outbox w_two))
    then ob_rows (outbox w') = ob_rows (outbox w_two)
    else ∃ row, holds e row ∧ ob_status row = "pending" ∧ ob_attempts row = 0%Z ∧
      Forall (λ r, ob_sequence r < ob_sequence row)%Z (ob_rows (outbox w_two)) ∧
      ob_rows (outbox w') =
        drop (S (length (ob_rows (outbox w_two))) - Z.to_nat (Z.max 1 2))
          (ob_rows (outbox w_two) ++ [row]).
Proof.
  split; [vm_compute; reflexivity|].
  exact (publish_stores no_sign sample_pub 2 1 2 w_two (ask "k3") counting_iso
           counting_uuid_inj (λ m k, I) w_two_reachable).
Defined.

Lemma flush_deletes_acked_witness :
  ob_key <$> ob_rows (outbox (flushed (Ok ACKED) w_two)) = ["k2"] ∧
  let due := pending_rows (batch_size w_two) (ob_rows (outbox w_two)) in
  ∃ n w', flush_once no_sign sample_pub true (answer_with (Ok ACKED)) w_two = (Ok n, w') ∧
    wk_sent w' = wk_sent w_two ++ tried (Z.max 1 2) due ∧
    (∀ r, r ∈ ob_rows (outbox w_two) → r ∉ due → r ∈ ob_rows (outbox w')) ∧
    (∀ i r, due !! i = Some r →
       fate (Z.max 1 2) (answer_with (Ok ACKED) i) r (ob_rows (outbox w'))).
Proof.
  split; [vm_compute; reflexivity|].
  refine (flush_deletes_acked no_sign sample_pub 2 1 2 w_two (answer_with (Ok ACKED))
            counting_iso counting_uuid_inj w_two_reachable _).
  intros i. split; [reflexivity|]. intros e He. discriminate.
Defined.

(** Two attempts to an entry are one hand-over, however often the worker flushes. *)
Definition w_refused : DeliveryWorker :=
  flushed (Ok FAILED) (flushed (Ok FAILED) (flushed (Ok FAILED) w_two)).

Lemma w_refused_reachable : reachable no_sign sample_pub 2 1 2 w_refused.
Proof.
  unfold reachable. etransitivity; [exact w_two_reachable|].
  do 2 (eapply rtc_l; [apply (ds_flush no_sign sample_pub _ true (answer_with (Ok FAILED)))|]).
  apply rtc_once, (ds_flush no_sign sample_pub _ true (answer_with (Ok FAILED))).
Qed.

Lemma handed_at_most_half_witness :
  wk_sent w_refused = ["0"] ∧ (handed "0" (wk_sent w_refused) ≤ (Z.max 1 2 + 1) / 2)%Z.
Proof.
  split; [vm_compute; reflexivity|].
  exact (handed_at_most_half no_sign sample_pub 2 1 2 w_refused "0" counting_iso
           counting_uuid_inj w_refused_reachable).
Defined.

(** The exhausted entry stays at the head of the queue: with a batch of one, the entry
    behind it is never handed over, even by a transport that acknowledges everything. *)
Example exhausted_entry_starves :
  let w := flushed (Ok ACKED) (flushed (Ok ACKED) w_refused) in
  wk_sent w = ["0"] ∧ ob_key <$> ob_rows (outbox w) = ["k1"; "k2"].
Proof. vm_compute. split; reflexivity. Qed.

(** An entry whose flush is cancelled while it is with the transport stays [sent], which
    no later flush selects. *)
Example cancelled_entry_is_stuck :
  let w := flushed (Ok ACKED) (flushed (Ok ACKED)
    (flushed (Raise (Exn "CancelledError" "" "")) w_two)) in
  (λ r, (ob_key r, ob_status r)) <$> ob_rows (outbox w) = [("k1", "sent")].
Proof. vm_compute. reflexivity. Qed.
End runs.
