(* ===== verification/TaskAnalysis.v ===== *)
(** * Task analysis and routing policies

    [execution_routing/capability_routing/task_analysis.py] and [policies.py], with the
    capability identifiers of [execution_routing/capabilities.py]: the keyword rules that
    classify a prompt, and the policy read from the caller's preferences. Prompts are
    ASCII, so the letters of [re.I] and the word boundaries of [\b] are the ASCII ones. *)

From Stdlib Require Import Ascii SpecFloat.
From S2P Require Import Prelude.

(** ** Capability identifiers *)

(* @src runtime_v1/execution_routing/capabilities.py:8-23 ExecutionCapability *)
Inductive ExecutionCapability :=
| INTERNET | GPU | FILESYSTEM | PROVIDER_ROUTING | SANDBOX | STREAMING
| PERSISTENT_WORKSPACE | EPHEMERAL_WORKSPACE | EC_VISION | VOICE | BROWSER
| MULTI_AGENT | EC_LONG_RUNNING | REMOTE_WORKER | LOCAL_PROCESS.
#[export] Instance ExecutionCapability_eq_dec : EqDecision ExecutionCapability.
Proof. solve_decision. Defined.

(* @src runtime_v1/execution_routing/capabilities.py:8-23 ExecutionCapability.value *)
Definition ExecutionCapability_value (c : ExecutionCapability) : string :=
  match c with
  | INTERNET => "internet" | GPU => "gpu" | FILESYSTEM => "filesystem"
  | PROVIDER_ROUTING => "provider_routing" | SANDBOX => "sandbox"
  | STREAMING => "streaming" | PERSISTENT_WORKSPACE => "persistent_workspace"
  | EPHEMERAL_WORKSPACE => "ephemeral_workspace" | EC_VISION => "vision"
  | VOICE => "voice" | BROWSER => "browser" | MULTI_AGENT => "multi_agent"
  | EC_LONG_RUNNING => "long_running" | REMOTE_WORKER => "remote_worker"
  | LOCAL_PROCESS => "local_process"
  end.

Definition all_ExecutionCapability : list ExecutionCapability :=
  [INTERNET; GPU; FILESYSTEM; PROVIDER_ROUTING; SANDBOX; STREAMING; PERSISTENT_WORKSPACE;
   EPHEMERAL_WORKSPACE; EC_VISION; VOICE; BROWSER; MULTI_AGENT; EC_LONG_RUNNING;
   REMOTE_WORKER; LOCAL_PROCESS].

Definition ExecutionCapability_of := enum_of ExecutionCapability_value all_ExecutionCapability.
#[export] Instance ExecutionCapability_countable : Countable ExecutionCapability.
Proof.
  refine (inj_countable ExecutionCapability_value ExecutionCapability_of _).
  by intros [].
Defined.

(* @src runtime_v1/execution_routing/capabilities.py:27-29 KNOWN_HARNESSES *)
Definition KNOWN_HARNESSES : gset string :=
  {[ "codex"; "claude"; "opencode"; "cursor"; "vscode"; "grok" ]}.

(* @src runtime_v1/execution_routing/capability_routing/task_analysis.py:12-26 TaskClass *)
Inductive TaskClass :=
| REPOSITORY_REFACTOR | INTERACTIVE_EDIT | BUG_FIX | PLANNING | ARCHITECTURE
| DOCUMENTATION | TERMINAL_EXECUTION | TC_VISION | CODE_REVIEW | LARGE_GENERATION
| QUICK_QUESTION | TC_AUTONOMOUS_CODING | PRIVATE_CODEBASE | TC_UNKNOWN.
#[export] Instance TaskClass_eq_dec : EqDecision TaskClass.
Proof. solve_decision. Defined.

(* @src runtime_v1/execution_routing/capability_routing/task_analysis.py:12-26 TaskClass.value *)
Definition TaskClass_value (c : TaskClass) : string :=
  match c with
  | REPOSITORY_REFACTOR => "repository_refactor" | INTERACTIVE_EDIT => "interactive_edit"
  | BUG_FIX => "bug_fix" | PLANNING => "planning" | ARCHITECTURE => "architecture"
  | DOCUMENTATION => "documentation" | TERMINAL_EXECUTION => "terminal_execution"
  | TC_VISION => "vision" | CODE_REVIEW => "code_review"
  | LARGE_GENERATION => "large_generation" | QUICK_QUESTION => "quick_question"
  | TC_AUTONOMOUS_CODING => "autonomous_coding" | PRIVATE_CODEBASE => "private_codebase"
  | TC_UNKNOWN => "unknown"
  end.
Definition all_TaskClass : list TaskClass :=
  [REPOSITORY_REFACTOR; INTERACTIVE_EDIT; BUG_FIX; PLANNING; ARCHITECTURE; DOCUMENTATION;
   TERMINAL_EXECUTION; TC_VISION; CODE_REVIEW; LARGE_GENERATION; QUICK_QUESTION;
   TC_AUTONOMOUS_CODING; PRIVATE_CODEBASE; TC_UNKNOWN].
Definition TaskClass_of := enum_of TaskClass_value all_TaskClass.

(* @src runtime_v1/execution_routing/capability_routing/task_analysis.py:30-48 SemanticCapability *)
Inductive SemanticCapability :=
| REPOSITORY_EDITING | AUTONOMOUS_CODING | TERMINAL | TESTING | LONG_RUNNING
| PATCH_GENERATION | INTERACTIVE_EDITING | IDE_WORKFLOW | PAIR_PROGRAMMING
| PROVIDER_FLEXIBLE | OPEN_MODEL_SUPPORT | SCRIPTING | LONG_CONTEXT | REASONING
| VISION | LOCAL_ONLY | LOW_LATENCY | COST_SENSITIVE.
#[export] Instance SemanticCapability_eq_dec : EqDecision SemanticCapability.
Proof. solve_decision. Defined.

(* @src runtime_v1/execution_routing/capability_routing/task_analysis.py:30-48 SemanticCapability.value *)
Definition SemanticCapability_value (c : SemanticCapability) : string :=
  match c with
  | REPOSITORY_EDITING => "repository_editing" | AUTONOMOUS_CODING => "autonomous_coding"
  | TERMINAL => "terminal" | TESTING => "testing" | LONG_RUNNING => "long_running"
  | PATCH_GENERATION => "patch_generation" | INTERACTIVE_EDITING => "interactive_editing"
  | IDE_WORKFLOW => "ide_workflow" | PAIR_PROGRAMMING => "pair_programming"
  | PROVIDER_FLEXIBLE => "provider_flexible" | OPEN_MODEL_SUPPORT => "open_model_support"
  | SCRIPTING => "scripting" | LONG_CONTEXT => "long_context" | REASONING => "reasoning"
  | VISION => "vision" | LOCAL_ONLY => "local_only" | LOW_LATENCY => "low_latency"
  | COST_SENSITIVE => "cost_sensitive"
  end.
Definition all_SemanticCapability : list SemanticCapability :=
  [REPOSITORY_EDITING; AUTONOMOUS_CODING; TERMINAL; TESTING; LONG_RUNNING; PATCH_GENERATION;
   INTERACTIVE_EDITING; IDE_WORKFLOW; PAIR_PROGRAMMING; PROVIDER_FLEXIBLE;
   OPEN_MODEL_SUPPORT; SCRIPTING; LONG_CONTEXT; REASONING; VISION; LOCAL_ONLY; LOW_LATENCY;
   COST_SENSITIVE].
Definition SemanticCapability_of := enum_of SemanticCapability_value all_SemanticCapability.
#[export] Instance SemanticCapability_countable : Countable SemanticCapability.
Proof.
  refine (inj_countable SemanticCapability_value SemanticCapability_of _).
  by intros [].
Defined.

(** [sorted(item.value for item in s)] of a set of members. *)
Definition sorted_values `{Countable A} (value : A → string) (s : gset A) : list string :=
  sorted_strs (value <$> elements s).

(** ** The analysis of a prompt *)

(* @src runtime_v1/execution_routing/capability_routing/task_analysis.py:51-61 TaskAnalysis *)
Record TaskAnalysis := {
  task_class : TaskClass;
  required_semantic : gset SemanticCapability;
  optional_semantic : gset SemanticCapability;
  derived_execution_capabilities : gset ExecutionCapability;
  privacy_required : bool;
  prefers_local : bool;
  estimated_complexity : string;
  ta_reasons : list pyval;
  ta_metadata : dict
}.

Definition PStrs (l : list string) : pyval := PList (PStr <$> l).

(* @src runtime_v1/execution_routing/capability_routing/task_analysis.py:63-76 TaskAnalysis.as_dict *)
Definition TaskAnalysis_as_dict (a : TaskAnalysis) : dict :=
  [("task_class", PStr (TaskClass_value (task_class a)));
   ("required_semantic", PStrs (sorted_values SemanticCapability_value (required_semantic a)));
   ("optional_semantic", PStrs (sorted_values SemanticCapability_value (optional_semantic a)));
   ("derived_execution_capabilities",
      PStrs (sorted_values ExecutionCapability_value (derived_execution_capabilities a)));
   ("privacy_required", PBool (privacy_required a));
   ("prefers_local", PBool (prefers_local a));
   ("estimated_complexity", PStr (estimated_complexity a));
   ("reasons", PList (ta_reasons a));
   ("metadata", PDict (ta_metadata a))].

(** *** The patterns

    Every pattern of the source is [\b(a1|...|an)\b] where an alternative is made of
    characters and [.?]. An alternative is kept as its text; [alt_match] reads it. *)

Definition word_char (c : Ascii.ascii) : bool :=
  let n := Ascii.nat_of_ascii c in
  bool_decide (48 ≤ n ≤ 57) || bool_decide (65 ≤ n ≤ 90) ||
  bool_decide (97 ≤ n ≤ 122) || (n == 95).
Definition is_word (o : option Ascii.ascii) : bool :=
  match o with Some c => word_char c | None => false end.
Definition str_head (s : string) : option Ascii.ascii :=
  match s with String.String c _ => Some c | EmptyString => None end.
(** [\b] between the character before and the one after. *)
Definition boundary (prev next : option Ascii.ascii) : bool :=
  xorb (is_word prev) (is_word next).

(** The alternative matches a prefix of [s] and ends at a word boundary. *)
Fixpoint alt_match (alt : string) (prev : option Ascii.ascii) (s : string) : bool :=
  match alt with
  | EmptyString => boundary prev (str_head s)
  | String.String "."%char (String.String "?"%char alt') =>
      match s with
      | String.String c s' => negb (Ascii.nat_of_ascii c == 10) && alt_match alt' (Some c) s'
      | EmptyString => false
      end || alt_match alt' prev s
  | String.String a alt' =>
      match s with
      | String.String c s' =>
          Ascii.eqb (lower_char a) (lower_char c) && alt_match alt' (Some c) s'
      | EmptyString => false
      end
  end.

(** [re.search(r"\b(a1|...|an)\b", s, re.I)], from the character before [s] on. *)
Fixpoint re_search (alts : list string) (prev : option Ascii.ascii) (s : string) : bool :=
  (boundary prev (str_head s) && existsb (λ a, alt_match a prev s) alts) ||
  match s with
  | String.String c s' => re_search alts (Some c) s'
  | EmptyString => false
  end.

(** [pattern.pattern]. *)
Definition pattern_text (alts : list string) : string := "\b(" +:+ join "|" alts +:+ ")\b".

(* @src runtime_v1/execution_routing/capability_routing/task_analysis.py:82-88 TaskRule *)
Record TaskRule := Rule {
  tr_pattern : list string;
  tr_class : TaskClass;
  tr_semantic : gset SemanticCapability;
  tr_exec : gset ExecutionCapability;
  tr_complexity : string
}.

Definition private_alts : list string :=
  ["private"; "on.?prem"; "air.?gap"; "local.?only"; "no.?cloud"].

(* @src runtime_v1/execution_routing/capability_routing/task_analysis.py:91-213 _RULES *)
Definition _RULES : list TaskRule := [
  Rule ["refactor"; "large.?repo"; "repository.?wide"; "migrate codebase"]
    REPOSITORY_REFACTOR
    {[ REPOSITORY_EDITING; AUTONOMOUS_CODING; TERMINAL; LONG_RUNNING; LONG_CONTEXT ]}
    {[ FILESYSTEM ]} "high";
  Rule ["interactive"; "pair.?program"; "in.?ide"; "cursor.?edit"]
    INTERACTIVE_EDIT {[ INTERACTIVE_EDITING; IDE_WORKFLOW; LOW_LATENCY ]}
    {[ FILESYSTEM ]} "low";
  Rule ["bug"; "fix"; "regress"; "stack.?trace"; "crash"]
    BUG_FIX {[ REPOSITORY_EDITING; TERMINAL; TESTING; PATCH_GENERATION ]}
    {[ FILESYSTEM ]} "medium";
  Rule ["architect"; "design system"; "system design"; "trade.?off"]
    ARCHITECTURE {[ REASONING; LONG_CONTEXT ]} ∅ "high";
  Rule ["plan"; "roadmap"; "breakdown"; "estimate"] PLANNING {[ REASONING ]} ∅ "medium";
  Rule ["document"; "readme"; "docs"; "changelog"]
    DOCUMENTATION {[ REPOSITORY_EDITING ]} {[ FILESYSTEM ]} "low";
  Rule ["shell"; "terminal"; "cli"; "command"; "pytest"; "npm test"]
    TERMINAL_EXECUTION {[ TERMINAL; SCRIPTING ]} {[ LOCAL_PROCESS; FILESYSTEM ]} "medium";
  Rule ["vision"; "screenshot"; "image"; "diagram"; "ocr"] TC_VISION {[ VISION ]} ∅ "medium";
  Rule ["code.?review"; "pr review"; "review diff"]
    CODE_REVIEW {[ REASONING; LONG_CONTEXT ]} {[ FILESYSTEM ]} "medium";
  Rule ["generate"; "scaffold"; "boilerplate"; "large.?output"]
    LARGE_GENERATION {[ LONG_CONTEXT; AUTONOMOUS_CODING ]} ∅ "high";
  Rule private_alts PRIVATE_CODEBASE
    {[ PROVIDER_FLEXIBLE; OPEN_MODEL_SUPPORT ]} {[ FILESYSTEM; LOCAL_PROCESS ]} "medium";
  Rule ["cheap"; "low.?cost"; "budget"; "open.?model"; "qwen"]
    TC_AUTONOMOUS_CODING
    {[ AUTONOMOUS_CODING; OPEN_MODEL_SUPPORT; COST_SENSITIVE; PROVIDER_FLEXIBLE ]}
    ∅ "medium";
  Rule ["quick"; "simple question"; "what is"; "explain briefly"]
    QUICK_QUESTION {[ LOW_LATENCY ]} ∅ "low"
].

(** [complexity_rank.get(c, 1)]. *)
Definition complexity_rank (c : string) : nat :=
  if c == "low" then 0 else if c == "medium" then 1 else if c == "high" then 2 else 1.

(** [key(b) <= key(a)] of the sort in reverse. *)
Definition rule_geb (a b : TaskRule) : bool :=
  let ka := complexity_rank (tr_complexity a) in
  let kb := complexity_rank (tr_complexity b) in
  if ka == kb then bool_decide (size (tr_semantic b) ≤ size (tr_semantic a))
  else bool_decide (kb ≤ ka).

Definition matching_rules (prompt : string) : list TaskRule :=
  List.filter (λ r, re_search (tr_pattern r) None prompt) _RULES.

(* @src runtime_v1/execution_routing/capability_routing/task_analysis.py:219-274 TaskAnalyzer.analyse *)
Definition analyse (prompt : string) (metadata : dict) : TaskAnalysis :=
  match py_sorted rule_geb (matching_rules prompt) with
  | [] =>
      {| task_class := TC_UNKNOWN; required_semantic := ∅;
         optional_semantic := {[ REASONING ]}; derived_execution_capabilities := ∅;
         privacy_required := false; prefers_local := false;
         estimated_complexity := "medium"; ta_reasons := [PStr "no_task_class_match"];
         ta_metadata := metadata |}
  | primary :: rest =>
      let required := tr_semantic primary in
      let optional :=
        fold_left (λ acc r, acc ∪ (tr_semantic r ∖ required)) rest ∅ in
      let derived := fold_left (λ acc r, acc ∪ tr_exec r) rest (tr_exec primary) in
      let privacy := (tr_class primary == PRIVATE_CODEBASE) ||
                     re_search private_alts None prompt in
      {| task_class := tr_class primary;
         required_semantic := required;
         optional_semantic := if privacy then optional ∪ {[ LOCAL_ONLY ]} else optional;
         derived_execution_capabilities := derived;
         privacy_required := privacy; prefers_local := privacy;
         estimated_complexity := tr_complexity primary;
         ta_reasons :=
           PStr ("matched:" +:+ TaskClass_value (tr_class primary) +:+ ":" +:+
                 pattern_text (tr_pattern primary)) ::
           ((λ r, PStr ("matched_optional:" +:+ TaskClass_value (tr_class r) +:+ ":" +:+
                        pattern_text (tr_pattern r))) <$> rest);
         ta_metadata := metadata |}
  end.

(** ** Routing policies *)

(* @src runtime_v1/execution_routing/capability_routing/policies.py:11-19 RoutingPolicyPreset *)
Inductive RoutingPolicyPreset :=
| PREFER_LOCAL | PREFER_CHEAPEST | PREFER_FASTEST | PREFER_STRONGEST_REASONING
| PREFER_OPEN_MODELS | AVOID_PAID_APIS | MAXIMIZE_QUALITY | BALANCED.
#[export] Instance RoutingPolicyPreset_eq_dec : EqDecision RoutingPolicyPreset.
Proof. solve_decision. Defined.

(* @src runtime_v1/execution_routing/capability_routing/policies.py:11-19 RoutingPolicyPreset.value *)
Definition RoutingPolicyPreset_value (p : RoutingPolicyPreset) : string :=
  match p with
  | PREFER_LOCAL => "prefer_local" | PREFER_CHEAPEST => "prefer_cheapest"
  | PREFER_FASTEST => "prefer_fastest"
  | PREFER_STRONGEST_REASONING => "prefer_strongest_reasoning"
  | PREFER_OPEN_MODELS => "prefer_open_models" | AVOID_PAID_APIS => "avoid_paid_apis"
  | MAXIMIZE_QUALITY => "maximize_quality" | BALANCED => "balanced"
  end.
Definition RoutingPolicyPreset_of := enum_of RoutingPolicyPreset_value
  [PREFER_LOCAL; PREFER_CHEAPEST; PREFER_FASTEST; PREFER_STRONGEST_REASONING;
   PREFER_OPEN_MODELS; AVOID_PAID_APIS; MAXIMIZE_QUALITY; BALANCED].

(** The lists hold what the caller's sequences hold, strings or not. *)
(* @src runtime_v1/execution_routing/capability_routing/policies.py:22-38 RoutingPolicy *)
Record RoutingPolicy := {
  preset : RoutingPolicyPreset;
  prefer_local : bool;
  prefer_cheapest : bool;
  prefer_fastest : bool;
  prefer_strongest_reasoning : bool;
  prefer_open_models : bool;
  avoid_paid_apis : bool;
  maximize_quality : bool;
  max_cost : option spec_float;
  denied_harnesses : list pyval;
  denied_connectors : list pyval;
  denied_models : list pyval;
  preferred_harnesses : list pyval;
  rp_preferred_connectors : list pyval;
  preferred_models : list pyval
}.

(** The preset of its text, with the aliases of the handler of [ValueError]. *)
(* @src runtime_v1/execution_routing/capability_routing/policies.py:43-57 RoutingPolicy.from_mapping *)
Definition preset_of (preset_raw : string) : RoutingPolicyPreset :=
  match RoutingPolicyPreset_of preset_raw with
  | Some p => p
  | None =>
      if preset_raw in? ["cheapest"; "prefer_cheapest"] then PREFER_CHEAPEST
      else if preset_raw in? ["fastest"; "prefer_fastest"] then PREFER_FASTEST
      else if preset_raw in? ["local"; "prefer_local"] then PREFER_LOCAL
      else if preset_raw in? ["quality"; "maximize_quality"] then MAXIMIZE_QUALITY
      else BALANCED
  end.

Section policies.
Context `{PyLib}.

(** [tuple(data.get(k) or ())]. *)
Definition tuple_field (data : dict) (k : string) : res (list pyval) :=
  py_tuple (py_or (dget k data) (PList [])).

(* @src runtime_v1/execution_routing/capability_routing/policies.py:40-95 RoutingPolicy.from_mapping *)
Definition from_mapping (data : dict) : res RoutingPolicy :=
  let preset_raw :=
    py_str (py_or (py_or (dget "preset" data) (dget "policy" data)) (PStr "balanced")) in
  let preset := preset_of preset_raw in
  let flag k p := truthy (dget k data) || (preset == p) in
  res_bind
    match dget "max_cost" data with
    | PNone => Ok None
    | v => res_bind (py_float v) (λ f, Ok (Some f))
    end (λ max_cost,
  res_bind (tuple_field data "denied_harnesses") (λ denied_harnesses,
  res_bind (tuple_field data "denied_connectors") (λ denied_connectors,
  res_bind (tuple_field data "denied_models") (λ denied_models,
  res_bind (tuple_field data "preferred_harnesses") (λ preferred_harnesses,
  res_bind (tuple_field data "preferred_connectors") (λ preferred_connectors,
  res_bind (tuple_field data "preferred_models") (λ preferred_models,
  Ok {| preset := preset;
        prefer_local := flag "prefer_local" PREFER_LOCAL;
        prefer_cheapest := flag "prefer_cheapest" PREFER_CHEAPEST;
        prefer_fastest := flag "prefer_fastest" PREFER_FASTEST;
        prefer_strongest_reasoning :=
          flag "prefer_strongest_reasoning" PREFER_STRONGEST_REASONING;
        prefer_open_models := flag "prefer_open_models" PREFER_OPEN_MODELS;
        avoid_paid_apis := flag "avoid_paid_apis" AVOID_PAID_APIS;
        maximize_quality := flag "maximize_quality" MAXIMIZE_QUALITY;
        max_cost := max_cost;
        denied_harnesses := denied_harnesses;
        denied_connectors := denied_connectors;
        denied_models := denied_models;
        preferred_harnesses := preferred_harnesses;
        rp_preferred_connectors := preferred_connectors;
        preferred_models := preferred_models |}))))))).

(* @src runtime_v1/execution_routing/capability_routing/policies.py:97-114 RoutingPolicy.as_dict *)
Definition RoutingPolicy_as_dict (p : RoutingPolicy) : dict :=
  [("preset", PStr (RoutingPolicyPreset_value (preset p)));
   ("prefer_local", PBool (prefer_local p));
   ("prefer_cheapest", PBool (prefer_cheapest p));
   ("prefer_fastest", PBool (prefer_fastest p));
   ("prefer_strongest_reasoning", PBool (prefer_strongest_reasoning p));
   ("prefer_open_models", PBool (prefer_open_models p));
   ("avoid_paid_apis", PBool (avoid_paid_apis p));
   ("maximize_quality", PBool (maximize_quality p));
   ("max_cost", match max_cost p with Some f => PFloat f | None => PNone end);
   ("denied_harnesses", PList (denied_harnesses p));
   ("denied_connectors", PList (denied_connectors p));
   ("denied_models", PList (denied_models p));
   ("preferred_harnesses", PList (preferred_harnesses p));
   ("preferred_connectors", PList (rp_preferred_connectors p));
   ("preferred_models", PList (preferred_models p))].
End policies.

(** ** The patterns, declaratively *)

(** The texts an alternative stands for. *)
Inductive alt_word : string → string → Prop :=
| aw_end : alt_word "" ""
| aw_any c alt w : Ascii.nat_of_ascii c ≠ 10 → alt_word alt w →
    alt_word (String.String "."%char (String.String "?"%char alt)) (String.String c w)
| aw_skip alt w : alt_word alt w →
    alt_word (String.String "."%char (String.String "?"%char alt)) w
| aw_char a c alt w :
    (∀ alt', String.String a alt ≠ String.String "."%char (String.String "?"%char alt')) →
    lower_char a = lower_char c → alt_word alt w →
    alt_word (String.String a alt) (String.String c w).

(** The last character of [s], [prev] when it is empty. *)
Fixpoint str_last (prev : option Ascii.ascii) (s : string) : option Ascii.ascii :=
  match s with String.String c s' => str_last (Some c) s' | EmptyString => prev end.

(** A word of [alt] occurs in [s] between two word boundaries. *)
Definition occurs (alt : string) (prev : option Ascii.ascii) (s : string) : Prop :=
  ∃ pre w post, s = pre +:+ w +:+ post ∧ alt_word alt w ∧
    boundary (str_last prev pre) (str_head (w +:+ post)) = true ∧
    boundary (str_last (str_last prev pre) w) (str_head post) = true.

Lemma alt_match_cons a alt prev s :
  (∀ alt', String.String a alt ≠ String.String "."%char (String.String "?"%char alt')) →
  alt_match (String.String a alt) prev s =
  match s with
  | String.String c s' =>
      Ascii.eqb (lower_char a) (lower_char c) && alt_match alt (Some c) s'
  | EmptyString => false
  end.
Proof.
  intros Hn. destruct (decide (a = "."%char)) as [->|Ha].
  - destruct alt as [|b alt]; [done|]. destruct (decide (b = "?"%char)) as [->|Hb].
    + by destruct (Hn alt).
    + destruct b as [[] [] [] [] [] [] [] []]; try done; by destruct Hb.
  - destruct a as [[] [] [] [] [] [] [] []]; try done; by destruct Ha.
Qed.

Lemma alt_ind (P : string → Prop) :
  P "" → (∀ alt, P alt → P (String.String "."%char (String.String "?"%char alt))) →
  (∀ a alt, (∀ alt', String.String a alt ≠ String.String "."%char (String.String "?"%char alt')) →
     P alt → P (String.String a alt)) →
  ∀ alt, P alt.
Proof.
  intros H0 H1 H2 alt.
  enough (P alt ∧ ∀ a, P (String.String a alt)) as [? _] by done.
  induction alt as [|b alt [IH IHs]]; split; auto.
  intros a. destruct (decide (a = "."%char ∧ b = "?"%char)) as [[-> ->]|Hn]; [by apply H1|].
    apply H2; [intros alt' [= ??]; by destruct Hn|done].
Qed.

Lemma alt_match_spec alt prev s :
  alt_match alt prev s = true ↔
  ∃ w post, s = w +:+ post ∧ alt_word alt w ∧
    boundary (str_last prev w) (str_head post) = true.
Proof.
  revert prev s. induction alt as [|alt IH|a alt Hn IH] using alt_ind; intros prev s.
  - simpl. split; [intros Hb; exists "", s; repeat constructor; done|].
    intros (w & post & -> & Hw & Hb). by inversion Hw; subst.
  - simpl. rewrite orb_true_iff. split.
    + intros [Hs|(w & post & -> & Hw & Hb)%IH];
        [|exists w, post; repeat constructor; done].
      destruct s as [|c s]; [done|]. apply andb_true_iff in Hs as [Hc Hs]. boolify.
      apply IH in Hs as (w & post & -> & Hw & Hb).
      exists (String.String c w), post. by repeat constructor.
    + intros (w & post & -> & Hw & Hb).
      inversion Hw as [|c alt' w' Hc Hw' Ea|alt' w' Hw' Ea|a c alt' w' Hn]; subst; simpl.
      * left. apply andb_true_iff. split; [by rewrite bool_decide_eq_false_2|].
        apply IH. eauto.
      * right. apply IH. eauto.
      * by destruct (Hn alt).
  - rewrite alt_match_cons by done. split.
    + destruct s as [|c s]; [done|].
      intros [Hc%Ascii.eqb_eq (w & post & -> & Hw & Hb)%IH]%andb_true_iff.
      exists (String.String c w), post. by repeat constructor.
    + intros (w & post & -> & Hw & Hb).
      inversion Hw as [|c alt' w' Hc Hw' Ea|alt' w' Hw' Ea|a' c alt' w' Hn' Hc Hw']; subst;
        [by edestruct Hn..|].
      simpl. apply andb_true_iff. split; [by apply Ascii.eqb_eq|apply IH; eauto].
Qed.

(** The search decides whether an alternative occurs, case aside, as whole words. *)
Lemma re_search_spec alts prev s :
  re_search alts prev s = true ↔ ∃ alt, alt ∈ alts ∧ occurs alt prev s.
Proof.
  revert prev. induction s as [|c s IH]; intros prev.
  - simpl. rewrite orb_false_r, andb_true_iff, existsb_exists. split.
    + intros (Hb & alt & Hin%list_elem_of_In & (w & post & E & Hw & Hb')%alt_match_spec).
      exists alt. split; [done|]. exists "", w, post. simpl. rewrite <- E. done.
    + intros (alt & Hin & pre & w & post & E & Hw & Hb & Hb').
      destruct pre, w, post; simplify_eq. split; [done|]. exists alt.
      split; [by apply list_elem_of_In|]. apply alt_match_spec. by exists "", "".
  - change (re_search alts prev (String.String c s)) with
      ((boundary prev (Some c) && existsb (λ a, alt_match a prev (String.String c s)) alts) ||
       re_search alts (Some c) s).
    rewrite orb_true_iff, andb_true_iff, existsb_exists, IH. split.
    + intros [(Hb & alt & Hin%list_elem_of_In & (w & post & E & Hw & Hb')%alt_match_spec)
             |(alt & Hin & pre & w & post & -> & ?)].
      * exists alt. split; [done|]. exists "", w, post. simpl. rewrite <- E. done.
      * exists alt. split; [done|]. by exists (String.String c pre), w, post.
    + intros (alt & Hin & [|c' pre] & w & post & E & Hw & Hb & Hb').
      * left. change ("" +:+ w +:+ post) with (w +:+ post) in E. simpl in Hb, Hb'. rewrite <- E in Hb. split; [done|]. exists alt.
        split; [by apply list_elem_of_In|]. apply alt_match_spec. by exists w, post.
      * right. change (String.String c s = String.String c' (pre +:+ w +:+ post)) in E. injection E as -> ->. exists alt. split; [done|]. by exists pre, w, post.
Qed.

Lemma lower_char_facts c :
  lower_char (lower_char c) = lower_char c ∧ word_char (lower_char c) = word_char c ∧
  (Ascii.nat_of_ascii (lower_char c) == 10) = (Ascii.nat_of_ascii c == 10).
Proof. destruct c as [[] [] [] [] [] [] [] []]; vm_compute; done. Qed.

Lemma str_head_lower s : str_head (lower s) = lower_char <$> str_head s.
Proof. by destruct s. Qed.

Lemma boundary_lower a b :
  boundary (lower_char <$> a) (lower_char <$> b) = boundary a b.
Proof.
  unfold boundary. destruct a as [a|], b as [b|]; simpl;
    by rewrite ?(proj1 (proj2 (lower_char_facts _))).
Qed.

Lemma alt_match_lower alt prev s :
  alt_match alt (lower_char <$> prev) (lower s) = alt_match alt prev s.
Proof.
  revert prev s. induction alt as [|alt IH|a alt Hn IH] using alt_ind; intros prev s.
  - simpl. by rewrite str_head_lower, boundary_lower.
  - destruct s as [|c s]; simpl; [by rewrite <- (IH prev "")|].
    rewrite (proj2 (proj2 (lower_char_facts c))), <- (IH (Some c)), <- (IH prev). done.
  - rewrite !alt_match_cons by done. destruct s as [|c s]; simpl; [done|].
    rewrite (proj1 (lower_char_facts c)), <- (IH (Some c)). done.
Qed.

Lemma existsb_pointwise {A} (f g : A → bool) l : (∀ a, f a = g a) → existsb f l = existsb g l.
Proof. intros E. induction l; simpl; by rewrite ?E, ?IHl. Qed.

Lemma re_search_lower alts prev s :
  re_search alts (lower_char <$> prev) (lower s) = re_search alts prev s.
Proof.
  revert prev. induction s as [|c s IH]; intros prev.
  - pose proof (boundary_lower prev None) as Eb. simpl in Eb |- *. rewrite Eb.
    do 2 f_equal. apply existsb_pointwise. intros a. apply (alt_match_lower a prev "").
  - change (lower (String.String c s)) with (String.String (lower_char c) (lower s)).
    pose proof (boundary_lower prev (Some c)) as Eb. simpl in Eb |- *.
    rewrite Eb, <- (IH (Some c)). do 2 f_equal. apply existsb_pointwise. intros a.
    apply (alt_match_lower a prev (String.String c s)).
Qed.

(** ** What an analysis says *)

Lemma elem_of_matching r prompt :
  r ∈ matching_rules prompt ↔ r ∈ _RULES ∧ re_search (tr_pattern r) None prompt = true.
Proof. unfold matching_rules. rewrite !list_elem_of_In. apply filter_In. Qed.

Lemma rule_geb_total a b : rule_geb a b = true ∨ rule_geb b a = true.
Proof. unfold rule_geb. repeat case_bool_decide; auto; lia. Qed.

Lemma rule_geb_trans a b c : rule_geb a b = true → rule_geb b c = true → rule_geb a c = true.
Proof. unfold rule_geb. repeat case_bool_decide; auto; try lia; done. Qed.

Lemma fold_union_spec `{Countable B} {A} (f : A → gset B) l acc x :
  x ∈ fold_left (λ acc r, acc ∪ f r) l acc ↔ x ∈ acc ∨ ∃ r, r ∈ l ∧ x ∈ f r.
Proof.
  revert acc. induction l as [|r l IH]; intros acc; simpl; [set_solver|].
  rewrite IH. set_solver.
Qed.

(** The rule that classifies the prompt and the other matches, in rank order. *)
Lemma ranked_rules prompt primary rest :
  py_sorted rule_geb (matching_rules prompt) = primary :: rest →
  (∀ r, r ∈ primary :: rest ↔ r ∈ matching_rules prompt) ∧
  (∀ r, r ∈ matching_rules prompt → rule_geb primary r = true).
Proof.
  intros E. split.
  - intros r. rewrite <- E. apply elem_of_py_sorted.
  - intros r Hr. eapply (py_sorted_head_le rule_geb rule_geb_total rule_geb_trans); [|done].
    by rewrite E.
Qed.

Lemma private_rule : ∃ r, r ∈ _RULES ∧ tr_pattern r = private_alts.
Proof. by exists (nth 10 _RULES (Rule [] TC_UNKNOWN ∅ ∅ "")); split; [repeat constructor|]. Qed.

Lemma private_class r : r ∈ _RULES → tr_class r = PRIVATE_CODEBASE → tr_pattern r = private_alts.
Proof.
  intros Hr. repeat (apply elem_of_cons in Hr as [->|Hr]; [done|]).
  by apply not_elem_of_nil in Hr.
Qed.

(** No match is lost: a rule whose pattern occurs in the prompt contributes every one of
    its capabilities to the required or the optional ones, all its execution capabilities
    to the derived ones, and is no more complex than the class that was chosen. *)
Theorem analyse_covers_matches prompt metadata r :
  r ∈ _RULES → (∃ alt, alt ∈ tr_pattern r ∧ occurs alt None prompt) →
  let a := analyse prompt metadata in
  tr_semantic r ⊆ required_semantic a ∪ optional_semantic a ∧
  tr_exec r ⊆ derived_execution_capabilities a ∧
  complexity_rank (tr_complexity r) ≤ complexity_rank (estimated_complexity a).
Proof.
  intros Hr Hm%re_search_spec.
  assert (r ∈ matching_rules prompt) as Hin by by apply elem_of_matching.
  unfold analyse. destruct (py_sorted rule_geb (matching_rules prompt)) as [|p rest] eqn:E.
  { apply (elem_of_py_sorted rule_geb) in Hin. rewrite E in Hin. set_solver. }
  destruct (ranked_rules _ _ _ E) as [Hel Hge]. simpl. split_and!.
  - assert (tr_semantic r ⊆ tr_semantic p ∪
      fold_left (λ acc r, acc ∪ (tr_semantic r ∖ tr_semantic p)) rest ∅) as Hsub.
    { intros x Hx. destruct (decide (x ∈ tr_semantic p)) as [?|Hn]; [set_solver|].
      apply elem_of_union_r. rewrite (fold_union_spec (λ r, tr_semantic r ∖ tr_semantic p)).
      right. exists r. rewrite elem_of_difference.
      apply Hel in Hin. apply elem_of_cons in Hin as [Heq|?]; [by rewrite Heq in Hx|done]. }
    destruct (_ || _); [|done]. intros x Hx. apply Hsub in Hx. clear -Hx. set_solver.
  - intros x Hx. rewrite (fold_union_spec tr_exec).
    apply Hel in Hin. apply elem_of_cons in Hin as [Heq|?]; [left; by rewrite <- Heq|right; eauto].
  - apply Hge in Hin. unfold rule_geb in Hin. repeat case_bool_decide; lia || done.
Qed.

Lemma analyse_covers_matches_witness :
  let a := analyse "fix the crash in the shell" [] in
  TERMINAL ∈ required_semantic a ∪ optional_semantic a ∧ SCRIPTING ∈ optional_semantic a.
Proof.
  split; [|vm_compute; repeat constructor].
  destruct (analyse_covers_matches "fix the crash in the shell" []
    (nth 2 _RULES (Rule [] TC_UNKNOWN ∅ ∅ ""))) as (H & _ & _).
  - by repeat constructor.
  - apply re_search_spec. by vm_compute.
  - apply H. simpl. set_solver.
Defined.

(** What is required is asked for by one matching rule, and what is optional or derived by
    some matching rule (or the privacy of the prompt); the class is that rule's. *)
Theorem analyse_sound prompt metadata :
  let a := analyse prompt metadata in
  (task_class a = TC_UNKNOWN ∧ required_semantic a = ∅ ∧
     derived_execution_capabilities a = ∅ ∧ matching_rules prompt = []) ∨
  ∃ p, p ∈ matching_rules prompt ∧ task_class a = tr_class p ∧
    required_semantic a = tr_semantic p ∧ estimated_complexity a = tr_complexity p ∧
    (∀ c, c ∈ derived_execution_capabilities a →
       ∃ r, r ∈ matching_rules prompt ∧ c ∈ tr_exec r) ∧
    (∀ c, c ∈ optional_semantic a →
       c ∉ required_semantic a ∧
       ((c = LOCAL_ONLY ∧ privacy_required a = true) ∨
        ∃ r, r ∈ matching_rules prompt ∧ c ∈ tr_semantic r)).
Proof.
  unfold analyse. destruct (py_sorted rule_geb (matching_rules prompt)) as [|p rest] eqn:E.
  { left. simpl. split_and!; [done..|].
    pose proof (py_sorted_Permutation rule_geb (matching_rules prompt)) as Hp.
    rewrite E in Hp. by apply Permutation_nil_l in Hp. }
  right. destruct (ranked_rules _ _ _ E) as [Hel Hge]. exists p.
  assert (p ∈ matching_rules prompt) as Hpin by (apply Hel; set_solver). simpl.
  assert (LOCAL_ONLY ∉ tr_semantic p) as Hloc.
  { apply elem_of_matching in Hpin as [Hpin _]. clear -Hpin.
    repeat (apply elem_of_cons in Hpin as [->|Hpin]; [simpl; set_solver|]). set_solver. }
  split_and!; [done..| |].
  - intros c Hc. rewrite (fold_union_spec tr_exec) in Hc.
    destruct Hc as [?|(r & ? & ?)]; [by exists p|]. exists r. split; [|done]. apply Hel. set_solver.
  - intros c. destruct (bool_decide _ || _); simpl; rewrite ?elem_of_union, ?elem_of_singleton,
      (fold_union_spec (λ r, tr_semantic r ∖ tr_semantic p)).
    + intros [[?|(r & ? & ?)]| ->]; [set_solver| |by auto].
      split; [set_solver|]. right. exists r. split; [apply Hel|]; set_solver.
    + intros [?|(r & ? & ?)]; [set_solver|].
      split; [set_solver|]. right. exists r. split; [apply Hel|]; set_solver.
Qed.

(** A prompt is private exactly when one of the private phrases occurs in it. *)
Theorem analyse_privacy prompt metadata :
  privacy_required (analyse prompt metadata) = true ↔
  ∃ alt, alt ∈ private_alts ∧ occurs alt None prompt.
Proof.
  rewrite <- re_search_spec. unfold analyse.
  destruct (py_sorted rule_geb (matching_rules prompt)) as [|p rest] eqn:E; simpl.
  - split; [done|]. intros Hm. destruct private_rule as (r & Hr & Hp).
    assert (r ∈ matching_rules prompt) as Hin by (apply elem_of_matching; by rewrite Hp).
    apply (elem_of_py_sorted rule_geb) in Hin. rewrite E in Hin. set_solver.
  - rewrite orb_true_iff, bool_decide_eq_true. split; [|auto]. intros [Hc|?]; [|done].
    destruct (ranked_rules _ _ _ E) as [Hel _].
    assert (p ∈ matching_rules prompt) as [Hp Hm]%elem_of_matching by (apply Hel; set_solver).
    by rewrite (private_class p Hp Hc) in Hm.
Qed.

(** The case of the prompt's letters plays no part. *)
Theorem analyse_ignores_case prompt metadata :
  analyse (lower prompt) metadata = analyse prompt metadata.
Proof.
  assert (matching_rules (lower prompt) = matching_rules prompt) as E.
  { unfold matching_rules. apply List.filter_ext. intros r. apply (re_search_lower _ None). }
  pose proof (re_search_lower private_alts None prompt) as Ep. simpl in Ep.
  unfold analyse. by rewrite E, Ep.
Qed.

(** ** Policies read back *)

Lemma preset_of_value p : preset_of (RoutingPolicyPreset_value p) = p.
Proof. by destruct p. Qed.

Section policy_theorems.
Context `{PyLib}.

Lemma tuple_field_of data k l : dget k data = PList l → tuple_field data k = Ok l.
Proof. unfold tuple_field, py_or. intros ->. by destruct l. Qed.

(** The flag of a preset is set. *)
Lemma from_mapping_flags data p :
  from_mapping data = Ok p →
  prefer_local p = prefer_local p || (preset p == PREFER_LOCAL) ∧
  prefer_cheapest p = prefer_cheapest p || (preset p == PREFER_CHEAPEST) ∧
  prefer_fastest p = prefer_fastest p || (preset p == PREFER_FASTEST) ∧
  prefer_strongest_reasoning p =
    prefer_strongest_reasoning p || (preset p == PREFER_STRONGEST_REASONING) ∧
  prefer_open_models p = prefer_open_models p || (preset p == PREFER_OPEN_MODELS) ∧
  avoid_paid_apis p = avoid_paid_apis p || (preset p == AVOID_PAID_APIS) ∧
  maximize_quality p = maximize_quality p || (preset p == MAXIMIZE_QUALITY).
Proof.
  unfold from_mapping, res_bind. intros Hp. guards; split_and!;
    by rewrite <- orb_assoc, orb_diag.
Qed.

(** A policy read from any preferences, written as a dictionary and read again, is the
    same policy: what the planner hands over is what the router reads. *)
Theorem policy_roundtrip data p :
  from_mapping data = Ok p → from_mapping (RoutingPolicy_as_dict p) = Ok p.
Proof.
  intros Hp%from_mapping_flags.
  destruct Hp as (E1 & E2 & E3 & E4 & E5 & E6 & E7).
  unfold from_mapping.
  repeat erewrite (tuple_field_of (RoutingPolicy_as_dict p)) by reflexivity.
  assert (py_str (py_or (py_or (dget "preset" (RoutingPolicy_as_dict p))
    (dget "policy" (RoutingPolicy_as_dict p))) (PStr "balanced")) =
    RoutingPolicyPreset_value (preset p)) as -> by (by destruct p as [[] ? ? ? ? ? ? ? ? ? ? ? ? ? ?]).
  rewrite preset_of_value.
  change (dget "max_cost" (RoutingPolicy_as_dict p)) with
    (match max_cost p with Some f => PFloat f | None => PNone end).
  destruct p; simpl in *. rewrite <- E1, <- E2, <- E3, <- E4, <- E5, <- E6, <- E7.
  by destruct max_cost0.
Qed.
End policy_theorems.

Lemma policy_roundtrip_witness :
  let p := from_mapping (H:=counting_lib)
    [("policy", PStr "local"); ("denied_models", PList [PStr "o3"])] in
  match p with
  | Ok p => prefer_local p = true ∧
      from_mapping (H:=counting_lib) (RoutingPolicy_as_dict p) = Ok p
  | Raise _ => False
  end.
Proof.
  destruct (from_mapping (H:=counting_lib)
    [("policy", PStr "local"); ("denied_models", PList [PStr "o3"])]) as [p|e] eqn:E;
    [|by vm_compute in E].
  split; [by vm_compute in E; simplify_eq|].
  exact (policy_roundtrip (H:=counting_lib) _ p E).
Defined.
