(* ===== verification/CapabilityRouting.v ===== *)
(** * Capability-aware route selection

    [execution_routing/capability_routing/profiles.py], [scoring.py] and [selector.py]: the
    static profiles, the score of a route (harness, backend, connector, model) in binary64
    arithmetic, the ranking of the routes and the selector. *)

From Stdlib Require Import SpecFloat.
From S2P Require Import Prelude TaskAnalysis.

(** ** Profiles *)

(* @src runtime_v1/execution_routing/capability_routing/profiles.py:14-24 HarnessProfile *)
Record HarnessProfile := {
  hp_id : string;
  hp_capabilities : gset SemanticCapability;
  hp_latency : string;
  hp_reliability : string;
  hp_quality : spec_float;
  hp_cost_bias : spec_float;
  hp_local_capable : bool;
  hp_remote_capable : bool;
  hp_notes : string
}.

(* @src runtime_v1/execution_routing/capability_routing/profiles.py:27-39 ConnectorProfile *)
Record ConnectorProfile := {
  cp_id : string;
  cp_provider_family : string;
  cp_available_models : list string;
  cp_authenticated : bool;
  cp_quota_remaining_fraction : option spec_float;
  cp_pricing_tier : string;
  cp_latency : string;
  cp_privacy : string;
  cp_health : spec_float;
  cp_local : bool;
  cp_rate_limited : bool
}.

(* @src runtime_v1/execution_routing/capability_routing/profiles.py:42-54 ModelProfile *)
Record ModelProfile := {
  mp_id : string;
  mp_coding : spec_float;
  mp_reasoning : spec_float;
  mp_vision : spec_float;
  mp_tool_use : spec_float;
  mp_context_length : Z;
  mp_cost : spec_float;
  mp_latency : spec_float;
  mp_multilingual : spec_float;
  mp_open_weights : bool;
  mp_local : bool
}.

(* @src runtime_v1/execution_routing/capability_routing/profiles.py:57-61 CapabilityProfiles *)
Record CapabilityProfiles := {
  pr_harnesses : list (string * HarnessProfile);
  pr_connectors : list (string * ConnectorProfile);
  pr_models : list (string * ModelProfile)
}.

(** Hundredths, and [0.0]. *)
Definition cent (n : Z) : spec_float := flit n 2.
Definition fzero : spec_float := S754_zero false.

(** A harness with the class's defaults for what is not named. *)
Definition harness (id : string) (caps : list SemanticCapability) (latency reliability : string)
    (quality cost_bias : spec_float) (remote : bool) (notes : string) : string * HarnessProfile :=
  (id, {| hp_id := id; hp_capabilities := list_to_set caps; hp_latency := latency;
          hp_reliability := reliability; hp_quality := quality; hp_cost_bias := cost_bias;
          hp_local_capable := true; hp_remote_capable := remote; hp_notes := notes |}).

(* @src runtime_v1/execution_routing/capability_routing/profiles.py:65-165 builtin_capability_profiles *)
Definition builtin_harnesses : list (string * HarnessProfile) := [
  harness "codex"
    [REPOSITORY_EDITING; AUTONOMOUS_CODING; TERMINAL; TESTING; LONG_RUNNING;
     PATCH_GENERATION; LONG_CONTEXT]
    "medium" "high" (cent 90) (cent 70) true "Strong autonomous repository editing";
  harness "cursor"
    [INTERACTIVE_EDITING; IDE_WORKFLOW; PAIR_PROGRAMMING; REPOSITORY_EDITING; LOW_LATENCY]
    "low" "high" (cent 85) (cent 60) true "Interactive IDE workflow";
  harness "opencode"
    [PROVIDER_FLEXIBLE; OPEN_MODEL_SUPPORT; SCRIPTING; AUTONOMOUS_CODING; TERMINAL;
     REPOSITORY_EDITING; COST_SENSITIVE]
    "medium" "medium" (cent 75) (cent 30) true "Provider-flexible open-model friendly";
  harness "claude"
    [REPOSITORY_EDITING; AUTONOMOUS_CODING; REASONING; LONG_CONTEXT; TERMINAL]
    "medium" "high" (cent 92) (cent 75) true "";
  harness "grok" [AUTONOMOUS_CODING; REASONING; PROVIDER_FLEXIBLE]
    "medium" "medium" (cent 70) (cent 50) true "";
  harness "vscode" [IDE_WORKFLOW; INTERACTIVE_EDITING]
    "low" "medium" (cent 60) (cent 20) false ""
].

Definition connector (id family : string) (models : list string) (pricing latency privacy : string)
    (health : spec_float) (quota : option spec_float) (local : bool) : string * ConnectorProfile :=
  (id, {| cp_id := id; cp_provider_family := family; cp_available_models := models;
          cp_authenticated := true; cp_quota_remaining_fraction := quota;
          cp_pricing_tier := pricing; cp_latency := latency; cp_privacy := privacy;
          cp_health := health; cp_local := local; cp_rate_limited := false |}).

(* @src runtime_v1/execution_routing/capability_routing/profiles.py:166-228 builtin_capability_profiles *)
Definition builtin_connector_profiles : list (string * ConnectorProfile) := [
  connector "openai" "openai" ["gpt-5"; "gpt-4.1"; "o3"]
    "premium" "medium" "remote" (cent 100) (Some (cent 80)) false;
  connector "anthropic" "anthropic" ["claude-sonnet"; "claude-opus"]
    "premium" "medium" "remote" (cent 100) (Some (cent 80)) false;
  connector "fireconnect" "fireconnect" ["qwen"; "gpt-4.1"; "deepseek"]
    "cheap" "medium" "remote" (cent 95) (Some (cent 90)) false;
  connector "openrouter" "openrouter" ["qwen"; "deepseek"; "llama"]
    "cheap" "medium" "remote" (cent 90) None false;
  connector "lmstudio" "local" ["local-default"]
    "free" "low" "local" (cent 85) (Some (cent 100)) true;
  connector "ollama" "local" ["local-default"; "qwen-local"]
    "free" "low" "local" (cent 90) (Some (cent 100)) true
].

Definition model (id : string) (coding reasoning vision tool_use : spec_float)
    (context_length : Z) (cost latency : spec_float) (open_weights local : bool) :
    string * ModelProfile :=
  (id, {| mp_id := id; mp_coding := coding; mp_reasoning := reasoning; mp_vision := vision;
          mp_tool_use := tool_use; mp_context_length := context_length; mp_cost := cost;
          mp_latency := latency; mp_multilingual := cent 50;
          mp_open_weights := open_weights; mp_local := local |}).

(* @src runtime_v1/execution_routing/capability_routing/profiles.py:229-320 builtin_capability_profiles *)
Definition builtin_models : list (string * ModelProfile) := [
  model "gpt-5" (cent 95) (cent 95) (cent 80) (cent 95) 400000 (cent 90) (cent 60) false false;
  model "gpt-4.1" (cent 85) (cent 80) (cent 70) (cent 85) 128000 (cent 70) (cent 50) false false;
  model "o3" (cent 80) (cent 98) fzero (cent 80) 128000 (cent 95) (cent 80) false false;
  model "claude-sonnet" (cent 90) (cent 90) fzero (cent 90) 128000 (cent 75) (cent 50) false false;
  model "claude-opus" (cent 92) (cent 97) fzero (cent 90) 128000 (cent 95) (cent 70) false false;
  model "qwen" (cent 80) (cent 75) fzero (cent 70) 128000 (cent 25) (cent 40) true false;
  model "deepseek" (cent 82) (cent 80) fzero (cent 70) 128000 (cent 20) (cent 45) true false;
  model "local-default" (cent 65) (cent 60) fzero (cent 50) 128000 fzero (cent 30) true true;
  model "qwen-local" (cent 70) (cent 65) fzero (cent 55) 128000 fzero (cent 35) true true;
  model "llama" (cent 70) (cent 70) fzero (cent 60) 128000 (cent 20) (cent 40) true false
].

(* @src runtime_v1/execution_routing/capability_routing/profiles.py:64-64 builtin_capability_profiles *)
Definition builtin_capability_profiles : CapabilityProfiles :=
  {| pr_harnesses := builtin_harnesses; pr_connectors := builtin_connector_profiles;
     pr_models := builtin_models |}.

(** ** Scores *)

(* @src runtime_v1/execution_routing/capability_routing/scoring.py:22-35 ScoredRoute *)
Record ScoredRoute := {
  sr_harness_id : string;
  sr_backend_id : string;
  sr_connector_id : option string;
  sr_model_id : option string;
  sr_score : spec_float;
  sr_breakdown : list (string * spec_float);
  sr_reasons : list string;
  sr_eligible : bool;
  sr_rejection_reason : option string;
  sr_metadata : dict
}.

(* @src runtime_v1/execution_routing/capability_routing/scoring.py:37-49 ScoredRoute.as_dict *)
Definition ScoredRoute_as_dict (r : ScoredRoute) : dict :=
  [("harness_id", PStr (sr_harness_id r)); ("backend_id", PStr (sr_backend_id r));
   ("connector_id", ostr (sr_connector_id r)); ("model_id", ostr (sr_model_id r));
   ("score", PFloat (sr_score r));
   ("breakdown", PDict ((λ '(k, f), (k, PFloat f)) <$> sr_breakdown r));
   ("reasons", PStrs (sr_reasons r)); ("eligible", PBool (sr_eligible r));
   ("rejection_reason", ostr (sr_rejection_reason r)); ("metadata", PDict (sr_metadata r))].

(** A dictionary of figures read with a default. *)
Definition figure (table : list (string * spec_float)) (k : string) (d : spec_float) : spec_float :=
  default d (dict_get k table).
(* @src runtime_v1/execution_routing/capability_routing/scoring.py:52-52 _LATENCY_SCORE *)
Definition _LATENCY_SCORE := [("low", cent 100); ("medium", cent 60); ("high", cent 30)].
(* @src runtime_v1/execution_routing/capability_routing/scoring.py:53-53 _RELIABILITY_SCORE *)
Definition _RELIABILITY_SCORE := [("low", cent 40); ("medium", cent 70); ("high", cent 100)].
(* @src runtime_v1/execution_routing/capability_routing/scoring.py:54-54 _PRICING_COST *)
Definition _PRICING_COST :=
  [("free", fzero); ("cheap", cent 25); ("standard", cent 55); ("premium", cent 90)].

(** Whole-number literals. *)
Definition num (n : Z) : spec_float := z_to_float n.

(* @src runtime_v1/execution_routing/capability_routing/scoring.py:57-65 harness_capability_match *)
Definition harness_capability_match (profile : HarnessProfile)
    (required : gset SemanticCapability) : spec_float * gset SemanticCapability :=
  if required == ∅ then (num 1, ∅)
  else
    let missing := required ∖ hp_capabilities profile in
    let covered := (Z.of_nat (size required) - Z.of_nat (size missing))%Z in
    (fdiv (num covered) (num (Z.of_nat (size required))), missing).

(* @src runtime_v1/execution_routing/capability_routing/scoring.py:243-260 _reject *)
Definition _reject (h : HarnessProfile) (backend_id : string) (c : option ConnectorProfile)
    (m : option ModelProfile) (reason : string) : ScoredRoute :=
  {| sr_harness_id := hp_id h; sr_backend_id := backend_id;
     sr_connector_id := cp_id <$> c; sr_model_id := mp_id <$> m;
     sr_score := num (-1); sr_breakdown := []; sr_reasons := [reason];
     sr_eligible := false; sr_rejection_reason := Some reason; sr_metadata := [] |}.

(** [x in t] for a text and a tuple of values. *)
Definition str_in_vals (x : string) (l : list pyval) : bool := existsb (py_eqb (PStr x)) l.

(** Why the guards of [score_route] turn a route down, in their order. *)
(* @src runtime_v1/execution_routing/capability_routing/scoring.py:84-129 score_route *)
Definition route_rejection (h : HarnessProfile) (task : TaskAnalysis) (policy : RoutingPolicy)
    (c : option ConnectorProfile) (m : option ModelProfile) (subscription_ok quota_ok : bool) :
    option string :=
  let match_ := (harness_capability_match h (required_semantic task)).1 in
  let missing := (harness_capability_match h (required_semantic task)).2 in
  let soft_classes := ["unknown"; "quick_question"; "planning"; "documentation"] in
  let allow_partial :=
    (TaskClass_value (task_class task) in? soft_classes) && fle (flit 5 1) match_ in
  if negb (missing == ∅) && negb allow_partial && flt match_ (num 1)
  then Some "capability_mismatch"
  else if str_in_vals (hp_id h) (denied_harnesses policy) then Some "harness_denied"
  else if match c with Some c => str_in_vals (cp_id c) (denied_connectors policy)
          | None => false end then Some "connector_denied"
  else if match m with Some m => str_in_vals (mp_id m) (denied_models policy)
          | None => false end then Some "model_denied"
  else if negb subscription_ok then Some "subscription_unavailable"
  else if negb quota_ok then Some "quota_exhausted"
  else if (privacy_required task || prefer_local policy ||
           (LOCAL_ONLY in? required_semantic task)) &&
          match c with Some c => negb (cp_local c) && (cp_privacy c != "local")
          | None => false end then Some "privacy_requires_local"
  else if avoid_paid_apis policy &&
          match c with Some c => cp_pricing_tier c in? ["standard"; "premium"]
          | None => false end then Some "avoid_paid_apis"
  else if match max_cost policy, m with Some x, Some m => flt x (mp_cost m)
          | _, _ => false end then Some "max_cost_exceeded"
  else None.

(** [x += ...] when the condition holds. *)
Definition plus_if (b : bool) (x d : spec_float) : spec_float := if b then fadd x d else x.
Definition opt {A B} (o : option A) (d : B) (f : A → B) : B :=
  match o with Some a => f a | None => d end.

Section components_of_a_score.
Context (h : HarnessProfile) (task : TaskAnalysis).
Context (c : option ConnectorProfile) (m : option ModelProfile).

(* @src runtime_v1/execution_routing/capability_routing/scoring.py:139-142 score_route *)
Definition quota_score : spec_float :=
  match c with
  | Some {| cp_quota_remaining_fraction := Some f |} => fmul (num 10) f
  | _ => num 10
  end.

(* @src runtime_v1/execution_routing/capability_routing/scoring.py:144-151 score_route *)
Definition quality_score : spec_float :=
  let quality := fmul (hp_quality h) (num 15) in
  opt m quality (λ m,
    let quality := fadd quality
      (fadd (fadd (fmul (mp_coding m) (num 8)) (fmul (mp_reasoning m) (num 8)))
            (fmul (mp_tool_use m) (num 4))) in
    let quality := plus_if (VISION in? required_semantic task) quality
      (fmul (mp_vision m) (num 6)) in
    plus_if (REASONING in? required_semantic task) quality (fmul (mp_reasoning m) (num 5))).

(* @src runtime_v1/execution_routing/capability_routing/scoring.py:153-158 score_route *)
Definition health_score : spec_float :=
  opt c (num 5) (λ c,
    let health := fmul (num 10) (cp_health c) in
    if cp_rate_limited c then fsub health (num 5) else health).

(* @src runtime_v1/execution_routing/capability_routing/scoring.py:160-165 score_route *)
Definition latency_score : spec_float :=
  let l := fmul (figure _LATENCY_SCORE (hp_latency h) (cent 50)) (num 8) in
  let l := opt c l (λ c,
    fadd l (fmul (figure _LATENCY_SCORE (cp_latency c) (cent 50)) (num 4))) in
  opt m l (λ m, fadd l (fmul (fsub (num 1) (mp_latency m)) (num 6))).

(* @src runtime_v1/execution_routing/capability_routing/scoring.py:167-172 score_route *)
Definition cost_penalty : spec_float :=
  let p := fmul (hp_cost_bias h) (num 8) in
  let p := opt c p (λ c,
    fadd p (fmul (figure _PRICING_COST (cp_pricing_tier c) (cent 50)) (num 8))) in
  opt m p (λ m, fadd p (fmul (mp_cost m) (num 10))).

(* @src runtime_v1/execution_routing/capability_routing/scoring.py:174-175 score_route *)
Definition reliability_score : spec_float :=
  fmul (figure _RELIABILITY_SCORE (hp_reliability h) (cent 70)) (num 8).
End components_of_a_score.

(** The bonus and its reasons. *)
(* @src runtime_v1/execution_routing/capability_routing/scoring.py:180-209 score_route *)
Definition policy_adjustments (h : HarnessProfile) (backend_id : string) (task : TaskAnalysis)
    (policy : RoutingPolicy) (c : option ConnectorProfile) (m : option ModelProfile) :
    spec_float * list string :=
  let add (b : bool) (x : spec_float) (why : list string) (acc : spec_float * list string) :=
    if b then (fadd acc.1 x, acc.2 ++ why) else acc in
  let acc := (fzero, []) in
  let local := opt c false cp_local in
  let acc := add (prefer_local policy && local) (num 20) ["policy:prefer_local"] acc in
  let acc := add (prefer_local policy && negb local && (backend_id == "local")) (num 10) [] acc in
  let acc := add (prefer_cheapest policy || (COST_SENSITIVE in? required_semantic task))
    (fmax fzero (fsub (num 15) (cost_penalty h c m))) ["policy:prefer_cheapest"] acc in
  let acc := add (prefer_fastest policy) (fmul (latency_score h c m) (flit 5 1))
    ["policy:prefer_fastest"] acc in
  let acc := opt m acc (λ m, add (prefer_strongest_reasoning policy)
    (fmul (mp_reasoning m) (num 20)) ["policy:prefer_strongest_reasoning"] acc) in
  let acc := opt m acc (λ m, add (prefer_open_models policy && mp_open_weights m)
    (num 15) ["policy:prefer_open_models"] acc) in
  let acc := add (maximize_quality policy) (fmul (quality_score h task m) (cent 35))
    ["policy:maximize_quality"] acc in
  let acc := add (str_in_vals (hp_id h) (preferred_harnesses policy)) (num 12) [] acc in
  let acc := opt c acc (λ c, add (str_in_vals (cp_id c) (rp_preferred_connectors policy))
    (num 10) [] acc) in
  opt m acc (λ m, add (str_in_vals (mp_id m) (preferred_models policy)) (num 10) [] acc).

(** What open weights add after the breakdown was written. *)
(* @src runtime_v1/execution_routing/capability_routing/scoring.py:211-215 score_route *)
Definition open_model_bonus (task : TaskAnalysis) (c : option ConnectorProfile)
    (m : option ModelProfile) (policy_bonus : spec_float) : spec_float :=
  if OPEN_MODEL_SUPPORT in? required_semantic task then
    if opt m false mp_open_weights then fadd policy_bonus (num 8)
    else if opt c false (λ c, cp_pricing_tier c in? ["free"; "cheap"])
    then fadd policy_bonus (num 4) else policy_bonus
  else policy_bonus.

(* @src runtime_v1/execution_routing/capability_routing/scoring.py:68-240 score_route *)
Definition score_route (h : HarnessProfile) (backend_id : string) (backend_base_score : spec_float)
    (task : TaskAnalysis) (policy : RoutingPolicy) (c : option ConnectorProfile)
    (m : option ModelProfile) (subscription_ok quota_ok : bool)
    (backend_priority_boost : spec_float) : ScoredRoute :=
  let match_ := (harness_capability_match h (required_semantic task)).1 in
  let missing := (harness_capability_match h (required_semantic task)).2 in
  match route_rejection h task policy c m subscription_ok quota_ok with
  | Some reason =>
      if reason != "capability_mismatch" then _reject h backend_id c m reason else
      {| sr_harness_id := hp_id h; sr_backend_id := backend_id;
         sr_connector_id := cp_id <$> c; sr_model_id := mp_id <$> m;
         sr_score := num (-1); sr_breakdown := [("capability_match", match_)];
         sr_reasons := ["missing_capabilities:" +:+
           join "," (sorted_values SemanticCapability_value missing)];
         sr_eligible := false; sr_rejection_reason := Some "capability_mismatch";
         sr_metadata := [] |}
  | None =>
      let remote_backend :=
        (privacy_required task || prefer_local policy ||
         (LOCAL_ONLY in? required_semantic task)) &&
        negb (backend_id in? ["local"; "joymesh"]) && prefer_local policy in
      let capability := fmul match_ (num 40) in
      let sub_score := if subscription_ok then num 10 else fzero in
      let quota := if quota_ok then quota_score c else fzero in
      let quality := quality_score h task m in
      let health := health_score c in
      let latency := latency_score h c m in
      let cost := cost_penalty h c m in
      let reliability := reliability_score h in
      let backend_score := fadd (fmul backend_base_score (cent 15)) backend_priority_boost in
      let adjusted := policy_adjustments h backend_id task policy c m in
      let policy_bonus := open_model_bonus task c m adjusted.1 in
      let total :=
        fadd (fadd (fadd (fsub (fadd (fadd (fadd (fadd (fadd capability sub_score) quota)
          quality) health) latency) cost) reliability) backend_score) policy_bonus in
      {| sr_harness_id := hp_id h; sr_backend_id := backend_id;
         sr_connector_id := cp_id <$> c; sr_model_id := mp_id <$> m;
         sr_score := total;
         sr_breakdown :=
           [("capability_match", capability); ("subscription", sub_score); ("quota", quota);
            ("model_quality", quality); ("connector_health", health); ("latency", latency);
            ("cost_penalty", SFopp cost); ("reliability", reliability);
            ("backend", backend_score); ("policy", adjusted.1); ("total", total)];
         sr_reasons :=
           (if remote_backend then ["privacy_prefers_local_backend"] else []) ++
           ["capability_match=" +:+ fmt_fixed 2 match_] ++ adjusted.2;
         sr_eligible := true; sr_rejection_reason := None; sr_metadata := [] |}
  end.

(** ** Ranking *)

(** The key [(-score, harness, backend, connector or "", model or "")]. *)
Definition route_key_texts (r : ScoredRoute) : list string :=
  [sr_harness_id r; sr_backend_id r; default "" (sr_connector_id r); default "" (sr_model_id r)].

(** Lists of texts in lexicographic order. *)
Fixpoint strs_leb (a b : list string) : bool :=
  match a, b with
  | [], _ => true
  | _ :: _, [] => false
  | x :: a', y :: b' => if x == y then strs_leb a' b' else str_leb x y
  end.

(** A higher score first; among equal scores the smaller texts. *)
Definition scored_leb (sa sb : spec_float) (ta tb : list string) : bool :=
  if flt sb sa then true else if flt sa sb then false else strs_leb ta tb.

(* @src runtime_v1/execution_routing/capability_routing/scoring.py:263-275 rank_routes *)
Definition rank_routes (routes : list ScoredRoute) : list ScoredRoute :=
  py_sorted
    (λ a b, scored_leb (sr_score a) (sr_score b) (route_key_texts a) (route_key_texts b))
    (List.filter sr_eligible routes) ++
  List.filter (λ r, negb (sr_eligible r)) routes.

(** [routes[0] if routes and routes[0].eligible else None]. *)
Definition best_of (ranked : list ScoredRoute) : option ScoredRoute :=
  match ranked with r :: _ => if sr_eligible r then Some r else None | [] => None end.

(* @src runtime_v1/execution_routing/capability_routing/scoring.py:278-295 score_harness_only *)
Definition score_harness_only (h : HarnessProfile) (task : TaskAnalysis) (policy : RoutingPolicy) :
    ScoredRoute :=
  score_route h "*" (num 50) task policy None None true true fzero.

(* @src runtime_v1/execution_routing/capability_routing/scoring.py:298-302 _BACKEND_CONNECTOR_AFFINITY *)
Definition _BACKEND_CONNECTOR_AFFINITY : list (string * list string) :=
  [("fireconnect", ["fireconnect"; "openrouter"; "openai"; "anthropic"]);
   ("local", ["lmstudio"; "ollama"; "openai"; "anthropic"; "openrouter"]);
   ("joymesh", ["openai"; "anthropic"; "fireconnect"; "openrouter"])].

(** [t.index(x)], of a member. *)
Definition pos_of (x : string) (l : list string) : nat :=
  default 0 (fst <$> list_find (λ y, y = x) l).

(** The connectors that are tried for a backend. *)
(* @src runtime_v1/execution_routing/capability_routing/scoring.py:316-326 best_connector_model_for_harness *)
Definition eligible_connectors (profiles : CapabilityProfiles) (backend_id : string)
    (available : option (list string)) : list ConnectorProfile :=
  let all := dict_values (pr_connectors profiles) in
  let connectors := opt available all (λ l, List.filter (λ c, cp_id c in? l) all) in
  match dict_get backend_id _BACKEND_CONNECTOR_AFFINITY with
  | Some affinity =>
      match List.filter (λ c, cp_id c in? affinity) connectors with
      | [] => connectors
      | preferred => preferred
      end
  | None => connectors
  end.

(* @src runtime_v1/execution_routing/capability_routing/scoring.py:351-364 best_connector_model_for_harness *)
Definition affinity_boost (backend_id : string) (c : ConnectorProfile) (scored : ScoredRoute) :
    ScoredRoute :=
  match dict_get backend_id _BACKEND_CONNECTOR_AFFINITY with
  | Some affinity =>
      if (cp_id c in? affinity) && sr_eligible scored then
        let boost := fmul (num 5)
          (num (Z.of_nat (length affinity) - Z.of_nat (pos_of (cp_id c) affinity))) in
        {| sr_harness_id := sr_harness_id scored; sr_backend_id := sr_backend_id scored;
           sr_connector_id := sr_connector_id scored; sr_model_id := sr_model_id scored;
           sr_score := fadd (sr_score scored) boost;
           sr_breakdown := dict_set "backend_affinity" boost (sr_breakdown scored);
           sr_reasons := sr_reasons scored ++ ["backend_connector_affinity"];
           sr_eligible := true; sr_rejection_reason := None; sr_metadata := [] |}
      else scored
  | None => scored
  end.

(** The connectors with their models, in the order of the two loops. *)
Definition connector_models (profiles : CapabilityProfiles) (cs : list ConnectorProfile) :
    list (ConnectorProfile * option ModelProfile) :=
  c ← cs;
  model_id ← (if cp_available_models c == [] then [""] else cp_available_models c);
  [(c, if model_id == "" then None else dict_get model_id (pr_models profiles))].

(* @src runtime_v1/execution_routing/capability_routing/scoring.py:305-367 best_connector_model_for_harness *)
Definition best_connector_model_for_harness (h : HarnessProfile) (task : TaskAnalysis)
    (policy : RoutingPolicy) (profiles : CapabilityProfiles) (backend_id : string)
    (backend_base_score : spec_float) (available : option (list string)) : option ScoredRoute :=
  match eligible_connectors profiles backend_id available with
  | [] => Some (score_route h backend_id backend_base_score task policy None None true true fzero)
  | connectors =>
      let candidates := (λ '(c, m), affinity_boost backend_id c
        (score_route h backend_id backend_base_score task policy (Some c) m true true fzero))
        <$> connector_models profiles connectors in
      best_of (rank_routes candidates)
  end.

(* @src runtime_v1/execution_routing/capability_routing/scoring.py:370-371 explain_top *)
Definition explain_top (routes : list ScoredRoute) (limit : nat) : list dict :=
  ScoredRoute_as_dict <$> take limit (rank_routes routes).

(** ** The selector *)

(* @src runtime_v1/execution_routing/capability_routing/selector.py:28-34 RouteSelection *)
Record RouteSelection := {
  rs_analysis : TaskAnalysis;
  rs_policy : RoutingPolicy;
  rs_selected : option ScoredRoute;
  rs_candidates : list ScoredRoute;
  rs_harness_order : list string
}.

(* @src runtime_v1/execution_routing/capability_routing/selector.py:36-43 RouteSelection.as_dict *)
Definition RouteSelection_as_dict (s : RouteSelection) : dict :=
  [("analysis", PDict (TaskAnalysis_as_dict (rs_analysis s)));
   ("policy", PDict (RoutingPolicy_as_dict (rs_policy s)));
   ("selected", opt (rs_selected s) PNone (λ r, PDict (ScoredRoute_as_dict r)));
   ("candidates", PList ((λ r, PDict (ScoredRoute_as_dict r)) <$> take 20 (rs_candidates s)));
   ("harness_order", PStrs (rs_harness_order s))].

Section selector.
Context (profiles : CapabilityProfiles) (analysis : TaskAnalysis) (policy : RoutingPolicy).

(** The score of a harness in the ranking; an unknown harness has 50. *)
Definition harness_score (harness_id : string) : option spec_float :=
  match dict_get harness_id (pr_harnesses profiles) with
  | None => Some (num 50)
  | Some profile =>
      let result := score_harness_only profile analysis policy in
      if sr_eligible result then Some (sr_score result) else None
  end.

(* @src runtime_v1/execution_routing/capability_routing/selector.py:79-98 CapabilityAwareRouteSelector._rank_harness_ids *)
Definition _rank_harness_ids (harness_ids : list string) : list string :=
  let scored := omap (λ h, (λ s, (s, h)) <$> harness_score h) harness_ids in
  let ordered := snd <$>
    py_sorted (λ a b, scored_leb a.1 b.1 [a.2] [b.2]) scored in
  let missing := List.filter (λ h, negb (h in? ordered)) harness_ids in
  ordered ++ missing.

(** Both branches of the source put a preferred, available harness first. *)
(* @src runtime_v1/execution_routing/capability_routing/selector.py:58-77 CapabilityAwareRouteSelector.order_harnesses *)
Definition order_harnesses (available_harnesses : list string)
    (preferred_harness : option string) : list string :=
  let available := List.filter (λ h, h != "") available_harnesses in
  match preferred_harness with
  | Some p =>
      if (p != "") && (p in? available) then
        let rest := List.filter (λ h, h != p) available in
        match dict_get p (pr_harnesses profiles) with
        | Some profile =>
            if sr_eligible (score_harness_only profile analysis policy)
            then p :: _rank_harness_ids rest
            else p :: _rank_harness_ids rest
        | None => p :: _rank_harness_ids rest
        end
      else _rank_harness_ids available
  | None => _rank_harness_ids available
  end.

(** The profile of a harness; an unknown one is taken to be capable of everything. *)
(* @src runtime_v1/execution_routing/capability_routing/selector.py:122-128 CapabilityAwareRouteSelector.select *)
Definition profile_of (harness_id : string) : HarnessProfile :=
  match dict_get harness_id (pr_harnesses profiles) with
  | Some p => p
  | None =>
      {| hp_id := harness_id; hp_capabilities := list_to_set all_SemanticCapability;
         hp_latency := "medium"; hp_reliability := "high"; hp_quality := flit 5 1;
         hp_cost_bias := flit 5 1; hp_local_capable := true; hp_remote_capable := true;
         hp_notes := "" |}
  end.

(** [m[k]] when [m] is given and has [k], [True] otherwise. *)
Definition allows (m : list (string * bool)) (k : string) : bool := default true (dict_get k m).

(* @src runtime_v1/execution_routing/capability_routing/selector.py:121-148 CapabilityAwareRouteSelector.select *)
Definition route_candidates (harness_order : list string)
    (ranked_backends : list (string * spec_float * string))
    (available_connectors : option (list string))
    (subscription_by_backend quota_by_backend : list (string * bool)) : list ScoredRoute :=
  harness_id ← harness_order;
  '(backend_id, backend_score, _) ← ranked_backends;
  if negb (allows subscription_by_backend backend_id) || negb (allows quota_by_backend backend_id)
  then []
  else match best_connector_model_for_harness (profile_of harness_id) analysis policy profiles
               backend_id backend_score available_connectors with
       | Some best => [best]
       | None => []
       end.

(* @src runtime_v1/execution_routing/capability_routing/selector.py:100-158 CapabilityAwareRouteSelector.select *)
Definition select (available_harnesses : list string)
    (ranked_backends : list (string * spec_float * string))
    (preferred_harness : option string) (available_connectors : option (list string))
    (subscription_by_backend quota_by_backend : list (string * bool)) : RouteSelection :=
  let harness_order := order_harnesses available_harnesses preferred_harness in
  let candidates := route_candidates harness_order ranked_backends available_connectors
    subscription_by_backend quota_by_backend in
  let ranked := rank_routes candidates in
  {| rs_analysis := analysis; rs_policy := policy; rs_selected := best_of ranked;
     rs_candidates := ranked; rs_harness_order := harness_order |}.
End selector.

(** ** The capability gate, in whole numbers *)

Lemma subset_of_all (s : gset SemanticCapability) : size s ≤ 18.
Proof.
  transitivity (size (list_to_set all_SemanticCapability : gset SemanticCapability)).
  - apply subseteq_size. intros x _. apply elem_of_list_to_set. destruct x; set_solver.
  - by vm_compute.
Qed.

(** The quotients that occur, checked one by one. *)
Definition quotient_checks : bool :=
  forallb (λ n, forallb (λ k,
    let q := fdiv (num (Z.of_nat k)) (num (Z.of_nat n)) in
    Bool.eqb (flt q (num 1)) (k <? n) && Bool.eqb (fle (flit 5 1) q) (n <=? 2 * k))
    (seq 0 (S n))) (seq 1 18).
Lemma quotient_checks_pass : quotient_checks = true.
Proof. by vm_compute. Qed.

Lemma quotient_facts k n :
  k ≤ n → 0 < n → n ≤ 18 →
  (flt (fdiv (num (Z.of_nat k)) (num (Z.of_nat n))) (num 1) = true ↔ k < n) ∧
  (fle (flit 5 1) (fdiv (num (Z.of_nat k)) (num (Z.of_nat n))) = true ↔ n ≤ 2 * k).
Proof.
  intros Hk Hn Hn'. pose proof quotient_checks_pass as Hq.
  unfold quotient_checks in Hq. rewrite forallb_forall in Hq.
  specialize (Hq n ltac:(apply in_seq; lia)). rewrite forallb_forall in Hq.
  specialize (Hq k ltac:(apply in_seq; lia)). cbv zeta in Hq.
  apply andb_true_iff in Hq as [->%Bool.eqb_prop ->%Bool.eqb_prop].
  by rewrite Nat.ltb_lt, Nat.leb_le.
Qed.

(** The share of the requirement a harness covers, in whole numbers. *)
Definition covered (h : HarnessProfile) (required : gset SemanticCapability) : nat :=
  size (required ∩ hp_capabilities h).
Definition soft_class (task : TaskAnalysis) : Prop :=
  task_class task ∈ [TC_UNKNOWN; QUICK_QUESTION; PLANNING; DOCUMENTATION].

Lemma soft_class_value task :
  (TaskClass_value (task_class task) in?
    ["unknown"; "quick_question"; "planning"; "documentation"]) = true ↔ soft_class task.
Proof.
  unfold soft_class. rewrite bool_decide_eq_true.
  split; destruct (task_class task); simpl; intros Hin;
    repeat (apply elem_of_cons in Hin as [?|Hin]; [done || set_solver|]); set_solver.
Qed.

Lemma match_facts h required :
  required ≠ ∅ →
  let k := covered h required in
  let n := size required in
  (harness_capability_match h required).1 = fdiv (num (Z.of_nat k)) (num (Z.of_nat n)) ∧
  k ≤ n ∧ 0 < n ∧ n ≤ 18 ∧ (k < n ↔ ¬ required ⊆ hp_capabilities h) ∧
  (harness_capability_match h required).2 = required ∖ hp_capabilities h.
Proof.
  intros Hne k n. unfold harness_capability_match. rewrite bool_decide_eq_false_2 by done.
  assert (size required = size (required ∖ hp_capabilities h) + covered h required) as Hs.
  { unfold covered. rewrite <- size_union by set_solver. f_equal. apply set_eq. intros x.
    destruct (decide (x ∈ hp_capabilities h)); set_solver. }
  split_and!; [simpl; f_equal; f_equal; subst k n; lia|subst k n; lia| |apply subset_of_all| |done].
  - subst n. destruct (decide (size required = 0)) as [E|]; [|lia].
    apply size_empty_inv in E. by apply leibniz_equiv in E.
  - subst k n. split.
    + intros Hlt Hsub. assert (required ∖ hp_capabilities h = ∅) as E by set_solver.
      rewrite E, size_empty in Hs. lia.
    + intros Hn. destruct (decide (size (required ∖ hp_capabilities h) = 0)) as [E|]; [|lia].
      apply size_empty_inv in E. destruct Hn. intros x Hx.
      destruct (decide (x ∈ hp_capabilities h)) as [?|Hc]; [done|].
      assert (x ∈ required ∖ hp_capabilities h) as Hd by by apply elem_of_difference.
      by apply E, elem_of_empty in Hd.
Qed.

(** The first guard, in whole numbers. *)
Lemma capability_gate h task :
  let p := harness_capability_match h (required_semantic task) in
  let allow_partial :=
    (TaskClass_value (task_class task) in?
      ["unknown"; "quick_question"; "planning"; "documentation"]) && fle (flit 5 1) p.1 in
  negb (p.2 == ∅) && negb allow_partial && flt p.1 (num 1) = false ↔
  required_semantic task ⊆ hp_capabilities h ∨
  (soft_class task ∧ size (required_semantic task) ≤ 2 * covered h (required_semantic task)).
Proof.
  destruct (decide (required_semantic task = ∅)) as [E|Hne].
  { unfold harness_capability_match. rewrite E, !bool_decide_eq_true_2 by done. simpl. split; [|done].
    intros _. left. set_solver. }
  destruct (match_facts h (required_semantic task) Hne) as (E1 & Hk & Hn & Hn' & Hsub & E2).
  cbv zeta. rewrite E1, E2. destruct (quotient_facts _ _ Hk Hn Hn') as [Q1 Q2].
  rewrite <- soft_class_value.
  set (soft := bool_decide (TaskClass_value _ ∈ _)).
  assert (required_semantic task ∖ hp_capabilities h = ∅ ↔
          required_semantic task ⊆ hp_capabilities h) as Hd by (split; [apply empty_difference_subseteq_L|apply subseteq_empty_difference_L]).
  clear E1 E2. destruct (decide (required_semantic task ⊆ hp_capabilities h)) as [Hs|Hs].
  { rewrite (bool_decide_eq_true_2 _ (proj2 Hd Hs)). split; [by left|done]. }
  rewrite (bool_decide_eq_false_2 _ (λ E, Hs (proj1 Hd E))).
  rewrite (proj2 Q1 (proj2 Hsub Hs)), <- Q2, andb_true_r.
  generalize (fle (flit 5 1) (fdiv (num (Z.of_nat (covered h (required_semantic task))))
    (num (Z.of_nat (size (required_semantic task)))))).
  clear -Hs. intros q. destruct soft, q; naive_solver.
Qed.

(** ** Which routes are eligible *)

Lemma str_in_vals_spec x l : str_in_vals x l = true ↔ PStr x ∈ l.
Proof.
  unfold str_in_vals. rewrite existsb_exists. split.
  - intros (v & Hv%list_elem_of_In & E). destruct v; simplify_eq/=. boolify. by subst.
  - intros Hx%list_elem_of_In. exists (PStr x). split; [done|]. by apply bool_decide_eq_true.
Qed.

(** What a route must satisfy; the last two are about the connector and the model. *)
Record route_ok (h : HarnessProfile) (task : TaskAnalysis) (policy : RoutingPolicy)
    (c : option ConnectorProfile) (m : option ModelProfile) : Prop := {
  ro_capable : required_semantic task ⊆ hp_capabilities h ∨
    (soft_class task ∧ size (required_semantic task) ≤ 2 * covered h (required_semantic task));
  ro_harness : (PStr (hp_id h) ∉ denied_harnesses policy);
  ro_connector : ∀ c', c = Some c' → PStr (cp_id c') ∉ denied_connectors policy ∧
    (privacy_required task = true ∨ prefer_local policy = true ∨
       LOCAL_ONLY ∈ required_semantic task → cp_local c' = true ∨ cp_privacy c' = "local") ∧
    (avoid_paid_apis policy = true → (cp_pricing_tier c' ∉ ["standard"; "premium"]));
  ro_model : ∀ m', m = Some m' → PStr (mp_id m') ∉ denied_models policy ∧
    (∀ x, max_cost policy = Some x → flt x (mp_cost m') = false)
}.

Lemma if_some_none (b : bool) {A} (x : A) (o : option A) :
  (if b then Some x else o) = None ↔ b = false ∧ o = None.
Proof. destruct b; split; [done|by intros []|done|by intros []]. Qed.

Lemma not_true_false_iff (b : bool) (P : Prop) : (b = true ↔ P) → (b = false ↔ ¬ P).
Proof.
  intros [H1 H2]. destruct b; split; try done.
  - intros Hn. by destruct (Hn (H1 eq_refl)).
  - intros _ HP. by specialize (H2 HP).
Qed.

Lemma privacy_guard (p l o : bool) (c : ConnectorProfile) :
  (p || l || o) && (negb (cp_local c) && (cp_privacy c != "local")) = false ↔
  (p = true ∨ l = true ∨ o = true → cp_local c = true ∨ cp_privacy c = "local").
Proof. destruct p, l, o, (cp_local c); simpl; try case_bool_decide; naive_solver. Qed.

Lemma route_rejection_None h task policy c m :
  route_rejection h task policy c m true true = None ↔ route_ok h task policy c m.
Proof.
  unfold route_rejection. cbv zeta. rewrite !if_some_none, (capability_gate h task).
  rewrite (not_true_false_iff _ _ (str_in_vals_spec _ _)).
  assert (LOCAL_ONLY ∈ required_semantic task ↔
    (LOCAL_ONLY in? required_semantic task) = true) as Hlo by by rewrite bool_decide_eq_true.
  split.
  - intros (Hc & Hh & Hdc & Hdm & _ & _ & Hp & Hpaid & Hcost & _).
    split; [done|done| |].
    + intros c' ->. rewrite (not_true_false_iff _ _ (str_in_vals_spec _ _)) in Hdc.
      rewrite Hlo, <- privacy_guard. split_and!; [done|done|].
      intros Ha. rewrite Ha in Hpaid. by apply bool_decide_eq_false in Hpaid.
    + intros m' ->. rewrite (not_true_false_iff _ _ (str_in_vals_spec _ _)) in Hdm.
      split; [done|]. intros x Hx. by rewrite Hx in Hcost.
  - intros [Hc Hh Hco Hmo]. split_and!; try done.
    + destruct c as [c'|]; [|done]. apply (not_true_false_iff _ _ (str_in_vals_spec _ _)).
      by apply Hco.
    + destruct m as [m'|]; [|done]. apply (not_true_false_iff _ _ (str_in_vals_spec _ _)).
      by apply Hmo.
    + destruct c as [c'|]; [|by rewrite andb_false_r].
      rewrite privacy_guard, <- Hlo. by apply Hco.
    + destruct c as [c'|]; [|by rewrite andb_false_r].
      destruct (avoid_paid_apis policy) eqn:Ea; [|done]. simpl. apply bool_decide_eq_false.
      by apply (Hco c').
    + destruct (max_cost policy) as [x|] eqn:Ex, m as [m'|]; try done. by apply (Hmo m').
Qed.

(** The route that a call of [score_route] describes. *)
Lemma score_route_ids h b base task policy c m so qo boost :
  let r := score_route h b base task policy c m so qo boost in
  sr_harness_id r = hp_id h ∧ sr_backend_id r = b ∧
  sr_connector_id r = cp_id <$> c ∧ sr_model_id r = mp_id <$> m.
Proof. unfold score_route. destruct (route_rejection _ _ _ _ _ _ _) as [w|]; [case_match|]; done. Qed.

Lemma score_route_eligible h b base task policy c m so qo boost :
  let r := score_route h b base task policy c m so qo boost in
  sr_rejection_reason r = route_rejection h task policy c m so qo ∧
  (sr_eligible r = true ↔ sr_rejection_reason r = None).
Proof.
  unfold score_route. destruct (route_rejection _ _ _ _ _ _ _) as [w|]; [|done].
  case_match eqn:E; simpl; [done|]. boolify. by subst.
Qed.

(** A route is eligible exactly when its harness covers the required capabilities (half of
    them for the soft task classes), nothing of it is denied, its connector is local when
    the task or the policy asks for that and not a paid one when those are to be avoided,
    and its model is within the cost limit; otherwise it carries the reason. *)
Theorem score_route_eligible_iff h b base task policy c m boost :
  let r := score_route h b base task policy c m true true boost in
  (sr_eligible r = true ↔ route_ok h task policy c m) ∧
  (sr_eligible r = false ↔ ∃ why, sr_rejection_reason r = Some why).
Proof.
  cbv zeta. destruct (score_route_eligible h b base task policy c m true true boost) as [E1 E2].
  cbv zeta in E1, E2. split.
  - by rewrite E2, E1, route_rejection_None.
  - rewrite (not_true_false_iff _ _ E2). split.
    + intros Hn. destruct (sr_rejection_reason _); [by eexists|done].
    + intros [why ->]. done.
Qed.

(** ** The ranking *)

Lemma strs_leb_total a b : strs_leb a b = true ∨ strs_leb b a = true.
Proof.
  revert b. induction a as [|x a IH]; intros [|y b]; simpl; auto.
  repeat case_bool_decide; simplify_eq; auto using str_leb_total.
Qed.

Lemma strs_leb_trans a b c : strs_leb a b = true → strs_leb b c = true → strs_leb a c = true.
Proof.
  revert b c. induction a as [|x a IH]; intros [|y b] [|z c]; simpl; try done.
  repeat case_bool_decide; simplify_eq; eauto using str_leb_trans.
  intros ??. destruct (str_leb_antisym z y); done.
Qed.

Lemma scored_leb_spec sa sb ta tb :
  is_nan sa = false → is_nan sb = false →
  scored_leb sa sb ta tb = true ↔
  fle sb sa = true ∧ (fle sa sb = true → strs_leb ta tb = true).
Proof.
  intros Ha Hb. unfold scored_leb. rewrite !flt_fle by done.
  destruct (fle_total sa sb Ha Hb) as [E|E]; rewrite E; simpl;
    [destruct (fle sb sa)|destruct (fle sa sb)]; simpl; naive_solver.
Qed.

Section scored_order.
Context {A : Type} (score : A → spec_float) (key : A → list string).
Let leb (a b : A) := scored_leb (score a) (score b) (key a) (key b).
Let number (a : A) := is_nan (score a) = false.

Lemma scored_total a b : number a → number b → leb a b = true ∨ leb b a = true.
Proof.
  intros Ha Hb. unfold leb. rewrite !scored_leb_spec by done.
  destruct (fle_total (score a) (score b) Ha Hb), (strs_leb_total (key a) (key b)),
    (fle (score a) (score b)) eqn:?, (fle (score b) (score a)) eqn:?; naive_solver.
Qed.

Lemma scored_trans a b c :
  number a → number b → number c → leb a b = true → leb b c = true → leb a c = true.
Proof.
  intros Ha Hb Hc. unfold leb. rewrite !scored_leb_spec by done.
  intros [E1 K1] [E2 K2]. split; [by apply (fle_trans _ (score b))|]. intros E3.
  eapply strs_leb_trans; [apply K1|apply K2];
    [by apply (fle_trans _ (score c))|by apply (fle_trans _ (score a))].
Qed.
End scored_order.

Lemma elem_of_rank_routes r l : r ∈ rank_routes l ↔ r ∈ l.
Proof.
  unfold rank_routes. rewrite elem_of_app, elem_of_py_sorted, !list_elem_of_In, !filter_In.
  destruct (sr_eligible r); naive_solver.
Qed.

Lemma best_of_Some l r :
  best_of (rank_routes l) = Some r →
  r ∈ l ∧ sr_eligible r = true ∧
  head (py_sorted (λ a b, scored_leb (sr_score a) (sr_score b) (route_key_texts a)
    (route_key_texts b)) (List.filter sr_eligible l)) = Some r.
Proof.
  intros Hb. assert (r ∈ rank_routes l ∧ sr_eligible r = true) as [Hin He].
  { unfold best_of in Hb. destruct (rank_routes l) as [|x t]; [done|].
    destruct (sr_eligible x) eqn:E; simplify_eq. by split; [left|]. }
  rewrite elem_of_rank_routes in Hin. split_and!; [done..|].
  unfold rank_routes, best_of in Hb. destruct (py_sorted _ _) as [|x t] eqn:E; simpl in *.
  - assert (r ∈ List.filter sr_eligible l) as Hf by (apply list_elem_of_In, filter_In;
      by rewrite <- list_elem_of_In).
    apply (elem_of_py_sorted (λ a b, scored_leb (sr_score a) (sr_score b) (route_key_texts a)
      (route_key_texts b))) in Hf. rewrite E in Hf. by apply elem_of_nil in Hf.
  - by destruct (sr_eligible x); simplify_eq.
Qed.

Lemma best_of_None l :
  best_of (rank_routes l) = None ↔ ∀ r, r ∈ l → sr_eligible r = false.
Proof.
  split.
  - intros Hb r Hr. destruct (sr_eligible r) eqn:E; [|done].
    assert (r ∈ py_sorted (λ a b, scored_leb (sr_score a) (sr_score b) (route_key_texts a)
      (route_key_texts b)) (List.filter sr_eligible l)) as Hf.
    { apply elem_of_py_sorted, list_elem_of_In, filter_In. by rewrite <- list_elem_of_In. }
    unfold rank_routes, best_of in Hb. destruct (py_sorted _ _) as [|x t] eqn:Es; [set_solver|].
    assert (x ∈ List.filter sr_eligible l) as Hx.
    { apply (elem_of_py_sorted (λ a b, scored_leb (sr_score a) (sr_score b) (route_key_texts a)
        (route_key_texts b))). rewrite Es. by left. }
    apply list_elem_of_In, filter_In in Hx as [_ Hx]. simpl in Hb. by rewrite Hx in Hb.
  - intros Hl. destruct (best_of (rank_routes l)) as [r|] eqn:E; [|done].
    apply best_of_Some in E as (Hr & He & _). by rewrite (Hl r Hr) in He.
Qed.

(** ** What the selector picks *)

Lemma affinity_boost_same b c r :
  sr_harness_id (affinity_boost b c r) = sr_harness_id r ∧
  sr_backend_id (affinity_boost b c r) = sr_backend_id r ∧
  sr_connector_id (affinity_boost b c r) = sr_connector_id r ∧
  sr_model_id (affinity_boost b c r) = sr_model_id r ∧
  sr_eligible (affinity_boost b c r) = sr_eligible r.
Proof.
  unfold affinity_boost. destruct (dict_get b _); [|done].
  destruct (_ && _) eqn:E; [|done]. by apply andb_true_iff in E as [_ ->].
Qed.

Lemma eligible_connectors_in profiles b avail c :
  c ∈ eligible_connectors profiles b avail →
  c ∈ dict_values (pr_connectors profiles) ∧ ∀ l, avail = Some l → cp_id c ∈ l.
Proof.
  unfold eligible_connectors. set (cs := opt avail _ _).
  assert (∀ c, c ∈ cs → c ∈ dict_values (pr_connectors profiles) ∧
    ∀ l, avail = Some l → cp_id c ∈ l) as Hcs.
  { intros c' Hc. subst cs. destruct avail as [l|]; simpl in Hc; [|done].
    apply list_elem_of_In, filter_In in Hc as [Hc%list_elem_of_In Hl]. boolify.
    split; [done|]. intros l' [= <-]. done. }
  destruct (dict_get b _) as [aff|]; [|apply Hcs].
  destruct (List.filter _ cs) as [|y l] eqn:E; [apply Hcs|]. rewrite <- E.
  intros Hc%list_elem_of_In. apply filter_In in Hc as [Hc%list_elem_of_In _]. by apply Hcs.
Qed.

Lemma eligible_connectors_nil profiles b avail :
  eligible_connectors profiles b avail = [] →
  ∀ c, c ∈ dict_values (pr_connectors profiles) → ∃ l, avail = Some l ∧ cp_id c ∉ l.
Proof.
  unfold eligible_connectors. set (cs := opt avail _ _). intros E c Hc.
  assert (cs = []) as Hcs.
  { destruct (dict_get b _); [|done]. by destruct (List.filter _ cs). }
  subst cs. destruct avail as [l|]; simpl in Hcs; [|rewrite Hcs in Hc; by apply elem_of_nil in Hc].
  exists l. split; [done|]. intros Hin. apply (not_elem_of_nil c). rewrite <- Hcs.
  apply elem_of_filter_bool. split; [done|by apply bool_decide_eq_true].
Qed.

Lemma elem_of_connector_models profiles cs c m :
  (c, m) ∈ connector_models profiles cs →
  c ∈ cs ∧ ∀ m', m = Some m' →
    ∃ id, id ∈ cp_available_models c ∧ dict_get id (pr_models profiles) = Some m'.
Proof.
  intros (c' & Hin & Hc')%list_elem_of_bind.
  apply list_elem_of_bind in Hin as (mid & Hin & Hmid).
  apply list_elem_of_singleton in Hin as [= -> ->]. split; [done|]. intros m'.
  destruct (decide (mid = "")) as [->|Hne]; [by rewrite bool_decide_eq_true_2|].
  rewrite bool_decide_eq_false_2 by done. intros Hm. exists mid. split; [|done].
  case_bool_decide; [|done]. by apply list_elem_of_singleton in Hmid.
Qed.

(** A route that passes every guard: over a profiled, available connector with a profiled
    model that the connector lists (or none); or over no connector and no model, when no
    profiled connector is available. *)
Definition sound_route (profiles : CapabilityProfiles) (h : HarnessProfile) (task : TaskAnalysis)
    (policy : RoutingPolicy) (b : string) (avail : option (list string)) (r : ScoredRoute) : Prop :=
  ∃ c m, route_ok h task policy c m ∧ sr_harness_id r = hp_id h ∧ sr_backend_id r = b ∧
    sr_connector_id r = cp_id <$> c ∧ sr_model_id r = mp_id <$> m ∧
    match c with
    | Some c' => c' ∈ dict_values (pr_connectors profiles) ∧
        (∀ l, avail = Some l → cp_id c' ∈ l) ∧
        ∀ m', m = Some m' →
          ∃ id, id ∈ cp_available_models c' ∧ dict_get id (pr_models profiles) = Some m'
    | None => m = None ∧
        ∀ c', c' ∈ dict_values (pr_connectors profiles) → ∃ l, avail = Some l ∧ cp_id c' ∉ l
    end.

Lemma best_connector_sound h task policy profiles b base avail r :
  best_connector_model_for_harness h task policy profiles b base avail = Some r →
  sr_eligible r = true → sound_route profiles h task policy b avail r.
Proof.
  intros Hb He. unfold best_connector_model_for_harness in Hb.
  destruct (eligible_connectors profiles b avail) as [|c0 cs] eqn:E; simplify_eq.
  - exists None, None. pose proof (score_route_ids h b base task policy None None true true fzero).
    split; [by apply score_route_eligible_iff in He|]. split_and!; try naive_solver.
    by apply (eligible_connectors_nil profiles b).
  - apply best_of_Some in Hb as (Hr & _ & _).
    apply list_elem_of_fmap in Hr as ([c m] & -> & Hcm).
    destruct (affinity_boost_same b c
      (score_route h b base task policy (Some c) m true true fzero)) as (Q1 & Q2 & Q3 & Q4 & Q5).
    destruct (score_route_ids h b base task policy (Some c) m true true fzero) as (I1 & I2 & I3 & I4).
    exists (Some c), m. rewrite Q1, Q2, Q3, Q4, I1, I2, I3, I4. rewrite Q5 in He.
    split; [by apply score_route_eligible_iff in He|].
    apply elem_of_connector_models in Hcm as [Hin Hm]. rewrite <- E in Hin.
    apply eligible_connectors_in in Hin as [??]. by split_and!.
Qed.

Section selector_theorems.
Context (profiles : CapabilityProfiles) (analysis : TaskAnalysis) (policy : RoutingPolicy).
Local Abbreviation rank := (_rank_harness_ids profiles analysis policy).
Local Abbreviation order := (order_harnesses profiles analysis policy).

Lemma ranked_ids l :
  snd <$> py_sorted (λ a b, scored_leb a.1 b.1 [a.2] [b.2])
    (omap (λ h, (λ s, (s, h)) <$> harness_score profiles analysis policy h) l) ≡ₚ
  List.filter (λ h, bool_decide (is_Some (harness_score profiles analysis policy h))) l.
Proof.
  rewrite py_sorted_Permutation. apply reflexive_eq.
  induction l as [|h l IH]; [done|]. simpl.
  destruct (harness_score profiles analysis policy h) as [s|]; simpl; [f_equal|]; exact IH.
Qed.

Lemma rank_permutes l : NoDup l → rank l ≡ₚ l.
Proof.
  intros Hl. pose proof (ranked_ids l) as Hp. unfold _rank_harness_ids.
  set (ordered := snd <$> _) in *. apply NoDup_Permutation; [|done|].
  - apply NoDup_app. split_and!.
    + rewrite Hp. by apply NoDup_filter_bool.
    + intros x Hx [_ Hn]%elem_of_filter_bool. boolify. done.
    + by apply NoDup_filter_bool.
  - intros x. rewrite elem_of_app, elem_of_filter_bool, negb_true_iff, bool_decide_eq_false.
    split.
    + intros [Hx|[? _]]; [|done]. rewrite Hp in Hx. by apply elem_of_filter_bool in Hx as [? _].
    + intros Hx. destruct (decide (x ∈ ordered)); auto.
Qed.

Lemma elem_of_rank x l : x ∈ rank l ↔ x ∈ l.
Proof.
  pose proof (ranked_ids l) as Hp. unfold _rank_harness_ids. set (ordered := snd <$> _) in *.
  rewrite elem_of_app, elem_of_filter_bool, negb_true_iff, bool_decide_eq_false. split.
  - intros [Hx|[? _]]; [|done]. rewrite Hp in Hx. by apply elem_of_filter_bool in Hx as [? _].
  - intros Hx. destruct (decide (x ∈ ordered)); auto.
Qed.

Lemma order_cases l pref :
  order l pref =
  match pref with
  | Some p =>
      if (p != "") && (p in? List.filter (λ h, h != "") l)
      then p :: rank (List.filter (λ h, h != p) (List.filter (λ h, h != "") l))
      else rank (List.filter (λ h, h != "") l)
  | None => rank (List.filter (λ h, h != "") l)
  end.
Proof.
  unfold order_harnesses. destruct pref as [p|]; [|done]. destruct (_ && _); [|done].
  destruct (dict_get p _); [|done]. by destruct (sr_eligible _).
Qed.

Lemma elem_of_order x l pref : x ∈ order l pref ↔ x ∈ l ∧ x ≠ "".
Proof.
  rewrite order_cases.
  assert (x ∈ List.filter (λ h, h != "") l ↔ x ∈ l ∧ x ≠ "") as Hf.
  { by rewrite elem_of_filter_bool, negb_true_iff, bool_decide_eq_false. }
  destruct pref as [p|]; [|by rewrite elem_of_rank].
  destruct (_ && _) eqn:E; [|by rewrite elem_of_rank]. boolify.
  rewrite elem_of_cons, elem_of_rank, elem_of_filter_bool, negb_true_iff, bool_decide_eq_false, Hf.
  destruct (decide (x = p)) as [->|]; [|naive_solver].
  apply elem_of_filter_bool in H0 as [? ?]. boolify. naive_solver.
Qed.

(** Ordering the harnesses loses none and invents none, and a preferred harness that is
    available comes first. *)
Theorem harness_order_is_a_permutation available preferred :
  NoDup available →
  order available preferred ≡ₚ List.filter (λ h, h != "") available ∧
  ∀ p, preferred = Some p → p ≠ "" → p ∈ available → head (order available preferred) = Some p.
Proof.
  intros Hnd. pose proof (NoDup_filter_bool (λ h, h != "") available Hnd) as Hf. split.
  - rewrite order_cases. destruct preferred as [p|]; [|by apply rank_permutes].
    destruct (_ && _) eqn:E; [|by apply rank_permutes].
    rewrite rank_permutes by by apply NoDup_filter_bool. boolify.
    symmetry. apply NoDup_Permutation; [done| |].
    + constructor; [|by apply NoDup_filter_bool]. intros [_ Hn]%elem_of_filter_bool. boolify. done.
    + intros x. rewrite elem_of_cons, (elem_of_filter_bool (λ h, h != p)).
      rewrite negb_true_iff, bool_decide_eq_false.
      destruct (decide (x = p)) as [->|]; naive_solver.
  - intros p -> Hp Hin. rewrite order_cases.
    rewrite (bool_decide_eq_false_2 (p = "")) by done.
    rewrite bool_decide_eq_true_2; [done|].
    by rewrite elem_of_filter_bool, negb_true_iff, bool_decide_eq_false.
Qed.

Lemma elem_of_route_candidates order_ ranked avail subs quota r :
  r ∈ route_candidates profiles analysis policy order_ ranked avail subs quota ↔
  ∃ h b s w, h ∈ order_ ∧ (b, s, w) ∈ ranked ∧ allows subs b = true ∧ allows quota b = true ∧
    best_connector_model_for_harness (profile_of profiles h) analysis policy profiles b s avail
      = Some r.
Proof.
  unfold route_candidates. rewrite list_elem_of_bind. split.
  - intros (h & Hin & Hh). apply list_elem_of_bind in Hin as ([[b s] w] & Hin & Hb).
    destruct (negb _ || _) eqn:Ea; [set_solver|]. boolify.
    destruct (best_connector_model_for_harness _ _ _ _ _ _ _) as [best|] eqn:E; [|set_solver].
    apply list_elem_of_singleton in Hin as ->. by exists h, b, s, w.
  - intros (h & b & s & w & Hh & Hb & Ha & Hq & E). exists h. split; [|done].
    apply list_elem_of_bind. exists (b, s, w). rewrite Ha, Hq. simpl. rewrite E.
    split; [by left|done].
Qed.

(** C14: The route the selector picks joins an available harness with a ranked backend that the
    subscription and the quota allow, and passes every guard. The harness covers the
    capabilities of the task, or at least half of them when its class is unknown, a quick
    question, planning or documentation, and is not denied. The connector is profiled,
    available and not denied, local when the task or the policy asks for that and neither
    standard nor premium when paid ones are to be avoided; the model is one the connector
    lists, not denied and within the cost limit. Only when no profiled connector is available
    has the route none, and then the guards on connectors and models do not apply. *)
Theorem selected_route_is_sound available ranked preferred avail subs quota r :
  rs_selected (select profiles analysis policy available ranked preferred avail subs quota)
    = Some r →
  ∃ h b s w, h ∈ available ∧ h ≠ "" ∧ (b, s, w) ∈ ranked ∧
    allows subs b = true ∧ allows quota b = true ∧
    sound_route profiles (profile_of profiles h) analysis policy b avail r.
Proof.
  intros Hs. apply best_of_Some in Hs as (Hr & He & _).
  apply elem_of_route_candidates in Hr as (h & b & s & w & Hh & Hb & Ha & Hq & E).
  apply elem_of_order in Hh as [Hh Hne]. exists h, b, s, w. split_and!; try done.
  by eapply best_connector_sound.
Qed.

(** No candidate beats the selected route, as long as the scores are numbers; and no route
    is selected exactly when no candidate is eligible. *)
Theorem selected_route_is_best available ranked preferred avail subs quota :
  let s := select profiles analysis policy available ranked preferred avail subs quota in
  (∀ c, c ∈ rs_candidates s → is_nan (sr_score c) = false) →
  match rs_selected s with
  | Some r => r ∈ rs_candidates s ∧
      ∀ c, c ∈ rs_candidates s → sr_eligible c = true → fle (sr_score c) (sr_score r) = true
  | None => ∀ c, c ∈ rs_candidates s → sr_eligible c = false
  end.
Proof.
  intros s Hn. subst s. unfold select in *. simpl in *.
  set (cands := route_candidates _ _ _ _ _ _ _ _) in *.
  destruct (best_of (rank_routes cands)) as [r|] eqn:E.
  - apply best_of_Some in E as (Hr & He & Hh). split; [by apply elem_of_rank_routes|].
    intros c Hc Hce. assert (is_nan (sr_score c) = false) as Hnc by by apply Hn.
    rewrite elem_of_rank_routes in Hc.
    assert (Forall (λ c, is_nan (sr_score c) = false) (List.filter sr_eligible cands)) as Hall.
    { apply Forall_forall. intros x [Hx _]%elem_of_filter_bool. by apply Hn, elem_of_rank_routes. }
    pose proof (py_sorted_head_le_on _ _ (scored_total sr_score route_key_texts)
      (scored_trans sr_score route_key_texts) _ _ c Hall Hh) as Hle.
    specialize (Hle (proj2 (elem_of_filter_bool _ _ _) (conj Hc Hce))).
    apply scored_leb_spec in Hle as [Hle _]; [done| |done].
    by apply Hn, elem_of_rank_routes.
  - intros c Hc. rewrite elem_of_rank_routes in Hc. by eapply best_of_None.
Qed.
End selector_theorems.

(** ** Concrete runs *)

Definition plain_policy : RoutingPolicy :=
  {| preset := BALANCED; prefer_local := false; prefer_cheapest := false;
     prefer_fastest := false; prefer_strongest_reasoning := false;
     prefer_open_models := false; avoid_paid_apis := false; maximize_quality := false;
     max_cost := None; denied_harnesses := []; denied_connectors := []; denied_models := [];
     preferred_harnesses := []; rp_preferred_connectors := []; preferred_models := [] |}.
Definition some_harnesses : list string := ["claude"; "codex"; "grok"].
Definition some_backends : list (string * spec_float * string) :=
  [("fireconnect", num 95, ""); ("local", num 100, "")].
Definition refactor_run : RouteSelection :=
  select builtin_capability_profiles (analyse "refactor the parser" []) plain_policy
    some_harnesses some_backends None None [] [("fireconnect", true)].

Lemma harness_order_is_a_permutation_witness :
  order_harnesses builtin_capability_profiles (analyse "refactor the parser" []) plain_policy
    some_harnesses (Some "grok") ≡ₚ some_harnesses.
Proof.
  apply (harness_order_is_a_permutation builtin_capability_profiles
    (analyse "refactor the parser" []) plain_policy some_harnesses (Some "grok")).
  vm_compute. repeat constructor; set_solver.
Defined.

Lemma selected_route_is_sound_witness :
  ∃ r, rs_selected refactor_run = Some r ∧
    ∃ h b s w, h ∈ some_harnesses ∧ h ≠ "" ∧ (b, s, w) ∈ some_backends ∧
      allows [] b = true ∧ allows [("fireconnect", true)] b = true ∧
      sound_route builtin_capability_profiles (profile_of builtin_capability_profiles h)
        (analyse "refactor the parser" []) plain_policy b None r.
Proof.
  destruct (rs_selected refactor_run) as [r|] eqn:E; [|by vm_compute in E].
  exists r. split; [done|]. by apply selected_route_is_sound with (preferred := None).
Defined.

(** With no connector available a private task still has a route, over the remote backend. *)
Example no_connector_no_privacy_guard :
  (λ r, (sr_backend_id r, sr_connector_id r)) <$> rs_selected
    (select builtin_capability_profiles
       (analyse "work in this private codebase" []) plain_policy
       ["opencode"] [("fireconnect", num 95, "")] None (Some []) [] []) =
    Some ("fireconnect", None).
Proof. vm_compute. reflexivity. Qed.

Lemma all_numbers l :
  forallb (λ c, negb (is_nan (sr_score c))) l = true →
  ∀ c, c ∈ l → is_nan (sr_score c) = false.
Proof. rewrite forallb_forall. intros Hl c Hc%list_elem_of_In. by apply negb_true_iff, Hl. Qed.

Lemma selected_route_is_best_witness :
  ∃ r, rs_selected refactor_run = Some r ∧
    ∀ c, c ∈ rs_candidates refactor_run → sr_eligible c = true →
      fle (sr_score c) (sr_score r) = true.
Proof.
  pose proof (selected_route_is_best builtin_capability_profiles
    (analyse "refactor the parser" []) plain_policy some_harnesses some_backends None None []
    [("fireconnect", true)]) as Hb.
  cbv zeta in Hb. fold refactor_run in Hb.
  specialize (Hb (all_numbers (rs_candidates refactor_run) ltac:(vm_compute; reflexivity))). destruct (rs_selected refactor_run) as [r|] eqn:E; [|by vm_compute in E].
  exists r. split; [done|apply Hb].
Defined.

(** The bonus for open weights is added after the breakdown was written: the total is eight
    more than its parts, and nothing in the breakdown says so. *)
Example breakdown_omits_open_weights :
  let task := analyse "use a cheap model" [] in
  let scored (open : bool) := score_route
    (profile_of builtin_capability_profiles "opencode") "local" (num 100) task plain_policy
    None (Some {| mp_id := "m"; mp_coding := cent 50; mp_reasoning := cent 50;
                  mp_vision := fzero; mp_tool_use := cent 50; mp_context_length := 1000;
                  mp_cost := cent 50; mp_latency := cent 50; mp_multilingual := cent 50;
                  mp_open_weights := open; mp_local := false |}) true true fzero in
  dict_del "total" (sr_breakdown (scored true)) =
    dict_del "total" (sr_breakdown (scored false)) ∧
  flt (sr_score (scored false)) (sr_score (scored true)) = true.
Proof. split; by vm_compute. Qed.

(** Private work that only has remote connectors gets no route at all. *)
Example private_work_has_no_remote_route :
  let s := select builtin_capability_profiles (analyse "fix our private repo" []) plain_policy
    some_harnesses [("fireconnect", num 95, "")] None None [] [] in
  rs_candidates s = [] ∧ rs_selected s = None.
Proof. split; by vm_compute. Qed.
