(* ===== verification/Execution.v ===== *)
(** * Execution routing: requests, failures, cancellation, planning

    [execution_routing/models.py], [failures.py], [cancellation.py], [planner.py],
    [bridge.py] and the configuration of [registry.py]: what the execution router works on.
    The backends and the router are in [Router.v]. *)

From Stdlib Require Import SpecFloat.
From S2P Require Import Prelude Policy CompletionModels TaskAnalysis.

(** ** Failures *)

(* @src runtime_v1/execution_routing/failures.py:8-32 ExecutionFailureClass *)
Inductive ExecutionFailureClass :=
| BACKEND_UNAVAILABLE | BACKEND_UNHEALTHY | CAPABILITY_CHANGED | PREPARATION_FAILURE
| RETRYABLE_LAUNCH_FAILURE | RATE_LIMITED | QUOTA_EXHAUSTED | ENTITLEMENT_REQUIRED
| BACKEND_NOT_ENTITLED | HARNESS_NOT_ENTITLED | INVALID_AUTHORISATION | POLICY_DENIED
| TENANT_VIOLATION | WORKSPACE_VIOLATION | CREDENTIAL_VALIDATION_FAILURE
| NON_RETRYABLE_USER_CODE_FAILURE | EVIDENCE_INTEGRITY_FAILURE | VERIFICATION_FAILURE
| PROVIDER_RESTORE_FAILURE | CONNECTOR_BLOCKED | EF_CANCELLED | TIMEOUT | PROCESS_FAILURE
| EF_UNKNOWN.
#[export] Instance ExecutionFailureClass_eq_dec : EqDecision ExecutionFailureClass.
Proof. solve_decision. Defined.

(* @src runtime_v1/execution_routing/failures.py:8-32 ExecutionFailureClass.value *)
Definition ExecutionFailureClass_value (f : ExecutionFailureClass) : string :=
  match f with
  | BACKEND_UNAVAILABLE => "backend_unavailable" | BACKEND_UNHEALTHY => "backend_unhealthy"
  | CAPABILITY_CHANGED => "capability_changed"
  | PREPARATION_FAILURE => "preparation_failure"
  | RETRYABLE_LAUNCH_FAILURE => "retryable_launch_failure" | RATE_LIMITED => "rate_limited"
  | QUOTA_EXHAUSTED => "quota_exhausted" | ENTITLEMENT_REQUIRED => "entitlement_required"
  | BACKEND_NOT_ENTITLED => "backend_not_entitled"
  | HARNESS_NOT_ENTITLED => "harness_not_entitled"
  | INVALID_AUTHORISATION => "invalid_authorisation" | POLICY_DENIED => "policy_denied"
  | TENANT_VIOLATION => "tenant_violation" | WORKSPACE_VIOLATION => "workspace_violation"
  | CREDENTIAL_VALIDATION_FAILURE => "credential_validation_failure"
  | NON_RETRYABLE_USER_CODE_FAILURE => "non_retryable_user_code_failure"
  | EVIDENCE_INTEGRITY_FAILURE => "evidence_integrity_failure"
  | VERIFICATION_FAILURE => "verification_failure"
  | PROVIDER_RESTORE_FAILURE => "provider_restore_failure"
  | CONNECTOR_BLOCKED => "connector_blocked" | EF_CANCELLED => "cancelled"
  | TIMEOUT => "timeout" | PROCESS_FAILURE => "process_failure" | EF_UNKNOWN => "unknown"
  end.

Definition all_ExecutionFailureClass : list ExecutionFailureClass :=
  [BACKEND_UNAVAILABLE; BACKEND_UNHEALTHY; CAPABILITY_CHANGED; PREPARATION_FAILURE;
   RETRYABLE_LAUNCH_FAILURE; RATE_LIMITED; QUOTA_EXHAUSTED; ENTITLEMENT_REQUIRED;
   BACKEND_NOT_ENTITLED; HARNESS_NOT_ENTITLED; INVALID_AUTHORISATION; POLICY_DENIED;
   TENANT_VIOLATION; WORKSPACE_VIOLATION; CREDENTIAL_VALIDATION_FAILURE;
   NON_RETRYABLE_USER_CODE_FAILURE; EVIDENCE_INTEGRITY_FAILURE; VERIFICATION_FAILURE;
   PROVIDER_RESTORE_FAILURE; CONNECTOR_BLOCKED; EF_CANCELLED; TIMEOUT; PROCESS_FAILURE;
   EF_UNKNOWN].
Definition ExecutionFailureClass_of :=
  enum_of ExecutionFailureClass_value all_ExecutionFailureClass.

(* @src runtime_v1/execution_routing/failures.py:36-46 FALLBACK_ELIGIBLE *)
Definition FALLBACK_ELIGIBLE : list ExecutionFailureClass :=
  [BACKEND_UNAVAILABLE; BACKEND_UNHEALTHY; CAPABILITY_CHANGED; PREPARATION_FAILURE;
   RETRYABLE_LAUNCH_FAILURE; RATE_LIMITED; QUOTA_EXHAUSTED].

(* @src runtime_v1/execution_routing/failures.py:49-66 FALLBACK_FORBIDDEN *)
Definition FALLBACK_FORBIDDEN : list ExecutionFailureClass :=
  [INVALID_AUTHORISATION; POLICY_DENIED; TENANT_VIOLATION; WORKSPACE_VIOLATION;
   CREDENTIAL_VALIDATION_FAILURE; NON_RETRYABLE_USER_CODE_FAILURE;
   EVIDENCE_INTEGRITY_FAILURE; VERIFICATION_FAILURE; PROVIDER_RESTORE_FAILURE;
   CONNECTOR_BLOCKED; EF_CANCELLED; ENTITLEMENT_REQUIRED; BACKEND_NOT_ENTITLED;
   HARNESS_NOT_ENTITLED].

(* @src runtime_v1/execution_routing/failures.py:69-72 may_fallback *)
Definition may_fallback (failure : ExecutionFailureClass) : bool :=
  if failure in? FALLBACK_FORBIDDEN then false else failure in? FALLBACK_ELIGIBLE.

(** ** Requests and results *)

(* @src runtime_v1/execution_routing/models.py:16-26 ExecutionStatus *)
Inductive ExecutionStatus :=
| ES_PENDING | ES_PLANNED | ES_ROUTED | ES_PREPARING | ES_RUNNING | ES_SUCCEEDED | ES_FAILED
| ES_CANCELLED | ES_BLOCKED | ES_FALLBACK.
#[export] Instance ExecutionStatus_eq_dec : EqDecision ExecutionStatus.
Proof. solve_decision. Defined.

(* @src runtime_v1/execution_routing/models.py:16-26 ExecutionStatus.value *)
Definition ExecutionStatus_value (s : ExecutionStatus) : string :=
  match s with
  | ES_PENDING => "pending" | ES_PLANNED => "planned" | ES_ROUTED => "routed"
  | ES_PREPARING => "preparing" | ES_RUNNING => "running" | ES_SUCCEEDED => "succeeded"
  | ES_FAILED => "failed" | ES_CANCELLED => "cancelled" | ES_BLOCKED => "blocked"
  | ES_FALLBACK => "fallback"
  end.

(* @src runtime_v1/execution_routing/models.py:29-59 MissionSpec *)
Record MissionSpec := {
  ms_prompt : string;
  ms_workspace_path : string;
  ms_mission_id : string;
  ms_project_id : option string;
  ms_organisation_id : option string;
  ms_workspace_ref : option string;
  ms_execution_authorisation_id : option string;
  ms_preferred_model : option string;
  ms_preferred_harness : option string;
  ms_required_capabilities : gset ExecutionCapability;
  ms_optional_capabilities : gset ExecutionCapability;
  ms_requires_provider_route : bool;
  ms_requires_internet : bool;
  ms_requires_gpu : bool;
  ms_requires_local_filesystem : bool;
  ms_requires_ephemeral_workspace : bool;
  ms_requires_remote_worker : bool;
  ms_estimated_runtime_seconds : option Z;
  ms_estimated_token_usage : option Z;
  ms_cost_preference : string;
  ms_locality_preference : string;
  ms_timeout_seconds : Z;
  ms_organisation_policy : dict;
  ms_subscription_constraints : dict;
  ms_routing_preferences : dict;
  ms_metadata : dict;
  ms_correlation_id : option string
}.

(* @src runtime_v1/execution_routing/models.py:62-91 ExecutionIntent *)
Record ExecutionIntent := {
  it_mission_id : string;
  it_execution_id : string;
  it_prompt : string;
  it_workspace_path : string;
  it_required_capabilities : gset ExecutionCapability;
  it_preferred_model : option string;
  it_preferred_harness : option string;
  it_requires_provider_route : bool;
  it_requires_ephemeral_workspace : bool;
  it_estimated_runtime_seconds : option Z;
  it_estimated_token_usage : option Z;
  it_cost_preference : string;
  it_project_id : option string;
  it_organisation_id : option string;
  it_workspace_ref : option string;
  it_execution_authorisation_id : option string;
  it_timeout_seconds : Z;
  it_locality_preference : string;
  it_organisation_policy : dict;
  it_subscription_constraints : dict;
  it_routing_preferences : dict;
  it_metadata : dict;
  it_correlation_id : option string;
  it_task_class : option string;
  it_required_semantic_capabilities : gset string;
  it_task_analysis : dict
}.

Definition oint (o : option Z) : pyval := match o with Some z => PInt z | None => PNone end.

(* @src runtime_v1/execution_routing/models.py:93-121 ExecutionIntent.as_dict *)
Definition ExecutionIntent_as_dict (i : ExecutionIntent) : dict :=
  [("mission_id", PStr (it_mission_id i)); ("execution_id", PStr (it_execution_id i));
   ("prompt", PStr (it_prompt i)); ("workspace_path", PStr (it_workspace_path i));
   ("workspace_ref", ostr (it_workspace_ref i)); ("project_id", ostr (it_project_id i));
   ("organisation_id", ostr (it_organisation_id i));
   ("execution_authorisation_id", ostr (it_execution_authorisation_id i));
   ("required_capabilities",
      PStrs (sorted_values ExecutionCapability_value (it_required_capabilities i)));
   ("preferred_model", ostr (it_preferred_model i));
   ("preferred_harness", ostr (it_preferred_harness i));
   ("requires_provider_route", PBool (it_requires_provider_route i));
   ("requires_ephemeral_workspace", PBool (it_requires_ephemeral_workspace i));
   ("estimated_runtime_seconds", oint (it_estimated_runtime_seconds i));
   ("estimated_token_usage", oint (it_estimated_token_usage i));
   ("cost_preference", PStr (it_cost_preference i));
   ("locality_preference", PStr (it_locality_preference i));
   ("timeout_seconds", PInt (it_timeout_seconds i));
   ("organisation_policy", PDict (it_organisation_policy i));
   ("subscription_constraints", PDict (it_subscription_constraints i));
   ("routing_preferences", PDict (it_routing_preferences i));
   ("metadata", PDict (it_metadata i)); ("correlation_id", ostr (it_correlation_id i));
   ("task_class", ostr (it_task_class i));
   ("required_semantic_capabilities",
      PStrs (sorted_strs (elements (it_required_semantic_capabilities i))));
   ("task_analysis", PDict (it_task_analysis i))].

(* @src runtime_v1/execution_routing/models.py:124-131 ExecutionRequest *)
Record ExecutionRequest := {
  er_execution_id : string; er_mission_id : string; er_intent : ExecutionIntent;
  er_created_at : Z }.

(* @src runtime_v1/execution_routing/models.py:142-164 ExecutionDecision *)
Record ExecutionDecision := {
  ed_execution_id : string;
  ed_selected_backend_id : string;
  ed_selected_harness_id : string;
  ed_reason : string;
  ed_fallback_order : list string;
  ed_provider_routing_required : bool;
  ed_retry_policy : dict;
  ed_scores : list (string * spec_float);
  ed_capability_match : dict;
  ed_policy_result : dict;
  ed_health_snapshot : dict;
  ed_quota_snapshot : list (string * bool);
  ed_registry_revision : string;
  ed_decided_at : Z;
  ed_selected_connector_id : option string;
  ed_selected_model_id : option string;
  ed_route_score : option spec_float;
  ed_route_candidates : list dict;
  ed_task_analysis : dict
}.

Definition ofloat (o : option spec_float) : pyval :=
  match o with Some f => PFloat f | None => PNone end.

Section as_dicts.
Context `{PyLib}.

(* @src runtime_v1/execution_routing/models.py:133-139 ExecutionRequest.as_dict *)
Definition ExecutionRequest_as_dict (r : ExecutionRequest) : dict :=
  [("execution_id", PStr (er_execution_id r)); ("mission_id", PStr (er_mission_id r));
   ("intent", PDict (ExecutionIntent_as_dict (er_intent r)));
   ("created_at", PStr (isoformat (er_created_at r)))].

(* @src runtime_v1/execution_routing/models.py:166-187 ExecutionDecision.as_dict *)
Definition ExecutionDecision_as_dict (d : ExecutionDecision) : dict :=
  [("execution_id", PStr (ed_execution_id d));
   ("selected_backend_id", PStr (ed_selected_backend_id d));
   ("selected_harness_id", PStr (ed_selected_harness_id d));
   ("selected_connector_id", ostr (ed_selected_connector_id d));
   ("selected_model_id", ostr (ed_selected_model_id d));
   ("reason", PStr (ed_reason d)); ("fallback_order", PStrs (ed_fallback_order d));
   ("provider_routing_required", PBool (ed_provider_routing_required d));
   ("retry_policy", PDict (ed_retry_policy d));
   ("scores", PDict ((λ '(k, f), (k, PFloat f)) <$> ed_scores d));
   ("route_score", ofloat (ed_route_score d));
   ("route_candidates", PList (PDict <$> ed_route_candidates d));
   ("capability_match", PDict (ed_capability_match d));
   ("policy_result", PDict (ed_policy_result d));
   ("health_snapshot", PDict (ed_health_snapshot d));
   ("quota_snapshot", PDict ((λ '(k, b), (k, PBool b)) <$> ed_quota_snapshot d));
   ("registry_revision", PStr (ed_registry_revision d));
   ("decided_at", PStr (isoformat (ed_decided_at d)));
   ("task_analysis", PDict (ed_task_analysis d))].
End as_dicts.

(* @src runtime_v1/execution_routing/models.py:190-207 ExecutionAttemptRecord *)
Record ExecutionAttemptRecord := {
  ar_attempt_id : string;
  ar_execution_id : string;
  ar_attempt_number : Z;
  ar_backend_id : string;
  ar_harness_id : string;
  ar_started_at : Z;
  ar_completed_at : option Z;
  ar_failure_class : option string;
  ar_fallback_reason : option string;
  ar_backend_execution_ref : option string;
  ar_usage : dict;
  ar_evidence_refs : list string;
  ar_audit_correlation_id : option string;
  ar_status : string
}.

(* @src runtime_v1/execution_routing/models.py:300-308 BackendAuditEvent *)
Record BackendAuditEvent := {
  ba_event_type : string;
  ba_execution_id : string;
  ba_backend_id : option string;
  ba_harness_id : option string;
  ba_reason : option string;
  ba_payload : dict;
  ba_created_at : Z
}.

(* @src runtime_v1/execution_routing/models.py:291-297 BackendHealth *)
Record BackendHealth := {
  bh_healthy : bool; bh_backend_id : string; bh_detail : string;
  bh_capabilities : gset ExecutionCapability; bh_state : string }.

Section audit_dicts.
Context `{PyLib}.

(* @src runtime_v1/execution_routing/models.py:209-225 ExecutionAttemptRecord.as_dict *)
Definition ExecutionAttemptRecord_as_dict (a : ExecutionAttemptRecord) : dict :=
  [("attempt_id", PStr (ar_attempt_id a)); ("execution_id", PStr (ar_execution_id a));
   ("attempt_number", PInt (ar_attempt_number a)); ("backend_id", PStr (ar_backend_id a));
   ("harness_id", PStr (ar_harness_id a));
   ("started_at", PStr (isoformat (ar_started_at a)));
   ("completed_at", ostr (isoformat <$> ar_completed_at a));
   ("failure_class", ostr (ar_failure_class a));
   ("fallback_reason", ostr (ar_fallback_reason a));
   ("backend_execution_ref", ostr (ar_backend_execution_ref a));
   ("usage", PDict (ar_usage a)); ("evidence_refs", PStrs (ar_evidence_refs a));
   ("audit_correlation_id", ostr (ar_audit_correlation_id a));
   ("status", PStr (ar_status a))].

(* @src runtime_v1/execution_routing/models.py:310-319 BackendAuditEvent.as_dict *)
Definition BackendAuditEvent_as_dict (e : BackendAuditEvent) : dict :=
  [("event_type", PStr (ba_event_type e)); ("execution_id", PStr (ba_execution_id e));
   ("backend_id", ostr (ba_backend_id e)); ("harness_id", ostr (ba_harness_id e));
   ("reason", ostr (ba_reason e)); ("payload", PDict (ba_payload e));
   ("created_at", PStr (isoformat (ba_created_at e)))].
End audit_dicts.

(** The result of a routed execution: the fields completion reads and the router's own. *)
(* @src runtime_v1/execution_routing/models.py:228-260 ExecutionResult *)
Record RoutedResult := {
  rr_result : ExecutionResult;
  rr_status : ExecutionStatus;
  rr_attempted_backends : list string;
  rr_decision : option ExecutionDecision;
  rr_audits : list dict;
  rr_attempts : list dict
}.

(* @src runtime_v1/execution_routing/models.py:322-334 BackendRegistryConfig *)
Record BackendRegistryConfig := {
  enabled_backends : list string;
  priority : list string;
  default_backend : option string;
  bc_fallback_order : list string;
  capability_overrides : list (string * list string);
  bc_fireconnect : dict;
  registry_revision : string;
  allow_stub_backends : bool
}.
(* @src runtime_v1/execution_routing/models.py:326-334 BackendRegistryConfig *)
Definition default_BackendRegistryConfig : BackendRegistryConfig :=
  {| enabled_backends := ["local"; "fireconnect"; "joymesh"];
     priority := ["local"; "fireconnect"; "joymesh"]; default_backend := Some "local";
     bc_fallback_order := ["local"; "fireconnect"; "joymesh"];
     capability_overrides := []; bc_fireconnect := []; registry_revision := "v1";
     allow_stub_backends := false |}.

(** ** Cancellation

    A row of the registry is a mutable object that outlives its entry: the rows are kept in
    a heap and the registry maps an execution to the row it points at. The source's lock
    guards sections without an await, which run as one step. *)

(** A cancel function is the backend it closes over (by its key) and the execution. *)
(* @src runtime_v1/execution_routing/cancellation.py:16-26 ActiveExecution *)
Record ActiveExecution := {
  ax_execution_id : string;
  ax_attempt_id : string;
  ax_backend_id : string;
  ax_harness_id : option string;
  ax_cancel_fn : option (string * string);
  ax_cancelled : bool;
  ax_cancel_count : Z;
  ax_late_events_ignored : Z;
  ax_created_at : Z
}.

(* @src runtime_v1/execution_routing/cancellation.py:29-34 CancellationRegistry.__init__ *)
Record CancellationRegistry := {
  cr_rows : list ActiveExecution;
  cr_active : gmap string nat
}.
Definition CancellationRegistry_init : CancellationRegistry := {| cr_rows := []; cr_active := ∅ |}.

Definition on_row (i : nat) (f : ActiveExecution → ActiveExecution) (c : CancellationRegistry) :
    CancellationRegistry :=
  {| cr_rows := alter f i (cr_rows c); cr_active := cr_active c |}.

(* @src runtime_v1/execution_routing/cancellation.py:76-77 CancellationRegistry.get *)
Definition registry_get (c : CancellationRegistry) (eid : string) : option ActiveExecution :=
  cr_active c !! eid ≫= λ i, cr_rows c !! i.

(** [fresh] is the identifier drawn when the caller gives none. *)
(* @src runtime_v1/execution_routing/cancellation.py:36-54 CancellationRegistry.register *)
Definition register (eid backend_id : string) (harness_id attempt_id : option string)
    (cancel_fn : option (string * string)) (fresh : string) (now : Z)
    (c : CancellationRegistry) : CancellationRegistry :=
  let row := {| ax_execution_id := eid;
                ax_attempt_id := if otruthy attempt_id then default "" attempt_id
                                 else "execution_attempt_" +:+ fresh;
                ax_backend_id := backend_id; ax_harness_id := harness_id;
                ax_cancel_fn := cancel_fn; ax_cancelled := false; ax_cancel_count := 0;
                ax_late_events_ignored := 0; ax_created_at := now |} in
  {| cr_rows := cr_rows c ++ [row];
     cr_active := <[eid := length (cr_rows c)]> (cr_active c) |}.

(* @src runtime_v1/execution_routing/cancellation.py:56-74 CancellationRegistry.update_attempt *)
Definition update_attempt (eid attempt_id backend_id : string) (harness_id : option string)
    (cancel_fn : option (string * string)) (c : CancellationRegistry) : CancellationRegistry :=
  match cr_active c !! eid with
  | None => c
  | Some i => on_row i (λ r,
      {| ax_execution_id := ax_execution_id r; ax_attempt_id := attempt_id;
         ax_backend_id := backend_id; ax_harness_id := harness_id;
         ax_cancel_fn := match cancel_fn with Some f => Some f | None => ax_cancel_fn r end;
         ax_cancelled := ax_cancelled r; ax_cancel_count := ax_cancel_count r;
         ax_late_events_ignored := ax_late_events_ignored r;
         ax_created_at := ax_created_at r |}) c
  end.

(* @src runtime_v1/execution_routing/cancellation.py:79-81 CancellationRegistry.is_cancelled *)
Definition is_cancelled (c : CancellationRegistry) (eid : string) : bool :=
  match registry_get c eid with Some r => ax_cancelled r | None => false end.

Definition count_cancel (mark : bool) (r : ActiveExecution) : ActiveExecution :=
  {| ax_execution_id := ax_execution_id r; ax_attempt_id := ax_attempt_id r;
     ax_backend_id := ax_backend_id r; ax_harness_id := ax_harness_id r;
     ax_cancel_fn := ax_cancel_fn r; ax_cancelled := ax_cancelled r || mark;
     ax_cancel_count := ax_cancel_count r + 1;
     ax_late_events_ignored := ax_late_events_ignored r; ax_created_at := ax_created_at r |}.

(** What the locked part of [cancel] decides. *)
Inductive cancel_step :=
| CancelIdle
| CancelAgain (row : ActiveExecution)
| CancelFirst (i : nat) (fn : option (string * string)).

(* @src runtime_v1/execution_routing/cancellation.py:83-105 CancellationRegistry.cancel *)
Definition cancel_locked (eid : string) (c : CancellationRegistry) :
    cancel_step * CancellationRegistry :=
  match cr_active c !! eid with
  | None => (CancelIdle, c)
  | Some i =>
      match cr_rows c !! i with
      | None => (CancelIdle, c)
      | Some r =>
          if ax_cancelled r then (CancelAgain (count_cancel false r), on_row i (count_cancel false) c)
          else (CancelFirst i (ax_cancel_fn r), on_row i (count_cancel true) c)
      end
  end.

(* @src runtime_v1/execution_routing/cancellation.py:120-127 CancellationRegistry.note_late_event *)
Definition note_late_event (eid : string) (c : CancellationRegistry) :
    bool * CancellationRegistry :=
  match cr_active c !! eid ≫= λ i, (λ r, (i, r)) <$> cr_rows c !! i with
  | Some (i, r) =>
      if ax_cancelled r then
        (true, on_row i (λ r,
           {| ax_execution_id := ax_execution_id r; ax_attempt_id := ax_attempt_id r;
              ax_backend_id := ax_backend_id r; ax_harness_id := ax_harness_id r;
              ax_cancel_fn := ax_cancel_fn r; ax_cancelled := ax_cancelled r;
              ax_cancel_count := ax_cancel_count r;
              ax_late_events_ignored := ax_late_events_ignored r + 1;
              ax_created_at := ax_created_at r |}) c)
      else (false, c)
  | None => (false, c)
  end.

(* @src runtime_v1/execution_routing/cancellation.py:129-131 CancellationRegistry.clear *)
Definition clear (eid : string) (c : CancellationRegistry) : CancellationRegistry :=
  {| cr_rows := cr_rows c; cr_active := delete eid (cr_active c) |}.

(** ** The planner *)

Definition add_if {A} `{Countable A} (b : bool) (x : A) (s : gset A) : gset A :=
  if b then s ∪ {[ x ]} else s.

(* @src runtime_v1/execution_routing/planner.py:29-44 ExecutionPlanner.plan *)
Definition planned_capabilities (m : MissionSpec) (analysis : TaskAnalysis) :
    gset ExecutionCapability :=
  let r := ms_required_capabilities m ∪ derived_execution_capabilities analysis in
  let r := add_if (ms_requires_internet m) INTERNET r in
  let r := add_if (ms_requires_gpu m) GPU r in
  let r := add_if (ms_requires_local_filesystem m) FILESYSTEM r in
  let r := if ms_requires_ephemeral_workspace m then r ∪ {[ EPHEMERAL_WORKSPACE ]}
           else r ∪ {[ PERSISTENT_WORKSPACE ]} in
  let r := add_if (ms_requires_provider_route m) PROVIDER_ROUTING r in
  add_if (ms_requires_remote_worker m) REMOTE_WORKER r.

(* @src runtime_v1/execution_routing/planner.py:48-58 ExecutionPlanner.plan *)
Definition planned_preferences (m : MissionSpec) (analysis : TaskAnalysis) : dict :=
  let p := ms_routing_preferences m in
  let p := if (ms_cost_preference m != "") && negb (dict_has "preset" p) &&
              negb (dict_has "policy" p)
           then dict_setdefault "preset" (PStr (ms_cost_preference m)) p else p in
  let p := if ms_locality_preference m == "local"
           then dict_setdefault "prefer_local" (PBool true) p else p in
  if prefers_local analysis || privacy_required analysis
  then dict_setdefault "prefer_local" (PBool true) p else p.

Section planner.
Context `{PyLib}.

(** [n] draws the fresh identifier. *)
(* @src runtime_v1/execution_routing/planner.py:27-92 ExecutionPlanner.plan *)
Definition plan (n : nat) (m : MissionSpec) : res ExecutionIntent :=
  let analysis := analyse (ms_prompt m) (ms_metadata m) in
  res_bind (from_mapping (planned_preferences m analysis)) (λ policy,
  Ok {| it_mission_id := ms_mission_id m;
        it_execution_id := "execution_" +:+ uuid_hex n;
        it_prompt := ms_prompt m; it_workspace_path := ms_workspace_path m;
        it_required_capabilities := planned_capabilities m analysis;
        it_preferred_model := ms_preferred_model m;
        it_preferred_harness := ms_preferred_harness m;
        it_requires_provider_route := ms_requires_provider_route m;
        it_requires_ephemeral_workspace := ms_requires_ephemeral_workspace m;
        it_estimated_runtime_seconds := ms_estimated_runtime_seconds m;
        it_estimated_token_usage := ms_estimated_token_usage m;
        it_cost_preference := ms_cost_preference m;
        it_project_id := ms_project_id m; it_organisation_id := ms_organisation_id m;
        it_workspace_ref := if otruthy (ms_workspace_ref m) then ms_workspace_ref m
                            else Some (ms_workspace_path m);
        it_execution_authorisation_id := ms_execution_authorisation_id m;
        it_timeout_seconds := ms_timeout_seconds m;
        it_locality_preference := ms_locality_preference m;
        it_organisation_policy := ms_organisation_policy m;
        it_subscription_constraints := ms_subscription_constraints m;
        it_routing_preferences := RoutingPolicy_as_dict policy;
        it_metadata := ms_metadata m; it_correlation_id := ms_correlation_id m;
        it_task_class := Some (TaskClass_value (task_class analysis));
        it_required_semantic_capabilities :=
          set_map SemanticCapability_value (required_semantic analysis);
        it_task_analysis := TaskAnalysis_as_dict analysis |}).

(* @src runtime_v1/execution_routing/planner.py:94-99 ExecutionPlanner.request_for *)
Definition request_for (n : nat) (i : ExecutionIntent) : ExecutionRequest :=
  {| er_execution_id := it_execution_id i; er_mission_id := it_mission_id i; er_intent := i;
     er_created_at := clock n |}.
End planner.

(** ** The bridge from runtime tasks *)

(* @src runtime_v1/models.py:22-35 RuntimeTaskStatus *)
Inductive RuntimeTaskStatus :=
| RT_PENDING | RT_APPROVAL_REQUIRED | RT_ROUTING | RT_QUEUED | RT_LEASED | RT_OFFERED
| RT_ACCEPTED | RT_RUNNING | RT_RECONCILING | RT_SUCCEEDED | RT_FAILED | RT_CANCELLED
| RT_REJECTED.

(* @src runtime_v1/models.py:87-128 RuntimeTaskRecord *)
Record RuntimeTaskRecord := {
  tk_task_id : string;
  tk_correlation_id : option string;
  tk_mission_id : option string;
  tk_trace_id : option string;
  tk_metadata : dict;
  tk_workspace_id : string;
  tk_user_id : string;
  tk_prompt_digest : string;
  tk_prompt_size : Z;
  tk_requested_capabilities : list string;
  tk_prohibited_capabilities : list string;
  tk_expanded_capabilities : list string;
  tk_policy_profile : string;
  tk_preferred_connectors : list string;
  tk_required_connector : option string;
  tk_preferred_providers : list string;
  tk_required_provider : option string;
  tk_preferred_nodes : list string;
  tk_required_node : option string;
  tk_timeout_seconds : Z;
  tk_max_attempts : Z;
  tk_status : RuntimeTaskStatus;
  tk_selected_node_id : option string;
  tk_selected_connector_id : option string;
  tk_selected_backend_id : option string;
  tk_selected_harness_id : option string;
  tk_execution_id : option string;
  tk_execution_decision_reason : option string;
  tk_execution_fallback_order : list string;
  tk_provider_routing_required : bool;
  tk_selected_provider_id : option string;
  tk_selected_provider_route_id : option string;
  tk_selected_provider_route_manager_id : option string;
  tk_selected_model_id : option string;
  tk_provider_selection_reason : option string;
  tk_approval_required : bool;
  tk_created_at : Z;
  tk_updated_at : Z;
  tk_detail : option string
}.

(* @src runtime_v1/execution_routing/bridge.py:113-123 _map_runtime_capability *)
Definition _map_runtime_capability (value : string) : option ExecutionCapability :=
  dict_get value
    [("internet", INTERNET); ("gpu", GPU); ("filesystem", FILESYSTEM); ("browser", BROWSER);
     ("vision", EC_VISION); ("voice", VOICE); ("multi_agent", MULTI_AGENT)].

(** [x or y] of optional and plain texts. *)
Definition or_str (o : option string) (d : string) : string :=
  if otruthy o then default d o else d.

(** A provider named explicitly, and neither of the two that need no route. *)
Definition names_provider (p : option string) : bool :=
  otruthy p && negb (default "" p in? ["native"; "local"]).

(* @src runtime_v1/execution_routing/bridge.py:13-71 mission_spec_from_task *)
Definition mission_spec_from_task (task : RuntimeTaskRecord) (prompt workspace_path : string)
    (workspace_ref : option string) (locality_preference : string)
    (requires_remote_worker : bool) : MissionSpec :=
  {| ms_prompt := prompt; ms_workspace_path := workspace_path;
     ms_mission_id := or_str (tk_mission_id task) (tk_task_id task);
     ms_project_id := Some (tk_workspace_id task); ms_organisation_id := None;
     ms_workspace_ref := Some (or_str workspace_ref (tk_workspace_id task));
     ms_execution_authorisation_id := None;
     ms_preferred_model := tk_selected_model_id task;
     ms_preferred_harness :=
       match tk_required_connector task with
       | Some c => Some c
       | None => head (tk_preferred_connectors task)
       end;
     ms_required_capabilities := list_to_set (omap _map_runtime_capability
       (match tk_expanded_capabilities task with
        | [] => tk_requested_capabilities task
        | e => e
        end));
     ms_optional_capabilities := ∅;
     ms_requires_provider_route := names_provider (tk_required_provider task);
     ms_requires_internet := false; ms_requires_gpu := false;
     ms_requires_local_filesystem := negb requires_remote_worker;
     ms_requires_ephemeral_workspace := false;
     ms_requires_remote_worker := requires_remote_worker;
     ms_estimated_runtime_seconds := None; ms_estimated_token_usage := None;
     ms_cost_preference := "balanced"; ms_locality_preference := locality_preference;
     ms_timeout_seconds := tk_timeout_seconds task;
     ms_organisation_policy := [("policy_profile", PStr (tk_policy_profile task))];
     ms_subscription_constraints := [];
     ms_routing_preferences :=
       [("preferred_connectors", PStrs (tk_preferred_connectors task));
        ("preferred_nodes", PStrs (tk_preferred_nodes task));
        ("required_node", ostr (tk_required_node task));
        ("preferred_providers", PStrs (tk_preferred_providers task));
        ("required_provider", ostr (tk_required_provider task))];
     ms_metadata := dict_set "max_attempts" (PInt (tk_max_attempts task))
       (dict_set "user_id" (PStr (tk_user_id task))
         (dict_set "runtime_task_id" (PStr (tk_task_id task)) (tk_metadata task)));
     ms_correlation_id := Some (or_str (tk_correlation_id task) (tk_task_id task)) |}.

(* @src runtime_v1/execution_routing/bridge.py:74-110 mission_spec_from_request *)
Definition mission_spec_from_request (request : RuntimeTaskRequest) (workspace_path : string)
    (locality_preference : string) (requires_remote_worker : bool) : MissionSpec :=
  {| ms_prompt := prompt request; ms_workspace_path := workspace_path;
     ms_mission_id := req_task_id request;
     ms_project_id := Some (workspace_id request); ms_organisation_id := None;
     ms_workspace_ref := Some (workspace_id request);
     ms_execution_authorisation_id := None; ms_preferred_model := None;
     ms_preferred_harness :=
       match required_connector request with
       | Some c => Some c
       | None => head (preferred_connectors request)
       end;
     ms_required_capabilities := ∅; ms_optional_capabilities := ∅;
     ms_requires_provider_route := names_provider (required_provider request);
     ms_requires_internet := false; ms_requires_gpu := false;
     ms_requires_local_filesystem := negb requires_remote_worker;
     ms_requires_ephemeral_workspace := false;
     ms_requires_remote_worker := requires_remote_worker;
     ms_estimated_runtime_seconds := None; ms_estimated_token_usage := None;
     ms_cost_preference := "balanced"; ms_locality_preference := locality_preference;
     ms_timeout_seconds := timeout_seconds request;
     ms_organisation_policy := [("policy_profile", PStr (policy_profile request))];
     ms_subscription_constraints := [];
     ms_routing_preferences :=
       [("preferred_connectors", PStrs (preferred_connectors request));
        ("preferred_nodes", PStrs (preferred_nodes request));
        ("required_node", ostr (required_node request));
        ("preferred_providers", PStrs (preferred_providers request));
        ("required_provider", ostr (required_provider request))];
     ms_metadata := [("user_id", PStr (user_id request));
                     ("max_attempts", PInt (max_attempts request))];
     ms_correlation_id := Some (req_task_id request) |}.

(** The connector is the harness in the source too. *)
(* @src runtime_v1/execution_routing/bridge.py:126-135 decision_fields *)
Definition decision_fields (d : ExecutionDecision) : dict :=
  [("execution_id", PStr (ed_execution_id d));
   ("selected_backend_id", PStr (ed_selected_backend_id d));
   ("selected_harness_id", PStr (ed_selected_harness_id d));
   ("selected_connector_id", PStr (ed_selected_harness_id d));
   ("execution_decision_reason", PStr (ed_reason d));
   ("execution_fallback_order", PStrs (ed_fallback_order d));
   ("provider_routing_required", PBool (ed_provider_routing_required d))].
