(* ===== verification/Router.v ===== *)
(** * The execution router

    [execution_routing/router.py] over the backends of [backends/protocol.py] and the
    registry of [registry.py]. A backend is a parameter: its awaited operations are
    computations over the whole state of the process, so another task that runs while the
    router waits (a cancellation, say) is part of what the operation does. *)

From Stdlib Require Import SpecFloat.
From S2P Require Import Prelude CompletionModels TaskAnalysis CapabilityRouting Execution.

(** ** State, backends, registry *)

(** The shared state: readings taken of the clock and of [uuid4], the registry of live
    executions, and everything the backends act on. *)
Record RouterState (W : Type) := {
  st_ticks : nat;
  st_cancel : CancellationRegistry;
  st_world : W
}.
Arguments Build_RouterState {W}.
Arguments st_ticks {W}.
Arguments st_cancel {W}.
Arguments st_world {W}.

Definition tick {W} : M (RouterState W) nat := λ s,
  (Ok (st_ticks s), {| st_ticks := S (st_ticks s); st_cancel := st_cancel s;
                       st_world := st_world s |}).
Definition on_cancel {W} (f : CancellationRegistry → CancellationRegistry) :
    M (RouterState W) unit := λ s,
  (Ok tt, {| st_ticks := st_ticks s; st_cancel := f (st_cancel s); st_world := st_world s |}).

(** [be_cancel] is what awaiting [cancel] gives, [PNone] when there is nothing to await. *)
(* @src runtime_v1/execution_routing/backends/protocol.py:17-55 ExecutionBackend *)
Record ExecutionBackend (W : Type) := {
  be_backend_id : string;
  be_capabilities : gset ExecutionCapability;
  be_supports : ExecutionIntent → string → bool;
  be_health : M (RouterState W) BackendHealth;
  be_prepare : ExecutionIntent → ExecutionDecision → M (RouterState W) dict;
  be_validate : ExecutionIntent → ExecutionDecision → M (RouterState W) unit;
  be_execute : ExecutionIntent → ExecutionDecision → option dict →
    M (RouterState W) ExecutionResult;
  be_cancel : string → M (RouterState W) pyval;
  be_cleanup : string → M (RouterState W) unit
}.
Arguments be_backend_id {W}.
Arguments be_capabilities {W}.
Arguments be_supports {W}.
Arguments be_health {W}.
Arguments be_prepare {W}.
Arguments be_validate {W}.
Arguments be_execute {W}.
Arguments be_cancel {W}.
Arguments be_cleanup {W}.

(* @src runtime_v1/execution_routing/registry.py:22-54 BackendRegistry *)
Record BackendRegistry (W : Type) := {
  rg_config : BackendRegistryConfig;
  rg_backends : list (string * ExecutionBackend W);
  rg_overrides : list (string * gset ExecutionCapability)
}.
Arguments rg_config {W}.
Arguments rg_backends {W}.
Arguments rg_overrides {W}.

(** [ExecutionCapability(item)]. *)
Definition capability_of (item : string) : res ExecutionCapability :=
  match ExecutionCapability_of item with
  | Some c => Ok c
  | None => Raise (ValueError (repr_str item +:+ " is not a valid ExecutionCapability"))
  end.

(* @src runtime_v1/execution_routing/registry.py:51-54 BackendRegistry._apply_capability_overrides *)
Definition _apply_capability_overrides (overrides : list (string * list string)) :
    res (list (string * gset ExecutionCapability)) :=
  traverse (λ '(backend_id, values),
    res_bind (traverse capability_of values) (λ caps, Ok (backend_id, list_to_set caps)))
    overrides.

(* @src runtime_v1/execution_routing/registry.py:23-49 BackendRegistry.__init__ *)
Definition BackendRegistry_init {W} (backends : list (string * ExecutionBackend W))
    (config : BackendRegistryConfig) : res (BackendRegistry W) :=
  res_bind (_apply_capability_overrides (capability_overrides config)) (λ overrides,
  Ok {| rg_config := config; rg_backends := backends; rg_overrides := overrides |}).

(* @src runtime_v1/execution_routing/registry.py:18-19 BackendRegistryError *)
Definition BackendRegistryError (backend_id : string) : exn :=
  Exn "BackendRegistryError" "" (repr_str ("unknown execution backend: " +:+ backend_id)).
(* @src runtime_v1/execution_routing/router.py:39-43 ExecutionRouterError *)
Definition ExecutionRouterError (reason_code message : string) : exn :=
  Exn "ExecutionRouterError" reason_code message.

Section registry.
Context {W : Type}.
Implicit Types (g : BackendRegistry W).

(* @src runtime_v1/execution_routing/registry.py:56-60 BackendRegistry.get *)
Definition get_backend g (backend_id : string) : res (ExecutionBackend W) :=
  match dict_get backend_id (rg_backends g) with
  | Some b => Ok b
  | None => Raise (BackendRegistryError backend_id)
  end.

(* @src runtime_v1/execution_routing/registry.py:62-71 BackendRegistry.enabled *)
Definition enabled g : list (ExecutionBackend W) :=
  omap (λ backend_id,
    match dict_get backend_id (rg_backends g) with
    | None => None
    | Some backend =>
        if (backend_id == "hosted") && negb (allow_stub_backends (rg_config g))
        then None else Some backend
    end) (enabled_backends (rg_config g)).

(* @src runtime_v1/execution_routing/registry.py:79-80 BackendRegistry.override_capabilities *)
Definition override_capabilities g (backend_id : string) : option (gset ExecutionCapability) :=
  dict_get backend_id (rg_overrides g).
(* @src runtime_v1/execution_routing/registry.py:82-83 BackendRegistry.list_ids *)
Definition list_ids g : list string := dict_keys (rg_backends g).
End registry.

(** ** The router *)

(* @src runtime_v1/execution_routing/router.py:49-71 ExecutionRouter.__init__ *)
Record ExecutionRouter (W : Type) := {
  rt_registry : BackendRegistry W;
  rt_available_harnesses : list string;
  rt_subscription_allows : list (string * bool);
  rt_quota_allows : list (string * bool);
  rt_profiles : CapabilityProfiles;
  rt_available_connectors : option (list string)
}.
Arguments rt_registry {W}.
Arguments rt_available_harnesses {W}.
Arguments rt_subscription_allows {W}.
Arguments rt_quota_allows {W}.
Arguments rt_profiles {W}.
Arguments rt_available_connectors {W}.

(** A ranked backend: its id, its score and why. *)
Abbreviation ranked := (list (string * spec_float * string)).
Definition ids_of (items : ranked) : list string := (λ item, item.1.1) <$> items.

Section router.
Context {W : Type} `{PyLib} (R : ExecutionRouter W).

(* @src runtime_v1/execution_routing/router.py:656-686 ExecutionRouter._enforce_entitlements *)
Definition _enforce_entitlements (intent : ExecutionIntent) (backend_id : option string) :
    res unit :=
  let constraints := it_subscription_constraints intent in
  let refused (m : list (string * bool)) := otruthy backend_id &&
    match dict_get (default "" backend_id) m with Some ok => negb ok | None => false end in
  if truthy (dget "denied" constraints) then
    Raise (ExecutionRouterError "entitlement_required"
      (py_str (py_or (dget "detail" constraints) (PStr "subscription entitlement required"))))
  else if refused (rt_subscription_allows R) then
    Raise (ExecutionRouterError "backend_not_entitled"
      ("backend not entitled: " +:+ default "" backend_id))
  else if refused (rt_quota_allows R) then
    Raise (ExecutionRouterError "quota_exhausted"
      ("quota exhausted for backend: " +:+ default "" backend_id))
  else if otruthy (it_preferred_harness intent) then
    let harness := default "" (it_preferred_harness intent) in
    res_bind (py_in harness (py_or (dget "denied_harnesses" constraints) (PList []))) (λ denied,
    if denied then
      Raise (ExecutionRouterError "harness_not_entitled" ("harness not entitled: " +:+ harness))
    else Ok tt)
  else Ok tt.

(* @src runtime_v1/execution_routing/router.py:286-308 ExecutionRouter._task_analysis *)
Definition _task_analysis (intent : ExecutionIntent) : res TaskAnalysis :=
  let a := it_task_analysis intent in
  match a with
  | [] => Ok (analyse (it_prompt intent) (it_metadata intent))
  | _ =>
      let required := list_to_set
        (omap SemanticCapability_of (elements (it_required_semantic_capabilities intent))) in
      let task_class :=
        default TC_UNKNOWN (TaskClass_of
          (if otruthy (it_task_class intent) then default "" (it_task_class intent)
           else "unknown")) in
      res_bind (py_tuple (py_or (dget "reasons" a) (PList []))) (λ reasons,
      res_bind (py_dict (py_or (dget "metadata" a) (PDict []))) (λ metadata,
      Ok {| task_class := task_class; required_semantic := required;
            optional_semantic := ∅; derived_execution_capabilities := ∅;
            privacy_required := truthy (dget "privacy_required" a);
            prefers_local := truthy (dget "prefers_local" a);
            estimated_complexity :=
              py_str (py_or (dget "estimated_complexity" a) (PStr "medium"));
            ta_reasons := reasons; ta_metadata := metadata |}))
  end.

(* @src runtime_v1/execution_routing/router.py:310-326 ExecutionRouter._routing_policy *)
Definition _routing_policy (intent : ExecutionIntent) : res RoutingPolicy :=
  let raw := it_routing_preferences intent in
  let raw := if (it_cost_preference intent != "") && negb (dict_has "preset" raw)
             then dict_setdefault "preset" (PStr (it_cost_preference intent)) raw else raw in
  let raw := if it_locality_preference intent == "local"
             then dict_setdefault "prefer_local" (PBool true) raw else raw in
  res_bind
    (if otruthy (it_preferred_model intent) then
       let model := default "" (it_preferred_model intent) in
       res_bind (py_tuple (py_or (dget "preferred_models" raw) (PList []))) (λ preferred,
       let preferred := if str_in_vals model preferred then preferred
                        else PStr model :: preferred in
       Ok (dict_set "preferred_models" (PList preferred) raw))
     else Ok raw) (λ raw,
  let denied := py_or (dget "denied_harnesses" (it_subscription_constraints intent)) (PList []) in
  res_bind
    (if truthy denied then
       res_bind (py_tuple (py_or (dget "denied_harnesses" raw) (PList []))) (λ have,
       res_bind (py_tuple denied) (λ more,
       res_bind (nub_vals (have ++ more) []) (λ all,
       Ok (dict_set "denied_harnesses" (PList all) raw))))
     else Ok raw) from_mapping).

(** The key [(-score, priority.index(id) or 99)] of the ranking of backends. *)
Definition ranked_leb (priority : list string) (a b : string * spec_float * string) : bool :=
  let pos (id : string) : Z := (if id in? priority then Z.of_nat (pos_of id priority) else 99%Z) in
  if flt b.1.2 a.1.2 then true else if flt a.1.2 b.1.2 then false
  else (pos a.1.1 <=? pos b.1.1)%Z.

(** The score of one enabled backend, [None] when it is left out. *)
(* @src runtime_v1/execution_routing/router.py:708-737 ExecutionRouter._rank_backends *)
Definition rank_one (intent : ExecutionIntent) (harness_id : string)
    (backend : ExecutionBackend W) : option (string * spec_float * string) :=
  let g := rt_registry R in
  let priority := priority (rg_config g) in
  let backend_id := be_backend_id backend in
  if negb (allows (rt_subscription_allows R) backend_id) then None
  else if negb (be_supports backend intent harness_id) then None
  else
    let caps := be_capabilities backend ∪ default ∅ (override_capabilities g backend_id) in
    if negb (it_required_capabilities intent ∖ caps == ∅) then None
    else
      let score := num 100 in
      let score := if backend_id in? priority
        then fsub score (num (Z.of_nat (pos_of backend_id priority) * 5))
        else fsub score (num 50) in
      let score := plus_if ((it_cost_preference intent == "cheapest") && (backend_id == "local"))
        score (num 10) in
      let score := plus_if ((it_cost_preference intent == "fastest") &&
        (backend_id == "fireconnect")) score (num 5) in
      let score := plus_if (it_requires_provider_route intent && (PROVIDER_ROUTING in? caps))
        score (num 20) in
      let score := plus_if ((it_locality_preference intent == "local") &&
        (backend_id == "local")) score (num 15) in
      let score := plus_if ((it_locality_preference intent == "remote") &&
        (backend_id == "joymesh")) score (num 15) in
      Some (backend_id, score, "matched capabilities via " +:+ backend_id).

(** The first entry of [default] moved to the front. *)
Fixpoint pull_front (default_id : string) (seen items : ranked) : ranked :=
  match items with
  | [] => seen
  | item :: rest =>
      if item.1.1 == default_id then item :: seen ++ rest
      else pull_front default_id (seen ++ [item]) rest
  end.

(* @src runtime_v1/execution_routing/router.py:700-750 ExecutionRouter._rank_backends *)
Definition _rank_backends (intent : ExecutionIntent) (harness_id : string) : ranked :=
  let g := rt_registry R in
  let items := py_sorted (ranked_leb (priority (rg_config g)))
    (omap (rank_one intent harness_id) (enabled g)) in
  if otruthy (default_backend (rg_config g))
  then pull_front (default "" (default_backend (rg_config g))) [] items
  else items.

(** The entries whose backend advertises provider routing. *)
(* @src runtime_v1/execution_routing/router.py:110-115 ExecutionRouter.select *)
Fixpoint provider_filter (items : ranked) : res ranked :=
  match items with
  | [] => Ok []
  | item :: rest =>
      res_bind (get_backend (rt_registry R) item.1.1) (λ backend,
      res_bind (provider_filter rest) (λ kept,
      Ok (if PROVIDER_ROUTING in? be_capabilities backend then item :: kept else kept)))
  end.
Definition filtered (provider_needed : bool) (items : ranked) : res ranked :=
  if provider_needed then provider_filter items else Ok items.

(* @src runtime_v1/execution_routing/router.py:105-122 ExecutionRouter.select *)
Fixpoint first_harness (intent : ExecutionIntent) (provider_needed : bool)
    (harnesses : list string) : res (option (string * ranked)) :=
  match harnesses with
  | [] => Ok None
  | harness_id :: rest =>
      res_bind (filtered provider_needed (_rank_backends intent harness_id)) (λ items,
      match items with
      | [] => first_harness intent provider_needed rest
      | _ => Ok (Some (harness_id, items))
      end)
  end.

(** One entry kept if it beats the score its backend has so far. *)
(* @src runtime_v1/execution_routing/router.py:281-283 ExecutionRouter._backends_for_harnesses *)
Definition keep_best (best : list (string * (string * spec_float * string)))
    (item : string * spec_float * string) : list (string * (string * spec_float * string)) :=
  match dict_get item.1.1 best with
  | None => dict_set item.1.1 item best
  | Some prior => if flt prior.1.2 item.1.2 then dict_set item.1.1 item best else best
  end.

(* @src runtime_v1/execution_routing/router.py:263-284 ExecutionRouter._backends_for_harnesses *)
Definition _backends_for_harnesses (intent : ExecutionIntent) (harness_ids : list string)
    (provider_needed : bool) : res ranked :=
  res_bind (traverse (λ h, filtered provider_needed (_rank_backends intent h)) harness_ids)
    (λ lists,
  Ok (py_sorted (λ a b, fle b.1.2 a.1.2)
        (dict_values (fold_left keep_best (concat lists) [])))).

(** The first eligible candidate with that backend and harness. *)
(* @src runtime_v1/execution_routing/router.py:192-199 ExecutionRouter.select *)
Definition route_for (candidates : list ScoredRoute) (backend_id harness_id : string) :
    option ScoredRoute :=
  List.find (λ c, sr_eligible c && (sr_backend_id c == backend_id) &&
                  (sr_harness_id c == harness_id)) candidates.

(* @src runtime_v1/execution_routing/router.py:207-224 ExecutionRouter.select *)
Definition fallback_of (candidates : ranked) (selected_id : string) : list string :=
  let rest := List.filter (λ id, id != selected_id) (ids_of candidates) in
  let configured := List.filter
    (λ id, (id != selected_id) && (id in? ids_of candidates))
    (bc_fallback_order (rg_config (rt_registry R))) in
  match configured with
  | [] => rest
  | _ =>
      let key (id : string) : nat :=
        if id in? configured then pos_of id configured else length configured + pos_of id rest in
      py_sorted (λ a b, bool_decide (key a ≤ key b)) rest
  end.

(** The choice between the scored route and the first ranked backend: backend, harness,
    score, reason, route and the candidates the fallback is taken from. *)
(* @src runtime_v1/execution_routing/router.py:156-205 ExecutionRouter.select *)
Definition choose (intent : ExecutionIntent) (provider_needed : bool) (chosen_harness : string)
    (candidates : ranked) (first : string * spec_float * string) (selection : RouteSelection) :
    res (string * string * spec_float * string * option ScoredRoute * ranked) :=
  match (if otruthy (it_preferred_harness intent) then None else rs_selected selection) with
  | Some route =>
      res_bind (filtered provider_needed (_rank_backends intent (sr_harness_id route)))
        (λ harness_backends,
      let candidates := match harness_backends with [] => candidates | hb => hb end in
      if sr_backend_id route in? ids_of candidates then
        Ok (sr_backend_id route, sr_harness_id route, sr_score route,
            "capability route " +:+ sr_harness_id route +:+ "+" +:+ sr_backend_id route +:+
            "+" +:+ or_str (sr_connector_id route) "-" +:+
            "+" +:+ or_str (sr_model_id route) "-" +:+ ": " +:+ fmt_fixed 1 (sr_score route),
            Some route, candidates)
      else
        let first := default first (head candidates) in
        Ok (first.1.1, chosen_harness, first.1.2, first.2,
            route_for (rs_candidates selection) first.1.1 chosen_harness, candidates))
  | None =>
      let route := route_for (rs_candidates selection) first.1.1 chosen_harness in
      let reason := match route with
        | Some r => first.2 +:+ "; route " +:+ or_str (sr_connector_id r) "-" +:+ "/" +:+
                    or_str (sr_model_id r) "-" +:+ " score=" +:+ fmt_fixed 1 (sr_score r)
        | None => first.2
        end in
      Ok (first.1.1, chosen_harness, first.1.2, reason, route, candidates)
  end.

Definition bools (m : list (string * bool)) : dict := (λ '(k, b), (k, PBool b)) <$> m.

(* @src runtime_v1/execution_routing/router.py:226-261 ExecutionRouter.select *)
Definition make_decision (now : Z) (intent : ExecutionIntent) (provider_needed : bool)
    (analysis : TaskAnalysis) (policy : RoutingPolicy) (selection : RouteSelection)
    (selected_id harness_id : string) (score : spec_float) (reason : string)
    (route : option ScoredRoute) (candidates : ranked) : ExecutionDecision :=
  let fallback := fallback_of candidates selected_id in
  let scores := fold_left (λ acc item, dict_set item.1.1 item.1.2 acc) candidates [] in
  let scores := match route with
                | Some r => dict_set selected_id (sr_score r) scores | None => scores end in
  {| ed_execution_id := it_execution_id intent;
     ed_selected_backend_id := selected_id; ed_selected_harness_id := harness_id;
     ed_reason := reason; ed_fallback_order := fallback;
     ed_provider_routing_required := provider_needed;
     ed_retry_policy := [("max_fallback", PInt (Z.of_nat (length fallback)));
                         ("on_failure", PStr "next_backend")];
     ed_scores := scores;
     ed_capability_match :=
       [("required",
           PStrs (sorted_values ExecutionCapability_value (it_required_capabilities intent)));
        ("required_semantic",
           PStrs (sorted_values SemanticCapability_value (required_semantic analysis)));
        ("harness_id", PStr harness_id);
        ("harness_order", PStrs (rs_harness_order selection));
        ("match", ofloat (route ≫= λ r, dict_get "capability_match" (sr_breakdown r)))];
     ed_policy_result := [("subscription", PDict (bools (rt_subscription_allows R)));
                          ("routing_policy", PDict (RoutingPolicy_as_dict policy))];
     ed_health_snapshot := []; ed_quota_snapshot := rt_quota_allows R;
     ed_registry_revision := registry_revision (rg_config (rt_registry R));
     ed_decided_at := now;
     ed_selected_connector_id := route ≫= sr_connector_id;
     ed_selected_model_id := if otruthy (it_preferred_model intent) then it_preferred_model intent
                             else route ≫= sr_model_id;
     ed_route_score := Some (match route with Some r => sr_score r | None => score end);
     ed_route_candidates :=
       ScoredRoute_as_dict <$> List.filter sr_eligible (take 10 (rs_candidates selection));
     ed_task_analysis := TaskAnalysis_as_dict analysis |}.

(* @src runtime_v1/execution_routing/router.py:73-261 ExecutionRouter.select *)
Definition select_decision (now : Z) (intent : ExecutionIntent) : res ExecutionDecision :=
  res_bind (_enforce_entitlements intent None) (λ _,
  res_bind (_task_analysis intent) (λ analysis,
  res_bind (_routing_policy intent) (λ policy,
  let harness_order := order_harnesses (rt_profiles R) analysis policy
    (rt_available_harnesses R) (it_preferred_harness intent) in
  if harness_order == [] then
    Raise (ExecutionRouterError "harness_unavailable" "no harnesses available")
  else
  let provider_needed := it_requires_provider_route intent ||
    (PROVIDER_ROUTING in? it_required_capabilities intent) in
  let preferred := default "" (it_preferred_harness intent) in
  let explore := nub_strs
    ((if otruthy (it_preferred_harness intent) && (preferred in? rt_available_harnesses R)
      then [preferred] else []) ++ harness_order) [] in
  res_bind (first_harness intent provider_needed explore) (λ found,
  match found with
  | Some (chosen_harness, (first :: _) as candidates) =>
      if chosen_harness == "" then
        Raise (if provider_needed
               then ExecutionRouterError "provider_routing_unavailable"
                 "provider routing required but no backend advertises provider_routing"
               else ExecutionRouterError "no_compatible_backend"
                 "no enabled backend satisfies capability and policy constraints")
      else
      res_bind
        (if otruthy (it_preferred_harness intent) then Ok ([chosen_harness], candidates)
         else res_bind (_backends_for_harnesses intent harness_order provider_needed) (λ all,
              Ok (harness_order, match all with [] => candidates | _ => all end)))
        (λ '(select_harnesses, select_backends),
      let selection := select (rt_profiles R) analysis policy select_harnesses select_backends
        (it_preferred_harness intent) (rt_available_connectors R)
        (rt_subscription_allows R) (rt_quota_allows R) in
      res_bind (choose intent provider_needed chosen_harness candidates first selection)
        (λ '(selected_id, harness_id, score, reason, route, candidates),
      Ok (make_decision now intent provider_needed analysis policy selection
            selected_id harness_id score reason route candidates)))
  | _ =>
      Raise (if provider_needed
             then ExecutionRouterError "provider_routing_unavailable"
               "provider routing required but no backend advertises provider_routing"
             else ExecutionRouterError "no_compatible_backend"
               "no enabled backend satisfies capability and policy constraints")
  end)))).

(** ** The fallback loop

    The locals of [execute_with_fallback]; a run holds them beside the shared state, which
    the awaited operations change and the locals they cannot see. *)

Record Locals := {
  lo_audits : list BackendAuditEvent;
  lo_attempts : list ExecutionAttemptRecord;
  lo_attempted : list string;
  lo_last_error : string;
  lo_last_failure : ExecutionFailureClass
}.
Abbreviation Run := (RouterState W * Locals)%type.

(** An awaited operation, and a change of the locals. *)
Definition await {A} (m : M (RouterState W) A) : M Run A := λ r,
  let '(a, s) := m r.1 in (a, (s, r.2)).
Definition locally (f : Locals → Locals) : M Run unit := λ r, (Ok tt, (r.1, f r.2)).
Definition locals : M Run Locals := λ r, (Ok r.2, r).
Definition shared : M Run (RouterState W) := λ r, (Ok r.1, r).

Definition add_audit (e : BackendAuditEvent) (l : Locals) : Locals :=
  {| lo_audits := lo_audits l ++ [e]; lo_attempts := lo_attempts l;
     lo_attempted := lo_attempted l; lo_last_error := lo_last_error l;
     lo_last_failure := lo_last_failure l |}.
Definition add_attempt (a : ExecutionAttemptRecord) (l : Locals) : Locals :=
  {| lo_audits := lo_audits l; lo_attempts := lo_attempts l ++ [a];
     lo_attempted := lo_attempted l; lo_last_error := lo_last_error l;
     lo_last_failure := lo_last_failure l |}.
Definition add_attempted (b : string) (l : Locals) : Locals :=
  {| lo_audits := lo_audits l; lo_attempts := lo_attempts l;
     lo_attempted := lo_attempted l ++ [b]; lo_last_error := lo_last_error l;
     lo_last_failure := lo_last_failure l |}.
Definition set_last (why : string) (f : ExecutionFailureClass) (l : Locals) : Locals :=
  {| lo_audits := lo_audits l; lo_attempts := lo_attempts l; lo_attempted := lo_attempted l;
     lo_last_error := why; lo_last_failure := f |}.

(** [audits.append(BackendAuditEvent(...))], at the next reading of the clock. *)
Definition audit (event_type eid backend_id : string) (harness_id reason : option string)
    (payload : dict) : M Run unit :=
  n ← await tick;
  locally (add_audit {| ba_event_type := event_type; ba_execution_id := eid;
    ba_backend_id := Some backend_id; ba_harness_id := harness_id; ba_reason := reason;
    ba_payload := payload; ba_created_at := clock n |}).

(* @src runtime_v1/execution_routing/router.py:753-775 _complete_attempt *)
Definition _complete_attempt (attempt : ExecutionAttemptRecord) (now : Z) (status : string)
    (failure_class fallback_reason : option string) (usage : dict) (evidence_refs : list string) :
    ExecutionAttemptRecord :=
  {| ar_attempt_id := ar_attempt_id attempt; ar_execution_id := ar_execution_id attempt;
     ar_attempt_number := ar_attempt_number attempt; ar_backend_id := ar_backend_id attempt;
     ar_harness_id := ar_harness_id attempt; ar_started_at := ar_started_at attempt;
     ar_completed_at := Some now; ar_failure_class := failure_class;
     ar_fallback_reason := fallback_reason; ar_backend_execution_ref := None;
     ar_usage := usage; ar_evidence_refs := evidence_refs; ar_audit_correlation_id := None;
     ar_status := status |}.

(** [attempts.append(_complete_attempt(...))]. *)
Definition record_attempt (attempt : ExecutionAttemptRecord) (status : string)
    (failure_class fallback_reason : option string) (usage : dict) (evidence_refs : list string) :
    M Run unit :=
  n ← await tick;
  locally (add_attempt
    (_complete_attempt attempt (clock n) status failure_class fallback_reason usage evidence_refs)).

(* @src runtime_v1/execution_routing/router.py:778-784 _parse_failure *)
Definition _parse_failure (value : option string) : ExecutionFailureClass :=
  if otruthy value then default EF_UNKNOWN (ExecutionFailureClass_of (default "" value))
  else PROCESS_FAILURE.

(* @src runtime_v1/execution_routing/router.py:787-794 _entitlement_failure *)
Definition _entitlement_failure (reason_code : string) : ExecutionFailureClass :=
  default POLICY_DENIED (dict_get reason_code
    [("entitlement_required", ENTITLEMENT_REQUIRED);
     ("backend_not_entitled", BACKEND_NOT_ENTITLED);
     ("harness_not_entitled", HARNESS_NOT_ENTITLED);
     ("quota_exhausted", QUOTA_EXHAUSTED)]).

(** What the body of the loop does next. *)
Inductive turn :=
| Continue
| Break
| Return (r : RoutedResult).

(** A result with the locals as they are. *)
Definition finished (ok : bool) (eid backend_id harness_id message : string) (output : dict)
    (failure_class : option string) (usage : dict) (evidence_refs : list string)
    (verification : dict) (status : ExecutionStatus) (attempted : list string)
    (decision : ExecutionDecision) (l : Locals) : RoutedResult :=
  {| rr_result :=
       {| xr_ok := ok; xr_execution_id := eid; xr_backend_id := backend_id;
          xr_harness_id := harness_id; xr_message := message; xr_output := output;
          xr_failure_class := failure_class; xr_usage := usage;
          xr_evidence_refs := evidence_refs; xr_candidate_verification := [];
          xr_restore_status := None; xr_verification := verification |};
     rr_status := status; rr_attempted_backends := attempted; rr_decision := Some decision;
     rr_audits := BackendAuditEvent_as_dict <$> lo_audits l;
     rr_attempts := ExecutionAttemptRecord_as_dict <$> lo_attempts l |}.

(** The [try] block: prepare, validate, execute, and what follows from the result. *)
(* @src runtime_v1/execution_routing/router.py:505-582 ExecutionRouter.execute_with_fallback *)
Definition run_backend (intent : ExecutionIntent) (decision : ExecutionDecision)
    (backend_id : string) (backend : ExecutionBackend W) (attempt : ExecutionAttemptRecord) :
    M Run turn :=
  let eid := it_execution_id intent in
  let harness := Some (ed_selected_harness_id decision) in
  audit "backend.preparing" eid backend_id harness None [];;
  prepared ← await (be_prepare backend intent decision);
  await (be_validate backend intent decision);;
  audit "backend.ready" eid backend_id harness None [];;
  audit "execution.started" eid backend_id harness None [];;
  result ← await (be_execute backend intent decision (Some prepared));
  let failure := _parse_failure (xr_failure_class result) in
  record_attempt attempt (if xr_ok result then "succeeded" else "failed")
    (xr_failure_class result) None (xr_usage result) (xr_evidence_refs result);;
  audit (if xr_ok result then "backend.completed" else "backend.failed") eid backend_id harness
    (Some (xr_message result)) [];;
  if xr_ok result then
    await (on_cancel (clear eid));;
    l ← locals;
    mret (Return (finished true eid backend_id (ed_selected_harness_id decision)
      (xr_message result) (xr_output result) None (xr_usage result) (xr_evidence_refs result)
      (xr_verification result) ES_SUCCEEDED (lo_attempted l) decision l))
  else
    locally (set_last (xr_message result) failure);;
    if may_fallback failure then
      audit "backend.fallback" eid backend_id None (Some (xr_message result)) [];;
      mret Continue
    else mret Break.

(** [except Exception as exc]. *)
(* @src runtime_v1/execution_routing/router.py:583-613 ExecutionRouter.execute_with_fallback *)
Definition attempt_raised (intent : ExecutionIntent) (backend_id : string)
    (attempt : ExecutionAttemptRecord) (e : exn) : M Run turn :=
  let eid := it_execution_id intent in
  if negb (is_Exception e) then raise e
  else
    locally (set_last (exn_msg e) PREPARATION_FAILURE);;
    record_attempt attempt "failed" (Some (ExecutionFailureClass_value PREPARATION_FAILURE))
      (Some (exn_class e)) [] [];;
    audit "backend.failed" eid backend_id None (Some (exn_class e))
      [("error", PStr (str_take 200 (exn_msg e)))];;
    if may_fallback PREPARATION_FAILURE then
      audit "backend.fallback" eid backend_id None (Some (exn_class e)) [];;
      mret Continue
    else mret Break.

(** [finally]: the cleanup runs whatever happened; its own exceptions are dropped. *)
(* @src runtime_v1/execution_routing/router.py:614-618 ExecutionRouter.execute_with_fallback *)
Definition with_cleanup {A} (cleanup : M Run unit) (m : M Run A) : M Run A := λ s,
  let '(r, s) := m s in
  match cleanup s with
  | (Raise e, s) => if is_Exception e then (r, s) else (Raise e, s)
  | (Ok _, s) => (r, s)
  end.

(** The part of the loop's body before the [try]: the backend must be known, healthy and
    able; [Some turn] when the body is over. *)
(* @src runtime_v1/execution_routing/router.py:408-503 ExecutionRouter.execute_with_fallback *)
Definition admit_backend (intent : ExecutionIntent) (decision : ExecutionDecision)
    (backend_id : string) : M Run (turn + ExecutionBackend W * ExecutionAttemptRecord) :=
  let eid := it_execution_id intent in
  let harness := ed_selected_harness_id decision in
  locally (add_attempted backend_id);;
  u ← await tick;
  n ← await tick;
  l ← locals;
  let attempt_id := "execution_attempt_" +:+ uuid_hex u in
  let attempt :=
    {| ar_attempt_id := attempt_id; ar_execution_id := eid;
       ar_attempt_number := (Z.of_nat (length (lo_attempts l)) + 1)%Z;
       ar_backend_id := backend_id; ar_harness_id := harness; ar_started_at := clock n;
       ar_completed_at := None; ar_failure_class := None; ar_fallback_reason := None;
       ar_backend_execution_ref := None; ar_usage := []; ar_evidence_refs := [];
       ar_audit_correlation_id := None; ar_status := "started" |} in
  match get_backend (rt_registry R) backend_id with
  | Raise e =>
      let why := exn_msg e in
      record_attempt attempt "unavailable"
        (Some (ExecutionFailureClass_value BACKEND_UNAVAILABLE)) (Some why) [] [];;
      audit "backend.unavailable" eid backend_id None (Some why) [];;
      locally (set_last why BACKEND_UNAVAILABLE);;
      mret (inl Continue)
  | Ok backend =>
      await (on_cancel
        (update_attempt eid attempt_id backend_id (Some harness) (Some (backend_id, eid))));;
      health ← await (be_health backend);
      if negb (bh_healthy health) || (bh_state health in? ["disabled"; "unsupported"]) then
        let failure := BACKEND_UNHEALTHY in
        record_attempt attempt "unavailable" (Some (ExecutionFailureClass_value failure))
          (Some (bh_detail health)) [] [];;
        audit "backend.unavailable" eid backend_id None (Some (bh_detail health)) [];;
        locally (set_last (bh_detail health) failure);;
        if may_fallback failure then
          audit "backend.fallback" eid backend_id None (Some (bh_detail health)) [];;
          mret (inl Continue)
        else mret (inl Break)
      else if negb (be_supports backend intent harness) then
        record_attempt attempt "failed" (Some (ExecutionFailureClass_value CAPABILITY_CHANGED))
          (Some "capability mismatch") [] [];;
        audit "backend.failed" eid backend_id None (Some "capability mismatch") [];;
        locally (set_last "capability mismatch" CAPABILITY_CHANGED);;
        mret (inl Continue)
      else mret (inr (backend, attempt))
  end.

(** One turn of the loop. *)
(* @src runtime_v1/execution_routing/router.py:356-618 ExecutionRouter.execute_with_fallback *)
Definition attempt_backend (intent : ExecutionIntent) (decision : ExecutionDecision)
    (backend_id : string) : M Run turn :=
  let eid := it_execution_id intent in
  let harness := ed_selected_harness_id decision in
  s ← shared;
  if is_cancelled (st_cancel s) eid then
    audit "backend.cancelled" eid backend_id (Some harness) (Some "cancelled") [];;
    l ← locals;
    mret (Return (finished false eid backend_id harness "execution cancelled" []
      (Some (ExecutionFailureClass_value EF_CANCELLED)) [] [] [] ES_CANCELLED
      (match lo_attempted l with [] => [backend_id] | a => a end) decision l))
  else
  match _enforce_entitlements intent (Some backend_id) with
  | Raise e =>
      if exn_class e != "ExecutionRouterError" then raise e
      else
        audit "execution.blocked" eid backend_id None (Some (exn_msg e)) [];;
        l ← locals;
        mret (Return (finished false eid backend_id harness (exn_msg e) []
          (Some (ExecutionFailureClass_value (_entitlement_failure (exn_code e)))) [] [] []
          ES_BLOCKED (lo_attempted l) decision l))
  | Ok _ =>
      admitted ← admit_backend intent decision backend_id;
      match admitted with
      | inl t => mret t
      | inr (backend, attempt) =>
          with_cleanup (await (be_cleanup backend eid))
            (catch (run_backend intent decision backend_id backend attempt)
                   (attempt_raised intent backend_id attempt))
      end
  end.

(** [for backend_id in order], left by [break] or at the end ([None]) or by [return]. *)
(* @src runtime_v1/execution_routing/router.py:356-356 ExecutionRouter.execute_with_fallback *)
Fixpoint fallback_loop (intent : ExecutionIntent) (decision : ExecutionDecision)
    (order : list string) : M Run (option RoutedResult) :=
  match order with
  | [] => mret None
  | backend_id :: rest =>
      t ← attempt_backend intent decision backend_id;
      match t with
      | Continue => fallback_loop intent decision rest
      | Break => mret None
      | Return r => mret (Some r)
      end
  end.

(** The failures that make the final status [BLOCKED]. *)
(* @src runtime_v1/execution_routing/router.py:620-635 ExecutionRouter.execute_with_fallback *)
Definition final_status (l : Locals) : ExecutionStatus :=
  let blocked := lo_last_failure l in?
    [PROVIDER_RESTORE_FAILURE; POLICY_DENIED; WORKSPACE_VIOLATION; BACKEND_UNAVAILABLE;
     BACKEND_UNHEALTHY; ENTITLEMENT_REQUIRED; BACKEND_NOT_ENTITLED; HARNESS_NOT_ENTITLED;
     QUOTA_EXHAUSTED] in
  match lo_attempted l with
  | [] => ES_BLOCKED
  | _ => if blocked then ES_BLOCKED else ES_FAILED
  end.

(** The run of a decision: the first audit, the registration, the loop and the end. *)
(* @src runtime_v1/execution_routing/router.py:335-650 ExecutionRouter.execute_with_fallback *)
Definition run_decision (intent : ExecutionIntent) (decision : ExecutionDecision) :
    M Run RoutedResult :=
  let eid := it_execution_id intent in
  audit "backend.selected" eid (ed_selected_backend_id decision)
    (Some (ed_selected_harness_id decision)) (Some (ed_reason decision)) [];;
  u ← await tick;
  n ← await tick;
  await (on_cancel (register eid (ed_selected_backend_id decision)
    (Some (ed_selected_harness_id decision)) None None (uuid_hex u) (clock n)));;
  r ← fallback_loop intent decision
        (ed_selected_backend_id decision :: ed_fallback_order decision);
  match r with
  | Some r => mret r
  | None =>
      await (on_cancel (clear eid));;
      l ← locals;
      mret (finished false eid (ed_selected_backend_id decision)
        (ed_selected_harness_id decision)
        ("all backends failed or unavailable: " +:+ lo_last_error l) []
        (Some (ExecutionFailureClass_value (lo_last_failure l))) [] [] []
        (final_status l) (lo_attempted l) decision l)
  end.

Definition no_locals : Locals :=
  {| lo_audits := []; lo_attempts := []; lo_attempted := [];
     lo_last_error := "no backend attempted"; lo_last_failure := EF_UNKNOWN |}.

(** A call with fresh locals. *)
Definition with_locals {A} (l : Locals) (m : M Run A) : M (RouterState W) A := λ s,
  let '(a, r) := m (s, l) in (a, r.1).

(* @src runtime_v1/execution_routing/router.py:328-334 ExecutionRouter.execute_with_fallback *)
Definition execute_with_fallback (intent : ExecutionIntent)
    (decision : option ExecutionDecision) : M (RouterState W) RoutedResult :=
  d ← match decision with
      | Some d => mret d
      | None => n ← tick; lift_res (select_decision (clock n) intent)
      end;
  with_locals no_locals (run_decision intent d).

(** ** Cancelling *)

(* @src runtime_v1/execution_routing/router.py:797-805 _cancel_backend *)
Definition _cancel_backend (backend : ExecutionBackend W) (eid : string) :
    M (RouterState W) dict :=
  v ← be_cancel backend eid;
  mret (match v with
        | PDict d => d
        | _ => [("cancelled", PBool true); ("execution_id", PStr eid)]
        end).

(** A cancel function awaited; it was made for a backend of the registry. *)
(* @src runtime_v1/execution_routing/router.py:808-814 _make_cancel_fn *)
Definition run_cancel_fn (fn : option (string * string)) : M (RouterState W) dict :=
  match fn with
  | None => mret [("cancelled", PBool true)]
  | Some (backend_id, eid) =>
      match dict_get backend_id (rg_backends (rt_registry R)) with
      | Some backend => _cancel_backend backend eid
      | None => mret [("cancelled", PBool true)]
      end
  end.

(* @src runtime_v1/execution_routing/cancellation.py:83-118 CancellationRegistry.cancel *)
Definition cancel (eid : string) : M (RouterState W) dict := λ s,
  let '(step, c) := cancel_locked eid (st_cancel s) in
  let s := {| st_ticks := st_ticks s; st_cancel := c; st_world := st_world s |} in
  match step with
  | CancelIdle =>
      (Ok [("ok", PBool true); ("idempotent", PBool true);
           ("detail", PStr "no active execution"); ("execution_id", PStr eid)], s)
  | CancelAgain r =>
      (Ok [("ok", PBool true); ("idempotent", PBool true);
           ("detail", PStr "already cancelled"); ("execution_id", PStr eid);
           ("attempt_id", PStr (ax_attempt_id r)); ("backend_id", PStr (ax_backend_id r));
           ("cancel_count", PInt (ax_cancel_count r))], s)
  | CancelFirst i fn =>
      match run_cancel_fn fn s with
      | (Raise e, s) => (Raise e, s)
      | (Ok cleanup, s) =>
          (Ok ([("ok", PBool true); ("idempotent", PBool false); ("execution_id", PStr eid)] ++
               match cr_rows (st_cancel s) !! i with
               | Some r =>
                   [("attempt_id", PStr (ax_attempt_id r)); ("backend_id", PStr (ax_backend_id r));
                    ("harness_id", ostr (ax_harness_id r)); ("cleanup", PDict cleanup);
                    ("cancel_count", PInt (ax_cancel_count r))]
               | None => [("cleanup", PDict cleanup)]
               end), s)
      end
  end.
End router.

(** ** The facade *)

Section service.
Context {W : Type} `{PyLib} (R : ExecutionRouter W).

(* @src runtime_v1/execution_routing/service.py:39-40 ExecutionRoutingService.plan *)
Definition service_plan (mission : MissionSpec) : M (RouterState W) ExecutionIntent :=
  n ← tick; lift_res (plan n mission).

(* @src runtime_v1/execution_routing/service.py:42-44 ExecutionRoutingService.request *)
Definition service_request (mission : MissionSpec) : M (RouterState W) ExecutionRequest :=
  intent ← service_plan mission;
  n ← tick;
  mret (request_for n intent).

(* @src runtime_v1/execution_routing/service.py:46-48 ExecutionRoutingService.decide *)
Definition service_decide (mission : MissionSpec) : M (RouterState W) ExecutionDecision :=
  intent ← service_plan mission;
  n ← tick;
  lift_res (select_decision R (clock n) intent).

(* @src runtime_v1/execution_routing/service.py:50-52 ExecutionRoutingService.execute *)
Definition service_execute (mission : MissionSpec) : M (RouterState W) RoutedResult :=
  intent ← service_plan mission;
  execute_with_fallback R intent None.
End service.
