(* ===== verification/RouterProofs.v ===== *)
(** * The execution router: proofs

    The properties of the fallback loop, of cancellation and of the road from a mission to
    the router's analysis. The backends are arbitrary: whatever other tasks do while the
    router waits for one is covered. *)

From Stdlib Require Import SpecFloat.
From S2P Require Import Prelude CompletionModels TaskAnalysis CapabilityRouting Execution Router.

(** ** Enumerations read back *)

(** A failure that lets the loop go on is one of the eligible classes, by its value. *)
Lemma fallback_value v :
  may_fallback (_parse_failure v) = true →
  ∃ f, f ∈ FALLBACK_ELIGIBLE ∧ v = Some (ExecutionFailureClass_value f).
Proof.
  unfold _parse_failure. destruct v as [s|]; [|done]. simpl.
  case_bool_decide; simpl; [done|]. unfold ExecutionFailureClass_of.
  destruct (enum_of _ _ s) as [f|] eqn:E; [|done]. apply enum_of_Some in E as [<- _].
  simpl. intros Hm. exists f. split; [|done]. unfold may_fallback in Hm.
  repeat case_bool_decide; done.
Qed.

(** ** The loop

    [log] is the part of the locals the properties speak of: the attempts and the backends
    attempted. *)

Section loop.
Context {W : Type} `{PyLib} (R : ExecutionRouter W).
Context (intent : ExecutionIntent) (decision : ExecutionDecision).
Local Abbreviation Run := (RouterState W * Locals)%type.

Definition log (r : Run) : list ExecutionAttemptRecord * list string :=
  (lo_attempts r.2, lo_attempted r.2).
Local Abbreviation logs x := (λ r : Run, log r = x).
Local Abbreviation anything := (λ (_ : exn) (_ : Run), True).

Lemma await_spec {A} x (m : M (RouterState W) A) :
  hoare (logs x) (await m) (λ a r, log r = x ∧ ∃ s s', m s = (Ok a, s'))
    (λ e r, log r = x ∧ ∃ s s', m s = (Raise e, s')).
Proof. intros [s l] Hl. unfold await. simpl. destruct (m s) as [[a|e] s'] eqn:E; simpl; eauto. Qed.

Lemma tick_spec x E : hoare (logs x) (await tick) (λ _ : nat, logs x) E.
Proof. by intros [s l] Hl. Qed.

Lemma on_cancel_spec x f E : hoare (logs x) (await (on_cancel f)) (λ _ : unit, logs x) E.
Proof. by intros [s l] Hl. Qed.

Lemma audit_spec x ev eid b h why p E :
  hoare (logs x) (audit ev eid b h why p) (λ _ : unit, logs x) E.
Proof. by intros [s l] Hl. Qed.

Lemma record_attempt_spec A D a st fc fr us ev E :
  hoare (logs (A, D)) (record_attempt a st fc fr us ev)
    (λ (_ : unit) r, ∃ now, log r = (A ++ [_complete_attempt a now st fc fr us ev], D)) E.
Proof. intros [s l] [= <- <-]. simpl. eexists. reflexivity. Qed.

Lemma set_last_spec x why f E :
  hoare (logs x) (locally (set_last why f)) (λ _ : unit, logs x) E.
Proof. by intros [s l] Hl. Qed.

Lemma locals_spec x E : hoare (logs x) locals (λ l r, log r = x ∧ (lo_attempts l, lo_attempted l) = x) E.
Proof. by intros [s l] Hl. Qed.

(** What an attempt says: its backend, its number, its execution. *)
Definition is_attempt (b : string) (n : nat) (a : ExecutionAttemptRecord) : Prop :=
  ar_backend_id a = b ∧ ar_attempt_number a = Z.of_nat n ∧
  ar_execution_id a = it_execution_id intent ∧
  ar_harness_id a = ed_selected_harness_id decision.
(** The attempt failed in a way that lets the next backend try. *)
Definition moved_on (a : ExecutionAttemptRecord) : Prop :=
  ar_status a ∈ ["failed"; "unavailable"] ∧
  ∃ f, f ∈ FALLBACK_ELIGIBLE ∧ ar_failure_class a = Some (ExecutionFailureClass_value f).

(** The result is that of a backend that was fit, prepared and executed well. *)
Definition executed_ok (b : string) (r : RoutedResult) : Prop :=
  ∃ backend prepared res sp sp' s s',
    get_backend (rt_registry R) b = Ok backend ∧
    be_supports backend intent (ed_selected_harness_id decision) = true ∧
    be_prepare backend intent decision sp = (Ok prepared, sp') ∧
    be_execute backend intent decision (Some prepared) s = (Ok res, s') ∧
    xr_ok res = true ∧ rr_status r = ES_SUCCEEDED ∧
    rr_result r =
      {| xr_ok := true; xr_execution_id := it_execution_id intent; xr_backend_id := b;
         xr_harness_id := ed_selected_harness_id decision; xr_message := xr_message res;
         xr_output := xr_output res; xr_failure_class := None; xr_usage := xr_usage res;
         xr_evidence_refs := xr_evidence_refs res; xr_candidate_verification := [];
         xr_restore_status := None; xr_verification := xr_verification res |}.

(** How one turn of the loop ends, from the log [(A, D)] it starts with. *)
Definition turn_post (b : string) (A : list ExecutionAttemptRecord) (D : list string)
    (t : turn) (r : Run) : Prop :=
  match t with
  | Continue => ∃ a, log r = (A ++ [a], D) ∧ is_attempt b (S (length A)) a ∧ moved_on a
  | Break => ∃ a, log r = (A ++ [a], D) ∧ is_attempt b (S (length A)) a ∧
      ar_status a = "failed" ∧ may_fallback (_parse_failure (ar_failure_class a)) = false
  | Return res =>
      (∃ a, rr_attempts res = ExecutionAttemptRecord_as_dict <$> (A ++ [a]) ∧
         is_attempt b (S (length A)) a ∧ ar_status a = "succeeded" ∧ executed_ok b res)
  end.

Ltac step := eapply hoare_bind; [|intros ?].
Ltac by_spec := first [apply audit_spec | apply set_last_spec | apply on_cancel_spec
                      | apply tick_spec].

Lemma hoare_pure {A} (P : Run → Prop) (Φ : Prop) (m : M Run A) Q E :
  (Φ → hoare P m Q E) → hoare (λ r, P r ∧ Φ) m Q E.
Proof. intros Hm s [Hs HΦ]. by apply Hm. Qed.

Lemma hoare_exists {A X} (P : X → Run → Prop) (m : M Run A) Q E :
  (∀ x, hoare (P x) m Q E) → hoare (λ r, ∃ x, P x r) m Q E.
Proof. intros Hm s [x Hs]. by apply (Hm x). Qed.

Lemma hoare_mret {A} (P : Run → Prop) (a : A) (Q : A → Run → Prop) E :
  (∀ r, P r → Q a r) → hoare P (mret a) Q E.
Proof. intros HQ s Hs. by apply HQ. Qed.

Lemma run_backend_spec b backend a A D :
  get_backend (rt_registry R) b = Ok backend →
  be_supports backend intent (ed_selected_harness_id decision) = true →
  is_attempt b (S (length A)) a →
  hoare (logs (A, D)) (run_backend intent decision b backend a)
    (turn_post b A D) (λ _, logs (A, D)).
Proof.
  intros Hg Hsup Ha. unfold run_backend. cbv zeta.
  step; [by_spec|]. step.
  { eapply hoare_conseq; [apply (await_spec (A, D))|done|done|by intros e r []]. }
  apply hoare_pure. intros (sp & sp' & Hprep). step.
  { eapply hoare_conseq; [apply (await_spec (A, D))|done|by intros u r []; exact H0|by intros e r []]. }
  step; [by_spec|]. step; [by_spec|]. step.
  { eapply hoare_conseq; [apply (await_spec (A, D))|done|done|by intros e r []]. }
  apply hoare_pure. intros (s & s' & Hexec).
  rename a5 into res. step; [apply record_attempt_spec|]. apply hoare_exists. intros now.
  step; [by_spec|]. destruct (xr_ok res) eqn:Hok.
  - step; [by_spec|]. step; [apply locals_spec|]. apply hoare_pure. intros [= Hl1 Hl2].
    apply hoare_mret. intros r Hr. simpl. eexists. rewrite Hl1. split; [reflexivity|].
    split; [exact Ha|]. split; [done|]. by repeat eexists.
  - step; [by_spec|]. destruct (may_fallback _) eqn:Hm.
    + step; [by_spec|]. apply hoare_mret. intros r Hr. eexists. split; [exact Hr|].
      split; [exact Ha|]. split; [simpl; set_solver|]. by apply fallback_value in Hm.
    + apply hoare_mret. intros r Hr. eexists. by split; [exact Hr|split; [exact Ha|]].
Qed.

Lemma attempt_raised_spec b a e A D :
  is_attempt b (S (length A)) a →
  hoare (logs (A, D)) (attempt_raised intent b a e) (turn_post b A D) anything.
Proof.
  intros Ha. unfold attempt_raised. destruct (negb _); [by intros r Hr|].
  step; [by_spec|]. step; [apply record_attempt_spec|]. apply hoare_exists. intros now.
  step; [by_spec|]. change (may_fallback PREPARATION_FAILURE) with true. cbv iota.
  step; [by_spec|]. apply hoare_mret. intros r Hr. eexists. split; [exact Hr|].
  split; [exact Ha|]. split; [simpl; set_solver|]. exists PREPARATION_FAILURE.
  split; [unfold FALLBACK_ELIGIBLE; set_solver|done].
Qed.

Lemma catch_spec {A} (P : Run → Prop) (m : M Run A) h Q (E : exn → Run → Prop) :
  hoare P m Q E → (∀ e, hoare (E e) (h e) Q anything) → hoare P (catch m h) Q anything.
Proof.
  intros Hm Hh s Hs. specialize (Hm s Hs). unfold catch.
  destruct (m s) as [[a|e] s']; [done|by apply Hh].
Qed.

Lemma turn_post_log b A D t r r' : log r = log r' → turn_post b A D t r → turn_post b A D t r'.
Proof. intros E. destruct t; simpl; rewrite ?E; done. Qed.

Lemma with_cleanup_spec b A D P (c : M (RouterState W) unit) (m : M Run turn) :
  hoare P m (turn_post b A D) anything →
  hoare P (with_cleanup (await c) m) (turn_post b A D) anything.
Proof.
  intros Hm s Hs. specialize (Hm s Hs). unfold with_cleanup.
  destruct (m s) as [r [s1 l1]] eqn:Em. simpl in Hm. unfold await. simpl.
  destruct (c s1) as [[u|e] s2]; [|destruct (is_Exception e); [|done]];
    (destruct r as [t|]; [|done]); by eapply turn_post_log; [|exact Hm].
Qed.

(** A backend that passes is known and supports the execution; one that does not leaves a
    failure that lets the loop go on. *)
Lemma admit_backend_spec b A D :
  hoare (logs (A, D)) (admit_backend R intent decision b)
    (λ v r, match v with
            | inl t => turn_post b A (D ++ [b]) t r
            | inr (backend, a) =>
                log r = (A, D ++ [b]) ∧ get_backend (rt_registry R) b = Ok backend ∧
                be_supports backend intent (ed_selected_harness_id decision) = true ∧
                is_attempt b (S (length A)) a
            end) anything.
Proof.
  unfold admit_backend. eapply (hoare_bind _ _ _ (λ _, logs (A, D ++ [b]))).
  { by intros [s l] [= <- <-]. }
  intros _. step; [by_spec|]. step; [by_spec|]. step; [apply locals_spec|].
  apply hoare_pure. intros [= HA HD]. rewrite HA.
  set (att := {| ar_attempt_id := _ |}).
  assert (is_attempt b (S (length A)) att) as Hatt.
  { split_and!; try done. simpl. lia. }
  assert (∀ st f why n, st ∈ ["failed"; "unavailable"] → f ∈ FALLBACK_ELIGIBLE →
    ∀ r, log r = (A ++ [_complete_attempt att n st (Some (ExecutionFailureClass_value f)) why [] []],
                  D ++ [b]) → turn_post b A (D ++ [b]) Continue r) as Hgo.
  { intros st f why n Hst Hf r Hr. eexists. split; [exact Hr|]. split; [exact Hatt|].
    split; [done|]. by exists f. }
  destruct (get_backend _ b) as [backend|e] eqn:Hg.
  - step; [by_spec|]. step.
    { eapply hoare_conseq; [apply (await_spec (A, D ++ [b]))|done|by intros u r []; exact H0|done]. }
    destruct (_ || _) eqn:Hh; [|destruct (negb (be_supports _ _ _)) eqn:Hs].
    + step; [apply record_attempt_spec|]. apply hoare_exists. intros now.
      step; [by_spec|]. step; [by_spec|]. change (may_fallback BACKEND_UNHEALTHY) with true.
      cbv iota. step; [by_spec|]. apply hoare_mret.
      eapply Hgo; unfold FALLBACK_ELIGIBLE; set_solver.
    + step; [apply record_attempt_spec|]. apply hoare_exists. intros now.
      step; [by_spec|]. step; [by_spec|]. apply hoare_mret.
      eapply Hgo; unfold FALLBACK_ELIGIBLE; set_solver.
    + apply hoare_mret. intros r Hr. boolify. done.
  - step; [apply record_attempt_spec|]. apply hoare_exists. intros now.
    step; [by_spec|]. step; [by_spec|]. apply hoare_mret.
    eapply Hgo; unfold FALLBACK_ELIGIBLE; set_solver.
Qed.

(** The backend may be used: neither subscription, quota nor harness stands against it. *)
Definition entitled (b : string) : Prop := _enforce_entitlements R intent (Some b) = Ok tt.

(** A result that came before the backend was tried. *)
Definition stopped_before (b : string) (A : list ExecutionAttemptRecord) (res : RoutedResult) : Prop :=
  rr_attempts res = ExecutionAttemptRecord_as_dict <$> A ∧
  xr_ok (rr_result res) = false ∧ xr_backend_id (rr_result res) = b ∧
  ((rr_status res = ES_CANCELLED ∧
    xr_failure_class (rr_result res) = Some (ExecutionFailureClass_value EF_CANCELLED)) ∨
   (rr_status res = ES_BLOCKED ∧ ¬ entitled b)).

Lemma attempt_backend_spec b A D :
  hoare (logs (A, D)) (attempt_backend R intent decision b)
    (λ t r, match t with
            | Return res => stopped_before b A res ∨ (entitled b ∧ turn_post b A (D ++ [b]) t r)
            | _ => entitled b ∧ turn_post b A (D ++ [b]) t r
            end) anything.
Proof.
  unfold attempt_backend. eapply (hoare_bind _ _ _ (λ _, logs (A, D))); [by intros r Hr|].
  intros s. destruct (is_cancelled _ _).
  { step; [by_spec|]. step; [apply locals_spec|]. apply hoare_pure. intros [= HA HD].
    apply hoare_mret. intros r Hr. left. unfold stopped_before. simpl. rewrite HA. split_and!; [done..|]. by left. }
  destruct (_enforce_entitlements R intent (Some b)) as [[]|e] eqn:He.
  - step; [apply admit_backend_spec|].
    match goal with |- hoare _ (match ?v with _ => _ end) _ _ => destruct v as [t|[backend a]] end.
    + apply hoare_mret. intros r Hr. destruct t; auto.
    + intros r (Hr & Hg & Hs & Ha). pose proof (with_cleanup_spec b A (D ++ [b])
        (logs (A, D ++ [b])) (be_cleanup backend (it_execution_id intent))
        (catch (run_backend intent decision b backend a) (attempt_raised intent b a))) as Hc.
      specialize (Hc ltac:(eapply catch_spec;
        [by apply run_backend_spec|intros e; by apply attempt_raised_spec]) r Hr).
      destruct (with_cleanup _ _ r) as [[t|e] r']; [|done]. destruct t; auto.
  - destruct (exn_class e != "ExecutionRouterError") eqn:Ec; [by intros r Hr|].
    step; [by_spec|]. step; [apply locals_spec|]. apply hoare_pure. intros [= HA HD].
    apply hoare_mret. intros r Hr. left. unfold stopped_before, entitled. simpl.
    rewrite HA, He. split_and!; [done..|]. by right.
Qed.

(** ** A whole run *)

(** The attempts of a run: a prefix of the order, numbered from one, each of an entitled
    backend, and each but the last a failure that lets the next one try. *)
Record trail (order : list string) (A : list ExecutionAttemptRecord) : Prop := {
  tr_order : ar_backend_id <$> A `prefix_of` order;
  tr_numbers : ar_attempt_number <$> A = seqZ 1 (Z.of_nat (length A));
  tr_execution : Forall (λ a, ar_execution_id a = it_execution_id intent ∧
                              ar_harness_id a = ed_selected_harness_id decision) A;
  tr_entitled : Forall entitled (ar_backend_id <$> A);
  tr_moved : ∀ i a, A !! i = Some a → S i < length A → moved_on a
}.

(** Why a run ended as it did. *)
Inductive ending (order : list string) (A : list ExecutionAttemptRecord) (res : RoutedResult) :
    Prop :=
| ended_well a :
    last A = Some a → ar_status a = "succeeded" → executed_ok (ar_backend_id a) res →
    ending order A res
| ended_exhausted :
    ar_backend_id <$> A = order → Forall moved_on A → xr_ok (rr_result res) = false →
    rr_status res ∈ [ES_FAILED; ES_BLOCKED] → ending order A res
| ended_refused a :
    last A = Some a → ar_status a = "failed" →
    may_fallback (_parse_failure (ar_failure_class a)) = false →
    xr_ok (rr_result res) = false → rr_status res ∈ [ES_FAILED; ES_BLOCKED] →
    ending order A res
| ended_early b :
    (ar_backend_id <$> A) ++ [b] `prefix_of` order → Forall moved_on A →
    stopped_before b A res → ending order A res.

(** The log while the loop goes on: every attempt so far moved on. *)
Definition under_way (order rest : list string) (A : list ExecutionAttemptRecord) : Prop :=
  trail order A ∧ Forall moved_on A ∧ order = (ar_backend_id <$> A) ++ rest.

Lemma trail_snoc order rest b A a :
  under_way order (b :: rest) A → entitled b → is_attempt b (S (length A)) a →
  trail order (A ++ [a]).
Proof.
  intros ([_ Hn He Hent _] & Hm & ->) Hb (Eb & En & Ee & Eh).
  split.
  - rewrite fmap_app. simpl. rewrite Eb. exists rest. by rewrite <- app_assoc.
  - rewrite fmap_app, Hn, length_app. simpl. rewrite Nat.add_1_r, seqZ_S.
    do 2 f_equal. lia.
  - apply Forall_app. by repeat constructor.
  - rewrite fmap_app. apply Forall_app. split; [done|]. simpl. by rewrite Eb; repeat constructor.
  - intros i x Hi Hlen. rewrite length_app in Hlen. simpl in Hlen.
    rewrite lookup_app_l in Hi by lia. by eapply Forall_lookup_1.
Qed.

Lemma under_way_next order rest b A a :
  under_way order (b :: rest) A → entitled b → is_attempt b (S (length A)) a → moved_on a →
  under_way order rest (A ++ [a]).
Proof.
  intros Hu Hb Ha Hm. split; [by eapply trail_snoc|]. destruct Hu as (_ & HA & ->).
  split; [apply Forall_app; split; [done|by apply Forall_singleton]|]. rewrite fmap_app. simpl.
  destruct Ha as [-> _]. by rewrite <- app_assoc.
Qed.

(** The loop ends with a result, or having tried every backend, or at a refusal. *)
Lemma fallback_loop_spec order rest A :
  under_way order rest A →
  hoare (logs (A, ar_backend_id <$> A)) (fallback_loop R intent decision rest)
    (λ o r,
      match o with
      | Some res => ∃ A', rr_attempts res = ExecutionAttemptRecord_as_dict <$> A' ∧
          trail order A' ∧ ending order A' res
      | None => ∃ A', log r = (A', ar_backend_id <$> A') ∧ trail order A' ∧
          ((ar_backend_id <$> A' = order ∧ Forall moved_on A') ∨
           ∃ a, last A' = Some a ∧ ar_status a = "failed" ∧
             may_fallback (_parse_failure (ar_failure_class a)) = false)
      end) anything.
Proof.
  revert A. induction rest as [|b rest IH]; intros A Hu.
  { apply hoare_mret. intros r Hr. exists A. destruct Hu as (Ht & Hm & ->).
    rewrite app_nil_r in Ht |- *. split; [done|]. split; [done|]. by left. }
  simpl. step; [apply attempt_backend_spec|].
  assert (∀ a, is_attempt b (S (length A)) a →
    (ar_backend_id <$> A) ++ [b] = ar_backend_id <$> (A ++ [a])) as Hids.
  { intros x [Ea _]. rewrite fmap_app. simpl. by rewrite Ea. }
  match goal with |- hoare _ (match ?v with _ => _ end) _ _ => destruct v as [| |res] end.
  - intros r (Hb & a & Hr & Ha & Hm). rewrite (Hids a Ha) in Hr.
    apply (IH (A ++ [a]) (under_way_next _ _ _ _ _ Hu Hb Ha Hm) r Hr).
  - intros r (Hb & a & Hr & Ha & Hst & Hf). rewrite (Hids a Ha) in Hr.
    exists (A ++ [a]). split; [done|]. split; [by eapply trail_snoc|]. right.
    exists a. by rewrite last_snoc.
  - apply hoare_mret. intros r [Hs|(Hb & a & Hr & Ha & Hst & Hx)].
    + exists A. split; [by destruct Hs|]. destruct Hu as (Ht & Hm & Ho). split; [done|].
      apply (ended_early _ _ _ b); [|done|done]. exists rest. by rewrite <- app_assoc.
    + exists (A ++ [a]). split; [done|]. split; [by eapply trail_snoc|].
      apply (ended_well _ _ _ a); [by rewrite last_snoc|done|]. by destruct Ha as [-> _].
Qed.

Lemma run_decision_spec s r s' :
  let order := ed_selected_backend_id decision :: ed_fallback_order decision in
  run_decision R intent decision (s, no_locals) = (Ok r, s') →
  ∃ A, rr_attempts r = ExecutionAttemptRecord_as_dict <$> A ∧ trail order A ∧ ending order A r.
Proof.
  intros order Hrun.
  enough (hoare (logs ([], [])) (run_decision R intent decision)
    (λ r _, ∃ A, rr_attempts r = ExecutionAttemptRecord_as_dict <$> A ∧ trail order A ∧
       ending order A r) anything) as Hh.
  { specialize (Hh (s, no_locals) eq_refl). by rewrite Hrun in Hh. }
  unfold run_decision. step; [by_spec|]. step; [by_spec|]. step; [by_spec|]. step; [by_spec|].
  eapply hoare_bind; [apply (fallback_loop_spec order order [])|].
  { split; [|by split]. split; simpl; try done; apply prefix_nil. }
  intros [res|]; [by apply hoare_mret|].
  intros x (A & Hlog & Ht & He). destruct x as [sx lx]. injection Hlog as HA HD.
  simpl. exists A. rewrite HA. split; [done|]. split; [done|].
  assert (final_status lx ∈ [ES_FAILED; ES_BLOCKED]) as Hst.
  { unfold final_status. destruct (lo_attempted lx); [set_solver|]. simpl. case_bool_decide; set_solver. }
  destruct He as [[? ?]|(att & ? & ? & ?)]; [by apply ended_exhausted|by apply (ended_refused _ _ _ att)].
Qed.
End loop.

(** ** The properties of a routed execution *)

Section routed.
Context {W : Type} `{PyLib} (R : ExecutionRouter W) (intent : ExecutionIntent).

(** The decision an execution follows: the one it is given, or the router's. *)
Lemma execute_decision d s r s' :
  execute_with_fallback R intent d s = (Ok r, s') →
  ∃ decision s0 run, (∀ d', d = Some d' → decision = d') ∧
    run_decision R intent decision (s0, no_locals) = (Ok r, run).
Proof.
  unfold execute_with_fallback, mbind, M_bind. intros Hx. revert Hx.
  match goal with |- (let '_ := ?m s in _) = _ → _ => destruct (m s) as [[decision|e] s0] eqn:Ed end;
    [|done].
  unfold with_locals. intros Hx.
  destruct (run_decision R intent decision (s0, no_locals)) as [o run] eqn:Er. simplify_eq.
  exists decision, s0, run. split; [|done]. intros d' ->. unfold mret, M_ret in Ed. by simplify_eq.
Qed.

(** C11: An execution reported as a success is one a backend reported: the last backend that
    was tried was entitled, supported the execution, prepared it and executed it with
    success, and the result carries its message, output, usage and evidence. *)
Theorem routed_success_is_a_backend_success decision s r s' :
  execute_with_fallback R intent (Some decision) s = (Ok r, s') →
  xr_ok (rr_result r) = true →
  ∃ b, b ∈ ed_selected_backend_id decision :: ed_fallback_order decision ∧
    entitled R intent b ∧ executed_ok R intent decision b r.
Proof.
  intros (d & s0 & run & Hd & Hrun)%execute_decision Hok.
  rewrite (Hd _ eq_refl) in Hrun.
  apply run_decision_spec in Hrun as (A & _ & [[k Ho] _ _ He _] & Hend).
  destruct Hend as [a Hl _ Hx|_ _ Hn|a _ _ _ Hn|b _ _ (_ & Hn & _)]; [|congruence..].
  apply last_Some in Hl as [A' ->]. exists (ar_backend_id a). split_and!; [| |done].
  - rewrite Ho, fmap_app. set_solver.
  - rewrite fmap_app in He. apply Forall_app in He as [_ He]. by inversion He.
Qed.

(** The attempts of an execution follow the order of the decision without gaps or
    repetition, are numbered from one, belong to the execution, and only ever reach a backend
    that is entitled. *)
Theorem attempts_follow_the_order decision s r s' :
  execute_with_fallback R intent (Some decision) s = (Ok r, s') →
  ∃ A, rr_attempts r = ExecutionAttemptRecord_as_dict <$> A ∧
    ar_backend_id <$> A `prefix_of` ed_selected_backend_id decision :: ed_fallback_order decision ∧
    ar_attempt_number <$> A = seqZ 1 (Z.of_nat (length A)) ∧
    Forall (λ a, ar_execution_id a = it_execution_id intent) A ∧
    Forall (entitled R intent) (ar_backend_id <$> A).
Proof.
  intros (d & s0 & run & Hd & Hrun)%execute_decision.
  rewrite (Hd _ eq_refl) in Hrun.
  apply run_decision_spec in Hrun as (A & HA & [] & _). exists A. split_and!; try done.
  eapply Forall_impl; [done|]. by intros a [].
Qed.

(** C12: A backend is only tried after the one before it failed in a way that allows a
    fallback; after any other failure, an authorisation or integrity one say, no further
    backend is tried, and a run that stops before the order is exhausted says why. *)
Theorem fallback_needs_an_eligible_failure decision s r s' :
  execute_with_fallback R intent (Some decision) s = (Ok r, s') →
  let order := ed_selected_backend_id decision :: ed_fallback_order decision in
  ∃ A, rr_attempts r = ExecutionAttemptRecord_as_dict <$> A ∧
    (∀ i a, A !! i = Some a → S i < length A → moved_on a) ∧
    (length A < length order →
     (∃ a, last A = Some a ∧ (ar_status a = "succeeded" ∨
        (ar_status a = "failed" ∧ may_fallback (_parse_failure (ar_failure_class a)) = false))) ∨
     (∃ b, order !! length A = Some b ∧ Forall moved_on A ∧ stopped_before R intent b A r)).
Proof.
  intros (d & s0 & run & Hd & Hrun)%execute_decision order.
  rewrite (Hd _ eq_refl) in Hrun.
  apply run_decision_spec in Hrun as (A & HA & [Hp _ _ _ Hm] & Hend). exists A.
  split; [done|]. split; [done|]. intros Hlen.
  destruct Hend as [a ? ? ?|Ho ? ?|a ? ? ? ?|b [k Hb] ? ?].
  - left. eauto.
  - exfalso. fold order in Ho. rewrite <- Ho, length_fmap in Hlen. lia.
  - left. eauto.
  - right. exists b. split_and!; try done. fold order in Hb. rewrite Hb, <- app_assoc.
    rewrite lookup_app_r; rewrite length_fmap; [|done]. by rewrite Nat.sub_diag.
Qed.
End routed.

(** ** What a decision may name *)

Section decisions.
Context {W : Type} `{PyLib} (R : ExecutionRouter W) (intent : ExecutionIntent).

(** An enabled, subscribed backend that supports the harness and has the capabilities. *)
Definition fit (harness b : string) : Prop :=
  ∃ backend, backend ∈ enabled (rt_registry R) ∧ be_backend_id backend = b ∧
    allows (rt_subscription_allows R) b = true ∧ be_supports backend intent harness = true ∧
    it_required_capabilities intent ⊆
      be_capabilities backend ∪ default ∅ (override_capabilities (rt_registry R) b).

Lemma rank_one_fit harness backend item :
  backend ∈ enabled (rt_registry R) →
  rank_one R intent harness backend = Some item → fit harness item.1.1.
Proof.
  intros Hin. unfold rank_one. destruct (negb (allows _ _)) eqn:Ea; [done|].
  destruct (negb (be_supports _ _ _)) eqn:Es; [done|].
  destruct (negb (bool_decide (it_required_capabilities _ ∖ _ = ∅))) eqn:Em; [done|]. intros [= <-]. simpl. exists backend.
  boolify. split_and!; try done. by apply empty_difference_subseteq_L.
Qed.

Lemma pull_front_elem d seen items x : x ∈ pull_front d seen items ↔ x ∈ seen ∨ x ∈ items.
Proof.
  revert seen. induction items as [|y items IH]; intros seen; simpl; [set_solver|].
  destruct (_ == _); [set_solver|]. rewrite IH. set_solver.
Qed.

Lemma rank_backends_fit harness item :
  item ∈ _rank_backends R intent harness → fit harness item.1.1.
Proof.
  unfold _rank_backends. intros Hin.
  assert (item ∈ omap (rank_one R intent harness) (enabled (rt_registry R))) as Hin'.
  { destruct (otruthy _); [apply pull_front_elem in Hin as [?|Hin]; [set_solver|]|];
      by apply elem_of_py_sorted in Hin. }
  apply list_elem_of_omap in Hin' as (backend & Hb & Hr). by eapply rank_one_fit.
Qed.

(** With provider routing needed, a kept backend advertises it. *)
Definition advertises (b : string) : Prop :=
  ∃ backend, get_backend (rt_registry R) b = Ok backend ∧
    PROVIDER_ROUTING ∈ be_capabilities backend.

Lemma provider_filter_elem items kept item :
  provider_filter R items = Ok kept → item ∈ kept → item ∈ items ∧ advertises item.1.1.
Proof.
  revert kept. induction items as [|x items IH]; intros kept; simpl; [intros [= <-]; set_solver|].
  destruct (get_backend _ _) as [backend|] eqn:Eg; simpl; [|done].
  destruct (provider_filter R items) as [kept'|] eqn:Ek; simpl; [|done]. intros [= <-].
  case_bool_decide as Hc.
  - intros [->|Hi]%elem_of_cons; [split; [set_solver|by exists backend]|].
    destruct (IH _ eq_refl Hi). set_solver.
  - intros Hi. destruct (IH _ eq_refl Hi). set_solver.
Qed.

Lemma filtered_elem pn items kept item :
  filtered R pn items = Ok kept → item ∈ kept →
  item ∈ items ∧ (pn = true → advertises item.1.1).
Proof.
  unfold filtered. destruct pn; [|intros [= <-]; by auto].
  intros Hf Hi. destruct (provider_filter_elem _ _ _ Hf Hi). auto.
Qed.

Lemma first_harness_spec pn hs h items :
  first_harness R intent pn hs = Ok (Some (h, items)) →
  h ∈ hs ∧ items ≠ [] ∧ filtered R pn (_rank_backends R intent h) = Ok items.
Proof.
  induction hs as [|x hs IH]; simpl; [done|].
  destruct (filtered R pn (_rank_backends R intent x)) as [l|] eqn:Ef; simpl; [|done].
  destruct l as [|y l].
  - intros Hr. destruct (IH Hr) as (? & ? & ?). split_and!; [set_solver|done..].
  - intros [= <- <-]. split_and!; [set_solver|done..].
Qed.

Lemma fallback_of_elem candidates sel b :
  b ∈ fallback_of R candidates sel ↔ b ∈ ids_of candidates ∧ b ≠ sel.
Proof.
  assert (b ∈ List.filter (λ id, id != sel) (ids_of candidates) ↔
    b ∈ ids_of candidates ∧ b ≠ sel) as Hf.
  { by rewrite elem_of_filter_bool, negb_true_iff, bool_decide_eq_false. }
  unfold fallback_of. destruct (List.filter (λ id, (id != sel) && _) _); [done|].
  by rewrite elem_of_py_sorted.
Qed.

Lemma fallback_of_NoDup candidates sel :
  NoDup (ids_of candidates) → NoDup (fallback_of R candidates sel).
Proof.
  intros Hn. unfold fallback_of. destruct (List.filter (λ id, (id != sel) && _) _).
  - by apply NoDup_filter_bool.
  - rewrite py_sorted_Permutation. by apply NoDup_filter_bool.
Qed.

(** What [choose] returns: the candidates of one harness, the selected backend among them. *)
Lemma choose_spec pn chosen first candidates selection sel h sc why route cands :
  filtered R pn (_rank_backends R intent chosen) = Ok candidates →
  head candidates = Some first →
  choose R intent pn chosen candidates first selection = Ok (sel, h, sc, why, route, cands) →
  sel ∈ ids_of cands ∧
  ∃ h', filtered R pn (_rank_backends R intent h') = Ok cands ∧
    (otruthy (it_preferred_harness intent) = true → h' = chosen ∧ h = chosen).
Proof.
  intros Hc Hf. unfold choose.
  assert (first.1.1 ∈ ids_of candidates) as Hfirst.
  { apply list_elem_of_fmap. exists first. split; [done|]. by apply head_Some_elem_of. }
  destruct (otruthy (it_preferred_harness intent)) eqn:Ep.
  { intros [= <- <- <- <- <- <-]. split; [done|]. by exists chosen. }
  destruct (rs_selected selection) as [r|].
  2: { intros [= <- <- <- <- <- <-]. split; [done|]. by exists chosen. }
  destruct (filtered R pn (_rank_backends R intent (sr_harness_id r))) as [hb|] eqn:Eh; simpl; [|done].
  set (cs := match hb with [] => candidates | _ => hb end).
  assert (∃ h', filtered R pn (_rank_backends R intent h') = Ok cs) as [h' Hh'].
  { subst cs. destruct hb; eauto. }
  case_bool_decide as Hin; intros [= <- <- <- <- <- <-].
  - split; [done|]. exists h'. by split.
  - split; [|by exists h']. assert (∃ y, head cs = Some y) as [y Hy].
    { subst cs. destruct hb; eauto. }
    rewrite Hy. simpl. apply list_elem_of_fmap. exists y. split; [done|].
    by apply head_Some_elem_of.
Qed.

(** C13: Every backend a decision names, selected or fallback, is enabled, subscribed, has the
    required capabilities and supports one harness common to all of them - the decision's
    own when the caller pinned one - and advertises provider routing if that is needed. *)
Theorem decision_backends_are_fit now d :
  select_decision R now intent = Ok d →
  ∃ h, (otruthy (it_preferred_harness intent) = true → h = ed_selected_harness_id d) ∧
    ∀ b, b ∈ ed_selected_backend_id d :: ed_fallback_order d →
      fit h b ∧ (ed_provider_routing_required d = true → advertises b).
Proof.
  unfold select_decision, res_bind.
  destruct (_enforce_entitlements R intent None); [|done].
  destruct (_task_analysis intent) as [analysis|]; [|done].
  destruct (_routing_policy intent) as [policy|]; [|done].
  set (ho := order_harnesses _ _ _ _ _). destruct (ho == []); [done|].
  set (pn := it_requires_provider_route intent || _).
  destruct (first_harness R intent pn _) as [[[chosen [|first rest]]|]|] eqn:Ef; try done.
  apply first_harness_spec in Ef as (_ & _ & Hfil).
  destruct (chosen == ""); [done|].
  destruct (if otruthy _ then _ else _) as [[sh sb]|]; [|done].
  destruct (choose R intent pn chosen (first :: rest) first _)
    as [[[[[[sel h] sc] why] route] cands]|] eqn:Ech; [|done].
  intros [= <-]. eapply choose_spec in Ech as (Hsel & h' & Hh' & Hpin); [|done|done].
  exists h'. split; [intros Hp; by destruct (Hpin Hp) as [-> ->]|].
  intros b Hb. simpl in Hb. assert (b ∈ ids_of cands) as (item & -> & Hi)%list_elem_of_fmap.
  { apply elem_of_cons in Hb as [->|Hb]; [done|]. by apply fallback_of_elem in Hb as [? _]. }
  destruct (filtered_elem _ _ _ _ Hh' Hi) as [Hr Ha]. split; [by apply rank_backends_fit|done].
Qed.
End decisions.

(** ** From the planner to the router *)

Section planning.
Context `{PyLib}.

Lemma rule_complexity r : r ∈ _RULES → tr_complexity r ≠ "".
Proof.
  intros Hr. repeat (apply elem_of_cons in Hr as [->|Hr]; [done|]). by apply not_elem_of_nil in Hr.
Qed.

Lemma analyse_complexity prompt metadata : estimated_complexity (analyse prompt metadata) ≠ "".
Proof.
  unfold analyse. destruct (py_sorted rule_geb (matching_rules prompt)) as [|p rest] eqn:E; [done|].
  simpl. destruct (ranked_rules _ _ _ E) as [Hel _]. apply rule_complexity.
  assert (p ∈ matching_rules prompt) as Hp by (apply Hel; left). by apply elem_of_matching in Hp as [? _].
Qed.

Lemma SemanticCapability_of_value c : SemanticCapability_of (SemanticCapability_value c) = Some c.
Proof. by destruct c. Qed.

Lemma TaskClass_of_value c : TaskClass_of (TaskClass_value c) = Some c.
Proof. by destruct c. Qed.

Lemma required_read_back (s : gset SemanticCapability) :
  list_to_set (omap SemanticCapability_of (elements
    (set_map SemanticCapability_value s : gset string))) = s.
Proof.
  apply set_eq. intros c. rewrite elem_of_list_to_set, list_elem_of_omap. split.
  - intros (v & Hv & E). apply elem_of_elements, elem_of_map in Hv as (c' & -> & Hc).
    rewrite SemanticCapability_of_value in E. by simplify_eq.
  - intros Hc. exists (SemanticCapability_value c).
    by rewrite SemanticCapability_of_value, elem_of_elements; split; [apply elem_of_map_2|].
Qed.

(** The dictionary form of an analysis and the class beside it, read by the router. *)
Lemma py_or_list l : py_or (PList l) (PList []) = PList l.
Proof. by destruct l. Qed.
Lemma py_or_dict d : py_or (PDict d) (PDict []) = PDict d.
Proof. by destruct d. Qed.
Lemma py_or_str s d : s ≠ "" → py_or (PStr s) d = PStr s.
Proof. intros Hs. unfold py_or. simpl. by rewrite bool_decide_eq_false_2. Qed.

(** Nothing the router needs is lost between planner and router: it reads back the class,
    the required capabilities, the privacy of the mission and the rest of the planner's
    analysis (the optional and derived capabilities have been used by then). *)
Theorem analysis_survives_planning n m intent :
  plan n m = Ok intent →
  let a := analyse (ms_prompt m) (ms_metadata m) in
  _task_analysis intent =
    Ok {| task_class := task_class a; required_semantic := required_semantic a;
          optional_semantic := ∅; derived_execution_capabilities := ∅;
          privacy_required := privacy_required a; prefers_local := prefers_local a;
          estimated_complexity := estimated_complexity a; ta_reasons := ta_reasons a;
          ta_metadata := ta_metadata a |}.
Proof.
  unfold plan, res_bind. destruct (from_mapping _) as [p|]; [|done]. intros [= <-].
  cbv zeta. pose proof (analyse_complexity (ms_prompt m) (ms_metadata m)) as Hc.
  set (a := analyse (ms_prompt m) (ms_metadata m)) in *. unfold _task_analysis.
  cbn [it_task_analysis it_required_semantic_capabilities it_task_class].
  change (dget "reasons" (TaskAnalysis_as_dict a)) with (PList (ta_reasons a)).
  change (dget "metadata" (TaskAnalysis_as_dict a)) with (PDict (ta_metadata a)).
  change (dget "estimated_complexity" (TaskAnalysis_as_dict a)) with (PStr (estimated_complexity a)).
  change (dget "privacy_required" (TaskAnalysis_as_dict a)) with (PBool (privacy_required a)).
  change (dget "prefers_local" (TaskAnalysis_as_dict a)) with (PBool (prefers_local a)).
  rewrite py_or_list, py_or_dict, (py_or_str (estimated_complexity a)), required_read_back by done.
  by destruct a as [[]].
Qed.

(** The policy a mission is planned with is the one the router applies, unless the intent
    names a model or the subscription denies harnesses. *)
Theorem policy_survives_planning n m intent :
  plan n m = Ok intent →
  otruthy (ms_preferred_model m) = false →
  truthy (dget "denied_harnesses" (ms_subscription_constraints m)) = false →
  _routing_policy intent =
    from_mapping (planned_preferences m (analyse (ms_prompt m) (ms_metadata m))).
Proof.
  unfold plan, res_bind. destruct (from_mapping _) as [p|] eqn:Ep; [|done]. intros [= <-] Hm Hd.
  unfold _routing_policy.
  cbn [it_routing_preferences it_cost_preference it_locality_preference it_preferred_model
       it_subscription_constraints].
  rewrite Hm. assert (dict_has "preset" (RoutingPolicy_as_dict p) = true) as -> by done.
  rewrite andb_false_r.
  assert (dict_setdefault "prefer_local" (PBool true) (RoutingPolicy_as_dict p) =
    RoutingPolicy_as_dict p) as -> by done.
  unfold res_bind. unfold py_or at 1. rewrite Hd. simpl.
  destruct (bool_decide _); by rewrite (policy_roundtrip _ _ Ep).
Qed.
End planning.

(** ** Cancellation *)

(** Everything that may happen to the registry. *)
Inductive registry_op :=
| OpRegister (eid backend_id : string) (harness_id attempt_id : option string)
    (fn : option (string * string)) (fresh : string) (now : Z)
| OpUpdate (eid attempt_id backend_id : string) (harness_id : option string)
    (fn : option (string * string))
| OpCancel (eid : string)
| OpLate (eid : string)
| OpClear (eid : string).

Definition apply_op (o : registry_op) (c : CancellationRegistry) : CancellationRegistry :=
  match o with
  | OpRegister eid b h a fn fresh now => register eid b h a fn fresh now c
  | OpUpdate eid a b h fn => update_attempt eid a b h fn c
  | OpCancel eid => (cancel_locked eid c).2
  | OpLate eid => (note_late_event eid c).2
  | OpClear eid => clear eid c
  end.

(** Every entry points at a row of its own execution, so no two entries share a row. *)
Definition registry_wf (c : CancellationRegistry) : Prop :=
  ∀ eid i, cr_active c !! eid = Some i →
    ∃ row, cr_rows c !! i = Some row ∧ ax_execution_id row = eid.

Lemma on_row_wf i f c :
  (∀ r, ax_execution_id (f r) = ax_execution_id r) → registry_wf c → registry_wf (on_row i f c).
Proof.
  intros Hf Hwf eid j Hj. destruct (Hwf eid j Hj) as (row & Hr & He). unfold on_row. simpl.
  destruct (decide (i = j)) as [->|Hne].
  - exists (f row). rewrite list_lookup_alter, decide_True, Hr by done. by split; [|rewrite Hf].
  - exists row. by rewrite list_lookup_alter_ne.
Qed.

Lemma apply_op_wf o c : registry_wf c → registry_wf (apply_op o c).
Proof.
  intros Hwf. destruct o as [eid b h a fn fresh now|eid a b h fn|eid|eid|eid]; simpl.
  - intros eid' i. unfold register. simpl. destruct (decide (eid = eid')) as [->|Hne].
    + rewrite lookup_insert_eq. intros [= <-]. eexists. split; [apply list_lookup_middle|]; done.
    + rewrite lookup_insert_ne by done. intros Hi. destruct (Hwf _ _ Hi) as (row & Hr & He).
      exists row. split; [|done]. by apply lookup_app_l_Some.
  - unfold update_attempt. destruct (_ !! eid); [by apply on_row_wf|done].
  - unfold cancel_locked. destruct (_ !! eid) as [i|]; [|done].
    destruct (cr_rows c !! i) as [r|]; [|done].
    destruct (ax_cancelled r); by apply on_row_wf.
  - unfold note_late_event. destruct (_ ≫= _) as [[i r]|]; [|done].
    destruct (ax_cancelled r); [by apply on_row_wf|done].
  - intros eid' i. unfold clear. simpl. rewrite lookup_delete_Some. intros [_ Hi]. by apply Hwf.
Qed.

(** The operation neither registers nor clears the execution. *)
Definition leaves (eid : string) (o : registry_op) : Prop :=
  match o with OpRegister e _ _ _ _ _ _ | OpClear e => e ≠ eid | _ => True end.

(** The row of an execution after one operation on another row. *)
Lemma registry_get_on_row i f c eid j :
  cr_active c !! eid = Some j →
  registry_get (on_row i f c) eid = (if decide (i = j) then f else id) <$> registry_get c eid.
Proof.
  intros Hj. unfold registry_get, on_row. simpl. rewrite Hj. simpl.
  destruct (decide (i = j)) as [->|Hne]; simpl.
  - by rewrite list_lookup_alter, decide_True.
  - rewrite list_lookup_alter_ne by done. by destruct (cr_rows c !! j).
Qed.

(** The operation cancels the execution, or starts its cancel function. *)
Definition cancels (eid : string) (o : registry_op) : bool :=
  match o with OpCancel e => e == eid | _ => false end.
Definition starts (eid : string) (o : registry_op) (c : CancellationRegistry) : bool :=
  cancels eid o && match (cancel_locked eid c).1 with CancelFirst _ _ => true | _ => false end.

(** One operation that leaves the execution registered: it stays registered, it becomes
    cancelled by its own cancellation only, and that one starts the cancel function once. *)
Lemma registry_step eid o c :
  registry_wf c → leaves eid o → is_Some (registry_get c eid) →
  is_Some (registry_get (apply_op o c) eid) ∧
  is_cancelled (apply_op o c) eid = is_cancelled c eid || cancels eid o ∧
  starts eid o c = negb (is_cancelled c eid) && cancels eid o.
Proof.
  intros Hwf Hl [row Hrow]. unfold is_cancelled, starts. rewrite Hrow.
  assert (∃ j, cr_active c !! eid = Some j ∧ cr_rows c !! j = Some row) as (j & Hj & Hr).
  { unfold registry_get in Hrow. destruct (cr_active c !! eid) as [j|]; [|done]. by exists j. }
  assert (∀ i f, is_Some (registry_get (on_row i f c) eid) ∧
    match registry_get (on_row i f c) eid with Some r => ax_cancelled r | None => false end
      = ax_cancelled (if decide (i = j) then f row else row)) as Hon.
  { intros i f. rewrite (registry_get_on_row i f c eid j Hj), Hrow. simpl.
    split; [by eexists|]. by destruct (decide (i = j)). }
  destruct o as [e b h a fn fresh now|e a b h fn|e|e|e]; simpl in *;
    rewrite ?andb_false_r, ?orb_false_r.
  - assert (registry_get (register e b h a fn fresh now c) eid = Some row) as ->; [|by eauto].
    unfold registry_get, register. simpl. rewrite lookup_insert_ne, Hj by done. simpl.
    by apply lookup_app_l_Some.
  - unfold update_attempt. destruct (cr_active c !! e) as [i|]; [|rewrite Hrow; by eauto].
    match goal with |- context [on_row i ?f c] => destruct (Hon i f) as [? Hc] end.
    split_and!; [done| |done]. rewrite Hc. by destruct (decide (i = j)).
  - assert (∀ i, cr_active c !! e = Some i → i = j → e = eid) as Hown.
    { intros i Hi ->. destruct (Hwf _ _ Hi) as (r1 & E1 & <-).
      destruct (Hwf _ _ Hj) as (r2 & E2 & <-). congruence. }
    unfold cancel_locked. rewrite Hj, Hr. destruct (cr_active c !! e) as [i|] eqn:Ei.
    + destruct (cr_rows c !! i) as [r|] eqn:Er.
      * destruct (decide (e = eid)) as [->|Hne].
        -- simplify_eq. rewrite bool_decide_eq_true_2, andb_true_r by done.
           destruct (ax_cancelled row) eqn:Ec; simpl;
             match goal with |- context [on_row j ?f c] => destruct (Hon j f) as [? Hc] end;
             rewrite Hc, decide_True by done; simpl; by rewrite Ec.
        -- rewrite (bool_decide_eq_false_2 (e = eid)), andb_false_r, orb_false_r by done.
           destruct (ax_cancelled r); simpl;
             match goal with |- context [on_row i ?f c] => destruct (Hon i f) as [? Hc] end;
             (split_and!; [done| |done]); rewrite Hc;
             destruct (decide (i = j)) as [->|?]; try done; by destruct Hne; eapply Hown.
      * destruct (Hwf _ _ Ei) as (? & ? & _). congruence.
    + simpl. rewrite Hrow. assert (e ≠ eid) as Hne by congruence.
      rewrite bool_decide_eq_false_2, orb_false_r, andb_false_r by done. by eauto.
  - unfold note_late_event. destruct (cr_active c !! e) as [i|]; simpl; [|rewrite Hrow; by eauto].
    destruct (cr_rows c !! i) as [r|]; simpl; [|rewrite Hrow; by eauto].
    destruct (ax_cancelled r); simpl; [|rewrite Hrow; by eauto].
    match goal with |- context [on_row i ?f c] => destruct (Hon i f) as [? Hc] end.
    split_and!; [done| |done]. rewrite Hc. by destruct (decide (i = j)).
  - assert (registry_get (clear e c) eid = Some row) as ->; [|by eauto].
    unfold registry_get, clear. simpl. rewrite lookup_delete_ne, Hj by done. done.
Qed.

(** How often the cancel function of an execution is started along a history. *)
Fixpoint times_started (eid : string) (ops : list registry_op) (c : CancellationRegistry) : nat :=
  match ops with
  | [] => 0
  | o :: rest => (if starts eid o c then 1 else 0) + times_started eid rest (apply_op o c)
  end.

(** From its registration on, and until it is cleared or registered anew, an execution is
    cancelled exactly when a cancellation of it has come in, it stays so, and its cancel
    function is started exactly once however often it is cancelled. *)
Theorem cancellation_is_idempotent eid b h a fn fresh now c ops :
  registry_wf c → Forall (leaves eid) ops →
  let c0 := register eid b h a fn fresh now c in
  is_cancelled (foldl (λ c o, apply_op o c) c0 ops) eid = existsb (cancels eid) ops ∧
  times_started eid ops c0 = if existsb (cancels eid) ops then 1 else 0.
Proof.
  intros Hwf Hops c0.
  assert (registry_wf c0) as Hwf0 by exact (apply_op_wf (OpRegister eid b h a fn fresh now) c Hwf).
  assert (∃ r, registry_get c0 eid = Some r ∧ ax_cancelled r = false) as (r & Hget & Hr).
  { eexists. unfold registry_get, c0, register. simpl. rewrite lookup_insert_eq. simpl.
    by split; [apply list_lookup_middle|]. }
  assert (is_cancelled c0 eid = false) as Hnot by (unfold is_cancelled; by rewrite Hget).
  assert (is_Some (registry_get c0 eid)) as Hsome by by eexists.
  clear Hget. revert Hwf0 Hnot Hsome. generalize c0. clear c0 Hwf.
  assert (∀ c0, registry_wf c0 → is_Some (registry_get c0 eid) →
    is_cancelled (foldl (λ c o, apply_op o c) c0 ops) eid =
      is_cancelled c0 eid || existsb (cancels eid) ops ∧
    times_started eid ops c0 =
      if negb (is_cancelled c0 eid) && existsb (cancels eid) ops then 1 else 0) as Hgen.
  { induction Hops as [|o ops Ho Hops IH]; intros c0 Hwf0 Hsome; simpl.
    { by rewrite orb_false_r, andb_false_r. }
    destruct (registry_step eid o c0 Hwf0 Ho Hsome) as (Hs & Hc & Hst).
    destruct (IH _ (apply_op_wf _ _ Hwf0) Hs) as [IH1 IH2].
    rewrite IH1, IH2, Hc, Hst. by destruct (is_cancelled c0 eid), (cancels eid o). }
  intros c0 Hwf0 Hnot Hsome. destruct (Hgen c0 Hwf0 Hsome) as [H1 H2].
  by rewrite H1, H2, Hnot.
Qed.

(** ** Concrete runs *)

#[local] Existing Instance counting_lib.

Definition demo_result (ok : bool) (why : string) (failure : option string) : ExecutionResult :=
  {| xr_ok := ok; xr_execution_id := "e"; xr_backend_id := "b"; xr_harness_id := "h";
     xr_message := why; xr_output := []; xr_failure_class := failure; xr_usage := [];
     xr_evidence_refs := []; xr_candidate_verification := []; xr_restore_status := None;
     xr_verification := [] |}.

(** A backend that supports the listed harnesses and answers as it is told. *)
Definition demo_backend (id : string) (harnesses : list string) (health : res BackendHealth)
    (answer : res ExecutionResult) : ExecutionBackend unit :=
  {| be_backend_id := id;
     be_capabilities := {[ FILESYSTEM; PERSISTENT_WORKSPACE; LOCAL_PROCESS ]};
     be_supports _ h := h in? harnesses;
     be_health := lift_res health;
     be_prepare _ _ := mret []; be_validate _ _ := mret tt;
     be_execute _ _ _ := lift_res answer;
     be_cancel _ := mret PNone; be_cleanup _ := mret tt |}.

Definition good_health (id : string) : res BackendHealth :=
  Ok {| bh_healthy := true; bh_backend_id := id; bh_detail := "ok"; bh_capabilities := ∅;
        bh_state := "healthy" |}.

Definition demo_router (backends : list (string * ExecutionBackend unit))
    (subs : list (string * bool)) : ExecutionRouter unit :=
  {| rt_registry := {| rg_config :=
         {| enabled_backends := dict_keys backends; priority := dict_keys backends;
            default_backend := None; bc_fallback_order := dict_keys backends;
            capability_overrides := []; bc_fireconnect := []; registry_revision := "v1";
            allow_stub_backends := false |};
       rg_backends := backends; rg_overrides := [] |};
     rt_available_harnesses := sorted_strs (elements KNOWN_HARNESSES);
     rt_subscription_allows := subs; rt_quota_allows := [];
     rt_profiles := builtin_capability_profiles; rt_available_connectors := None |}.

Definition demo_mission (prompt : string) : MissionSpec :=
  {| ms_prompt := prompt; ms_workspace_path := "/w"; ms_mission_id := "m";
     ms_project_id := None; ms_organisation_id := None; ms_workspace_ref := None;
     ms_execution_authorisation_id := None; ms_preferred_model := None;
     ms_preferred_harness := None; ms_required_capabilities := ∅;
     ms_optional_capabilities := ∅; ms_requires_provider_route := false;
     ms_requires_internet := false; ms_requires_gpu := false;
     ms_requires_local_filesystem := true; ms_requires_ephemeral_workspace := false;
     ms_requires_remote_worker := false; ms_estimated_runtime_seconds := None;
     ms_estimated_token_usage := None; ms_cost_preference := "balanced";
     ms_locality_preference := "any"; ms_timeout_seconds := 300;
     ms_organisation_policy := []; ms_subscription_constraints := [];
     ms_routing_preferences := []; ms_metadata := []; ms_correlation_id := None |}.

Definition demo_state : RouterState unit :=
  {| st_ticks := 0; st_cancel := CancellationRegistry_init; st_world := tt |}.

Definition all_demo : list string := ["claude"; "codex"; "cursor"; "grok"; "opencode"; "vscode"].
(** The first backend is rate limited, the second works. *)
Definition two_backends : ExecutionRouter unit := demo_router
  [("local", demo_backend "local" all_demo (good_health "local")
      (Ok (demo_result false "slow down" (Some "rate_limited"))));
   ("joymesh", demo_backend "joymesh" all_demo (good_health "joymesh")
      (Ok (demo_result true "done" None)))] [].

Definition no_intent : ExecutionIntent :=
  {| it_mission_id := ""; it_execution_id := ""; it_prompt := "";
     it_workspace_path := ""; it_required_capabilities := ∅; it_preferred_model := None;
     it_preferred_harness := None; it_requires_provider_route := false;
     it_requires_ephemeral_workspace := false; it_estimated_runtime_seconds := None;
     it_estimated_token_usage := None; it_cost_preference := ""; it_project_id := None;
     it_organisation_id := None; it_workspace_ref := None;
     it_execution_authorisation_id := None; it_timeout_seconds := 0;
     it_locality_preference := ""; it_organisation_policy := [];
     it_subscription_constraints := []; it_routing_preferences := []; it_metadata := [];
     it_correlation_id := None; it_task_class := None;
     it_required_semantic_capabilities := ∅; it_task_analysis := [] |}.
Definition demo_intent (prompt : string) : ExecutionIntent :=
  from_ok no_intent (plan 0 (demo_mission prompt)).
Definition demo_decision : ExecutionDecision :=
  {| ed_execution_id := "execution_0"; ed_selected_backend_id := "local";
     ed_selected_harness_id := "codex"; ed_reason := ""; ed_fallback_order := ["joymesh"];
     ed_provider_routing_required := false; ed_retry_policy := []; ed_scores := [];
     ed_capability_match := []; ed_policy_result := []; ed_health_snapshot := [];
     ed_quota_snapshot := []; ed_registry_revision := "v1"; ed_decided_at := 0;
     ed_selected_connector_id := None; ed_selected_model_id := None; ed_route_score := None;
     ed_route_candidates := []; ed_task_analysis := [] |}.
Definition demo_run :=
  execute_with_fallback two_backends (demo_intent "refactor the parser") (Some demo_decision)
    demo_state.

Definition no_run : RoutedResult :=
  {| rr_result := demo_result false "" None; rr_status := ES_FAILED;
     rr_attempted_backends := []; rr_decision := None; rr_audits := []; rr_attempts := [] |}.
Definition demo_outcome : RoutedResult := from_ok no_run demo_run.1.

Lemma demo_run_ok :
  execute_with_fallback two_backends (demo_intent "refactor the parser") (Some demo_decision)
    demo_state = (Ok demo_outcome, demo_run.2).
Proof. fold demo_run. apply surjective_pairing_Ok, from_ok_eq. by vm_compute. Qed.
Lemma demo_run_succeeds : xr_ok (rr_result demo_outcome) = true ∧
  rr_attempted_backends demo_outcome = ["local"; "joymesh"].
Proof. by vm_compute. Qed.

Lemma routed_success_is_a_backend_success_witness :
  ∃ b, b ∈ ed_selected_backend_id demo_decision :: ed_fallback_order demo_decision ∧
    entitled two_backends (demo_intent "refactor the parser") b ∧
    executed_ok two_backends (demo_intent "refactor the parser") demo_decision b demo_outcome.
Proof.
  exact (routed_success_is_a_backend_success two_backends (demo_intent "refactor the parser")
    demo_decision demo_state demo_outcome demo_run.2 demo_run_ok (proj1 demo_run_succeeds)).
Defined.

Lemma attempts_follow_the_order_witness :
  ∃ A, rr_attempts demo_outcome = ExecutionAttemptRecord_as_dict <$> A ∧
    ar_backend_id <$> A `prefix_of`
      ed_selected_backend_id demo_decision :: ed_fallback_order demo_decision ∧
    ar_attempt_number <$> A = seqZ 1 (Z.of_nat (length A)) ∧
    Forall (λ a, ar_execution_id a = it_execution_id (demo_intent "refactor the parser")) A ∧
    Forall (entitled two_backends (demo_intent "refactor the parser")) (ar_backend_id <$> A).
Proof.
  exact (attempts_follow_the_order two_backends (demo_intent "refactor the parser")
    demo_decision demo_state demo_outcome demo_run.2 demo_run_ok).
Defined.

Lemma fallback_needs_an_eligible_failure_witness :
  ∃ A, rr_attempts demo_outcome = ExecutionAttemptRecord_as_dict <$> A ∧
    ∀ i a, A !! i = Some a → S i < length A → moved_on a.
Proof.
  destruct (fallback_needs_an_eligible_failure two_backends (demo_intent "refactor the parser")
    demo_decision demo_state demo_outcome demo_run.2 demo_run_ok) as (A & HA & Hm & _).
  exists A. split; [exact HA|exact Hm].
Defined.

(** The decision the router takes by itself. *)
Definition selected_decision : ExecutionDecision :=
  from_ok demo_decision (select_decision two_backends 7 (demo_intent "refactor the parser")).
Lemma selected_decision_ok :
  select_decision two_backends 7 (demo_intent "refactor the parser") = Ok selected_decision.
Proof. apply from_ok_eq. by vm_compute. Qed.

Lemma decision_backends_are_fit_witness :
  ∃ h, (otruthy (it_preferred_harness (demo_intent "refactor the parser")) = true →
        h = ed_selected_harness_id selected_decision) ∧
    ∀ b, b ∈ ed_selected_backend_id selected_decision :: ed_fallback_order selected_decision →
      fit two_backends (demo_intent "refactor the parser") h b ∧
      (ed_provider_routing_required selected_decision = true → advertises two_backends b).
Proof.
  exact (decision_backends_are_fit two_backends (demo_intent "refactor the parser") 7
    selected_decision selected_decision_ok).
Defined.

Lemma private_plan :
  plan 0 (demo_mission "fix our private repo") = Ok (demo_intent "fix our private repo").
Proof. apply from_ok_eq. by vm_compute. Qed.

Lemma analysis_survives_planning_witness :
  let a := analyse "fix our private repo" [] in
  _task_analysis (demo_intent "fix our private repo") =
    Ok {| task_class := task_class a; required_semantic := required_semantic a;
          optional_semantic := ∅; derived_execution_capabilities := ∅;
          privacy_required := privacy_required a; prefers_local := prefers_local a;
          estimated_complexity := estimated_complexity a; ta_reasons := ta_reasons a;
          ta_metadata := ta_metadata a |}.
Proof. exact (analysis_survives_planning 0 _ _ private_plan). Defined.

Lemma policy_survives_planning_witness :
  _routing_policy (demo_intent "fix our private repo") =
    from_mapping (planned_preferences (demo_mission "fix our private repo")
      (analyse "fix our private repo" [])).
Proof. exact (policy_survives_planning 0 _ _ private_plan eq_refl eq_refl). Defined.

(** So private work is routed with the local preference set. *)
Example private_work_prefers_local :
  match _routing_policy (demo_intent "fix our private repo") with
  | Ok p => prefer_local p = true
  | Raise _ => False
  end.
Proof. by vm_compute. Qed.

Lemma cancellation_is_idempotent_witness :
  let ops := [OpLate "e"; OpCancel "e"; OpClear "other"; OpCancel "e"] in
  let c0 := register "e" "local" None None (Some ("local", "e")) "0" 0 CancellationRegistry_init in
  is_cancelled (foldl (λ c o, apply_op o c) c0 ops) "e" = true ∧ times_started "e" ops c0 = 1.
Proof.
  apply (cancellation_is_idempotent "e" "local" None None (Some ("local", "e")) "0" 0
    CancellationRegistry_init [OpLate "e"; OpCancel "e"; OpClear "other"; OpCancel "e"]).
  - intros eid i. simpl. by rewrite lookup_empty.
  - by repeat constructor.
Defined.

(** *** Runs that show a defect *)

Definition demo_execute (R : ExecutionRouter unit) : res RoutedResult * RouterState unit :=
  execute_with_fallback R (demo_intent "refactor the parser") (Some demo_decision) demo_state.
Definition still_registered (s : RouterState unit) : bool :=
  match registry_get (st_cancel s) "execution_0" with Some _ => true | None => false end.

(** A run that ends blocked leaves its entry in the registry; one that fails does not. *)
Example blocked_run_stays_registered :
  let blocked := demo_execute (demo_router (rg_backends (rt_registry two_backends))
    [("joymesh", false)]) in
  let failed := demo_execute (demo_router
    [("local", demo_backend "local" all_demo (good_health "local")
        (Ok (demo_result false "no" (Some "policy_denied"))))] []) in
  rr_status (from_ok no_run blocked.1) = ES_BLOCKED ∧ still_registered blocked.2 = true ∧
  rr_status (from_ok no_run failed.1) = ES_BLOCKED ∧ still_registered failed.2 = false.
Proof. by vm_compute. Qed.

(** An exception of [health] leaves the router: no fallback, and the entry stays. *)
Example health_exception_escapes :
  let run := demo_execute (demo_router
    [("local", demo_backend "local" all_demo (Raise (Exn "OSError" "" "no socket"))
        (Ok (demo_result true "done" None)));
     ("joymesh", demo_backend "joymesh" all_demo (good_health "joymesh")
        (Ok (demo_result true "done" None)))] []) in
  run.1 = Raise (Exn "OSError" "" "no socket") ∧ still_registered run.2 = true.
Proof. by vm_compute. Qed.

(** An exception while a backend executes counts as a preparation failure, so the execution is
    started again on the next backend. *)
Example exception_during_execute_falls_back :
  let r := from_ok no_run (demo_execute (demo_router
    [("local", demo_backend "local" all_demo (good_health "local")
        (Raise (Exn "TimeoutError" "" "lost contact")));
     ("joymesh", demo_backend "joymesh" all_demo (good_health "joymesh")
        (Ok (demo_result true "done" None)))] [])).1 in
  rr_attempted_backends r = ["local"; "joymesh"] ∧
  (dget "failure_class" <$> rr_attempts r) = [PStr "preparation_failure"; PNone].
Proof. by vm_compute. Qed.

(** The scored route may name a harness that no backend supports: the decision then joins it
    to a backend that was ranked for another harness, and the run fails although a capable
    and supported harness was there. *)
Example decision_names_an_unsupported_harness :
  let backend := demo_backend "local" ["claude"] (good_health "local")
    (Ok (demo_result true "done" None)) in
  let R := demo_router [("local", backend)] [] in
  let intent := demo_intent "hello" in
  let d := from_ok demo_decision (select_decision R 0 intent) in
  ed_selected_backend_id d = "local" ∧ ed_selected_harness_id d = "cursor" ∧
  be_supports backend intent "cursor" = false ∧
  (xr_message ∘ rr_result) (from_ok no_run (execute_with_fallback R intent None demo_state).1)
    = "all backends failed or unavailable: capability mismatch".
Proof. by vm_compute. Qed.

(** Private work gets a local route, but the fallback of its decision is a remote backend; and
    when only the remote backend is there, it is selected without any route. *)
Example private_work_reaches_a_remote_backend :
  let remote := ("fireconnect", demo_backend "fireconnect" all_demo (good_health "fireconnect")
    (Ok (demo_result true "done" None))) in
  let local := ("local", demo_backend "local" all_demo (good_health "local")
    (Ok (demo_result true "done" None))) in
  let intent := demo_intent "fix our private repo" in
  let both := from_ok demo_decision (select_decision (demo_router [local; remote] []) 0 intent) in
  let only := from_ok demo_decision (select_decision (demo_router [remote] []) 0 intent) in
  (ed_selected_backend_id both, ed_fallback_order both) = ("local", ["fireconnect"]) ∧
  (ed_selected_backend_id only, ed_selected_connector_id only) = ("fireconnect", None).
Proof. by vm_compute. Qed.
