(* ===== verification/RouteSelection.v ===== *)
(** * Provider routes: data, selection, authority

    [runtime_v1/provider_routes/protocol.py], [selection.py] and the check of
    [authority.py]: the snapshots a route manager reports, the choice of one of them for a
    connector that was already selected, and who may change a route. *)

From Stdlib Require Import SpecFloat.
From S2P Require Import Prelude.

(** ** Data *)

(* @src runtime_v1/provider_routes/protocol.py:34-56 ProviderRoute *)
Record ProviderRoute := {
  pr_route_id : string;
  pr_display_name : string;
  pr_manager_id : option string;
  pr_connector_id : string;
  pr_provider_id : string;
  pr_model_id : option string;
  pr_enabled : bool;
  pr_available : bool;
  pr_authenticated : bool;
  pr_configuration_status : string;
  pr_credential_source : option string;
  pr_supports_enable : bool;
  pr_supports_disable : bool;
  pr_supports_status : bool;
  pr_supports_model_selection : bool;
  pr_supports_usage_status : bool;
  pr_last_checked_at : Z;
  pr_reason_code : option string;
  pr_details : dict
}.

(* @src runtime_v1/provider_routes/protocol.py:58-79 ProviderRoute.as_dict *)
Definition ProviderRoute_as_dict `{PyLib} (r : ProviderRoute) : dict :=
  [("route_id", PStr (pr_route_id r)); ("display_name", PStr (pr_display_name r));
   ("manager_id", ostr (pr_manager_id r)); ("connector_id", PStr (pr_connector_id r));
   ("provider_id", PStr (pr_provider_id r)); ("model_id", ostr (pr_model_id r));
   ("enabled", PBool (pr_enabled r)); ("available", PBool (pr_available r));
   ("authenticated", PBool (pr_authenticated r));
   ("configuration_status", PStr (pr_configuration_status r));
   ("credential_source", ostr (pr_credential_source r));
   ("supports_enable", PBool (pr_supports_enable r));
   ("supports_disable", PBool (pr_supports_disable r));
   ("supports_status", PBool (pr_supports_status r));
   ("supports_model_selection", PBool (pr_supports_model_selection r));
   ("supports_usage_status", PBool (pr_supports_usage_status r));
   ("last_checked_at", PStr (isoformat (pr_last_checked_at r)));
   ("reason_code", ostr (pr_reason_code r)); ("details", PDict (pr_details r))].

(* @src runtime_v1/provider_routes/protocol.py:82-93 ProviderRouteManagerDiscovery *)
Record ProviderRouteManagerDiscovery := {
  pd_executable_path : option string;
  pd_version : option string;
  pd_fingerprint : option string;
  pd_installed : bool;
  pd_usable : bool;
  pd_supported_harnesses : list string;
  pd_status_capability : string;
  pd_configuration_locations : list string;
  pd_reason_code : option string;
  pd_details : dict
}.

(* @src runtime_v1/provider_routes/protocol.py:95-107 ProviderRouteManagerDiscovery.as_dict *)
Definition ProviderRouteManagerDiscovery_as_dict (d : ProviderRouteManagerDiscovery) : dict :=
  [("executable_path", ostr (pd_executable_path d)); ("version", ostr (pd_version d));
   ("fingerprint", ostr (pd_fingerprint d)); ("installed", PBool (pd_installed d));
   ("usable", PBool (pd_usable d));
   ("supported_harnesses", PList (PStr <$> pd_supported_harnesses d));
   ("status_capability", PStr (pd_status_capability d));
   ("configuration_locations", PList (PStr <$> pd_configuration_locations d));
   ("reason_code", ostr (pd_reason_code d)); ("details", PDict (pd_details d))].

(* @src runtime_v1/provider_routes/protocol.py:110-116 ProviderRouteAuthEvidence *)
Record ProviderRouteAuthEvidence := {
  pa_status : string;
  pa_detail : string;
  pa_signed_in : bool;
  pa_credential_source : option string;
  pa_details : dict
}.

(* @src runtime_v1/provider_routes/protocol.py:118-125 ProviderRouteAuthEvidence.as_dict *)
Definition ProviderRouteAuthEvidence_as_dict (e : ProviderRouteAuthEvidence) : dict :=
  [("status", PStr (pa_status e)); ("detail", PStr (pa_detail e));
   ("signed_in", PBool (pa_signed_in e));
   ("credential_source", ostr (pa_credential_source e)); ("details", PDict (pa_details e))].

(* @src runtime_v1/provider_routes/protocol.py:128-137 ProviderRouteMutationApproval *)
Record ProviderRouteMutationApproval := {
  ap_approved : bool;
  ap_action : string;
  ap_manager_id : string;
  ap_connector_id : string;
  ap_nonce : string;
  ap_model_id : option string
}.

(* @src runtime_v1/provider_routes/protocol.py:140-149 ProviderRouteMutationResult *)
Record ProviderRouteMutationResult := {
  mr_ok : bool;
  mr_action : string;
  mr_route : option ProviderRoute;
  mr_previous_snapshot : dict;
  mr_restored : bool;
  mr_reason_code : option string;
  mr_message : string;
  mr_details : dict
}.

(* @src runtime_v1/provider_routes/protocol.py:151-161 ProviderRouteMutationResult.as_dict *)
Definition ProviderRouteMutationResult_as_dict `{PyLib} (r : ProviderRouteMutationResult) :
    dict :=
  [("ok", PBool (mr_ok r)); ("action", PStr (mr_action r));
   ("route", from_option (λ p, PDict (ProviderRoute_as_dict p)) PNone (mr_route r));
   ("previous_snapshot", PDict (mr_previous_snapshot r)); ("restored", PBool (mr_restored r));
   ("reason_code", ostr (mr_reason_code r)); ("message", PStr (mr_message r));
   ("details", PDict (mr_details r))].

(* @src runtime_v1/provider_routes/protocol.py:164-174 ProviderRouteSelectionResult *)
Record ProviderRouteSelectionResult := {
  sr_connector_id : string;
  sr_connector_candidates : list string;
  sr_selected_connector : option string;
  sr_connector_selection_reason : string;
  sr_provider_route_candidates : list ProviderRoute;
  sr_selected_provider_route : option ProviderRoute;
  sr_provider_selection_reason : string;
  sr_selected_model : option string;
  sr_rejected_candidates : list dict
}.

(* @src runtime_v1/provider_routes/protocol.py:176-191 ProviderRouteSelectionResult.as_dict *)
Definition ProviderRouteSelectionResult_as_dict `{PyLib} (r : ProviderRouteSelectionResult) :
    dict :=
  [("connector_id", PStr (sr_connector_id r));
   ("connector_candidates", PList (PStr <$> sr_connector_candidates r));
   ("selected_connector", ostr (sr_selected_connector r));
   ("connector_selection_reason", PStr (sr_connector_selection_reason r));
   ("provider_route_candidates",
      PList ((λ p, PDict (ProviderRoute_as_dict p)) <$> sr_provider_route_candidates r));
   ("selected_provider_route",
      from_option (λ p, PDict (ProviderRoute_as_dict p)) PNone (sr_selected_provider_route r));
   ("provider_selection_reason", PStr (sr_provider_selection_reason r));
   ("selected_model", ostr (sr_selected_model r));
   ("rejected_candidates", PList (PDict <$> sr_rejected_candidates r))].

(** ** Selection *)

(** The arguments of the selection that stay the same over the loop. *)
Record RouteRequest := {
  rq_connector_id : string;
  rq_preferred_providers : list string;
  rq_required_provider : option string;
  rq_allowed_providers : option (list string);
  rq_allow_disabled : bool
}.

(** The reason one round of the loop rejects a route for. *)
(* @src runtime_v1/provider_routes/selection.py:32-81 select_provider_route *)
Definition provider_rejection (q : RouteRequest) (route : ProviderRoute) : option string :=
  if pr_connector_id route != rq_connector_id q then Some "connector_mismatch"
  else if match rq_allowed_providers q with
          | Some allowed => negb (pr_provider_id route in? allowed)
          | None => false
          end then Some "provider_not_allowed"
  else if otruthy (rq_required_provider q) &&
          (Some (pr_provider_id route) != rq_required_provider q)
  then Some "required_provider_mismatch"
  else if negb (pr_available route) then
    Some (if otruthy (pr_reason_code route)
          then default "" (pr_reason_code route) else "provider_unavailable")
  else if negb (rq_allow_disabled q) && (pr_provider_id route != "native")
          && negb (pr_enabled route) then Some "route_not_enabled"
  else if (pr_provider_id route != "native") && negb (pr_authenticated route)
          && pr_enabled route then Some "authentication_required"
  else None.

Definition rejected_entry (route : ProviderRoute) (reason : string) : dict :=
  [("route_id", PStr (pr_route_id route)); ("reason_code", PStr reason)].

Fixpoint partition_routes (q : RouteRequest) (routes : list ProviderRoute)
    (rejected : list dict) (eligible : list ProviderRoute) :
    list dict * list ProviderRoute :=
  match routes with
  | [] => (rejected, eligible)
  | route :: routes' =>
      match provider_rejection q route with
      | Some reason =>
          partition_routes q routes' (rejected ++ [rejected_entry route reason]) eligible
      | None => partition_routes q routes' rejected (eligible ++ [route])
      end
  end.

(** [preferred_providers.index(p)]: the first position. *)
Fixpoint str_index (p : string) (l : list string) : nat :=
  match l with
  | [] => 0
  | x :: l' => if p == x then 0 else S (str_index p l')
  end.

Abbreviation sort_key_t := (spec_float * string * string)%type.

(* @src runtime_v1/provider_routes/selection.py:96-104 select_provider_route.sort_key *)
Definition provider_sort_key (q : RouteRequest) (route : ProviderRoute) : sort_key_t :=
  let preferred := rq_preferred_providers q in
  let preference :=
    match preferred with
    | _ :: _ => if pr_provider_id route in? preferred
                then z_to_float (Z.of_nat (str_index (pr_provider_id route) preferred))
                else z_to_float 100
    | [] => if pr_provider_id route == "native" then z_to_float 0 else z_to_float 10
    end in
  (preference, pr_provider_id route, pr_route_id route).

(** Tuples compare by their first difference. *)
Definition sort_key_leb (a b : sort_key_t) : bool :=
  if sf_eqb a.1.1 b.1.1 then
    if a.1.2 == b.1.2 then str_leb a.2 b.2 else str_leb a.1.2 b.1.2
  else fle a.1.1 b.1.1.

Definition by_sort_key (q : RouteRequest) (a b : ProviderRoute) : bool :=
  sort_key_leb (provider_sort_key q a) (provider_sort_key q b).

(* @src runtime_v1/provider_routes/selection.py:83-125 select_provider_route *)
Definition select_provider_route (q : RouteRequest) (routes : list ProviderRoute) :
    ProviderRouteSelectionResult :=
  let '(rejected, eligible) := partition_routes q routes [] [] in
  let result selected reason model :=
    {| sr_connector_id := rq_connector_id q;
       sr_connector_candidates := [rq_connector_id q];
       sr_selected_connector := Some (rq_connector_id q);
       sr_connector_selection_reason := "provided";
       sr_provider_route_candidates := routes;
       sr_selected_provider_route := selected;
       sr_provider_selection_reason := reason;
       sr_selected_model := model;
       sr_rejected_candidates := rejected |} in
  match py_sorted (by_sort_key q) eligible with
  | [] => result None "no_eligible_provider_route" None
  | selected :: _ =>
      let reason :=
        if pr_provider_id selected in? rq_preferred_providers q then "preferred_provider"
        else if otruthy (rq_required_provider q) then "required_provider"
        else "deterministic_default" in
      result (Some selected) reason (pr_model_id selected)
  end.

(** [now] is the reading of the clock the snapshot defaults to. *)
(* @src runtime_v1/provider_routes/selection.py:128-147 native_route_for *)
Definition native_route_for (now : Z) (connector_id : string) (authenticated : bool) :
    ProviderRoute :=
  {| pr_route_id := connector_id +:+ ":native";
     pr_display_name := connector_id +:+ " native provider";
     pr_manager_id := None; pr_connector_id := connector_id; pr_provider_id := "native";
     pr_model_id := None; pr_enabled := true; pr_available := true;
     pr_authenticated := authenticated; pr_configuration_status := "valid";
     pr_credential_source := Some "harness_native";
     pr_supports_enable := false; pr_supports_disable := false; pr_supports_status := true;
     pr_supports_model_selection := false; pr_supports_usage_status := false;
     pr_last_checked_at := now; pr_reason_code := None;
     pr_details := [("synthetic", PBool true)] |}.

(** ** Authority *)

(* @src runtime_v1/provider_routes/authority.py:22-30 MutationAuthority *)
Record MutationAuthority := {
  au_token : string;
  au_manager_id : string;
  au_connector_id : string;
  au_purpose : string;
  au_lease_id : option string
}.

(* @src runtime_v1/provider_routes/authority.py:33-42 MutationAuthorityError *)
Definition MutationAuthorityError (message : string) : exn :=
  Exn "MutationAuthorityError" "mutation_authority_required" message.

(** [current] is what the context variable holds in the current task. *)
(* @src runtime_v1/provider_routes/authority.py:55-65 require_mutation_authority *)
Definition require_mutation_authority (current : option MutationAuthority)
    (manager_id connector_id : string) : res MutationAuthority :=
  match current with
  | None => Raise (MutationAuthorityError
      "provider-route mutation requires an active coordinator lease context")
  | Some authority =>
      if (au_manager_id authority != manager_id) || (au_connector_id authority != connector_id)
      then Raise (MutationAuthorityError
        "provider-route mutation authority does not match manager/connector")
      else Ok authority
  end.

(** ** The order of the sort keys *)

Definition key_number (k : sort_key_t) : Prop := is_nan k.1.1 = false.

Lemma provider_sort_key_number q r : key_number (provider_sort_key q r).
Proof.
  unfold key_number, provider_sort_key. cbn [fst snd].
  destruct (rq_preferred_providers q); case_bool_decide; apply z_to_float_number.
Qed.

Lemma sort_key_leb_spec a b :
  key_number a → key_number b →
  sort_key_leb a b = true ↔
  (fle a.1.1 b.1.1 = true ∧
   (float_key a.1.1 = float_key b.1.1 →
    str_leb a.1.2 b.1.2 = true ∧ (a.1.2 = b.1.2 → str_leb a.2 b.2 = true))).
Proof.
  destruct a as [[fa pa] ra], b as [[fb pb] rb]. unfold key_number, sort_key_leb. simpl.
  intros Ha Hb. pose proof (sf_eqb_key fa fb Ha Hb) as He.
  pose proof (fle_key fa fb Ha Hb) as Hle.
  destruct (sf_eqb fa fb).
  - destruct He as [He _]. specialize (He eq_refl). rewrite He in *.
    assert (fle fa fb = true) as Hf.
    { apply Hle. destruct (float_key fb) as [[??]?]. simpl. lia. }
    case_bool_decide as Hp; [subst|]; split; try naive_solver.
    intros Hr. split_and!; [done|]. intros _. split; [|done].
    destruct (str_leb_total pb pb); done.
  - split; [|naive_solver]. intros Hf. split; [done|]. intros Hk. by apply He in Hk.
Qed.

Lemma sort_key_leb_total a b :
  key_number a → key_number b → sort_key_leb a b = true ∨ sort_key_leb b a = true.
Proof.
  intros Ha Hb. rewrite !sort_key_leb_spec by done.
  destruct (decide (float_key a.1.1 = float_key b.1.1)) as [He|Hne].
  - assert (fle a.1.1 b.1.1 = true ∧ fle b.1.1 a.1.1 = true) as [H1 H2].
    { rewrite !fle_key by done. rewrite He. destruct (float_key b.1.1) as [[??]?]. simpl. lia. }
    destruct (decide (a.1.2 = b.1.2)) as [Hp|Hp].
    + rewrite Hp. pose proof (str_leb_refl b.1.2).
      destruct (str_leb_total a.2 b.2); naive_solver.
    + destruct (str_leb_total a.1.2 b.1.2); naive_solver.
  - destruct (fle_total a.1.1 b.1.1 Ha Hb); naive_solver.
Qed.

(** Two keys that are below each other name the same provider and route. *)
Lemma sort_key_leb_antisym a b :
  key_number a → key_number b → sort_key_leb a b = true → sort_key_leb b a = true →
  a.1.2 = b.1.2 ∧ a.2 = b.2.
Proof.
  intros Ha Hb. rewrite !sort_key_leb_spec by done. intros [F1 S1] [F2 S2].
  rewrite fle_key in F1, F2 by done.
  assert (float_key a.1.1 = float_key b.1.1) as He.
  { destruct (float_key a.1.1) as [[??]?], (float_key b.1.1) as [[??]?]. simpl in *.
    repeat f_equal; lia. }
  destruct (S1 He) as [P1 R1], (S2 (eq_sym He)) as [P2 R2].
  assert (a.1.2 = b.1.2) as Hp by by apply str_leb_antisym.
  split; [done|]. apply str_leb_antisym; auto.
Qed.

Lemma sort_key_leb_trans a b c :
  key_number a → key_number b → key_number c →
  sort_key_leb a b = true → sort_key_leb b c = true → sort_key_leb a c = true.
Proof.
  intros Ha Hb Hc. rewrite !sort_key_leb_spec by done. intros [F1 S1] [F2 S2].
  split; [by apply (fle_trans _ b.1.1)|]. intros He.
  assert (float_key a.1.1 = float_key b.1.1 ∧ float_key b.1.1 = float_key c.1.1) as [E1 E2].
  { rewrite fle_key in F1, F2 by done.
    destruct (float_key a.1.1) as [[??]?], (float_key b.1.1) as [[??]?],
      (float_key c.1.1) as [[??]?]. simpl in *. simplify_eq. split; repeat f_equal; lia. }
  destruct (S1 E1) as [P1 R1], (S2 E2) as [P2 R2].
  split; [by apply (str_leb_trans _ b.1.2)|]. intros Hp.
  assert (a.1.2 = b.1.2) as Hab.
  { apply str_leb_antisym; [done|]. by rewrite Hp. }
  apply (str_leb_trans _ b.2); [by apply R1|]. apply R2. congruence.
Qed.

(** ** Lemmas on the selection *)

Definition eligible_routes (q : RouteRequest) (routes : list ProviderRoute) :
    list ProviderRoute :=
  filter (λ r, provider_rejection q r = None) routes.
Definition rejections (q : RouteRequest) (routes : list ProviderRoute) : list dict :=
  omap (λ r, rejected_entry r <$> provider_rejection q r) routes.

Lemma partition_routes_eq q routes rejected eligible :
  partition_routes q routes rejected eligible =
  (rejected ++ rejections q routes, eligible ++ eligible_routes q routes).
Proof.
  unfold rejections, eligible_routes.
  revert rejected eligible. induction routes as [|r l IH]; intros rejected eligible; simpl.
  { by rewrite !app_nil_r. }
  destruct (provider_rejection q r) eqn:E; simpl; rewrite IH.
  - rewrite filter_cons_False by by rewrite E. by rewrite <- app_assoc.
  - rewrite filter_cons_True by done. by rewrite <- app_assoc.
Qed.

Lemma elem_of_eligible q routes r :
  r ∈ eligible_routes q routes ↔ r ∈ routes ∧ provider_rejection q r = None.
Proof. unfold eligible_routes. rewrite list_elem_of_filter. naive_solver. Qed.

Lemma selected_head q routes :
  sr_selected_provider_route (select_provider_route q routes) =
  head (py_sorted (by_sort_key q) (eligible_routes q routes)).
Proof.
  unfold select_provider_route. rewrite partition_routes_eq. simpl.
  by destruct (py_sorted _ _).
Qed.

Lemma sorted_least q l s x :
  head (py_sorted (by_sort_key q) l) = Some s → x ∈ l → by_sort_key q s x = true.
Proof.
  apply (py_sorted_head_le (by_sort_key q)).
  - intros a b. apply sort_key_leb_total; apply provider_sort_key_number.
  - intros a b c. apply sort_key_leb_trans; apply provider_sort_key_number.
Qed.

Lemma head_elem {A} (l : list A) x : head l = Some x → x ∈ l.
Proof. destruct l; intros [= ->]; left. Qed.

Lemma rejections_length q routes :
  length (rejections q routes) + length (eligible_routes q routes) = length routes.
Proof.
  unfold rejections, eligible_routes. induction routes as [|r l IH]; [done|].
  destruct (provider_rejection q r) eqn:E.
  - rewrite filter_cons_False by by rewrite E. csimpl. rewrite E. csimpl. lia.
  - rewrite filter_cons_True by done. csimpl. rewrite E. csimpl. lia.
Qed.

(** What the loop of the code keeps: a route of the connector, of a provider the caller
    allows and requires, which is available, and, unless native, enabled (or disabled
    routes are allowed) and authenticated when enabled. *)
Definition usable_route (q : RouteRequest) (r : ProviderRoute) : Prop :=
  pr_connector_id r = rq_connector_id q ∧
  (∀ allowed, rq_allowed_providers q = Some allowed → pr_provider_id r ∈ allowed) ∧
  (∀ p, rq_required_provider q = Some p → p ≠ "" → pr_provider_id r = p) ∧
  pr_available r = true ∧
  (pr_provider_id r = "native" ∨
   (pr_enabled r = true ∧ pr_authenticated r = true) ∨
   (pr_enabled r = false ∧ rq_allow_disabled q = true)).

Lemma provider_rejection_None q r : provider_rejection q r = None ↔ usable_route q r.
Proof.
  unfold provider_rejection, usable_route, otruthy.
  destruct (decide (pr_connector_id r = rq_connector_id q)) as [Hc|Hc];
    [rewrite (bool_decide_eq_true_2 _ Hc)|rewrite (bool_decide_eq_false_2 _ Hc)];
    simpl; [|naive_solver].
  assert ((match rq_allowed_providers q with
           | Some allowed => negb (bool_decide (pr_provider_id r ∈ allowed))
           | None => false
           end = false) ↔
    ∀ allowed, rq_allowed_providers q = Some allowed → pr_provider_id r ∈ allowed) as Ha.
  { destruct (rq_allowed_providers q) as [al|]; [|naive_solver].
    case_bool_decide; naive_solver. }
  destruct (match rq_allowed_providers q with Some _ => _ | None => _ end);
    [naive_solver|]. destruct Ha as [Ha _]. specialize (Ha eq_refl).
  destruct (rq_required_provider q) as [p|]; simpl;
    [destruct (decide (p = "")) as [->|Hp]; [rewrite bool_decide_eq_true_2 by done|
       rewrite bool_decide_eq_false_2 by done]; simpl|].
  2: destruct (decide (Some (pr_provider_id r) = Some p)) as [Hq|Hq];
    [rewrite (bool_decide_eq_true_2 _ Hq)|rewrite (bool_decide_eq_false_2 _ Hq)]; simpl.
  all: destruct (pr_available r), (rq_allow_disabled q), (pr_enabled r), (pr_authenticated r);
    simpl; repeat case_bool_decide; simpl; naive_solver.
Qed.

(** ** Theorems *)

(** the selection returns a usable route that no usable route precedes in the order of
    the sort key, and no route exactly when none is usable; every other route is in the
    rejected list, in its order, with the reason the checks give. *)
Theorem selection_is_least_usable q routes :
  let result := select_provider_route q routes in
  match sr_selected_provider_route result with
  | Some s => s ∈ routes ∧ usable_route q s ∧ sr_selected_model result = pr_model_id s ∧
      ∀ r, r ∈ routes → usable_route q r → by_sort_key q s r = true
  | None => ∀ r, r ∈ routes → ¬ usable_route q r
  end ∧
  sr_rejected_candidates result = rejections q routes ∧
  length (sr_rejected_candidates result) + length (eligible_routes q routes) = length routes.
Proof.
  simpl. rewrite selected_head. unfold select_provider_route.
  rewrite partition_routes_eq. simpl.
  destruct (py_sorted (by_sort_key q) (eligible_routes q routes)) as [|s l] eqn:Hs; simpl.
  all: (split; [|split; [done|apply rejections_length]]).
  - intros r Hr Hu%provider_rejection_None.
    assert (r ∈ py_sorted (by_sort_key q) (eligible_routes q routes)) as Hin
      by by rewrite elem_of_py_sorted, elem_of_eligible.
    rewrite Hs in Hin. by apply not_elem_of_nil in Hin.
  - assert (s ∈ eligible_routes q routes) as [Hin Hn]%elem_of_eligible.
    { rewrite <- (elem_of_py_sorted (by_sort_key q)), Hs. left. }
    rewrite <- provider_rejection_None. split_and!; [done..|].
    intros r Hr Hu%provider_rejection_None. apply (sorted_least q (eligible_routes q routes)).
    + by rewrite Hs.
    + by apply elem_of_eligible.
Qed.

(** the choice does not depend on the order in which the routes are discovered, when
    no two usable routes share provider and route identifiers. *)
Theorem selection_ignores_order q routes routes' :
  routes ≡ₚ routes' →
  (∀ a b, a ∈ eligible_routes q routes → b ∈ eligible_routes q routes →
     pr_provider_id a = pr_provider_id b → pr_route_id a = pr_route_id b → a = b) →
  sr_selected_provider_route (select_provider_route q routes) =
  sr_selected_provider_route (select_provider_route q routes').
Proof.
  intros Hperm Hinj. rewrite !selected_head.
  assert (eligible_routes q routes ≡ₚ eligible_routes q routes') as Hel
    by by unfold eligible_routes; rewrite Hperm.
  destruct (head (py_sorted (by_sort_key q) (eligible_routes q routes))) as [s|] eqn:Hs,
    (head (py_sorted (by_sort_key q) (eligible_routes q routes'))) as [s'|] eqn:Hs'.
  - pose proof (head_elem _ _ Hs) as Hin%elem_of_py_sorted.
    pose proof (head_elem _ _ Hs') as Hin'%elem_of_py_sorted.
    pose proof (sorted_least q _ s s' Hs ltac:(by rewrite Hel)) as L1.
    pose proof (sorted_least q _ s' s Hs' ltac:(by rewrite <- Hel)) as L2.
    destruct (sort_key_leb_antisym _ _ (provider_sort_key_number q s)
      (provider_sort_key_number q s') L1 L2) as [Hp Hr].
    f_equal. apply Hinj; [done|by rewrite Hel|done|done].
  - exfalso. destruct (py_sorted _ (eligible_routes q routes')) eqn:E; [|done].
    pose proof (head_elem _ _ Hs) as Hin%elem_of_py_sorted.
    rewrite Hel, <- (elem_of_py_sorted (by_sort_key q)), E in Hin. by apply not_elem_of_nil in Hin.
  - exfalso. destruct (py_sorted _ (eligible_routes q routes)) eqn:E; [|done].
    pose proof (head_elem _ _ Hs') as Hin%elem_of_py_sorted.
    rewrite <- Hel, <- (elem_of_py_sorted (by_sort_key q)), E in Hin. by apply not_elem_of_nil in Hin.
  - done.
Qed.

Lemma str_index_lt p l : p ∈ l → str_index p l < length l.
Proof.
  induction l as [|x l IH]; [by intros ?%not_elem_of_nil|]. intros Hp. simpl.
  case_bool_decide as Hx; [lia|]. apply elem_of_cons in Hp as [?|?]; [done|].
  specialize (IH ltac:(done)). lia.
Qed.

(** Whole numbers up to a hundred keep their order as floats. *)
Definition float_order_on (n : nat) : bool :=
  forallb (λ i, forallb (λ j,
    Bool.eqb (fle (z_to_float (Z.of_nat i)) (z_to_float (Z.of_nat j))) (Nat.leb i j))
    (seq 0 n)) (seq 0 n).
Lemma float_order_101 : float_order_on 101 = true.
Proof. vm_compute. reflexivity. Qed.
Lemma float_order i j :
  i ≤ 100 → j ≤ 100 →
  fle (z_to_float (Z.of_nat i)) (z_to_float (Z.of_nat j)) = true ↔ i ≤ j.
Proof.
  intros Hi Hj. pose proof float_order_101 as H. unfold float_order_on in H.
  rewrite forallb_forall in H. specialize (H i ltac:(apply in_seq; lia)). cbv beta in H.
  rewrite forallb_forall in H. specialize (H j ltac:(apply in_seq; lia)). cbv beta in H.
  apply eqb_prop in H. rewrite H. apply Nat.leb_le.
Qed.

Lemma preference_rank q r :
  rq_preferred_providers q ≠ [] → length (rq_preferred_providers q) ≤ 100 →
  ∃ i, i ≤ 100 ∧ (provider_sort_key q r).1.1 = z_to_float (Z.of_nat i) ∧
    (pr_provider_id r ∈ rq_preferred_providers q →
       i = str_index (pr_provider_id r) (rq_preferred_providers q) ∧ i < 100) ∧
    (pr_provider_id r ∉ rq_preferred_providers q → i = 100).
Proof.
  intros Hne Hlen. unfold provider_sort_key. cbn [fst snd].
  destruct (rq_preferred_providers q) as [|p l] eqn:E; [done|].
  case_bool_decide as Hp.
  - pose proof (str_index_lt _ _ Hp) as Hlt. eexists. split; [|split; [done|]]; [lia|].
    split; [split; [done|lia]|done].
  - exists 100. by split_and!.
Qed.

(** with at most a hundred preferred providers, a usable route of a preferred provider
    makes the selection return a route of a preferred provider that is listed no later, and
    say so. *)
Theorem preferred_provider_wins q routes r :
  length (rq_preferred_providers q) ≤ 100 →
  r ∈ routes → usable_route q r → pr_provider_id r ∈ rq_preferred_providers q →
  let result := select_provider_route q routes in
  ∃ s, sr_selected_provider_route result = Some s ∧
    pr_provider_id s ∈ rq_preferred_providers q ∧
    str_index (pr_provider_id s) (rq_preferred_providers q) ≤
      str_index (pr_provider_id r) (rq_preferred_providers q) ∧
    sr_provider_selection_reason result = "preferred_provider".
Proof.
  intros Hlen Hr Hu Hp. cbv zeta.
  assert (r ∈ eligible_routes q routes) as Hel
    by by rewrite elem_of_eligible, provider_rejection_None.
  pose proof (selected_head q routes) as Hh.
  destruct (head (py_sorted (by_sort_key q) (eligible_routes q routes))) as [s|] eqn:Hs.
  2:{ exfalso. apply (elem_of_py_sorted (by_sort_key q)) in Hel.
      destruct (py_sorted _ _); [by apply not_elem_of_nil in Hel|done]. }
  exists s. split; [done|].
  pose proof (sorted_least q _ s r Hs Hel) as Hle. unfold by_sort_key in Hle.
  apply sort_key_leb_spec in Hle as [Hf _]; [|apply provider_sort_key_number..].
  assert (rq_preferred_providers q ≠ []) as Hne by (intros E; rewrite E in Hp;
    by apply not_elem_of_nil in Hp).
  destruct (preference_rank q s Hne Hlen) as (i & Hi & Ei & Hin & Hout).
  destruct (preference_rank q r Hne Hlen) as (j & Hj & Ej & Hjn & _).
  destruct (Hjn Hp) as [-> Hlt]. rewrite Ei, Ej in Hf. apply float_order in Hf; [|done..].
  destruct (decide (pr_provider_id s ∈ rq_preferred_providers q)) as [Hps|Hps];
    [|specialize (Hout Hps); lia].
  destruct (Hin Hps) as [-> _]. split_and!; [done|lia|].
  unfold select_provider_route. rewrite partition_routes_eq. simpl.
  destruct (py_sorted _ _) as [|s' l]; simplify_eq/=. by rewrite bool_decide_eq_true_2.
Qed.

(** The authority of a mutation is exactly one installed for its manager and connector. *)
Lemma authority_required_iff current m c :
  (∃ a, require_mutation_authority current m c = Ok a) ↔
  ∃ a, current = Some a ∧ au_manager_id a = m ∧ au_connector_id a = c.
Proof.
  unfold require_mutation_authority. destruct current as [a|]; [|naive_solver].
  repeat case_bool_decide; simpl; naive_solver.
Qed.

(** ** Concrete runs *)

Definition fireworks_route (id : string) (enabled : bool) : ProviderRoute :=
  {| pr_route_id := id; pr_display_name := id; pr_manager_id := Some "fireconnect";
     pr_connector_id := "codex"; pr_provider_id := "fireworks"; pr_model_id := Some "m";
     pr_enabled := enabled; pr_available := true; pr_authenticated := true;
     pr_configuration_status := "valid"; pr_credential_source := None;
     pr_supports_enable := true; pr_supports_disable := true; pr_supports_status := true;
     pr_supports_model_selection := true; pr_supports_usage_status := false;
     pr_last_checked_at := 0; pr_reason_code := None; pr_details := [] |}.
Definition codex_request (preferred : list string) : RouteRequest :=
  {| rq_connector_id := "codex"; rq_preferred_providers := preferred;
     rq_required_provider := None; rq_allowed_providers := None;
     rq_allow_disabled := false |}.
Definition two_routes : list ProviderRoute :=
  [fireworks_route "codex:fireworks" true; native_route_for 0 "codex" true].

Example native_is_the_default :
  sr_selected_provider_route (select_provider_route (codex_request []) two_routes) =
  Some (native_route_for 0 "codex" true).
Proof. vm_compute. reflexivity. Qed.

Lemma preferred_provider_wins_witness :
  sr_provider_selection_reason
    (select_provider_route (codex_request ["fireworks"; "native"]) two_routes) =
    "preferred_provider" ∧
  ∃ s, sr_selected_provider_route
         (select_provider_route (codex_request ["fireworks"; "native"]) two_routes) = Some s ∧
    pr_provider_id s ∈ ["fireworks"; "native"] ∧
    str_index (pr_provider_id s) ["fireworks"; "native"] ≤ 0.
Proof.
  destruct (preferred_provider_wins (codex_request ["fireworks"; "native"]) two_routes
    (fireworks_route "codex:fireworks" true)) as (s & H1 & H2 & H3 & H4).
  - simpl. lia.
  - left.
  - rewrite <- provider_rejection_None. reflexivity.
  - left.
  - split; [exact H4|]. exists s. by split_and!.
Defined.

Lemma selection_ignores_order_witness :
  sr_selected_provider_route (select_provider_route (codex_request []) two_routes) =
  sr_selected_provider_route (select_provider_route (codex_request []) (reverse two_routes)).
Proof.
  apply (selection_ignores_order (codex_request []) two_routes (reverse two_routes)).
  - by rewrite reverse_Permutation.
  - intros a b [Ha _]%elem_of_eligible [Hb _]%elem_of_eligible.
    unfold two_routes in Ha, Hb. set_unfold in Ha. set_unfold in Hb.
    destruct Ha as [->|[->|[]]], Hb as [->|[->|[]]]; done.
Defined.
