(* ===== verification/LeaseInterface.v ===== *)
(** * What a lease store promises its callers

    The operations of [ProviderRouteLeaseStore] as the coordinator calls them: the
    readings of the clock and the fresh identifiers are taken from a counter beside the
    store. The memory form and the database form of [RouteLeases] both are such a store,
    and both keep the laws the coordinator relies on; the calls of one coordinator come one
    after the other, so a call of the database form is a whole [session] here ([RouteLeases]
    has what holds of sessions side by side). *)

From S2P Require Import Prelude RouteLeases.

(** ** The interface *)

Class LeaseStore := {
  ls_store : Type;
  ls_try_acquire : string → string → string → Z → dict → option string → option string →
    option dict → M (nat * ls_store) (option ProviderRouteLease);
  ls_renew : string → string → string → Z → M (nat * ls_store) ProviderRouteLease;
  ls_release : string → string → string → M (nat * ls_store) ProviderRouteLease;
  ls_claim_recovery : string → string → string → M (nat * ls_store) ProviderRouteLease;
  ls_mark_recovery : string → string → string → option dict →
    M (nat * ls_store) ProviderRouteLease;
  ls_block_connector : string → string → string → M (nat * ls_store) unit;
  ls_is_blocked : string → string → M (nat * ls_store) (option string);
  ls_list_expired_active : M (nat * ls_store) (list ProviderRouteLease)
}.

(** One reading of the clock or one fresh identifier. *)
Definition take_tick {T} : M (nat * T) nat := λ s, (Ok s.1, (S s.1, s.2)).
Definition on_store {T A} (m : M T A) : M (nat * T) A := zoom snd (λ t s, (s.1, t)) m.

Section instances.
Context `{PyLib}.

Definition now {T} : M (nat * T) Z := n ← take_tick; mret (clock n).

(* @src runtime_v1/provider_routes/lease_store.py:113-145 ProviderRouteLeaseStore.try_acquire *)
Definition try_acquire {T}
    (acquire : ProviderRouteLease → M T (option ProviderRouteLease))
    (manager_id connector_id owner_execution_id : string) (ttl : Z) (original_state : dict)
    (target_provider_id target_model_id : option string) (details : option dict) :
    M (nat * T) (option ProviderRouteLease) :=
  t ← now;
  id ← take_tick;
  token ← take_tick;
  on_store (acquire (new_lease t ttl (uuid_str id) (uuid_hex token) manager_id connector_id
    owner_execution_id original_state target_provider_id target_model_id details)).

(** The store in memory. *)
#[export] Instance memory_lease_store : LeaseStore := {|
  ls_store := MemoryStore;
  ls_try_acquire := try_acquire _memory_acquire;
  ls_renew id token owner ttl := t ← now; on_store (_memory_renew t id token owner ttl);
  ls_release id token owner := t ← now; on_store (_memory_release t id token owner);
  ls_claim_recovery id token owner :=
    t ← now; t2 ← now; on_store (_memory_claim_recovery t t2 id token owner);
  ls_mark_recovery id token status details :=
    on_store (memory_mark_recovery id token status details);
  ls_block_connector m c reason :=
    t0 ← now; t1 ← now; t2 ← now; t3 ← now;
    on_store (modify_state (memory_block_connector t0 t1 t2 t3 m c reason));
  ls_is_blocked m c := on_store (s ← get_state; mret (memory_is_blocked m c s));
  ls_list_expired_active :=
    t ← now; on_store (s ← get_state; mret (memory_list_expired_active t s))
|}.

(** The store in the database. *)
Definition database_lease_store `{RowTable} : LeaseStore := {|
  ls_store := table;
  ls_try_acquire := try_acquire _db_acquire;
  ls_renew id token owner ttl := t ← now; on_store (_db_renew t id token owner ttl);
  ls_release id token owner :=
    t1 ← now; t2 ← now; on_store (_db_release t1 t2 id token owner);
  ls_claim_recovery id token owner := t ← now; on_store (_db_claim_recovery t id token owner);
  ls_mark_recovery id token status details :=
    t ← now; on_store (db_mark_recovery t id token status details);
  ls_block_connector m c reason :=
    t0 ← now; id ← take_tick; token ← take_tick;
    t1 ← now; t2 ← now; t3 ← now; t4 ← now;
    on_store (db_block_connector
      (block_row t0 t1 t2 t3 t4 (uuid_str id) (uuid_hex token) m c reason));
  ls_is_blocked m c := on_store (s ← get_state; mret (db_is_blocked m c s));
  ls_list_expired_active :=
    t ← now; on_store (s ← get_state; mret (db_list_expired_active t s))
|}.
End instances.

(** ** The laws

    [ls_ok] is the invariant of the store; [ls_holds s l]: the lease [l] is active in [s]
    with its token and owner, and no other lease of its key is held; [ls_gone s l]: no
    lease of the key of [l] is active or being recovered, and [l] itself is not active. *)
Class LeaseStoreLaws `{LeaseStore} := {
  ls_ok : ls_store → Prop;
  ls_free : ls_store → string * string → Prop;
  ls_holds : ls_store → ProviderRouteLease → Prop;
  ls_gone : ls_store → ProviderRouteLease → Prop;
  gone_free : ∀ s l, ls_gone s l → ls_free s (lease_key l);
  acquire_law : ∀ m c owner ttl original provider model details n s, ls_ok s →
    match ls_try_acquire m c owner ttl original provider model details (n, s) with
    | (Ok (Some l), (_, s')) =>
        ls_ok s' ∧ ls_holds s' l ∧ lease_key l = (m, c) ∧ rl_owner l = owner
    | (_, (_, s')) => s' = s
    end;
  renew_law : ∀ l ttl n s, ls_ok s → ls_holds s l →
    match ls_renew (rl_id l) (rl_token l) (rl_owner l) ttl (n, s) with
    | (Ok _, (_, s')) => ls_ok s' ∧ ls_holds s' l
    | (Raise _, (_, s')) => ls_ok s' ∧ (ls_holds s' l ∨ ls_gone s' l)
    end;
  renew_gone : ∀ l ttl n s, ls_ok s → ls_gone s l →
    (ls_renew (rl_id l) (rl_token l) (rl_owner l) ttl (n, s)).2.2 = s;
  release_held : ∀ l n s, ls_ok s → ls_holds s l →
    match ls_release (rl_id l) (rl_token l) (rl_owner l) (n, s) with
    | (Ok _, (_, s')) => ls_ok s' ∧ ls_free s' (lease_key l)
    | (Raise _, _) => False
    end;
  release_gone : ∀ l n s, ls_ok s → ls_gone s l →
    match ls_release (rl_id l) (rl_token l) (rl_owner l) (n, s) with
    | (Ok _, _) => False
    | (Raise e, (_, s')) => exn_class e = "ProviderRouteLeaseError" ∧ s' = s
    end;
  expired_law : ∀ n s, ls_ok s →
    match ls_list_expired_active (n, s) with
    | (Ok ls, (_, s')) => s' = s ∧ ∀ l, l ∈ ls → ¬ ls_free s (lease_key l)
    | (Raise _, _) => False
    end;
  blocked_law : ∀ m c n s, (ls_is_blocked m c (n, s)).2.2 = s
}.

(** A granted lease names the route and the owner it was asked for, in whatever state. *)
Class LeaseStoreNames `{LeaseStore} :=
  acquire_names : ∀ m c owner ttl original provider model details s l s',
    ls_try_acquire m c owner ttl original provider model details s = (Ok (Some l), s') →
    lease_key l = (m, c) ∧ rl_owner l = owner.

Lemma try_acquire_names `{PyLib} {T} (acquire : ProviderRouteLease → M T (option ProviderRouteLease))
    m c owner ttl original provider model details s l s' :
  (∀ l t l' t', acquire l t = (Ok (Some l'), t') → l' = l) →
  try_acquire acquire m c owner ttl original provider model details s = (Ok (Some l), s') →
  lease_key l = (m, c) ∧ rl_owner l = owner.
Proof.
  intros Ha. destruct s as [n t].
  unfold try_acquire, now, take_tick, on_store, zoom, mbind, M_bind, mret, M_ret. simpl.
  destruct (acquire _ t) as [r t'] eqn:E. intros [= -> <-].
  apply Ha in E as ->. done.
Qed.

#[export] Instance memory_store_names `{PyLib} : LeaseStoreNames.
Proof.
  intros m c owner ttl original provider model details s l s'. apply try_acquire_names.
  intros l1 t l2 t'. unfold _memory_acquire, mbind, M_bind, get_state.
  repeat case_match; intros ?; simplify_eq/=; try done.
  all: unfold mret, M_ret, modify_state in *; by simplify_eq/=.
Qed.

Lemma database_store_names `{PyLib} `{RowTable} : @LeaseStoreNames database_lease_store.
Proof.
  intros m c owner ttl original provider model details s l s'. apply try_acquire_names.
  intros l1 t l2 t'. rewrite db_acquire_eq. repeat case_match; intros ?; by simplify_eq/=.
Qed.

(** *** The memory form keeps them *)

Section memory_laws.
Context `{PyLib} (uuid_nonempty : ∀ n, uuid_str n ≠ "").
Implicit Types (s : MemoryStore).

Definition memory_holds s (l : ProviderRouteLease) : Prop :=
  ∃ l0, dict_get (rl_id l) (memory s) = Some l0 ∧ rl_token l0 = rl_token l ∧
    rl_owner l0 = rl_owner l ∧ lease_key l0 = lease_key l ∧ is_active l0 = true.
Definition memory_gone s (l : ProviderRouteLease) : Prop :=
  ¬ key_held (lease_key l) s ∧
  ∀ l0, dict_get (rl_id l) (memory s) = Some l0 → is_active l0 = false.

Lemma memory_acquire_law l s :
  memory_inv s → rl_id l ≠ "" → is_active l = true →
  match _memory_acquire l s with
  | (Ok (Some l'), s') => l' = l ∧ memory_inv s' ∧ memory_holds s' l
  | (_, s') => s' = s
  end.
Proof.
  intros Hi Hne Ha. destruct (memory_acquire_cases l s Hi) as [[_ ->]|[Hf ->]]; [done|].
  split; [done|]. split; [by apply memory_inv_acquired|].
  exists l. split_and!; try done. simpl. by rewrite dict_get_set_eq.
Qed.

Lemma memory_renew_law t l ttl s :
  memory_inv s → memory_holds s l →
  match _memory_renew t (rl_id l) (rl_token l) (rl_owner l) ttl s with
  | (Ok _, s') | (Raise _, s') => memory_inv s' ∧ memory_holds s' l
  end.
Proof.
  intros Hi (l0 & Hl & Ht & Ho & Hk & Ha). destruct (Hi _ _ Hl) as (Hid & Hne & Hm).
  unfold _memory_renew, mbind, M_bind, get_state. rewrite Hl, Ht, Ho.
  rewrite !bool_decide_eq_true_2 by done. simpl. rewrite Ha. simpl.
  assert (memory_holds s l) as Hh by (by exists l0).
  destruct (rl_expires l0 <=? t)%Z; [done|]. simpl. split.
  - apply memory_inv_put; [done|simpl; congruence|]. intros _. simpl. rewrite Hid.
    by apply Hm, is_active_held.
  - eexists. simpl. rewrite Hid, dict_get_set_eq. by split_and!.
Qed.

Lemma memory_release_held t l s :
  memory_inv s → memory_holds s l →
  match _memory_release t (rl_id l) (rl_token l) (rl_owner l) s with
  | (Ok _, s') => memory_inv s' ∧ ¬ key_held (lease_key l) s'
  | (Raise _, _) => False
  end.
Proof.
  intros Hi (l0 & Hl & Ht & Ho & Hk & Ha). destruct (Hi _ _ Hl) as (Hid & Hne & Hm).
  unfold _memory_release, mbind, M_bind, get_state. rewrite Hl, Ht, Ho.
  rewrite !bool_decide_eq_true_2 by done. simpl. rewrite Ha. simpl.
  set (l' := relet _ _ _ _ _ l0).
  assert (memory_inv (pop_key (lease_key l0) (put_lease l' s))) as Hinv.
  { apply (memory_inv_free s (rl_id l) l0); try done. by apply Hm, is_active_held. }
  split; [done|]. intros (id & l1 & H1 & Hk1 & Hh1).
  destruct (Hinv _ _ H1) as (_ & _ & Hm1). specialize (Hm1 Hh1). simpl in Hm1.
  by rewrite Hk1, <- Hk, lookup_delete_eq in Hm1.
Qed.

Lemma memory_renew_gone t l ttl s :
  memory_gone s l → (_memory_renew t (rl_id l) (rl_token l) (rl_owner l) ttl s).2 = s.
Proof.
  intros [_ Hg]. unfold _memory_renew, mbind, M_bind, get_state.
  destruct (dict_get (rl_id l) (memory s)) as [l0|]; [|done].
  rewrite (Hg l0 eq_refl). by destruct (_ || _).
Qed.

Lemma memory_release_gone t l s :
  memory_gone s l →
  match _memory_release t (rl_id l) (rl_token l) (rl_owner l) s with
  | (Ok _, _) => False
  | (Raise e, s') => exn_class e = "ProviderRouteLeaseError" ∧ s' = s
  end.
Proof.
  intros [_ Hg]. unfold _memory_release, mbind, M_bind, get_state.
  destruct (dict_get (rl_id l) (memory s)) as [l0|]; [|done].
  rewrite (Hg l0 eq_refl). by destruct (_ || _).
Qed.

Lemma memory_expired_law t s l :
  memory_inv s → NoDup (dict_keys (memory s)) →
  l ∈ memory_list_expired_active t s → key_held (lease_key l) s.
Proof.
  intros Hi Hnd [(Hh & _ & Hm) Hin]%list_elem_of_filter.
  unfold dict_values in Hin. apply list_elem_of_fmap in Hin as ([id l0] & -> & Hin).
  exists id, l0. split_and!; [by apply dict_elem_get|done|done].
Qed.

(** The invariant with distinct identifiers, which every call keeps. *)
Definition memory_ok s : Prop := memory_inv s ∧ NoDup (dict_keys (memory s)).

Lemma memory_renew_NoDup t id tok owner ttl s :
  NoDup (dict_keys (memory s)) →
  NoDup (dict_keys (memory (_memory_renew t id tok owner ttl s).2)).
Proof.
  intros Hn. unfold _memory_renew, mbind, M_bind, get_state.
  goal_guards; try done. by apply dict_set_NoDup.
Qed.
Lemma memory_release_NoDup t id tok owner s :
  NoDup (dict_keys (memory s)) →
  NoDup (dict_keys (memory (_memory_release t id tok owner s).2)).
Proof.
  intros Hn. unfold _memory_release, mbind, M_bind, get_state.
  goal_guards; try done. by apply dict_set_NoDup.
Qed.

#[refine, export] Instance memory_store_laws : LeaseStoreLaws := {|
  ls_ok := memory_ok;
  ls_free := λ (s : MemoryStore) k, ¬ key_held k s;
  ls_holds := memory_holds;
  ls_gone := memory_gone
|}.
Proof.
  - by intros s l [? _].
  - intros m c owner ttl original provider model details n s [Hi Hn].
    set (l := new_lease (clock n) ttl (uuid_str (S n)) (uuid_hex (S (S n))) m c owner
      original provider model details).
    change (ls_try_acquire m c owner ttl original provider model details (n, s))
      with (on_store (_memory_acquire l) (S (S (S n)), s)).
    unfold on_store, zoom. simpl.
    pose proof (memory_acquire_law l s Hi (uuid_nonempty _) eq_refl) as Hl.
    destruct (memory_acquire_cases l s Hi) as [[_ E]|[_ E]]; rewrite E in Hl |- *; [done|].
    destruct Hl as (_ & Hinv & Hh). split; [|done].
    split; [done|]. by apply dict_set_NoDup.
  - intros l ttl n s [Hi Hn] Hh.
    change (ls_renew (rl_id l) (rl_token l) (rl_owner l) ttl (n, s))
      with (on_store (_memory_renew (clock n) (rl_id l) (rl_token l) (rl_owner l) ttl)
        (S n, s)).
    unfold on_store, zoom. simpl.
    pose proof (memory_renew_law (clock n) l ttl s Hi Hh) as Hl.
    pose proof (memory_renew_NoDup (clock n) (rl_id l) (rl_token l) (rl_owner l) ttl s Hn) as Hd.
    destruct (_memory_renew _ _ _ _ _ s) as [[l'|e] s']; simpl in *;
      destruct Hl; (split; [by split|]); [done|by left].
  - intros l ttl n s _ Hg.
    change (ls_renew (rl_id l) (rl_token l) (rl_owner l) ttl (n, s))
      with (on_store (_memory_renew (clock n) (rl_id l) (rl_token l) (rl_owner l) ttl)
        (S n, s)).
    unfold on_store, zoom. simpl. pose proof (memory_renew_gone (clock n) l ttl s Hg) as Hl.
    by destruct (_memory_renew _ _ _ _ _ s).
  - intros l n s [Hi Hn] Hh.
    change (ls_release (rl_id l) (rl_token l) (rl_owner l) (n, s))
      with (on_store (_memory_release (clock n) (rl_id l) (rl_token l) (rl_owner l)) (S n, s)).
    unfold on_store, zoom. simpl.
    pose proof (memory_release_held (clock n) l s Hi Hh) as Hl.
    pose proof (memory_release_NoDup (clock n) (rl_id l) (rl_token l) (rl_owner l) s Hn) as Hd.
    destruct (_memory_release _ _ _ _ s) as [[l'|e] s']; simpl in *; [|done].
    destruct Hl. split; [by split|done].
  - intros l n s [Hi Hn] Hg.
    change (ls_release (rl_id l) (rl_token l) (rl_owner l) (n, s))
      with (on_store (_memory_release (clock n) (rl_id l) (rl_token l) (rl_owner l)) (S n, s)).
    unfold on_store, zoom. simpl.
    pose proof (memory_release_gone (clock n) l s Hg) as Hl.
    by destruct (_memory_release _ _ _ _ s) as [[l'|e] s'].
  - intros n s [Hi Hn]. simpl. split; [done|]. intros l Hl Hf. apply Hf.
    by apply (memory_expired_law (clock n)).
  - done.
Defined.
End memory_laws.

(** *** The database form keeps them *)

Section database_laws.
Context `{PyLib} `{RowTableLaws}.
Implicit Types (t : table) (l : ProviderRouteLease).

Definition row_of (l : ProviderRouteLease) (r : ProviderRouteLeaseRow) : Prop :=
  row_id r = rl_id l ∧ row_token r = rl_token l ∧ row_owner r = rl_owner l ∧
  row_key r = lease_key l ∧ row_status r = "active".
Definition db_free t (k : string * string) : Prop :=
  ∀ r, r ∈ rows t → row_key r = k → row_held r = false.
Definition db_holds t l : Prop := ∃ r, r ∈ rows t ∧ row_of l r.
Definition db_gone t l : Prop :=
  db_free t (lease_key l) ∧
  ∀ r, r ∈ rows t → row_id r = rl_id l → row_status r ≠ "active".

Lemma find_row_In t r : good t → r ∈ rows t → find_row (row_id r) t = Some r.
Proof. intros [Hok _]. by apply find_row_of. Qed.

Lemma active_row_marker t r :
  good t → r ∈ rows t → row_status r = "active" → row_marker r = Some "active".
Proof.
  intros [_ Hinv] Hin Hs. apply row_held_marker; [by apply (proj1 (Forall_forall _ _) Hinv)|].
  unfold row_held. rewrite Hs. done.
Qed.

(** After the row of a held lease gives its marker up, its key is free. *)
Lemma release_frees t r r' :
  good t → r ∈ rows t → row_status r = "active" → good (update_row r' t) →
  rows (update_row r' t) ≡ₚ ((λ x, if row_id x == row_id r' then r' else x) <$> rows t) →
  row_id r = row_id r' → row_key r = row_key r' → row_held r' = false →
  db_free (update_row r' t) (row_key r).
Proof.
  intros Hg Hin Hs Hg' Hrows Hid Hk Hh x Hx Hkx. rewrite Hrows in Hx.
  apply list_elem_of_fmap in Hx as (y & -> & Hy). case_bool_decide as Hyid; [done|].
  apply not_true_is_false. intros Hhy.
  apply list_elem_of_lookup in Hy as [j Hj]. apply list_elem_of_lookup in Hin as [i Hi].
  assert (i = j); [|simplify_eq; congruence].
  eapply (held_row_unique t i j r y); try done. unfold row_held. by rewrite Hs.
Qed.

(** The commit of a held row's successor. *)
Lemma update_held t r r' :
  good t → r ∈ rows t → row_status r = "active" →
  row_id r = row_id r' → row_token r = row_token r' → row_key r = row_key r' →
  (row_marker r' = None ∨ row_marker r = row_marker r') → row_ok r' →
  good (update_row r' t) ∧ r' ∈ rows (update_row r' t) ∧
  (row_held r' = false → db_free (update_row r' t) (row_key r)) ∧
  ∀ x, x ∈ rows (update_row r' t) → row_id x = row_id r → x = r'.
Proof.
  intros Hg Hin Hs Hid Htok Hk Hm Hok.
  assert (good (update_row r' t)) as Hg' by by eapply (update_good t r r').
  destruct (update_replaces r' r t (proj1 Hg) Hin Hid Htok) as [_ Hrows].
  { destruct Hm; [by left|by right]. }
  split; [done|]. split.
  { rewrite Hrows. apply list_elem_of_fmap. exists r. by rewrite bool_decide_eq_true_2. }
  split; [intros Hh; by eapply release_frees|].
  intros x Hx Hxid. rewrite Hrows in Hx. apply list_elem_of_fmap in Hx as (y & -> & Hy).
  case_bool_decide; [done|congruence].
Qed.

Lemma db_acquire_law l t :
  good t →
  match _db_acquire l t with
  | (Ok (Some l'), t') => l' = l ∧ good t' ∧ db_holds t' l
  | (_, t') => t' = t
  end.
Proof.
  intros Hg. pose proof (acquire_good l t Hg) as Hg'.
  rewrite db_acquire_eq in *.
  destruct (marked_cases (lease_key l) t Hg) as [Hm|[r Hm]]; rewrite Hm in *; simpl in *; [|done].
  destruct (insert_row (row_of_lease l) t) as [t'|] eqn:Hins; simpl in *; [|done].
  split_and!; [done|done|]. exists (row_of_lease l). split; [|done].
  destruct (decide (Forall (compatible_rows (row_of_lease l)) (rows t))) as [Hc|Hc];
    [|rewrite insert_refuses in Hins; [done|apply Hg|done]].
  destruct (insert_accepts _ _ (proj1 Hg) Hc) as (t2 & Hins2 & _ & Hrows).
  rewrite Hins in Hins2. injection Hins2 as <-. rewrite Hrows. left.
Qed.

Lemma db_renew_law now l ttl t :
  good t → db_holds t l →
  match _db_renew now (rl_id l) (rl_token l) (rl_owner l) ttl t with
  | (Ok _, t') => good t' ∧ db_holds t' l
  | (Raise _, t') => good t' ∧ (db_holds t' l ∨ db_gone t' l)
  end.
Proof.
  intros Hg (r & Hin & Hid & Ht & Ho & Hk & Hs).
  rewrite db_renew_eq.
  rewrite <- Hid, (find_row_In t r), Ht, Ho, Hs, (active_row_marker t r) by done.
  rewrite !bool_decide_eq_true_2 by done. simpl.
  destruct (row_expires r <=? now)%Z; simpl.
  - set (r' := rerow _ _ _ _ _ _ _ r).
    destruct (update_held t r r' Hg Hin Hs) as (Hg' & Hin' & Hf & Hu); try done;
      [by left|apply row_ok_done; set_solver|].
    split; [done|]. right. split; [rewrite <- Hk; by apply Hf|].
    intros x Hx Hxid. rewrite (Hu x Hx); [done|]. by rewrite Hxid.
  - set (r' := rerow _ _ _ _ _ _ _ r).
    destruct (update_held t r r' Hg Hin Hs) as (Hg' & Hin' & Hf & Hu); try done;
      [right; by apply (active_row_marker t)|apply row_ok_active; [done|left]|].
    split; [done|]. by eexists.
Qed.

Lemma db_release_held (t1 t2 : Z) l t :
  good t → db_holds t l →
  match _db_release t1 t2 (rl_id l) (rl_token l) (rl_owner l) t with
  | (Ok _, t') => good t' ∧ db_free t' (lease_key l)
  | (Raise _, _) => False
  end.
Proof.
  intros Hg (r & Hin & Hid & Ht & Ho & Hk & Hs).
  rewrite db_release_eq.
  rewrite <- Hid, (find_row_In t r), Ht, Ho, Hs, (active_row_marker t r) by done.
  rewrite !bool_decide_eq_true_2 by done. simpl.
  set (r' := rerow _ _ _ _ _ _ _ r).
  destruct (update_held t r r' Hg Hin Hs) as (Hg' & Hin' & Hf & Hu); try done;
    [by left|apply row_ok_done; set_solver|].
  split; [done|]. rewrite <- Hk. by apply Hf.
Qed.

Lemma db_renew_gone now l ttl t :
  db_gone t l → (_db_renew now (rl_id l) (rl_token l) (rl_owner l) ttl t).2 = t.
Proof.
  intros [_ Hg]. rewrite db_renew_eq.
  destruct (find_row (rl_id l) t) as [r|] eqn:Hf; [|done].
  apply find_row_Some in Hf as [Hin Hid].
  rewrite (bool_decide_eq_false_2 (row_status r = "active")) by by apply Hg.
  by destruct (_ || _).
Qed.

Lemma db_release_gone (t1 t2 : Z) l t :
  db_gone t l →
  match _db_release t1 t2 (rl_id l) (rl_token l) (rl_owner l) t with
  | (Ok _, _) => False
  | (Raise e, t') => exn_class e = "ProviderRouteLeaseError" ∧ t' = t
  end.
Proof.
  intros [_ Hg]. rewrite db_release_eq.
  destruct (find_row (rl_id l) t) as [r|] eqn:Hf; [|done].
  apply find_row_Some in Hf as [Hin Hid].
  rewrite (bool_decide_eq_false_2 (row_status r = "active")) by by apply Hg.
  by destruct (_ || _).
Qed.

Lemma db_expired_law moment l t :
  good t → l ∈ db_list_expired_active moment t → ¬ db_free t (lease_key l).
Proof.
  intros Hg Hl Hf. apply list_elem_of_fmap in Hl as (r & -> & Hr).
  apply list_elem_of_filter in Hr as [(Hm & Hs & _) Hin].
  specialize (Hf r Hin eq_refl). unfold row_held in Hf. by apply bool_decide_eq_false_1 in Hf.
Qed.

#[refine] Definition database_store_laws : @LeaseStoreLaws database_lease_store := {|
  ls_ok := (good : @ls_store database_lease_store → Prop);
  ls_free := db_free;
  ls_holds := db_holds;
  ls_gone := db_gone
|}.
Proof.
  - by intros s l [? _].
  - intros m c owner ttl original provider model details n t Hg.
    set (l := new_lease (clock n) ttl (uuid_str (S n)) (uuid_hex (S (S n))) m c owner
      original provider model details).
    change (ls_try_acquire m c owner ttl original provider model details (n, t))
      with (on_store (_db_acquire l) (S (S (S n)), t)).
    unfold on_store, zoom. simpl. pose proof (db_acquire_law l t Hg) as Hl.
    destruct (_db_acquire l t) as [[[l'|]|e] t']; [|done|done].
    by destruct Hl as (-> & ? & ?).
  - intros l ttl n t Hg Hh.
    change (ls_renew (rl_id l) (rl_token l) (rl_owner l) ttl (n, t))
      with (on_store (_db_renew (clock n) (rl_id l) (rl_token l) (rl_owner l) ttl) (S n, t)).
    unfold on_store, zoom. simpl. pose proof (db_renew_law (clock n) l ttl t Hg Hh) as Hl.
    by destruct (_db_renew _ _ _ _ _ t) as [[l'|e] t'].
  - intros l ttl n t _ Hh.
    change (ls_renew (rl_id l) (rl_token l) (rl_owner l) ttl (n, t))
      with (on_store (_db_renew (clock n) (rl_id l) (rl_token l) (rl_owner l) ttl) (S n, t)).
    unfold on_store, zoom. simpl. pose proof (db_renew_gone (clock n) l ttl t Hh) as Hl.
    by destruct (_db_renew _ _ _ _ _ t).
  - intros l n t Hg Hh.
    change (ls_release (rl_id l) (rl_token l) (rl_owner l) (n, t))
      with (on_store (_db_release (clock n) (clock (S n)) (rl_id l) (rl_token l) (rl_owner l))
        (S (S n), t)).
    unfold on_store, zoom. simpl.
    pose proof (db_release_held (clock n) (clock (S n)) l t Hg Hh) as Hl.
    by destruct (_db_release _ _ _ _ _ t) as [[l'|e] t'].
  - intros l n t Hg Hh.
    change (ls_release (rl_id l) (rl_token l) (rl_owner l) (n, t))
      with (on_store (_db_release (clock n) (clock (S n)) (rl_id l) (rl_token l) (rl_owner l))
        (S (S n), t)).
    unfold on_store, zoom. simpl.
    pose proof (db_release_gone (clock n) (clock (S n)) l t Hh) as Hl.
    by destruct (_db_release _ _ _ _ _ t) as [[l'|e] t'].
  - intros n t Hg. simpl. split; [done|]. intros l Hl.
    by apply (db_expired_law (clock n)).
  - done.
Defined.
End database_laws.
