(* ===== verification/Coordinator.v ===== *)
(** * The route mutation coordinator

    [runtime_v1/provider_routes/coordinator.py] over any lease store of
    [LeaseInterface], and the facade of [service.py]. The route managers, the work a
    lifecycle wraps, the waits of the event loop and the cancellations are parameters:
    computations over the whole state of the process, so that other tasks that run while
    the coordinator waits are part of them. The context variable of [authority.py] is an
    argument: what the current task sees. Durations and the loop's clock count
    microseconds. *)

From S2P Require Import Prelude Security RouteLeases LeaseInterface RouteSelection.

(** ** State and parameters *)

(* @src runtime_v1/provider_routes/coordinator.py:29-37 ProviderRouteAuditEvent *)
Record ProviderRouteAuditEvent := {
  ae_event_type : string;
  ae_manager_id : string;
  ae_connector_id : string;
  ae_owner_execution_id : option string;
  ae_reason_code : option string;
  ae_payload : dict;
  ae_created_at : string
}.

(* @src runtime_v1/provider_routes/coordinator.py:39-48 ProviderRouteAuditEvent.as_dict *)
Definition ProviderRouteAuditEvent_as_dict (e : ProviderRouteAuditEvent) : dict :=
  [("event_type", PStr (ae_event_type e)); ("manager_id", PStr (ae_manager_id e));
   ("connector_id", PStr (ae_connector_id e));
   ("owner_execution_id", ostr (ae_owner_execution_id e));
   ("reason_code", ostr (ae_reason_code e)); ("payload", PDict (ae_payload e));
   ("created_at", PStr (ae_created_at e))].

(* @src runtime_v1/provider_routes/coordinator.py:51-61 ProviderRouteLifecycleResult *)
Record ProviderRouteLifecycleResult := {
  lr_ok : bool;
  lr_lease : option ProviderRouteLease;
  lr_original_state : dict;
  lr_restored : bool;
  lr_restoration_verified : bool;
  lr_execution_result : pyval;
  lr_reason_code : option string;
  lr_message : string;
  lr_audits : list ProviderRouteAuditEvent
}.

(* @src runtime_v1/provider_routes/coordinator.py:63-74 ProviderRouteLifecycleResult.as_dict *)
Definition ProviderRouteLifecycleResult_as_dict `{PyLib} (r : ProviderRouteLifecycleResult) :
    dict :=
  [("ok", PBool (lr_ok r));
   ("lease", from_option (λ l, PDict (ProviderRouteLease_as_dict l)) PNone (lr_lease r));
   ("original_state", PDict (lr_original_state r)); ("restored", PBool (lr_restored r));
   ("restoration_verified", PBool (lr_restoration_verified r));
   ("execution_result", lr_execution_result r); ("reason_code", ostr (lr_reason_code r));
   ("message", PStr (lr_message r));
   ("audits", PList ((λ e, PDict (ProviderRouteAuditEvent_as_dict e)) <$> lr_audits r))].

(** The process: readings taken, the lease store, the keys whose process-local lock is
    taken, the audits of the coordinator, the clock of the event loop, and everything
    else. *)
(* @src runtime_v1/provider_routes/coordinator.py:85-87 ProviderRouteMutationCoordinator.__init__ *)
Record CoordinatorState (W : Type) `{LeaseStore} := {
  cs_ticks : nat;
  cs_store : ls_store;
  cs_locked : gset (string * string);
  cs_audits : list ProviderRouteAuditEvent;
  cs_loop : Z;
  cs_world : W
}.
Arguments Build_CoordinatorState {W _}.
Arguments cs_ticks {W _}.
Arguments cs_store {W _}.
Arguments cs_locked {W _}.
Arguments cs_audits {W _}.
Arguments cs_loop {W _}.
Arguments cs_world {W _}.

Section coordinator.
Context {W : Type} `{LeaseStore} `{PyLib}.
Abbreviation St := (CoordinatorState W).

(** The operations of a manager that the coordinator calls; the mutations run with the
    authority the task holds. *)
(* @src runtime_v1/provider_routes/protocol.py:194-229 ProviderRouteManager *)
Record ProviderRouteManager := {
  mg_manager_id : string;
  mg_inspect_route : string → M St ProviderRoute;
  mg_enable_route : option MutationAuthority → string → ProviderRouteMutationApproval →
    option string → M St ProviderRouteMutationResult;
  mg_disable_route : option MutationAuthority → string → ProviderRouteMutationApproval →
    M St ProviderRouteMutationResult;
  mg_verify_route : string → M St ProviderRoute
}.

(** The event loop: waiting for a lock another task holds (with a timeout or without),
    sleeping, and whether a cancellation reached the task while its cleanup ran. *)
Record EventLoop := {
  lp_wait_lock : string * string → option Z → M St unit;
  lp_sleep : Z → M St unit;
  lp_cancelled_in_cleanup : St → bool
}.

(** ** Steps on the state *)

Definition set_locked (l : gset (string * string)) (s : St) : St :=
  {| cs_ticks := cs_ticks s; cs_store := cs_store s; cs_locked := l;
     cs_audits := cs_audits s; cs_loop := cs_loop s; cs_world := cs_world s |}.
Definition add_audits (es : list ProviderRouteAuditEvent) (s : St) : St :=
  {| cs_ticks := cs_ticks s; cs_store := cs_store s; cs_locked := cs_locked s;
     cs_audits := cs_audits s ++ es; cs_loop := cs_loop s; cs_world := cs_world s |}.
(* @src runtime_v1/provider_routes/coordinator.py:93-94 ProviderRouteMutationCoordinator.clear_audits *)
Definition clear_audits (s : St) : St :=
  {| cs_ticks := cs_ticks s; cs_store := cs_store s; cs_locked := cs_locked s;
     cs_audits := []; cs_loop := cs_loop s; cs_world := cs_world s |}.
Definition set_store (t : nat * ls_store) (s : St) : St :=
  {| cs_ticks := t.1; cs_store := t.2; cs_locked := cs_locked s;
     cs_audits := cs_audits s; cs_loop := cs_loop s; cs_world := cs_world s |}.

Definition in_store {A} : M (nat * ls_store) A → M St A :=
  zoom (λ s, (cs_ticks s, cs_store s)) set_store.
Definition fresh : M St nat := in_store take_tick.
Definition loop_time : M St Z := s ← get_state; mret (cs_loop s).

(** A frame: the process and the local variables; statements that only use the process. *)
Definition on_state {L A} : M St A → M (St * L) A := zoom fst (λ s r, (s, r.2)).
Definition with_locals {L A} (l : L) (m : M (St * L) A) : M St (A * L) := λ s,
  match m (s, l) with
  | (Ok a, (s', l')) => (Ok (a, l'), s')
  | (Raise e, (s', _)) => (Raise e, s')
  end.

Definition is_LeaseError (e : exn) : bool := exn_class e == "ProviderRouteLeaseError".

(* @src runtime_v1/provider_routes/coordinator.py:756-775 ProviderRouteMutationCoordinator._audit *)
Definition _audit (event_type manager_id connector_id : string) (owner : option string)
    (reason_code : option string) (payload : dict) : M St ProviderRouteAuditEvent :=
  n ← fresh;
  let event := {| ae_event_type := event_type; ae_manager_id := manager_id;
                  ae_connector_id := connector_id; ae_owner_execution_id := owner;
                  ae_reason_code := reason_code; ae_payload := payload;
                  ae_created_at := isoformat (clock n) |} in
  modify_state (add_audits [event]);;
  mret event.

(** The authority that the [with] block installs. *)
(* @src runtime_v1/provider_routes/authority.py:67-89 mutation_authority *)
Definition mutation_authority (manager_id connector_id purpose : string)
    (lease_id : option string) : M St MutationAuthority :=
  n ← fresh;
  mret {| au_token := uuid_hex n; au_manager_id := manager_id;
          au_connector_id := connector_id; au_purpose := purpose; au_lease_id := lease_id |}.

Context (LP : EventLoop).

(** [local.acquire()]: a free lock is taken at once, and [wait_for] refuses a timeout that
    is not positive before it tries. The keys of [_local_locks] are the locks themselves. *)
(* @src runtime_v1/provider_routes/lease_store.py:105-111 ProviderRouteLeaseStore.local_lock *)
Definition local_acquire (key : string * string) (timeout : option Z) : M St unit :=
  if match timeout with Some t => (t <=? 0)%Z | None => false end then raise TimeoutError
  else
    s ← get_state;
    (if key in? cs_locked s then lp_wait_lock LP key timeout else mret tt);;
    modify_state (λ s, set_locked ({[key]} ∪ cs_locked s) s).

(** [if local.locked(): local.release()]. *)
Definition local_release (key : string * string) : M St unit :=
  modify_state (λ s, set_locked (cs_locked s ∖ {[key]}) s).

(** ** Comparing states *)

(* @src runtime_v1/provider_routes/coordinator.py:778-786 _model_matches *)
Definition _model_matches (observed requested : option string) : bool :=
  match requested, observed with
  | None, _ => true
  | Some _, None => false
  | Some r, Some o => (o == r) || endswith r o || endswith o r
  end.

(* @src runtime_v1/provider_routes/coordinator.py:789-799 _state_matches *)
Definition _state_matches (route : ProviderRoute) (original : dict) : bool :=
  let enabled := truthy (dget "enabled" original) in
  if negb (Bool.eqb (pr_enabled route) enabled) then false
  else if enabled then
    let desired_model := dget "model_id" original in
    if truthy desired_model &&
       negb (_model_matches (pr_model_id route) (Some (py_str desired_model))) then false
    else
      let desired_provider := dget "provider_id" original in
      negb (truthy desired_provider &&
            negb (py_eqb (PStr (pr_provider_id route)) desired_provider))
  else true.

(** The snapshot both entry points take before they acquire the lease. *)
(* @src runtime_v1/provider_routes/coordinator.py:191-201 ProviderRouteMutationCoordinator.run_lifecycle *)
Definition route_snapshot (connector_id : string) (current : ProviderRoute) : dict :=
  sanitise_route_state
    [("connector_id", PStr connector_id); ("provider_id", PStr (pr_provider_id current));
     ("enabled", PBool (pr_enabled current)); ("model_id", ostr (pr_model_id current));
     ("configuration_status", PStr (pr_configuration_status current));
     ("available", PBool (pr_available current));
     ("authenticated", PBool (pr_authenticated current))].

Section with_manager.
Context (manager : ProviderRouteManager).

(** ** Restoring *)

(** The approval the coordinator writes for itself. *)
Definition own_approval (action connector_id : string) (model_id : option string) :
    M St ProviderRouteMutationApproval :=
  n ← fresh;
  mret {| ap_approved := true; ap_action := action; ap_manager_id := mg_manager_id manager;
          ap_connector_id := connector_id; ap_nonce := uuid_hex n; ap_model_id := model_id |}.

(* @src runtime_v1/provider_routes/coordinator.py:697-754 ProviderRouteMutationCoordinator._restore *)
Definition _restore (authority : option MutationAuthority) (connector_id : string)
    (original : dict) : M St (bool * bool * option string * string) :=
  let desired_enabled := truthy (dget "enabled" original) in
  let desired_model := dget "model_id" original in
  let model := if truthy desired_model then Some (py_str desired_model) else None in
  catch
    (result ← (if desired_enabled then
                 approval ← own_approval "enable" connector_id model;
                 mg_enable_route manager authority connector_id approval model
               else
                 approval ← own_approval "disable" connector_id None;
                 mg_disable_route manager authority connector_id approval);
     if negb (mr_ok result) then
       mret (false, false, Some "restoration_failed", mr_message result)
     else
       verified_route ← mg_verify_route manager connector_id;
       if negb (_state_matches verified_route original) then
         mret (true, false, Some "restoration_failed",
               "restored route does not match original sanitised state")
       else mret (true, true, None, "exact original state restored"))
    (λ e, if is_Exception e
          then mret (false, false, Some "restoration_failed",
                     str_take 300 (redact_secrets (exn_msg e)))
          else raise e).

(** ** Recovery *)

Definition recovery_report (l : ProviderRouteLease) (status : string) (verified : bool) : dict :=
  [("lease_id", PStr (rl_id l)); ("connector_id", PStr (rl_connector l));
   ("status", PStr status); ("verified", PBool verified)].

(** [msg or code or "recovery_failed"]. *)
Definition block_reason (msg : string) (code : option string) : string :=
  if msg != "" then msg
  else if otruthy code then default "" code else "recovery_failed".

(** The body of the recovery once the lease is claimed and the local lock is held. *)
(* @src runtime_v1/provider_routes/coordinator.py:627-671 ProviderRouteMutationCoordinator._recover_one *)
Definition recover_claimed (recovery_owner : string) (original : dict)
    (claimed : ProviderRouteLease) : M St dict :=
  authority ← mutation_authority (rl_manager claimed) (rl_connector claimed) "recovery"
    (Some (rl_id claimed));
  r ← _restore (Some authority) (rl_connector claimed) original;
  let '(restored, verified, code, msg) := r in
  let status := if restored && verified then "restored_verified" else "recovery_failed" in
  in_store (ls_mark_recovery (rl_id claimed) (rl_token claimed) status
    (Some [("message", PStr msg); ("code", ostr code);
           ("recovery_owner_id", PStr recovery_owner)]));;
  (if status == "recovery_failed" then
     in_store (ls_block_connector (rl_manager claimed) (rl_connector claimed)
       (block_reason msg code))
   else mret tt);;
  _audit "provider_route.crash_recovery" (rl_manager claimed) (rl_connector claimed)
    (Some (rl_owner claimed)) (Some status) [("verified", PBool verified)];;
  mret (recovery_report claimed status verified).

(** What an exception during the recovery leaves: the connector blocked. *)
(* @src runtime_v1/provider_routes/coordinator.py:672-692 ProviderRouteMutationCoordinator._recover_one *)
Definition recovery_raised (lease : ProviderRouteLease) (e : exn) : M St dict :=
  in_store (ls_block_connector (rl_manager lease) (rl_connector lease)
    (str_take 200 (redact_secrets (exn_msg e))));;
  catch
    (in_store (ls_mark_recovery (rl_id lease) (rl_token lease) "recovery_failed"
       (Some [("error_type", PStr (exn_class e))]));; mret tt)
    (λ e, if is_LeaseError e then mret tt else raise e);;
  mret (recovery_report lease "recovery_failed" false).

(* @src runtime_v1/provider_routes/coordinator.py:599-695 ProviderRouteMutationCoordinator._recover_one *)
Definition _recover_one (lease : ProviderRouteLease) : M St dict :=
  n ← fresh;
  let recovery_owner := "recovery:" +:+ uuid_hex n in
  let key := lease_key lease in
  claim ← catch
    (claimed ← in_store (ls_claim_recovery (rl_id lease) (rl_token lease) recovery_owner);
     mret (Some claimed))
    (λ e, if is_LeaseError e && (exn_code e == "recovery_claimed") then mret None else raise e);
  match claim with
  | None => mret (recovery_report lease "recovery_in_progress" false)
  | Some claimed =>
      local_acquire key None;;
      finally
        (catch (recover_claimed recovery_owner (rl_original lease) claimed)
           (λ e, if is_Exception e then recovery_raised lease e else raise e))
        (local_release key)
  end.

(** One round of the loop over the expired leases. *)
Definition recover_step (connector_ids : option (list string)) (lease : ProviderRouteLease) :
    M St (list dict) :=
  if match connector_ids with
     | Some ids => negb (rl_connector lease in? ids)
     | None => false
     end then mret []
  else if rl_manager lease != mg_manager_id manager then mret []
  else if match dget "restore_on_expiry" (rl_details lease) with
          | PBool false => true
          | _ => false
          end then
    in_store (ls_mark_recovery (rl_id lease) (rl_token lease) "expired_no_restore"
      (Some [("reason", PStr "cli_mutation")]));;
    mret [recovery_report lease "expired_no_restore" true]
  else report ← _recover_one lease; mret [report].

Fixpoint recover_each (connector_ids : option (list string)) (ls : list ProviderRouteLease) :
    M St (list dict) :=
  match ls with
  | [] => mret []
  | l :: ls' =>
      r ← recover_step connector_ids l;
      rs ← recover_each connector_ids ls';
      mret (r ++ rs)
  end.

(* @src runtime_v1/provider_routes/coordinator.py:484-517 ProviderRouteMutationCoordinator.recover_expired_leases *)
Definition recover_expired_leases (connector_ids : option (list string)) : M St (list dict) :=
  expired ← in_store ls_list_expired_active;
  recover_each connector_ids expired.
End with_manager.

(** ** Acquiring the lease *)

(** The polling loop both entry points run; [waited] tells whether a round was refused.
    No lease: the deadline passed. *)
(* @src runtime_v1/provider_routes/coordinator.py:202-237 ProviderRouteMutationCoordinator.run_lifecycle *)
Fixpoint acquire_loop (fuel : nat) (try : M St (option ProviderRouteLease))
    (deadline poll : Z) (waited : bool) : M St (option ProviderRouteLease * bool) :=
  match fuel with
  | O => raise OutOfFuel
  | S fuel' =>
      lease ← try;
      match lease with
      | Some l => mret (Some l, waited)
      | None =>
          t ← loop_time;
          if (deadline <=? t)%Z then mret (None, true)
          else lp_sleep LP poll;; acquire_loop fuel' try deadline poll true
      end
  end.

(** ** The lifecycle: lease, enable, execute, restore *)

(** The local variables of [run_lifecycle] that the handlers and the cleanup change. *)
Record LifecycleLocals := {
  ll_lease : option ProviderRouteLease;
  ll_original : dict;
  ll_execution_result : pyval;
  ll_restored : bool;
  ll_restoration_verified : bool;
  ll_reason_code : option string;
  ll_message : string;
  ll_ok : bool;
  ll_audits : list ProviderRouteAuditEvent
}.
Abbreviation Run := (CoordinatorState W * LifecycleLocals)%type.

Definition no_locals : LifecycleLocals :=
  {| ll_lease := None; ll_original := []; ll_execution_result := PNone; ll_restored := false;
     ll_restoration_verified := false; ll_reason_code := None; ll_message := "";
     ll_ok := false; ll_audits := [] |}.

Definition locally (f : LifecycleLocals → LifecycleLocals) : M Run unit :=
  modify_state (λ r, (r.1, f r.2)).
Definition locals : M Run LifecycleLocals := r ← get_state; mret r.2.

Definition ll_set_original (d : dict) (l : LifecycleLocals) : LifecycleLocals :=
  {| ll_lease := ll_lease l; ll_original := d; ll_execution_result := ll_execution_result l;
     ll_restored := ll_restored l; ll_restoration_verified := ll_restoration_verified l;
     ll_reason_code := ll_reason_code l; ll_message := ll_message l; ll_ok := ll_ok l;
     ll_audits := ll_audits l |}.
Definition ll_set_lease (x : ProviderRouteLease) (l : LifecycleLocals) : LifecycleLocals :=
  {| ll_lease := Some x; ll_original := ll_original l;
     ll_execution_result := ll_execution_result l;
     ll_restored := ll_restored l; ll_restoration_verified := ll_restoration_verified l;
     ll_reason_code := ll_reason_code l; ll_message := ll_message l; ll_ok := ll_ok l;
     ll_audits := ll_audits l |}.
Definition ll_fail (reason message : string) (l : LifecycleLocals) : LifecycleLocals :=
  {| ll_lease := ll_lease l; ll_original := ll_original l;
     ll_execution_result := ll_execution_result l;
     ll_restored := ll_restored l; ll_restoration_verified := ll_restoration_verified l;
     ll_reason_code := Some reason; ll_message := message; ll_ok := ll_ok l;
     ll_audits := ll_audits l |}.
Definition ll_executed (v : pyval) (l : LifecycleLocals) : LifecycleLocals :=
  {| ll_lease := ll_lease l; ll_original := ll_original l; ll_execution_result := v;
     ll_restored := ll_restored l; ll_restoration_verified := ll_restoration_verified l;
     ll_reason_code := ll_reason_code l; ll_message := "lifecycle completed"; ll_ok := true;
     ll_audits := ll_audits l |}.
(** The outcome of [_restore], a reason and a message only where there is none yet. *)
Definition ll_restore (restored verified : bool) (code : option string) (msg : string)
    (l : LifecycleLocals) : LifecycleLocals :=
  {| ll_lease := ll_lease l; ll_original := ll_original l;
     ll_execution_result := ll_execution_result l;
     ll_restored := restored; ll_restoration_verified := verified;
     ll_reason_code := if otruthy code && (ll_reason_code l == None) && negb (ll_ok l)
                       then code else ll_reason_code l;
     ll_message := if (msg != "") && (ll_message l == "") then msg else ll_message l;
     ll_ok := ll_ok l; ll_audits := ll_audits l |}.
Definition ll_note (e : ProviderRouteAuditEvent) (l : LifecycleLocals) : LifecycleLocals :=
  {| ll_lease := ll_lease l; ll_original := ll_original l;
     ll_execution_result := ll_execution_result l;
     ll_restored := ll_restored l; ll_restoration_verified := ll_restoration_verified l;
     ll_reason_code := ll_reason_code l; ll_message := ll_message l; ll_ok := ll_ok l;
     ll_audits := ll_audits l ++ [e] |}.

(** The arguments of a lifecycle. *)
Record LifecycleRequest := {
  lq_connector_id : string;
  lq_approval : ProviderRouteMutationApproval;
  lq_owner_execution_id : option string;
  lq_model_id : option string;
  lq_target_provider_id : string;
  lq_acquire_timeout : Z;
  lq_lease_ttl : Z;
  lq_poll_interval : Z
}.

(** A result of the early returns. *)
Definition refused (original : dict) (reason message : string)
    (audits : list ProviderRouteAuditEvent) : ProviderRouteLifecycleResult :=
  {| lr_ok := false; lr_lease := None; lr_original_state := original; lr_restored := false;
     lr_restoration_verified := false; lr_execution_result := PNone;
     lr_reason_code := Some reason; lr_message := message; lr_audits := audits |}.

Section lifecycle.
Context (manager : ProviderRouteManager) (q : LifecycleRequest) (owner : string).
Context (execute : option MutationAuthority → M St pyval).
Let manager_id := mg_manager_id manager.
Let connector_id := lq_connector_id q.
Let model_id := lq_model_id q.
Let key := (manager_id, connector_id).

(** [audits.append(self._audit(...))]. *)
Definition audit (event_type : string) (reason_code : option string) (payload : dict) :
    M Run unit :=
  e ← on_state (_audit event_type manager_id connector_id (Some owner) reason_code payload);
  locally (ll_note e).

Definition early (original : dict) (reason message : string) :
    M Run (option ProviderRouteLifecycleResult) :=
  l ← locals;
  mret (Some (refused original reason message (ll_audits l))).

(** Whether the route already is the target. *)
(* @src runtime_v1/provider_routes/coordinator.py:262-270 ProviderRouteMutationCoordinator.run_lifecycle *)
Definition already_target (current : ProviderRoute) : bool :=
  pr_enabled current && (pr_provider_id current == lq_target_provider_id q) &&
  match model_id with
  | None => true
  | Some _ => (pr_model_id current == model_id) ||
              _model_matches (pr_model_id current) model_id
  end.

(* @src runtime_v1/provider_routes/coordinator.py:262-328 ProviderRouteMutationCoordinator.run_lifecycle *)
Definition enable_target (authority : MutationAuthority) (current : ProviderRoute) :
    M Run unit :=
  if already_target current then
    audit "provider_route.already_enabled" None [("model_id", ostr (pr_model_id current))]
  else
    enable_result ← on_state (mg_enable_route manager (Some authority) connector_id
                              (lq_approval q) model_id);
    if negb (mr_ok enable_result) then
      let reason :=
        if mr_reason_code enable_result == Some "configuration_invalid"
        then "provider_status_verification_failed"
        else if otruthy (mr_reason_code enable_result)
             then default "" (mr_reason_code enable_result) else "provider_enable_failed" in
      let message := mr_message enable_result in
      locally (ll_fail reason message);;
      audit (if reason != "provider_status_verification_failed"
             then "provider_route.enable_failed" else "provider_route.verify_failed")
        (Some reason) [("message", PStr (str_take 300 (redact_secrets message)))]
    else
      verified ← on_state (mg_verify_route manager connector_id);
      if negb (pr_enabled verified) then
        locally (ll_fail "provider_status_verification_failed"
                   "route enable did not verify as enabled");;
        audit "provider_route.verify_failed" (Some "provider_status_verification_failed") []
      else
        audit "provider_route.enabled" None [("model_id", ostr (pr_model_id verified))].

(** What is done with an exception of the work or of the renewal before it. *)
(* @src runtime_v1/provider_routes/coordinator.py:349-386 ProviderRouteMutationCoordinator.run_lifecycle *)
Definition execution_raised (e : exn) : M Run unit :=
  if is_CancelledError e then
    locally (ll_fail "holder_cancelled"
               "execution cancelled while holding provider-route lease");;
    audit "provider_route.execution_cancelled" (Some "holder_cancelled") [];;
    raise e
  else if is_TimeoutError e then
    locally (ll_fail "holder_timeout"
               "execution timed out while holding provider-route lease");;
    audit "provider_route.execution_timeout" (Some "holder_timeout") []
  else
    locally (ll_fail "holder_execution_failed" (str_take 300 (redact_secrets (exn_msg e))));;
    audit "provider_route.execution_failed" (Some "holder_execution_failed")
      [("error_type", PStr (exn_class e))].

(* @src runtime_v1/provider_routes/coordinator.py:330-386 ProviderRouteMutationCoordinator.run_lifecycle *)
Definition execute_held (authority : MutationAuthority) (lease : ProviderRouteLease) :
    M Run unit :=
  catch
    (on_state (in_store (ls_renew (rl_id lease) (rl_token lease) owner (lq_lease_ttl q)));;
     v ← on_state (execute (Some authority));
     locally (ll_executed v);;
     audit "provider_route.execution_completed" None [])
    execution_raised.

(* @src runtime_v1/provider_routes/coordinator.py:425-451 ProviderRouteMutationCoordinator.run_lifecycle._cleanup *)
Definition release_lease (lease : ProviderRouteLease) : M Run unit :=
  catch
    (on_state (in_store (ls_release (rl_id lease) (rl_token lease) owner));;
     audit "provider_route.lease_released" None [("lease_id", PStr (rl_id lease))])
    (λ e, if is_LeaseError e
          then audit "provider_route.lease_release_failed" (Some (exn_code e))
                 [("message", PStr (exn_msg e))]
          else raise e).

(* @src runtime_v1/provider_routes/coordinator.py:389-451 ProviderRouteMutationCoordinator.run_lifecycle._cleanup *)
Definition _cleanup (authority : MutationAuthority) (lease : ProviderRouteLease) : M Run unit :=
  finally
    (l ← locals;
     r ← on_state (_restore manager (Some authority) connector_id (ll_original l));
     let '(restored, verified, restore_code, restore_msg) := r in
     locally (ll_restore restored verified restore_code restore_msg);;
     audit (if restored && verified then "provider_route.restored"
            else "provider_route.restore_failed")
       (if restored && verified then None
        else Some (if otruthy restore_code then default "" restore_code
                   else "restoration_failed"))
       [("restored", PBool restored); ("verified", PBool verified)])
    (release_lease lease).

(** The cleanup runs in a shielded task with a copy of the context: a cancellation that
    arrives meanwhile is raised once it is done. *)
(* @src runtime_v1/provider_routes/coordinator.py:453-458 ProviderRouteMutationCoordinator.run_lifecycle *)
Definition shielded_cleanup (authority : MutationAuthority) (lease : ProviderRouteLease) :
    M Run unit :=
  _cleanup authority lease;;
  r ← get_state;
  if lp_cancelled_in_cleanup LP r.1 then raise CancelledError else mret tt.

(** From the acquired lease to its release. *)
(* @src runtime_v1/provider_routes/coordinator.py:239-458 ProviderRouteMutationCoordinator.run_lifecycle *)
Definition hold (lease : ProviderRouteLease) (waited : bool) (current : ProviderRoute) :
    M Run unit :=
  locally (ll_set_lease lease);;
  l ← locals;
  audit "provider_route.lease_acquired" None
    [("lease_id", PStr (rl_id lease)); ("waited", PBool waited);
     ("original_enabled", dget "enabled" (ll_original l))];;
  authority ← on_state (mutation_authority manager_id connector_id "lifecycle"
                        (Some (rl_id lease)));
  finally
    (enable_target authority current;;
     l ← locals;
     if ll_reason_code l == None then execute_held authority lease else mret tt)
    (shielded_cleanup authority lease).

(** The body of the [try] that holds the local lock: an early result, or none. *)
(* @src runtime_v1/provider_routes/coordinator.py:96-482 ProviderRouteMutationCoordinator.run_lifecycle *)
Definition lifecycle_body (fuel : nat) : M Run (option ProviderRouteLifecycleResult) :=
  got ← catch
    (on_state (local_acquire key (Some (lq_acquire_timeout q)));; mret true)
    (λ e,
       if is_TimeoutError e then
         audit "provider_route.lock_timeout" (Some "lock_acquisition_timeout") [];;
         mret false
       else if is_CancelledError e then
         audit "provider_route.lock_wait_cancelled" (Some "lock_wait_cancelled") [];;
         raise e
       else raise e);
  if negb (got : bool) then
    early [] "lock_acquisition_timeout"
      "timed out waiting for process-local provider-route lock"
  else
    t ← on_state loop_time;
    current ← on_state (mg_inspect_route manager connector_id);
    let original := route_snapshot connector_id current in
    locally (ll_set_original original);;
    r ← on_state (acquire_loop fuel
          (in_store (ls_try_acquire manager_id connector_id owner (lq_lease_ttl q) original
             (Some (lq_target_provider_id q)) model_id
             (Some [("phase", PStr "acquired")])))
          (t + lq_acquire_timeout q) (lq_poll_interval q) false);
    match r with
    | (None, _) =>
        audit "provider_route.lease_timeout" (Some "lock_acquisition_timeout") [];;
        early original "lock_acquisition_timeout" "timed out waiting for provider-route lease"
    | (Some lease, waited) => hold lease waited current;; mret None
    end.

(** The result computed from the local variables after the [try]. *)
(* @src runtime_v1/provider_routes/coordinator.py:463-480 ProviderRouteMutationCoordinator.run_lifecycle *)
Definition lifecycle_result (l : LifecycleLocals) : ProviderRouteLifecycleResult :=
  let spoiled := negb (ll_ok l && ll_restored l && ll_restoration_verified l) &&
                 (ll_ok l && negb (ll_restoration_verified l)) in
  {| lr_ok := (if spoiled then false else ll_ok l) && ll_restoration_verified l;
     lr_lease := ll_lease l; lr_original_state := ll_original l;
     lr_restored := ll_restored l; lr_restoration_verified := ll_restoration_verified l;
     lr_execution_result := ll_execution_result l;
     lr_reason_code :=
       if spoiled then Some (if otruthy (ll_reason_code l) then default "" (ll_reason_code l)
                             else "restoration_failed") else ll_reason_code l;
     lr_message :=
       if spoiled && (ll_message l == "") then "execution succeeded but restoration failed"
       else ll_message l;
     lr_audits := ll_audits l |}.
End lifecycle.

(** [owner_execution_id or str(uuid4())]. *)
Definition owner_of (owner_execution_id : option string) : M St string :=
  if otruthy owner_execution_id then mret (default "" owner_execution_id)
  else n ← fresh; mret (uuid_str n).

(* @src runtime_v1/provider_routes/coordinator.py:96-482 ProviderRouteMutationCoordinator.run_lifecycle *)
Definition run_lifecycle (fuel : nat) (manager : ProviderRouteManager) (q : LifecycleRequest)
    (execute : option MutationAuthority → M St pyval) : M St ProviderRouteLifecycleResult :=
  owner ← owner_of (lq_owner_execution_id q);
  let manager_id := mg_manager_id manager in
  let connector_id := lq_connector_id q in
  blocked ← in_store (ls_is_blocked manager_id connector_id);
  if otruthy blocked then
    event ← _audit "provider_route.mutation_blocked" manager_id connector_id (Some owner)
      (Some "recovery_failed") [("detail", ostr blocked)];
    mret (refused [] "recovery_failed"
            ("provider-route mutations blocked: " +:+ default "" blocked) [event])
  else
    recover_expired_leases manager (Some [connector_id]);;
    x ← with_locals no_locals
          (finally (lifecycle_body manager q owner execute fuel)
             (on_state (local_release (manager_id, connector_id))));
    match x with
    | (Some early_result, _) => mret early_result
    | (None, l) => modify_state (add_audits (ll_audits l));; mret (lifecycle_result l)
    end.

(** ** A mutation without a restore *)

(** The [finally] of the mutation: its lease is released when it got one. *)
Definition release_quietly (owner : string) (lease : option ProviderRouteLease) : M St unit :=
  match lease with
  | None => mret tt
  | Some l =>
      catch (in_store (ls_release (rl_id l) (rl_token l) owner);; mret tt)
        (λ e, if is_LeaseError e then mret tt else raise e)
  end.

(** The body of the [try]; [lease] is a variable of the frame, the [finally] sees its last
    value. *)
(* @src runtime_v1/provider_routes/coordinator.py:539-585 ProviderRouteMutationCoordinator.run_serialised_mutation *)
Definition mutation_body {A} (fuel : nat) (manager : ProviderRouteManager)
    (connector_id owner : string) (mutate : option MutationAuthority → M St A)
    (acquire_timeout lease_ttl : Z) : M (St * option ProviderRouteLease) A :=
  let manager_id := mg_manager_id manager in
  current ← on_state (mg_inspect_route manager connector_id);
  t ← on_state loop_time;
  r ← on_state (acquire_loop fuel
        (in_store (ls_try_acquire manager_id connector_id owner lease_ttl
           (route_snapshot connector_id current) None None
           (Some [("restore_on_expiry", PBool false); ("phase", PStr "cli_mutation")])))
        (t + acquire_timeout) 50000 false);
  match r.1 with
  | None => raise (ProviderRouteLeaseError "lock_acquisition_timeout"
                     "timed out waiting for provider-route lease")
  | Some lease =>
      modify_state (λ r, (r.1, Some lease));;
      on_state (_audit "provider_route.cli_mutation_acquired" manager_id connector_id
         (Some owner) None [("lease_id", PStr (rl_id lease))]);;
      authority ← on_state (mutation_authority manager_id connector_id "serialised"
                              (Some (rl_id lease)));
      on_state (mutate (Some authority))
  end.

(* @src runtime_v1/provider_routes/coordinator.py:519-597 ProviderRouteMutationCoordinator.run_serialised_mutation *)
Definition run_serialised_mutation {A} (fuel : nat) (manager : ProviderRouteManager)
    (connector_id : string) (mutate : option MutationAuthority → M St A)
    (owner_execution_id : option string) (acquire_timeout lease_ttl : Z) : M St A :=
  owner ← owner_of owner_execution_id;
  let manager_id := mg_manager_id manager in
  let key := (manager_id, connector_id) in
  blocked ← in_store (ls_is_blocked manager_id connector_id);
  if otruthy blocked then
    raise (ProviderRouteLeaseError "recovery_failed"
             ("mutations blocked: " +:+ default "" blocked))
  else
    recover_expired_leases manager (Some [connector_id]);;
    local_acquire key (Some acquire_timeout);;
    x ← with_locals None
          (finally
             (mutation_body fuel manager connector_id owner mutate acquire_timeout lease_ttl)
             (r ← get_state;
              on_state (release_quietly owner r.2;; local_release key)));
    mret x.1.

(** ** The service in front of it *)

(* @src runtime_v1/provider_routes/registry.py:32-37 get_provider_route_manager *)
Definition get_provider_route_manager (managers : list (string * ProviderRouteManager))
    (manager_id : string) : res ProviderRouteManager :=
  match dict_get manager_id managers with
  | Some m => Ok m
  | None => Raise (KeyError (repr_str ("unknown provider-route manager: " +:+ manager_id)))
  end.

(** An explicit [nonce] is left out: the service passes none. *)
(* @src runtime_v1/provider_routes/fireconnect.py:531-557 make_approval *)
Definition make_approval (action connector_id : string) (model_id : option string) :
    ProviderRouteMutationApproval :=
  {| ap_approved := true; ap_action := action; ap_manager_id := "fireconnect";
     ap_connector_id := connector_id;
     ap_nonce := str_take 16 (sha256_hex
       ("fireconnect:" +:+ action +:+ ":" +:+ connector_id +:+ ":" +:+ default "" model_id));
     ap_model_id := model_id |}.

Section service.
Context (managers : list (string * ProviderRouteManager)) (fuel : nat).

(* @src runtime_v1/provider_routes/service.py:37-67 ProviderRouteService.enable_permanently *)
Definition enable_permanently (manager_id connector_id : string) (model_id owner : option string)
    (acquire_timeout : Z) : M St ProviderRouteMutationResult :=
  manager ← lift_res (get_provider_route_manager managers manager_id);
  run_serialised_mutation fuel manager connector_id
    (λ au, mg_enable_route manager au connector_id
             (make_approval "enable" connector_id model_id) model_id)
    owner acquire_timeout 60000000.

(* @src runtime_v1/provider_routes/service.py:69-93 ProviderRouteService.disable_permanently *)
Definition disable_permanently (manager_id connector_id : string) (owner : option string)
    (acquire_timeout : Z) : M St ProviderRouteMutationResult :=
  manager ← lift_res (get_provider_route_manager managers manager_id);
  run_serialised_mutation fuel manager connector_id
    (λ au, mg_disable_route manager au connector_id
             (make_approval "disable" connector_id None))
    owner acquire_timeout 60000000.

(* @src runtime_v1/provider_routes/service.py:95-124 ProviderRouteService.run_temporary *)
Definition run_temporary (manager_id connector_id : string)
    (execute : option MutationAuthority → M St pyval) (model_id owner : option string)
    (target_provider_id : string) (acquire_timeout lease_ttl : Z) :
    M St ProviderRouteLifecycleResult :=
  manager ← lift_res (get_provider_route_manager managers manager_id);
  run_lifecycle fuel manager
    {| lq_connector_id := connector_id;
       lq_approval := make_approval "enable" connector_id model_id;
       lq_owner_execution_id := owner; lq_model_id := model_id;
       lq_target_provider_id := target_provider_id; lq_acquire_timeout := acquire_timeout;
       lq_lease_ttl := lease_ttl; lq_poll_interval := 50000 |} execute.

(* @src runtime_v1/provider_routes/service.py:126-136 ProviderRouteService.recover_expired *)
Definition recover_expired (manager_id : string) (connector_ids : option (list string)) :
    M St (list dict) :=
  manager ← lift_res (get_provider_route_manager managers manager_id);
  recover_expired_leases manager connector_ids.

(* @src runtime_v1/provider_routes/service.py:138-152 ProviderRouteService.enable_permanently_as_dict *)
Definition enable_permanently_as_dict (manager_id connector_id : string)
    (model_id owner : option string) : M St dict :=
  result ← enable_permanently manager_id connector_id model_id owner 30000000;
  mret (ProviderRouteMutationResult_as_dict result).

(* @src runtime_v1/provider_routes/service.py:154-166 ProviderRouteService.disable_permanently_as_dict *)
Definition disable_permanently_as_dict (manager_id connector_id : string)
    (owner : option string) : M St dict :=
  result ← disable_permanently manager_id connector_id owner 30000000;
  mret (ProviderRouteMutationResult_as_dict result).
End service.
End coordinator.
