(* ===== verification/CoordinatorProofs.v ===== *)
(** * The route mutation coordinator: theorems

    What a successful lifecycle did, who holds the authority when the manager is asked to
    change a route, what a run leaves behind whatever its outcome, and the end of the
    polling loop. The environment (managers, work, waits) stays a parameter; what a
    theorem asks of it is a hypothesis. *)

From S2P Require Import Prelude Security RouteLeases LeaseInterface RouteSelection Coordinator.

(** ** Equations of the steps *)


Section equations.
Context {W : Type} `{LeaseStore} `{PyLib} (LP : @EventLoop W _).
Implicit Types (s : CoordinatorState W).






Context (manager : @ProviderRouteManager W _) (q : LifecycleRequest) (owner : string).
Abbreviation audit := (audit (W := W) manager q owner).


End equations.


(** ** What a successful lifecycle did *)

Section success.
Context {W : Type} `{LeaseStore} `{PyLib} (LP : @EventLoop W _).
Context (manager : @ProviderRouteManager W _) (q : LifecycleRequest).
Context (execute : option MutationAuthority → M (CoordinatorState W) pyval).
Abbreviation connector_id := (lq_connector_id q).













End success.

(** ** The authority of every mutation *)

#[export] Instance finallyproper {S A} :
  Proper ((≡@{M S A}) ==> (≡@{M S unit}) ==> (≡@{M S A})) finally.
Proof.
  intros m1 m2 Hm f1 f2 Hf s. unfold finally. rewrite (Hm s).
  destruct (m2 s) as [r s1]. by rewrite (Hf s1).
Qed.

#[export] Instance with_locals_proper {W} `{LeaseStore} {L A} (l : L) :
  Proper ((≡@{M (CoordinatorState W * L) A}) ==> (≡)) (with_locals (A := A) l).
Proof. intros m1 m2 Hm s. unfold with_locals. by rewrite (Hm (s, l)). Qed.

Section guarded.
Context {W : Type} `{LeaseStore} `{PyLib} (LP : @EventLoop W _).
Context (manager : @ProviderRouteManager W _).

(** A manager that starts its mutations with [require_mutation_authority], as the managers
    of the repository do. *)
Definition guarded : @ProviderRouteManager W _ := {|
  mg_manager_id := mg_manager_id manager;
  mg_inspect_route := mg_inspect_route manager;
  mg_enable_route au c approval model :=
    lift_res (require_mutation_authority au (mg_manager_id manager) c);;
    mg_enable_route manager au c approval model;
  mg_disable_route au c approval :=
    lift_res (require_mutation_authority au (mg_manager_id manager) c);;
    mg_disable_route manager au c approval;
  mg_verify_route := mg_verify_route manager
|}.

(** Work that checks the authority for the connector before it starts. *)
Definition guarded_work {A} (c : string)
    (work : option MutationAuthority → M (CoordinatorState W) A) :
    option MutationAuthority → M (CoordinatorState W) A := λ au,
  lift_res (require_mutation_authority au (mg_manager_id manager) c);; work au.

Definition authorises (au : MutationAuthority) (c : string) : Prop :=
  au_manager_id au = mg_manager_id manager ∧ au_connector_id au = c.

Lemma require_passes au c :
  authorises au c → require_mutation_authority (Some au) (mg_manager_id manager) c = Ok au.
Proof.
  intros [Hm Hc]. unfold require_mutation_authority.
  by rewrite !bool_decide_eq_true_2 by done.
Qed.

Lemma guarded_enable au c approval model :
  authorises au c →
  mg_enable_route guarded (Some au) c approval model ≡
  mg_enable_route manager (Some au) c approval model.
Proof.
  intros Ha s. unfold guarded. cbn [mg_enable_route mg_disable_route].
  by rewrite require_passes.
Qed.

Lemma guarded_disable au c approval :
  authorises au c →
  mg_disable_route guarded (Some au) c approval ≡
  mg_disable_route manager (Some au) c approval.
Proof.
  intros Ha s. unfold guarded. cbn [mg_enable_route mg_disable_route].
  by rewrite require_passes.
Qed.

Lemma guarded_work_eq {A} c (work : option MutationAuthority → M (CoordinatorState W) A) au :
  authorises au c → guarded_work c work (Some au) ≡ work (Some au).
Proof. intros Ha s. unfold guarded_work. by rewrite require_passes. Qed.

(** Congruence for the equality of computations: one constructor of the monad at a time. *)
Ltac m_step :=
  match goal with
  | |- ?m ≡ ?m => reflexivity
  | |- (_ ≫= _) ≡ (_ ≫= _) => apply M_bind_proper; [intros ?|]
  | |- catch _ _ ≡ catch _ _ => apply catch_proper; [|intros ?]
  | |- finally _ _ ≡ finally _ _ => apply finallyproper
  | |- on_state _ ≡ on_state _ => apply zoom_proper
  | |- with_locals _ _ ≡ with_locals _ _ => apply with_locals_proper
  | |- (if ?b then _ else _) ≡ _ => destruct b
  | |- (match ?x with _ => _ end) ≡ _ => destruct x
  end.

Lemma guarded_restore au c original :
  authorises au c → _restore guarded (Some au) c original ≡ _restore manager (Some au) c original.
Proof.
  intros Ha. unfold _restore. simpl. repeat m_step.
  all: first [reflexivity|by apply guarded_enable|by apply guarded_disable].
Qed.

Lemma guarded_enable_target q owner au current :
  authorises au (lq_connector_id q) →
  enable_target guarded q owner au current ≡ enable_target manager q owner au current.
Proof.
  intros Ha. unfold enable_target. m_step; [done|]. m_step; [done|]. m_step.
  by apply guarded_enable.
Qed.

Lemma guarded_cleanup q owner au lease :
  authorises au (lq_connector_id q) →
  _cleanup guarded q owner au lease ≡ _cleanup manager q owner au lease.
Proof.
  intros Ha. unfold _cleanup. m_step; [|done]. m_step; [|done].
  m_step; [done|]. m_step. by apply guarded_restore.
Qed.

(** The authority a [with] block installs for the connector. *)
Lemma authority_bind {A B} purpose c (lease : option string)
    (k1 k2 : MutationAuthority → M (CoordinatorState W * A) B) :
  (∀ au, authorises au c → k1 au ≡ k2 au) →
  (on_state (mutation_authority (mg_manager_id manager) c purpose lease) ≫= k1) ≡
  (on_state (mutation_authority (mg_manager_id manager) c purpose lease) ≫= k2).
Proof.
  intros Hk [s l]. unfold mbind, M_bind, on_state, zoom, mutation_authority. simpl.
  by apply Hk.
Qed.

Lemma guarded_hold q owner execute lease waited current :
  hold LP guarded q owner (guarded_work (lq_connector_id q) execute) lease waited current ≡
  hold LP manager q owner execute lease waited current.
Proof.
  unfold hold. do 3 (m_step; [|done]). apply authority_bind. intros au Ha.
  apply finallyproper.
  - m_step; [|by apply guarded_enable_target]. m_step; [|done]. m_step; [|done].
    unfold execute_held. m_step; [|done]. m_step; [|done]. m_step; [done|]. m_step.
    by apply guarded_work_eq.
  - unfold shielded_cleanup. m_step; [done|]. by apply guarded_cleanup.
Qed.

Lemma guarded_body q owner execute fuel :
  lifecycle_body LP guarded q owner (guarded_work (lq_connector_id q) execute) fuel ≡
  lifecycle_body LP manager q owner execute fuel.
Proof.
  unfold lifecycle_body. m_step; [|done]. m_step; [done|].
  do 4 (m_step; [|done]). destruct a3 as [[lease|] waited]; [|done].
  m_step; [done|]. apply guarded_hold.
Qed.

(** every mutation the coordinator asks for carries the authority of its manager and
    connector: a manager (and work) that refuses to run without it behaves in a
    lifecycle, in a serialised mutation and in the recovery of one of its leases exactly
    as one that does not check, so the check never refuses the coordinator. *)
Theorem mutations_carry_the_authority :
  (∀ q owner execute fuel,
     lifecycle_body LP guarded q owner (guarded_work (lq_connector_id q) execute) fuel ≡
     lifecycle_body LP manager q owner execute fuel) ∧
  (∀ A fuel c owner mutate timeout ttl,
     mutation_body (A := A) LP fuel guarded c owner (guarded_work c mutate) timeout ttl ≡
     mutation_body LP fuel manager c owner mutate timeout ttl) ∧
  (∀ recovery_owner original claimed, rl_manager claimed = mg_manager_id manager →
     recover_claimed guarded recovery_owner original claimed ≡
     recover_claimed manager recovery_owner original claimed).
Proof.
  split; [intros; apply guarded_body|]. split.
  - intros A fuel c owner mutate timeout ttl. unfold mutation_body.
    do 3 (m_step; [|done]). destruct (a1.1) as [lease|]; [|done].
    do 2 (m_step; [|done]). apply authority_bind. intros au Ha. m_step.
    by apply guarded_work_eq.
  - intros ro original claimed Hm s. unfold recover_claimed, mutation_authority, mbind, M_bind.
    destruct (fresh s) as [[n|e] s1]; [|done]. unfold mret, M_ret.
    set (au := {| au_token := _ |}). rewrite (guarded_restore au); [done|].
    split; [done|]. done.
Qed.
End guarded.

(** ** What a run leaves behind *)

Section leaves.
Context {W : Type} `{LeaseStoreLaws} `{PyLib} (LP : @EventLoop W _).
Context (manager : @ProviderRouteManager W _) (c : string).
Abbreviation St := (CoordinatorState W).
Abbreviation key := (mg_manager_id manager, c).
Implicit Types (s : St) (l : ProviderRouteLease).

(** The route is free: the store is in order and holds no lease of it, and the local lock
    is not taken. *)
Definition route_free s : Prop :=
  ls_ok (cs_store s) ∧ ls_free (cs_store s) key ∧ key ∉ cs_locked s.

(** The lock is taken and the lease [l] of the route is held, or was lost to its expiry. *)
Definition mine l s : Prop :=
  ls_ok (cs_store s) ∧ key ∈ cs_locked s ∧ lease_key l = key ∧
  (ls_holds (cs_store s) l ∨ ls_gone (cs_store s) l).

Definition waiting s : Prop :=
  ls_ok (cs_store s) ∧ ls_free (cs_store s) key ∧ key ∈ cs_locked s.

(** What the other computations of the process are asked: to leave a free route free and a
    lease of the route with its holder. *)
Definition considerate {A} (m : M St A) : Prop :=
  keeps route_free m ∧ keeps waiting m ∧ ∀ l, keeps (mine l) m.

Record considerate_manager : Prop := {
  cm_inspect : ∀ c', considerate (mg_inspect_route manager c');
  cm_enable : ∀ au c' a m, considerate (mg_enable_route manager au c' a m);
  cm_disable : ∀ au c' a, considerate (mg_disable_route manager au c' a);
  cm_verify : ∀ c', considerate (mg_verify_route manager c')
}.

(** Steps that only read the clock or write audits. *)
Lemma considerate_fresh : considerate (fresh (W := W)).
Proof. split_and!; by intros ? s. Qed.
Lemma considerate_audit ev m c' o rc p : considerate (_audit (W := W) ev m c' o rc p).
Proof. split_and!; by intros ? s. Qed.

Lemma considerate_ret {A} (a : A) : considerate (mret a).
Proof. split_and!; intros; apply keeps_ret. Qed.
Lemma considerate_raise {A} e : considerate (raise (A := A) e).
Proof. split_and!; intros; apply keeps_raise. Qed.
Lemma considerate_bind {A B} (m : M St A) (k : A → M St B) :
  considerate m → (∀ a, considerate (k a)) → considerate (m ≫= k).
Proof.
  intros (Ha & Hb & Hc) Hk. split_and!; intros; apply keeps_bind; auto; intros a;
    destruct (Hk a) as (? & ? & ?); auto.
Qed.
Lemma considerate_catch {A} (m : M St A) h :
  considerate m → (∀ e, considerate (h e)) → considerate (catch m h).
Proof.
  intros (Ha & Hb & Hc) Hk. split_and!; intros; apply keeps_catch; auto; intros a;
    destruct (Hk a) as (? & ? & ?); auto.
Qed.

(** Between the acquisition of the lock and the release: nothing of ours is held, or the
    lock is. *)
Definition unheld s : Prop := route_free s ∨ waiting s.

Lemma local_release_frees s : unheld s → route_free (local_release key s).2.
Proof.
  clear. intros [(Hok & Hf & Hl)|(Hok & Hf & Hl)]; (split; [done|split; [done|]]); simpl;
    set_solver.
Qed.

Context (Hm : considerate_manager).

Lemma considerate_own_approval action c' m :
  considerate (own_approval manager action c' m).
Proof. split_and!; by intros ? s. Qed.

Lemma considerate_restore au c' original : considerate (_restore manager au c' original).
Proof.
  apply considerate_catch.
  - apply considerate_bind.
    + destruct (truthy _); (apply considerate_bind; [apply considerate_own_approval|]);
        intros ap; [apply cm_enable|apply cm_disable]; apply Hm.
    + intros r. destruct (negb (mr_ok r)); [apply considerate_ret|].
      apply considerate_bind; [apply cm_verify, Hm|]. intros route.
      destruct (negb _); apply considerate_ret.
  - intros e. destruct (is_Exception e); [apply considerate_ret|apply considerate_raise].
Qed.

(** The same for the frame of the lifecycle: its local variables are free to change. *)
Definition considerate_run {L A} (m : M (St * L) A) : Prop :=
  ∀ l, keeps (λ r, mine l r.1) m.

Lemma considerate_on_state {L A} (m : M St A) :
  considerate m → considerate_run (L := L) (on_state m).
Proof.
  intros (_ & _ & Hc) l [s x] Hs. unfold on_state, zoom. simpl in *.
  specialize (Hc l s Hs). by destruct (m s).
Qed.
Lemma considerate_run_bind {L A B} (m : M (St * L) A) (k : A → M (St * L) B) :
  considerate_run m → (∀ a, considerate_run (k a)) → considerate_run (m ≫= k).
Proof. intros Ha Hk l. apply keeps_bind; [apply Ha|]. intros a. apply Hk. Qed.
Lemma considerate_run_catch {L A} (m : M (St * L) A) h :
  considerate_run m → (∀ e, considerate_run (h e)) → considerate_run (catch m h).
Proof. intros Ha Hk l. apply keeps_catch; [apply Ha|]. intros a. apply Hk. Qed.
Lemma considerate_run_ret {L A} (a : A) : considerate_run (L := L) (mret a).
Proof. intros l. apply keeps_ret. Qed.
Lemma considerate_locally f : considerate_run (locally (W := W) f).
Proof. by intros l [s x]. Qed.
Lemma considerate_locals : considerate_run (locals (W := W)).
Proof. by intros l [s x]. Qed.
Lemma considerate_run_audit q owner ev rc p :
  considerate_run (audit (W := W) manager q owner ev rc p).
Proof.
  apply considerate_run_bind; [apply considerate_on_state, considerate_audit|].
  intros e. apply considerate_locally.
Qed.
Lemma considerate_run_raise {L A} e : considerate_run (L := L) (raise (A := A) e).
Proof. intros l. apply keeps_raise. Qed.

Context (q : LifecycleRequest) (Hq : lq_connector_id q = c) (owner : string).
Context (execute : option MutationAuthority → M St pyval).
Context (Hexecute : ∀ au, considerate (execute au)).

Ltac considerate_steps :=
  repeat first
    [ apply considerate_run_audit | apply considerate_locally | apply considerate_locals
    | apply considerate_run_ret | apply considerate_run_raise
    | apply considerate_on_state, Hexecute
    | apply considerate_on_state, considerate_restore
    | apply considerate_on_state, cm_enable, Hm | apply considerate_on_state, cm_verify, Hm
    | apply considerate_run_bind; [|intros ?]
    | match goal with |- considerate_run (if ?b then _ else _) => destruct b end ].

Lemma considerate_enable au current : considerate_run (enable_target manager q owner au current).
Proof. unfold enable_target. considerate_steps. Qed.

(** The renewal keeps the lease with its holder, or lets it go when it has expired. *)
Lemma renew_keeps_mine l :
  rl_owner l = owner →
  keeps (mine l) (in_store (W := W) (ls_renew (rl_id l) (rl_token l) owner (lq_lease_ttl q))).
Proof.
  intros <- s (Hok & Hlk & Hk & Hl). unfold in_store, zoom, mine. simpl.
  destruct Hl as [Hl|Hl].
  - pose proof (renew_law l (lq_lease_ttl q) (cs_ticks s) (cs_store s) Hok Hl) as Hr.
    destruct (ls_renew _ _ _ _ _) as [[x|e] [n st]]; simpl; naive_solver.
  - rewrite (surjective_pairing (ls_renew _ _ _ _ _)). simpl.
    rewrite (renew_gone l (lq_lease_ttl q) (cs_ticks s) (cs_store s) Hok Hl). auto.
Qed.

Lemma considerate_execute au l :
  rl_owner l = owner → keeps (λ r, mine l r.1) (execute_held manager q owner execute au l).
Proof.
  intros Ho. unfold execute_held. apply keeps_catch.
  - apply keeps_bind.
    + intros [s x] Hs. unfold on_state, zoom. simpl in *.
      pose proof (renew_keeps_mine l Ho s Hs) as Hr. by destruct (in_store _ s).
    + intros _. assert (considerate_run (L := LifecycleLocals)
        (v ← on_state (execute (Some au)); locally (ll_executed v);;
         audit manager q owner "provider_route.execution_completed" None [])) as Hc
        by considerate_steps. apply Hc.
  - intros e. assert (considerate_run (execution_raised manager q owner e)) as Hc.
    { unfold execution_raised. considerate_steps. }
    apply Hc.
Qed.

(** The release frees the route, whatever became of the lease. *)
Lemma release_leads l r :
  rl_owner l = owner → mine l r.1 →
  waiting (release_lease manager q owner l r).2.1.
Proof.
  destruct r as [s x]. intros <- (Hok & Hlk & Hk & Hl). simpl in *.
  unfold release_lease, catch, mbind, M_bind, on_state at 1, zoom.
  unfold in_store, zoom. simpl.
  destruct Hl as [Hl|Hl].
  - pose proof (release_held l (cs_ticks s) (cs_store s) Hok Hl) as Hr.
    destruct (ls_release _ _ _ _) as [[y|e] [n st]]; [|done]. simpl.
    destruct Hr as [Hok' Hf]. rewrite Hk in Hf. done.
  - pose proof (release_gone l (cs_ticks s) (cs_store s) Hok Hl) as Hr.
    destruct (ls_release _ _ _ _) as [[y|e] [n st]]; [done|]. simpl.
    destruct Hr as [He ->]. unfold is_LeaseError. rewrite He. simpl.
    apply gone_free in Hl. by rewrite Hk in Hl.
Qed.

Lemma cleanup_leads au l r :
  rl_owner l = owner → mine l r.1 → waiting (_cleanup manager q owner au l r).2.1.
Proof.
  intros Ho Hr. unfold _cleanup, finally.
  match goal with |- context [match ?m r with _ => _ end] =>
    assert (considerate_run m) as Hc; [|specialize (Hc l r Hr); destruct (m r) as [y r1]] end.
  { apply considerate_run_bind; [apply considerate_locals|]. intros x.
    apply considerate_run_bind; [apply considerate_on_state, considerate_restore|].
    intros [[[restored verified] code] msg]. considerate_steps. }
  simpl in Hc. pose proof (release_leads l r1 Ho Hc) as Hw.
  by destruct (release_lease _ _ _ _ _) as [[]].
Qed.

Lemma hold_leads l waited current r :
  rl_owner l = owner → mine l r.1 →
  waiting (hold LP manager q owner execute l waited current r).2.1.
Proof.
  intros Ho Hr. unfold hold. destruct r as [s x]. simpl in Hr.
  set (body := λ au, (enable_target manager q owner au current;;
     l0 ← locals;
     if ll_reason_code l0 == None then execute_held manager q owner execute au l else mret tt)).
  assert (∀ au, keeps (λ r, mine l r.1) (body au)) as Hbody.
  { intros au. apply keeps_bind; [apply considerate_enable|]. intros _.
    apply keeps_bind; [apply considerate_locals|]. intros l0. case_bool_decide;
      [by apply considerate_execute|apply keeps_ret]. }
  assert (∀ au r, mine l r.1 →
    waiting (finally (body au) (shielded_cleanup LP manager q owner au l) r).2.1) as Hf.
  { intros au r1 H1'. unfold finally. specialize (Hbody au r1 H1').
    destruct (body au r1) as [y r2]. simpl in Hbody.
    pose proof (cleanup_leads au l r2 Ho Hbody) as Hw.
    unfold shielded_cleanup, mbind, M_bind.
    destruct (_cleanup _ _ _ _ _ r2) as [[[]|e] r3]; simpl in *; [|done].
    by destruct (lp_cancelled_in_cleanup LP r3.1). }
  unfold mbind, M_bind. simpl.
  by apply Hf.
Qed.

Context (Hsleep : ∀ t, considerate (lp_sleep LP t)).

(** Taking the lock. *)
Lemma local_acquire_leads t :
  hoare route_free (local_acquire (W := W) LP key t) (λ _, waiting) (λ _, route_free).
Proof.
  intros s Hs. pose proof Hs as (Hok & Hf & Hl). unfold local_acquire, mbind, M_bind.
  destruct (match t with Some _ => _ | None => _ end); simpl; [done|].
  rewrite bool_decide_eq_false_2 by done. simpl. split_and!; [done|done|]. simpl.
  by apply elem_of_union_l, elem_of_singleton.
Qed.

(** The polling loop: the lease it returns is ours. *)
Lemma acquire_loop_leads fuel ttl original provider model details deadline poll waited :
  hoare waiting
    (acquire_loop LP fuel (in_store (ls_try_acquire (mg_manager_id manager) c owner ttl original
       provider model details)) deadline poll waited)
    (λ r s, match r.1 with
            | Some l => rl_owner l = owner ∧ mine l s
            | None => waiting s
            end) (λ _, waiting).
Proof.
  revert waited. induction fuel as [|fuel IH]; intros waited; simpl; [by intros s Hs|].
  eapply (hoare_bind _ _ _ (λ r s, match r with
            | Some l => rl_owner l = owner ∧ mine l s
            | None => waiting s
            end)).
  - intros s (Hok & Hf & Hl). unfold in_store, zoom.
    pose proof (acquire_law (mg_manager_id manager) c owner ttl original provider model details
      (cs_ticks s) (cs_store s) Hok) as Ha.
    destruct (ls_try_acquire _ _ _ _ _ _ _ _ _) as [[[l|]|e] [n st]]; simpl; [|by subst..].
    destruct Ha as (? & ? & ? & ?). split; [done|]. split_and!; auto.
  - intros [l|]; [by intros s Hs|].
    eapply (hoare_bind _ _ _ (λ _, waiting)); [by intros s Hs|intros t; simpl].
    destruct (deadline <=? t)%Z; [by intros s Hs|].
    eapply (hoare_bind _ _ _ (λ _, waiting)); [|intros _; apply IH].
    intros s Hs. destruct (Hsleep poll) as (_ & Hw & _). specialize (Hw s Hs).
    by destruct (lp_sleep LP poll s) as [[]].
Qed.

Lemma hoare_on_state {L A} P (m : M St A) (Q : A → St → Prop) E :
  hoare P m Q E → hoare (λ r, P r.1) (on_state (L := L) m) (λ a r, Q a r.1) (λ e r, E e r.1).
Proof.
  intros Hh [s x] Hs. specialize (Hh s Hs). unfold on_state, zoom. simpl.
  destruct (m s) as [[a|e] s']; done.
Qed.

Lemma hoare_considerate_waiting {A} (m : M St A) :
  considerate m → hoare waiting m (λ _, waiting) (λ _, waiting).
Proof. intros (_ & Hw & _) s Hs. specialize (Hw s Hs). by destruct (m s) as [[]]. Qed.

Lemma body_leads fuel :
  hoare (λ r, route_free r.1) (lifecycle_body LP manager q owner execute fuel)
    (λ _ r, unheld r.1) (λ _ r, unheld r.1).
Proof.
  unfold lifecycle_body. rewrite Hq.
  eapply (hoare_bind _ _ _ (λ (got : bool) r, if got then waiting r.1 else unheld r.1)).
  { intros [s x] Hs. simpl in Hs.
    pose proof (local_acquire_leads (Some (lq_acquire_timeout q)) s Hs) as Ha.
    unfold catch, mbind, M_bind, on_state, zoom. simpl.
    destruct (local_acquire LP key _ s) as [[[]|e] s1]; simpl in *; [done|].
    destruct (is_TimeoutError e); [simpl|destruct (is_CancelledError e); simpl]; by left. }
  intros [|]; simpl.
  2:{ intros [s x] Hs. done. }
  eapply (hoare_bind _ _ _ (λ _ r, waiting r.1)); [by intros [s x] Hs|intros t].
  eapply (hoare_bind _ _ _ (λ _ r, waiting r.1)).
  { eapply hoare_conseq;
      [apply hoare_on_state, hoare_considerate_waiting, cm_inspect, Hm|done|done|].
    intros e r Hr. by right. }
  intros current. eapply (hoare_bind _ _ _ (λ _ r, waiting r.1)); [by intros [s x] Hs|intros _].
  eapply hoare_bind.
  { eapply hoare_conseq; [apply hoare_on_state, acquire_loop_leads|done|by intros a r Hr; exact Hr|].
    intros e r Hr. by right. }
  intros [[l|] waited]; simpl.
  - intros r [Ho Hr]. pose proof (hold_leads l waited current r Ho Hr) as Hw.
    unfold mbind, M_bind.
    destruct (hold _ _ _ _ _ _ _ _ r) as [[[]|e] r1]; simpl in *; by right.
  - intros [s x] Hs. right. done.
Qed.

(** *** The mutation without a restore *)

(** The frame of the mutation: what [lease] names is ours. *)
Definition mutating (r : St * option ProviderRouteLease) : Prop :=
  match r.2 with
  | None => waiting r.1
  | Some l => rl_owner l = owner ∧ mine l r.1
  end.

Lemma mutation_body_leads {A} fuel (mutate : option MutationAuthority → M St A) timeout ttl s :
  (∀ au, considerate (mutate au)) → waiting s →
  mutating (mutation_body LP fuel manager c owner mutate timeout ttl (s, None)).2.
Proof.
  intros Hmu Hs.
  assert (hoare (λ r, r.2 = None ∧ waiting r.1)
    (mutation_body LP fuel manager c owner mutate timeout ttl)
    (λ _, mutating) (λ _, mutating)) as Hh.
  2:{ specialize (Hh (s, None) (conj eq_refl Hs)). by destruct (mutation_body _ _ _ _ _ _ _ _ _) as [[]]. }
  clear s Hs. unfold mutation_body.
  assert (∀ {B} (m : M St B) (Q : B → St → Prop), hoare waiting m Q (λ _, waiting) →
    hoare (λ r : St * option ProviderRouteLease, r.2 = None ∧ waiting r.1) (on_state m)
      (λ a r, r.2 = None ∧ Q a r.1) (λ _, mutating)) as Hlift.
  { intros B m Q Hq' [s x] [Hx Hs]. simpl in *. subst x. specialize (Hq' s Hs).
    unfold on_state, zoom. simpl. by destruct (m s) as [[]]. }
  eapply hoare_bind; [apply Hlift, hoare_considerate_waiting, cm_inspect, Hm|intros current].
  eapply (hoare_bind _ _ _ (λ _ r, r.2 = None ∧ waiting r.1)); [by intros [s x] Hs|intros t].
  eapply hoare_bind; [apply Hlift, acquire_loop_leads|].
  intros [[l|] waited]; simpl.
  2:{ intros [s x] [Hx Hs]. simpl in *. by subst x. }
  intros [s x] (Hx & Ho & Hmine). simpl in *. unfold mbind, M_bind. simpl.
  unfold on_state, zoom. simpl.
  match goal with |- context [mutate (Some ?au) ?s1] =>
    pose proof (proj2 (proj2 (Hmu (Some au))) l s1) as Hk; specialize (Hk Hmine);
    destruct (mutate (Some au) s1) as [[]] end; done.
Qed.

Lemma release_quietly_leads r :
  mutating r →
  ∃ s', (release_quietly owner r.2;; local_release key) r.1 = (Ok tt, s') ∧ route_free s'.
Proof.
  destruct r as [s [l|]]; unfold mutating; simpl.
  - intros [<- (Hok & Hlk & Hk & Hl)]. unfold release_quietly, catch, mbind, M_bind.
    unfold in_store, zoom.
    destruct Hl as [Hl|Hl].
    + pose proof (release_held l (cs_ticks s) (cs_store s) Hok Hl) as Hr.
      destruct (ls_release _ _ _ _) as [[y|e] [n st]]; [|done]. simpl.
      destruct Hr as [Hok' Hf]. rewrite Hk in Hf.
      eexists. split; [reflexivity|]. apply local_release_frees. by right.
    + pose proof (release_gone l (cs_ticks s) (cs_store s) Hok Hl) as Hr.
      destruct (ls_release _ _ _ _) as [[y|e] [n st]]; [done|]. simpl.
      destruct Hr as [He ->]. unfold is_LeaseError. rewrite He. simpl.
      apply gone_free in Hl. rewrite Hk in Hl.
      eexists. split; [reflexivity|]. apply local_release_frees. by right.
  - intros Hs. eexists. split; [reflexivity|]. apply local_release_frees. by right.
Qed.

Lemma recover_leads :
  hoare route_free (recover_expired_leases (W := W) LP manager (Some [c]))
    (λ _, route_free) (λ _, route_free).
Proof.
  intros s Hs. pose proof Hs as (Hok & Hf & Hl).
  unfold recover_expired_leases, mbind, M_bind, in_store, zoom.
  pose proof (expired_law (cs_ticks s) (cs_store s) Hok) as He.
  destruct (ls_list_expired_active _) as [[ls|e] [n st]]; [|done]. destruct He as [-> He].
  assert (∀ s, route_free s → recover_each LP manager (Some [c]) ls s = (Ok [], s)) as Hn.
  { clear Hs Hok Hl. induction ls as [|l ls IH]; intros s1 Hs1; [done|]. simpl.
    assert (recover_step LP manager (Some [c]) l s1 = (Ok [], s1)) as Hstep.
    { unfold recover_step.
      destruct (decide (rl_connector l ∈ [c])) as [Hc|Hc];
        [rewrite (bool_decide_eq_true_2 _ Hc)|by rewrite (bool_decide_eq_false_2 _ Hc)].
      simpl. destruct (decide (rl_manager l = mg_manager_id manager)) as [Hmn|Hmn];
        [|by rewrite (bool_decide_eq_false_2 _ Hmn)].
      exfalso. apply (He l); [left|]. unfold lease_key. rewrite Hmn.
      apply list_elem_of_singleton in Hc. by rewrite Hc. }
    unfold mbind, M_bind. rewrite Hstep. rewrite IH; [done| |done].
    intros l' Hl'. apply He. by right. }
  simpl. rewrite Hn; done.
Qed.
End leaves.

(** A run among considerate neighbours. *)
Section leaves_free.
Context {W : Type} `{LeaseStoreLaws} `{PyLib} (LP : @EventLoop W _).
Context (manager : @ProviderRouteManager W _).

Lemma keeps_owner_of c o : keeps (route_free manager c) (owner_of (W := W) o).
Proof. intros s. unfold owner_of. destruct (otruthy _); by intros Hf. Qed.

Lemma keeps_is_blocked c m c' :
  keeps (route_free manager c) (in_store (W := W) (ls_is_blocked m c')).
Proof.
  intros s (Hok & Hf & Hl). unfold in_store, zoom.
  pose proof (blocked_law m c' (cs_ticks s) (cs_store s)) as Hb.
  destruct (ls_is_blocked _ _ _) as [r [n st]]. simpl in *. by subst.
Qed.

Lemma keeps_recover c :
  keeps (route_free manager c) (recover_expired_leases (W := W) LP manager (Some [c])).
Proof.
  intros s Hf. pose proof (recover_leads LP manager c s Hf) as Hr.
  by destruct (recover_expired_leases _ _ _ s) as [[]].
Qed.

(** a lifecycle leaves the route as free as it found it, whatever its outcome: with a
    manager, work and sleeps that leave the lease and the lock of the route to their
    holder, every run from a state in which no lease of the route is held and its local
    lock is free ends, by a result, an exception or a cancellation, in such a state. *)
Theorem lifecycle_frees_the_route q execute fuel :
  considerate_manager manager (lq_connector_id q) →
  (∀ au, considerate manager (lq_connector_id q) (execute au)) →
  (∀ t, considerate manager (lq_connector_id q) (lp_sleep LP t)) →
  keeps (route_free manager (lq_connector_id q)) (run_lifecycle LP fuel manager q execute).
Proof.
  intros Hm He Hs. set (c := lq_connector_id q) in *. unfold run_lifecycle.
  apply keeps_bind; [apply keeps_owner_of|].
  intros owner. apply keeps_bind; [apply keeps_is_blocked|].
  intros blocked. destruct (otruthy blocked); [by intros s Hf|].
  apply keeps_bind; [apply keeps_recover|].
  intros rep. apply keeps_bind.
  - intros s Hf. unfold with_locals, finally.
    pose proof (body_leads LP manager c Hm q eq_refl owner execute He Hs fuel (s, no_locals) Hf)
      as Hb.
    assert (∀ r, unheld manager c r.1 →
      ∃ s', on_state (L := LifecycleLocals) (local_release (mg_manager_id manager, c)) r =
        (Ok tt, (s', r.2)) ∧ route_free manager c s') as Hrel.
    { intros [s1 x] Hu. eexists. split; [reflexivity|].
      apply (local_release_frees manager c s1 Hu). }
    destruct (lifecycle_body _ _ _ _ _ _ _) as [[y|e] r1];
      destruct (Hrel r1 Hb) as (s' & E & Hfree); fold c; rewrite E; done.
  - intros [[y|] l]; [by intros s Hf|]. intros s Hf. exact Hf.
Qed.

(** a serialised mutation leaves the route as free as it found it too, whether the
    mutation returns, raises or is cancelled. *)
Theorem mutation_frees_the_route {A} c (mutate : option MutationAuthority → M (CoordinatorState W) A)
    owner_execution_id timeout ttl fuel :
  considerate_manager manager c →
  (∀ au, considerate manager c (mutate au)) →
  (∀ t, considerate manager c (lp_sleep LP t)) →
  keeps (route_free manager c)
    (run_serialised_mutation LP fuel manager c mutate owner_execution_id timeout ttl).
Proof.
  intros Hm He Hs. unfold run_serialised_mutation.
  apply keeps_bind; [apply keeps_owner_of|].
  intros owner. apply keeps_bind; [apply keeps_is_blocked|].
  intros blocked. destruct (otruthy blocked); [by intros s Hf|].
  apply keeps_bind; [apply keeps_recover|]. intros rep s Hf.
  pose proof (local_acquire_leads LP manager c (Some timeout) s Hf) as Ha.
  unfold mbind, M_bind.
  destruct (local_acquire LP _ _ s) as [[[]|e] s1]; [|done].
  pose proof (mutation_body_leads LP manager c Hm owner Hs fuel mutate timeout ttl s1 He Ha) as Hb.
  unfold with_locals, finally.
  destruct (mutation_body _ _ _ _ _ _ _ _ _) as [y r1]. simpl in Hb.
  destruct (release_quietly_leads manager c owner r1 Hb) as (s' & E & Hfree).
  unfold mbind, M_bind in *. simpl. unfold on_state, zoom. destruct r1 as [s2 x]. simpl in *.
  rewrite E. by destruct y.
Qed.
End leaves_free.

(** ** The end of the polling loop *)

Section termination.
Context {W : Type} `{LeaseStore} (LP : @EventLoop W _).
Context (try : M (CoordinatorState W) (option ProviderRouteLease)).
Context (try_ends : ∀ s, cs_loop (try s).2 = cs_loop s ∧ (try s).1 ≠ Raise OutOfFuel).

Lemma acquire_loop_more fuel fuel' deadline poll waited s :
  (acquire_loop LP fuel try deadline poll waited s).1 ≠ Raise OutOfFuel → fuel ≤ fuel' →
  acquire_loop LP fuel' try deadline poll waited s =
  acquire_loop LP fuel try deadline poll waited s.
Proof.
  revert fuel' waited s. induction fuel as [|fuel IH]; intros fuel' waited s Hn Hle; [done|].
  destruct fuel' as [|fuel']; [lia|]. simpl in *. unfold mbind, M_bind in *.
  destruct (try s) as [[[l|]|e] s1]; [done| |done]. simpl in *.
  destruct (deadline <=? cs_loop s1)%Z; [done|].
  destruct (lp_sleep LP poll s1) as [[u|e] s2]; [|done]. apply IH; [done|lia].
Qed.

(** the wait for the lease ends: when a sleep lets the clock of the event loop advance
    by the interval and the tries do not move it, a fuel above the number of intervals
    to the deadline is enough for the loop to answer (a lease, none, or the exception of
    a try or a sleep), and more fuel gives the same answer. *)
Theorem lease_wait_ends fuel deadline poll waited s :
  (0 < poll)%Z →
  (∀ s, match lp_sleep LP poll s with
        | (Ok _, s') => (cs_loop s + poll ≤ cs_loop s')%Z
        | (Raise e, _) => e ≠ OutOfFuel
        end) →
  Z.to_nat ((deadline - cs_loop s + poll - 1) / poll) < fuel →
  (acquire_loop LP fuel try deadline poll waited s).1 ≠ Raise OutOfFuel ∧
  ∀ fuel', fuel ≤ fuel' →
    acquire_loop LP fuel' try deadline poll waited s =
    acquire_loop LP fuel try deadline poll waited s.
Proof.
  intros Hp Hsleep Hfuel.
  assert ((acquire_loop LP fuel try deadline poll waited s).1 ≠ Raise OutOfFuel) as Hn.
  { revert waited s Hfuel. induction fuel as [|fuel IH]; intros waited s Hfuel; [lia|].
    simpl. unfold mbind, M_bind. destruct (try_ends s) as [Hloop Hr].
    destruct (try s) as [[[l|]|e] s1]; simpl in *; [done| |congruence].
    destruct (Z.leb_spec deadline (cs_loop s1)) as [Hd|Hd]; [done|].
    specialize (Hsleep s1). destruct (lp_sleep LP poll s1) as [[u|e] s2]; simpl; [|congruence].
    apply IH. rewrite Hloop in *.
    pose proof (Z.div_add (deadline - cs_loop s + poll - 1) (-1) poll ltac:(lia)) as Hdiv.
    pose proof (Z.div_le_mono (deadline - cs_loop s2 + poll - 1)
      (deadline - cs_loop s + poll - 1 + -1 * poll) poll ltac:(lia) ltac:(lia)).
    pose proof (Z.div_le_mono poll (deadline - cs_loop s + poll - 1) poll
      ltac:(lia) ltac:(lia)) as Hone. rewrite Z.div_same in Hone by lia. lia. }
  split; [done|]. intros fuel' Hle. by apply acquire_loop_more.
Qed.
End termination.

(** ** Recoveries that were interrupted *)

(** a recovery that was cut short stays in progress for ever: a lease that is marked as
    recovering by an owner of an earlier attempt is refused to every later attempt (each
    takes an identifier of its own), the store is not changed, and the marker keeps every
    acquisition of the route refused. *)
Theorem interrupted_recovery_is_stuck {W} `{PyLib} (LP : @EventLoop W memory_lease_store)
    manager l o (s : CoordinatorState W) :
  dict_get (rl_id l) (memory (cs_store s)) = Some l → rl_id l ≠ "" →
  memory_by_key (cs_store s) !! lease_key l = Some (rl_id l) →
  rl_status l = "recovering" → dget "recovery_owner_id" (rl_details l) = PStr o →
  o ≠ "recovery:" +:+ uuid_hex (cs_ticks s) →
  _recover_one LP manager l s =
    (Ok (recovery_report l "recovery_in_progress" false),
     set_store (3 + cs_ticks s, cs_store s) s) ∧
  ∀ l', lease_key l' = lease_key l →
    _memory_acquire l' (cs_store s) = (Ok None, cs_store s).
Proof.
  intros Hl Hne Hm Hst Ho Hneq. split.
  - unfold _recover_one, catch, mbind, M_bind, fresh, in_store, zoom. simpl.
    unfold mbind, M_bind, on_store, zoom, _memory_claim_recovery, mbind, M_bind, get_state. simpl.
    rewrite Hl. rewrite (bool_decide_eq_true_2 (rl_token l = rl_token l)) by done. simpl.
    rewrite Hm. rewrite (bool_decide_eq_true_2 (Some (rl_id l) = Some (rl_id l))) by done. simpl.
    unfold is_active. rewrite Hst. rewrite andb_false_r.
    unfold lift_res, claimed_by_other. rewrite Ho. simpl.
    rewrite bool_decide_eq_false_2 by done. done.
  - intros l' Hk. unfold _memory_acquire, mbind, M_bind, get_state. rewrite Hk, Hm.
    rewrite (bool_decide_eq_false_2 (rl_id l = "")) by done. rewrite Hl.
    unfold is_held. rewrite Hst. done.
Qed.

(** ** Concrete runs *)

#[local] Existing Instance counting_lib.

(** A world with one route: whether it is enabled, and what the work saw of it. *)
Record World := { w_enabled : bool; w_seen : list bool }.
Abbreviation S0 := (CoordinatorState World (H := memory_lease_store)).

Definition on_world (f : World → World) (s : S0) : S0 :=
  {| cs_ticks := cs_ticks s; cs_store := cs_store s; cs_locked := cs_locked s;
     cs_audits := cs_audits s; cs_loop := cs_loop s; cs_world := f (cs_world s) |}.
Definition set_enabled (b : bool) : S0 → S0 :=
  on_world (λ w, {| w_enabled := b; w_seen := w_seen w |}).
Definition current_route : M S0 ProviderRoute :=
  s ← get_state; mret (fireworks_route "codex:fireworks" (w_enabled (cs_world s))).
Definition switched (action : string) (b : bool) : M S0 ProviderRouteMutationResult :=
  modify_state (set_enabled b);;
  mret {| mr_ok := true; mr_action := action; mr_route := None; mr_previous_snapshot := [];
          mr_restored := false; mr_reason_code := None; mr_message := ""; mr_details := [] |}.
Definition switch : @ProviderRouteManager World memory_lease_store := {|
  mg_manager_id := "fireconnect";
  mg_inspect_route _ := current_route;
  mg_enable_route _ _ _ _ := switched "enable" true;
  mg_disable_route _ _ _ := switched "disable" false;
  mg_verify_route _ := current_route
|}.
(** The work notes whether the route is enabled while it runs. *)
Definition look (au : option MutationAuthority) : M S0 pyval :=
  modify_state (on_world (λ w, {| w_enabled := w_enabled w;
                                  w_seen := w_seen w ++ [w_enabled w] |}));;
  mret (PBool true).

Definition advance (t : Z) (s : S0) : S0 :=
  {| cs_ticks := cs_ticks s; cs_store := cs_store s; cs_locked := cs_locked s;
     cs_audits := cs_audits s; cs_loop := (cs_loop s + t)%Z; cs_world := cs_world s |}.
Definition quiet_loop : @EventLoop World memory_lease_store := {|
  lp_wait_lock _ _ := raise TimeoutError;
  lp_sleep t := modify_state (advance t);
  lp_cancelled_in_cleanup _ := false
|}.
Definition codex_lifecycle : LifecycleRequest := {|
  lq_connector_id := "codex"; lq_approval := make_approval "enable" "codex" None;
  lq_owner_execution_id := Some "run-1"; lq_model_id := None;
  lq_target_provider_id := "fireworks"; lq_acquire_timeout := 30000000;
  lq_lease_ttl := 120000000; lq_poll_interval := 50000 |}.
Definition idle : S0 :=
  {| cs_ticks := 0; cs_store := MemoryStore_init; cs_locked := ∅; cs_audits := [];
     cs_loop := 0; cs_world := {| w_enabled := false; w_seen := [] |} |}.
Definition no_result : ProviderRouteLifecycleResult := refused [] "" "" [].

Definition plain_run := run_lifecycle quiet_loop 3 switch codex_lifecycle look idle.
Definition plain_result : ProviderRouteLifecycleResult := from_ok no_result plain_run.1.

Example plain_run_outcome :
  res_ok plain_run.1 = true ∧ lr_ok plain_result = true ∧
  cs_world plain_run.2 = {| w_enabled := false; w_seen := [true] |}.
Proof. vm_compute. done. Qed.


(** The computations of this world touch neither the store nor the locks. *)
Lemma uuid_nonempty n : uuid_str (PyLib := counting_lib) n ≠ "".
Proof.
  simpl. destruct (pretty n) eqn:E; [|done].
  assert (int_of_str (pretty (Z.of_nat n)) = Some (Z.of_nat n)) as H by apply int_of_str_pretty.
  assert (pretty (Z.of_nat n) = pretty n) as Hp.
  { destruct n; done. }
  by rewrite Hp, E in H.
Qed.
Definition memory_laws := memory_store_laws (H := counting_lib) uuid_nonempty.
#[local] Existing Instance memory_laws.

Lemma considerate_pure {A} c (m : M S0 A) :
  (∀ s, cs_store (m s).2 = cs_store s ∧ cs_locked (m s).2 = cs_locked s) →
  considerate switch c m.
Proof.
  intros Hp. split_and!.
  - intros s Hs. destruct (Hp s) as [E1 E2]. unfold route_free. by rewrite E1, E2.
  - intros s Hs. destruct (Hp s) as [E1 E2]. unfold waiting. by rewrite E1, E2.
  - intros l s Hs. destruct (Hp s) as [E1 E2]. unfold mine. by rewrite E1, E2.
Qed.

Lemma switch_considerate c : considerate_manager switch c.
Proof. split; intros; apply considerate_pure; intros s; done. Qed.

Lemma idle_free : route_free switch "codex" idle.
Proof.
  split_and!; [split; [by intros ??|constructor]| |set_solver].
  by intros (id & l & Hl & _).
Qed.

Lemma lifecycle_frees_the_route_witness : route_free switch "codex" plain_run.2.
Proof.
  refine (lifecycle_frees_the_route quiet_loop switch codex_lifecycle look 3 _ _ _ idle idle_free).
  - apply switch_considerate.
  - intros au. apply considerate_pure. intros s. done.
  - intros t. apply considerate_pure. intros s. done.
Defined.

Lemma mutation_frees_the_route_witness :
  route_free switch "codex"
    (run_serialised_mutation quiet_loop 3 switch "codex" (λ _, switched "enable" true)
       None 30000000 60000000 idle).2.
Proof.
  refine (mutation_frees_the_route quiet_loop switch "codex" (λ _, switched "enable" true)
    None 30000000 60000000 3 _ _ _ idle idle_free).
  - apply switch_considerate.
  - intros au. apply considerate_pure. intros s. done.
  - intros t. apply considerate_pure. intros s. done.
Defined.

Lemma lease_wait_ends_witness :
  (acquire_loop quiet_loop 4 (mret None) 100000 50000 false idle).1 ≠ Raise OutOfFuel.
Proof.
  refine (proj1 (lease_wait_ends quiet_loop (mret None) _ 4 100000 50000 false idle _ _ _)).
  - intros s. done.
  - lia.
  - intros s. simpl. lia.
  - vm_compute. lia.
Defined.

(** *** What the runs show *)

(** A waiter that times out releases the lock of the task that holds it. *)
Definition locked_idle : S0 := set_locked {[("fireconnect", "codex")]} idle.
Example timed_out_waiter_frees_the_lock :
  let r := run_lifecycle quiet_loop 3 switch codex_lifecycle look locked_idle in
  lr_reason_code (from_ok no_result r.1) = Some "lock_acquisition_timeout" ∧
  bool_decide (("fireconnect", "codex") ∈ cs_locked locked_idle) = true ∧
  bool_decide (("fireconnect", "codex") ∈ cs_locked r.2) = false.
Proof. vm_compute. done. Qed.

(** Another process holds the lease with the route enabled for a while; it restores and
    releases while the lifecycle polls. The lifecycle looked before it had the lease: it
    takes the route for enabled, runs the work without it, and "restores" it enabled. *)
Definition other_lease : ProviderRouteLease :=
  new_lease 0 120000000 "other" "tok" "fireconnect" "codex" "run-0"
    [("enabled", PBool false)] (Some "fireworks") None None.
Definition other_ends (s : S0) : S0 :=
  set_enabled false
    (set_store (cs_ticks s, (_memory_release 1 "other" "tok" "run-0" (cs_store s)).2) s).
Definition busy_loop : @EventLoop World memory_lease_store := {|
  lp_wait_lock _ _ := raise TimeoutError;
  lp_sleep t := modify_state (λ s, other_ends (advance t s));
  lp_cancelled_in_cleanup _ := false
|}.
Definition busy : S0 :=
  {| cs_ticks := 0; cs_store := (_memory_acquire other_lease MemoryStore_init).2;
     cs_locked := ∅; cs_audits := []; cs_loop := 0;
     cs_world := {| w_enabled := true; w_seen := [] |} |}.
Example stale_snapshot_runs_without_the_route :
  let r := run_lifecycle busy_loop 3 switch codex_lifecycle look busy in
  lr_ok (from_ok no_result r.1) = true ∧
  cs_world r.2 = {| w_enabled := true; w_seen := [false] |}.
Proof. vm_compute. done. Qed.

(** Every audit of a completed lifecycle is kept twice. *)
Example audits_are_kept_twice :
  length (lr_audits plain_result) = 5 ∧ length (cs_audits plain_run.2) = 10.
Proof. vm_compute. done. Qed.

(** A lease whose recovery was cancelled after the claim. *)
Definition half_recovered : ProviderRouteLease :=
  relet "recovering" 1 0 None [("recovery_owner_id", PStr "recovery:gone")] other_lease.
Definition after_cancel : S0 :=
  {| cs_ticks := 0;
     cs_store := mark_key ("fireconnect", "codex") "other"
                   (put_lease half_recovered MemoryStore_init);
     cs_locked := ∅; cs_audits := []; cs_loop := 0;
     cs_world := {| w_enabled := true; w_seen := [] |} |}.

Lemma interrupted_recovery_is_stuck_witness :
  _recover_one quiet_loop switch half_recovered after_cancel =
    (Ok (recovery_report half_recovered "recovery_in_progress" false),
     set_store (3 + 0, cs_store after_cancel) after_cancel) ∧
  ∀ l', lease_key l' = lease_key half_recovered →
    _memory_acquire l' (cs_store after_cancel) = (Ok None, cs_store after_cancel).
Proof.
  refine (interrupted_recovery_is_stuck quiet_loop switch half_recovered "recovery:gone"
    after_cancel _ _ _ _ _ _); done.
Defined.
