(* ===== verification/Connectors.v ===== *)
(** * Connectors: definitions, catalogue and plans

    [connectors/models.py], [connectors/loader.py] and [connectors/planning.py]: the
    definition of a connector with the checks its model makes, the catalogue, and the
    planner whose plans are bound to a hash. The fields of a definition that only
    describe it (vendor, homepage, provider modes and the like) are left out: no code
    modelled here reads them. *)

From Stdlib Require Import Ascii.
From S2P Require Import Prelude.

(** ** Definitions *)

(* @src connectors/models.py:12-22 ConnectorMaturity *)
Inductive ConnectorMaturity :=
| CM_CATALOGUED | CM_DISCOVERABLE | CM_INSTALLABLE | CM_AUTHENTICATABLE
| CM_ADAPTER_CONFORMANT | CM_REAL_BINARY_TESTED | CM_CERTIFIED | CM_PRODUCTION_READY
| CM_BLOCKED | CM_DEPRECATED.
#[export] Instance ConnectorMaturity_eq_dec : EqDecision ConnectorMaturity.
Proof. solve_decision. Defined.

(* @src connectors/models.py:12-22 ConnectorMaturity.value *)
Definition ConnectorMaturity_value (m : ConnectorMaturity) : string :=
  match m with
  | CM_CATALOGUED => "catalogued" | CM_DISCOVERABLE => "discoverable"
  | CM_INSTALLABLE => "installable" | CM_AUTHENTICATABLE => "authenticatable"
  | CM_ADAPTER_CONFORMANT => "adapter_conformant"
  | CM_REAL_BINARY_TESTED => "real_binary_tested" | CM_CERTIFIED => "certified"
  | CM_PRODUCTION_READY => "production_ready" | CM_BLOCKED => "blocked"
  | CM_DEPRECATED => "deprecated"
  end.

(* @src connectors/models.py:25-27 ConnectorTier *)
Inductive ConnectorTier := TIER_TERMINAL | TIER_IDE.
#[export] Instance ConnectorTier_eq_dec : EqDecision ConnectorTier.
Proof. solve_decision. Defined.

(* @src connectors/models.py:30-36 ConnectorExecutionMode *)
Inductive ConnectorExecutionMode :=
| STRUCTURED_HEADLESS | TEXT_HEADLESS | PTY_INTERACTIVE | MODE_IDE_ONLY | DISCOVERY_ONLY
| MODE_UNSUPPORTED.
#[export] Instance ConnectorExecutionMode_eq_dec : EqDecision ConnectorExecutionMode.
Proof. solve_decision. Defined.

(* @src connectors/models.py:81-94 InstallationOption *)
Record InstallationOption := {
  io_id : string;
  io_mechanism : string;
  io_platforms : list string;
  io_argv : list string;
  io_package_source : string;
  io_requires_admin : bool;
  io_modifies_path : bool;
  io_modifies_shell_profile : bool;
  io_digest_required : bool;
  io_executable : bool
}.

(* @src connectors/models.py:119-127 AuthenticationMethod *)
Record AuthenticationMethod := {
  am_id : string;
  am_kind : string;
  am_login_argv : list string;
  am_status_argv : list string;
  am_environment_variables : list string;
  am_interactive : bool
}.

(* @src connectors/models.py:150-157 ExecutionDefinition *)
Record ExecutionDefinition := {
  ed_mode : ConnectorExecutionMode;
  ed_argv : list string;
  ed_task_placeholder : string
}.

(* @src connectors/models.py:178-215 ConnectorDefinition *)
Record ConnectorDefinition := {
  cd_revision : string;
  cd_harness_id : string;
  cd_tier : ConnectorTier;
  cd_maturity : ConnectorMaturity;
  cd_executable_names : list string;
  cd_remote_execution_supported : bool;
  cd_supported_platforms : list string;
  cd_installation_options : list InstallationOption;
  cd_upgrade_options : list InstallationOption;
  cd_uninstall_options : list InstallationOption;
  cd_authentication_methods : list AuthenticationMethod;
  cd_execution : ExecutionDefinition;
  cd_adapter_id : option string;
  cd_certification_profile_id : option string;
  cd_blocked_reason : option string;
  cd_documentation_source : string
}.

(** A validator that refuses. *)
Definition refuse (m : string) : res unit := Raise (ValueError m).

(** [s.rsplit("/", 1)[-1]]: what follows the last separator. *)
Fixpoint after_last (sep : Ascii.ascii) (s : string) : string :=
  match s with
  | EmptyString => EmptyString
  | String.String c s' =>
      if str_contains_char sep s then
        if Ascii.eqb c sep && negb (str_contains_char sep s') then s' else after_last sep s'
      else s
  end.

Definition nul : Ascii.ascii := Ascii.ascii_of_nat 0.

(* @src connectors/models.py:96-107 InstallationOption.command_is_bounded *)
Definition command_is_bounded (o : InstallationOption) : res unit :=
  if io_executable o && (io_argv o == []) then
    refuse "an executable installation option requires argv"
  else if match io_argv o with
          | a :: _ => Prelude.lower (after_last "/"%char a) in?
                      ["sh"; "bash"; "zsh"; "cmd"; "powershell"; "sudo"]
          | [] => false
          end then
    refuse "installation plans cannot invoke shells or privilege escalation"
  else if existsb (λ v, (v in? ["|"; "&&"; ";"]) || str_contains_char nul v) (io_argv o) then
    refuse "installation argv contains a shell operator or NUL"
  else if (io_mechanism o == "official_script") && negb (io_digest_required o) then
    refuse "official scripts must be fetched and digest-bound before execution"
  else Ok tt.

(* @src connectors/models.py:159-167 ExecutionDefinition.headless_requires_task_placeholder *)
Definition headless_requires_task_placeholder (e : ExecutionDefinition) : res unit :=
  if (ed_mode e in? [STRUCTURED_HEADLESS; TEXT_HEADLESS]) &&
     negb (ed_task_placeholder e in? ed_argv e)
  then refuse "headless execution argv must contain the task placeholder"
  else Ok tt.

(* @src connectors/models.py:217-222 ConnectorDefinition.routable_by_maturity *)
Definition routable_by_maturity (d : ConnectorDefinition) : bool :=
  cd_maturity d in? [CM_CERTIFIED; CM_PRODUCTION_READY].

(* @src connectors/models.py:229-247 ConnectorDefinition.maturity_and_execution_are_consistent *)
Definition maturity_and_execution_are_consistent (d : ConnectorDefinition) : res unit :=
  if cd_remote_execution_supported d && (cd_executable_names d == []) then
    refuse "remote connectors require an executable"
  else if (cd_tier d == TIER_IDE) && cd_remote_execution_supported d then
    refuse "IDE-only definitions cannot claim remote execution"
  else if (ed_mode (cd_execution d) == MODE_IDE_ONLY) && (cd_tier d != TIER_IDE) then
    refuse "IDE-only execution requires the IDE tier"
  else if routable_by_maturity d &&
          (negb (otruthy (cd_adapter_id d)) || negb (otruthy (cd_certification_profile_id d)))
  then refuse "routable maturity requires adapter and certification profile"
  else if routable_by_maturity d && negb (cd_remote_execution_supported d) then
    refuse "routable maturity requires remote execution"
  else if (cd_maturity d == CM_BLOCKED) && negb (otruthy (cd_blocked_reason d)) then
    refuse "blocked connectors require a blocked_reason"
  else Ok tt.

(** ** The catalogue *)

(* @src connectors/loader.py:14-15 ConnectorCatalogueError *)
Definition ConnectorCatalogueError (m : string) : exn := Exn "ConnectorCatalogueError" "" m.

Abbreviation Catalogue := (list (string * ConnectorDefinition)).

(** The claims a definition makes on executables. *)
Fixpoint claim_executables (id : string) (names : list string)
    (claims : list (string * string)) : res (list (string * string)) :=
  match names with
  | [] => Ok claims
  | e :: names' =>
      let previous := dict_get e claims in
      if otruthy previous && (previous != Some id) then
        Raise (ConnectorCatalogueError
          ("unresolved executable claim: " +:+ e +:+ " (" +:+ default "" previous +:+ ", "
           +:+ id +:+ ")"))
      else claim_executables id names' (dict_set e id claims)
  end.

Fixpoint load_definitions (ds : list ConnectorDefinition) (c : Catalogue)
    (claims : list (string * string)) : res Catalogue :=
  match ds with
  | [] => Ok c
  | d :: ds' =>
      if dict_has (cd_harness_id d) c then
        Raise (ConnectorCatalogueError ("duplicate connector id: " +:+ cd_harness_id d))
      else
        res_bind (claim_executables (cd_harness_id d) (cd_executable_names d) claims)
          (λ claims', load_definitions ds' (dict_set (cd_harness_id d) d c) claims')
  end.

(* @src connectors/loader.py:19-34 ConnectorCatalogue.__init__ *)
Definition ConnectorCatalogue_init (definitions : list ConnectorDefinition) : res Catalogue :=
  load_definitions (py_sorted (λ a b, str_leb (cd_harness_id a) (cd_harness_id b)) definitions)
    [] [].

(* @src connectors/loader.py:55-59 ConnectorCatalogue.get *)
Definition catalogue_get (connector_id : string) (c : Catalogue) : res ConnectorDefinition :=
  match dict_get connector_id c with
  | Some d => Ok d
  | None => Raise (KeyError (repr_str ("unknown connector: " +:+ connector_id)))
  end.

(** ** Plans *)

(* @src connectors/planning.py:18-29 ConnectorAction *)
Inductive ConnectorAction :=
| DISCOVER | INSTALL | UPGRADE | UNINSTALL | REPAIR | AUTHENTICATE | VERIFY_AUTHENTICATION
| VERIFY_ADAPTER | CERTIFY | ENABLE_ROUTING | DISABLE_ROUTING.
#[export] Instance ConnectorAction_eq_dec : EqDecision ConnectorAction.
Proof. solve_decision. Defined.

(* @src connectors/planning.py:18-29 ConnectorAction.value *)
Definition ConnectorAction_value (a : ConnectorAction) : string :=
  match a with
  | DISCOVER => "discover" | INSTALL => "install" | UPGRADE => "upgrade"
  | UNINSTALL => "uninstall" | REPAIR => "repair" | AUTHENTICATE => "authenticate"
  | VERIFY_AUTHENTICATION => "verify_authentication" | VERIFY_ADAPTER => "verify_adapter"
  | CERTIFY => "certify" | ENABLE_ROUTING => "enable_routing"
  | DISABLE_ROUTING => "disable_routing"
  end.

(* @src connectors/planning.py:32-33 ConnectorPlanError *)
Definition ConnectorPlanError (m : string) : exn := Exn "ConnectorPlanError" "" m.

(* @src connectors/planning.py:36-59 ConnectorTaskPlan *)
Record ConnectorTaskPlan := {
  tp_plan_id : string;
  tp_node_id : string;
  tp_connector_id : string;
  tp_connector_revision : string;
  tp_action : ConnectorAction;
  tp_method_id : string;
  tp_executable : string;
  tp_arguments : list string;
  tp_package_source : string;
  tp_expected_executables : list string;
  tp_requires_admin : bool;
  tp_modifies_path : bool;
  tp_modifies_shell_profile : bool;
  tp_download_digest : option string;
  tp_risk_level : string;
  tp_expires_at : Z;
  tp_plan_hash : string
}.
#[export] Instance ConnectorTaskPlan_eq_dec : EqDecision ConnectorTaskPlan.
Proof. solve_decision. Defined.

(** What the checks of [plan] gather for [_create]. *)
Record PlanParts := {
  pp_method_id : string;
  pp_argv : list string;
  pp_package_source : string;
  pp_requires_admin : bool;
  pp_modifies_path : bool;
  pp_modifies_shell_profile : bool;
  pp_download_digest : option string;
  pp_risk_level : string
}.
Definition plain_parts (method_id : string) (argv : list string) (source risk : string) :
    PlanParts :=
  {| pp_method_id := method_id; pp_argv := argv; pp_package_source := source;
     pp_requires_admin := false; pp_modifies_path := false;
     pp_modifies_shell_profile := false; pp_download_digest := None; pp_risk_level := risk |}.

Definition plan_error {A} (m : string) : res A := Raise (ConnectorPlanError m).

(* @src connectors/planning.py:345-356 ConnectorPlanner._installation *)
Definition _installation (options : list InstallationOption) (method_id : option string)
    (platform : string) : res InstallationOption :=
  let compatible := List.filter (λ o, platform in? io_platforms o) options in
  let compatible := if otruthy method_id
                    then List.filter (λ o, Some (io_id o) == method_id) compatible
                    else compatible in
  match compatible with
  | [] => plan_error "no reviewed lifecycle method matches this platform"
  | o :: _ => Ok o
  end.

(* @src connectors/planning.py:358-368 ConnectorPlanner._authentication *)
Definition _authentication (methods : list AuthenticationMethod) (method_id : option string) :
    res AuthenticationMethod :=
  let compatible := if otruthy method_id
                    then List.filter (λ m, Some (am_id m) == method_id) methods
                    else methods in
  match compatible with
  | [] => plan_error "no reviewed authentication method matches"
  | m :: _ => Ok m
  end.

(** [action.value.replace("_", "-")]. *)
Definition dashed (s : string) : string := replace_char "_"%char "-"%char s.

(** An option that still has to be fetched and digest-bound. *)
Definition unfetched {A} (o : InstallationOption) : res A :=
  plan_error (io_id o +:+ " must be fetched and digest-bound by the JoyMesh Node first").

(** An install, upgrade or uninstall: one of the reviewed options, ready to run. *)
(* @src connectors/planning.py:247-278 ConnectorPlanner.plan *)
Definition lifecycle_parts (options : list InstallationOption) (method_id : option string)
    (platform : string) (download_digest : option string) : res PlanParts :=
  res_bind (_installation options method_id platform) (λ o,
  if negb (io_executable o) then unfetched o
  else if io_digest_required o && negb (otruthy download_digest) then
    plan_error "download digest is required for this installation method"
  else Ok {| pp_method_id := io_id o; pp_argv := io_argv o;
             pp_package_source := io_package_source o;
             pp_requires_admin := io_requires_admin o;
             pp_modifies_path := io_modifies_path o;
             pp_modifies_shell_profile := io_modifies_shell_profile o;
             pp_download_digest := download_digest; pp_risk_level := "medium" |}).

(** The branches of [plan]: what is refused, and what the plan is made of. *)
(* @src connectors/planning.py:125-278 ConnectorPlanner.plan *)
Definition plan_parts (d : ConnectorDefinition) (connector_id : string)
    (action : ConnectorAction) (method_id : option string) (platform : string)
    (download_digest : option string) : res PlanParts :=
  let source := cd_documentation_source d in
  if negb (platform in? cd_supported_platforms d) then
    plan_error (connector_id +:+ " is unavailable on platform " +:+ platform)
  else
    match action with
    | AUTHENTICATE =>
        res_bind (_authentication (cd_authentication_methods d) method_id) (λ m,
        match am_login_argv m with
        | [] => plan_error (connector_id +:+ " authentication requires local user configuration")
        | argv => Ok (plain_parts (am_id m) argv source "medium")
        end)
    | DISCOVER =>
        let argv := match cd_executable_names d with
                    | e :: _ => [e; "--version"]
                    | [] => ["joymesh"; "connector"; "discover"; connector_id]
                    end in
        Ok (plain_parts "discover" argv source "low")
    | VERIFY_AUTHENTICATION =>
        res_bind (_authentication (cd_authentication_methods d) method_id) (λ m,
        let status_argv := match am_status_argv m with [] => am_login_argv m | a => a end in
        match status_argv with
        | [] => plan_error (connector_id +:+ " has no authentication status command")
        | argv => Ok (plain_parts (am_id m) argv source "low")
        end)
    | VERIFY_ADAPTER =>
        match cd_executable_names d with
        | [] => plan_error (connector_id +:+ " has no executable for adapter verification")
        | e :: _ => Ok (plain_parts "adapter-conformance" [e; "--help"] source "low")
        end
    | REPAIR =>
        let options := match cd_installation_options d with
                       | [] => cd_upgrade_options d
                       | o => o
                       end in
        res_bind (_installation options method_id platform) (λ o,
        if negb (io_executable o) then unfetched o
        else Ok (plain_parts (io_id o) (io_argv o) (io_package_source o) "medium"))
    | ENABLE_ROUTING | DISABLE_ROUTING =>
        Ok (plain_parts (ConnectorAction_value action)
              ["joymesh"; "connector"; dashed (ConnectorAction_value action); connector_id]
              source "low")
    | CERTIFY =>
        if negb (otruthy (cd_certification_profile_id d)) then
          plan_error (connector_id +:+ " has no certification profile")
        else Ok (plain_parts (default "" (cd_certification_profile_id d))
                   ["joymesh"; "connector"; "certify"; connector_id] source "high")
    | INSTALL => lifecycle_parts (cd_installation_options d) method_id platform download_digest
    | UPGRADE => lifecycle_parts (cd_upgrade_options d) method_id platform download_digest
    | UNINSTALL => lifecycle_parts (cd_uninstall_options d) method_id platform download_digest
    end.

Section plans.
Context `{PyLib}.

(** The hash of a plan. *)
(* @src connectors/planning.py:306-322 ConnectorPlanner._create *)
Definition plan_hash_of (plan_id node_id connector_id revision : string)
    (action : ConnectorAction) (p : PlanParts) (expires_at : Z) : string :=
  sha256_hex (json_compact (PDict
    [("plan_id", PStr plan_id); ("node_id", PStr node_id);
     ("connector_id", PStr connector_id); ("revision", PStr revision);
     ("action", PStr (ConnectorAction_value action)); ("method_id", PStr (pp_method_id p));
     ("argv", PList (PStr <$> pp_argv p)); ("package_source", PStr (pp_package_source p));
     ("digest", ostr (pp_download_digest p)); ("expires_at", PStr (isoformat expires_at))])).

(** Fifteen minutes in microseconds. *)
Definition plan_ttl : Z := 900000000.

(* @src connectors/planning.py:287-343 ConnectorPlanner._create *)
Definition _create (plan_id : string) (now : Z) (node_id connector_id : string)
    (d : ConnectorDefinition) (action : ConnectorAction) (p : PlanParts) :
    res ConnectorTaskPlan :=
  match pp_argv p with
  | [] => plan_error "connector plan has no executable"
  | executable :: arguments =>
      if executable == "" then plan_error "connector plan has no executable"
      else
        let expires_at := (now + plan_ttl)%Z in
        Ok {| tp_plan_id := plan_id; tp_node_id := node_id; tp_connector_id := connector_id;
              tp_connector_revision := cd_revision d; tp_action := action;
              tp_method_id := pp_method_id p; tp_executable := executable;
              tp_arguments := arguments; tp_package_source := pp_package_source p;
              tp_expected_executables := cd_executable_names d;
              tp_requires_admin := pp_requires_admin p;
              tp_modifies_path := pp_modifies_path p;
              tp_modifies_shell_profile := pp_modifies_shell_profile p;
              tp_download_digest := pp_download_digest p; tp_risk_level := pp_risk_level p;
              tp_expires_at := expires_at;
              tp_plan_hash := plan_hash_of plan_id node_id connector_id (cd_revision d)
                                action p expires_at |}
  end.

(** [plan_id] is a fresh identifier and [now] the clock's reading. *)
(* @src connectors/planning.py:125-278 ConnectorPlanner.plan *)
Definition make_plan (plan_id : string) (now : Z) (c : Catalogue) (node_id connector_id : string)
    (action : ConnectorAction) (method_id : option string) (platform : string)
    (download_digest : option string) : res ConnectorTaskPlan :=
  res_bind (catalogue_get connector_id c) (λ d,
  res_bind (plan_parts d connector_id action method_id platform download_digest) (λ p,
  _create plan_id now node_id connector_id d action p)).
End plans.

(** The plans the planner keeps in memory. *)
(* @src connectors/planning.py:84-88 ConnectorPlanStore.get *)
Definition plan_store_get (plan_id : string) (plans : list (string * ConnectorTaskPlan)) :
    res ConnectorTaskPlan :=
  match dict_get plan_id plans with
  | Some p => Ok p
  | None => Raise (KeyError (repr_str ("unknown or expired connector plan: " +:+ plan_id)))
  end.

(* @src connectors/planning.py:280-285 ConnectorPlanner.validate *)
Definition validate_plan (now : Z) (plans : list (string * ConnectorTaskPlan))
    (plan : ConnectorTaskPlan) : res unit :=
  res_bind (plan_store_get (tp_plan_id plan) plans) (λ stored,
  if (tp_plan_hash stored != tp_plan_hash plan) || (stored != plan) then
    Raise (ConnectorPlanError "connector plan does not match the backend-generated plan")
  else if (tp_expires_at plan <=? now)%Z then
    Raise (ConnectorPlanError "connector plan has expired")
  else Ok tt).

(** ** What a plan may run *)

(** The options a definition lists for an action. *)
Definition reviewed_options (d : ConnectorDefinition) (a : ConnectorAction) :
    list InstallationOption :=
  match a with
  | INSTALL => cd_installation_options d
  | UPGRADE => cd_upgrade_options d
  | UNINSTALL => cd_uninstall_options d
  | REPAIR => match cd_installation_options d with [] => cd_upgrade_options d | o => o end
  | _ => []
  end.

(** The arguments the planner may take for an action: a fixed command of JoyMesh itself, an
    executable of the definition with a fixed flag, the login or status command of one of
    its methods, or a reviewed option of the platform. *)
Inductive reviewed_argv (d : ConnectorDefinition) (c platform : string) :
    ConnectorAction → list string → Prop :=
| ra_joymesh a verb :
    (a, verb) ∈ [(DISCOVER, "discover"); (CERTIFY, "certify");
                 (ENABLE_ROUTING, "enable-routing"); (DISABLE_ROUTING, "disable-routing")] →
    reviewed_argv d c platform a ["joymesh"; "connector"; verb; c]
| ra_executable a e flag : e ∈ cd_executable_names d →
    (a, flag) ∈ [(DISCOVER, "--version"); (VERIFY_ADAPTER, "--help")] →
    reviewed_argv d c platform a [e; flag]
| ra_login m : m ∈ cd_authentication_methods d →
    reviewed_argv d c platform AUTHENTICATE (am_login_argv m)
| ra_status m : m ∈ cd_authentication_methods d →
    reviewed_argv d c platform VERIFY_AUTHENTICATION
      (match am_status_argv m with [] => am_login_argv m | a => a end)
| ra_option a o : o ∈ reviewed_options d a →
    platform ∈ io_platforms o → io_executable o = true →
    reviewed_argv d c platform a (io_argv o).

(** The first of the entries an optional filter leaves is one of the entries. *)
Lemma first_filtered {A} (p : A → bool) (b : bool) l e o :
  match (if b then List.filter p l else l) with [] => Raise e | o' :: _ => Ok o' end = Ok o →
  o ∈ l.
Proof.
  assert (∀ o', o' ∈ (if b then List.filter p l else l) → o' ∈ l) as Hsub.
  { intros o' Ho. destruct b; [|done]. by apply elem_of_filter_bool in Ho as [? _]. }
  destruct (if b then _ else _) as [|o' l'] eqn:E; [done|].
  intros [= ->]. apply Hsub. rewrite ?E. left.
Qed.

Lemma installation_elem options method platform o :
  _installation options method platform = Ok o → o ∈ options ∧ platform ∈ io_platforms o.
Proof.
  unfold _installation. intros Hin. apply first_filtered in Hin.
  apply elem_of_filter_bool in Hin as [Hin Hp]. by boolify.
Qed.

Lemma authentication_elem methods method m :
  _authentication methods method = Ok m → m ∈ methods.
Proof. unfold _authentication. intros Hin. by apply first_filtered in Hin. Qed.

Lemma lifecycle_parts_reviewed d c a method platform digest p :
  lifecycle_parts (reviewed_options d a) method platform digest = Ok p →
  reviewed_argv d c platform a (pp_argv p).
Proof.
  unfold lifecycle_parts. destruct (_installation _ _ _) as [o|] eqn:Ho; [|done]. simpl.
  apply installation_elem in Ho as [Hin Hpl].
  destruct (io_executable o) eqn:He; [|done]. simpl. destruct (_ && _); [done|].
  intros [= <-]. by apply ra_option.
Qed.

Lemma plan_parts_reviewed d c action method platform digest p :
  plan_parts d c action method platform digest = Ok p →
  reviewed_argv d c platform action (pp_argv p) ∧ platform ∈ cd_supported_platforms d.
Proof.
  unfold plan_parts. destruct (bool_decide (platform ∈ cd_supported_platforms d)) eqn:Hs;
    simpl; [|done]. boolify. intros Hp. split; [|done].
  destruct action; try (by eapply lifecycle_parts_reviewed).
  - destruct (cd_executable_names d) as [|e l] eqn:E; injection Hp as <-; simpl.
    + apply ra_joymesh. left.
    + apply ra_executable; rewrite ?E; left.
  - destruct (_installation _ _ _) as [o|] eqn:Ho; [|done].
    apply installation_elem in Ho as [Hin Hpl]. simpl in Hp.
    destruct (io_executable o) eqn:He; [|done]. injection Hp as <-. by apply (ra_option _ _ _ REPAIR).
  - destruct (_authentication _ _) as [m|] eqn:Hm; [|done]. simpl in Hp.
    destruct (am_login_argv m) eqn:Hl; [done|]. injection Hp as <-. simpl. rewrite <- Hl.
    apply ra_login. by eapply authentication_elem.
  - destruct (_authentication _ _) as [m|] eqn:Hm; [|done]. simpl in Hp.
    apply authentication_elem in Hm. apply (ra_status d c platform) in Hm.
    by destruct (am_status_argv m), (am_login_argv m); simplify_eq.
  - destruct (cd_executable_names d) as [|e l] eqn:E; [done|]. injection Hp as <-. simpl.
    apply ra_executable; [rewrite E; left|right; left].
  - destruct (otruthy _); [|done]. injection Hp as <-. apply ra_joymesh. right. left.
  - injection Hp as <-. apply ra_joymesh. do 2 right. left.
  - injection Hp as <-. apply ra_joymesh. do 3 right. left.
Qed.

Lemma plan_is_reviewed `{PyLib} id now catalogue node connector action method
    platform digest plan :
  make_plan id now catalogue node connector action method platform digest = Ok plan →
  ∃ d p, dict_get connector catalogue = Some d ∧ platform ∈ cd_supported_platforms d ∧
    reviewed_argv d connector platform action (tp_executable plan :: tp_arguments plan) ∧
    tp_executable plan ≠ "" ∧ tp_expires_at plan = (now + plan_ttl)%Z ∧
    tp_plan_hash plan = plan_hash_of id node connector (cd_revision d) action p
                          (tp_expires_at plan) ∧
    pp_argv p = tp_executable plan :: tp_arguments plan.
Proof.
  unfold make_plan, catalogue_get. destruct (dict_get connector catalogue) as [d|]; [|done].
  simpl. destruct (plan_parts d connector action method platform digest) as [p|] eqn:Hp; [|done].
  simpl. apply plan_parts_reviewed in Hp as [Hr Hs]. unfold _create.
  destruct (pp_argv p) as [|e l] eqn:Ha; [done|].
  destruct (bool_decide (e = "")) eqn:He; [done|]. boolify. intros [= <-].
  exists d, p. by split_and!.
Qed.

(** a plan only ever names a reviewed command: it is made for a connector of the
    catalogue on a platform it supports, its command line is a fixed JoyMesh command, an
    executable of the definition with a fixed flag, or a command the definition lists for
    the action (an option of the platform), it expires a quarter of an hour after it was
    made, and its hash is the one of its contents. *)
Theorem plans_run_reviewed_commands `{PyLib} id now catalogue node connector action method
    platform digest plan :
  make_plan id now catalogue node connector action method platform digest = Ok plan →
  ∃ d p, dict_get connector catalogue = Some d ∧ platform ∈ cd_supported_platforms d ∧
    reviewed_argv d connector platform action (tp_executable plan :: tp_arguments plan) ∧
    tp_executable plan ≠ "" ∧ tp_expires_at plan = (now + 900000000)%Z ∧
    tp_plan_hash plan = plan_hash_of id node connector (cd_revision d) action p
                          (tp_expires_at plan) ∧
    pp_argv p = tp_executable plan :: tp_arguments plan.
Proof. apply plan_is_reviewed. Qed.

(** A definition as its model lets it through. *)
Definition validated (d : ConnectorDefinition) : Prop :=
  Forall (λ o, command_is_bounded o = Ok tt)
    (cd_installation_options d ++ cd_upgrade_options d ++ cd_uninstall_options d).

Definition shells : list string := ["sh"; "bash"; "zsh"; "cmd"; "powershell"; "sudo"].

Definition operators : list string := ["|"; "&&"; ";"].

Lemma bounded_command o e args :
  command_is_bounded o = Ok tt → io_argv o = e :: args →
  (Prelude.lower (after_last "/"%char e) ∉ shells) ∧ Forall (λ v, v ∉ operators) (e :: args).
Proof.
  unfold command_is_bounded. intros Hb Ha. rewrite Ha in Hb.
  destruct (_ && _); [done|]. destruct (bool_decide (_ ∈ ["sh"; _; _; _; _; _])) eqn:Hs; [done|].
  destruct (existsb _ _) eqn:Hx; [done|]. boolify. split; [done|].
  apply Forall_forall. intros v Hv Hop. apply not_true_iff_false in Hx. apply Hx.
  apply existsb_exists. exists v. split; [by apply list_elem_of_In|].
  apply orb_true_iff. left. by apply bool_decide_eq_true.
Qed.

Lemma reviewed_options_elem d a o :
  o ∈ reviewed_options d a →
  o ∈ cd_installation_options d ++ cd_upgrade_options d ++ cd_uninstall_options d.
Proof.
  rewrite !elem_of_app. destruct a; simpl; try (by intros ?%not_elem_of_nil); auto.
  destruct (cd_installation_options d); auto.
Qed.

(** an install, upgrade, uninstall or repair plan for a connector whose options passed
    their validator starts none of the six programs of [shells], by whatever path with slashes and in
    whatever case, and has none of the three operators of [operators] as an argument of its
    own. Other interpreters, and an operator inside an argument, pass the validator. *)
Theorem lifecycle_plans_start_no_shell `{PyLib} id now catalogue node connector action method
    platform digest plan d :
  make_plan id now catalogue node connector action method platform digest = Ok plan →
  dict_get connector catalogue = Some d → validated d →
  action ∈ [INSTALL; UPGRADE; UNINSTALL; REPAIR] →
  (Prelude.lower (after_last "/"%char (tp_executable plan)) ∉ shells) ∧
  Forall (λ v, v ∉ operators) (tp_executable plan :: tp_arguments plan).
Proof.
  intros (d' & p & Hd & _ & Hr & _)%plan_is_reviewed Hd' Hv Ha. simplify_eq.
  inversion Hr as [a v Hin Ea|a e v ? Hin Ea|m ? Ea|m ? Ea|a o Ho ? ? Ea Hargv].
  1-4: exfalso; subst; by set_solver.
  apply reviewed_options_elem in Ho. eapply Forall_forall in Hv; [|exact Ho].
  rewrite Hargv. by eapply bounded_command.
Qed.

(** the backend runs a plan exactly when it is the one it generated itself, unchanged
    in every field, and not past its expiry. *)
Theorem accepted_plan_is_the_stored_one now plans plan :
  validate_plan now plans plan = Ok tt ↔
  dict_get (tp_plan_id plan) plans = Some plan ∧ (now < tp_expires_at plan)%Z.
Proof.
  unfold validate_plan, plan_store_get. destruct (dict_get _ plans) as [stored|]; simpl;
    [|naive_solver].
  destruct (bool_decide (stored = plan)) eqn:Hs; boolify; subst.
  - rewrite bool_decide_eq_true_2 by done. simpl.
    destruct (_ <=? _)%Z eqn:He; boolify; naive_solver lia.
  - rewrite orb_true_r. naive_solver.
Qed.

(** ** The catalogue's claims *)

(** Every executable a loaded connector names is claimed by it. *)
Definition claimed (c : Catalogue) (claims : list (string * string)) : Prop :=
  ∀ k d e, dict_get k c = Some d → e ∈ cd_executable_names d → dict_get e claims = Some k.

Lemma claim_executables_claims id names claims claims' :
  id ≠ "" → claim_executables id names claims = Ok claims' →
  (∀ e, e ∈ names → dict_get e claims' = Some id) ∧
  (∀ e k, k ≠ "" → dict_get e claims = Some k → dict_get e claims' = Some k).
Proof.
  intros Hid. revert claims. induction names as [|e names IH]; intros claims; simpl.
  { intros [= <-]. split; [by intros ? ?%not_elem_of_nil|done]. }
  destruct (_ && _) eqn:Hp; [done|]. intros [Hn Hk]%IH. split.
  - intros e' [->|?]%elem_of_cons; [|auto]. apply Hk; [done|]. apply dict_get_set_eq.
  - intros e' k Hne Hg. apply Hk; [done|]. destruct (decide (e = e')) as [->|];
      [|by rewrite dict_get_set_ne].
    rewrite dict_get_set_eq. apply andb_false_iff in Hp. rewrite Hg in Hp.
    destruct Hp as [Hp|Hp]; boolify; [by destruct k|done].
Qed.

Lemma load_definitions_claimed ds c claims c' :
  Forall (λ d, cd_harness_id d ≠ "") ds → (∀ k d, dict_get k c = Some d → k ≠ "") →
  claimed c claims → load_definitions ds c claims = Ok c' → ∃ claims', claimed c' claims'.
Proof.
  intros Hds. revert c claims. induction Hds as [|d ds Hd _ IH]; intros c claims Hc Hcl; simpl.
  { intros [= <-]. by exists claims. }
  destruct (dict_has _ c); [done|].
  destruct (claim_executables _ _ _) as [claims1|] eqn:He; [|done]. simpl.
  apply claim_executables_claims in He as [Hn Hk]; [|done]. apply IH.
  - intros k d' Hg. destruct (decide (cd_harness_id d = k)) as [<-|]; [done|].
    rewrite dict_get_set_ne in Hg by done. by eapply Hc.
  - intros k d' e Hg Hin. destruct (decide (cd_harness_id d = k)) as [<-|].
    + rewrite dict_get_set_eq in Hg. simplify_eq. auto.
    + rewrite dict_get_set_ne in Hg by done. apply Hk; eauto.
Qed.

(** no executable belongs to two connectors of a loaded catalogue. *)
Theorem executables_have_one_owner ds c k k' d d' e :
  ConnectorCatalogue_init ds = Ok c → Forall (λ d, cd_harness_id d ≠ "") ds →
  dict_get k c = Some d → dict_get k' c = Some d' →
  e ∈ cd_executable_names d → e ∈ cd_executable_names d' → k = k'.
Proof.
  unfold ConnectorCatalogue_init. intros Hl Hne Hk Hk' He He'.
  apply load_definitions_claimed in Hl as [claims Hc]; [|by rewrite py_sorted_Permutation|done|done].
  apply (Hc _ _ _ Hk) in He. apply (Hc _ _ _ Hk') in He'. congruence.
Qed.

(** ** Witnesses *)

Definition npm_option : InstallationOption :=
  {| io_id := "npm"; io_mechanism := "npm"; io_platforms := ["linux"];
     io_argv := ["/usr/bin/npm"; "install"; "-g"; "tool"]; io_package_source := "npm";
     io_requires_admin := false; io_modifies_path := true;
     io_modifies_shell_profile := false; io_digest_required := false;
     io_executable := true |}.

Definition tool : ConnectorDefinition :=
  {| cd_revision := "1"; cd_harness_id := "tool"; cd_tier := TIER_IDE;
     cd_maturity := CM_CERTIFIED; cd_executable_names := ["tool"];
     cd_remote_execution_supported := true; cd_supported_platforms := ["linux"];
     cd_installation_options := [npm_option]; cd_upgrade_options := [];
     cd_uninstall_options := []; cd_authentication_methods := [];
     cd_execution := {| ed_mode := TEXT_HEADLESS; ed_argv := ["tool"; "{task}"];
                        ed_task_placeholder := "{task}" |};
     cd_adapter_id := Some "a"; cd_certification_profile_id := Some "p";
     cd_blocked_reason := None; cd_documentation_source := "https://tool" |}.

Abbreviation tool_install :=
  (make_plan (H := counting_lib) "p" 0 [("tool", tool)] "n" "tool" INSTALL None "linux" None).

Lemma plans_run_reviewed_commands_witness :
  ∃ plan, tool_install = Ok plan ∧
    reviewed_argv tool "tool" "linux" INSTALL (tp_executable plan :: tp_arguments plan).
Proof.
  eexists. split; [vm_compute; reflexivity|].
  destruct (plans_run_reviewed_commands (H := counting_lib) "p" 0 [("tool", tool)] "n" "tool"
    INSTALL None "linux" None _ eq_refl) as (d & p & Hd & _ & Hr & _).
  injection Hd as <-. exact Hr.
Defined.

Lemma lifecycle_plans_start_no_shell_witness :
  ∃ plan, tool_install = Ok plan ∧ (Prelude.lower (after_last "/"%char (tp_executable plan)) ∉ shells).
Proof.
  eexists. split; [vm_compute; reflexivity|].
  refine (proj1 (lifecycle_plans_start_no_shell (H := counting_lib) "p" 0 [("tool", tool)] "n"
    "tool" INSTALL None "linux" None _ tool eq_refl eq_refl _ _)).
  - repeat constructor.
  - left.
Defined.

Lemma executables_have_one_owner_witness :
  ConnectorCatalogue_init [tool] = Ok [("tool", tool)] ∧ "tool" = "tool".
Proof.
  split; [reflexivity|].
  refine (executables_have_one_owner [tool] _ "tool" "tool" tool tool "tool" eq_refl _
    eq_refl eq_refl _ _); [repeat constructor; done|left|left].
Defined.
