(* ===== verification/Readiness.v ===== *)
(** * Readiness of a node's connector

    [connectors/readiness.py] with the contracts of [connectors/lifecycle_models.py]: the
    state of a connector on a node, derived from the catalogue, the evidence and the active
    task. [production_mode()] and the clock's reading are arguments. *)

From S2P Require Import Prelude Scheduler Connectors.

(** ** Contracts *)

(* @src connectors/lifecycle_models.py:45-59 ConnectorTaskStatus *)
Inductive ConnectorTaskStatus :=
| TS_PLANNED | TS_APPROVAL_REQUIRED | TS_APPROVED | TS_QUEUED | TS_OFFERED_TO_NODE
| TS_ACCEPTED_BY_NODE | TS_RUNNING | TS_WAITING_FOR_USER | TS_WAITING_FOR_AUTH_CALLBACK
| TS_SUCCEEDED | TS_FAILED | TS_CANCELLED | TS_EXPIRED | TS_INTERRUPTED.
#[export] Instance ConnectorTaskStatus_eq_dec : EqDecision ConnectorTaskStatus.
Proof. solve_decision. Defined.

(* @src connectors/lifecycle_models.py:62-71 ConnectorEvidenceType *)
Inductive ConnectorEvidenceType :=
| ET_DISCOVERY | ET_VERSION | ET_INSTALLATION | ET_AUTHENTICATION | ET_ADAPTER_CONFORMANCE
| ET_REAL_BINARY_TEST | ET_CERTIFICATION | ET_ROUTING | ET_FAILURE.
#[export] Instance ConnectorEvidenceType_eq_dec : EqDecision ConnectorEvidenceType.
Proof. solve_decision. Defined.

(* @src connectors/lifecycle_models.py:74-84 RecommendedConnectorAction *)
Inductive RecommendedConnectorAction :=
| RA_INSTALL | RA_REPAIR | RA_AUTHENTICATE | RA_VERIFY_AUTHENTICATION | RA_VERIFY_ADAPTER
| RA_CERTIFY | RA_ENABLE_ROUTING | RA_DISABLE_ROUTING | RA_RETRY | RA_NONE.
#[export] Instance RecommendedConnectorAction_eq_dec : EqDecision RecommendedConnectorAction.
Proof. solve_decision. Defined.

(* @src connectors/lifecycle_models.py:87-90 ConnectorExecutionOrigin.value *)
Definition ConnectorExecutionOrigin_value (o : ConnectorExecutionOrigin) : string :=
  match o with
  | REMOTE_NODE => "remote_node" | INLINE_DEVELOPMENT => "inline_development"
  | MOCK_TEST => "mock_test"
  end.

(* @src connectors/lifecycle_models.py:93-96 EvidenceTrustLevel.value *)
Definition EvidenceTrustLevel_value (t : EvidenceTrustLevel) : string :=
  match t with
  | TRUST_MOCK => "mock" | DEVELOPMENT => "development" | NODE_ATTESTED => "node_attested"
  end.

(* @src connectors/lifecycle_models.py:99-107 TERMINAL_TASK_STATUSES *)
Definition TERMINAL_TASK_STATUSES : list ConnectorTaskStatus :=
  [TS_SUCCEEDED; TS_FAILED; TS_CANCELLED; TS_EXPIRED; TS_INTERRUPTED].

(* @src connectors/lifecycle_models.py:109-119 ACTIVE_TASK_STATUSES *)
Definition ACTIVE_TASK_STATUSES : list ConnectorTaskStatus :=
  List.filter (λ s, negb (s in? TERMINAL_TASK_STATUSES) &&
                    negb (s in? [TS_PLANNED; TS_APPROVAL_REQUIRED; TS_APPROVED]))
    [TS_PLANNED; TS_APPROVAL_REQUIRED; TS_APPROVED; TS_QUEUED; TS_OFFERED_TO_NODE;
     TS_ACCEPTED_BY_NODE; TS_RUNNING; TS_WAITING_FOR_USER; TS_WAITING_FOR_AUTH_CALLBACK;
     TS_SUCCEEDED; TS_FAILED; TS_CANCELLED; TS_EXPIRED; TS_INTERRUPTED].

(* @src connectors/readiness.py:25-48 _NodeConnectorSnapshot *)
Record _NodeConnectorSnapshot := {
  discovery_executable : option string;
  discovery_version : option string;
  discovery_revision : option string;
  discovery_environment : option string;
  installation_executable : option string;
  installation_version : option string;
  installation_revision : option string;
  installation_routing_enabled : bool;
  auth_status : option string;
  auth_verified_at : option Z;
  auth_method_id : option string;
  certification_valid : bool;
  certification_expires_at : option Z;
  evidence_by_type : list (ConnectorEvidenceType * dict);
  active_task_status : option ConnectorTaskStatus;
  active_task_id : option string;
  active_task_action : option string;
  sn_latest_evidence_id : option string;
  executable_fingerprint : option string;
  sn_platform : string;
  node_online : bool;
  node_revoked : bool
}.

(* @src connectors/lifecycle_models.py:156-173 ConnectorReadiness *)
Record ConnectorReadiness := {
  rd_node_id : string;
  rd_connector_id : string;
  rd_state : NodeConnectorState;
  rd_recommended_action : option RecommendedConnectorAction;
  rd_blocking_reason : option string;
  rd_active_task_id : option string;
  rd_latest_evidence_id : option string;
  rd_routing_eligible : bool;
  rd_catalogue_maturity : string;
  rd_installed_version : option string;
  rd_executable_path : option string;
  rd_routing_profile : option string;
  rd_evidence_trust_level : option EvidenceTrustLevel;
  rd_execution_origin : option ConnectorExecutionOrigin;
  rd_updated_at : Z
}.

(** [snapshot.evidence_by_type.get(kind)]. *)
Fixpoint kind_get (kind : ConnectorEvidenceType) (l : list (ConnectorEvidenceType * dict)) :
    option dict :=
  match l with
  | [] => None
  | (k, e) :: l' => if kind == k then Some e else kind_get kind l'
  end.

(** The evidence when there is some that is not the empty dictionary. *)
Definition some_evidence (o : option dict) : option dict :=
  match o with Some [] => None | o => o end.

(** [a or b] of optional texts. *)
Definition or_str (a b : option string) : option string := if otruthy a then a else b.

Definition is_str (v : pyval) (s : string) : bool := py_eqb v (PStr s).

Abbreviation Verdict :=
  (NodeConnectorState * option RecommendedConnectorAction * option string)%type.

Section readiness.
Context `{PyLib}.
Implicit Types (s : _NodeConnectorSnapshot) (e : dict) (d : ConnectorDefinition).

(** ** Derivation *)

(* @src connectors/readiness.py:293-306 _production_trust_ok *)
Definition _production_trust_ok e : bool :=
  let trust := py_str (py_or (dget "trust_level" e) (PStr "")) in
  let origin := py_str (py_or (dget "execution_origin" e) (PStr "")) in
  if trust in? [EvidenceTrustLevel_value TRUST_MOCK; EvidenceTrustLevel_value DEVELOPMENT]
  then false
  else if origin in? [ConnectorExecutionOrigin_value MOCK_TEST;
                      ConnectorExecutionOrigin_value INLINE_DEVELOPMENT]
  then false
  else (trust == EvidenceTrustLevel_value NODE_ATTESTED) &&
       (origin == ConnectorExecutionOrigin_value REMOTE_NODE).

(* @src connectors/readiness.py:240-241 _auth_not_required *)
Definition _auth_not_required d : bool :=
  match cd_authentication_methods d with [] => true | _ => false end.

(* @src connectors/readiness.py:244-255 _authentication_verified *)
Definition _authentication_verified (production : bool) s : bool :=
  let auth_evidence := some_evidence (kind_get ET_AUTHENTICATION (evidence_by_type s)) in
  if (auth_status s == Some "authenticated") && negb (auth_verified_at s == None) then
    match auth_evidence with
    | Some e => negb (production && negb (_production_trust_ok e))
    | None => true
    end
  else
    match auth_evidence with
    | Some e => is_str (dget "status" e) "authenticated" &&
                negb (production && negb (_production_trust_ok e))
    | None => false
    end.

(* @src connectors/readiness.py:258-264 _adapter_conformance_passed *)
Definition _adapter_conformance_passed (production : bool) s : bool :=
  match some_evidence (kind_get ET_ADAPTER_CONFORMANCE (evidence_by_type s)) with
  | Some e => is_str (dget "status" e) "passed" &&
              negb (production && negb (_production_trust_ok e))
  | None => false
  end.

(* @src connectors/readiness.py:352-355 _certification_expired *)
Definition _certification_expired s (now : Z) : bool :=
  match certification_expires_at s with
  | None => false
  | Some t => (t <=? now)%Z
  end.

(* @src connectors/readiness.py:267-276 _certification_accepted *)
Definition _certification_accepted (production : bool) s (now : Z) : bool :=
  let cert := some_evidence (kind_get ET_CERTIFICATION (evidence_by_type s)) in
  let table_ok := certification_valid s && negb (_certification_expired s now) in
  let evidence_ok := match cert with
                     | Some e => is_str (dget "status" e) "certified"
                     | None => false
                     end in
  if negb (table_ok || evidence_ok) then false
  else if production then
    match cert with Some e => _production_trust_ok e | None => false end
  else true.

(* @src connectors/readiness.py:279-290 _certification_block_reason *)
Definition _certification_block_reason (production : bool) s : option string :=
  match some_evidence (kind_get ET_CERTIFICATION (evidence_by_type s)) with
  | None => None
  | Some e =>
      if production && negb (_production_trust_ok e) then
        Some ("Production routing requires node-attested remote-node evidence (trust="
              +:+ py_str (dget "trust_level" e) +:+ ", origin="
              +:+ py_str (dget "execution_origin" e) +:+ ")")
      else None
  end.

(* @src connectors/readiness.py:309-315 _parse_trust *)
Definition _parse_trust (v : pyval) : option EvidenceTrustLevel :=
  match v with
  | PStr t => enum_of EvidenceTrustLevel_value [TRUST_MOCK; DEVELOPMENT; NODE_ATTESTED] t
  | _ => None
  end.

(* @src connectors/readiness.py:318-324 _parse_origin *)
Definition _parse_origin (v : pyval) : option ConnectorExecutionOrigin :=
  match v with
  | PStr t => enum_of ConnectorExecutionOrigin_value
                [REMOTE_NODE; INLINE_DEVELOPMENT; MOCK_TEST] t
  | _ => None
  end.

(** The reason a broken executable gives. *)
Definition broken_reason (o : option dict) : option string :=
  match some_evidence o with
  | Some e =>
      if is_str (dget "status" e) "broken_executable" then
        let detail := py_or (dget "detail" e) (dget "message" e) in
        Some (if truthy detail then py_str detail
              else "Executable failed version or launch checks")
      else None
  | None => None
  end.

(* @src connectors/readiness.py:327-334 _broken_executable_evidence *)
Definition _broken_executable_evidence s : option string :=
  match broken_reason (kind_get ET_FAILURE (evidence_by_type s)) with
  | Some r => Some r
  | None => broken_reason (kind_get ET_VERSION (evidence_by_type s))
  end.

(** [rev] of an evidence when it is a text. *)
Definition text_revision e : list (option string) :=
  match dget "connector_revision" e with PStr r => [Some r] | _ => [] end.

(* @src connectors/readiness.py:337-349 _stale_revision *)
Definition _stale_revision s (current_revision : string) : bool :=
  let revisions := [discovery_revision s; installation_revision s] ++
                   mjoin ((λ ke, text_revision ke.2) <$> evidence_by_type s) in
  let observed := List.filter otruthy revisions in
  existsb (λ r, negb (r == Some current_revision)) observed.

(* @src connectors/readiness.py:358-363 _evidence_version *)
Definition _evidence_version s (kind : ConnectorEvidenceType) : option string :=
  match some_evidence (kind_get kind (evidence_by_type s)) with
  | None => None
  | Some e =>
      let version := py_or (dget "harness_version" e) (dget "version" e) in
      if truthy version then Some (py_str version) else None
  end.

(** The state an active task puts the connector in, if it does. *)
(* @src connectors/readiness.py:130-162 ConnectorReadinessService._derive_state *)
Definition active_task_state s : option Verdict :=
  let active := active_task_status s in
  let active_action := default "" (active_task_action s) in
  let is_active := match active with Some t => t in? ACTIVE_TASK_STATUSES | None => false end in
  if is_active && str_in "install" active_action then Some (INSTALLING, None, None)
  else if active in? [Some TS_WAITING_FOR_USER; Some TS_WAITING_FOR_AUTH_CALLBACK] then
    Some (AUTHENTICATION_IN_PROGRESS, None, None)
  else if is_active && (active_action == "authenticate") then
    Some (AUTHENTICATION_IN_PROGRESS, None, None)
  else if is_active && (active_action in? ["verify_authentication"; "verify_adapter"]) then
    Some (VERIFICATION_IN_PROGRESS, None, None)
  else if is_active && (active_action == "certify") then
    Some (CERTIFICATION_IN_PROGRESS, None, None)
  else if is_active && (active_action == "repair") then
    Some (NEEDS_REPAIR, Some RA_REPAIR, None)
  else if (active == Some TS_FAILED) && (active_action == "authenticate") then
    Some (AUTHENTICATION_FAILED, Some RA_RETRY,
          if otruthy (active_task_id s) then Some "Authentication task failed"
          else active_task_id s)
  else if (active == Some TS_FAILED) && (active_action == "certify") then
    Some (CERTIFICATION_FAILED, Some RA_RETRY, Some "Certification task failed")
  else None.

Definition current_executable s : option string :=
  or_str (installation_executable s) (discovery_executable s).

(* @src connectors/readiness.py:164-237 ConnectorReadinessService._derive_state *)
Definition evidence_state (production : bool) d s (now : Z) : Verdict :=
  match _broken_executable_evidence s with
  | Some (String.String _ _ as broken) => (NEEDS_REPAIR, Some RA_REPAIR, Some broken)
  | _ =>
  let executable := current_executable s in
  let has_install_methods := match cd_installation_options d with [] => false | _ => true end in
  if negb (otruthy executable) && has_install_methods then
    (AVAILABLE_TO_INSTALL, Some RA_INSTALL, None)
  else if negb (otruthy executable) then
    (NOT_AVAILABLE, Some RA_NONE, Some "Executable not discovered on this node")
  else if _stale_revision s (cd_revision d) then
    (VERIFICATION_REQUIRED, Some RA_VERIFY_ADAPTER,
     Some "Connector revision changed; evidence must be refreshed")
  else
  let auth_required := match cd_authentication_methods d with [] => false | _ => true end &&
                       negb (_auth_not_required d) in
  if auth_required && negb (_authentication_verified production s) then
    (AUTHENTICATION_REQUIRED, Some RA_AUTHENTICATE, None)
  else if negb (_adapter_conformance_passed production s) then
    (VERIFICATION_REQUIRED, Some RA_VERIFY_ADAPTER, None)
  else if negb (_certification_accepted production s now) then
    (CERTIFICATION_REQUIRED, Some RA_CERTIFY, _certification_block_reason production s)
  else if negb (installation_routing_enabled s) then
    (ROUTING_DISABLED, Some RA_ENABLE_ROUTING, None)
  else if negb (node_online s) then
    (ROUTING_DISABLED, Some RA_NONE, Some "Node is offline; routing is ineligible")
  else (READY, Some RA_NONE, None)
  end.

(* @src connectors/readiness.py:97-124 ConnectorReadinessService._derive_state *)
Definition _derive_state (production : bool) d s (now : Z) : Verdict :=
  if cd_maturity d == CM_BLOCKED then
    (NCS_BLOCKED, Some RA_NONE,
     Some (if otruthy (cd_blocked_reason d) then default "" (cd_blocked_reason d)
           else "Connector is blocked in the catalogue"))
  else if negb (sn_platform s in? cd_supported_platforms d) then
    (UNSUPPORTED_PLATFORM, Some RA_NONE,
     Some ("Platform " +:+ sn_platform s +:+ " is not supported"))
  else if (cd_tier d == TIER_IDE) || (ed_mode (cd_execution d) == MODE_IDE_ONLY) then
    (IDE_ONLY, Some RA_NONE, None)
  else if node_revoked s then (NCS_BLOCKED, Some RA_NONE, Some "Node registration is revoked")
  else match active_task_state s with
       | Some v => v
       | None => evidence_state production d s now
       end.

(* @src connectors/readiness.py:55-95 ConnectorReadinessService.derive_from_snapshot *)
Definition derive_from_snapshot (production : bool) (catalogue : Catalogue) (now : Z)
    (node_id connector_id : string) s : res ConnectorReadiness :=
  res_bind (catalogue_get connector_id catalogue) (λ d,
  let '(state, action, blocking) := _derive_state production d s now in
  let routing := state == READY in
  let cert := default [] (some_evidence (kind_get ET_CERTIFICATION (evidence_by_type s))) in
  let profile := match dget "routing_profile" cert with PStr p => Some p | _ => None end in
  let profile := if routing && (profile == None) then Some "read_only_repository"
                 else profile in
  Ok {| rd_node_id := node_id; rd_connector_id := connector_id; rd_state := state;
        rd_recommended_action := action; rd_blocking_reason := blocking;
        rd_active_task_id := active_task_id s;
        rd_latest_evidence_id := sn_latest_evidence_id s; rd_routing_eligible := routing;
        rd_catalogue_maturity := ConnectorMaturity_value (cd_maturity d);
        rd_installed_version :=
          or_str (or_str (installation_version s) (discovery_version s))
                 (_evidence_version s ET_VERSION);
        rd_executable_path := current_executable s;
        rd_routing_profile := if routing then profile else None;
        rd_evidence_trust_level := _parse_trust (dget "trust_level" cert);
        rd_execution_origin := _parse_origin (dget "execution_origin" cert);
        rd_updated_at := now |}).
End readiness.

(** ** Properties *)

(** Nothing the connector's task is doing takes precedence over its evidence. *)
Definition no_task_in_the_way (s : _NodeConnectorSnapshot) : Prop :=
  let a := default "" (active_task_action s) in
  ∀ t, active_task_status s = Some t →
    (t ∉ [TS_WAITING_FOR_USER; TS_WAITING_FOR_AUTH_CALLBACK]) ∧
    (t ∈ ACTIVE_TASK_STATUSES → str_in "install" a = false ∧
       a ∉ ["authenticate"; "verify_authentication"; "verify_adapter"; "certify"; "repair"]) ∧
    (t = TS_FAILED → a ∉ ["authenticate"; "certify"]).

Lemma if_Some_None {A} (b : bool) (x : A) r :
  (if b then Some x else r) = None ↔ b = false ∧ r = None.
Proof. destruct b; naive_solver. Qed.

Lemma active_task_state_None s : active_task_state s = None ↔ no_task_in_the_way s.
Proof.
  unfold active_task_state, no_task_in_the_way. cbv zeta.
  destruct (active_task_status s) as [t|]; [|split; [intros _ t; done|done]].
  set (a := default "" (active_task_action s)). clearbody a.
  rewrite !if_Some_None, !andb_false_iff, !bool_decide_eq_false.
  split.
  - intros (H1 & H2 & H3 & H4 & H5 & H6 & H7 & H8 & _) t' [= <-].
    split_and!.
    + intros Hw. apply H2. rewrite !elem_of_cons in Hw. rewrite !elem_of_cons.
      destruct Hw as [->|[->|[]%not_elem_of_nil]]; auto.
    + intros Ht. split; [by destruct H1|]. rewrite !elem_of_cons in H4. rewrite !elem_of_cons.
      destruct H3, H4, H5, H6; tauto.
    + intros ->. rewrite !elem_of_cons. destruct H7, H8; try done. intros [?|[?|[]%not_elem_of_nil]]; done.
  - intros Hn. destruct (Hn t eq_refl) as (Hw & Ha & Hf). clear Hn.
    rewrite !elem_of_cons in Hw. rewrite !elem_of_cons in Ha. rewrite !elem_of_cons in Hf.
    rewrite !elem_of_cons. assert (∀ a b : ConnectorTaskStatus, Some a = Some b → a = b) by congruence.
    destruct (decide (t ∈ ACTIVE_TASK_STATUSES)) as [Ht|Ht];
      [destruct (Ha Ht) as [Hi Ha']|]; (destruct (decide (t = TS_FAILED)) as [Hff|Hff];
      [specialize (Hf Hff)|]); split_and!; try tauto.
    all: try (right; tauto).
    all: try (left; congruence).
    all: intros [[= ->]|[[= ->]|[]%not_elem_of_nil]]; apply Hw; auto.
Qed.

(** The executable, the evidence and the settings a routable connector needs. *)
Definition evidence_is_complete `{PyLib} (production : bool) (d : ConnectorDefinition)
    (s : _NodeConnectorSnapshot) (now : Z) : Prop :=
  otruthy (_broken_executable_evidence s) = false ∧
  otruthy (current_executable s) = true ∧
  _stale_revision s (cd_revision d) = false ∧
  (cd_authentication_methods d = [] ∨ _authentication_verified production s = true) ∧
  _adapter_conformance_passed production s = true ∧
  _certification_accepted production s now = true ∧
  installation_routing_enabled s = true ∧ node_online s = true.

Section properties.
Context `{PyLib}.

(** A guard that ends in another state refutes one conjunct of the specification. *)
Ltac not_ready :=
  split; [simpl; intros; discriminate|intros (? & ? & ? & Hauth & ? & ? & ? & ?); destruct Hauth; discriminate || congruence].

Lemma evidence_state_READY production d s now :
  (evidence_state production d s now).1.1 = READY ↔ evidence_is_complete production d s now.
Proof.
  unfold evidence_state, evidence_is_complete, _auth_not_required.
  generalize (_broken_executable_evidence s), (otruthy (current_executable s)),
    (_stale_revision s (cd_revision d)), (_authentication_verified production s),
    (_adapter_conformance_passed production s), (_certification_accepted production s now),
    (installation_routing_enabled s), (node_online s), (cd_authentication_methods d),
    (match cd_installation_options d with [] => false | _ => true end).
  intros broken e stale auth adapter cert routing online methods opts.
  destruct broken as [[|c b]|]; simpl; [|not_ready|];
    (destruct e; simpl; [|destruct opts; not_ready]); (destruct stale; [not_ready|]);
    (destruct methods as [|m l]; simpl; [|destruct auth; simpl; [|not_ready]]);
    (destruct adapter; simpl; [|not_ready]); (destruct cert; simpl; [|not_ready]);
    (destruct routing; simpl; [|not_ready]); (destruct online; simpl; [|not_ready]);
    (split; [intros _; repeat split; auto|done]).
Qed.

Lemma active_task_not_READY s v : active_task_state s = Some v → v.1.1 ≠ READY.
Proof.
  unfold active_task_state. cbv zeta.
  destruct (_ && _); [by intros [= <-]|]. destruct (bool_decide _); [by intros [= <-]|].
  repeat (destruct (_ && _); [by intros [= <-]|]). done.
Qed.

Lemma derive_state_READY production d s now :
  (_derive_state production d s now).1.1 = READY ↔
  cd_maturity d ≠ CM_BLOCKED ∧ sn_platform s ∈ cd_supported_platforms d ∧
  cd_tier d ≠ TIER_IDE ∧ ed_mode (cd_execution d) ≠ MODE_IDE_ONLY ∧ node_revoked s = false ∧
  no_task_in_the_way s ∧ evidence_is_complete production d s now.
Proof.
  unfold _derive_state. rewrite <- active_task_state_None, <- evidence_state_READY.
  destruct (bool_decide (cd_maturity d = _)) eqn:Hm; boolify; [by split; [|intros [? _]]|].
  destruct (bool_decide (_ ∈ cd_supported_platforms d)) eqn:Hp; boolify; simpl;
    [|by split; [|intros (_ & ? & _)]].
  destruct (bool_decide (cd_tier d = _)) eqn:Ht; boolify; simpl;
    [by split; [|intros (_ & _ & ? & _)]|].
  destruct (bool_decide (ed_mode _ = _)) eqn:Hi; boolify; [by split; [|intros (_ & _ & _ & ? & _)]|].
  destruct (node_revoked s); [by split; [|intros (_ & _ & _ & _ & ? & _)]|].
  destruct (active_task_state s) as [v|] eqn:Hv; [|by split; [|intros (_ & _ & _ & _ & _ & _ & ?)]].
  split; [|by intros (_ & _ & _ & _ & _ & ? & _)]. intros Hr. by apply active_task_not_READY in Hv.
Qed.

(** a connector is ready exactly when the catalogue does not block it, the platform is
    supported, it is not an IDE connector, the node is not revoked, no task of it is in the
    way, its executable is there and not broken, no revision is stale, it is authenticated
    where it has to be, its adapter conforms, its certification is accepted, routing is
    enabled and the node is online. *)
Theorem connector_ready_iff production d s now :
  (_derive_state production d s now).1.1 = READY ↔
  cd_maturity d ≠ CM_BLOCKED ∧ sn_platform s ∈ cd_supported_platforms d ∧
  cd_tier d ≠ TIER_IDE ∧ ed_mode (cd_execution d) ≠ MODE_IDE_ONLY ∧ node_revoked s = false ∧
  no_task_in_the_way s ∧ evidence_is_complete production d s now.
Proof. apply derive_state_READY. Qed.

(** Evidence attested by a remote node. *)
Definition attested (e : dict) : Prop :=
  py_str (dget "trust_level" e) = "node_attested" ∧
  py_str (dget "execution_origin" e) = "remote_node".

Lemma production_trust_ok_attested e : _production_trust_ok e = true → attested e.
Proof.
  unfold _production_trust_ok, attested, py_or.
  repeat (case_bool_decide; simpl; try done).
  destruct (truthy (dget "trust_level" e)), (truthy (dget "execution_origin" e)); done.
Qed.

Lemma production_attested d s now :
  (_derive_state true d s now).1.1 = READY →
  (∃ e, kind_get ET_ADAPTER_CONFORMANCE (evidence_by_type s) = Some e ∧ attested e ∧
        is_str (dget "status" e) "passed" = true) ∧
  (∃ e, kind_get ET_CERTIFICATION (evidence_by_type s) = Some e ∧ attested e) ∧
  (cd_authentication_methods d ≠ [] → ∀ e, e ≠ [] →
     kind_get ET_AUTHENTICATION (evidence_by_type s) = Some e → attested e).
Proof.
  rewrite derive_state_READY. intros (_ & _ & _ & _ & _ & _ & _ & _ & _ & Ha & Hc & Hz & _).
  unfold _adapter_conformance_passed, _certification_accepted, some_evidence in *.
  split_and!.
  - destruct (kind_get ET_ADAPTER_CONFORMANCE _) as [[|x e]|]; [done| |done].
    boolify. eexists. split; [done|]. split; [|done].
    apply production_trust_ok_attested. by destruct (_production_trust_ok _).
  - destruct (negb (_ || _)); [done|].
    destruct (kind_get ET_CERTIFICATION _) as [[|x e]|]; [done| |done].
    eexists. split; [done|]. by apply production_trust_ok_attested.
  - intros Hm e He Hg. destruct Ha as [|Ha]; [done|]. unfold _authentication_verified in Ha.
    rewrite Hg in Ha. destruct e as [|x e]; [done|]. apply production_trust_ok_attested.
    cbn [some_evidence] in Ha. destruct (_production_trust_ok _); [done|].
    by destruct (_ && _); [|rewrite andb_false_r in Ha].
Qed.

(** in production a connector is only ready on evidence attested by the remote node:
    its adapter passed and its certification is attested, and a connector that has to
    authenticate has no unattested authentication evidence. *)
Theorem production_ready_is_attested d s now :
  (_derive_state true d s now).1.1 = READY →
  (∃ e, kind_get ET_ADAPTER_CONFORMANCE (evidence_by_type s) = Some e ∧ attested e ∧
        is_str (dget "status" e) "passed" = true) ∧
  (∃ e, kind_get ET_CERTIFICATION (evidence_by_type s) = Some e ∧ attested e) ∧
  (cd_authentication_methods d ≠ [] → ∀ e, e ≠ [] →
     kind_get ET_AUTHENTICATION (evidence_by_type s) = Some e → attested e).
Proof. apply production_attested. Qed.

(** The states the service can derive. *)
Definition derivable : list NodeConnectorState :=
  [NCS_BLOCKED; UNSUPPORTED_PLATFORM; IDE_ONLY; INSTALLING; AUTHENTICATION_IN_PROGRESS;
   VERIFICATION_IN_PROGRESS; CERTIFICATION_IN_PROGRESS; NEEDS_REPAIR; AUTHENTICATION_FAILED;
   CERTIFICATION_FAILED; AVAILABLE_TO_INSTALL; NOT_AVAILABLE; VERIFICATION_REQUIRED;
   AUTHENTICATION_REQUIRED; CERTIFICATION_REQUIRED; ROUTING_DISABLED; READY].

Definition verdict_ok (v : Verdict) : Prop :=
  v.1.1 ∈ derivable ∧ (v.1.1 = READY → v = (READY, Some RA_NONE, None)).

Ltac derivable_case :=
  split; [unfold derivable; simpl; repeat first [left | right]|first [done|by intros [=]]].

Lemma derive_state_ok production d s now : verdict_ok (_derive_state production d s now).
Proof.
  unfold _derive_state.
  destruct (bool_decide _); [derivable_case|]. destruct (negb _); [derivable_case|].
  destruct (_ || _); [derivable_case|]. destruct (node_revoked s); [derivable_case|].
  destruct (active_task_state s) as [v|] eqn:Hv.
  - revert Hv. unfold active_task_state. cbv zeta.
    destruct (_ && _); [intros [= <-]; derivable_case|].
    destruct (bool_decide _); [intros [= <-]; derivable_case|].
    repeat (destruct (_ && _); [intros [= <-]; derivable_case|]). done.
  - clear Hv. unfold evidence_state.
    destruct (_broken_executable_evidence s) as [[|c b]|]; [|derivable_case|];
      repeat (match goal with |- context [if ?b then _ else _] => destruct b; [derivable_case|] end);
      derivable_case.
Qed.

(** the shape of a readiness record, whatever the guards decide: it names the connector it was asked for, its state
    is one of the seventeen the service derives, it is eligible for routing exactly when
    it is ready, only then it carries a routing profile, and a ready connector has nothing
    to do and no blocking reason. *)
Theorem readiness_is_well_formed production catalogue now node connector s r :
  derive_from_snapshot production catalogue now node connector s = Ok r →
  (rd_node_id r, rd_connector_id r) = (node, connector) ∧ rd_state r ∈ derivable ∧
  (rd_routing_eligible r = true ↔ rd_state r = READY) ∧
  (is_Some (rd_routing_profile r) ↔ rd_state r = READY) ∧
  (rd_state r = READY → rd_recommended_action r = Some RA_NONE ∧ rd_blocking_reason r = None).
Proof.
  unfold derive_from_snapshot. destruct (catalogue_get connector catalogue) as [d|]; [|done].
  simpl. pose proof (derive_state_ok production d s now) as [Hin Hr].
  destruct (_derive_state production d s now) as [[st a] b]. simpl in Hin, Hr.
  intros [= <-]. simpl. split_and!; [done|done|by rewrite bool_decide_eq_true| |naive_solver].
  case_bool_decide as Hst; simpl; [|split; [intros [? ?]|]; done].
  destruct (dget _ _); simpl; naive_solver.
Qed.

(** A certification past its expiry still counts when there is certified evidence: what the
    certification table says makes no difference then. *)
Lemma certified_evidence_never_expires production s s' now now' e :
  evidence_by_type s' = evidence_by_type s →
  kind_get ET_CERTIFICATION (evidence_by_type s) = Some e →
  is_str (dget "status" e) "certified" = true →
  _certification_accepted production s now = _certification_accepted production s' now'.
Proof.
  intros Hs He Hc. unfold _certification_accepted. rewrite Hs, He.
  destruct e as [|x e]; [done|]. cbn [some_evidence]. by rewrite Hc, !orb_true_r.
Qed.
End properties.

(** ** Witnesses *)

Definition attested_evidence (status : string) : dict :=
  [("status", PStr status); ("trust_level", PStr "node_attested");
   ("execution_origin", PStr "remote_node")].

Definition ready_snapshot : _NodeConnectorSnapshot :=
  {| discovery_executable := Some "/bin/tool"; discovery_version := None;
     discovery_revision := Some "1"; discovery_environment := None;
     installation_executable := None; installation_version := None;
     installation_revision := None; installation_routing_enabled := true;
     auth_status := None; auth_verified_at := None; auth_method_id := None;
     certification_valid := false; certification_expires_at := None;
     evidence_by_type := [(ET_ADAPTER_CONFORMANCE, attested_evidence "passed");
                          (ET_CERTIFICATION, attested_evidence "certified")];
     active_task_status := None; active_task_id := None; active_task_action := None;
     sn_latest_evidence_id := None; executable_fingerprint := None; sn_platform := "linux";
     node_online := true; node_revoked := false |}.

Definition terminal_tool : ConnectorDefinition :=
  {| cd_revision := "1"; cd_harness_id := "tool"; cd_tier := TIER_TERMINAL;
     cd_maturity := CM_CERTIFIED; cd_executable_names := ["tool"];
     cd_remote_execution_supported := true; cd_supported_platforms := ["linux"];
     cd_installation_options := [npm_option]; cd_upgrade_options := [];
     cd_uninstall_options := []; cd_authentication_methods := [];
     cd_execution := {| ed_mode := TEXT_HEADLESS; ed_argv := ["tool"; "{task}"];
                        ed_task_placeholder := "{task}" |};
     cd_adapter_id := Some "a"; cd_certification_profile_id := Some "p";
     cd_blocked_reason := None; cd_documentation_source := "https://tool" |}.

Lemma production_ready_is_attested_witness :
  (_derive_state (H := counting_lib) true terminal_tool ready_snapshot 0).1.1 = READY ∧
  ∃ e, kind_get ET_CERTIFICATION (evidence_by_type ready_snapshot) = Some e ∧
       attested (H := counting_lib) e.
Proof.
  split; [vm_compute; reflexivity|].
  refine (proj1 (proj2 (production_ready_is_attested (H := counting_lib) terminal_tool
    ready_snapshot 0 _))). vm_compute. reflexivity.
Defined.

Lemma readiness_is_well_formed_witness :
  ∃ r, derive_from_snapshot (H := counting_lib) true [("tool", terminal_tool)] 0 "n" "tool"
         ready_snapshot = Ok r ∧ is_Some (rd_routing_profile r) ∧ rd_state r = READY.
Proof.
  eexists. split; [vm_compute; reflexivity|].
  destruct (readiness_is_well_formed (H := counting_lib) true [("tool", terminal_tool)] 0 "n"
    "tool" ready_snapshot _ eq_refl) as (_ & _ & _ & Hp & _).
  split; [|reflexivity]. apply Hp. vm_compute. reflexivity.
Defined.

(** An uninstallation under way is shown as an installation: the action is searched for
    the text [install]. *)
Example uninstall_shows_installing :
  active_task_state
    {| discovery_executable := None; discovery_version := None; discovery_revision := None;
       discovery_environment := None; installation_executable := None;
       installation_version := None; installation_revision := None;
       installation_routing_enabled := false; auth_status := None; auth_verified_at := None;
       auth_method_id := None; certification_valid := false;
       certification_expires_at := None; evidence_by_type := [];
       active_task_status := Some TS_RUNNING; active_task_id := Some "t";
       active_task_action := Some "uninstall"; sn_latest_evidence_id := None;
       executable_fingerprint := None; sn_platform := "linux"; node_online := true;
       node_revoked := false |} = Some (INSTALLING, None, None).
Proof. reflexivity. Qed.
