(* ===== verification/ConnectorStore.v ===== *)
(** * The store of the connector lifecycle

    [connectors/store.py]: plans, tasks, events, evidence and readiness rows. A table is an
    association list on its primary key, in the order of insertion. The order in which the
    engine yields the rows that [ORDER BY] leaves tied is a parameter. A column of enum
    values holds the member; a JSON column holds the value its text reads back; the plan of
    [plan_json] is the plan it was written from. *)

From S2P Require Import Prelude Scheduler Connectors Readiness.

(** The engine's own order of rows: some rearrangement of the table. *)
Class SqlEngine := {
  heap_order : ∀ {A : Type}, list A → list A;
  heap_order_permutes : ∀ {A : Type} (l : list A), heap_order l ≡ₚ l
}.

Definition insertion_order : SqlEngine :=
  {| heap_order A l := l; heap_order_permutes A l := Permutation_refl l |}.

(** ** Rows *)

(* @src connectors/lifecycle_models.py:136-153 ConnectorEvidence *)
Record ConnectorEvidence := {
  ev_evidence_id : string;
  ev_node_id : string;
  ev_connector_id : string;
  ev_connector_revision : string;
  ev_task_id : string;
  ev_evidence_type : ConnectorEvidenceType;
  ev_status : string;
  ev_executable_path : option string;
  ev_executable_fingerprint : option string;
  ev_harness_version : option string;
  ev_provider_mode : option string;
  ev_details : dict;
  ev_created_at : Z;
  ev_expires_at : option Z;
  ev_trust_level : EvidenceTrustLevel;
  ev_execution_origin : ConnectorExecutionOrigin
}.

(* @src connectors/lifecycle_models.py:188-198 ConnectorTaskEvent *)
Record ConnectorTaskEvent := {
  te_event_id : string;
  te_task_id : string;
  te_node_id : string;
  te_connector_id : string;
  te_event_type : string;
  te_sequence : Z;
  te_payload : dict;
  te_created_at : Z
}.

(* @src connectors/lifecycle_models.py:201-218 ConnectorTaskRecord *)
Record ConnectorTaskRecord := {
  tk_task_id : string;
  tk_plan_id : string;
  tk_node_id : string;
  tk_connector_id : string;
  tk_connector_revision : string;
  tk_action : string;
  tk_plan_hash : string;
  tk_status : ConnectorTaskStatus;
  tk_idempotency_key : string;
  tk_previous_task_id : option string;
  tk_version : Z;
  tk_created_at : Z;
  tk_started_at : option Z;
  tk_finished_at : option Z;
  tk_detail : option string
}.

(* @src persistence.py:268-280 NodeConnectorReadinessRow *)
Record NodeConnectorReadinessRow := {
  rr_node_id : string;
  rr_connector_id : string;
  rr_state : string;
  rr_recommended_action : option string;
  rr_blocking_reason : option string;
  rr_active_task_id : option string;
  rr_latest_evidence_id : option string;
  rr_routing_eligible : bool;
  rr_snapshot_json : dict;
  rr_recomputed_at : Z
}.

(* @src persistence.py:144-153 NodeConnectorDiscoveryRow *)
Record NodeConnectorDiscoveryRow := {
  nd_node_id : string;
  nd_connector_id : string;
  nd_connector_revision : string;
  nd_executable : option string;
  nd_version : option string;
  nd_execution_environment : string;
  nd_discovered_at : Z
}.

(* @src persistence.py:156-166 NodeConnectorInstallationRow *)
Record NodeConnectorInstallationRow := {
  ni_node_id : string;
  ni_connector_id : string;
  ni_connector_revision : string;
  ni_method_id : string;
  ni_executable : string;
  ni_version : option string;
  ni_enabled_for_routing : bool;
  ni_installed_at : Z
}.

(* @src persistence.py:169-177 NodeConnectorAuthenticationRow *)
Record NodeConnectorAuthenticationRow := {
  na_node_id : string;
  na_connector_id : string;
  na_method_id : string;
  na_status : string;
  na_verified_at : option Z;
  na_detail : string
}.

(* @src persistence.py:191-202 NodeConnectorCertificationRow *)
Record NodeConnectorCertificationRow := {
  nc_node_id : string;
  nc_connector_id : string;
  nc_connector_revision : string;
  nc_harness_version : string;
  nc_executable_fingerprint : string;
  nc_evidence_digest : string;
  nc_passed_levels : pyval;
  nc_certified_at : Z;
  nc_expires_at : option Z
}.

(** ** State

    The tables, the planner's plans in memory, the background runs, and the readings of the
    clock and of the identifiers taken so far. *)

Record BackgroundRun := {
  bg_task_id : string;
  bg_plan : ConnectorTaskPlan;
  (** Whether the handle removes itself from [_background] when it is done. *)
  bg_removes_itself : bool;
  bg_done : bool
}.

(* @src connectors/lifecycle.py:31-39 ConnectorLifecycleCoordinator *)
Record LifecycleState := {
  ls_plans : list (string * ConnectorTaskPlan);
  ls_tasks : list (string * ConnectorTaskRecord);
  ls_events : list (string * ConnectorTaskEvent);
  ls_evidence : list (string * ConnectorEvidence);
  ls_readiness : list (string * NodeConnectorReadinessRow);
  ls_discoveries : list (string * NodeConnectorDiscoveryRow);
  ls_installations : list (string * NodeConnectorInstallationRow);
  ls_authentications : list (string * NodeConnectorAuthenticationRow);
  ls_certifications : list (string * NodeConnectorCertificationRow);
  ls_planner : list (string * ConnectorTaskPlan);
  ls_background : list BackgroundRun;
  ls_uuids : nat;
  ls_clock : nat
}.

Definition empty_lifecycle : LifecycleState :=
  {| ls_plans := []; ls_tasks := []; ls_events := []; ls_evidence := []; ls_readiness := [];
     ls_discoveries := []; ls_installations := []; ls_authentications := [];
     ls_certifications := []; ls_planner := []; ls_background := []; ls_uuids := 0;
     ls_clock := 0 |}.

(** A table of the state, with its two accessors. *)
Record table (R : Type) := {
  tb_get : LifecycleState → list (string * R);
  tb_set : list (string * R) → LifecycleState → LifecycleState
}.
Arguments tb_get {R} t s.
Arguments tb_set {R} t l s.

Definition t_plans : table ConnectorTaskPlan := {| tb_get := ls_plans; tb_set v s :=
  {| ls_plans := v; ls_tasks := ls_tasks s; ls_events := ls_events s; ls_evidence :=
     ls_evidence s; ls_readiness := ls_readiness s; ls_discoveries := ls_discoveries s;
     ls_installations := ls_installations s; ls_authentications := ls_authentications s;
     ls_certifications := ls_certifications s; ls_planner := ls_planner s; ls_background :=
     ls_background s; ls_uuids := ls_uuids s; ls_clock := ls_clock s |} |}.
Definition t_tasks : table ConnectorTaskRecord := {| tb_get := ls_tasks; tb_set v s :=
  {| ls_plans := ls_plans s; ls_tasks := v; ls_events := ls_events s; ls_evidence :=
     ls_evidence s; ls_readiness := ls_readiness s; ls_discoveries := ls_discoveries s;
     ls_installations := ls_installations s; ls_authentications := ls_authentications s;
     ls_certifications := ls_certifications s; ls_planner := ls_planner s; ls_background :=
     ls_background s; ls_uuids := ls_uuids s; ls_clock := ls_clock s |} |}.
Definition t_events : table ConnectorTaskEvent := {| tb_get := ls_events; tb_set v s :=
  {| ls_plans := ls_plans s; ls_tasks := ls_tasks s; ls_events := v; ls_evidence :=
     ls_evidence s; ls_readiness := ls_readiness s; ls_discoveries := ls_discoveries s;
     ls_installations := ls_installations s; ls_authentications := ls_authentications s;
     ls_certifications := ls_certifications s; ls_planner := ls_planner s; ls_background :=
     ls_background s; ls_uuids := ls_uuids s; ls_clock := ls_clock s |} |}.
Definition t_evidence : table ConnectorEvidence := {| tb_get := ls_evidence; tb_set v s :=
  {| ls_plans := ls_plans s; ls_tasks := ls_tasks s; ls_events := ls_events s; ls_evidence :=
     v; ls_readiness := ls_readiness s; ls_discoveries := ls_discoveries s; ls_installations
     := ls_installations s; ls_authentications := ls_authentications s; ls_certifications :=
     ls_certifications s; ls_planner := ls_planner s; ls_background := ls_background s;
     ls_uuids := ls_uuids s; ls_clock := ls_clock s |} |}.
Definition t_readiness : table NodeConnectorReadinessRow := {| tb_get := ls_readiness; tb_set v s :=
  {| ls_plans := ls_plans s; ls_tasks := ls_tasks s; ls_events := ls_events s; ls_evidence :=
     ls_evidence s; ls_readiness := v; ls_discoveries := ls_discoveries s; ls_installations :=
     ls_installations s; ls_authentications := ls_authentications s; ls_certifications :=
     ls_certifications s; ls_planner := ls_planner s; ls_background := ls_background s;
     ls_uuids := ls_uuids s; ls_clock := ls_clock s |} |}.
Definition t_discoveries : table NodeConnectorDiscoveryRow := {| tb_get := ls_discoveries; tb_set v s :=
  {| ls_plans := ls_plans s; ls_tasks := ls_tasks s; ls_events := ls_events s; ls_evidence :=
     ls_evidence s; ls_readiness := ls_readiness s; ls_discoveries := v; ls_installations :=
     ls_installations s; ls_authentications := ls_authentications s; ls_certifications :=
     ls_certifications s; ls_planner := ls_planner s; ls_background := ls_background s;
     ls_uuids := ls_uuids s; ls_clock := ls_clock s |} |}.
Definition t_installations : table NodeConnectorInstallationRow := {| tb_get := ls_installations; tb_set v s :=
  {| ls_plans := ls_plans s; ls_tasks := ls_tasks s; ls_events := ls_events s; ls_evidence :=
     ls_evidence s; ls_readiness := ls_readiness s; ls_discoveries := ls_discoveries s;
     ls_installations := v; ls_authentications := ls_authentications s; ls_certifications :=
     ls_certifications s; ls_planner := ls_planner s; ls_background := ls_background s;
     ls_uuids := ls_uuids s; ls_clock := ls_clock s |} |}.
Definition t_authentications : table NodeConnectorAuthenticationRow := {| tb_get := ls_authentications; tb_set v s :=
  {| ls_plans := ls_plans s; ls_tasks := ls_tasks s; ls_events := ls_events s; ls_evidence :=
     ls_evidence s; ls_readiness := ls_readiness s; ls_discoveries := ls_discoveries s;
     ls_installations := ls_installations s; ls_authentications := v; ls_certifications :=
     ls_certifications s; ls_planner := ls_planner s; ls_background := ls_background s;
     ls_uuids := ls_uuids s; ls_clock := ls_clock s |} |}.
Definition t_certifications : table NodeConnectorCertificationRow := {| tb_get := ls_certifications; tb_set v s :=
  {| ls_plans := ls_plans s; ls_tasks := ls_tasks s; ls_events := ls_events s; ls_evidence :=
     ls_evidence s; ls_readiness := ls_readiness s; ls_discoveries := ls_discoveries s;
     ls_installations := ls_installations s; ls_authentications := ls_authentications s;
     ls_certifications := v; ls_planner := ls_planner s; ls_background := ls_background s;
     ls_uuids := ls_uuids s; ls_clock := ls_clock s |} |}.
Definition t_planner : table ConnectorTaskPlan := {| tb_get := ls_planner; tb_set v s :=
  {| ls_plans := ls_plans s; ls_tasks := ls_tasks s; ls_events := ls_events s; ls_evidence :=
     ls_evidence s; ls_readiness := ls_readiness s; ls_discoveries := ls_discoveries s;
     ls_installations := ls_installations s; ls_authentications := ls_authentications s;
     ls_certifications := ls_certifications s; ls_planner := v; ls_background := ls_background
     s; ls_uuids := ls_uuids s; ls_clock := ls_clock s |} |}.
Definition set_background v (s : LifecycleState) : LifecycleState :=
  {| ls_plans := ls_plans s; ls_tasks := ls_tasks s; ls_events := ls_events s; ls_evidence :=
     ls_evidence s; ls_readiness := ls_readiness s; ls_discoveries := ls_discoveries s;
     ls_installations := ls_installations s; ls_authentications := ls_authentications s;
     ls_certifications := ls_certifications s; ls_planner := ls_planner s; ls_background := v;
     ls_uuids := ls_uuids s; ls_clock := ls_clock s |}.
Definition set_uuids v (s : LifecycleState) : LifecycleState :=
  {| ls_plans := ls_plans s; ls_tasks := ls_tasks s; ls_events := ls_events s; ls_evidence :=
     ls_evidence s; ls_readiness := ls_readiness s; ls_discoveries := ls_discoveries s;
     ls_installations := ls_installations s; ls_authentications := ls_authentications s;
     ls_certifications := ls_certifications s; ls_planner := ls_planner s; ls_background :=
     ls_background s; ls_uuids := v; ls_clock := ls_clock s |}.
Definition set_clock v (s : LifecycleState) : LifecycleState :=
  {| ls_plans := ls_plans s; ls_tasks := ls_tasks s; ls_events := ls_events s; ls_evidence :=
     ls_evidence s; ls_readiness := ls_readiness s; ls_discoveries := ls_discoveries s;
     ls_installations := ls_installations s; ls_authentications := ls_authentications s;
     ls_certifications := ls_certifications s; ls_planner := ls_planner s; ls_background :=
     ls_background s; ls_uuids := ls_uuids s; ls_clock := v |}.

Abbreviation L := (M LifecycleState).

(** [session.add(row)] and [commit]: the primary key must be new. *)
Definition insert_row {R} (t : table R) (id : string) (r : R) : L unit := λ s,
  if dict_has id (tb_get t s)
  then (Raise (Exn "IntegrityError" "" "UNIQUE constraint failed"), s)
  else (Ok tt, tb_set t (tb_get t s ++ [(id, r)]) s).

Definition update_row {R} (t : table R) (id : string) (r : R) : L unit :=
  modify_state (λ s, tb_set t (dict_set id r (tb_get t s)) s).

(** [delete(...).where(old)], [session.add(row)] and [commit], in one transaction. *)
Definition replace_rows {R} (t : table R) (old : R → bool) (id : string) (r : R) : L unit := λ s,
  let kept := List.filter (λ row, negb (old row.2)) (tb_get t s) in
  if dict_has id kept
  then (Raise (Exn "IntegrityError" "" "UNIQUE constraint failed"), s)
  else (Ok tt, tb_set t (kept ++ [(id, r)]) s).

(** [ORDER BY key DESC], the missing keys last; [key] is never missing elsewhere. *)
Definition later_first (a b : option Z) : bool :=
  match a, b with
  | Some x, Some y => (y <=? x)%Z
  | Some _, None => true
  | None, Some _ => false
  | None, None => true
  end.

Section store.
Context `{PyLib} `{SqlEngine}.
Context (catalogue : Catalogue) (platform : string) (production : bool).

Definition uuid4 : L string := λ s, (Ok (uuid_str (ls_uuids s)), set_uuids (S (ls_uuids s)) s).
Definition utc_now : L Z := λ s, (Ok (clock (ls_clock s)), set_clock (S (ls_clock s)) s).

Definition select_desc {R} (t : table R) (cond : R → bool) (key : R → option Z)
    (s : LifecycleState) : list (string * R) :=
  py_sorted (λ a b, later_first (key a.2) (key b.2))
    (heap_order (List.filter (λ r, cond r.2) (tb_get t s))).

(** ** Plans and tasks *)

(* @src connectors/store.py:48-61 ConnectorLifecycleStore.save_plan *)
Definition save_plan (plan : ConnectorTaskPlan) : L unit :=
  insert_row t_plans (tp_plan_id plan) plan.

(* @src connectors/store.py:63-68 ConnectorLifecycleStore.get_plan *)
Definition get_plan (plan_id : string) : L ConnectorTaskPlan :=
  s ← get_state;
  match dict_get plan_id (ls_plans s) with
  | Some p => mret p
  | None => raise (KeyError (repr_str ("unknown or expired connector plan: " +:+ plan_id)))
  end.

(* @src connectors/store.py:70-111 ConnectorLifecycleStore.create_task_from_plan *)
Definition create_task_from_plan (plan : ConnectorTaskPlan) (previous_task_id : option string) :
    L ConnectorTaskRecord :=
  task_id ← uuid4;
  created_at ← utc_now;
  let record :=
    {| tk_task_id := task_id; tk_plan_id := tp_plan_id plan; tk_node_id := tp_node_id plan;
       tk_connector_id := tp_connector_id plan;
       tk_connector_revision := tp_connector_revision plan;
       tk_action := ConnectorAction_value (tp_action plan); tk_plan_hash := tp_plan_hash plan;
       tk_status := TS_QUEUED;
       tk_idempotency_key := tp_node_id plan +:+ ":" +:+ task_id +:+ ":" +:+ tp_plan_hash plan;
       tk_previous_task_id := previous_task_id; tk_version := 1; tk_created_at := created_at;
       tk_started_at := None; tk_finished_at := None; tk_detail := None |} in
  insert_row t_tasks task_id record;;
  mret record.

(* @src connectors/store.py:113-118 ConnectorLifecycleStore.get_task *)
Definition get_task (task_id : string) : L ConnectorTaskRecord :=
  s ← get_state;
  match dict_get task_id (ls_tasks s) with
  | Some t => mret t
  | None => raise (KeyError (repr_str ("unknown connector task: " +:+ task_id)))
  end.

(* @src connectors/store.py:120-133 ConnectorLifecycleStore.list_active_tasks *)
Definition list_active_tasks (node_id : string) : L (list ConnectorTaskRecord) :=
  s ← get_state;
  mret (select_desc t_tasks
          (λ t, (tk_node_id t == node_id) && (tk_status t in? ACTIVE_TASK_STATUSES))
          tk_started_at s).*2.

Definition or_keep {A} (new old : option A) : option A :=
  match new with Some _ => new | None => old end.

(** The session of a transition reads the row and checks it. *)
(* @src connectors/store.py:145-152 ConnectorLifecycleStore.transition_task *)
Definition transition_read (task_id : string) (expected_version : Z) : L ConnectorTaskRecord :=
  row ← get_task task_id;
  if negb (tk_version row =? expected_version)%Z then
    raise (ValueError "connector task version conflict")
  else if tk_status row in? TERMINAL_TASK_STATUSES then
    raise (ValueError "connector task already terminal")
  else mret row.

(** The session writes a column that was assigned another value than the one it read. *)
Definition written {A} `{EqDecision A} (read new current : A) : A :=
  if decide (new = read) then current else new.

(** Its commit: an [UPDATE] of these columns of the row with this key, whatever version the
    row has by then. *)
(* @src connectors/store.py:153-161 ConnectorLifecycleStore.transition_task *)
Definition transition_commit (row : ConnectorTaskRecord) (task_id : string)
    (expected_version : Z) (status : ConnectorTaskStatus) (detail : option string)
    (started_at finished_at : option Z) : L unit :=
  s ← get_state;
  match dict_get task_id (ls_tasks s) with
  | None => raise (Exn "StaleDataError" "" "UPDATE matched no row")
  | Some current =>
      update_row t_tasks task_id
        {| tk_task_id := tk_task_id current; tk_plan_id := tk_plan_id current;
           tk_node_id := tk_node_id current; tk_connector_id := tk_connector_id current;
           tk_connector_revision := tk_connector_revision current; tk_action := tk_action current;
           tk_plan_hash := tk_plan_hash current;
           tk_status := written (tk_status row) status (tk_status current);
           tk_idempotency_key := tk_idempotency_key current;
           tk_previous_task_id := tk_previous_task_id current;
           tk_version := written (tk_version row) (expected_version + 1)%Z (tk_version current);
           tk_created_at := tk_created_at current;
           tk_started_at := written (tk_started_at row) (or_keep started_at (tk_started_at row))
                              (tk_started_at current);
           tk_finished_at := written (tk_finished_at row)
                               (or_keep finished_at (tk_finished_at row)) (tk_finished_at current);
           tk_detail := written (tk_detail row) (or_keep detail (tk_detail row)) (tk_detail current) |}
  end.

(** A transition that no other session comes between. *)
(* @src connectors/store.py:135-162 ConnectorLifecycleStore.transition_task *)
Definition transition_task (task_id : string) (expected_version : Z)
    (status : ConnectorTaskStatus) (detail : option string) (started_at finished_at : option Z) :
    L ConnectorTaskRecord :=
  row ← transition_read task_id expected_version;
  transition_commit row task_id expected_version status detail started_at finished_at;;
  get_task task_id.

(** The row a transition leaves when nothing comes between its read and its commit. *)
Definition moved_row (row : ConnectorTaskRecord) (expected_version : Z)
    (status : ConnectorTaskStatus) (detail : option string) (started_at finished_at : option Z) :
    ConnectorTaskRecord :=
  {| tk_task_id := tk_task_id row; tk_plan_id := tk_plan_id row; tk_node_id := tk_node_id row;
     tk_connector_id := tk_connector_id row; tk_connector_revision := tk_connector_revision row;
     tk_action := tk_action row; tk_plan_hash := tk_plan_hash row; tk_status := status;
     tk_idempotency_key := tk_idempotency_key row;
     tk_previous_task_id := tk_previous_task_id row; tk_version := expected_version + 1;
     tk_created_at := tk_created_at row; tk_started_at := or_keep started_at (tk_started_at row);
     tk_finished_at := or_keep finished_at (tk_finished_at row);
     tk_detail := or_keep detail (tk_detail row) |}.

Lemma written_over_itself {A} `{EqDecision A} (read new : A) : written read new read = new.
Proof. unfold written. by case_decide. Qed.

Lemma transition_task_eq id v st d a f s :
  transition_task id v st d a f s =
  match dict_get id (ls_tasks s) with
  | None => (Raise (KeyError (repr_str ("unknown connector task: " +:+ id))), s)
  | Some row =>
      if negb (tk_version row =? v)%Z then (Raise (ValueError "connector task version conflict"), s)
      else if tk_status row in? TERMINAL_TASK_STATUSES then
        (Raise (ValueError "connector task already terminal"), s)
      else (Ok (moved_row row v st d a f),
            tb_set t_tasks (dict_set id (moved_row row v st d a f) (ls_tasks s)) s)
  end.
Proof.
  unfold transition_task, transition_read, transition_commit, get_task, get_state, mbind, M_bind,
    mret, M_ret, raise. simpl.
  destruct (dict_get id (ls_tasks s)) as [row|] eqn:Hg; [|done].
  destruct (negb _); [done|]. destruct (bool_decide _); [done|]. simpl. rewrite Hg.
  simpl. rewrite dict_get_set_eq. unfold moved_row. by rewrite !written_over_itself.
Qed.

(** ** Task events *)

(* @src connectors/store.py:164-183 ConnectorLifecycleStore.append_task_event *)
Definition append_task_event (event : ConnectorTaskEvent) : L ConnectorTaskEvent :=
  task ← get_task (te_task_id event);
  if (tk_node_id task != te_node_id event) || (tk_connector_id task != te_connector_id event)
  then raise (ValueError "connector task event identity mismatch")
  else if tk_status task in? TERMINAL_TASK_STATUSES then
    raise (ValueError "cannot append events to terminal connector task")
  else
    insert_row t_events (te_event_id event)
      {| te_event_id := te_event_id event; te_task_id := te_task_id event;
         te_node_id := te_node_id event; te_connector_id := te_connector_id event;
         te_event_type := te_event_type event; te_sequence := te_sequence event;
         te_payload := json_dict (te_payload event); te_created_at := te_created_at event |};;
    mret event.

(* @src connectors/store.py:185-211 ConnectorLifecycleStore.list_task_events *)
Definition list_task_events (task_id : string) (after : Z) : L (list ConnectorTaskEvent) :=
  s ← get_state;
  mret (py_sorted (λ a b, (te_sequence a <=? te_sequence b)%Z)
          (heap_order (List.filter
             (λ e, (te_task_id e == task_id) && (after <? te_sequence e)%Z) (ls_events s).*2))).

(** ** The snapshot of a connector *)

Definition of_connector {R} (node connector : R → string) (node_id connector_id : string)
    (r : R) : bool :=
  (node r == node_id) && (connector r == connector_id).

(** The dictionary a row of evidence contributes. *)
Definition evidence_dict (id : string) (e : ConnectorEvidence) : dict :=
  dict_update (ev_details e)
    [("status", PStr (ev_status e));
     ("connector_revision", PStr (ev_connector_revision e));
     ("harness_version", ostr (ev_harness_version e));
     ("detail", dget "detail" (ev_details e));
     ("trust_level", PStr (EvidenceTrustLevel_value (ev_trust_level e)));
     ("execution_origin", PStr (ConnectorExecutionOrigin_value (ev_execution_origin e)));
     ("evidence_id", PStr id);
     ("executable_fingerprint", ostr (ev_executable_fingerprint e))].

(** The newest evidence of every kind, the rows given newest first. *)
Fixpoint newest_by_type (rows : list (string * ConnectorEvidence))
    (acc : list (ConnectorEvidenceType * dict)) : list (ConnectorEvidenceType * dict) :=
  match rows with
  | [] => acc
  | (id, e) :: rows' =>
      match kind_get (ev_evidence_type e) acc with
      | Some _ => newest_by_type rows' acc
      | None => newest_by_type rows' (acc ++ [(ev_evidence_type e, evidence_dict id e)])
      end
  end.

(* @src connectors/store.py:339-456 ConnectorLifecycleStore._load_snapshot *)
Definition _load_snapshot (node_id connector_id : string) (s : LifecycleState) :
    _NodeConnectorSnapshot :=
  let here {R} (node connector : R → string) := of_connector node connector node_id connector_id in
  let discovery := snd <$> head (select_desc t_discoveries (here nd_node_id nd_connector_id)
                                   (λ r, Some (nd_discovered_at r)) s) in
  let installation := snd <$> head (select_desc t_installations
                        (here ni_node_id ni_connector_id) (λ r, Some (ni_installed_at r)) s) in
  let auth := snd <$> head (select_desc t_authentications (here na_node_id na_connector_id)
                              na_verified_at s) in
  let certification := snd <$> head (select_desc t_certifications
                         (here nc_node_id nc_connector_id) (λ r, Some (nc_certified_at r)) s) in
  let evidence_rows := select_desc t_evidence (here ev_node_id ev_connector_id)
                         (λ e, Some (ev_created_at e)) s in
  let active := head (select_desc t_tasks
                  (λ t, here tk_node_id tk_connector_id t && (tk_status t in? ACTIVE_TASK_STATUSES))
                  tk_started_at s) in
  {| discovery_executable := discovery ≫= nd_executable;
     discovery_version := discovery ≫= nd_version;
     discovery_revision := nd_connector_revision <$> discovery;
     discovery_environment := nd_execution_environment <$> discovery;
     installation_executable := ni_executable <$> installation;
     installation_version := installation ≫= ni_version;
     installation_revision := ni_connector_revision <$> installation;
     installation_routing_enabled := match installation with
                                     | Some i => ni_enabled_for_routing i
                                     | None => false
                                     end;
     auth_status := na_status <$> auth;
     auth_verified_at := auth ≫= na_verified_at;
     auth_method_id := na_method_id <$> auth;
     certification_valid := match certification with Some _ => true | None => false end;
     certification_expires_at := certification ≫= nc_expires_at;
     evidence_by_type := newest_by_type evidence_rows [];
     active_task_status := (λ r, tk_status r.2) <$> active;
     active_task_id := fst <$> active;
     active_task_action := (λ r, tk_action r.2) <$> active;
     sn_latest_evidence_id := fst <$> head evidence_rows;
     executable_fingerprint :=
       head (List.filter otruthy ((λ r, ev_executable_fingerprint r.2) <$> evidence_rows)) ≫= id;
     sn_platform := platform; node_online := true; node_revoked := false |}.

(** ** Readiness rows *)

Definition NodeConnectorState_members : list NodeConnectorState :=
  [NCS_UNKNOWN; NOT_AVAILABLE; AVAILABLE_TO_INSTALL; INSTALL_PLAN_REQUIRED;
   INSTALL_APPROVAL_REQUIRED; INSTALLING; INSTALLED; EXECUTABLE_BROKEN;
   AUTHENTICATION_REQUIRED; AUTHENTICATION_IN_PROGRESS; AUTHENTICATED; AUTHENTICATION_FAILED;
   VERIFICATION_REQUIRED; VERIFICATION_IN_PROGRESS; VERIFIED; CERTIFICATION_REQUIRED;
   CERTIFICATION_IN_PROGRESS; CERTIFIED; CERTIFICATION_FAILED; IDE_ONLY; NCS_BLOCKED;
   NEEDS_REPAIR; UNSUPPORTED_PLATFORM; ROUTING_DISABLED; READY].

(* @src connectors/lifecycle_models.py:74-84 RecommendedConnectorAction.value *)
Definition RecommendedConnectorAction_value (a : RecommendedConnectorAction) : string :=
  match a with
  | RA_INSTALL => "install" | RA_REPAIR => "repair" | RA_AUTHENTICATE => "authenticate"
  | RA_VERIFY_AUTHENTICATION => "verify_authentication" | RA_VERIFY_ADAPTER => "verify_adapter"
  | RA_CERTIFY => "certify" | RA_ENABLE_ROUTING => "enable_routing"
  | RA_DISABLE_ROUTING => "disable_routing" | RA_RETRY => "retry" | RA_NONE => "none"
  end.
Definition RecommendedConnectorAction_members : list RecommendedConnectorAction :=
  [RA_INSTALL; RA_REPAIR; RA_AUTHENTICATE; RA_VERIFY_AUTHENTICATION; RA_VERIFY_ADAPTER;
   RA_CERTIFY; RA_ENABLE_ROUTING; RA_DISABLE_ROUTING; RA_RETRY; RA_NONE].

(** [Enum(text)] of a column that may be missing or empty. *)
Definition opt_member {A} (value : A → string) (members : list A) (v : pyval) : res (option A) :=
  if negb (truthy v) then Ok None
  else match v with
       | PStr t => match enum_of value members t with
                   | Some a => Ok (Some a)
                   | None => Raise (ValueError "not a valid member")
                   end
       | _ => Raise (ValueError "not a valid member")
       end.

(** An optional text field of a model: another value does not validate. *)
Definition opt_text (v : pyval) : res (option string) :=
  match v with
  | PNone => Ok None
  | PStr t => Ok (Some t)
  | _ => Raise (ValueError "Input should be a valid string")
  end.

(* @src connectors/store.py:250-291 ConnectorLifecycleStore._persist_readiness *)
Definition readiness_row (r : ConnectorReadiness) : NodeConnectorReadinessRow :=
  {| rr_node_id := rd_node_id r; rr_connector_id := rd_connector_id r;
     rr_state := NodeConnectorState_value (rd_state r);
     rr_recommended_action := RecommendedConnectorAction_value <$> rd_recommended_action r;
     rr_blocking_reason := rd_blocking_reason r; rr_active_task_id := rd_active_task_id r;
     rr_latest_evidence_id := rd_latest_evidence_id r;
     rr_routing_eligible := rd_routing_eligible r;
     rr_snapshot_json := json_dict
       [("catalogue_maturity", PStr (rd_catalogue_maturity r));
        ("installed_version", ostr (rd_installed_version r));
        ("executable_path", ostr (rd_executable_path r));
        ("routing_profile", ostr (rd_routing_profile r));
        ("evidence_trust_level",
         ostr (EvidenceTrustLevel_value <$> rd_evidence_trust_level r));
        ("execution_origin",
         ostr (ConnectorExecutionOrigin_value <$> rd_execution_origin r))];
     rr_recomputed_at := rd_updated_at r |}.

(* @src connectors/store.py:293-314 ConnectorLifecycleStore._readiness_from_row *)
Definition _readiness_from_row (row : NodeConnectorReadinessRow) : res ConnectorReadiness :=
  let payload := rr_snapshot_json row in
  res_bind (match enum_of NodeConnectorState_value NodeConnectorState_members (rr_state row) with
            | Some st => Ok st
            | None => Raise (ValueError "not a valid NodeConnectorState")
            end) (λ state,
  res_bind (opt_member RecommendedConnectorAction_value RecommendedConnectorAction_members
              (ostr (rr_recommended_action row))) (λ action,
  res_bind (opt_text (dget "installed_version" payload)) (λ version,
  res_bind (opt_text (dget "executable_path" payload)) (λ path,
  res_bind (opt_text (dget "routing_profile" payload)) (λ profile,
  res_bind (opt_member EvidenceTrustLevel_value [TRUST_MOCK; DEVELOPMENT; NODE_ATTESTED]
              (dget "evidence_trust_level" payload)) (λ trust,
  res_bind (opt_member ConnectorExecutionOrigin_value
              [REMOTE_NODE; INLINE_DEVELOPMENT; MOCK_TEST]
              (dget "execution_origin" payload)) (λ origin,
  Ok {| rd_node_id := rr_node_id row; rd_connector_id := rr_connector_id row;
        rd_state := state; rd_recommended_action := action;
        rd_blocking_reason := rr_blocking_reason row;
        rd_active_task_id := rr_active_task_id row;
        rd_latest_evidence_id := rr_latest_evidence_id row;
        rd_routing_eligible := rr_routing_eligible row;
        rd_catalogue_maturity :=
          py_str (py_or (dget "catalogue_maturity" payload) (PStr "unknown"));
        rd_installed_version := version; rd_executable_path := path;
        rd_routing_profile := profile; rd_evidence_trust_level := trust;
        rd_execution_origin := origin; rd_updated_at := rr_recomputed_at row |}))))))).

(* @src connectors/store.py:250-291 ConnectorLifecycleStore._persist_readiness *)
Definition _persist_readiness (r : ConnectorReadiness) : L ConnectorReadiness :=
  id ← uuid4;
  replace_rows t_readiness
    (of_connector rr_node_id rr_connector_id (rd_node_id r) (rd_connector_id r))
    id (readiness_row r);;
  mret r.

(* @src connectors/store.py:239-241 ConnectorLifecycleStore.save_readiness *)
Definition save_readiness (r : ConnectorReadiness) : L ConnectorReadiness :=
  _persist_readiness r.

(* @src connectors/store.py:243-248 ConnectorLifecycleStore.recompute *)
Definition recompute (node_id connector_id : string) : L ConnectorReadiness :=
  s ← get_state;
  let snapshot := _load_snapshot node_id connector_id s in
  (if dict_has connector_id catalogue then
     now ← utc_now;
     r ← lift_res (derive_from_snapshot production catalogue now node_id connector_id snapshot);
     _persist_readiness r
   else lift_res (derive_from_snapshot production catalogue 0 node_id connector_id snapshot)).

(* @src connectors/store.py:316-328 ConnectorLifecycleStore.get_readiness *)
Definition get_readiness (node_id connector_id : string) : L ConnectorReadiness :=
  s ← get_state;
  match head (select_desc t_readiness
                (of_connector rr_node_id rr_connector_id node_id connector_id)
                (λ r, Some (rr_recomputed_at r)) s) with
  | None => recompute node_id connector_id
  | Some (_, row) => lift_res (_readiness_from_row row)
  end.

Fixpoint readiness_of_each (node_id : string) (connectors : list string) :
    L (list ConnectorReadiness) :=
  match connectors with
  | [] => mret []
  | c :: cs =>
      r ← get_readiness node_id c;
      rs ← readiness_of_each node_id cs;
      mret (r :: rs)
  end.

(* @src connectors/store.py:330-337 ConnectorLifecycleStore.list_readiness *)
Definition list_readiness (node_id : string) : L (list ConnectorReadiness) :=
  readiness_of_each node_id (dict_keys catalogue).

(** ** Evidence *)

(** [str(details.get(key, missing))]. *)
Definition detail_text (key missing : string) (details : dict) : string :=
  py_str (default (PStr missing) (dict_get key details)).

(* @src connectors/store.py:458-520 ConnectorLifecycleStore._apply_evidence_side_effects *)
Definition _apply_evidence_side_effects (e : ConnectorEvidence) : L unit :=
  let now := ev_created_at e in
  match ev_evidence_type e with
  | ET_DISCOVERY =>
      id ← uuid4;
      insert_row t_discoveries id
        {| nd_node_id := ev_node_id e; nd_connector_id := ev_connector_id e;
           nd_connector_revision := ev_connector_revision e;
           nd_executable := ev_executable_path e; nd_version := ev_harness_version e;
           nd_execution_environment :=
             detail_text "execution_environment" "host" (ev_details e);
           nd_discovered_at := now |}
  | ET_INSTALLATION =>
      id ← uuid4;
      insert_row t_installations id
        {| ni_node_id := ev_node_id e; ni_connector_id := ev_connector_id e;
           ni_connector_revision := ev_connector_revision e;
           ni_method_id := detail_text "method_id" "unknown" (ev_details e);
           ni_executable := default "" (ev_executable_path e);
           ni_version := ev_harness_version e; ni_enabled_for_routing := false;
           ni_installed_at := now |}
  | ET_AUTHENTICATION =>
      id ← uuid4;
      insert_row t_authentications id
        {| na_node_id := ev_node_id e; na_connector_id := ev_connector_id e;
           na_method_id := detail_text "method_id" "default" (ev_details e);
           na_status := ev_status e;
           na_verified_at := if ev_status e == "authenticated" then Some now else None;
           na_detail := detail_text "detail" "" (ev_details e) |}
  | ET_CERTIFICATION =>
      id ← uuid4;
      insert_row t_certifications id
        {| nc_node_id := ev_node_id e; nc_connector_id := ev_connector_id e;
           nc_connector_revision := ev_connector_revision e;
           nc_harness_version := default "" (or_str (ev_harness_version e) (Some "unknown"));
           nc_executable_fingerprint := default "" (ev_executable_fingerprint e);
           nc_evidence_digest := detail_text "evidence_digest" "" (ev_details e);
           nc_passed_levels :=
             json_norm (default (PDict []) (dict_get "passed_levels" (ev_details e)));
           nc_certified_at := now; nc_expires_at := ev_expires_at e |}
  | _ => mret tt
  end.

(** The row of an evidence: its details as their JSON text reads back. *)
Definition evidence_row (e : ConnectorEvidence) : ConnectorEvidence :=
  {| ev_evidence_id := ev_evidence_id e; ev_node_id := ev_node_id e;
     ev_connector_id := ev_connector_id e; ev_connector_revision := ev_connector_revision e;
     ev_task_id := ev_task_id e; ev_evidence_type := ev_evidence_type e;
     ev_status := ev_status e; ev_executable_path := ev_executable_path e;
     ev_executable_fingerprint := ev_executable_fingerprint e;
     ev_harness_version := ev_harness_version e; ev_provider_mode := ev_provider_mode e;
     ev_details := json_dict (ev_details e); ev_created_at := ev_created_at e;
     ev_expires_at := ev_expires_at e; ev_trust_level := ev_trust_level e;
     ev_execution_origin := ev_execution_origin e |}.

(* @src connectors/store.py:213-237 ConnectorLifecycleStore.record_evidence *)
Definition record_evidence (e : ConnectorEvidence) : L ConnectorEvidence :=
  insert_row t_evidence (ev_evidence_id e) (evidence_row e);;
  _apply_evidence_side_effects e;;
  recompute (ev_node_id e) (ev_connector_id e);;
  mret e.

(* @src connectors/store.py:522-548 ConnectorLifecycleStore.set_routing_enabled *)
Definition set_routing_enabled (node_id connector_id : string) (enabled : bool) : L unit :=
  s ← get_state;
  match head (select_desc t_installations
                (of_connector ni_node_id ni_connector_id node_id connector_id)
                (λ r, Some (ni_installed_at r)) s) with
  | None =>
      id ← uuid4;
      d ← lift_res (catalogue_get connector_id catalogue);
      now ← utc_now;
      insert_row t_installations id
        {| ni_node_id := node_id; ni_connector_id := connector_id;
           ni_connector_revision := cd_revision d; ni_method_id := "routing";
           ni_executable := ""; ni_version := None; ni_enabled_for_routing := enabled;
           ni_installed_at := now |}
  | Some (id, i) =>
      update_row t_installations id
        {| ni_node_id := ni_node_id i; ni_connector_id := ni_connector_id i;
           ni_connector_revision := ni_connector_revision i; ni_method_id := ni_method_id i;
           ni_executable := ni_executable i; ni_version := ni_version i;
           ni_enabled_for_routing := enabled; ni_installed_at := ni_installed_at i |}
  end.
End store.
