(* ===== verification/ConnectorLifecycle.v ===== *)
(** * The connector lifecycle

    [connectors/lifecycle.py]: the coordinator of plans, tasks and routing over the store,
    with the part of [connectors/planning.py] that keeps the plans in memory. The callbacks
    that offer a task to a node and the runner of the inline node are parameters: arbitrary
    computations over the shared state. *)

From S2P Require Import Prelude Scheduler Connectors Readiness ConnectorStore.

Section coordinator.
Context `{PyLib} `{SqlEngine}.
Context (catalogue : Catalogue) (platform sys_platform : string) (production : bool).
Context (_inline_node : bool).
Context (_offer_callbacks : list (ConnectorTaskRecord → ConnectorTaskPlan → L (option bool))).
Context (runner_execute : string → ConnectorTaskPlan → (ConnectorTaskEvent → L unit) →
  (ConnectorEvidence → L unit) → L ConnectorTaskStatus).

(** ** The planner *)

(* @src connectors/planning.py:80-82 ConnectorPlanStore.put *)
Definition planner_put (plan : ConnectorTaskPlan) : L unit := update_row t_planner (tp_plan_id plan) plan.

(** The identifier and the clock are only read when a plan is made. *)
(* @src connectors/planning.py:287-343 ConnectorPlanner._create *)
Definition planner_plan (node_id connector_id : string) (action : ConnectorAction) :
    L ConnectorTaskPlan := λ s,
  match make_plan (uuid_str (ls_uuids s)) (clock (ls_clock s)) catalogue node_id connector_id
          action None sys_platform None with
  | Ok p => (uuid4;; utc_now;; planner_put p;; mret p) s
  | Raise e => (Raise e, s)
  end.

(* @src connectors/planning.py:84-88 ConnectorPlanStore.get *)
Definition planner_get (plan_id : string) : L ConnectorTaskPlan :=
  s ← get_state;
  lift_res (plan_store_get plan_id (ls_planner s)).

(* @src connectors/planning.py:280-285 ConnectorPlanner.validate *)
Definition planner_validate (plan : ConnectorTaskPlan) : L unit :=
  now ← utc_now;
  s ← get_state;
  lift_res (validate_plan now (ls_planner s) plan).

(* @src connectors/lifecycle.py:44-47 ConnectorLifecycleCoordinator.persist_plan *)
Definition persist_plan (plan : ConnectorTaskPlan) : L ConnectorTaskPlan :=
  planner_put plan;;
  save_plan plan;;
  mret plan.

(** ** Approval *)

(** The active login of the plan's connector on its node, the newest started first. *)
(* @src connectors/lifecycle.py:100-115 ConnectorLifecycleCoordinator._find_active_login *)
Definition _find_active_login (plan : ConnectorTaskPlan) : L (option ConnectorTaskRecord) :=
  tasks ← list_active_tasks (tp_node_id plan);
  mret (List.find (λ t,
    (tk_connector_id t == tp_connector_id plan) &&
    (tk_action t == ConnectorAction_value AUTHENTICATE) &&
    (tk_status t in? [TS_WAITING_FOR_USER; TS_WAITING_FOR_AUTH_CALLBACK; TS_QUEUED;
                      TS_OFFERED_TO_NODE; TS_ACCEPTED_BY_NODE; TS_RUNNING])) tasks).

(** Every callback is called, in order. *)
Fixpoint offer_to_all (cbs : list (ConnectorTaskRecord → ConnectorTaskPlan → L (option bool)))
    (task : ConnectorTaskRecord) (plan : ConnectorTaskPlan) (offered : bool) : L bool :=
  match cbs with
  | [] => mret offered
  | cb :: cbs' =>
      result ← cb task plan;
      offer_to_all cbs' task plan (offered || default false result)
  end.

(** [offered = offered or bool(await callback(...))]: a callback is only called until one
    has taken the task. *)
Fixpoint offer_to_first (cbs : list (ConnectorTaskRecord → ConnectorTaskPlan → L (option bool)))
    (task : ConnectorTaskRecord) (plan : ConnectorTaskPlan) (offered : bool) : L bool :=
  match cbs with
  | [] => mret offered
  | cb :: cbs' =>
      if offered then offer_to_first cbs' task plan true
      else
        result ← cb task plan;
        offer_to_first cbs' task plan (default false result)
  end.

Definition transition_to (task : ConnectorTaskRecord) (status : ConnectorTaskStatus) :
    L ConnectorTaskRecord :=
  transition_task (tk_task_id task) (tk_version task) status None None None.

Definition start_background (r : BackgroundRun) : L unit :=
  modify_state (λ s, set_background (ls_background s ++ [r]) s).

(** The plan to approve: the stored one, or the planner's own, which is stored then. *)
(* @src connectors/lifecycle.py:56-60 ConnectorLifecycleCoordinator.approve_and_queue *)
Definition plan_to_approve (plan_id : string) : L ConnectorTaskPlan :=
  catch (get_plan plan_id) (λ e,
    if exn_class e == "KeyError" then
      plan ← planner_get plan_id;
      save_plan plan;;
      mret plan
    else raise e).

(* @src connectors/lifecycle.py:49-98 ConnectorLifecycleCoordinator.approve_and_queue *)
Definition approve_and_queue (plan_id plan_hash : string) (approved : bool) :
    L ConnectorTaskRecord :=
  plan ← plan_to_approve plan_id;
  planner_put plan;;
  planner_validate plan;;
  (if negb approved || (tp_plan_hash plan != plan_hash) then
     raise (PermissionError "exact connector plan approval required")
   else
     existing ← (if tp_action plan == AUTHENTICATE then _find_active_login plan
                 else mret None);
     match existing with
     | Some task => mret task
     | None =>
         task ← create_task_from_plan plan None;
         offered ← offer_to_all _offer_callbacks task plan false;
         if offered : bool then transition_to task TS_OFFERED_TO_NODE
         else if _inline_node then
           task ← transition_to task TS_OFFERED_TO_NODE;
           start_background {| bg_task_id := tk_task_id task; bg_plan := plan;
                               bg_removes_itself := true; bg_done := false |};;
           mret task
         else get_task (tk_task_id task)
     end).

Fixpoint offer_each (tasks : list ConnectorTaskRecord) : L (list ConnectorTaskRecord) :=
  match tasks with
  | [] => mret []
  | task :: tasks' =>
      if negb (tk_status task == TS_QUEUED) then offer_each tasks'
      else
        plan ← get_plan (tk_plan_id task);
        success ← offer_to_first _offer_callbacks task plan false;
        if success : bool then
          t ← transition_to task TS_OFFERED_TO_NODE;
          ts ← offer_each tasks';
          mret (t :: ts)
        else offer_each tasks'
  end.

(* @src connectors/lifecycle.py:117-134 ConnectorLifecycleCoordinator.offer_queued_tasks *)
Definition offer_queued_tasks (node_id : string) : L (list ConnectorTaskRecord) :=
  tasks ← list_active_tasks node_id;
  offer_each tasks.

(** ** Running on the inline node *)

(* @src connectors/lifecycle.py:215-232 ConnectorLifecycleCoordinator._finalize_task *)
Definition _finalize_task (task_id : string) (status : ConnectorTaskStatus)
    (detail : option string) : L unit :=
  task ← get_task task_id;
  if tk_status task in? TERMINAL_TASK_STATUSES then mret tt
  else
    now ← utc_now;
    transition_task task_id (tk_version task) status detail None (Some now);;
    recompute catalogue platform production (tk_node_id task) (tk_connector_id task);;
    mret tt.

(* @src connectors/lifecycle.py:157-169 ConnectorLifecycleCoordinator._run_on_node *)
Definition emit_event (task_id : string) (event : ConnectorTaskEvent) : L unit :=
  current ← get_task task_id;
  if tk_status current in? TERMINAL_TASK_STATUSES then mret tt
  else if te_event_type event in? ["task.succeeded"; "task.failed"; "task.cancelled";
                                   "task.expired"; "task.interrupted"] then mret tt
  else append_task_event event;; mret tt.

(** Evidence of the inline node never claims to come from a remote node. *)
(* @src connectors/lifecycle.py:171-195 ConnectorLifecycleCoordinator._run_on_node *)
Definition downgrade (e : ConnectorEvidence) : ConnectorEvidence :=
  if ev_execution_origin e == REMOTE_NODE then
    {| ev_evidence_id := ev_evidence_id e; ev_node_id := ev_node_id e;
       ev_connector_id := ev_connector_id e;
       ev_connector_revision := ev_connector_revision e; ev_task_id := ev_task_id e;
       ev_evidence_type := ev_evidence_type e; ev_status := ev_status e;
       ev_executable_path := ev_executable_path e;
       ev_executable_fingerprint := ev_executable_fingerprint e;
       ev_harness_version := ev_harness_version e; ev_provider_mode := ev_provider_mode e;
       ev_details := dict_update (ev_details e)
         [("execution_origin", PStr (ConnectorExecutionOrigin_value INLINE_DEVELOPMENT));
          ("trust_level", PStr (EvidenceTrustLevel_value DEVELOPMENT))];
       ev_created_at := ev_created_at e; ev_expires_at := ev_expires_at e;
       ev_trust_level := DEVELOPMENT; ev_execution_origin := INLINE_DEVELOPMENT |}
  else e.

(* @src connectors/lifecycle.py:136-213 ConnectorLifecycleCoordinator._run_on_node *)
Definition _run_on_node (task_id : string) (plan : ConnectorTaskPlan) : L unit :=
  task ← get_task task_id;
  now ← utc_now;
  task ← transition_task task_id (tk_version task) TS_ACCEPTED_BY_NODE None (Some now) None;
  transition_task task_id (tk_version task) TS_RUNNING None None None;;
  final ← runner_execute task_id plan (emit_event task_id)
            (λ e, record_evidence catalogue platform production (downgrade e);; mret tt);
  if negb (final in? TERMINAL_TASK_STATUSES) then
    current ← get_task task_id;
    if negb (tk_status current in? TERMINAL_TASK_STATUSES) then
      transition_task task_id (tk_version current) final None None None;;
      recompute catalogue platform production (tp_node_id plan) (tp_connector_id plan);;
      mret tt
    else mret tt
  else _finalize_task task_id final None.

(** The event loop runs a background task to its end; its handle then removes itself, or
    stays in the list. An exception of the task is kept in its handle. *)
(* @src connectors/lifecycle.py:79-90 ConnectorLifecycleCoordinator.approve_and_queue *)
Definition run_background (n : nat) : L unit := λ s,
  match ls_background s !! n with
  | Some r =>
      if bg_done r then (Ok tt, s)
      else
        let s' := (_run_on_node (bg_task_id r) (bg_plan r) s).2 in
        let rest := if bg_removes_itself r then delete n (ls_background s')
                    else <[n := {| bg_task_id := bg_task_id r; bg_plan := bg_plan r;
                                   bg_removes_itself := false; bg_done := true |}]>
                         (ls_background s') in
        (Ok tt, set_background rest s')
  | None => (Ok tt, s)
  end.

(** ** Cancelling, retrying, authenticating *)

(* @src connectors/lifecycle.py:234-245 ConnectorLifecycleCoordinator.cancel_task *)
Definition cancel_task (task_id : string) : L ConnectorTaskRecord :=
  task ← get_task task_id;
  if tk_status task in? TERMINAL_TASK_STATUSES then mret task
  else
    now ← utc_now;
    updated ← transition_task task_id (tk_version task) TS_CANCELLED None None (Some now);
    recompute catalogue platform production (tk_node_id task) (tk_connector_id task);;
    mret updated.

(* @src connectors/lifecycle.py:247-279 ConnectorLifecycleCoordinator.retry_task *)
Definition retry_task (task_id : string) : L ConnectorTaskRecord :=
  previous ← get_task task_id;
  if negb (tk_status previous in? [TS_FAILED; TS_CANCELLED; TS_INTERRUPTED; TS_EXPIRED]) then
    raise (ValueError "only failed or cancelled tasks can retry")
  else
    plan ← get_plan (tk_plan_id previous);
    task ← create_task_from_plan plan (Some (tk_task_id previous));
    offered ← offer_to_first _offer_callbacks task plan false;
    if offered : bool then transition_to task TS_OFFERED_TO_NODE
    else if _inline_node then
      task ← transition_to task TS_OFFERED_TO_NODE;
      start_background {| bg_task_id := tk_task_id task; bg_plan := plan;
                          bg_removes_itself := false; bg_done := false |};;
      mret task
    else mret task.

(* @src connectors/lifecycle.py:281-305 ConnectorLifecycleCoordinator.authentication_complete *)
Definition authentication_complete (task_id : string) : L ConnectorTaskRecord :=
  task ← get_task task_id;
  if negb (tk_status task in? [TS_WAITING_FOR_USER; TS_WAITING_FOR_AUTH_CALLBACK; TS_RUNNING;
                               TS_SUCCEEDED]) then
    raise (ValueError "task is not waiting for authentication")
  else
    verify_plan ← planner_plan (tk_node_id task) (tk_connector_id task) VERIFY_AUTHENTICATION;
    persist_plan verify_plan;;
    (if negb (tk_status task in? TERMINAL_TASK_STATUSES) then
       now ← utc_now;
       transition_task task_id (tk_version task) TS_SUCCEEDED None None (Some now);;
       mret tt
     else mret tt);;
    approve_and_queue (tp_plan_id verify_plan) (tp_plan_hash verify_plan) true.

(** ** Routing *)

(* @src connectors/lifecycle.py:307-323 ConnectorLifecycleCoordinator.enable_routing *)
Definition enable_routing (node_id connector_id : string) : L ConnectorReadiness :=
  readiness ← get_readiness catalogue platform production node_id connector_id;
  if negb (rd_state readiness == ROUTING_DISABLED) then
    raise (PermissionError ("routing can only be enabled from routing_disabled (got "
                            +:+ NodeConnectorState_value (rd_state readiness) +:+ ")"))
  else if production && negb (rd_evidence_trust_level readiness == Some NODE_ATTESTED) then
    raise (PermissionError "production routing requires node-attested certification evidence")
  else if production && negb (rd_execution_origin readiness == Some REMOTE_NODE) then
    raise (PermissionError "production routing requires remote_node execution origin")
  else
    set_routing_enabled catalogue node_id connector_id true;;
    recompute catalogue platform production node_id connector_id.

(* @src connectors/lifecycle.py:325-329 ConnectorLifecycleCoordinator.disable_routing *)
Definition disable_routing (node_id connector_id : string) : L ConnectorReadiness :=
  set_routing_enabled catalogue node_id connector_id false;;
  recompute catalogue platform production node_id connector_id.
End coordinator.
