(* ===== verification/ConnectorLifecycleProofs.v ===== *)
(** * The connector lifecycle is safe

    Every operation of the coordinator is a sequence of transactions of the store, so what
    each transaction preserves holds of every interleaving of operations: finished tasks
    are final, versions only grow, and the evidence of an inline node never makes a
    connector routable in production. *)

From S2P Require Import Prelude Scheduler Connectors Readiness ConnectorStore ConnectorLifecycle.

(** Membership in a list of constants. *)
Ltac a_member := simpl; repeat first [left | right].

(** ** Transactions *)

Section steps.
Context `{PyLib} `{SqlEngine}.
Context (catalogue : Catalogue) (platform sys_platform : string) (production : bool).
(** What the recorded evidence may be. *)
Context (admissible : ConnectorEvidence → Prop).

Definition same_tables (s s' : LifecycleState) : Prop :=
  ls_plans s' = ls_plans s ∧ ls_tasks s' = ls_tasks s ∧ ls_events s' = ls_events s ∧
  ls_evidence s' = ls_evidence s ∧ ls_readiness s' = ls_readiness s ∧
  ls_discoveries s' = ls_discoveries s ∧ ls_installations s' = ls_installations s ∧
  ls_authentications s' = ls_authentications s ∧ ls_certifications s' = ls_certifications s.

(** One transaction of the store, or a change of what is only in memory. *)
Inductive store_step (s : LifecycleState) : LifecycleState → Prop :=
| memory_step s' : same_tables s s' → store_step s s'
| plan_step p : store_step s (save_plan p s).2
| task_step p previous : store_step s (create_task_from_plan p previous s).2
| transition_step id v st d a f : store_step s (transition_task id v st d a f s).2
| event_step e : store_step s (append_task_event e s).2
| evidence_step e : admissible e →
    store_step s (insert_row t_evidence (ev_evidence_id e) (evidence_row e) s).2
| effects_step e : store_step s (_apply_evidence_side_effects e s).2
| readiness_step r : store_step s (_persist_readiness r s).2
| routing_step n c b : store_step s (set_routing_enabled catalogue n c b s).2.

Definition leads {A} (m : L A) : Prop := ∀ s, rtc store_step s (m s).2.

Lemma leads_ret {A} (a : A) : leads (mret a).
Proof. intros s. apply rtc_refl. Qed.

Lemma leads_raise {A} e : leads (raise (A := A) e).
Proof. intros s. apply rtc_refl. Qed.

Lemma leads_get : leads get_state.
Proof. intros s. apply rtc_refl. Qed.

Lemma leads_lift {A} (r : res A) : leads (lift_res r).
Proof. intros s. apply rtc_refl. Qed.

Lemma leads_bind {A B} (m : L A) (k : A → L B) :
  leads m → (∀ a, leads (k a)) → leads (m ≫= k).
Proof.
  intros Hm Hk s. unfold mbind, M_bind. specialize (Hm s).
  destruct (m s) as [[a|e] s']; [|done]. etrans; [exact Hm|apply Hk].
Qed.

Lemma leads_catch {A} (m : L A) h : leads m → (∀ e, leads (h e)) → leads (catch m h).
Proof.
  intros Hm Hk s. unfold catch. specialize (Hm s).
  destruct (m s) as [[a|e] s']; [done|]. etrans; [exact Hm|apply Hk].
Qed.

Lemma leads_step {A} (m : L A) : (∀ s, store_step s (m s).2) → leads m.
Proof. intros Hm s. apply rtc_once, Hm. Qed.

Lemma leads_memory {A} (m : L A) : (∀ s, same_tables s (m s).2) → leads m.
Proof. intros Hm. apply leads_step. intros s. by apply memory_step. Qed.

Lemma leads_get_task id : leads (get_task id).
Proof.
  apply leads_bind; [apply leads_get|intros s]. destruct (dict_get _ _);
    [apply leads_ret|apply leads_raise].
Qed.

Lemma leads_get_plan id : leads (get_plan id).
Proof.
  apply leads_bind; [apply leads_get|intros s]. destruct (dict_get _ _);
    [apply leads_ret|apply leads_raise].
Qed.

Lemma leads_clock : leads utc_now.
Proof. by apply leads_memory. Qed.

Lemma leads_uuid : leads uuid4.
Proof. by apply leads_memory. Qed.

Lemma leads_save_plan p : leads (save_plan p).
Proof. apply leads_step. intros s. apply plan_step. Qed.

Lemma leads_create p previous : leads (create_task_from_plan p previous).
Proof. apply leads_step. intros s. apply task_step. Qed.

Lemma leads_transition id v st d a f : leads (transition_task id v st d a f).
Proof. apply leads_step. intros s. apply transition_step. Qed.

Lemma leads_event e : leads (append_task_event e).
Proof. apply leads_step. intros s. apply event_step. Qed.

Lemma leads_routing n c b : leads (set_routing_enabled catalogue n c b).
Proof. apply leads_step. intros s. apply routing_step. Qed.

Lemma leads_persist r : leads (_persist_readiness r).
Proof. apply leads_step. intros s. apply readiness_step. Qed.

Lemma leads_recompute n c : leads (recompute catalogue platform production n c).
Proof.
  apply leads_bind; [apply leads_get|intros s]. destruct (dict_has _ _); [|apply leads_lift].
  apply leads_bind; [apply leads_clock|intros now].
  apply leads_bind; [apply leads_lift|intros r]. apply leads_persist.
Qed.

Lemma leads_readiness n c : leads (get_readiness catalogue platform production n c).
Proof.
  apply leads_bind; [apply leads_get|intros s].
  destruct (head _) as [[id row]|]; [apply leads_lift|apply leads_recompute].
Qed.

Lemma leads_evidence e : admissible e → leads (record_evidence catalogue platform production e).
Proof.
  intros He. apply leads_bind; [apply leads_step; intros s; by apply evidence_step|intros _].
  apply leads_bind; [apply leads_step; intros s; apply effects_step|intros _].
  apply leads_bind; [apply leads_recompute|intros _]. apply leads_ret.
Qed.

Lemma leads_active n : leads (list_active_tasks n).
Proof. apply leads_bind; [apply leads_get|intros s; apply leads_ret]. Qed.
End steps.

Create HintDb steps.
#[export] Hint Resolve leads_ret leads_raise leads_get leads_lift leads_bind leads_get_task
  leads_get_plan leads_clock leads_uuid leads_save_plan leads_create leads_transition
  leads_event leads_routing leads_persist leads_recompute leads_readiness leads_evidence
  leads_active : steps.

(** ** Operations *)

(** What the API and the event loop ask of the coordinator. *)
Inductive operation :=
| OpPersist (plan : ConnectorTaskPlan)
| OpApprove (plan_id plan_hash : string) (approved : bool)
| OpOffer (node_id : string)
| OpBackground (n : nat)
| OpCancel (task_id : string)
| OpRetry (task_id : string)
| OpAuthenticated (task_id : string)
| OpEnable (node_id connector_id : string)
| OpDisable (node_id connector_id : string).

Section operations.
Context `{PyLib} `{SqlEngine}.
Context (catalogue : Catalogue) (platform sys_platform : string) (production : bool).
Context (inline_node : bool).
Context (callbacks : list (ConnectorTaskRecord → ConnectorTaskPlan → L (option bool))).
Context (runner : string → ConnectorTaskPlan → (ConnectorTaskEvent → L unit) →
  (ConnectorEvidence → L unit) → L ConnectorTaskStatus).

Definition perform (o : operation) : L unit :=
  match o with
  | OpPersist plan => persist_plan plan;; mret tt
  | OpApprove id hash b => approve_and_queue inline_node callbacks id hash b;; mret tt
  | OpOffer n => offer_queued_tasks callbacks n;; mret tt
  | OpBackground n => run_background catalogue platform production runner n
  | OpCancel t => cancel_task catalogue platform production t;; mret tt
  | OpRetry t => retry_task inline_node callbacks t;; mret tt
  | OpAuthenticated t =>
      authentication_complete catalogue sys_platform inline_node callbacks t;; mret tt
  | OpEnable n c => enable_routing catalogue platform production n c;; mret tt
  | OpDisable n c => disable_routing catalogue platform production n c;; mret tt
  end.

(** The operations one after another; an exception ends its operation only. *)
Definition perform_all (ops : list operation) (s : LifecycleState) : LifecycleState :=
  fold_left (λ s o, (perform o s).2) ops s.

Context (admissible : ConnectorEvidence → Prop).
Abbreviation leads := (leads catalogue admissible).
(** The callbacks and the runner act on the store through its operations. *)
Context (callbacks_lead : Forall (λ cb, ∀ t p, leads (cb t p)) callbacks).
Context (runner_leads : ∀ id plan emit record, (∀ e, leads (emit e)) → (∀ e, leads (record e)) →
  leads (runner id plan emit record)).
Context (downgraded : ∀ e, admissible (downgrade e)).

Lemma leads_planner_put p : leads (planner_put p).
Proof. by apply leads_memory. Qed.

Lemma leads_planner_validate p : leads (planner_validate p).
Proof. unfold planner_validate. eauto 10 with steps. Qed.

Lemma leads_background r : leads (start_background r).
Proof. by apply leads_memory. Qed.

Lemma leads_offer_all task plan : ∀ cbs b, Forall (λ cb, ∀ t p, leads (cb t p)) cbs →
  leads (offer_to_all cbs task plan b).
Proof. intros cbs b Hc. revert b. induction Hc; intros b; simpl; eauto with steps. Qed.

Lemma leads_offer_first task plan : ∀ cbs b, Forall (λ cb, ∀ t p, leads (cb t p)) cbs →
  leads (offer_to_first cbs task plan b).
Proof.
  intros cbs b Hc. revert b.
  induction Hc; intros b; simpl; [|destruct b]; eauto with steps.
Qed.

(** Walk a computation to the operations it is made of. *)
Ltac lead :=
  repeat match goal with
  | |- ConnectorLifecycleProofs.leads _ _ (_ ≫= _) => apply leads_bind; [|intros ?]
  | |- ConnectorLifecycleProofs.leads _ _ (catch _ _) => apply leads_catch; [|intros ?]
  | |- ConnectorLifecycleProofs.leads _ _ (if ?b then _ else _) => destruct b
  | |- ConnectorLifecycleProofs.leads _ _ (match ?o with _ => _ end) => destruct o
  end; eauto using leads_planner_put, leads_planner_validate, leads_background,
         leads_offer_all, leads_offer_first with steps.

Lemma leads_approve id hash b : leads (approve_and_queue inline_node callbacks id hash b).
Proof.
  unfold approve_and_queue, plan_to_approve, planner_get, _find_active_login, transition_to. lead.
Qed.

Lemma leads_offer_each tasks : leads (offer_each callbacks tasks).
Proof. induction tasks as [|t l IH]; simpl; unfold transition_to; lead. Qed.

Lemma leads_finalize id st d :
  leads (_finalize_task catalogue platform production id st d).
Proof. unfold _finalize_task. lead. Qed.

Lemma leads_emit id e : leads (emit_event id e).
Proof. unfold emit_event. lead. Qed.

Lemma leads_run id plan : leads (_run_on_node catalogue platform production runner id plan).
Proof.
  unfold _run_on_node. lead; try apply leads_finalize.
  apply runner_leads; intros e; [apply leads_emit|lead].
Qed.

Lemma leads_perform o : leads (perform o).
Proof.
  destruct o; simpl.
  - unfold persist_plan. lead.
  - apply leads_bind; [apply leads_approve|intros ?; lead].
  - unfold offer_queued_tasks. lead. apply leads_offer_each.
  - intros s. unfold run_background. destruct (_ !! n) as [r|]; [|apply rtc_refl].
    destruct (bg_done r); [apply rtc_refl|]. simpl.
    etrans; [apply (leads_run (bg_task_id r) (bg_plan r))|].
    apply rtc_once. by apply memory_step.
  - unfold cancel_task. lead.
  - unfold retry_task, transition_to. lead.
  - unfold authentication_complete, persist_plan. lead; try apply leads_approve.
    intros s. unfold planner_plan. destruct (make_plan _ _ _ _ _ _ _ _ _);
      [|apply rtc_refl]. apply rtc_once. by apply memory_step.
  - unfold enable_routing. lead.
  - unfold disable_routing. lead.
Qed.

Lemma perform_all_leads ops s : rtc (store_step catalogue admissible) s (perform_all ops s).
Proof.
  revert s. induction ops as [|o ops IH]; intros s; simpl; [done|].
  etrans; [apply leads_perform|apply IH].
Qed.
End operations.

(** ** Tasks *)

Lemma dict_get_app_Some {V} k (v : V) l l' :
  dict_get k l = Some v → dict_get k (l ++ l') = Some v.
Proof. induction l as [|[k' v'] l IH]; simpl; [done|]. by case_bool_decide. Qed.

(** What a transaction does to the table of tasks. *)
Inductive task_change (l : list (string * ConnectorTaskRecord)) :
    list (string * ConnectorTaskRecord) → Prop :=
| task_same : task_change l l
| task_added id t : task_change l (l ++ [(id, t)])
| task_moved id t t' : dict_get id l = Some t → tk_status t ∉ TERMINAL_TASK_STATUSES →
    tk_version t' = (tk_version t + 1)%Z → task_change l (dict_set id t' l).

Section tasks.
Context `{PyLib} `{SqlEngine} (catalogue : Catalogue) (admissible : ConnectorEvidence → Prop).

Lemma insert_row_tasks {R} (t : table R) id r s :
  (∀ l, ls_tasks (tb_set t l s) = ls_tasks s) → ls_tasks (insert_row t id r s).2 = ls_tasks s.
Proof. intros Ht. unfold insert_row. destruct (dict_has _ _); [done|apply Ht]. Qed.

Lemma transition_task_Ok id v st d a f s t s' :
  transition_task id v st d a f s = (Ok t, s') →
  ∃ row, dict_get id (ls_tasks s) = Some row ∧ tk_version row = v ∧
    (tk_status row ∉ TERMINAL_TASK_STATUSES) ∧ ls_tasks s' = dict_set id t (ls_tasks s) ∧
    tk_version t = (v + 1)%Z ∧ tk_status t = st.
Proof.
  rewrite transition_task_eq.
  destruct (dict_get id (ls_tasks s)) as [row|] eqn:Hg; [|done].
  destruct (tk_version row =? v)%Z eqn:Hv; [|done]. simpl.
  destruct (bool_decide _) eqn:Ht; [done|]. intros [= <- <-]. apply Z.eqb_eq in Hv as <-. boolify. eexists.
  split_and!; try done.
Qed.

Lemma transition_task_Raise id v st d a f s e s' :
  transition_task id v st d a f s = (Raise e, s') → s' = s.
Proof.
  rewrite transition_task_eq.
  destruct (dict_get id (ls_tasks s)) as [row|] eqn:Hg; [|by intros [= _ <-]].
  destruct (tk_version row =? v)%Z; [|by intros [= _ <-]]. simpl.
  destruct (bool_decide _); [by intros [= _ <-]|done].
Qed.

Lemma step_tasks s s' :
  store_step catalogue admissible s s' → task_change (ls_tasks s) (ls_tasks s').
Proof.
  intros Hs. destruct Hs as [s' Hm|p|p previous|id v st d a f|e|e He|e|r|n c b].
  - destruct Hm as (_ & -> & _). constructor.
  - unfold save_plan. rewrite insert_row_tasks by done. constructor.
  - unfold create_task_from_plan, uuid4, utc_now, insert_row, mbind, M_bind. simpl.
    destruct (dict_has _ _); simpl; constructor.
  - destruct (transition_task _ _ _ _ _ _ s) as [[t|e] s'] eqn:Ht; simpl.
    + apply transition_task_Ok in Ht as (row & Hg & <- & Hst & -> & Hv & _).
      by apply task_moved with row.
    + apply transition_task_Raise in Ht as ->. constructor.
  - unfold append_task_event, get_task, get_state, mbind, M_bind, mret, M_ret, raise. simpl.
    destruct (dict_get _ _) as [t|]; [|constructor]. destruct (_ || _); [constructor|].
    destruct (bool_decide _); [constructor|].
    match goal with |- context [insert_row ?t ?i ?r s] =>
      pose proof (insert_row_tasks t i r s ltac:(done)) as Hi; destruct (insert_row t i r s) as [[] s1] end;
      simpl in *; rewrite Hi; constructor.
  - rewrite insert_row_tasks by done. constructor.
  - unfold _apply_evidence_side_effects, mret, M_ret.
    destruct (ev_evidence_type e); try constructor; unfold uuid4, mbind, M_bind;
      rewrite insert_row_tasks by done; constructor.
  - unfold _persist_readiness, uuid4, mbind, M_bind, replace_rows. simpl.
    destruct (dict_has _ _); constructor.
  - unfold set_routing_enabled, get_state, mbind, M_bind. simpl.
    destruct (head _) as [[id i]|]; [constructor|]. unfold uuid4, lift_res. simpl.
    destruct (catalogue_get _ _) as [d|]; [|constructor]. unfold utc_now. simpl.
    rewrite insert_row_tasks by done. constructor.
Qed.

(** A finished task is never changed. *)
Lemma finished_steps s s' id t :
  rtc (store_step catalogue admissible) s s' → dict_get id (ls_tasks s) = Some t →
  tk_status t ∈ TERMINAL_TASK_STATUSES → dict_get id (ls_tasks s') = Some t.
Proof.
  induction 1 as [|s s1 s2 Hs%step_tasks _ IH]; [done|]. intros Hg Ht. apply IH; [|done].
  destruct Hs as [|id' t'|id' t' t'' Hg' Hn _]; [done|by apply dict_get_app_Some|].
  destruct (decide (id' = id)) as [->|]; [|by rewrite dict_get_set_ne].
  congruence.
Qed.

(** The version of a task never decreases. *)
Lemma version_steps s s' id v :
  rtc (store_step catalogue admissible) s s' →
  (∃ t, dict_get id (ls_tasks s) = Some t ∧ v ≤ tk_version t)%Z →
  (∃ t, dict_get id (ls_tasks s') = Some t ∧ v ≤ tk_version t)%Z.
Proof.
  induction 1 as [|s s1 s2 Hs%step_tasks _ IH]; [done|]. intros (t & Hg & Hv). apply IH.
  destruct Hs as [|id' t'|id' t' t'' Hg' _ Hv']; [by exists t| |].
  - exists t. split; [by apply dict_get_app_Some|done].
  - destruct (decide (id' = id)) as [->|]; [|exists t; by rewrite dict_get_set_ne].
    exists t''. rewrite dict_get_set_eq. simplify_eq. split; [done|lia].
Qed.

Lemma stale_transition id v st d a f s t :
  dict_get id (ls_tasks s) = Some t → (v < tk_version t)%Z →
  transition_task id v st d a f s = (Raise (ValueError "connector task version conflict"), s).
Proof.
  intros Hg Hv. rewrite transition_task_eq, Hg. assert ((tk_version t =? v)%Z = false) as -> by lia. done.
Qed.
End tasks.

(** ** Theorems about the operations *)

Section theorems.
Context `{PyLib} `{SqlEngine}.
Context (catalogue : Catalogue) (platform sys_platform : string) (production : bool).
Context (inline_node : bool).
Context (callbacks : list (ConnectorTaskRecord → ConnectorTaskPlan → L (option bool))).
Context (runner : string → ConnectorTaskPlan → (ConnectorTaskEvent → L unit) →
  (ConnectorEvidence → L unit) → L ConnectorTaskStatus).

(** The callbacks and the runner use the store only through its operations, and record only
    evidence of the given kind. *)
Definition well_behaved (admissible : ConnectorEvidence → Prop) : Prop :=
  Forall (λ cb, ∀ t p, leads catalogue admissible (cb t p)) callbacks ∧
  ∀ id plan emit record, (∀ e, leads catalogue admissible (emit e)) →
    (∀ e, leads catalogue admissible (record e)) →
    leads catalogue admissible (runner id plan emit record).

Abbreviation run ops s := (perform_all catalogue platform sys_platform production inline_node
  callbacks runner ops s).

(** whatever the coordinator does, in whatever order and however its operations fail, a
    task that has finished keeps its whole record. *)
Theorem finished_task_is_final ops s id t :
  well_behaved (λ _, True) → dict_get id (ls_tasks s) = Some t →
  tk_status t ∈ TERMINAL_TASK_STATUSES →
  dict_get id (ls_tasks (run ops s)) = Some t.
Proof.
  intros [Hc Hr]. eapply finished_steps. by apply perform_all_leads with (admissible := λ _, True).
Qed.

(** a change of a task whose session starts when another change of the same version has
    committed is refused with a version conflict and changes nothing, however many operations
    ran in between. (Two sessions that overlap exclude each other no longer: see
    [overlapping_transitions_both_succeed].) *)
Theorem transitions_are_exclusive ops s id v st d a f t s1 st' d' a' f' :
  well_behaved (λ _, True) → transition_task id v st d a f s = (Ok t, s1) →
  transition_task id v st' d' a' f' (run ops s1) =
  (Raise (ValueError "connector task version conflict"), run ops s1).
Proof.
  intros [Hc Hr] Ht. apply transition_task_Ok in Ht as (row & Hg & Hv & _ & Hs & Hv' & _).
  destruct (version_steps catalogue (λ _, True) s1 (run ops s1) id (v + 1)%Z) as (t' & Hg' & Hle).
  - by apply perform_all_leads.
  - exists t. rewrite Hs, dict_get_set_eq. split; [done|lia].
  - eapply stale_transition; [exact Hg'|lia].
Qed.
End theorems.

(** ** Inline evidence *)

Section production.
Context `{PyLib} `{SqlEngine} (catalogue : Catalogue) (platform : string).

Definition inline_evidence (e : ConnectorEvidence) : Prop :=
  ev_execution_origin e ≠ REMOTE_NODE.

Definition inline_rows (s : LifecycleState) : Prop :=
  ∀ id e, (id, e) ∈ ls_evidence s → inline_evidence e.

Lemma insert_row_evidence {R} (t : table R) id r s :
  (∀ l, ls_evidence (tb_set t l s) = ls_evidence s) →
  ls_evidence (insert_row t id r s).2 = ls_evidence s.
Proof. intros Ht. unfold insert_row. destruct (dict_has _ _); [done|apply Ht]. Qed.

Lemma step_evidence s s' :
  store_step catalogue inline_evidence s s' →
  ls_evidence s' = ls_evidence s ∨
  ∃ id e, inline_evidence e ∧ ls_evidence s' = ls_evidence s ++ [(id, e)].
Proof.
  intros Hs. destruct Hs as [s' Hm|p|p previous|id v st d a f|e|e He|e|r|n c b].
  - left. apply Hm.
  - left. unfold save_plan. by rewrite insert_row_evidence.
  - left. unfold create_task_from_plan, uuid4, utc_now, insert_row, mbind, M_bind. simpl.
    by destruct (dict_has _ _).
  - left. rewrite transition_task_eq.
    destruct (dict_get id _) as [row|]; [|done]. destruct (negb _); [done|].
    by destruct (bool_decide _).
  - left. unfold append_task_event, get_task, get_state, mbind, M_bind, mret, M_ret, raise. simpl.
    destruct (dict_get _ _) as [t|]; [|done]. destruct (_ || _); [done|].
    destruct (bool_decide _); [done|]. unfold insert_row. by destruct (dict_has _ _).
  - unfold insert_row. destruct (dict_has _ _); [by left|right].
    exists (ev_evidence_id e), (evidence_row e). by split.
  - left. unfold _apply_evidence_side_effects, mret, M_ret.
    destruct (ev_evidence_type e); try done; unfold uuid4, mbind, M_bind;
      by rewrite insert_row_evidence.
  - left. unfold _persist_readiness, uuid4, mbind, M_bind, replace_rows. simpl.
    by destruct (dict_has _ _).
  - left. unfold set_routing_enabled, get_state, mbind, M_bind. simpl.
    destruct (head _) as [[id i]|]; [done|]. unfold uuid4, lift_res. simpl.
    destruct (catalogue_get _ _) as [d|]; [|done]. unfold utc_now. simpl.
    by rewrite insert_row_evidence.
Qed.

Lemma inline_steps s s' :
  rtc (store_step catalogue inline_evidence) s s' → inline_rows s → inline_rows s'.
Proof.
  induction 1 as [|s s1 s2 Hs%step_evidence _ IH]; [done|]. intros Hi. apply IH.
  destruct Hs as [Hs|(id & e & He & Hs)]; intros id' e'; rewrite Hs; [apply Hi|].
  intros [Hin|Hin]%elem_of_app; [by eapply Hi|].
  apply list_elem_of_singleton in Hin. by simplify_eq.
Qed.

(** The evidence of a snapshot comes from rows of the table. *)
Lemma newest_by_type_rows rows acc kind e :
  kind_get kind (newest_by_type rows acc) = Some e →
  kind_get kind acc = Some e ∨ ∃ id r, (id, r) ∈ rows ∧ e = evidence_dict id r.
Proof.
  revert acc. induction rows as [|[id r] rows IH]; intros acc; simpl; [by left|].
  destruct (kind_get (ev_evidence_type r) acc).
  - intros [?|(id' & r' & ? & ?)]%IH; [by left|right]. exists id', r'. split; [by right|done].
  - intros [Hk|(id' & r' & ? & ?)]%IH.
    + assert (∀ l k (d x : dict), kind_get kind (l ++ [(k, d)]) = Some x →
        kind_get kind l = Some x ∨ x = d) as Happ.
      { intros l k d x. induction l as [|[k' d'] l IHl]; simpl;
          case_bool_decide; intros; simplify_eq; auto. }
      apply Happ in Hk as [?| ->]; [by left|right]. exists id, r. split; [left|done].
    + right. exists id', r'. split; [by right|done].
Qed.

Lemma select_desc_elem {R} (t : table R) cond key s x :
  x ∈ select_desc t cond key s → x ∈ tb_get t s ∧ cond x.2 = true.
Proof.
  unfold select_desc. rewrite elem_of_py_sorted, heap_order_permutes, elem_of_filter_bool. done.
Qed.

Lemma evidence_dict_origin id r :
  dget "execution_origin" (evidence_dict id r) =
  PStr (ConnectorExecutionOrigin_value (ev_execution_origin r)).
Proof.
  unfold evidence_dict, dict_update, dget. simpl.
  rewrite !dict_get_set_ne by done. by rewrite dict_get_set_eq.
Qed.

Lemma inline_never_ready d n c s now :
  inline_rows s → (_derive_state true d (_load_snapshot platform n c s) now).1.1 ≠ READY.
Proof.
  intros Hi Hr. apply production_attested in Hr as (_ & (e & He & _ & Ho) & _).
  simpl in He. apply newest_by_type_rows in He as [?|(id & r & Hin & ->)]; [done|].
  apply select_desc_elem in Hin as [Hin _]. apply Hi in Hin.
  rewrite evidence_dict_origin in Ho. unfold inline_evidence in Hin.
  by destruct (ev_execution_origin r).
Qed.

(** an inline node cannot make a connector routable in production: from a store without
    evidence of a remote node, whatever the coordinator and its runner do, no connector of
    any node is derived to be ready, because what the runner claims is downgraded. *)
Theorem inline_node_never_routes_production sys_platform inline_node callbacks runner ops s d n
    c now :
  well_behaved catalogue callbacks runner inline_evidence → inline_rows s →
  (_derive_state true d (_load_snapshot platform n c
     (perform_all catalogue platform sys_platform true inline_node callbacks runner ops s))
     now).1.1 ≠ READY.
Proof.
  intros [Hc Hr] Hi. apply inline_never_ready. eapply inline_steps; [|exact Hi].
  apply perform_all_leads; [done|done|].
  intros e. unfold downgrade, inline_evidence. case_bool_decide; [done|auto].
Qed.

End production.

(** ** What a snapshot can show *)

Section snapshots.
Context `{PyLib} `{SqlEngine} (catalogue : Catalogue) (platform : string) (production : bool).

Lemma snapshot_task_active n c s t :
  active_task_status (_load_snapshot platform n c s) = Some t → t ∈ ACTIVE_TASK_STATUSES.
Proof.
  unfold _load_snapshot. cbn [active_task_status].
  destruct (head _) as [[id r]|] eqn:Hh; [|done]. intros [= <-].
  apply head_Some_elem_of, select_desc_elem in Hh as [_ Hh]. by boolify.
Qed.

Lemma evidence_state_not_failed d s now :
  (evidence_state production d s now).1.1 ∉ [AUTHENTICATION_FAILED; CERTIFICATION_FAILED].
Proof.
  assert (∀ st, st ∉ [AUTHENTICATION_FAILED; CERTIFICATION_FAILED] ↔
    st ≠ AUTHENTICATION_FAILED ∧ st ≠ CERTIFICATION_FAILED) as Hst.
  { intros st. rewrite !not_elem_of_cons. split; [tauto|]. intros [? ?].
    split_and!; [done|done|apply not_elem_of_nil]. }
  rewrite Hst. unfold evidence_state.
  destruct (_broken_executable_evidence s) as [[|ch b]|]; [|done|];
    repeat (match goal with |- context [if ?b then _ else _] => destruct b; [done|] end); done.
Qed.

(** a failed login or a failed certification never shows: the store only loads tasks
    that are still active, so the two states of failure are never derived. *)
Theorem failure_states_are_unreachable d n c s now :
  (_derive_state production d (_load_snapshot platform n c s) now).1.1 ∉
  [AUTHENTICATION_FAILED; CERTIFICATION_FAILED].
Proof.
  assert (∀ t, active_task_status (_load_snapshot platform n c s) = Some t → t ≠ TS_FAILED) as Hf.
  { intros t Ht%snapshot_task_active ->.
    apply (bool_decide_eq_true_2 (TS_FAILED ∈ ACTIVE_TASK_STATUSES)) in Ht. by vm_compute in Ht. }
  unfold _derive_state.
  destruct (bool_decide _); [simpl; set_solver|]. destruct (negb _); [simpl; set_solver|].
  destruct (_ || _); [simpl; set_solver|]. simpl (node_revoked _).
  destruct (active_task_state _) as [v|] eqn:Hv; [|apply evidence_state_not_failed].
  revert Hv. unfold active_task_state. cbv zeta.
  destruct (_ && _); [intros [= <-]; simpl; set_solver|].
  destruct (bool_decide _); [intros [= <-]; simpl; set_solver|].
  do 4 (destruct (_ && _); [intros [= <-]; simpl; set_solver|]).
  rewrite !bool_decide_eq_false_2 by (intros Ht; by apply Hf in Ht). done.
Qed.

(** ** The stored readiness *)

Lemma NodeConnectorState_value_inj a b :
  NodeConnectorState_value a = NodeConnectorState_value b → a = b.
Proof. by destruct a, b. Qed.

Lemma opt_member_back {A} (value : A → string) members o :
  (∀ a b, value a = value b → a = b) → (∀ a, a ∈ members ∧ value a ≠ "") →
  opt_member value members (ostr (value <$> o)) = Ok o.
Proof.
  intros Hinj Hm. destruct o as [a|]; [|done]. destruct (Hm a) as [Hin Hne].
  unfold opt_member. simpl. rewrite bool_decide_eq_false_2 by done. simpl.
  by rewrite enum_of_value.
Qed.

Lemma opt_text_back o : opt_text (ostr o) = Ok o.
Proof. by destruct o. Qed.

Lemma json_norm_ostr o : json_norm (ostr o) = ostr o.
Proof. by destruct o. Qed.

Lemma NodeConnectorState_member a : a ∈ NodeConnectorState_members.
Proof. destruct a; unfold NodeConnectorState_members; a_member. Qed.

Lemma readiness_payload r :
  let p := rr_snapshot_json (readiness_row r) in
  dget "catalogue_maturity" p = PStr (rd_catalogue_maturity r) ∧
  dget "installed_version" p = ostr (rd_installed_version r) ∧
  dget "executable_path" p = ostr (rd_executable_path r) ∧
  dget "routing_profile" p = ostr (rd_routing_profile r) ∧
  dget "evidence_trust_level" p =
    ostr (EvidenceTrustLevel_value <$> rd_evidence_trust_level r) ∧
  dget "execution_origin" p =
    ostr (ConnectorExecutionOrigin_value <$> rd_execution_origin r).
Proof. cbn. by rewrite !json_norm_ostr. Qed.

Lemma readiness_row_back r :
  rd_catalogue_maturity r ≠ "" → _readiness_from_row (readiness_row r) = Ok r.
Proof.
  intros Hm. unfold _readiness_from_row.
  destruct (readiness_payload r) as (-> & -> & -> & -> & -> & ->). cbv zeta.
  cbn [readiness_row rr_state rr_recommended_action].
  rewrite enum_of_value; [|apply NodeConnectorState_value_inj|apply NodeConnectorState_member].
  rewrite !opt_text_back, !opt_member_back.
  all: try (by intros [] []).
  all: try (intros []; (split; [try unfold RecommendedConnectorAction_members; a_member|done])).
  cbn [res_bind]. unfold py_or. cbn [truthy]. rewrite bool_decide_eq_false_2 by done.
  by destruct r.
Qed.

(** a readiness record survives its storage: reading the row back gives the record that
    was stored, the enumerations and the fields kept as JSON included. *)
Theorem stored_readiness_reads_back r :
  rd_catalogue_maturity r ≠ "" → _readiness_from_row (readiness_row r) = Ok r.
Proof. apply readiness_row_back. Qed.

Lemma heap_order_singleton {A} (x : A) : heap_order [x] = [x].
Proof. apply Permutation_singleton_r, heap_order_permutes. Qed.

Lemma derived_fields now n c sn r :
  derive_from_snapshot production catalogue now n c sn = Ok r →
  rd_node_id r = n ∧ rd_connector_id r = c ∧ rd_catalogue_maturity r ≠ "".
Proof.
  unfold derive_from_snapshot. destruct (catalogue_get c catalogue) as [d|]; [|done]. simpl.
  destruct (_derive_state production d sn now) as [[st a] b]. intros [= <-]. simpl.
  split_and!; [done|done|]. destruct (cd_maturity d); discriminate.
Qed.

Lemma filter_of_filter_neg {A} (p : A → bool) l :
  List.filter p (List.filter (λ x, negb (p x)) l) = [].
Proof. induction l as [|x l IH]; simpl; [done|]. destruct (p x) eqn:E; simpl; by rewrite ?E. Qed.

Lemma recompute_Ok n c s r s' :
  recompute catalogue platform production n c s = (Ok r, s') →
  ∃ id kept, rd_node_id r = n ∧ rd_connector_id r = c ∧ rd_catalogue_maturity r ≠ "" ∧
    ls_readiness s' = kept ++ [(id, readiness_row r)] ∧
    List.filter (λ row, of_connector rr_node_id rr_connector_id n c row.2) kept = [].
Proof.
  unfold recompute, get_state, mbind, M_bind, lift_res.
  destruct (dict_has c catalogue) eqn:Hd.
  - unfold utc_now. destruct (derive_from_snapshot _ _ _ n c _) as [r'|] eqn:Hr; [|done].
    apply derived_fields in Hr as (<- & <- & Hm).
    unfold _persist_readiness, uuid4, mbind, M_bind, replace_rows. simpl.
    destruct (dict_has (uuid_str _) _); [done|]. intros [= <- <-]. eexists _, _.
    split_and!; try done. apply filter_of_filter_neg.
  - unfold derive_from_snapshot, catalogue_get. unfold dict_has in Hd.
    by destruct (dict_get c catalogue).
Qed.

Lemma recomputed_is_read n c s r s' :
  recompute catalogue platform production n c s = (Ok r, s') →
  get_readiness catalogue platform production n c s' = (Ok r, s').
Proof.
  intros Hr. apply recompute_Ok in Hr as (id & kept & Hn & Hc & Hm & Hs & Hk).
  unfold get_readiness, get_state, mbind, M_bind, lift_res, select_desc. cbn [tb_get t_readiness].
  rewrite Hs, List.filter_app, Hk. simpl.
  assert (of_connector rr_node_id rr_connector_id n c (readiness_row r) = true) as ->.
  { unfold of_connector. simpl. by rewrite Hn, Hc, !bool_decide_eq_true_2. }
  rewrite heap_order_singleton. simpl. by rewrite readiness_row_back.
Qed.

(** what is read after a recomputation is what was computed: the one row of the
    connector on the node holds it, and no earlier row is left. *)
Theorem recomputed_readiness_is_read n c s r s' :
  recompute catalogue platform production n c s = (Ok r, s') →
  get_readiness catalogue platform production n c s' = (Ok r, s').
Proof. apply recomputed_is_read. Qed.
End snapshots.

(** ** Approval *)

Section approval.
Context `{PyLib} `{SqlEngine} (inline_node : bool).
Context (callbacks : list (ConnectorTaskRecord → ConnectorTaskPlan → L (option bool))).

(** The plan of an identifier: the stored one, or else the planner's. *)
Definition known_plan (id : string) (s : LifecycleState) : option ConnectorTaskPlan :=
  match dict_get id (ls_plans s) with
  | Some p => Some p
  | None => dict_get id (ls_planner s)
  end.

(** The approval of a known plan: given, for its exact hash, and before it expires. *)
Definition exact_approval (id hash : string) (approved : bool) (s : LifecycleState)
    (plan : ConnectorTaskPlan) : Prop :=
  known_plan id s = Some plan ∧ approved = true ∧ tp_plan_hash plan = hash ∧
  (clock (ls_clock s) < tp_expires_at plan)%Z.

Lemma plan_to_approve_spec id s :
  match plan_to_approve id s with
  | (Ok p, s1) => known_plan id s = Some p ∧ ls_tasks s1 = ls_tasks s ∧
                  ls_clock s1 = ls_clock s
  | (Raise e, s1) => ls_tasks s1 = ls_tasks s
  end.
Proof.
  unfold plan_to_approve, get_plan, planner_get, plan_store_get, catch, get_state, mbind, M_bind,
    mret, M_ret, known_plan. simpl.
  destruct (dict_get id (ls_plans s)) as [p|]; [done|]. simpl. unfold lift_res.
  destruct (dict_get id (ls_planner s)) as [p|]; [|done].
  unfold save_plan, insert_row. by destruct (dict_has _ _).
Qed.

Lemma validate_put now l plan :
  validate_plan now (dict_set (tp_plan_id plan) plan l) plan =
  if (tp_expires_at plan <=? now)%Z then plan_error "connector plan has expired" else Ok tt.
Proof.
  unfold validate_plan, plan_store_get. rewrite dict_get_set_eq. simpl.
  by rewrite !bool_decide_eq_true_2.
Qed.

(** The state after the plan was put and validated. *)
Definition accepted_state (plan : ConnectorTaskPlan) (s : LifecycleState) : LifecycleState :=
  set_clock (S (ls_clock s))
    (tb_set t_planner (dict_set (tp_plan_id plan) plan (ls_planner s)) s).

Lemma put_and_validate {A} plan (k : L A) s :
  (planner_put plan;; planner_validate plan;; k) s =
  if (tp_expires_at plan <=? clock (ls_clock s))%Z
  then (plan_error "connector plan has expired", accepted_state plan s)
  else k (accepted_state plan s).
Proof.
  unfold planner_put, planner_validate, update_row, modify_state, utc_now, get_state, lift_res,
    mbind, M_bind. simpl. rewrite validate_put. by destruct (_ <=? _)%Z.
Qed.

(** a task is only created for the plan the user saw: either the approval is given for
    the exact hash of the known plan before it expires, or the request is refused and the
    tasks are as they were. *)
Theorem approval_is_exact id hash approved s r s' :
  approve_and_queue inline_node callbacks id hash approved s = (r, s') →
  (∃ plan, exact_approval id hash approved s plan) ∨
  ((∃ e, r = Raise e) ∧ ls_tasks s' = ls_tasks s).
Proof.
  unfold approve_and_queue. unfold mbind at 1, M_bind at 1.
  pose proof (plan_to_approve_spec id s) as Hp.
  destruct (plan_to_approve id s) as [[plan|e] s1]; [|by intros [= <- <-]; right; eauto].
  destruct Hp as (Hk & Ht & Hc). rewrite put_and_validate.
  destruct (_ <=? _)%Z eqn:He; [by intros [= <- <-]; right; eauto|].
  destruct (negb approved || _) eqn:Hb; [by intros [= <- <-]; right; eauto|].
  intros _. left. exists plan. boolify. subst. rewrite Hc in He.
  split_and!; [done|done|done|lia].
Qed.

Lemma find_of_elem {A} (p : A → bool) l x :
  x ∈ l → p x = true → ∃ y, List.find p l = Some y ∧ y ∈ l.
Proof.
  intros Hx Hp. destruct (List.find p l) as [y|] eqn:E.
  - exists y. split; [done|]. apply List.find_some in E as [? _]. by apply list_elem_of_In.
  - apply list_elem_of_In in Hx. pose proof (List.find_none _ _ E _ Hx) as Hn.
    cbv beta in Hn. congruence.
Qed.

Lemma active_is_login_status st :
  st ∈ ACTIVE_TASK_STATUSES →
  st ∈ [TS_WAITING_FOR_USER; TS_WAITING_FOR_AUTH_CALLBACK; TS_QUEUED; TS_OFFERED_TO_NODE;
        TS_ACCEPTED_BY_NODE; TS_RUNNING].
Proof.
  intros Hst. apply (bool_decide_eq_true_2 (_ ∈ ACTIVE_TASK_STATUSES)) in Hst.
  destruct st; try (by vm_compute in Hst); a_member.
Qed.

(** while a login of a connector is under way on a node, approving a login plan of it
    starts no second one: an active task of the table is answered and no task is made. *)
Theorem one_login_at_a_time id hash s plan k t :
  dict_get id (ls_plans s) = Some plan → exact_approval id hash true s plan →
  tp_action plan = AUTHENTICATE →
  (k, t) ∈ ls_tasks s → tk_node_id t = tp_node_id plan →
  tk_connector_id t = tp_connector_id plan → tk_action t = "authenticate" →
  tk_status t ∈ ACTIVE_TASK_STATUSES →
  ∃ t' s', approve_and_queue inline_node callbacks id hash true s = (Ok t', s') ∧
    ls_tasks s' = ls_tasks s ∧ t' ∈ (ls_tasks s).*2.
Proof.
  intros Hp (_ & _ & Hh & He) Ha Hin Hn Hc Hact Hst.
  unfold approve_and_queue. unfold mbind at 1, M_bind at 1.
  assert (plan_to_approve id s = (Ok plan, s)) as ->.
  { unfold plan_to_approve, get_plan, catch, get_state, mbind, M_bind. by rewrite Hp. }
  rewrite put_and_validate.
  assert ((tp_expires_at plan <=? clock (ls_clock s))%Z = false) as -> by lia. simpl.
  rewrite (bool_decide_eq_true_2 (_ = _)) by done. simpl.
  rewrite bool_decide_eq_true_2 by done.
  unfold _find_active_login, list_active_tasks, get_state, mbind, M_bind, mret, M_ret.
  destruct (find_of_elem (λ t, (tk_connector_id t == tp_connector_id plan) &&
    (tk_action t == ConnectorAction_value AUTHENTICATE) &&
    (tk_status t in? [TS_WAITING_FOR_USER; TS_WAITING_FOR_AUTH_CALLBACK; TS_QUEUED;
                      TS_OFFERED_TO_NODE; TS_ACCEPTED_BY_NODE; TS_RUNNING]))
    (select_desc t_tasks (λ t, (tk_node_id t == tp_node_id plan) &&
       (tk_status t in? ACTIVE_TASK_STATUSES)) tk_started_at (accepted_state plan s)).*2 t)
    as (t' & -> & Ht').
  - apply list_elem_of_fmap. exists (k, t). split; [done|].
    unfold select_desc. rewrite elem_of_py_sorted, heap_order_permutes, elem_of_filter_bool.
    simpl. split; [done|]. by rewrite !bool_decide_eq_true_2.
  - rewrite !bool_decide_eq_true_2; [done| |by rewrite Hact|done].
    by apply active_is_login_status.
  - exists t', (accepted_state plan s). split_and!; [done|done|].
    apply list_elem_of_fmap in Ht' as ([k' t''] & -> & Hin').
    apply select_desc_elem in Hin' as [Hin' _].
    apply list_elem_of_fmap. by eexists (_, _).
Qed.
End approval.

(** ** A new installation *)

Lemma later_first_total a b : later_first a b = true ∨ later_first b a = true.
Proof. destruct a as [x|], b as [y|]; simpl; auto. destruct (Z.leb_spec y x); [auto|right; lia]. Qed.

Lemma later_first_trans a b c :
  later_first a b = true → later_first b c = true → later_first a c = true.
Proof. destruct a as [x|], b as [y|], c as [z|]; simpl; lia || done. Qed.

Section installation.
Context `{PyLib} `{SqlEngine} (catalogue : Catalogue) (platform : string) (production : bool).

(** The row with the strictly greatest key comes first. *)
Lemma newest_row {R} (t : table R) cond key s x z :
  x ∈ tb_get t s → cond x.2 = true → key x.2 = Some z →
  (∀ y, y ∈ tb_get t s → cond y.2 = true → y = x ∨ ∃ w, key y.2 = Some w ∧ (w < z)%Z) →
  head (select_desc t cond key s) = Some x.
Proof.
  intros Hx Hc Hk Hmax.
  destruct (head (select_desc t cond key s)) as [y|] eqn:Hh.
  - assert (y ∈ tb_get t s ∧ cond y.2 = true) as [Hy Hcy].
    { apply head_Some_elem_of in Hh. by apply select_desc_elem in Hh. }
    destruct (Hmax y Hy Hcy) as [->|(w & Hw & Hlt)]; [done|].
    assert (x ∈ heap_order (List.filter (λ r, cond r.2) (tb_get t s))) as Hin
      by by rewrite heap_order_permutes, elem_of_filter_bool.
    apply (py_sorted_head_le _ (λ a b, later_first_total _ _)
      (λ a b c, later_first_trans _ _ _)) with (y := x) in Hh; [|done].
    rewrite Hk, Hw in Hh. simpl in Hh. lia.
  - exfalso. assert (x ∈ select_desc t cond key s) as Hin.
    { unfold select_desc.
      by rewrite elem_of_py_sorted, heap_order_permutes, elem_of_filter_bool. }
    destruct (select_desc t cond key s); [by apply not_elem_of_nil in Hin|done].
Qed.

Lemma recompute_derived n c s r s' :
  recompute catalogue platform production n c s = (Ok r, s') →
  ∃ now, derive_from_snapshot production catalogue now n c (_load_snapshot platform n c s) = Ok r.
Proof.
  unfold recompute, get_state, mbind, M_bind, lift_res. destruct (dict_has c catalogue).
  - unfold utc_now. destruct (derive_from_snapshot _ _ _ n c _) as [r'|] eqn:Hr; [|done].
    unfold _persist_readiness, uuid4, mbind, M_bind, replace_rows. simpl.
    destruct (dict_has (uuid_str _) _); [done|]. intros [= <- _]. eauto.
  - intros [= Hr _]. eauto.
Qed.

Lemma routing_needs_installation_flag n c s r s' :
  installation_routing_enabled (_load_snapshot platform n c s) = false →
  recompute catalogue platform production n c s = (Ok r, s') →
  rd_state r ≠ READY ∧ rd_routing_eligible r = false.
Proof.
  intros Hi (now & Hr)%recompute_derived. unfold derive_from_snapshot in Hr.
  destruct (catalogue_get c catalogue) as [d|]; [|done]. simpl in Hr.
  destruct (decide ((_derive_state production d (_load_snapshot platform n c s) now).1.1 = READY))
    as [Hd|Hd].
  - apply derive_state_READY in Hd as (_ & _ & _ & _ & _ & _ & _ & _ & _ & _ & _ & _ & He & _).
    congruence.
  - destruct (_derive_state _ _ _ _) as [[st a] b]. injection Hr as <-. simpl in *.
    by rewrite bool_decide_eq_false_2.
Qed.

(** installing a connector anew takes it out of routing: once the evidence of an
    installation newer than every earlier one is recorded, the stored readiness of the
    connector is neither ready nor eligible, whatever was enabled before. *)
Theorem reinstallation_disables_routing e s e' s' :
  ev_evidence_type e = ET_INSTALLATION →
  (∀ k i, (k, i) ∈ ls_installations s → ni_node_id i = ev_node_id e →
     ni_connector_id i = ev_connector_id e → (ni_installed_at i < ev_created_at e)%Z) →
  record_evidence catalogue platform production e s = (Ok e', s') →
  ∃ r, get_readiness catalogue platform production (ev_node_id e) (ev_connector_id e) s' =
         (Ok r, s') ∧ rd_state r ≠ READY ∧ rd_routing_eligible r = false.
Proof.
  intros Ht Hnew Hr. unfold record_evidence in Hr.
  apply bind_Ok_inv in Hr as ([] & s1 & H1 & Hr). apply bind_Ok_inv in Hr as ([] & s2 & H2 & Hr).
  apply bind_Ok_inv in Hr as (r & s3 & H3 & [= _ ->]). exists r. split.
  { by apply recomputed_is_read with s2. }
  eapply routing_needs_installation_flag; [|exact H3].
  assert (ls_installations s1 = ls_installations s) as Hs1.
  { unfold insert_row in H1. destruct (dict_has _ _); [done|]. by injection H1 as <-. }
  unfold _apply_evidence_side_effects in H2. rewrite Ht in H2.
  unfold uuid4, mbind, M_bind, insert_row in H2. simpl in H2.
  destruct (dict_has _ _); [done|]. injection H2 as <-. unfold _load_snapshot.
  cbn [installation_routing_enabled].
  erewrite newest_row; [|simpl; rewrite elem_of_app; right; left| |reflexivity|]; [done| |].
  - simpl. unfold of_connector. simpl. by rewrite !bool_decide_eq_true_2.
  - intros [k i] Hin Hcond. simpl in Hin, Hcond |- *. unfold of_connector in Hcond. boolify.
    apply elem_of_app in Hin as [Hin|Hin%list_elem_of_singleton]; [right|by left].
    rewrite Hs1 in Hin. eauto.
Qed.
End installation.

(** ** Concrete runs *)

#[local] Existing Instance counting_lib.
#[local] Existing Instance insertion_order.

Definition tools : Catalogue := [("tool", terminal_tool)].

(** A node that runs nothing and reports success. *)
Definition plain_runner (id : string) (plan : ConnectorTaskPlan)
    (emit : ConnectorTaskEvent → L unit) (record : ConnectorEvidence → L unit) :
    L ConnectorTaskStatus := mret TS_SUCCEEDED.

Lemma plain_well_behaved P : well_behaved tools [] plain_runner P.
Proof. split; [constructor|]. intros. apply leads_ret. Qed.

Definition login_plan (executable hash : string) : ConnectorTaskPlan :=
  {| tp_plan_id := "p"; tp_node_id := "n"; tp_connector_id := "tool";
     tp_connector_revision := "1"; tp_action := AUTHENTICATE; tp_method_id := "m";
     tp_executable := executable; tp_arguments := []; tp_package_source := "";
     tp_expected_executables := []; tp_requires_admin := false; tp_modifies_path := false;
     tp_modifies_shell_profile := false; tp_download_digest := None;
     tp_risk_level := "medium"; tp_expires_at := 1000; tp_plan_hash := hash |}.

Definition a_task (id : string) (st : ConnectorTaskStatus) : ConnectorTaskRecord :=
  {| tk_task_id := id; tk_plan_id := "p"; tk_node_id := "n"; tk_connector_id := "tool";
     tk_connector_revision := "1"; tk_action := "authenticate"; tk_plan_hash := "h";
     tk_status := st; tk_idempotency_key := ""; tk_previous_task_id := None; tk_version := 3;
     tk_created_at := 0; tk_started_at := None; tk_finished_at := None; tk_detail := None |}.

(** A store with a login plan and one task of it. *)
Definition with_task (st : ConnectorTaskStatus) : LifecycleState :=
  tb_set t_tasks [("t", a_task "t" st)]
    (tb_set t_plans [("p", login_plan "tool" "h")] empty_lifecycle).

Abbreviation run_plain ops s :=
  (perform_all tools "linux" "linux" true true [] plain_runner ops s).

Definition some_operations : list operation :=
  [OpCancel "t"; OpRetry "t"; OpBackground 0; OpApprove "p" "h" true; OpEnable "n" "tool"].

Lemma finished_task_is_final_witness :
  dict_get "t" (ls_tasks (run_plain some_operations (with_task TS_FAILED))) =
  Some (a_task "t" TS_FAILED).
Proof.
  refine (finished_task_is_final tools "linux" "linux" true true [] plain_runner
    some_operations (with_task TS_FAILED) "t" (a_task "t" TS_FAILED) (plain_well_behaved _)
    eq_refl _).
  right. left.
Defined.

(** Two sessions that both read the task before either commits: the version is compared with
    the row that was read and not in the [UPDATE], so both succeed. A task that was cancelled is
    completed by the other session, with the version both have set. *)
Example overlapping_transitions_both_succeed :
  match transition_read "t" 3 (with_task TS_RUNNING), transition_read "t" 3 (with_task TS_RUNNING) with
  | (Ok row, s), (Ok row', _) =>
      match transition_commit row "t" 3 TS_CANCELLED None None (Some 5%Z) s with
      | (Ok _, s1) =>
          match transition_commit row' "t" 3 TS_SUCCEEDED None None (Some 6%Z) s1 with
          | (Ok _, s2) =>
              (λ t, (tk_status t, tk_version t, tk_finished_at t)) <$> (ls_tasks s1).*2 =
                [(TS_CANCELLED, 4%Z, Some 5%Z)] ∧
              (λ t, (tk_status t, tk_version t, tk_finished_at t)) <$> (ls_tasks s2).*2 =
                [(TS_SUCCEEDED, 4%Z, Some 6%Z)]
          | _ => False
          end
      | _ => False
      end
  | _, _ => False
  end.
Proof. vm_compute. by split. Qed.

Lemma transitions_are_exclusive_witness :
  ∃ t s1, transition_task "t" 3 TS_RUNNING None None None (with_task TS_QUEUED) = (Ok t, s1) ∧
    (transition_task "t" 3 TS_CANCELLED None None None (run_plain some_operations s1)).1 =
    Raise (ValueError "connector task version conflict").
Proof.
  eexists _, _. split; [vm_compute; reflexivity|].
  refine (f_equal fst (transitions_are_exclusive tools "linux" "linux" true true [] plain_runner
    some_operations (with_task TS_QUEUED) "t" 3 TS_RUNNING None None None _ _ TS_CANCELLED None
    None None (plain_well_behaved _) _)).
  vm_compute. reflexivity.
Defined.

Lemma inline_node_never_routes_production_witness :
  (_derive_state true terminal_tool (_load_snapshot "linux" "n" "tool"
     (run_plain some_operations (with_task TS_FAILED))) 0).1.1 ≠ READY.
Proof.
  refine (inline_node_never_routes_production tools "linux" "linux" true [] plain_runner
    some_operations _ terminal_tool "n" "tool" 0 (plain_well_behaved _) _).
  intros id e Hin. by apply not_elem_of_nil in Hin.
Defined.

Lemma stored_readiness_reads_back_witness :
  ∃ r, derive_from_snapshot true tools 0 "n" "tool" ready_snapshot = Ok r ∧
    _readiness_from_row (readiness_row r) = Ok r.
Proof.
  eexists. split; [vm_compute; reflexivity|]. refine (stored_readiness_reads_back _ _). done.
Defined.

Lemma recomputed_readiness_is_read_witness :
  ∃ r s', recompute tools "linux" true "n" "tool" empty_lifecycle = (Ok r, s') ∧
    get_readiness tools "linux" true "n" "tool" s' = (Ok r, s').
Proof.
  eexists _, _. split; [vm_compute; reflexivity|].
  refine (recomputed_readiness_is_read tools "linux" true "n" "tool" empty_lifecycle _ _ _).
  vm_compute. reflexivity.
Defined.

Lemma approval_is_exact_witness :
  ∃ r s', approve_and_queue true [] "p" "other" true (with_task TS_FAILED) = (r, s') ∧
    ((∃ plan, exact_approval "p" "other" true (with_task TS_FAILED) plan) ∨
     (∃ e, r = Raise e) ∧ ls_tasks s' = ls_tasks (with_task TS_FAILED)).
Proof.
  eexists _, _. split; [vm_compute; reflexivity|].
  refine (approval_is_exact true [] "p" "other" true (with_task TS_FAILED) _ _ _).
  vm_compute. reflexivity.
Defined.

Lemma one_login_at_a_time_witness :
  ∃ t' s', approve_and_queue true [] "p" "h" true (with_task TS_RUNNING) = (Ok t', s') ∧
    ls_tasks s' = ls_tasks (with_task TS_RUNNING).
Proof.
  destruct (one_login_at_a_time true [] "p" "h" (with_task TS_RUNNING) (login_plan "tool" "h")
    "t" (a_task "t" TS_RUNNING)) as (t' & s' & Ha & Ht & _); try reflexivity.
  - split_and!; done.
  - left.
  - refine (bool_decide_eq_true_1 (TS_RUNNING ∈ ACTIVE_TASK_STATUSES) _). vm_compute. reflexivity.
  - exists t', s'. by split.
Defined.

Definition installation_evidence : ConnectorEvidence :=
  {| ev_evidence_id := "e"; ev_node_id := "n"; ev_connector_id := "tool";
     ev_connector_revision := "1"; ev_task_id := "t"; ev_evidence_type := ET_INSTALLATION;
     ev_status := "installed"; ev_executable_path := Some "/bin/tool";
     ev_executable_fingerprint := None; ev_harness_version := None; ev_provider_mode := None;
     ev_details := []; ev_created_at := 5; ev_expires_at := None;
     ev_trust_level := NODE_ATTESTED; ev_execution_origin := REMOTE_NODE |}.

Lemma reinstallation_disables_routing_witness :
  ∃ s', record_evidence tools "linux" true installation_evidence empty_lifecycle =
          (Ok installation_evidence, s') ∧
    ∃ r, get_readiness tools "linux" true "n" "tool" s' = (Ok r, s') ∧ rd_state r ≠ READY ∧
         rd_routing_eligible r = false.
Proof.
  eexists. split; [vm_compute; reflexivity|].
  refine (reinstallation_disables_routing tools "linux" true installation_evidence
    empty_lifecycle installation_evidence _ eq_refl _ _); [|vm_compute; reflexivity].
  intros k i Hin. by apply not_elem_of_nil in Hin.
Defined.

(** The plan kept by the planner names another executable than the stored one: the stored
    one replaces it before it is compared with it, and is run. *)
Example altered_plan_is_accepted :
  res_ok (approve_and_queue true [] "p" "altered" true
    (tb_set t_planner [("p", login_plan "tool" "h")]
       (tb_set t_plans [("p", login_plan "sh" "altered")] empty_lifecycle))).1 = true.
Proof. vm_compute. reflexivity. Qed.

(** One approval can be used again: the second makes a second task of the plan. *)
Example one_plan_two_tasks :
  length (ls_tasks (run_plain
    [OpApprove "p" "h" true; OpCancel "0"; OpApprove "p" "h" true]
    (tb_set t_plans [("p", login_plan "tool" "h")] empty_lifecycle))) = 2.
Proof. vm_compute. reflexivity. Qed.

(** A retry does not look for a login under way: two are active then. *)
Example retry_starts_a_second_login :
  (λ t, (t.1, tk_status t.2)) <$>
    ls_tasks (run_plain [OpRetry "t"; OpRetry "t"] (with_task TS_FAILED)) =
  [("t", TS_FAILED); ("0", TS_OFFERED_TO_NODE); ("1", TS_OFFERED_TO_NODE)].
Proof. vm_compute. reflexivity. Qed.

(** The handle of a retried task is never taken out of the list of background runs. *)
Example retried_run_is_kept :
  bg_done <$> ls_background (run_plain [OpRetry "t"; OpBackground 0] (with_task TS_FAILED)) =
  [true].
Proof. vm_compute. reflexivity. Qed.
