(* ===== verification/NodeSecurity.v ===== *)
(** * Signatures, nonces and approvals

    The parts of [control_plane/security.py] that decide who may act, the contracts of
    [control_plane/contracts.py] they read, and [execution/approval.py]. Ed25519, base64 and
    the text pydantic gives a time are parameters. *)

From S2P Require Import Prelude.

(** ** Cryptography *)

(** The functions of the cryptography package and of base64, on raw byte strings. *)
Class NodeLib := {
  ed_public : string → string;
  ed_sign : string → string → string;
  ed_verify : string → string → string → res unit;
  b64_encode : string → string;
  b64_decode : string → res string;
  json_time : Z → string
}.

(** What is documented of them: a signature of the private key verifies under its public
    key, and what was encoded decodes. *)
Class NodeLibLaws `{NodeLib} := {
  ed_verify_sign k m : ed_verify (ed_public k) (ed_sign k m) m = Ok tt;
  b64_decode_encode s : b64_decode (b64_encode s) = Ok s
}.

(** A concrete platform: the signature names the key and the message. *)
Definition toy_node_lib : NodeLib :=
  {| ed_public k := k; ed_sign k m := k +:+ "|" +:+ m;
     ed_verify p sg m := if sg == p +:+ "|" +:+ m then Ok tt
                         else Raise (Exn "InvalidSignature" "" "");
     b64_encode s := s; b64_decode s := Ok s; json_time t := pretty t |}.
Lemma toy_node_laws : NodeLibLaws (H := toy_node_lib).
Proof.
  split; [|done]. intros k m. simpl. by rewrite bool_decide_eq_true_2.
Qed.

(* @src control_plane/security.py:28-29 ReplayDetectedError *)
Definition ReplayDetectedError (m : string) : exn := Exn "ReplayDetectedError" "" m.
(* @src control_plane/security.py:32-33 ExpiredMessageError *)
Definition ExpiredMessageError (m : string) : exn := Exn "ExpiredMessageError" "" m.

Section keys.
Context `{NodeLib}.

(* @src control_plane/security.py:151-153 sign_bytes *)
Definition sign_bytes (message private_key : string) : res string :=
  res_bind (b64_decode private_key) (λ k, Ok (b64_encode (ed_sign k message))).

(* @src control_plane/security.py:156-157 verify_bytes *)
Definition verify_bytes (message signature public_key : string) : res unit :=
  res_bind (b64_decode public_key) (λ p,
  res_bind (b64_decode signature) (λ sg, ed_verify p sg message)).

(* @src control_plane/security.py:61-70 public_key_from_private *)
Definition public_key_from_private (private_key : string) : res string :=
  res_bind (b64_decode private_key) (λ k, Ok (b64_encode (ed_public k))).
End keys.

(** ** Nonces *)

(** [{key: expiry for ... if expiry > now}]. *)
Definition purge (now : Z) (seen : list (string * Z)) : list (string * Z) :=
  List.filter (λ ke, (now <? ke.2)%Z) seen.

(* @src control_plane/security.py:118-123 NonceStore.consume *)
Definition consume (now : Z) (nonce : string) (expires_at : Z) : M (list (string * Z)) unit :=
  modify_state (purge now);;
  seen ← get_state;
  if dict_has nonce seen then
    raise (ReplayDetectedError "message nonce has already been used")
  else modify_state (dict_set nonce expires_at).

(** ** Exact approvals *)

(* @src control_plane/contracts.py:183-195 ActionPlan *)
Record ActionPlan := {
  ap_id : string;
  ap_user_id : string;
  ap_browser_session_id : string;
  ap_node_id : string;
  ap_harness_id : string;
  ap_action : string;
  ap_command : pyval;
  ap_risk : string;
  ap_expires_at : Z;
  ap_plan_hash : string
}.

(* @src control_plane/contracts.py:198-209 ApprovalDecision *)
Record ApprovalDecision := {
  ad_id : string;
  ad_plan_id : string;
  ad_plan_hash : string;
  ad_user_id : string;
  ad_browser_session_id : string;
  ad_node_id : string;
  ad_approved : bool;
  ad_expires_at : Z
}.

(* @src control_plane/contracts.py:277-302 ConnectorTaskEnvelope *)
Record ConnectorTaskEnvelope := {
  en_task_id : string;
  en_plan_id : string;
  en_node_id : string;
  en_connector_id : string;
  en_connector_revision : string;
  en_action : string;
  en_plan_hash : string;
  en_executable : string;
  en_arguments : list string;
  en_method_id : string;
  en_package_source : string;
  en_expected_executables : list string;
  en_download_digest : option string;
  en_risk_level : string;
  en_nonce : string;
  en_issued_at : Z;
  en_expires_at : Z;
  en_key_id : string;
  en_signature : string;
  en_idempotency_key : string
}.

Section approvals.
Context `{PyLib} `{NodeLib}.

(* @src control_plane/security.py:36-40 canonical_json *)
Definition canonical_json (data : dict) (exclude : string) : string :=
  json_compact (PDict (dict_del exclude data)).

(** [plan.model_dump(mode="json")]. *)
Definition plan_dump (p : ActionPlan) : dict :=
  [("id", PStr (ap_id p)); ("user_id", PStr (ap_user_id p));
   ("browser_session_id", PStr (ap_browser_session_id p)); ("node_id", PStr (ap_node_id p));
   ("harness_id", PStr (ap_harness_id p)); ("action", PStr (ap_action p));
   ("command", ap_command p); ("risk", PStr (ap_risk p));
   ("expires_at", PStr (json_time (ap_expires_at p))); ("plan_hash", PStr (ap_plan_hash p))].

(* @src control_plane/security.py:43-44 sha256_digest *)
Definition sha256_digest (data : dict) (exclude : string) : string :=
  sha256_hex (canonical_json data exclude).

(* @src control_plane/security.py:89-90 bind_plan *)
Definition bind_plan (p : ActionPlan) : ActionPlan :=
  {| ap_id := ap_id p; ap_user_id := ap_user_id p;
     ap_browser_session_id := ap_browser_session_id p; ap_node_id := ap_node_id p;
     ap_harness_id := ap_harness_id p; ap_action := ap_action p; ap_command := ap_command p;
     ap_risk := ap_risk p; ap_expires_at := ap_expires_at p;
     ap_plan_hash := sha256_digest (plan_dump p) "plan_hash" |}.

(** The clock is read for the plan, and for the decision when the plan has not expired. *)
(* @src control_plane/security.py:93-109 verify_approval *)
Definition verify_approval (now now' : Z) (p : ActionPlan) (d : ApprovalDecision) : res unit :=
  if (ap_expires_at p <=? now)%Z || (ad_expires_at d <=? now')%Z then
    Raise (ExpiredMessageError "plan or approval has expired")
  else if negb (ad_approved d) then Raise (PermissionError "action was not approved")
  else
    let expected := sha256_digest (plan_dump p) "plan_hash" in
    if ap_plan_hash p != expected then Raise (PermissionError "plan hash is invalid")
    else if negb ((ad_plan_id d == ap_id p) && (ad_plan_hash d == ap_plan_hash p) &&
                  (ad_user_id d == ap_user_id p) &&
                  (ad_browser_session_id d == ap_browser_session_id p) &&
                  (ad_node_id d == ap_node_id p)) then
      Raise (PermissionError "approval is not bound to this exact plan")
    else Ok tt.

(** ** Task envelopes *)

(** [envelope.model_dump(mode="json")]. *)
Definition envelope_dump (e : ConnectorTaskEnvelope) : dict :=
  [("protocol_version", PStr "1"); ("task_id", PStr (en_task_id e));
   ("plan_id", PStr (en_plan_id e)); ("node_id", PStr (en_node_id e));
   ("connector_id", PStr (en_connector_id e));
   ("connector_revision", PStr (en_connector_revision e)); ("action", PStr (en_action e));
   ("plan_hash", PStr (en_plan_hash e)); ("executable", PStr (en_executable e));
   ("arguments", PList (PStr <$> en_arguments e)); ("method_id", PStr (en_method_id e));
   ("package_source", PStr (en_package_source e));
   ("expected_executables", PList (PStr <$> en_expected_executables e));
   ("download_digest", ostr (en_download_digest e)); ("risk_level", PStr (en_risk_level e));
   ("nonce", PStr (en_nonce e)); ("issued_at", PStr (json_time (en_issued_at e)));
   ("expires_at", PStr (json_time (en_expires_at e))); ("key_id", PStr (en_key_id e));
   ("signature", PStr (en_signature e)); ("idempotency_key", PStr (en_idempotency_key e))].

(* @src control_plane/security.py:160-166 sign_connector_envelope *)
Definition sign_connector_envelope (e : ConnectorTaskEnvelope) (private_key : string) :
    res ConnectorTaskEnvelope :=
  res_bind (sign_bytes (canonical_json (envelope_dump e) "signature") private_key) (λ sg,
  Ok {| en_task_id := en_task_id e; en_plan_id := en_plan_id e; en_node_id := en_node_id e;
        en_connector_id := en_connector_id e;
        en_connector_revision := en_connector_revision e; en_action := en_action e;
        en_plan_hash := en_plan_hash e; en_executable := en_executable e;
        en_arguments := en_arguments e; en_method_id := en_method_id e;
        en_package_source := en_package_source e;
        en_expected_executables := en_expected_executables e;
        en_download_digest := en_download_digest e; en_risk_level := en_risk_level e;
        en_nonce := en_nonce e; en_issued_at := en_issued_at e;
        en_expires_at := en_expires_at e; en_key_id := en_key_id e; en_signature := sg;
        en_idempotency_key := en_idempotency_key e |}).

(* @src control_plane/security.py:169-175 verify_connector_envelope *)
Definition verify_connector_envelope (now : Z) (e : ConnectorTaskEnvelope)
    (public_key : string) : res unit :=
  if (en_expires_at e <=? now)%Z then
    Raise (ExpiredMessageError "connector task envelope has expired")
  else verify_bytes (canonical_json (envelope_dump e) "signature") (en_signature e) public_key.

(** ** The approval service of execution directives *)

(* @src execution/approval.py:24-34 ExecutionApprovalRequest *)
Record ExecutionApprovalRequest := {
  eq_approval_id : string;
  eq_execution_id : string;
  eq_attempt_id : string;
  eq_directive_hash : string;
  eq_reason : string;
  eq_created_at : Z;
  eq_expires_at : Z;
  eq_nonce : string
}.

(* @src execution/approval.py:40-51 ExecutionApprovalResponse *)
Record ExecutionApprovalResponse := {
  er_approval_id : string;
  er_execution_id : string;
  er_attempt_id : string;
  er_directive_hash : string;
  er_approved : bool;
  er_nonce : string;
  er_expires_at : Z;
  er_signature : string;
  er_public_key : string
}.

(** The service's state, with the readings of the clock and of the identifiers so far. *)
(* @src execution/approval.py:65-69 ApprovalContinuationService.__init__ *)
Record ApprovalService := {
  as_default_ttl : Z;
  as_private_key : string;
  as_public_key : string;
  as_seen : list (string * Z);
  as_pending : list (string * ExecutionApprovalRequest);
  as_clock : nat;
  as_uuids : nat
}.

Definition set_as (seen : list (string * Z)) (pending : list (string * ExecutionApprovalRequest))
    (c u : nat) (s : ApprovalService) : ApprovalService :=
  {| as_default_ttl := as_default_ttl s; as_private_key := as_private_key s;
     as_public_key := as_public_key s; as_seen := seen; as_pending := pending; as_clock := c;
     as_uuids := u |}.

Definition as_now : M ApprovalService Z := λ s,
  (Ok (clock (as_clock s)), set_as (as_seen s) (as_pending s) (S (as_clock s)) (as_uuids s) s).
Definition as_uuid : M ApprovalService string := λ s,
  (Ok (uuid_str (as_uuids s)), set_as (as_seen s) (as_pending s) (as_clock s) (S (as_uuids s)) s).
Definition on_seen (f : list (string * Z) → list (string * Z)) : M ApprovalService unit :=
  modify_state (λ s, set_as (f (as_seen s)) (as_pending s) (as_clock s) (as_uuids s) s).
Definition on_pending (f : list (string * ExecutionApprovalRequest) →
    list (string * ExecutionApprovalRequest)) : M ApprovalService unit :=
  modify_state (λ s, set_as (as_seen s) (f (as_pending s)) (as_clock s) (as_uuids s) s).

(* @src execution/approval.py:57-59 directive_hash *)
Definition directive_hash (payload : dict) : string := sha256_hex (json_compact (PDict payload)).

(* @src execution/approval.py:71-88 ApprovalContinuationService.request_approval *)
Definition request_approval (execution_id attempt_id : string) (directive_payload : dict)
    (reason : string) (expires_at : option Z) : M ApprovalService ExecutionApprovalRequest :=
  s ← get_state;
  expires_at ← match expires_at with
               | Some e => mret e
               | None => now ← as_now; mret (now + as_default_ttl s)%Z
               end;
  approval_id ← as_uuid;
  created_at ← as_now;
  nonce ← as_uuid;
  let request := {| eq_approval_id := approval_id; eq_execution_id := execution_id;
                    eq_attempt_id := attempt_id;
                    eq_directive_hash := directive_hash directive_payload;
                    eq_reason := reason; eq_created_at := created_at;
                    eq_expires_at := expires_at; eq_nonce := nonce |} in
  on_pending (dict_set approval_id request);;
  mret request.

(** The text that is signed. *)
Definition approval_text (approval_id execution_id attempt_id directive : string)
    (approved : bool) (nonce : string) (expires_at : Z) : string :=
  json_compact (PDict
    [("approval_id", PStr approval_id); ("execution_id", PStr execution_id);
     ("attempt_id", PStr attempt_id); ("directive_hash", PStr directive);
     ("approved", PBool approved); ("nonce", PStr nonce);
     ("expires_at", PStr (isoformat expires_at))]).

(* @src execution/approval.py:90-121 ApprovalContinuationService.sign_response *)
Definition sign_response (request : ExecutionApprovalRequest) (approved : bool) :
    M ApprovalService ExecutionApprovalResponse :=
  now ← as_now;
  if (eq_expires_at request <=? now)%Z then
    raise (ExpiredMessageError "approval request has expired")
  else
    s ← get_state;
    signature ← lift_res (sign_bytes
      (approval_text (eq_approval_id request) (eq_execution_id request)
         (eq_attempt_id request) (eq_directive_hash request) approved (eq_nonce request)
         (eq_expires_at request)) (as_private_key s));
    mret {| er_approval_id := eq_approval_id request;
            er_execution_id := eq_execution_id request;
            er_attempt_id := eq_attempt_id request;
            er_directive_hash := eq_directive_hash request; er_approved := approved;
            er_nonce := eq_nonce request; er_expires_at := eq_expires_at request;
            er_signature := signature; er_public_key := as_public_key s |}.

(* @src execution/approval.py:123-163 ApprovalContinuationService.verify_response *)
Definition verify_response (r : ExecutionApprovalResponse)
    (expected_execution_id expected_attempt_id expected_directive_hash : string) :
    M ApprovalService unit :=
  now ← as_now;
  if (er_expires_at r <=? now)%Z then
    raise (ExpiredMessageError "approval response has expired")
  else
    now ← as_now;
    on_seen (purge now);;
    s ← get_state;
    if dict_has (er_nonce r) (as_seen s) then
      raise (ReplayDetectedError "approval nonce has already been used")
    else if negb ((er_execution_id r == expected_execution_id) &&
                  (er_attempt_id r == expected_attempt_id) &&
                  (er_directive_hash r == expected_directive_hash)) then
      raise (PermissionError "approval is not bound to this execution")
    else
      lift_res (verify_bytes
        (approval_text (er_approval_id r) (er_execution_id r) (er_attempt_id r)
           (er_directive_hash r) (er_approved r) (er_nonce r) (er_expires_at r))
        (er_signature r) (er_public_key r));;
      if negb (er_approved r) then raise (PermissionError "execution was not approved")
      else
        on_seen (dict_set (er_nonce r) (er_expires_at r));;
        on_pending (dict_del (er_approval_id r)).
End approvals.

(** ** What is signed verifies *)

Lemma canonical_json_ext `{PyLib} d d' x :
  dict_del x d = dict_del x d' → canonical_json d x = canonical_json d' x.
Proof. unfold canonical_json. by intros ->. Qed.

Lemma sign_verify_bytes `{NodeLibLaws} msg private sg public :
  sign_bytes msg private = Ok sg → public_key_from_private private = Ok public →
  verify_bytes msg sg public = Ok tt.
Proof.
  unfold sign_bytes, public_key_from_private, verify_bytes.
  destruct (b64_decode private) as [k|]; [|done]. simpl. intros [= <-] [= <-].
  rewrite !b64_decode_encode. simpl. apply ed_verify_sign.
Qed.

(** ** Properties *)

Section properties.
Context `{PyLib} `{NodeLib}.

(** What a response must satisfy to be accepted in a state. *)
Definition acceptable (r : ExecutionApprovalResponse) (execution attempt directive : string)
    (s : ApprovalService) : Prop :=
  (clock (as_clock s) < er_expires_at r)%Z ∧
  dict_get (er_nonce r) (purge (clock (S (as_clock s))) (as_seen s)) = None ∧
  er_execution_id r = execution ∧ er_attempt_id r = attempt ∧ er_directive_hash r = directive ∧
  verify_bytes (approval_text (er_approval_id r) execution attempt directive true (er_nonce r)
                  (er_expires_at r)) (er_signature r) (er_public_key r) = Ok tt ∧
  er_approved r = true.

(** The state an accepted response leaves. *)
Definition after_acceptance (r : ExecutionApprovalResponse) (s : ApprovalService) :
    ApprovalService :=
  set_as (dict_set (er_nonce r) (er_expires_at r)
            (purge (clock (S (as_clock s))) (as_seen s)))
    (dict_del (er_approval_id r) (as_pending s)) (S (S (as_clock s))) (as_uuids s) s.

Lemma verify_response_Ok r x a d s s' :
  verify_response r x a d s = (Ok tt, s') ↔ acceptable r x a d s ∧ s' = after_acceptance r s.
Proof.
  unfold verify_response, acceptable, after_acceptance, as_now, on_seen, on_pending,
    modify_state, get_state, raise, lift_res, mbind, M_bind, dict_has. simpl.
  destruct (Z.leb_spec (er_expires_at r) (clock (as_clock s))); simpl;
    [split; [done|intros [(? & _) _]; lia]|].
  destruct (dict_get (er_nonce r) (purge _ _)); simpl; [split; [done|by intros [(_ & ? & _) _]]|].
  destruct (bool_decide (er_execution_id r = x)) eqn:E1; boolify; simpl;
    [|split; [done|by intros [(_ & _ & ? & _) _]]].
  destruct (bool_decide (er_attempt_id r = a)) eqn:E2; boolify; simpl;
    [|split; [done|by intros [(_ & _ & _ & ? & _) _]]].
  destruct (bool_decide (er_directive_hash r = d)) eqn:E3; boolify; simpl;
    [|split; [done|by intros [(_ & _ & _ & _ & ? & _) _]]].
  rewrite E1, E2, E3. destruct (er_approved r) eqn:Ha.
  - destruct (verify_bytes _ _ _) as [[]|e]; simpl;
      [|split; [done|by intros [(_ & _ & _ & _ & _ & ? & _) _]]].
    split; [intros [= <-]; split; [split_and!; done || lia|done]|by intros [_ ->]].
  - destruct (verify_bytes _ _ _) as [[]|e]; simpl;
      (split; [done|by intros [(_ & _ & _ & _ & _ & _ & ?) _]]).
Qed.

(** an approval response is accepted exactly when it has not expired, its nonce is not
    among the unexpired ones used before, it names the expected execution, attempt and
    directive, its signature covers every field, and it approves; its nonce is then kept
    until it expires and its request is no longer pending. *)
Theorem approval_accepted_iff r x a d s s' :
  verify_response r x a d s = (Ok tt, s') ↔ acceptable r x a d s ∧ s' = after_acceptance r s.
Proof. apply verify_response_Ok. Qed.

(** The operations of the service. *)
Inductive service_step (s : ApprovalService) : ApprovalService → Prop :=
| step_request x a p why e : service_step s (request_approval x a p why e s).2
| step_sign q b : service_step s (sign_response q b s).2
| step_verify r x a d : service_step s (verify_response r x a d s).2.

(** The nonce is kept, or a reading of the clock from the [from]-th on was at its expiry or
    after it; the clock may go back in between. *)
Definition spent (from : nat) (nonce : string) (expires : Z) (s : ApprovalService) : Prop :=
  from ≤ as_clock s ∧
  (dict_get nonce (as_seen s) = Some expires ∨
   ∃ n, from ≤ n < as_clock s ∧ (expires ≤ clock n)%Z).

Lemma dict_get_purge nonce e now seen :
  dict_get nonce seen = Some e → (now < e)%Z → dict_get nonce (purge now seen) = Some e.
Proof.
  intros Hg He. induction seen as [|[k v] seen IH]; simpl in *; [done|].
  case_bool_decide; simplify_eq.
  - assert ((now <? e)%Z = true) as -> by lia. simpl. by rewrite bool_decide_eq_true_2.
  - destruct (now <? v)%Z; simpl; [rewrite bool_decide_eq_false_2 by done|]; auto.
Qed.

Lemma spent_keeps from nonce e s seen pending n u :
  spent from nonce e s → as_clock s ≤ n → seen = as_seen s →
  spent from nonce e (set_as seen pending n u s).
Proof.
  intros [Hf Hs] Hn ->. split; simpl; [lia|]. destruct Hs as [Hg|(m & ? & ?)]; [by left|right].
  exists m. split; [lia|done].
Qed.

Lemma spent_purged from nonce e s :
  spent from nonce e s →
  dict_get nonce (purge (clock (S (as_clock s))) (as_seen s)) = Some e ∨
  ∃ n, from ≤ n < S (S (as_clock s)) ∧ (e ≤ clock n)%Z.
Proof.
  intros [Hf [Hg|(m & ? & ?)]]; [|right; exists m; split; [lia|done]].
  destruct (Z.leb_spec e (clock (S (as_clock s)))) as [He|He];
    [right; exists (S (as_clock s)); split; [lia|done]|left; by apply dict_get_purge].
Qed.

Lemma verify_response_Raise r x a d s ex s' :
  verify_response r x a d s = (Raise ex, s') →
  s' = set_as (as_seen s) (as_pending s) (S (as_clock s)) (as_uuids s) s ∨
  s' = set_as (purge (clock (S (as_clock s))) (as_seen s)) (as_pending s) (S (S (as_clock s)))
         (as_uuids s) s.
Proof.
  unfold verify_response, as_now, on_seen, on_pending, modify_state, get_state, raise, lift_res,
    mbind, M_bind. simpl.
  destruct (_ <=? _)%Z; [intros [= _ <-]; by left|]. simpl.
  destruct (dict_has _ _); [intros [= _ <-]; by right|].
  destruct (negb _); [intros [= _ <-]; by right|].
  destruct (verify_bytes _ _ _) as [[]|]; [|intros [= _ <-]; by right].
  destruct (negb _); [intros [= _ <-]; by right|done].
Qed.

Lemma spent_step from nonce e s s' :
  service_step s s' → spent from nonce e s → spent from nonce e s'.
Proof.
  intros Hs Hsp. destruct Hs as [x a p why ex|q b|r x a d].
  - unfold request_approval, as_now, as_uuid, on_pending, modify_state, get_state, mbind,
      M_bind, mret, M_ret. destruct ex; simpl; (apply (λ sn p n u, spent_keeps from nonce e s sn p n u Hsp); [simpl; lia|done]).
  - unfold sign_response, as_now, get_state, raise, lift_res, mbind, M_bind, mret, M_ret. simpl.
    assert (spent from nonce e (set_as (as_seen s) (as_pending s) (S (as_clock s)) (as_uuids s) s))
      by (apply spent_keeps; [done|lia|done]).
    destruct (_ <=? _)%Z; [done|]. by destruct (sign_bytes _ _).
  - pose proof (spent_purged _ _ _ _ Hsp) as Hp. destruct Hsp as [Hf Hsp].
    destruct (verify_response r x a d s) as [[[]|ex] s'] eqn:Hv; simpl.
    + apply verify_response_Ok in Hv as [(_ & Hn & _) ->]. split; simpl; [lia|].
      destruct Hp as [Hg|He]; [left|by right].
      rewrite dict_get_set_ne; [done|]. congruence.
    + apply verify_response_Raise in Hv as [->| ->];
        [apply spent_keeps; [by split|lia|done]|split; simpl; [lia|done]].
Qed.

Lemma spent_steps from nonce e s s' :
  rtc service_step s s' → spent from nonce e s → spent from nonce e s'.
Proof. induction 1; [done|]. eauto using spent_step. Qed.

(** C31: An approval response is accepted once: after it was accepted, and whatever the
    service did in between, it is refused again, unless a reading of the clock that the
    service took since then, the two of the second verification included, was at its expiry or
    after it, while the first reading of the second verification is before it. So it takes a
    clock that goes back, or an expiry between the two readings of one verification. *)
Theorem approval_is_not_replayed r x a d s s1 s2 x' a' d' :
  verify_response r x a d s = (Ok tt, s1) → rtc service_step s1 s2 →
  (∃ e, (verify_response r x' a' d' s2).1 = Raise e) ∨
  (clock (as_clock s2) < er_expires_at r)%Z ∧
  ∃ n, as_clock s1 ≤ n ≤ S (as_clock s2) ∧ (er_expires_at r ≤ clock n)%Z.
Proof.
  intros [_ ->]%verify_response_Ok Hs.
  assert (spent (as_clock (after_acceptance r s)) (er_nonce r) (er_expires_at r) s2) as Hsp.
  { eapply spent_steps; [exact Hs|]. split; [done|]. left. apply dict_get_set_eq. }
  destruct (verify_response r x' a' d' s2) as [[[]|e] s3] eqn:Hv; [right|left; by exists e].
  apply verify_response_Ok in Hv as [(Hlt & Hn & _) _]. split; [done|].
  destruct (spent_purged _ _ _ _ Hsp) as [Hg|(n & ? & ?)]; [congruence|].
  exists n. split; [lia|done].
Qed.
End properties.

(** what the service signs it accepts: with a public key that belongs to its private
    key, a response that approves, was signed before the request expired, and whose nonce
    was not used, is accepted for the execution, attempt and directive it was asked for. *)
Theorem signed_approval_is_accepted `{PyLib} `{NodeLibLaws} q s r s1 s2 :
  sign_response q true s = (Ok r, s1) →
  public_key_from_private (as_private_key s) = Ok (as_public_key s) →
  (clock (as_clock s2) < eq_expires_at q)%Z →
  dict_get (eq_nonce q) (purge (clock (S (as_clock s2))) (as_seen s2)) = None →
  verify_response r (eq_execution_id q) (eq_attempt_id q) (eq_directive_hash q) s2 =
  (Ok tt, after_acceptance r s2).
Proof.
  intros Hr Hk Hlt Hn. apply verify_response_Ok. split; [|done].
  unfold sign_response, as_now, get_state, raise, lift_res, mbind, M_bind, mret, M_ret in Hr.
  simpl in Hr. destruct (_ <=? _)%Z; [done|].
  unfold sign_bytes, public_key_from_private in *.
  simpl in Hr. destruct (b64_decode (as_private_key s)) as [k|] eqn:Hd; [|done].
  rewrite ?Hd in Hr. simpl in Hr, Hk. injection Hk as Hk. injection Hr as <- _.
  unfold acceptable. simpl. split_and!; try done.
  unfold verify_bytes. rewrite <- Hk, !b64_decode_encode. apply ed_verify_sign.
Qed.

(** an action of a node is only approved exactly: the plan and the decision have not
    expired, the decision approves, the hash of the plan is the one of its contents, and
    the decision names the plan, its hash, its user, its browser session and its node. *)
Theorem action_approved_iff `{PyLib} `{NodeLib} now now' p d :
  verify_approval now now' p d = Ok tt ↔
  (now < ap_expires_at p)%Z ∧ (now' < ad_expires_at d)%Z ∧ ad_approved d = true ∧
  p = bind_plan p ∧ ad_plan_id d = ap_id p ∧ ad_plan_hash d = ap_plan_hash p ∧
  ad_user_id d = ap_user_id p ∧ ad_browser_session_id d = ap_browser_session_id p ∧
  ad_node_id d = ap_node_id p.
Proof.
  assert (p = bind_plan p ↔ ap_plan_hash p = sha256_digest (plan_dump p) "plan_hash") as ->.
  { split; [intros Hb; by rewrite Hb at 1|]. intros Hh. unfold bind_plan. rewrite <- Hh.
    by destruct p. }
  unfold verify_approval.
  destruct (Z.leb_spec (ap_expires_at p) now), (Z.leb_spec (ad_expires_at d) now'); simpl;
    try (split; [done|intros (? & ? & _); lia]).
  destruct (ad_approved d); simpl; [|split; [done|by intros (_ & _ & ? & _)]].
  destruct (bool_decide (ap_plan_hash p = _)) eqn:Eh; boolify; simpl;
    [|split; [done|by intros (_ & _ & _ & ? & _)]].
  destruct (negb _) eqn:E; boolify; [|tauto].
  split; [done|]. intros (_ & _ & _ & _ & Hi & Hp & Hu & Hs & Hn).
  rewrite !bool_decide_eq_true_2 in E by done. done.
Qed.

(** ** Concrete runs *)

#[local] Existing Instance counting_lib.
#[local] Existing Instance toy_node_lib.
#[local] Existing Instance toy_node_laws.

Definition a_service : ApprovalService :=
  {| as_default_ttl := 900; as_private_key := "key"; as_public_key := "key"; as_seen := [];
     as_pending := []; as_clock := 0; as_uuids := 0 |}.

Definition a_response (key : string) : ExecutionApprovalResponse :=
  {| er_approval_id := "a"; er_execution_id := "x"; er_attempt_id := "1";
     er_directive_hash := "h"; er_approved := true; er_nonce := "n"; er_expires_at := 5;
     er_signature := key +:+ "|" +:+ approval_text "a" "x" "1" "h" true "n" 5;
     er_public_key := key |}.

(** A response that no one asked for, signed with a key of its own making, is accepted: the
    key of the response is used, not the one of the service, and the pending requests are
    not looked at. *)
Example foreign_key_is_accepted :
  as_pending a_service = [] ∧
  (verify_response (a_response "forged") "x" "1" "h" a_service).1 = Ok tt.
Proof. vm_compute. done. Qed.

(** A response is accepted a second time when it expires between the two readings. *)
Example replay_at_the_expiry :
  (verify_response (a_response "key") "x" "1" "h";;
   request_approval "y" "1" [] "why" None;;
   verify_response (a_response "key") "x" "1" "h") a_service =
  (Ok tt, (verify_response (a_response "key") "x" "1" "h"
             (request_approval "y" "1" [] "why" None
                (verify_response (a_response "key") "x" "1" "h" a_service).2).2).2).
Proof. vm_compute. reflexivity. Qed.

Lemma approval_is_not_replayed_witness :
  ∃ e, (verify_response (a_response "key") "x" "1" "h"
         (verify_response (a_response "key") "x" "1" "h" a_service).2).1 = Raise e.
Proof.
  pose (s1 := (verify_response (a_response "key") "x" "1" "h" a_service).2).
  assert (H : verify_response (a_response "key") "x" "1" "h" a_service = (Ok tt, s1))
    by (vm_compute; reflexivity).
  destruct (approval_is_not_replayed (a_response "key") "x" "1" "h"
    a_service s1 s1 "x" "1" "h" H (rtc_refl _ _)) as [He|[_ (n & Hn & Ht)]]; [exact He|].
  exfalso. assert (as_clock s1 = 2) as Hc by (vm_compute; reflexivity). rewrite Hc in Hn.
  simpl in Ht. lia.
Defined.

Definition a_request : ExecutionApprovalRequest :=
  {| eq_approval_id := "a"; eq_execution_id := "x"; eq_attempt_id := "1";
     eq_directive_hash := "h"; eq_reason := ""; eq_created_at := 0; eq_expires_at := 50;
     eq_nonce := "n" |}.

Lemma signed_approval_is_accepted_witness :
  let r := match (sign_response a_request true a_service).1 with
           | Ok r => r
           | Raise _ => a_response "key"
           end in
  verify_response r "x" "1" "h" a_service = (Ok tt, after_acceptance r a_service).
Proof.
  intros r.
  assert (Hs : sign_response a_request true a_service =
               (Ok r, (sign_response a_request true a_service).2)) by (vm_compute; reflexivity).
  apply (signed_approval_is_accepted a_request a_service r _ a_service Hs).
  - vm_compute. reflexivity.
  - vm_compute. reflexivity.
  - vm_compute. reflexivity.
Defined.
