(* ===== verification/NodeProtocol.v ===== *)
(** * The messages between the control plane and its nodes

    [NodeProtocolMessageType], [ProtocolMessage] and the wire form of
    [ConnectorTaskEnvelope] of [control_plane/contracts.py]. *)

From S2P Require Import Prelude Readiness NodeSecurity.

(* @src connectors/lifecycle_models.py:45-59 ConnectorTaskStatus.value *)
Definition ConnectorTaskStatus_value (t : ConnectorTaskStatus) : string :=
  match t with
  | TS_PLANNED => "planned" | TS_APPROVAL_REQUIRED => "approval_required"
  | TS_APPROVED => "approved" | TS_QUEUED => "queued"
  | TS_OFFERED_TO_NODE => "offered_to_node" | TS_ACCEPTED_BY_NODE => "accepted_by_node"
  | TS_RUNNING => "running" | TS_WAITING_FOR_USER => "waiting_for_user"
  | TS_WAITING_FOR_AUTH_CALLBACK => "waiting_for_auth_callback" | TS_SUCCEEDED => "succeeded"
  | TS_FAILED => "failed" | TS_CANCELLED => "cancelled" | TS_EXPIRED => "expired"
  | TS_INTERRUPTED => "interrupted"
  end.

(* @src connectors/lifecycle_models.py:62-71 ConnectorEvidenceType.value *)
Definition ConnectorEvidenceType_value (t : ConnectorEvidenceType) : string :=
  match t with
  | ET_DISCOVERY => "discovery" | ET_VERSION => "version" | ET_INSTALLATION => "installation"
  | ET_AUTHENTICATION => "authentication" | ET_ADAPTER_CONFORMANCE => "adapter_conformance"
  | ET_REAL_BINARY_TEST => "real_binary_test" | ET_CERTIFICATION => "certification"
  | ET_ROUTING => "routing" | ET_FAILURE => "failure"
  end.
Definition ConnectorEvidenceType_members : list ConnectorEvidenceType :=
  [ET_DISCOVERY; ET_VERSION; ET_INSTALLATION; ET_AUTHENTICATION; ET_ADAPTER_CONFORMANCE;
   ET_REAL_BINARY_TEST; ET_CERTIFICATION; ET_ROUTING; ET_FAILURE].

(* @src control_plane/contracts.py:74-107 NodeProtocolMessageType *)
Inductive NodeProtocolMessageType :=
| HELLO | WELCOME | CHALLENGE | AUTHENTICATE | SESSION_ESTABLISHED | READY | HEARTBEAT
| HEARTBEAT_ACK | PRESENCE | TASK_OFFER | TASK_ACCEPTED | TASK_REJECTED | TASK_STARTED
| TASK_PROGRESS | TASK_WAITING_FOR_USER | TASK_EVIDENCE | TASK_SUCCEEDED | TASK_FAILED
| TASK_CANCELLED | TASK_INTERRUPTED | TASK_EVENT | TASK_CANCEL | TASK_RESUME | TASK_COMPLETE
| TASK_RECONCILE | TASK_RECONCILE_RESPONSE | NODE_REVOKED | APPROVAL_REQUEST
| APPROVAL_DECISION | ERROR | NODE_ERROR | CONTROL_ERROR | GOODBYE.
#[export] Instance NodeProtocolMessageType_eq_dec : EqDecision NodeProtocolMessageType.
Proof. solve_decision. Defined.

(* @src control_plane/contracts.py:74-107 NodeProtocolMessageType *)
Definition NodeProtocolMessageType_value (t : NodeProtocolMessageType) : string :=
  match t with
  | HELLO => "hello" | WELCOME => "welcome" | CHALLENGE => "control.challenge"
  | AUTHENTICATE => "node.authenticate"
  | SESSION_ESTABLISHED => "control.session_established" | READY => "node.ready"
  | HEARTBEAT => "node.heartbeat" | HEARTBEAT_ACK => "control.heartbeat_ack"
  | PRESENCE => "presence" | TASK_OFFER => "task.offer" | TASK_ACCEPTED => "task.accepted"
  | TASK_REJECTED => "task.rejected" | TASK_STARTED => "task.started"
  | TASK_PROGRESS => "task.progress" | TASK_WAITING_FOR_USER => "task.waiting_for_user"
  | TASK_EVIDENCE => "task.evidence" | TASK_SUCCEEDED => "task.succeeded"
  | TASK_FAILED => "task.failed" | TASK_CANCELLED => "task.cancelled"
  | TASK_INTERRUPTED => "task.interrupted" | TASK_EVENT => "task.event"
  | TASK_CANCEL => "task.cancel" | TASK_RESUME => "task.resume"
  | TASK_COMPLETE => "task.complete" | TASK_RECONCILE => "task.reconcile"
  | TASK_RECONCILE_RESPONSE => "task.reconcile_response" | NODE_REVOKED => "node.revoked"
  | APPROVAL_REQUEST => "approval.request" | APPROVAL_DECISION => "approval.decision"
  | ERROR => "error" | NODE_ERROR => "node.error" | CONTROL_ERROR => "control.error"
  | GOODBYE => "goodbye"
  end.

(* @src control_plane/contracts.py:110-120 ProtocolMessage *)
Record ProtocolMessage := {
  pm_type : NodeProtocolMessageType;
  pm_message_id : string;
  pm_node_id : string;
  pm_sequence : Z;
  pm_timestamp : Z;
  pm_reply_to : option string;
  pm_payload : dict
}.

(** [ConnectorTaskEnvelope.model_validate], pydantic's reading of a payload, and what is
    documented of it: it reads back what [model_dump] wrote. *)
Class WireLib := { validate_envelope : dict → res ConnectorTaskEnvelope }.
Class WireLaws `{NodeLib} `{WireLib} := {
  validate_envelope_dump e : validate_envelope (envelope_dump e) = Ok e
}.

(** ** A concrete wire

    The fields are read from their places, the times as decimal numbers. *)

Definition text_at (k : string) (d : dict) : string :=
  match dict_get k d with Some (PStr s) => s | _ => "" end.
Definition texts_at (k : string) (d : dict) : list string :=
  match dict_get k d with
  | Some (PList l) => (λ v, match v with PStr s => s | _ => "" end) <$> l
  | _ => []
  end.
Definition toy_wire : WireLib :=
  {| validate_envelope d :=
       if dict_has "task_id" d then
         Ok {| en_task_id := text_at "task_id" d; en_plan_id := text_at "plan_id" d;
               en_node_id := text_at "node_id" d; en_connector_id := text_at "connector_id" d;
               en_connector_revision := text_at "connector_revision" d;
               en_action := text_at "action" d; en_plan_hash := text_at "plan_hash" d;
               en_executable := text_at "executable" d;
               en_arguments := texts_at "arguments" d; en_method_id := text_at "method_id" d;
               en_package_source := text_at "package_source" d;
               en_expected_executables := texts_at "expected_executables" d;
               en_download_digest :=
                 match dict_get "download_digest" d with Some (PStr s) => Some s | _ => None end;
               en_risk_level := text_at "risk_level" d; en_nonce := text_at "nonce" d;
               en_issued_at := default 0%Z (int_of_str (text_at "issued_at" d));
               en_expires_at := default 0%Z (int_of_str (text_at "expires_at" d));
               en_key_id := text_at "key_id" d; en_signature := text_at "signature" d;
               en_idempotency_key := text_at "idempotency_key" d |}
       else Raise (Exn "ValidationError" "" "task_id: Field required") |}.

Lemma texts_of_strs (l : list string) :
  (λ v, match v with PStr s => s | _ => "" end) <$> (PStr <$> l) = l.
Proof. induction l as [|x l IH]; [done|]. rewrite !fmap_cons. by f_equal. Qed.

Lemma toy_wire_laws : WireLaws (H := toy_node_lib) (H0 := toy_wire).
Proof.
  split. intros []. unfold validate_envelope, envelope_dump, text_at. simpl.
  unfold texts_at. simpl. f_equal. f_equal; try apply texts_of_strs.
  - by destruct en_download_digest.
  - unfold text_at. simpl. by rewrite int_of_str_pretty.
  - unfold text_at. simpl. by rewrite int_of_str_pretty.
Qed.
