(* ===== verification/NodeAgent.v ===== *)
(** * The node agent

    [control_plane/node.py] with its journal, [control_plane/journal.py]. The node is a state;
    what happens to it is a step relation: a message is received, a task that was accepted
    is given its handle, a handle begins, reports, ends, is cancelled; the connection opens
    and closes. The runner of the tasks is not a function here: it may report anything and
    end in any way. The journal is an SQLite table with the primary key
    [(task_id, plan_hash)]; times are kept as the integers their text stands for. *)

From S2P Require Import Prelude Readiness Connectors ConnectorStore NodeSecurity NodeProtocol.

(** ** The state of a node *)

(* @src control_plane/journal.py:13-24 LocalTaskJournalEntry *)
Record JournalRow := {
  jr_connector_id : string;
  jr_connector_revision : string;
  jr_status : string;
  jr_accepted_at : option Z;
  jr_started_at : option Z;
  jr_terminal_at : option Z;
  jr_terminal_result_digest : option string;
  jr_last_sequence_number : Z
}.

Abbreviation journal_key := (string * string)%type.
Abbreviation Journal := (gmap journal_key JournalRow).

(** An asyncio task that executes an envelope. [hd_began]: its coroutine has been entered;
    [hd_sequence] is the coroutine's variable. *)
Record Handle := {
  hd_id : nat;
  hd_envelope : ConnectorTaskEnvelope;
  hd_socket : nat;
  hd_began : bool;
  hd_cancelled : bool;
  hd_sequence : Z
}.

(** [nd_socket] is the open connection, [nd_ended] the exception that ended [run]. [nd_accepting] is an offer whose acceptance has been
    handed to the socket and whose handle is still to be made. [nd_log] is what was handed
    to a socket, and whether that socket was still open. *)
(* @src control_plane/node.py:92-123 JoyMeshNode.__init__ *)
Record Node := {
  nd_node_id : string;
  nd_private_key : string;
  nd_runtime_version : string;
  nd_max_messages : nat;
  nd_sequence : Z;
  nd_session_id : option string;
  nd_control_plane_public_key : option string;
  nd_journal : Journal;
  nd_replay : list ProtocolMessage;
  nd_stopping : bool;
  nd_revoked : bool;
  nd_ended : option exn;
  nd_socket : option nat;
  nd_handles : list Handle;
  nd_active_tasks : list (string * nat);
  nd_accepting : option (nat * ConnectorTaskEnvelope);
  nd_log : list (ProtocolMessage * bool);
  nd_next : nat;
  nd_clock : nat;
  nd_uuids : nat
}.

Definition set_sequence (v : Z) (s : Node) : Node :=
  {| nd_node_id := nd_node_id s; nd_private_key := nd_private_key s; nd_runtime_version :=
     nd_runtime_version s; nd_max_messages := nd_max_messages s; nd_sequence := v; nd_session_id
     := nd_session_id s; nd_control_plane_public_key := nd_control_plane_public_key s;
     nd_journal := nd_journal s; nd_replay := nd_replay s; nd_stopping := nd_stopping s;
     nd_revoked := nd_revoked s; nd_ended := nd_ended s; nd_socket := nd_socket s; nd_handles :=
     nd_handles s; nd_active_tasks := nd_active_tasks s; nd_accepting := nd_accepting s; nd_log
     := nd_log s; nd_next := nd_next s; nd_clock := nd_clock s; nd_uuids := nd_uuids s |}.
Definition set_session_id (v : option string) (s : Node) : Node :=
  {| nd_node_id := nd_node_id s; nd_private_key := nd_private_key s; nd_runtime_version :=
     nd_runtime_version s; nd_max_messages := nd_max_messages s; nd_sequence := nd_sequence s;
     nd_session_id := v; nd_control_plane_public_key := nd_control_plane_public_key s;
     nd_journal := nd_journal s; nd_replay := nd_replay s; nd_stopping := nd_stopping s;
     nd_revoked := nd_revoked s; nd_ended := nd_ended s; nd_socket := nd_socket s; nd_handles :=
     nd_handles s; nd_active_tasks := nd_active_tasks s; nd_accepting := nd_accepting s; nd_log
     := nd_log s; nd_next := nd_next s; nd_clock := nd_clock s; nd_uuids := nd_uuids s |}.
Definition set_control_plane_public_key (v : option string) (s : Node) : Node :=
  {| nd_node_id := nd_node_id s; nd_private_key := nd_private_key s; nd_runtime_version :=
     nd_runtime_version s; nd_max_messages := nd_max_messages s; nd_sequence := nd_sequence s;
     nd_session_id := nd_session_id s; nd_control_plane_public_key := v; nd_journal :=
     nd_journal s; nd_replay := nd_replay s; nd_stopping := nd_stopping s; nd_revoked :=
     nd_revoked s; nd_ended := nd_ended s; nd_socket := nd_socket s; nd_handles := nd_handles s;
     nd_active_tasks := nd_active_tasks s; nd_accepting := nd_accepting s; nd_log := nd_log s;
     nd_next := nd_next s; nd_clock := nd_clock s; nd_uuids := nd_uuids s |}.
Definition set_journal (v : Journal) (s : Node) : Node :=
  {| nd_node_id := nd_node_id s; nd_private_key := nd_private_key s; nd_runtime_version :=
     nd_runtime_version s; nd_max_messages := nd_max_messages s; nd_sequence := nd_sequence s;
     nd_session_id := nd_session_id s; nd_control_plane_public_key :=
     nd_control_plane_public_key s; nd_journal := v; nd_replay := nd_replay s; nd_stopping :=
     nd_stopping s; nd_revoked := nd_revoked s; nd_ended := nd_ended s; nd_socket := nd_socket
     s; nd_handles := nd_handles s; nd_active_tasks := nd_active_tasks s; nd_accepting :=
     nd_accepting s; nd_log := nd_log s; nd_next := nd_next s; nd_clock := nd_clock s; nd_uuids
     := nd_uuids s |}.
Definition set_replay (v : list ProtocolMessage) (s : Node) : Node :=
  {| nd_node_id := nd_node_id s; nd_private_key := nd_private_key s; nd_runtime_version :=
     nd_runtime_version s; nd_max_messages := nd_max_messages s; nd_sequence := nd_sequence s;
     nd_session_id := nd_session_id s; nd_control_plane_public_key :=
     nd_control_plane_public_key s; nd_journal := nd_journal s; nd_replay := v; nd_stopping :=
     nd_stopping s; nd_revoked := nd_revoked s; nd_ended := nd_ended s; nd_socket := nd_socket
     s; nd_handles := nd_handles s; nd_active_tasks := nd_active_tasks s; nd_accepting :=
     nd_accepting s; nd_log := nd_log s; nd_next := nd_next s; nd_clock := nd_clock s; nd_uuids
     := nd_uuids s |}.
Definition set_stopping (v : bool) (s : Node) : Node :=
  {| nd_node_id := nd_node_id s; nd_private_key := nd_private_key s; nd_runtime_version :=
     nd_runtime_version s; nd_max_messages := nd_max_messages s; nd_sequence := nd_sequence s;
     nd_session_id := nd_session_id s; nd_control_plane_public_key :=
     nd_control_plane_public_key s; nd_journal := nd_journal s; nd_replay := nd_replay s;
     nd_stopping := v; nd_revoked := nd_revoked s; nd_ended := nd_ended s; nd_socket :=
     nd_socket s; nd_handles := nd_handles s; nd_active_tasks := nd_active_tasks s; nd_accepting
     := nd_accepting s; nd_log := nd_log s; nd_next := nd_next s; nd_clock := nd_clock s;
     nd_uuids := nd_uuids s |}.
Definition set_revoked (v : bool) (s : Node) : Node :=
  {| nd_node_id := nd_node_id s; nd_private_key := nd_private_key s; nd_runtime_version :=
     nd_runtime_version s; nd_max_messages := nd_max_messages s; nd_sequence := nd_sequence s;
     nd_session_id := nd_session_id s; nd_control_plane_public_key :=
     nd_control_plane_public_key s; nd_journal := nd_journal s; nd_replay := nd_replay s;
     nd_stopping := nd_stopping s; nd_revoked := v; nd_ended := nd_ended s; nd_socket :=
     nd_socket s; nd_handles := nd_handles s; nd_active_tasks := nd_active_tasks s; nd_accepting
     := nd_accepting s; nd_log := nd_log s; nd_next := nd_next s; nd_clock := nd_clock s;
     nd_uuids := nd_uuids s |}.
Definition set_ended (v : option exn) (s : Node) : Node :=
  {| nd_node_id := nd_node_id s; nd_private_key := nd_private_key s; nd_runtime_version :=
     nd_runtime_version s; nd_max_messages := nd_max_messages s; nd_sequence := nd_sequence s;
     nd_session_id := nd_session_id s; nd_control_plane_public_key :=
     nd_control_plane_public_key s; nd_journal := nd_journal s; nd_replay := nd_replay s;
     nd_stopping := nd_stopping s; nd_revoked := nd_revoked s; nd_ended := v; nd_socket :=
     nd_socket s; nd_handles := nd_handles s; nd_active_tasks := nd_active_tasks s; nd_accepting
     := nd_accepting s; nd_log := nd_log s; nd_next := nd_next s; nd_clock := nd_clock s;
     nd_uuids := nd_uuids s |}.
Definition set_socket (v : option nat) (s : Node) : Node :=
  {| nd_node_id := nd_node_id s; nd_private_key := nd_private_key s; nd_runtime_version :=
     nd_runtime_version s; nd_max_messages := nd_max_messages s; nd_sequence := nd_sequence s;
     nd_session_id := nd_session_id s; nd_control_plane_public_key :=
     nd_control_plane_public_key s; nd_journal := nd_journal s; nd_replay := nd_replay s;
     nd_stopping := nd_stopping s; nd_revoked := nd_revoked s; nd_ended := nd_ended s; nd_socket
     := v; nd_handles := nd_handles s; nd_active_tasks := nd_active_tasks s; nd_accepting :=
     nd_accepting s; nd_log := nd_log s; nd_next := nd_next s; nd_clock := nd_clock s; nd_uuids
     := nd_uuids s |}.
Definition set_handles (v : list Handle) (s : Node) : Node :=
  {| nd_node_id := nd_node_id s; nd_private_key := nd_private_key s; nd_runtime_version :=
     nd_runtime_version s; nd_max_messages := nd_max_messages s; nd_sequence := nd_sequence s;
     nd_session_id := nd_session_id s; nd_control_plane_public_key :=
     nd_control_plane_public_key s; nd_journal := nd_journal s; nd_replay := nd_replay s;
     nd_stopping := nd_stopping s; nd_revoked := nd_revoked s; nd_ended := nd_ended s; nd_socket
     := nd_socket s; nd_handles := v; nd_active_tasks := nd_active_tasks s; nd_accepting :=
     nd_accepting s; nd_log := nd_log s; nd_next := nd_next s; nd_clock := nd_clock s; nd_uuids
     := nd_uuids s |}.
Definition set_active_tasks (v : list (string * nat)) (s : Node) : Node :=
  {| nd_node_id := nd_node_id s; nd_private_key := nd_private_key s; nd_runtime_version :=
     nd_runtime_version s; nd_max_messages := nd_max_messages s; nd_sequence := nd_sequence s;
     nd_session_id := nd_session_id s; nd_control_plane_public_key :=
     nd_control_plane_public_key s; nd_journal := nd_journal s; nd_replay := nd_replay s;
     nd_stopping := nd_stopping s; nd_revoked := nd_revoked s; nd_ended := nd_ended s; nd_socket
     := nd_socket s; nd_handles := nd_handles s; nd_active_tasks := v; nd_accepting :=
     nd_accepting s; nd_log := nd_log s; nd_next := nd_next s; nd_clock := nd_clock s; nd_uuids
     := nd_uuids s |}.
Definition set_accepting (v : option (nat * ConnectorTaskEnvelope)) (s : Node) : Node :=
  {| nd_node_id := nd_node_id s; nd_private_key := nd_private_key s; nd_runtime_version :=
     nd_runtime_version s; nd_max_messages := nd_max_messages s; nd_sequence := nd_sequence s;
     nd_session_id := nd_session_id s; nd_control_plane_public_key :=
     nd_control_plane_public_key s; nd_journal := nd_journal s; nd_replay := nd_replay s;
     nd_stopping := nd_stopping s; nd_revoked := nd_revoked s; nd_ended := nd_ended s; nd_socket
     := nd_socket s; nd_handles := nd_handles s; nd_active_tasks := nd_active_tasks s;
     nd_accepting := v; nd_log := nd_log s; nd_next := nd_next s; nd_clock := nd_clock s;
     nd_uuids := nd_uuids s |}.
Definition set_log (v : list (ProtocolMessage * bool)) (s : Node) : Node :=
  {| nd_node_id := nd_node_id s; nd_private_key := nd_private_key s; nd_runtime_version :=
     nd_runtime_version s; nd_max_messages := nd_max_messages s; nd_sequence := nd_sequence s;
     nd_session_id := nd_session_id s; nd_control_plane_public_key :=
     nd_control_plane_public_key s; nd_journal := nd_journal s; nd_replay := nd_replay s;
     nd_stopping := nd_stopping s; nd_revoked := nd_revoked s; nd_ended := nd_ended s; nd_socket
     := nd_socket s; nd_handles := nd_handles s; nd_active_tasks := nd_active_tasks s;
     nd_accepting := nd_accepting s; nd_log := v; nd_next := nd_next s; nd_clock := nd_clock s;
     nd_uuids := nd_uuids s |}.
Definition set_next (v : nat) (s : Node) : Node :=
  {| nd_node_id := nd_node_id s; nd_private_key := nd_private_key s; nd_runtime_version :=
     nd_runtime_version s; nd_max_messages := nd_max_messages s; nd_sequence := nd_sequence s;
     nd_session_id := nd_session_id s; nd_control_plane_public_key :=
     nd_control_plane_public_key s; nd_journal := nd_journal s; nd_replay := nd_replay s;
     nd_stopping := nd_stopping s; nd_revoked := nd_revoked s; nd_ended := nd_ended s; nd_socket
     := nd_socket s; nd_handles := nd_handles s; nd_active_tasks := nd_active_tasks s;
     nd_accepting := nd_accepting s; nd_log := nd_log s; nd_next := v; nd_clock := nd_clock s;
     nd_uuids := nd_uuids s |}.
Definition set_clock (v : nat) (s : Node) : Node :=
  {| nd_node_id := nd_node_id s; nd_private_key := nd_private_key s; nd_runtime_version :=
     nd_runtime_version s; nd_max_messages := nd_max_messages s; nd_sequence := nd_sequence s;
     nd_session_id := nd_session_id s; nd_control_plane_public_key :=
     nd_control_plane_public_key s; nd_journal := nd_journal s; nd_replay := nd_replay s;
     nd_stopping := nd_stopping s; nd_revoked := nd_revoked s; nd_ended := nd_ended s; nd_socket
     := nd_socket s; nd_handles := nd_handles s; nd_active_tasks := nd_active_tasks s;
     nd_accepting := nd_accepting s; nd_log := nd_log s; nd_next := nd_next s; nd_clock := v;
     nd_uuids := nd_uuids s |}.
Definition set_uuids (v : nat) (s : Node) : Node :=
  {| nd_node_id := nd_node_id s; nd_private_key := nd_private_key s; nd_runtime_version :=
     nd_runtime_version s; nd_max_messages := nd_max_messages s; nd_sequence := nd_sequence s;
     nd_session_id := nd_session_id s; nd_control_plane_public_key :=
     nd_control_plane_public_key s; nd_journal := nd_journal s; nd_replay := nd_replay s;
     nd_stopping := nd_stopping s; nd_revoked := nd_revoked s; nd_ended := nd_ended s; nd_socket
     := nd_socket s; nd_handles := nd_handles s; nd_active_tasks := nd_active_tasks s;
     nd_accepting := nd_accepting s; nd_log := nd_log s; nd_next := nd_next s; nd_clock :=
     nd_clock s; nd_uuids := v |}.

Definition set_hd (began cancelled : bool) (sequence : Z) (h : Handle) : Handle :=
  {| hd_id := hd_id h; hd_envelope := hd_envelope h; hd_socket := hd_socket h;
     hd_began := began; hd_cancelled := cancelled; hd_sequence := sequence |}.

Abbreviation N := (M Node).

(** A node that has just been made; the journal is what its file holds. *)
(* @src control_plane/node.py:92-123 JoyMeshNode.__init__ *)
Definition JoyMeshNode (node_id gateway_url private_key runtime_version : string)
    (journal : Journal) (control_plane_public_key : option string) : res Node :=
  if negb (startswith "wss://" gateway_url) && negb (str_in "localhost" gateway_url) then
    Raise (ValueError "JoyMesh Node requires wss:// outside local development")
  else
    Ok {| nd_node_id := node_id; nd_private_key := private_key;
          nd_runtime_version := runtime_version; nd_max_messages := 1000; nd_sequence := 0;
          nd_session_id := None; nd_control_plane_public_key := control_plane_public_key;
          nd_journal := journal; nd_replay := []; nd_stopping := false; nd_revoked := false;
          nd_ended := None; nd_socket := None; nd_handles := []; nd_active_tasks := [];
          nd_accepting := None; nd_log := []; nd_next := 0; nd_clock := 0; nd_uuids := 0 |}.

(* @src control_plane/node.py:39-40 NodeProtocolError *)
Definition NodeProtocolError (m : string) : exn := Exn "NodeProtocolError" "" m.

(** ** The replay buffer *)

(** [messages[-max_messages:]], which is the whole list for [max_messages = 0]. *)
Definition last_messages (max : nat) (l : list ProtocolMessage) : list ProtocolMessage :=
  if bool_decide (max = 0) then l else drop (length l - max) l.

(* @src control_plane/node.py:48-51 ReplayBuffer.append *)
Definition buffer_append (max : nat) (m : ProtocolMessage) (l : list ProtocolMessage) :
    list ProtocolMessage :=
  let l := l ++ [m] in
  if bool_decide (max < length l) then last_messages max l else l.

(* @src control_plane/node.py:53-54 ReplayBuffer.after *)
Definition buffer_after (sequence : Z) (l : list ProtocolMessage) : list ProtocolMessage :=
  List.filter (λ m, (sequence <? pm_sequence m)%Z) l.

Section agent.
Context `{PyLib} `{SqlEngine} `{NodeLib} `{WireLib}.

Definition utc_now : N Z := λ s, (Ok (clock (nd_clock s)), set_clock (S (nd_clock s)) s).
Definition uuid4 : N string := λ s, (Ok (uuid_str (nd_uuids s)), set_uuids (S (nd_uuids s)) s).

(** ** The journal *)

(* @src control_plane/journal.py:63-69 NodeTaskJournal.get *)
Definition journal_get (task_id plan_hash : string) : N (option JournalRow) :=
  s ← get_state; mret (nd_journal s !! (task_id, plan_hash)).

(** [entry = self.get(...); assert entry is not None]. *)
Definition journal_entry (task_id plan_hash : string) : N JournalRow :=
  e ← journal_get task_id plan_hash;
  match e with Some r => mret r | None => raise AssertionError end.

(** [UPDATE task_journal SET ... WHERE task_id = ? AND plan_hash = ?]. *)
Definition journal_update (f : JournalRow → JournalRow) (task_id plan_hash : string) : N unit :=
  modify_state (λ s, set_journal (alter f (task_id, plan_hash) (nd_journal s)) s).

(** The same with [AND terminal_at IS NULL]. *)
Definition unless_terminal (f : JournalRow → JournalRow) (r : JournalRow) : JournalRow :=
  match jr_terminal_at r with Some _ => r | None => f r end.

(* @src control_plane/journal.py:71-97 NodeTaskJournal.accept *)
Definition journal_accept (task_id plan_hash connector_id connector_revision : string) :
    N JournalRow :=
  existing ← journal_get task_id plan_hash;
  match existing with
  | Some r => mret r
  | None =>
      now ← utc_now;
      modify_state (λ s, set_journal (<[(task_id, plan_hash) :=
        {| jr_connector_id := connector_id; jr_connector_revision := connector_revision;
           jr_status := "accepted"; jr_accepted_at := Some now; jr_started_at := None;
           jr_terminal_at := None; jr_terminal_result_digest := None;
           jr_last_sequence_number := 0 |}]> (nd_journal s)) s);;
      journal_entry task_id plan_hash
  end.

(* @src control_plane/journal.py:99-112 NodeTaskJournal.mark_started *)
Definition mark_started (task_id plan_hash : string) : N JournalRow :=
  now ← utc_now;
  journal_update (unless_terminal (λ r,
    {| jr_connector_id := jr_connector_id r; jr_connector_revision := jr_connector_revision r;
       jr_status := "running"; jr_accepted_at := jr_accepted_at r; jr_started_at := Some now;
       jr_terminal_at := jr_terminal_at r;
       jr_terminal_result_digest := jr_terminal_result_digest r;
       jr_last_sequence_number := jr_last_sequence_number r |})) task_id plan_hash;;
  journal_entry task_id plan_hash.

(* @src control_plane/journal.py:114-136 NodeTaskJournal.mark_terminal *)
Definition mark_terminal (task_id plan_hash status result_digest : string) (sequence : Z) :
    N JournalRow :=
  now ← utc_now;
  journal_update (unless_terminal (λ r,
    {| jr_connector_id := jr_connector_id r; jr_connector_revision := jr_connector_revision r;
       jr_status := status; jr_accepted_at := jr_accepted_at r;
       jr_started_at := jr_started_at r; jr_terminal_at := Some now;
       jr_terminal_result_digest := Some result_digest;
       jr_last_sequence_number := sequence |})) task_id plan_hash;;
  journal_entry task_id plan_hash.

(* @src control_plane/journal.py:138-148 NodeTaskJournal.update_sequence *)
Definition update_sequence (task_id plan_hash : string) (sequence : Z) : N unit :=
  journal_update (λ r,
    {| jr_connector_id := jr_connector_id r; jr_connector_revision := jr_connector_revision r;
       jr_status := jr_status r; jr_accepted_at := jr_accepted_at r;
       jr_started_at := jr_started_at r; jr_terminal_at := jr_terminal_at r;
       jr_terminal_result_digest := jr_terminal_result_digest r;
       jr_last_sequence_number := sequence |}) task_id plan_hash.

(** The rows come in the order the engine likes. *)
(* @src control_plane/journal.py:150-175 NodeTaskJournal.summary *)
Definition journal_summary (j : Journal) : pyval :=
  let entries := heap_order (map_to_list j) in
  let active := List.filter (λ e, jr_terminal_at e.2 == None) entries in
  let terminal := List.filter (λ e, jr_terminal_at e.2 != None) entries in
  PDict [("active", PList ((λ e, PDict
            [("task_id", PStr e.1.1); ("plan_hash", PStr e.1.2);
             ("status", PStr (jr_status e.2));
             ("last_sequence_number", PInt (jr_last_sequence_number e.2))]) <$> active));
         ("terminal", PList ((λ e, PDict
            [("task_id", PStr e.1.1); ("plan_hash", PStr e.1.2);
             ("status", PStr (jr_status e.2));
             ("terminal_result_digest", ostr (jr_terminal_result_digest e.2));
             ("last_sequence_number", PInt (jr_last_sequence_number e.2))]) <$> terminal))].
Definition summary : N pyval := s ← get_state; mret (journal_summary (nd_journal s)).

(** ** Sending

    A message has its number and its place in the buffer before the socket is tried. *)

Definition ConnectionClosed : exn := Exn "ConnectionClosed" "" "".

(* @src control_plane/node.py:487-503 JoyMeshNode._send *)
Definition _send (socket : nat) (t : NodeProtocolMessageType) (payload : dict) : N unit :=
  modify_state (λ s, set_sequence (nd_sequence s + 1)%Z s);;
  now ← utc_now;
  id ← uuid4;
  s ← get_state;
  let m := {| pm_type := t; pm_message_id := id; pm_node_id := nd_node_id s;
              pm_sequence := nd_sequence s; pm_timestamp := now; pm_reply_to := None;
              pm_payload := payload |} in
  modify_state (set_replay (buffer_append (nd_max_messages s) m (nd_replay s)));;
  let open := nd_socket s == Some socket in
  modify_state (λ s, set_log (nd_log s ++ [(m, open)]) s);;
  if open : bool then mret tt else raise ConnectionClosed.

(** The fields every message about an envelope's task starts with. *)
Definition about_task (node_id : string) (e : ConnectorTaskEnvelope) (rest : dict) : dict :=
  [("task_id", PStr (en_task_id e)); ("node_id", PStr node_id);
   ("connector_id", PStr (en_connector_id e));
   ("connector_revision", PStr (en_connector_revision e));
   ("plan_hash", PStr (en_plan_hash e))] ++ rest.

Definition send_about (socket : nat) (t : NodeProtocolMessageType) (e : ConnectorTaskEnvelope)
    (rest : dict) : N unit :=
  s ← get_state; _send socket t (about_task (nd_node_id s) e rest).

(** ** Offers *)

Definition cancel_handle (id : nat) (h : Handle) : Handle :=
  if hd_id h == id then set_hd (hd_began h) true (hd_sequence h) h else h.

(** [existing.last_sequence_number or 1]. *)
Definition or_one (z : Z) : Z := if (z =? 0)%Z then 1 else z.

(** The rest of the handler: a new entry, unless there is one that has not begun. Its handle
    is made when the message has been sent: until then no other message is handled. *)
(* @src control_plane/node.py:335-352 JoyMeshNode._accept_connector_offer *)
Definition accept_new (socket : nat) (envelope : ConnectorTaskEnvelope) : N unit :=
  journal_accept (en_task_id envelope) (en_plan_hash envelope) (en_connector_id envelope)
    (en_connector_revision envelope);;
  send_about socket TASK_ACCEPTED envelope [("sequence_number", PInt 1)];;
  modify_state (set_accepting (Some (socket, envelope))).

(** A task is active when its handle is registered and is not done. *)
Definition process_active (task_id : string) (s : Node) : bool :=
  match dict_get task_id (nd_active_tasks s) with
  | Some id => id in? (hd_id <$> nd_handles s)
  | None => false
  end.

(* @src control_plane/node.py:266-355 JoyMeshNode._accept_connector_offer *)
Definition _accept_connector_offer (socket : nat) (message : ProtocolMessage) : N unit :=
  s ← get_state;
  if nd_revoked s then
    _send socket TASK_REJECTED (dict_update [("reason", PStr "node revoked")] (pm_payload message))
  else
    envelope ← lift_res (validate_envelope (pm_payload message));
    if negb (otruthy (nd_control_plane_public_key s)) then
      raise (NodeProtocolError "control plane public key unknown")
    else
      now ← utc_now;
      lift_res (verify_connector_envelope now envelope
                  (default "" (nd_control_plane_public_key s)));;
      if en_node_id envelope != nd_node_id s then
        raise (PermissionError "task is addressed to another node")
      else
        existing ← journal_get (en_task_id envelope) (en_plan_hash envelope);
        match existing with
        | Some r =>
            match jr_terminal_at r, jr_started_at r with
            | Some _, _ =>
                send_about socket
                  (if jr_status r == "succeeded" then TASK_SUCCEEDED else TASK_FAILED) envelope
                  [("sequence_number", PInt (jr_last_sequence_number r));
                   ("detail", PStr "replayed terminal result");
                   ("terminal_result_digest", ostr (jr_terminal_result_digest r))]
            | None, Some _ =>
                send_about socket TASK_ACCEPTED envelope
                  [("sequence_number", PInt (or_one (jr_last_sequence_number r)));
                   ("detail", PStr "resumed without duplicate execution");
                   ("process_active", PBool (process_active (en_task_id envelope) s));
                   ("journal_status", PStr (jr_status r))];;
                send_about socket
                  (if en_action envelope == "authenticate" then TASK_WAITING_FOR_USER
                   else TASK_PROGRESS) envelope
                  [("sequence_number", PInt (Z.max (jr_last_sequence_number r) 1 + 1));
                   ("detail", PStr "reconciled active journal entry; Cursor not relaunched")]
            | None, None => accept_new socket envelope
            end
        | None => accept_new socket envelope
        end.

(** [asyncio.create_task(...)], registered under the task's identifier. *)
(* @src control_plane/node.py:353-355 JoyMeshNode._accept_connector_offer *)
Definition launch (socket : nat) (envelope : ConnectorTaskEnvelope) (s : Node) : Node :=
  let id := nd_next s in
  let h := {| hd_id := id; hd_envelope := envelope; hd_socket := socket; hd_began := false;
              hd_cancelled := false; hd_sequence := 1 |} in
  set_accepting None (set_next (S id)
    (set_active_tasks (dict_set (en_task_id envelope) id (nd_active_tasks s))
       (set_handles (nd_handles s ++ [h]) s))).

(** ** Messages *)

(* @src control_plane/node.py:174-177 JoyMeshNode.stop *)
Definition stop : N unit :=
  modify_state (λ s, set_stopping true (set_handles
    ((λ h, if hd_id h in? (nd_active_tasks s).*2 then set_hd (hd_began h) true (hd_sequence h) h
           else h) <$> nd_handles s) s)).

(** The message's other listeners and [runner.cancel_task], which acts on processes, have no
    part in the state. *)
(* @src control_plane/node.py:208-264 JoyMeshNode._handle *)
Definition _handle (socket : nat) (message : ProtocolMessage) : N unit :=
  s ← get_state;
  match pm_type message with
  | CHALLENGE =>
      match dict_get "challenge" (pm_payload message) with
      | None => raise (KeyError "'challenge'")
      | Some v =>
          let challenge := py_str v in
          signature ← lift_res (sign_bytes challenge (nd_private_key s));
          _send socket AUTHENTICATE
            [("challenge", PStr challenge); ("signature", PStr signature);
             ("runtime_version", PStr (nd_runtime_version s))]
      end
  | SESSION_ESTABLISHED =>
      modify_state (set_session_id (Some (py_str (dget "session_id" (pm_payload message)))));;
      modify_state (set_control_plane_public_key (Some (py_str
        (py_or (dget "control_plane_public_key" (pm_payload message))
           (py_or (ostr (nd_control_plane_public_key s)) (PStr ""))))));;
      s ← get_state;
      journal ← summary;
      _send socket READY [("session_id", ostr (nd_session_id s)); ("journal", journal)]
  | NODE_REVOKED => modify_state (set_revoked true);; stop
  | TASK_RECONCILE =>
      j ← summary;
      _send socket TASK_RECONCILE_RESPONSE (match j with PDict d => d | _ => [] end)
  | TASK_OFFER => _accept_connector_offer socket message
  | TASK_CANCEL =>
      let task_id := match dict_get "task_id" (pm_payload message) with
                     | Some v => py_str v
                     | None => ""
                     end in
      match dict_get task_id (nd_active_tasks s) with
      | Some id => modify_state (set_handles (cancel_handle id <$> nd_handles s))
      | None => mret tt
      end
  | _ => mret tt
  end.

(** A message addressed to another node ends the connection. *)
(* @src control_plane/node.py:196-202 JoyMeshNode._connected *)
Definition receive (socket : nat) (message : ProtocolMessage) : N unit :=
  s ← get_state;
  if pm_node_id message in? [nd_node_id s; ""] then _handle socket message
  else raise (NodeProtocolError "received message for a different node").

(* @src control_plane/node.py:184-194 JoyMeshNode._connected *)
Definition hello (socket : nat) : N unit :=
  s ← get_state;
  j ← summary;
  _send socket HELLO [("last_sequence", PInt (nd_sequence s));
                      ("runtime_version", PStr (nd_runtime_version s)); ("journal", j)].

(* @src control_plane/node.py:473-485 JoyMeshNode._heartbeat *)
Definition heartbeat (socket : nat) : N unit :=
  s ← get_state;
  j ← summary;
  _send socket HEARTBEAT
    [("status", PStr "online"); ("session_id", ostr (nd_session_id s));
     ("active_task_ids", PList (PStr <$> dict_keys (nd_active_tasks s))); ("journal", j)].

(** ** Executing a task *)

Definition ConnectorAction_members : list ConnectorAction :=
  [DISCOVER; INSTALL; UPGRADE; UNINSTALL; REPAIR; Connectors.AUTHENTICATE; VERIFY_AUTHENTICATION;
   VERIFY_ADAPTER; CERTIFY; ENABLE_ROUTING; DISABLE_ROUTING].

(* @src control_plane/node.py:418-433 JoyMeshNode._execute_connector_task *)
Definition plan_of_envelope (e : ConnectorTaskEnvelope) : res ConnectorTaskPlan :=
  match enum_of ConnectorAction_value ConnectorAction_members (en_action e) with
  | Some action =>
      Ok {| tp_plan_id := en_plan_id e; tp_node_id := en_node_id e;
            tp_connector_id := en_connector_id e;
            tp_connector_revision := en_connector_revision e; tp_action := action;
            tp_method_id := en_method_id e; tp_executable := en_executable e;
            tp_arguments := en_arguments e; tp_package_source := en_package_source e;
            tp_expected_executables := en_expected_executables e; tp_requires_admin := false;
            tp_modifies_path := false; tp_modifies_shell_profile := false;
            tp_download_digest := en_download_digest e; tp_risk_level := en_risk_level e;
            tp_expires_at := en_expires_at e; tp_plan_hash := en_plan_hash e |}
  | None => Raise (ValueError (repr_str (en_action e) +:+ " is not a valid ConnectorAction"))
  end.

(** The start of the coroutine; it gives what the runner is called with. *)
(* @src control_plane/node.py:357-361 JoyMeshNode._execute_connector_task *)
Definition begin_execution (e : ConnectorTaskEnvelope) : N ConnectorTaskPlan :=
  mark_started (en_task_id e) (en_plan_hash e);;
  lift_res (plan_of_envelope e).

(* @src control_plane/node.py:367-374 JoyMeshNode._execute_connector_task.emit_event *)
Definition event_message_type (event_type : string) : NodeProtocolMessageType :=
  default TASK_PROGRESS (dict_get event_type
    [("task.started", TASK_STARTED); ("task.waiting_for_user", TASK_WAITING_FOR_USER);
     ("task.succeeded", TASK_SUCCEEDED); ("task.failed", TASK_FAILED);
     ("task.cancelled", TASK_CANCELLED); ("task.interrupted", TASK_INTERRUPTED)]).

(** The coroutine's variable [sequence]. *)
Definition set_hd_sequence (id : nat) (z : Z) : N unit :=
  modify_state (λ s, set_handles
    ((λ h, if hd_id h == id then set_hd (hd_began h) (hd_cancelled h) z h else h)
       <$> nd_handles s) s).

(* @src control_plane/node.py:363-387 JoyMeshNode._execute_connector_task.emit_event *)
Definition emit_event (h : Handle) (event : ConnectorTaskEvent) : N unit :=
  let e := hd_envelope h in
  let sequence := Z.max (hd_sequence h) (te_sequence event) in
  set_hd_sequence (hd_id h) sequence;;
  update_sequence (en_task_id e) (en_plan_hash e) sequence;;
  s ← get_state;
  _send (hd_socket h) (event_message_type (te_event_type event))
    (dict_update
       (about_task (nd_node_id s) e [("sequence_number", PInt (te_sequence event))])
       (te_payload event)).

(* @src control_plane/node.py:389-416 JoyMeshNode._execute_connector_task.record_evidence *)
Definition record_evidence (h : Handle) (ev : ConnectorEvidence) : N unit :=
  let sequence := (hd_sequence h + 1)%Z in
  set_hd_sequence (hd_id h) sequence;;
  send_about (hd_socket h) TASK_EVIDENCE (hd_envelope h)
    [("sequence_number", PInt sequence);
     ("evidence", PDict
       [("evidence_id", PStr (ev_evidence_id ev));
        ("evidence_type", PStr (ConnectorEvidenceType_value (ev_evidence_type ev)));
        ("status", PStr (ev_status ev)); ("executable_path", ostr (ev_executable_path ev));
        ("executable_fingerprint", ostr (ev_executable_fingerprint ev));
        ("harness_version", ostr (ev_harness_version ev));
        ("provider_mode", ostr (ev_provider_mode ev));
        ("connector_revision", PStr (ev_connector_revision ev));
        ("trust_level", PStr (EvidenceTrustLevel_value (ev_trust_level ev)));
        ("execution_origin", PStr (ConnectorExecutionOrigin_value (ev_execution_origin ev)));
        ("details", PDict (ev_details ev))])].

(** [json.dumps(..., sort_keys=True)]. *)
Definition result_digest (task_id status : string) : string :=
  sha256_hex ("{" +:+ json_str "status" +:+ ": " +:+ json_str status +:+ ", " +:+
              json_str "task_id" +:+ ": " +:+ json_str task_id +:+ "}").

(** The runner has returned a status. *)
(* @src control_plane/node.py:457-471 JoyMeshNode._execute_connector_task *)
Definition finish_execution (h : Handle) (status : ConnectorTaskStatus) : N unit :=
  let e := hd_envelope h in
  if status == TS_WAITING_FOR_USER then mret tt
  else
    mark_terminal (en_task_id e) (en_plan_hash e) (ConnectorTaskStatus_value status)
      (result_digest (en_task_id e) (ConnectorTaskStatus_value status)) (hd_sequence h);;
    mret tt.

(** The runner was cancelled. *)
(* @src control_plane/node.py:442-456 JoyMeshNode._execute_connector_task *)
Definition cancel_execution (h : Handle) : N unit :=
  send_about (hd_socket h) TASK_CANCELLED (hd_envelope h)
    [("sequence_number", PInt (hd_sequence h + 1))];;
  raise (Exn "CancelledError" "" "").

(** The asyncio task is done, and its callback takes the task's identifier out of
    [_active_tasks], whichever handle is registered there. *)
(* @src control_plane/node.py:355-355 JoyMeshNode._accept_connector_offer *)
Definition end_handle (h : Handle) (s : Node) : Node :=
  set_active_tasks (dict_del (en_task_id (hd_envelope h)) (nd_active_tasks s))
    (set_handles (List.filter (λ h', negb (hd_id h' == hd_id h)) (nd_handles s)) s).

(** ** What can happen to a node *)

Inductive event :=
| EvConnect
| EvReceive (m : ProtocolMessage)
| EvLaunch
| EvLaunchFails
| EvHeartbeat
| EvClosed
| EvLost
| EvStop
| EvBegin (id : nat)
| EvEmit (id : nat) (ev : ConnectorTaskEvent)
| EvEvidence (id : nat) (ev : ConnectorEvidence)
| EvFinish (id : nat) (status : ConnectorTaskStatus)
| EvRaise (id : nat)
| EvCancelled (id : nat).

(** The exceptions after which [run] connects again: [OSError] with its subclasses (among
    which [PermissionError] and the errors of security.py), [TimeoutError] and
    [NodeProtocolError]. Another one ends [run]. *)
(* @src control_plane/node.py:163-163 JoyMeshNode.run *)
Definition run_retries (e : exn) : bool :=
  exn_class e in? ["OSError"; "PermissionError"; "ReplayDetectedError"; "ExpiredMessageError";
                   "TimeoutError"; "NodeProtocolError"].

(** [min(max_backoff_seconds, 2 ** min(attempt, 8))]: the wait is random below it. *)
(* @src control_plane/node.py:164-165 JoyMeshNode.run *)
Definition backoff_ceiling (max_backoff_seconds attempt : Z) : Z :=
  Z.min max_backoff_seconds (2 ^ Z.min attempt 8).

Definition find_handle (id : nat) (s : Node) : option Handle :=
  List.find (λ h, hd_id h == id) (nd_handles s).

(** The connection ends with an exception. *)
(* @src control_plane/node.py:141-172 JoyMeshNode.run *)
Definition connection_failed (e : exn) (s : Node) : Node :=
  set_socket None (if run_retries e then s else set_ended (Some e) s).

(* @src control_plane/node.py:141-172 JoyMeshNode.run *)
Definition next (ev : event) (s : Node) : option Node :=
  match ev with
  | EvConnect =>
      match nd_socket s, nd_accepting s, nd_ended s with
      | None, None, None =>
          if nd_stopping s || nd_revoked s then None
          else
            let k := nd_next s in
            Some (hello k (set_next (S k) (set_socket (Some k) s))).2
      | _, _, _ => None
      end
  | EvReceive m =>
      match nd_socket s, nd_accepting s with
      | Some k, None =>
          match receive k m s with
          | (Ok _, s') => Some s'
          | (Raise e, s') => Some (connection_failed e s')
          end
      | _, _ => None
      end
  | EvLaunch =>
      match nd_accepting s with
      | Some (k, e) => Some (launch k e s)
      | None => None
      end
  | EvLaunchFails =>
      match nd_accepting s with
      | Some _ => Some (connection_failed ConnectionClosed (set_accepting None s))
      | None => None
      end
  | EvHeartbeat =>
      match nd_socket s with
      | Some k => Some (heartbeat k s).2
      | None => None
      end
  | EvClosed =>
      match nd_socket s with Some _ => Some (set_socket None s) | None => None end
  | EvLost =>
      match nd_socket s with
      | Some _ => Some (connection_failed ConnectionClosed s)
      | None => None
      end
  | EvStop => Some (stop s).2
  | EvBegin id =>
      match find_handle id s with
      | Some h =>
          if hd_began h then None
          else if hd_cancelled h then Some (end_handle h s)
          else
            match begin_execution (hd_envelope h) s with
            | (Ok _, s') =>
                Some (set_handles ((λ h', if hd_id h' == id
                        then set_hd true (hd_cancelled h') (hd_sequence h') h' else h')
                        <$> nd_handles s') s')
            | (Raise _, s') => Some (end_handle h s')
            end
      | None => None
      end
  | EvEmit id ev =>
      match find_handle id s with
      | Some h => if hd_began h then Some (emit_event h ev s).2 else None
      | None => None
      end
  | EvEvidence id ev =>
      match find_handle id s with
      | Some h => if hd_began h then Some (record_evidence h ev s).2 else None
      | None => None
      end
  | EvFinish id status =>
      match find_handle id s with
      | Some h =>
          if hd_began h then Some (end_handle h (finish_execution h status s).2) else None
      | None => None
      end
  | EvRaise id =>
      match find_handle id s with
      | Some h => if hd_began h then Some (end_handle h s) else None
      | None => None
      end
  | EvCancelled id =>
      match find_handle id s with
      | Some h =>
          if hd_began h && hd_cancelled h
          then Some (end_handle h (cancel_execution h s).2) else None
      | None => None
      end
  end.

(** Events one after another; [None] when one of them cannot happen. *)
Fixpoint run_events (evs : list event) (s : Node) : option Node :=
  match evs with
  | [] => Some s
  | ev :: evs' => match next ev s with Some s' => run_events evs' s' | None => None end
  end.
End agent.
