(* ===== verification/NodeAgentProofs.v ===== *)
(** * What the node agent keeps

    Invariants of the steps of [NodeAgent]: the numbers of the messages and the replay
    buffer, the rows of finished tasks, the signatures of what is executed; and the traces
    that show where an execution is doubled or lost. *)

From S2P Require Import Prelude Readiness Connectors ConnectorStore NodeSecurity NodeProtocol.
From S2P Require Import NodeAgent.

Section framework.
Context `{PyLib} `{SqlEngine} `{NodeLib} `{WireLib}.

(** The two states agree on all but the connection, the flags, the counters and the
    registered identifiers. *)
Definition frame (s s' : Node) : Prop :=
  nd_node_id s' = nd_node_id s ∧ nd_max_messages s' = nd_max_messages s ∧
  nd_sequence s' = nd_sequence s ∧ nd_journal s' = nd_journal s ∧ nd_replay s' = nd_replay s ∧
  nd_log s' = nd_log s ∧ nd_handles s' = nd_handles s ∧ nd_accepting s' = nd_accepting s ∧
  nd_control_plane_public_key s' = nd_control_plane_public_key s.

(** A row that does not keep an offer from being accepted. *)
Definition row_is_open (r : option JournalRow) : Prop :=
  match r with Some r => jr_terminal_at r = None ∧ jr_started_at r = None | None => True end.

Definition envelope_key (e : ConnectorTaskEnvelope) : string * string :=
  (en_task_id e, en_plan_hash e).

(** When an offer is taken. *)
Definition takeable (m : ProtocolMessage) (e : ConnectorTaskEnvelope) (s : Node) : Prop :=
  nd_revoked s = false ∧ validate_envelope (pm_payload m) = Ok e ∧
  (∃ key, nd_control_plane_public_key s = Some key ∧ key ≠ "" ∧
          verify_connector_envelope (clock (nd_clock s)) e key = Ok tt) ∧
  en_node_id e = nd_node_id s ∧ row_is_open (nd_journal s !! envelope_key e).

(** What an invariant must survive for a step from [start] to keep it. [allowed] restricts the
    messages. *)
Record agent_invariant (allowed : ProtocolMessage → Prop) (start : Node) (I : Node → Prop) :
    Prop := {
  ai_send k t p : keeps I (_send k t p);
  ai_frame s s' : frame s s' → I s → I s';
  ai_handles f s : (∀ h, hd_envelope (f h) = hd_envelope h) → I s →
    I (set_handles (f <$> nd_handles s) s);
  ai_end h s : I s → I (end_handle h s);
  ai_launch k e s : nd_accepting s = Some (k, e) → I s → I (launch k e s);
  ai_drop s : I s → I (set_accepting None s);
  ai_key m s : allowed m → pm_type m = SESSION_ESTABLISHED → I s →
    I (set_control_plane_public_key (Some (py_str
        (py_or (dget "control_plane_public_key" (pm_payload m))
           (py_or (ostr (nd_control_plane_public_key s)) (PStr ""))))) s);
  ai_accept t p c r : keeps I (journal_accept t p c r);
  ai_accepting m e k : I start → allowed m → pm_type m = TASK_OFFER → takeable m e start →
    keeps I (modify_state (set_accepting (Some (k, e))));
  ai_start h s : h ∈ nd_handles s → I s →
    I (mark_started (en_task_id (hd_envelope h)) (en_plan_hash (hd_envelope h)) s).2;
  ai_sequence h z s : h ∈ nd_handles s → I s →
    I (update_sequence (en_task_id (hd_envelope h)) (en_plan_hash (hd_envelope h)) z s).2;
  ai_terminal h st d z s : h ∈ nd_handles s → I s →
    I (mark_terminal (en_task_id (hd_envelope h)) (en_plan_hash (hd_envelope h)) st d z s).2
}.

Section step.
Context (allowed : ProtocolMessage → Prop) (start : Node) (I : Node → Prop).
Context (HI : agent_invariant allowed start I).

Lemma framed (f : Node → Node) : (∀ s, frame s (f s)) → keeps I (modify_state f).
Proof. intros Hf s. apply (ai_frame _ _ _ HI). apply Hf. Qed.

Lemma keeps_clock : keeps I utc_now.
Proof. intros s. by apply (ai_frame _ _ _ HI). Qed.

Lemma keeps_send_about k t e rest : keeps I (send_about k t e rest).
Proof. intros s. apply (ai_send _ _ _ HI). Qed.

Lemma keeps_summary : keeps I summary.
Proof. by intros s. Qed.

Lemma keeps_accept_new m e k : I start → allowed m → pm_type m = TASK_OFFER →
  takeable m e start → keeps I (accept_new k e).
Proof.
  intros. unfold accept_new. apply keeps_bind; [apply (ai_accept _ _ _ HI)|intros ?].
  apply keeps_bind; [apply keeps_send_about|intros ?]. by eapply (ai_accepting _ _ _ HI).
Qed.

Lemma keeps_offer k m : allowed m → pm_type m = TASK_OFFER → I start →
  I (_accept_connector_offer k m start).2.
Proof.
  intros Ham Hty Hs. unfold _accept_connector_offer. unfold get_state, mbind, M_bind at 1. simpl.
  destruct (nd_revoked start) eqn:Hrev; [by apply (ai_send _ _ _ HI)|].
  unfold lift_res. unfold M_bind at 1.
  destruct (validate_envelope _) as [e|?] eqn:Hval; [|done].
  destruct (nd_control_plane_public_key start) as [key|] eqn:Hk; simpl; [|done].
  destruct (bool_decide (key = "")) eqn:Hkey; simpl; [done|].
  unfold M_bind at 1. simpl.
  assert (Hs1 : I (set_clock (S (nd_clock start)) start)) by (by apply (ai_frame _ _ _ HI start)).
  unfold M_bind at 1. destruct (verify_connector_envelope _ e key) as [[]|?] eqn:Hv; [|done].
  destruct (bool_decide (en_node_id e = nd_node_id start)) eqn:Hn; simpl; [|done].
  unfold journal_get, get_state, mbind, M_bind, mret, M_ret. simpl.
  boolify.
  assert (row_is_open (nd_journal start !! envelope_key e) → keeps I (accept_new k e)) as Hnew.
  { intros Hrow. apply (keeps_accept_new m); try done. split_and!; try done. by exists key. }
  unfold envelope_key in Hnew.
  destruct (nd_journal start !! _) as [r|]; [|by apply Hnew].
  destruct (jr_terminal_at r) eqn:Ht; [by apply keeps_send_about|].
  destruct (jr_started_at r) eqn:Hst; [|by apply Hnew].
  apply (keeps_bind I (send_about _ _ _ _) (λ _, send_about _ _ _ _)); [| |done];
    intros; apply keeps_send_about.
Qed.

Lemma keeps_handles f : (∀ h, hd_envelope (f h) = hd_envelope h) →
  keeps I (modify_state (λ s, set_handles (f <$> nd_handles s) s)).
Proof. intros Hf s. by apply (ai_handles _ _ _ HI). Qed.

Lemma cancel_handle_envelope id h : hd_envelope (cancel_handle id h) = hd_envelope h.
Proof. unfold cancel_handle. by case_bool_decide. Qed.

Lemma stop_keeps : keeps I stop.
Proof.
  intros s Hs. apply (ai_frame _ _ _ HI (set_handles
    ((λ h, if hd_id h in? (nd_active_tasks s).*2 then set_hd (hd_began h) true (hd_sequence h) h
           else h) <$> nd_handles s) s)); [done|].
  apply (ai_handles _ _ _ HI); [|done]. intros h. by case_bool_decide.
Qed.

Lemma keeps_handle k m : allowed m → I start → I (_handle k m start).2.
Proof.
  intros Hm Hs. unfold _handle, get_state, mbind, M_bind at 1. simpl.
  destruct (pm_type m) eqn:Ht; try exact Hs.
  - destruct (dict_get "challenge" _); [|done]. unfold lift_res, M_bind.
    destruct (sign_bytes _ _); [|done]. by apply (ai_send _ _ _ HI).
  - unfold modify_state, M_bind. simpl. apply (ai_send _ _ _ HI).
    apply (ai_key _ _ _ HI m (set_session_id _ start)); [done..|]. by apply (ai_frame _ _ _ HI start).
  - by apply keeps_offer.
  - destruct (dict_get _ (nd_active_tasks start)) as [id|]; [|done].
    unfold modify_state. simpl. apply (ai_handles _ _ _ HI); [|done].
    intros h. apply cancel_handle_envelope.
  - by apply (ai_send _ _ _ HI).
  - apply stop_keeps. by apply (ai_frame _ _ _ HI start).
Qed.

Lemma keeps_receive k m : allowed m → I start → I (receive k m start).2.
Proof.
  intros Hm Hs. unfold receive, get_state, mbind, M_bind. simpl.
  destruct (bool_decide _); [|done]. by apply keeps_handle.
Qed.

Lemma keeps_failed e s : I s → I (connection_failed e s).
Proof. intros Hs. unfold connection_failed. by destruct (run_retries e); apply (ai_frame _ _ _ HI s). Qed.

Lemma find_handle_elem id s h : find_handle id s = Some h → h ∈ nd_handles s ∧ hd_id h = id.
Proof.
  intros [Hin Hp]%List.find_some. split; [by apply list_elem_of_In|]. by apply bool_decide_eq_true in Hp.
Qed.

Lemma keeps_set_sequence id z : keeps I (set_hd_sequence id z).
Proof. apply keeps_handles. intros h. by case_bool_decide. Qed.

Lemma set_sequence_elem h z s : h ∈ nd_handles s →
  ∃ h', h' ∈ nd_handles (set_hd_sequence (hd_id h) z s).2 ∧ hd_envelope h' = hd_envelope h.
Proof.
  intros Hh. eexists. split; [simpl; apply list_elem_of_fmap; by exists h|]. by case_bool_decide.
Qed.

Lemma keeps_emit h ev s : h ∈ nd_handles s → I s → I (emit_event h ev s).2.
Proof.
  intros Hh Hs. unfold emit_event, mbind, M_bind. simpl. apply (ai_send _ _ _ HI).
  destruct (set_sequence_elem h (Z.max (hd_sequence h) (te_sequence ev)) s Hh) as (h' & Hh' & He).
  pose proof (ai_sequence _ _ _ HI h' (Z.max (hd_sequence h) (te_sequence ev)) _ Hh') as Hk.
  rewrite He in Hk. apply Hk. by apply keeps_set_sequence.
Qed.

Lemma keeps_evidence h ev s : I s → I (record_evidence h ev s).2.
Proof.
  intros Hs. unfold record_evidence, mbind, M_bind. simpl. apply (ai_send _ _ _ HI).
  by apply keeps_set_sequence.
Qed.

Lemma finish_state h status s : ∃ st d z, (finish_execution h status s).2 = s ∨
  (finish_execution h status s).2 =
  (mark_terminal (en_task_id (hd_envelope h)) (en_plan_hash (hd_envelope h)) st d z s).2.
Proof.
  exists (ConnectorTaskStatus_value status),
    (result_digest (en_task_id (hd_envelope h)) (ConnectorTaskStatus_value status)),
    (hd_sequence h). unfold finish_execution. case_bool_decide; [by left|right].
  unfold mbind, M_bind. by destruct (mark_terminal _ _ _ _ _ _) as [[?|?] ?].
Qed.

Lemma begin_state e s : (begin_execution e s).2 = (mark_started (en_task_id e) (en_plan_hash e) s).2.
Proof.
  unfold begin_execution, mbind, M_bind. destruct (mark_started _ _ s) as [[?|?] ?]; [|done].
  unfold lift_res. by destruct (plan_of_envelope e).
Qed.

Lemma cancel_state h s : ∃ t p, (cancel_execution h s).2 = (_send (hd_socket h) t p s).2.
Proof.
  exists TASK_CANCELLED, (about_task (nd_node_id s) (hd_envelope h)
    [("sequence_number", PInt (hd_sequence h + 1))]).
  unfold cancel_execution, send_about, get_state, mbind, M_bind.
  by destruct (_send _ _ _ s) as [[?|?] ?].
Qed.

(** Every step keeps the invariant. *)
Lemma next_keeps ev s' : (∀ m, ev = EvReceive m → allowed m) →
  next ev start = Some s' → I start → I s'.
Proof.
  set (s := start).
  intros Ha Hn Hs. destruct ev; simpl in Hn.
  - destruct (nd_socket s), (nd_accepting s), (nd_ended s); try done.
    destruct (_ || _); [done|]. injection Hn as <-. apply (ai_send _ _ _ HI).
    by apply (ai_frame _ _ _ HI s).
  - destruct (nd_socket s) as [k|], (nd_accepting s); try done.
    pose proof (keeps_receive k m (Ha m eq_refl) Hs) as Hr. fold s in Hr.
    destruct (receive k m s) as [[?|e] s1]; injection Hn as <-; [done|by apply keeps_failed].
  - destruct (nd_accepting s) as [[k e]|] eqn:E; [|done]. injection Hn as <-.
    by apply (ai_launch _ _ _ HI).
  - destruct (nd_accepting s); [|done]. injection Hn as <-. by apply keeps_failed, (ai_drop _ _ _ HI).
  - destruct (nd_socket s); [|done]. injection Hn as <-. by apply (ai_send _ _ _ HI).
  - destruct (nd_socket s); [|done]. injection Hn as <-. by apply (ai_frame _ _ _ HI s).
  - destruct (nd_socket s); [|done]. injection Hn as <-. by apply keeps_failed.
  - injection Hn as <-. by apply stop_keeps.
  - destruct (find_handle id s) as [h|] eqn:Hf; [|done]. apply find_handle_elem in Hf as [Hf _].
    destruct (hd_began h); [done|].
    destruct (hd_cancelled h); [injection Hn as <-; by apply (ai_end _ _ _ HI)|].
    pose proof (ai_start _ _ _ HI h s Hf Hs) as Hb. rewrite <- begin_state in Hb.
    destruct (begin_execution _ s) as [[?|?] s1]; injection Hn as <-.
    + apply (ai_handles _ _ _ HI); [|done]. intros h'. by case_bool_decide.
    + by apply (ai_end _ _ _ HI).
  - destruct (find_handle id s) as [h|] eqn:Hf; [|done]. apply find_handle_elem in Hf as [Hf _].
    destruct (hd_began h); [|done]. injection Hn as <-. by apply keeps_emit.
  - destruct (find_handle id s) as [h|] eqn:Hf; [|done].
    destruct (hd_began h); [|done]. injection Hn as <-. by apply keeps_evidence.
  - destruct (find_handle id s) as [h|] eqn:Hf; [|done]. apply find_handle_elem in Hf as [Hf _].
    destruct (hd_began h); [|done]. injection Hn as <-. apply (ai_end _ _ _ HI).
    destruct (finish_state h status s) as (st & d & z & [->| ->]); [done|].
    by apply (ai_terminal _ _ _ HI).
  - destruct (find_handle id s) as [h|] eqn:Hf; [|done].
    destruct (hd_began h); [|done]. injection Hn as <-. by apply (ai_end _ _ _ HI).
  - destruct (find_handle id s) as [h|] eqn:Hf; [|done].
    destruct (hd_began h && hd_cancelled h); [|done]. injection Hn as <-.
    apply (ai_end _ _ _ HI). destruct (cancel_state h s) as (t & p & ->). by apply (ai_send _ _ _ HI).
Qed.

End step.

Lemma run_events_keeps allowed I (HI : ∀ start, agent_invariant allowed start I) evs : (∀ m, EvReceive m ∈ evs → allowed m) →
  ∀ s s', run_events evs s = Some s' → I s → I s'.
Proof.
  induction evs as [|ev evs IH]; simpl; intros Ha s s' Hr Hs; [by simplify_eq|].
  destruct (next ev s) as [s1|] eqn:Hn; [|done].
  eapply IH; [|exact Hr|].
  - intros m Hm. apply Ha. by apply elem_of_cons; right.
  - eapply (next_keeps allowed s I (HI s)); [|exact Hn|done]. intros m ->. apply Ha, elem_of_cons. by left.
Qed.
End framework.

Section invariants.
Context `{PyLib} `{SqlEngine} `{NodeLib} `{WireLib}.

(** ** Messages *)

Definition messages (s : Node) : list ProtocolMessage := (nd_log s).*1.

(** The messages are numbered from 1 without a gap, and the buffer holds the last of them. *)
Definition numbered (max : nat) (s : Node) : Prop :=
  max ≠ 0 ∧ nd_max_messages s = max ∧ nd_sequence s = Z.of_nat (length (messages s)) ∧
  pm_sequence <$> messages s = seqZ 1 (Z.of_nat (length (messages s))) ∧
  nd_replay s = drop (length (messages s) - max) (messages s).

Lemma buffer_append_last max l m : max ≠ 0 →
  buffer_append max m (drop (length l - max) l) = drop (length (l ++ [m]) - max) (l ++ [m]).
Proof.
  intros Hm. unfold buffer_append, last_messages. rewrite (bool_decide_eq_false_2 (max = 0)) by done.
  rewrite <- (drop_app_le l [m] (length l - max)) by lia.
  rewrite length_drop, length_app. simpl.
  case_bool_decide as Hl.
  - rewrite drop_drop. f_equal. lia.
  - f_equal. lia.
Qed.

Lemma numbered_send max k t p : keeps (numbered max) (_send k t p).
Proof.
  intros s (Hm0 & Hm & Hs & Hn & Hr). unfold _send, utc_now, uuid4, get_state, modify_state, mbind, M_bind.
  simpl. assert (Hg : ∀ m b, nd_sequence m = (nd_sequence s + 1)%Z →
    nd_max_messages m = nd_max_messages s → (∃ x, pm_sequence x = (nd_sequence s + 1)%Z ∧
      nd_log m = nd_log s ++ [(x, b)] ∧
      nd_replay m = buffer_append (nd_max_messages s) x (nd_replay s)) → numbered max m).
  { intros m b Hms Hmm (x & Hx & Hl & Hb). unfold numbered, messages in *.
    rewrite Hl, Hms, Hmm, Hb, fmap_app, fmap_app, length_app, Hn. simpl. split_and!.
    - done.
    - done.
    - lia.
    - rewrite Hx, Hs, Nat2Z.inj_add, seqZ_app by lia. f_equal. simpl.
      rewrite Z.add_comm. reflexivity.
    - rewrite Hr, Hm, buffer_append_last by done. f_equal. rewrite length_app. done. }
  destruct (bool_decide _); (eapply Hg; [done|done|]);
    (refine (ex_intro _ _ (conj _ (conj eq_refl eq_refl))); reflexivity).
Qed.

(** A computation that leaves the messages as they are. *)
Lemma numbered_same max s s' : nd_sequence s' = nd_sequence s → nd_max_messages s' = nd_max_messages s →
  nd_replay s' = nd_replay s → nd_log s' = nd_log s → numbered max s → numbered max s'.
Proof. unfold numbered, messages. intros -> -> -> ->. done. Qed.

Lemma journal_accept_state t p c r s :
  (journal_accept t p c r s).2 = s ∧ is_Some (nd_journal s !! (t, p)) ∨
  ∃ row, nd_journal s !! (t, p) = None ∧ jr_terminal_at row = None ∧
    (journal_accept t p c r s).2 =
    set_journal (<[(t, p) := row]> (nd_journal s)) (set_clock (S (nd_clock s)) s).
Proof.
  unfold journal_accept, journal_get, utc_now, get_state, mbind, M_bind. simpl.
  destruct (nd_journal s !! (t, p)) eqn:Hj; [by left|right].
  eexists. split; [done|]. split; [|simpl; unfold journal_entry, journal_get, mbind, M_bind; simpl;
    rewrite lookup_insert_eq; reflexivity]. done.
Qed.

Lemma mark_state t p s m : m = mark_started t p ∨ (∃ st d z, m = mark_terminal t p st d z) →
  ∃ g, (m s).2 = set_journal (alter (unless_terminal g) (t, p) (nd_journal s))
                   (set_clock (S (nd_clock s)) s).
Proof.
  intros [->|(st & d & z & ->)]; unfold mark_started, mark_terminal, journal_update, utc_now,
    modify_state, journal_entry, journal_get, get_state, mbind, M_bind; simpl;
    destruct (alter _ _ _ !! _); eexists; reflexivity.
Qed.

Lemma numbered_invariant max start : agent_invariant (λ _, True) start (numbered max).
Proof.
  split; intros;
    try match goal with
    | Hs : numbered _ ?s |- numbered _ _ => by apply (numbered_same max s)
    | |- keeps _ (modify_state _) => by apply keeps_modify; intros s; apply (numbered_same max s)
    end.
  - apply numbered_send.
  - destruct H3 as (_ & ? & ? & _ & ? & ? & _). by apply (numbered_same max s).
  - intros s Hs. destruct (journal_accept_state t p c r s) as [[-> _]|(? & _ & _ & ->)]; [done|].
    by apply (numbered_same max s).
  - edestruct mark_state as [g ->]; [by left|]. by apply (numbered_same max s).
  - edestruct mark_state as [g ->]; [right; by do 3 eexists|]. by apply (numbered_same max s).
Qed.

(** ** Finished tasks *)

(** The row of a finished task. *)
Definition finished_row (key : string * string) (status : string) (at_ : Z)
    (digest : option string) (s : Node) : Prop :=
  ∃ r, nd_journal s !! key = Some r ∧ jr_status r = status ∧ jr_terminal_at r = Some at_ ∧
       jr_terminal_result_digest r = digest.

Lemma finished_same key st a d s s' : nd_journal s' = nd_journal s →
  finished_row key st a d s → finished_row key st a d s'.
Proof. unfold finished_row. by intros ->. Qed.

Lemma finished_alter key st a d s f k : 
  (∀ r, jr_terminal_at r = Some a → jr_status (f r) = jr_status r ∧
     jr_terminal_at (f r) = jr_terminal_at r ∧
     jr_terminal_result_digest (f r) = jr_terminal_result_digest r) →
  finished_row key st a d s → finished_row key st a d (set_journal (alter f k (nd_journal s)) s).
Proof.
  intros Hf (r & Hr & Hst & Ha & Hd). unfold finished_row. simpl.
  destruct (decide (k = key)) as [->|Hne].
  - rewrite lookup_alter_eq, Hr. destruct (Hf r Ha) as (? & ? & ?).
    exists (f r). split_and!; [done|congruence..].
  - rewrite lookup_alter_ne by done. by exists r.
Qed.

Lemma finished_mark key st a d t p s m :
  m = mark_started t p ∨ (∃ st d z, m = mark_terminal t p st d z) →
  finished_row key st a d s → finished_row key st a d (m s).2.
Proof.
  intros [g ->]%(mark_state t p s) Hs.
  apply (finished_same _ _ _ _ (set_journal (alter (unless_terminal g) (t, p) (nd_journal s)) s));
    [done|].
  apply finished_alter; [|done]. intros r Hr. unfold unless_terminal. by rewrite Hr.
Qed.

Lemma finished_invariant key st a d start :
  agent_invariant (λ _, True) start (finished_row key st a d).
Proof.
  split; intros;
    try match goal with
    | Hs : finished_row _ _ _ _ ?s |- finished_row _ _ _ _ _ => by apply (finished_same _ _ _ _ s)
    | |- keeps _ (modify_state _) =>
        by apply keeps_modify; intros s; apply (finished_same _ _ _ _ s)
    end.
  - intros s Hs. unfold _send, utc_now, uuid4, get_state, modify_state, mbind, M_bind. simpl.
    by destruct (bool_decide _); apply (finished_same _ _ _ _ s).
  - destruct H3 as (_ & _ & _ & ? & _). by apply (finished_same _ _ _ _ s).
  - intros s Hs. destruct (journal_accept_state t p c r s) as [[-> _]|(row & Hn & _ & ->)]; [done|].
    destruct Hs as (r0 & Hr & ?). exists r0. split; [|done]. simpl.
    rewrite lookup_insert_ne; [done|congruence].
  - eapply finished_mark; [by left|done].
  - apply finished_alter; [by intros|done].
  - eapply finished_mark; [right; by do 3 eexists|done].
Qed.

(** ** What is executed *)

(** Every envelope that is executed, or is about to be, satisfies [P]. *)
Definition executes (P : ConnectorTaskEnvelope → Prop) (s : Node) : Prop :=
  (∀ h, h ∈ nd_handles s → P (hd_envelope h)) ∧
  (∀ k e, nd_accepting s = Some (k, e) → P e).

Lemma executes_same P s s' : nd_handles s' = nd_handles s → nd_accepting s' = nd_accepting s →
  executes P s → executes P s'.
Proof. unfold executes. by intros -> ->. Qed.

Lemma executes_mono P f s : (∀ h, hd_envelope (f h) = hd_envelope h) → executes P s →
  executes P (set_handles (f <$> nd_handles s) s).
Proof.
  intros Hf [Hh Ha]. split; [|done]. intros h (h' & -> & Hh')%list_elem_of_fmap. rewrite Hf. by apply Hh.
Qed.

Lemma executes_end P h s : executes P s → executes P (end_handle h s).
Proof. intros [Hh Ha]. split; [|done]. intros h' [Hin _]%elem_of_filter_bool. by apply Hh. Qed.

Lemma executes_launch P k e s : nd_accepting s = Some (k, e) → executes P s →
  executes P (launch k e s).
Proof.
  intros He [Hh Ha]. split; [|done]. intros h [Hin|Hin]%elem_of_app; [by apply Hh|].
  apply list_elem_of_singleton in Hin as ->. by eapply Ha.
Qed.

Lemma executes_send P k t p : keeps (executes P) (_send k t p).
Proof.
  intros s Hs. unfold _send, utc_now, uuid4, get_state, modify_state, mbind, M_bind. simpl.
  by destruct (bool_decide _); apply (executes_same _ s).
Qed.

Lemma executes_accept P t p c r : keeps (executes P) (journal_accept t p c r).
Proof.
  intros s Hs. destruct (journal_accept_state t p c r s) as [[-> _]|(row & _ & _ & ->)]; [done|].
  by apply (executes_same _ s).
Qed.

Lemma executes_mark P t p s m :
  m = mark_started t p ∨ (∃ st d z, m = mark_terminal t p st d z) →
  executes P s → executes P (m s).2.
Proof. intros [g ->]%(mark_state t p s). by apply executes_same. Qed.

Lemma executes_invariant allowed start P :
  (∀ m e, allowed m → pm_type m = TASK_OFFER → takeable m e start → P e) →
  agent_invariant allowed start (executes P).
Proof.
  intros HP. split.
  - apply executes_send.
  - intros s s' (_ & _ & _ & _ & _ & _ & ? & ? & _). by apply executes_same.
  - intros f s Hf. by apply executes_mono.
  - intros h s. apply executes_end.
  - intros k e s. apply executes_launch.
  - intros s [Hh Ha]. by split.
  - intros m s _ _ Hs. by apply (executes_same _ s).
  - intros t p c r. apply executes_accept.
  - intros m e k _ Hm Ht He s [Hh Ha]. split; [done|]. simpl. intros k' e' [= <- <-].
    by apply (HP m).
  - intros h s _. eapply executes_mark. by left.
  - intros h z s _ Hs. by apply (executes_same _ s).
  - intros h st d z s _. eapply executes_mark. right. by do 3 eexists.
Qed.

(** The node's identifier and the key of the control plane, when it has one. *)
Definition knows (node_id key : string) (s : Node) : Prop :=
  nd_node_id s = node_id ∧ nd_control_plane_public_key s ∈ [None; Some ""; Some key].

(** The sessions give this key. *)
Definition session_gives (key : string) (m : ProtocolMessage) : Prop :=
  pm_type m = SESSION_ESTABLISHED →
  dict_get "control_plane_public_key" (pm_payload m) = Some (PStr key).

Lemma knows_same node_id key s s' : nd_node_id s' = nd_node_id s →
  nd_control_plane_public_key s' = nd_control_plane_public_key s →
  knows node_id key s → knows node_id key s'.
Proof. unfold knows. by intros -> ->. Qed.

Lemma knows_invariant node_id key start :
  agent_invariant (session_gives key) start (knows node_id key).
Proof.
  split; intros;
    try match goal with
    | Hs : knows _ _ ?s |- knows _ _ _ => by apply (knows_same _ _ s)
    | |- keeps _ (modify_state _) => by apply keeps_modify; intros s; apply (knows_same _ _ s)
    end.
  - intros s Hs. unfold _send, utc_now, uuid4, get_state, modify_state, mbind, M_bind. simpl.
    by destruct (bool_decide _); apply (knows_same _ _ s).
  - destruct H3 as (? & _ & _ & _ & _ & _ & _ & _ & ?). by apply (knows_same _ _ s).
  - destruct H5 as [? Hk]. split; [done|]. simpl.
    unfold dget. rewrite (H3 H4). simpl. unfold py_or. simpl.
    destruct (bool_decide (key = "")) eqn:Hb; simpl; [|by set_solver].
    destruct (nd_control_plane_public_key s) as [k|]; simpl; [|by set_solver].
    destruct (bool_decide (k = "")); simpl; [by set_solver|done].
  - intros s Hs. destruct (journal_accept_state t p c r s) as [[-> _]|(row & _ & _ & ->)]; [done|].
    by apply (knows_same _ _ s).
  - edestruct mark_state as [g ->]; [by left|]. by apply (knows_same _ _ s).
  - edestruct mark_state as [g ->]; [right; by do 3 eexists|]. by apply (knows_same _ _ s).
Qed.

(** The envelope was taken from an offer of the events [evs] from [s0], which the node could
    take in the state the offer found. *)
Definition taken_in (evs : list event) (s0 : Node) (e : ConnectorTaskEnvelope) : Prop :=
  ∃ evs1 m evs2 s, evs = evs1 ++ EvReceive m :: evs2 ∧ run_events evs1 s0 = Some s ∧
    pm_type m = TASK_OFFER ∧ takeable m e s.

Lemma run_events_app evs1 evs2 s :
  run_events (evs1 ++ evs2) s = run_events evs1 s ≫= run_events evs2.
Proof.
  revert s. induction evs1 as [|ev evs1 IH]; intros s; simpl; [done|]. by destruct (next ev s).
Qed.

Lemma executes_taken evs s0 s :
  executes (λ _, False) s0 → run_events evs s0 = Some s → executes (taken_in evs s0) s.
Proof.
  intros Hnone. revert s. induction evs as [|ev evs IH] using rev_ind; intros s.
  { intros [= <-]. destruct Hnone as [Hh Ha]. by split; [intros h ?%Hh|intros k e ?%Ha]. }
  rewrite run_events_app. destruct (run_events evs s0) as [s1|] eqn:E; [|done]. simpl.
  destruct (next ev s1) as [s2|] eqn:Hn; [|done]. intros [= <-].
  eapply (next_keeps (λ m, ev = EvReceive m) s1); [|by intros m ->|exact Hn|].
  - apply executes_invariant. intros m e -> Ht He. exists evs, m, [], s1. by split_and!.
  - destruct (IH s1 eq_refl) as [Hh Ha]. split.
    + intros h (evs1 & m & evs2 & s3 & -> & ?)%Hh. exists evs1, m, (evs2 ++ [ev]), s3.
      by rewrite <- app_assoc.
    + intros k e (evs1 & m & evs2 & s3 & -> & ?)%Ha. exists evs1, m, (evs2 ++ [ev]), s3.
      by rewrite <- app_assoc.
Qed.

(** A task that is finished and of which nothing is under way. *)
Definition settled (key : string * string) (st : string) (a : Z) (d : option string)
    (s : Node) : Prop :=
  finished_row key st a d s ∧ executes (λ e, envelope_key e ≠ key) s.

Lemma settled_invariant key st a d start :
  agent_invariant (λ _, True) start (settled key st a d).
Proof.
  destruct (finished_invariant key st a d start) as [Fsend Fframe Fhandles Fend Flaunch Fdrop Fkey Facc
    Fing Fstart Fseq Fterm].
  split.
  - intros k t p s [Hf He]. split; [by apply Fsend|by apply executes_send].
  - intros s s' Hfr [Hf He]. split; [by eapply Fframe|].
    destruct Hfr as (_ & _ & _ & _ & _ & _ & ? & ? & _). by apply (executes_same _ s).
  - intros f s Hfn [Hf He]. split; [by apply Fhandles|by apply executes_mono].
  - intros h s [Hf He]. split; [by apply Fend|by apply executes_end].
  - intros k e s Ha [Hf He]. split; [by apply Flaunch|by apply executes_launch].
  - intros s [Hf [Hh Ha]]. split; [by apply Fdrop|by split].
  - intros m s Hm Ht [Hf He]. split; [by apply Fkey|done].
  - intros t p c r s [Hf He]. split; [by apply Facc|by apply executes_accept].
  - intros m e k [Hf0 _] _ _ (_ & _ & _ & _ & Hrow) s [Hf [Hh Ha]].
    split; [done|]. split; [done|]. simpl. intros i' e' [= <- <-] Hkey.
    destruct Hf0 as (r & Hr & _ & Hterm & _).
    rewrite Hkey, Hr in Hrow. destruct Hrow. congruence.
  - intros h s Hh [Hf He]. split; [by apply Fstart|]. eapply executes_mark; [by left|done].
  - intros h z s Hh [Hf He]. split; [by apply Fseq|done].
  - intros h st' d' z s Hh [Hf He]. split; [by apply Fterm|].
    eapply executes_mark; [right; by do 3 eexists|done].
Qed.
End invariants.

Section stuck.
Context `{PyLib} `{SqlEngine} `{NodeLib} `{WireLib}.

(** A task that has begun, has not ended, and of which nothing is under way. *)
Definition abandoned (key : string * string) (s : Node) : Prop :=
  (∃ r, nd_journal s !! key = Some r ∧ is_Some (jr_started_at r) ∧ jr_terminal_at r = None) ∧
  executes (λ e, envelope_key e ≠ key) s.

Lemma abandoned_same key s s' : nd_journal s' !! key = nd_journal s !! key →
  nd_handles s' = nd_handles s → nd_accepting s' = nd_accepting s →
  abandoned key s → abandoned key s'.
Proof. unfold abandoned, executes. by intros -> -> ->. Qed.

Lemma abandoned_mark key h s m : h ∈ nd_handles s →
  let e := hd_envelope h in
  m = mark_started (en_task_id e) (en_plan_hash e) ∨
  (∃ st d z, m = mark_terminal (en_task_id e) (en_plan_hash e) st d z) →
  abandoned key s → abandoned key (m s).2.
Proof.
  intros Hh e [g ->]%(mark_state _ _ s) Hs. apply (abandoned_same _ s); [|done..|done].
  simpl. rewrite lookup_alter_ne; [done|]. by apply Hs.
Qed.

Lemma abandoned_invariant key start : agent_invariant (λ _, True) start (abandoned key).
Proof.
  split.
  - intros k t p s Hs. unfold _send, utc_now, uuid4, get_state, modify_state, mbind, M_bind. simpl.
    by destruct (bool_decide _); apply (abandoned_same _ s).
  - intros s s' (_ & _ & _ & Hj & _ & _ & ? & ? & _). apply abandoned_same; [by rewrite Hj|done..].
  - intros f s Hf [Hr He]. split; [done|by apply executes_mono].
  - intros h s [Hr He]. split; [done|by apply executes_end].
  - intros k e s Ha [Hr He]. split; [done|by apply executes_launch].
  - intros s [Hr [Hh Ha]]. split; [done|by split].
  - intros m s _ _. by apply abandoned_same.
  - intros t p c r s Hs.
    destruct (journal_accept_state t p c r s) as [[-> _]|(row & Hn & _ & ->)]; [done|].
    apply (abandoned_same _ s); [|done..|done]. simpl. destruct Hs as [(r0 & Hr & _) _].
    rewrite lookup_insert_ne; [done|congruence].
  - intros m e k [(r & Hr0 & [? Hst] & _) _] _ _ (_ & _ & _ & _ & Hrow) s [Hr [Hh Ha]].
    split; [done|]. split; [done|]. simpl. intros i' e' [= <- <-] Hkey.
    rewrite Hkey, Hr0 in Hrow. destruct Hrow. congruence.
  - intros h s Hh. by apply (abandoned_mark key h s _ Hh); left.
  - intros h z s Hh Hs. apply (abandoned_same _ s); [|done..|done]. simpl.
    rewrite lookup_alter_ne; [done|]. by apply Hs.
  - intros h st d z s Hh. apply (abandoned_mark key h s _ Hh). right. by do 3 eexists.
Qed.
End stuck.

(** ** Theorems *)

Section theorems.
Context `{PyLib} `{SqlEngine} `{NodeLib} `{WireLib}.

(** The messages of a node are numbered one after another, whatever happens to it, and
    its replay buffer holds the last thousand of them. *)
Theorem node_messages_are_numbered node_id url key version journal cp evs s0 s :
  JoyMeshNode node_id url key version journal cp = Ok s0 → run_events evs s0 = Some s →
  pm_sequence <$> messages s = seqZ 1 (Z.of_nat (length (messages s))) ∧
  nd_replay s = drop (length (messages s) - nd_max_messages s) (messages s).
Proof.
  intros Hnew Hrun. unfold JoyMeshNode in Hnew. destruct (_ && _); [done|]. injection Hnew as <-.
  destruct (run_events_keeps _ _ (numbered_invariant 1000) evs (λ _ _, I) _ _ Hrun)
    as (_ & -> & _ & ? & ?); [by split_and!|done].
Qed.

(** C29: Every task a node executes came from an offer it received, and in the state that offer
    found, at the reading of the clock it then took, the envelope was valid, signed by the
    control plane with the key the sessions gave, not expired, and addressed to the node, the
    node was not revoked and its journal had no execution of the task that began or ended. *)
Theorem executed_tasks_are_signed node_id url key version journal cp K evs s0 s h :
  JoyMeshNode node_id url key version journal cp = Ok s0 →
  cp ∈ [None; Some K] → (∀ m, EvReceive m ∈ evs → session_gives K m) →
  run_events evs s0 = Some s → h ∈ nd_handles s →
  ∃ evs1 m evs2 si, evs = evs1 ++ EvReceive m :: evs2 ∧ run_events evs1 s0 = Some si ∧
    pm_type m = TASK_OFFER ∧ validate_envelope (pm_payload m) = Ok (hd_envelope h) ∧
    verify_connector_envelope (clock (nd_clock si)) (hd_envelope h) K = Ok tt ∧
    (clock (nd_clock si) < en_expires_at (hd_envelope h))%Z ∧
    en_node_id (hd_envelope h) = node_id ∧ nd_revoked si = false ∧
    row_is_open (nd_journal si !! envelope_key (hd_envelope h)).
Proof.
  intros Hnew Hcp Hm Hrun Hh. unfold JoyMeshNode in Hnew. destruct (_ && _); [done|].
  injection Hnew as <-. set (s0 := {| nd_node_id := _ |}) in *.
  assert (executes (λ _, False) s0) as Hnone
    by (split; [by intros h' ?%not_elem_of_nil|done]).
  destruct (executes_taken evs s0 s Hnone Hrun) as [Hx _].
  destruct (Hx h Hh) as (evs1 & m & evs2 & si & -> & Hr & Ht & Htake).
  destruct Htake as (Hrev & Hval & (k & Hk & Hne & Hv) & Hn & Hrow).
  assert (knows node_id K si) as [Hid Hkey].
  { eapply (run_events_keeps _ _ (knows_invariant node_id K) evs1); [|exact Hr|].
    - intros m' Hm'. apply Hm. apply elem_of_app. by left.
    - split; [done|]. simpl. set_solver. }
  assert (k = K) as -> by (rewrite Hk in Hkey; set_solver).
  exists evs1, m, evs2, si. split_and!; try done; [|congruence].
  unfold verify_connector_envelope in Hv. by destruct (Z.leb_spec (en_expires_at (hd_envelope h))
    (clock (nd_clock si))).
Qed.

(** The row of a finished task never changes its status, its digest or its time. *)
Theorem finished_row_is_final key st a d evs s s' :
  finished_row key st a d s → run_events evs s = Some s' → finished_row key st a d s'.
Proof.
  intros Hs Hrun. by apply (run_events_keeps _ _ (finished_invariant key st a d) evs (λ _ _, I) _ _ Hrun).
Qed.

Lemma receive_offer k m s : pm_type m = TASK_OFFER → pm_node_id m = nd_node_id s →
  receive k m s = _accept_connector_offer k m s.
Proof.
  intros Ht Hm. unfold receive, get_state, mbind, M_bind. cbv beta iota.
  rewrite bool_decide_eq_true_2 by (rewrite Hm; apply list_elem_of_here).
  unfold _handle, get_state, mbind, M_bind. cbv beta iota. by rewrite Ht.
Qed.

(** An offer that the node checks against its journal: all that [takeable] asks but the row. *)
Definition offered (m : ProtocolMessage) (e : ConnectorTaskEnvelope) (s : Node) : Prop :=
  nd_revoked s = false ∧ pm_type m = TASK_OFFER ∧ pm_node_id m = nd_node_id s ∧
  validate_envelope (pm_payload m) = Ok e ∧
  (∃ key, nd_control_plane_public_key s = Some key ∧ key ≠ "" ∧
          verify_connector_envelope (clock (nd_clock s)) e key = Ok tt) ∧
  en_node_id e = nd_node_id s.

(** The message the journal's row of a finished task is answered with. *)
Definition replayed (s : Node) (e : ConnectorTaskEnvelope) (r : JournalRow)
    (msg : ProtocolMessage) : Prop :=
  pm_type msg = (if jr_status r == "succeeded" then TASK_SUCCEEDED else TASK_FAILED) ∧
  pm_payload msg = about_task (nd_node_id s) e
    [("sequence_number", PInt (jr_last_sequence_number r));
     ("detail", PStr "replayed terminal result");
     ("terminal_result_digest", ostr (jr_terminal_result_digest r))].

(** An offer of a finished task sends the answer of the journal and does nothing else. *)
Lemma offer_is_replayed k m e s r :
  nd_socket s = Some k → nd_accepting s = None → offered m e s →
  nd_journal s !! envelope_key e = Some r → jr_terminal_at r ≠ None →
  ∃ s' msg, next (EvReceive m) s = Some s' ∧ nd_log s' = nd_log s ++ [(msg, true)] ∧
    replayed s e r msg ∧ nd_accepting s' = None ∧ nd_handles s' = nd_handles s ∧
    nd_journal s' = nd_journal s.
Proof.
  intros Hk Ha (Hrev & Hty & Hm & Hval & (key & Hkey & Hne & Hv) & Hn) Hr Ht.
  unfold next. rewrite Hk, Ha, receive_offer by done.
  unfold _accept_connector_offer. unfold get_state, mbind, M_bind at 1. simpl.
  rewrite Hrev. unfold lift_res. unfold M_bind at 1. rewrite Hval, Hkey. simpl.
  rewrite (bool_decide_eq_false_2 (key = "")) by done. simpl.
  unfold M_bind at 1. simpl. unfold M_bind at 1. rewrite Hv, Hn.
  rewrite bool_decide_eq_true_2 by done. simpl.
  unfold journal_get, get_state, mbind, M_bind, mret, M_ret. simpl.
  unfold envelope_key in Hr. rewrite Hr. destruct (jr_terminal_at r); [|done].
  unfold send_about, _send, utc_now, uuid4, get_state, modify_state, mbind, M_bind. simpl.
  rewrite Hk, bool_decide_eq_true_2 by done. do 2 eexists. split; [reflexivity|].
  split_and!; try done.
Qed.

(** C30: A task whose only execution has ended with a final status is never executed again.
    After any events its row still has that status and the digest of that result, and an
    offer of it that passes the checks is answered from the row: the answer is sent on the
    connection with the sequence number and digest of the row, as succeeded or as failed by
    the row's status, and nothing is accepted, launched or written. *)
Theorem finished_task_is_not_run_again h st evs s s1 s2 :
  find_handle (hd_id h) s = Some h →
  (∀ h', h' ∈ nd_handles s → hd_id h' ≠ hd_id h →
     envelope_key (hd_envelope h') ≠ envelope_key (hd_envelope h)) →
  (∀ k e, nd_accepting s = Some (k, e) → envelope_key e ≠ envelope_key (hd_envelope h)) →
  (∃ r, nd_journal s !! envelope_key (hd_envelope h) = Some r ∧ jr_terminal_at r = None) →
  st ≠ TS_WAITING_FOR_USER →
  next (EvFinish (hd_id h) st) s = Some s1 → run_events evs s1 = Some s2 →
  (∀ h', h' ∈ nd_handles s2 → envelope_key (hd_envelope h') ≠ envelope_key (hd_envelope h)) ∧
  ∃ r, nd_journal s2 !! envelope_key (hd_envelope h) = Some r ∧
    jr_status r = ConnectorTaskStatus_value st ∧ jr_terminal_at r ≠ None ∧
    jr_terminal_result_digest r =
      Some (result_digest (en_task_id (hd_envelope h)) (ConnectorTaskStatus_value st)) ∧
    ∀ k m e, nd_socket s2 = Some k → nd_accepting s2 = None → offered m e s2 →
      envelope_key e = envelope_key (hd_envelope h) →
      ∃ s3 msg, next (EvReceive m) s2 = Some s3 ∧ nd_log s3 = nd_log s2 ++ [(msg, true)] ∧
        replayed s2 e r msg ∧ nd_accepting s3 = None ∧ nd_handles s3 = nd_handles s2 ∧
        nd_journal s3 = nd_journal s2.
Proof.
  intros Hf Hothers Hacc (r & Hr & Ht) Hst Hn Hrun.
  set (digest := Some (result_digest _ _)).
  assert (∃ a, settled (envelope_key (hd_envelope h)) (ConnectorTaskStatus_value st) a digest s1)
    as (a & Hs1).
  { simpl in Hn. rewrite Hf in Hn. destruct (hd_began h); [|done]. injection Hn as <-.
    unfold finish_execution. rewrite bool_decide_eq_false_2 by done.
    unfold mark_terminal, journal_update, utc_now, modify_state, journal_entry, journal_get,
      get_state, mbind, M_bind. simpl. unfold envelope_key in *. rewrite lookup_alter_eq, Hr. simpl.
    eexists. split.
    - eexists. split; [simpl; by rewrite lookup_alter_eq, Hr|]. simpl. unfold unless_terminal.
      rewrite Ht. split_and!; reflexivity.
    - split; [|done]. intros h' [Hin Hneq]%elem_of_filter_bool. apply Hothers; [done|].
      intros Heq. by rewrite bool_decide_eq_true_2 in Hneq. }
  destruct (run_events_keeps _ _ (settled_invariant _ _ a digest) evs (λ _ _, I) _ _ Hrun Hs1)
    as [(r2 & Hr2 & Hst2 & Hterm & Hdig) [Hh _]].
  split; [done|]. exists r2. split_and!; [done..|congruence|done|].
  intros k m e Hk Ha Ho He. apply (offer_is_replayed k m e); try done; [by rewrite He|congruence].
Qed.

(** A task that has begun and whose execution was cancelled, or raised, or waits for its
    user, is never executed again and never ends: every later offer of it is only answered. *)
Theorem abandoned_task_is_stuck key evs s s' :
  abandoned key s → run_events evs s = Some s' → abandoned key s'.
Proof.
  intros Hs Hrun. by apply (run_events_keeps _ _ (abandoned_invariant key) evs (λ _ _, I) _ _ Hrun).
Qed.

Lemma send_open k t p s : nd_socket s = Some k → ∃ s',
  _send k t p s = (Ok tt, s') ∧ nd_accepting s' = nd_accepting s ∧ nd_socket s' = nd_socket s.
Proof.
  intros Hk. unfold _send, utc_now, uuid4, get_state, modify_state, mbind, M_bind. simpl.
  rewrite bool_decide_eq_true_2 by done. by eexists.
Qed.

Lemma accept_new_open k e s : nd_socket s = Some k →
  nd_accepting (accept_new k e s).2 = Some (k, e).
Proof.
  intros Hk. unfold accept_new, mbind, M_bind.
  assert (∃ row s1, journal_accept (en_task_id e) (en_plan_hash e) (en_connector_id e)
    (en_connector_revision e) s = (Ok row, s1) ∧ nd_socket s1 = Some k) as (row & s1 & -> & Hk1).
  { unfold journal_accept, journal_entry, journal_get, utc_now, get_state, modify_state, mbind,
      M_bind. simpl. destruct (nd_journal s !! _) as [r|]; [by do 2 eexists|]. simpl.
    rewrite lookup_insert_eq. by do 2 eexists. }
  unfold send_about, get_state, mbind, M_bind.
  destruct (send_open k TASK_ACCEPTED (about_task (nd_node_id s1) e [("sequence_number", PInt 1)])
    s1 Hk1) as (s2 & -> & _ & _). done.
Qed.

Lemma failed_accepting e s : nd_accepting (connection_failed e s) = nd_accepting s.
Proof. unfold connection_failed. by destruct (run_retries e). Qed.

Lemma offer_spec k m s : nd_socket s = Some k → nd_accepting s = None →
  ∀ e, nd_accepting (_accept_connector_offer k m s).2 = Some (k, e) ↔ takeable m e s.
Proof.
  intros Hk Ha e. unfold takeable, _accept_connector_offer.
  unfold get_state, mbind, M_bind at 1. simpl.
  destruct (nd_revoked s).
  { destruct (send_open k TASK_REJECTED (dict_update [("reason", PStr "node revoked")]
      (pm_payload m)) s Hk) as (s' & -> & Hs & _). simpl. rewrite Hs, Ha. split; [done|by intros [? _]]. }
  unfold lift_res. unfold M_bind at 1.
  destruct (validate_envelope _) as [e'|?]; simpl; [|rewrite Ha; split; [done|by intros (_ & ? & _)]].
  destruct (nd_control_plane_public_key s) as [key|] eqn:Hkey; simpl;
    [|rewrite Ha; split; [done|by intros (_ & _ & (? & ? & _) & _)]].
  destruct (bool_decide (key = "")) eqn:Hne; simpl; boolify;
    [rewrite Ha; split; [done|intros (_ & _ & (? & [= <-] & ? & _) & _); done]|].
  unfold M_bind at 1. simpl. unfold M_bind at 1.
  destruct (verify_connector_envelope _ e' key) as [[]|?] eqn:Hv; simpl;
    [|rewrite Ha; split; [done|intros (_ & [= <-] & (? & [= <-] & _ & ?) & _); congruence]].
  destruct (bool_decide (en_node_id e' = nd_node_id s)) eqn:Hn; simpl; boolify;
    [|rewrite Ha; split; [done|intros (_ & [= <-] & _ & ? & _); congruence]].
  unfold journal_get, get_state, mbind, M_bind, mret, M_ret. simpl. unfold envelope_key.
  assert (Hyes : row_is_open (nd_journal s !! (en_task_id e', en_plan_hash e')) →
    nd_accepting (accept_new k e' (set_clock (S (nd_clock s)) s)).2 = Some (k, e) ↔
    false = false ∧ Ok e' = Ok e ∧ (∃ key0, Some key = Some key0 ∧ key0 ≠ "" ∧
      verify_connector_envelope (clock (nd_clock s)) e key0 = Ok ()) ∧
    en_node_id e = nd_node_id s ∧ row_is_open (nd_journal s !! (en_task_id e, en_plan_hash e))).
  { intros Hrow. rewrite accept_new_open by done. split.
    - intros [= <-]. split_and!; [done..| |done|done]. by exists key.
    - by intros (_ & [= <-] & _). }
  destruct (nd_journal s !! (en_task_id e', en_plan_hash e')) as [r|] eqn:Hj; [|by apply Hyes].
  destruct (jr_terminal_at r) eqn:Ht.
  { unfold send_about, get_state, mbind, M_bind. match goal with |- context [_send k ?t ?p ?s1] =>
      destruct (send_open k t p s1 Hk) as (s2 & -> & Hs & _) end. simpl. rewrite Hs. simpl. rewrite Ha.
    split; [done|]. intros (_ & [= <-] & _ & _ & Hr). rewrite Hj in Hr. destruct Hr. congruence. }
  destruct (jr_started_at r) eqn:Hst; [|by apply Hyes].
  unfold send_about, get_state, mbind, M_bind. match goal with |- context [_send k ?t ?p ?s1] =>
    destruct (send_open k t p s1 Hk) as (s2 & -> & Hs & Hk2) end. simpl.
  match goal with |- context [_send k ?t ?p s2] =>
    destruct (send_open k t p s2 ltac:(rewrite Hk2; exact Hk)) as (s3 & -> & Hs3 & _) end. simpl.
  rewrite Hs3, Hs. simpl. rewrite Ha. split; [done|].
  intros (_ & [= <-] & _ & _ & Hr). rewrite Hj in Hr. destruct Hr. congruence.
Qed.

(** C28: An offer on an open connection leads to an execution exactly when the node is not
    revoked, the envelope is valid, carries the control plane's signature, has not expired, is
    addressed to this node, and the journal has no execution of it that began or ended. *)
Theorem offer_is_taken_iff k m e s s' :
  nd_socket s = Some k → nd_accepting s = None → pm_type m = TASK_OFFER →
  pm_node_id m = nd_node_id s → next (EvReceive m) s = Some s' →
  (nd_accepting s' = Some (k, e) ↔ takeable m e s).
Proof.
  intros Hk Ha Ht Hm Hn. rewrite <- (offer_spec k m s Hk Ha), <- receive_offer by done.
  unfold next in Hn. rewrite Hk, Ha in Hn.
  destruct (receive k m s) as [[?|?] s1]; injection Hn as <-; [done|].
  by rewrite failed_accepting.
Qed.
End theorems.

(** ** Instances and traces *)

#[local] Existing Instance counting_lib.
#[local] Existing Instance insertion_order.
#[local] Existing Instance toy_node_lib.
#[local] Existing Instance toy_wire.

Definition unsigned_envelope (action : string) (expires_at : Z) : ConnectorTaskEnvelope :=
  {| en_task_id := "t"; en_plan_id := "p"; en_node_id := "n"; en_connector_id := "c";
     en_connector_revision := "1"; en_action := action; en_plan_hash := "h";
     en_executable := "tool"; en_arguments := ["login"]; en_method_id := "m";
     en_package_source := ""; en_expected_executables := []; en_download_digest := None;
     en_risk_level := "low"; en_nonce := "0"; en_issued_at := 0; en_expires_at := expires_at;
     en_key_id := "k"; en_signature := ""; en_idempotency_key := "i" |}.
Definition an_envelope : ConnectorTaskEnvelope :=
  match sign_connector_envelope (unsigned_envelope "certify" 900) "K" with
  | Ok e => e
  | Raise _ => unsigned_envelope "certify" 900
  end.

Definition message (t : NodeProtocolMessageType) (payload : dict) : ProtocolMessage :=
  {| pm_type := t; pm_message_id := ""; pm_node_id := "n"; pm_sequence := 0; pm_timestamp := 0;
     pm_reply_to := None; pm_payload := payload |}.
Definition session : ProtocolMessage :=
  message SESSION_ESTABLISHED [("session_id", PStr "s"); ("control_plane_public_key", PStr "K")].
Definition offer : ProtocolMessage := message TASK_OFFER (envelope_dump an_envelope).

Definition a_node : Node :=
  from_ok
    {| nd_node_id := ""; nd_private_key := ""; nd_runtime_version := ""; nd_max_messages := 0;
       nd_sequence := 0; nd_session_id := None; nd_control_plane_public_key := None;
       nd_journal := ∅; nd_replay := []; nd_stopping := false; nd_revoked := false;
       nd_ended := None; nd_socket := None; nd_handles := []; nd_active_tasks := [];
       nd_accepting := None; nd_log := []; nd_next := 0; nd_clock := 0; nd_uuids := 0 |}
    (JoyMeshNode "n" "wss://mesh" "N" "0.1.0" ∅ None).

(** The state after some events of a node that has just been made. *)
Definition after (evs : list event) : Node := default a_node (run_events evs a_node).

Definition taken : list event := [EvConnect; EvReceive session; EvReceive offer; EvLaunch].
Definition running : list event := taken ++ [EvBegin 1].

Definition sent_types (s : Node) : list NodeProtocolMessageType :=
  (λ x, pm_type x.1) <$> List.filter snd (nd_log s).
Definition journal_status (s : Node) : option string :=
  jr_status <$> nd_journal s !! ("t", "h").

(** The ordinary life of a task, with a second offer answered from the journal. *)
Example ordinary_run :
  sent_types (after (running ++ [EvFinish 1 TS_SUCCEEDED; EvReceive offer])) =
  [HELLO; READY; TASK_ACCEPTED; TASK_SUCCEEDED] ∧
  journal_status (after (running ++ [EvFinish 1 TS_SUCCEEDED])) = Some "succeeded".
Proof. vm_compute. done. Qed.

(** Two offers that arrive before the first handle begins are both executed. *)
Example two_offers_run_twice :
  (λ h, (hd_id h, hd_began h, envelope_key (hd_envelope h))) <$>
    nd_handles (after (taken ++ [EvReceive offer; EvLaunch; EvBegin 1; EvBegin 2])) =
  [(1, true, ("t", "h")); (2, true, ("t", "h"))].
Proof. vm_compute. done. Qed.

(** The second handle is not registered any more when the first has ended. *)
Example end_unregisters_the_other_handle :
  let s := after (taken ++ [EvReceive offer; EvLaunch; EvBegin 1; EvBegin 2;
                            EvFinish 1 TS_SUCCEEDED]) in
  nd_active_tasks s = [] ∧ hd_id <$> nd_handles s = [2].
Proof. vm_compute. done. Qed.

(** A cancelled execution leaves its row running: the next offer says it is resumed. *)
Example cancelled_task_stays_running :
  let s := after (running ++ [EvReceive (message TASK_CANCEL [("task_id", PStr "t")]);
                              EvCancelled 1; EvReceive offer]) in
  journal_status s = Some "running" ∧ nd_handles s = [] ∧
  sent_types s = [HELLO; READY; TASK_ACCEPTED; TASK_CANCELLED; TASK_ACCEPTED; TASK_PROGRESS].
Proof. vm_compute. done. Qed.

(** A task whose final status is [cancelled] is reported as failed when it is offered again. *)
Example cancelled_is_replayed_as_failed :
  sent_types (after (running ++ [EvFinish 1 TS_CANCELLED; EvReceive offer])) =
  [HELLO; READY; TASK_ACCEPTED; TASK_FAILED].
Proof. vm_compute. done. Qed.

(** An offer with a wrong signature, or a connection that is lost, ends the node's loop. *)
Example forged_offer_ends_the_agent :
  nd_ended (after [EvConnect; EvReceive session;
    EvReceive (message TASK_OFFER (envelope_dump (unsigned_envelope "certify" 900)))]) =
  Some (Exn "InvalidSignature" "" "").
Proof. vm_compute. done. Qed.

Example lost_connection_ends_the_agent :
  nd_ended (after [EvConnect; EvLost]) = Some ConnectionClosed ∧
  run_events [EvConnect; EvLost; EvConnect] a_node = None.
Proof. vm_compute. done. Qed.

(** What a task reports after a reconnection is lost: it writes to the old connection, and
    nothing is sent again from the buffer. *)
Example reports_after_reconnection_are_lost :
  let ev := {| te_event_id := ""; te_task_id := "t"; te_node_id := "n"; te_connector_id := "c";
               te_event_type := "task.succeeded"; te_sequence := 2; te_payload := [];
               te_created_at := 0 |} in
  let s := after (running ++ [EvClosed; EvConnect; EvEmit 1 ev]) in
  sent_types s = [HELLO; READY; TASK_ACCEPTED; HELLO] ∧
  (λ x, pm_type x.1) <$> nd_log s = [HELLO; READY; TASK_ACCEPTED; HELLO; TASK_SUCCEEDED].
Proof. vm_compute. done. Qed.

(** A session may replace the key the node was configured with. *)
Example session_replaces_the_key :
  (λ s, nd_control_plane_public_key s) <$>
    run_events [EvConnect; EvReceive session]
      (set_control_plane_public_key (Some "pinned") a_node) = Some (Some "K").
Proof. vm_compute. done. Qed.

Lemma a_node_made : JoyMeshNode "n" "wss://mesh" "N" "0.1.0" ∅ None = Ok a_node.
Proof. reflexivity. Qed.

Lemma node_messages_are_numbered_witness :
  pm_sequence <$> messages (after running) =
  seqZ 1 (Z.of_nat (length (messages (after running)))).
Proof.
  assert (Hrun : run_events running a_node = Some (after running)) by (vm_compute; reflexivity).
  exact (proj1 (node_messages_are_numbered _ _ _ _ _ _ _ _ _ a_node_made Hrun)).
Defined.

Lemma executed_tasks_are_signed_witness :
  let h := {| hd_id := 1; hd_envelope := an_envelope; hd_socket := 0; hd_began := true;
              hd_cancelled := false; hd_sequence := 1 |} in
  nd_handles (after running) = [h] ∧
  ∃ evs1 m evs2 si, running = evs1 ++ EvReceive m :: evs2 ∧
    run_events evs1 a_node = Some si ∧ pm_type m = TASK_OFFER ∧
    validate_envelope (pm_payload m) = Ok an_envelope ∧
    verify_connector_envelope (clock (nd_clock si)) an_envelope "K" = Ok tt ∧
    (clock (nd_clock si) < en_expires_at an_envelope)%Z ∧
    en_node_id an_envelope = "n" ∧ nd_revoked si = false ∧
    row_is_open (nd_journal si !! envelope_key an_envelope).
Proof.
  intros h. assert (Hh : nd_handles (after running) = [h]) by (vm_compute; reflexivity).
  split; [exact Hh|].
  assert (Hrun : run_events running a_node = Some (after running)) by (vm_compute; reflexivity).
  refine (executed_tasks_are_signed _ _ _ _ _ _ "K" running _ _ h a_node_made _ _ Hrun _).
  - apply elem_of_cons. by left.
  - clear Hh Hrun h. intros m Hm. unfold running, taken in Hm. cbn [app] in Hm.
    rewrite !elem_of_cons in Hm. destruct Hm as [Hm|[Hm|[Hm|[Hm|[Hm|Hm]]]]];
      [discriminate Hm| | |discriminate Hm|discriminate Hm|exfalso; by apply elem_of_nil in Hm].
    + injection Hm as ->. by intros _.
    + injection Hm as ->. intros Ht. discriminate Ht.
  - rewrite Hh. apply elem_of_cons. by left.
Defined.

Lemma finished_row_is_final_witness :
  journal_status (after (running ++ [EvFinish 1 TS_SUCCEEDED; EvReceive offer])) = Some "succeeded".
Proof.
  set (s := after (running ++ [EvFinish 1 TS_SUCCEEDED])).
  assert (Hrun : run_events [EvReceive offer] s =
    Some (after (running ++ [EvFinish 1 TS_SUCCEEDED; EvReceive offer]))) by (vm_compute; reflexivity).
  assert (∃ a d, finished_row ("t", "h") "succeeded" a d s) as (a & d & Hs).
  { do 3 eexists. split; [vm_compute; reflexivity|].
    split; [reflexivity|]. split; reflexivity. }
  destruct (finished_row_is_final _ _ _ _ _ _ _ Hs Hrun) as (r2 & Hr2 & Hst & _).
  unfold journal_status. rewrite Hr2. simpl. by rewrite Hst.
Defined.

Definition failed_node : Node := after (running ++ [EvFinish 1 TS_FAILED]).

Lemma finished_task_is_not_run_again_witness :
  ∃ r s3 msg, nd_journal failed_node !! ("t", "h") = Some r ∧ jr_status r = "failed" ∧
    next (EvReceive offer) failed_node = Some s3 ∧
    nd_log s3 = nd_log failed_node ++ [(msg, true)] ∧ replayed failed_node an_envelope r msg.
Proof.
  set (h := {| hd_id := 1; hd_envelope := an_envelope; hd_socket := 0; hd_began := true;
              hd_cancelled := false; hd_sequence := 1 |}).
  assert (Hh : nd_handles (after running) = [h]) by (vm_compute; reflexivity).
  destruct (finished_task_is_not_run_again h TS_FAILED [] (after running)
    failed_node failed_node) as [_ (r & Hr & Hst & _ & _ & Ho)].
  - unfold find_handle. rewrite Hh. vm_compute. reflexivity.
  - intros h' Hin Hne. rewrite Hh in Hin. apply list_elem_of_singleton in Hin.
    exfalso. apply Hne. rewrite Hin. reflexivity.
  - intros k e Ha. vm_compute in Ha. discriminate Ha.
  - eexists. split; [vm_compute; reflexivity|reflexivity].
  - discriminate.
  - vm_compute. reflexivity.
  - reflexivity.
  - destruct (Ho 0 offer an_envelope) as (s3 & msg & Hn & Hl & Hp & _).
    + vm_compute. reflexivity.
    + vm_compute. reflexivity.
    + split; [vm_compute; reflexivity|]. split; [reflexivity|]. split; [vm_compute; reflexivity|].
      split; [vm_compute; reflexivity|]. split; [|vm_compute; reflexivity].
      exists "K". split; [vm_compute; reflexivity|]. split; [discriminate|vm_compute; reflexivity].
    + reflexivity.
    + exists r, s3, msg. split; [exact Hr|]. split; [exact Hst|]. split; [exact Hn|].
      split; [exact Hl|exact Hp].
Defined.

Lemma abandoned_task_is_stuck_witness :
  let evs := running ++ [EvReceive (message TASK_CANCEL [("task_id", PStr "t")]); EvCancelled 1] in
  abandoned ("t", "h") (after evs) ∧ abandoned ("t", "h") (after (evs ++ [EvReceive offer])).
Proof.
  intros evs.
  assert (Hs : abandoned ("t", "h") (after evs)).
  { split.
    - eexists. split; [vm_compute; reflexivity|]. split; [eexists; reflexivity|reflexivity].
    - split; [|intros k e Ha; vm_compute in Ha; discriminate Ha]. intros h Hh.
      assert (nd_handles (after evs) = []) as He by (vm_compute; reflexivity).
      rewrite He in Hh. apply elem_of_nil in Hh. destruct Hh. }
  split; [exact Hs|].
  assert (Hrun : run_events [EvReceive offer] (after evs) = Some (after (evs ++ [EvReceive offer])))
    by (vm_compute; reflexivity).
  exact (abandoned_task_is_stuck _ _ _ _ Hs Hrun).
Defined.

Lemma offer_is_taken_iff_witness : takeable offer an_envelope (after [EvConnect; EvReceive session]).
Proof.
  set (s := after [EvConnect; EvReceive session]).
  assert (Hn : next (EvReceive offer) s = Some (after [EvConnect; EvReceive session; EvReceive offer]))
    by (vm_compute; reflexivity).
  refine (proj1 (offer_is_taken_iff 0 offer an_envelope s _ _ _ _ _ Hn) _);
    vm_compute; reflexivity.
Defined.
