(* ===== verification/NodeGateway.v ===== *)
(** * The gateway of the control plane

    [control_plane/gateway.py] and the connection handler [node_gateway] of [api.py]: the
    authentication of a node, split where it waits for the node's reply; the offers signed
    for a node; the events a node sends, which change the connector store. Time stamps are
    kept exact, in microseconds. *)

From S2P Require Import Prelude Scheduler Connectors Readiness ConnectorStore NodeSecurity.
From S2P Require Import NodeProtocol.

(* @src control_plane/contracts.py:262-274 NodeSession *)
Record NodeSession := {
  ns_session_id : string;
  ns_node_id : string;
  ns_organisation_id : string;
  ns_connected_at : Z;
  ns_last_seen_at : Z;
  ns_runtime_version : string;
  ns_remote_address : option string;
  ns_status : string;
  ns_challenge_nonce : option string
}.

(* @src control_plane/gateway.py:36-41 BoundNodeConnection *)
Record BoundNodeConnection := {
  bc_session : NodeSession;
  bc_websocket : nat;
  bc_node_public_key : string;
  bc_organisation_id : string
}.

(** The gateway's fields, the store it shares with the coordinator, the websockets that are
    open, what was sent on them, and the number of tokens drawn. [cp_seen_terminals] is the
    ingestor's. *)
(* @src control_plane/gateway.py:44-53 NodeGateway *)
Record ControlPlane := {
  cp_signing_private_key : string;
  cp_signing_public_key : string;
  cp_key_id : string;
  cp_connections : list (string * BoundNodeConnection);
  cp_sessions : list (string * NodeSession);
  cp_challenges : list (string * (string * Z));
  cp_nonces : list (string * Z);
  cp_seen_terminals : list string;
  cp_store : LifecycleState;
  cp_open : list nat;
  cp_sent : list (nat * ProtocolMessage);
  cp_tokens : nat
}.

Definition set_connections (v : list (string * BoundNodeConnection)) (s : ControlPlane) : ControlPlane :=
  {| cp_signing_private_key := cp_signing_private_key s; cp_signing_public_key :=
     cp_signing_public_key s; cp_key_id := cp_key_id s; cp_connections := v; cp_sessions :=
     cp_sessions s; cp_challenges := cp_challenges s; cp_nonces := cp_nonces s;
     cp_seen_terminals := cp_seen_terminals s; cp_store := cp_store s; cp_open := cp_open s;
     cp_sent := cp_sent s; cp_tokens := cp_tokens s |}.
Definition set_sessions (v : list (string * NodeSession)) (s : ControlPlane) : ControlPlane :=
  {| cp_signing_private_key := cp_signing_private_key s; cp_signing_public_key :=
     cp_signing_public_key s; cp_key_id := cp_key_id s; cp_connections := cp_connections s;
     cp_sessions := v; cp_challenges := cp_challenges s; cp_nonces := cp_nonces s;
     cp_seen_terminals := cp_seen_terminals s; cp_store := cp_store s; cp_open := cp_open s;
     cp_sent := cp_sent s; cp_tokens := cp_tokens s |}.
Definition set_challenges (v : list (string * (string * Z))) (s : ControlPlane) : ControlPlane :=
  {| cp_signing_private_key := cp_signing_private_key s; cp_signing_public_key :=
     cp_signing_public_key s; cp_key_id := cp_key_id s; cp_connections := cp_connections s;
     cp_sessions := cp_sessions s; cp_challenges := v; cp_nonces := cp_nonces s;
     cp_seen_terminals := cp_seen_terminals s; cp_store := cp_store s; cp_open := cp_open s;
     cp_sent := cp_sent s; cp_tokens := cp_tokens s |}.
Definition set_nonces (v : list (string * Z)) (s : ControlPlane) : ControlPlane :=
  {| cp_signing_private_key := cp_signing_private_key s; cp_signing_public_key :=
     cp_signing_public_key s; cp_key_id := cp_key_id s; cp_connections := cp_connections s;
     cp_sessions := cp_sessions s; cp_challenges := cp_challenges s; cp_nonces := v;
     cp_seen_terminals := cp_seen_terminals s; cp_store := cp_store s; cp_open := cp_open s;
     cp_sent := cp_sent s; cp_tokens := cp_tokens s |}.
Definition set_seen_terminals (v : list string) (s : ControlPlane) : ControlPlane :=
  {| cp_signing_private_key := cp_signing_private_key s; cp_signing_public_key :=
     cp_signing_public_key s; cp_key_id := cp_key_id s; cp_connections := cp_connections s;
     cp_sessions := cp_sessions s; cp_challenges := cp_challenges s; cp_nonces := cp_nonces s;
     cp_seen_terminals := v; cp_store := cp_store s; cp_open := cp_open s; cp_sent := cp_sent s;
     cp_tokens := cp_tokens s |}.
Definition set_store (v : LifecycleState) (s : ControlPlane) : ControlPlane :=
  {| cp_signing_private_key := cp_signing_private_key s; cp_signing_public_key :=
     cp_signing_public_key s; cp_key_id := cp_key_id s; cp_connections := cp_connections s;
     cp_sessions := cp_sessions s; cp_challenges := cp_challenges s; cp_nonces := cp_nonces s;
     cp_seen_terminals := cp_seen_terminals s; cp_store := v; cp_open := cp_open s; cp_sent :=
     cp_sent s; cp_tokens := cp_tokens s |}.
Definition set_open (v : list nat) (s : ControlPlane) : ControlPlane :=
  {| cp_signing_private_key := cp_signing_private_key s; cp_signing_public_key :=
     cp_signing_public_key s; cp_key_id := cp_key_id s; cp_connections := cp_connections s;
     cp_sessions := cp_sessions s; cp_challenges := cp_challenges s; cp_nonces := cp_nonces s;
     cp_seen_terminals := cp_seen_terminals s; cp_store := cp_store s; cp_open := v; cp_sent :=
     cp_sent s; cp_tokens := cp_tokens s |}.
Definition set_sent (v : list (nat * ProtocolMessage)) (s : ControlPlane) : ControlPlane :=
  {| cp_signing_private_key := cp_signing_private_key s; cp_signing_public_key :=
     cp_signing_public_key s; cp_key_id := cp_key_id s; cp_connections := cp_connections s;
     cp_sessions := cp_sessions s; cp_challenges := cp_challenges s; cp_nonces := cp_nonces s;
     cp_seen_terminals := cp_seen_terminals s; cp_store := cp_store s; cp_open := cp_open s;
     cp_sent := v; cp_tokens := cp_tokens s |}.
Definition set_tokens (v : nat) (s : ControlPlane) : ControlPlane :=
  {| cp_signing_private_key := cp_signing_private_key s; cp_signing_public_key :=
     cp_signing_public_key s; cp_key_id := cp_key_id s; cp_connections := cp_connections s;
     cp_sessions := cp_sessions s; cp_challenges := cp_challenges s; cp_nonces := cp_nonces s;
     cp_seen_terminals := cp_seen_terminals s; cp_store := cp_store s; cp_open := cp_open s;
     cp_sent := cp_sent s; cp_tokens := v |}.

Abbreviation G := (M ControlPlane).

(** An operation of the store. *)
Definition on_store {A} (m : L A) : G A := zoom cp_store set_store m.

Section gateway.
Context `{PyLib} `{SqlEngine} `{NodeLib}.
Context (catalogue : Catalogue) (platform : string) (production : bool).
(** The [n]-th [secrets.token_urlsafe(32)]. *)
Context (token_urlsafe : nat → string).
(** What the database driver makes of a value that is neither text nor missing. *)
Context (bind_text : pyval → res (option string)).

Definition utc_now : G Z := on_store ConnectorStore.utc_now.
Definition uuid4 : G string := on_store ConnectorStore.uuid4.

(** [websocket.send_json(ProtocolMessage(...))]. *)
Definition send_message (websocket : nat) (t : NodeProtocolMessageType) (node_id : string)
    (reply_to : option string) (payload : dict) : G unit :=
  id ← uuid4;
  now ← utc_now;
  let m := {| pm_type := t; pm_message_id := id; pm_node_id := node_id; pm_sequence := 0;
              pm_timestamp := now; pm_reply_to := reply_to; pm_payload := payload |} in
  s ← get_state;
  if websocket in? cp_open s then
    modify_state (λ s, set_sent (cp_sent s ++ [(websocket, m)]) s)
  else raise (Exn "WebSocketDisconnect" "" "").

(* @src control_plane/gateway.py:55-60 NodeGateway.online_node_ids *)
Definition online_node_ids (s : ControlPlane) : list string :=
  (List.filter (λ c, ns_status (bc_session c.2) == "online") (cp_connections s)).*1.

(** ** Authentication *)

(** Sixty seconds, five minutes and fifteen minutes in microseconds. *)
Definition challenge_ttl : Z := 60000000.
Definition nonce_ttl : Z := 300000000.
Definition envelope_ttl : Z := 900000000.

(** Up to the wait for the reply. *)
(* @src control_plane/gateway.py:72-82 NodeGateway.authenticate *)
Definition send_challenge (websocket : nat) (node_id : string) : G unit :=
  s ← get_state;
  let challenge := token_urlsafe (cp_tokens s) in
  modify_state (set_tokens (S (cp_tokens s)));;
  now ← utc_now;
  modify_state (λ s, set_challenges
    (dict_set node_id (challenge, now + challenge_ttl)%Z (cp_challenges s)) s);;
  send_message websocket CHALLENGE node_id None
    [("challenge", PStr challenge); ("expires_in_seconds", PInt 60)].

(** [payload.get(key, "")] as text. *)
Definition text_of (key : string) (payload : dict) : string :=
  match dict_get key payload with Some v => py_str v | None => "" end.

(** The check of the reply. The challenge is taken out whatever the reply says. *)
(* @src control_plane/gateway.py:84-98 NodeGateway.authenticate *)
Definition check_reply (node_id public_key : string) (message : ProtocolMessage) : G string :=
  if pm_type message != AUTHENTICATE then raise (PermissionError "expected node.authenticate")
  else if pm_node_id message != node_id then raise (PermissionError "node identity mismatch")
  else
    s ← get_state;
    let stored := dict_get node_id (cp_challenges s) in
    modify_state (set_challenges (dict_del node_id (cp_challenges s)));;
    match stored with
    | None => raise (PermissionError "challenge expired")
    | Some (expected_challenge, expires_at) =>
        now ← utc_now;
        if (expires_at <=? now)%Z then raise (PermissionError "challenge expired")
        else
          let supplied_challenge := text_of "challenge" (pm_payload message) in
          let signature := text_of "signature" (pm_payload message) in
          if supplied_challenge != expected_challenge then
            raise (PermissionError "challenge mismatch")
          else
            expires ← utc_now;
            now ← utc_now;
            zoom cp_nonces set_nonces
              (consume now expected_challenge (expires + nonce_ttl)%Z);;
            lift_res (verify_bytes expected_challenge signature public_key);;
            mret expected_challenge
    end.

(* @src control_plane/gateway.py:99-126 NodeGateway.authenticate *)
Definition establish_session (websocket : nat) (node_id organisation_id public_key
    runtime_version : string) (remote_address : option string) (message_id challenge : string) :
    G NodeSession :=
  session_id ← uuid4;
  connected_at ← utc_now;
  last_seen_at ← utc_now;
  let session := {| ns_session_id := session_id; ns_node_id := node_id;
                    ns_organisation_id := organisation_id; ns_connected_at := connected_at;
                    ns_last_seen_at := last_seen_at; ns_runtime_version := runtime_version;
                    ns_remote_address := remote_address; ns_status := "online";
                    ns_challenge_nonce := Some challenge |} in
  modify_state (λ s, set_sessions (dict_set session_id session (cp_sessions s)) s);;
  modify_state (λ s, set_connections (dict_set node_id
    {| bc_session := session; bc_websocket := websocket; bc_node_public_key := public_key;
       bc_organisation_id := organisation_id |} (cp_connections s)) s);;
  s ← get_state;
  send_message websocket SESSION_ESTABLISHED node_id (Some message_id)
    [("session_id", PStr session_id); ("heartbeat_seconds", PInt 20);
     ("control_plane_public_key", PStr (cp_signing_public_key s))];;
  mret session.

(** From the reply on. *)
(* @src control_plane/gateway.py:83-126 NodeGateway.authenticate *)
Definition complete_authentication (websocket : nat) (node_id organisation_id public_key
    runtime_version : string) (remote_address : option string) (reply : res ProtocolMessage) :
    G NodeSession :=
  message ← lift_res reply;
  challenge ← check_reply node_id public_key message;
  establish_session websocket node_id organisation_id public_key runtime_version remote_address
    (pm_message_id message) challenge.

Definition set_session (status : string) (last_seen_at : Z) (n : NodeSession) : NodeSession :=
  {| ns_session_id := ns_session_id n; ns_node_id := ns_node_id n;
     ns_organisation_id := ns_organisation_id n; ns_connected_at := ns_connected_at n;
     ns_last_seen_at := last_seen_at; ns_runtime_version := ns_runtime_version n;
     ns_remote_address := ns_remote_address n; ns_status := status;
     ns_challenge_nonce := ns_challenge_nonce n |}.

(* @src control_plane/gateway.py:128-138 NodeGateway.disconnect *)
Definition disconnect (node_id : string) (websocket : option nat) : G unit :=
  s ← get_state;
  match dict_get node_id (cp_connections s) with
  | None => mret tt
  | Some current =>
      if match websocket with Some w => negb (bc_websocket current =? w)%nat | None => false end
      then mret tt
      else
        now ← utc_now;
        let session := set_session "offline" now (bc_session current) in
        modify_state (λ s, set_sessions (dict_set (ns_session_id session) session (cp_sessions s)) s);;
        modify_state (λ s, set_connections (dict_del node_id (cp_connections s)) s)
  end.

(** ** Offers *)

(** [ConnectorTaskEnvelope(...)], with its defaults. *)
(* @src control_plane/gateway.py:149-166 NodeGateway.offer_connector_task *)
Definition envelope_for (key_id nonce : string) (issued_at expires_at : Z)
    (task : ConnectorTaskRecord) (plan : ConnectorTaskPlan) : ConnectorTaskEnvelope :=
  {| en_task_id := tk_task_id task; en_plan_id := tp_plan_id plan;
     en_node_id := tp_node_id plan; en_connector_id := tp_connector_id plan;
     en_connector_revision := tp_connector_revision plan;
     en_action := ConnectorAction_value (tp_action plan); en_plan_hash := tp_plan_hash plan;
     en_executable := tp_executable plan; en_arguments := tp_arguments plan;
     en_method_id := tp_method_id plan; en_package_source := tp_package_source plan;
     en_expected_executables := tp_expected_executables plan;
     en_download_digest := tp_download_digest plan; en_risk_level := tp_risk_level plan;
     en_nonce := nonce; en_issued_at := issued_at; en_expires_at := expires_at;
     en_key_id := key_id; en_signature := ""; en_idempotency_key := tk_idempotency_key task |}.

(* @src control_plane/gateway.py:140-177 NodeGateway.offer_connector_task *)
Definition offer_connector_task (task : ConnectorTaskRecord) (plan : ConnectorTaskPlan) : G bool :=
  s ← get_state;
  match dict_get (tk_node_id task) (cp_connections s) with
  | None => mret false
  | Some connection =>
      nonce ← uuid4;
      issued_at ← utc_now;
      now ← utc_now;
      envelope ← lift_res (sign_connector_envelope
        (envelope_for (cp_key_id s) nonce issued_at (now + envelope_ttl)%Z task plan)
        (cp_signing_private_key s));
      send_message (bc_websocket connection) TASK_OFFER (tk_node_id task) None
        (envelope_dump envelope);;
      mret true
  end.

Definition close_websocket (websocket : nat) : G unit :=
  modify_state (λ s, set_open (List.filter (λ w, negb (w =? websocket)%nat) (cp_open s)) s).

(* @src control_plane/gateway.py:179-192 NodeGateway.revoke_node *)
Definition revoke_node (node_id : string) : G unit :=
  s ← get_state;
  match dict_get node_id (cp_connections s) with
  | None => mret tt
  | Some connection =>
      send_message (bc_websocket connection) NODE_REVOKED node_id None
        [("reason", PStr "node revoked")];;
      close_websocket (bc_websocket connection);;
      disconnect node_id (Some (bc_websocket connection))
  end.

(** ** Events *)

(* @src control_plane/gateway.py:306-311 ConnectorTaskEventIngestor.ingest *)
Definition terminal_map (t : NodeProtocolMessageType) : option ConnectorTaskStatus :=
  match t with
  | TASK_SUCCEEDED => Some TS_SUCCEEDED
  | TASK_FAILED => Some TS_FAILED
  | TASK_CANCELLED => Some TS_CANCELLED
  | TASK_INTERRUPTED => Some TS_INTERRUPTED
  | _ => None
  end.

(** [a.get(k)] of a value, when it is a mapping. *)
Definition get_of (k : string) (v : pyval) : res pyval :=
  match v with
  | PDict d => Ok (dget k d)
  | _ => Raise (Exn "AttributeError" "" "object has no attribute 'get'")
  end.

(** [str(payload.get(k) or (payload.get("details") or {}).get(k) or default)]. *)
Definition origin_text (k fallback : string) (d : dict) : res string :=
  if truthy (dget k d) then Ok (py_str (dget k d))
  else
    res_bind (get_of k (py_or (dget "details" d) (PDict []))) (λ v,
    Ok (py_str (py_or v (PStr fallback)))).

(* @src control_plane/gateway.py:263-280 ConnectorTaskEventIngestor.ingest *)
Definition trust_and_origin (d : dict) : res (EvidenceTrustLevel * ConnectorExecutionOrigin) :=
  res_bind (origin_text "trust_level" (EvidenceTrustLevel_value NODE_ATTESTED) d) (λ trust_raw,
  res_bind (origin_text "execution_origin" (ConnectorExecutionOrigin_value REMOTE_NODE) d)
    (λ origin_raw,
  Ok (default NODE_ATTESTED
        (enum_of EvidenceTrustLevel_value [TRUST_MOCK; DEVELOPMENT; NODE_ATTESTED] trust_raw),
      default REMOTE_NODE
        (enum_of ConnectorExecutionOrigin_value [REMOTE_NODE; INLINE_DEVELOPMENT; MOCK_TEST]
           origin_raw)))).

(** [str(payload.get(key, fallback))]. *)
Definition text_or (key fallback : string) (d : dict) : string :=
  match dict_get key d with Some v => py_str v | None => fallback end.

(** The evidence an event carries. The driver sees the columns when the row is written. *)
(* @src control_plane/gateway.py:281-304 ConnectorTaskEventIngestor.ingest *)
Definition evidence_of (task_id : string) (task : ConnectorTaskRecord) (d : dict) : G ConnectorEvidence :=
  to ← lift_res (trust_and_origin d);
  id ← uuid4;
  evidence_type ←
    match enum_of ConnectorEvidenceType_value ConnectorEvidenceType_members
            (text_or "evidence_type" "failure" d) with
    | Some t => mret t
    | None => raise (ValueError "not a valid ConnectorEvidenceType")
    end;
  details ← lift_res (py_dict (py_or (dget "details" d) (PDict [])));
  now ← utc_now;
  path ← lift_res (bind_text (dget "executable_path" d));
  fingerprint ← lift_res (bind_text (dget "executable_fingerprint" d));
  version ← lift_res (bind_text (dget "harness_version" d));
  mode ← lift_res (bind_text (dget "provider_mode" d));
  mret {| ev_evidence_id := text_or "evidence_id" id d; ev_node_id := tk_node_id task;
          ev_connector_id := tk_connector_id task;
          ev_connector_revision :=
            text_or "connector_revision" (tk_connector_revision task) d;
          ev_task_id := task_id; ev_evidence_type := evidence_type;
          ev_status := text_or "status" "unknown" d; ev_executable_path := path;
          ev_executable_fingerprint := fingerprint; ev_harness_version := version;
          ev_provider_mode := mode; ev_details := details; ev_created_at := now;
          ev_expires_at := None; ev_trust_level := to.1; ev_execution_origin := to.2 |}.

Definition transition (task_id : string) (task : ConnectorTaskRecord) (status : ConnectorTaskStatus)
    (detail : option string) (started_at finished_at : option Z) : G ConnectorTaskRecord :=
  on_store (transition_task task_id (tk_version task) status detail started_at finished_at).

(** What an accepted event does to its task. *)
(* @src control_plane/gateway.py:230-325 ConnectorTaskEventIngestor.ingest *)
Definition apply_event (task_id : string) (task : ConnectorTaskRecord)
    (message : ProtocolMessage) : G ConnectorTaskRecord :=
  match pm_type message with
  | TASK_ACCEPTED =>
      if tk_status task in? [TS_ACCEPTED_BY_NODE; TS_RUNNING] then mret task
      else now ← utc_now; transition task_id task TS_ACCEPTED_BY_NODE None (Some now) None
  | TASK_STARTED =>
      if tk_status task == TS_RUNNING then mret task
      else transition task_id task TS_RUNNING None None None
  | TASK_WAITING_FOR_USER => transition task_id task TS_WAITING_FOR_USER None None None
  | TASK_EVIDENCE =>
      match default (PDict []) (dict_get "evidence" (pm_payload message)) with
      | PDict d =>
          e ← evidence_of task_id task d;
          on_store (record_evidence catalogue platform production e);;
          mret task
      | _ => mret task
      end
  | t =>
      match terminal_map t with
      | None => mret task
      | Some status =>
          s ← get_state;
          if task_id in? cp_seen_terminals s then
            raise (ValueError "duplicate terminal event rejected")
          else
            modify_state (set_seen_terminals (task_id :: cp_seen_terminals s));;
            let detail := text_of "detail" (pm_payload message) in
            now ← utc_now;
            updated ← transition task_id task status (if detail == "" then None else Some detail) None
                        (Some now);
            on_store (recompute catalogue platform production (tk_node_id task)
                        (tk_connector_id task));;
            mret updated
      end
  end.

(** The event is checked, recorded, and applied. *)
(* @src control_plane/gateway.py:202-229 ConnectorTaskEventIngestor.ingest *)
Definition ingest (message : ProtocolMessage) : G ConnectorTaskRecord :=
  let payload := pm_payload message in
  let task_id := text_of "task_id" payload in
  if task_id == "" then raise (ValueError "task_id required")
  else
    task ← on_store (get_task task_id);
    if tk_node_id task != pm_node_id message then
      raise (PermissionError "event for wrong node")
    else if tk_connector_id task != text_or "connector_id" (tk_connector_id task) payload then
      raise (PermissionError "event for wrong connector")
    else
      let plan_hash := text_of "plan_hash" payload in
      if (plan_hash != "") && (plan_hash != tk_plan_hash task) then
        raise (PermissionError "stale plan hash")
      else if tk_status task in? TERMINAL_TASK_STATUSES then
        raise (ValueError "events after terminal completion are rejected")
      else
        sequence ← lift_res (py_int (default (default (PInt 0) (dict_get "sequence" payload))
                                       (dict_get "sequence_number" payload)));
        event_id ← uuid4;
        (if (sequence <? 0)%Z then raise (ValueError "Input should be greater than or equal to 0")
         else
           now ← utc_now;
           on_store (append_task_event
             {| te_event_id := event_id; te_task_id := task_id;
                te_node_id := pm_node_id message; te_connector_id := tk_connector_id task;
                te_event_type := NodeProtocolMessageType_value (pm_type message);
                te_sequence := sequence; te_payload := payload; te_created_at := now |});;
           apply_event task_id task message).

(** ** A connection

    What the websocket route does with one message of an authenticated node; [offer_queued] is
    the coordinator's [offer_queued_tasks]. *)

(** The exceptions that only reject an event. *)
Definition rejects (e : exn) : bool :=
  exn_class e in? ["ValueError"; "ValidationError"; "PermissionError"; "KeyError"].

Context (offer_queued : string → G unit).

(* @src api.py:1347-1390 node_gateway *)
Definition session_message (websocket : nat) (node_id : string) (message : ProtocolMessage) :
    G bool :=
  if pm_node_id message != node_id then close_websocket websocket;; mret false
  else
    match pm_type message with
    | HEARTBEAT =>
        s ← get_state;
        match dict_get node_id (cp_connections s) with
        | None => mret true
        | Some c =>
            now ← utc_now;
            modify_state (λ s, set_sessions (dict_set (ns_session_id (bc_session c))
              (set_session (ns_status (bc_session c)) now (bc_session c)) (cp_sessions s)) s);;
            send_message websocket HEARTBEAT_ACK node_id (Some (pm_message_id message))
              [("status", PStr "ok")];;
            mret true
        end
    | READY => offer_queued node_id;; mret true
    | TASK_RECONCILE_RESPONSE => mret true
    | t =>
        if startswith "task." (NodeProtocolMessageType_value t) then
          catch (ingest message;; mret true) (λ e,
            if rejects e then
              send_message websocket TASK_PROGRESS node_id None
                [("detail", PStr ("event rejected: " +:+ exn_msg e));
                 ("rejected_type", PStr (NodeProtocolMessageType_value t));
                 ("task_id", dget "task_id" (pm_payload message))];;
              mret true
            else raise e)
        else mret true
    end.
End gateway.
