(* ===== verification/NodeGatewayProofs.v ===== *)
(** * What the gateway guarantees

    Who gets a session, how often a challenge serves, what the events of a node may change,
    and that a signed offer is what the node executes. *)

From S2P Require Import Prelude Scheduler Connectors Readiness ConnectorStore ConnectorLifecycle.
From S2P Require Import ConnectorLifecycleProofs NodeSecurity NodeProtocol NodeAgent NodeAgentProofs.
From S2P Require Import NodeGateway.

(** ** Authentication *)

Section authentication.
Context `{PyLib} `{SqlEngine} `{NodeLib}.
Context (token_urlsafe : nat → string).

(** The [n]-th reading of the clock from here. *)
Definition clock_at (n : nat) (s : ControlPlane) : Z := clock (n + ls_clock (cp_store s)).

(** What a reply must be for a node to get a session with this challenge. *)
Definition genuine_reply (node_id public_key : string) (m : ProtocolMessage) (c : string)
    (s : ControlPlane) : Prop :=
  pm_type m = NodeProtocol.AUTHENTICATE ∧ pm_node_id m = node_id ∧
  (∃ expires, dict_get node_id (cp_challenges s) = Some (c, expires) ∧
              (clock_at 0 s < expires)%Z) ∧
  text_of "challenge" (pm_payload m) = c ∧
  dict_get c (purge (clock_at 2 s) (cp_nonces s)) = None ∧
  verify_bytes c (text_of "signature" (pm_payload m)) public_key = Ok tt.

Lemma check_reply_Ok node_id public_key m s c :
  (check_reply node_id public_key m s).1 = Ok c ↔ genuine_reply node_id public_key m c s.
Proof.
  unfold check_reply, genuine_reply, get_state, modify_state, raise, lift_res, mbind, M_bind.
  destruct (bool_decide (pm_type m = NodeProtocol.AUTHENTICATE)) eqn:E1; boolify; simpl;
    [|split; [done|by intros (? & _)]].
  destruct (bool_decide (pm_node_id m = node_id)) eqn:E2; boolify; simpl;
    [|split; [done|by intros (_ & ? & _)]].
  destruct (dict_get node_id (cp_challenges s)) as [[c' expires]|] eqn:Hc; simpl;
    [|split; [done|by intros (_ & _ & (? & ? & _) & _)]].
  destruct (Z.leb_spec expires (clock (ls_clock (cp_store s)))) as [Hle|Hlt]; simpl.
  { split; [done|]. intros (_ & _ & (e & [= -> ->] & He) & _). unfold clock_at in He. simpl in He. lia. }
  destruct (bool_decide (text_of "challenge" (pm_payload m) = c')) eqn:E3; boolify; simpl;
    [|split; [done|intros (_ & _ & (? & [= <- <-] & _) & ? & _); congruence]].
  unfold consume, modify_state, get_state, raise, zoom, dict_has, mbind, M_bind. simpl.
  unfold clock_at. simpl.
  destruct (dict_get c' (purge _ (cp_nonces s))) eqn:E4; simpl;
    [split; [done|intros (_ & _ & (? & [= <- <-] & _) & _ & ? & _); congruence]|].
  destruct (verify_bytes c' _ public_key) as [[]|e] eqn:E5; simpl;
    [|split; [done|intros (_ & _ & (? & [= <- <-] & _) & _ & _ & ?); congruence]].
  split.
  - intros [= <-]. split_and!; try done. by exists expires.
  - by intros (_ & _ & (? & [= -> ->] & _) & _).
Qed.

(** Walk a computation to the operations it is made of. *)
Lemma keeps_on_store I {A} (m : L A) : (∀ v s, I s → I (set_store v s)) → keeps I (on_store m).
Proof. intros HI s Hs. unfold on_store, zoom. destruct (m (cp_store s)). by apply HI. Qed.
End authentication.

Ltac kept :=
  repeat match goal with
  | |- keeps _ (_ ≫= _) => apply keeps_bind; [|intros ?]
  | |- keeps _ (M_bind _ _ _ ?k ?m) => apply (keeps_bind _ m k); [|intros ?]
  | |- keeps _ (mret _) => apply keeps_ret
  | |- keeps _ (raise _) => apply keeps_raise
  | |- keeps _ get_state => apply keeps_get
  | |- keeps _ (lift_res _) => apply keeps_lift
  | |- keeps _ (catch _ _) => apply keeps_catch; [|intros ?]
  | |- keeps _ (if ?b then _ else _) => destruct b
  | |- keeps _ (match ?o with _ => _ end) => destruct o
  | |- keeps _ (modify_state _) => by apply keeps_modify
  | |- keeps _ (on_store _) => by apply keeps_on_store
  | |- keeps _ NodeGateway.utc_now => by apply keeps_on_store
  | |- keeps _ NodeGateway.uuid4 => by apply keeps_on_store
  end.

Section sessions.
Context `{PyLib} `{SqlEngine} `{NodeLib}.
Context (catalogue : Catalogue) (platform : string) (production : bool).
Context (token_urlsafe : nat → string) (bind_text : pyval → res (option string)).

Lemma keeps_send I w t n r p :
  (∀ v s, I s → I (set_store v s)) → (∀ v s, I s → I (set_sent v s)) →
  keeps I (send_message w t n r p).
Proof.
  intros Hst Hse. unfold send_message. kept. apply keeps_modify. intros ?. apply Hse.
Qed.

Lemma check_reply_open n pk m o : keeps (λ s, cp_open s = o) (check_reply n pk m).
Proof.
  unfold check_reply. kept.
  all: intros s1 Hs; unfold zoom; destruct (consume _ _ _ (cp_nonces s1)); exact Hs.
Qed.

Lemma send_message_open w t n r p s : w ∈ cp_open s → ∃ s', send_message w t n r p s = (Ok tt, s') ∧
  cp_connections s' = cp_connections s.
Proof.
  intros Hw. unfold send_message, NodeGateway.uuid4, NodeGateway.utc_now, on_store, zoom, get_state,
    mbind, M_bind. simpl. rewrite bool_decide_eq_true_2 by done. by eexists.
Qed.

(** On an open websocket a session is established exactly for a reply that names the node,
    repeats the latest challenge sent to that node before it expired, uses that challenge for
    the first time, and carries a signature of it that the node's registered key verifies. *)
Theorem session_iff_genuine_reply w n org pk version addr m s : w ∈ cp_open s →
  (∃ session s', complete_authentication w n org pk version addr (Ok m) s = (Ok session, s') ∧
     (∃ connection, dict_get n (cp_connections s') = Some connection ∧
                    bc_session connection = session ∧ bc_websocket connection = w)) ↔
  ∃ c, genuine_reply n pk m c s.
Proof.
  intros Hw. setoid_rewrite <- check_reply_Ok.
  pose proof (check_reply_open n pk m _ s eq_refl) as Ho. unfold complete_authentication, lift_res.
  unfold mbind, M_bind at 1. unfold M_bind at 1.
  destruct (check_reply n pk m s) as [[c|e] s1]; simpl in *;
    [|split; [by intros (? & ? & ? & _)|by intros [? ?]]].
  split; [by eauto|]. intros _.
  unfold establish_session, NodeGateway.uuid4, NodeGateway.utc_now, on_store, zoom, modify_state,
    get_state, mbind, M_bind. simpl. match goal with |- context [send_message ?w ?t ?n ?r ?p ?s2] =>
    destruct (send_message_open w t n r p s2 ltac:(simpl; rewrite Ho; exact Hw)) as (s3 & -> & Hc3)
  end. do 2 eexists. split; [reflexivity|]. rewrite Hc3. simpl. rewrite dict_get_set_eq.
  eexists. by split_and!.
Qed.

(** ** Challenges *)

(** What the gateway is asked, with any changes of the store in between. *)
Inductive gateway_step (s : ControlPlane) : ControlPlane → Prop :=
| gs_challenge w n : gateway_step s (send_challenge token_urlsafe w n s).2
| gs_complete w n o pk v a r :
    gateway_step s (complete_authentication w n o pk v a r s).2
| gs_disconnect n w : gateway_step s (disconnect n w s).2
| gs_revoke n : gateway_step s (revoke_node n s).2
| gs_offer t p : gateway_step s (offer_connector_task t p s).2
| gs_message w n m : gateway_step s
    (session_message catalogue platform production bind_text (λ _, mret tt) w n m s).2
| gs_store v : gateway_step s (set_store v s)
| gs_open o : gateway_step s (set_open o s).

(** What a step does to the challenges. *)
Inductive challenge_change (s s' : ControlPlane) : Prop :=
| ch_same : cp_challenges s' = cp_challenges s → cp_tokens s' = cp_tokens s →
    challenge_change s s'
| ch_deleted n : cp_challenges s' = dict_del n (cp_challenges s) →
    cp_tokens s' = cp_tokens s → challenge_change s s'
| ch_issued n e :
    cp_challenges s' = dict_set n (token_urlsafe (cp_tokens s), e) (cp_challenges s) →
    cp_tokens s' = S (cp_tokens s) → challenge_change s s'.

Definition challenges_are (c : list (string * (string * Z))) (t : nat) (s : ControlPlane) : Prop :=
  cp_challenges s = c ∧ cp_tokens s = t.

Lemma unchanged {A} (m : G A) s : (∀ c t, keeps (challenges_are c t) m) → challenge_change s (m s).2.
Proof. intros Hm. destruct (Hm _ _ s (conj eq_refl eq_refl)). by apply ch_same. Qed.

Lemma keeps_disconnect c t n w : keeps (challenges_are c t) (disconnect n w).
Proof. unfold disconnect. kept. Qed.

Lemma keeps_message c t w ty n r p : keeps (challenges_are c t) (send_message w ty n r p).
Proof. by apply keeps_send. Qed.

Lemma keeps_establish c t w n o pk v a id ch :
  keeps (challenges_are c t) (establish_session w n o pk v a id ch).
Proof. unfold establish_session. kept. apply keeps_message. Qed.

Lemma keeps_ingest c t m :
  keeps (challenges_are c t) (ingest catalogue platform production bind_text m).
Proof. unfold ingest, apply_event, evidence_of, transition. kept. Qed.

Lemma check_reply_change n pk m s : challenge_change s (check_reply n pk m s).2.
Proof.
  unfold check_reply, get_state, modify_state, raise, lift_res, mbind, M_bind.
  destruct (bool_decide _); simpl; [|by apply ch_same].
  destruct (bool_decide _); simpl; [|by apply ch_same].
  destruct (dict_get n (cp_challenges s)) as [[c e]|]; simpl; [|by apply (ch_deleted _ _ n)].
  destruct (_ <=? _)%Z; simpl; [by apply (ch_deleted _ _ n)|].
  destruct (bool_decide _); simpl; [|by apply (ch_deleted _ _ n)].
  unfold zoom. simpl. destruct (consume _ _ _ _) as [[[]|?] ?]; simpl; [|by apply (ch_deleted _ _ n)].
  destruct (verify_bytes _ _ _); by apply (ch_deleted _ _ n).
Qed.

Lemma step_challenges s s' : gateway_step s s' → challenge_change s s'.
Proof.
  intros [w n|w n o pk v a r|n w|n|t p|w n m|v|o]; try (by apply ch_same).
  - unfold send_challenge, NodeGateway.utc_now, on_store, zoom, get_state, modify_state, mbind, M_bind.
    simpl. match goal with |- context [send_message ?w ?t ?n ?r ?p ?s2] =>
      destruct (keeps_message _ _ w t n r p s2 (conj eq_refl eq_refl)) as [Hc Ht] end.
    eapply ch_issued; [exact Hc|exact Ht].
  - unfold complete_authentication, lift_res. unfold mbind, M_bind at 1.
    destruct r as [m|e]; [|by apply ch_same]. unfold M_bind at 1.
    pose proof (check_reply_change n pk m s) as Hch.
    destruct (check_reply n pk m s) as [[c|e] s1]; simpl in *; [|done].
    destruct (keeps_establish _ _ w n o pk v a (pm_message_id m) c s1 (conj eq_refl eq_refl))
      as [Hc Ht].
    destruct Hch as [Hc1 Ht1|n' Hc1 Ht1|n' e Hc1 Ht1]; [eapply ch_same|eapply ch_deleted|eapply ch_issued];
      (etrans; [eassumption|eassumption]).
  - apply unchanged. intros. apply keeps_disconnect.
  - apply unchanged. intros. unfold revoke_node, close_websocket. kept; [apply keeps_message|apply keeps_disconnect].
  - apply unchanged. intros. unfold offer_connector_task. kept. apply keeps_message.
  - apply unchanged. intros. unfold session_message, close_websocket. kept; first [apply keeps_message|apply keeps_ingest].
Qed.

(** The waiting challenges are distinct tokens that were drawn. *)
Definition challenges_ok (s : ControlPlane) : Prop :=
  NoDup (dict_keys (cp_challenges s)) ∧
  (∀ n c e, dict_get n (cp_challenges s) = Some (c, e) →
     ∃ i, i < cp_tokens s ∧ c = token_urlsafe i) ∧
  (∀ n n' c e e', dict_get n (cp_challenges s) = Some (c, e) →
     dict_get n' (cp_challenges s) = Some (c, e') → n = n').

(** A challenge that was drawn and waits no more. *)
Definition spent_challenge (c : string) (s : ControlPlane) : Prop :=
  (∃ i, i < cp_tokens s ∧ c = token_urlsafe i) ∧
  ∀ n e, dict_get n (cp_challenges s) ≠ Some (c, e).

Context (tokens_differ : ∀ i j, token_urlsafe i = token_urlsafe j → i = j).

Lemma challenges_ok_change s s' : challenge_change s s' → challenges_ok s → challenges_ok s'.
Proof.
  intros Hch (Hn & Ht & Hd). unfold challenges_ok.
  destruct Hch as [-> ->|n -> ->|n e -> ->]; [done| |].
  - split; [by apply dict_del_NoDup|]. split.
    + intros n' c e' Hg%dict_get_del_Some; eauto.
    + intros n1 n2 c e1 e2 G1%dict_get_del_Some G2%dict_get_del_Some; eauto.
  - assert (Hfresh : ∀ n' e', dict_get n' (cp_challenges s) ≠ Some (token_urlsafe (cp_tokens s), e')).
    { intros n' e' Hg. destruct (Ht _ _ _ Hg) as (i & Hi & Heq%tokens_differ). lia. }
    split; [by apply dict_set_NoDup|]. split.
    + intros n' c e' Hg. destruct (decide (n = n')) as [<-|].
      * rewrite dict_get_set_eq in Hg. injection Hg as <- _. exists (cp_tokens s). split; [lia|done].
      * rewrite dict_get_set_ne in Hg by done. destruct (Ht _ _ _ Hg) as (i & ? & ->).
        exists i. split; [lia|done].
    + intros n1 n2 c e1 e2 G1 G2.
      destruct (decide (n = n1)) as [<-|], (decide (n = n2)) as [<-|]; [done| | |].
      * rewrite dict_get_set_eq in G1. rewrite dict_get_set_ne in G2 by done.
        injection G1 as <- _. by destruct (Hfresh _ _ G2).
      * rewrite dict_get_set_eq in G2. rewrite dict_get_set_ne in G1 by done.
        injection G2 as <- _. by destruct (Hfresh _ _ G1).
      * rewrite !dict_get_set_ne in G1, G2 by done. eauto.
Qed.

Lemma spent_change c s s' : NoDup (dict_keys (cp_challenges s)) → challenge_change s s' →
  spent_challenge c s → spent_challenge c s'.
Proof.
  intros Hnd Hch [(i & Hi & ->) Hn]. unfold spent_challenge.
  destruct Hch as [-> ->|n -> ->|n e -> ->].
  - split; [by exists i|done].
  - split; [by exists i|]. intros n' e' Hg%dict_get_del_Some; [by apply (Hn n' e')|done].
  - split; [exists i; split; [lia|done]|]. intros n' e' Hg.
    destruct (decide (n = n')) as [<-|]; [|rewrite dict_get_set_ne in Hg by done; by apply (Hn n' e')].
    rewrite dict_get_set_eq in Hg. injection Hg as Heq%tokens_differ _. lia.
Qed.

Lemma spent_challenge_steps c s s' : rtc gateway_step s s' → challenges_ok s → spent_challenge c s →
  spent_challenge c s'.
Proof.
  induction 1 as [|s s1 s2 Hs%step_challenges _ IH]; [done|]. intros Hok Hsp.
  apply IH; [by eapply challenges_ok_change|]. eapply spent_change; [apply Hok|done|done].
Qed.

Lemma accepted_is_spent n pk m c s : challenges_ok s → genuine_reply n pk m c s →
  spent_challenge c (check_reply n pk m s).2.
Proof.
  intros (Hnd & Ht & Hd) Hg. pose proof Hg as (_ & _ & (e & Hget & _) & _).
  pose proof (check_reply_change n pk m s) as Hch.
  assert (Hdel : cp_challenges (check_reply n pk m s).2 = dict_del n (cp_challenges s) ∧
    cp_tokens (check_reply n pk m s).2 = cp_tokens s).
  { unfold check_reply, get_state, modify_state, raise, lift_res, mbind, M_bind.
    destruct Hg as (-> & -> & _). rewrite !bool_decide_eq_true_2 by done. simpl. rewrite Hget.
    simpl. destruct (_ <=? _)%Z; [done|]. simpl. destruct (bool_decide _); [|done]. simpl.
    unfold zoom. simpl. destruct (consume _ _ _ _) as [[[]|?] ?]; simpl; [|done].
    by destruct (verify_bytes _ _ _). }
  destruct Hdel as [Hc1 Ht1]. split.
  - rewrite Ht1. eauto.
  - rewrite Hc1. intros n' e' Hg'. pose proof Hg' as Hg2.
    apply dict_get_del_Some in Hg'; [|done]. pose proof (Hd _ _ _ _ _ Hg' Hget) as ->.
    by rewrite dict_get_del_eq in Hg2.
Qed.

Lemma complete_Ok w n o pk v a m s session s' :
  complete_authentication w n o pk v a (Ok m) s = (Ok session, s') → ∃ c,
  genuine_reply n pk m c s ∧ cp_challenges s' = cp_challenges (check_reply n pk m s).2 ∧
  cp_tokens s' = cp_tokens (check_reply n pk m s).2.
Proof.
  unfold complete_authentication, lift_res. unfold mbind, M_bind at 1. unfold M_bind at 1.
  destruct (check_reply n pk m s) as [[c|e] s1] eqn:Hc; [|done]. intros He. exists c.
  split; [apply check_reply_Ok; by rewrite Hc|].
  pose proof (keeps_establish _ _ w n o pk v a (pm_message_id m) c s1 (conj eq_refl eq_refl)) as Hk.
  rewrite He in Hk. exact Hk.
Qed.

(** C24: A challenge establishes one session at most: once a reply to it was accepted, no reply
    that repeats it, for whatever node and key, is accepted, whatever the gateway did since. *)
Theorem challenge_is_accepted_once w n o pk v a m s0 s session s1 s2 w' n' o' pk' v' a' m' :
  cp_challenges s0 = [] → rtc gateway_step s0 s →
  complete_authentication w n o pk v a (Ok m) s = (Ok session, s1) →
  rtc gateway_step s1 s2 →
  text_of "challenge" (pm_payload m') = text_of "challenge" (pm_payload m) →
  ∃ e, (complete_authentication w' n' o' pk' v' a' (Ok m') s2).1 = Raise e.
Proof.
  intros Hempty Hr (c & Hg & Hc & Ht)%complete_Ok Hs Htext.
  assert (Hok0 : challenges_ok s0).
  { unfold challenges_ok. rewrite Hempty. split_and!; [constructor|done|done]. }
  assert (Hok : challenges_ok s).
  { clear -Hr Hok0 tokens_differ. induction Hr as [|s s1 s2 Hs%step_challenges _ IH]; [done|].
    apply IH. by eapply challenges_ok_change. }
  assert (Hok1 : challenges_ok s1).
  { unfold challenges_ok. rewrite Hc, Ht.
    by apply (challenges_ok_change _ _ (check_reply_change n pk m s)). }
  assert (Hsp : spent_challenge c s2).
  { eapply spent_challenge_steps; [exact Hs|done|]. unfold spent_challenge. rewrite Hc, Ht.
    by apply accepted_is_spent. }
  destruct (complete_authentication w' n' o' pk' v' a' (Ok m') s2) as [[se|e] s3] eqn:Hcomp;
    [|by exists e].
  apply complete_Ok in Hcomp as (c' & (_ & _ & (e' & Hget & _) & Hc' & _) & _).
  destruct Hg as (_ & _ & _ & Hcm & _). destruct Hsp as [_ Hno].
  destruct (Hno n' e'). by rewrite Hget, <- Hc', Htext, Hcm.
Qed.
End sessions.

(** ** Events and the store *)

Section events.
Context `{PyLib} `{SqlEngine} `{NodeLib}.
Context (catalogue : Catalogue) (platform : string) (production : bool).
Context (bind_text : pyval → res (option string)).







(** The coordinator's operations and the nodes' events, as they come. *)
Context (sys_platform : string) (inline_node : bool).
Context (callbacks : list (ConnectorTaskRecord → ConnectorTaskPlan → L (option bool))).
Context (runner : string → ConnectorTaskPlan → (ConnectorTaskEvent → L unit) →
  (ConnectorEvidence → L unit) → L ConnectorTaskStatus).


End events.

(** ** A node and what belongs to it *)

Section isolation.
Context `{PyLib} `{SqlEngine} `{NodeLib}.
Context (catalogue : Catalogue) (platform : string) (production : bool).
Context (bind_text : pyval → res (option string)).

(** The rows of the other nodes. *)
Definition foreign {R} (node_of : R → string) (n : string) (l : list (string * R)) :
    list (string * R) :=
  List.filter (λ r, negb (node_of r.2 == n)) l.

(** Nothing has changed but what belongs to node [n]. *)
Record isolated (n : string) (s0 s : LifecycleState) : Prop := {
  iso_plans : ls_plans s = ls_plans s0;
  iso_tasks id t : dict_get id (ls_tasks s0) = Some t → tk_node_id t ≠ n →
    dict_get id (ls_tasks s) = Some t;
  iso_events : foreign te_node_id n (ls_events s) = foreign te_node_id n (ls_events s0);
  iso_evidence : foreign ev_node_id n (ls_evidence s) = foreign ev_node_id n (ls_evidence s0);
  iso_readiness : foreign rr_node_id n (ls_readiness s) = foreign rr_node_id n (ls_readiness s0);
  iso_discoveries : foreign ConnectorStore.nd_node_id n (ls_discoveries s) =
    foreign ConnectorStore.nd_node_id n (ls_discoveries s0);
  iso_installations : foreign ni_node_id n (ls_installations s) =
    foreign ni_node_id n (ls_installations s0);
  iso_authentications : foreign na_node_id n (ls_authentications s) =
    foreign na_node_id n (ls_authentications s0);
  iso_certifications : foreign nc_node_id n (ls_certifications s) =
    foreign nc_node_id n (ls_certifications s0)
}.

Lemma foreign_snoc {R} (node_of : R → string) n l id r :
  node_of r = n → foreign node_of n (l ++ [(id, r)]) = foreign node_of n l.
Proof.
  intros Hn. unfold foreign. rewrite List.filter_app. simpl. rewrite bool_decide_eq_true_2 by done.
  apply app_nil_r.
Qed.

Context (n task_id : string) (s0 : LifecycleState).

(** ... while the task in hand is the node's. *)
Definition apart (s : LifecycleState) : Prop :=
  isolated n s0 s ∧ ∃ t, dict_get task_id (ls_tasks s) = Some t ∧ tk_node_id t = n.

Lemma apart_same s s' : same_tables s s' → apart s → apart s'.
Proof.
  unfold apart. intros (? & Ht & ? & ? & ? & ? & ? & ? & ?) [[] Hown].
  split; [|by rewrite Ht]. split; congruence || (intros; rewrite Ht; auto).
Qed.

Lemma apart_clock : keeps apart ConnectorStore.utc_now.
Proof. intros s. by apply apart_same. Qed.

Lemma apart_uuid : keeps apart ConnectorStore.uuid4.
Proof. intros s. by apply apart_same. Qed.

(** A row of the node in one of its tables. *)
Lemma apart_insert {R} (t : table R) id r :
  (∀ s, apart s → apart (tb_set t (tb_get t s ++ [(id, r)]) s)) → keeps apart (insert_row t id r).
Proof. intros Ht s Hs. unfold insert_row. destruct (dict_has _ _); [done|by apply Ht]. Qed.

Ltac one_table :=
  apply apart_insert; intros s [[] Hown]; split; [|exact Hown];
  split; simpl; try done; by rewrite foreign_snoc.

Lemma apart_evidence_row id e : ev_node_id e = n → keeps apart (insert_row t_evidence id e).
Proof. intros He. one_table. Qed.

Lemma apart_effects e : ev_node_id e = n → keeps apart (_apply_evidence_side_effects e).
Proof.
  intros He. unfold _apply_evidence_side_effects.
  destruct (ev_evidence_type e); try apply keeps_ret;
    (apply keeps_bind; [apply apart_uuid|intros ?]); one_table.
Qed.

Lemma foreign_filter {R} (node_of : R → string) (old : R → bool) (l : list (string * R)) :
  (∀ r, old r = true → node_of r = n) →
  foreign node_of n (List.filter (λ r, negb (old r.2)) l) = foreign node_of n l.
Proof.
  intros Hold. unfold foreign. induction l as [|[id r] l IH]; simpl; [done|].
  destruct (old r) eqn:Hr; simpl; [|by rewrite IH].
  by rewrite bool_decide_eq_true_2 by auto.
Qed.

Lemma apart_persist r : rd_node_id r = n → keeps apart (_persist_readiness r).
Proof.
  intros Hr. unfold _persist_readiness. apply keeps_bind; [apply apart_uuid|intros id].
  apply keeps_bind; [|intros _; apply keeps_ret]. intros s Hs. unfold replace_rows.
  destruct (dict_has id _); [done|]. destruct Hs as [[] Hown]. split; [|exact Hown].
  split; simpl; try done. rewrite foreign_snoc by done. rewrite foreign_filter; [done|].
  unfold of_connector. intros row [Hn _]%andb_prop. boolify. congruence.
Qed.

Lemma apart_recompute c : keeps apart (recompute catalogue platform production n c).
Proof.
  unfold recompute. apply keeps_bind; [apply keeps_get|intros s]. destruct (dict_has c catalogue);
    [|apply keeps_lift].
  apply keeps_bind; [apply apart_clock|intros now].
  destruct (derive_from_snapshot _ _ _ _ _ _) as [r|e] eqn:Hr.
  - apply (apart_persist r). by apply (derived_fields catalogue production) in Hr as [-> _].
  - intros s1 Hs1. exact Hs1.
Qed.

Lemma apart_record e : ev_node_id e = n → keeps apart
  (ConnectorStore.record_evidence catalogue platform production e).
Proof.
  intros He. unfold ConnectorStore.record_evidence.
  apply keeps_bind; [by apply apart_evidence_row|intros _].
  apply keeps_bind; [by apply apart_effects|intros _].
  apply keeps_bind; [|intros _; apply keeps_ret]. rewrite He. apply apart_recompute.
Qed.

Lemma apart_event e : te_node_id e = n → keeps apart (append_task_event e).
Proof.
  intros He. unfold append_task_event, get_task.
  apply keeps_bind; [apply keeps_bind; [apply keeps_get|intros s; destruct (dict_get _ _)];
    [apply keeps_ret|apply keeps_raise]|intros t].
  destruct (_ || _); [apply keeps_raise|]. destruct (bool_decide _); [apply keeps_raise|].
  apply keeps_bind; [|intros _; apply keeps_ret]. one_table.
Qed.

Lemma apart_transition v st d a f : keeps apart (transition_task task_id v st d a f).
Proof.
  intros s Hs. pose proof Hs as [[] (t & Ht & Hn)].
  rewrite transition_task_eq, Ht.
  destruct (negb _); [exact Hs|]. destruct (bool_decide _); [exact Hs|]. simpl. split; [|simpl; rewrite dict_get_set_eq; by eexists].
  split; simpl; try done. intros id t' Hid Hne. specialize (iso_tasks0 id t' Hid Hne).
  destruct (decide (task_id = id)) as [->|]; [congruence|by rewrite dict_get_set_ne].
Qed.

Definition apart_gateway (g : ControlPlane) : Prop := apart (cp_store g).

Lemma lift_apart {A} (m : L A) : keeps apart m → keeps apart_gateway (on_store m).
Proof.
  intros Hm g Hg. specialize (Hm _ Hg). unfold apart_gateway, on_store, zoom.
  by destruct (m (cp_store g)).
Qed.

Lemma apart_evidence_of task d g : apart_gateway g →
  apart_gateway (evidence_of bind_text task_id task d g).2 ∧
  ∀ e, (evidence_of bind_text task_id task d g).1 = Ok e → ev_node_id e = tk_node_id task.
Proof.
  intros Hg. split.
  - revert g Hg. change (keeps apart_gateway (evidence_of bind_text task_id task d)).
    unfold evidence_of, NodeGateway.uuid4, NodeGateway.utc_now.
    kept; apply lift_apart; first [apply apart_uuid|apply apart_clock].
  - intros e He. unfold evidence_of in He.
    repeat (apply surjective_pairing_Ok in He; apply bind_Ok_inv in He as (? & ? & _ & He);
            apply (f_equal fst) in He; simpl in He).
    by injection He as <-.
Qed.

Lemma apart_apply task m : tk_node_id task = n →
  keeps apart_gateway (apply_event catalogue platform production bind_text task_id task m).
Proof.
  intros Hn. unfold apply_event, NodeGateway.utc_now.
  assert (Hterminal : ∀ t, keeps apart_gateway
    match terminal_map t with
    | None => mret task
    | Some status =>
        s ← get_state;
        if task_id in? cp_seen_terminals s then
          raise (ValueError "duplicate terminal event rejected")
        else
          modify_state (set_seen_terminals (task_id :: cp_seen_terminals s));;
          now ← on_store ConnectorStore.utc_now;
          updated ← transition task_id task status
            (if text_of "detail" (pm_payload m) == "" then None
             else Some (text_of "detail" (pm_payload m))) None (Some now);
          on_store (recompute catalogue platform production (tk_node_id task)
                      (tk_connector_id task));;
          mret updated
    end).
  { intros t. destruct (terminal_map t); [|apply keeps_ret].
    kept; [apply lift_apart, apart_clock|apply lift_apart, apart_transition|].
    apply lift_apart. rewrite Hn. apply apart_recompute. }
  destruct (pm_type m); try apply Hterminal; unfold transition;
    [kept; apply lift_apart; first [apply apart_clock|apply apart_transition]..|].
  destruct (default _ _) as [| | | | | |d]; try apply keeps_ret.
  intros g Hg. pose proof (apart_evidence_of task d g Hg) as [Hk He].
  unfold mbind, M_bind. destruct (evidence_of bind_text task_id task _ g) as [[e|x] g1]; [|exact Hk].
  pose proof (lift_apart _ (apart_record e ltac:(rewrite <- Hn; by apply He)) g1 Hk) as Hr.
  by destruct (on_store _ g1) as [[?|?] g2].
Qed.

End isolation.

Lemma bind_step {S A B} (m : M S A) (k : A → M S B) s : (m ≫= k) s =
  match m s with (Ok a, s') => k a s' | (Raise e, s') => (Raise e, s') end.
Proof. done. Qed.

Lemma get_task_on_store `{PyLib} id s : on_store (get_task id) s =
  (match dict_get id (ls_tasks (cp_store s)) with
   | Some t => Ok t
   | None => Raise (KeyError (repr_str ("unknown connector task: " +:+ id)))
   end, s).
Proof.
  destruct s. unfold on_store, zoom, get_task, get_state, mbind, M_bind. simpl.
  by destruct (dict_get id _).
Qed.

(** C25: An event of a node changes only what belongs to that node: the tasks of the other nodes,
    their events, evidence, readiness, discoveries, installations, authentications and
    certifications, and every plan, stay as they are. *)
Theorem a_node_changes_only_its_own `{PyLib} `{SqlEngine} `{NodeLib} catalogue platform production
    bind_text m s :
  isolated (pm_node_id m) (cp_store s)
    (cp_store (ingest catalogue platform production bind_text m s).2).
Proof.
  assert (Hrefl : isolated (pm_node_id m) (cp_store s) (cp_store s)) by (by split).
  unfold ingest. destruct (bool_decide _); [exact Hrefl|].
  set (task_id := text_of "task_id" (pm_payload m)).
  rewrite bind_step, get_task_on_store.
  destruct (dict_get task_id (ls_tasks (cp_store s))) as [task|] eqn:Ht; [|exact Hrefl].
  destruct (bool_decide (tk_node_id task = pm_node_id m)) eqn:Hn; [|exact Hrefl]. boolify.
  assert (Hs : apart_gateway (pm_node_id m) task_id (cp_store s) s).
  { split; [exact Hrefl|]. by exists task. }
  refine (proj1 ((_ : keeps (apart_gateway (pm_node_id m) task_id (cp_store s)) _) s Hs)).
  simpl.
  kept; try (apply lift_apart; first [apply apart_clock|apply apart_uuid|by apply apart_event]).
  by apply apart_apply.
Qed.

(** ** From the gateway to the node *)

Section composition.
Context `{PyLib} `{SqlEngine} `{NodeLibLaws} `{!WireLib} `{!WireLaws}.

(** What the node executes of a plan: all that the envelope carries. *)
Definition executed_plan (expires_at : Z) (p : ConnectorTaskPlan) : ConnectorTaskPlan :=
  {| tp_plan_id := tp_plan_id p; tp_node_id := tp_node_id p;
     tp_connector_id := tp_connector_id p; tp_connector_revision := tp_connector_revision p;
     tp_action := tp_action p; tp_method_id := tp_method_id p;
     tp_executable := tp_executable p; tp_arguments := tp_arguments p;
     tp_package_source := tp_package_source p;
     tp_expected_executables := tp_expected_executables p; tp_requires_admin := false;
     tp_modifies_path := false; tp_modifies_shell_profile := false;
     tp_download_digest := tp_download_digest p; tp_risk_level := tp_risk_level p;
     tp_expires_at := expires_at; tp_plan_hash := tp_plan_hash p |}.

Lemma Ok_inj {A} (x y : A) : Ok x = Ok y → x = y.
Proof. by intros [= ->]. Qed.

(** The signature is not part of what is signed. *)
Lemma unsigned_text e sg :
  canonical_json (envelope_dump
    {| en_task_id := en_task_id e; en_plan_id := en_plan_id e; en_node_id := en_node_id e;
       en_connector_id := en_connector_id e;
       en_connector_revision := en_connector_revision e; en_action := en_action e;
       en_plan_hash := en_plan_hash e; en_executable := en_executable e;
       en_arguments := en_arguments e; en_method_id := en_method_id e;
       en_package_source := en_package_source e;
       en_expected_executables := en_expected_executables e;
       en_download_digest := en_download_digest e; en_risk_level := en_risk_level e;
       en_nonce := en_nonce e; en_issued_at := en_issued_at e;
       en_expires_at := en_expires_at e; en_key_id := en_key_id e; en_signature := sg;
       en_idempotency_key := en_idempotency_key e |}) "signature" =
  canonical_json (envelope_dump e) "signature".
Proof. apply canonical_json_ext. destruct e. vm_compute. reflexivity. Qed.

Lemma sign_connector_envelope_Ok e private e' public now :
  sign_connector_envelope e private = Ok e' → public_key_from_private private = Ok public →
  (now < en_expires_at e)%Z →
  verify_connector_envelope now e' public = Ok tt ∧ ∃ sg,
  e' = {| en_task_id := en_task_id e; en_plan_id := en_plan_id e; en_node_id := en_node_id e;
        en_connector_id := en_connector_id e;
        en_connector_revision := en_connector_revision e; en_action := en_action e;
        en_plan_hash := en_plan_hash e; en_executable := en_executable e;
        en_arguments := en_arguments e; en_method_id := en_method_id e;
        en_package_source := en_package_source e;
        en_expected_executables := en_expected_executables e;
        en_download_digest := en_download_digest e; en_risk_level := en_risk_level e;
        en_nonce := en_nonce e; en_issued_at := en_issued_at e;
        en_expires_at := en_expires_at e; en_key_id := en_key_id e; en_signature := sg;
        en_idempotency_key := en_idempotency_key e |}.
Proof.
  unfold sign_connector_envelope. destruct (sign_bytes _ private) as [sg|] eqn:Hs; [|done].
  unfold res_bind. intros He Hp Hnow. apply Ok_inj in He. split; [|exists sg; by symmetry].
  unfold verify_connector_envelope. rewrite <- He. cbn [en_expires_at en_signature].
  rewrite unsigned_text. assert ((en_expires_at e <=? now)%Z = false) as -> by lia.
  exact (sign_verify_bytes _ _ _ _ Hs Hp).
Qed.

Lemma plan_of_envelope_for key_id nonce i x t p sg :
  let e := envelope_for key_id nonce i x t p in
  plan_of_envelope {| en_task_id := en_task_id e; en_plan_id := en_plan_id e;
        en_node_id := en_node_id e; en_connector_id := en_connector_id e;
        en_connector_revision := en_connector_revision e; en_action := en_action e;
        en_plan_hash := en_plan_hash e; en_executable := en_executable e;
        en_arguments := en_arguments e; en_method_id := en_method_id e;
        en_package_source := en_package_source e;
        en_expected_executables := en_expected_executables e;
        en_download_digest := en_download_digest e; en_risk_level := en_risk_level e;
        en_nonce := en_nonce e; en_issued_at := en_issued_at e;
        en_expires_at := en_expires_at e; en_key_id := en_key_id e; en_signature := sg;
        en_idempotency_key := en_idempotency_key e |} = Ok (executed_plan x p).
Proof. unfold plan_of_envelope, executed_plan. simpl. by destruct (tp_action p). Qed.

(** C27: A task offered to a node that is connected is signed so that the node takes the offer,
    if it has the gateway's key, is not revoked, has no journal entry of the task and reads
    a time before the envelope's expiry; and the plan it executes is the offered plan, but for
    its expiry, which becomes fifteen minutes from the offer, and for the flags of what it
    needs and modifies, which are not sent. *)
Theorem offered_task_runs_the_plan t p s s' public :
  offer_connector_task t p s = (Ok true, s') →
  public_key_from_private (cp_signing_private_key s) = Ok public → public ≠ "" →
  ∃ c m e, dict_get (tk_node_id t) (cp_connections s) = Some c ∧
    cp_sent s' = cp_sent s ++ [(bc_websocket c, m)] ∧
    pm_type m = TASK_OFFER ∧ pm_node_id m = tk_node_id t ∧
    en_expires_at e = (clock_at 1 s + envelope_ttl)%Z ∧
    (∀ nd : Node, NodeAgent.nd_node_id nd = tp_node_id p → nd_revoked nd = false →
       nd_control_plane_public_key nd = Some public →
       nd_journal nd !! (tk_task_id t, tp_plan_hash p) = None →
       (clock (nd_clock nd) < en_expires_at e)%Z → takeable m e nd) ∧
    plan_of_envelope e = Ok (executed_plan (en_expires_at e) p).
Proof.
  intros Ho Hk Hne. unfold offer_connector_task in Ho. rewrite bind_step in Ho.
  unfold get_state at 1 in Ho. destruct (dict_get (tk_node_id t) (cp_connections s)) as [c|]; [|done].
  apply bind_Ok_inv in Ho as (nonce & s1 & [= <- <-] & Ho).
  apply bind_Ok_inv in Ho as (i & s2 & [= <- <-] & Ho).
  apply bind_Ok_inv in Ho as (x & s3 & [= <- <-] & Ho).
  apply bind_Ok_inv in Ho as (e & s4 & He & Ho). unfold lift_res in He. injection He as He <-.
  apply bind_Ok_inv in Ho as ([] & s5 & Hsend & Ho). injection Ho as ->.
  unfold send_message, NodeGateway.uuid4, NodeGateway.utc_now, on_store, zoom, get_state,
    modify_state, raise, mbind, M_bind in Hsend. simpl in Hsend.
  destruct (bool_decide _) in Hsend; [|done]. injection Hsend as <-.
  eexists c, _, e. split; [done|]. split; [reflexivity|]. split; [done|]. split; [done|].
  set (e0 := envelope_for _ _ _ _ _ _) in He.
  assert (Hexp : en_expires_at e = en_expires_at e0).
  { unfold sign_connector_envelope in He. by destruct (sign_bytes _ _); [injection He as <-|]. }
  split; [rewrite Hexp; reflexivity|]. split.
  - intros nd Hnode Hrev Hkey Hj Hnow. rewrite Hexp in Hnow.
    destruct (sign_connector_envelope_Ok _ _ _ _ _ He Hk Hnow) as [Hv [sg ->]].
    split; [done|]. split; [apply validate_envelope_dump|]. split; [by exists public|].
    split; [by simpl; rewrite Hnode|]. unfold envelope_key. simpl. by rewrite Hj.
  - rewrite Hexp. destruct (sign_connector_envelope_Ok _ _ _ _ (en_expires_at e0 - 1) He Hk)
      as [_ [sg ->]]; [lia|]. apply plan_of_envelope_for.
Qed.
End composition.

(** ** Instances and traces *)

#[local] Existing Instance counting_lib.
#[local] Existing Instance insertion_order.
#[local] Existing Instance toy_node_lib.
#[local] Existing Instance toy_node_laws.
#[local] Existing Instance toy_wire.
#[local] Existing Instance toy_wire_laws.

Definition a_token (n : nat) : string := "token" +:+ pretty n.
Lemma a_token_differ i j : a_token i = a_token j → i = j.
Proof. unfold a_token. intros Heq. by apply (inj (String.app "token")), (inj pretty) in Heq. Qed.

(** A driver that binds nothing but text. *)
Definition text_only (v : pyval) : res (option string) := opt_text v.

Definition gateway_with (store : LifecycleState) : ControlPlane :=
  {| cp_signing_private_key := "K"; cp_signing_public_key := "K"; cp_key_id := "k";
     cp_connections := []; cp_sessions := []; cp_challenges := []; cp_nonces := [];
     cp_seen_terminals := []; cp_store := store; cp_open := [0; 1]; cp_sent := [];
     cp_tokens := 0 |}.

Definition node_message (t : NodeProtocolMessageType) (payload : dict) : ProtocolMessage :=
  {| pm_type := t; pm_message_id := "m"; pm_node_id := "n"; pm_sequence := 1; pm_timestamp := 0;
     pm_reply_to := None; pm_payload := payload |}.
(** The reply of a node with key [N] to a challenge. *)
Definition reply_to (challenge : string) : ProtocolMessage :=
  node_message NodeProtocol.AUTHENTICATE
    [("challenge", PStr challenge); ("signature", PStr ("N|" +:+ challenge))].

Definition challenged : ControlPlane := (send_challenge a_token 0 "n" (gateway_with (with_task TS_QUEUED))).2.
Definition connected : ControlPlane :=
  (complete_authentication 0 "n" "o" "N" "0.1.0" None (Ok (reply_to (a_token 0))) challenged).2.

Lemma session_iff_genuine_reply_witness : genuine_reply "n" "N" (reply_to (a_token 0)) (a_token 0) challenged.
Proof.
  assert (Hw : 0 ∈ cp_open challenged).
  { assert (cp_open challenged = [0; 1]) as -> by (vm_compute; reflexivity).
    apply elem_of_cons. left. reflexivity. }
  destruct (proj1 (session_iff_genuine_reply 0 "n" "o" "N" "0.1.0" None (reply_to (a_token 0))
    challenged Hw)) as (c & Hc).
  - eexists _, connected. split; [vm_compute; reflexivity|].
    eexists. split; [vm_compute; reflexivity|]. split; reflexivity.
  - pose proof Hc as (_ & _ & _ & Htext & _). assert (c = a_token 0) as Heq
      by (rewrite <- Htext; vm_compute; reflexivity).
    rewrite Heq in Hc. exact Hc.
Defined.

Lemma challenge_is_accepted_once_witness :
  ∃ e, (complete_authentication 1 "n" "o" "N" "0.1.0" None (Ok (reply_to (a_token 0)))
          connected).1 = Raise e.
Proof.
  assert (Hs : rtc (gateway_step tools "linux" true a_token text_only)
    (gateway_with (with_task TS_QUEUED)) challenged) by (apply rtc_once; apply gs_challenge).
  assert (Hc : ∃ session, complete_authentication 0 "n" "o" "N" "0.1.0" None
    (Ok (reply_to (a_token 0))) challenged = (Ok session, connected)).
  { eexists. vm_compute. reflexivity. }
  destruct Hc as [session Hc].
  exact (challenge_is_accepted_once tools "linux" true a_token text_only a_token_differ
    0 "n" "o" "N" "0.1.0" None (reply_to (a_token 0)) (gateway_with (with_task TS_QUEUED))
    challenged session connected connected
    1 "n" "o" "N" "0.1.0" None (reply_to (a_token 0)) eq_refl Hs Hc (rtc_refl _ _) eq_refl).
Defined.

Definition event_payload (rest : dict) : dict :=
  [("task_id", PStr "t"); ("connector_id", PStr "tool"); ("plan_hash", PStr "h");
   ("sequence_number", PInt 2)] ++ rest.
Definition receive_event (m : ProtocolMessage) : ControlPlane → res ConnectorTaskRecord * ControlPlane :=
  ingest tools "linux" true text_only m.
Definition task_status (s : ControlPlane) : option ConnectorTaskStatus :=
  tk_status <$> dict_get "t" (ls_tasks (cp_store s)).


Definition offered : ConnectorTaskRecord := a_task "t" TS_QUEUED.
Definition after_offer : ControlPlane :=
  (offer_connector_task offered (login_plan "tool" "h") connected).2.

Lemma offered_task_runs_the_plan_witness :
  ∃ e x, plan_of_envelope e = Ok (executed_plan x (login_plan "tool" "h")) ∧
         tp_executable (executed_plan x (login_plan "tool" "h")) = "tool".
Proof.
  assert (Ho : offer_connector_task offered (login_plan "tool" "h") connected = (Ok true, after_offer))
    by (vm_compute; reflexivity).
  assert (Hk : public_key_from_private (cp_signing_private_key connected) = Ok "K")
    by (vm_compute; reflexivity).
  assert (Hne : "K" ≠ "") by discriminate.
  destruct (offered_task_runs_the_plan _ _ _ _ _ Ho Hk Hne)
    as (c & m & e & _ & _ & _ & _ & _ & _ & Hplan).
  exists e, (en_expires_at e). split; [exact Hplan|reflexivity].
Defined.

(** A reply that reaches the gateway for a challenge that has been replaced takes the new
    challenge away: of two connections that authenticate at the same time neither succeeds. *)
Example crossed_authentications_fail :
  let s := (send_challenge a_token 1 "n" challenged).2 in
  let first := complete_authentication 0 "n" "o" "N" "0.1.0" None (Ok (reply_to (a_token 0))) s in
  let second := complete_authentication 1 "n" "o" "N" "0.1.0" None (Ok (reply_to (a_token 1)))
                  first.2 in
  first.1 = Raise (PermissionError "challenge mismatch") ∧
  second.1 = Raise (PermissionError "challenge expired").
Proof. vm_compute. done. Qed.

(** Evidence that names no trust level, or one that does not exist, is taken as attested by a
    remote node, the highest there is. *)
Example unknown_trust_is_attested :
  trust_and_origin [("trust_level", PStr "guess"); ("execution_origin", PStr "guess")] =
  Ok (NODE_ATTESTED, REMOTE_NODE) ∧
  trust_and_origin [] = Ok (NODE_ATTESTED, REMOTE_NODE).
Proof. vm_compute. done. Qed.

(** A repeated acceptance moves a task that waits for its user back. *)
Example acceptance_moves_a_waiting_task_back :
  task_status (receive_event (node_message TASK_ACCEPTED (event_payload []))
    (gateway_with (with_task TS_WAITING_FOR_USER))).2 = Some TS_ACCEPTED_BY_NODE.
Proof. vm_compute. done. Qed.

(** A rejected offer leaves its task offered. *)
Example rejected_offer_stays_offered :
  task_status (receive_event (node_message TASK_REJECTED (event_payload []))
    (gateway_with (with_task TS_OFFERED_TO_NODE))).2 = Some TS_OFFERED_TO_NODE.
Proof. vm_compute. done. Qed.

(** The end of a task is lost when another change of the task comes between the reading of the
    task and the transition: it is noted as seen before, so that it is refused ever after. *)
Example lost_end_is_refused :
  let m := node_message TASK_SUCCEEDED (event_payload []) in
  let stale := {| tk_task_id := "t"; tk_plan_id := "p"; tk_node_id := "n";
                  tk_connector_id := "tool"; tk_connector_revision := "1";
                  tk_action := "authenticate"; tk_plan_hash := "h"; tk_status := TS_RUNNING;
                  tk_idempotency_key := ""; tk_previous_task_id := None; tk_version := 2;
                  tk_created_at := 0; tk_started_at := None; tk_finished_at := None;
                  tk_detail := None |} in
  let first := apply_event tools "linux" true text_only "t" stale m
                 (gateway_with (with_task TS_RUNNING)) in
  let second := receive_event m first.2 in
  first.1 = Raise (ValueError "connector task version conflict") ∧
  second.1 = Raise (ValueError "duplicate terminal event rejected") ∧
  task_status second.2 = Some TS_RUNNING.
Proof. vm_compute. done. Qed.
