(* ===== verification/ControlPlaneService.v ===== *)
(** * The control-plane service

    [control_plane/service.py] over its in-memory store: pairing a node with a workspace,
    granting it a workspace, plans and their approvals, signed remote tasks and the audit; and
    [NodeTaskValidator] of [control_plane/node.py], which checks such a task on the node. The
    onboarding methods of the service are in [Onboarding]. *)

From S2P Require Import Prelude NodeSecurity.

(** ** Contracts *)

(* @src control_plane/contracts.py:123-134 PairingSession *)
Record PairingSession := {
  ps_id : string;
  ps_organisation_id : string;
  ps_workspace_id : string;
  ps_user_code : string;
  ps_device_code_hash : string;
  ps_code_challenge : string;
  ps_expires_at : Z;
  ps_approved_by_user_id : option string
}.

(* @src control_plane/contracts.py:137-149 NodeRegistration *)
Record NodeRegistration := {
  nr_id : string;
  nr_organisation_id : string;
  nr_workspace_id : string;
  nr_name : string;
  nr_public_key : string;
  nr_key_id : string;
  nr_platform : string;
  nr_version : string;
  nr_created_at : Z;
  nr_revoked_at : option Z
}.

(* @src control_plane/contracts.py:212-223 WorkspaceGrant *)
Record WorkspaceGrant := {
  wg_id : string;
  wg_workspace_id : string;
  wg_node_id : string;
  wg_root_path : string;
  wg_allow_read : bool;
  wg_allow_write : bool;
  wg_allow_shell : bool;
  wg_created_at : Z;
  wg_revoked_at : option Z
}.

(* @src control_plane/contracts.py:226-245 RemoteTaskEnvelope *)
Record RemoteTaskEnvelope := {
  re_id : string;
  re_task_context_id : string;
  re_organisation_id : string;
  re_workspace_id : string;
  re_node_id : string;
  re_user_id : string;
  re_browser_session_id : string;
  re_harness_id : string;
  re_task : string;
  re_required_capabilities : list string;
  re_approval_id : option string;
  re_nonce : string;
  re_issued_at : Z;
  re_expires_at : Z;
  re_key_id : string;
  re_signature : string
}.

(* @src control_plane/contracts.py:248-259 AuditEvent *)
Record AuditEvent := {
  au_id : string;
  au_organisation_id : string;
  au_actor_id : string;
  au_action : string;
  au_target_type : string;
  au_target_id : string;
  au_outcome : string;
  au_metadata : dict;
  au_created_at : Z
}.

(** The store, the nonces of the service, and the readings of the clock, of the identifiers
    and of the random tokens so far. *)
(* @src control_plane/service.py:32-48 ControlPlaneStore *)
Record ServiceState := {
  sv_pairings : list (string * PairingSession);
  sv_nodes : list (string * NodeRegistration);
  sv_grants : list (string * WorkspaceGrant);
  sv_plans : list (string * ActionPlan);
  sv_approvals : list (string * ApprovalDecision);
  sv_tasks : list (string * RemoteTaskEnvelope);
  sv_audit : list AuditEvent;
  sv_nonces : list (string * Z);
  sv_clock : nat;
  sv_uuids : nat;
  sv_tokens : nat
}.

Definition set_pairings (v : list (string * PairingSession)) (s : ServiceState) : ServiceState :=
  {| sv_pairings := v; sv_nodes := sv_nodes s; sv_grants := sv_grants s; sv_plans := sv_plans s;
     sv_approvals := sv_approvals s; sv_tasks := sv_tasks s; sv_audit := sv_audit s; sv_nonces
     := sv_nonces s; sv_clock := sv_clock s; sv_uuids := sv_uuids s; sv_tokens := sv_tokens s
     |}.
Definition set_nodes (v : list (string * NodeRegistration)) (s : ServiceState) : ServiceState :=
  {| sv_pairings := sv_pairings s; sv_nodes := v; sv_grants := sv_grants s; sv_plans := sv_plans
     s; sv_approvals := sv_approvals s; sv_tasks := sv_tasks s; sv_audit := sv_audit s;
     sv_nonces := sv_nonces s; sv_clock := sv_clock s; sv_uuids := sv_uuids s; sv_tokens :=
     sv_tokens s |}.
Definition set_grants (v : list (string * WorkspaceGrant)) (s : ServiceState) : ServiceState :=
  {| sv_pairings := sv_pairings s; sv_nodes := sv_nodes s; sv_grants := v; sv_plans := sv_plans
     s; sv_approvals := sv_approvals s; sv_tasks := sv_tasks s; sv_audit := sv_audit s;
     sv_nonces := sv_nonces s; sv_clock := sv_clock s; sv_uuids := sv_uuids s; sv_tokens :=
     sv_tokens s |}.
Definition set_plans (v : list (string * ActionPlan)) (s : ServiceState) : ServiceState :=
  {| sv_pairings := sv_pairings s; sv_nodes := sv_nodes s; sv_grants := sv_grants s; sv_plans :=
     v; sv_approvals := sv_approvals s; sv_tasks := sv_tasks s; sv_audit := sv_audit s;
     sv_nonces := sv_nonces s; sv_clock := sv_clock s; sv_uuids := sv_uuids s; sv_tokens :=
     sv_tokens s |}.
Definition set_approvals (v : list (string * ApprovalDecision)) (s : ServiceState) : ServiceState :=
  {| sv_pairings := sv_pairings s; sv_nodes := sv_nodes s; sv_grants := sv_grants s; sv_plans :=
     sv_plans s; sv_approvals := v; sv_tasks := sv_tasks s; sv_audit := sv_audit s; sv_nonces :=
     sv_nonces s; sv_clock := sv_clock s; sv_uuids := sv_uuids s; sv_tokens := sv_tokens s |}.
Definition set_tasks (v : list (string * RemoteTaskEnvelope)) (s : ServiceState) : ServiceState :=
  {| sv_pairings := sv_pairings s; sv_nodes := sv_nodes s; sv_grants := sv_grants s; sv_plans :=
     sv_plans s; sv_approvals := sv_approvals s; sv_tasks := v; sv_audit := sv_audit s;
     sv_nonces := sv_nonces s; sv_clock := sv_clock s; sv_uuids := sv_uuids s; sv_tokens :=
     sv_tokens s |}.
Definition set_audit (v : list AuditEvent) (s : ServiceState) : ServiceState :=
  {| sv_pairings := sv_pairings s; sv_nodes := sv_nodes s; sv_grants := sv_grants s; sv_plans :=
     sv_plans s; sv_approvals := sv_approvals s; sv_tasks := sv_tasks s; sv_audit := v;
     sv_nonces := sv_nonces s; sv_clock := sv_clock s; sv_uuids := sv_uuids s; sv_tokens :=
     sv_tokens s |}.
Definition set_nonces (v : list (string * Z)) (s : ServiceState) : ServiceState :=
  {| sv_pairings := sv_pairings s; sv_nodes := sv_nodes s; sv_grants := sv_grants s; sv_plans :=
     sv_plans s; sv_approvals := sv_approvals s; sv_tasks := sv_tasks s; sv_audit := sv_audit s;
     sv_nonces := v; sv_clock := sv_clock s; sv_uuids := sv_uuids s; sv_tokens := sv_tokens s
     |}.
Definition set_clock (v : nat) (s : ServiceState) : ServiceState :=
  {| sv_pairings := sv_pairings s; sv_nodes := sv_nodes s; sv_grants := sv_grants s; sv_plans :=
     sv_plans s; sv_approvals := sv_approvals s; sv_tasks := sv_tasks s; sv_audit := sv_audit s;
     sv_nonces := sv_nonces s; sv_clock := v; sv_uuids := sv_uuids s; sv_tokens := sv_tokens s
     |}.
Definition set_uuids (v : nat) (s : ServiceState) : ServiceState :=
  {| sv_pairings := sv_pairings s; sv_nodes := sv_nodes s; sv_grants := sv_grants s; sv_plans :=
     sv_plans s; sv_approvals := sv_approvals s; sv_tasks := sv_tasks s; sv_audit := sv_audit s;
     sv_nonces := sv_nonces s; sv_clock := sv_clock s; sv_uuids := v; sv_tokens := sv_tokens s
     |}.
Definition set_tokens (v : nat) (s : ServiceState) : ServiceState :=
  {| sv_pairings := sv_pairings s; sv_nodes := sv_nodes s; sv_grants := sv_grants s; sv_plans :=
     sv_plans s; sv_approvals := sv_approvals s; sv_tasks := sv_tasks s; sv_audit := sv_audit s;
     sv_nonces := sv_nonces s; sv_clock := sv_clock s; sv_uuids := sv_uuids s; sv_tokens := v
     |}.

Abbreviation V := (M ServiceState).

Section service.
Context `{PyLib} `{NodeLib}.
(** The [n]-th [secrets.token_urlsafe(32)], and the upper-case user codes. *)
Context (token_urlsafe user_code : nat → string).

Definition utc_now : V Z := λ s, (Ok (clock (sv_clock s)), set_clock (S (sv_clock s)) s).
Definition uuid4 : V string := λ s, (Ok (uuid_str (sv_uuids s)), set_uuids (S (sv_uuids s)) s).
Definition draw : V nat := λ s, (Ok (sv_tokens s), set_tokens (S (sv_tokens s)) s).

(** [d[k]]. *)
Definition subscript {A} (k : string) (d : list (string * A)) : V A :=
  match dict_get k d with Some v => mret v | None => raise (KeyError (repr_str k)) end.

(* @src control_plane/service.py:371-392 ControlPlane._audit *)
Definition _audit (organisation_id : string) (actor_id : option string)
    (action target_type target_id : string) (metadata : dict) : V unit :=
  id ← uuid4;
  created_at ← utc_now;
  modify_state (λ s, set_audit (sv_audit s ++
    [{| au_id := id; au_organisation_id := organisation_id;
        au_actor_id := match actor_id with
                       | Some a => if a == "" then "system" else a
                       | None => "system"
                       end;
        au_action := action; au_target_type := target_type; au_target_id := target_id;
        au_outcome := "success"; au_metadata := metadata; au_created_at := created_at |}]) s).

(** ** Pairing *)

(** Ten minutes in microseconds. *)
Definition pairing_ttl : Z := 600000000.

(* @src control_plane/service.py:174-190 ControlPlane.begin_pairing *)
Definition begin_pairing (organisation_id workspace_id code_challenge : string) :
    V (PairingSession * string) :=
  n ← draw;
  let device_code := token_urlsafe n in
  id ← uuid4;
  now ← utc_now;
  let pairing := {| ps_id := id; ps_organisation_id := organisation_id;
                    ps_workspace_id := workspace_id; ps_user_code := user_code n;
                    ps_device_code_hash := sha256_hex device_code;
                    ps_code_challenge := code_challenge;
                    ps_expires_at := (now + pairing_ttl)%Z; ps_approved_by_user_id := None |} in
  modify_state (λ s, set_pairings (dict_set id pairing (sv_pairings s)) s);;
  mret (pairing, device_code).

Definition with_pairing (expires_at : Z) (approved_by : option string) (p : PairingSession) :
    PairingSession :=
  {| ps_id := ps_id p; ps_organisation_id := ps_organisation_id p;
     ps_workspace_id := ps_workspace_id p; ps_user_code := ps_user_code p;
     ps_device_code_hash := ps_device_code_hash p; ps_code_challenge := ps_code_challenge p;
     ps_expires_at := expires_at; ps_approved_by_user_id := approved_by |}.

(** The nodes of a pairing's workspace that are not revoked. *)
Definition workspace_nodes (pairing : PairingSession) (s : ServiceState) : list NodeRegistration :=
  List.filter (λ n, (nr_workspace_id n == ps_workspace_id pairing) &&
                    (nr_organisation_id n == ps_organisation_id pairing) &&
                    (nr_revoked_at n == None)) (sv_nodes s).*2.

Definition pairing_node (pairing : PairingSession) (s : ServiceState) : option NodeRegistration :=
  if otruthy (ps_approved_by_user_id pairing) then last (workspace_nodes pairing s)
  else match ps_approved_by_user_id pairing with
       | Some _ => head (workspace_nodes pairing s)
       | None => None
       end.

(** The status with the node it names; the dictionary around them is left out. *)
(* @src control_plane/service.py:192-232 ControlPlane.pairing_status *)
Definition pairing_status (pairing_id : string) : V (string * option NodeRegistration) :=
  s ← get_state;
  match dict_get pairing_id (sv_pairings s) with
  | None => raise (KeyError (repr_str "pairing session not found"))
  | Some pairing =>
      now ← utc_now;
      let expired := (ps_expires_at pairing <=? now)%Z in
      let node := pairing_node pairing s in
      mret (match node with
            | None => if expired then "expired"
                      else if otruthy (ps_approved_by_user_id pairing)
                      then "approved_waiting_for_node" else "pending"
            | Some _ => "paired"
            end, node)
  end.

(* @src control_plane/service.py:234-238 ControlPlane.cancel_pairing *)
Definition cancel_pairing (pairing_id : string) : V unit :=
  s ← get_state;
  match dict_get pairing_id (sv_pairings s) with
  | None => raise (KeyError (repr_str "pairing session not found"))
  | Some pairing =>
      now ← utc_now;
      modify_state (λ s, set_pairings (dict_set pairing_id
        (with_pairing now (ps_approved_by_user_id pairing) pairing) (sv_pairings s)) s)
  end.

(* @src control_plane/service.py:240-246 ControlPlane.approve_pairing *)
Definition approve_pairing (pairing_id user_id : string) : V PairingSession :=
  s ← get_state;
  pairing ← subscript pairing_id (sv_pairings s);
  now ← utc_now;
  if (ps_expires_at pairing <=? now)%Z then raise (PermissionError "pairing session expired")
  else
    let updated := with_pairing (ps_expires_at pairing) (Some user_id) pairing in
    modify_state (λ s, set_pairings (dict_set pairing_id updated (sv_pairings s)) s);;
    mret updated.

(* @src control_plane/service.py:248-282 ControlPlane.register_node *)
Definition register_node (pairing_id device_code name public_key key_id platform version : string) :
    V NodeRegistration :=
  s ← get_state;
  pairing ← subscript pairing_id (sv_pairings s);
  now ← utc_now;
  if (ps_expires_at pairing <=? now)%Z || (ps_approved_by_user_id pairing == None) then
    raise (PermissionError "pairing is not approved")
  else if sha256_hex device_code != ps_device_code_hash pairing then
    raise (PermissionError "invalid device code")
  else
    id ← uuid4;
    created_at ← utc_now;
    let node := {| nr_id := id; nr_organisation_id := ps_organisation_id pairing;
                   nr_workspace_id := ps_workspace_id pairing; nr_name := name;
                   nr_public_key := public_key; nr_key_id := key_id; nr_platform := platform;
                   nr_version := version; nr_created_at := created_at;
                   nr_revoked_at := None |} in
    modify_state (λ s, set_nodes (dict_set id node (sv_nodes s)) s);;
    _audit (nr_organisation_id node) (ps_approved_by_user_id pairing) "node.register" "node" id [];;
    mret node.

(* @src control_plane/service.py:358-369 ControlPlane.revoke_node *)
Definition revoke_node (node_id actor_id : string) : V NodeRegistration :=
  s ← get_state;
  node ← subscript node_id (sv_nodes s);
  now ← utc_now;
  let updated := {| nr_id := nr_id node; nr_organisation_id := nr_organisation_id node;
                    nr_workspace_id := nr_workspace_id node; nr_name := nr_name node;
                    nr_public_key := nr_public_key node; nr_key_id := nr_key_id node;
                    nr_platform := nr_platform node; nr_version := nr_version node;
                    nr_created_at := nr_created_at node; nr_revoked_at := Some now |} in
  modify_state (λ s, set_nodes (dict_set node_id updated (sv_nodes s)) s);;
  _audit (nr_organisation_id node) (Some actor_id) "node.revoke" "node" node_id [];;
  mret updated.

(* @src control_plane/service.py:284-302 ControlPlane.environment_diagnostics *)
Definition environment_diagnostics (node_id : string) : V NodeRegistration :=
  s ← get_state;
  match dict_get node_id (sv_nodes s) with
  | None => raise (KeyError (repr_str "node not found"))
  | Some node =>
      match nr_revoked_at node with
      | Some _ => raise (PermissionError "node revoked")
      | None => mret node
      end
  end.

(** ** Grants, plans and approvals *)

(** The grant is in the store before the node is looked up for the audit. *)
(* @src control_plane/service.py:304-313 ControlPlane.grant_workspace *)
Definition grant_workspace (grant : WorkspaceGrant) (actor_id : string) : V WorkspaceGrant :=
  modify_state (λ s, set_grants (dict_set (wg_id grant) grant (sv_grants s)) s);;
  s ← get_state;
  node ← subscript (wg_node_id grant) (sv_nodes s);
  _audit (nr_organisation_id node) (Some actor_id) "workspace.grant" "workspace_grant"
    (wg_id grant) [];;
  mret grant.

(* @src control_plane/service.py:315-317 ControlPlane.save_plan *)
Definition save_plan (plan : ActionPlan) : V ActionPlan :=
  modify_state (λ s, set_plans (dict_set (ap_id plan) plan (sv_plans s)) s);;
  mret plan.

(** The clock is read for the decision only when the plan has not expired. *)
(* @src control_plane/service.py:319-323 ControlPlane.decide *)
Definition decide (decision : ApprovalDecision) : V ApprovalDecision :=
  s ← get_state;
  plan ← subscript (ad_plan_id decision) (sv_plans s);
  now ← utc_now;
  now' ← (if (ap_expires_at plan <=? now)%Z then mret now else utc_now);
  lift_res (verify_approval now now' plan decision);;
  modify_state (λ s, set_approvals (dict_set (ad_id decision) decision (sv_approvals s)) s);;
  mret decision.

(** ** Remote tasks *)

(** [envelope.model_dump(mode="json")]. *)
Definition task_dump (e : RemoteTaskEnvelope) : dict :=
  [("protocol_version", PStr "1"); ("id", PStr (re_id e));
   ("task_context_id", PStr (re_task_context_id e));
   ("organisation_id", PStr (re_organisation_id e)); ("workspace_id", PStr (re_workspace_id e));
   ("node_id", PStr (re_node_id e)); ("user_id", PStr (re_user_id e));
   ("browser_session_id", PStr (re_browser_session_id e)); ("harness_id", PStr (re_harness_id e));
   ("task", PStr (re_task e));
   ("required_capabilities", PList (PStr <$> re_required_capabilities e));
   ("approval_id", ostr (re_approval_id e)); ("nonce", PStr (re_nonce e));
   ("issued_at", PStr (json_time (re_issued_at e)));
   ("expires_at", PStr (json_time (re_expires_at e))); ("key_id", PStr (re_key_id e));
   ("signature", PStr (re_signature e))].

Definition with_signature (signature : string) (e : RemoteTaskEnvelope) : RemoteTaskEnvelope :=
  {| re_id := re_id e; re_task_context_id := re_task_context_id e;
     re_organisation_id := re_organisation_id e; re_workspace_id := re_workspace_id e;
     re_node_id := re_node_id e; re_user_id := re_user_id e;
     re_browser_session_id := re_browser_session_id e; re_harness_id := re_harness_id e;
     re_task := re_task e; re_required_capabilities := re_required_capabilities e;
     re_approval_id := re_approval_id e; re_nonce := re_nonce e; re_issued_at := re_issued_at e;
     re_expires_at := re_expires_at e; re_key_id := re_key_id e; re_signature := signature |}.

(* @src control_plane/security.py:73-77 sign_envelope *)
Definition sign_envelope (e : RemoteTaskEnvelope) (private_key : string) : res RemoteTaskEnvelope :=
  res_bind (sign_bytes (canonical_json (task_dump e) "signature") private_key) (λ sg,
  Ok (with_signature sg e)).

(* @src control_plane/security.py:80-86 verify_envelope *)
Definition verify_envelope (now : Z) (e : RemoteTaskEnvelope) (public_key : string) : res unit :=
  if (re_expires_at e <=? now)%Z then
    Raise (ExpiredMessageError "remote task envelope has expired")
  else verify_bytes (canonical_json (task_dump e) "signature") (re_signature e) public_key.

(** An active grant of a workspace to a node. *)
Definition grants_workspace (node_id workspace_id : string) (g : WorkspaceGrant) : bool :=
  (wg_node_id g == node_id) && (wg_workspace_id g == workspace_id) && (wg_revoked_at g == None).

(* @src control_plane/service.py:325-356 ControlPlane.create_remote_task *)
Definition create_remote_task (envelope : RemoteTaskEnvelope) (signing_private_key : string) :
    V RemoteTaskEnvelope :=
  s ← get_state;
  match dict_get (re_node_id envelope) (sv_nodes s) with
  | None => raise (PermissionError "node is unavailable or revoked")
  | Some node =>
      if nr_revoked_at node != None then raise (PermissionError "node is unavailable or revoked")
      else if nr_organisation_id node != re_organisation_id envelope then
        raise (PermissionError "cross-organisation task rejected")
      else
        match List.filter (grants_workspace (nr_id node) (re_workspace_id envelope))
                (sv_grants s).*2 with
        | [] => raise (PermissionError "workspace has not been granted to this node")
        | _ =>
            now ← utc_now;
            zoom sv_nonces set_nonces (consume now (re_nonce envelope) (re_expires_at envelope));;
            signed ← lift_res (sign_envelope envelope signing_private_key);
            modify_state (λ s, set_tasks (dict_set (re_id signed) signed (sv_tasks s)) s);;
            _audit (re_organisation_id signed) (Some (re_user_id signed)) "remote_task.create"
              "remote_task" (re_id signed) [("harness_id", PStr (re_harness_id signed))];;
            mret signed
        end
  end.
End service.

(** ** The check on the node *)

(** The validator's nonces with the readings of the clock. *)
Record ValidatorState := { vs_nonces : list (string * Z); vs_clock : nat }.

Section validator.
Context `{PyLib} `{NodeLib}.
(** [resolve_workspace_path], which reads the file system. *)
Context (resolve_workspace_path : string → string → res string).

Definition validator_now : M ValidatorState Z := λ s,
  (Ok (clock (vs_clock s)), {| vs_nonces := vs_nonces s; vs_clock := S (vs_clock s) |}).

(* @src control_plane/node.py:62-86 NodeTaskValidator.validate *)
Definition validate (control_plane_public_key : string) (envelope : RemoteTaskEnvelope)
    (node_id : string) (grants : list WorkspaceGrant) (requested_path : string) :
    M ValidatorState string :=
  now ← validator_now;
  lift_res (verify_envelope now envelope control_plane_public_key);;
  now ← validator_now;
  zoom vs_nonces (λ v s, {| vs_nonces := v; vs_clock := vs_clock s |})
    (consume now (re_nonce envelope) (re_expires_at envelope));;
  if re_node_id envelope != node_id then
    raise (PermissionError "task is addressed to another node")
  else
    match List.find (grants_workspace node_id (re_workspace_id envelope)) grants with
    | None => raise (PermissionError "workspace permission is missing or revoked")
    | Some grant => lift_res (resolve_workspace_path (wg_root_path grant) requested_path)
    end.
End validator.
