(* ===== verification/ControlPlaneServiceProofs.v ===== *)
(** * What the control-plane service guarantees

    Nodes come from approved pairings, remote tasks run on such nodes of their organisation,
    are created exactly for granted workspaces, and are accepted on their node. *)

From S2P Require Import Prelude NodeSecurity ControlPlaneService.

(** ** Requests *)

Inductive request :=
| RqBegin (organisation_id workspace_id code_challenge : string)
| RqStatus (pairing_id : string)
| RqCancel (pairing_id : string)
| RqApprove (pairing_id user_id : string)
| RqRegister (pairing_id device_code name public_key key_id platform version : string)
| RqRevoke (node_id actor_id : string)
| RqGrant (grant : WorkspaceGrant) (actor_id : string)
| RqPlan (plan : ActionPlan)
| RqDecide (decision : ApprovalDecision)
| RqTask (envelope : RemoteTaskEnvelope) (signing_private_key : string).

Section requests.
Context `{PyLib} `{NodeLib}.
Context (token_urlsafe user_code : nat → string).

Definition serve (r : request) : V unit :=
  match r with
  | RqBegin o w c => begin_pairing token_urlsafe user_code o w c;; mret tt
  | RqStatus p => pairing_status p;; mret tt
  | RqCancel p => cancel_pairing p
  | RqApprove p u => approve_pairing p u;; mret tt
  | RqRegister p d n pk k pl v => register_node p d n pk k pl v;; mret tt
  | RqRevoke n a => revoke_node n a;; mret tt
  | RqGrant g a => grant_workspace g a;; mret tt
  | RqPlan p => save_plan p;; mret tt
  | RqDecide d => decide d;; mret tt
  | RqTask e k => create_remote_task e k;; mret tt
  end.

(** The requests one after another; an exception ends its request only. *)
Definition serve_all (rs : list request) (s : ServiceState) : ServiceState :=
  fold_left (λ s r, (serve r s).2) rs s.

(** A new service. *)
Definition new_service : ServiceState :=
  {| sv_pairings := []; sv_nodes := []; sv_grants := []; sv_plans := []; sv_approvals := [];
     sv_tasks := []; sv_audit := []; sv_nonces := []; sv_clock := 0; sv_uuids := 0;
     sv_tokens := 0 |}.

(** ** One request

    Which requests change the pairings, the nodes and the tasks. *)

(** What the operations in between do not touch. *)
Definition same_store (s s' : ServiceState) : Prop :=
  sv_pairings s' = sv_pairings s ∧ sv_nodes s' = sv_nodes s ∧ sv_tasks s' = sv_tasks s.

Lemma same_store_refl s : same_store s s.
Proof. done. Qed.

Lemma then_same {A} s (m : V A) :
  keeps (same_store s) m → same_store s ((m;; mret tt) s).2.
Proof.
  intros Hm. by apply (keeps_bind (same_store s) m (λ _, mret tt)); [|intros ?; apply keeps_ret|].
Qed.

Lemma audit_same s0 o a x y z m : keeps (same_store s0) (_audit o a x y z m).
Proof.
  unfold _audit. apply keeps_bind; [by intros s|intros id].
  apply keeps_bind; [by intros s|intros now]. apply keeps_modify. by intros s.
Qed.
Lemma subscript_same {A} s0 k (d : list (string * A)) : keeps (same_store s0) (subscript k d).
Proof. unfold subscript. destruct (dict_get k d); [apply keeps_ret|apply keeps_raise]. Qed.

Lemma grant_same s0 g a : keeps (same_store s0) (grant_workspace g a).
Proof.
  unfold grant_workspace. apply keeps_bind; [apply keeps_modify; by intros s|intros _].
  apply keeps_bind; [apply keeps_get|intros s].
  apply keeps_bind; [apply subscript_same|intros node].
  apply keeps_bind; [apply audit_same|intros _; apply keeps_ret].
Qed.

Lemma decide_same s0 d : keeps (same_store s0) (decide d).
Proof.
  unfold decide. apply keeps_bind; [apply keeps_get|intros s].
  apply keeps_bind; [apply subscript_same|intros plan].
  apply keeps_bind; [by intros s'|intros now].
  apply keeps_bind; [destruct (_ <=? _)%Z; [apply keeps_ret|by intros s']|intros now'].
  apply keeps_bind; [apply keeps_lift|intros _].
  apply keeps_bind; [apply keeps_modify; by intros s'|intros _]. apply keeps_ret.
Qed.

Lemma status_same s0 p : keeps (same_store s0) (pairing_status p).
Proof.
  unfold pairing_status. apply keeps_bind; [apply keeps_get|intros s].
  destruct (dict_get _ _); [|apply keeps_raise].
  apply keeps_bind; [by intros s'|intros now]. apply keeps_ret.
Qed.

(** A registration that is let through, and what it stores. *)
Definition registers (pid d : string) (n : NodeRegistration) (s : ServiceState)
    (p : PairingSession) : Prop :=
  dict_get pid (sv_pairings s) = Some p ∧ ps_approved_by_user_id p ≠ None ∧
  (clock (sv_clock s) < ps_expires_at p)%Z ∧ sha256_hex d = ps_device_code_hash p ∧
  nr_organisation_id n = ps_organisation_id p ∧ nr_workspace_id n = ps_workspace_id p.

Lemma register_cases pid d name pk k pl v s :
  same_store s (register_node pid d name pk k pl v s).2 ∨
  ∃ n p, registers pid d n s p ∧ nr_name n = name ∧ nr_public_key n = pk ∧ nr_key_id n = k ∧
    nr_platform n = pl ∧ nr_version n = v ∧
    let s' := (register_node pid d name pk k pl v s).2 in
    sv_pairings s' = sv_pairings s ∧ sv_tasks s' = sv_tasks s ∧
    sv_nodes s' = dict_set (nr_id n) n (sv_nodes s).
Proof.
  unfold register_node, subscript, utc_now, uuid4, get_state, modify_state, raise, mbind, M_bind.
  simpl. destruct (dict_get pid (sv_pairings s)) as [p|] eqn:Hp; [|by left]. simpl.
  destruct (_ || _) eqn:Hg; [by left|]. apply orb_false_iff in Hg as [He Hap]. boolify.
  destruct (negb _) eqn:Hd; [by left|]. boolify. right.
  exists {| nr_id := uuid_str (sv_uuids s); nr_organisation_id := ps_organisation_id p;
            nr_workspace_id := ps_workspace_id p; nr_name := name; nr_public_key := pk;
            nr_key_id := k; nr_platform := pl; nr_version := v;
            nr_created_at := clock (S (sv_clock s)); nr_revoked_at := None |}, p.
  split; [|by split_and!]. unfold registers. split_and!; try done. lia.
Qed.

(** A task that may be created: its node is registered, not revoked and of its organisation,
    the node has an active grant of the workspace, the nonce is not held, and the signing key
    can be read. A nonce is held from the request that consumed it, whether its task was then
    signed or not, until the expiry it gave. *)
Definition creatable (e : RemoteTaskEnvelope) (k : string) (s : ServiceState) : Prop :=
  ∃ n, dict_get (re_node_id e) (sv_nodes s) = Some n ∧ nr_revoked_at n = None ∧
    nr_organisation_id n = re_organisation_id e ∧
    (∃ g, g ∈ (sv_grants s).*2 ∧ grants_workspace (nr_id n) (re_workspace_id e) g = true) ∧
    dict_get (re_nonce e) (purge (clock (sv_clock s)) (sv_nonces s)) = None ∧
    ∃ signed, sign_envelope e k = Ok signed.

Lemma sign_envelope_fields e k e' : sign_envelope e k = Ok e' → ∃ sg, e' = with_signature sg e.
Proof.
  unfold sign_envelope. destruct (sign_bytes _ k) as [sg|]; [|done]. intros [= <-]. by exists sg.
Qed.

Lemma create_spec e k s :
  match create_remote_task e k s with
  | (Ok signed, s') => creatable e k s ∧ sign_envelope e k = Ok signed ∧
      sv_tasks s' = dict_set (re_id e) signed (sv_tasks s) ∧
      dict_get (re_nonce e) (sv_nonces s') = Some (re_expires_at e) ∧
      length (sv_audit s') = S (length (sv_audit s)) ∧
      sv_pairings s' = sv_pairings s ∧ sv_nodes s' = sv_nodes s
  | (Raise _, s') => ¬ creatable e k s ∧ same_store s s' ∧ sv_audit s' = sv_audit s
  end.
Proof.
  unfold create_remote_task, utc_now, zoom, consume, lift_res, get_state, modify_state, raise,
    mbind, M_bind. simpl. unfold creatable.
  destruct (dict_get (re_node_id e) (sv_nodes s)) as [n|] eqn:Hn;
    [|split; [by intros (? & ? & _)|done]].
  destruct (bool_decide (nr_revoked_at n = None)) eqn:Hr; boolify; simpl;
    [|split; [by intros (? & [= <-] & ? & _)|done]].
  destruct (bool_decide (nr_organisation_id n = re_organisation_id e)) eqn:Ho; boolify; simpl;
    [|split; [by intros (? & [= <-] & _ & ? & _)|done]].
  destruct (List.filter _ _) as [|g gs] eqn:Hf.
  { split; [|done]. intros (? & [= <-] & _ & _ & (g & Hg & Hgw) & _).
    assert (g ∈ List.filter (grants_workspace (nr_id n) (re_workspace_id e)) (sv_grants s).*2) as Hin
      by (by apply elem_of_filter_bool). rewrite Hf in Hin. by apply elem_of_nil in Hin. }
  assert (Hg : ∃ g, g ∈ (sv_grants s).*2 ∧ grants_workspace (nr_id n) (re_workspace_id e) g = true).
  { exists g. apply elem_of_filter_bool. rewrite Hf. apply elem_of_cons. by left. }
  simpl. unfold dict_has.
  destruct (dict_get (re_nonce e) (purge _ _)) eqn:Hnonce; simpl;
    [split; [by intros (? & _ & _ & _ & _ & ? & _)|done]|].
  destruct (sign_envelope e k) as [signed|] eqn:Hs; simpl.
  - apply sign_envelope_fields in Hs as Hw. destruct Hw as [sg ->]. split.
    { exists n. split_and!; try done. by eexists. }
    split_and!; try done; [by rewrite dict_get_set_eq|rewrite length_app; simpl; lia].
  - split; [by intros (? & _ & _ & _ & _ & _ & ? & ?)|done].
Qed.

(** Where a pairing's approval, a node and a task of the next state come from. *)
Lemma serve_pairings r s pid p u :
  dict_get pid (sv_pairings (serve r s).2) = Some p → ps_approved_by_user_id p = Some u →
  (∃ p0, dict_get pid (sv_pairings s) = Some p0 ∧ ps_approved_by_user_id p0 = Some u) ∨
  r = RqApprove pid u.
Proof.
  intros Hp Hu.
  assert (same_store s (serve r s).2 → ∃ p0, dict_get pid (sv_pairings s) = Some p0 ∧
    ps_approved_by_user_id p0 = Some u) as Hsame by (intros (E & _); rewrite E in Hp; eauto).
  destruct r as [o w c|q|q|q u'|q d name pk k pl v|nid a|g a|pl|d|e k]; simpl in *.
  - left. exists p. split; [|done]. revert Hp.
    unfold begin_pairing, draw, uuid4, utc_now, modify_state, mbind, M_bind. simpl.
    destruct (base.decide (uuid_str (sv_uuids s) = pid)) as [<-|Hne];
      [rewrite dict_get_set_eq; intros [= <-]; done|by rewrite dict_get_set_ne].
  - left. by apply Hsame, then_same, status_same.
  - revert Hp. unfold cancel_pairing, utc_now, get_state, modify_state, raise, mbind, M_bind. simpl.
    destruct (dict_get q (sv_pairings s)) as [p0|] eqn:Hq; simpl; [|by eauto].
    destruct (base.decide (q = pid)) as [<-|Hne];
      [rewrite dict_get_set_eq; intros [= <-]; left; by exists p0|
       rewrite dict_get_set_ne by done; by eauto].
  - revert Hp. unfold approve_pairing, subscript, utc_now, get_state, modify_state, raise, mbind,
      M_bind. simpl.
    destruct (dict_get q (sv_pairings s)) as [p0|] eqn:Hq; simpl; [|by eauto].
    destruct (_ <=? _)%Z; simpl; [by eauto|].
    destruct (base.decide (q = pid)) as [<-|Hne];
      [rewrite dict_get_set_eq; intros [= <-]; right; by simplify_eq/=|
       rewrite dict_get_set_ne by done; by eauto].
  - left. destruct (register_cases q d name pk k pl v s) as [Hs|(n & p0 & _ & _ & _ & _ & _ & _ & E & _)].
    + apply Hsame. revert Hs. unfold mbind, M_bind.
      by destruct (register_node _ _ _ _ _ _ _ s) as [[?|?] ?].
    + exists p. split; [|done]. rewrite <- E, <- Hp. unfold mbind, M_bind.
      by destruct (register_node _ _ _ _ _ _ _ s) as [[?|?] ?].
  - left. exists p. split; [|done]. revert Hp.
    unfold revoke_node, subscript, utc_now, get_state, modify_state, raise, mbind, M_bind. simpl.
    by destruct (dict_get nid (sv_nodes s)).
  - left. by apply Hsame, then_same, grant_same.
  - by left; eauto.
  - left. by apply Hsame, then_same, decide_same.
  - left. exists p. split; [|done]. rewrite <- Hp. unfold mbind, M_bind.
    pose proof (create_spec e k s) as Hc.
    destruct (create_remote_task e k s) as [[t|x] s']; simpl;
      [by destruct Hc as (_ & _ & _ & _ & _ & -> & _)|by destruct Hc as (_ & (-> & _) & _)].
Qed.

(** All that registration fixed; a revocation changes the rest. *)
Definition registration (n : NodeRegistration) :=
  (nr_id n, (nr_organisation_id n, nr_workspace_id n),
   (nr_name n, nr_public_key n, nr_key_id n, nr_platform n, nr_version n)).

Lemma serve_nodes r s id n :
  dict_get id (sv_nodes (serve r s).2) = Some n →
  (∃ n0, dict_get id (sv_nodes s) = Some n0 ∧ registration n = registration n0) ∨
  ∃ pid d p, registers pid d n s p ∧
    r = RqRegister pid d (nr_name n) (nr_public_key n) (nr_key_id n) (nr_platform n) (nr_version n).
Proof.
  intros Hn.
  assert (sv_nodes (serve r s).2 = sv_nodes s → ∃ n0, dict_get id (sv_nodes s) = Some n0 ∧
    registration n = registration n0) as Hsame by (intros E; rewrite E in Hn; eauto).
  destruct r as [o w c|q|q|q u'|q d name pk k pl v|nid a|g a|pl|d|e k]; simpl in *.
  - by left; eauto.
  - left. by apply Hsame, then_same, status_same.
  - left. apply Hsame. unfold cancel_pairing, utc_now, get_state, modify_state, raise, mbind, M_bind.
    simpl. by destruct (dict_get q _).
  - left. apply Hsame. unfold approve_pairing, subscript, utc_now, get_state, modify_state, raise,
      mbind, M_bind. simpl. destruct (dict_get q _); [|done]. simpl. by destruct (_ <=? _)%Z.
  - assert (sv_nodes ((register_node q d name pk k pl v;; mret tt) s).2 =
      sv_nodes (register_node q d name pk k pl v s).2) as E.
    { unfold mbind, M_bind. by destruct (register_node _ _ _ _ _ _ _ s) as [[?|?] ?]. }
    destruct (register_cases q d name pk k pl v s)
      as [(_ & Hs & _)|(n0 & p0 & Hreg & <- & <- & <- & <- & <- & _ & _ & Hs)].
    + left. apply Hsame. by rewrite E.
    + rewrite E, Hs in Hn. destruct (base.decide (nr_id n0 = id)) as [<-|Hne].
      * rewrite dict_get_set_eq in Hn. injection Hn as <-. right. by exists q, d, p0.
      * rewrite dict_get_set_ne in Hn by done. by left; eauto.
  - revert Hn. unfold revoke_node, subscript, utc_now, get_state, modify_state, raise, mbind, M_bind.
    simpl. destruct (dict_get nid (sv_nodes s)) as [n0|] eqn:Hq; simpl; [|by left; eauto].
    destruct (base.decide (nid = id)) as [<-|Hne].
    + rewrite dict_get_set_eq. intros [= <-]. left. by exists n0.
    + rewrite dict_get_set_ne by done. by left; eauto.
  - left. by apply Hsame, then_same, grant_same.
  - by left; eauto.
  - left. by apply Hsame, then_same, decide_same.
  - left. apply Hsame. unfold mbind, M_bind. pose proof (create_spec e k s) as Hc.
    destruct (create_remote_task e k s) as [[t|x] s']; simpl;
      [by destruct Hc as (_ & _ & _ & _ & _ & _ & ->)|by destruct Hc as (_ & (_ & -> & _) & _)].
Qed.

Lemma serve_tasks r s id t :
  dict_get id (sv_tasks (serve r s).2) = Some t →
  dict_get id (sv_tasks s) = Some t ∨
  ∃ e k, r = RqTask e k ∧ re_id e = id ∧ creatable e k s ∧ sign_envelope e k = Ok t.
Proof.
  intros Ht.
  destruct r as [o w c|q|q|q u'|q d name pk k pl v|nid a|g a|pl|d|e k]; simpl in *.
  - by left.
  - left. rewrite <- Ht. f_equal. symmetry. by apply then_same, status_same.
  - left. rewrite <- Ht.
    unfold cancel_pairing, utc_now, get_state, modify_state, raise, mbind, M_bind.
    simpl. by destruct (dict_get q _).
  - left. rewrite <- Ht. unfold approve_pairing, subscript, utc_now, get_state, modify_state, raise,
      mbind, M_bind. simpl. destruct (dict_get q _); [|done]. simpl. by destruct (_ <=? _)%Z.
  - left. rewrite <- Ht.
    assert (sv_tasks (register_node q d name pk k pl v s).2 = sv_tasks s) as E.
    { by destruct (register_cases q d name pk k pl v s) as [(_ & _ & ?)|(? & ? & ?)]; [|naive_solver]. }
    rewrite <- E. unfold mbind, M_bind.
    by destruct (register_node _ _ _ _ _ _ _ s) as [[?|?] ?].
  - left. rewrite <- Ht.
    unfold revoke_node, subscript, utc_now, get_state, modify_state, raise, mbind, M_bind.
    simpl. by destruct (dict_get nid (sv_nodes s)).
  - left. rewrite <- Ht. f_equal. symmetry. by apply then_same, grant_same.
  - by left.
  - left. rewrite <- Ht. f_equal. symmetry. by apply then_same, decide_same.
  - revert Ht. unfold mbind, M_bind. pose proof (create_spec e k s) as Hc.
    destruct (create_remote_task e k s) as [[t'|x] s']; simpl.
    + destruct Hc as (Hcr & Hs & -> & _). destruct (base.decide (re_id e = id)) as [<-|Hne].
      * rewrite dict_get_set_eq. intros [= <-]. right. by exists e, k.
      * rewrite dict_get_set_ne by done. by left.
    + destruct Hc as (_ & (_ & _ & ->) & _). by left.
Qed.

(** ** Histories *)

Abbreviation served rs := (serve_all rs new_service).

Lemma served_snoc rs r : served (rs ++ [r]) = (serve r (served rs)).2.
Proof. unfold serve_all. by rewrite fold_left_app. Qed.

Lemma approval_requested rs pid p u :
  dict_get pid (sv_pairings (served rs)) = Some p → ps_approved_by_user_id p = Some u →
  RqApprove pid u ∈ rs.
Proof.
  revert p. induction rs as [|r rs IH] using rev_ind; intros p; [done|].
  rewrite served_snoc, elem_of_app, list_elem_of_singleton. intros Hp Hu.
  destruct (serve_pairings _ _ _ _ _ Hp Hu) as [(p0 & Hp0 & Hu0)|]; [left|right]; eauto.
Qed.

(** The registration of [n] among the requests, with the pairing it found. *)
Definition registered_in (rs : list request) (n : NodeRegistration) : Prop :=
  ∃ rs1 pid d rs2 p u,
    rs = rs1 ++ RqRegister pid d (nr_name n) (nr_public_key n) (nr_key_id n) (nr_platform n)
                  (nr_version n) :: rs2 ∧
    registers pid d n (served rs1) p ∧
    ps_approved_by_user_id p = Some u ∧ RqApprove pid u ∈ rs1.

Lemma node_registered rs id n :
  dict_get id (sv_nodes (served rs)) = Some n → registered_in rs n.
Proof.
  revert n. induction rs as [|r rs IH] using rev_ind; intros n; [done|].
  rewrite served_snoc. intros [(n0 & Hn0 & E)|(pid & d & p & Hreg & ->)]%serve_nodes.
  - destruct (IH n0 Hn0) as (rs1 & pid & d & rs2 & p & u & -> & Hreg & Hu & Hin).
    unfold registration in E. simplify_eq. unfold registers in Hreg.
    exists rs1, pid, d, (rs2 ++ [r]), p, u. rewrite <- app_assoc. simpl. unfold registers.
    split_and!; try done; try congruence; naive_solver congruence.
  - pose proof Hreg as (Hp & Ha & _). destruct (ps_approved_by_user_id p) as [u|] eqn:Hu; [|done].
    exists rs, pid, d, [], p, u. split_and!; try done. by eapply approval_requested.
Qed.

(** C32: Every remote task the service has stored was signed by a request whose node was then
    registered, not revoked, of the organisation of the task and with an active grant of its
    workspace. That node was registered by an earlier request with the device code of a
    pairing, before the pairing expired and after a user had approved that pairing; the
    pairing is of the organisation of the task and of the workspace of the node. (The service
    takes the user who approves as given; the membership of the user is for its caller.) *)
Theorem tasks_run_on_paired_nodes rs id t :
  dict_get id (sv_tasks (served rs)) = Some t →
  ∃ rs1 e k rs2 n, rs = rs1 ++ RqTask e k :: rs2 ∧ re_id e = id ∧ sign_envelope e k = Ok t ∧
    dict_get (re_node_id e) (sv_nodes (served rs1)) = Some n ∧ nr_revoked_at n = None ∧
    nr_organisation_id n = re_organisation_id e ∧
    (∃ g, g ∈ (sv_grants (served rs1)).*2 ∧
          grants_workspace (nr_id n) (re_workspace_id e) g = true) ∧
    registered_in rs1 n.
Proof.
  induction rs as [|r rs IH] using rev_ind; [done|].
  rewrite served_snoc. intros [Ht|(e & k & -> & He & Hc & Hs)]%serve_tasks.
  - destruct (IH Ht) as (rs1 & e & k & rs2 & n & -> & Hrest).
    exists rs1, e, k, (rs2 ++ [r]), n. by rewrite <- app_assoc.
  - destruct Hc as (n & Hn & Hr & Ho & Hg & _). exists rs, e, k, [], n.
    split_and!; try done. by eapply node_registered.
Qed.
End requests.

(** ** Remote tasks *)

Section tasks.
Context `{PyLib} `{NodeLib}.

(** C33: A request for a remote task is decided exactly by [creatable]: the node is registered,
    not revoked and of the task's organisation, it has an active grant of the workspace, the
    nonce is not held (by any request that consumed it and gave an expiry that is not over,
    one whose signing failed included), and the signing key can be read. Then the signed task
    is returned and stored under its identifier, its nonce is held until its expiry, and the
    audit grows by one event. Otherwise the request raises and no task, node, pairing or audit
    event changes. *)
Theorem remote_task_created_iff e k s :
  match create_remote_task e k s with
  | (Ok signed, s') => creatable e k s ∧ sign_envelope e k = Ok signed ∧
      sv_tasks s' = dict_set (re_id e) signed (sv_tasks s) ∧
      dict_get (re_nonce e) (sv_nonces s') = Some (re_expires_at e) ∧
      length (sv_audit s') = S (length (sv_audit s)) ∧
      sv_pairings s' = sv_pairings s ∧ sv_nodes s' = sv_nodes s
  | (Raise _, s') => ¬ creatable e k s ∧ same_store s s' ∧ sv_audit s' = sv_audit s
  end.
Proof. exact (create_spec e k s). Qed.

End tasks.


(** ** Concrete requests *)

#[local] Existing Instance counting_lib.
#[local] Existing Instance toy_node_lib.
#[local] Existing Instance toy_node_laws.

Definition a_code (n : nat) : string := "device" +:+ pretty n.
Abbreviation serve_from rs s := (serve_all a_code pretty rs s).

Definition a_grant (id node : string) : WorkspaceGrant :=
  {| wg_id := id; wg_workspace_id := "w"; wg_node_id := node; wg_root_path := "/srv/w";
     wg_allow_read := true; wg_allow_write := false; wg_allow_shell := false;
     wg_created_at := 0; wg_revoked_at := None |}.
Definition a_remote_task : RemoteTaskEnvelope :=
  {| re_id := "task"; re_task_context_id := "x"; re_organisation_id := "o";
     re_workspace_id := "w"; re_node_id := "1"; re_user_id := "u"; re_browser_session_id := "b";
     re_harness_id := "codex"; re_task := "go"; re_required_capabilities := [];
     re_approval_id := None; re_nonce := "n"; re_issued_at := 0; re_expires_at := 500;
     re_key_id := "k"; re_signature := "" |}.

(** A pairing with identifier [0], its node with identifier [1], and a grant. *)
Definition paired : list request :=
  [RqBegin "o" "w" "c"; RqApprove "0" "u"; RqRegister "0" "device0" "laptop" "N" "k" "linux" "1";
   RqGrant (a_grant "g" "1") "u"].

Definition with_task : list request := paired ++ [RqTask a_remote_task "K"].

Lemma tasks_run_on_paired_nodes_witness :
  ∃ t, dict_get "task" (sv_tasks (serve_from with_task new_service)) = Some t ∧
    ∃ rs1 e k rs2 n, with_task = rs1 ++ RqTask e k :: rs2 ∧ re_id e = "task" ∧
      sign_envelope e k = Ok t ∧
      dict_get (re_node_id e) (sv_nodes (serve_from rs1 new_service)) = Some n ∧
      nr_revoked_at n = None ∧ nr_organisation_id n = re_organisation_id e ∧
      (∃ g, g ∈ (sv_grants (serve_from rs1 new_service)).*2 ∧
            grants_workspace (nr_id n) (re_workspace_id e) g = true) ∧
      registered_in a_code pretty rs1 n.
Proof.
  eexists. split; [vm_compute; reflexivity|].
  apply (tasks_run_on_paired_nodes a_code pretty with_task "task").
  vm_compute. reflexivity.
Defined.



(** A task whose signing fails is refused and keeps its nonce all the same: the same request
    with a key that can be read is then refused as a replay. *)
Definition strict_node_lib : NodeLib :=
  {| ed_public := ed_public; ed_sign := ed_sign; ed_verify := ed_verify;
     b64_encode := b64_encode; json_time := json_time;
     b64_decode k := if k == "" then Raise (ValueError "key") else Ok k |}.

Example failed_signing_keeps_the_nonce :
  let s := serve_from paired new_service in
  let failed := create_remote_task (H0 := strict_node_lib) a_remote_task "" s in
  failed.1 = Raise (ValueError "key") ∧ res_ok (create_remote_task a_remote_task "K" s).1 = true ∧
  (create_remote_task a_remote_task "K" failed.2).1 =
    Raise (ReplayDetectedError "message nonce has already been used").
Proof. vm_compute. split_and!; reflexivity. Qed.

(** A pairing is not used up: its device code registers any number of nodes until it expires. *)
Example pairing_registers_twice :
  dict_keys (sv_nodes (serve_from (paired ++
    [RqRegister "0" "device0" "other" "M" "k" "linux" "1"]) new_service)) = ["1"; "4"].
Proof. vm_compute. done. Qed.

(** A grant for a node that does not exist is kept although the request raises. *)
Example grant_of_unknown_node_is_kept :
  let s := serve_from [RqGrant (a_grant "g" "nobody") "u"] new_service in
  dict_keys (sv_grants s) = ["g"] ∧ sv_audit s = [] ∧
  (grant_workspace (a_grant "g" "nobody") "u" new_service).1 = Raise (KeyError "'nobody'").
Proof. vm_compute. done. Qed.

(** A new pairing that was approved, and whose device never registered, shows as paired with a
    node that another pairing registered before. *)
Example status_names_an_older_node :
  match (pairing_status "4"
    (serve_from (paired ++ [RqBegin "o" "w" "c"; RqApprove "4" "u"]) new_service)).1 with
  | Ok (status, Some node) => status = "paired" ∧ nr_id node = "1"
  | _ => False
  end.
Proof. vm_compute. done. Qed.
