(* ===== verification/Processes.v ===== *)
(** * Child processes

    [SafeProcessRunner] of [execution_routing/process_runner.py] with the termination of a
    process group of [connectors/process_utils.py]. The operating system is a parameter: its
    operations are computations over the whole state, so that whatever other tasks do while
    the runner waits for a process (cancelling it, say) is part of them. Text is ASCII. *)

From Stdlib Require Import Ascii SpecFloat.
From S2P Require Import Prelude Security.

(** ** The operating system *)

(** A process is a handle. [os_resolve] is [Path(p).expanduser().resolve(strict=True)],
    [os_resolve_lax] the same without [strict]; [os_communicate] and [os_wait] raise
    [TimeoutError] when their time is over; [os_readline] gives "" at the end of the output. *)
Record OperatingSystem (S : Type) := {
  os_environ : S → list (string * string);
  os_getcwd : S → string;
  os_resolve : string → M S string;
  os_resolve_lax : string → M S string;
  os_is_dir : string → M S bool;
  os_which : string → M S (option string);
  os_spawn : list string → string → list (string * string) → M S nat;
  os_pid : nat → Z;
  os_returncode : nat → S → option Z;
  os_communicate : nat → spec_float → M S (string * string);
  os_read_stdout : nat → M S string;
  os_read_stderr : nat → M S string;
  os_readline : nat → spec_float → M S string;
  os_wait : nat → option spec_float → M S unit;
  os_killpg : nat → string → M S unit;
  os_send_signal : nat → string → M S unit
}.
Arguments os_environ {S}.
Arguments os_getcwd {S}.
Arguments os_resolve {S}.
Arguments os_resolve_lax {S}.
Arguments os_is_dir {S}.
Arguments os_which {S}.
Arguments os_spawn {S}.
Arguments os_pid {S}.
Arguments os_returncode {S}.
Arguments os_communicate {S}.
Arguments os_read_stdout {S}.
Arguments os_read_stderr {S}.
Arguments os_readline {S}.
Arguments os_wait {S}.
Arguments os_killpg {S}.
Arguments os_send_signal {S}.

(** [m] with [True], or [False] when it timed out. *)
Definition in_time {S} (m : M S unit) : M S bool :=
  catch (m;; mret true) (λ e, if is_TimeoutError e then mret false else raise e).

Section termination.
Context {S : Type} (OS : OperatingSystem S).

(** The signal to the whole group, or to the process alone; then two seconds to end. *)
(* @src connectors/process_utils.py:33-41 terminate_process_tree *)
Definition signal_and_wait (h : nat) (sig : string) : M S bool :=
  catch (os_killpg OS h sig) (λ e, if is_OSError e then os_send_signal OS h sig else raise e);;
  in_time (os_wait OS h (Some (z_to_float 2))).

(* @src connectors/process_utils.py:29-59 terminate_process_tree *)
Definition terminate_process_tree (h : nat) : M S dict :=
  s ← get_state (S := S);
  let report (lingering : bool) (sig : dict) :=
    [("cancelled", PBool true); ("lingering", PBool lingering); ("pid", PInt (os_pid OS h))] ++ sig in
  match os_returncode OS h s with
  | Some _ => mret (report false [])
  | None =>
      interrupted ← signal_and_wait h "SIGINT";
      if interrupted : bool then mret (report false [("signal", PStr "SIGINT")])
      else
        terminated ← signal_and_wait h "SIGTERM";
        if terminated : bool then mret (report false [("signal", PStr "SIGTERM")])
        else
          killed ← signal_and_wait h "SIGKILL";
          mret (report (negb killed) [("signal", PStr "SIGKILL")])
  end.
End termination.

(** ** The runner *)

(* @src runtime_v1/execution_routing/process_runner.py:17-21 ProcessRunnerError *)
Definition ProcessRunnerError (reason_code message : string) : exn :=
  Exn "ProcessRunnerError" reason_code message.
Definition is_ProcessRunnerError (e : exn) : bool := exn_class e == "ProcessRunnerError".

(* @src runtime_v1/execution_routing/process_runner.py:24-33 ProcessRunRequest *)
Record ProcessRunRequest := {
  rq_argv : list string;
  rq_cwd : string;
  rq_timeout_seconds : spec_float;
  rq_extra_env_keys : list string;
  rq_extra_env : list (string * string);
  rq_max_stdout_bytes : Z;
  rq_max_stderr_bytes : Z;
  rq_run_id : string
}.

(* @src runtime_v1/execution_routing/process_runner.py:36-49 ProcessRunResult *)
Record ProcessRunResult := {
  pr_ok : bool;
  pr_run_id : string;
  pr_returncode : option Z;
  pr_timed_out : bool;
  pr_cancelled : bool;
  pr_stdout : string;
  pr_stderr : string;
  pr_stdout_digest : string;
  pr_stderr_digest : string;
  pr_truncated : bool;
  pr_lingering : bool;
  pr_classification : string
}.

(* @src runtime_v1/execution_routing/process_runner.py:51-65 ProcessRunResult.as_dict *)
Definition ProcessRunResult_as_dict (r : ProcessRunResult) : dict :=
  [("ok", PBool (pr_ok r)); ("run_id", PStr (pr_run_id r));
   ("returncode", from_option PInt PNone (pr_returncode r));
   ("timed_out", PBool (pr_timed_out r)); ("cancelled", PBool (pr_cancelled r));
   ("stdout_digest", PStr (pr_stdout_digest r)); ("stderr_digest", PStr (pr_stderr_digest r));
   ("truncated", PBool (pr_truncated r)); ("lingering", PBool (pr_lingering r));
   ("classification", PStr (pr_classification r));
   ("stdout_preview", PStr (redact_secrets (str_take 500 (pr_stdout r))));
   ("stderr_preview", PStr (redact_secrets (str_take 500 (pr_stderr r))))].

(* @src runtime_v1/execution_routing/process_runner.py:71-73 SafeProcessRunner.__init__ *)
Record RunnerState := { rn_processes : list (string * nat); rn_cancelled : gset string }.
Definition RunnerState_init : RunnerState := {| rn_processes := []; rn_cancelled := ∅ |}.
Definition on_processes (f : list (string * nat) → list (string * nat)) (r : RunnerState) :
    RunnerState := {| rn_processes := f (rn_processes r); rn_cancelled := rn_cancelled r |}.
Definition on_cancelled (f : gset string → gset string) (r : RunnerState) : RunnerState :=
  {| rn_processes := rn_processes r; rn_cancelled := f (rn_cancelled r) |}.

(* @src runtime_v1/execution_routing/process_runner.py:268-282 _classify_exit *)
Definition _classify_exit (returncode : option Z) (timed_out cancelled : bool) : string :=
  if cancelled then "cancelled"
  else if timed_out then "timeout"
  else match returncode with
       | Some 0%Z => "ok"
       | None => "unknown"
       | Some _ => "process_failure"
       end.

(** [Path(p).parts] without the root, and of an absolute path with it; single dots and
    repeated separators disappear. *)
Fixpoint segments (acc : string) (s : string) : list string :=
  let flush := if acc in? [""; "."] then [] else [acc] in
  match s with
  | EmptyString => flush
  | String.String c s' =>
      if Ascii.eqb c "/"%char then flush ++ segments "" s'
      else segments (acc +:+ String.String c "") s'
  end.
(** Two slashes at the beginning are kept, three are one. *)
Definition path_root (p : string) : string :=
  if startswith "//" p && negb (startswith "///" p) then "//"
  else if startswith "/" p then "/" else "".
Definition path_parts (p : string) : list string :=
  (if path_root p == "" then [] else [path_root p]) ++ segments "" p.
(** [str(Path(p))], and [str(Path(base) / name)]: an absolute name replaces the base. *)
Definition path_str (p : string) : string :=
  if path_parts p == [] then "." else path_root p +:+ join "/" (segments "" p).
Definition path_join (base name : string) : string :=
  if path_root name == "" then path_str (base +:+ "/" +:+ name) else path_str name.
(** [path.relative_to(root)] succeeds. *)
Definition is_inside (root path : string) : bool :=
  path_parts root == take (length (path_parts root)) (path_parts path).

(** The environment of a child: the filtered one, with the extra variables that replace one
    of it or were asked for by key. *)
(* @src runtime_v1/execution_routing/process_runner.py:106-109 SafeProcessRunner.run *)
Definition child_environment (environ : list (string * string)) (request : ProcessRunRequest) :
    list (string * string) :=
  fold_left (λ env '(key, value),
    if dict_has key env || (key in? rq_extra_env_keys request) then dict_set key value env
    else env)
    (rq_extra_env request) (filter_environment environ [] (rq_extra_env_keys request)).

Section runner.
Context {S : Type} (OS : OperatingSystem S).
Context (runner : S → RunnerState) (set_runner : RunnerState → S → S).
Context `{PyLib}.

Definition update_runner (f : RunnerState → RunnerState) : M S unit :=
  modify_state (λ s, set_runner (f (runner s)) s).

(* @src runtime_v1/execution_routing/process_runner.py:85-96 SafeProcessRunner.validate_cwd *)
Fixpoint inside_any (resolved : string) (roots : list string) : M S bool :=
  match roots with
  | [] => mret false
  | root :: rest =>
      root_resolved ← os_resolve_lax OS root;
      if is_inside root_resolved resolved then mret true else inside_any resolved rest
  end.

(* @src runtime_v1/execution_routing/process_runner.py:75-97 SafeProcessRunner.validate_cwd *)
Definition validate_cwd (cwd : string) (allowed_roots : list string) : M S string :=
  resolved ← catch (os_resolve OS cwd) (λ e,
    if is_OSError e then
      raise (ProcessRunnerError "workspace_unavailable" ("cwd unavailable: " +:+ cwd))
    else raise e);
  directory ← os_is_dir OS resolved;
  if negb (directory : bool) then
    raise (ProcessRunnerError "workspace_unavailable" ("cwd is not a directory: " +:+ cwd))
  else if ".." in? path_parts cwd then
    raise (ProcessRunnerError "workspace_traversal" "path traversal rejected")
  else match allowed_roots with
  | [] => mret resolved
  | _ =>
      ok ← inside_any resolved allowed_roots;
      if ok : bool then mret resolved
      else raise (ProcessRunnerError "workspace_escape" "cwd escapes allowed roots")
  end.

(** What is left in the pipes after a timeout: the second read is not tried when the first
    raises. *)
(* @src runtime_v1/execution_routing/process_runner.py:133-142 SafeProcessRunner.run *)
Definition drain (h : nat) : M S (string * string) :=
  out ← catch (o ← os_read_stdout OS h; mret (Some o))
          (λ e, if is_Exception e then mret None else raise e);
  match out with
  | None => mret ("", "")
  | Some out =>
      err ← catch (os_read_stderr OS h) (λ e, if is_Exception e then mret "" else raise e);
      mret (out, err)
  end.

(** The wait for the process: whether it timed out, whether it lingers, its output. *)
(* @src runtime_v1/execution_routing/process_runner.py:123-142 SafeProcessRunner.run *)
Definition communicate (h : nat) (timeout : spec_float) : M S (bool * bool * (string * string)) :=
  r ← catch (o ← os_communicate OS h timeout; mret (Some o))
        (λ e, if is_TimeoutError e then mret None else raise e);
  match r with
  | Some output => mret (false, false, output)
  | None =>
      kill ← terminate_process_tree OS h;
      output ← drain h;
      mret (true, truthy (dget "lingering" kill), output)
  end.

(** The result of a process that has ended. *)
(* @src runtime_v1/execution_routing/process_runner.py:149-178 SafeProcessRunner.run *)
Definition run_result (request : ProcessRunRequest) (returncode : option Z)
    (timed_out cancelled lingering : bool) (stdout_b stderr_b : string) : ProcessRunResult :=
  let long_out := (rq_max_stdout_bytes request <? Z.of_nat (String.length stdout_b))%Z in
  let long_err := (rq_max_stderr_bytes request <? Z.of_nat (String.length stderr_b))%Z in
  let stdout := if long_out then str_take (Z.to_nat (rq_max_stdout_bytes request)) stdout_b
                else stdout_b in
  let stderr := if long_err then str_take (Z.to_nat (rq_max_stderr_bytes request)) stderr_b
                else stderr_b in
  let classification := _classify_exit returncode timed_out cancelled in
  {| pr_ok := (classification == "ok") && (returncode == Some 0%Z);
     pr_run_id := rq_run_id request; pr_returncode := returncode; pr_timed_out := timed_out;
     pr_cancelled := cancelled; pr_stdout := stdout; pr_stderr := stderr;
     pr_stdout_digest := sha256_hex stdout; pr_stderr_digest := sha256_hex stderr;
     pr_truncated := long_out || long_err; pr_lingering := lingering;
     pr_classification := classification |}.

(** The start of a process, which is registered under the id of its run. *)
(* @src runtime_v1/execution_routing/process_runner.py:105-119 SafeProcessRunner.run *)
Definition start_process (request : ProcessRunRequest) : M S nat :=
  cwd ← validate_cwd (rq_cwd request) [];
  s ← get_state (S := S);
  h ← os_spawn OS (rq_argv request) cwd (child_environment (os_environ OS s) request);
  update_runner (on_processes (dict_set (rq_run_id request) h));;
  mret h.

(** [finally]: the process and the mark of its cancellation are forgotten. *)
(* @src runtime_v1/execution_routing/process_runner.py:145-147 SafeProcessRunner.run *)
Definition forget (run_id : string) : M S unit :=
  update_runner (on_processes (dict_del run_id));;
  update_runner (on_cancelled (λ c, c ∖ {[run_id]})).

(* @src runtime_v1/execution_routing/process_runner.py:99-178 SafeProcessRunner.run *)
Definition run (request : ProcessRunRequest) : M S ProcessRunResult :=
  match rq_argv request with
  | [] => raise (ProcessRunnerError "invalid_argv" "argv must be non-empty")
  | _ =>
      h ← start_process request;
      '(timed_out, lingering, (stdout_b, stderr_b), cancelled) ← finally
        ('(timed_out, lingering, output) ← communicate h (rq_timeout_seconds request);
         s ← get_state (S := S);
         mret (timed_out, lingering, output,
               bool_decide (rq_run_id request ∈ rn_cancelled (runner s))))
        (forget (rq_run_id request));
      s ← get_state (S := S);
      mret (run_result request (os_returncode OS h s) timed_out cancelled lingering
              stdout_b stderr_b)
  end.

(** [cancel] of the runner. *)
(* @src runtime_v1/execution_routing/process_runner.py:260-265 SafeProcessRunner.cancel *)
Definition cancel_run (run_id : string) : M S dict :=
  update_runner (on_cancelled (λ c, {[run_id]} ∪ c));;
  s ← get_state (S := S);
  match dict_get run_id (rn_processes (runner s)) with
  | None => mret [("cancelled", PBool true); ("lingering", PBool false);
                  ("detail", PStr "no active process")]
  | Some h => terminate_process_tree OS h
  end.

(** The lines as they come; [consume] is what the caller of the generator does with an item,
    which raises when it closes the generator. Every line counts at least one byte, so the
    limit on the output bounds the loop. *)
Context (consume : dict → M S unit).

Definition item (event_type : string) (sequence : Z) (rest : dict) : M S unit :=
  consume ([("event_type", PStr event_type); ("sequence", PInt sequence)] ++ rest).
(** [line.decode().rstrip("\n")]. *)
Definition rstrip_newlines (s : string) : string :=
  let fix go (s : string) : string :=
    match s with
    | String.String c s' => if Ascii.eqb c (Ascii.ascii_of_nat 10) then go s' else s
    | EmptyString => EmptyString
    end in
  String.rev (go (String.rev s)).

(* @src runtime_v1/execution_routing/process_runner.py:201-255 SafeProcessRunner.stream_lines *)
Fixpoint stream_loop (fuel : nat) (request : ProcessRunRequest) (h : nat)
    (sequence collected : Z) : M S unit :=
  match fuel with
  | O => raise OutOfFuel
  | Datatypes.S fuel =>
      let next := (sequence + 1)%Z in
      s ← get_state (S := S);
      if rq_run_id request in? rn_cancelled (runner s) then
        terminate_process_tree OS h;; item "execution.cancelled" next [("line", PStr "")]
      else
        r ← catch (l ← os_readline OS h (rq_timeout_seconds request); mret (Some l))
              (λ e, if is_TimeoutError e then mret None else raise e);
        match r with
        | None =>
            terminate_process_tree OS h;; item "execution.failed" next [("reason", PStr "timeout")]
        | Some EmptyString =>
            os_wait OS h None;;
            s ← get_state;
            item (if os_returncode OS h s == Some 0%Z then "execution.completed"
                  else "execution.failed") next
              [("returncode", from_option PInt PNone (os_returncode OS h s))]
        | Some line =>
            let collected := (collected + Z.of_nat (String.length line))%Z in
            if (rq_max_stdout_bytes request <? collected)%Z then
              terminate_process_tree OS h;;
              item "execution.failed" next [("reason", PStr "output_limit")]
            else
              item "execution.output" next
                [("line", PStr (redact_secrets (rstrip_newlines line)))];;
              stream_loop fuel request h next collected
        end
  end.

(* @src runtime_v1/execution_routing/process_runner.py:180-258 SafeProcessRunner.stream_lines *)
Definition stream_lines (request : ProcessRunRequest) : M S unit :=
  h ← start_process request;
  finally
    (stream_loop (Datatypes.S (Datatypes.S (Z.to_nat (rq_max_stdout_bytes request)))) request h 0 0)
    (forget (rq_run_id request)).
End runner.

(** ** The environment of a child *)

Lemma extra_environment_elem (keys : list string) (extra env : list (string * string)) k v :
  (k, v) ∈ fold_left (λ env '(key, value),
    if dict_has key env || (key in? keys) then dict_set key value env else env) extra env →
  (k, v) ∈ env ∨ k ∈ extra.*1.
Proof.
  revert env. induction extra as [|[k' v'] extra IH]; intros env; simpl; [by left|].
  intros [Hin|Hin]%IH; [|right; by right].
  destruct (_ || _); [|by left]. clear IH.
  induction env as [|[k2 v2] env IH]; simpl in Hin.
  - apply list_elem_of_singleton in Hin as [= -> ->]. right. left.
  - case_bool_decide; subst; apply elem_of_cons in Hin as [Heq|Hin].
    + injection Heq as -> ->. right. left.
    + left. by right.
    + left. rewrite Heq. left.
    + destruct (IH Hin) as [?|?]; [left; by right|by right].
Qed.

(** A child only sees a variable named after a secret when the caller passes its value. *)
Theorem child_environment_is_clean environ request k v :
  (k, v) ∈ child_environment environ request → _is_denied_secret_key k = true →
  k ∈ (rq_extra_env request).*1.
Proof.
  intros [Hin|Hin]%extra_environment_elem Hd; [|done].
  apply elem_of_filter_bool in Hin as [_ Hin]. rewrite Hd, andb_false_r in Hin. discriminate Hin.
Qed.

(** ** What the runner does to the rest of the state *)

(** Every operation of the system stays within [R]. *)
Record os_within {S} (R : S → S → Prop) (OS : OperatingSystem S) : Prop := {
  ow_resolve p : within R (os_resolve OS p);
  ow_resolve_lax p : within R (os_resolve_lax OS p);
  ow_is_dir p : within R (os_is_dir OS p);
  ow_which p : within R (os_which OS p);
  ow_spawn a c e : within R (os_spawn OS a c e);
  ow_communicate h t : within R (os_communicate OS h t);
  ow_read_stdout h : within R (os_read_stdout OS h);
  ow_read_stderr h : within R (os_read_stderr OS h);
  ow_readline h t : within R (os_readline OS h t);
  ow_wait h t : within R (os_wait OS h t);
  ow_killpg h g : within R (os_killpg OS h g);
  ow_send_signal h g : within R (os_send_signal OS h g)
}.
#[export] Hint Resolve ow_resolve ow_resolve_lax ow_is_dir ow_which ow_spawn ow_communicate
  ow_read_stdout ow_read_stderr ow_readline ow_wait ow_killpg ow_send_signal : within.

Section runner_within.
Context {S : Type} (OS : OperatingSystem S) (R : S → S → Prop) `{!PreOrder R}.
Context (runner : S → RunnerState) (set_runner : RunnerState → S → S) `{PyLib}.
Context (within_os : os_within R OS).

Lemma within_terminate h : within R (terminate_process_tree OS h).
Proof. unfold terminate_process_tree, signal_and_wait, in_time. within_steps. Qed.

Lemma within_inside resolved roots : within R (inside_any OS resolved roots).
Proof. induction roots; simpl; within_steps. Qed.

Lemma within_validate_cwd cwd roots : within R (validate_cwd OS cwd roots).
Proof. pose proof within_inside. unfold validate_cwd. within_steps. Qed.

Lemma within_communicate h t : within R (communicate OS h t).
Proof. pose proof within_terminate. unfold communicate, drain. within_steps. Qed.

Lemma within_start request :
  (∀ f s, R s (set_runner (on_processes f (runner s)) s)) →
  within R (start_process OS runner set_runner request).
Proof.
  intros Hset. pose proof within_validate_cwd.
  assert (∀ f, within R (update_runner runner set_runner (on_processes f))) by (intros f s; apply Hset).
  unfold start_process. within_steps.
Qed.

Context (within_set : ∀ f s, R s (set_runner (f (runner s)) s)).

Lemma within_update f : within R (update_runner runner set_runner f).
Proof. intros s. apply within_set. Qed.

Lemma within_forget id : within R (forget runner set_runner id).
Proof. pose proof within_update. unfold forget. within_steps. Qed.

Lemma within_run request : within R (run OS runner set_runner request).
Proof.
  assert (∀ q, within R (start_process OS runner set_runner q)) by (intros q; by apply within_start).
  pose proof within_communicate. pose proof within_forget. unfold run. within_steps.
Qed.

Lemma within_cancel_run id : within R (cancel_run OS runner set_runner id).
Proof.
  pose proof within_terminate. pose proof within_update. unfold cancel_run. within_steps.
Qed.
End runner_within.

(** ** Runs *)

Section run_lemmas.
Context {S : Type} (OS : OperatingSystem S).
Context (runner : S → RunnerState) (set_runner : RunnerState → S → S).
Context (runner_set : ∀ r s, runner (set_runner r s) = r).
Context `{PyLib}.
Local Abbreviation run := (run OS runner set_runner).
Local Abbreviation forget := (forget runner set_runner).

(** A run is well when the process ended with code 0, in time and uncancelled. *)
Theorem run_ok_iff request s r s' :
  run request s = (Ok r, s') →
  pr_ok r = true ↔ pr_returncode r = Some 0%Z ∧ pr_timed_out r = false ∧ pr_cancelled r = false.
Proof.
  unfold Processes.run. destruct (rq_argv request) as [|a argv]; [done|].
  unfold mbind, M_bind. destruct (start_process _ _ _ _ s) as [[h|e] s1]; [|done].
  destruct (finally _ _ s1) as [[[[[timed lingering] [out err]] cancelled]|e] s2]; [|done].
  intros [= <- _]. simpl. unfold _classify_exit.
  destruct cancelled, timed; simpl; try (split; [done|by intros (_ & ? & ?)]).
  destruct (os_returncode OS h s2) as [[]|]; simpl; split; try done; by intros [? _].
Qed.

Lemma forget_spec id s : ∃ s', forget id s = (Ok tt, s') ∧
  rn_cancelled (runner s') = rn_cancelled (runner s) ∖ {[id]} ∧
  rn_processes (runner s') = dict_del id (rn_processes (runner s)).
Proof.
  eexists. split; [reflexivity|]. simpl. rewrite !runner_set. by split.
Qed.

(** A process of [request] that ended well between [s] and [s']: its command line was spawned in
    the resolved directory with the environment of the request, its output was read before the
    time limit, its run was not cancelled by then, and it left the code 0. *)
Definition process_ended_well (request : ProcessRunRequest) (s s' : S) : Prop :=
  ∃ cwd s1 h s2 output s3,
    validate_cwd OS (rq_cwd request) [] s = (Ok cwd, s1) ∧
    os_spawn OS (rq_argv request) cwd (child_environment (os_environ OS s1) request) s1 =
      (Ok h, s2) ∧
    os_communicate OS h (rq_timeout_seconds request)
      (set_runner (on_processes (dict_set (rq_run_id request) h) (runner s2)) s2) =
      (Ok output, s3) ∧
    rq_run_id request ∉ rn_cancelled (runner s3) ∧
    forget (rq_run_id request) s3 = (Ok tt, s') ∧
    os_returncode OS h s' = Some 0%Z.

Lemma communicate_in_time h timeout s lingering output s' :
  communicate OS h timeout s = (Ok (false, lingering, output), s') →
  os_communicate OS h timeout s = (Ok output, s').
Proof.
  unfold communicate. intros (o & s1 & Hc & Hr)%bind_Ok_inv. destruct o as [o|].
  - injection Hr as _ -> <-. apply catch_Ok_inv in Hc as [Hc|(e & s2 & _ & Hc)].
    + by apply bind_Ok_inv in Hc as (? & ? & -> & [= -> ->]).
    + by destruct (is_TimeoutError e).
  - by apply bind_Ok_inv in Hr as (k & s2 & _ & (o & s3 & _ & [=])%bind_Ok_inv).
Qed.

Lemma run_ok_process request s r s' :
  run request s = (Ok r, s') → pr_ok r = true → process_ended_well request s s'.
Proof.
  intros Hrun Hok. pose proof (proj1 (run_ok_iff _ _ _ _ Hrun) Hok) as (Hcode & Htime & Hcanc).
  revert Hrun. unfold Processes.run. destruct (rq_argv request) as [|a argv] eqn:Hargv; [done|].
  intros (h & s1 & Hstart & Hr)%bind_Ok_inv.
  unfold start_process in Hstart.
  apply bind_Ok_inv in Hstart as (cwd & t1 & Hcwd & Hstart).
  apply bind_Ok_inv in Hstart as (u & t1' & [= <- <-] & Hstart).
  apply bind_Ok_inv in Hstart as (h' & t2 & Hspawn & Hstart).
  apply bind_Ok_inv in Hstart as ([] & t2' & [= <-] & [= -> <-]).
  apply bind_Ok_inv in Hr as ([[[timed lingering] [out err]] cancelled] & s2 & Hf & Hr).
  unfold finally in Hf. destruct ((_ : M S _) (set_runner _ t2)) as [x s3] eqn:E in Hf.
  destruct (forget (rq_run_id request) s3) as [r4 s4] eqn:Hforget.
  assert (r4 = Ok tt) as -> by (by injection Hforget as <- _). injection Hf as -> <-. injection Hr as <- <-. simpl in Htime, Hcanc.
  subst timed cancelled.
  apply bind_Ok_inv in E as ([[timed lingering'] output] & s3' & Hcomm & E).
  injection E as -> -> -> Hc <-. apply communicate_in_time in Hcomm.
  unfold process_ended_well. exists cwd, t1, h, t2, (out, err), s3'.
  apply bool_decide_eq_false in Hc. split_and!; done.
Qed.

(** After a run that returned, its process and the mark of its cancellation are forgotten,
    whatever other tasks did meanwhile. *)
Theorem run_is_forgotten request s r s' :
  run request s = (Ok r, s') →
  (rq_run_id request ∉ rn_cancelled (runner s')) ∧
  ∃ s1, rn_processes (runner s') = dict_del (rq_run_id request) (rn_processes (runner s1)).
Proof.
  unfold Processes.run. destruct (rq_argv request) as [|a argv]; [done|].
  unfold mbind, M_bind at 1. destruct (start_process _ _ _ _ s) as [[h|e] s1]; [|done].
  unfold mbind, M_bind at 1. unfold finally.
  destruct ((_ : M S _) s1) as [[[[[timed lingering] [out err]] cancelled]|e] s2].
  - destruct (forget_spec (rq_run_id request) s2) as (s3 & -> & Hc & Hp).
    intros [= _ <-]. rewrite Hc. split; [set_solver|by exists s2].
  - destruct (forget_spec (rq_run_id request) s2) as (s3 & -> & _). done.
Qed.

(** The mark of a cancellation. *)
Definition marked (id : string) (s : S) : Prop := id ∈ rn_cancelled (runner s).

Context (id : string) (quiet : os_within (preserving (marked id)) OS).

(** A cancellation marks its run, whether there is a process or not. *)
Lemma cancel_marks s : marked id (cancel_run OS runner set_runner id s).2.
Proof.
  assert (within (preserving (marked id))
    (s ← get_state (S := S);
     match dict_get id (rn_processes (runner s)) with
     | None => mret [("cancelled", PBool true); ("lingering", PBool false);
                     ("detail", PStr "no active process")]
     | Some h => terminate_process_tree OS h
     end)) as Hrest.
  { pose proof (within_terminate OS (preserving (marked id)) quiet). within_steps. }
  apply (Hrest (set_runner (on_cancelled (λ c, {[id]} ∪ c) (runner s)) s)).
  unfold marked. rewrite runner_set. simpl. set_solver.
Qed.

(** A run that was cancelled before it started is started all the same; it runs to its end
    and is then reported as cancelled, whatever its exit code. *)
Theorem marked_run_is_cancelled request s r s' :
  rq_run_id request = id → marked id s → run request s = (Ok r, s') →
  pr_cancelled r = true ∧ pr_ok r = false.
Proof.
  intros <- Hm. unfold Processes.run. destruct (rq_argv request) as [|a argv]; [done|].
  unfold mbind, M_bind at 1.
  pose proof (within_start OS (preserving (marked (rq_run_id request))) runner set_runner quiet
    request) as Hs. unfold within, preserving in Hs. 
  specialize (Hs ltac:(intros f s0 Hs0; unfold marked; rewrite runner_set; exact Hs0) s Hm).
  destruct (start_process _ _ _ _ s) as [[h|e] s1]; [|done]. simpl in Hs.
  pose proof (within_communicate OS (preserving (marked (rq_run_id request))) quiet h
    (rq_timeout_seconds request) s1 Hs) as Hc.
  unfold mbind, M_bind, finally.
  destruct (communicate OS h _ s1) as [[[[timed lingering] [out err]]|e] s2];
    destruct (forget_spec (rq_run_id request) s2) as (s3 & Hf & _); rewrite ?Hf; [|done].
  intros [= <- _]. simpl.
  rewrite bool_decide_eq_true_2 by exact Hc. by split.
Qed.
End run_lemmas.

(** ** The end of a stream *)

(** [m] does not run out of fuel. *)
Definition ends {S A} (m : M S A) : Prop := ∀ s, (m s).1 ≠ Raise OutOfFuel.

Section ends_lemmas.
Context {S : Type}.

Lemma ends_ret {A} (a : A) : ends (mret (M := M S) a).
Proof. by intros s. Qed.
Lemma ends_get : ends (get_state (S := S)).
Proof. by intros s. Qed.
Lemma ends_raise {A} e : e ≠ OutOfFuel → ends (raise (S := S) (A := A) e).
Proof. intros He s [= ?]. done. Qed.
Lemma ends_bind {A B} (m : M S A) (k : A → M S B) :
  ends m → (∀ a, ends (k a)) → ends (m ≫= k).
Proof.
  intros Hm Hk s. unfold mbind, M_bind. specialize (Hm s).
  destruct (m s) as [[a|e] s']; [apply Hk|]. intros [= ->]. by apply Hm.
Qed.
(** A handler that raises again what it does not handle. *)
Lemma ends_catch {A} (m : M S A) h : ends m → (∀ e, e ≠ OutOfFuel → ends (h e)) → ends (catch m h).
Proof.
  intros Hm Hh s. unfold catch. specialize (Hm s).
  destruct (m s) as [[a|e] s'] eqn:E; [done|]. apply Hh. intros ->. by apply Hm.
Qed.
Lemma ends_finally {A} (m : M S A) f : ends m → ends f → ends (finally m f).
Proof.
  intros Hm Hf s. unfold finally. specialize (Hm s).
  destruct (m s) as [r s1]. specialize (Hf s1). destruct (f s1) as [[[]|e] s2]; [exact Hm|].
  intros [= ->]. by apply Hf.
Qed.
End ends_lemmas.

Create HintDb ends.
#[export] Hint Resolve ends_ret ends_get : ends.
Ltac ends_steps :=
  repeat match goal with
  | |- ends (_ ≫= _) => apply ends_bind; [|intros ?]
  | |- ends (catch _ _) => apply ends_catch; [|intros ? ?]
  | |- ends (finally _ _) => apply ends_finally
  | |- ends (raise _) => apply ends_raise; done
  | |- ends (if ?b then _ else _) => destruct b eqn:?
  | |- ends (match ?x with _ => _ end) => destruct x
  | |- ends _ => solve [eauto with ends]
  end.

(** The system ends every call of its own. *)
Record os_ends {S} (OS : OperatingSystem S) : Prop := {
  oe_resolve p : ends (os_resolve OS p);
  oe_is_dir p : ends (os_is_dir OS p);
  oe_spawn a c e : ends (os_spawn OS a c e);
  oe_readline h t : ends (os_readline OS h t);
  oe_wait h t : ends (os_wait OS h t);
  oe_killpg h g : ends (os_killpg OS h g);
  oe_send_signal h g : ends (os_send_signal OS h g)
}.
#[export] Hint Resolve oe_resolve oe_is_dir oe_spawn oe_readline oe_wait oe_killpg
  oe_send_signal : ends.

Section stream_lemmas.
Context {S : Type} (OS : OperatingSystem S).
Context (runner : S → RunnerState) (set_runner : RunnerState → S → S) `{PyLib}.
Context (consume : dict → M S unit).
Context (system_ends : os_ends OS) (consumer_ends : ∀ d, ends (consume d)).

Lemma ends_terminate h : ends (terminate_process_tree OS h).
Proof. unfold terminate_process_tree, signal_and_wait, in_time. ends_steps. Qed.

Lemma ends_item ty n d : ends (item consume ty n d).
Proof. apply consumer_ends. Qed.

Lemma ends_update f : ends (update_runner runner set_runner f).
Proof. by intros s. Qed.

Lemma stream_loop_ends request h fuel sequence collected :
  (rq_max_stdout_bytes request - collected < Z.of_nat fuel - 1)%Z →
  (collected ≤ rq_max_stdout_bytes request)%Z ∨ (1 < fuel) →
  ends (stream_loop OS runner consume fuel request h sequence collected).
Proof.
  pose proof ends_terminate. pose proof ends_item.
  revert sequence collected. induction fuel as [|fuel IH]; intros sequence collected Hf Hc.
  { lia. }
  simpl. ends_steps. apply IH; simpl in *;
    repeat match goal with Hb : (_ <? _)%Z = false |- _ => apply Z.ltb_ge in Hb end; lia.
Qed.

(** A stream ends: the limit on its output bounds the number of lines. *)
Theorem stream_ends request : ends (stream_lines OS runner set_runner consume request).
Proof.
  pose proof ends_update. pose proof (stream_loop_ends request) as Hl.
  unfold stream_lines, start_process, validate_cwd, forget. ends_steps. apply Hl; lia.
Qed.
End stream_lemmas.
