(* ===== verification/Harness.v ===== *)
(** * Harness adapters

    [execution_routing/harness.py]: the thin adapter with an optional function to run, and the
    adapter that runs a connector's command line in the process runner. A connector is the
    interface of [connector_protocol.py]; its command line, environment, discovery and event
    parser are what an adapter asks it for. *)

From Stdlib Require Import Ascii SpecFloat.
From S2P Require Import Prelude TaskAnalysis Processes.

(** ** Connectors *)

(** The parts of the context the adapters fill in. *)
(* @src runtime_v1/connector_protocol.py:15-24 ConnectorExecutionContext *)
Record ConnectorExecutionContext := {
  ec_node_id : string;
  ec_workspace_id : option string;
  ec_workspace_path : option string;
  ec_task_id : option string;
  ec_attempt_id : option string;
  ec_lease_id : option string;
  ec_fencing_token : option Z;
  ec_metadata : dict
}.

(* @src runtime_v1/connector_protocol.py:27-37 DiscoveryResult *)
Record DiscoveryResult := {
  dr_executable_path : option string;
  dr_version : option string;
  dr_fingerprint : option string;
  dr_installed : bool;
  dr_usable : bool;
  dr_reason_code : option string;
  dr_details : dict
}.

(* @src runtime_v1/connector_protocol.py:201-262 ConnectorRuntime *)
Record ConnectorRuntime (S : Type) := {
  cr_connector_id : string;
  cr_display_name : string;
  cr_declared_capabilities : gset string;
  cr_discover : ConnectorExecutionContext → M S DiscoveryResult;
  cr_execution_environment : bool → list (string * string);
  cr_build_exec_argv : string → string → string → bool → list string;
  cr_parse_events : string → res (list dict)
}.
Arguments cr_connector_id {S}.
Arguments cr_display_name {S}.
Arguments cr_declared_capabilities {S}.
Arguments cr_discover {S}.
Arguments cr_execution_environment {S}.
Arguments cr_build_exec_argv {S}.
Arguments cr_parse_events {S}.

(** ** Adapters *)

(* @src runtime_v1/execution_routing/harness.py:55-64 HarnessAdapter *)
Record PlainAdapter (S : Type) := {
  pa_harness_id : string;
  pa_display_name : string;
  pa_execute_fn : option (string → dict → M S dict);
  pa_metadata : dict;
  pa_supported : bool;
  pa_unsupported_reason : option string
}.
Arguments Build_PlainAdapter {S}.
Arguments pa_harness_id {S}.
Arguments pa_display_name {S}.
Arguments pa_execute_fn {S}.
Arguments pa_metadata {S}.
Arguments pa_supported {S}.
Arguments pa_unsupported_reason {S}.

(** [__post_init__] makes every connector adapter a supported one. *)
(* @src runtime_v1/execution_routing/harness.py:126-132 ConnectorHarnessAdapter *)
Record ConnectorHarnessAdapter (S : Type) := {
  ca_harness_id : string;
  ca_display_name : string;
  ca_connector : ConnectorRuntime S;
  ca_allowed_roots : list string
}.
Arguments Build_ConnectorHarnessAdapter {S}.
Arguments ca_harness_id {S}.
Arguments ca_display_name {S}.
Arguments ca_connector {S}.
Arguments ca_allowed_roots {S}.

Inductive HarnessAdapter (S : Type) :=
| Plain (a : PlainAdapter S)
| Connected (a : ConnectorHarnessAdapter S).
Arguments Plain {S}.
Arguments Connected {S}.

(** [HarnessAdapter(harness_id=..., display_name=...)]. *)
Definition bare_adapter {S} (harness_id display_name : string) : HarnessAdapter S :=
  Plain {| pa_harness_id := harness_id; pa_display_name := display_name; pa_execute_fn := None;
           pa_metadata := []; pa_supported := true; pa_unsupported_reason := None |}.

(** [str(context.get(k) or "")], and [x or y] of an optional text. *)
Definition text_of (k : string) (context : dict) `{PyLib} : string :=
  py_str (py_or (dget k context) (PStr "")).
Definition or_text (o : option string) (other : string) : string :=
  if otruthy o then default "" o else other.

(** The segments of a path with ".." resolved, as [os.path.abspath] does without the file
    system, and the directory part of that path. *)
Definition normal_segments (parts : list string) : list string :=
  fold_left (λ acc p, if p == ".." then removelast acc else acc ++ [p]) parts [].
(* @src runtime_v1/execution_routing/harness.py:23-26 _parent_dir *)
Definition _parent_dir (cwd path : string) : string :=
  let full := if startswith "/" path then path else cwd +:+ "/" +:+ path in
  (if startswith "//" full && negb (startswith "///" full) then "//" else "/") +:+
  join "/" (removelast (normal_segments (segments "" full))).

Section adapters.
Context {S : Type} (OS : OperatingSystem S).
Context (runner : S → RunnerState) (set_runner : RunnerState → S → S) `{PyLib}.
(** [uuid4()]. *)
Context (uuid4 : M S string).

Definition local_execution_context : ConnectorExecutionContext :=
  {| ec_node_id := "local"; ec_workspace_id := None; ec_workspace_path := None;
     ec_task_id := None; ec_attempt_id := None; ec_lease_id := None; ec_fencing_token := None;
     ec_metadata := [] |}.

(* @src runtime_v1/execution_routing/harness.py:140-152 ConnectorHarnessAdapter.detect *)
Definition detect_connector (a : ConnectorHarnessAdapter S) : M S dict :=
  discovery ← cr_discover (ca_connector a) local_execution_context;
  mret [("harness_id", PStr (ca_harness_id a)); ("installed", PBool (dr_installed discovery));
        ("usable", PBool (dr_usable discovery)); ("version", ostr (dr_version discovery));
        ("executable_path", ostr (dr_executable_path discovery));
        ("fingerprint", ostr (dr_fingerprint discovery));
        ("reason_code", ostr (dr_reason_code discovery)); ("supported", PBool true)].

(* @src runtime_v1/execution_routing/harness.py:66-73 HarnessAdapter.detect *)
Definition detect (a : HarnessAdapter S) : M S dict :=
  match a with
  | Plain a =>
      mret [("harness_id", PStr (pa_harness_id a)); ("installed", PBool false);
            ("usable", PBool false); ("supported", PBool (pa_supported a));
            ("reason", PStr (or_text (pa_unsupported_reason a) "stub_adapter"))]
  | Connected a => detect_connector a
  end.

(* @src runtime_v1/execution_routing/harness.py:154-158 ConnectorHarnessAdapter.capabilities *)
Definition adapter_capabilities (a : HarnessAdapter S) : gset string :=
  match a with
  | Plain _ => ∅
  | Connected a => cr_declared_capabilities (ca_connector a)
  end.

(* @src runtime_v1/execution_routing/harness.py:160-170 ConnectorHarnessAdapter.validate *)
Definition validate_connector (a : ConnectorHarnessAdapter S) (context : dict) : M S unit :=
  let workspace := text_of "workspace_path" context in
  if workspace == "" then
    raise (ProcessRunnerError "workspace_unavailable" "workspace_path required")
  else
    s ← get_state (S := S);
    let roots := match ca_allowed_roots a with
                 | [] => [_parent_dir (os_getcwd OS s) workspace]
                 | roots => roots
                 end in
    validate_cwd OS workspace roots;;
    detection ← detect_connector a;
    if truthy (dget "usable" detection) then mret tt
    else raise (RuntimeError (ca_harness_id a +:+ " not usable: " +:+
                 py_str (py_or (dget "reason_code" detection) (PStr "unavailable")))).

(* @src runtime_v1/execution_routing/harness.py:78-81 HarnessAdapter.validate *)
Definition validate_plain (a : PlainAdapter S) : M S unit :=
  if pa_supported a then mret tt
  else raise (RuntimeError
    (or_text (pa_unsupported_reason a) (pa_harness_id a +:+ " unsupported"))).

(** [context["workspace_path"]]. *)
Definition workspace_of (context : dict) : M S string :=
  match dict_get "workspace_path" context with
  | Some v => mret (py_str v)
  | None => raise (KeyError "'workspace_path'")
  end.

(** A prepared run: its command line, and the dictionary [prepare] answers with. *)
(* @src runtime_v1/execution_routing/harness.py:172-192 ConnectorHarnessAdapter.prepare *)
Definition prepare_connector (a : ConnectorHarnessAdapter S) (prompt : string) (context : dict) :
    M S (list string * dict) :=
  validate_connector a context;;
  detection ← detect_connector a;
  found ← match dget "executable_path" detection with
          | PStr (String _ _ as path) => mret (Some path)
          | _ => os_which OS (ca_harness_id a)
          end;
  if negb (otruthy found) then
    raise (RuntimeError (ca_harness_id a +:+ " executable not found"))
  else
    let executable := default "" found in
    workspace ← workspace_of context;
    let argv := cr_build_exec_argv (ca_connector a) executable prompt workspace
      (truthy (default (PBool true) (dict_get "read_only" context))) in
    mret (argv,
      [("executable", PStr executable);
       ("argv_redacted", match argv with
                         | [] => PList []
                         | _ => PStrs (removelast argv ++ ["<PROMPT>"])
                         end);
       ("argv", PStrs argv); ("version", dget "version" detection);
       ("fingerprint", dget "fingerprint" detection)]).

(** The request to the runner: the environment of the connector is asked for as the one of a
    read-only run, whatever the context says. *)
(* @src runtime_v1/execution_routing/harness.py:196-209 ConnectorHarnessAdapter.execute *)
Definition run_request (a : ConnectorHarnessAdapter S) (argv : list string) (context : dict) :
    M S ProcessRunRequest :=
  run_id ← (if truthy (dget "execution_id" context) then mret (py_str (dget "execution_id" context))
            else uuid4);
  let extra := cr_execution_environment (ca_connector a) true in
  workspace ← workspace_of context;
  timeout ← lift_res (py_float (py_or (dget "timeout_seconds" context) (PInt 300)));
  mret {| rq_argv := argv; rq_cwd := workspace; rq_timeout_seconds := timeout;
          rq_extra_env_keys := dict_keys extra; rq_extra_env := extra;
          rq_max_stdout_bytes := 8000000; rq_max_stderr_bytes := 2000000;
          rq_run_id := run_id |}.

(** The answer of an adapter to a run that ended. *)
(* @src runtime_v1/execution_routing/harness.py:210-229 ConnectorHarnessAdapter.execute *)
Definition run_answer (a : ConnectorHarnessAdapter S) (prepared : dict)
    (result : ProcessRunResult) : dict :=
  let events := if pr_stdout result == "" then []
                else from_ok [] (cr_parse_events (ca_connector a) (pr_stdout result)) in
  [("ok", PBool (pr_ok result)); ("harness_id", PStr (ca_harness_id a));
   ("message", PStr (if pr_ok result then "harness execution completed"
                     else pr_classification result));
   ("failure_class", if pr_ok result then PNone else PStr (pr_classification result));
   ("process", PDict (ProcessRunResult_as_dict result ++
      [("stdout", PStr (pr_stdout result)); ("stderr", PStr (pr_stderr result))]));
   ("events", PList (PDict <$> events)); ("version", dget "version" prepared);
   ("stub", PBool false)].

(* @src runtime_v1/execution_routing/harness.py:194-229 ConnectorHarnessAdapter.execute *)
Definition execute_connector (a : ConnectorHarnessAdapter S) (prompt : string) (context : dict) :
    M S dict :=
  '(argv, prepared) ← prepare_connector a prompt context;
  request ← run_request a argv context;
  result ← run OS runner set_runner request;
  mret (run_answer a prepared result).

(** The branch for an unsupported adapter is never reached: [validate] has raised. *)
(* @src runtime_v1/execution_routing/harness.py:90-107 HarnessAdapter.execute *)
Definition execute_plain (a : PlainAdapter S) (prompt : string) (context : dict) : M S dict :=
  validate_plain a;;
  match pa_execute_fn a with
  | Some execute_fn => execute_fn prompt context
  | None =>
      mret [("ok", PBool true); ("harness_id", PStr (pa_harness_id a));
            ("message", PStr "harness adapter stub completed");
            ("prompt_digest", PStr (pretty (Z.of_nat (String.length prompt))));
            ("stub", PBool true)]
  end.

(** [adapter.run], which is [execute]. *)
(* @src runtime_v1/execution_routing/harness.py:87-88 HarnessAdapter.run *)
Definition adapter_run (a : HarnessAdapter S) (prompt : string) (context : dict) : M S dict :=
  match a with
  | Plain a => execute_plain a prompt context
  | Connected a => execute_connector a prompt context
  end.

(* @src runtime_v1/execution_routing/harness.py:115-117 HarnessAdapter.cancel *)
Definition adapter_cancel (a : HarnessAdapter S) (execution_id : string) : M S dict :=
  match a with
  | Plain _ => mret [("cancelled", PBool true); ("lingering", PBool false);
                     ("detail", PStr "stub")]
  | Connected _ => cancel_run OS runner set_runner execution_id
  end.
(* @src runtime_v1/execution_routing/harness.py:254-255 ConnectorHarnessAdapter.cleanup *)
Definition adapter_cleanup (a : HarnessAdapter S) (execution_id : string) : M S unit :=
  match a with
  | Plain _ => mret tt
  | Connected _ => adapter_cancel a execution_id;; mret tt
  end.
End adapters.

(** ** The built-in adapters *)

(** [s.replace("-", " ").title()]. *)
Fixpoint title_go (start : bool) (s : string) : string :=
  match s with
  | EmptyString => EmptyString
  | String c s' =>
      let n := nat_of_ascii (lower_char c) in
      let letter := bool_decide (97 ≤ n ≤ 122) in
      String (if letter && start then ascii_of_nat (n - 32) else lower_char c)
        (title_go (negb letter) s')
  end.
Definition title (s : string) : string := title_go true (replace_char "-" " " s).

(* @src runtime_v1/execution_routing/harness.py:262-264 _PROCESS_BACKED_HARNESSES *)
Definition _PROCESS_BACKED_HARNESSES : list string :=
  ["codex"; "opencode"; "claude"; "cursor"; "grok"].

(** One adapter of the table. *)
(* @src runtime_v1/execution_routing/harness.py:281-314 builtin_harness_adapters *)
Definition builtin_adapter {S} (executors : list (string * (string → dict → M S dict)))
    (connectors : list (string * ConnectorRuntime S)) (roots : list string)
    (use_real_adapters : bool) (harness_id : string) : HarnessAdapter S :=
  match dict_get harness_id executors with
  | Some fn =>
      Plain {| pa_harness_id := harness_id; pa_display_name := title harness_id;
               pa_execute_fn := Some fn; pa_metadata := []; pa_supported := true;
               pa_unsupported_reason := None |}
  | None =>
      let connector := dict_get harness_id connectors in
      let backed := harness_id in? _PROCESS_BACKED_HARNESSES in
      match connector, use_real_adapters && backed with
      | Some c, true =>
          Connected {| ca_harness_id := harness_id; ca_display_name := cr_display_name c;
                       ca_connector := c; ca_allowed_roots := roots |}
      | _, _ =>
          let missing := use_real_adapters && match connector with None => true | _ => false end in
          let unsupported := (harness_id == "vscode") || (missing && negb backed) in
          Plain {| pa_harness_id := harness_id; pa_display_name := title harness_id;
                   pa_execute_fn := None; pa_metadata := [];
                   pa_supported := negb unsupported && (harness_id != "vscode");
                   pa_unsupported_reason :=
                     if harness_id == "vscode" then
                       Some "vscode has no Runtime v1 non-interactive connector contract"
                     else if missing then Some (harness_id +:+ " has no Runtime v1 connector")
                     else None |}
      end
  end.

(* @src runtime_v1/execution_routing/harness.py:267-315 builtin_harness_adapters *)
Definition builtin_harness_adapters {S} (executors : list (string * (string → dict → M S dict)))
    (connectors : list (string * ConnectorRuntime S)) (roots : list string)
    (use_real_adapters : bool) : list (string * HarnessAdapter S) :=
  (λ h, (h, builtin_adapter executors connectors roots use_real_adapters h)) <$>
    sorted_strs (elements KNOWN_HARNESSES).
