(* ===== verification/Backends.v ===== *)
(** * The execution backends

    [execution_routing/backends/]: the local backend and the FireConnect backend, which run a
    harness adapter, the JoyMesh backend, which hands the execution to a remote node, and the
    hosted stub; and the default registry of [registry.py]. Each is an [ExecutionBackend] of
    the router. The provider-route service a FireConnect backend is built with is an argument;
    [Coordinator] is the one the source uses. *)

From Stdlib Require Import Ascii SpecFloat.
From S2P Require Import Prelude CompletionModels TaskAnalysis RouteLeases LeaseInterface.
From S2P Require Import Coordinator Execution Router Processes Harness.

(** ** What the backends keep *)

(* @src runtime_v1/execution_routing/backends/joymesh.py:28-40 JoyMeshBackend.__init__ *)
Record JoyMeshState := {
  jm_submissions : list (string * dict);
  jm_events : list (string * list dict)
}.
Definition JoyMeshState_init : JoyMeshState := {| jm_submissions := []; jm_events := [] |}.
Definition on_submissions (f : list (string * dict) → list (string * dict)) (j : JoyMeshState) :
    JoyMeshState := {| jm_submissions := f (jm_submissions j); jm_events := jm_events j |}.
Definition on_events (f : list (string * list dict) → list (string * list dict))
    (j : JoyMeshState) : JoyMeshState :=
  {| jm_submissions := jm_submissions j; jm_events := f (jm_events j) |}.

(** A result with the defaults of [ExecutionResult] for what the backends leave out. *)
Definition backend_result (ok : bool) (intent : ExecutionIntent) (backend_id : string)
    (decision : ExecutionDecision) (message : string) (output : dict)
    (failure_class : option string) (verification : dict) : ExecutionResult :=
  {| xr_ok := ok; xr_execution_id := it_execution_id intent; xr_backend_id := backend_id;
     xr_harness_id := ed_selected_harness_id decision; xr_message := message;
     xr_output := output; xr_failure_class := failure_class; xr_usage := [];
     xr_evidence_refs := []; xr_candidate_verification := []; xr_restore_status := None;
     xr_verification := verification |}.

(** [output.get("ok", True)]. *)
Definition ok_of (output : dict) : bool := truthy (default (PBool true) (dict_get "ok" output)).

Definition health_of (healthy : bool) (backend_id detail state : string)
    (caps : gset ExecutionCapability) : BackendHealth :=
  {| bh_healthy := healthy; bh_backend_id := backend_id; bh_detail := detail;
     bh_capabilities := caps; bh_state := state |}.

Section backends.
Context {W : Type} `{PyLib}.
Local Abbreviation St := (RouterState W).
Context (OS : OperatingSystem St).
Context (runner : W → RunnerState) (set_runner : RunnerState → W → W).
Context (joymesh : W → JoyMeshState) (set_joymesh : JoyMeshState → W → W).

Definition on_world (f : W → W) (s : St) : St :=
  {| st_ticks := st_ticks s; st_cancel := st_cancel s; st_world := f (st_world s) |}.
Definition uuid4 : M St string := n ← tick; mret (uuid_str n).
Definition uuid4_hex : M St string := n ← tick; mret (uuid_hex n).

(** The adapters share one runner. *)
Local Abbreviation Adapter := (HarnessAdapter St).
Definition run_adapter (a : Adapter) (prompt : string) (context : dict) : M St dict :=
  adapter_run OS (λ s, runner (st_world s)) (λ r, on_world (set_runner r)) uuid4 a prompt context.
Definition cancel_adapter (a : Adapter) (execution_id : string) : M St dict :=
  adapter_cancel OS (λ s, runner (st_world s)) (λ r, on_world (set_runner r)) a execution_id.

(** [self._harnesses.get(h) or HarnessAdapter(...)]. *)
Definition adapter_for (harnesses : list (string * Adapter)) (harness_id : string) : Adapter :=
  default (bare_adapter harness_id harness_id) (dict_get harness_id harnesses).
(* @src runtime_v1/execution_routing/backends/local.py:164-168 LocalBackend.cancel *)
Definition cancel_adapters (harnesses : list (string * Adapter)) (execution_id : string) :
    M St unit :=
  for_each (dict_values harnesses) (λ a, cancel_adapter a execution_id;; mret tt).

(** ** The local backend *)

(* @src runtime_v1/execution_routing/backends/local.py:30-44 LocalBackend.__init__ *)
Record LocalBackend := {
  lb_harnesses : list (string * Adapter);
  lb_healthy : bool;
  lb_supported : gset string
}.
(* @src runtime_v1/execution_routing/backends/local.py:30-44 LocalBackend.__init__ *)
Definition LocalBackend_init (harnesses : list (string * Adapter)) (healthy : bool)
    (supported_harnesses : option (gset string)) : LocalBackend :=
  {| lb_harnesses := harnesses; lb_healthy := healthy;
     lb_supported := match supported_harnesses, harnesses with
                     | Some s, _ => s
                     | None, _ :: _ => list_to_set (dict_keys harnesses)
                     | None, [] => KNOWN_HARNESSES
                     end |}.

(* @src runtime_v1/execution_routing/backends/local.py:46-56 LocalBackend.capabilities *)
Definition local_capabilities : gset ExecutionCapability :=
  {[ FILESYSTEM; LOCAL_PROCESS; STREAMING; SANDBOX; PERSISTENT_WORKSPACE; EPHEMERAL_WORKSPACE ]}.

(* @src runtime_v1/execution_routing/backends/local.py:58-70 LocalBackend.supports *)
Definition local_supports (b : LocalBackend) (intent : ExecutionIntent) (harness_id : string) :
    bool :=
  let required := it_required_capabilities intent in
  if it_requires_provider_route intent then false
  else if PROVIDER_ROUTING in? required then false
  else if REMOTE_WORKER in? required then false
  else if it_locality_preference intent == "remote" then false
  else if negb (harness_id in? lb_supported b) && negb (dict_has harness_id (lb_harnesses b))
  then false
  else required ∖ local_capabilities == ∅.

(* @src runtime_v1/execution_routing/backends/local.py:72-79 LocalBackend.health *)
Definition local_health (b : LocalBackend) : BackendHealth :=
  health_of (lb_healthy b) "local"
    (if lb_healthy b then "local backend ready" else "local backend unavailable")
    (if lb_healthy b then "healthy" else "unhealthy") local_capabilities.

(* @src runtime_v1/execution_routing/backends/local.py:88-97 LocalBackend.validate *)
Definition local_validate (b : LocalBackend) (intent : ExecutionIntent)
    (decision : ExecutionDecision) : M St unit :=
  if negb (local_supports b intent (ed_selected_harness_id decision)) then
    raise (RuntimeError "local backend does not support this intent/harness")
  else if negb (bh_healthy (local_health b)) then raise (RuntimeError (bh_detail (local_health b)))
  else mret tt.

(** The context of a local run; it is read-only under the read-only profiles. *)
(* @src runtime_v1/execution_routing/backends/local.py:112-128 LocalBackend.execute *)
Definition local_context (intent : ExecutionIntent) : dict :=
  let policy_profile := py_str (py_or (dget "policy_profile" (it_organisation_policy intent))
                                  (PStr "read_only")) in
  [("execution_id", PStr (it_execution_id intent));
   ("workspace_path", PStr (it_workspace_path intent)); ("backend_id", PStr "local");
   ("provider_routing", PBool false); ("timeout_seconds", PInt (it_timeout_seconds intent));
   ("read_only", PBool (policy_profile in? ["read_only"; "production_restricted"]));
   ("policy_profile", PStr policy_profile)].

(* @src runtime_v1/execution_routing/backends/local.py:131-148 LocalBackend.execute *)
Definition local_refused (intent : ExecutionIntent) (decision : ExecutionDecision) (e : exn) :
    ExecutionResult :=
  let failure := if startswith "workspace" (exn_code e) then WORKSPACE_VIOLATION
                 else PREPARATION_FAILURE in
  backend_result false intent "local" decision (exn_msg e) [("reason_code", PStr (exn_code e))]
    (Some (ExecutionFailureClass_value failure)) [].

(* @src runtime_v1/execution_routing/backends/local.py:149-162 LocalBackend.execute *)
Definition local_answer (intent : ExecutionIntent) (decision : ExecutionDecision) (output : dict) :
    ExecutionResult :=
  backend_result (ok_of output) intent "local" decision
    (py_str (py_or (dget "message" output) (PStr "local execution completed"))) output
    (if ok_of output then None
     else Some (py_str (py_or (dget "failure_class" output)
                  (PStr (ExecutionFailureClass_value PROCESS_FAILURE))))) [].

(* @src runtime_v1/execution_routing/backends/local.py:99-162 LocalBackend.execute *)
Definition local_execute (b : LocalBackend) (intent : ExecutionIntent)
    (decision : ExecutionDecision) (prepared : option dict) : M St ExecutionResult :=
  local_validate b intent decision;;
  let adapter := adapter_for (lb_harnesses b) (ed_selected_harness_id decision) in
  catch
    (output ← run_adapter adapter (it_prompt intent) (local_context intent);
     mret (local_answer intent decision output))
    (λ e, if is_ProcessRunnerError e then mret (local_refused intent decision e) else raise e).

(* @src runtime_v1/execution_routing/backends/local.py:81-86 LocalBackend.prepare *)
Definition local_backend (b : LocalBackend) : ExecutionBackend W := {|
  be_backend_id := "local";
  be_capabilities := local_capabilities;
  be_supports := local_supports b;
  be_health := mret (local_health b);
  be_prepare _ decision :=
    mret [("mode", PStr "local"); ("harness_id", PStr (ed_selected_harness_id decision))];
  be_validate := local_validate b;
  be_execute := local_execute b;
  be_cancel eid := cancel_adapters (lb_harnesses b) eid;; mret PNone;
  be_cleanup := cancel_adapters (lb_harnesses b)
|}.

(** ** The FireConnect backend *)

(** What the backend asks the provider-route service for: the discovery of a manager
    (installed, usable, reason), and a lifecycle around an execution. *)
(* @src runtime_v1/provider_routes/service.py:95-124 ProviderRouteService.run_temporary *)
Record ProviderRoutes := {
  pv_discover : string → M St (bool * bool * option string);
  pv_run_temporary : string → string → M St pyval → option string → option string →
    M St ProviderRouteLifecycleResult
}.

(* @src runtime_v1/execution_routing/backends/fireconnect.py:29-48 FireConnectBackend.__init__ *)
Record FireConnectBackend := {
  fb_provider_routes : ProviderRoutes;
  fb_harnesses : list (string * Adapter);
  fb_healthy : bool;
  fb_manager_id : string;
  fb_supported : gset string;
  fb_health_probe : option (M St BackendHealth);
  fb_skip_live_probe : bool
}.

(* @src runtime_v1/execution_routing/backends/fireconnect.py:50-62 FireConnectBackend.capabilities *)
Definition fireconnect_capabilities : gset ExecutionCapability :=
  {[ INTERNET; FILESYSTEM; PROVIDER_ROUTING; STREAMING; SANDBOX; LOCAL_PROCESS;
     PERSISTENT_WORKSPACE; EPHEMERAL_WORKSPACE ]}.

(* @src runtime_v1/execution_routing/backends/fireconnect.py:64-68 FireConnectBackend.supports *)
Definition fireconnect_supports (b : FireConnectBackend) (intent : ExecutionIntent)
    (harness_id : string) : bool :=
  if negb (harness_id in? fb_supported b) then false
  else it_required_capabilities intent ∖ fireconnect_capabilities == ∅.

(* @src runtime_v1/execution_routing/backends/fireconnect.py:70-113 FireConnectBackend.health *)
Definition fireconnect_health (b : FireConnectBackend) : M St BackendHealth :=
  let answer healthy detail state := health_of healthy "fireconnect" detail state
    fireconnect_capabilities in
  if negb (fb_healthy b) then
    mret (answer false "fireconnect backend marked unavailable" "unhealthy")
  else match fb_health_probe b with
  | Some probe => probe
  | None =>
      if fb_skip_live_probe b then
        mret (answer true "fireconnect health assumed (no live probe)" "unknown")
      else
        catch
          ('(installed, usable, reason) ← pv_discover (fb_provider_routes b) (fb_manager_id b);
           let healthy := installed && usable in
           mret (answer healthy
             (if healthy then "fireconnect provider-route manager usable"
              else "fireconnect unavailable: " +:+ or_text reason "not usable")
             (if healthy then "healthy" else "unhealthy")))
          (λ e, if is_Exception e then
                  mret (answer false ("fireconnect health probe failed: " +:+ exn_class e)
                          "unhealthy")
                else raise e)
  end.

(* @src runtime_v1/execution_routing/backends/fireconnect.py:127-136 FireConnectBackend.validate *)
Definition fireconnect_validate (b : FireConnectBackend) (intent : ExecutionIntent)
    (decision : ExecutionDecision) : M St unit :=
  if negb (fireconnect_supports b intent (ed_selected_harness_id decision)) then
    raise (RuntimeError "fireconnect backend does not support this intent/harness")
  else
    health ← fireconnect_health b;
    if bh_healthy health then mret tt else raise (RuntimeError (bh_detail health)).

(* @src runtime_v1/execution_routing/backends/fireconnect.py:152-164 FireConnectBackend.execute *)
Definition fireconnect_context (intent : ExecutionIntent) (decision : ExecutionDecision) : dict :=
  [("execution_id", PStr (it_execution_id intent));
   ("workspace_path", PStr (it_workspace_path intent)); ("backend_id", PStr "fireconnect");
   ("provider_routing", PBool (ed_provider_routing_required decision));
   ("model", ostr (it_preferred_model intent));
   ("timeout_seconds", PInt (it_timeout_seconds intent)); ("read_only", PBool true)].

(** The result of an execution inside a route lifecycle. *)
(* @src runtime_v1/execution_routing/backends/fireconnect.py:174-224 FireConnectBackend.execute *)
Definition lifecycle_answer (intent : ExecutionIntent) (decision : ExecutionDecision)
    (l : ProviderRouteLifecycleResult) : ExecutionResult :=
  let output := match lr_execution_result l with
                | PDict d => d
                | raw => [("ok", PBool (lr_ok l)); ("message", PStr (lr_message l));
                          ("restored", PBool (lr_restoration_verified l)); ("result", raw)]
                end in
  let answer ok message failure :=
    backend_result ok intent "fireconnect" decision message output failure [] in
  if negb (lr_restoration_verified l) then
    answer false (if lr_message l == "" then "provider route restoration failed" else lr_message l)
      (Some (ExecutionFailureClass_value PROVIDER_RESTORE_FAILURE))
  else if lr_reason_code l == Some "connector_blocked" then
    answer false (if lr_message l == "" then "connector blocked" else lr_message l)
      (Some (ExecutionFailureClass_value CONNECTOR_BLOCKED))
  else
    let ok := lr_ok l && ok_of output in
    answer ok (lr_message l)
      (if ok then None else Some (ExecutionFailureClass_value PROCESS_FAILURE)).

(* @src runtime_v1/execution_routing/backends/fireconnect.py:138-237 FireConnectBackend.execute *)
Definition fireconnect_execute (b : FireConnectBackend) (intent : ExecutionIntent)
    (decision : ExecutionDecision) (prepared : option dict) : M St ExecutionResult :=
  fireconnect_validate b intent decision;;
  let adapter := adapter_for (fb_harnesses b) (ed_selected_harness_id decision) in
  let run_harness := run_adapter adapter (it_prompt intent) (fireconnect_context intent decision) in
  if ed_provider_routing_required decision || it_requires_provider_route intent then
    lifecycle ← pv_run_temporary (fb_provider_routes b) (fb_manager_id b)
      (ed_selected_harness_id decision) (d ← run_harness; mret (PDict d))
      (it_preferred_model intent) (Some (it_execution_id intent));
    mret (lifecycle_answer intent decision lifecycle)
  else
    output ← run_harness;
    mret (backend_result (ok_of output) intent "fireconnect" decision
      (py_str (py_or (dget "message" output) (PStr "fireconnect execution completed"))) output
      None []).

(* @src runtime_v1/execution_routing/backends/fireconnect.py:115-125 FireConnectBackend.prepare *)
Definition fireconnect_backend (b : FireConnectBackend) : ExecutionBackend W := {|
  be_backend_id := "fireconnect";
  be_capabilities := fireconnect_capabilities;
  be_supports := fireconnect_supports b;
  be_health := fireconnect_health b;
  be_prepare _ decision :=
    mret [("mode", PStr "fireconnect"); ("harness_id", PStr (ed_selected_harness_id decision));
          ("provider_routing_required", PBool (ed_provider_routing_required decision));
          ("manager_id", PStr (fb_manager_id b))];
  be_validate := fireconnect_validate b;
  be_execute := fireconnect_execute b;
  be_cancel eid := cancel_adapters (fb_harnesses b) eid;; mret PNone;
  be_cleanup := cancel_adapters (fb_harnesses b)
|}.

(** ** The JoyMesh backend *)

(** [submit_fn] is [RuntimeService._submit_remote_execution] where there is a runtime service. *)
(* @src runtime_v1/execution_routing/backends/joymesh.py:28-40 JoyMeshBackend.__init__ *)
Record JoyMeshBackend := {
  jb_healthy : bool;
  jb_submit_fn : option (ExecutionIntent → ExecutionDecision → M St dict)
}.

(* @src runtime_v1/execution_routing/backends/joymesh.py:42-53 JoyMeshBackend.capabilities *)
Definition joymesh_capabilities : gset ExecutionCapability :=
  {[ REMOTE_WORKER; STREAMING; EC_LONG_RUNNING; INTERNET; EPHEMERAL_WORKSPACE; FILESYSTEM;
     PERSISTENT_WORKSPACE ]}.

(* @src runtime_v1/execution_routing/backends/joymesh.py:55-62 JoyMeshBackend.supports *)
Definition joymesh_supports (intent : ExecutionIntent) (harness_id : string) : bool :=
  if it_requires_provider_route intent then false
  else if it_locality_preference intent == "local" then false
  else it_required_capabilities intent ∖ joymesh_capabilities == ∅.

(* @src runtime_v1/execution_routing/backends/joymesh.py:64-71 JoyMeshBackend.health *)
Definition joymesh_health (b : JoyMeshBackend) : BackendHealth :=
  health_of (jb_healthy b) "joymesh"
    (if jb_healthy b then "joymesh workers reachable" else "joymesh workers unavailable")
    (if jb_healthy b then "healthy" else "unhealthy") joymesh_capabilities.

Definition update_joymesh (f : JoyMeshState → JoyMeshState) : M St unit :=
  modify_state (on_world (λ w, set_joymesh (f (joymesh w)) w)).
Definition joymesh_state : M St JoyMeshState := s ← get_state (S := St); mret (joymesh (st_world s)).
Definition save_submission (execution_id : string) (row : dict) : M St unit :=
  update_joymesh (on_submissions (dict_set execution_id row)).

(* @src runtime_v1/execution_routing/backends/joymesh.py:243-246 JoyMeshBackend._append_event *)
Definition _append_event (execution_id event_type : string) (payload : dict) : M St unit :=
  update_joymesh (on_events (λ ev, dict_set execution_id
    (default [] (dict_get execution_id ev) ++
     [[("event_type", PStr event_type); ("payload", PDict payload)]]) ev)).

(* @src runtime_v1/execution_routing/backends/joymesh.py:80-89 JoyMeshBackend.validate *)
Definition joymesh_validate (b : JoyMeshBackend) (intent : ExecutionIntent)
    (decision : ExecutionDecision) : M St unit :=
  if negb (joymesh_supports intent (ed_selected_harness_id decision)) then
    raise (RuntimeError "joymesh backend does not support this intent")
  else if negb (bh_healthy (joymesh_health b)) then
    raise (RuntimeError (bh_detail (joymesh_health b)))
  else mret tt.

(* @src runtime_v1/execution_routing/backends/joymesh.py:91-109 JoyMeshBackend.submit *)
Definition submit (b : JoyMeshBackend) (intent : ExecutionIntent) (decision : ExecutionDecision) :
    M St dict :=
  let eid := it_execution_id intent in
  match jb_submit_fn b with
  | Some submit_fn =>
      payload ← submit_fn intent decision;
      save_submission eid payload;;
      mret payload
  | None =>
      lease ← uuid4_hex;
      attempt ← uuid4_hex;
      let payload :=
        [("execution_id", PStr eid); ("mission_id", PStr (it_mission_id intent));
         ("harness_id", PStr (ed_selected_harness_id decision)); ("status", PStr "submitted");
         ("lease_id", PStr ("lease_" +:+ str_take 12 lease));
         ("attempt_id", PStr ("execution_attempt_" +:+ attempt))] in
      save_submission eid payload;;
      mret payload
  end.

(** The row of a submission; without one the operation raises. *)
Definition submission_of (execution_id : string) : M St dict :=
  j ← joymesh_state;
  match dict_get execution_id (jm_submissions j) with
  | Some row => mret row
  | None => raise (KeyError (repr_str ("unknown execution " +:+ execution_id)))
  end.

(* @src runtime_v1/execution_routing/backends/joymesh.py:111-118 JoyMeshBackend.claim *)
Definition claim (execution_id worker_id : string) : M St dict :=
  row ← submission_of execution_id;
  let row := dict_set "worker_id" (PStr worker_id) (dict_set "status" (PStr "claimed") row) in
  save_submission execution_id row;;
  _append_event execution_id "execution.started" [("worker_id", PStr worker_id)];;
  mret row.

(* @src runtime_v1/execution_routing/backends/joymesh.py:120-126 JoyMeshBackend.renew_lease *)
Definition renew_lease (execution_id : string) : M St dict :=
  row ← submission_of execution_id;
  let row := dict_set "lease_renewed" (PBool true) row in
  save_submission execution_id row;;
  mret row.

(* @src runtime_v1/execution_routing/backends/joymesh.py:128-134 JoyMeshBackend.stream_output *)
Definition stream_output (execution_id : string) : M St dict :=
  j ← joymesh_state;
  let row := match dict_get execution_id (jm_submissions j) with
             | Some ((_ :: _) as row) => row
             | _ => [("execution_id", PStr execution_id)]
             end in
  mret [("execution_id", PStr execution_id);
        ("chunks", PList (PDict <$> default [] (dict_get execution_id (jm_events j))));
        ("status", dget "status" row)].

(* @src runtime_v1/execution_routing/backends/joymesh.py:136-138 JoyMeshBackend.verify_completion *)
Definition verify_completion (execution_id : string) : M St bool :=
  j ← joymesh_state;
  mret match dict_get execution_id (jm_submissions j) with
       | Some ((_ :: _) as row) =>
           existsb (py_eqb (dget "status" row))
             (PStr <$> ["completed"; "claimed"; "submitted"; "verified"])
       | _ => false
       end.

(** The answer when a remote node has the execution, or it waits for one. *)
(* @src runtime_v1/execution_routing/backends/joymesh.py:149-175 JoyMeshBackend.execute *)
Definition submitted_answer (intent : ExecutionIntent) (decision : ExecutionDecision)
    (submission : dict) : ExecutionResult :=
  let status := py_str (py_or (dget "status" submission) (PStr "leased")) in
  let ok := status in? ["leased"; "submitted"; "claimed"; "completed"; "verified"] in
  backend_result ok intent "joymesh" decision
    (py_str (py_or (dget "message" submission) (PStr "joymesh remote execution leased")))
    [("submission", PDict submission); ("remote", PBool true);
     ("completion_verified", PBool false); ("awaiting_node_events", PBool ok)]
    (if ok then None else Some "backend_unavailable") [].

(* @src runtime_v1/execution_routing/backends/joymesh.py:140-198 JoyMeshBackend.execute *)
Definition joymesh_execute (b : JoyMeshBackend) (intent : ExecutionIntent)
    (decision : ExecutionDecision) (prepared : option dict) : M St ExecutionResult :=
  let eid := it_execution_id intent in
  joymesh_validate b intent decision;;
  submission ← match prepared with
               | Some ((_ :: _) as p) => mret p
               | _ => submit b intent decision
               end;
  match jb_submit_fn b with
  | Some _ => mret (submitted_answer intent decision submission)
  | None =>
      claimed ← claim eid "foundation-worker";
      save_submission eid
        (dict_set "message" (PStr "joymesh foundation execution recorded")
          (dict_set "status" (PStr "completed") claimed));;
      _append_event eid "execution.completed" [];;
      verified ← verify_completion eid;
      mret (backend_result true intent "joymesh" decision "joymesh foundation execution completed"
        [("submission", PDict submission); ("claim", PDict claimed);
         ("completion_verified", PBool verified)]
        None [("completed", PBool true); ("mode", PStr "foundation")])
  end.

(* @src runtime_v1/execution_routing/backends/joymesh.py:200-206 JoyMeshBackend.cancel *)
Definition joymesh_cancel (execution_id : string) : M St unit :=
  j ← joymesh_state;
  match dict_get execution_id (jm_submissions j) with
  | Some row =>
      save_submission execution_id (dict_set "status" (PStr "cancelled") row);;
      _append_event execution_id "backend.cancelled" []
  | None => mret tt
  end.

(* @src runtime_v1/execution_routing/backends/joymesh.py:208-210 JoyMeshBackend.cleanup *)
Definition joymesh_cleanup (execution_id : string) : M St unit :=
  update_joymesh (on_submissions (dict_del execution_id));;
  update_joymesh (on_events (dict_del execution_id)).

(** The sequence number an event carries in its payload. *)
Definition event_payload (event : dict) : dict :=
  match dget "payload" event with PDict d => d | _ => [] end.
Definition is_int (v : pyval) : bool := match v with PInt _ | PBool _ => true | _ => false end.
Definition is_digits (s : string) : bool :=
  (s != "") && forallb ascii_digit (String.list_ascii_of_string s).
Definition sequences_of (existing : list dict) : res (list Z) :=
  traverse (λ event, py_int (py_or (dget "sequence" (event_payload event)) (PInt 0)))
    (List.filter (λ event,
       let sequence := dget "sequence" (event_payload event) in
       is_int sequence || is_digits (py_str (py_or sequence (PStr "")))) existing).

(** The same type, sequence and event id, as texts. *)
(* @src runtime_v1/execution_routing/backends/joymesh.py:216-223 JoyMeshBackend.ingest_event *)
Definition same_event (event_type : string) (payload event : dict) : bool :=
  let text k d := py_str (dget k d) in
  py_eqb (dget "event_type" event) (PStr event_type) &&
  (text "sequence" (event_payload event) == text "sequence" payload) &&
  (text "event_id" (event_payload event) == text "event_id" payload).

(** An event older than the newest one raises if its sequence is an integer; the error for a
    sequence that is only readable as one is caught. *)
(* @src runtime_v1/execution_routing/backends/joymesh.py:224-237 JoyMeshBackend.ingest_event *)
Definition check_order (existing : list dict) (payload : dict) : res unit :=
  res_bind (sequences_of existing) (λ sequences,
  match dget "sequence" payload, sequences with
  | PNone, _ => Ok tt
  | _, [] => Ok tt
  | incoming, first :: rest =>
      let newest := foldr Z.max first rest in
      match py_int incoming with
      | Ok n =>
          if (n <? newest)%Z && is_int incoming then Raise (ValueError "out-of-order remote event")
          else Ok tt
      | Raise e => if exn_class e in? ["TypeError"; "ValueError"] then Ok tt else Raise e
      end
  end).

(* @src runtime_v1/execution_routing/backends/joymesh.py:212-241 JoyMeshBackend.ingest_event *)
Definition ingest_event (execution_id event_type : string) (payload : dict) : M St unit :=
  update_joymesh (on_events (dict_setdefault execution_id []));;
  j ← joymesh_state;
  let existing := default [] (dict_get execution_id (jm_events j)) in
  if existsb (same_event event_type payload) existing then mret tt
  else
    lift_res (check_order existing payload);;
    _append_event execution_id event_type payload;;
    if event_type in? ["execution.completed"; "task.succeeded"] then
      let row := default [("execution_id", PStr execution_id)]
                   (dict_get execution_id (jm_submissions j)) in
      save_submission execution_id (dict_set "status" (PStr "completed") row)
    else mret tt.

(* @src runtime_v1/execution_routing/backends/joymesh.py:73-78 JoyMeshBackend.prepare *)
Definition joymesh_backend (b : JoyMeshBackend) : ExecutionBackend W := {|
  be_backend_id := "joymesh";
  be_capabilities := joymesh_capabilities;
  be_supports := joymesh_supports;
  be_health := mret (joymesh_health b);
  be_prepare := submit b;
  be_validate := joymesh_validate b;
  be_execute := joymesh_execute b;
  be_cancel eid := joymesh_cancel eid;; mret PNone;
  be_cleanup := joymesh_cleanup
|}.

(** ** The hosted stub, and the default registry *)

(* @src runtime_v1/execution_routing/backends/joymesh.py:262-270 HostedBackend.capabilities *)
Definition hosted_capabilities : gset ExecutionCapability :=
  {[ INTERNET; STREAMING; EC_LONG_RUNNING; SANDBOX ]}.

(* @src runtime_v1/execution_routing/backends/joymesh.py:249-327 HostedBackend *)
Definition hosted_backend (enabled : bool) : ExecutionBackend W := {|
  be_backend_id := "hosted";
  be_capabilities := hosted_capabilities;
  be_supports _ _ := false;
  be_health :=
    let state := if enabled then "unsupported" else "disabled" in
    mret (health_of false "hosted" ("hosted backend " +:+ state) state hosted_capabilities);
  be_prepare _ _ := raise (RuntimeError "hosted backend stub cannot prepare execution");
  be_validate _ _ := raise (RuntimeError "hosted backend stub cannot validate execution");
  be_execute intent decision _ :=
    mret (backend_result false intent "hosted" decision "hosted backend stub is disabled"
      [("mode", PStr "hosted"); ("stub", PBool true)] (Some "backend_unavailable") []);
  be_cancel _ := mret PNone;
  be_cleanup _ := mret tt
|}.

(** The backends of a registry built without any: the adapters, and with them the runner,
    are shared by the local and the FireConnect backend. *)
(* @src runtime_v1/execution_routing/registry.py:33-48 BackendRegistry.__init__ *)
Definition default_backends (harnesses : list (string * Adapter)) (routes : ProviderRoutes)
    (submit_fn : option (ExecutionIntent → ExecutionDecision → M St dict)) :
    list (string * ExecutionBackend W) :=
  [("local", local_backend (LocalBackend_init harnesses true None));
   ("fireconnect", fireconnect_backend
      {| fb_provider_routes := routes; fb_harnesses := harnesses; fb_healthy := true;
         fb_manager_id := "fireconnect";
         fb_supported := {[ "codex"; "claude"; "opencode"; "cursor" ]};
         fb_health_probe := None; fb_skip_live_probe := true |});
   ("joymesh", joymesh_backend {| jb_healthy := true; jb_submit_fn := submit_fn |});
   ("hosted", hosted_backend false)].
End backends.
