(* ===== verification/BackendsProofs.v ===== *)
(** * The execution backends: proofs

    What the router and its backends leave alone, for any preorder on the state that the
    operating system and the connectors keep to; what a success of the FireConnect backend
    stands for; and the order in which the JoyMesh backend takes remote events. *)

From Stdlib Require Import SpecFloat.
From S2P Require Import Prelude CompletionModels TaskAnalysis RouteLeases LeaseInterface.
From S2P Require Import Coordinator CapabilityRouting Execution Router RouterProofs Processes.
From S2P Require Import Harness Backends.

(** ** The router stays within what its backends stay within *)

Record backend_within {W} (R : RouterState W → RouterState W → Prop) (b : ExecutionBackend W) :
    Prop := {
  bw_health : within R (be_health b);
  bw_prepare i d : within R (be_prepare b i d);
  bw_validate i d : within R (be_validate b i d);
  bw_execute i d p : within R (be_execute b i d p);
  bw_cancel eid : within R (be_cancel b eid);
  bw_cleanup eid : within R (be_cleanup b eid)
}.
#[export] Hint Resolve bw_health bw_prepare bw_validate bw_execute bw_cancel bw_cleanup : within.

Section router_within.
Context {W : Type} `{PyLib} (Rt : ExecutionRouter W).
Context (R : RouterState W → RouterState W → Prop) `{!PreOrder R}.
Context (within_tick : within R tick) (within_on_cancel : ∀ f, within R (on_cancel f)).
Context (within_backends : Forall (backend_within R) (rg_backends (rt_registry Rt)).*2).

(** The locals of a run are not part of the state [R] speaks of. *)
Definition on_first (r r' : RouterState W * Locals) : Prop := R r.1 r'.1.
#[local] Instance on_first_preorder : PreOrder on_first.
Proof.
  split; [by intros [s l]; unfold on_first|].
  intros r1 r2 r3 H1 H2. unfold on_first in *. by etrans.
Qed.

Lemma within_await {A} (m : M (RouterState W) A) : within R m → within on_first (await m).
Proof. intros Hm [s l]. unfold await. specialize (Hm s). simpl. destruct (m s). exact Hm. Qed.

Lemma within_locally f : within on_first (locally f).
Proof. intros r. unfold on_first. simpl. reflexivity. Qed.

Lemma within_locals : within on_first locals.
Proof. intros r. unfold on_first. simpl. reflexivity. Qed.

Lemma within_shared : within on_first shared.
Proof. intros r. unfold on_first. simpl. reflexivity. Qed.

Lemma get_backend_within b backend :
  get_backend (rt_registry Rt) b = Ok backend → backend_within R backend.
Proof.
  unfold get_backend. destruct (dict_get b _) as [x|] eqn:E; [|done]. intros [= <-].
  rewrite Forall_forall in within_backends. apply within_backends.
  apply dict_get_Some_elem in E. apply list_elem_of_fmap. by exists (b, x).
Qed.

#[local] Hint Resolve within_await within_locally within_locals within_shared : within.

Lemma within_audit ev eid b h why p : within on_first (audit ev eid b h why p).
Proof. unfold audit. within_steps. Qed.

Lemma within_record a st fc fr us ev : within on_first (record_attempt a st fc fr us ev).
Proof. unfold record_attempt. within_steps. Qed.

#[local] Hint Resolve within_audit within_record : within.

Lemma within_run_backend intent decision b backend attempt :
  backend_within R backend →
  within on_first (run_backend intent decision b backend attempt).
Proof. intros Hb. unfold run_backend. within_steps. Qed.

Lemma within_attempt_raised intent b attempt e :
  within on_first (attempt_raised (W := W) intent b attempt e).
Proof. unfold attempt_raised. within_steps. Qed.

Lemma within_with_cleanup {A} c (m : M (RouterState W * Locals) A) :
  within on_first c → within on_first m → within on_first (with_cleanup c m).
Proof.
  intros Hc Hm r. unfold with_cleanup. specialize (Hm r).
  destruct (m r) as [x r1]. specialize (Hc r1). destruct (c r1) as [[[]|e] r2]; [by etrans|].
  destruct (is_Exception e); by etrans.
Qed.

Lemma within_attempt_backend intent decision b :
  within on_first (attempt_backend Rt intent decision b).
Proof.
  assert (∀ backend, get_backend (rt_registry Rt) b = Ok backend → backend_within R backend)
    as Hget by (intros; by eapply get_backend_within).
  unfold attempt_backend. apply (within_bind _); [apply within_shared|intros s].
  destruct (is_cancelled _ _); [within_steps|]. destruct (_enforce_entitlements _ _ _); [|within_steps].
  assert (within on_first (admit_backend Rt intent decision b) ∧
    ∀ r backend attempt, (admit_backend Rt intent decision b r).1 = Ok (inr (backend, attempt)) →
      backend_within R backend) as [Hw Hb].
  { unfold admit_backend. destruct (get_backend (rt_registry Rt) b) as [backend|e] eqn:E.
    - split; [specialize (Hget backend eq_refl); within_steps|].
      intros r backend' attempt. unfold mbind, M_bind. simpl.
      destruct (await (be_health backend) _) as [[h|e] r']; [|done].
      destruct (_ || _).
      + destruct (may_fallback BACKEND_UNHEALTHY); simpl; discriminate.
      + destruct (negb _); simpl; [discriminate|]. intros [= -> _]. by apply Hget.
    - split; [within_steps|]. intros r backend attempt. simpl. discriminate. }
  intros r. unfold mbind, M_bind. specialize (Hw r). specialize (Hb r).
  destruct (admit_backend Rt intent decision b r) as [[[t|[backend attempt]]|e] r']; try exact Hw.
  specialize (Hb backend attempt eq_refl). etrans; [exact Hw|].
  apply within_with_cleanup; [by apply within_await, bw_cleanup|].
  apply (within_catch _); [by apply within_run_backend|intros; apply within_attempt_raised].
Qed.

Lemma within_fallback_loop intent decision order :
  within on_first (fallback_loop Rt intent decision order).
Proof.
  induction order as [|b order IH]; simpl; [apply (within_ret _)|].
  apply (within_bind _); [apply within_attempt_backend|intros t]. destruct t; [exact IH|..];
    apply (within_ret _).
Qed.

Lemma within_execute intent decision : within R (execute_with_fallback Rt intent decision).
Proof.
  unfold execute_with_fallback. apply (within_bind _); [within_steps|intros d].
  intros s. unfold with_locals.
  assert (within on_first (run_decision Rt intent d)) as Hr.
  { pose proof (within_fallback_loop intent d). unfold run_decision. within_steps. }
  specialize (Hr (s, no_locals)). destruct (run_decision Rt intent d (s, no_locals)). exact Hr.
Qed.

Lemma within_cancel_execution eid : within R (cancel Rt eid).
Proof.
  intros s. unfold cancel. destruct (cancel_locked eid (st_cancel s)) as [step c].
  specialize (within_on_cancel (λ _, c) s) as Hc. unfold on_cancel in Hc. simpl in Hc.
  destruct step as [|r|i fn]; [exact Hc|exact Hc|].
  assert (within R (run_cancel_fn Rt fn)) as Hf.
  { unfold run_cancel_fn. destruct fn as [[b e]|]; [|within_steps].
    destruct (dict_get b _) as [backend|] eqn:E; [|within_steps].
    assert (backend_within R backend).
    { apply (get_backend_within b). unfold get_backend. by rewrite E. }
    unfold _cancel_backend. within_steps. }
  match goal with |- R s (match run_cancel_fn Rt fn ?s1 with _ => _ end).2 => specialize (Hf s1) end.
  destruct (run_cancel_fn Rt fn _) as [[d|e] s2]; simpl in *; by etrans.
Qed.
End router_within.

(** ** The backends stay within what the system and the connectors stay within *)

Definition adapter_within {S} (R : S → S → Prop) (a : HarnessAdapter S) : Prop :=
  match a with
  | Plain a => ∀ fn p c, pa_execute_fn a = Some fn → within R (fn p c)
  | Connected a => ∀ c, within R (cr_discover (ca_connector a) c)
  end.

Section adapters_within.
Context {S : Type} (OS : OperatingSystem S) (R : S → S → Prop) `{!PreOrder R}.
Context (runner : S → RunnerState) (set_runner : RunnerState → S → S) `{PyLib}.
Context (uuid4 : M S string) (within_os : os_within R OS) (within_uuid4 : within R uuid4).
Context (within_set : ∀ f s, R s (set_runner (f (runner s)) s)).
#[local] Hint Resolve within_validate_cwd within_run within_cancel_run : within.

Lemma within_detect a : adapter_within R (Connected a) → within R (detect_connector a).
Proof. intros Ha. simpl in Ha. unfold detect_connector. within_steps. Qed.

Lemma within_workspace_of c : within R (workspace_of (S := S) c).
Proof. unfold workspace_of. within_steps. Qed.
#[local] Hint Resolve within_detect within_workspace_of : within.

Lemma within_validate_connector a c :
  adapter_within R (Connected a) → within R (validate_connector OS a c).
Proof. intros Ha. unfold validate_connector. within_steps. Qed.
#[local] Hint Resolve within_validate_connector : within.

Lemma within_prepare_connector a p c :
  adapter_within R (Connected a) → within R (prepare_connector OS a p c).
Proof. intros Ha. unfold prepare_connector. within_steps. Qed.

Lemma within_run_request a argv c : within R (run_request uuid4 a argv c).
Proof. unfold run_request. within_steps. Qed.
#[local] Hint Resolve within_prepare_connector within_run_request : within.

Lemma within_adapter_run a p c :
  adapter_within R a → within R (adapter_run OS runner set_runner uuid4 a p c).
Proof.
  intros Ha. destruct a as [a|a]; simpl.
  - unfold execute_plain, validate_plain. simpl in Ha.
    apply (within_bind _); [within_steps|intros _].
    destruct (pa_execute_fn a) as [fn|]; [by apply Ha|within_steps].
  - unfold execute_connector. within_steps.
Qed.

Lemma within_adapter_cancel a eid : within R (adapter_cancel OS runner set_runner a eid).
Proof. destruct a; simpl; within_steps. Qed.
End adapters_within.

Section backends_within.
Context {W : Type} `{PyLib}.
Local Abbreviation St := (RouterState W).
Context (OS : OperatingSystem St).
Context (runner : W → RunnerState) (set_runner : RunnerState → W → W).
Context (joymesh : W → JoyMeshState) (set_joymesh : JoyMeshState → W → W).
Context (R : St → St → Prop) `{!PreOrder R} (within_os : os_within R OS).
Context (within_tick : within R tick).
Context (within_runner : ∀ r s, R s (on_world (set_runner r) s)).
Context (within_joymesh : ∀ j s, R s (on_world (set_joymesh j) s)).

Lemma within_uuid4 : within R uuid4.
Proof. unfold uuid4. within_steps. Qed.
Lemma within_uuid4_hex : within R uuid4_hex.
Proof. unfold uuid4_hex. within_steps. Qed.

Lemma within_run_adapter a p c :
  adapter_within R a → within R (run_adapter OS runner set_runner a p c).
Proof.
  intros Ha. apply within_adapter_run; [typeclasses eauto|done|apply within_uuid4|auto|done].
Qed.

Lemma within_cancel_adapter a eid : within R (cancel_adapter OS runner set_runner a eid).
Proof. apply within_adapter_cancel; [typeclasses eauto|done|auto]. Qed.
#[local] Hint Resolve within_uuid4 within_uuid4_hex within_run_adapter within_cancel_adapter : within.

Lemma within_cancel_adapters hs eid : within R (cancel_adapters OS runner set_runner hs eid).
Proof. unfold cancel_adapters. within_steps. Qed.
#[local] Hint Resolve within_cancel_adapters : within.

Lemma within_adapter_for hs h :
  Forall (adapter_within R) hs.*2 → adapter_within R (adapter_for hs h).
Proof.
  intros Hs. unfold adapter_for. destruct (dict_get h hs) as [a|] eqn:E; [|by intros fn p c].
  rewrite Forall_forall in Hs. apply Hs. apply dict_get_Some_elem in E.
  apply list_elem_of_fmap. by exists (h, a).
Qed.

Lemma local_backend_within b :
  Forall (adapter_within R) (lb_harnesses b).*2 →
  backend_within R (local_backend OS runner set_runner b).
Proof.
  intros Hs. assert (∀ h, adapter_within R (adapter_for (lb_harnesses b) h))
    by (intros; by apply within_adapter_for).
  assert (∀ i d, within R (local_validate (W := W) b i d))
    by (intros; unfold local_validate; within_steps).
  split; intros; simpl; try unfold local_execute; within_steps.
Qed.

(** A provider-route service stays within [R] when the execution it wraps does. *)
Record routes_within (P : ProviderRoutes) : Prop := {
  rw_discover m : within R (pv_discover P m);
  rw_run m c e model owner : within R e → within R (pv_run_temporary P m c e model owner)
}.
#[local] Hint Resolve rw_discover rw_run : within.

Lemma fireconnect_backend_within b :
  Forall (adapter_within R) (fb_harnesses b).*2 → routes_within (fb_provider_routes b) →
  (∀ probe, fb_health_probe b = Some probe → within R probe) →
  backend_within R (fireconnect_backend OS runner set_runner b).
Proof.
  intros Hs Hr Hp. assert (∀ h, adapter_within R (adapter_for (fb_harnesses b) h))
    by (intros; by apply within_adapter_for).
  assert (within R (fireconnect_health b)).
  { unfold fireconnect_health. destruct (negb (fb_healthy b)); [within_steps|].
    destruct (fb_health_probe b) as [probe|]; [by apply Hp|]. within_steps. }
  assert (∀ i d, within R (fireconnect_validate b i d))
    by (intros; unfold fireconnect_validate; within_steps).
  split; intros; simpl; try unfold fireconnect_execute; within_steps.
  apply rw_run; [done|within_steps].
Qed.

Lemma within_update_joymesh f : within R (update_joymesh joymesh set_joymesh f).
Proof. intros s. apply within_joymesh. Qed.
#[local] Hint Resolve within_update_joymesh : within.

Lemma within_joymesh_state : within R (joymesh_state (W := W) joymesh).
Proof. unfold joymesh_state. within_steps. Qed.
Lemma within_save_submission e r : within R (save_submission joymesh set_joymesh e r).
Proof. apply within_update_joymesh. Qed.
Lemma within_append_event e ty p : within R (_append_event joymesh set_joymesh e ty p).
Proof. apply within_update_joymesh. Qed.
#[local] Hint Resolve within_joymesh_state within_save_submission within_append_event : within.

Lemma within_claim e w : within R (claim joymesh set_joymesh e w).
Proof. unfold claim, submission_of. within_steps. Qed.
Lemma within_verify_completion e : within R (verify_completion (W := W) joymesh e).
Proof. unfold verify_completion. within_steps. Qed.
Lemma within_joymesh_validate b i d : within R (joymesh_validate (W := W) b i d).
Proof. unfold joymesh_validate. within_steps. Qed.
#[local] Hint Resolve within_claim within_verify_completion within_joymesh_validate : within.

Lemma within_submit b i d :
  (∀ fn i d, jb_submit_fn b = Some fn → within R (fn i d)) →
  within R (submit joymesh set_joymesh b i d).
Proof.
  intros Hfn. unfold submit. destruct (jb_submit_fn b) as [fn|] eqn:E; [|within_steps].
  apply (within_bind _); [by eapply Hfn|intros payload]. within_steps.
Qed.

Lemma joymesh_backend_within b :
  (∀ fn i d, jb_submit_fn b = Some fn → within R (fn i d)) →
  backend_within R (joymesh_backend joymesh set_joymesh b).
Proof.
  intros Hfn. assert (∀ i d, within R (submit joymesh set_joymesh b i d)) as Hs
    by (intros; by apply within_submit).
  split; simpl.
  - within_steps.
  - exact Hs.
  - exact (within_joymesh_validate b).
  - intros i d p. unfold joymesh_execute. apply (within_bind _); [within_steps|intros _].
    apply (within_bind _); [destruct p as [[|]|]; within_steps|intros submission].
    destruct (jb_submit_fn b); within_steps.
  - intros eid. unfold joymesh_cancel. within_steps.
  - intros eid. unfold joymesh_cleanup. within_steps.
Qed.

Lemma hosted_backend_within enabled : backend_within R (hosted_backend (W := W) enabled).
Proof. split; intros; unfold hosted_backend; cbn [be_health be_prepare be_validate be_execute be_cancel be_cleanup]; within_steps. Qed.

Lemma default_backends_within harnesses routes submit_fn :
  Forall (adapter_within R) harnesses.*2 → routes_within routes →
  (∀ fn i d, submit_fn = Some fn → within R (fn i d)) →
  Forall (backend_within R)
    (default_backends OS runner set_runner joymesh set_joymesh harnesses routes submit_fn).*2.
Proof.
  intros Hs Hr Hf. unfold default_backends. cbn [fmap list_fmap snd].
  refine (Forall_cons_2 _ _ _ _ (Forall_cons_2 _ _ _ _ (Forall_cons_2 _ _ _ _
    (Forall_cons_2 _ _ _ _ (Forall_nil_2 _))))).
  - by apply local_backend_within.
  - by apply fireconnect_backend_within.
  - by apply joymesh_backend_within.
  - apply hosted_backend_within.
Qed.
End backends_within.

(** ** What the results stand for *)

Section results.
Context {W : Type} `{PyLib}.
Local Abbreviation St := (RouterState W).
Context (OS : OperatingSystem St).
Context (runner : W → RunnerState) (set_runner : RunnerState → W → W).

(** The work the FireConnect backend hands to the lifecycle: the adapter of the decision's
    harness, run on the prompt in the context of the execution. *)
Definition harness_work (b : FireConnectBackend) (intent : ExecutionIntent)
    (decision : ExecutionDecision) : M St dict :=
  run_adapter OS runner set_runner
    (adapter_for (fb_harnesses b) (ed_selected_harness_id decision)) (it_prompt intent)
    (fireconnect_context intent decision).

(** The report of the work, when it is one. *)
Definition reports_success (v : pyval) : Prop :=
  match v with PDict d => ok_of d = true | _ => True end.

(** C37: What a FireConnect result stands for. The backend validated the decision first. When
    the decision or the intent asks for a provider route, the harness of the decision ran as
    the work of the temporary-route lifecycle of that harness, nowhere else, and success is
    reported only when the lifecycle succeeded, was not blocked, saw its route restored, and
    the harness reported success; a route that was not seen restored is a failure that no
    other backend may be tried after. Otherwise the harness ran without a route and its report
    decides. *)
Theorem fireconnect_success_means_restored b intent decision prepared s r s' :
  fireconnect_execute OS runner set_runner b intent decision prepared s = (Ok r, s') →
  ∃ s1, fireconnect_validate b intent decision s = (Ok tt, s1) ∧
  if ed_provider_routing_required decision || it_requires_provider_route intent then
    ∃ l, pv_run_temporary (fb_provider_routes b) (fb_manager_id b)
        (ed_selected_harness_id decision) (d ← harness_work b intent decision; mret (PDict d))
        (it_preferred_model intent) (Some (it_execution_id intent)) s1 = (Ok l, s') ∧
      (xr_ok r = true ↔ lr_ok l = true ∧ lr_restoration_verified l = true ∧
         lr_reason_code l ≠ Some "connector_blocked" ∧
         reports_success (lr_execution_result l)) ∧
      (lr_restoration_verified l = false →
         may_fallback (_parse_failure (xr_failure_class r)) = false)
  else
    ∃ output, harness_work b intent decision s1 = (Ok output, s') ∧ xr_ok r = ok_of output ∧
      xr_output r = output.
Proof.
  unfold fireconnect_execute. unfold mbind, M_bind.
  destruct (fireconnect_validate b intent decision s) as [[[]|e] s1]; [|done]. simpl.
  intros Hr. exists s1. split; [done|]. destruct (_ || _).
  - destruct (pv_run_temporary _ _ _ _ _ _ s1) as [[l|e] s2] eqn:E; [|done].
    injection Hr as <- <-. exists l. split; [reflexivity|]. unfold lifecycle_answer.
    destruct (lr_restoration_verified l); simpl; [|split; [|done]; split; [done|by intros (_ & ? & _)]].
    case_bool_decide; simpl; (split; [|done]); [split; [done|by intros (_ & _ & ? & _)]|].
    rewrite andb_true_iff.
    destruct (lr_execution_result l); simpl; unfold ok_of; simpl; naive_solver.
  - unfold harness_work. destruct (run_adapter _ _ _ _ _ _ s1) as [[output|e] s2]; [|done].
    injection Hr as <- <-. by exists output.
Qed.

(** A workspace the local backend refuses is not offered to another backend. *)
Theorem local_workspace_refusal_is_final intent decision e :
  is_ProcessRunnerError e = true → startswith "workspace" (exn_code e) = true →
  may_fallback (_parse_failure (xr_failure_class (local_refused intent decision e))) = false.
Proof. intros _ Hw. unfold local_refused. by rewrite Hw. Qed.
End results.

(** ** Remote events of the JoyMesh backend *)

Section events.
Context {W : Type} `{PyLib}.
Local Abbreviation St := (RouterState W).
Context (joymesh : W → JoyMeshState) (set_joymesh : JoyMeshState → W → W).
Context (joymesh_set : ∀ j w, joymesh (set_joymesh j w) = j).
Context (set_joymesh_same : ∀ w, set_joymesh (joymesh w) w = w).

Definition events_of (execution_id : string) (s : St) : list dict :=
  default [] (dict_get execution_id (jm_events (joymesh (st_world s)))).
Local Abbreviation ingest := (ingest_event joymesh set_joymesh).

(** The events after an ingestion: one more at the end, or the same. *)
Lemma ingest_events eid ty payload s s' :
  ingest eid ty payload s = (Ok tt, s') →
  (events_of eid s' = events_of eid s ∧ existsb (same_event ty payload) (events_of eid s) = true) ∨
  (events_of eid s' = events_of eid s ++ [[("event_type", PStr ty); ("payload", PDict payload)]] ∧
   check_order (events_of eid s) payload = Ok tt).
Proof.
  unfold ingest_event, mbind, M_bind, update_joymesh, modify_state, joymesh_state, get_state. simpl.
  rewrite joymesh_set. simpl.
  set (ev := dict_setdefault eid [] (jm_events (joymesh (st_world s)))).
  assert (default [] (dict_get eid ev) = events_of eid s) as Hev.
  { subst ev. unfold events_of, dict_setdefault, dict_has.
    destruct (dict_get eid (jm_events (joymesh (st_world s)))) eqn:E; [by rewrite E|].
    by rewrite dict_get_set_eq. }
  rewrite Hev. destruct (existsb _ (events_of eid s)) eqn:Hs.
  { intros [= <-]. left. split; [|done]. unfold events_of at 1. simpl. by rewrite joymesh_set. }
  unfold lift_res. destruct (check_order _ payload) as [[]|e] eqn:Hc; [|done].
  intros Hrun. right. split; [|done].
  unfold _append_event, save_submission, update_joymesh, modify_state in Hrun. simpl in Hrun.
  destruct (bool_decide _); injection Hrun as <-; unfold events_of at 1; simpl;
    repeat (rewrite joymesh_set; simpl); fold ev; by rewrite dict_get_set_eq, Hev.
Qed.

(** The number an event counts with in the comparison. *)
Definition number (event : dict) (n : Z) : Prop :=
  let sequence := dget "sequence" (event_payload event) in
  (is_int sequence || is_digits (py_str (py_or sequence (PStr "")))) = true ∧
  py_int (py_or sequence (PInt 0)) = Ok n.
(** The integer an event carries. *)
Definition integer (event : dict) (n : Z) : Prop :=
  is_int (dget "sequence" (event_payload event)) = true ∧
  py_int (dget "sequence" (event_payload event)) = Ok n.

(** No event with an integer stands behind one with a greater number. *)
Definition in_order (l : list dict) : Prop :=
  ∀ i j e e' n n', i < j → l !! i = Some e → l !! j = Some e' →
    number e n → integer e' n' → (n ≤ n')%Z.

Lemma in_order_snoc l e :
  in_order l → (∀ e' n n', e' ∈ l → number e' n → integer e n' → (n ≤ n')%Z) →
  in_order (l ++ [e]).
Proof.
  intros Hl He i j x y n n' Hij Hi Hj Hx Hy.
  apply lookup_app_Some in Hj as [Hj|[Hlen Hj]].
  - assert (j < length l) by (by eapply lookup_lt_Some).
    rewrite lookup_app_l in Hi by lia. by eapply (Hl i j).
  - apply list_lookup_singleton_Some in Hj as [Hz <-].
    rewrite lookup_app_l in Hi by lia. eapply He; [by eapply list_elem_of_lookup_2|done|done].
Qed.

Lemma foldr_max_elem n first l : n ∈ first :: l → (n ≤ foldr Z.max first l)%Z.
Proof.
  induction l as [|m l IH]; simpl.
  - intros Hn. apply list_elem_of_singleton in Hn. lia.
  - intros [->|[->|Hn]%elem_of_cons]%elem_of_cons.
    + assert (first ≤ foldr Z.max first l)%Z by (apply IH; left). lia.
    + lia.
    + assert (n ≤ foldr Z.max first l)%Z by (apply IH; by right). lia.
Qed.

Lemma traverse_elem {A B} (f : A → res B) l l' x y :
  traverse f l = Ok l' → x ∈ l → f x = Ok y → y ∈ l'.
Proof.
  revert l'. induction l as [|a l IH]; intros l' Hl Hx Hy; [by apply not_elem_of_nil in Hx|].
  simpl in Hl. destruct (f a) as [b|] eqn:Ea; [|done]. simpl in Hl.
  destruct (traverse f l) as [ys|] eqn:El; [|done]. injection Hl as <-.
  apply elem_of_cons in Hx as [->|Hx]; [|right; by apply IH].
  rewrite Ea in Hy. injection Hy as ->. left.
Qed.

Lemma check_order_newest l ty payload e n n' :
  check_order l payload = Ok tt → e ∈ l → number e n →
  integer [("event_type", PStr ty); ("payload", PDict payload)] n' → (n ≤ n')%Z.
Proof.
  intros Hc He [Hnum Hn] [Hint Hn']. change (event_payload _) with payload in Hint, Hn'.
  unfold check_order in Hc. destruct (sequences_of l) as [ns|] eqn:Es; [|done]. simpl in Hc.
  assert (n ∈ ns) as Hin.
  { eapply (traverse_elem _ _ _ e); [exact Es| |exact Hn]. by apply elem_of_filter_bool. }
  destruct ns as [|first rest]; [by apply not_elem_of_nil in Hin|].
  apply foldr_max_elem in Hin.
  destruct (dget "sequence" payload) eqn:Eq; try discriminate Hint;
    simpl in Hc, Hn'; injection Hn' as <-; rewrite andb_true_r in Hc;
    destruct (_ <? _)%Z eqn:E in Hc; try discriminate Hc; apply Z.ltb_ge in E; lia.
Qed.

(** Remote events keep their order: an event that carries an integer never follows one with a
    greater number, and one that has been taken is not taken again. *)
Theorem remote_events_stay_in_order eid ty payload s s' :
  in_order (events_of eid s) → ingest eid ty payload s = (Ok tt, s') →
  in_order (events_of eid s') ∧
  (ingest eid ty payload s' = (Ok tt, s')).
Proof.
  intros Ho Hrun.
  assert (in_order (events_of eid s') ∧ existsb (same_event ty payload) (events_of eid s') = true)
    as [Ho' Hs].
  { apply ingest_events in Hrun as [[-> ?]|[-> Hc]]; [done|]. split.
    - apply in_order_snoc; [done|]. intros. by eapply check_order_newest.
    - rewrite existsb_app. apply orb_true_iff. right. simpl. rewrite orb_false_r.
      unfold same_event. simpl. by rewrite !bool_decide_eq_true_2. }
  split; [done|]. unfold ingest_event, mbind, M_bind, update_joymesh, modify_state, joymesh_state,
    get_state. simpl. rewrite joymesh_set. simpl.
  assert (dict_has eid (jm_events (joymesh (st_world s'))) = true) as Hh.
  { unfold dict_has. unfold events_of in Hs.
    destruct (dict_get eid (jm_events (joymesh (st_world s')))); [done|discriminate Hs]. }
  assert (on_world (λ w, set_joymesh (on_events (dict_setdefault eid []) (joymesh w)) w) s' = s')
    as Hsame.
  { unfold on_world, on_events, dict_setdefault. rewrite Hh.
    destruct s' as [t c w]. simpl. f_equal. etrans; [|apply (set_joymesh_same w)]. f_equal.
    by destruct (joymesh w). }
  rewrite Hsame. unfold dict_setdefault. rewrite Hh. unfold events_of in Hs. by rewrite Hs.
Qed.
End events.

(** ** Concrete runs *)

#[local] Existing Instance counting_lib.

(** A world with the runner, the JoyMesh rows and the number of discoveries made so far; a
    system in which every process ends well. *)
Record DemoWorld := { dw_runner : RunnerState; dw_joymesh : JoyMeshState; dw_probes : nat }.
Definition set_dw_runner (r : RunnerState) (w : DemoWorld) : DemoWorld :=
  {| dw_runner := r; dw_joymesh := dw_joymesh w; dw_probes := dw_probes w |}.
Definition set_dw_joymesh (j : JoyMeshState) (w : DemoWorld) : DemoWorld :=
  {| dw_runner := dw_runner w; dw_joymesh := j; dw_probes := dw_probes w |}.
Definition add_probe (w : DemoWorld) : DemoWorld :=
  {| dw_runner := dw_runner w; dw_joymesh := dw_joymesh w; dw_probes := S (dw_probes w) |}.
Definition demo_world : RouterState DemoWorld :=
  {| st_ticks := 0; st_cancel := CancellationRegistry_init;
     st_world := {| dw_runner := RunnerState_init; dw_joymesh := JoyMeshState_init;
                    dw_probes := 0 |} |}.

Definition good_system : OperatingSystem (RouterState DemoWorld) := {|
  os_environ _ := [("PATH", "/bin"); ("OPENAI_API_KEY", "k")]; os_getcwd _ := "/";
  os_resolve p := mret p; os_resolve_lax p := mret p; os_is_dir _ := mret true;
  os_which p := mret (Some ("/bin/" +:+ p)); os_spawn _ _ _ := mret 0; os_pid _ := 7%Z;
  os_returncode _ _ := Some 0%Z; os_communicate _ _ := mret ("done", "");
  os_read_stdout _ := mret ""; os_read_stderr _ := mret ""; os_readline _ _ := mret "";
  os_wait _ _ := mret tt; os_killpg _ _ := mret tt; os_send_signal _ _ := mret tt |}.

(** A connector that is not found usable the first time it is looked for. *)
Definition flaky_connector : ConnectorRuntime (RouterState DemoWorld) := {|
  cr_connector_id := "codex"; cr_display_name := "Codex"; cr_declared_capabilities := ∅;
  cr_discover _ :=
    s ← get_state (S := RouterState DemoWorld);
    modify_state (on_world add_probe);;
    mret {| dr_executable_path := Some "/bin/codex"; dr_version := Some "1";
            dr_fingerprint := None; dr_installed := true;
            dr_usable := negb (dw_probes (st_world s) == 0);
            dr_reason_code := Some "probe_failed"; dr_details := [] |};
  cr_execution_environment _ := [];
  cr_build_exec_argv executable prompt _ _ := [executable; "exec"; prompt];
  cr_parse_events _ := Ok [] |}.

(** A route service whose lifecycle runs the execution and restores the route. *)
Definition good_routes : ProviderRoutes (W := DemoWorld) := {|
  pv_discover _ := mret (true, true, None);
  pv_run_temporary _ _ execute _ _ :=
    result ← execute;
    mret {| lr_ok := true; lr_lease := None; lr_original_state := []; lr_restored := true;
            lr_restoration_verified := true; lr_execution_result := result;
            lr_reason_code := None; lr_message := "restored"; lr_audits := [] |} |}.

Definition demo_backends : list (string * ExecutionBackend DemoWorld) :=
  default_backends good_system dw_runner set_dw_runner dw_joymesh set_dw_joymesh
    (builtin_harness_adapters [] [("codex", flaky_connector)] [] true) good_routes None.
Definition backends_router : ExecutionRouter DemoWorld :=
  {| rt_registry := {| rg_config := default_BackendRegistryConfig; rg_backends := demo_backends;
                       rg_overrides := [] |};
     rt_available_harnesses := ["codex"]; rt_subscription_allows := []; rt_quota_allows := [];
     rt_profiles := builtin_capability_profiles; rt_available_connectors := None |}.

Local Abbreviation an_intent := (demo_intent "refactor the parser").
Definition a_decision (backend : string) (fallback : list string) (routed : bool) :
    ExecutionDecision :=
  {| ed_execution_id := "execution_0"; ed_selected_backend_id := backend;
     ed_selected_harness_id := "codex"; ed_reason := ""; ed_fallback_order := fallback;
     ed_provider_routing_required := routed; ed_retry_policy := []; ed_scores := [];
     ed_capability_match := []; ed_policy_result := []; ed_health_snapshot := [];
     ed_quota_snapshot := []; ed_registry_revision := "v1"; ed_decided_at := 0;
     ed_selected_connector_id := None; ed_selected_model_id := None; ed_route_score := None;
     ed_route_candidates := []; ed_task_analysis := [] |}.

(** The cleanup after a failed attempt marks the execution as cancelled in the runner that the
    local and the FireConnect backend share: the fallback runs the harness, which ends with
    exit code 0, and is reported as cancelled. *)
Example fallback_run_is_reported_cancelled :
  match (execute_with_fallback backends_router an_intent
           (Some (a_decision "local" ["fireconnect"] false)) demo_world).1 with
  | Ok r => xr_ok (rr_result r) = false ∧ rr_attempted_backends r = ["local"; "fireconnect"] ∧
      xr_message (rr_result r) = "all backends failed or unavailable: cancelled"
  | Raise _ => False
  end.
Proof. vm_compute. done. Qed.

(** Without the failed attempt the same execution succeeds; its mark stays behind. *)
Example cleanup_leaves_a_mark :
  let run := execute_with_fallback backends_router an_intent
    (Some (a_decision "fireconnect" [] true)) {| st_ticks := 0;
       st_cancel := CancellationRegistry_init; st_world := add_probe (st_world demo_world) |} in
  match run with
  | (Ok r, s) => xr_ok (rr_result r) = true ∧
      elements (rn_cancelled (dw_runner (st_world s))) = [it_execution_id an_intent]
  | _ => False
  end.
Proof. vm_compute. done. Qed.

Local Abbreviation demo_fireconnect := {| fb_provider_routes := good_routes;
  fb_harnesses := builtin_harness_adapters [] [("codex", flaky_connector)] [] true;
  fb_healthy := true; fb_manager_id := "fireconnect"; fb_supported := {[ "codex" ]};
  fb_health_probe := None; fb_skip_live_probe := true |}.

Lemma fireconnect_success_means_restored_witness :
  match fireconnect_execute good_system dw_runner set_dw_runner demo_fireconnect
      an_intent (a_decision "fireconnect" [] true) None
      {| st_ticks := 0; st_cancel := CancellationRegistry_init;
         st_world := add_probe (st_world demo_world) |} with
  | (Ok r, s') => xr_ok r = true ∧ ∃ l s1,
      pv_run_temporary good_routes "fireconnect" "codex"
        (d ← harness_work good_system dw_runner set_dw_runner demo_fireconnect an_intent
               (a_decision "fireconnect" [] true); mret (PDict d)) None
        (Some (it_execution_id an_intent)) s1 = (Ok l, s') ∧
      (lr_ok l = true ∧ lr_restoration_verified l = true)
  | _ => False
  end.
Proof.
  match goal with |- match ?m with _ => _ end => destruct m as [[r|e] s'] eqn:E end.
  - assert (xr_ok r = true) as Hr by (revert E; vm_compute; intros [= <- _]; reflexivity).
    split; [exact Hr|].
    destruct (fireconnect_success_means_restored _ _ _ _ an_intent (a_decision "fireconnect" [] true)
        None _ r s' E)
      as (s1 & _ & l & Hrun & Hok & _).
    exists l, s1. split; [exact Hrun|]. apply Hok in Hr as (H1 & H2 & _).
    split; [exact H1|exact H2].
  - vm_compute in E. discriminate E.
Defined.

(** An order check that only looks at integers: an older sequence written as a text is taken. *)
Example older_text_sequence_is_taken :
  let ingest := ingest_event (W := DemoWorld) dw_joymesh set_dw_joymesh "e" in
  let s := (ingest "task.progress" [("sequence", PInt 5)] demo_world).2 in
  (ingest "task.progress" [("sequence", PInt 3)] s).1 =
    Raise (ValueError "out-of-order remote event") ∧
  (ingest "task.progress" [("sequence", PStr "3")] s).1 = Ok tt.
Proof. vm_compute. done. Qed.

Lemma remote_events_stay_in_order_witness :
  let ingest := ingest_event (W := DemoWorld) dw_joymesh set_dw_joymesh "e" in
  let s := (ingest "task.progress" [("sequence", PInt 5)] demo_world).2 in
  in_order (events_of dw_joymesh "e" s) ∧
  ingest "task.progress" [("sequence", PInt 5)] s = (Ok tt, s).
Proof.
  apply (remote_events_stay_in_order dw_joymesh set_dw_joymesh (λ j w, eq_refl)
    ltac:(by intros []) "e" "task.progress" [("sequence", PInt 5)] demo_world).
  - intros i j e e' n n' _ Hi. vm_compute in Hi. destruct i; discriminate Hi.
  - vm_compute. reflexivity.
Defined.
