(* ===== verification/Workers.v ===== *)
(** * Worker reports and externally issued leases

    [runtime_v1/contracts/workers.py] and [runtime_v1/workers/reporting.py]: what a worker says
    of itself to an outside control plane, and the validation of a lease it is shown. *)

From Stdlib Require Import Ascii SpecFloat.
From S2P Require Import Prelude TaskAnalysis Capabilities Policy Scheduler.

(** ** Contracts *)

(* @src runtime_v1/contracts/workers.py:14-24 WorkerCapacityReport *)
Record WorkerCapacityReport := {
  wc_cpu : spec_float;
  wc_ram_mb : spec_float;
  wc_gpu : spec_float;
  wc_disk_mb : spec_float;
  wc_network_mbps : spec_float;
  wc_parallel_execution_limit : Z;
  wc_active_execution_count : Z
}.
(* @src runtime_v1/contracts/workers.py:26-35 WorkerCapacityReport.as_dict *)
Definition WorkerCapacityReport_as_dict (c : WorkerCapacityReport) : dict :=
  [("cpu", PFloat (wc_cpu c)); ("ram_mb", PFloat (wc_ram_mb c)); ("gpu", PFloat (wc_gpu c));
   ("disk_mb", PFloat (wc_disk_mb c)); ("network_mbps", PFloat (wc_network_mbps c));
   ("parallel_execution_limit", PInt (wc_parallel_execution_limit c));
   ("active_execution_count", PInt (wc_active_execution_count c))].

(* @src runtime_v1/contracts/workers.py:38-45 HarnessCapabilityReport *)
Record HarnessCapabilityReport := {
  hc_harness_id : string;
  hc_installed : bool;
  hc_version : option string;
  hc_capabilities : gset string;
  hc_providers : gset string;
  hc_details : dict
}.
(* @src runtime_v1/contracts/workers.py:47-55 HarnessCapabilityReport.as_dict *)
Definition HarnessCapabilityReport_as_dict (h : HarnessCapabilityReport) : dict :=
  [("harness_id", PStr (hc_harness_id h)); ("installed", PBool (hc_installed h));
   ("version", ostr (hc_version h));
   ("capabilities", PStrs (sorted_strs (elements (hc_capabilities h))));
   ("providers", PStrs (sorted_strs (elements (hc_providers h))));
   ("details", PDict (hc_details h))].

(* @src runtime_v1/contracts/workers.py:58-63 ActiveExecutionReport *)
Record ActiveExecutionReport := {
  aer_execution_id : string;
  aer_attempt_id : option string;
  aer_harness_id : option string;
  aer_started_at : option Z
}.

(* @src runtime_v1/contracts/workers.py:74-91 WorkerReport *)
Record WorkerReport := {
  wr_worker_id : string;
  wr_node_id : option string;
  wr_platform : option string;
  wr_runtime_version : option string;
  wr_region : option string;
  wr_labels : list (string * string);
  wr_capacity : WorkerCapacityReport;
  wr_harnesses : list HarnessCapabilityReport;
  wr_online : bool;
  wr_session_authenticated : bool;
  wr_revoked : bool;
  wr_generation : Z;
  wr_observed_at : Z;
  wr_metadata : dict
}.

(* @src runtime_v1/contracts/workers.py:112-125 WorkerHeartbeat *)
Record WorkerHeartbeat := {
  wh_worker_id : string;
  wh_generation : Z;
  wh_sequence : Z;
  wh_observed_at : Z;
  wh_capacity : WorkerCapacityReport;
  wh_active_executions : list ActiveExecutionReport;
  wh_harnesses : list HarnessCapabilityReport;
  wh_fencing_token : option Z;
  wh_runtime_faults : list string;
  wh_metadata : dict
}.

(* @src runtime_v1/contracts/workers.py:142-155 ExecutionLeaseToken *)
Record ExecutionLeaseToken := {
  lt_lease_id : string;
  lt_worker_id : string;
  lt_execution_id : string;
  lt_attempt_id : string;
  lt_generation : Z;
  lt_fencing_token : Z;
  lt_expires_at : Z;
  lt_issued_at : option Z;
  lt_signature : option string;
  lt_metadata : dict
}.

(* @src runtime_v1/contracts/workers.py:172-184 ExecutionOffer *)
Record ExecutionOffer := {
  eo_execution_id : string;
  eo_attempt_id : string;
  eo_worker_id : string;
  eo_harness_id : string;
  eo_prompt : string;
  eo_workspace_path : string;
  eo_lease : ExecutionLeaseToken;
  eo_timeout_seconds : Z;
  eo_offer_id : string;
  eo_sequence : Z;
  eo_metadata : dict
}.

(* @src runtime_v1/contracts/workers.py:202-210 ExecutionAcknowledgement *)
Record ExecutionAcknowledgement := {
  ek_offer_id : string;
  ek_execution_id : string;
  ek_attempt_id : string;
  ek_worker_id : string;
  ek_accepted : bool;
  ek_detail : string;
  ek_sequence : Z
}.

(* @src runtime_v1/contracts/workers.py:224-229 UsageObservation *)
Record UsageObservation := {
  uo_metric : string; uo_value : spec_float; uo_unit : option string; uo_metadata : dict }.

(* @src runtime_v1/contracts/workers.py:240-259 FactualExecutionResult *)
Record FactualExecutionResult := {
  fr_execution_id : string;
  fr_attempt_id : string;
  fr_worker_id : string;
  fr_harness : string;
  fr_started_at : Z;
  fr_finished_at : Z;
  fr_exit_code : option Z;
  fr_process_status : string;
  fr_stdout_reference : option string;
  fr_stderr_reference : option string;
  fr_artifact_references : list string;
  fr_usage_observations : list UsageObservation;
  fr_session_reference : option string;
  fr_cleanup_status : string;
  fr_failure_class : option string;
  fr_detail : option string
}.

Section as_dicts.
Context `{PyLib}.
Definition otime (t : option Z) : pyval := ostr (isoformat <$> t).
Definition oz (z : option Z) : pyval := from_option PInt PNone z.

(* @src runtime_v1/contracts/workers.py:65-71 ActiveExecutionReport.as_dict *)
Definition ActiveExecutionReport_as_dict (a : ActiveExecutionReport) : dict :=
  [("execution_id", PStr (aer_execution_id a)); ("attempt_id", ostr (aer_attempt_id a));
   ("harness_id", ostr (aer_harness_id a)); ("started_at", otime (aer_started_at a))].

(* @src runtime_v1/contracts/workers.py:93-109 WorkerReport.as_dict *)
Definition WorkerReport_as_dict (r : WorkerReport) : dict :=
  [("worker_id", PStr (wr_worker_id r)); ("node_id", ostr (wr_node_id r));
   ("platform", ostr (wr_platform r)); ("runtime_version", ostr (wr_runtime_version r));
   ("region", ostr (wr_region r));
   ("labels", PDict ((λ '(k, v), (k, PStr v)) <$> wr_labels r));
   ("capacity", PDict (WorkerCapacityReport_as_dict (wr_capacity r)));
   ("harnesses", PList ((λ h, PDict (HarnessCapabilityReport_as_dict h)) <$> wr_harnesses r));
   ("online", PBool (wr_online r));
   ("session_authenticated", PBool (wr_session_authenticated r));
   ("revoked", PBool (wr_revoked r)); ("generation", PInt (wr_generation r));
   ("observed_at", PStr (isoformat (wr_observed_at r))); ("metadata", PDict (wr_metadata r))].

(* @src runtime_v1/contracts/workers.py:127-139 WorkerHeartbeat.as_dict *)
Definition WorkerHeartbeat_as_dict (h : WorkerHeartbeat) : dict :=
  [("worker_id", PStr (wh_worker_id h)); ("generation", PInt (wh_generation h));
   ("sequence", PInt (wh_sequence h)); ("observed_at", PStr (isoformat (wh_observed_at h)));
   ("capacity", PDict (WorkerCapacityReport_as_dict (wh_capacity h)));
   ("active_executions",
      PList ((λ a, PDict (ActiveExecutionReport_as_dict a)) <$> wh_active_executions h));
   ("harnesses", PList ((λ r, PDict (HarnessCapabilityReport_as_dict r)) <$> wh_harnesses h));
   ("fencing_token", oz (wh_fencing_token h)); ("runtime_faults", PStrs (wh_runtime_faults h));
   ("metadata", PDict (wh_metadata h))].

(* @src runtime_v1/contracts/workers.py:157-169 ExecutionLeaseToken.as_dict *)
Definition ExecutionLeaseToken_as_dict (t : ExecutionLeaseToken) : dict :=
  [("lease_id", PStr (lt_lease_id t)); ("worker_id", PStr (lt_worker_id t));
   ("execution_id", PStr (lt_execution_id t)); ("attempt_id", PStr (lt_attempt_id t));
   ("generation", PInt (lt_generation t)); ("fencing_token", PInt (lt_fencing_token t));
   ("expires_at", PStr (isoformat (lt_expires_at t))); ("issued_at", otime (lt_issued_at t));
   ("signature", ostr (lt_signature t)); ("metadata", PDict (lt_metadata t))].

(* @src runtime_v1/contracts/workers.py:186-199 ExecutionOffer.as_dict *)
Definition ExecutionOffer_as_dict (o : ExecutionOffer) : dict :=
  [("offer_id", PStr (eo_offer_id o)); ("execution_id", PStr (eo_execution_id o));
   ("attempt_id", PStr (eo_attempt_id o)); ("worker_id", PStr (eo_worker_id o));
   ("harness_id", PStr (eo_harness_id o)); ("prompt", PStr (eo_prompt o));
   ("workspace_path", PStr (eo_workspace_path o));
   ("lease", PDict (ExecutionLeaseToken_as_dict (eo_lease o)));
   ("timeout_seconds", PInt (eo_timeout_seconds o)); ("sequence", PInt (eo_sequence o));
   ("metadata", PDict (eo_metadata o))].

(* @src runtime_v1/contracts/workers.py:212-221 ExecutionAcknowledgement.as_dict *)
Definition ExecutionAcknowledgement_as_dict (a : ExecutionAcknowledgement) : dict :=
  [("offer_id", PStr (ek_offer_id a)); ("execution_id", PStr (ek_execution_id a));
   ("attempt_id", PStr (ek_attempt_id a)); ("worker_id", PStr (ek_worker_id a));
   ("accepted", PBool (ek_accepted a)); ("detail", PStr (ek_detail a));
   ("sequence", PInt (ek_sequence a))].

(* @src runtime_v1/contracts/workers.py:231-237 UsageObservation.as_dict *)
Definition UsageObservation_as_dict (u : UsageObservation) : dict :=
  [("metric", PStr (uo_metric u)); ("value", PFloat (uo_value u)); ("unit", ostr (uo_unit u));
   ("metadata", PDict (uo_metadata u))].

(* @src runtime_v1/contracts/workers.py:261-282 FactualExecutionResult.as_dict *)
Definition FactualExecutionResult_as_dict (r : FactualExecutionResult) : dict :=
  [("execution_id", PStr (fr_execution_id r)); ("attempt_id", PStr (fr_attempt_id r));
   ("worker_id", PStr (fr_worker_id r)); ("harness", PStr (fr_harness r));
   ("started_at", PStr (isoformat (fr_started_at r)));
   ("finished_at", PStr (isoformat (fr_finished_at r)));
   ("exit_code", oz (fr_exit_code r)); ("process_status", PStr (fr_process_status r));
   ("stdout_reference", ostr (fr_stdout_reference r));
   ("stderr_reference", ostr (fr_stderr_reference r));
   ("artifact_references", PStrs (fr_artifact_references r));
   ("usage_observations",
      PList ((λ u, PDict (UsageObservation_as_dict u)) <$> fr_usage_observations r));
   ("session_reference", ostr (fr_session_reference r));
   ("cleanup_status", PStr (fr_cleanup_status r)); ("failure_class", ostr (fr_failure_class r));
   ("detail", ostr (fr_detail r)); ("mission_completed", PNone); ("verification_passed", PNone)].
End as_dicts.

(** ** Reports *)

(** [now] is the default of [observed_at]. The connectors come in the order of their ids. *)
(* @src runtime_v1/workers/reporting.py:28-79 build_worker_report *)
Definition build_worker_report (now : Z) (snapshot : SchedulerNodeSnapshot)
    (region runtime_version platform : option string) (generation : Z) : WorkerReport :=
  {| wr_worker_id := node_id snapshot; wr_node_id := Some (node_id snapshot);
     wr_platform := platform; wr_runtime_version := runtime_version; wr_region := region;
     wr_labels := [("filesystem", "true")];
     wr_capacity :=
       {| wc_cpu := z_to_float 4; wc_ram_mb := z_to_float 8192; wc_gpu := z_to_float 0;
          wc_disk_mb := z_to_float 102400; wc_network_mbps := z_to_float 0;
          wc_parallel_execution_limit := 4;
          wc_active_execution_count := concurrency snapshot |};
     wr_harnesses := omap (λ connector_id,
       (λ c, {| hc_harness_id := connector_id; hc_installed := installed c;
                hc_version := None; hc_capabilities := sc_certified_capabilities c;
                hc_providers := ∅;
                hc_details := [("readiness", PStr (NodeConnectorState_value (readiness c)));
                               ("authenticated", PBool (authenticated c));
                               ("routing_enabled", PBool (routing_enabled c))] |})
       <$> connectors snapshot !! connector_id)
       (sorted_strs (elements (dom (connectors snapshot))));
     wr_online := online snapshot; wr_session_authenticated := session_authenticated snapshot;
     wr_revoked := revoked snapshot; wr_generation := generation; wr_observed_at := now;
     wr_metadata := [("queue_depth", PInt (queue_depth snapshot));
                     ("recent_failures", PInt (recent_failures snapshot))] |}.

(* @src runtime_v1/workers/reporting.py:82-102 build_worker_heartbeat *)
Definition build_worker_heartbeat (now : Z) (report : WorkerReport) (sequence : Z)
    (active_executions : list ActiveExecutionReport) (fencing_token : option Z)
    (runtime_faults : list string) (observed_at : option Z) : WorkerHeartbeat :=
  {| wh_worker_id := wr_worker_id report; wh_generation := wr_generation report;
     wh_sequence := sequence; wh_observed_at := default now observed_at;
     wh_capacity := wr_capacity report; wh_active_executions := active_executions;
     wh_harnesses := wr_harnesses report; wh_fencing_token := fencing_token;
     wh_runtime_faults := runtime_faults; wh_metadata := wr_metadata report |}.

(** ** Lease validation *)

(* @src runtime_v1/workers/reporting.py:21-25 LeaseValidationError *)
Definition LeaseValidationError (reason_code message : string) : exn :=
  Exn "LeaseValidationError" reason_code message.

(* @src runtime_v1/workers/reporting.py:108-110 WorkerLeaseValidator.__init__ *)
Record WorkerLeaseValidator := {
  wv_seen : gset string;
  wv_last_sequence : list (string * Z)
}.
Definition WorkerLeaseValidator_init : WorkerLeaseValidator :=
  {| wv_seen := ∅; wv_last_sequence := [] |}.

(** A lease is shown as a token or as a mapping. *)
Inductive lease_form := Token (t : ExecutionLeaseToken) | Mapping (d : dict).

Section validator.
Context `{PyLib}.

(** A time that is not a text is shown by its text; [fromisoformat] refuses what it cannot read. *)
(* @src runtime_v1/workers/reporting.py:161-167 _parse_dt *)
Definition _parse_dt (value : pyval) : res Z :=
  let text := py_str value in
  let text := if endswith "Z" text
              then str_take (String.length text - 1) text +:+ "+00:00" else text in
  match fromisoformat text with
  | Some t => Ok t
  | None => Raise (ValueError "Invalid isoformat string")
  end.

Definition item (k : string) (d : dict) : res pyval :=
  match dict_get k d with Some v => Ok v | None => Raise (KeyError k) end.

(* @src runtime_v1/workers/reporting.py:121-138 WorkerLeaseValidator.validate *)
Definition token_of (lease : lease_form) : res ExecutionLeaseToken :=
  match lease with
  | Token t => Ok t
  | Mapping d =>
      let text k := res_bind (item k d) (λ v, Ok (py_str v)) in
      let number k := res_bind (item k d) py_int in
      res_bind (text "lease_id") (λ lease_id,
      res_bind (text "worker_id") (λ worker_id,
      res_bind (text "execution_id") (λ execution_id,
      res_bind (text "attempt_id") (λ attempt_id,
      res_bind (number "generation") (λ generation,
      res_bind (number "fencing_token") (λ fencing_token,
      res_bind (res_bind (item "expires_at" d) _parse_dt) (λ expires_at,
      res_bind (if truthy (dget "issued_at" d)
                then res_bind (_parse_dt (dget "issued_at" d)) (λ t, Ok (Some t))
                else Ok None) (λ issued_at,
      res_bind (py_dict (py_or (dget "metadata" d) (PDict []))) (λ metadata,
      Ok {| lt_lease_id := lease_id; lt_worker_id := worker_id;
            lt_execution_id := execution_id; lt_attempt_id := attempt_id;
            lt_generation := generation; lt_fencing_token := fencing_token;
            lt_expires_at := expires_at; lt_issued_at := issued_at;
            lt_signature := match dget "signature" d with PStr s => Some s | _ => None end;
            lt_metadata := metadata |})))))))))
  end.

(* @src runtime_v1/workers/reporting.py:148-148 WorkerLeaseValidator.validate *)
Definition replay_key (t : ExecutionLeaseToken) : string :=
  lt_lease_id t +:+ ":" +:+ pretty (lt_fencing_token t) +:+ ":" +:+ pretty (lt_generation t).

(** [clock_now] is read when no [now] is given. *)
(* @src runtime_v1/workers/reporting.py:112-152 WorkerLeaseValidator.validate *)
Definition validate (clock_now : Z) (lease : lease_form) (worker_id : string)
    (execution_id : option string) (now : option Z) (expected_signature : option string) :
    M WorkerLeaseValidator ExecutionLeaseToken :=
  token ← lift_res (token_of lease);
  let current := default clock_now now in
  if lt_worker_id token != worker_id then
    raise (LeaseValidationError "wrong_worker" "lease worker mismatch")
  else if from_option (λ e, lt_execution_id token != e) false execution_id then
    raise (LeaseValidationError "wrong_execution" "lease execution mismatch")
  else if (lt_expires_at token <=? current)%Z then
    raise (LeaseValidationError "expired" "lease expired")
  else if from_option (λ g, lt_signature token != Some g) false expected_signature then
    raise (LeaseValidationError "invalid_signature" "lease signature mismatch")
  else
    s ← get_state;
    if replay_key token in? wv_seen s then
      raise (LeaseValidationError "replay" "duplicate lease presentation")
    else
      modify_state (λ s, {| wv_seen := {[replay_key token]} ∪ wv_seen s;
                            wv_last_sequence := wv_last_sequence s |});;
      mret token.

(* @src runtime_v1/workers/reporting.py:154-158 WorkerLeaseValidator.accept_heartbeat_sequence *)
Definition accept_heartbeat_sequence (worker_id : string) (sequence : Z) :
    M WorkerLeaseValidator unit :=
  s ← get_state;
  let last := default 0%Z (dict_get worker_id (wv_last_sequence s)) in
  if (sequence <=? last)%Z then
    raise (LeaseValidationError "stale_sequence" "heartbeat sequence not monotonic")
  else modify_state (λ s, {| wv_seen := wv_seen s;
         wv_last_sequence := dict_set worker_id sequence (wv_last_sequence s) |}).
End validator.

(** ** What the validator promises *)

Section validator_lemmas.
Context `{PyLib}.

(** The key of a lease names its id, its fencing token and its generation: numbers have no
    colon, whatever the id has. *)
Definition no_colon (s : string) : Prop := ":"%char ∉ String.list_ascii_of_string s.

Lemma digit_no_colon x s : no_colon s → no_colon (pretty_N_go x s).
Proof.
  revert s. induction (N.lt_wf_0 x) as [x _ IH]. intros s Hs.
  destruct (decide (0 < x)%N) as [Hx|Hx]; [rewrite pretty_N_go_step by lia|].
  - apply IH; [apply N.div_lt; lia|]. unfold no_colon in *. cbn [String.list_ascii_of_string].
    rewrite elem_of_cons. intros [Hd|?]; [|done]. revert Hd.
    unfold pretty_N_char. repeat case_match; discriminate.
  - assert (x = 0%N) as -> by lia. by rewrite pretty_N_go_0.
Qed.

Lemma pretty_no_colon (z : Z) : no_colon (pretty z).
Proof.
  assert (∀ n : N, no_colon (pretty n)) as Hn.
  { intros n. unfold pretty, pretty_N. destruct (decide (n = 0%N)).
    - unfold no_colon. simpl. set_solver.
    - apply digit_no_colon. unfold no_colon. simpl. set_solver. }
  unfold pretty, pretty_Z. destruct z as [|p|p].
  - unfold no_colon. simpl. set_solver.
  - apply Hn.
  - unfold no_colon. simpl. rewrite elem_of_cons.
    intros [?|?]; [done|]. by eapply (Hn (N.pos p)).
Qed.

Lemma list_ascii_app s t :
  String.list_ascii_of_string (s +:+ t) =
  String.list_ascii_of_string s ++ String.list_ascii_of_string t.
Proof. induction s as [|c s IH]; [done|]. simpl. f_equal. apply IH. Qed.

Lemma list_ascii_inj s t : String.list_ascii_of_string s = String.list_ascii_of_string t → s = t.
Proof.
  intros E. rewrite <-(String.string_of_list_ascii_of_string s),
    <-(String.string_of_list_ascii_of_string t). by rewrite E.
Qed.

(** The last colon of a text is where it is. *)
Lemma last_colon (a b a' b' : list Ascii.ascii) :
  ":"%char ∉ b → ":"%char ∉ b' → a ++ ":"%char :: b = a' ++ ":"%char :: b' → a = a' ∧ b = b'.
Proof.
  revert a'. induction a as [|x a IH]; intros [|y a'] Hb Hb' E; simplify_eq/=; try done.
  - set_solver.
  - set_solver.
  - match goal with E : a ++ _ = _ |- _ => destruct (IH a' Hb Hb' E) as [-> ->] end. done.
Qed.

Lemma replay_key_inj t t' :
  replay_key t = replay_key t' →
  lt_lease_id t = lt_lease_id t' ∧ lt_fencing_token t = lt_fencing_token t' ∧
  lt_generation t = lt_generation t'.
Proof.
  unfold replay_key. intros E%(f_equal String.list_ascii_of_string).
  assert (∀ a f g : list Ascii.ascii, a ++ [":"%char] ++ f ++ [":"%char] ++ g =
    (a ++ ":"%char :: f) ++ ":"%char :: g) as Hshape by (intros; by rewrite <-app_assoc).
  rewrite !list_ascii_app in E. change (String.list_ascii_of_string ":") with [":"%char] in E.
  rewrite !Hshape in E.
  apply last_colon in E as [E Hg]; [|apply pretty_no_colon..].
  apply last_colon in E as [Hl Hf]; [|apply pretty_no_colon..].
  split_and!; [by apply list_ascii_inj|..];
    apply (inj pretty); by apply list_ascii_inj.
Qed.

(** Any call of the validator, with any arguments, that returned or raised. *)
Inductive validator_call s : WorkerLeaseValidator → Prop :=
| call_validate clock_now lease worker execution now signature :
    validator_call s (validate clock_now lease worker execution now signature s).2
| call_sequence worker sequence : validator_call s (accept_heartbeat_sequence worker sequence s).2.

(** What a validation that returned has checked and done. *)
Lemma validate_Ok clock_now lease worker execution now signature s t s' :
  validate clock_now lease worker execution now signature s = (Ok t, s') ↔
  token_of lease = Ok t ∧ lt_worker_id t = worker ∧
  (∀ e, execution = Some e → lt_execution_id t = e) ∧
  (default clock_now now < lt_expires_at t)%Z ∧
  (∀ g, signature = Some g → lt_signature t = Some g) ∧ (replay_key t ∉ wv_seen s) ∧
  s' = {| wv_seen := {[replay_key t]} ∪ wv_seen s; wv_last_sequence := wv_last_sequence s |}.
Proof.
  unfold validate, mbind, M_bind, lift_res.
  destruct (token_of lease) as [t0|e]; [|split; [done|by intros (? & _)]].
  split.
  - destruct (_ != worker) eqn:Hw; [done|]. destruct (from_option _ _ execution) eqn:He; [done|].
    destruct (_ <=? _)%Z eqn:Hx; [done|]. destruct (from_option _ _ signature) eqn:Hs; [done|].
    unfold get_state, modify_state. destruct (_ in? _) eqn:Hk; [done|]. intros [= <- <-]. boolify.
    split_and!; try done.
    + intros e ->. simpl in He. by boolify.
    + by apply Z.leb_gt.
    + intros g ->. simpl in Hs. by boolify.
  - intros ([= ->] & Hw & He & Hx & Hs & Hk & ->).
    rewrite (bool_decide_eq_true_2 _ Hw). simpl.
    replace (from_option _ _ execution) with false.
    2: { destruct execution as [e|]; [|done]. simpl. by rewrite (bool_decide_eq_true_2 _ (He e eq_refl)). }
    replace (lt_expires_at t <=? _)%Z with false by (symmetry; by apply Z.leb_gt).
    replace (from_option _ _ signature) with false.
    2: { destruct signature as [g|]; [|done]. simpl. by rewrite (bool_decide_eq_true_2 _ (Hs g eq_refl)). }
    unfold get_state. by rewrite bool_decide_eq_false_2.
Qed.

Lemma call_keeps_seen k s s' : validator_call s s' → k ∈ wv_seen s → k ∈ wv_seen s'.
Proof.
  intros [clock_now lease worker execution now signature|worker sequence] Hk.
  - destruct (validate _ _ _ _ _ _ s) as [[t|e] s1] eqn:E.
    + apply validate_Ok in E as (_ & _ & _ & _ & _ & _ & ->). simpl. set_solver.
    + revert E. unfold validate, mbind, M_bind, lift_res, get_state.
      destruct (token_of lease); [|by intros [= _ <-]]. by repeat case_match; intros [= _ <-].
  - unfold accept_heartbeat_sequence, mbind, M_bind, get_state. by case_match.
Qed.

(** C40: A lease that a worker has accepted is never accepted again: whatever calls follow, in
    whatever form, under whatever worker and signature, a lease with the same id, fencing token
    and generation is refused. *)
Theorem lease_is_accepted_once c1 f1 w1 e1 n1 g1 s t s1 s2 c2 f2 w2 e2 n2 g2 t' s3 :
  validate c1 f1 w1 e1 n1 g1 s = (Ok t, s1) → rtc validator_call s1 s2 →
  validate c2 f2 w2 e2 n2 g2 s2 = (Ok t', s3) →
  (lt_lease_id t', lt_fencing_token t', lt_generation t') ≠
    (lt_lease_id t, lt_fencing_token t, lt_generation t).
Proof.
  intros (_ & _ & _ & _ & _ & _ & ->)%validate_Ok Hcalls (_ & _ & _ & _ & _ & Hnew & _)%validate_Ok.
  intros [= Hl Hf Hg]. apply Hnew. unfold replay_key. rewrite Hl, Hf, Hg. fold (replay_key t).
  assert (∀ s1, rtc validator_call s1 s2 → replay_key t ∈ wv_seen s1 → replay_key t ∈ wv_seen s2)
    as Hkeep by (clear; induction 1; eauto using call_keeps_seen).
  apply (Hkeep _ Hcalls). simpl. set_solver.
Qed.

(** Leases of different id, token or generation do not get in each other's way, also when an
    id has a colon in it. *)
Theorem other_lease_is_not_a_replay t t' s s1 c w e n g c' w' e' n' g' s' :
  validate c (Token t) w e n g s = (Ok t, s1) →
  (lt_lease_id t', lt_fencing_token t', lt_generation t') ≠
    (lt_lease_id t, lt_fencing_token t, lt_generation t) →
  validate c' (Token t') w' e' n' g' s = (Ok t', s') →
  is_ok (validate c' (Token t') w' e' n' g' s1).1.
Proof.
  intros (_ & _ & _ & _ & _ & _ & ->)%validate_Ok Hne
    (Ht & Hw & He & Hx & Hg & Hnew & _)%validate_Ok.
  match goal with |- is_ok (validate _ _ _ _ _ _ ?s1).1 =>
    pose proof (proj2 (validate_Ok c' (Token t') w' e' n' g' s1 t'
      {| wv_seen := {[replay_key t']} ∪ wv_seen s1; wv_last_sequence := wv_last_sequence s1 |})) as Hv
  end.
  rewrite Hv; [done|]. split_and!; try done. simpl. intros [Hk%elem_of_singleton|?]%elem_of_union;
    [|done]. apply replay_key_inj in Hk as (? & ? & ?). congruence.
Qed.

Definition last_of (worker : string) (s : WorkerLeaseValidator) : Z :=
  default 0%Z (dict_get worker (wv_last_sequence s)).

Lemma call_sequences_grow worker s s' :
  validator_call s s' → (last_of worker s ≤ last_of worker s')%Z.
Proof.
  intros [clock_now lease worker' execution now signature|worker' sequence].
  - destruct (validate _ _ _ _ _ _ s) as [[t|e] s1] eqn:E.
    + by apply validate_Ok in E as (_ & _ & _ & _ & _ & _ & ->).
    + revert E. unfold validate, mbind, M_bind, lift_res, get_state.
      destruct (token_of lease); [|by intros [= _ <-]]. by repeat case_match; intros [= _ <-].
  - unfold accept_heartbeat_sequence, mbind, M_bind, get_state.
    destruct (_ <=? _)%Z eqn:Hs; [done|]. apply Z.leb_gt in Hs. unfold last_of. simpl.
    destruct (decide (worker' = worker)) as [->|Hne].
    + rewrite dict_get_set_eq. simpl. fold (last_of worker s) in Hs |- *. lia.
    + by rewrite dict_get_set_ne.
Qed.

(** The heartbeats accepted from one worker have growing sequence numbers, whatever is called
    in between. *)
Theorem heartbeats_are_ordered worker n n' s s1 s2 s3 :
  accept_heartbeat_sequence worker n s = (Ok tt, s1) → rtc validator_call s1 s2 →
  accept_heartbeat_sequence worker n' s2 = (Ok tt, s3) → (n < n')%Z.
Proof.
  unfold accept_heartbeat_sequence, mbind, M_bind, get_state, modify_state.
  destruct (n <=? _)%Z; [done|]. intros [= <-] Hcalls.
  destruct (n' <=? _)%Z eqn:Hn; [done|]. intros _. apply Z.leb_gt in Hn.
  assert (∀ s1, rtc validator_call s1 s2 → (last_of worker s1 ≤ last_of worker s2)%Z) as Hgrow.
  { clear. induction 1 as [|x y z Hxy _ IH]; [lia|].
    pose proof (call_sequences_grow worker _ _ Hxy). lia. }
  specialize (Hgrow _ Hcalls). unfold last_of in Hgrow at 1. simpl in Hgrow.
  rewrite dict_get_set_eq in Hgrow. unfold last_of in Hgrow. simpl in Hgrow. lia.
Qed.
End validator_lemmas.

(** ** Concrete runs *)

#[local] Existing Instance counting_lib.

Definition a_token (id : string) (fence generation : Z) : ExecutionLeaseToken :=
  {| lt_lease_id := id; lt_worker_id := "w1"; lt_execution_id := "e1"; lt_attempt_id := "a1";
     lt_generation := generation; lt_fencing_token := fence; lt_expires_at := 100;
     lt_issued_at := None; lt_signature := None; lt_metadata := [] |}.

Example a_mapping_is_read :
  token_of (Mapping [("lease_id", PStr "l:1"); ("worker_id", PStr "w1"); ("execution_id", PStr "e1");
    ("attempt_id", PStr "a1"); ("generation", PInt 2); ("fencing_token", PStr "7");
    ("expires_at", PStr "100"); ("signature", PInt 3)]) = Ok (a_token "l:1" 7 2).
Proof. vm_compute. reflexivity. Qed.

(** A lease without a signature is accepted by a worker that expects none. *)
Example unsigned_lease_is_accepted :
  (validate 50 (Token (a_token "l" 1 1)) "w1" None None None WorkerLeaseValidator_init).1 =
  Ok (a_token "l" 1 1).
Proof. vm_compute. reflexivity. Qed.

(** Neither the fencing token nor the generation has to grow: an older lease is accepted after
    a newer one. *)
Example older_lease_is_accepted :
  let s := (validate 50 (Token (a_token "l" 5 3)) "w1" None None None
              WorkerLeaseValidator_init).2 in
  (validate 50 (Token (a_token "l" 4 2)) "w1" None None None s).1 = Ok (a_token "l" 4 2).
Proof. vm_compute. reflexivity. Qed.

Lemma lease_is_accepted_once_witness :
  let s1 := (validate 50 (Token (a_token "l" 5 3)) "w1" None None None
               WorkerLeaseValidator_init).2 in
  let s2 := (validate 60 (Token (a_token "l" 4 2)) "w1" None None None s1).2 in
  let s3 := (validate 70 (Token (a_token "l" 6 3)) "w1" None None None s2).2 in
  (validate 70 (Token (a_token "l" 6 3)) "w1" None None None s2) = (Ok (a_token "l" 6 3), s3) ∧
  ("l", 6%Z, 3%Z) ≠ ("l", 5%Z, 3%Z).
Proof.
  intros s1 s2 s3. assert (validate 70 (Token (a_token "l" 6 3)) "w1" None None None s2 =
    (Ok (a_token "l" 6 3), s3)) as E by (vm_compute; reflexivity).
  split; [exact E|].
  refine (lease_is_accepted_once 50 (Token (a_token "l" 5 3)) "w1" None None None
    WorkerLeaseValidator_init (a_token "l" 5 3) s1 s2 _ _ _ _ _ _ _ _ _ _ E);
    [vm_compute; reflexivity|].
  apply rtc_once. exact (call_validate s1 60 (Token (a_token "l" 4 2)) "w1" None None None).
Defined.
