(* ===== verification/CodingWorker.v ===== *)
(** * The coding worker

    [runtime_v1/coding_worker/]: the worker that runs the Codex command line in a repository
    under an exclusive task lease, with the checks of the repository before the run and what
    it reads from the output and from git after it. The harness adapter is the one of
    [Harness]; the operating system, git and the Codex connector are parameters. *)

From Stdlib Require Import Ascii SpecFloat.
From S2P Require Import Prelude Security Leases TaskAnalysis Processes Harness.

(** ** Contracts *)

(* @src runtime_v1/coding_worker/contracts.py:12-16 CodingWorkerRepository *)
Record CodingWorkerRepository := {
  cwr_path : string; cwr_branch : option string; cwr_worktree : option string }.

(* @src runtime_v1/coding_worker/contracts.py:19-24 CodingWorkerAllowedActions *)
Record CodingWorkerAllowedActions := {
  aa_edit_files : bool; aa_run_tests : bool; aa_commit : bool; aa_push : bool }.

(** [context_package], which nothing reads, is left out. *)
(* @src runtime_v1/coding_worker/contracts.py:27-40 CodingWorkerTask *)
Record CodingWorkerTask := {
  ct_task_id : string;
  ct_mission_id : string;
  ct_execution_id : string;
  ct_correlation_id : string;
  ct_repository : CodingWorkerRepository;
  ct_objective : string;
  ct_constraints : list string;
  ct_allowed_actions : CodingWorkerAllowedActions;
  ct_worker_id : string;
  ct_lease_ttl_seconds : Z;
  ct_timeout_seconds : Z
}.

(* @src runtime_v1/coding_worker/contracts.py:43-47 CodingWorkerTestResult *)
Record CodingWorkerTestResult := {
  tr_command : string; tr_status : string; tr_output_summary : string }.
(* @src runtime_v1/coding_worker/contracts.py:50-54 ArtifactReference *)
Record ArtifactReference := {
  af_kind : string; af_uri : string; af_digest : option string }.
(* @src runtime_v1/coding_worker/contracts.py:57-61 EvidenceReference *)
Record EvidenceReference := { er_kind : string; er_uri : string; er_summary : string }.

(* @src runtime_v1/coding_worker/contracts.py:64-77 CodingWorkerResult *)
Record CodingWorkerResult := {
  cw_task_id : string;
  cw_status : string;
  cw_summary : string;
  cw_changed_files : list string;
  cw_tests_run : list CodingWorkerTestResult;
  cw_artifacts : list ArtifactReference;
  cw_evidence : list EvidenceReference;
  cw_error : option string;
  cw_worker_id : option string;
  cw_lease_id : option string;
  cw_fencing_token : option Z;
  cw_progress_events : list string
}.

(** One entry of [tests_run] in the dictionaries made from a result. *)
(* @src runtime_v1/coding_worker/contracts.py:85-92 CodingWorkerResult.as_dict *)
Definition test_dict (item : CodingWorkerTestResult) : dict :=
  [("command", PStr (tr_command item)); ("status", PStr (tr_status item));
   ("output_summary", PStr (tr_output_summary item))].

(* @src runtime_v1/coding_worker/contracts.py:79-106 CodingWorkerResult.as_dict *)
Definition CodingWorkerResult_as_dict (r : CodingWorkerResult) : dict :=
  [("task_id", PStr (cw_task_id r)); ("status", PStr (cw_status r));
   ("summary", PStr (cw_summary r)); ("changed_files", PStrs (cw_changed_files r));
   ("tests_run", PList ((λ t, PDict (test_dict t)) <$> cw_tests_run r));
   ("artifacts", PList ((λ a, PDict [("kind", PStr (af_kind a)); ("uri", PStr (af_uri a));
                                     ("digest", ostr (af_digest a))]) <$> cw_artifacts r));
   ("evidence", PList ((λ e, PDict [("kind", PStr (er_kind e)); ("uri", PStr (er_uri e));
                                    ("summary", PStr (er_summary e))]) <$> cw_evidence r));
   ("error", ostr (cw_error r)); ("worker_id", ostr (cw_worker_id r));
   ("lease_id", ostr (cw_lease_id r));
   ("fencing_token", from_option PInt PNone (cw_fencing_token r));
   ("progress_events", PStrs (cw_progress_events r))].

(* @src runtime_v1/coding_worker/contracts.py:109-116 PUBLIC_PROGRESS_EVENTS *)
Definition PUBLIC_PROGRESS_EVENTS : list string :=
  ["Worker acquired task"; "Repository opened"; "Implementation started"; "Tests running";
   "Verification evidence prepared"; "Task completed"].
Definition progress_event (i : nat) : string := default "" (PUBLIC_PROGRESS_EVENTS !! i).

(** ** The prompt *)

Definition quote : ascii := ascii_of_nat 34.
Definition quoted (s : string) : string := String quote (s +:+ String quote "").
Definition newline : string := String (ascii_of_nat 10) "".
Definition bool_text (b : bool) : string := if b then "True" else "False".

(* @src runtime_v1/coding_worker/executor.py:49-68 build_codex_prompt *)
Definition build_codex_prompt (task : CodingWorkerTask) : string :=
  let constraints := match ct_constraints task with
                     | [] => "- none"
                     | items => join newline ((λ item, "- " +:+ item) <$> items)
                     end in
  let actions := ct_allowed_actions task in
  let policy := ["edit_files=" +:+ bool_text (aa_edit_files actions);
                 "run_tests=" +:+ bool_text (aa_run_tests actions);
                 "commit=" +:+ bool_text (aa_commit actions);
                 "push=" +:+ bool_text (aa_push actions)] in
  "Mission ID: " +:+ ct_mission_id task +:+ newline +:+
  "Correlation ID: " +:+ ct_correlation_id task +:+ newline +:+
  "Execution ID: " +:+ ct_execution_id task +:+ newline +:+
  "Task ID: " +:+ ct_task_id task +:+ newline +:+ newline +:+
  "Objective:" +:+ newline +:+ ct_objective task +:+ newline +:+ newline +:+
  "Constraints:" +:+ newline +:+ constraints +:+ newline +:+ newline +:+
  "Allowed actions: " +:+ join ", " policy +:+ newline +:+
  "Do not commit or push unless commit/push are explicitly allowed." +:+ newline +:+
  "Stay inside this repository. Prefer minimal file edits and real verification." +:+ newline.

(** ** Reading the output of Codex *)

(** [re.search(prefix + group, s)]: the group of the leftmost place where the prefix matches
    and the group does too. *)
Fixpoint re_search {A} (prefix : regex) (group : list ascii → option A) (prev : option ascii)
    (s : list ascii) : option A :=
  match match_at prefix prev s (λ p q, Some (p, q)) ≫= λ '(_, q), group q with
  | Some a => Some a
  | None => match s with
            | [] => None
            | c :: s' => re_search prefix group (Some c) s'
            end
  end.

(** The quoted name, a colon and the white space around it. *)
Definition json_key (name : string) : regex :=
  RSeq (lit (quoted name))
    (RSeq (RRep ascii_space 0) (RSeq (RClass (Ascii.eqb ":")) (RRep ascii_space 0))).
(** The text of a quoted string up to its closing quote, the opening one taken: a backslash
    takes any character after it but a line feed. *)
Fixpoint json_body (s : list ascii) : option (list ascii) :=
  match s with
  | [] => None
  | c :: s' =>
      if Ascii.eqb c quote then Some []
      else if Ascii.eqb c "\" then
        match s' with
        | [] => None
        | d :: s'' => if Ascii.eqb d (ascii_of_nat 10) then None
                      else (λ r, c :: d :: r) <$> json_body s''
        end
      else (λ r, c :: r) <$> json_body s'
  end.
Definition json_string_field (name line : string) : option string :=
  String.string_of_list_ascii <$>
    re_search (RSeq (json_key name) (RClass (Ascii.eqb quote))) json_body None
      (String.list_ascii_of_string line).

(** [(\d+|null)] *)
Fixpoint digits_of (s : list ascii) : list ascii :=
  match s with
  | c :: s' => if ascii_digit c then c :: digits_of s' else []
  | [] => []
  end.
Definition exit_code_group (s : list ascii) : option string :=
  match digits_of s with
  | [] => if startswith "null" (String.string_of_list_ascii s) then Some "null" else None
  | d => Some (String.string_of_list_ascii d)
  end.

(** [bytes(s, "utf-8").decode("unicode_escape")] of an ASCII text. Text of the model is ASCII:
    what a code point beyond it becomes, and the names of [\N{...}], are parameters. *)
Record UnicodeText := {
  wide_char : N → string;
  char_named : string → option N
}.
Definition UnicodeDecodeError : exn := Exn "UnicodeDecodeError" "" "unicode_escape".
Definition hex_value (c : ascii) : option N :=
  let n := N_of_ascii c in
  if in_range "0" "9" c then Some (n - 48)%N
  else if in_range "a" "f" c then Some (n - 87)%N
  else if in_range "A" "F" c then Some (n - 55)%N else None.
Fixpoint hex_digits (n : nat) (acc : N) (s : list ascii) : option (N * list ascii) :=
  match n, s with
  | O, _ => Some (acc, s)
  | S n, c :: s => hex_value c ≫= λ d, hex_digits n (acc * 16 + d)%N s
  | S _, [] => None
  end.
Fixpoint octal_digits (n : nat) (acc : N) (s : list ascii) : N * list ascii :=
  match n, s with
  | S n, c :: s' => if in_range "0" "7" c then octal_digits n (acc * 8 + (N_of_ascii c - 48))%N s'
                    else (acc, s)
  | _, _ => (acc, s)
  end.
Definition simple_escape (c : ascii) : option string :=
  dict_get (String c "")
    [("\", "\"); ("'", "'"); (String quote "", String quote ""); (newline, "");
     ("a", String (ascii_of_nat 7) ""); ("b", String (ascii_of_nat 8) "");
     ("t", String (ascii_of_nat 9) ""); ("n", newline); ("v", String (ascii_of_nat 11) "");
     ("f", String (ascii_of_nat 12) ""); ("r", String (ascii_of_nat 13) "")].
Fixpoint up_to_brace (s : list ascii) : option (list ascii * list ascii) :=
  match s with
  | [] => None
  | c :: s' => if Ascii.eqb c "}" then Some ([], s')
               else (λ '(name, r), (c :: name, r)) <$> up_to_brace s'
  end.

Section unicode_escape.
Context (U : UnicodeText).

Definition char_text (n : N) : string :=
  if (n <? 128)%N then String (ascii_of_N n) "" else wide_char U n.

(** What one backslash sequence stands for, and the rest after it. *)
Definition escape_at (c : ascii) (s : list ascii) : res (string * list ascii) :=
  let code n :=
    match hex_digits n 0 s with
    | Some (v, s) => if (0x10FFFF <? v)%N then Raise UnicodeDecodeError else Ok (char_text v, s)
    | None => Raise UnicodeDecodeError
    end in
  match simple_escape c with
  | Some t => Ok (t, s)
  | None =>
      if in_range "0" "7" c then
        let '(v, s) := octal_digits 3 0 (c :: s) in Ok (char_text v, s)
      else if Ascii.eqb c "x" then code 2
      else if Ascii.eqb c "u" then code 4
      else if Ascii.eqb c "U" then code 8
      else if Ascii.eqb c "N" then
        match s with
        | b :: s => if Ascii.eqb b "{" then
            match up_to_brace s ≫= λ '(name, s),
                    (λ v, (v, s)) <$> char_named U (String.string_of_list_ascii name) with
            | Some (v, s) => Ok (char_text v, s)
            | None => Raise UnicodeDecodeError
            end
          else Raise UnicodeDecodeError
        | [] => Raise UnicodeDecodeError
        end
      else Ok (String "\" (String c ""), s)
  end.

(** Every step takes at least one character: the length is fuel enough. *)
Fixpoint unicode_escape_go (fuel : nat) (s : list ascii) : res string :=
  match fuel, s with
  | _, [] => Ok ""
  | O, _ => Raise OutOfFuel
  | S fuel, c :: s =>
      if Ascii.eqb c "\" then
        match s with
        | [] => Raise UnicodeDecodeError
        | d :: s => res_bind (escape_at d s) (λ '(t, s),
                    res_bind (unicode_escape_go fuel s) (λ r, Ok (t +:+ r)))
        end
      else res_bind (unicode_escape_go fuel s) (λ r, Ok (String c r))
  end.
Definition unicode_escape (s : string) : res string :=
  unicode_escape_go (String.length s) (String.list_ascii_of_string s).

(* @src runtime_v1/coding_worker/executor.py:71-74 _TEST_COMMAND_RE *)
Definition _TEST_COMMAND_RE : regex :=
  RSeq (foldr (λ w r, RAlt (lit_i w) r) (lit_i "make")
          ["npm"; "pnpm"; "yarn"; "bun"; "uv"; "pytest"; "python"; "node"; "vitest"; "cargo"; "go"])
    RBound.

(* @src runtime_v1/coding_worker/executor.py:106-119 _looks_like_test *)
Definition _looks_like_test (command : string) : bool :=
  let lowered := Prelude.lower command in
  let any_in (markers : list string) := existsb (λ m, str_in m lowered) markers in
  any_in ["test"; "pytest"; "vitest"; "jest"; "cargo test"; "go test"; "npm test"] ||
  (bool_decide (is_Some (re_search _TEST_COMMAND_RE (λ _, Some tt) None
                           (String.list_ascii_of_string command))) &&
   any_in ["verify"; "check"; "status"; "cat "; "od "; "ls "; "test -"]).

(** The test a line of the output reports, if it reports one. *)
(* @src runtime_v1/coding_worker/executor.py:77-103 extract_tests_from_codex_output *)
Definition test_of_line (line : string) : res (option CodingWorkerTestResult) :=
  if negb (str_in (quoted "type" +:+ ":" +:+ quoted "item.completed") line) &&
     negb (str_in (quoted "type" +:+ ": " +:+ quoted "item.completed") line) &&
     negb (str_in "command_execution" line) then Ok None
  else
    match json_string_field "command" line with
    | None => Ok None
    | Some escaped =>
        res_bind (unicode_escape escaped) (λ command,
        if negb (_looks_like_test command) then Ok None
        else
          let exit_code := default "null"
            (re_search (json_key "exit_code") exit_code_group None
               (String.list_ascii_of_string line)) in
          res_bind (match json_string_field "aggregated_output" line with
                    | Some output => res_bind (unicode_escape output) (λ o, Ok (str_take 400 o))
                    | None => Ok ""
                    end) (λ summary,
          Ok (Some {| tr_command := str_take 300 command;
                      tr_status := if exit_code == "0" then "passed" else "failed";
                      tr_output_summary := summary |})))
    end.

(* @src runtime_v1/coding_worker/executor.py:77-103 extract_tests_from_codex_output *)
Definition extract_tests_from_codex_output (stdout : string) :
    res (list CodingWorkerTestResult) :=
  res_bind (traverse test_of_line (splitlines stdout)) (λ found, Ok (omap id found)).
End unicode_escape.

(** ** Leases *)

(* @src runtime_v1/coding_worker/lifecycle.py:12-13 CodingWorkerLeaseError *)
Definition CodingWorkerLeaseError (message : string) : exn :=
  Exn "CodingWorkerLeaseError" "" message.
Definition is_CodingWorkerLeaseError (e : exn) : bool := exn_class e == "CodingWorkerLeaseError".

Section lifecycle.
Context `{PyLib}.

(** The handle is the lease itself: of the fields it takes over from a renewal the worker
    only reads those that never change. [t] counts the readings of the clock and of [uuid4]. *)
(* @src runtime_v1/coding_worker/lifecycle.py:38-55 acquire_exclusive_lease *)
Definition acquire_exclusive_lease (t : nat) (task_id worker_id connector_id : string)
    (attempt_id : option string) : M LeaseService TaskLease :=
  current ← active_lease (clock t) task_id;
  if match current with Some c => lease_status c == ACTIVE | None => false end then
    raise (CodingWorkerLeaseError "duplicate task lease prevented")
  else
    acquire (clock (t + 2)) (clock (t + 3)) (uuid_str (t + 4)) task_id worker_id connector_id
      (if otruthy attempt_id then default "" attempt_id
       else "coding_attempt_" +:+ uuid_hex (t + 1)) None.

(* @src runtime_v1/coding_worker/lifecycle.py:29-31 CodingWorkerLeaseHandle.heartbeat *)
Definition handle_heartbeat (t : nat) (handle : TaskLease) : M LeaseService TaskLease :=
  heartbeat (clock t) (clock (t + 1)) (lease_task_id handle) (fencing_token handle).

(* @src runtime_v1/coding_worker/lifecycle.py:33-35 CodingWorkerLeaseHandle.release *)
Definition handle_release (t : nat) (handle : TaskLease) : M LeaseService TaskLease :=
  release (clock t) (lease_task_id handle) (fencing_token handle).

(* @src runtime_v1/coding_worker/lifecycle.py:58-66 recover_stale_lease *)
Definition recover_stale_lease (t : nat) (task_id : string) : M LeaseService bool :=
  current ← active_lease (clock t) task_id;
  mret (match current with
        | None => true
        | Some c => (lease_status c == EXPIRED) || (lease_status c == RELEASED)
        end).
End lifecycle.

(** ** The repository *)

(* @src runtime_v1/coding_worker/safety.py:10-14 RepositorySafetyError *)
Definition RepositorySafetyError (code message : string) : exn :=
  Exn "RepositorySafetyError" code message.
Definition is_RepositorySafetyError (e : exn) : bool := exn_class e == "RepositorySafetyError".

(* @src runtime_v1/coding_worker/safety.py:17-26 RepositorySafetyReport *)
Record RepositorySafetyReport := {
  sr_path : string;
  sr_exists : bool;
  sr_is_git : bool;
  sr_branch : option string;
  sr_dirty : bool;
  sr_dirty_files : list string;
  sr_expected_branch : option string;
  sr_branch_ok : bool
}.

(** What the worker asks of the file system besides [OperatingSystem], and git: the exit code
    and the output of [git args] in a directory. Paths are expanded ([~]). *)
Record WorkTree (S : Type) := {
  wt_exists : string → M S bool;
  wt_is_dir : string → M S bool;
  wt_git : string → list string → M S (Z * string)
}.
Arguments wt_exists {S}.
Arguments wt_is_dir {S}.
Arguments wt_git {S}.

(** [line[3:]] of the lines that are not blank. *)
Definition porcelain_files (status : string) : list string :=
  (λ line, String.substring 3 (String.length line) line) <$>
    List.filter (λ line, strip line != "") (splitlines status).

Section safety.
Context {S : Type} (OS : OperatingSystem S) (T : WorkTree S).

(* @src runtime_v1/coding_worker/safety.py:29-42 assert_path_inside_repository *)
Definition assert_path_inside_repository (repository candidate : string) : M S string :=
  root ← os_resolve OS repository;
  resolved ← catch (os_resolve_lax OS candidate) (λ e,
    if is_OSError e then raise (RepositorySafetyError "path_unresolvable" (exn_msg e))
    else raise e);
  if ".." in? path_parts candidate then
    raise (RepositorySafetyError "path_traversal" "path traversal rejected")
  else if is_inside root resolved then mret resolved
  else raise (RepositorySafetyError "path_escape" "edit path escapes allowed repository").

(* @src runtime_v1/coding_worker/safety.py:102-112 _git_stdout *)
Definition _git_stdout (cwd : string) (args : list string) : M S string :=
  '(returncode, stdout) ← wt_git T cwd args;
  mret (if (returncode =? 0)%Z then strip stdout else "").

(** [path / name]. *)
Definition slash (path name : string) : string :=
  if endswith "/" path then path +:+ name else path +:+ "/" +:+ name.

(* @src runtime_v1/coding_worker/safety.py:45-89 inspect_repository *)
Definition inspect_repository (path : string)
    (expected_branch expected_worktree : option string) : M S RepositorySafetyReport :=
  (if otruthy expected_worktree then
     root ← os_resolve_lax OS path;
     worktree ← os_resolve_lax OS (default "" expected_worktree);
     if root != worktree then
       raise (RepositorySafetyError "worktree_mismatch"
                "repository path does not match expected worktree")
     else mret tt
   else mret tt);;
  exists_ ← wt_exists T path;
  if negb exists_ then
    raise (RepositorySafetyError "repository_missing" ("repository missing: " +:+ path))
  else
  directory ← wt_is_dir T path;
  if negb directory then
    raise (RepositorySafetyError "repository_not_dir" ("not a directory: " +:+ path))
  else
  resolved ← os_resolve OS path;
  is_git ← wt_exists T (slash resolved ".git");
  '(branch, lines) ←
    (if is_git : bool then
       branch ← _git_stdout resolved ["rev-parse"; "--abbrev-ref"; "HEAD"];
       status ← _git_stdout resolved ["status"; "--porcelain"];
       mret (Some branch, porcelain_files status)
     else mret (None, []));
  let branch_ok := (expected_branch == None) || (branch == expected_branch) in
  if negb branch_ok then
    raise (RepositorySafetyError "branch_mismatch"
      ("expected branch " +:+ default "" expected_branch +:+ ", found " +:+
       default "None" branch))
  else
    mret {| sr_path := resolved; sr_exists := true; sr_is_git := is_git; sr_branch := branch;
            sr_dirty := negb (lines == []); sr_dirty_files := lines;
            sr_expected_branch := expected_branch; sr_branch_ok := branch_ok |}.

(* @src runtime_v1/coding_worker/safety.py:92-99 list_changed_files *)
Definition list_changed_files (path : string) (before : list string) : M S (list string) :=
  root ← os_resolve OS path;
  is_git ← wt_exists T (slash root ".git");
  if negb is_git then mret []
  else
    status ← _git_stdout root ["status"; "--porcelain"];
    mret (List.filter (λ item, negb (item in? before)) (porcelain_files status)).
End safety.

(** ** The worker *)

(** The runner and the set of cancelled tasks a worker is built with. *)
(* @src runtime_v1/coding_worker/executor.py:123-141 CodingWorker.__init__ *)
Record CodingWorkerState := { cs_runner : RunnerState; cs_cancelled : gset string }.
Definition CodingWorkerState_init : CodingWorkerState :=
  {| cs_runner := RunnerState_init; cs_cancelled := ∅ |}.
Definition set_cs_runner (r : RunnerState) (w : CodingWorkerState) : CodingWorkerState :=
  {| cs_runner := r; cs_cancelled := cs_cancelled w |}.
Definition on_cs_cancelled (f : gset string → gset string) (w : CodingWorkerState) :
    CodingWorkerState :=
  {| cs_runner := cs_runner w; cs_cancelled := f (cs_cancelled w) |}.

Section worker.
Context {S : Type} `{PyLib} (OS : OperatingSystem S) (T : WorkTree S) (U : UnicodeText).
Context (ticks : nat → M S nat).
Context (leases : S → LeaseService) (set_leases : LeaseService → S → S).
Context (worker : S → CodingWorkerState) (set_worker : CodingWorkerState → S → S).
Context (codex : ConnectorRuntime S).

Definition on_leases {A} (n : nat) (m : nat → M LeaseService A) : M S A :=
  t ← ticks n; zoom leases set_leases (m t).

(* @src runtime_v1/coding_worker/executor.py:135-140 CodingWorker.__init__ *)
Definition codex_harness : ConnectorHarnessAdapter S :=
  {| ca_harness_id := "codex"; ca_display_name := "OpenAI Codex CLI";
     ca_connector := codex; ca_allowed_roots := [] |}.
Definition codex_adapter : HarnessAdapter S := Connected codex_harness.

(** The context of a run of Codex in an inspected repository. *)
(* @src runtime_v1/coding_worker/executor.py:200-210 CodingWorker.execute *)
Definition run_context (task : CodingWorkerTask) (safety : RepositorySafetyReport) : dict :=
  [("execution_id", PStr (ct_execution_id task)); ("workspace_path", PStr (sr_path safety));
   ("timeout_seconds", PInt (ct_timeout_seconds task));
   ("read_only", PBool (negb (aa_edit_files (ct_allowed_actions task))))].

(** [self._adapter.run]. *)
(* @src runtime_v1/coding_worker/executor.py:202-213 CodingWorker.execute *)
Definition run_codex (prompt : string) (context : dict) : M S dict :=
  adapter_run OS (λ s, cs_runner (worker s)) (λ r s, set_worker (set_cs_runner r (worker s)) s)
    (n ← ticks 1; mret (uuid_str n)) codex_adapter prompt context.

(* @src runtime_v1/coding_worker/executor.py:143-144 CodingWorker.cancel *)
Definition cancel (task_id : string) : M S unit :=
  modify_state (λ s, set_worker (on_cs_cancelled (λ c, {[task_id]} ∪ c) (worker s)) s).
Definition is_cancelled (task_id : string) : M S bool :=
  s ← get_state (S := S); mret (task_id in? cs_cancelled (worker s)).

(** A run keeps the list of what it has reported. *)
Local Abbreviation Run := (S * list string)%type.
Definition await {A} (m : M S A) : M Run A := λ r, let '(a, s) := m r.1 in (a, (s, r.2)).
Definition with_progress {A} (m : M Run A) : M S A := λ s, let '(a, r) := m (s, []) in (a, r.1).

Context (on_progress : string → M S unit).

(* @src runtime_v1/coding_worker/executor.py:154-159 CodingWorker.execute *)
Definition emit (label : string) : M Run unit :=
  modify_state (λ r, (r.1, r.2 ++ [label]));; await (on_progress label).

(** A result without files, tests and references. *)
Definition plain_result (task : CodingWorkerTask) (default_worker status summary error : string)
    (handle : option TaskLease) (progress : list string) : CodingWorkerResult :=
  {| cw_task_id := ct_task_id task; cw_status := status; cw_summary := summary;
     cw_changed_files := []; cw_tests_run := []; cw_artifacts := []; cw_evidence := [];
     cw_error := Some error;
     cw_worker_id := Some (or_text (Some (ct_worker_id task)) default_worker);
     cw_lease_id := lease_id <$> handle; cw_fencing_token := fencing_token <$> handle;
     cw_progress_events := progress |}.

Context (worker_id : string).

(* @src runtime_v1/coding_worker/executor.py:313-328 CodingWorker._cancelled_result *)
Definition _cancelled_result (task : CodingWorkerTask) (handle : TaskLease) :
    M Run CodingWorkerResult :=
  r ← get_state (S := Run);
  mret (plain_result task worker_id "cancelled" "task cancelled" "cancelled" (Some handle) r.2).

(** The tests of the output; without any, the run itself stands for one. *)
(* @src runtime_v1/coding_worker/executor.py:230-240 CodingWorker.execute *)
Definition tests_of (task : CodingWorkerTask) (output : dict) :
    res (list CodingWorkerTestResult) :=
  res_bind (py_dict (py_or (dget "process" output) (PDict []))) (λ process,
  let full_stdout := py_str (py_or (py_or (dget "stdout" process) (dget "stdout_preview" process))
                               (PStr "")) in
  res_bind (extract_tests_from_codex_output U full_stdout) (λ tests,
  Ok (match tests with
      | [] => if aa_run_tests (ct_allowed_actions task) then
                [{| tr_command := "git status --short";
                    tr_status := if truthy (dget "ok" output) then "passed" else "failed";
                    tr_output_summary := "verification captured from worker evidence" |}]
              else []
      | _ => tests
      end))).

(** The result of a run that was not cancelled. *)
(* @src runtime_v1/coding_worker/executor.py:248-283 CodingWorker.execute *)
Definition run_outcome (task : CodingWorkerTask) (handle : TaskLease)
    (safety : RepositorySafetyReport) (output : dict) (tests : list CodingWorkerTestResult)
    (changed : list string) : M Run CodingWorkerResult :=
  let ok := truthy (dget "ok" output) in
  let status := if ok then "completed" else "failed" in
  let message := py_str (py_or (dget "message" output) (PStr status)) in
  let uri := "ref://joymesh/coding-worker/" +:+ ct_task_id task in
  emit (if ok then progress_event 5 else "Task failed");;
  r ← get_state (S := Run);
  mret {| cw_task_id := ct_task_id task; cw_status := status; cw_summary := message;
          cw_changed_files := changed; cw_tests_run := tests;
          cw_artifacts := (λ item, {| af_kind := "changed_file";
            af_uri := "file://" +:+ sr_path safety +:+ "/" +:+ item; af_digest := None |})
            <$> changed;
          cw_evidence :=
            [{| er_kind := "coding_worker_result"; er_uri := uri; er_summary := message |};
             {| er_kind := "changed_files"; er_uri := uri +:+ "/files";
                er_summary := match changed with
                              | [] => "no new changes"
                              | _ => join ", " changed
                              end |}];
          cw_error := if ok then None
                      else Some (py_str (py_or (dget "failure_class" output)
                                           (PStr "process_failure")));
          cw_worker_id := Some (or_text (Some (ct_worker_id task)) worker_id);
          cw_lease_id := Some (lease_id handle); cw_fencing_token := Some (fencing_token handle);
          cw_progress_events := r.2 |}.

Definition beat (handle : TaskLease) : M Run unit :=
  await (on_leases 2 (λ t, handle_heartbeat t handle));; mret tt.

(** What follows a run of the adapter that gave an output. *)
(* @src runtime_v1/coding_worker/executor.py:226-283 CodingWorker.execute *)
Definition after_run (task : CodingWorkerTask) (handle : TaskLease)
    (safety : RepositorySafetyReport) (output : dict) : M Run CodingWorkerResult :=
  (if aa_run_tests (ct_allowed_actions task) then emit (progress_event 3) else mret tt);;
  beat handle;;
  tests ← lift_res (tests_of task output);
  changed ← await (list_changed_files OS T (sr_path safety) (sr_dirty_files safety));
  emit (progress_event 4);;
  cancelled ← await (is_cancelled (ct_task_id task));
  if cancelled : bool then _cancelled_result task handle
  else run_outcome task handle safety output tests changed.

(** The body of the [try] block. *)
(* @src runtime_v1/coding_worker/executor.py:179-283 CodingWorker.execute *)
Definition work (task : CodingWorkerTask) (handle : TaskLease) : M Run CodingWorkerResult :=
  let actions := ct_allowed_actions task in
  cancelled ← await (is_cancelled (ct_task_id task));
  if cancelled : bool then _cancelled_result task handle
  else
  safety ← await (inspect_repository OS T (cwr_path (ct_repository task))
                    (cwr_branch (ct_repository task)) (cwr_worktree (ct_repository task)));
  emit (progress_event 1);;
  beat handle;;
  if negb (aa_edit_files actions) && negb (aa_run_tests actions) then
    raise (RepositorySafetyError "no_actions" "coding worker has no allowed actions")
  else
  emit (progress_event 2);;
  beat handle;;
  cancelled ← await (is_cancelled (ct_task_id task));
  if cancelled : bool then _cancelled_result task handle
  else
  ran ← catch
    (output ← await (run_codex (build_codex_prompt task) (run_context task safety));
     mret (inr output))
    (λ e, if is_ProcessRunnerError e then mret (inl e) else raise e);
  match ran with
  | inl e =>
      beat handle;;
      r ← get_state (S := Run);
      mret (plain_result task worker_id "failed" (exn_msg e) (exn_code e) (Some handle) r.2)
  | inr output => after_run task handle safety output
  end.

(** The handlers of the [try] block. *)
(* @src runtime_v1/coding_worker/executor.py:284-305 CodingWorker.execute *)
Definition work_failed (task : CodingWorkerTask) (handle : TaskLease) (e : exn) :
    M Run CodingWorkerResult :=
  r ← get_state (S := Run);
  if is_RepositorySafetyError e then
    mret (plain_result task worker_id "failed" (exn_msg e) (exn_code e) (Some handle) r.2)
  else if is_Exception e then
    mret (plain_result task worker_id "failed" "coding worker failed" (exn_class e)
            (Some handle) r.2)
  else raise e.

(** The [finally] block. *)
(* @src runtime_v1/coding_worker/executor.py:306-311 CodingWorker.execute *)
Definition give_back (task : CodingWorkerTask) (handle : TaskLease) : M S unit :=
  catch (on_leases 1 (λ t, handle_release t handle);; mret tt)
    (λ e, if is_Exception e then mret tt else raise e);;
  modify_state (λ s, set_worker (on_cs_cancelled (λ c, c ∖ {[ct_task_id task]}) (worker s)) s).

(* @src runtime_v1/coding_worker/executor.py:146-311 CodingWorker.execute *)
Definition execute (task : CodingWorkerTask) : M S CodingWorkerResult :=
  acquired ← catch
    (handle ← on_leases 5 (λ t, acquire_exclusive_lease t (ct_task_id task)
        (or_text (Some (ct_worker_id task)) worker_id) "codex" None);
     mret (inr handle))
    (λ e, if is_CodingWorkerLeaseError e then mret (inl e) else raise e);
  match acquired with
  | inl e =>
      mret (plain_result task worker_id "failed" "duplicate task lease prevented" (exn_msg e)
              None [])
  | inr handle =>
      with_progress
        (emit (progress_event 0);;
         finally (catch (work task handle) (work_failed task handle))
           (await (give_back task handle)))
  end.
End worker.

(* @src runtime_v1/coding_worker/executor.py:40-46 coding_worker_ready *)
Definition coding_worker_ready {S} (OS : OperatingSystem S) : M S dict :=
  executable ← os_which OS "codex";
  mret [("codingWorkerReady", PBool (otruthy executable)); ("harness", PStr "codex");
        ("executable", ostr executable)].

(* @src runtime_v1/coding_worker/executor.py:341-380 task_from_runtime *)
Definition task_from_runtime (fresh task_id prompt workspace_path : string)
    (mission_id execution_id correlation_id branch : option string)
    (allow_commit allow_push : bool) (timeout_seconds : Z) (constraints : list string) :
    CodingWorkerTask :=
  {| ct_task_id := task_id; ct_mission_id := or_text mission_id task_id;
     ct_execution_id := or_text execution_id ("execution_" +:+ fresh);
     ct_correlation_id := or_text correlation_id task_id;
     ct_repository := {| cwr_path := workspace_path; cwr_branch := branch; cwr_worktree := None |};
     ct_objective := prompt;
     ct_constraints := match constraints with
                       | [] => ["Do not commit"; "Do not push"; "Stay inside the repository"]
                       | _ => constraints
                       end;
     ct_allowed_actions := {| aa_edit_files := true; aa_run_tests := true;
                              aa_commit := allow_commit; aa_push := allow_push |};
     ct_worker_id := "local-codex-worker"; ct_lease_ttl_seconds := 60;
     ct_timeout_seconds := timeout_seconds |}.
