(* ===== verification/CodingWorkerProofs.v ===== *)
(** * What the coding worker promises

    The lease of a run is given back however the run ends; a task that another worker holds is
    refused; a completed run is a run of Codex that ended with exit code 0. The operating
    system, git, the connector and the progress callback are arbitrary. *)

From Stdlib Require Import Ascii SpecFloat.
From S2P Require Import Prelude Security Leases TaskAnalysis Execution Router Processes Harness.
From S2P Require Import Backends BackendsProofs CodingWorker.

(** ** Leases *)

(** Nobody holds the lease of a handle: it is not there, it was replaced, or it is released. *)
Definition given_back (handle : TaskLease) (ls : LeaseService) : Prop :=
  ∀ l, active_map ls !! lease_task_id handle = Some l →
    fencing_token l = fencing_token handle → lease_status l = RELEASED.

Lemma release_gives_back now handle ls :
  given_back handle (release now (lease_task_id handle) (fencing_token handle) ls).2.
Proof.
  unfold given_back, release, active_lease, mbind, M_bind, get_state, modify_state, mret, M_ret.
  destruct (active_map ls !! lease_task_id handle) as [lease|] eqn:E; simpl.
  2: { intros l. rewrite E. done. }
  destruct (expires_at lease <=? now)%Z; simpl.
  - case_bool_decide as Ht; simpl; rewrite lookup_insert_eq.
    + intros l Hl Htok. revert Hl. rewrite ?insert_insert_eq, ?lookup_insert_eq. by intros [= <-].
    + by intros l [= <-] Htok.
  - case_bool_decide as Ht; simpl.
    + intros l. rewrite lookup_insert_eq. by intros [= <-].
    + intros l. rewrite E. intros [= <-]. done.
Qed.

Section acquisition.
Context `{PyLib}.

Lemma acquired_handle t task worker connector attempt ls h ls' :
  acquire_exclusive_lease t task worker connector attempt ls = (Ok h, ls') →
  lease_task_id h = task ∧ active_map ls' !! task = Some h ∧ lease_status h = ACTIVE.
Proof.
  unfold acquire_exclusive_lease, acquire. intros Hr.
  apply bind_Ok_inv in Hr as (c & ls1 & _ & Hr). destruct (match c with Some _ => _ | None => _ end);
    [done|].
  apply bind_Ok_inv in Hr as (c' & ls2 & _ & Hr). destruct (match c' with Some _ => _ | None => _ end);
    [done|]. injection Hr as <- <-. simpl. by rewrite lookup_insert_eq.
Qed.
End acquisition.

(** ** Runs *)

Section worker_lemmas.
Context {S : Type} `{PyLib} (OS : OperatingSystem S) (T : WorkTree S) (U : UnicodeText).
Context (ticks : nat → M S nat).
Context (leases : S → LeaseService) (set_leases : LeaseService → S → S).
Context (worker : S → CodingWorkerState) (set_worker : CodingWorkerState → S → S).
Context (codex : ConnectorRuntime S) (on_progress : string → M S unit) (worker_id : string).
Local Abbreviation execute :=
  (execute OS T U ticks leases set_leases worker set_worker codex on_progress worker_id).
Local Abbreviation work :=
  (work OS T U ticks leases set_leases worker set_worker codex on_progress worker_id).
Local Abbreviation give_back := (give_back ticks leases set_leases worker set_worker).
Local Abbreviation run_codex := (run_codex OS ticks worker set_worker codex).

(** The clock answers, and the parts of the state do not overlap. *)
Context (ticks_answer : ∀ n s, is_ok (ticks n s).1).
Context (leases_set : ∀ l s, leases (set_leases l s) = l).
Context (leases_worker : ∀ w s, leases (set_worker w s) = leases s).

Lemma give_back_frees task handle s r s' :
  give_back task handle s = (r, s') → given_back handle (leases s').
Proof.
  unfold CodingWorker.give_back, on_leases, catch, mbind, M_bind.
  pose proof (ticks_answer 1 s) as Ht. destruct (ticks 1 s) as [[t|e] s1]; [clear Ht|done].
  unfold zoom, handle_release.
  pose proof (release_gives_back (clock t) handle (leases s1)) as Hback.
  destruct (release _ _ _ _) as [[l|e] ls]; simpl in *.
  - intros [= _ <-]. by rewrite leases_worker, leases_set.
  - destruct (is_Exception e); simpl; intros [= _ <-]; by rewrite ?leases_worker, leases_set.
Qed.

(** A value of [m] that returned has [Q]. *)
Definition gives {St A} (Q : A → Prop) (m : M St A) : Prop :=
  ∀ s a s', m s = (Ok a, s') → Q a.
Lemma gives_ret {St A} (Q : A → Prop) a : Q a → gives Q (mret (M := M St) a).
Proof. by intros HQ s b s' [= <- _]. Qed.
Lemma gives_raise {St A} (Q : A → Prop) e : gives Q (raise (S := St) e).
Proof. by intros s b s'. Qed.
Lemma gives_bind {St A B} (Q : B → Prop) (m : M St A) k :
  (∀ a, gives Q (k a)) → gives Q (m ≫= k).
Proof. intros Hk s b s' (a & s1 & _ & Hb)%bind_Ok_inv. by eapply Hk. Qed.
Lemma gives_catch {St A} (Q : A → Prop) (m : M St A) h :
  gives Q m → (∀ e, gives Q (h e)) → gives Q (catch m h).
Proof. intros Hm Hh s a s' [E|(e & s1 & _ & E)]%catch_Ok_inv; [by eapply Hm|by eapply Hh]. Qed.
Ltac gives_steps := repeat (simpl; lazymatch goal with
  | |- gives _ (catch _ _ ≫= _) => fail
  | |- gives _ (mret _) => apply gives_ret
  | |- gives _ (raise _) => apply gives_raise
  | |- gives _ (_ ≫= _) => apply gives_bind; intros
  | |- gives _ (if ?b then _ else _) => destruct b eqn:?
  | |- gives _ (match ?x with _ => _ end) => destruct x eqn:?
  end).

(** A result that was made under a handle names its lease. *)
Definition names_lease (handle : TaskLease) (r : CodingWorkerResult) : Prop :=
  cw_fencing_token r = Some (fencing_token handle) ∧ cw_lease_id r = Some (lease_id handle).

Lemma work_names_lease task handle : gives (names_lease handle) (work task handle).
Proof.
  unfold CodingWorker.work, after_run, run_outcome, _cancelled_result.
  gives_steps; try by split. apply gives_bind. intros. gives_steps; by split.
Qed.
Lemma handlers_name_lease task handle e :
  gives (names_lease handle) (work_failed (S := S) worker_id task handle e).
Proof. unfold work_failed. gives_steps; by split. Qed.

(** How a run that returned went: refused, or under a handle. *)
Lemma execute_cases task s r s' :
  execute task s = (Ok r, s') →
  cw_status r = "failed" ∧ cw_fencing_token r = None ∨
  ∃ handle s1 p1 s2 p2,
    lease_task_id handle = ct_task_id task ∧ names_lease handle r ∧
    catch (work task handle) (work_failed worker_id task handle) (s1, p1) = (Ok r, (s2, p2)) ∧
    give_back task handle s2 = (Ok tt, s').
Proof.
  unfold CodingWorker.execute. intros (acq & s0 & Hacq & Hr)%bind_Ok_inv.
  destruct acq as [e|handle]; [injection Hr as <- _; by left|]. right.
  apply catch_Ok_inv in Hacq as [Hacq|(e & s1 & _ & Hacq)]; cycle 1.
  { by destruct (is_CodingWorkerLeaseError e). }
  apply bind_Ok_inv in Hacq as (h & s1 & Hacq & [= -> ->]).
  unfold on_leases in Hacq. apply bind_Ok_inv in Hacq as (t & st & _ & Hacq).
  unfold zoom in Hacq. destruct (acquire_exclusive_lease _ _ _ _ _ _) as [x ls] eqn:E.
  injection Hacq as -> _. apply acquired_handle in E as (Htask & _).
  unfold with_progress in Hr.
  match type of Hr with context [match ?m with _ => _ end] => destruct m as [a [s3 p3]] eqn:E end.
  injection Hr as -> <-. apply bind_Ok_inv in E as ([] & [s1' p1] & _ & E).
  unfold finally in E.
  destruct (catch _ _ (s1', p1)) as [a [s2 p2]] eqn:Ew.
  unfold await in E. simpl in E. destruct (give_back task handle s2) as [[[]|e] s4] eqn:Eg; [|done].
  injection E as -> <- <-. exists handle, s1', p1, s2, p2. split_and!; try done.
  eapply (gives_catch (names_lease handle)); [apply work_names_lease|apply handlers_name_lease|done].
Qed.

(** C38: However the run of a task ends, with a result, a cancellation, a refused repository or
    an exception, and whatever Codex, git and the callbacks did to the leases meanwhile: when
    [execute] has returned, the lease its result names is not held any more. *)
Theorem finished_run_holds_no_lease task s r s' tok l :
  execute task s = (Ok r, s') → cw_fencing_token r = Some tok →
  active_map (leases s') !! ct_task_id task = Some l → fencing_token l = tok →
  lease_status l = RELEASED.
Proof.
  intros [[_ Hn]|(handle & s1 & p1 & s2 & p2 & Htask & [Hn _] & _ & Hg)]%execute_cases Htok Hl Ht;
    [congruence|].
  eapply (give_back_frees _ _ _ _ _ Hg); rewrite ?Htask; [done|]. congruence.
Qed.

(** A task whose lease is active is refused, and nothing is run or changed. *)
Theorem held_task_is_refused task s t s1 l :
  ticks 5 s = (Ok t, s1) → active_map (leases s1) !! ct_task_id task = Some l →
  lease_status l = ACTIVE → (clock t < expires_at l)%Z →
  execute task s =
    (Ok (plain_result task worker_id "failed" "duplicate task lease prevented"
           "duplicate task lease prevented" None []), set_leases (leases s1) s1).
Proof.
  intros Ht Hl Ha Hexp. set (W := or_text (Some (ct_worker_id task)) worker_id). unfold CodingWorker.execute. fold W.
  assert (on_leases ticks leases set_leases 5
      (λ t, acquire_exclusive_lease t (ct_task_id task) W "codex" None) s =
    (Raise (CodingWorkerLeaseError "duplicate task lease prevented"),
     set_leases (leases s1) s1)) as E.
  { unfold on_leases, mbind, M_bind at 1. rewrite Ht. unfold zoom, acquire_exclusive_lease.
    unfold active_lease, mbind, M_bind, get_state. rewrite Hl.
    replace (expires_at l <=? clock t)%Z with false by (symmetry; apply Z.leb_gt; lia).
    cbn. by rewrite Ha. }
  unfold mbind at 1, M_bind at 1, catch, mbind at 1, M_bind at 1. by rewrite E.
Qed.

(** *** A completed run *)

Local Abbreviation emit := (emit on_progress).
Local Abbreviation beat := (beat ticks leases set_leases).
Local Abbreviation after_run :=
  (after_run OS T U ticks leases set_leases worker on_progress worker_id).
Local Abbreviation acquire_handle task :=
  (on_leases ticks leases set_leases 5
     (λ t, acquire_exclusive_lease t (ct_task_id task) (or_text (Some (ct_worker_id task)) worker_id)
        "codex" None)).

(** The executable of Codex: the one its connector reports, else the one on the search path. *)
Definition codex_executable (s : S) (executable : string) (s' : S) : Prop :=
  ∃ detection s1, detect_connector (codex_harness codex) s = (Ok detection, s1) ∧
    executable ≠ "" ∧
    (dget "executable_path" detection = PStr executable ∧ s' = s1 ∨
     (∀ c path, dget "executable_path" detection ≠ PStr (String c path)) ∧
     os_which OS "codex" s1 = (Ok (Some executable), s')).

(** One run of Codex for a task between [s] and [s']: the adapter is valid in the inspected
    repository, the command line is the one the connector builds for the executable, the prompt
    of the task, that repository and its permission to edit, and the process of this command
    line, started there with the time limit and the execution id of the task, ended well. *)
Definition codex_ran (task : CodingWorkerTask) (safety : RepositorySafetyReport)
    (s : S) (output : dict) (s' : S) : Prop :=
  ∃ s1 executable s2 prepared request s3 result,
    validate_connector OS (codex_harness codex) (run_context task safety) s = (Ok tt, s1) ∧
    codex_executable s1 executable s2 ∧
    rq_argv request = cr_build_exec_argv codex executable (build_codex_prompt task)
      (sr_path safety) (negb (aa_edit_files (ct_allowed_actions task))) ∧
    rq_cwd request = sr_path safety ∧
    py_float (py_or (PInt (ct_timeout_seconds task)) (PInt 300)) =
      Ok (rq_timeout_seconds request) ∧
    rq_extra_env request = cr_execution_environment codex true ∧
    (if ct_execution_id task == "" then True
     else rq_run_id request = ct_execution_id task ∧ s3 = s2) ∧
    process_ended_well OS (λ s, cs_runner (worker s))
      (λ r s, set_worker (set_cs_runner r (worker s)) s) request s3 s' ∧
    pr_ok result = true ∧ output = run_answer (codex_harness codex) prepared result.

Lemma await_Ok_inv {A} (m : M S A) (r : S * list string) a r' :
  await m r = (Ok a, r') → m r.1 = (Ok a, r'.1) ∧ r'.2 = r.2.
Proof. unfold await. destruct (m r.1). by intros [= -> <-]. Qed.

Lemma prepare_codex task safety s argv prepared s' :
  prepare_connector OS (codex_harness codex) (build_codex_prompt task) (run_context task safety) s =
    (Ok (argv, prepared), s') →
  ∃ s1 executable,
    validate_connector OS (codex_harness codex) (run_context task safety) s = (Ok tt, s1) ∧
    codex_executable s1 executable s' ∧
    argv = cr_build_exec_argv codex executable (build_codex_prompt task)
      (sr_path safety) (negb (aa_edit_files (ct_allowed_actions task))).
Proof.
  unfold prepare_connector. intros ([] & s1 & Hv & Hp)%bind_Ok_inv.
  apply bind_Ok_inv in Hp as (detection & s2 & Hd & Hp).
  apply bind_Ok_inv in Hp as (found & s3 & Hf & Hp).
  destruct (otruthy found) eqn:Ho; [|done].
  apply bind_Ok_inv in Hp as (w & s4 & [= <- <-] & [= <- _ <-]).
  destruct found as [executable|]; [|done]. exists s1, executable. split_and!; [done| |done].
  exists detection, s2. split_and!; [done|by intros ->|].
  destruct (dget "executable_path" detection) as [| | | |[]| |] eqn:E;
    try (right; by split).
  injection Hf as <- <-. by left.
Qed.

Lemma request_of_codex task safety argv s request s' :
  run_request (n ← ticks 1; mret (uuid_str n)) (codex_harness codex) argv
    (run_context task safety) s = (Ok request, s') →
  rq_argv request = argv ∧ rq_cwd request = sr_path safety ∧
  py_float (py_or (PInt (ct_timeout_seconds task)) (PInt 300)) = Ok (rq_timeout_seconds request) ∧
  rq_extra_env request = cr_execution_environment codex true ∧
  (if ct_execution_id task == "" then True
   else rq_run_id request = ct_execution_id task ∧ s' = s).
Proof.
  unfold run_request. intros (id & s1 & Hid & Hr)%bind_Ok_inv.
  apply bind_Ok_inv in Hr as (w & s2 & [= <- <-] & Hr).
  apply bind_Ok_inv in Hr as (timeout & s3 & Ht & [= <- <-]).
  unfold lift_res in Ht. injection Ht as Ht <-. simpl. split_and!; try done.
  revert Hid. simpl. case_bool_decide; [done|]. destruct (ct_execution_id task); [done|].
  by intros [= <- <-].
Qed.

Lemma run_codex_ran task safety s output s' :
  run_codex (build_codex_prompt task) (run_context task safety) s = (Ok output, s') →
  truthy (dget "ok" output) = true → codex_ran task safety s output s'.
Proof.
  unfold CodingWorker.run_codex, adapter_run, codex_adapter, execute_connector.
  intros (p & s2 & Hp & Hr)%bind_Ok_inv. destruct p as [argv prepared].
  apply bind_Ok_inv in Hr as (request & s3 & Hrq & Hr).
  apply bind_Ok_inv in Hr as (result & s4 & Hrun & [= <- <-]). intros Hok.
  apply prepare_codex in Hp as (s1 & executable & Hv & Hx & ->).
  apply request_of_codex in Hrq as (? & ? & ? & ? & ?).
  assert (pr_ok result = true) as Hpr by exact Hok.
  exists s1, executable, s2, prepared, request, s3, result. split_and!; try done.
  by eapply run_ok_process.
Qed.

(** The tests for a cancellation before the run. *)
Lemma not_cancelled task handle (k : M (S * list string) CodingWorkerResult) r1 r r' :
  (cancelled ← await (is_cancelled worker (ct_task_id task));
   if cancelled : bool then _cancelled_result worker_id task handle else k) r1 = (Ok r, r') →
  cw_status r = "completed" → ct_task_id task ∉ cs_cancelled (worker r1.1) ∧ k r1 = (Ok r, r').
Proof.
  intros (c & r2 & Hc & Hr)%bind_Ok_inv Hst. destruct r1 as [s1 p1]. injection Hc as <- <-. simpl.
  case_bool_decide as Hin; [|done]. unfold _cancelled_result in Hr.
  apply bind_Ok_inv in Hr as (? & ? & _ & Hr). by injection Hr as <- _.
Qed.

(** What follows a run is completed only when the adapter answered that the run was well. *)
Lemma completed_answer task handle safety output r1 r r' :
  after_run task handle safety output r1 = (Ok r, r') → cw_status r = "completed" →
  truthy (dget "ok" output) = true.
Proof.
  intros Hr Hst.
  refine ((_ : gives (λ r, cw_status r = "completed" → truthy (dget "ok" output) = true)
             (after_run task handle safety output)) _ _ _ Hr Hst).
  unfold CodingWorker.after_run, run_outcome, _cancelled_result. gives_steps; try done.
  - intros H1. destruct (truthy _); done.
Qed.

Lemma completed_execute task s r s' :
  execute task s = (Ok r, s') → cw_status r = "completed" →
  ∃ handle s0 r1 r5,
    acquire_handle task s = (Ok handle, s0) ∧ emit (progress_event 0) (s0, []) = (Ok tt, r1) ∧
    work task handle r1 = (Ok r, r5) ∧ give_back task handle r5.1 = (Ok tt, s').
Proof.
  unfold CodingWorker.execute. intros (acq & s0 & Hacq & Hr)%bind_Ok_inv Hst.
  destruct acq as [e|handle]; [by injection Hr as <- _|].
  apply catch_Ok_inv in Hacq as [Hacq|(e & s1 & _ & Hacq)]; cycle 1.
  { by destruct (is_CodingWorkerLeaseError e). }
  apply bind_Ok_inv in Hacq as (h & s1 & Hacq & [= -> ->]).
  unfold with_progress in Hr.
  match type of Hr with context [match ?m with _ => _ end] => destruct m as [a r6] eqn:E end.
  injection Hr as -> <-. apply bind_Ok_inv in E as ([] & r1 & He & E). unfold finally in E.
  destruct (catch _ _ r1) as [a r5] eqn:Ew.
  unfold await in E. destruct (give_back task handle r5.1) as [[[]|e] s4] eqn:Eg; [|done].
  injection E as -> <-. exists handle, s0, r1, r5. split_and!; try done.
  apply catch_Ok_inv in Ew as [Ew|(e & r7 & _ & Ew)]; [done|].
  assert (cw_status r ≠ "completed"); [|done].
  refine ((_ : gives (λ r, cw_status r ≠ "completed") (work_failed worker_id task handle e)) _ _ _ Ew).
  unfold work_failed. gives_steps; done.
Qed.

Lemma completed_work task handle r1 r r5 :
  work task handle r1 = (Ok r, r5) → cw_status r = "completed" →
  ct_task_id task ∉ cs_cancelled (worker r1.1) ∧
  ∃ safety s2 r3 output s4,
    inspect_repository OS T (cwr_path (ct_repository task)) (cwr_branch (ct_repository task))
      (cwr_worktree (ct_repository task)) r1.1 = (Ok safety, s2) ∧
    (emit (progress_event 1);; beat handle;; emit (progress_event 2);; beat handle)
      (s2, r1.2) = (Ok tt, r3) ∧
    aa_edit_files (ct_allowed_actions task) || aa_run_tests (ct_allowed_actions task) = true ∧
    ct_task_id task ∉ cs_cancelled (worker r3.1) ∧
    codex_ran task safety r3.1 output s4 ∧
    after_run task handle safety output (s4, r3.2) = (Ok r, r5).
Proof.
  intros Hw Hst. unfold CodingWorker.work in Hw. apply not_cancelled in Hw as [Hc1 Hw]; [|done].
  apply bind_Ok_inv in Hw as (safety & r2 & Hi & Hw). apply await_Ok_inv in Hi as [Hi Hp].
  apply bind_Ok_inv in Hw as ([] & ra & H1 & Hw). apply bind_Ok_inv in Hw as ([] & rb & H2 & Hw).
  destruct (negb _ && negb _) eqn:Hact; [done|].
  apply bind_Ok_inv in Hw as ([] & rc & H3 & Hw). apply bind_Ok_inv in Hw as ([] & r3 & H4 & Hw).
  apply not_cancelled in Hw as [Hc2 Hw]; [|done].
  apply bind_Ok_inv in Hw as (ran & r4 & Hran & Hw).
  destruct ran as [e|output].
  { apply bind_Ok_inv in Hw as ([] & ? & _ & Hw). by injection Hw as <- _. }
  apply catch_Ok_inv in Hran as [Hran|(e & ? & _ & Hran)]; cycle 1.
  { by destruct (is_ProcessRunnerError e). }
  apply bind_Ok_inv in Hran as (o & r4' & Hran & [= -> ->]). apply await_Ok_inv in Hran as [Hran Hp4].
  split; [done|]. exists safety, r2.1, r3, output, r4.1.
  assert (r4 = (r4.1, r3.2)) as E4 by (destruct r4; simpl in *; congruence).
  assert (r2 = (r2.1, r1.2)) as E2 by (destruct r2; simpl in *; congruence).
  split_and!; try done.
  - rewrite <-E2. unfold mbind, M_bind. by rewrite H1, H2, H3.
  - by destruct (aa_edit_files _), (aa_run_tests _).
  - eapply run_codex_ran; [done|]. by eapply completed_answer.
  - by rewrite <-E4.
Qed.

(** C39: A task is reported completed only in this way: its lease is acquired, the task is not
    cancelled, the repository passes the inspection, the lease is renewed twice, the actions
    allow editing or running tests, the task is still not cancelled, and then a process of Codex,
    with the command line the connector builds for the prompt and the inspected repository, ends
    in time, not cancelled and with exit code 0. The result is read from this run and from
    the repository after it, and the lease is given back. *)
Theorem completed_run_exited_with_zero task s r s' :
  execute task s = (Ok r, s') → cw_status r = "completed" →
  ∃ handle s0 r1 safety s2 r3 output s4 r5,
    acquire_handle task s = (Ok handle, s0) ∧
    emit (progress_event 0) (s0, []) = (Ok tt, r1) ∧
    ct_task_id task ∉ cs_cancelled (worker r1.1) ∧
    inspect_repository OS T (cwr_path (ct_repository task)) (cwr_branch (ct_repository task))
      (cwr_worktree (ct_repository task)) r1.1 = (Ok safety, s2) ∧
    (emit (progress_event 1);; beat handle;; emit (progress_event 2);; beat handle)
      (s2, r1.2) = (Ok tt, r3) ∧
    aa_edit_files (ct_allowed_actions task) || aa_run_tests (ct_allowed_actions task) = true ∧
    ct_task_id task ∉ cs_cancelled (worker r3.1) ∧
    codex_ran task safety r3.1 output s4 ∧
    after_run task handle safety output (s4, r3.2) = (Ok r, r5) ∧
    give_back task handle r5.1 = (Ok tt, s').
Proof.
  intros Hr Hst.
  destruct (completed_execute _ _ _ _ Hr Hst) as (handle & s0 & r1 & r5 & Ha & He & Hw & Hg).
  destruct (completed_work _ _ _ _ _ Hw Hst) as (Hc1 & safety & s2 & r3 & output & s4 & Hrest).
  destruct Hrest as (Hi & Hb & Hact & Hc2 & Hran & Hafter).
  exists handle, s0, r1, safety, s2, r3, output, s4, r5. by split_and!.
Qed.
End worker_lemmas.

(** ** What a run does to the rest of the state *)

Record tree_within {S} (R : S → S → Prop) (T : WorkTree S) : Prop := {
  tw_exists p : within R (wt_exists T p);
  tw_is_dir p : within R (wt_is_dir T p);
  tw_git cwd args : within R (wt_git T cwd args)
}.
#[local] Hint Resolve tw_exists tw_is_dir tw_git : within.

Section worker_within.
Context {S : Type} `{PyLib} (OS : OperatingSystem S) (T : WorkTree S) (U : UnicodeText).
Context (ticks : nat → M S nat).
Context (leases : S → LeaseService) (set_leases : LeaseService → S → S).
Context (worker : S → CodingWorkerState) (set_worker : CodingWorkerState → S → S).
Context (codex : ConnectorRuntime S) (on_progress : string → M S unit) (worker_id : string).
Context (R : S → S → Prop) `{!PreOrder R}.
Context (within_os : os_within R OS) (within_tree : tree_within R T).
Context (within_codex : ∀ c, within R (cr_discover codex c)).
Context (within_ticks : ∀ n, within R (ticks n)).
Context (within_progress : ∀ label, within R (on_progress label)).
Context (within_leases : ∀ l s, R s (set_leases l s)).
Context (within_worker : ∀ w s, R s (set_worker w s)).

(** The progress of a run is not part of the state [R] speaks of. *)
Definition on_state (r r' : S * list string) : Prop := R r.1 r'.1.
#[local] Instance on_state_preorder : PreOrder on_state.
Proof.
  split; [by intros [s l]; unfold on_state|].
  intros r1 r2 r3 H1 H2. unfold on_state in *. by etrans.
Qed.

Lemma within_run_await {A} (m : M S A) : within R m → within on_state (CodingWorker.await m).
Proof.
  intros Hm [s l]. unfold CodingWorker.await. specialize (Hm s). simpl. destruct (m s). exact Hm.
Qed.

Lemma within_on_leases {A} n (m : nat → M LeaseService A) :
  within R (on_leases ticks leases set_leases n m).
Proof.
  unfold on_leases. apply (within_bind _); [auto|]. intros t. by apply within_zoom.
Qed.

Lemma within_run_codex prompt context :
  within R (run_codex OS ticks worker set_worker codex prompt context).
Proof.
  unfold run_codex. apply within_adapter_run; [typeclasses eauto|done| | |done].
  - within_steps.
  - intros f s. apply within_worker.
Qed.

Lemma within_git_stdout cwd args : within R (_git_stdout T cwd args).
Proof. unfold _git_stdout. within_steps. Qed.
#[local] Hint Resolve within_run_await within_on_leases within_run_codex within_git_stdout : within.

Lemma within_inspect p b w : within R (inspect_repository OS T p b w).
Proof. unfold inspect_repository. within_steps. Qed.

Lemma within_changed p before : within R (list_changed_files OS T p before).
Proof. unfold list_changed_files. within_steps. Qed.

Lemma within_is_cancelled t : within R (is_cancelled worker t).
Proof. unfold is_cancelled. within_steps. Qed.

Lemma within_note label : within on_state (modify_state (λ r : S * list string, (r.1, r.2 ++ [label]))).
Proof. intros [s l]. unfold on_state. simpl. reflexivity. Qed.
#[local] Hint Resolve within_inspect within_changed within_is_cancelled within_note : within.

Lemma within_emit label : within on_state (emit on_progress label).
Proof. unfold emit. within_steps. Qed.

Lemma within_beat h : within on_state (beat ticks leases set_leases h).
Proof. unfold beat. within_steps. Qed.
#[local] Hint Resolve within_emit within_beat : within.

Lemma within_after_run task h safety output :
  within on_state (after_run OS T U ticks leases set_leases worker on_progress worker_id
    task h safety output).
Proof. unfold after_run, _cancelled_result, run_outcome. within_steps. Qed.
#[local] Hint Resolve within_after_run : within.

Lemma within_work task h :
  within on_state (work OS T U ticks leases set_leases worker set_worker codex on_progress
    worker_id task h).
Proof. unfold work, _cancelled_result. within_steps. Qed.

Lemma within_give_back task h :
  within R (give_back ticks leases set_leases worker set_worker task h).
Proof.
  assert (∀ f, within R (modify_state (λ s, set_worker (f (worker s)) s)))
    by (intros f s; apply within_worker).
  unfold give_back, handle_release. within_steps.
Qed.

Lemma within_coding_run task :
  within R (execute OS T U ticks leases set_leases worker set_worker codex on_progress
    worker_id task).
Proof.
  pose proof within_work. pose proof within_give_back. unfold execute.
  apply (within_bind _); [within_steps|intros [e|h]]; [within_steps|].
  intros s. unfold with_progress.
  match goal with |- R s (let '_ := ?m _ in _).2 => assert (within on_state m) as Hm end.
  { unfold work_failed. within_steps. }
  specialize (Hm (s, [])).
  match type of Hm with on_state _ ?x.2 => destruct x end. exact Hm.
Qed.
End worker_within.

(** ** Concrete runs *)

(** A clock that ticks once a second. *)
Definition second_lib : PyLib :=
  {| float_repr := @float_repr counting_lib; float_of_str := @float_of_str counting_lib;
     sha256_hex := @sha256_hex counting_lib; isoformat := @isoformat counting_lib;
     fromisoformat := @fromisoformat counting_lib; clock n := seconds (Z.of_nat n);
     uuid_hex := @uuid_hex counting_lib; uuid_str := @uuid_str counting_lib |}.
#[local] Existing Instance second_lib.

(** A machine with a clock, leases, a worker, and what git answers about the repository before
    and after the run; a run of Codex takes [run_seconds]. *)
Record Machine := {
  mc_ticks : nat; mc_leases : LeaseService; mc_worker : CodingWorkerState; mc_ran : bool }.
Definition set_mc_leases (l : LeaseService) (m : Machine) : Machine :=
  {| mc_ticks := mc_ticks m; mc_leases := l; mc_worker := mc_worker m; mc_ran := mc_ran m |}.
Definition set_mc_worker (w : CodingWorkerState) (m : Machine) : Machine :=
  {| mc_ticks := mc_ticks m; mc_leases := mc_leases m; mc_worker := w; mc_ran := mc_ran m |}.
Definition machine_ticks (n : nat) : M Machine nat := λ m,
  (Ok (mc_ticks m), {| mc_ticks := mc_ticks m + n; mc_leases := mc_leases m;
                       mc_worker := mc_worker m; mc_ran := mc_ran m |}).
Definition machine : Machine :=
  {| mc_ticks := 0; mc_leases := LeaseService_init 60; mc_worker := CodingWorkerState_init;
     mc_ran := false |}.

Section machine.
Context (run_seconds : nat) (stdout before after : string).

Definition machine_system : OperatingSystem Machine := {|
  os_environ _ := [("PATH", "/bin")]; os_getcwd _ := "/";
  os_resolve p := mret p; os_resolve_lax p := mret p; os_is_dir _ := mret true;
  os_which p := mret (Some ("/bin/" +:+ p)); os_spawn _ _ _ := mret 0; os_pid _ := 7%Z;
  os_returncode _ _ := Some 0%Z;
  os_communicate _ _ := λ m,
    (Ok (stdout, ""), {| mc_ticks := mc_ticks m + run_seconds; mc_leases := mc_leases m;
                         mc_worker := mc_worker m; mc_ran := true |});
  os_read_stdout _ := mret ""; os_read_stderr _ := mret ""; os_readline _ _ := mret "";
  os_wait _ _ := mret tt; os_killpg _ _ := mret tt; os_send_signal _ _ := mret tt |}.
Definition machine_tree : WorkTree Machine := {|
  wt_exists _ := mret true; wt_is_dir _ := mret true;
  wt_git _ args := m ← get_state (S := Machine);
    mret (0%Z, if "status" in? args then if mc_ran m then after else before
               else "main" +:+ newline) |}.
Definition machine_codex : ConnectorRuntime Machine := {|
  cr_connector_id := "codex"; cr_display_name := "Codex"; cr_declared_capabilities := ∅;
  cr_discover _ := mret {| dr_executable_path := Some "/bin/codex"; dr_version := Some "1";
    dr_fingerprint := None; dr_installed := true; dr_usable := true; dr_reason_code := None;
    dr_details := [] |};
  cr_execution_environment _ := [];
  cr_build_exec_argv executable prompt _ _ := [executable; "exec"; prompt];
  cr_parse_events _ := Ok [] |}.
Definition ascii_only : UnicodeText := {| wide_char _ := "?"; char_named _ := None |}.
Definition a_coding_task : CodingWorkerTask :=
  task_from_runtime "f" "t1" "Fix it" "/repo" None (Some "e1") None None false false 300 [].
Definition machine_run : res CodingWorkerResult * Machine :=
  execute machine_system machine_tree ascii_only machine_ticks mc_leases set_mc_leases mc_worker
    set_mc_worker machine_codex (λ _, mret tt) "local-codex-worker" a_coding_task machine.
End machine.

Definition a_line : string :=
  "{" +:+ quoted "type" +:+ ":" +:+ quoted "item.completed" +:+ "," +:+ quoted "command" +:+ ": " +:+
  quoted "pytest -k \u0061 \\ \x41\101" +:+ "," +:+ quoted "exit_code" +:+ ":0," +:+
  quoted "aggregated_output" +:+ ":" +:+ quoted "2 passed\n" +:+ "}".
Example a_test_is_read :
  extract_tests_from_codex_output ascii_only ("noise" +:+ newline +:+ a_line) =
  Ok [{| tr_command := "pytest -k a \ AA"; tr_status := "passed";
         tr_output_summary := "2 passed" +:+ newline |}].
Proof. vm_compute. reflexivity. Qed.
Example these_look_like_tests :
  _looks_like_test <$> ["npm run verify"; "nodejs verify"; "ls"; "go vet; ls x"; "Jest"] =
  [true; false; false; true; true].
Proof. vm_compute. reflexivity. Qed.

(** A short run is completed, with the files it changed. *)
Example short_run_is_completed :
  match machine_run 10 a_line "" (" M a.py" +:+ newline +:+ "?? b.py" +:+ newline) with
  | (Ok r, _) => cw_status r = "completed" ∧ cw_changed_files r = [".py"; "b.py"]
  | _ => False
  end.
Proof. vm_compute. done. Qed.

(** The leading blank of the first line of [git status] is stripped before its three columns
    are cut off: the first file lost its first letter above, and a file that was dirty before
    is reported as changed when another one sorts before it. *)
Example dirty_file_is_reported_as_changed :
  match machine_run 10 "" (" M b.py" +:+ newline)
          (" M a.py" +:+ newline +:+ " M b.py" +:+ newline) with
  | (Ok r, _) => cw_changed_files r = ["b.py"]
  | _ => False
  end.
Proof. vm_compute. done. Qed.

(** The lease is renewed before and after the run but not during it: a run of more than the
    sixty seconds of a lease, well within the time limit of the task, ends with exit code 0
    and is reported as failed, without its changes. *)
Example long_run_is_reported_failed :
  match machine_run 61 "" "" ("?? b.py" +:+ newline) with
  | (Ok r, m) => cw_status r = "failed" ∧ cw_error r = Some "PermissionError" ∧
      cw_changed_files r = [] ∧ mc_ran m = true ∧ ct_timeout_seconds a_coding_task = 300%Z
  | _ => False
  end.
Proof. vm_compute. done. Qed.

Lemma machine_run_answers : ∃ r m l, machine_run 10 "" "" "" = (Ok r, m) ∧
  cw_fencing_token r = Some 1%Z ∧ cw_status r = "completed" ∧
  active_map (mc_leases m) !! "t1" = Some l ∧ fencing_token l = 1%Z.
Proof. vm_compute. eauto 10. Qed.

Lemma finished_run_holds_no_lease_witness :
  ∃ r m l, machine_run 10 "" "" "" = (Ok r, m) ∧ cw_fencing_token r = Some 1%Z ∧
    active_map (mc_leases m) !! "t1" = Some l ∧ lease_status l = RELEASED.
Proof.
  destruct machine_run_answers as (r & m & l & E & Ht & _ & Hl & Htok).
  exists r, m, l. split; [exact E|]. split; [exact Ht|]. split; [exact Hl|].
  refine (finished_run_holds_no_lease _ _ _ machine_ticks _ _ _ _ _ _ _ _ _ _ a_coding_task
            machine r m 1%Z l E Ht Hl Htok); [by intros|by intros|by intros].
Defined.

Lemma completed_run_exited_with_zero_witness :
  ∃ handle s0 r1 safety s2 r3 output s4 r5 r m,
    on_leases machine_ticks mc_leases set_mc_leases 5
      (λ t, acquire_exclusive_lease t "t1" "local-codex-worker" "codex" None) machine =
      (Ok handle, s0) ∧
    emit (λ _, mret tt) (progress_event 0) (s0, []) = (Ok tt, r1) ∧
    "t1" ∉ cs_cancelled (mc_worker r1.1) ∧
    inspect_repository (machine_system 10 "") (machine_tree "" "") "/repo" None None r1.1 =
      (Ok safety, s2) ∧
    (emit (λ _, mret tt) (progress_event 1);; beat machine_ticks mc_leases set_mc_leases handle;;
     emit (λ _, mret tt) (progress_event 2);; beat machine_ticks mc_leases set_mc_leases handle)
      (s2, r1.2) = (Ok tt, r3) ∧
    true || true = true ∧
    "t1" ∉ cs_cancelled (mc_worker r3.1) ∧
    codex_ran (machine_system 10 "") mc_worker set_mc_worker machine_codex a_coding_task safety
      r3.1 output s4 ∧
    after_run (machine_system 10 "") (machine_tree "" "") ascii_only machine_ticks mc_leases
      set_mc_leases mc_worker (λ _, mret tt) "local-codex-worker" a_coding_task handle safety output
      (s4, r3.2) = (Ok r, r5) ∧
    give_back machine_ticks mc_leases set_mc_leases mc_worker set_mc_worker a_coding_task handle
      r5.1 = (Ok tt, m).
Proof.
  destruct machine_run_answers as (r & m & l & E & _ & Hst & _).
  destruct (completed_run_exited_with_zero _ _ _ _ _ _ _ _ _ _ _ _ _ _ _ E Hst)
    as (handle & s0 & r1 & safety & s2 & r3 & output & s4 & r5 & Hall).
  exists handle, s0, r1, safety, s2, r3, output, s4, r5, r, m. exact Hall.
Defined.
