(* ===== verification/RuntimeStore.v ===== *)
(** * The store of the runtime service

    [runtime_v1/store.py] in its in-memory form, with the records of [runtime_v1/models.py] it
    holds and the [model_copy] of task records. With a database the store writes the same
    values to its tables as well; it never reads them back. *)

From Stdlib Require Import SpecFloat.
From S2P Require Import Prelude TaskAnalysis Capabilities Policy Scheduler Leases Execution Router.

(** ** Records *)

(* @src runtime_v1/models.py:22-35 RuntimeTaskStatus.value *)
Definition RuntimeTaskStatus_value (s : RuntimeTaskStatus) : string :=
  match s with
  | RT_PENDING => "pending" | RT_APPROVAL_REQUIRED => "approval_required"
  | RT_ROUTING => "routing" | RT_QUEUED => "queued" | RT_LEASED => "leased"
  | RT_OFFERED => "offered" | RT_ACCEPTED => "accepted" | RT_RUNNING => "running"
  | RT_RECONCILING => "reconciling" | RT_SUCCEEDED => "succeeded" | RT_FAILED => "failed"
  | RT_CANCELLED => "cancelled" | RT_REJECTED => "rejected"
  end.
#[export] Instance RuntimeTaskStatus_eq_dec : EqDecision RuntimeTaskStatus.
Proof. solve_decision. Defined.

(* @src runtime_v1/models.py:38-53 FailureClass.value *)
Definition FailureClass_value (f : FailureClass) : string :=
  match f with
  | Policy.NODE_UNAVAILABLE => "node_unavailable" | Policy.NODE_DISCONNECTED => "node_disconnected"
  | Policy.CONNECTOR_UNAVAILABLE => "connector_unavailable"
  | Policy.AUTHENTICATION_INVALID => "authentication_invalid"
  | Policy.CERTIFICATION_INVALID => "certification_invalid"
  | Policy.WORKSPACE_UNAVAILABLE => "workspace_unavailable" | Policy.QUOTA_EXHAUSTED => "quota_exhausted"
  | Policy.RATE_LIMITED => "rate_limited" | Policy.OFFER_TIMEOUT => "offer_timeout"
  | Policy.TASK_TIMEOUT => "task_timeout" | Policy.PROCESS_FAILURE => "process_failure"
  | Policy.POLICY_REJECTED => "policy_rejected" | Policy.USER_CANCELLED => "user_cancelled"
  | Policy.UNCERTAIN_EXECUTION => "uncertain_execution" | Policy.FC_UNKNOWN => "unknown"
  end.

(* @src runtime_v1/models.py:177-190 ExecutionAttempt *)
Record ExecutionAttempt := {
  at_attempt_id : string;
  at_task_id : string;
  at_attempt_number : Z;
  at_node_id : string;
  at_connector_id : string;
  at_lease_id : string;
  at_execution_origin : ConnectorExecutionOrigin;
  at_status : string;
  at_started_at : option Z;
  at_terminal_at : option Z;
  at_failure_class : option FailureClass;
  at_retry_safe : bool
}.

(* @src runtime_v1/models.py:213-219 RuntimeAuditEvent *)
Record RuntimeAuditEvent := {
  ra_event_id : string;
  ra_task_id : option string;
  ra_event_type : string;
  ra_payload : dict;
  ra_created_at : Z
}.

(* @src runtime_v1/models.py:222-243 CreateRuntimeTaskBody *)
Record CreateRuntimeTaskBody := {
  cb_workspace_id : string;
  cb_prompt : string;
  cb_correlation_id : option string;
  cb_mission_id : option string;
  cb_execution_id : option string;
  cb_trace_id : option string;
  cb_actor_id : option string;
  cb_idempotency_key : option string;
  cb_policy_profile : string;
  cb_requested_capabilities : list string;
  cb_prohibited_capabilities : list string;
  cb_preferred_connectors : list string;
  cb_required_connector : option string;
  cb_preferred_providers : list string;
  cb_required_provider : option string;
  cb_preferred_nodes : list string;
  cb_required_node : option string;
  cb_timeout_seconds : Z;
  cb_max_attempts : Z
}.

(** ** [model_copy]

    The fields of a task that the service updates, and a copy of a task with some of them. *)
Inductive task_field :=
| F_status (s : RuntimeTaskStatus)
| F_detail (d : option string)
| F_updated_at (t : Z)
| F_approval_required (b : bool)
| F_execution_id (e : string)
| F_backend (b : string)
| F_harness (h : string)
| F_connector (c : string)
| F_node (n : string)
| F_reason (r : string)
| F_fallback_order (l : list string)
| F_provider_routing_required (b : bool)
| F_provider (p : string)
| F_route_manager (m : string)
| F_provider_reason (r : string).

Definition updated {A} (pick : task_field → option A) (u : list task_field) (old : A) : A :=
  default old (head (omap pick u)).

Definition model_copy (u : list task_field) (t : RuntimeTaskRecord) : RuntimeTaskRecord := {|
  tk_task_id := tk_task_id t; tk_correlation_id := tk_correlation_id t;
  tk_mission_id := tk_mission_id t; tk_trace_id := tk_trace_id t; tk_metadata := tk_metadata t;
  tk_workspace_id := tk_workspace_id t; tk_user_id := tk_user_id t;
  tk_prompt_digest := tk_prompt_digest t; tk_prompt_size := tk_prompt_size t;
  tk_requested_capabilities := tk_requested_capabilities t;
  tk_prohibited_capabilities := tk_prohibited_capabilities t;
  tk_expanded_capabilities := tk_expanded_capabilities t;
  tk_policy_profile := tk_policy_profile t; tk_preferred_connectors := tk_preferred_connectors t;
  tk_required_connector := tk_required_connector t;
  tk_preferred_providers := tk_preferred_providers t;
  tk_required_provider := tk_required_provider t; tk_preferred_nodes := tk_preferred_nodes t;
  tk_required_node := tk_required_node t; tk_timeout_seconds := tk_timeout_seconds t;
  tk_max_attempts := tk_max_attempts t;
  tk_status := updated (λ f, match f with F_status x => Some x | _ => None end) u (tk_status t);
  tk_selected_node_id :=
    updated (λ f, match f with F_node x => Some (Some x) | _ => None end) u
      (tk_selected_node_id t);
  tk_selected_connector_id :=
    updated (λ f, match f with F_connector x => Some (Some x) | _ => None end) u
      (tk_selected_connector_id t);
  tk_selected_backend_id :=
    updated (λ f, match f with F_backend x => Some (Some x) | _ => None end) u
      (tk_selected_backend_id t);
  tk_selected_harness_id :=
    updated (λ f, match f with F_harness x => Some (Some x) | _ => None end) u
      (tk_selected_harness_id t);
  tk_execution_id :=
    updated (λ f, match f with F_execution_id x => Some (Some x) | _ => None end) u
      (tk_execution_id t);
  tk_execution_decision_reason :=
    updated (λ f, match f with F_reason x => Some (Some x) | _ => None end) u
      (tk_execution_decision_reason t);
  tk_execution_fallback_order :=
    updated (λ f, match f with F_fallback_order x => Some x | _ => None end) u
      (tk_execution_fallback_order t);
  tk_provider_routing_required :=
    updated (λ f, match f with F_provider_routing_required x => Some x | _ => None end) u
      (tk_provider_routing_required t);
  tk_selected_provider_id :=
    updated (λ f, match f with F_provider x => Some (Some x) | _ => None end) u
      (tk_selected_provider_id t);
  tk_selected_provider_route_id := tk_selected_provider_route_id t;
  tk_selected_provider_route_manager_id :=
    updated (λ f, match f with F_route_manager x => Some (Some x) | _ => None end) u
      (tk_selected_provider_route_manager_id t);
  tk_selected_model_id := tk_selected_model_id t;
  tk_provider_selection_reason :=
    updated (λ f, match f with F_provider_reason x => Some (Some x) | _ => None end) u
      (tk_provider_selection_reason t);
  tk_approval_required :=
    updated (λ f, match f with F_approval_required x => Some x | _ => None end) u
      (tk_approval_required t);
  tk_created_at := tk_created_at t;
  tk_updated_at :=
    updated (λ f, match f with F_updated_at x => Some x | _ => None end) u (tk_updated_at t);
  tk_detail := updated (λ f, match f with F_detail x => Some x | _ => None end) u (tk_detail t)
|}.

(** ** The store *)

(* @src runtime_v1/store.py:173-182 RuntimeStore.__init__ *)
Record RuntimeStore := {
  rs_tasks : list (string * RuntimeTaskRecord);
  rs_candidates : list (string * list RouteCandidate);
  rs_scheduling_rounds : list (string * Z);
  rs_leases : list (string * TaskLease);
  rs_attempts : list (string * list ExecutionAttempt);
  rs_placements : list (string * list WorkspacePlacement);
  rs_audits : list RuntimeAuditEvent;
  rs_events : list (string * list dict)
}.
Definition RuntimeStore_init : RuntimeStore :=
  {| rs_tasks := []; rs_candidates := []; rs_scheduling_rounds := []; rs_leases := [];
     rs_attempts := []; rs_placements := []; rs_audits := []; rs_events := [] |}.

(* @src runtime_v1/store.py:184-234 RuntimeStore.save_task *)
Definition save_task (task : RuntimeTaskRecord) (s : RuntimeStore) : RuntimeStore :=
  {| rs_tasks := dict_set (tk_task_id task) task (rs_tasks s); rs_candidates := rs_candidates s;
     rs_scheduling_rounds := rs_scheduling_rounds s; rs_leases := rs_leases s;
     rs_attempts := rs_attempts s; rs_placements := rs_placements s; rs_audits := rs_audits s;
     rs_events := rs_events s |}.

(* @src runtime_v1/store.py:236-240 RuntimeStore.get_task *)
Definition get_task (task_id : string) (s : RuntimeStore) : res RuntimeTaskRecord :=
  match dict_get task_id (rs_tasks s) with
  | Some t => Ok t
  | None => Raise (KeyError ("unknown runtime task: " +:+ task_id))
  end.

(* @src runtime_v1/store.py:242-270 RuntimeStore.save_candidates *)
Definition save_candidates (task_id : string) (candidates : list RouteCandidate)
    (s : RuntimeStore) : RuntimeStore :=
  {| rs_tasks := rs_tasks s; rs_candidates := dict_set task_id candidates (rs_candidates s);
     rs_scheduling_rounds := dict_set task_id
       (default 0 (dict_get task_id (rs_scheduling_rounds s)) + 1)%Z (rs_scheduling_rounds s);
     rs_leases := rs_leases s; rs_attempts := rs_attempts s; rs_placements := rs_placements s;
     rs_audits := rs_audits s; rs_events := rs_events s |}.

(* @src runtime_v1/store.py:272-302 RuntimeStore.save_lease *)
Definition save_lease (lease : TaskLease) (s : RuntimeStore) : RuntimeStore :=
  {| rs_tasks := rs_tasks s; rs_candidates := rs_candidates s;
     rs_scheduling_rounds := rs_scheduling_rounds s;
     rs_leases := dict_set (lease_task_id lease) lease (rs_leases s);
     rs_attempts := rs_attempts s; rs_placements := rs_placements s; rs_audits := rs_audits s;
     rs_events := rs_events s |}.

(** [self.attempts[task_id]], [self.attempts.get(task_id, [])]. *)
Definition attempts_of (task_id : string) (s : RuntimeStore) : list ExecutionAttempt :=
  default [] (dict_get task_id (rs_attempts s)).

(* @src runtime_v1/store.py:304-330 RuntimeStore.save_attempt *)
Definition save_attempt (attempt : ExecutionAttempt) (s : RuntimeStore) : RuntimeStore :=
  let others := List.filter (λ item, at_attempt_id item != at_attempt_id attempt)
                  (attempts_of (at_task_id attempt) s) in
  {| rs_tasks := rs_tasks s; rs_candidates := rs_candidates s;
     rs_scheduling_rounds := rs_scheduling_rounds s; rs_leases := rs_leases s;
     rs_attempts := dict_set (at_task_id attempt)
       (py_sorted (λ a b, (at_attempt_number a <=? at_attempt_number b)%Z) (others ++ [attempt]))
       (rs_attempts s);
     rs_placements := rs_placements s; rs_audits := rs_audits s; rs_events := rs_events s |}.

(* @src runtime_v1/store.py:332-355 RuntimeStore.save_placement *)
Definition save_placement (placement : WorkspacePlacement) (s : RuntimeStore) : RuntimeStore :=
  let others := List.filter (λ item, pl_node_id item != pl_node_id placement)
                  (default [] (dict_get (pl_workspace_id placement) (rs_placements s))) in
  {| rs_tasks := rs_tasks s; rs_candidates := rs_candidates s;
     rs_scheduling_rounds := rs_scheduling_rounds s; rs_leases := rs_leases s;
     rs_attempts := rs_attempts s;
     rs_placements := dict_set (pl_workspace_id placement) (others ++ [placement])
                        (rs_placements s);
     rs_audits := rs_audits s; rs_events := rs_events s |}.

(* @src runtime_v1/store.py:357-376 RuntimeStore.audit *)
Definition add_audit (event_id : string) (now : Z) (event_type : string)
    (task_id : option string) (payload : dict) (s : RuntimeStore) : RuntimeStore :=
  {| rs_tasks := rs_tasks s; rs_candidates := rs_candidates s;
     rs_scheduling_rounds := rs_scheduling_rounds s; rs_leases := rs_leases s;
     rs_attempts := rs_attempts s; rs_placements := rs_placements s;
     rs_audits := rs_audits s ++ [{| ra_event_id := event_id; ra_task_id := task_id;
       ra_event_type := event_type; ra_payload := payload; ra_created_at := now |}];
     rs_events := rs_events s |}.

Definition events_of (task_id : string) (s : RuntimeStore) : list dict :=
  default [] (dict_get task_id (rs_events s)).

(** The fields of the event come after the number the store gives it, and replace it. *)
(* @src runtime_v1/store.py:378-382 RuntimeStore.append_event *)
Definition append_event (task_id : string) (event : dict) (s : RuntimeStore) : RuntimeStore :=
  let sequence := (Z.of_nat (length (events_of task_id s)) + 1)%Z in
  {| rs_tasks := rs_tasks s; rs_candidates := rs_candidates s;
     rs_scheduling_rounds := rs_scheduling_rounds s; rs_leases := rs_leases s;
     rs_attempts := rs_attempts s; rs_placements := rs_placements s; rs_audits := rs_audits s;
     rs_events := dict_set task_id
       (events_of task_id s ++ [dict_update [("sequence", PInt sequence)] event]) (rs_events s) |}.
