(* ===== verification/RuntimeService.v ===== *)
(** * The runtime service

    [runtime_v1/service.py]: a task is created, judged by the policy, perhaps approved, routed
    to a backend, run there or leased to a node, and completed by the orchestrator. The state of
    the service and of the objects it composes is one record, the world of the router: the
    operations of the backends are computations over it, so that what other tasks of the process
    do while the service waits is part of them. *)

From Stdlib Require Import Ascii SpecFloat.
From S2P Require Import Prelude TaskAnalysis CompletionModels Capabilities Policy Scheduler Leases.
From S2P Require Import Evidence Usage MissionGraph Orchestrator CapabilityRouting Execution.
From S2P Require Import Router Coordinator Processes Harness Backends Workers CodingWorker.
From S2P Require Import RuntimeStore.

(** ** Metrics *)

(* @src runtime_v1/service.py:59-79 RuntimeMetrics *)
Record RuntimeMetrics := {
  rm_connected_nodes : Z;
  rm_healthy_nodes : Z;
  rm_queued_tasks : Z;
  rm_leased_tasks : Z;
  rm_running_tasks : Z;
  rm_successful_tasks : Z;
  rm_failed_tasks : Z;
  rm_cancelled_tasks : Z;
  rm_policy_rejections : Z;
  rm_stale_event_rejections : Z;
  rm_retry_count : Z;
  rm_failover_count : Z;
  rm_tasks_by_connector : list (string * Z);
  rm_tasks_by_provider : list (string * Z);
  rm_tasks_by_provider_route : list (string * Z);
  rm_tasks_by_model : list (string * Z);
  rm_tasks_by_backend : list (string * Z);
  rm_provider_route_failures : Z;
  rm_provider_route_switches : Z
}.
Definition RuntimeMetrics_init : RuntimeMetrics :=
  {| rm_connected_nodes := 0; rm_healthy_nodes := 0; rm_queued_tasks := 0; rm_leased_tasks := 0;
     rm_running_tasks := 0; rm_successful_tasks := 0; rm_failed_tasks := 0;
     rm_cancelled_tasks := 0; rm_policy_rejections := 0; rm_stale_event_rejections := 0;
     rm_retry_count := 0; rm_failover_count := 0; rm_tasks_by_connector := [];
     rm_tasks_by_provider := []; rm_tasks_by_provider_route := []; rm_tasks_by_model := [];
     rm_tasks_by_backend := []; rm_provider_route_failures := 0;
     rm_provider_route_switches := 0 |}.

(** The counters the service increments, and the changes it makes to the metrics. *)
Inductive counter :=
| C_queued | C_leased | C_running | C_successful | C_failed | C_cancelled | C_policy_rejections
| C_stale | C_retry | C_failover.
#[export] Instance counter_eq_dec : EqDecision counter.
Proof. solve_decision. Defined.
Inductive metric_change :=
| Increment (c : counter)
| ByConnector (connector : string)
| ByBackend (backend : string)
| Nodes (connected healthy : Z).

Definition change_metrics (u : metric_change) (m : RuntimeMetrics) : RuntimeMetrics :=
  let inc c z := match u with
                 | Increment c' => if c == c' then (z + 1)%Z else z
                 | _ => z
                 end in
  let tally k (d : list (string * Z)) := dict_set k (default 0 (dict_get k d) + 1)%Z d in
  {| rm_connected_nodes := match u with Nodes c _ => c | _ => rm_connected_nodes m end;
     rm_healthy_nodes := match u with Nodes _ h => h | _ => rm_healthy_nodes m end;
     rm_queued_tasks := inc C_queued (rm_queued_tasks m);
     rm_leased_tasks := inc C_leased (rm_leased_tasks m);
     rm_running_tasks := inc C_running (rm_running_tasks m);
     rm_successful_tasks := inc C_successful (rm_successful_tasks m);
     rm_failed_tasks := inc C_failed (rm_failed_tasks m);
     rm_cancelled_tasks := inc C_cancelled (rm_cancelled_tasks m);
     rm_policy_rejections := inc C_policy_rejections (rm_policy_rejections m);
     rm_stale_event_rejections := inc C_stale (rm_stale_event_rejections m);
     rm_retry_count := inc C_retry (rm_retry_count m);
     rm_failover_count := inc C_failover (rm_failover_count m);
     rm_tasks_by_connector := match u with
                              | ByConnector c => tally c (rm_tasks_by_connector m)
                              | _ => rm_tasks_by_connector m
                              end;
     rm_tasks_by_provider := rm_tasks_by_provider m;
     rm_tasks_by_provider_route := rm_tasks_by_provider_route m;
     rm_tasks_by_model := rm_tasks_by_model m;
     rm_tasks_by_backend := match u with
                            | ByBackend b => tally b (rm_tasks_by_backend m)
                            | _ => rm_tasks_by_backend m
                            end;
     rm_provider_route_failures := rm_provider_route_failures m;
     rm_provider_route_switches := rm_provider_route_switches m |}.

(* @src runtime_v1/service.py:81-102 RuntimeMetrics.snapshot *)
Definition RuntimeMetrics_snapshot (m : RuntimeMetrics) : dict :=
  let table d := PDict ((λ '(k, n), (k, PInt n)) <$> d) in
  [("connected_nodes", PInt (rm_connected_nodes m)); ("healthy_nodes", PInt (rm_healthy_nodes m));
   ("queued_tasks", PInt (rm_queued_tasks m)); ("leased_tasks", PInt (rm_leased_tasks m));
   ("running_tasks", PInt (rm_running_tasks m));
   ("successful_tasks", PInt (rm_successful_tasks m)); ("failed_tasks", PInt (rm_failed_tasks m));
   ("cancelled_tasks", PInt (rm_cancelled_tasks m));
   ("policy_rejections", PInt (rm_policy_rejections m));
   ("stale_event_rejections", PInt (rm_stale_event_rejections m));
   ("retry_count", PInt (rm_retry_count m)); ("failover_count", PInt (rm_failover_count m));
   ("tasks_by_connector", table (rm_tasks_by_connector m));
   ("tasks_by_provider", table (rm_tasks_by_provider m));
   ("tasks_by_provider_route", table (rm_tasks_by_provider_route m));
   ("tasks_by_model", table (rm_tasks_by_model m)); ("tasks_by_backend", table (rm_tasks_by_backend m));
   ("provider_route_failures", PInt (rm_provider_route_failures m));
   ("provider_route_switches", PInt (rm_provider_route_switches m))].

(** ** The state *)

(** The service's own fields, the objects it composes, and the runner and the rows of the
    JoyMesh backend that its backends share. [ru_worker] is the state of the coding worker that
    is running; [ru_outside] is everything outside the process. *)
(* @src runtime_v1/service.py:105-119 RuntimeService *)
Record Runtime (X : Type) := {
  ru_store : RuntimeStore;
  ru_leases : LeaseService;
  ru_metrics : RuntimeMetrics;
  ru_completion : Orchestrator;
  ru_nodes : list (string * SchedulerNodeSnapshot);
  ru_prompts : list (string * string);
  ru_authoritative : list (string * string);
  ru_reports : list (string * WorkerReport);
  ru_runner : RunnerState;
  ru_joymesh : JoyMeshState;
  ru_worker : CodingWorkerState;
  ru_outside : X
}.
Arguments Build_Runtime {X}.
Arguments ru_store {X}.
Arguments ru_leases {X}.
Arguments ru_metrics {X}.
Arguments ru_completion {X}.
Arguments ru_nodes {X}.
Arguments ru_prompts {X}.
Arguments ru_authoritative {X}.
Arguments ru_reports {X}.
Arguments ru_runner {X}.
Arguments ru_joymesh {X}.
Arguments ru_worker {X}.
Arguments ru_outside {X}.

(** A service without tasks and nodes. *)
(* @src runtime_v1/service.py:121-136 RuntimeService.__post_init__ *)
Definition Runtime_init {X} (ttl : Z) (outside : X) : Runtime X :=
  {| ru_store := RuntimeStore_init; ru_leases := LeaseService_init ttl;
     ru_metrics := RuntimeMetrics_init; ru_completion := Orchestrator_init; ru_nodes := [];
     ru_prompts := []; ru_authoritative := []; ru_reports := []; ru_runner := RunnerState_init;
     ru_joymesh := JoyMeshState_init; ru_worker := CodingWorkerState_init;
     ru_outside := outside |}.

(** One part replaced. *)
Definition set_store {X} (x : RuntimeStore) (w : Runtime X) : Runtime X :=
  Build_Runtime x (ru_leases w) (ru_metrics w) (ru_completion w) (ru_nodes w) (ru_prompts w)
    (ru_authoritative w) (ru_reports w) (ru_runner w) (ru_joymesh w) (ru_worker w)
    (ru_outside w).
Definition set_leases {X} (x : LeaseService) (w : Runtime X) : Runtime X :=
  Build_Runtime (ru_store w) x (ru_metrics w) (ru_completion w) (ru_nodes w) (ru_prompts w)
    (ru_authoritative w) (ru_reports w) (ru_runner w) (ru_joymesh w) (ru_worker w)
    (ru_outside w).
Definition set_metrics {X} (x : RuntimeMetrics) (w : Runtime X) : Runtime X :=
  Build_Runtime (ru_store w) (ru_leases w) x (ru_completion w) (ru_nodes w) (ru_prompts w)
    (ru_authoritative w) (ru_reports w) (ru_runner w) (ru_joymesh w) (ru_worker w)
    (ru_outside w).
Definition set_completion {X} (x : Orchestrator) (w : Runtime X) : Runtime X :=
  Build_Runtime (ru_store w) (ru_leases w) (ru_metrics w) x (ru_nodes w) (ru_prompts w)
    (ru_authoritative w) (ru_reports w) (ru_runner w) (ru_joymesh w) (ru_worker w)
    (ru_outside w).
Definition set_nodes {X} (x : list (string * SchedulerNodeSnapshot)) (w : Runtime X) : Runtime X :=
  Build_Runtime (ru_store w) (ru_leases w) (ru_metrics w) (ru_completion w) x (ru_prompts w)
    (ru_authoritative w) (ru_reports w) (ru_runner w) (ru_joymesh w) (ru_worker w)
    (ru_outside w).
Definition set_prompts {X} (x : list (string * string)) (w : Runtime X) : Runtime X :=
  Build_Runtime (ru_store w) (ru_leases w) (ru_metrics w) (ru_completion w) (ru_nodes w) x
    (ru_authoritative w) (ru_reports w) (ru_runner w) (ru_joymesh w) (ru_worker w)
    (ru_outside w).
Definition set_authoritative {X} (x : list (string * string)) (w : Runtime X) : Runtime X :=
  Build_Runtime (ru_store w) (ru_leases w) (ru_metrics w) (ru_completion w) (ru_nodes w)
    (ru_prompts w) x (ru_reports w) (ru_runner w) (ru_joymesh w) (ru_worker w) (ru_outside
    w).
Definition set_reports {X} (x : list (string * WorkerReport)) (w : Runtime X) : Runtime X :=
  Build_Runtime (ru_store w) (ru_leases w) (ru_metrics w) (ru_completion w) (ru_nodes w)
    (ru_prompts w) (ru_authoritative w) x (ru_runner w) (ru_joymesh w) (ru_worker w)
    (ru_outside w).
Definition set_runner {X} (x : RunnerState) (w : Runtime X) : Runtime X :=
  Build_Runtime (ru_store w) (ru_leases w) (ru_metrics w) (ru_completion w) (ru_nodes w)
    (ru_prompts w) (ru_authoritative w) (ru_reports w) x (ru_joymesh w) (ru_worker w)
    (ru_outside w).
Definition set_joymesh {X} (x : JoyMeshState) (w : Runtime X) : Runtime X :=
  Build_Runtime (ru_store w) (ru_leases w) (ru_metrics w) (ru_completion w) (ru_nodes w)
    (ru_prompts w) (ru_authoritative w) (ru_reports w) (ru_runner w) x (ru_worker w)
    (ru_outside w).
Definition set_worker {X} (x : CodingWorkerState) (w : Runtime X) : Runtime X :=
  Build_Runtime (ru_store w) (ru_leases w) (ru_metrics w) (ru_completion w) (ru_nodes w)
    (ru_prompts w) (ru_authoritative w) (ru_reports w) (ru_runner w) (ru_joymesh w) x
    (ru_outside w).

Section service.
Context {X : Type} `{PyLib} `{HashOrder}.
Local Abbreviation W := (Runtime X).
Local Abbreviation St := (RouterState (Runtime X)).

(** The operating system, git, the text beyond ASCII and the Codex connector of the coding
    worker; the policy, and whether the scheduler is in production. *)
Context (OS : OperatingSystem St) (Git : WorkTree St) (U : UnicodeText).
Context (codex : ConnectorRuntime St).
Context (policy : PolicyEngine) (production_mode : bool).

Definition world : M St W := s ← get_state (S := St); mret (st_world s).
Definition change (f : W → W) : M St unit := modify_state (on_world f).
Definition on_store (f : RuntimeStore → RuntimeStore) : M St unit :=
  change (λ w, set_store (f (ru_store w)) w).
Definition count (u : metric_change) : M St unit :=
  change (λ w, set_metrics (change_metrics u (ru_metrics w)) w).
Definition now : M St Z := n ← tick; mret (clock n).
Definition take (n : nat) : M St nat := λ s,
  (Ok (st_ticks s), {| st_ticks := st_ticks s + n; st_cancel := st_cancel s;
                       st_world := st_world s |}).

(** The lease service and the orchestrator as parts of the state. The orchestrator reads the
    clock and draws identifiers of the process. *)
Definition leases_of (s : St) : LeaseService := ru_leases (st_world s).
Definition put_leases (l : LeaseService) : St → St := on_world (set_leases l).
Definition on_leases {A} (m : Z → M LeaseService A) : M St A :=
  t ← now; zoom leases_of put_leases (m t).
Definition completion_of (s : St) : Orchestrator :=
  let o := ru_completion (st_world s) in
  {| evidence := evidence o; usage := usage o; graph := graph o; store := store o;
     ticks := st_ticks s |}.
Definition put_completion (o : Orchestrator) (s : St) : St :=
  {| st_ticks := ticks o; st_cancel := st_cancel s;
     st_world := set_completion o (st_world s) |}.
Definition complete {A} (m : M Orchestrator A) : M St A := zoom completion_of put_completion m.

Definition audit (event_type task_id : string) (payload : dict) : M St unit :=
  u ← tick; t ← now; on_store (add_audit (uuid_str u) t event_type (Some task_id) payload).
Definition event (task_id : string) (e : dict) : M St unit := on_store (append_event task_id e).
Definition task_of (task_id : string) : M St RuntimeTaskRecord :=
  w ← world; lift_res (get_task task_id (ru_store w)).
Definition save (t : RuntimeTaskRecord) : M St unit := on_store (save_task t).

(** [save_task(task.model_copy(update={..., "updated_at": utc_now()}))]. *)
Definition save_copy (u : list task_field) (t : RuntimeTaskRecord) : M St RuntimeTaskRecord :=
  at_ ← now;
  let t := model_copy (u ++ [F_updated_at at_]) t in
  save t;; mret t.

(** ** Nodes *)

(* @src runtime_v1/service.py:152-155 RuntimeService.publish_worker_report *)
Definition publish_worker_report (snapshot : SchedulerNodeSnapshot) : M St WorkerReport :=
  t ← now;
  let report := build_worker_report t snapshot None None None 1 in
  change (λ w, set_reports (dict_set (node_id snapshot) report (ru_reports w)) w);;
  mret report.

(* @src runtime_v1/service.py:138-147 RuntimeService.register_node *)
Definition register_node (snapshot : SchedulerNodeSnapshot) : M St unit :=
  change (λ w, set_nodes (dict_set (node_id snapshot) snapshot (ru_nodes w)) w);;
  w ← world;
  let nodes := dict_values (ru_nodes w) in
  let how_many (p : SchedulerNodeSnapshot → bool) := Z.of_nat (length (List.filter p nodes)) in
  count (Nodes (how_many online)
           (how_many (λ n, online n && negb (revoked n) && session_authenticated n)));;
  publish_worker_report snapshot;; mret tt.

(* @src runtime_v1/service.py:157-158 RuntimeService.latest_worker_report *)
Definition latest_worker_report (w : W) (worker_id : string) : option WorkerReport :=
  dict_get worker_id (ru_reports w).

(* @src runtime_v1/service.py:1013-1014 RuntimeService.register_placement *)
Definition register_placement (p : WorkspacePlacement) : M St WorkspacePlacement :=
  on_store (save_placement p);; mret p.

(* @src runtime_v1/service.py:697-707 RuntimeService._resolve_workspace_path *)
Definition _resolve_workspace_path (w : W) (workspace_id : string) : string :=
  let here := List.find (λ p, pl_workspace_id p == workspace_id) in
  match here (concat (dict_values (rs_placements (ru_store w)))) with
  | Some p => local_path p
  | None =>
      match here (n ← dict_values (ru_nodes w); placements n) with
      | Some p => local_path p
      | None => path_join (path_join "/tmp" "joymesh-workspaces") workspace_id
      end
  end.

(** ** Remote execution *)

(* @src runtime_v1/service.py:1216-1234 _request_from_record *)
Definition _request_from_record (task : RuntimeTaskRecord) : RuntimeTaskRequest :=
  {| workspace_id := tk_workspace_id task; prompt := "";
     requested_capabilities := list_to_set (tk_requested_capabilities task);
     policy_profile := tk_policy_profile task;
     prohibited_capabilities := list_to_set (tk_prohibited_capabilities task);
     preferred_connectors := tk_preferred_connectors task;
     required_connector := tk_required_connector task;
     preferred_providers := tk_preferred_providers task;
     required_provider := tk_required_provider task; preferred_nodes := tk_preferred_nodes task;
     required_node := tk_required_node task; timeout_seconds := tk_timeout_seconds task;
     max_attempts := tk_max_attempts task; user_id := tk_user_id task;
     req_task_id := tk_task_id task; req_created_at := tk_created_at task |}.

(** The request the scheduler ranks nodes for: the harness of the decision is preferred. *)
(* @src runtime_v1/service.py:556-578 RuntimeService._submit_remote_execution *)
Definition remote_request (task : RuntimeTaskRecord) (prompt_ : string)
    (decision : ExecutionDecision) : RuntimeTaskRequest :=
  let request := _request_from_record task in
  let harness := ed_selected_harness_id decision in
  {| workspace_id := workspace_id request; prompt := prompt_;
     requested_capabilities := requested_capabilities request;
     policy_profile := policy_profile request;
     prohibited_capabilities := prohibited_capabilities request;
     preferred_connectors :=
       if (harness != "") && negb (harness in? preferred_connectors request)
       then harness :: preferred_connectors request else preferred_connectors request;
     required_connector := required_connector request;
     preferred_providers := preferred_providers request;
     required_provider := required_provider request; preferred_nodes := preferred_nodes request;
     required_node := required_node request; timeout_seconds := timeout_seconds request;
     max_attempts := max_attempts request; user_id := user_id request;
     req_task_id := req_task_id request; req_created_at := req_created_at request |}.

(** The scores and factors are whole-number floats. *)
(* @src runtime_v1/service.py:587-594 RuntimeService._submit_remote_execution *)
Definition candidate_dict (c : RouteCandidate) : dict :=
  [("node_id", PStr (cand_node_id c)); ("connector_id", PStr (cand_connector_id c));
   ("eligible", PBool (eligible c)); ("score", PFloat (z_to_float (score c)));
   ("rejection_reasons", PStrs (rejection_reasons c));
   ("scoring_factors",
      PDict ((λ '(k, z), (k, PFloat (z_to_float z))) <$> scoring_factors c))].

(** The lease of a task for the chosen node, its attempt and the task's new state. *)
(* @src runtime_v1/service.py:618-695 RuntimeService._submit_remote_execution *)
Definition lease_to_node (task : RuntimeTaskRecord) (intent : ExecutionIntent)
    (decision : ExecutionDecision) (chosen : RouteCandidate) : M St dict :=
  u ← tick;
  let attempt_id := "execution_attempt_" +:+ uuid_hex u in
  w ← world;
  let attempt_number := (Z.of_nat (length (attempts_of (tk_task_id task) (ru_store w))) + 1)%Z in
  t1 ← now;
  t2 ← now;
  l ← tick;
  lease ← zoom leases_of put_leases
    (acquire t1 t2 (uuid_str l) (tk_task_id task) (cand_node_id chosen)
       (cand_connector_id chosen) attempt_id None);
  on_store (save_lease lease);;
  on_store (save_attempt
    {| at_attempt_id := attempt_id; at_task_id := tk_task_id task;
       at_attempt_number := attempt_number; at_node_id := cand_node_id chosen;
       at_connector_id := cand_connector_id chosen; at_lease_id := lease_id lease;
       at_execution_origin := REMOTE_NODE; at_status := "leased"; at_started_at := None;
       at_terminal_at := None; at_failure_class := None; at_retry_safe := true |});;
  change (λ w, set_authoritative
    (dict_set (it_execution_id intent) attempt_id (ru_authoritative w)) w);;
  audit "lease.acquired" (tk_task_id task)
    [("lease_id", PStr (lease_id lease)); ("fencing_token", PInt (fencing_token lease));
     ("node_id", PStr (lease_node_id lease)); ("connector_id", PStr (lease_connector_id lease));
     ("attempt_id", PStr attempt_id); ("execution_id", PStr (it_execution_id intent))];;
  save_copy [F_status RT_LEASED; F_node (cand_node_id chosen);
    F_connector (cand_connector_id chosen); F_harness (cand_connector_id chosen);
    F_backend (ed_selected_backend_id decision); F_execution_id (it_execution_id intent);
    F_reason (ed_reason decision); F_fallback_order (ed_fallback_order decision);
    F_provider_routing_required (ed_provider_routing_required decision); F_detail None] task;;
  event (tk_task_id task)
    [("event_type", PStr "route.selected"); ("execution_id", PStr (it_execution_id intent));
     ("backend_id", PStr (ed_selected_backend_id decision));
     ("node_id", PStr (cand_node_id chosen)); ("connector_id", PStr (cand_connector_id chosen));
     ("harness_id", PStr (ed_selected_harness_id decision));
     ("score", PFloat (z_to_float (score chosen))); ("lease_id", PStr (lease_id lease));
     ("fencing_token", PInt (fencing_token lease)); ("attempt_id", PStr attempt_id)];;
  mret [("status", PStr "leased"); ("ok", PBool true);
        ("execution_id", PStr (it_execution_id intent)); ("attempt_id", PStr attempt_id);
        ("lease_id", PStr (lease_id lease)); ("node_id", PStr (cand_node_id chosen));
        ("harness_id", PStr (ed_selected_harness_id decision));
        ("fencing_token", PInt (fencing_token lease))].

(* @src runtime_v1/service.py:547-695 RuntimeService._submit_remote_execution *)
Definition _submit_remote_execution (intent : ExecutionIntent) (decision : ExecutionDecision) :
    M St dict :=
  task ← task_of (py_str (py_or (dget "runtime_task_id" (it_metadata intent))
                            (PStr (it_mission_id intent))));
  w ← world;
  candidates ← lift_res (rank_candidates production_mode policy
    (remote_request task (default "" (dict_get (tk_task_id task) (ru_prompts w))) decision)
    (dict_values (ru_nodes w)));
  on_store (save_candidates (tk_task_id task) candidates);;
  audit "scheduler.ranked" (tk_task_id task)
    [("execution_id", PStr (it_execution_id intent));
     ("candidates", PList ((λ c, PDict (candidate_dict c)) <$> candidates))];;
  match List.find eligible candidates with
  | None =>
      let detail := join "; " (match candidates with
                               | c :: _ => rejection_reasons c
                               | [] => ["no workers available"]
                               end) in
      at_ ← now;
      count (Increment C_queued);;
      save (model_copy [F_status RT_QUEUED; F_detail (Some detail); F_updated_at at_;
        F_execution_id (it_execution_id intent); F_backend (ed_selected_backend_id decision);
        F_harness (ed_selected_harness_id decision)] task);;
      mret [("status", PStr "queued"); ("message", PStr detail); ("ok", PBool false)]
  | Some chosen => lease_to_node task intent decision chosen
  end.

(** ** The coding worker *)

(** Commit and push are allowed if they were requested, not prohibited, and the profile does
    not exclude them. *)
(* @src runtime_v1/service.py:1034-1043 RuntimeService._execute_coding_worker *)
Definition may_use (task : RuntimeTaskRecord) (capability : string) : bool :=
  (capability in? tk_requested_capabilities task) &&
  negb (capability in? tk_prohibited_capabilities task) &&
  negb (tk_policy_profile task in? ["read_only"; "production_restricted"; "ci"]).

(* @src runtime_v1/service.py:1068-1077 RuntimeService._execute_coding_worker *)
Definition on_progress (task : RuntimeTaskRecord) (intent : ExecutionIntent) (label : string) :
    M St unit :=
  event (tk_task_id task)
    [("event_type", PStr "coding_worker.progress"); ("summary", PStr label);
     ("execution_id", PStr (it_execution_id intent)); ("task_id", PStr (tk_task_id task));
     ("correlation_id", ostr (tk_correlation_id task))].

(** The result of the routing made from the result of the worker. *)
(* @src runtime_v1/service.py:1088-1143 RuntimeService._execute_coding_worker *)
Definition coding_answer (task : RuntimeTaskRecord) (intent : ExecutionIntent)
    (decision : ExecutionDecision) (r : CodingWorkerResult) : RoutedResult :=
  let ok := cw_status r == "completed" in
  let tests := PList ((λ t, PDict (test_dict t)) <$> cw_tests_run r) in
  {| rr_result :=
       {| xr_ok := ok; xr_execution_id := it_execution_id intent; xr_backend_id := "local";
          xr_harness_id := "codex"; xr_message := cw_summary r;
          xr_output := [("coding_worker", PDict (CodingWorkerResult_as_dict r));
                        ("ok", PBool ok); ("changed_files", PStrs (cw_changed_files r));
                        ("tests_run", tests)];
          xr_failure_class := if ok then None else Some (or_text (cw_error r) "coding_worker_failed");
          xr_usage := []; xr_evidence_refs := er_uri <$> cw_evidence r;
          xr_candidate_verification :=
            [("changed_files", PStrs (cw_changed_files r)); ("tests_run", tests);
             ("worker_id", ostr (cw_worker_id r)); ("lease_id", ostr (cw_lease_id r))];
          xr_restore_status := None; xr_verification := [] |};
     rr_status := if cw_status r == "cancelled" then ES_CANCELLED
                  else if ok then ES_SUCCEEDED else ES_FAILED;
     rr_attempted_backends := ["local"]; rr_decision := Some decision; rr_audits := [];
     rr_attempts := [[("attempt_id", PStr ("coding_attempt_" +:+ tk_task_id task));
                      ("execution_id", PStr (it_execution_id intent));
                      ("backend_id", PStr "local"); ("harness_id", PStr "codex");
                      ("status", PStr (cw_status r))]] |}.

(* @src runtime_v1/service.py:1016-1143 RuntimeService._execute_coding_worker *)
Definition _execute_coding_worker (task : RuntimeTaskRecord) (prompt workspace_path : string)
    (decision : ExecutionDecision) (intent : ExecutionIntent) : M St RoutedResult :=
  u ← tick;
  let commit := may_use task "git.commit" in
  let push := may_use task "git.push" in
  let coding_task := task_from_runtime (uuid_hex u) (tk_task_id task) prompt workspace_path
    (tk_mission_id task) (Some (it_execution_id intent)) (tk_correlation_id task) None
    commit push (tk_timeout_seconds task)
    ((if commit then [] else ["Do not commit"]) ++ (if push then [] else ["Do not push"]) ++
     ["Stay inside the repository"]) in
  change (set_worker CodingWorkerState_init);;
  r ← execute OS Git U take leases_of put_leases (λ s, ru_worker (st_world s))
        (λ w, on_world (set_worker w)) codex (on_progress task intent) "local-codex-worker"
        coding_task;
  event (tk_task_id task)
    [("event_type", PStr "coding_worker.result"); ("execution_id", PStr (it_execution_id intent));
     ("result", PDict (CodingWorkerResult_as_dict r))];;
  mret (coding_answer task intent decision r).

(** ** Routing *)

Context (Rt : ExecutionRouter (Runtime X)).

(** The context of a completion, with the defaults of [CompletionContext]. *)
Definition context_of (task : RuntimeTaskRecord) (execution_id attempt_id authoritative : string)
    (backend_id : string) (harness_id : option string) (cancelled require_evidence : bool)
    (strategy : string) (types : list string) : CompletionContext :=
  {| ctx_organisation_id := None; ctx_project_id := Some (tk_workspace_id task);
     ctx_mission_id := or_str (tk_mission_id task) (tk_task_id task);
     ctx_execution_id := execution_id; ctx_attempt_id := attempt_id;
     ctx_authoritative_attempt_id := authoritative; ctx_backend_id := backend_id;
     ctx_harness_id := harness_id;
     ctx_correlation_id := Some (or_str (tk_correlation_id task) (tk_task_id task));
     ctx_user_id := Some (tk_user_id task); ctx_cancelled := cancelled;
     ctx_require_evidence := require_evidence; ctx_verification_strategy := strategy;
     ctx_required_evidence_types := types; ctx_max_evidence_bytes := 2000000;
     ctx_metadata := [] |}.

(** [audit(str(e.get("event_type") or default), ...)] for every event, and, when they are
    kept, the event appended to those of the task. *)
(* @src runtime_v1/service.py:435-441 RuntimeService.route_task *)
Definition record_events (task_id other : string) (keep : bool) (events : list dict) : M St unit :=
  for_each events (λ e,
    audit (py_str (py_or (dget "event_type" e) (PStr other))) task_id e;;
    if keep then event task_id e else mret tt).

(* @src runtime_v1/service.py:378-421 RuntimeService.route_task *)
Definition note_decision (task : RuntimeTaskRecord) (decision : ExecutionDecision) :
    M St RuntimeTaskRecord :=
  task ← save_copy [F_execution_id (ed_execution_id decision);
    F_backend (ed_selected_backend_id decision); F_harness (ed_selected_harness_id decision);
    F_connector (or_text (ed_selected_connector_id decision) (ed_selected_harness_id decision));
    F_reason (ed_reason decision); F_fallback_order (ed_fallback_order decision);
    F_provider_routing_required (ed_provider_routing_required decision)] task;
  audit "backend.selected" (tk_task_id task) (ExecutionDecision_as_dict decision);;
  count (ByBackend (ed_selected_backend_id decision));;
  event (tk_task_id task)
    [("event_type", PStr "backend.selected"); ("execution_id", PStr (ed_execution_id decision));
     ("backend_id", PStr (ed_selected_backend_id decision));
     ("harness_id", PStr (ed_selected_harness_id decision)); ("reason", PStr (ed_reason decision));
     ("fallback_order", PStrs (ed_fallback_order decision))];;
  if ed_provider_routing_required decision then
    let task := model_copy [F_provider "fireworks"; F_route_manager "fireconnect";
      F_provider_reason "provider_routing_required_via_execution_router"] task in
    save task;; mret task
  else mret task.

(** The attempt a completion is of: the last one of the result. *)
(* @src runtime_v1/service.py:455-459 RuntimeService.route_task *)
Definition attempt_of (task : RuntimeTaskRecord) (task_id : string) (result : RoutedResult) :
    res string :=
  match last (rr_attempts result) with
  | Some a => match dict_get "attempt_id" a with
              | Some v => Ok (py_str v)
              | None => Raise (KeyError "'attempt_id'")
              end
  | None => Ok ("execution_attempt_" +:+ or_str (tk_execution_id task) task_id)
  end.

(** The end of a task that was not completed: queued, rejected or failed. *)
(* @src runtime_v1/service.py:501-545 RuntimeService.route_task *)
Definition not_completed (task : RuntimeTaskRecord) (result : RoutedResult)
    (outcome : CompletionOutcome) : M St RuntimeTaskRecord :=
  let r := rr_result result in
  let offline := str_in "offline" (xr_message r) in
  let detail := F_detail (Some (if out_detail outcome == "" then xr_message r
                                else out_detail outcome)) in
  submission ← lift_res (py_dict (py_or (dget "submission" (xr_output r)) (PDict [])));
  let status := dget "status" submission in
  if (out_state outcome == BLOCKED) || (rr_status result == ES_BLOCKED) ||
     (negb (xr_ok r) && offline) then
    if py_eqb status (PStr "queued") || offline then
      at_ ← now;
      let blocked := model_copy [F_status RT_QUEUED; detail; F_updated_at at_] task in
      count (Increment C_queued);; save blocked;; mret blocked
    else save_copy [F_status RT_REJECTED; detail] task
  else if py_eqb status (PStr "rejected") then save_copy [F_status RT_REJECTED; detail] task
  else
    at_ ← now;
    let failed := model_copy [F_status RT_FAILED; detail; F_updated_at at_;
      F_backend (xr_backend_id r); F_harness (xr_harness_id r)] task in
    count (Increment C_failed);; save failed;; mret failed.

(** The completion of a result: only a verified outcome makes the task succeed. *)
(* @src runtime_v1/service.py:453-545 RuntimeService.route_task *)
Definition complete_result (task : RuntimeTaskRecord) (decision : ExecutionDecision)
    (result : RoutedResult) : M St RuntimeTaskRecord :=
  let r := rr_result result in
  attempt_id ← lift_res (attempt_of task (tk_task_id task) result);
  change (λ w, set_authoritative
    (dict_set (xr_execution_id r) attempt_id (ru_authoritative w)) w);;
  outcome ← complete (complete_from_backend r
    (context_of task (xr_execution_id r) attempt_id attempt_id (xr_backend_id r)
       (Some (xr_harness_id r)) false false "backend_success_with_evidence" [])
    (Some (ExecutionDecision_as_dict decision)) []);
  record_events (tk_task_id task) "completion.event" true (out_events outcome);;
  if out_ok outcome && (out_state outcome == COMPLETED) then
    at_ ← now;
    let succeeded := model_copy [F_status RT_SUCCEEDED; F_backend (xr_backend_id r);
      F_harness (xr_harness_id r); F_connector (xr_harness_id r);
      F_detail (Some (out_detail outcome)); F_updated_at at_] task in
    count (Increment C_successful);; save succeeded;; mret succeeded
  else not_completed task result outcome.

(** What follows a selected backend. *)
(* @src runtime_v1/service.py:423-545 RuntimeService.route_task *)
Definition run_selected (task : RuntimeTaskRecord) (prompt workspace_path : string)
    (decision : ExecutionDecision) (intent : ExecutionIntent) : M St RuntimeTaskRecord :=
  result ←
    (if (ed_selected_backend_id decision == "local") &&
        (ed_selected_harness_id decision == "codex")
     then _execute_coding_worker task prompt workspace_path decision intent
     else execute_with_fallback Rt intent (Some decision));
  record_events (tk_task_id task) "backend.event" true (rr_audits result);;
  if (ed_selected_backend_id decision == "joymesh") && xr_ok (rr_result result) then
    leased ← task_of (tk_task_id task);
    count (Increment C_leased);;
    (if otruthy (tk_selected_connector_id leased)
     then count (ByConnector (default "" (tk_selected_connector_id leased))) else mret tt);;
    mret leased
  else complete_result task decision result.

(* @src runtime_v1/service.py:331-545 RuntimeService.route_task *)
Definition route_task (task_id : string) : M St RuntimeTaskRecord :=
  task ← task_of task_id;
  w ← world;
  let prompt := default "" (dict_get task_id (ru_prompts w)) in
  let workspace_path := _resolve_workspace_path w (tk_workspace_id task) in
  let remote := negb (ru_nodes w == []) || otruthy (tk_required_node task) in
  intent ← service_plan (mission_spec_from_task task prompt workspace_path
    (Some (tk_workspace_id task)) (if remote then "remote" else "local") remote);
  audit "execution.planned" task_id
    [("execution_id", PStr (it_execution_id intent));
     ("required_capabilities",
        PStrs (sorted_strs (ExecutionCapability_value <$> elements (it_required_capabilities intent))));
     ("preferred_harness", ostr (it_preferred_harness intent));
     ("requires_provider_route", PBool (it_requires_provider_route intent))];;
  at_ ← now;
  match select_decision Rt at_ intent with
  | Raise e =>
      if negb (is_Exception e) then raise e
      else
        rejected ← save_copy [F_status RT_REJECTED; F_detail (Some (exn_msg e));
                              F_execution_id (it_execution_id intent)] task;
        audit "execution.blocked" task_id
          [("execution_id", PStr (it_execution_id intent));
           ("error", PStr (str_take 200 (exn_msg e)))];;
        mret rejected
  | Ok decision =>
      task ← note_decision task decision;
      run_selected task prompt workspace_path decision intent
  end.

(** ** Creating a task *)

(* @src runtime_v1/service.py:163-178 RuntimeService.create_task *)
Definition request_of (body : CreateRuntimeTaskBody) (user task_id : string) (created_at : Z) :
    RuntimeTaskRequest :=
  {| workspace_id := cb_workspace_id body; prompt := cb_prompt body;
     requested_capabilities := list_to_set (cb_requested_capabilities body);
     policy_profile := cb_policy_profile body;
     prohibited_capabilities := list_to_set (cb_prohibited_capabilities body);
     preferred_connectors := cb_preferred_connectors body;
     required_connector := cb_required_connector body;
     preferred_providers := cb_preferred_providers body;
     required_provider := cb_required_provider body; preferred_nodes := cb_preferred_nodes body;
     required_node := cb_required_node body; timeout_seconds := cb_timeout_seconds body;
     max_attempts := cb_max_attempts body; user_id := user; req_task_id := task_id;
     req_created_at := created_at |}.

(* @src runtime_v1/service.py:180-190 RuntimeService.create_task *)
Definition integration_metadata (body : CreateRuntimeTaskBody) : dict :=
  omap (λ '(k, o), (λ v, (k, PStr v)) <$> o)
    [("mission_id", cb_mission_id body); ("execution_id", cb_execution_id body);
     ("trace_id", cb_trace_id body); ("actor_id", cb_actor_id body);
     ("idempotency_key", cb_idempotency_key body)].

(** The record of a request; [t1] and [t2] are the defaults of its two times. *)
(* @src runtime_v1/service.py:257-285 RuntimeService.create_task *)
Definition task_record (body : CreateRuntimeTaskBody) (request : RuntimeTaskRequest)
    (t1 t2 : Z) (expanded : list string) (status : RuntimeTaskStatus) (approval : bool)
    (detail : option string) : RuntimeTaskRecord :=
  {| tk_task_id := req_task_id request;
     tk_correlation_id := Some (or_str (cb_correlation_id body) (req_task_id request));
     tk_mission_id := cb_mission_id body; tk_trace_id := cb_trace_id body;
     tk_metadata := integration_metadata body; tk_workspace_id := workspace_id request;
     tk_user_id := user_id request; tk_prompt_digest := sha256_hex (prompt request);
     tk_prompt_size := Z.of_nat (String.length (prompt request));
     tk_requested_capabilities := sorted_strs (elements (requested_capabilities request));
     tk_prohibited_capabilities := sorted_strs (elements (prohibited_capabilities request));
     tk_expanded_capabilities := expanded; tk_policy_profile := policy_profile request;
     tk_preferred_connectors := preferred_connectors request;
     tk_required_connector := required_connector request;
     tk_preferred_providers := preferred_providers request;
     tk_required_provider := required_provider request;
     tk_preferred_nodes := preferred_nodes request; tk_required_node := required_node request;
     tk_timeout_seconds := timeout_seconds request; tk_max_attempts := max_attempts request;
     tk_status := status; tk_selected_node_id := None; tk_selected_connector_id := None;
     tk_selected_backend_id := None; tk_selected_harness_id := None; tk_execution_id := None;
     tk_execution_decision_reason := None; tk_execution_fallback_order := [];
     tk_provider_routing_required := false; tk_selected_provider_id := None;
     tk_selected_provider_route_id := None; tk_selected_provider_route_manager_id := None;
     tk_selected_model_id := None; tk_provider_selection_reason := None;
     tk_approval_required := approval; tk_created_at := t1; tk_updated_at := t2;
     tk_detail := detail |}.

(** A task that is queued without being routed. *)
(* @src runtime_v1/service.py:289-313 RuntimeService.create_task *)
Definition queue_unrouted (task : RuntimeTaskRecord) : M St RuntimeTaskRecord :=
  queued ← save_copy [F_status RT_QUEUED;
    F_detail (Some "Queued for routing when workers available")] task;
  audit "task.queued" (tk_task_id task) [("reason", PStr "skip_routing_requested")];;
  event (tk_task_id task)
    [("event_type", PStr "accepted"); ("status", PStr "queued");
     ("detail", PStr "Task accepted and queued")];;
  count (Increment C_queued);;
  mret queued.

(* @src runtime_v1/service.py:191-216 RuntimeService.create_task *)
Definition judge (body : CreateRuntimeTaskBody) (request : RuntimeTaskRequest) :
    M St PolicyDecision :=
  let task_id := req_task_id request in
  change (λ w, set_prompts (dict_set task_id (cb_prompt body) (ru_prompts w)) w);;
  audit "task.created" task_id
    (dict_update
      [("prompt_digest", PStr (sha256_hex (prompt request)));
       ("prompt_size", PInt (Z.of_nat (String.length (prompt request))));
       ("policy_profile", PStr (policy_profile request));
       ("requested_capabilities", PStrs (sorted_strs (elements (requested_capabilities request))));
       ("prohibited_capabilities", PStrs (sorted_strs (elements (prohibited_capabilities request))));
       ("correlation_id", PStr (or_str (cb_correlation_id body) task_id))]
      (integration_metadata body));;
  decision ← lift_res (evaluate policy request None);
  audit "policy.evaluated" task_id
    [("allowed", PBool (allowed decision)); ("reasons", PStrs (reasons decision));
     ("granted", PStrs (sorted_strs (elements (granted_capabilities decision))));
     ("denied", PStrs (sorted_strs (elements (denied_capabilities decision))));
     ("approvals", PStrs (approval_requirements decision))];;
  mret decision.

(** What becomes of a task that was judged. *)
(* @src runtime_v1/service.py:217-314 RuntimeService.create_task *)
Definition admit_task (body : CreateRuntimeTaskBody) (request : RuntimeTaskRequest)
    (decision : PolicyDecision) (skip_routing : bool) : M St RuntimeTaskRecord :=
  let task_id := req_task_id request in
  if negb (allowed decision) then
    count (Increment C_policy_rejections);;
    t1 ← now;
    t2 ← now;
    let task := task_record body request t1 t2 [] RT_REJECTED false
                  (Some (join "; " (reasons decision))) in
    save task;; mret task
  else
    expanded ← lift_res (expand_result (CapabilityRegistry_init None)
      (requested_capabilities request) (prohibited_capabilities request));
    let expanded := sorted_strs (elements expanded) in
    audit "capabilities.expanded" task_id [("expanded", PStrs expanded)];;
    let approval_required := negb (approval_requirements decision == []) in
    t1 ← now;
    t2 ← now;
    let task := task_record body request t1 t2 expanded
      (if approval_required then RT_APPROVAL_REQUIRED else RT_ROUTING) approval_required None in
    save task;;
    if approval_required then mret task
    else if skip_routing then queue_unrouted task
    else route_task task_id.

(* @src runtime_v1/service.py:160-314 RuntimeService.create_task *)
Definition create_task (body : CreateRuntimeTaskBody) (user : string) (skip_routing : bool) :
    M St RuntimeTaskRecord :=
  u ← tick;
  t ← now;
  let request := request_of body user (uuid_str u) t in
  decision ← judge body request;
  admit_task body request decision skip_routing.

(* @src runtime_v1/service.py:316-329 RuntimeService.approve_task *)
Definition approve_task (task_id : string) : M St RuntimeTaskRecord :=
  task ← task_of task_id;
  if tk_status task != RT_APPROVAL_REQUIRED then
    raise (PermissionError "task is not awaiting approval")
  else
    save_copy [F_status RT_ROUTING; F_approval_required false] task;;
    audit "task.approved" task_id [];;
    route_task task_id.

(** ** Events of nodes *)

(* @src runtime_v1/service.py:709-729 RuntimeService.mark_offered *)
Definition mark_offered (task_id : string) (token : Z) : M St RuntimeTaskRecord :=
  lease ← on_leases (λ t, active_lease t task_id);
  match lease with
  | Some l =>
      if fencing_token l == token then
        task ← task_of task_id;
        updated ← save_copy [F_status RT_OFFERED] task;
        audit "task.offered" task_id [("lease_id", PStr (lease_id l))];;
        mret updated
      else
        count (Increment C_stale);;
        audit "event.stale_rejected" task_id [("fencing_token", PInt token)];;
        raise (PermissionError "stale fencing token")
  | None =>
      count (Increment C_stale);;
      audit "event.stale_rejected" task_id [("fencing_token", PInt token)];;
      raise (PermissionError "stale fencing token")
  end.

Definition terminal_events : list string :=
  ["task.succeeded"; "task.failed"; "task.cancelled"; "verification.completed";
   "execution.completed"; "execution.failed"; "execution.cancelled"].

(** The evidence an event carries: its verification, or a bare word that it is verified. *)
(* @src runtime_v1/service.py:794-823 RuntimeService.ingest_node_event *)
Definition event_candidates (fresh : string) (task : RuntimeTaskRecord)
    (execution_id attempt_id event_type : string) (payload : dict) :
    res (list CandidateEvidence) :=
  let candidate body :=
    res_bind (py_int (py_or (dget "sequence" payload) (PInt 1))) (λ sequence,
    Ok [{| ce_evidence_type := "remote_verification"; ce_content_ref := None;
           ce_content_hash := None; ce_size_bytes := 0; ce_sequence := sequence;
           ce_provenance :=
             [("execution_id", PStr execution_id); ("attempt_id", PStr attempt_id);
              ("mission_id", PStr (tk_task_id task));
              ("project_id", PStr (tk_workspace_id task))];
           ce_payload := body; ce_evidence_id := "evidence_" +:+ fresh |}]) in
  match dget "verification" payload with
  | PDict v => candidate v
  | _ => match dget "verified" payload with
         | PBool true => if event_type == "task.succeeded"
                         then candidate [("outcome", PStr "verified"); ("passed", PBool true)]
                         else Ok []
         | _ => Ok []
         end
  end.

(** The status of a task after a completion. *)
(* @src runtime_v1/service.py:872-885 RuntimeService.ingest_node_event *)
Definition status_after (outcome : CompletionOutcome) : RuntimeTaskStatus :=
  if out_state outcome == COMPLETED then RT_SUCCEEDED
  else if out_state outcome == CANCELLED then RT_CANCELLED
  else RT_FAILED.

Definition ended (task : RuntimeTaskRecord) : bool :=
  tk_status task in? [RT_SUCCEEDED; RT_FAILED; RT_CANCELLED; RT_REJECTED].

(** The end of a task by an event. *)
(* @src runtime_v1/service.py:863-917 RuntimeService.ingest_node_event *)
Definition end_task (task : RuntimeTaskRecord) (token : Z) (event_type : string)
    (outcome : CompletionOutcome) : M St RuntimeTaskRecord :=
  let task_id := tk_task_id task in
  if ended task then mret task
  else
    let status := status_after outcome in
    updated ← save_copy [F_status status; F_detail (Some (out_detail outcome))] task;
    on_leases (λ t, release t task_id token);;
    count (Increment (if status == RT_SUCCEEDED then C_successful
                      else if status == RT_FAILED then C_failed else C_cancelled));;
    audit "task.terminal" task_id
      [("status", PStr (RuntimeTaskStatus_value status)); ("event_type", PStr event_type);
       ("completion_state", PStr (CompletionLifecycleState_value (out_state outcome)));
       ("verified", PBool (out_ok outcome))];;
    mret updated.

(** An event that ends the execution on its node. *)
(* @src runtime_v1/service.py:791-917 RuntimeService.ingest_node_event *)
Definition terminal_event (task : RuntimeTaskRecord) (attempt_id : string) (token : Z)
    (event_type : string) (payload : dict) : M St RuntimeTaskRecord :=
  let task_id := tk_task_id task in
  let execution_id := or_str (tk_execution_id task) task_id in
  w ← world;
  let authoritative := default attempt_id (dict_get execution_id (ru_authoritative w)) in
  u ← tick;
  candidates ← lift_res
    (event_candidates (uuid_hex u) task execution_id attempt_id event_type payload);
  outcome ← complete (complete_from_remote_event
    (context_of task execution_id attempt_id authoritative
       (or_str (tk_selected_backend_id task) "joymesh")
       (if otruthy (tk_selected_harness_id task) then tk_selected_harness_id task
        else tk_selected_connector_id task)
       (event_type in? ["task.cancelled"; "execution.cancelled"]) true
       "remote_verifier_event" ["remote_verification"])
    event_type payload (RawCandidate <$> candidates));
  record_events task_id "completion.event" true (out_events outcome);;
  if bool_decide (out_failure_class outcome ∈ Some <$>
       [CompletionFailureClass_value FC_STALE_ATTEMPT;
        CompletionFailureClass_value FC_SUPERSEDED_ATTEMPT;
        CompletionFailureClass_value FC_LATE_EVENT])
  then count (Increment C_stale);; mret task
  else end_task task token event_type outcome.

(* @src runtime_v1/service.py:731-917 RuntimeService.ingest_node_event *)
Definition ingest_node_event (task_id attempt_id lease_id : string) (token : Z)
    (event_type : string) (payload : dict) : M St RuntimeTaskRecord :=
  catch (on_leases (λ t, validate_event t task_id lease_id token attempt_id);; mret tt)
    (λ e, (if exn_class e == "PermissionError" then
             count (Increment C_stale);;
             audit "event.stale_rejected" task_id
               [("event_type", PStr event_type); ("fencing_token", PInt token);
                ("lease_id", PStr lease_id); ("attempt_id", PStr attempt_id)]
           else mret tt);;
          raise e);;
  task ← task_of task_id;
  event task_id [("event_type", PStr event_type); ("payload", PDict payload);
                 ("attempt_id", PStr attempt_id)];;
  if event_type == "task.accepted" then save_copy [F_status RT_ACCEPTED] task
  else if event_type == "task.started" then
    at_ ← now;
    let updated := model_copy [F_status RT_RUNNING; F_updated_at at_] task in
    count (Increment C_running);; save updated;; mret updated
  else if negb (event_type in? terminal_events) then mret task
  else terminal_event task attempt_id token event_type payload.

(** ** Cancelling and retrying *)

(** The completion of a task the user cancelled. *)
(* @src runtime_v1/service.py:947-971 RuntimeService.cancel_task *)
Definition cancel_completion (task : RuntimeTaskRecord) : M St unit :=
  let execution_id := or_str (tk_execution_id task) (tk_task_id task) in
  w ← world;
  let attempt_id := default execution_id (dict_get execution_id (ru_authoritative w)) in
  outcome ← complete (finalise_cancelled
    (context_of task execution_id attempt_id attempt_id
       (or_str (tk_selected_backend_id task) "unknown")
       (if otruthy (tk_selected_harness_id task) then tk_selected_harness_id task
        else tk_selected_connector_id task)
       true false "backend_success_with_evidence" []) true);
  record_events (tk_task_id task) "completion.event" false (out_events outcome).

(* @src runtime_v1/service.py:919-986 RuntimeService.cancel_task *)
Definition cancel_task (task_id : string) : M St RuntimeTaskRecord :=
  task ← task_of task_id;
  if ended task then mret task
  else
    let execution_id := or_str (tk_execution_id task) task_id in
    cancel_result ← Router.cancel Rt execution_id;
    audit "backend.cancelled" task_id cancel_result;;
    event task_id (dict_update [("event_type", PStr "backend.cancelled");
                                ("execution_id", PStr execution_id)] cancel_result);;
    lease ← on_leases (λ t, active_lease t task_id);
    match lease with
    | Some l => if lease_status l == ACTIVE
                then on_leases (λ t, release t task_id (fencing_token l));; mret tt
                else mret tt
    | None => mret tt
    end;;
    cancel_completion task;;
    at_ ← now;
    let cancelled := model_copy [F_status RT_CANCELLED; F_updated_at at_;
                                 F_detail (Some "user_cancelled")] task in
    count (Increment C_cancelled);;
    save cancelled;;
    audit "task.cancelled" task_id [("failure_class", PStr (FailureClass_value USER_CANCELLED))];;
    mret cancelled.

(* @src runtime_v1/service.py:988-1011 RuntimeService.retry_task *)
Definition retry_task (task_id : string) (failure_class : FailureClass) :
    M St RuntimeTaskRecord :=
  task ← task_of task_id;
  w ← world;
  let decision := decide_retry (tk_max_attempts task) (tk_expanded_capabilities task)
    failure_class (Z.of_nat (length (attempts_of task_id (ru_store w))))
    (tk_status task in? [RT_RUNNING; RT_ACCEPTED]) false in
  audit "retry.decided" task_id
    [("retry", PBool (retry decision)); ("reason", PStr (retry_reason decision))];;
  if negb (retry decision) then raise (PermissionError (retry_reason decision))
  else
    count (Increment C_retry);;
    count (Increment C_failover);;
    save_copy [F_status RT_ROUTING; F_detail None] task;;
    route_task task_id.

(** ** Reads *)

(* @src runtime_v1/service.py:1145-1158 RuntimeService.coding_worker_health *)
Definition coding_worker_health : M St dict :=
  ready ← coding_worker_ready OS;
  s ← get_state (S := St);
  let ids := sorted_strs (elements (dom (active_map (leases_of s)))) in
  active ← (fix go ids (n : Z) : M St Z :=
    match ids with
    | [] => mret n
    | id :: ids =>
        lease ← on_leases (λ t, active_lease t id);
        go ids (if match lease with Some l => lease_status l == ACTIVE | None => false end
                then (n + 1)%Z else n)
    end) ids 0%Z;
  mret (dict_update ready [("lease_service", PStr "ok"); ("active_leases", PInt active)]).

(* @src runtime_v1/service.py:1160-1176 RuntimeService.list_capabilities *)
Definition list_capabilities : list dict :=
  let by_id := by_id (CapabilityRegistry_init None) in
  (λ item, [("capability_id", PStr (Capabilities.capability_id item));
            ("description", PStr (Capabilities.cap_description item)); ("risk_level", PStr (Capabilities.risk_level item));
            ("dependencies", PStrs (sorted_strs (elements (Capabilities.dependencies item))));
            ("conflicts", PStrs (sorted_strs (elements (Capabilities.conflicts item))));
            ("default_approval_class", PStr (Capabilities.default_approval_class item));
            ("routable", PBool (Capabilities.routable item)); ("experimental", PBool (Capabilities.experimental item));
            ("definition_revision", PStr definition_revision)])
  <$> omap (λ id, by_id !! id) (sorted_strs (elements (dom by_id))).

(* @src runtime_v1/service.py:1178-1189 RuntimeService.list_policies *)
Definition list_policies : list dict :=
  (λ item, [("profile_id", PStr (profile_id item)); ("description", PStr (description item));
            ("allowed", PStrs (sorted_strs (elements (p_allowed item))));
            ("denied", PStrs (sorted_strs (elements (p_denied item))));
            ("require_node_attested", PBool (require_node_attested item));
            ("enabled", PBool (Policy.enabled item))])
  <$> list_profiles policy.

(* @src runtime_v1/service.py:1191-1199 RuntimeService.health *)
Definition health (w : W) : dict :=
  [("control_plane", PStr "ok"); ("scheduler", PStr "ok"); ("lease_service", PStr "ok");
   ("active_node_sessions", PInt (rm_connected_nodes (ru_metrics w)));
   ("task_queue", PInt (rm_queued_tasks (ru_metrics w)));
   ("metrics", PDict (RuntimeMetrics_snapshot (ru_metrics w)))].
End service.

(** ** The service as it is built *)

(** The router of a service that is given none: the default registry, whose JoyMesh backend
    submits to the service itself. *)
(* @src runtime_v1/service.py:121-136 RuntimeService.__post_init__ *)
Definition default_router {X} `{PyLib} `{HashOrder} (OS : OperatingSystem (RouterState (Runtime X)))
    (policy : PolicyEngine) (production_mode : bool)
    (harnesses : list (string * HarnessAdapter (RouterState (Runtime X))))
    (routes : ProviderRoutes) : ExecutionRouter (Runtime X) :=
  {| rt_registry :=
       {| rg_config := default_BackendRegistryConfig;
          rg_backends := default_backends OS ru_runner set_runner ru_joymesh set_joymesh
            harnesses routes (Some (_submit_remote_execution policy production_mode));
          rg_overrides := [] |};
     rt_available_harnesses := sorted_strs (elements KNOWN_HARNESSES);
     rt_subscription_allows := []; rt_quota_allows := [];
     rt_profiles := builtin_capability_profiles; rt_available_connectors := None |}.

(** ** Ready nodes *)

(* @src runtime_v1/service.py:1327-1374 build_ready_connector_node *)
Definition build_ready_connector_node (at_ : Z) (id workspace connector path : string)
    (online_ revoked_ : bool) (extra : list (string * SchedulerConnectorSnapshot)) :
    SchedulerNodeSnapshot :=
  {| node_id := id; online := online_; revoked := revoked_;
     session_authenticated := online_ && negb revoked_;
     connectors := list_to_map extra ∪
       {[ connector := {| sc_connector_id := connector; installed := true; readiness := READY;
            authenticated := true; routing_enabled := true;
            sc_certified_capabilities := READ_ONLY_CAPABILITIES;
            trust_level := Some NODE_ATTESTED; execution_origin := Some REMOTE_NODE |} ]};
     placements := [{| pl_workspace_id := workspace; pl_node_id := id; local_path := path;
                       fingerprint := "fp"; writable := false; last_verified_at := at_;
                       expose_path := false |}];
     concurrency := 0; queue_depth := 0; recent_failures := 0 |}.
