(* ===== verification/RuntimeServiceProofs.v ===== *)
(** * What the runtime service promises

    A task is only ever succeeded when the orchestrator holds a completed record of its
    execution. The proof follows the service with a preorder on its states, [step]: the
    operating system, git, the connectors and the backends are arbitrary within it, so that
    other requests of the process may run wherever the service waits. *)

From Stdlib Require Import Ascii SpecFloat.
From S2P Require Import Prelude TaskAnalysis CompletionModels Capabilities Policy Scheduler Leases.
From S2P Require Import Evidence Usage MissionGraph Orchestrator OrchestratorProofs.
From S2P Require Import CapabilityRouting Execution Router RouterProofs Coordinator.
From S2P Require Import Processes Harness Backends BackendsProofs Workers CodingWorker.
From S2P Require Import CodingWorkerProofs RuntimeStore RuntimeService.

(** ** The states *)

Section states.
Context {X : Type} `{PyLib}.
Local Abbreviation St := (RouterState (Runtime X)).
Implicit Types (s : St) (t : RuntimeTaskRecord).

Definition orch s : Orchestrator := ru_completion (st_world s).
Definition tasks_of s : list (string * RuntimeTaskRecord) := rs_tasks (ru_store (st_world s)).

(** The execution a task is judged by, as the code takes it. *)
Definition execution_of t : string := or_str (tk_execution_id t) (tk_task_id t).

(** A succeeded task has a completed record. *)
Definition vouched s t : Prop :=
  tk_status t = RT_SUCCEEDED → completed (orch s) (execution_of t).

(** The records are well formed, a task is kept under its id, and succeeded ones are vouched
    for. *)
Definition sound s : Prop :=
  store_inv (orch s) ∧
  ∀ id t, dict_get id (tasks_of s) = Some t → tk_task_id t = id ∧ vouched s t.

(** What an operation may do: it keeps the state sound and completed records completed. *)
Definition step s s' : Prop :=
  sound s → sound s' ∧ ∀ eid, completed (orch s) eid → completed (orch s') eid.

#[export] Instance step_preorder : PreOrder step.
Proof.
  split; [by intros s|]. intros s1 s2 s3 H12 H23 Hs.
  destruct (H12 Hs) as [Hs2 Hk2]. destruct (H23 Hs2) as [Hs3 Hk3]. auto.
Qed.

Lemma step_same s s' : store (orch s') = store (orch s) → tasks_of s' = tasks_of s → step s s'.
Proof.
  intros Ho Ht Hs. unfold sound, vouched, store_inv, completed in *. rewrite Ho, Ht. auto.
Qed.

(** ** The operations of the state *)

Lemma within_world : within step (world (X := X)).
Proof. unfold world. within_steps. Qed.
Lemma within_tick_step : within step (tick (W := Runtime X)).
Proof. intros s. by apply step_same. Qed.
Lemma within_on_cancel f : within step (on_cancel (W := Runtime X) f).
Proof. intros s. by apply step_same. Qed.
Lemma within_take n : within step (take (X := X) n).
Proof. intros s. by apply step_same. Qed.
#[local] Hint Resolve within_world within_tick_step within_on_cancel within_take : within.
Lemma within_now : within step (now (X := X)).
Proof. unfold now. within_steps. Qed.

(** A change that leaves the tasks and the records alone. *)
Lemma within_change (f : Runtime X → Runtime X) :
  (∀ w, ru_completion (f w) = ru_completion w) →
  (∀ w, rs_tasks (ru_store (f w)) = rs_tasks (ru_store w)) → within step (change f).
Proof.
  intros Ho Ht s. apply step_same; unfold orch, tasks_of; simpl; [by rewrite Ho|apply Ht].
Qed.
Lemma within_on_store f : (∀ r, rs_tasks (f r) = rs_tasks r) → within step (on_store (X := X) f).
Proof. intros Hf. apply within_change; [done|]. intros w. apply Hf. Qed.
Lemma within_count u : within step (count (X := X) u).
Proof. by apply within_change. Qed.
Lemma within_event id e : within step (event (X := X) id e).
Proof. by apply within_on_store. Qed.
Lemma within_task_of id : within step (task_of (X := X) id).
Proof. pose proof within_world. unfold task_of. within_steps. Qed.
#[local] Hint Resolve within_now within_count within_event within_task_of : within.
Lemma within_audit_step ev id p : within step (RuntimeService.audit (X := X) ev id p).
Proof.
  unfold RuntimeService.audit.
  apply (within_bind _); [apply within_tick_step|intros u].
  apply (within_bind _); [apply within_now|intros n]. by apply within_on_store.
Qed.
Lemma within_lease_part {A} (m : M LeaseService A) :
  within step (zoom (leases_of (X := X)) put_leases m).
Proof. apply within_zoom. intros s l. by apply step_same. Qed.
#[local] Hint Resolve within_audit_step within_lease_part : within.
Lemma within_leases {A} (m : Z → M LeaseService A) :
  within step (RuntimeService.on_leases (X := X) m).
Proof. unfold RuntimeService.on_leases. within_steps. Qed.

(** Saving a task that is vouched for. *)
Lemma step_save t s : vouched s t → step s (save t s).2.
Proof.
  intros Hv [Hi Ht]. split; [|done]. split; [done|]. intros id t'.
  unfold tasks_of. simpl. destruct (decide (id = tk_task_id t)) as [->|Hne].
  - rewrite dict_get_set_eq. by intros [= <-].
  - rewrite dict_get_set_ne by done. apply Ht.
Qed.
Lemma within_save t : tk_status t ≠ RT_SUCCEEDED → within step (save (X := X) t).
Proof. intros Hne s. apply step_save. by intros Hst. Qed.
Lemma within_save_copy u t :
  (∀ at_, tk_status (model_copy (u ++ [F_updated_at at_]) t) ≠ RT_SUCCEEDED) →
  within step (save_copy (X := X) u t).
Proof.
  intros Hne. unfold save_copy. apply (within_bind _); [apply within_now|intros at_].
  apply (within_bind _); [apply within_save, Hne|intros _; apply (within_ret _)].
Qed.

(** ** The orchestrator as a part *)

Lemma within_complete {A} (m : M Orchestrator A) :
  (∀ o, call o (m o).2) → within step (complete (X := X) m).
Proof.
  intros Hm s [Hi Ht]. unfold complete, zoom. specialize (Hm (completion_of s)).
  assert (store_inv (completion_of s)) as Hi' by exact Hi.
  destruct (call_effect _ _ Hi' Hm) as [eid Hc]. pose proof (call_inv _ _ Hi' Hm) as Hi2.
  destruct (m (completion_of s)) as [r o].
  assert (∀ e, completed (orch s) e → completed (orch (put_completion o s)) e) as Hk.
  { intros e. by apply (call_keeps_completed eid (completion_of s)). }
  split; [|done]. split; [exact Hi2|]. intros id t Hid. destruct (Ht id t Hid) as [? Hv].
  split; [done|]. intros Hst. by apply Hk, Hv.
Qed.

(** What an answer says of the record is so after the call. *)
Lemma complete_says (m : M Orchestrator CompletionOutcome) eid s o s' :
  (∀ o0 a o1, store_inv o0 → m o0 = (Ok a, o1) → out_state a = COMPLETED → completed o1 eid) →
  sound s → complete m s = (Ok o, s') → out_state o = COMPLETED → completed (orch s') eid.
Proof.
  intros Hm [Hi _] E. unfold complete, zoom in E.
  destruct (m (completion_of s)) as [[a|e] o1] eqn:Em; [|done].
  injection E as <- <-. intros Hst. exact (Hm (completion_of s) _ _ Hi Em Hst).
Qed.
End states.

#[export] Hint Resolve within_world within_tick_step within_on_cancel within_take within_now
  within_count within_event within_task_of within_audit_step within_lease_part within_leases
  : within.
#[export] Hint Extern 1 (within step (change _)) => apply within_change; reflexivity : within.
#[export] Hint Extern 1 (within step (on_store _)) => apply within_on_store; reflexivity : within.
#[export] Hint Extern 1 (within step (save_copy _ _)) =>
  apply within_save_copy; discriminate : within.
#[export] Hint Extern 1 (within step (save _)) => apply within_save; discriminate : within.
#[export] Hint Extern 1 (within step (complete _)) =>
  apply within_complete; intros; constructor : within.

(** ** The operations of the service *)

Section service_lemmas.
Context {X : Type} `{PyLib} `{HashOrder}.
Local Abbreviation W := (Runtime X).
Local Abbreviation St := (RouterState (Runtime X)).
Context (OS : OperatingSystem St) (Git : WorkTree St) (U : UnicodeText).
Context (codex : ConnectorRuntime St).
Context (policy : PolicyEngine) (production_mode : bool).
Context (Rt : ExecutionRouter W).
Context (within_os : os_within step OS) (within_tree : tree_within step Git).
Context (within_codex : ∀ c, within step (cr_discover codex c)).
Context (within_backends : Forall (backend_within step) (rg_backends (rt_registry Rt)).*2).

Lemma within_register_node n : within step (register_node (X := X) n).
Proof. unfold register_node, publish_worker_report. within_steps. Qed.

Lemma within_register_placement p : within step (register_placement (X := X) p).
Proof. unfold register_placement. within_steps. Qed.

Lemma within_lease_to_node t i d c : within step (lease_to_node (X := X) t i d c).
Proof. unfold lease_to_node. within_steps. Qed.
#[local] Hint Resolve within_lease_to_node : within.

(** The submit function a JoyMesh backend is built with. *)
Lemma within_submit_remote i d :
  within step (_submit_remote_execution (X := X) policy production_mode i d).
Proof. unfold _submit_remote_execution. within_steps. Qed.

Lemma within_coding_worker t p w d i :
  within step (_execute_coding_worker OS Git U codex t p w d i).
Proof.
  unfold _execute_coding_worker. apply (within_bind _); [within_steps|intros u].
  apply (within_bind _); [within_steps|intros _].
  apply (within_bind _); [|intros r; within_steps].
  apply within_coding_run; try done; typeclasses eauto.
Qed.

Lemma within_record_events id other keep events :
  within step (record_events (X := X) id other keep events).
Proof. unfold record_events. within_steps. Qed.
#[local] Hint Resolve within_record_events within_coding_worker : within.

Lemma within_router_run i d : within step (execute_with_fallback Rt i d).
Proof.
  apply BackendsProofs.within_execute; [typeclasses eauto| | |exact within_backends].
  - apply within_tick_step.
  - apply within_on_cancel.
Qed.

Lemma within_not_completed t r o : within step (not_completed (X := X) t r o).
Proof. unfold not_completed. within_steps. Qed.
#[local] Hint Resolve within_not_completed within_router_run : within.

(** ** The execution of a result *)

(** A result is of the execution of the intent. *)
Definition of_execution (i : ExecutionIntent) (r : RoutedResult) : Prop :=
  xr_execution_id (rr_result r) = it_execution_id i.
Definition turn_of (i : ExecutionIntent) (t : turn) : Prop :=
  match t with Return r => of_execution i r | _ => True end.

Ltac gives_steps := repeat (simpl; lazymatch goal with
  | |- gives _ (catch _ _ ≫= _) => fail
  | |- gives _ (mret _) => apply gives_ret
  | |- gives _ (raise _) => apply gives_raise
  | |- gives _ (_ ≫= _) => apply gives_bind; intros
  | |- gives _ (if ?b then _ else _) => destruct b eqn:?
  | |- gives _ (match ?x with _ => _ end) => destruct x eqn:?
  end).

Lemma turn_of_attempt i d b : gives (turn_of i) (attempt_backend Rt i d b).
Proof.
  unfold attempt_backend. apply gives_bind. intros s. destruct (Execution.is_cancelled _ _); [by gives_steps|].
  destruct (_enforce_entitlements _ _ _); [|by gives_steps].
  intros s1 t s2 (adm & s3 & Ha & Ht)%bind_Ok_inv. destruct adm as [t0|[backend attempt]].
  - injection Ht as <- _.
    refine ((_ : gives (λ a, match a with inl t => turn_of i t | _ => True end) _) _ _ _ Ha).
    unfold admit_backend. by gives_steps.
  - unfold with_cleanup in Ht.
    destruct (catch _ _ s3) as [x s4] eqn:E. destruct x as [t0|e]; cycle 1.
    { destruct (Router.await _ s4) as [[[]|e'] s5]; [done|]. by destruct (is_Exception e'). }
    assert (t0 = t) as ->.
    { destruct (Router.await _ s4) as [[[]|e'] s5]; [by injection Ht|].
      destruct (is_Exception e'); [by injection Ht|done]. }
    refine (gives_catch (turn_of i) _ _ _ _ _ _ _ E).
    + unfold run_backend. by gives_steps.
    + intros e. unfold attempt_raised. by gives_steps.
Qed.

Lemma of_execution_run i d : gives (of_execution i) (execute_with_fallback Rt i (Some d)).
Proof.
  assert (∀ order, gives (λ o, match o with Some r => of_execution i r | None => True end)
    (fallback_loop Rt i d order)) as Hloop.
  { intros order. induction order as [|b order IH]; simpl; [by apply gives_ret|].
    intros s o s' (t & s1 & Ht & Ho)%bind_Ok_inv. apply turn_of_attempt in Ht.
    destruct t as [| |r]; [by eapply IH|by injection Ho as <- _|by injection Ho as <- _]. }
  intros s r s' (d' & s1 & [= <- <-] & Hr)%bind_Ok_inv. unfold Router.with_locals in Hr.
  destruct (run_decision Rt i d (s, Router.no_locals)) as [x r1] eqn:E. injection Hr as -> _.
  refine ((_ : gives (of_execution i) (run_decision Rt i d)) _ _ _ E). unfold run_decision.
  do 4 (apply gives_bind; intros ?). intros s2 r2 s3 (o & s4 & Ho & Hr)%bind_Ok_inv.
  apply Hloop in Ho. destruct o as [r3|]; [by injection Hr as <- _|].
  refine ((_ : gives (of_execution i) _) _ _ _ Hr). by gives_steps.
Qed.

Lemma of_execution_coding t p w d i :
  gives (of_execution i) (_execute_coding_worker OS Git U codex t p w d i).
Proof.
  unfold _execute_coding_worker. do 4 (apply gives_bind; intros ?). by apply gives_ret.
Qed.

(** The decision is of the execution of the intent, and its id is not empty. *)
Lemma decision_of_execution at_ i d :
  select_decision Rt at_ i = Ok d → ed_execution_id d = it_execution_id i.
Proof.
  unfold select_decision, res_bind.
  destruct (_enforce_entitlements Rt i None); [|done].
  destruct (_task_analysis i); [|done]. destruct (_routing_policy i); [|done].
  destruct (bool_decide _); [done|].
  destruct (first_harness Rt i _ _) as [[[h [|first rest]]|]|]; try done.
  destruct (bool_decide _); [done|]. destruct (if otruthy _ then _ else _) as [[]|]; [|done].
  destruct (choose _ _ _ _ _ _ _) as [[[[[[]]]]]|]; [|done]. by intros [= <-].
Qed.
Lemma planned_execution_id n m i : plan n m = Ok i → it_execution_id i ≠ "".
Proof.
  unfold plan, res_bind. destruct (from_mapping _); [|done]. by intros [= <-].
Qed.

(** ** Steps one after the other *)

Ltac stay :=
  lazymatch goal with
  | |- step ?s (?m ?s).2 => let Hw := fresh in assert (within step m) as Hw;
      [within_steps|exact (Hw s)]
  end.

Lemma step_bind {A B} (m : M St A) (k : A → M St B) s :
  step s (m s).2 → (∀ a s', m s = (Ok a, s') → sound s' → step s' (k a s').2) →
  step s ((m ≫= k) s).2.
Proof.
  intros Hm Hk Hs. unfold mbind, M_bind. specialize (Hm Hs). specialize (Hk).
  destruct (m s) as [[a|e] s']; [|done]. destruct Hm as [Hs' Hkept].
  destruct (Hk a s' eq_refl Hs' Hs') as [? ?]. auto.
Qed.

(** A completed record stays completed on the way. *)
Lemma step_after {A B} (m : M St A) (k : A → M St B) eid s :
  within step m → completed (orch s) eid →
  (∀ a s', completed (orch s') eid → step s' (k a s').2) → step s ((m ≫= k) s).2.
Proof.
  intros Hm Hc Hk Hs. unfold mbind, M_bind. specialize (Hm s Hs).
  destruct (m s) as [[a|e] s']; [|done]. destruct Hm as [Hs' Hkept].
  destruct (Hk a s' (Hkept _ Hc) Hs') as [? ?]. auto.
Qed.

Lemma task_of_Ok id s t s' :
  task_of (X := X) id s = (Ok t, s') → s' = s ∧ dict_get id (tasks_of s) = Some t.
Proof.
  unfold task_of, world, tasks_of, lift_res, get_task, get_state, mbind, M_bind. simpl.
  destruct (dict_get id _); [|done]. by intros [= <- <-].
Qed.

Lemma save_copy_Ok u t s t' s' :
  save_copy (X := X) u t s = (Ok t', s') →
  ∃ at_, t' = model_copy (u ++ [F_updated_at at_]) t ∧
    tasks_of s' = dict_set (tk_task_id t') t' (tasks_of s).
Proof.
  unfold save_copy. intros (at_ & s1 & Hn & Hr)%bind_Ok_inv.
  apply bind_Ok_inv in Hr as ([] & s2 & Hs & [= <- <-]). exists at_.
  unfold now in Hn. injection Hn as <- <-. by injection Hs as <-.
Qed.

(** Saving a success of a completed execution. *)
Lemma step_save_success t t' s :
  completed (orch s) (execution_of t) → tk_task_id t' = tk_task_id t →
  tk_execution_id t' = tk_execution_id t → step s ((save (X := X) t';; mret t') s).2.
Proof.
  intros Hc Hi He. apply step_bind; [|by intros; apply (within_ret _)].
  apply step_save. intros _. unfold execution_of. by rewrite Hi, He.
Qed.

Lemma step_complete_result t d r s :
  execution_of t = xr_execution_id (rr_result r) → step s (complete_result (X := X) t d r s).2.
Proof.
  intros He. unfold complete_result. apply step_bind; [apply (within_lift _)|intros attempt s1 _ _].
  apply step_bind; [by apply within_change|intros [] s2 _ Hs2].
  apply step_bind; [stay|intros o s3 E _].
  assert (out_state o = COMPLETED → completed (orch s3) (execution_of t)) as Hc.
  { rewrite He. eapply complete_says; [|exact Hs2|exact E].
    intros o0 a o1 Hi Em. exact (complete_answer _ _ _ _ _ _ _ Hi Em). }
  destruct (out_ok o && _) eqn:Hok; cycle 1.
  { apply step_bind; [apply within_record_events|intros [] s4 _ _]. apply within_not_completed. }
  boolify. specialize (Hc ltac:(done)).
  eapply step_after; [apply within_record_events|exact Hc|intros [] s4 H4].
  eapply step_after; [apply within_now|exact H4|intros at_ s5 H5].
  eapply step_after; [apply within_count|exact H5|intros [] s6 H6].
  by apply (step_save_success t).
Qed.

Lemma step_run_selected t p w d i s :
  tk_execution_id t = Some (it_execution_id i) → it_execution_id i ≠ "" →
  step s (run_selected OS Git U codex Rt t p w d i s).2.
Proof.
  intros He Hne. unfold run_selected. apply step_bind; [destruct (_ && _); stay|].
  intros r s1 E _. assert (of_execution i r) as Hr.
  { destruct (_ && _); [by eapply of_execution_coding|by eapply of_execution_run]. }
  apply step_bind; [apply within_record_events|intros [] s2 _ _].
  destruct ((ed_selected_backend_id d == "joymesh") && xr_ok (rr_result r)).
  - stay.
  - apply step_complete_result. rewrite Hr. unfold execution_of, or_str. rewrite He. simpl.
    by rewrite bool_decide_eq_false_2.
Qed.

Lemma step_note_decision t d s :
  tk_status t ≠ RT_SUCCEEDED → step s (note_decision (X := X) t d s).2.
Proof.
  intros Hne. unfold note_decision. apply step_bind; [by apply within_save_copy|].
  intros t' s1 (at_ & -> & _)%save_copy_Ok _. 
  do 3 (apply step_bind; [stay|intros [] ? _ _]).
  destruct (ed_provider_routing_required d); [|stay].
  apply step_bind; [by apply within_save|intros [] ? _ _; stay].
Qed.

Lemma noted_execution t d :
  gives (λ t', tk_execution_id t' = Some (ed_execution_id d)) (note_decision (X := X) t d).
Proof.
  intros s t1 s1 (t' & s2 & (at_ & -> & _)%save_copy_Ok & Hr)%bind_Ok_inv.
  refine ((_ : gives (λ t', tk_execution_id t' = Some (ed_execution_id d)) _) _ _ _ Hr).
  by gives_steps.
Qed.

Local Abbreviation route := (route_task OS Git U codex Rt).

Lemma step_route_task id s :
  (∀ t, dict_get id (tasks_of s) = Some t → tk_status t ≠ RT_SUCCEEDED) →
  step s (route id s).2.
Proof.
  intros Hst. unfold route_task. apply step_bind; [apply within_task_of|intros t s1 Et _].
  assert (tk_status t ≠ RT_SUCCEEDED) as Hne.
  { apply task_of_Ok in Et as [_ Et]. by apply Hst. }
  apply step_bind; [apply within_world|intros w s2 _ _].
  apply step_bind; [unfold service_plan; stay|intros i s3 Ei _].
  assert (it_execution_id i ≠ "") as Hid.
  { apply bind_Ok_inv in Ei as (n & s4 & _ & Ei). unfold lift_res in Ei.
    injection Ei as Ei _. by apply planned_execution_id in Ei. }
  apply step_bind; [stay|intros [] s4 _ _].
  apply step_bind; [stay|intros at_ s5 _ _].
  destruct (select_decision Rt at_ i) as [d|e] eqn:Ed; [|destruct (negb _); stay].
  apply decision_of_execution in Ed.
  apply step_bind; [by apply step_note_decision|intros t' s6 Et' _].
  apply step_run_selected; [|done]. apply noted_execution in Et'. by rewrite Et', Ed.
Qed.

(** ** Requests *)

Ltac branch := lazymatch goal with |- step _ ((if ?b then _ else _) _).2 => destruct b end.

Lemma audit_tasks ev id p s s' a :
  RuntimeService.audit (X := X) ev id p s = (Ok a, s') → tasks_of s' = tasks_of s.
Proof.
  unfold RuntimeService.audit, now, on_store, change, modify_state, mbind, M_bind. simpl.
  by intros [= _ <-].
Qed.

(** A task that was just saved as routing may be routed. *)
Lemma step_route_routing id s t :
  dict_get id (tasks_of s) = Some t → tk_status t = RT_ROUTING → step s (route id s).2.
Proof. intros Ht Hst. apply step_route_task. intros t'. rewrite Ht. intros [= <-]. by rewrite Hst. Qed.

Lemma within_judge body request : within step (judge (X := X) policy body request).
Proof. unfold judge. within_steps. Qed.

Lemma within_queue_unrouted t : within step (queue_unrouted (X := X) t).
Proof. unfold queue_unrouted. within_steps. Qed.
#[local] Hint Resolve within_judge within_queue_unrouted : within.

Lemma step_admit_task body request d skip s :
  step s (admit_task OS Git U codex Rt body request d skip s).2.
Proof.
  unfold admit_task. destruct (negb (allowed d)); [stay|].
  apply step_bind; [stay|intros expanded s1 _ _]. apply step_bind; [stay|intros [] s2 _ _].
  apply step_bind; [stay|intros t1 s3 _ _]. apply step_bind; [stay|intros t2 s4 _ _].
  apply step_bind; [destruct (negb _); stay|intros [] s5 Es _]. injection Es as <-.
  destruct (negb _); [stay|]. destruct skip; [stay|].
  eapply step_route_routing; [apply dict_get_set_eq|done].
Qed.

Lemma step_create_task body user skip s :
  step s (create_task OS Git U codex policy Rt body user skip s).2.
Proof.
  unfold create_task. do 3 (apply step_bind; [stay|intros ? ? _ _]). apply step_admit_task.
Qed.

Lemma step_approve_task id s : step s (approve_task OS Git U codex Rt id s).2.
Proof.
  unfold approve_task. apply step_bind; [stay|intros t s1 [-> Ht]%task_of_Ok [_ Hs]].
  destruct (negb _); [stay|]. apply step_bind; [stay|intros t' s2 (at_ & -> & E)%save_copy_Ok _].
  apply step_bind; [stay|intros [] s3 E3%audit_tasks _]. apply Hs in Ht as [Hid _].
  eapply step_route_routing; [rewrite E3, E, <-Hid; apply dict_get_set_eq|done].
Qed.

Lemma step_retry_task id fc s : step s (retry_task OS Git U codex Rt id fc s).2.
Proof.
  unfold retry_task. apply step_bind; [stay|intros t s1 [-> Ht]%task_of_Ok [_ Hs]].
  apply step_bind; [stay|intros w s2 _ _]. apply step_bind; [stay|intros [] s3 E3 _].
  destruct (negb _); [stay|]. do 2 (apply step_bind; [stay|intros [] ? ? _]).
  apply step_bind; [stay|intros t' s6 (at_ & -> & E)%save_copy_Ok _]. apply Hs in Ht as [Hid _].
  eapply step_route_routing; [rewrite E, <-Hid; apply dict_get_set_eq|done].
Qed.

Lemma within_mark_offered id token : within step (mark_offered (X := X) id token).
Proof. unfold mark_offered. within_steps. Qed.

Lemma step_save_copy u t s :
  (∀ at_, vouched s (model_copy (u ++ [F_updated_at at_]) t)) →
  step s (save_copy (X := X) u t s).2.
Proof.
  intros Hv. unfold save_copy. apply step_bind; [stay|intros at_ s1 E _].
  apply step_bind; [|intros [] s2 _ _; stay]. apply step_save. injection E as <- <-. apply Hv.
Qed.

(** As [step_after], under a condition. *)
Lemma step_after_if {A B} (Φ : Prop) (m : M St A) (k : A → M St B) eid s :
  within step m → (Φ → completed (orch s) eid) →
  (∀ a s', (Φ → completed (orch s') eid) → step s' (k a s').2) → step s ((m ≫= k) s).2.
Proof.
  intros Hm Hc Hk Hs. unfold mbind, M_bind. specialize (Hm s Hs).
  destruct (m s) as [[a|e] s']; [|done]. destruct Hm as [Hs' Hkept].
  destruct (Hk a s' (λ HΦ, Hkept _ (Hc HΦ)) Hs') as [? ?]. auto.
Qed.

Lemma step_end_task t token ty o s :
  (out_state o = COMPLETED → completed (orch s) (execution_of t)) →
  step s (end_task (X := X) t token ty o s).2.
Proof.
  intros Hc. unfold end_task. destruct (ended t); [stay|].
  apply step_bind; [|intros t' s1 _ _; stay]. apply step_save_copy. intros at_ Hst.
  change (execution_of (model_copy _ t)) with (execution_of t). apply Hc.
  change (status_after o = RT_SUCCEEDED) in Hst. unfold status_after in Hst.
  repeat case_bool_decide; done.
Qed.

Lemma step_terminal_event t attempt token ty payload s :
  step s (terminal_event (X := X) t attempt token ty payload s).2.
Proof.
  unfold terminal_event. apply step_bind; [stay|intros w s1 _ _].
  apply step_bind; [stay|intros u s2 _ _]. apply step_bind; [stay|intros cands s3 _ Hs3].
  apply step_bind; [stay|intros o s4 E _].
  assert (out_state o = COMPLETED → completed (orch s4) (execution_of t)) as Hc.
  { eapply complete_says; [|exact Hs3|exact E].
    intros o0 a o1 Hi Em. exact (remote_answer _ _ _ _ _ _ _ Hi Em). }
  eapply step_after_if; [apply within_record_events|exact Hc|intros [] s5 H5].
  branch; [stay|by apply step_end_task].
Qed.

Lemma step_ingest_node_event id attempt lease token ty payload s :
  step s (ingest_node_event (X := X) id attempt lease token ty payload s).2.
Proof.
  unfold ingest_node_event. apply step_bind; [stay|intros [] s1 _ _].
  apply step_bind; [stay|intros t s2 _ _]. apply step_bind; [stay|intros [] s3 _ _].
  do 3 (branch; [stay|]). apply step_terminal_event.
Qed.

Lemma within_cancel_task id : within step (cancel_task (X := X) Rt id).
Proof.
  assert (∀ eid, within step (Router.cancel Rt eid)).
  { intros eid. apply within_cancel_execution;
      first [exact within_backends|apply within_on_cancel|typeclasses eauto]. }
  unfold cancel_task, cancel_completion. within_steps.
Qed.

(** The requests the service answers, and the state each leaves behind, whether it returns
    or raises. *)
Inductive request :=
| Create (body : CreateRuntimeTaskBody) (user : string) (skip_routing : bool)
| Approve (task_id : string)
| Cancel (task_id : string)
| Retry (task_id : string) (failure_class : FailureClass)
| Offer (task_id : string) (token : Z)
| NodeEvent (task_id attempt_id lease_id : string) (token : Z) (event_type : string)
    (payload : dict)
| Node (snapshot : SchedulerNodeSnapshot)
| Placement (placement : WorkspacePlacement).

Definition serve (q : request) (s : St) : St :=
  match q with
  | Create body user skip => (create_task OS Git U codex policy Rt body user skip s).2
  | Approve id => (approve_task OS Git U codex Rt id s).2
  | Cancel id => (cancel_task Rt id s).2
  | Retry id fc => (retry_task OS Git U codex Rt id fc s).2
  | Offer id token => (mark_offered id token s).2
  | NodeEvent id attempt lease token ty payload =>
      (ingest_node_event id attempt lease token ty payload s).2
  | Node n => (register_node n s).2
  | Placement p => (register_placement p s).2
  end.

Lemma step_serve q s : step s (serve q s).
Proof.
  destruct q; simpl.
  - apply step_create_task.
  - apply step_approve_task.
  - apply within_cancel_task.
  - apply step_retry_task.
  - apply within_mark_offered.
  - apply step_ingest_node_event.
  - apply within_register_node.
  - apply within_register_placement.
Qed.

Lemma served_sound qs s : sound s → sound (fold_left (λ s q, serve q s) qs s).
Proof.
  revert s. induction qs as [|q qs IH]; intros s Hs; [done|]. simpl. apply IH.
  by apply step_serve.
Qed.
End service_lemmas.

Lemma sound_init {X} `{PyLib} ttl (x : X) n c :
  sound {| st_ticks := n; st_cancel := c; st_world := Runtime_init ttl x |}.
Proof. by split. Qed.

(** ** Properties *)

Section service_theorems.
Context {X : Type} `{PyLib} `{HashOrder}.
Local Abbreviation W := (Runtime X).
Local Abbreviation St := (RouterState (Runtime X)).
Context (OS : OperatingSystem St) (Git : WorkTree St) (U : UnicodeText).
Context (codex : ConnectorRuntime St).
Context (policy : PolicyEngine) (production_mode : bool).
Context (Rt : ExecutionRouter W).

(** C2: Whatever requests the service has answered since it started, with any policy,
    router, backends, connectors, operating system and git that keep its state sound (other
    requests that run meanwhile do): the execution of every succeeded task has a record in
    state [COMPLETED], closed, with its usage finalised and a verification whose outcome is
    [verified]. *)
Theorem succeeded_task_is_verified n c ttl x qs id t :
  os_within step OS → tree_within step Git → (∀ k, within step (cr_discover codex k)) →
  Forall (backend_within step) (rg_backends (rt_registry Rt)).*2 →
  let s := fold_left (λ s q, serve OS Git U codex policy Rt q s) qs
    {| st_ticks := n; st_cancel := c; st_world := Runtime_init ttl x |} in
  dict_get id (tasks_of s) = Some t → tk_status t = RT_SUCCEEDED →
  ∃ r, store_get (execution_of t) (store (orch s)) = Some r ∧ rec_state r = COMPLETED ∧
    rec_terminal_emitted r = true ∧ rec_usage_finalised r = true ∧
    is_verified (rec_verification r).
Proof.
  intros Hos Hgit Hcodex Hbs s Ht Hst.
  destruct (served_sound OS Git U codex policy Rt Hos Hgit Hcodex Hbs qs _
    (sound_init ttl x n c)) as [Hi Hts]. fold s in Hi, Hts.
  destruct (Hts id t Ht) as [_ Hv]. destruct (Hv Hst) as (r & Hr & Hc). exists r.
  destruct (Hi _ _ Hr) as (_ & _ & Hdone). by split_and!; try apply Hdone.
Qed.

(** The backends of the service as it is built are within [step]. *)
Lemma default_router_within harnesses routes :
  os_within step OS → Forall (adapter_within step) harnesses.*2 → routes_within step routes →
  Forall (backend_within step)
    (rg_backends (rt_registry (default_router OS policy production_mode harnesses routes))).*2.
Proof.
  intros Hos Hh Hr. apply default_backends_within; try done; try typeclasses eauto.
  intros fn i d [= <-]. apply within_submit_remote.
Qed.

(** *** Admission *)

(** Everything but the tasks, prompts, audits, events and metrics is as it was: no record, no
    lease, no process, nothing outside. *)
Definition quiet (s s' : St) : Prop :=
  orch s' = orch s ∧ leases_of s' = leases_of s ∧ st_cancel s' = st_cancel s ∧
  ru_runner (st_world s') = ru_runner (st_world s) ∧
  ru_joymesh (st_world s') = ru_joymesh (st_world s) ∧
  ru_worker (st_world s') = ru_worker (st_world s) ∧
  ru_outside (st_world s') = ru_outside (st_world s).
#[local] Instance quiet_preorder : PreOrder quiet.
Proof.
  split; [by intros s; split_and!|]. intros s1 s2 s3 (?&?&?&?&?&?&?) (?&?&?&?&?&?&?).
  split_and!; congruence.
Qed.
Lemma quiet_tick : within quiet (tick (W := W)).
Proof. by intros s; split_and!. Qed.
Lemma quiet_on_store f : within quiet (on_store (X := X) f).
Proof. by intros s; split_and!. Qed.
Lemma quiet_change_prompts f : within quiet (change (λ w : W, set_prompts (f w) w)).
Proof. by intros s; split_and!. Qed.
Lemma quiet_count u : within quiet (count (X := X) u).
Proof. by intros s; split_and!. Qed.
#[local] Hint Resolve quiet_tick quiet_on_store quiet_change_prompts quiet_count : within.

Lemma quiet_judge body request : within quiet (judge (X := X) policy body request).
Proof. unfold judge, RuntimeService.audit, now. within_steps. Qed.

Lemma judge_decides body request s d s' :
  judge (X := X) policy body request s = (Ok d, s') → evaluate policy request None = Ok d.
Proof.
  unfold judge. intros ([] & s1 & _ & E)%bind_Ok_inv.
  apply bind_Ok_inv in E as ([] & s2 & _ & E). apply bind_Ok_inv in E as (d' & s3 & Hd & E).
  apply bind_Ok_inv in E as ([] & s4 & _ & [= <- _]). by injection Hd as -> _.
Qed.

Lemma refused_admission body request skip d :
  allowed d = false ∨ approval_requirements d ≠ [] →
  let m := admit_task OS Git U codex Rt body request d skip in
  within quiet m ∧ ∀ s t s', m s = (Ok t, s') →
    tk_status t = (if allowed d then RT_APPROVAL_REQUIRED else RT_REJECTED) ∧
    dict_get (tk_task_id t) (tasks_of s') = Some t.
Proof.
  intros Hno m. subst m. unfold admit_task. destruct (allowed d) eqn:Ha; cbn [negb].
  - destruct Hno as [?|Hno]; [done|].
    assert (negb (approval_requirements d == []) = true) as ->
      by (by apply negb_true_iff, bool_decide_eq_false_2).
    split; [unfold save, RuntimeService.audit, now; within_steps|].
    intros s1 t s2 (ex & s3 & _ & E1)%bind_Ok_inv.
    do 3 apply bind_Ok_inv in E1 as (? & ? & _ & E1).
    apply bind_Ok_inv in E1 as ([] & s4 & [= <-] & [= <- <-]).
    split; [done|apply dict_get_set_eq].
  - split; [unfold save, RuntimeService.audit, now; within_steps|].
    intros s1 t s2 E1. do 3 apply bind_Ok_inv in E1 as (? & ? & _ & E1).
    apply bind_Ok_inv in E1 as ([] & s4 & [= <-] & [= <- <-]).
    split; [done|apply dict_get_set_eq].
Qed.

(** C3: A task that the policy refuses, or that needs an approval, is not run when it is
    created: no record of a completion, no lease, no process and nothing outside the service
    is touched, and the task that is kept is rejected or waits for its approval. *)
Theorem nothing_runs_unapproved body user skip s d r s' :
  let request := request_of body user (uuid_str (st_ticks s)) (clock (S (st_ticks s))) in
  evaluate policy request None = Ok d →
  allowed d = false ∨ approval_requirements d ≠ [] →
  create_task OS Git U codex policy Rt body user skip s = (r, s') →
  quiet s s' ∧
  ∀ t, r = Ok t →
    tk_status t = (if allowed d then RT_APPROVAL_REQUIRED else RT_REJECTED) ∧
    dict_get (tk_task_id t) (tasks_of s') = Some t.
Proof.
  intros request Hd Hno E. set (s2 := {| st_ticks := S (S (st_ticks s));
    st_cancel := st_cancel s; st_world := st_world s |}).
  change ((judge policy body request ≫= λ d, admit_task OS Git U codex Rt body request d skip) s2
    = (r, s')) in E.
  assert (quiet s s2) as H2 by by split_and!.
  pose proof (quiet_judge body request s2) as Hj. unfold mbind, M_bind in E.
  destruct (judge policy body request s2) as [[d'|e] s3] eqn:Ej; cycle 1.
  { injection E as <- <-. split; [by etrans|done]. }
  apply judge_decides in Ej. rewrite Hd in Ej. injection Ej as <-.
  destruct (refused_admission body request skip d Hno) as [Hq Ht]. split.
  - specialize (Hq s3). rewrite E in Hq. etrans; [exact H2|]. by etrans.
  - intros t ->. by eapply Ht.
Qed.

(** *** Events of nodes *)

(** The lease of a task is held under these names at a time. *)
Definition holds (now : Z) (s : St) (id lid : string) (tok : Z) (aid : string) : Prop :=
  ∃ l, active_map (leases_of s) !! id = Some l ∧ lease_id l = lid ∧ lease_attempt_id l = aid ∧
    fencing_token l = tok ∧ lease_status l = ACTIVE ∧ (now < expires_at l)%Z.

Lemma audit_runs ev id p (s : St) :
  ∃ s', RuntimeService.audit ev id p s = (Ok tt, s') ∧ tasks_of s' = tasks_of s ∧
    orch s' = orch s ∧ rs_events (ru_store (st_world s')) = rs_events (ru_store (st_world s)).
Proof. eexists. split; [unfold RuntimeService.audit, now; reflexivity|by split_and!]. Qed.

Lemma validate_event_holds t id lid tok aid s :
  ¬ holds t s id lid tok aid →
  ∃ e, (validate_event t id lid tok aid (leases_of s)).1 = Raise e ∧
    exn_class e = "PermissionError".
Proof.
  intros Hno. unfold validate_event, active_lease, mbind, M_bind, get_state, modify_state. simpl.
  destruct (active_map (leases_of s) !! id) as [l|] eqn:El; simpl; [|by eexists].
  destruct (expires_at l <=? t)%Z eqn:Hexp; simpl; repeat case_bool_decide; simpl;
    try by eexists.
  destruct Hno. exists l. apply Z.leb_gt in Hexp. simplify_eq. by split_and!.
Qed.

(** C4: An event that does not carry the names of the lease its task is held under, lease,
    attempt and fencing token, or that comes when the lease has ended, is refused with a
    [PermissionError]; no task, no record and no list of events is changed. *)
Theorem event_needs_the_lease id aid lid tok ty payload s :
  ¬ holds (clock (st_ticks s)) s id lid tok aid →
  ∃ e s', ingest_node_event id aid lid tok ty payload s = (Raise e, s') ∧
    exn_class e = "PermissionError" ∧ tasks_of s' = tasks_of s ∧ orch s' = orch s ∧
    rs_events (ru_store (st_world s')) = rs_events (ru_store (st_world s)).
Proof.
  intros Hno. destruct (validate_event_holds _ _ _ _ _ _ Hno) as (e & Hv & He).
  unfold ingest_node_event, RuntimeService.on_leases, catch, zoom, now, mbind, M_bind.
  cbn [tick mret M_ret].
  change (leases_of {| st_ticks := S (st_ticks s); st_cancel := st_cancel s;
    st_world := st_world s |}) with (leases_of s).
  destruct (validate_event _ id lid tok aid (leases_of s)) as [x l]. simpl in Hv. subst x.
  simpl. rewrite He, bool_decide_eq_true_2 by done.
  match goal with |- context [RuntimeService.audit ?ev _ ?p ?s] =>
    destruct (audit_runs ev id p s) as (s' & -> & Ht & Ho & Hev) end. exists e, s'.
  rewrite Ht, Ho, Hev. by split_and!.
Qed.
End service_theorems.

(** ** Concrete runs *)

#[local] Existing Instance second_lib.
#[local] Existing Instance elements_order.
Section demo.
Local Abbreviation St := (RouterState (Runtime unit)).

(** The service as it is built, with the Codex adapter, on a machine where every process ends
    with code 0; [during] is what happens while a process runs. *)
Definition demo_system (during : M St unit) : OperatingSystem St := {|
  os_environ _ := [("PATH", "/bin")]; os_getcwd _ := "/";
  os_resolve p := mret p; os_resolve_lax p := mret p; os_is_dir _ := mret true;
  os_which p := mret (Some ("/bin/" +:+ p)); os_spawn _ _ _ := mret 0; os_pid _ := 7%Z;
  os_returncode _ _ := Some 0%Z; os_communicate _ _ := during;; mret ("", "");
  os_read_stdout _ := mret ""; os_read_stderr _ := mret ""; os_readline _ _ := mret "";
  os_wait _ _ := mret tt; os_killpg _ _ := mret tt; os_send_signal _ _ := mret tt |}.
Definition demo_tree : WorkTree St := {|
  wt_exists _ := mret true; wt_is_dir _ := mret true;
  wt_git _ args := mret (0%Z, if "status" in? args then "" else "main" +:+ newline) |}.
Definition demo_codex : ConnectorRuntime St := {|
  cr_connector_id := "codex"; cr_display_name := "Codex"; cr_declared_capabilities := ∅;
  cr_discover _ := mret {| dr_executable_path := Some "/bin/codex"; dr_version := Some "1";
    dr_fingerprint := None; dr_installed := true; dr_usable := true; dr_reason_code := None;
    dr_details := [] |};
  cr_execution_environment _ := [];
  cr_build_exec_argv executable prompt _ _ := [executable; "exec"; prompt];
  cr_parse_events _ := Ok [] |}.
Definition demo_routes : ProviderRoutes (W := Runtime unit) := {|
  pv_discover _ := mret (false, false, None);
  pv_run_temporary _ _ _ _ _ := raise (RuntimeError "no route") |}.
Definition demo_policy : PolicyEngine := PolicyEngine_init None None None None.
Definition demo_harnesses : list (string * HarnessAdapter St) :=
  [("codex", Connected {| ca_harness_id := "codex"; ca_display_name := "Codex";
                          ca_connector := demo_codex; ca_allowed_roots := [] |})].
Definition demo_router during :=
  default_router (demo_system during) demo_policy false demo_harnesses demo_routes.
Definition demo_body_of (mission : option string) (profile : string)
    (capabilities : list string) : CreateRuntimeTaskBody := {|
  cb_workspace_id := "w"; cb_prompt := "fix the parser"; cb_correlation_id := None;
  cb_mission_id := mission; cb_execution_id := None; cb_trace_id := None; cb_actor_id := None;
  cb_idempotency_key := None; cb_policy_profile := profile;
  cb_requested_capabilities := capabilities; cb_prohibited_capabilities := [];
  cb_preferred_connectors := []; cb_required_connector := Some "codex";
  cb_preferred_providers := []; cb_required_provider := None; cb_preferred_nodes := [];
  cb_required_node := None; cb_timeout_seconds := 300; cb_max_attempts := 2 |}.
Definition demo_body := demo_body_of None.
Definition demo_start : St :=
  {| st_ticks := 0; st_cancel := CancellationRegistry_init;
     st_world := Runtime_init 60 tt |}.
Definition demo_serve during qs : St :=
  fold_left (λ s q, serve (demo_system during) demo_tree ascii_only demo_codex demo_policy
    (demo_router during) q s) qs demo_start.

(** The statuses of the tasks, and the detail of the last one. *)
Definition statuses (s : St) : list (RuntimeTaskStatus * option string) :=
  (λ kv, (tk_status kv.2, tk_detail kv.2)) <$> tasks_of s.

Definition idle : M St unit := mret tt.
Definition readable := ["repository.read"].

(** A task the policy allows runs on the machine of the service. *)
Definition allowed_requests := [Create (demo_body "developer" readable) "u" false].
Example allowed_task_succeeds : statuses (demo_serve idle allowed_requests) =
  [(RT_SUCCEEDED, Some "backend success with required evidence")].
Proof. vm_compute. reflexivity. Qed.

(** A retry does not look at the status of the task: one the policy refused, and one that
    waits for its approval, run when they are retried. *)
Definition refused_request := Create (demo_body "read_only" ["repository.write"]) "u" false.
Definition unapproved_request := Create (demo_body "developer" ["repository.write"]) "u" false.
Definition a_retry := Retry "0" Policy.OFFER_TIMEOUT.
Example refused_task_runs_when_retried :
  statuses (demo_serve idle [refused_request]) =
    [(RT_REJECTED, Some "policy rejected capabilities: filesystem.write, repository.write")] ∧
  statuses (demo_serve idle [refused_request; a_retry]) =
    [(RT_SUCCEEDED, Some "backend success with required evidence")].
Proof. vm_compute. done. Qed.
Example unapproved_task_runs_when_retried :
  statuses (demo_serve idle [unapproved_request]) = [(RT_APPROVAL_REQUIRED, None)] ∧
  statuses (demo_serve idle [unapproved_request; a_retry]) =
    [(RT_SUCCEEDED, Some "backend success with required evidence")].
Proof. vm_compute. done. Qed.

(** A task that is cancelled while its process runs is failed when the process has ended. *)
Example cancelled_task_is_failed :
  statuses (demo_serve (cancel_task (demo_router idle) "0";; mret tt) allowed_requests) =
  [(RT_FAILED, Some "execution cancelled")].
Proof. vm_compute. reflexivity. Qed.

(** *** Remote nodes *)

Definition node_with (connector : string) : SchedulerNodeSnapshot :=
  build_ready_connector_node 0 "n1" "w" connector "/repo" true false [].
Definition leased_requests (mission : option string) : list request :=
  [Node (node_with "codex"); Create (demo_body_of mission "developer" readable) "u" false].
Definition success_event (token : Z) (payload : dict) : request :=
  NodeEvent "1" "execution_attempt_26" "29" token "task.succeeded" payload.
Definition verified_payload : dict := [("verified", PBool true)].

(** The node is leased the task; a success that is not verified does not complete it, nor
    does one under another token. *)
Example remote_task_needs_verification :
  statuses (demo_serve idle (leased_requests None)) = [(RT_LEASED, None)] ∧
  statuses (demo_serve idle (leased_requests None ++ [success_event 1 verified_payload])) =
    [(RT_SUCCEEDED, Some "remote verifier accepted")] ∧
  statuses (demo_serve idle (leased_requests None ++ [success_event 1 []])) =
    [(RT_FAILED, Some "missing required evidence: remote_verification")] ∧
  statuses (demo_serve idle (leased_requests None ++ [success_event 2 verified_payload])) =
    [(RT_LEASED, None)].
Proof. vm_compute. done. Qed.

(** The evidence of an event names the task as its mission, the context the mission of the
    task: the verified success of a task that has a mission is refused. *)
Example success_of_a_mission_is_refused :
  statuses (demo_serve idle (leased_requests (Some "m") ++ [success_event 1 verified_payload])) =
  [(RT_FAILED, Some "required evidence missing or rejected")].
Proof. vm_compute. reflexivity. Qed.

(** The router drops the output of a submission that was only queued: a task that was queued
    because no worker fits is rejected in the end. *)
Example waiting_task_is_rejected :
  statuses (demo_serve idle [Node (node_with "grok"); Create (demo_body "developer" readable) "u" false]) =
  [(RT_REJECTED, Some "all backends failed or unavailable: required connector mismatch")].
Proof. vm_compute. reflexivity. Qed.

(** *** Witnesses *)

Lemma demo_os_within : os_within step (demo_system idle).
Proof. split; intros; simpl; unfold idle; within_steps. Qed.
Lemma demo_tree_within : tree_within step demo_tree.
Proof. split; intros; simpl; within_steps. Qed.
Lemma demo_codex_within k : within step (cr_discover demo_codex k).
Proof. simpl. within_steps. Qed.
Lemma demo_backends_within :
  Forall (backend_within step) (rg_backends (rt_registry (demo_router idle))).*2.
Proof.
  apply default_router_within; [apply demo_os_within| |].
  - apply Forall_singleton. exact demo_codex_within.
  - split; intros; simpl; within_steps.
Qed.
Lemma demo_task_succeeded : ∃ t,
  dict_get "0" (tasks_of (demo_serve idle allowed_requests)) = Some t ∧
  tk_status t = RT_SUCCEEDED.
Proof. vm_compute. eexists. split; reflexivity. Qed.

Lemma succeeded_task_is_verified_witness : ∃ t r,
  dict_get "0" (tasks_of (demo_serve idle allowed_requests)) = Some t ∧
  store_get (execution_of t) (store (orch (demo_serve idle allowed_requests))) = Some r ∧
  rec_state r = COMPLETED ∧ is_verified (rec_verification r).
Proof.
  destruct demo_task_succeeded as (t & Ht & Hst).
  destruct (succeeded_task_is_verified (demo_system idle) demo_tree ascii_only demo_codex
    demo_policy (demo_router idle) 0 CancellationRegistry_init 60 tt allowed_requests "0" t
    demo_os_within demo_tree_within demo_codex_within demo_backends_within Ht Hst)
    as (r & Hr & Hc & _ & _ & Hv).
  exists t, r. split; [exact Ht|]. split; [exact Hr|]. split; [exact Hc|exact Hv].
Defined.

Lemma unapproved_decision : ∃ d,
  evaluate demo_policy (request_of (demo_body "developer" ["repository.write"]) "u"
    (uuid_str 0) (clock 1)) None = Ok d ∧ approval_requirements d ≠ [].
Proof. vm_compute. eexists. split; [reflexivity|done]. Qed.

Lemma nothing_runs_unapproved_witness :
  quiet demo_start (demo_serve idle [unapproved_request]).
Proof.
  destruct unapproved_decision as (d & Hd & Ha).
  exact (proj1 (nothing_runs_unapproved (demo_system idle) demo_tree ascii_only demo_codex
    demo_policy (demo_router idle) (demo_body "developer" ["repository.write"]) "u" false
    demo_start d _ _ Hd (or_intror Ha) (surjective_pairing _))).
Defined.

Definition leased_state : St := demo_serve idle (leased_requests None).
Lemma other_token_is_not_held :
  ¬ holds (clock (st_ticks leased_state)) leased_state "1" "29" 2 "execution_attempt_26".
Proof. intros (l & Hl & _ & _ & Ht & _). vm_compute in Hl. injection Hl as <-. discriminate Ht. Qed.

Lemma event_needs_the_lease_witness : ∃ e s',
  ingest_node_event "1" "execution_attempt_26" "29" 2 "task.succeeded" verified_payload
    leased_state = (Raise e, s') ∧ exn_class e = "PermissionError" ∧
  tasks_of s' = tasks_of leased_state.
Proof.
  destruct (event_needs_the_lease "1" "execution_attempt_26" "29" 2 "task.succeeded"
    verified_payload leased_state other_token_is_not_held) as (e & s' & E & He & Ht & _).
  exists e, s'. split; [exact E|]. split; [exact He|exact Ht].
Defined.
End demo.
