(* ===== verification/SessionModels.v ===== *)
(** * Runs, routes and subscriptions: the data

    [models.py]: what the SDK, the command line and the sessions service exchange. Fields that
    nothing but a report or an adapter of one harness reads are left out. Sets are lists without
    duplicates, whose order means nothing; a time is a number of microseconds. *)

From Stdlib Require Import SpecFloat.
From S2P Require Import Prelude.

(** ** Enumerations *)

(* @src models.py:16-43 Capability *)
Inductive Capability :=
| C_NON_INTERACTIVE | C_FILE_READ | C_FILE_WRITE | C_SHELL | C_STREAMING | C_STRUCTURED_EVENTS
| C_SESSION_CREATE | C_SESSION_RESUME | C_MODEL_SELECTION | C_PROVIDER_SELECTION | C_TOOL_USE
| C_TOOL_PERMISSIONS | C_FILESYSTEM_SANDBOX | C_NETWORK_SANDBOX | C_APPROVAL_MODES
| C_WORKING_DIRECTORY | C_ADDITIONAL_WRITABLE_DIRECTORIES | C_IMAGE_INPUT | C_MCP | C_ACP
| C_USAGE_REPORTING | C_CONTEXT_WINDOW_REPORTING | C_RATE_LIMIT_REPORTING | C_COST_REPORTING
| C_CANCELLATION | C_TIMEOUT_ENFORCEMENT | C_PROCESS_TREE_CLEANUP.
#[export] Instance Capability_eq_dec : EqDecision Capability.
Proof. solve_decision. Defined.

(* @src models.py:16-43 Capability *)
Definition Capability_value (c : Capability) : string :=
  match c with
  | C_NON_INTERACTIVE => "execution.non_interactive" | C_FILE_READ => "file.read"
  | C_FILE_WRITE => "file.write" | C_SHELL => "shell" | C_STREAMING => "streaming"
  | C_STRUCTURED_EVENTS => "events.structured" | C_SESSION_CREATE => "session.create"
  | C_SESSION_RESUME => "session.resume" | C_MODEL_SELECTION => "model.selection"
  | C_PROVIDER_SELECTION => "provider.selection" | C_TOOL_USE => "tool.use"
  | C_TOOL_PERMISSIONS => "tool.permissions" | C_FILESYSTEM_SANDBOX => "sandbox.filesystem"
  | C_NETWORK_SANDBOX => "sandbox.network" | C_APPROVAL_MODES => "approval.modes"
  | C_WORKING_DIRECTORY => "workspace.selection"
  | C_ADDITIONAL_WRITABLE_DIRECTORIES => "workspace.additional_writable"
  | C_IMAGE_INPUT => "input.image" | C_MCP => "protocol.mcp" | C_ACP => "protocol.acp"
  | C_USAGE_REPORTING => "usage.reporting" | C_CONTEXT_WINDOW_REPORTING => "usage.context_window"
  | C_RATE_LIMIT_REPORTING => "limit.rate" | C_COST_REPORTING => "usage.cost"
  | C_CANCELLATION => "runtime.cancellation" | C_TIMEOUT_ENFORCEMENT => "runtime.timeout"
  | C_PROCESS_TREE_CLEANUP => "runtime.process_tree_cleanup"
  end.

(* @src models.py:51-57 RunStatus *)
Inductive RunStatus :=
| RUN_QUEUED | RUN_RUNNING | RUN_COMPLETED | RUN_FAILED | RUN_CANCELLED | RUN_TIMED_OUT.
#[export] Instance RunStatus_eq_dec : EqDecision RunStatus.
Proof. solve_decision. Defined.
(* @src models.py:51-57 RunStatus *)
Definition RunStatus_value (s : RunStatus) : string :=
  match s with
  | RUN_QUEUED => "queued" | RUN_RUNNING => "running" | RUN_COMPLETED => "completed"
  | RUN_FAILED => "failed" | RUN_CANCELLED => "cancelled" | RUN_TIMED_OUT => "timed_out"
  end.

(* @src models.py:66-80 EventType *)
Inductive EventType :=
| E_RUN_QUEUED | E_RUN_STARTED | E_HARNESS_OUTPUT | E_HARNESS_PROGRESS | E_RUN_COMPLETED
| E_RUN_FAILED | E_RUN_CANCELLED | E_RUN_TIMED_OUT | E_SESSION_IDENTIFIED | E_USAGE_RECORDED
| E_RATE_LIMIT_ENCOUNTERED | E_FALLBACK_PROPOSED | E_APPROVAL_REQUESTED
| E_RUNTIME_SNAPSHOT_UPDATED.
#[export] Instance EventType_eq_dec : EqDecision EventType.
Proof. solve_decision. Defined.
(* @src models.py:66-80 EventType *)
Definition EventType_value (e : EventType) : string :=
  match e with
  | E_RUN_QUEUED => "run.queued" | E_RUN_STARTED => "run.started"
  | E_HARNESS_OUTPUT => "harness.output" | E_HARNESS_PROGRESS => "harness.progress"
  | E_RUN_COMPLETED => "run.completed" | E_RUN_FAILED => "run.failed"
  | E_RUN_CANCELLED => "run.cancelled" | E_RUN_TIMED_OUT => "run.timed_out"
  | E_SESSION_IDENTIFIED => "session.identified" | E_USAGE_RECORDED => "usage.recorded"
  | E_RATE_LIMIT_ENCOUNTERED => "rate_limit.encountered"
  | E_FALLBACK_PROPOSED => "fallback.proposed" | E_APPROVAL_REQUESTED => "approval.requested"
  | E_RUNTIME_SNAPSHOT_UPDATED => "runtime.snapshot_updated"
  end.

(* @src models.py:96-100 SubscriptionState *)
Inductive SubscriptionState := SUB_HEALTHY | SUB_RATE_LIMITED | SUB_EXHAUSTED | SUB_DISABLED.
#[export] Instance SubscriptionState_eq_dec : EqDecision SubscriptionState.
Proof. solve_decision. Defined.

(* @src models.py:103-112 FailureKind *)
Inductive FailureKind :=
| FK_RATE_LIMIT | FK_QUOTA_EXHAUSTED | FK_AUTHENTICATION | FK_UNSUPPORTED | FK_PROCESS
| FK_TIMEOUT | FK_INVALID_REQUEST | FK_TURN_LIMIT | FK_UNKNOWN.
#[export] Instance FailureKind_eq_dec : EqDecision FailureKind.
Proof. solve_decision. Defined.
(* @src models.py:103-112 FailureKind *)
Definition FailureKind_value (k : FailureKind) : string :=
  match k with
  | FK_RATE_LIMIT => "rate_limit" | FK_QUOTA_EXHAUSTED => "quota_exhausted"
  | FK_AUTHENTICATION => "authentication" | FK_UNSUPPORTED => "unsupported"
  | FK_PROCESS => "process" | FK_TIMEOUT => "timeout"
  | FK_INVALID_REQUEST => "invalid_request" | FK_TURN_LIMIT => "turn_limit"
  | FK_UNKNOWN => "unknown"
  end.

(** ** Records *)

(* @src models.py:115-124 CapabilityManifest *)
Record CapabilityManifest := {
  mf_harness_id : string;
  mf_display_name : string;
  mf_capabilities : list Capability;
  mf_max_concurrency : Z
}.

(* @src models.py:131-139 HarnessDescriptor *)
Record HarnessDescriptor := {
  hd_manifest : CapabilityManifest;
  hd_available : bool;
  hd_executable : option string
}.

(* @src models.py:142-157 SubscriptionProfile *)
Record SubscriptionProfile := {
  sp_id : string;
  sp_harness_id : string;
  sp_name : string;
  sp_enabled : bool;
  sp_monthly_limit : option spec_float;
  sp_used_amount : spec_float;
  sp_max_concurrency : Z;
  sp_cost_weight : spec_float;
  sp_quota_reserve : spec_float;
  sp_quota_known : bool;
  sp_state : SubscriptionState;
  sp_requires_paid_approval : bool
}.

(** [max(0.0, x)]: the first of equal arguments, and the first when [x] is not a number. *)
Definition max_zero (x : spec_float) : spec_float := if flt (z_to_float 0) x then x else z_to_float 0.

(* @src models.py:159-165 SubscriptionProfile.remaining_fraction *)
Definition remaining_fraction (p : SubscriptionProfile) : option spec_float :=
  match sp_monthly_limit p with
  | None => None
  | Some limit =>
      if sf_zero limit then Some (z_to_float 0)
      else Some (max_zero (fdiv (fsub limit (sp_used_amount p)) limit))
  end.

(* @src models.py:168-175 RouteCandidate *)
Record RouteCandidate := {
  rc_harness_id : string;
  rc_subscription_id : option string;
  rc_score : spec_float;
  rc_eligible : bool;
  rc_reasons : list string
}.

(* @src models.py:178-182 RoutePreview *)
Record RoutePreview := {
  rp_selected : option RouteCandidate;
  rp_candidates : list RouteCandidate
}.

(* @src models.py:185-194 NormalizedEvent *)
Record NormalizedEvent := {
  ev_run_id : string;
  ev_sequence : Z;
  ev_type : EventType;
  ev_message : option string;
  ev_payload : dict
}.

(* @src models.py:197-214 Run *)
Record Run := {
  run_id : string;
  run_task : string;
  run_workspace : string;
  run_harness_id : string;
  run_subscription_id : option string;
  run_status : RunStatus;
  run_created_at : Z;
  run_started_at : option Z;
  run_finished_at : option Z;
  run_exit_code : option Z;
  run_error : option string;
  run_task_context_id : string;
  run_continuation_of_run_id : option string;
  run_native_session_id : option string;
  run_process_id : option Z
}.

(* @src models.py:217-230 RoutePreviewRequest *)
Record RoutePreviewRequest := {
  pq_task : string;
  pq_workspace : string;
  pq_required_capabilities : list Capability;
  pq_preferred_harness : option string;
  pq_allowed_harnesses : list string;
  pq_denied_harnesses : list string;
  pq_paid_routes_approved : bool
}.

(* @src models.py:60-63 PermissionMode *)
Inductive PermissionMode := PM_DEFAULT | PM_READ_ONLY | PM_AUTO_APPROVE.

(** What a child process is started with. *)
(* @src models.py:273-279 LaunchSpec *)
Record LaunchSpec := {
  ls_argv : list string;
  ls_cwd : string;
  ls_env : list (string * string);
  ls_timeout_seconds : option spec_float
}.

(** The directive is the dictionary the caller gave. *)
(* @src models.py:233-257 RunRequest *)
Record RunRequest := {
  rq_task : string;
  rq_workspace : string;
  rq_route : option RouteCandidate;
  rq_required_capabilities : list Capability;
  rq_preferred_harness : option string;
  rq_timeout_seconds : option spec_float;
  rq_resume_session_id : option string;
  rq_allowed_harnesses : list string;
  rq_denied_harnesses : list string;
  rq_paid_routes_approved : bool;
  rq_permission_mode : PermissionMode;
  rq_model : option string;
  rq_provider : option string;
  rq_additional_writable_directories : list string;
  rq_correlation_id : option string;
  rq_mission_id : option string;
  rq_trace_id : option string;
  rq_execution_id : option string;
  rq_directive : option dict
}.

(* @src models.py:282-285 UsageDelta *)
Record UsageDelta := {
  ud_input_tokens : Z;
  ud_output_tokens : Z;
  ud_cost : option spec_float
}.

(* @src models.py:288-291 AdapterObservation *)
Record AdapterObservation := {
  ao_event : NormalizedEvent;
  ao_native_session_id : option string;
  ao_usage : option UsageDelta
}.

(* @src models.py:294-297 HarnessFailure *)
Record HarnessFailure := {
  hf_kind : FailureKind;
  hf_message : string;
  hf_retryable : bool
}.

(* @src models.py:313-323 FallbackProposal *)
Record FallbackProposal := {
  fp_id : string;
  fp_original_run_id : string;
  fp_route : RouteCandidate;
  fp_requires_approval : bool;
  fp_approved : bool;
  fp_continuation_run_id : option string;
  fp_reason : string;
  fp_created_at : Z
}.
