(* ===== verification/HarnessRegistry.v ===== *)
(** * The harnesses the SDK knows

    [adapters/base.py], [harnesses/registry.py], [registry.py] and [harnesses/selection.py]: what
    an adapter of a harness offers, the table of definitions, aliases and adapters, and the
    choice of a harness for a run. The adapters of single harnesses and the search of the file
    system are not part of it: an adapter is a record of operations. *)

From S2P Require Import Prelude.
From S2P Require Import SessionModels.

(** ** Adapters *)

(* @src adapters/base.py:90-112 HarnessAdapter.classify_failure *)
Definition classify_failure (exit_code : Z) (output : string) : HarnessFailure :=
  let low := lower output in
  if str_in "rate limit" low || str_in "too many requests" low || str_in "429" low then
    {| hf_kind := FK_RATE_LIMIT; hf_message := "Harness rate limit encountered";
       hf_retryable := true |}
  else if str_in "quota" low && (str_in "exhaust" low || str_in "limit" low) then
    {| hf_kind := FK_QUOTA_EXHAUSTED; hf_message := "Harness quota exhausted";
       hf_retryable := false |}
  else if str_in "unauthorized" low || str_in "authentication" low then
    {| hf_kind := FK_AUTHENTICATION; hf_message := "Harness authentication failed";
       hf_retryable := false |}
  else
    {| hf_kind := FK_PROCESS;
       hf_message := "Harness exited with status " +:+ pretty exit_code;
       hf_retryable := false |}.

(** The operations every harness has; [ad_classify_failure] is [classify_failure] unless the
    harness reads its own output better. *)
(* @src adapters/base.py:29-130 HarnessAdapter *)
Record HarnessAdapter := {
  ad_manifest : CapabilityManifest;
  ad_conformance_passed : bool;
  ad_build_launch_spec : RunRequest → res LaunchSpec;
  ad_normalize_output : string → Z → string → string → res AdapterObservation;
  ad_classify_failure : Z → string → HarnessFailure
}.
Definition ad_id (a : HarnessAdapter) : string := mf_harness_id (ad_manifest a).

(** ** The registry *)

(* @src harnesses/contracts.py:22-26 AdapterMaturity *)
Inductive AdapterMaturity := MAT_STABLE | MAT_BETA | MAT_EXPERIMENTAL | MAT_DISCOVERY_ONLY.
#[export] Instance AdapterMaturity_eq_dec : EqDecision AdapterMaturity.
Proof. solve_decision. Defined.
(* @src harnesses/contracts.py:22-26 AdapterMaturity *)
Definition AdapterMaturity_value (m : AdapterMaturity) : string :=
  match m with
  | MAT_STABLE => "stable" | MAT_BETA => "beta" | MAT_EXPERIMENTAL => "experimental"
  | MAT_DISCOVERY_ONLY => "discovery_only"
  end.

(* @src harnesses/contracts.py:154-185 HarnessDefinition *)
Record HarnessDefinition := {
  hdf_id : string;
  hdf_aliases : list string;
  hdf_maturity : AdapterMaturity;
  hdf_unsupported_reason : option string
}.

(** [FORBIDDEN_PRODUCTION_HARNESS_IDS], [REMOVED_PRODUCTION_HARNESS_IDS]. *)
(* @src harnesses/registry.py:15 FORBIDDEN_PRODUCTION_HARNESS_IDS *)
Definition removed_harness (id : string) : bool := id in? ["fake"; "joy"].

(* @src harnesses/registry.py:19-54 HarnessRegistry.__init__ *)
Record Registry := {
  rg_definitions : list (string * HarnessDefinition);
  rg_aliases : list (string * string);
  rg_adapters : list (string * HarnessAdapter);
  rg_allow_test_harnesses : bool
}.

(** The aliases of one definition: a name that stands for another harness is a collision. *)
(* @src harnesses/registry.py:36-42 HarnessRegistry.__init__ *)
Fixpoint add_aliases (production : bool) (id : string) (names : list string)
    (aliases : list (string * string)) : res (list (string * string)) :=
  match names with
  | [] => Ok aliases
  | name :: names =>
      if production && removed_harness name then add_aliases production id names aliases
      else match dict_get name aliases with
           | Some previous =>
               if previous != id then
                 Raise (ValueError ("harness alias collision: " +:+ name))
               else add_aliases production id names (dict_set name id aliases)
           | None => add_aliases production id names (dict_set name id aliases)
           end
  end.

(* @src harnesses/registry.py:35-42 HarnessRegistry.__init__ *)
Fixpoint alias_table (production : bool) (definitions : list (string * HarnessDefinition))
    (aliases : list (string * string)) : res (list (string * string)) :=
  match definitions with
  | [] => Ok aliases
  | (_, d) :: ds =>
      res_bind (add_aliases production (hdf_id d) (hdf_id d :: hdf_aliases d) aliases)
        (alias_table production ds)
  end.

(* @src harnesses/registry.py:56-65 HarnessRegistry.resolve_id *)
Definition resolve_id (r : Registry) (name : string) : res string :=
  if removed_harness name && negb (rg_allow_test_harnesses r) then
    Raise (KeyError ("harness removed from production: " +:+ name))
  else match dict_get name (rg_aliases r) with
       | Some id => Ok id
       | None => Raise (KeyError ("unknown harness: " +:+ name))
       end.

(** [self._definitions[id]]. *)
(* @src harnesses/registry.py:67-68 HarnessRegistry.definition *)
Definition definition (r : Registry) (name : string) : res HarnessDefinition :=
  res_bind (resolve_id r name) (λ id,
    match dict_get id (rg_definitions r) with
    | Some d => Ok d
    | None => Raise (KeyError id)
    end).

(* @src harnesses/registry.py:73-84 HarnessRegistry.register *)
Definition register (a : HarnessAdapter) (replace : bool) (r : Registry) : res Registry :=
  let id := ad_id a in
  if removed_harness id && negb (rg_allow_test_harnesses r) then
    Raise (ValueError ("refusing to register removed/test-only harness in production " +:+
                       "registry: " +:+ id))
  else if negb (dict_has id (rg_definitions r)) then
    Raise (ValueError ("adapter has no harness definition: " +:+ id))
  else if dict_has id (rg_adapters r) && negb replace then
    Raise (ValueError ("adapter already registered: " +:+ id))
  else Ok {| rg_definitions := rg_definitions r; rg_aliases := rg_aliases r;
             rg_adapters := dict_set id a (rg_adapters r);
             rg_allow_test_harnesses := rg_allow_test_harnesses r |}.

(* @src harnesses/registry.py:86-93 HarnessRegistry.register_custom_definition *)
Definition register_custom_definition (d : HarnessDefinition) (r : Registry) : res Registry :=
  if removed_harness (hdf_id d) then
    Raise (ValueError ("forbidden harness id: " +:+ hdf_id d))
  else Ok {| rg_definitions := dict_set (hdf_id d) d (rg_definitions r);
             rg_aliases := foldl (λ l name, dict_set name (hdf_id d) l) (rg_aliases r)
                                 (hdf_id d :: hdf_aliases d);
             rg_adapters := rg_adapters r;
             rg_allow_test_harnesses := rg_allow_test_harnesses r |}.

(* @src harnesses/registry.py:53-54 HarnessRegistry.__init__ *)
Fixpoint register_all (adapters : list HarnessAdapter) (r : Registry) : res Registry :=
  match adapters with
  | [] => Ok r
  | a :: adapters => res_bind (register a false r) (register_all adapters)
  end.

(** The adapters given make it a test registry; the ones of production are an argument. *)
(* @src harnesses/registry.py:19-54 HarnessRegistry.__init__ *)
Definition new_registry (adapters : option (list HarnessAdapter))
    (production_adapters : list HarnessAdapter) (catalogue : list HarnessDefinition) :
    res Registry :=
  let production := match adapters with None => true | Some _ => false end in
  let kept := if production then List.filter (λ d, negb (removed_harness (hdf_id d))) catalogue
              else catalogue in
  let definitions := foldl (λ l d, dict_set (hdf_id d) d l) [] kept in
  res_bind (alias_table production definitions []) (λ aliases,
    register_all (default production_adapters adapters)
      {| rg_definitions := definitions; rg_aliases := aliases; rg_adapters := [];
         rg_allow_test_harnesses := negb production |}).

(** The adapter of a name; [KeyError] when there is no such harness or it has none. *)
(* @src harnesses/registry.py:95-102 HarnessRegistry.get *)
Definition get_adapter (r : Registry) (name : string) : res HarnessAdapter :=
  res_bind (resolve_id r name) (λ id,
    match dict_get id (rg_adapters r) with
    | Some a => Ok a
    | None =>
        match dict_get id (rg_definitions r) with
        | None => Raise (KeyError id)
        | Some d =>
            let reason := match hdf_unsupported_reason d with
                          | Some x => if x == "" then "no executable adapter registered" else x
                          | None => "no executable adapter registered"
                          end in
            Raise (KeyError ("harness is discovery-only: " +:+ id +:+ " (" +:+ reason +:+ ")"))
        end
    end).

(** The adapters in the order of their identifiers. *)
(* @src harnesses/registry.py:104-105 HarnessRegistry.list *)
Definition list_adapters (r : Registry) : list HarnessAdapter :=
  omap (λ id, dict_get id (rg_adapters r)) (sorted_strs (dict_keys (rg_adapters r))).

(** Which adapters can run: the file their path names or what the search finds, by the
    machine. *)
(* @src registry.py:29-63 AdapterRegistry.detect *)
Definition detect (installed : HarnessAdapter → option string) (r : Registry) :
    list HarnessDescriptor :=
  (λ a, {| hd_manifest := ad_manifest a;
           hd_available := bool_decide (is_Some (installed a));
           hd_executable := installed a |}) <$> list_adapters r.

(** ** The choice of a harness for a run *)

(* @src harnesses/selection.py:13-26 HarnessSelectionError *)
Definition HarnessSelectionError (code message : string) : exn :=
  Exn "HarnessSelectionError" code message.

(** The required capabilities a harness lacks, by their names in order. *)
(* @src harnesses/selection.py:53-69 find_capability_mismatch *)
Definition missing_capabilities (supported required : list Capability) : list string :=
  sorted_strs (Capability_value <$> List.filter (λ c, negb (bool_decide (c ∈ supported))) required).

(* @src harnesses/selection.py:35-42 CapabilityMismatch *)
Record CapabilityMismatch := {
  cm_harness_id : string;
  cm_required_capabilities : list string;
  cm_supported_capabilities : list string;
  cm_missing_capabilities : list string
}.

(* @src harnesses/selection.py:53-69 find_capability_mismatch *)
Definition find_capability_mismatch (harness_id : string) (supported required : list Capability) :
    option CapabilityMismatch :=
  match missing_capabilities supported required with
  | [] => None
  | missing =>
      Some {| cm_harness_id := harness_id;
              cm_required_capabilities := sorted_strs (Capability_value <$> required);
              cm_supported_capabilities := sorted_strs (Capability_value <$> supported);
              cm_missing_capabilities := missing |}
  end.

(** The preferences the choice reads; the custom harnesses by their identifiers. *)
(* @src config.py:97-106 HarnessPreferences *)
Record HarnessPreferences := {
  pf_enabled : list string;
  pf_default : option string;
  pf_custom : list string;
  pf_selection_required : bool
}.

(* @src harnesses/selection.py:29-32 HarnessResolution *)
Record HarnessResolution := { hr_harness_id : string; hr_reason : string }.

Section resolving.
Context (prefs : HarnessPreferences) (ready known : list string)
  (allow_disabled_override allow_test_harnesses : bool).

(* @src harnesses/selection.py:95-120 resolve_harness *)
Definition validate_choice (harness_id : string) (require_enabled : bool) : res string :=
  if removed_harness harness_id && negb allow_test_harnesses then
    Raise (HarnessSelectionError "harness_removed"
             ("harness removed from production: " +:+ harness_id))
  else if negb (known == []) && negb (harness_id in? known) &&
          negb (harness_id in? pf_custom prefs) then
    Raise (HarnessSelectionError "unknown_harness" ("unknown harness: " +:+ harness_id))
  else if require_enabled && negb (pf_enabled prefs == []) &&
          negb (harness_id in? pf_enabled prefs) && negb allow_disabled_override then
    Raise (HarnessSelectionError "harness_disabled" ("harness is not enabled: " +:+ harness_id))
  else if negb (harness_id in? ready) then
    Raise (HarnessSelectionError "harness_not_ready" ("harness is not ready: " +:+ harness_id))
  else Ok harness_id.

Definition chosen (harness_id : string) (require_enabled : bool) (reason : string) :
    res HarnessResolution :=
  res_bind (validate_choice harness_id require_enabled) (λ id,
    Ok {| hr_harness_id := id; hr_reason := reason |}).

(* @src harnesses/selection.py:122-162 resolve_harness *)
Definition resolve_among (override preferred : option string) (interactive : bool)
    (prompt_fn : option (list string → res string)) : res HarnessResolution :=
  if otruthy override then
    chosen (default "" override) (negb allow_disabled_override) "per_run_override"
  else if otruthy preferred then chosen (default "" preferred) true "preferred_harness"
  else if pf_selection_required prefs && (pf_default prefs == None) && negb interactive then
    Raise (HarnessSelectionError "harness_selection_required"
             "harness selection required after legacy configuration migration")
  else if otruthy (pf_default prefs) then
    chosen (default "" (pf_default prefs)) true "configured_default"
  else
    match List.filter (λ id, (pf_enabled prefs == []) || (id in? pf_enabled prefs)) ready with
    | [] => Raise (HarnessSelectionError "no_ready_harness" "no ready harness available")
    | [id] => Ok {| hr_harness_id := id; hr_reason := "single_enabled_ready" |}
    | enabled_ready =>
        match interactive, prompt_fn with
        | true, Some ask =>
            res_bind (ask enabled_ready) (λ id, chosen id true "interactive_selection")
        | _, _ =>
            Raise (HarnessSelectionError "harness_selection_required"
                     "multiple ready harnesses enabled and no default configured")
        end
    end.
End resolving.

(* @src harnesses/selection.py:72-162 resolve_harness *)
Definition resolve_harness (prefs : HarnessPreferences) (ready_enabled : list string)
    (override preferred : option string) (interactive : bool)
    (prompt_fn : option (list string → res string))
    (allow_disabled_override allow_test_harnesses : bool) (known_ids : list string) :
    res HarnessResolution :=
  let ready := if allow_test_harnesses then ready_enabled
               else List.filter (λ id, negb (removed_harness id)) ready_enabled in
  let known := known_ids ++ ready ++ pf_enabled prefs ++ pf_custom prefs in
  resolve_among prefs ready known allow_disabled_override allow_test_harnesses override preferred
    interactive prompt_fn.

(** ** What the registry guarantees *)

(** Every adapter is filed under its own identifier, has a definition, and none is removed from
    production; every alias leads to a definition. *)
Definition registry_ok (r : Registry) : Prop :=
  Forall (λ kv, ad_id kv.2 = kv.1 ∧ dict_has kv.1 (rg_definitions r) = true ∧
                (removed_harness kv.1 = true → rg_allow_test_harnesses r = true))
    (rg_adapters r) ∧
  Forall (λ kv, dict_has kv.2 (rg_definitions r) = true) (rg_aliases r).

Lemma missing_capabilities_nil supported required :
  missing_capabilities supported required = [] ↔ ∀ x, x ∈ required → x ∈ supported.
Proof.
  unfold missing_capabilities, sorted_strs. set (lacking := List.filter _ _).
  split.
  - intros Hm x Hx. destruct (decide (x ∈ supported)) as [|Hn]; [done|].
    assert (Capability_value x ∈ py_sorted str_leb (Capability_value <$> lacking)) as Hin.
    { apply elem_of_py_sorted, list_elem_of_fmap_2, elem_of_filter_bool. split; [done|].
      by rewrite bool_decide_eq_false_2. }
    rewrite Hm in Hin. inversion Hin.
  - intros Hall. assert (lacking = []) as ->; [|done]. subst lacking.
    induction required as [|x l IH]; [done|]. simpl.
    rewrite bool_decide_eq_true_2 by (apply Hall, list_elem_of_here). simpl. apply IH.
    intros y Hy. by apply Hall, list_elem_of_further.
Qed.

Lemma dict_has_set {V} k k' (v : V) d :
  dict_has k' (dict_set k v d) = (k == k') || dict_has k' d.
Proof.
  unfold dict_has. case_bool_decide as E; [subst; by rewrite dict_get_set_eq|].
  by rewrite (dict_get_set_ne k k' v d E).
Qed.

Lemma register_ok a replace r r' : registry_ok r → register a replace r = Ok r' → registry_ok r'.
Proof.
  intros [Ha Hl]. unfold register.
  destruct (removed_harness (ad_id a) && _) eqn:Hr; [done|].
  destruct (dict_has (ad_id a) (rg_definitions r)) eqn:Hd; [|done]. simpl.
  destruct (dict_has _ _ && _); [done|]. intros [= <-]. split; [|done].
  apply dict_set_Forall; [|done]. split_and!; [done..|]. simpl. intros Hx. rewrite Hx in Hr.
  by apply negb_false_iff in Hr.
Qed.

Lemma register_custom_ok d r r' :
  registry_ok r → register_custom_definition d r = Ok r' → registry_ok r'.
Proof.
  intros [Ha Hl]. unfold register_custom_definition.
  destruct (removed_harness (hdf_id d)); [done|]. intros [= <-]. split.
  - eapply Forall_impl; [exact Ha|]. intros [k a] (H1 & H2 & H3). simpl in *.
    split_and!; [done| |done]. rewrite dict_has_set, H2. apply orb_true_r.
  - assert (∀ names l,
      Forall (λ kv : string * string,
        dict_has kv.2 (dict_set (hdf_id d) d (rg_definitions r)) = true) l →
      Forall (λ kv, dict_has kv.2 (dict_set (hdf_id d) d (rg_definitions r)) = true)
        (foldl (λ l name, dict_set name (hdf_id d) l) l names)) as Hgo.
    { induction names as [|n ns IH]; intros l Hall; [done|]. apply IH.
      apply dict_set_Forall; [|done]. simpl. rewrite dict_has_set. by bd. }
    apply (Hgo (hdf_id d :: hdf_aliases d)). eapply Forall_impl; [exact Hl|]. intros [k v] Hv. simpl in *.
    rewrite dict_has_set, Hv. apply orb_true_r.
Qed.

(** The adapter a name leads to is the one registered under the identifier it resolves to; in
    production it is not a removed one. *)
Lemma get_adapter_spec r name a :
  registry_ok r → get_adapter r name = Ok a →
  resolve_id r name = Ok (ad_id a) ∧
  (removed_harness (ad_id a) = true → rg_allow_test_harnesses r = true).
Proof.
  intros [Ha _]. unfold get_adapter.
  destruct (resolve_id r name) as [id|e]; simpl; [|done].
  destruct (dict_get id (rg_adapters r)) as [a'|] eqn:E; [|by destruct (dict_get id (rg_definitions r))].
  intros [= ->]. apply dict_get_Some_elem in E. rewrite Forall_forall in Ha.
  destruct (Ha _ E) as (Hi & _ & Hr). simpl in *. by subst id.
Qed.

(** ** What the choice guarantees *)

Lemma validated_choice prefs ready known skip tests id need id' :
  validate_choice prefs ready known skip tests id need = Ok id' →
  id' = id ∧ id ∈ ready ∧ (removed_harness id = true → tests = true) ∧
  (need = true → skip = false → pf_enabled prefs ≠ [] → id ∈ pf_enabled prefs).
Proof.
  unfold validate_choice. intros Hv.
  destruct (removed_harness id && negb tests) eqn:E1; [done|].
  destruct (negb (known == []) && _ && _); [done|].
  destruct (need && _ && _ && _) eqn:E2; [done|].
  destruct (id in? ready) eqn:E3; [|done]. injection Hv as <-. boolify.
  split_and!; [done..| |].
  - intros Hr. rewrite Hr in E1. by apply negb_false_iff in E1.
  - intros -> -> He. rewrite (bool_decide_eq_false_2 _ He) in E2. simpl in E2.
    rewrite andb_true_r in E2. by apply negb_false_iff, bool_decide_eq_true in E2.
Qed.

(** a run gets a harness that is ready, never one that is removed from production, and one
    the user enabled unless he names it with the permission to use a disabled one; a harness
    that was named is the one that is used or the choice fails, it is never replaced. *)
Theorem resolved_harness_is_permitted prefs ready override preferred interactive ask skip tests
    known r :
  resolve_harness prefs ready override preferred interactive ask skip tests known = Ok r →
  hr_harness_id r ∈ ready ∧
  (removed_harness (hr_harness_id r) = true → tests = true) ∧
  (pf_enabled prefs ≠ [] → skip = false → hr_harness_id r ∈ pf_enabled prefs) ∧
  (otruthy override = true → override = Some (hr_harness_id r)) ∧
  (otruthy override = false → otruthy preferred = true → preferred = Some (hr_harness_id r)).
Proof.
  unfold resolve_harness.
  set (kept := if tests then ready else _).
  set (names := known ++ _). generalize names. clear names. intros names Hr.
  assert (∀ id, id ∈ kept → id ∈ ready ∧ (removed_harness id = true → tests = true)) as Hk.
  { intros id. subst kept. destruct tests; [by split|].
    rewrite elem_of_filter_bool. intros [Hi Hn]. split; [done|]. cbv beta in Hn. intros He. by rewrite He in Hn. }
  assert (∀ id need why, chosen prefs kept names skip tests id need why = Ok r →
    hr_harness_id r = id ∧ hr_harness_id r ∈ kept ∧
    (need = true → skip = false → pf_enabled prefs ≠ [] → id ∈ pf_enabled prefs)) as Hc.
  { intros id need why Hch. unfold chosen in Hch.
    destruct (validate_choice _ _ _ _ _ _ _) as [x|] eqn:Hv; [|done]. injection Hch as <-.
    destruct (validated_choice _ _ _ _ _ _ _ _ Hv) as (-> & Hi & _ & He). by split_and!. }
  unfold resolve_among in Hr.
  destruct (otruthy override) eqn:Ho.
  { destruct override as [o|]; [|done]. destruct (Hc _ _ _ Hr) as (Hid & Hi & He).
    destruct (Hk _ Hi). split_and!; [done..| | |done].
    - intros Hen Hs. rewrite Hid. apply He; [by rewrite Hs|done..].
    - intros _. by rewrite Hid. }
  destruct (otruthy preferred) eqn:Hp.
  { destruct preferred as [o|]; [|done]. destruct (Hc _ _ _ Hr) as (Hid & Hi & He).
    destruct (Hk _ Hi). split_and!; [done..| |done|].
    - intros Hen Hs. rewrite Hid. by apply He.
    - intros _ _. by rewrite Hid. }
  destruct (pf_selection_required prefs && _ && _); [done|].
  destruct (otruthy (pf_default prefs)) eqn:Hd.
  { destruct (Hc _ _ _ Hr) as (Hid & Hi & He). destruct (Hk _ Hi).
    split_and!; try done. intros Hen Hs. rewrite Hid. by apply He. }
  destruct (List.filter _ kept) as [|x [|y l]] eqn:Hf; [done| |].
  { injection Hr as <-. simpl.
    assert (x ∈ List.filter (λ id, (pf_enabled prefs == []) || (id in? pf_enabled prefs)) kept)
      as Hx by (rewrite Hf; apply list_elem_of_here).
    apply elem_of_filter_bool in Hx as [Hi He]. destruct (Hk _ Hi).
    split_and!; try done. intros Hen _. rewrite (bool_decide_eq_false_2 _ Hen) in He.
    by apply bool_decide_eq_true in He. }
  destruct interactive; [|done]. destruct ask as [ask|]; [|done].
  destruct (ask _) as [id|]; [|done]. simpl in Hr.
  destruct (Hc _ _ _ Hr) as (Hid & Hi & He). destruct (Hk _ Hi).
  split_and!; try done. intros Hen Hs. rewrite Hid. by apply He.
Qed.

(** ** On concrete inputs *)

Definition a_manifest (id : string) : CapabilityManifest :=
  {| mf_harness_id := id; mf_display_name := id; mf_capabilities := [C_FILE_READ; C_FILE_WRITE];
     mf_max_concurrency := 1 |}.
(** An adapter that starts a program with the task, and passes its lines on as they are. *)
Definition an_adapter (id : string) : HarnessAdapter :=
  {| ad_manifest := a_manifest id; ad_conformance_passed := true;
     ad_build_launch_spec q := Ok {| ls_argv := [id; rq_task q]; ls_cwd := rq_workspace q;
                                     ls_env := []; ls_timeout_seconds := rq_timeout_seconds q |};
     ad_normalize_output run sequence _ line :=
       Ok {| ao_event := {| ev_run_id := run; ev_sequence := sequence;
                            ev_type := E_HARNESS_OUTPUT; ev_message := Some line;
                            ev_payload := [] |};
             ao_native_session_id := None; ao_usage := None |};
     ad_classify_failure := classify_failure |}.
Definition a_definition (id : string) (aliases : list string) : HarnessDefinition :=
  {| hdf_id := id; hdf_aliases := aliases; hdf_maturity := MAT_STABLE;
     hdf_unsupported_reason := None |}.
Definition a_catalogue : list HarnessDefinition :=
  [a_definition "codex" []; a_definition "claude-code" ["claude"]; a_definition "fake" []].
Definition empty_registry : Registry :=
  {| rg_definitions := []; rg_aliases := []; rg_adapters := []; rg_allow_test_harnesses := false |}.
Definition a_registry : Registry :=
  from_ok empty_registry
    (new_registry None [an_adapter "codex"; an_adapter "claude-code"] a_catalogue).

Definition some_preferences : HarnessPreferences :=
  {| pf_enabled := ["codex"]; pf_default := None; pf_custom := []; pf_selection_required := false |}.

Lemma resolved_harness_is_permitted_witness :
  resolve_harness some_preferences ["codex"; "claude-code"; "fake"] None None false None false
    false [] = Ok {| hr_harness_id := "codex"; hr_reason := "single_enabled_ready" |} ∧
  "codex" ∈ ["codex"; "claude-code"; "fake"].
Proof.
  split; [vm_compute; reflexivity|].
  refine (proj1 (resolved_harness_is_permitted some_preferences ["codex"; "claude-code"; "fake"]
    None None false None false false [] (Build_HarnessResolution "codex" "single_enabled_ready") _)).
  vm_compute; reflexivity.
Defined.

(** The tables of a definition given at the start may not claim the name of another harness; a
    custom definition may. After it the name of one harness leads to the other. *)
Example custom_definition_takes_an_alias :
  resolve_id a_registry "claude" = Ok "claude-code" ∧
  res_bind (register_custom_definition (a_definition "claude" []) a_registry) (λ r,
    resolve_id r "claude") = Ok "claude" ∧
  res_ok (new_registry None [] (a_catalogue ++ [a_definition "claude" []])) = false.
Proof. vm_compute. by split_and!. Qed.
