(* ===== verification/Quota.v ===== *)
(** * Quota: what is known of the capacity of a harness

    [quota/]: the contracts, the providers that read a harness's command line or configuration,
    the cache, and the service that probes, remembers and observes. What the machine answers to
    a probe is a parameter, as the clocks are. *)

From Stdlib Require Import Ascii SpecFloat.
From S2P Require Import Prelude.
From S2P Require Import Privacy.
From S2P Require Import SessionModels.

(** ** Contracts *)

(* @src quota/contracts.py:12-22 HarnessAvailability *)
Inductive Availability :=
| AV_READY | AV_AUTHENTICATION_REQUIRED | AV_CONFIGURATION_REQUIRED | AV_QUOTA_EXHAUSTED
| AV_RATE_LIMITED | AV_OFFLINE | AV_PROVIDER_UNAVAILABLE | AV_UNKNOWN.
#[export] Instance Availability_eq_dec : EqDecision Availability.
Proof. solve_decision. Defined.
(* @src quota/contracts.py:12-22 HarnessAvailability *)
Definition Availability_value (a : Availability) : string :=
  match a with
  | AV_READY => "ready" | AV_AUTHENTICATION_REQUIRED => "authentication_required"
  | AV_CONFIGURATION_REQUIRED => "configuration_required"
  | AV_QUOTA_EXHAUSTED => "quota_exhausted" | AV_RATE_LIMITED => "rate_limited"
  | AV_OFFLINE => "offline" | AV_PROVIDER_UNAVAILABLE => "provider_unavailable"
  | AV_UNKNOWN => "unknown"
  end.

(* @src quota/contracts.py:25-29 QuotaVisibility *)
Inductive QuotaVisibility := QV_EXACT | QV_ESTIMATED | QV_OBSERVED | QV_UNKNOWN.
#[export] Instance QuotaVisibility_eq_dec : EqDecision QuotaVisibility.
Proof. solve_decision. Defined.
(* @src quota/contracts.py:25-29 QuotaVisibility *)
Definition QuotaVisibility_value (v : QuotaVisibility) : string :=
  match v with
  | QV_EXACT => "exact" | QV_ESTIMATED => "estimated" | QV_OBSERVED => "observed"
  | QV_UNKNOWN => "unknown"
  end.

(* @src quota/contracts.py:32-37 QuotaState *)
Inductive QuotaState := QS_AVAILABLE | QS_LOW | QS_EXHAUSTED | QS_BLOCKED | QS_UNKNOWN.
#[export] Instance QuotaState_eq_dec : EqDecision QuotaState.
Proof. solve_decision. Defined.
(* @src quota/contracts.py:32-37 QuotaState *)
Definition QuotaState_value (s : QuotaState) : string :=
  match s with
  | QS_AVAILABLE => "available" | QS_LOW => "low" | QS_EXHAUSTED => "exhausted"
  | QS_BLOCKED => "blocked" | QS_UNKNOWN => "unknown"
  end.

(* @src quota/contracts.py:40-47 QuotaSource *)
Inductive QuotaSource :=
| QO_OFFICIAL_API | QO_OFFICIAL_CLI | QO_OFFICIAL_HEADER | QO_DOCUMENTED_RESPONSE
| QO_EXECUTION_RESULT | QO_CACHE | QO_NONE.
#[export] Instance QuotaSource_eq_dec : EqDecision QuotaSource.
Proof. solve_decision. Defined.
(* @src quota/contracts.py:40-47 QuotaSource *)
Definition QuotaSource_value (s : QuotaSource) : string :=
  match s with
  | QO_OFFICIAL_API => "official_api" | QO_OFFICIAL_CLI => "official_cli"
  | QO_OFFICIAL_HEADER => "official_header" | QO_DOCUMENTED_RESPONSE => "documented_response"
  | QO_EXECUTION_RESULT => "execution_result" | QO_CACHE => "cache" | QO_NONE => "none"
  end.

(** [AUTO_BLOCKED_AVAILABILITIES]. *)
(* @src quota/contracts.py:52-61 AUTO_BLOCKED_AVAILABILITIES *)
Definition auto_blocked (a : Availability) : bool :=
  bool_decide (a ∈ [AV_AUTHENTICATION_REQUIRED; AV_CONFIGURATION_REQUIRED; AV_QUOTA_EXHAUSTED;
                    AV_RATE_LIMITED; AV_OFFLINE; AV_PROVIDER_UNAVAILABLE]).

(* @src quota/contracts.py:64-73 AVAILABILITY_SCORE *)
Definition AVAILABILITY_SCORE (a : Availability) : spec_float :=
  z_to_float match a with
             | AV_READY => 40 | AV_UNKNOWN => 5 | AV_RATE_LIMITED => -20
             | AV_QUOTA_EXHAUSTED => -40 | AV_AUTHENTICATION_REQUIRED => -50
             | AV_CONFIGURATION_REQUIRED => -50 | AV_OFFLINE => -60
             | AV_PROVIDER_UNAVAILABLE => -60
             end.

(* @src quota/contracts.py:75-81 QUOTA_STATE_SCORE *)
Definition QUOTA_STATE_SCORE (s : QuotaState) : spec_float :=
  z_to_float match s with
             | QS_AVAILABLE => 10 | QS_LOW => 0 | QS_UNKNOWN => -5 | QS_BLOCKED => -25
             | QS_EXHAUSTED => -40
             end.

(* @src quota/contracts.py:84-98 QuotaSnapshot *)
Record QuotaSnapshot := {
  qt_harness_id : string;
  qt_availability : Availability;
  qt_quota_visibility : QuotaVisibility;
  qt_state : QuotaState;
  qt_authenticated : bool;
  qt_configured : bool;
  qt_credits_remaining : option spec_float;
  qt_requests_remaining : option Z;
  qt_tokens_remaining : option Z;
  qt_reset_at : option Z;
  qt_observed_at : Z;
  qt_source : QuotaSource;
  qt_raw_metadata : dict
}.

Section texts.
Context `{PyLib}.

(* @src quota/contracts.py:100-115 QuotaSnapshot.as_dict *)
Definition QuotaSnapshot_as_dict (q : QuotaSnapshot) : dict :=
  [("harness_id", PStr (qt_harness_id q));
   ("availability", PStr (Availability_value (qt_availability q)));
   ("quota_visibility", PStr (QuotaVisibility_value (qt_quota_visibility q)));
   ("state", PStr (QuotaState_value (qt_state q)));
   ("authenticated", PBool (qt_authenticated q)); ("configured", PBool (qt_configured q));
   ("credits_remaining", from_option PFloat PNone (qt_credits_remaining q));
   ("requests_remaining", from_option PInt PNone (qt_requests_remaining q));
   ("tokens_remaining", from_option PInt PNone (qt_tokens_remaining q));
   ("reset_at", from_option (λ t, PStr (isoformat t)) PNone (qt_reset_at q));
   ("observed_at", PStr (isoformat (qt_observed_at q)));
   ("source", PStr (QuotaSource_value (qt_source q)));
   ("raw_metadata", PDict (qt_raw_metadata q))].
End texts.

(** ** Providers *)

(** What a command line answers: its code with its two streams, that there is no such
    program, that it ran too long (with what it wrote until then), or another failure. *)
Inductive CliAnswer :=
| CliDone (code : Z) (stdout stderr : string)
| CliNotFound
| CliTimeout (output : string)
| CliRaises (e : exn).

(** What the machine answers to the calls of one probe: [shutil.which], [subprocess.run],
    [os.environ.get], the text of Gemini's settings (none when there is no such file) and
    [json.loads] (none when the text is not JSON). *)
Record Host := {
  ho_which : string → option string;
  ho_run : list string → CliAnswer;
  ho_environ : string → option string;
  ho_settings : option (res string);
  ho_json : string → option pyval
}.

(* @src quota/providers.py:53-80 _run_cli *)
Definition _run_cli (h : Host) (argv : list string) : res (Z * string) :=
  match ho_run h argv with
  | CliDone code stdout stderr => Ok (code, stdout +:+ stderr)
  | CliNotFound => Ok (127%Z, "executable_not_found")
  | CliTimeout output => Ok (124%Z, if output == "" then "probe_timeout" else output)
  | CliRaises e => Raise e
  end.

(** A provider is what the class [BaseQuotaProvider] asks of its subclasses: a probe of the
    machine at a time. *)
(* @src quota/providers.py:83-87 BaseQuotaProvider *)
Record QuotaProvider := {
  qp_harness_id : string;
  qp_quota_snapshot : Host → Z → res QuotaSnapshot
}.

(** A snapshot without amounts. *)
Definition facts (id : string) (a : Availability) (v : QuotaVisibility) (s : QuotaState)
    (authenticated configured : bool) (source : QuotaSource) (metadata : dict) (now : Z) :
    QuotaSnapshot :=
  {| qt_harness_id := id; qt_availability := a; qt_quota_visibility := v; qt_state := s;
     qt_authenticated := authenticated; qt_configured := configured;
     qt_credits_remaining := None; qt_requests_remaining := None; qt_tokens_remaining := None;
     qt_reset_at := None; qt_observed_at := now; qt_source := source;
     qt_raw_metadata := metadata |}.

(* @src quota/providers.py:35-50 _unknown *)
Definition _unknown (id : string) (metadata : dict) (now : Z) : QuotaSnapshot :=
  facts id AV_UNKNOWN QV_UNKNOWN QS_UNKNOWN false false QO_NONE metadata now.

(** What every provider answers for a program that is not installed, and for one that works. *)
(* @src quota/providers.py:229-243 CodexQuotaProvider.quota_snapshot *)
Definition offline (id : string) (now : Z) : QuotaSnapshot :=
  facts id AV_OFFLINE QV_OBSERVED QS_BLOCKED false false QO_OFFICIAL_CLI
    [("detail", PStr "executable_not_found")] now.
(* @src quota/providers.py:282-296 CodexQuotaProvider.quota_snapshot *)
Definition ready (id : string) (metadata : dict) (now : Z) : QuotaSnapshot :=
  facts id AV_READY QV_OBSERVED QS_AVAILABLE true true QO_OFFICIAL_CLI metadata now.
(* @src quota/providers.py:266-280 CodexQuotaProvider.quota_snapshot *)
Definition login_required (id : string) (metadata : dict) (now : Z) : QuotaSnapshot :=
  facts id AV_AUTHENTICATION_REQUIRED QV_OBSERVED QS_BLOCKED false true QO_OFFICIAL_CLI
    metadata now.

(* @src quota/providers.py:223-296 CodexQuotaProvider *)
Definition CodexQuotaProvider : QuotaProvider :=
  {| qp_harness_id := "codex";
     qp_quota_snapshot h now :=
       match ho_which h "codex" with
       | None => Ok (offline "codex" now)
       | Some executable =>
           res_bind (_run_cli h [executable; "login"; "status"]) (λ '(code, output),
             let low := lower output in
             let authenticated :=
               (code == 0%Z) && (str_in "logged in" low || str_in "chatgpt" low ||
                                 str_in "api key" low) in
             let metadata := [("login_status_code", PInt code)] in
             if str_in "out of credits" low || str_in "credits exhausted" low then
               Ok {| qt_harness_id := "codex"; qt_availability := AV_QUOTA_EXHAUSTED;
                     qt_quota_visibility := QV_OBSERVED; qt_state := QS_EXHAUSTED;
                     qt_authenticated := authenticated || str_in "logged in" low;
                     qt_configured := true; qt_credits_remaining := Some (z_to_float 0);
                     qt_requests_remaining := Some 0%Z; qt_tokens_remaining := None;
                     qt_reset_at := None; qt_observed_at := now;
                     qt_source := QO_OFFICIAL_CLI; qt_raw_metadata := metadata |}
             else if negb authenticated then Ok (login_required "codex" metadata now)
             else Ok (ready "codex" metadata now))
       end |}.

Definition quote : string := String "034" "".

(** The text that stands for a session in the output of [claude auth status]. *)
Definition logged_in_text : string := quote +:+ "loggedIn" +:+ quote +:+ ": true".

(** [s.replace(c, '')] for one character. *)
Fixpoint remove_char (c : ascii) (s : string) : string :=
  match s with
  | EmptyString => EmptyString
  | String x s' => if Ascii.eqb x c then remove_char c s' else String x (remove_char c s')
  end.

(** What Claude's output says of a session. *)
(* @src quota/providers.py:321-330 ClaudeQuotaProvider.quota_snapshot *)
Definition claude_logged_in (h : Host) (code : Z) (output : string) : bool :=
  let text := if strip output == "" then "{}"
              else default "" (last (splitlines (strip output))) in
  let logged_in :=
    match ho_json h text with
    | Some (PDict payload) => truthy (dget "loggedIn" payload)
    | Some _ => false
    | None => str_in "logged in" (lower output) && negb (str_in "false" (lower output))
    end in
  if (code != 0%Z) && negb logged_in then str_in logged_in_text (remove_char " " output)
  else logged_in.

(* @src quota/providers.py:299-361 ClaudeQuotaProvider *)
Definition ClaudeQuotaProvider : QuotaProvider :=
  {| qp_harness_id := "claude-code";
     qp_quota_snapshot h now :=
       match ho_which h "claude" with
       | None => Ok (offline "claude-code" now)
       | Some executable =>
           res_bind (_run_cli h [executable; "auth"; "status"]) (λ '(code, output),
             let metadata := [("auth_status_code", PInt code)] in
             if claude_logged_in h code output then Ok (ready "claude-code" metadata now)
             else Ok (login_required "claude-code" metadata now))
       end |}.

(** [d.get(k, {})] of a value that may not be a dictionary. *)
Definition get_of (v : pyval) (k : string) (d : pyval) : res pyval :=
  match v with
  | PDict l => Ok (default d (dict_get k l))
  | _ => Raise (Exn "AttributeError" "" "object has no attribute 'get'")
  end.

(** Whether Gemini's settings choose a way to authenticate. *)
(* @src quota/providers.py:392-405 GeminiQuotaProvider.quota_snapshot *)
Definition settings_configured (h : Host) : res bool :=
  match ho_settings h with
  | None => Ok false
  | Some (Raise e) => if is_OSError e then Ok false else Raise e
  | Some (Ok text) =>
      match ho_json h text with
      | None => Ok false
      | Some settings =>
          res_bind match settings with
                   | PDict _ => res_bind (get_of settings "security" (PDict [])) (λ v,
                                  get_of v "auth" (PDict []))
                   | _ => Ok (PDict [])
                   end (λ auth,
            Ok match auth with PDict d => truthy (dget "selectedType" d) | _ => false end)
      end
  end.

(* @src quota/providers.py:364-445 GeminiQuotaProvider *)
Definition GeminiQuotaProvider : QuotaProvider :=
  {| qp_harness_id := "gemini-cli";
     qp_quota_snapshot h now :=
       match ho_which h "gemini" with
       | None => Ok (offline "gemini-cli" now)
       | Some _ =>
           let present k := otruthy (ho_environ h k) in
           let api_key := present "GEMINI_API_KEY" || present "GOOGLE_API_KEY" ||
                          present "GOOGLE_GENAI_API_KEY" in
           let vertex := present "GOOGLE_GENAI_USE_VERTEXAI" in
           let gca := present "GOOGLE_GENAI_USE_GCA" in
           res_bind (settings_configured h) (λ settings,
             if negb (api_key || vertex || gca || settings) then
               Ok (facts "gemini-cli" AV_CONFIGURATION_REQUIRED QV_OBSERVED QS_BLOCKED false
                     false QO_OFFICIAL_CLI
                     [("detail", PStr "GEMINI_API_KEY_or_auth_method_required");
                      ("api_key_env_present", PBool api_key)] now)
             else
               Ok (ready "gemini-cli"
                     [("api_key_env_present", PBool api_key); ("vertex", PBool vertex);
                      ("gca", PBool gca); ("settings_configured", PBool settings)] now))
       end |}.

(* @src quota/providers.py:448-501 OpenCodeQuotaProvider *)
Definition OpenCodeQuotaProvider : QuotaProvider :=
  {| qp_harness_id := "opencode";
     qp_quota_snapshot h now :=
       match ho_which h "opencode" with
       | None => Ok (offline "opencode" now)
       | Some executable =>
           res_bind (_run_cli h [executable; "--version"]) (λ '(code, output),
             if code != 0%Z then
               Ok (facts "opencode" AV_PROVIDER_UNAVAILABLE QV_OBSERVED QS_BLOCKED false true
                     QO_OFFICIAL_CLI
                     [("version_code", PInt code); ("detail", PStr (str_take 200 output))] now)
             else
               Ok (ready "opencode"
                     [("version", match splitlines (strip output) with
                                  | line :: _ => PStr line
                                  | [] => PNone
                                  end)] now))
       end |}.

(* @src quota/providers.py:504-562 GrokQuotaProvider *)
Definition GrokQuotaProvider : QuotaProvider :=
  {| qp_harness_id := "grok";
     qp_quota_snapshot h now :=
       match ho_which h "grok" with
       | None => Ok (offline "grok" now)
       | Some executable =>
           res_bind (_run_cli h [executable; "models"]) (λ '(code, output),
             let low := lower output in
             let authenticated :=
               (code == 0%Z) &&
               (str_in "logged in" low || str_in "available models" low || str_in "grok-" low) &&
               negb (str_in "not authenticated" low || str_in "not signed in" low) in
             let metadata := [("models_code", PInt code)] in
             if authenticated then Ok (ready "grok" metadata now)
             else Ok (login_required "grok" metadata now))
       end |}.

(* @src quota/providers.py:565-570 UnknownQuotaProvider *)
Definition UnknownQuotaProvider (id : string) : QuotaProvider :=
  {| qp_harness_id := id;
     qp_quota_snapshot _ now := Ok (_unknown id [("detail", PStr "no_quota_provider")] now) |}.

(* @src quota/providers.py:573-581 builtin_quota_providers *)
Definition builtin_quota_providers : list (string * QuotaProvider) :=
  (λ p, (qp_harness_id p, p)) <$>
    [CodexQuotaProvider; ClaudeQuotaProvider; GeminiQuotaProvider; OpenCodeQuotaProvider;
     GrokQuotaProvider].

(** ** What a run teaches *)

(** The detail of a failure names a missing key. *)
(* @src quota/providers.py:126-135 BaseQuotaProvider.apply_observation *)
Definition config_missing (detail : string) : bool :=
  ((str_in "api key" detail || str_in "apikey" detail) &&
   (str_in "missing" detail || str_in "required" detail || str_in "not set" detail ||
    str_in "invalid" detail)) ||
  str_in "configuration required" detail.

(** The snapshot after a run, which keeps the amounts of the prior one but for the two given. *)
Definition observed (s : QuotaSnapshot) (a : Availability) (v : QuotaVisibility) (st : QuotaState)
    (authenticated configured : bool) (credits : option spec_float) (requests : option Z)
    (metadata : dict) (now : Z) : QuotaSnapshot :=
  {| qt_harness_id := qt_harness_id s; qt_availability := a; qt_quota_visibility := v;
     qt_state := st; qt_authenticated := authenticated; qt_configured := configured;
     qt_credits_remaining := credits; qt_requests_remaining := requests;
     qt_tokens_remaining := qt_tokens_remaining s; qt_reset_at := qt_reset_at s;
     qt_observed_at := now; qt_source := QO_EXECUTION_RESULT; qt_raw_metadata := metadata |}.

(* @src quota/providers.py:89-220 BaseQuotaProvider.apply_observation *)
Definition apply_observation (s : QuotaSnapshot) (success : bool)
    (failure_kind : option FailureKind) (detail : option string) (usage_tokens : option Z)
    (now : Z) : QuotaSnapshot :=
  let text := default "" detail in
  let meta := dict_set "last_observation"
    (PDict [("success", PBool success);
            ("failure_kind", from_option (λ k, PStr (FailureKind_value k)) PNone failure_kind);
            ("detail", if str_take 240 text == "" then PNone else PStr (str_take 240 text));
            ("usage_tokens", from_option PInt PNone usage_tokens)]) (qt_raw_metadata s) in
  let low := lower text in
  let same a v st authenticated configured :=
    observed s a v st authenticated configured (qt_credits_remaining s)
      (qt_requests_remaining s) meta now in
  if success then
    same AV_READY
      (if qt_quota_visibility s == QV_UNKNOWN then QV_OBSERVED else qt_quota_visibility s)
      QS_AVAILABLE true true
  else if config_missing low ||
          ((failure_kind == Some FK_INVALID_REQUEST) && str_in "api key" low) then
    same AV_CONFIGURATION_REQUIRED QV_OBSERVED QS_BLOCKED false false
  else if failure_kind == Some FK_AUTHENTICATION then
    same AV_AUTHENTICATION_REQUIRED QV_OBSERVED QS_BLOCKED false (qt_configured s)
  else if failure_kind == Some FK_QUOTA_EXHAUSTED then
    observed s AV_QUOTA_EXHAUSTED QV_OBSERVED QS_EXHAUSTED (qt_authenticated s)
      (qt_configured s) (Some (z_to_float 0)) (Some 0%Z) meta now
  else if failure_kind == Some FK_RATE_LIMIT then
    same AV_RATE_LIMITED QV_OBSERVED QS_BLOCKED (qt_authenticated s) (qt_configured s)
  else
    same (if str_in "provider unavailable" low then AV_PROVIDER_UNAVAILABLE
          else qt_availability s)
      QV_OBSERVED (qt_state s) (qt_authenticated s) (qt_configured s).

(** ** The cache and the service *)

(** The machine at the n-th probe, and the n-th reading of [time.monotonic()]. *)
Class QuotaLib := { monotonic : nat → spec_float; host : nat → Host }.

(** The service with its cache, a table of snapshots with the time each expires, and the
    readings of the clocks and the probes made so far. *)
(* @src quota/service.py:31-41 QuotaService.__init__ *)
Record QuotaService := {
  qs_providers : list (string * QuotaProvider);
  qs_extra_ids : list string;
  qs_ttl : spec_float;
  qs_entries : list (string * (QuotaSnapshot * spec_float));
  qs_monotonic : nat;
  qs_clock : nat;
  qs_probes : nat
}.

(** [QuotaCache(ttl_seconds)] in a service with providers. *)
(* @src quota/cache.py:23-26 QuotaCache.__init__ *)
Definition new_quota_service (providers : list (string * QuotaProvider)) (ids : list string)
    (ttl_seconds : spec_float) : QuotaService :=
  {| qs_providers := providers; qs_extra_ids := ids; qs_ttl := max_zero ttl_seconds;
     qs_entries := []; qs_monotonic := 0; qs_clock := 0; qs_probes := 0 |}.

Definition set_qs (entries : list (string * (QuotaSnapshot * spec_float))) (m c p : nat)
    (q : QuotaService) : QuotaService :=
  {| qs_providers := qs_providers q; qs_extra_ids := qs_extra_ids q; qs_ttl := qs_ttl q;
     qs_entries := entries; qs_monotonic := m; qs_clock := c; qs_probes := p |}.

Section service.
Context `{PyLib, QuotaLib}.

Definition on_entries (f : list (string * (QuotaSnapshot * spec_float)) →
    list (string * (QuotaSnapshot * spec_float))) : M QuotaService unit :=
  modify_state (λ q, set_qs (f (qs_entries q)) (qs_monotonic q) (qs_clock q) (qs_probes q) q).
Definition qs_time : M QuotaService spec_float := λ q,
  (Ok (monotonic (qs_monotonic q)),
   set_qs (qs_entries q) (S (qs_monotonic q)) (qs_clock q) (qs_probes q) q).
Definition qs_now : M QuotaService Z := λ q,
  (Ok (clock (qs_clock q)),
   set_qs (qs_entries q) (qs_monotonic q) (S (qs_clock q)) (qs_probes q) q).
Definition qs_host : M QuotaService Host := λ q,
  (Ok (host (qs_probes q)),
   set_qs (qs_entries q) (qs_monotonic q) (qs_clock q) (S (qs_probes q)) q).

(** An expired entry is removed when it is read. *)
(* @src quota/cache.py:28-37 QuotaCache.get *)
Definition cache_get (harness_id : string) : M QuotaService (option QuotaSnapshot) :=
  now ← qs_time;
  q ← get_state;
  match dict_get harness_id (qs_entries q) with
  | None => mret None
  | Some (snapshot, expires_at) =>
      if fle expires_at now then on_entries (dict_del harness_id);; mret None
      else mret (Some snapshot)
  end.

(* @src quota/cache.py:39-45 QuotaCache.put *)
Definition cache_put (snapshot : QuotaSnapshot) : M QuotaService unit :=
  q ← get_state;
  now ← qs_time;
  on_entries (dict_set (qt_harness_id snapshot) (snapshot, fadd now (qs_ttl q))).

(* @src quota/cache.py:47-52 QuotaCache.invalidate *)
Definition cache_invalidate (harness_id : option string) : M QuotaService unit :=
  on_entries (λ entries, match harness_id with
                         | None => []
                         | Some id => dict_del id entries
                         end).

(** The identifiers form a set, sorted. *)
(* @src quota/service.py:47-49 QuotaService.known_harness_ids *)
Definition known_harness_ids (q : QuotaService) : list string :=
  sorted_strs (nub_strs (dict_keys (qs_providers q) ++ qs_extra_ids q) []).

(* @src quota/service.py:51-52 QuotaService.provider_for *)
Definition provider_for (q : QuotaService) (harness_id : string) : QuotaProvider :=
  default (UnknownQuotaProvider harness_id) (dict_get harness_id (qs_providers q)).

(** A provider that fails leaves an unknown snapshot; a cancellation passes. *)
(* @src quota/service.py:69-89 QuotaService.snapshot *)
Definition probe (harness_id : string) (metadata : exn → dict) : M QuotaService QuotaSnapshot :=
  q ← get_state;
  h ← qs_host;
  now ← qs_now;
  match qp_quota_snapshot (provider_for q harness_id) h now with
  | Ok snapshot => mret snapshot
  | Raise e => if is_Exception e then mret (_unknown harness_id (metadata e) now) else raise e
  end.

(** The cache is read again once the lock is held. *)
(* @src quota/service.py:54-89 QuotaService.snapshot *)
Definition quota_snapshot (harness_id : string) (refresh : bool) : M QuotaService QuotaSnapshot :=
  cached ← if refresh then mret None else cache_get harness_id;
  match cached with
  | Some snapshot => mret snapshot
  | None =>
      cached ← if refresh then mret None else cache_get harness_id;
      match cached with
      | Some snapshot => mret snapshot
      | None =>
          snapshot ← probe harness_id (λ e, [("probe_error", PStr (exn_class e))]);
          cache_put snapshot;;
          mret snapshot
      end
  end.

(* @src quota/service.py:91-98 QuotaService.list_snapshots *)
Fixpoint snapshots_of (ids : list string) (refresh : bool) :
    M QuotaService (list QuotaSnapshot) :=
  match ids with
  | [] => mret []
  | id :: ids' =>
      s ← quota_snapshot id refresh;
      l ← snapshots_of ids' refresh;
      mret (s :: l)
  end.
(* @src quota/service.py:91-98 QuotaService.list_snapshots *)
Definition list_snapshots (harness_ids : option (list string)) (refresh : bool) :
    M QuotaService (list QuotaSnapshot) :=
  q ← get_state;
  snapshots_of (default (known_harness_ids q) harness_ids) refresh.

(* @src quota/service.py:100-105 QuotaService.refresh *)
Definition quota_refresh (harness_id : option string) : M QuotaService (list QuotaSnapshot) :=
  if otruthy harness_id then
    let id := default "" harness_id in
    cache_invalidate (Some id);;
    s ← quota_snapshot id true;
    mret [s]
  else
    cache_invalidate None;;
    list_snapshots None true.

(* @src quota/service.py:107-155 QuotaService.observe_execution *)
Definition quota_observe (harness_id : string) (success : bool)
    (failure_kind : option FailureKind) (detail : option string) (usage_tokens : option Z) :
    M QuotaService QuotaSnapshot :=
  cached ← cache_get harness_id;
  prior ← match cached with
          | Some s => mret s
          | None => probe harness_id (λ _, [])
          end;
  now ← qs_now;
  let updated := apply_observation prior success failure_kind detail usage_tokens now in
  (if success then cache_put updated
   else cache_invalidate (Some harness_id);; cache_put updated);;
  mret updated.

(** [(hard_block, score_delta, reason)]. *)
(* @src quota/service.py:157-171 QuotaService.routing_adjustment *)
Definition routing_adjustment (s : QuotaSnapshot) (explicit_request : bool) :
    bool * spec_float * string :=
  let score := fadd (AVAILABILITY_SCORE (qt_availability s)) (QUOTA_STATE_SCORE (qt_state s)) in
  let name := Availability_value (qt_availability s) in
  let blocked := auto_blocked (qt_availability s) in
  if blocked && negb explicit_request then (true, score, "quota " +:+ name)
  else if blocked && explicit_request then
    (false, score, "quota " +:+ name +:+ " (explicit override)")
  else (false, score, "quota " +:+ name).
End service.

(** ** Snapshots agree with themselves *)

(** What the validator asks: a harness that must log in is not logged in, one that must be
    configured is not configured. *)
Definition consistent (s : QuotaSnapshot) : bool :=
  negb ((qt_availability s == AV_AUTHENTICATION_REQUIRED) && qt_authenticated s) &&
  negb ((qt_availability s == AV_CONFIGURATION_REQUIRED) && qt_configured s).

(** The snapshot of a harness, under its own identifier; lists in its metadata hold scalars. *)
Definition snapshot_of (id : string) (s : QuotaSnapshot) : Prop :=
  qt_harness_id s = id ∧ consistent s = true ∧ flat_lists (PDict (qt_raw_metadata s)) = true.

Lemma flat_dict_set k v d :
  flat_lists v = true → flat_lists (PDict d) = true → flat_lists (PDict (dict_set k v d)) = true.
Proof.
  simpl. rewrite <- !Is_true_true, !forallb_True. intros Hv.
  intros Hd. by apply (dict_set_Forall (λ kv, Is_true (let '(_, x) := kv in flat_lists x))).
Qed.

Definition provider_ok (id : string) (p : QuotaProvider) : Prop :=
  ∀ h now s, qp_quota_snapshot p h now = Ok s → snapshot_of id s.

Ltac probe_cases :=
  repeat match goal with
         | H : Ok _ = Ok _ |- _ => injection H as <-
         | H : Raise _ = Ok _ |- _ => discriminate H
         | H : match ?x with _ => _ end = Ok _ |- _ => destruct x eqn:?; simpl in H
         | H : res_bind ?x _ = Ok _ |- _ => destruct x as [[? ?]|?] eqn:?; simpl in H
         end.

Lemma builtin_providers_ok id p :
  dict_get id builtin_quota_providers = Some p → provider_ok id p.
Proof.
  intros [q [[= -> ->] Hp]]%dict_get_Some_elem%list_elem_of_fmap h now s Hs.
  repeat rewrite elem_of_cons in Hp.
  destruct Hp as [->|[->|[->|[->|[->|[]%elem_of_nil]]]]]; simpl in *; probe_cases; try done.
  - destruct (settings_configured h); simpl in Hs; probe_cases; done.
  - repeat split. simpl. by case_match.
Qed.

Lemma unknown_provider_ok id : provider_ok id (UnknownQuotaProvider id).
Proof. by intros h now s [= <-]. Qed.

Lemma observation_is_consistent id s success kind detail tokens now :
  snapshot_of id s → snapshot_of id (apply_observation s success kind detail tokens now).
Proof.
  intros (Hid & Hs & Hf). unfold apply_observation.
  set (meta := dict_set _ _ _).
  assert (flat_lists (PDict meta) = true) as Hm.
  { apply flat_dict_set; [|done]. simpl.
    by destruct kind, (bool_decide _), tokens. }
  clearbody meta. destruct success; [by split_and!|].
  destruct (config_missing _ || _); [by split_and!|].
  repeat (case_bool_decide; [by split_and!|]).
  split_and!; [done| |done]. unfold consistent in *; simpl. case_match; [done|]. exact Hs.
Qed.

(** ** The service keeps such snapshots *)

Section invariant.
Context `{PyLib, QuotaLib}.

(** Every provider serves the harness it is filed under, and so does every entry; the harnesses
    have names. *)
Definition quota_ok (q : QuotaService) : Prop :=
  (∀ id p, dict_get id (qs_providers q) = Some p → provider_ok id p) ∧
  Forall (λ id, id ≠ "") (known_harness_ids q) ∧
  Forall (λ kv, snapshot_of kv.1 kv.2.1) (qs_entries q).

Lemma quota_ok_entries q q' :
  quota_ok q → qs_providers q' = qs_providers q → qs_extra_ids q' = qs_extra_ids q →
  (Forall (λ kv, snapshot_of kv.1 kv.2.1) (qs_entries q) →
   Forall (λ kv, snapshot_of kv.1 kv.2.1) (qs_entries q')) → quota_ok q'.
Proof.
  intros (Hp & Hn & He) E1 E2 Hf. split_and!; [by rewrite E1| |by apply Hf].
  unfold known_harness_ids. by rewrite E1, E2.
Qed.

Lemma provider_for_ok q id : quota_ok q → provider_ok id (provider_for q id).
Proof.
  intros [Hp _]. unfold provider_for.
  destruct (dict_get id (qs_providers q)) as [p|] eqn:E; [by apply Hp|].
  apply unknown_provider_ok.
Qed.

(** The operation answers with a snapshot of the harness; nothing stops it but a
    cancellation. *)
Definition answers (id : string) (m : M QuotaService QuotaSnapshot) : Prop :=
  hoare quota_ok m (λ s q, snapshot_of id s ∧ quota_ok q)
    (λ e q, is_Exception e = false ∧ quota_ok q).
(** The operation always succeeds and keeps the invariant. *)
Definition safe {A} (m : M QuotaService A) : Prop :=
  hoare quota_ok m (λ _, quota_ok) (λ _ _, False).

Lemma cache_get_ok id q :
  quota_ok q →
  match cache_get id q with
  | (Ok (Some s), q') => snapshot_of id s ∧ quota_ok q'
  | (Ok None, q') => quota_ok q'
  | (Raise _, _) => False
  end.
Proof.
  intros Hq. unfold cache_get, qs_time. simpl. unfold mbind, M_bind; simpl.
  destruct (dict_get id (qs_entries q)) as [[s e]|] eqn:E; simpl; [|done].
  destruct (fle e _); simpl.
  - apply (quota_ok_entries q); [done..|]. apply dict_del_Forall.
  - split; [|done]. destruct Hq as (_ & _ & He). apply dict_get_Some_elem in E.
    rewrite Forall_forall in He. exact (He _ E).
Qed.

Lemma cache_put_safe id s : snapshot_of id s → safe (cache_put s).
Proof.
  intros Hs q Hq. unfold cache_put; simpl.
  apply (quota_ok_entries q); [done..|]. apply dict_set_Forall.
  destruct Hs as [Hid Hs]. by split.
Qed.

Lemma cache_invalidate_safe id : safe (cache_invalidate id).
Proof.
  intros q Hq. unfold cache_invalidate; simpl.
  apply (quota_ok_entries q); [done..|].
  destruct id; [apply dict_del_Forall|constructor].
Qed.

Lemma probe_answers id metadata :
  (∀ e, flat_lists (PDict (metadata e)) = true) → answers id (probe id metadata).
Proof.
  intros Hm q Hq. unfold probe, qs_host, qs_now. simpl. unfold mbind, M_bind; simpl.
  destruct (qp_quota_snapshot _ _ _) as [s|e] eqn:E; simpl.
  - split; [|done]. exact (provider_for_ok q id Hq _ _ _ E).
  - destruct (is_Exception e) eqn:He; [|done]. split; [|done]. split_and!; [done..|apply Hm].
Qed.

Lemma answers_after id s (m : M QuotaService unit) :
  snapshot_of id s → safe m → answers id (m;; mret s).
Proof.
  intros Hs Hm q Hq. specialize (Hm q Hq). unfold mbind, M_bind.
  by destruct (m q) as [[u|e] q'].
Qed.

Lemma quota_snapshot_answers id refresh : answers id (quota_snapshot id refresh).
Proof.
  intros q Hq. unfold quota_snapshot.
  assert (answers id (s ← probe id (λ e, [("probe_error", PStr (exn_class e))]);
                      cache_put s;; mret s)) as Hfresh.
  { eapply hoare_bind; [by apply probe_answers|]. intros s q' [Hs Hq'].
    revert q' Hq'. apply answers_after; [done|]. by eapply cache_put_safe. }
  destruct refresh; [by apply Hfresh|].
  unfold mbind at 1, M_bind at 1. pose proof (cache_get_ok id q Hq) as H1.
  destruct (cache_get id q) as [[[s|]|e] q1]; [done| |by destruct H1].
  unfold mbind at 1, M_bind at 1. pose proof (cache_get_ok id q1 H1) as H2.
  destruct (cache_get id q1) as [[[s|]|e] q2]; [done|by apply Hfresh|by destruct H2].
Qed.

Lemma quota_observe_answers id success kind detail tokens :
  answers id (quota_observe id success kind detail tokens).
Proof.
  unfold quota_observe.
  eapply (hoare_bind _ _ _ (λ o q, match o with Some s => snapshot_of id s | None => True end ∧
                                   quota_ok q)).
  { intros q Hq. pose proof (cache_get_ok id q Hq) as H1.
    destruct (cache_get id q) as [[[s|]|e] q1]; done. }
  intros cached.
  eapply (hoare_bind _ _ _ (λ s q, snapshot_of id s ∧ quota_ok q)).
  { intros q [Hc Hq]. destruct cached as [s|]; [done|]. by apply probe_answers. }
  intros prior q [Hs Hq]. unfold qs_now. cbn [mbind M_bind].
  unfold mbind at 1, M_bind at 1. cbn beta iota.
  assert (∀ now, snapshot_of id (apply_observation prior success kind detail tokens now)) as Hu
    by (intros; by apply observation_is_consistent).
  apply answers_after; [apply Hu| |apply (quota_ok_entries q); done].
  destruct success; [by eapply cache_put_safe|].
  eapply (hoare_bind _ _ _ (λ _, quota_ok)); [apply cache_invalidate_safe|].
  intros _. by eapply cache_put_safe.
Qed.
End invariant.

(** ** A failure counts at once *)

Section observing.
Context `{PyLib, QuotaLib}.

Lemma blocking_failures s kind detail tokens now :
  kind ∈ [FK_RATE_LIMIT; FK_QUOTA_EXHAUSTED; FK_AUTHENTICATION] →
  auto_blocked (qt_availability (apply_observation s false (Some kind) detail tokens now)) = true.
Proof.
  rewrite !elem_of_cons, elem_of_nil. intros Hk. unfold apply_observation.
  destruct (config_missing _ || _); [done|].
  by destruct Hk as [->|[->|[->|[]]]].
Qed.

(** An observation is stored under the harness, to expire a lifetime after it was stored. *)
Lemma observe_stores id success kind detail tokens q s q' :
  quota_ok q → quota_observe id success kind detail tokens q = (Ok s, q') →
  (∃ prior now, s = apply_observation prior success kind detail tokens now) ∧
  dict_get id (qs_entries q') =
    Some (s, fadd (monotonic (pred (qs_monotonic q'))) (qs_ttl q')).
Proof.
  intros Hq Ho. pose proof (quota_observe_answers id success kind detail tokens q Hq) as Hs.
  rewrite Ho in Hs. destruct Hs as [(Hid & _ & _) _]. unfold quota_observe in Ho.
  apply bind_Ok_inv in Ho as (cached & q1 & _ & Ho).
  apply bind_Ok_inv in Ho as (prior & q2 & _ & Ho).
  apply bind_Ok_inv in Ho as (now & q3 & _ & Ho).
  apply bind_Ok_inv in Ho as (u & q4 & Hput & Ho). injection Ho as Hs <-.
  split; [by exists prior, now|]. rewrite Hs in Hput. rewrite <- Hid.
  destruct success; [|apply bind_Ok_inv in Hput as (u' & q5 & _ & Hput)];
    unfold cache_put in Hput; simpl in Hput; injection Hput as _ <-; apply dict_get_set_eq.
Qed.

(** a run that failed for a rate limit, an exhausted quota or a missing login blocks its
    harness at once. Until the observation expires, the snapshot everyone reads without a fresh
    probe is the observed one, whatever the cache held before, and the route of the harness is
    closed unless the user names that harness. *)
Theorem failure_blocks_the_harness id kind detail tokens q s q' :
  quota_ok q → kind ∈ [FK_RATE_LIMIT; FK_QUOTA_EXHAUSTED; FK_AUTHENTICATION] →
  quota_observe id false (Some kind) detail tokens q = (Ok s, q') →
  (routing_adjustment s false).1.1 = true ∧ (routing_adjustment s true).1.1 = false ∧
  ∀ later, dict_get id (qs_entries later) = dict_get id (qs_entries q') →
    fle (fadd (monotonic (pred (qs_monotonic q'))) (qs_ttl q'))
        (monotonic (qs_monotonic later)) = false →
    (quota_snapshot id false later).1 = Ok s.
Proof.
  intros Hq Hk Ho. destruct (observe_stores _ _ _ _ _ _ _ _ Hq Ho) as [(prior & now & Hs) Hg].
  assert (auto_blocked (qt_availability s) = true) as Hb
    by (rewrite Hs; by apply blocking_failures).
  unfold routing_adjustment. rewrite Hb. do 2 (split; [done|]).
  intros later Hl He. unfold quota_snapshot, cache_get, qs_time. simpl.
  unfold mbind, M_bind. simpl. by rewrite Hl, Hg, He.
Qed.
End observing.

(** ** On concrete inputs *)

(** A machine with nothing installed, and a clock that does not move. *)
Definition bare_host : Host :=
  {| ho_which _ := None; ho_run _ := CliNotFound; ho_environ _ := None; ho_settings := None;
     ho_json _ := None |}.
Definition still_clock : QuotaLib := {| monotonic _ := z_to_float 0; host _ := bare_host |}.
Definition a_quota_service : QuotaService :=
  new_quota_service builtin_quota_providers ["codex"] (z_to_float 60).

Lemma a_quota_service_ok : quota_ok a_quota_service.
Proof.
  split_and!; [exact builtin_providers_ok| |constructor].
  vm_compute. by repeat constructor.
Qed.

Definition after_rate_limit : res QuotaSnapshot * QuotaService :=
  quota_observe (H := counting_lib) (H0 := still_clock) "codex" false (Some FK_RATE_LIMIT) None
    None a_quota_service.
Definition rate_limited : QuotaSnapshot := from_ok (_unknown "" [] 0) after_rate_limit.1.

Lemma failure_blocks_the_harness_witness :
  qt_availability rate_limited = AV_RATE_LIMITED ∧
  (quota_snapshot (H := counting_lib) (H0 := still_clock) "codex" false
     after_rate_limit.2).1 = Ok rate_limited.
Proof.
  split; [vm_compute; reflexivity|].
  refine (proj2 (proj2 (@failure_blocks_the_harness counting_lib still_clock "codex"
    FK_RATE_LIMIT None None a_quota_service rate_limited after_rate_limit.2
    a_quota_service_ok _ _)) _ eq_refl _).
  - apply list_elem_of_here.
  - apply (surjective_pairing_Ok after_rate_limit), from_ok_eq. vm_compute; reflexivity.
  - vm_compute; reflexivity.
Defined.

(** Text without spaces holds no text with one. *)
Lemma startswith_no_space p s :
  startswith p (remove_char " " s) = true → str_contains_char " " p = false.
Proof.
  revert p. induction s as [|x s IH]; intros [|c p] Hp; try done; simpl in Hp.
  destruct (Ascii.eqb x " ") eqn:E; [by apply (IH (String c p))|].
  unfold startswith in *. simpl in Hp. destruct (ascii_dec c x) as [->|]; [|done].
  unfold str_contains_char. cbn [String.list_ascii_of_string existsb].
  rewrite Ascii.eqb_sym, E. by apply IH.
Qed.
Lemma in_no_space p s : str_in p (remove_char " " s) = true → str_contains_char " " p = false.
Proof.
  induction s as [|x s IH]; simpl; [|destruct (Ascii.eqb x " ") eqn:E; [done|]].
  - rewrite orb_false_r. apply (startswith_no_space _ "").
  - intros [Hp|Hp]%orb_true_iff; [|by apply IH].
    apply (startswith_no_space _ (String x s)). simpl. by rewrite E.
Qed.

(** The text looked for in Claude's output contains a space, and the output it is looked for
    in has none left: when the status command fails, what it printed as text never counts. *)
Theorem claude_text_is_never_found h code output payload :
  code ≠ 0%Z → ho_json h (default "" (last (splitlines (strip output)))) = Some (PDict payload) →
  strip output ≠ "" → truthy (dget "loggedIn" payload) = false →
  claude_logged_in h code output = false.
Proof.
  intros Hc Hj Ho Hp. unfold claude_logged_in. rewrite (bool_decide_eq_false_2 _ Ho), Hj, Hp.
  rewrite (bool_decide_eq_false_2 _ Hc). simpl.
  destruct (str_in _ _) eqn:E; [|done]. by apply in_no_space in E.
Qed.
