(* ===== verification/RuntimeSnapshots.v ===== *)
(** * Runtime snapshots: what the mesh knows of its harnesses, and the check before a launch

    [runtime_snapshot/]: the observation store, the contracts, the validators of an entry, the
    cache, and the service that collects, validates, keeps and publishes snapshots and checks a
    harness once more when a run is about to start. [execution/directive.py] and
    [execution/validation.py] check the directive of a caller that routed by itself.

    The clocks are read through the quota service, which counts the readings. A listener is an
    operation on a state of its own. *)

From Stdlib Require Import SpecFloat.
From S2P Require Import Prelude.
From S2P Require Import Privacy.
From S2P Require Import SessionModels.
From S2P Require Import HarnessRegistry.
From S2P Require Import Quota.

(** ** Observations *)

(* @src runtime_snapshot/contracts.py:25-28 QualityLevel *)
Inductive QualityLevel := QL_GOOD | QL_BAD | QL_UNKNOWN.
#[export] Instance QualityLevel_eq_dec : EqDecision QualityLevel.
Proof. solve_decision. Defined.
(* @src runtime_snapshot/contracts.py:25-28 QualityLevel *)
Definition QualityLevel_value (q : QualityLevel) : string :=
  match q with QL_GOOD => "good" | QL_BAD => "bad" | QL_UNKNOWN => "unknown" end.

(* @src runtime_snapshot/observations.py:22-30 _HarnessStats *)
Record HarnessStats := {
  hs_input_tokens : Z;
  hs_output_tokens : Z;
  hs_execution_count : Z;
  hs_last_execution : option Z;
  hs_durations_ms : list spec_float;
  hs_last_quality : QualityLevel;
  hs_active_runs : Z
}.
(* @src runtime_snapshot/observations.py:22-30 _HarnessStats *)
Definition no_stats : HarnessStats :=
  {| hs_input_tokens := 0; hs_output_tokens := 0; hs_execution_count := 0;
     hs_last_execution := None; hs_durations_ms := []; hs_last_quality := QL_UNKNOWN;
     hs_active_runs := 0 |}.

(** The table of the store; [_ensure] makes the row that is missing. *)
Abbreviation Observations := (list (string * HarnessStats)).
(* @src runtime_snapshot/observations.py:36-37 ObservationStore.__init__ *)
Definition max_latency_samples : nat := Z.to_nat (Z.max 8 64).
(* @src runtime_snapshot/observations.py:41-46 ObservationStore._ensure *)
Definition _ensure (harness_id : string) (l : Observations) : HarnessStats :=
  default no_stats (dict_get harness_id l).

(* @src runtime_snapshot/observations.py:48-51 ObservationStore.mark_running *)
Definition mark_running (harness_id : string) (delta : Z) (l : Observations) : Observations :=
  let st := _ensure harness_id l in
  dict_set harness_id
    {| hs_input_tokens := hs_input_tokens st; hs_output_tokens := hs_output_tokens st;
       hs_execution_count := hs_execution_count st; hs_last_execution := hs_last_execution st;
       hs_durations_ms := hs_durations_ms st; hs_last_quality := hs_last_quality st;
       hs_active_runs := Z.max 0 (hs_active_runs st + delta) |} l.

(** The samples kept: the last ones, up to the limit. *)
(* @src runtime_snapshot/observations.py:69-72 ObservationStore.record_execution *)
Definition keep_sample (duration : option spec_float) (l : list spec_float) : list spec_float :=
  match duration with
  | Some d => if fle (z_to_float 0) d then
                let l' := l ++ [d] in drop (length l' - max_latency_samples) l'
              else l
  | None => l
  end.

(* @src runtime_snapshot/observations.py:53-78 ObservationStore.record_execution *)
Definition record_execution (harness_id : string) (success : bool)
    (failure_kind : option FailureKind) (duration_ms : option spec_float)
    (input_tokens output_tokens : Z) (now : Z) (l : Observations) : Observations :=
  let st := _ensure harness_id l in
  dict_set harness_id
    {| hs_input_tokens := hs_input_tokens st + Z.max 0 input_tokens;
       hs_output_tokens := hs_output_tokens st + Z.max 0 output_tokens;
       hs_execution_count := hs_execution_count st + 1;
       hs_last_execution := Some now;
       hs_durations_ms := keep_sample duration_ms (hs_durations_ms st);
       hs_last_quality := if success then QL_GOOD
                          else match failure_kind with Some _ => QL_BAD | None => QL_UNKNOWN end;
       hs_active_runs := hs_active_runs st |} l.

(* @src runtime_snapshot/observations.py:80-83 ObservationStore.active_runs *)
Definition active_runs (harness_id : string) (l : Observations) : Z :=
  hs_active_runs (_ensure harness_id l).

(** [sum()] of floats, whose rounding is the interpreter's. *)
Class SumLib := { py_sum : list spec_float → spec_float }.
(** What holds of it: the sum of numbers that are not negative is not negative. *)
Class SumLaws `{SumLib} := {
  py_sum_nonneg l : Forall (λ x, fle (z_to_float 0) x = true) l →
    l ≠ [] → fle (z_to_float 0) (py_sum l) = true
}.

(* @src runtime_snapshot/contracts.py:31-48 UsageSnapshot *)
Record UsageSnapshot := {
  us_input_tokens : Z;
  us_output_tokens : Z;
  us_total_tokens : Z;
  us_execution_count : Z;
  us_last_execution : option Z;
  us_average_duration_ms : option spec_float
}.
(* @src runtime_snapshot/contracts.py:59-70 LatencySnapshot *)
Record LatencySnapshot := {
  la_average_ms : option spec_float;
  la_last_ms : option spec_float;
  la_p95_ms : option spec_float
}.

(** [math.ceil(x)] of a finite number. *)
Definition py_ceil (f : spec_float) : Z :=
  match f with
  | S754_finite sg m e =>
      let z := if sg then Z.neg m else Z.pos m in
      if (0 <=? e)%Z then (z * 2 ^ e)%Z else (- ((- z) / 2 ^ (- e)))%Z
  | _ => 0%Z
  end.

Section observing.
Context `{SumLib}.

Definition average (l : list spec_float) : option spec_float :=
  match l with
  | [] => None
  | _ => Some (fdiv (py_sum l) (z_to_float (Z.of_nat (length l))))
  end.

(* @src runtime_snapshot/observations.py:85-100 ObservationStore.usage *)
Definition usage (harness_id : string) (l : Observations) : UsageSnapshot :=
  let st := _ensure harness_id l in
  {| us_input_tokens := hs_input_tokens st; us_output_tokens := hs_output_tokens st;
     us_total_tokens := hs_input_tokens st + hs_output_tokens st;
     us_execution_count := hs_execution_count st; us_last_execution := hs_last_execution st;
     us_average_duration_ms := average (hs_durations_ms st) |}.

(** The place of the 95th percentile among [n] samples. *)
(* @src runtime_snapshot/observations.py:117-118 ObservationStore.latency *)
Definition p95_index (n : nat) : nat :=
  Z.to_nat (Z.min (Z.of_nat n - 1)
              (Z.max 0 (py_ceil (fmul (flit 95 2) (z_to_float (Z.of_nat n))) - 1))).

(* @src runtime_snapshot/observations.py:109-123 ObservationStore.latency *)
Definition latency (harness_id : string) (l : Observations) : LatencySnapshot :=
  let samples := hs_durations_ms (_ensure harness_id l) in
  {| la_average_ms := average samples; la_last_ms := last samples;
     la_p95_ms := py_sorted fle samples !! p95_index (length samples) |}.
End observing.

(** ** Contracts *)

(* @src runtime_snapshot/contracts.py:19-22 ExecutionState *)
Inductive ExecutionState := EX_IDLE | EX_RUNNING | EX_UNKNOWN.
(* @src runtime_snapshot/contracts.py:19-22 ExecutionState *)
Definition ExecutionState_value (s : ExecutionState) : string :=
  match s with EX_IDLE => "idle" | EX_RUNNING => "running" | EX_UNKNOWN => "unknown" end.

(* @src runtime_snapshot/contracts.py:140-148 RuntimeValidationCode *)
Inductive RuntimeValidationCode :=
| RV_QUOTA_EXHAUSTED | RV_AUTHENTICATION_REQUIRED | RV_CONFIGURATION_REQUIRED
| RV_CAPABILITY_MISMATCH | RV_PROVIDER_UNAVAILABLE | RV_RUNTIME_CHANGED | RV_RATE_LIMITED
| RV_OFFLINE.
(* @src runtime_snapshot/contracts.py:140-148 RuntimeValidationCode *)
Definition RuntimeValidationCode_value (c : RuntimeValidationCode) : string :=
  match c with
  | RV_QUOTA_EXHAUSTED => "quota_exhausted"
  | RV_AUTHENTICATION_REQUIRED => "authentication_required"
  | RV_CONFIGURATION_REQUIRED => "configuration_required"
  | RV_CAPABILITY_MISMATCH => "capability_mismatch"
  | RV_PROVIDER_UNAVAILABLE => "provider_unavailable" | RV_RUNTIME_CHANGED => "runtime_changed"
  | RV_RATE_LIMITED => "rate_limited" | RV_OFFLINE => "offline"
  end.

(* @src runtime_snapshot/contracts.py:73-85 HarnessRuntimeSnapshot *)
Record HarnessRuntimeSnapshot := {
  he_harness_id : string;
  he_availability : Availability;
  he_authenticated : bool;
  he_configured : bool;
  he_quota : QuotaSnapshot;
  he_capabilities : list string;
  he_execution_state : ExecutionState;
  he_recent_usage : UsageSnapshot;
  he_recent_quality : QualityLevel;
  he_latency : LatencySnapshot;
  he_provider_metadata : dict
}.

(* @src runtime_snapshot/contracts.py:117-122 RuntimeSnapshot *)
Record RuntimeSnapshot := {
  rt_snapshot_id : string;
  rt_observed_at : Z;
  rt_harnesses : list HarnessRuntimeSnapshot;
  rt_schema_version : Z
}.
(* @src runtime_snapshot/contracts.py:16 SCHEMA_VERSION *)
Definition SCHEMA_VERSION : Z := 1.

(* @src runtime_snapshot/contracts.py:132-136 RuntimeSnapshot.harness *)
Definition rt_harness (harness_id : string) (s : RuntimeSnapshot) :
    option HarnessRuntimeSnapshot :=
  List.find (λ e, he_harness_id e == harness_id) (rt_harnesses s).

Section dicts.
Context `{PyLib}.

Definition opt_float (o : option spec_float) : pyval := from_option PFloat PNone o.

(* @src runtime_snapshot/contracts.py:40-48 UsageSnapshot.as_dict *)
Definition UsageSnapshot_as_dict (u : UsageSnapshot) : dict :=
  [("input_tokens", PInt (us_input_tokens u)); ("output_tokens", PInt (us_output_tokens u));
   ("total_tokens", PInt (us_total_tokens u));
   ("execution_count", PInt (us_execution_count u));
   ("last_execution", from_option (λ t, PStr (isoformat t)) PNone (us_last_execution u));
   ("average_duration_ms", opt_float (us_average_duration_ms u))].
(* @src runtime_snapshot/contracts.py:65-70 LatencySnapshot.as_dict *)
Definition LatencySnapshot_as_dict (l : LatencySnapshot) : dict :=
  [("average_ms", opt_float (la_average_ms l)); ("last_ms", opt_float (la_last_ms l));
   ("p95_ms", opt_float (la_p95_ms l))].

(* @src runtime_snapshot/contracts.py:87-100 HarnessRuntimeSnapshot.as_dict *)
Definition HarnessRuntimeSnapshot_as_dict (e : HarnessRuntimeSnapshot) : dict :=
  [("harness_id", PStr (he_harness_id e));
   ("availability", PStr (Availability_value (he_availability e)));
   ("authenticated", PBool (he_authenticated e)); ("configured", PBool (he_configured e));
   ("quota", PDict (QuotaSnapshot_as_dict (he_quota e)));
   ("capabilities", PList (PStr <$> sorted_strs (he_capabilities e)));
   ("execution_state", PStr (ExecutionState_value (he_execution_state e)));
   ("recent_usage", PDict (UsageSnapshot_as_dict (he_recent_usage e)));
   ("recent_quality", PDict [("level", PStr (QualityLevel_value (he_recent_quality e)))]);
   ("latency", PDict (LatencySnapshot_as_dict (he_latency e)));
   ("provider_metadata", PDict (he_provider_metadata e))].

(* @src runtime_snapshot/contracts.py:124-130 RuntimeSnapshot.as_dict *)
Definition RuntimeSnapshot_as_dict (s : RuntimeSnapshot) : dict :=
  [("snapshot_id", PStr (rt_snapshot_id s));
   ("observed_at", PStr (isoformat (rt_observed_at s)));
   ("schema_version", PInt (rt_schema_version s));
   ("harnesses", PList ((λ e, PDict (HarnessRuntimeSnapshot_as_dict e)) <$> rt_harnesses s))].
End dicts.

(** ** Validation *)

Definition not_negative (name : string) (negative : bool) : res unit :=
  if negative then Raise (RuntimeSnapshotValidationError (name +:+ " must not be negative"))
  else Ok tt.
Definition negative_float (o : option spec_float) : bool :=
  match o with Some x => flt x (z_to_float 0) | None => false end.

(** The checks in their order, up to the first that fails. *)
Fixpoint all_checks (l : list (res unit)) : res unit :=
  match l with
  | [] => Ok tt
  | c :: l => res_bind c (λ _, all_checks l)
  end.

(* @src runtime_snapshot/validators.py:72-104 validate_harness_entry *)
Definition validate_harness_entry (e : HarnessRuntimeSnapshot) : res unit :=
  let refuse (b : bool) m := if b then Raise (RuntimeSnapshotValidationError m) else Ok tt in
  let u := he_recent_usage e in
  let l := he_latency e in
  all_checks
    [refuse (he_harness_id e == "") "harness_id must be non-empty";
     refuse (qt_harness_id (he_quota e) != he_harness_id e)
       ("quota harness_id mismatch for " +:+ he_harness_id e);
     refuse ((he_availability e == AV_AUTHENTICATION_REQUIRED) && he_authenticated e)
       "authentication_required cannot be authenticated=true";
     refuse ((he_availability e == AV_CONFIGURATION_REQUIRED) && he_configured e)
       "configuration_required cannot be configured=true";
     not_negative "input_tokens" (us_input_tokens u <? 0)%Z;
     not_negative "output_tokens" (us_output_tokens u <? 0)%Z;
     not_negative "total_tokens" (us_total_tokens u <? 0)%Z;
     not_negative "execution_count" (us_execution_count u <? 0)%Z;
     not_negative "average_duration_ms" (negative_float (us_average_duration_ms u));
     not_negative "average_ms" (negative_float (la_average_ms l));
     not_negative "last_ms" (negative_float (la_last_ms l));
     not_negative "p95_ms" (negative_float (la_p95_ms l))].

Fixpoint validate_entries (seen : list string) (l : list HarnessRuntimeSnapshot) : res unit :=
  match l with
  | [] => Ok tt
  | e :: l =>
      if he_harness_id e in? seen then
        Raise (RuntimeSnapshotValidationError ("duplicate harness id: " +:+ he_harness_id e))
      else res_bind (validate_harness_entry e) (λ _, validate_entries (he_harness_id e :: seen) l)
  end.

(* @src runtime_snapshot/validators.py:107-119 validate_snapshot *)
Definition validate_snapshot (s : RuntimeSnapshot) : res unit :=
  if rt_schema_version s != SCHEMA_VERSION then
    Raise (RuntimeSnapshotValidationError
             ("missing or unsupported schema_version: " +:+ pretty (rt_schema_version s)))
  else if rt_snapshot_id s == "" then
    Raise (RuntimeSnapshotValidationError "snapshot_id must be non-empty")
  else validate_entries [] (rt_harnesses s).

(** ** The service *)

(** The latest snapshot belongs to the publisher; [ss_listening] is the state of the listener
    and [ss_uuids] counts the identifiers taken. *)
(* @src runtime_snapshot/service.py:55-72 RuntimeSnapshotService.__init__ *)
Record SnapshotService (D : Type) := {
  ss_quota : QuotaService;
  ss_registry : Registry;
  ss_extra_ids : list string;
  ss_observations : Observations;
  ss_ttl : spec_float;
  ss_entry : option (RuntimeSnapshot * spec_float);
  ss_prior_availability : list (string * Availability);
  ss_latest : option RuntimeSnapshot;
  ss_uuids : nat;
  ss_listening : D
}.
Arguments ss_quota {D}.
Arguments ss_registry {D}.
Arguments ss_extra_ids {D}.
Arguments ss_observations {D}.
Arguments ss_ttl {D}.
Arguments ss_entry {D}.
Arguments ss_prior_availability {D}.
Arguments ss_latest {D}.
Arguments ss_uuids {D}.
Arguments ss_listening {D}.

(** A launch that is refused. *)
(* @src runtime_snapshot/service.py:35-49 RuntimeLaunchError *)
Definition RuntimeLaunchError (code : RuntimeValidationCode) (m : string) : exn :=
  Exn "RuntimeLaunchError" (RuntimeValidationCode_value code) m.

(* @src runtime_snapshot/service.py:317-330 _availability_to_code *)
Definition _availability_to_code (a : Availability) : option RuntimeValidationCode :=
  match a with
  | AV_AUTHENTICATION_REQUIRED => Some RV_AUTHENTICATION_REQUIRED
  | AV_CONFIGURATION_REQUIRED => Some RV_CONFIGURATION_REQUIRED
  | AV_QUOTA_EXHAUSTED => Some RV_QUOTA_EXHAUSTED
  | AV_RATE_LIMITED => Some RV_RATE_LIMITED
  | AV_OFFLINE => Some RV_OFFLINE
  | AV_PROVIDER_UNAVAILABLE => Some RV_PROVIDER_UNAVAILABLE
  | AV_READY | AV_UNKNOWN => None
  end.

(** The keys of a quota's metadata that a snapshot shows. *)
(* @src runtime_snapshot/service.py:268-284 RuntimeSnapshotService._build_harness *)
Definition shown_metadata : list string :=
  ["login_status_code"; "auth_status_code"; "models_code"; "version_code"; "version";
   "api_key_env_present"; "vertex"; "gca"; "settings_configured"; "detail"].

Section service.
Context `{PyLib, QuotaLib, SumLib} {D : Type} (listener : RuntimeSnapshot → M D unit).

Abbreviation St := (SnapshotService D).
Implicit Types s : St.

Definition with_quota (q : QuotaService) s : St :=
  {| ss_quota := q; ss_registry := ss_registry s; ss_extra_ids := ss_extra_ids s;
     ss_observations := ss_observations s; ss_ttl := ss_ttl s; ss_entry := ss_entry s;
     ss_prior_availability := ss_prior_availability s; ss_latest := ss_latest s;
     ss_uuids := ss_uuids s; ss_listening := ss_listening s |}.
Definition with_observations (o : Observations) s : St :=
  {| ss_quota := ss_quota s; ss_registry := ss_registry s; ss_extra_ids := ss_extra_ids s;
     ss_observations := o; ss_ttl := ss_ttl s; ss_entry := ss_entry s;
     ss_prior_availability := ss_prior_availability s; ss_latest := ss_latest s;
     ss_uuids := ss_uuids s; ss_listening := ss_listening s |}.
Definition with_entry (e : option (RuntimeSnapshot * spec_float)) s : St :=
  {| ss_quota := ss_quota s; ss_registry := ss_registry s; ss_extra_ids := ss_extra_ids s;
     ss_observations := ss_observations s; ss_ttl := ss_ttl s; ss_entry := e;
     ss_prior_availability := ss_prior_availability s; ss_latest := ss_latest s;
     ss_uuids := ss_uuids s; ss_listening := ss_listening s |}.
Definition with_prior (p : list (string * Availability)) s : St :=
  {| ss_quota := ss_quota s; ss_registry := ss_registry s; ss_extra_ids := ss_extra_ids s;
     ss_observations := ss_observations s; ss_ttl := ss_ttl s; ss_entry := ss_entry s;
     ss_prior_availability := p; ss_latest := ss_latest s;
     ss_uuids := ss_uuids s; ss_listening := ss_listening s |}.
Definition with_latest (l : option RuntimeSnapshot) s : St :=
  {| ss_quota := ss_quota s; ss_registry := ss_registry s; ss_extra_ids := ss_extra_ids s;
     ss_observations := ss_observations s; ss_ttl := ss_ttl s; ss_entry := ss_entry s;
     ss_prior_availability := ss_prior_availability s; ss_latest := l;
     ss_uuids := ss_uuids s; ss_listening := ss_listening s |}.
Definition with_listening (d : D) s : St :=
  {| ss_quota := ss_quota s; ss_registry := ss_registry s; ss_extra_ids := ss_extra_ids s;
     ss_observations := ss_observations s; ss_ttl := ss_ttl s; ss_entry := ss_entry s;
     ss_prior_availability := ss_prior_availability s; ss_latest := ss_latest s;
     ss_uuids := ss_uuids s; ss_listening := d |}.

Definition in_quota {A} (m : M QuotaService A) : M St A := zoom ss_quota with_quota m.
Definition to_listener {A} (m : M D A) : M St A := zoom ss_listening with_listening m.
Definition ss_uuid : M St string := λ s,
  (Ok (uuid_str (ss_uuids s)),
   {| ss_quota := ss_quota s; ss_registry := ss_registry s; ss_extra_ids := ss_extra_ids s;
      ss_observations := ss_observations s; ss_ttl := ss_ttl s; ss_entry := ss_entry s;
      ss_prior_availability := ss_prior_availability s; ss_latest := ss_latest s;
      ss_uuids := S (ss_uuids s); ss_listening := ss_listening s |}).

(* @src runtime_snapshot/cache.py:29-37 RuntimeSnapshotCache.get *)
Definition snapshots_get : M St (option RuntimeSnapshot) :=
  now ← in_quota qs_time;
  s ← get_state;
  match ss_entry s with
  | None => mret None
  | Some (snapshot, expires_at) =>
      if fle expires_at now then modify_state (with_entry None);; mret None
      else mret (Some snapshot)
  end.
(* @src runtime_snapshot/cache.py:39-45 RuntimeSnapshotCache.put *)
Definition snapshots_put (snapshot : RuntimeSnapshot) : M St unit :=
  now ← in_quota qs_time;
  modify_state (λ s, with_entry (Some (snapshot, fadd now (ss_ttl s))) s).
(* @src runtime_snapshot/cache.py:47-49 RuntimeSnapshotCache.invalidate *)
Definition snapshots_invalidate : M St unit := modify_state (with_entry None).

(** What leaves the process passes the guard; running out of fuel cannot happen. *)
Definition guard_privacy (payload : dict) : M St unit :=
  match assert_privacy payload with
  | Some r => lift_res r
  | None => raise OutOfFuel
  end.

(* @src runtime_snapshot/publisher.py:23-31 RuntimeSnapshotPublisher.publish *)
Definition publish (snapshot : RuntimeSnapshot) : M St unit :=
  lift_res (validate_snapshot snapshot);;
  guard_privacy (RuntimeSnapshot_as_dict snapshot);;
  modify_state (with_latest (Some snapshot));;
  to_listener (listener snapshot).

(* @src runtime_snapshot/service.py:74-80 RuntimeSnapshotService.known_harness_ids *)
Definition known_ids s : list string :=
  sorted_strs (nub_strs (ss_extra_ids s ++ known_harness_ids (ss_quota s) ++
                         (ad_id <$> list_adapters (ss_registry s))) []).

(** What a snapshot shows of a harness beside its quota. *)
(* @src runtime_snapshot/service.py:261-286 RuntimeSnapshotService._build_harness *)
Definition provider_metadata (q : QuotaSnapshot) : dict :=
  sanitize_provider_metadata
    (dict_update
       [("reset_at", from_option (λ t, PStr (isoformat t)) PNone (qt_reset_at q));
        ("rate_limit", PBool (qt_availability q == AV_RATE_LIMITED));
        ("quota_visibility", PStr (QuotaVisibility_value (qt_quota_visibility q)));
        ("quota_state", PStr (QuotaState_value (qt_state q)));
        ("quota_source", PStr (QuotaSource_value (qt_source q)))]
       (List.filter (λ kv, kv.1 in? shown_metadata) (qt_raw_metadata q))).

(* @src runtime_snapshot/service.py:287-301 RuntimeSnapshotService._build_harness *)
Definition safe_quota (q : QuotaSnapshot) : QuotaSnapshot :=
  {| qt_harness_id := qt_harness_id q; qt_availability := qt_availability q;
     qt_quota_visibility := qt_quota_visibility q; qt_state := qt_state q;
     qt_authenticated := qt_authenticated q; qt_configured := qt_configured q;
     qt_credits_remaining := qt_credits_remaining q;
     qt_requests_remaining := qt_requests_remaining q;
     qt_tokens_remaining := qt_tokens_remaining q; qt_reset_at := qt_reset_at q;
     qt_observed_at := qt_observed_at q; qt_source := qt_source q;
     qt_raw_metadata := sanitize_provider_metadata (qt_raw_metadata q) |}.

Definition harness_entry (harness_id : string) (q : QuotaSnapshot) s : HarnessRuntimeSnapshot :=
  {| he_harness_id := harness_id; he_availability := qt_availability q;
     he_authenticated := qt_authenticated q; he_configured := qt_configured q;
     he_quota := safe_quota q;
     he_capabilities := match get_adapter (ss_registry s) harness_id with
                        | Ok a => Capability_value <$> mf_capabilities (ad_manifest a)
                        | Raise _ => []
                        end;
     he_execution_state :=
       if (0 <? active_runs harness_id (ss_observations s))%Z then EX_RUNNING else EX_IDLE;
     he_recent_usage := usage harness_id (ss_observations s);
     he_recent_quality := hs_last_quality (_ensure harness_id (ss_observations s));
     he_latency := latency harness_id (ss_observations s);
     he_provider_metadata := provider_metadata q |}.

(* @src runtime_snapshot/service.py:243-314 RuntimeSnapshotService._build_harness *)
Definition _build_harness (harness_id : string) (refresh : bool) : M St HarnessRuntimeSnapshot :=
  q ← in_quota (quota_snapshot harness_id refresh);
  s ← get_state;
  mret (harness_entry harness_id q s).

Fixpoint build_all (ids : list string) (refresh : bool) : M St (list HarnessRuntimeSnapshot) :=
  match ids with
  | [] => mret []
  | id :: ids =>
      e ← _build_harness id refresh;
      l ← build_all ids refresh;
      mret (e :: l)
  end.

(** A fresh snapshot: collected, validated, kept and published, in that order. *)
(* @src runtime_snapshot/service.py:108-122 RuntimeSnapshotService.snapshot *)
Definition take_of (ids : list string) (refresh : bool) : M St RuntimeSnapshot :=
  entries ← build_all ids refresh;
  id ← ss_uuid;
  now ← in_quota qs_now;
  let snapshot := {| rt_snapshot_id := id; rt_observed_at := now; rt_harnesses := entries;
                     rt_schema_version := SCHEMA_VERSION |} in
  lift_res (validate_snapshot snapshot);;
  modify_state (λ s, with_prior
    (foldl (λ l e, dict_set (he_harness_id e) (he_availability e) l) (ss_prior_availability s)
       entries) s);;
  snapshots_put snapshot;;
  publish snapshot;;
  mret snapshot.
(* @src runtime_snapshot/service.py:102-122 RuntimeSnapshotService.snapshot *)
Definition take_snapshot (harness_ids : option (list string)) (refresh : bool) :
    M St RuntimeSnapshot :=
  s ← get_state;
  take_of (default (known_ids s) harness_ids) refresh.

(** The harnesses asked for, of a snapshot in the cache that has them all. *)
(* @src runtime_snapshot/service.py:88-101 RuntimeSnapshotService.snapshot *)
Definition from_cached (harness_ids : option (list string)) (cached : RuntimeSnapshot) :
    option RuntimeSnapshot :=
  match harness_ids with
  | None => Some cached
  | Some ids =>
      let filtered := List.filter (λ e, he_harness_id e in? ids) (rt_harnesses cached) in
      if (length filtered =? length (nub_strs ids []))%nat then
        Some {| rt_snapshot_id := rt_snapshot_id cached; rt_observed_at := rt_observed_at cached;
                rt_harnesses := filtered; rt_schema_version := rt_schema_version cached |}
      else None
  end.

(* @src runtime_snapshot/service.py:82-122 RuntimeSnapshotService.snapshot *)
Definition snapshot (harness_ids : option (list string)) (refresh : bool) :
    M St RuntimeSnapshot :=
  cached ← if refresh then mret None else snapshots_get;
  match cached ≫= from_cached harness_ids with
  | Some found => mret found
  | None =>
      cached ← if refresh then mret None else snapshots_get;
      match cached, harness_ids with
      | Some found, None => mret found
      | _, _ => take_snapshot harness_ids refresh
      end
  end.

(* @src runtime_snapshot/service.py:124-134 RuntimeSnapshotService.harness_snapshot *)
Definition harness_snapshot (harness_id : string) (refresh : bool) :
    M St HarnessRuntimeSnapshot :=
  full ← snapshot (Some [harness_id]) refresh;
  match rt_harness harness_id full with
  | Some e => mret e
  | None => raise (KeyError ("unknown harness: " +:+ harness_id))
  end.

(* @src runtime_snapshot/service.py:136-140 RuntimeSnapshotService.refresh *)
Definition refresh_snapshot (harness_id : option string) : M St RuntimeSnapshot :=
  snapshots_invalidate;;
  if otruthy harness_id then snapshot (Some [default "" harness_id]) true
  else snapshot None true.

(** [n or None]. *)
Definition or_none (n : Z) : option Z := if n == 0%Z then None else Some n.

(* @src runtime_snapshot/service.py:142-172 RuntimeSnapshotService.observe_execution *)
Definition observe_execution (harness_id : string) (success : bool)
    (failure_kind : option FailureKind) (detail : option string)
    (duration_ms : option spec_float) (input_tokens output_tokens : Z) : M St RuntimeSnapshot :=
  now ← in_quota qs_now;
  modify_state (λ s, with_observations
    (record_execution harness_id success failure_kind duration_ms input_tokens output_tokens now
       (ss_observations s)) s);;
  modify_state (λ s, with_observations (mark_running harness_id (-1) (ss_observations s)) s);;
  in_quota (quota_observe harness_id success failure_kind detail
              (or_none (input_tokens + output_tokens)));;
  snapshots_invalidate;;
  snapshot None false.

(* @src runtime_snapshot/service.py:174-176 RuntimeSnapshotService.mark_run_started *)
Definition mark_run_started (harness_id : string) : M St unit :=
  modify_state (λ s, with_observations (mark_running harness_id 1 (ss_observations s)) s);;
  snapshots_invalidate.

(** The capabilities are compared by their names. *)
(* @src runtime_snapshot/service.py:178-228 RuntimeSnapshotService.revalidate_for_launch *)
Definition revalidate_for_launch (harness_id : string) (required : list Capability)
    (prior_availability : option Availability) : M St HarnessRuntimeSnapshot :=
  e ← harness_snapshot harness_id true;
  s ← get_state;
  let prior := match prior_availability with
               | Some a => Some a
               | None => dict_get harness_id (ss_prior_availability s)
               end in
  let missing := sorted_strs (List.filter (λ c, negb (c in? he_capabilities e))
                                (Capability_value <$> required)) in
  if negb (missing == []) then
    raise (RuntimeLaunchError RV_CAPABILITY_MISMATCH
             ("capability mismatch for " +:+ harness_id +:+ ": " +:+ join ", " missing))
  else
    match _availability_to_code (he_availability e) with
    | Some code =>
        if (prior == Some AV_READY) && auto_blocked (he_availability e) then
          raise (RuntimeLaunchError RV_RUNTIME_CHANGED
                   ("runtime changed for " +:+ harness_id +:+ ": now " +:+
                    Availability_value (he_availability e)))
        else
          raise (RuntimeLaunchError code
                   ("harness " +:+ harness_id +:+ " unavailable: " +:+
                    Availability_value (he_availability e)))
    | None => mret e
    end.
End service.

(** ** Signs of floats *)

(** No minus sign, on a zero either. *)
Definition unsigned (f : spec_float) : bool :=
  match f with S754_finite sg _ _ | S754_infinity sg | S754_zero sg => negb sg | S754_nan => true end.
(** Not below zero. *)
Definition not_below (f : spec_float) : bool := negb (flt f (z_to_float 0)).

Lemma round_aux_unsigned m e l : unsigned (binary_round_aux 53 1024 false m e l) = true.
Proof.
  unfold binary_round_aux. destruct (shr_fexp _ _ _ _ _) as [mrs e'].
  destruct (shr_fexp _ _ _ _ _) as [mrs' e''].
  destruct (shr_m mrs') as [|p|p]; simpl; try done. by destruct (e'' <=? _)%Z.
Qed.
Lemma round_unsigned p e : unsigned (binary_round 53 1024 false p e) = true.
Proof. unfold binary_round. destruct (shl_align _ _ _). apply round_aux_unsigned. Qed.
Lemma z_to_float_unsigned z : (0 ≤ z)%Z → unsigned (z_to_float z) = true.
Proof.
  destruct z as [|p|p]; intros Hz; [done|apply round_unsigned|lia].
Qed.
Lemma unsigned_number x : unsigned x = true → is_nan x = false → fle (z_to_float 0) x = true.
Proof. by destruct x as [[]|[]| |[] m e]. Qed.
Lemma fadd_not_negative x y :
  fle (z_to_float 0) x = true → fle (z_to_float 0) y = true → fle (z_to_float 0) (fadd x y) = true.
Proof.
  intros Hx Hy. destruct x as [[]|[]| |[] mx ex], y as [[]|[]| |[] my ey]; try done.
  unfold fadd, SFadd, binary_normalize.
  destruct (cond_Zopp false _ + cond_Zopp false _)%Z as [|p|p] eqn:E; [done| |simpl in E; lia].
  apply unsigned_number; [apply round_unsigned|apply binary_round_number].
Qed.
Lemma unsigned_not_below x : unsigned x = true → not_below x = true.
Proof. by destruct x as [[]|[]| |[] m e]. Qed.
Lemma fdiv_not_below x y :
  fle (z_to_float 0) x = true → unsigned y = true → not_below (fdiv x y) = true.
Proof.
  intros Hx Hy. destruct x as [[]|[]| |[] mx ex], y as [[]|[]| |[] my ey]; try done.
  apply unsigned_not_below. unfold fdiv, SFdiv.
  destruct (SFdiv_core_binary 53 1024 (Z.pos mx) ex (Z.pos my) ey) as [[mz ez] lz].
  apply round_aux_unsigned.
Qed.
Lemma fle_not_below x : fle (z_to_float 0) x = true → not_below x = true.
Proof. by destruct x as [[]|[]| |[] m e]. Qed.

(** ** Entries are valid *)

(** Counts are not negative, and neither is a duration. *)
Definition stats_ok (st : HarnessStats) : Prop :=
  (0 ≤ hs_input_tokens st)%Z ∧ (0 ≤ hs_output_tokens st)%Z ∧ (0 ≤ hs_execution_count st)%Z ∧
  (0 ≤ hs_active_runs st)%Z ∧
  Forall (λ d, fle (z_to_float 0) d = true) (hs_durations_ms st).
Definition observations_ok (l : Observations) : Prop := Forall (λ kv, stats_ok kv.2) l.

Lemma ensure_ok id l : observations_ok l → stats_ok (_ensure id l).
Proof.
  intros Hl. unfold _ensure. destruct (dict_get id l) as [st|] eqn:E; simpl.
  - apply dict_get_Some_elem in E. unfold observations_ok in Hl. rewrite Forall_forall in Hl.
    exact (Hl _ E).
  - by split_and!.
Qed.

Lemma mark_running_ok id delta l : observations_ok l → observations_ok (mark_running id delta l).
Proof.
  intros Hl. apply dict_set_Forall; [|done].
  destruct (ensure_ok id l Hl) as (H1 & H2 & H3 & H4 & H5). split_and!; simpl; try done. lia.
Qed.

Lemma record_execution_ok id success kind duration i o now l :
  observations_ok l → observations_ok (record_execution id success kind duration i o now l).
Proof.
  intros Hl. apply dict_set_Forall; [|done].
  destruct (ensure_ok id l Hl) as (H1 & H2 & H3 & H4 & H5). split_and!; simpl; [lia..|].
  unfold keep_sample. destruct duration as [d|]; [|done].
  destruct (fle _ d) eqn:Hd; [|done]. by apply Forall_drop, Forall_app_2; [|constructor].
Qed.

(** The window of samples never grows beyond its limit. *)
Lemma samples_are_bounded duration l :
  length l ≤ max_latency_samples → length (keep_sample duration l) ≤ max_latency_samples.
Proof.
  intros Hl. unfold keep_sample. destruct duration as [d|]; [|done].
  destruct (fle _ d); [|done]. rewrite length_drop. lia.
Qed.

Section valid_entries.
Context `{PyLib, QuotaLib, SL : SumLib, !SumLaws} {D : Type}.

Lemma average_not_negative l :
  Forall (λ d, fle (z_to_float 0) d = true) l → negative_float (average l) = false.
Proof.
  intros Hl. unfold average. destruct l as [|x l]; [done|].
  cbn [negative_float].  apply negb_true_iff. apply fdiv_not_below; [by apply py_sum_nonneg|].
  apply z_to_float_unsigned. lia.
Qed.

Lemma sample_not_negative l o :
  Forall (λ d, fle (z_to_float 0) d = true) l → (∀ x, o = Some x → x ∈ l) →
  negative_float o = false.
Proof.
  intros Hl Ho. destruct o as [x|]; [|done]. simpl. apply negb_true_iff, fle_not_below.
  rewrite Forall_forall in Hl. by apply Hl, Ho.
Qed.

Lemma entry_is_valid id q (s : SnapshotService D) :
  id ≠ "" → snapshot_of id q → observations_ok (ss_observations s) →
  validate_harness_entry (harness_entry id q s) = Ok tt.
Proof.
  intros Hid (Hq & Hc & _) Ho. unfold consistent in Hc. boolify.
  destruct (ensure_ok id _ Ho) as (Hi & Hou & Hn & _ & Hd).
  unfold validate_harness_entry. cbn [he_recent_usage he_latency harness_entry usage latency
    us_input_tokens us_output_tokens us_total_tokens us_execution_count us_average_duration_ms
    la_average_ms la_last_ms la_p95_ms he_harness_id he_quota he_availability he_authenticated
    he_configured safe_quota qt_harness_id].
  rewrite (bool_decide_eq_false_2 _ Hid), Hq, bool_decide_eq_true_2 by done.
  assert ((qt_availability q == AV_AUTHENTICATION_REQUIRED) && qt_authenticated q = false) as ->
    by (by destruct (_ && _)).
  assert ((qt_availability q == AV_CONFIGURATION_REQUIRED) && qt_configured q = false) as ->
    by (by destruct (_ && _)).
  rewrite (average_not_negative _ Hd).
  rewrite (sample_not_negative _ (last _) Hd) by (intros x; apply last_Some_elem_of).
  rewrite (sample_not_negative _ (_ !! _) Hd).
  2:{ intros x Hx%list_elem_of_lookup_2. by apply (elem_of_py_sorted fle). }
  rewrite (proj2 (Z.ltb_ge _ _) Hi), (proj2 (Z.ltb_ge _ _) Hou), (proj2 (Z.ltb_ge _ _) Hn).
  assert ((hs_input_tokens (_ensure id (ss_observations s)) +
           hs_output_tokens (_ensure id (ss_observations s)) <? 0)%Z = false) as -> by lia.
  done.
Qed.
End valid_entries.

(** ** What is published passes the guard *)

Definition clean (v : pyval) : Prop := ∀ k, key_in k v → forbidden k = false.

Lemma clean_dict d : Forall (λ kv, forbidden kv.1 = false ∧ clean kv.2) d → clean (PDict d).
Proof.
  rewrite Forall_forall. intros Hd k Hk. inversion Hk as [? v Hin|? k' v Hin Hv|]; subst.
  - by destruct (Hd _ Hin).
  - destruct (Hd _ Hin) as [_ Hc]. by apply Hc.
Qed.
Lemma clean_list l : Forall clean l → clean (PList l).
Proof.
  rewrite Forall_forall. intros Hl k Hk. inversion Hk; subst. by eapply Hl.
Qed.
Lemma clean_scalar v : match v with PDict _ | PList _ => False | _ => True end → clean v.
Proof. intros Hv k Hk. by inversion Hk; subst. Qed.
Lemma clean_sanitized d : flat_lists (PDict d) = true → clean (PDict (sanitize_provider_metadata d)).
Proof.
  intros Hf k Hk. assert (dropped k = false) as Hd by by eapply (sanitize_keys (PDict d)).
  unfold dropped in Hd. by apply orb_false_iff in Hd as [? _].
Qed.

Lemma clean_passes d : clean (PDict d) → assert_privacy d = Some (Ok tt).
Proof.
  intros Hc. unfold assert_privacy.
  destruct (assert_privacy_loop_spec (vsize (PDict d)) [PDict d]) as [[Ho _]|(k & v & _ & Hv & Hk & Hf)];
    [simpl; lia|done|].
  apply list_elem_of_singleton in Hv as ->. by rewrite (Hc _ Hk) in Hf.
Qed.

Lemma flat_update d1 d2 :
  flat_lists (PDict d1) = true → flat_lists (PDict d2) = true →
  flat_lists (PDict (dict_update d1 d2)) = true.
Proof.
  unfold dict_update. revert d1. induction d2 as [|[k v] d2 IH]; intros d1 H1 H2; [done|].
  simpl in H2. apply andb_true_iff in H2 as [Hv H2]. apply IH; [|done]. by apply flat_dict_set.
Qed.
Lemma flat_filter f d : flat_lists (PDict d) = true → flat_lists (PDict (List.filter f d)) = true.
Proof.
  simpl. rewrite !forallb_forall. intros Hd x [Hx _]%filter_In. by apply Hd.
Qed.

Ltac clean_fields :=
  repeat match goal with
  | |- Forall _ [] => constructor
  | |- Forall _ (_ :: _) => constructor; [split; [reflexivity|cbn [fst snd]]|]
  | |- clean (PDict (_ :: _)) => apply clean_dict
  | |- clean _ => by apply clean_scalar
  | |- clean (from_option _ _ ?o) => destruct o
  end.

Section privacy.
Context `{PyLib, QuotaLib, SumLib} {D : Type}.

Lemma clean_quota q :
  clean (PDict (qt_raw_metadata q)) → clean (PDict (QuotaSnapshot_as_dict q)).
Proof. intros Hq. unfold QuotaSnapshot_as_dict. clean_fields. done. Qed.

Lemma clean_entry id q (s : SnapshotService D) :
  flat_lists (PDict (qt_raw_metadata q)) = true →
  clean (PDict (HarnessRuntimeSnapshot_as_dict (harness_entry id q s))).
Proof.
  intros Hq. unfold HarnessRuntimeSnapshot_as_dict, harness_entry, provider_metadata; simpl.
  clean_fields.
  - by apply clean_quota, clean_sanitized.
  - apply clean_list, Forall_fmap, Forall_true. intros x. by apply clean_scalar.
  - unfold UsageSnapshot_as_dict, opt_float. clean_fields.
  - unfold LatencySnapshot_as_dict, opt_float. clean_fields.
  - apply clean_sanitized, flat_update; [by destruct (qt_reset_at q)|by apply flat_filter].
Qed.
End privacy.

(** ** Every snapshot is valid *)

Definition entry_ok `{PyLib} (e : HarnessRuntimeSnapshot) : Prop :=
  validate_harness_entry e = Ok tt ∧ clean (PDict (HarnessRuntimeSnapshot_as_dict e)).
Definition snapshot_ok `{PyLib} (s : RuntimeSnapshot) : Prop :=
  rt_schema_version s = SCHEMA_VERSION ∧ rt_snapshot_id s ≠ "" ∧
  NoDup (he_harness_id <$> rt_harnesses s) ∧ Forall entry_ok (rt_harnesses s).

Section snapshots.
Context `{PyLib, QuotaLib, SL : SumLib, !SumLaws} {D : Type}
  (listener : RuntimeSnapshot → M D unit).

Lemma validate_entries_ok seen l :
  NoDup (he_harness_id <$> l) → Forall entry_ok l →
  (∀ e, e ∈ l → he_harness_id e ∉ seen) → validate_entries seen l = Ok tt.
Proof.
  revert seen. induction l as [|e l IH]; intros seen Hn Hl Hs; [done|]. simpl.
  apply NoDup_cons in Hn as [Hni Hn]. apply Forall_cons in Hl as [[Hv _] Hl].
  rewrite bool_decide_eq_false_2 by (apply Hs; apply list_elem_of_here). rewrite Hv. simpl.
  apply IH; [done..|]. intros e' He' [Heq|Hin]%elem_of_cons.
  - apply Hni. rewrite <- Heq. by apply list_elem_of_fmap_2.
  - by eapply Hs; [apply list_elem_of_further|].
Qed.

Lemma snapshot_ok_passes s :
  snapshot_ok s →
  validate_snapshot s = Ok tt ∧ assert_privacy (RuntimeSnapshot_as_dict s) = Some (Ok tt).
Proof.
  intros (Hv & Hi & Hn & He). split.
  - unfold validate_snapshot. rewrite Hv, bool_decide_eq_true_2 by done. simpl.
    rewrite (bool_decide_eq_false_2 _ Hi). apply validate_entries_ok; [done..|]. set_solver.
  - apply clean_passes. unfold RuntimeSnapshot_as_dict. clean_fields.
    apply clean_list, Forall_fmap. eapply Forall_impl; [exact He|]. by intros e [_ Hc].
Qed.

(** The service's invariant. *)
Definition ss_ok (s : SnapshotService D) : Prop :=
  quota_ok (ss_quota s) ∧ observations_ok (ss_observations s) ∧
  Forall (λ id, id ≠ "") (ss_extra_ids s ++ (ad_id <$> list_adapters (ss_registry s))) ∧
  match ss_entry s with Some (c, _) => snapshot_ok c | None => True end ∧
  match ss_latest s with Some c => snapshot_ok c | None => True end.

(** What an operation may end with: only a cancellation. *)
Definition only_cancelled (e : exn) (s : SnapshotService D) : Prop :=
  is_Exception e = false ∧ ss_ok s.

Lemma in_quota_hoare {A} (m : M QuotaService A) (Q : A → Prop) (E : exn → Prop) :
  hoare quota_ok m (λ x q, Q x ∧ quota_ok q) (λ e q, E e ∧ quota_ok q) →
  hoare ss_ok (in_quota m) (λ x s, Q x ∧ ss_ok s) (λ e s, E e ∧ ss_ok s).
Proof.
  intros Hm s (Hq & Hr). specialize (Hm _ Hq). unfold in_quota, zoom.
  destruct (m (ss_quota s)) as [[x|e] q]; destruct Hm as [Hx Hq']; by split.
Qed.

Lemma modify_hoare f :
  (∀ s, ss_ok s → ss_ok (f s)) → hoare ss_ok (modify_state f) (λ _, ss_ok) only_cancelled.
Proof. intros Hf s Hs. by apply Hf. Qed.

Lemma clock_hoare : hoare ss_ok (in_quota qs_now) (λ _, ss_ok) only_cancelled.
Proof.
  intros s (Hq & Hr). split; [|done]. by apply (quota_ok_entries (ss_quota s)).
Qed.

Lemma snapshots_get_hoare :
  hoare ss_ok snapshots_get
    (λ o s, match o with Some c => snapshot_ok c | None => True end ∧ ss_ok s) only_cancelled.
Proof.
  intros s (Hq & Ho & Hi & He & Hl). unfold snapshots_get. cbn.
  unfold mbind, M_bind, in_quota, zoom, qs_time. cbn.
  assert (∀ m, quota_ok (set_qs (qs_entries (ss_quota s)) m (qs_clock (ss_quota s))
                           (qs_probes (ss_quota s)) (ss_quota s))) as Hq'.
  { intros m. by apply (quota_ok_entries (ss_quota s)). }
  destruct (ss_entry s) as [[c e]|] eqn:E; cbn; [destruct (fle e _); cbn|];
    (split; [done|]; split_and!; cbn; [apply Hq'|try done..]; by rewrite E).
Qed.

Lemma build_hoare id refresh :
  id ≠ "" → hoare ss_ok (_build_harness id refresh)
    (λ e s, (he_harness_id e = id ∧ entry_ok e) ∧ ss_ok s) only_cancelled.
Proof.
  intros Hid. eapply hoare_bind.
  { apply (in_quota_hoare _ (snapshot_of id) (λ e, is_Exception e = false)).
    apply quota_snapshot_answers. }
  intros q s [Hq Hs]. split; [|done]. split; [done|]. split.
  - apply entry_is_valid; [done..|]. apply Hs.
  - apply clean_entry. by destruct Hq as (_ & _ & Hf).
Qed.

Lemma build_all_hoare ids refresh :
  Forall (λ id, id ≠ "") ids → hoare ss_ok (build_all ids refresh)
    (λ l s, (he_harness_id <$> l = ids ∧ Forall entry_ok l) ∧ ss_ok s) only_cancelled.
Proof.
  induction 1 as [|id ids Hid _ IH]; [by intros s Hs|].
  eapply hoare_bind; [by apply build_hoare|]. intros e s [[He Hok] Hs]. revert s Hs.
  eapply hoare_bind; [exact IH|]. intros l s [[Hl Hall] Hs]. split; [|done].
  split; [by rewrite fmap_cons, He, Hl|by constructor].
Qed.

Lemma nub_strs_NoDup l seen :
  NoDup (nub_strs l seen) ∧ ∀ x, x ∈ nub_strs l seen → x ∈ l ∧ x ∉ seen.
Proof.
  revert seen. induction l as [|y l IH]; intros seen; simpl; [by split; [constructor|set_solver]|].
  case_bool_decide as Hy.
  - destruct (IH seen) as [Hn Hi]. split; [done|]. intros x Hx. destruct (Hi x Hx). set_solver.
  - destruct (IH (y :: seen)) as [Hn Hi]. split.
    + apply NoDup_cons. split; [|done]. intros Hin. destruct (Hi y Hin) as [_ Hni]. set_solver.
    + intros x [->|Hx]%elem_of_cons; [set_solver|]. destruct (Hi x Hx). set_solver.
Qed.

(** The harnesses asked for: named and different. *)
Definition proper_ids (ids : list string) : Prop := NoDup ids ∧ Forall (λ id, id ≠ "") ids.

Lemma known_ids_proper s : ss_ok s → proper_ids (known_ids s).
Proof.
  intros ((_ & Hk & _) & _ & Hi & _). unfold known_ids.
  set (all := ss_extra_ids s ++ _). destruct (nub_strs_NoDup all []) as [Hn Hin]. split.
  - by rewrite (py_sorted_Permutation str_leb).
  - apply Forall_forall. intros id Hid. apply (proj1 (elem_of_py_sorted str_leb _ _)) in Hid. destruct (Hin _ Hid) as [Ha _].
    rewrite Forall_app in Hi. destruct Hi as [He Hr]. subst all.
    rewrite !elem_of_app in Ha. rewrite !Forall_forall in Hk, He, Hr.
    destruct Ha as [Ha|[Ha|Ha]]; auto.
Qed.

Hypothesis uuid_nonempty : ∀ n, uuid_str n ≠ "".
Hypothesis listens : ∀ c d, ∃ d', listener c d = (Ok tt, d').

Lemma publish_hoare c :
  snapshot_ok c → hoare ss_ok (publish listener c) (λ _, ss_ok) (λ _ _, False).
Proof.
  intros Hc s Hs. destruct (snapshot_ok_passes c Hc) as [Hv Hp].
  unfold publish, guard_privacy. rewrite Hv, Hp. unfold mbind, M_bind. cbn.
  unfold to_listener, zoom. cbn. destruct (listens c (ss_listening s)) as [d' ->]. simpl.
  destruct Hs as (Hq & Ho & Hi & He & _). by split_and!.
Qed.

Lemma put_hoare c :
  snapshot_ok c → hoare ss_ok (snapshots_put c) (λ _, ss_ok) only_cancelled.
Proof.
  intros Hc s (Hq & Ho & Hi & He & Hl). unfold snapshots_put. cbn.
  by split_and!.
Qed.

Lemma uuid_hoare : hoare ss_ok ss_uuid (λ id s, id ≠ "" ∧ ss_ok s) only_cancelled.
Proof. intros s Hs. split; [apply uuid_nonempty|exact Hs]. Qed.

Lemma with_prior_ok p s : ss_ok s → ss_ok (with_prior p s).
Proof. done. Qed.

Lemma take_of_hoare ids refresh :
  proper_ids ids → hoare ss_ok (take_of listener ids refresh)
    (λ c s, (snapshot_ok c ∧ he_harness_id <$> rt_harnesses c = ids) ∧ ss_ok s) only_cancelled.
Proof.
  intros [Hn Hne]. unfold take_of. eapply hoare_bind; [by apply build_all_hoare|].
  intros l s0 [[Hl Hall] Hs0]. revert s0 Hs0.
  eapply hoare_bind; [apply uuid_hoare|]. intros id s0 [Hid Hs0]. revert s0 Hs0.
  eapply (hoare_bind _ _ _ (λ _, ss_ok)); [apply clock_hoare|]. intros now.
  set (c := Build_RuntimeSnapshot _ _ _ _).
  assert (snapshot_ok c) as Hc by (split_and!; [done..|by simpl; rewrite Hl|done]).
  destruct (snapshot_ok_passes c Hc) as [-> _].
  eapply (hoare_bind _ _ _ (λ _, ss_ok)); [by intros s Hs|]. intros _.
  eapply (hoare_bind _ _ _ (λ _, ss_ok)); [by apply modify_hoare|]. intros _.
  eapply (hoare_bind _ _ _ (λ _, ss_ok)); [by apply put_hoare|]. intros _.
  eapply (hoare_bind _ _ _ (λ _, ss_ok)).
  { eapply hoare_conseq; [by apply publish_hoare|done..]. }
  intros _ s Hs. by split.
Qed.

Lemma from_cached_ok ids c found :
  snapshot_ok c → from_cached ids c = Some found → snapshot_ok found.
Proof.
  intros (Hv & Hi & Hn & He). destruct ids as [ids|]; simpl; [|by intros [= <-]].
  destruct (_ =? _)%nat; [|done]. intros [= <-]. split_and!; [done..| |]; simpl.
  - clear -Hn. induction (rt_harnesses c) as [|e l IH]; [done|]. simpl.
    rewrite fmap_cons, NoDup_cons in Hn. destruct Hn as [Hni Hn].
    destruct (bool_decide _); [|auto]. rewrite fmap_cons. apply NoDup_cons. split; [|auto].
    intros (e' & Heq & Hin)%list_elem_of_fmap. apply Hni.
    apply elem_of_filter_bool in Hin as [Hin _]. rewrite Heq. by apply list_elem_of_fmap_2.
  - apply Forall_forall. intros e [He' _]%elem_of_filter_bool. rewrite Forall_forall in He. auto.
Qed.

Lemma snapshot_hoare ids refresh :
  match ids with Some l => proper_ids l | None => True end →
  hoare ss_ok (snapshot listener ids refresh)
    (λ c s, snapshot_ok c ∧ ss_ok s) only_cancelled.
Proof.
  intros Hids.
  assert (hoare ss_ok (take_snapshot listener ids refresh)
    (λ c s, snapshot_ok c ∧ ss_ok s) only_cancelled) as Ht.
  { intros s Hs. unfold take_snapshot, mbind, M_bind. cbn [get_state].
    assert (proper_ids (default (known_ids s) ids)) as Hp
      by (destruct ids; [done|by apply known_ids_proper]).
    pose proof (take_of_hoare _ refresh Hp s Hs) as Hk.
    destruct (take_of _ _ _ s) as [[c|e] s']; [|done]. by destruct Hk as [[? _] ?]. }
  assert (hoare ss_ok (if refresh then mret None else snapshots_get)
    (λ o s, match o with Some c => snapshot_ok c | None => True end ∧ ss_ok s) only_cancelled)
    as Hg by (destruct refresh; [by intros s Hs|apply snapshots_get_hoare]).
  unfold snapshot. eapply hoare_bind; [exact Hg|]. intros cached s [Hc Hs].
  destruct (cached ≫= from_cached ids) as [found|] eqn:Ef.
  { split; [|done]. destruct cached as [c|]; [|done]. by eapply from_cached_ok. }
  revert s Hs. eapply hoare_bind; [exact Hg|]. intros again s [Ha Hs].
  destruct again as [c|], ids as [ids|]; try by apply Ht. by split.
Qed.

Lemma observe_hoare id success kind detail duration i o :
  hoare ss_ok (observe_execution listener id success kind detail duration i o)
    (λ c s, snapshot_ok c ∧ ss_ok s) only_cancelled.
Proof.
  unfold observe_execution. eapply (hoare_bind _ _ _ (λ _, ss_ok)); [apply clock_hoare|].
  intros now. eapply (hoare_bind _ _ _ (λ _, ss_ok)).
  { apply modify_hoare. intros s (Hq & Ho & Hi & He & Hl). split_and!; try done.
    by apply record_execution_ok. }
  intros _. eapply (hoare_bind _ _ _ (λ _, ss_ok)).
  { apply modify_hoare. intros s (Hq & Ho & Hi & He & Hl). split_and!; try done.
    by apply mark_running_ok. }
  intros _. eapply (hoare_bind _ _ _ (λ _, ss_ok)).
  { eapply hoare_conseq.
    - apply (in_quota_hoare _ (snapshot_of id) (λ e, is_Exception e = false)).
      apply quota_observe_answers.
    - done.
    - by intros a s [_ Hs].
    - done. }
  intros _. eapply (hoare_bind _ _ _ (λ _, ss_ok)).
  { apply modify_hoare. by intros s (Hq & Ho & Hi & He & Hl). }
  intros _. by apply snapshot_hoare.
Qed.

(** no harness, provider or run can make the mesh fail to say what it knows. Whatever
    harnesses are asked for (named, and each once), and after whatever run is observed, the
    operation returns a snapshot that the validator and the privacy guard accept, and leaves the
    service able to do the same again; only a cancellation ends it otherwise. *)
Theorem snapshots_are_always_valid s :
  ss_ok s →
  (∀ ids refresh, match ids with Some l => proper_ids l | None => True end →
    match snapshot listener ids refresh s with
    | (Ok c, s') => validate_snapshot c = Ok tt ∧
                    assert_privacy (RuntimeSnapshot_as_dict c) = Some (Ok tt) ∧ ss_ok s'
    | (Raise e, s') => is_Exception e = false ∧ ss_ok s'
    end) ∧
  (∀ id success kind detail duration i o,
    match observe_execution listener id success kind detail duration i o s with
    | (Ok c, s') => validate_snapshot c = Ok tt ∧
                    assert_privacy (RuntimeSnapshot_as_dict c) = Some (Ok tt) ∧ ss_ok s'
    | (Raise e, s') => is_Exception e = false ∧ ss_ok s'
    end).
Proof.
  intros Hs. split.
  - intros ids refresh Hids. pose proof (snapshot_hoare ids refresh Hids s Hs) as Hr.
    destruct (snapshot _ _ _ s) as [[c|e] s']; [|done]. destruct Hr as [Hc Hs'].
    destruct (snapshot_ok_passes c Hc) as [Hv Hp]. exact (conj Hv (conj Hp Hs')).
  - intros id success kind detail duration i o.
    pose proof (observe_hoare id success kind detail duration i o s Hs) as Hr.
    destruct (observe_execution _ _ _ _ _ _ _ _ s) as [[c|e] s']; [|done].
    destruct Hr as [Hc Hs']. destruct (snapshot_ok_passes c Hc) as [Hv Hp].
    exact (conj Hv (conj Hp Hs')).
Qed.

(** ** The check before a launch *)

(** A snapshot of one harness that is taken now shows what the probe of now found. *)
Lemma take_one id s q qs :
  ss_ok s → id ≠ "" →
  probe id (λ e, [("probe_error", PStr (exn_class e))]) (ss_quota s) = (Ok q, qs) →
  ∃ c s', take_of listener [id] true s = (Ok c, s') ∧ rt_harnesses c = [harness_entry id q s] ∧
    dict_get id (ss_prior_availability s') = Some (qt_availability q).
Proof.
  intros Hs Hid Hp.
  assert (entry_ok (harness_entry id q s)) as He.
  { pose proof (probe_answers id (λ e, [("probe_error", PStr (exn_class e))]) (λ _, eq_refl) _
      (proj1 Hs)) as Ha. rewrite Hp in Ha. destruct Ha as [Hq _]. split.
    - apply entry_is_valid; [done..|apply Hs].
    - apply clean_entry. by destruct Hq as (_ & _ & Hf). }
  unfold take_of, build_all, _build_harness, in_quota, zoom, quota_snapshot, cache_put,
    snapshots_put, publish, guard_privacy, to_listener, in_quota, zoom, mbind, M_bind.
  cbn -[harness_entry validate_snapshot assert_privacy RuntimeSnapshot_as_dict]. rewrite Hp. cbn -[harness_entry validate_snapshot assert_privacy RuntimeSnapshot_as_dict].
  match goal with |- context [harness_entry id q ?x] =>
    change (harness_entry id q x) with (harness_entry id q s) end.
  match goal with |- context [validate_snapshot ?x] => assert (snapshot_ok x) as Hc; [|set (c := x) in *] end.
  { split_and!; [done|apply uuid_nonempty|change (NoDup [id]); apply NoDup_singleton|].
    by apply Forall_singleton. }
  destruct (snapshot_ok_passes c Hc) as [-> Hpriv]. cbn -[harness_entry validate_snapshot assert_privacy RuntimeSnapshot_as_dict].
  rewrite Hpriv. cbn -[harness_entry].
  destruct (listens c (ss_listening s)) as [d' ->]. exists c. eexists.
  split; [reflexivity|]. split; [done|]. apply dict_get_set_eq.
Qed.

Lemma harness_one id s q qs :
  ss_ok s → id ≠ "" →
  probe id (λ e, [("probe_error", PStr (exn_class e))]) (ss_quota s) = (Ok q, qs) →
  ∃ s', harness_snapshot listener id true s = (Ok (harness_entry id q s), s') ∧
    dict_get id (ss_prior_availability s') = Some (qt_availability q).
Proof.
  intros Hs Hid Hp. destruct (take_one id s q qs Hs Hid Hp) as (c & s' & Hc & He & Hd).
  exists s'. split; [|done]. unfold harness_snapshot.
  change (snapshot listener (Some [id]) true) with (take_of listener [id] true).
  unfold mbind, M_bind. rewrite Hc. unfold rt_harness. rewrite He. cbn -[harness_entry].
  by rewrite bool_decide_eq_true_2.
Qed.

Lemma blocked_has_code a : is_Some (_availability_to_code a) ↔ auto_blocked a = true.
Proof.
  destruct a; (split; [intros [c Hc]|intros Hb]); first [done | eexists; reflexivity].
Qed.

(** a run starts on a harness only when the probe made at that moment found it fit and its
    adapter declares every capability the run requires; the facts of the launch are those of the
    probe, not remembered ones. A refusal has one of these two grounds, and it never says that
    the runtime changed, since what was known before is overwritten by the probe. *)
Theorem launch_needs_a_fit_harness id required s q qs :
  ss_ok s → id ≠ "" →
  probe id (λ e, [("probe_error", PStr (exn_class e))]) (ss_quota s) = (Ok q, qs) →
  match (revalidate_for_launch listener id required None s).1 with
  | Ok e => e = harness_entry id q s ∧ auto_blocked (qt_availability q) = false ∧
            Forall (λ c, Capability_value c ∈ he_capabilities (harness_entry id q s)) required
  | Raise err => exn_class err = "RuntimeLaunchError" ∧ exn_code err ≠ "runtime_changed" ∧
            (auto_blocked (qt_availability q) = true ∨
             ∃ c, c ∈ required ∧ Capability_value c ∉ he_capabilities (harness_entry id q s))
  end.
Proof.
  intros Hs Hid Hp. destruct (harness_one id s q qs Hs Hid Hp) as (s' & He & Hd).
  unfold revalidate_for_launch. unfold mbind at 1, M_bind at 1. rewrite He.
  set (e := harness_entry id q s) in *.
  unfold mbind at 1, M_bind at 1. cbn [get_state]. rewrite Hd.
  set (lacking := List.filter _ _).
  assert (he_availability e = qt_availability q) as Ha by done. rewrite Ha.
  destruct (negb (sorted_strs lacking == [])) eqn:Hm.
  - cbn. split_and!; [done..|right]. apply negb_true_iff, bool_decide_eq_false in Hm.
    destruct lacking as [|x l] eqn:El; [done|].
    assert (x ∈ lacking) as Hx by (rewrite El; apply list_elem_of_here).
    apply elem_of_filter_bool in Hx as [Hx Hn]. boolify.
    apply list_elem_of_fmap in Hx as (c & -> & Hc). by exists c.
  - apply negb_false_iff, bool_decide_eq_true in Hm.
    assert (Forall (λ c, Capability_value c ∈ he_capabilities e) required) as Hall.
    { apply Forall_forall. intros c Hc. destruct (decide (Capability_value c ∈ he_capabilities e))
        as [|Hn]; [done|].
      assert (Capability_value c ∈ sorted_strs lacking) as Hin; [|by rewrite Hm in Hin; inversion Hin].
      apply (elem_of_py_sorted str_leb), elem_of_filter_bool. split; [by apply list_elem_of_fmap_2|].
      by rewrite bool_decide_eq_false_2. }
    destruct (_availability_to_code (qt_availability q)) as [code|] eqn:Hcode.
    + assert (auto_blocked (qt_availability q) = true) as Hb
        by (apply blocked_has_code; by eexists).
      assert ((Some (qt_availability q) == Some AV_READY) = false) as ->.
      { apply bool_decide_eq_false. intros [= Hr]. by rewrite Hr in Hb. }
      cbn. split_and!; [done| |by left].
      by destruct (qt_availability q); simplify_eq/=.
    + cbn. split_and!; [done| |done]. destruct (auto_blocked (qt_availability q)) eqn:Hb; [|done].
      apply blocked_has_code in Hb as [? Hb]. congruence.
Qed.
End snapshots.

(** ** On concrete inputs *)

(** The plain sum, from the left. *)
Definition plain_sum : SumLib := {| py_sum := foldl fadd (z_to_float 0) |}.
Lemma plain_sum_laws : @SumLaws plain_sum.
Proof.
  assert (∀ l a, Forall (λ x, fle (z_to_float 0) x = true) l → fle (z_to_float 0) a = true →
    fle (z_to_float 0) (foldl fadd a l) = true) as Hsum.
  { induction l as [|x l IH]; intros a Hl Ha; [done|]. apply Forall_cons in Hl as [Hx Hl].
    by apply IH, fadd_not_negative. }
  split. intros l Hl _. by apply Hsum.
Qed.

(** A machine on which Codex is installed and the user is logged in. *)
Definition a_host : Host :=
  {| ho_which p := if p == "codex" then Some "/bin/codex" else None;
     ho_run _ := CliDone 0 "Logged in using ChatGPT" ""; ho_environ _ := None;
     ho_settings := None; ho_json _ := None |}.
Definition working : QuotaLib := {| monotonic _ := z_to_float 0; host _ := a_host |}.

Definition named_lib : PyLib :=
  {| float_repr _ := "0.0"; float_of_str _ := None; sha256_hex s := s; isoformat t := pretty t;
     fromisoformat := int_of_str; clock n := Z.of_nat n; uuid_hex n := pretty n;
     uuid_str n := "id-" +:+ pretty n |}.

(** The listener of the examples keeps what it hears. *)
Definition note (c : RuntimeSnapshot) : M (list RuntimeSnapshot) unit := modify_state (cons c).
Lemma note_listens c d : ∃ d', note c d = (Ok tt, d').
Proof. by exists (c :: d). Qed.

Definition a_snapshot_service : SnapshotService (list RuntimeSnapshot) :=
  {| ss_quota := a_quota_service; ss_registry := a_registry; ss_extra_ids := ["codex"; "claude-code"];
     ss_observations := []; ss_ttl := z_to_float 60; ss_entry := None;
     ss_prior_availability := []; ss_latest := None; ss_uuids := 0; ss_listening := [] |}.

Lemma a_snapshot_service_ok : @ss_ok named_lib _ a_snapshot_service.
Proof.
  split_and!; try done; [apply a_quota_service_ok|constructor|].
  vm_compute. by repeat constructor.
Qed.

Abbreviation first_snapshot :=
  (@snapshot named_lib working plain_sum _ note (Some ["codex"]) true a_snapshot_service).
Abbreviation the_first := (from_ok (Build_RuntimeSnapshot "" 0 [] 0) first_snapshot.1).

Lemma named_uuids n : @uuid_str named_lib n ≠ "".
Proof. done. Qed.
Lemma codex_is_proper : proper_ids ["codex"].
Proof. split; [apply NoDup_singleton|by constructor]. Qed.

Lemma first_snapshot_eq : first_snapshot = (Ok the_first, first_snapshot.2).
Proof. apply surjective_pairing_Ok, from_ok_eq. vm_compute; reflexivity. Qed.

Lemma snapshots_are_always_valid_witness :
  he_availability <$> rt_harness "codex" the_first = Some AV_READY ∧
  validate_snapshot the_first = Ok tt.
Proof.
  split; [vm_compute; reflexivity|].
  pose proof (proj1 (@snapshots_are_always_valid named_lib working plain_sum plain_sum_laws _ note
    named_uuids note_listens a_snapshot_service a_snapshot_service_ok) (Some ["codex"]) true
    codex_is_proper) as Hs.
  rewrite first_snapshot_eq in Hs. exact (proj1 Hs).
Defined.

(** The probe of Codex on that machine, and the check of a launch that needs to read files. *)
Definition codex_probe : res QuotaSnapshot * QuotaService :=
  @probe named_lib working "codex" (λ e, [("probe_error", PStr (exn_class e))]) a_quota_service.
Definition codex_quota : QuotaSnapshot := from_ok (_unknown "" [] 0) codex_probe.1.

Lemma launch_needs_a_fit_harness_witness :
  (@revalidate_for_launch named_lib working plain_sum _ note "codex" [C_FILE_READ] None
     a_snapshot_service).1
    = Ok (@harness_entry named_lib plain_sum _ "codex" codex_quota a_snapshot_service) ∧
  auto_blocked (qt_availability codex_quota) = false.
Proof.
  pose proof (@launch_needs_a_fit_harness named_lib working plain_sum plain_sum_laws _ note
    named_uuids note_listens "codex" [C_FILE_READ] a_snapshot_service codex_quota codex_probe.2
    a_snapshot_service_ok ltac:(done)) as Hl.
  assert (codex_probe = (Ok codex_quota, codex_probe.2)) as E.
  { apply surjective_pairing_Ok, from_ok_eq. vm_compute; reflexivity. }
  specialize (Hl E).
  assert (res_ok (@revalidate_for_launch named_lib working plain_sum _ note "codex" [C_FILE_READ]
    None a_snapshot_service).1 = true) as Hok by (vm_compute; reflexivity).
  destruct (@revalidate_for_launch _ _ _ _ _ _ _ _ _).1 as [e|e]; [|done].
  destruct Hl as (-> & Hb & _). by split.
Defined.

(** A snapshot of one harness takes the place of the whole one in the cache: whoever asks for
    the mesh next sees that harness alone. *)
Example one_harness_hides_the_others :
  let whole s := (@snapshot named_lib working plain_sum _ note None false s).1 in
  let ids r := match r with Ok c => he_harness_id <$> rt_harnesses c | Raise _ => [] end in
  ids (whole a_snapshot_service) = ["claude-code"; "codex"; "gemini-cli"; "grok"; "opencode"] ∧
  ids (whole (@harness_snapshot named_lib working plain_sum _ note "codex" true
                a_snapshot_service).2) = ["codex"].
Proof. vm_compute. by split. Qed.

(** Output of a run is published. The detail of a failed run holds the last lines it printed;
    the observation keeps its first 240 characters under a key the guard lets pass, and so they
    are in the snapshot the listeners get, which is not to hold terminal output. *)
Definition published_detail (s : SnapshotService (list RuntimeSnapshot)) : option pyval :=
  c ← ss_latest s;
  e ← rt_harness "codex" c;
  match dget "last_observation" (qt_raw_metadata (he_quota e)) with
  | PDict d => dict_get "detail" d
  | _ => None
  end.
Example output_of_a_run_is_published :
  published_detail
    (@observe_execution named_lib working plain_sum _ note "codex" false (Some FK_PROCESS)
       (Some "Harness exited with status 1: def secret_algorithm(): return 42") None 0 0
       a_snapshot_service).2
  = Some (PStr "Harness exited with status 1: def secret_algorithm(): return 42") ∧
  forbidden "terminal_output" = true ∧ forbidden "source_code" = true.
Proof. vm_compute. by split_and!. Qed.
