(* ===== verification/LaunchValidation.v ===== *)
(** * Directives: launches that another program decided

    [diagnostics/codes.py], [execution/directive.py] and [execution/validation.py]. A caller that
    routed by itself sends a directive; the mesh checks that it is fresh, authorised, allowed as a
    fallback, and that the harness it names can run now. Reading the directive from JSON is
    pydantic's, a parameter of the operations that do. *)

From S2P Require Import Prelude.
From S2P Require Import SessionModels.
From S2P Require Import HarnessRegistry.
From S2P Require Import Quota.
From S2P Require Import RuntimeSnapshots.

(** ** Diagnostic codes *)

(* @src diagnostics/codes.py:12-27 ProviderDiagnosticCode *)
Inductive ProviderDiagnosticCode :=
| PD_CREDENTIAL_MISSING | PD_AUTHENTICATION_REQUIRED | PD_AUTHENTICATION_EXPIRED
| PD_CONFIGURATION_REQUIRED | PD_QUOTA_EXHAUSTED | PD_RATE_LIMITED | PD_PROVIDER_UNAVAILABLE
| PD_UNSUPPORTED_VERSION | PD_UNKNOWN_FAILURE | PD_READY | PD_OFFLINE | PD_CAPABILITY_MISMATCH
| PD_DIRECTIVE_EXPIRED | PD_FALLBACK_NOT_AUTHORIZED | PD_RUNTIME_CHANGED.
#[export] Instance ProviderDiagnosticCode_eq_dec : EqDecision ProviderDiagnosticCode.
Proof. solve_decision. Defined.
(* @src diagnostics/codes.py:12-27 ProviderDiagnosticCode *)
Definition ProviderDiagnosticCode_value (c : ProviderDiagnosticCode) : string :=
  match c with
  | PD_CREDENTIAL_MISSING => "credential_missing"
  | PD_AUTHENTICATION_REQUIRED => "authentication_required"
  | PD_AUTHENTICATION_EXPIRED => "authentication_expired"
  | PD_CONFIGURATION_REQUIRED => "configuration_required"
  | PD_QUOTA_EXHAUSTED => "quota_exhausted" | PD_RATE_LIMITED => "rate_limited"
  | PD_PROVIDER_UNAVAILABLE => "provider_unavailable"
  | PD_UNSUPPORTED_VERSION => "unsupported_version" | PD_UNKNOWN_FAILURE => "unknown_failure"
  | PD_READY => "ready" | PD_OFFLINE => "offline"
  | PD_CAPABILITY_MISMATCH => "capability_mismatch"
  | PD_DIRECTIVE_EXPIRED => "directive_expired"
  | PD_FALLBACK_NOT_AUTHORIZED => "fallback_not_authorized"
  | PD_RUNTIME_CHANGED => "runtime_changed"
  end.

(* @src diagnostics/codes.py:30-43 from_availability *)
Definition from_availability (a : Availability) : ProviderDiagnosticCode :=
  match a with
  | AV_READY => PD_READY | AV_AUTHENTICATION_REQUIRED => PD_AUTHENTICATION_REQUIRED
  | AV_CONFIGURATION_REQUIRED => PD_CONFIGURATION_REQUIRED
  | AV_QUOTA_EXHAUSTED => PD_QUOTA_EXHAUSTED | AV_RATE_LIMITED => PD_RATE_LIMITED
  | AV_OFFLINE => PD_OFFLINE | AV_PROVIDER_UNAVAILABLE => PD_PROVIDER_UNAVAILABLE
  | AV_UNKNOWN => PD_UNKNOWN_FAILURE
  end.

(* @src diagnostics/codes.py:46-58 from_failure_kind *)
Definition from_failure_kind (k : FailureKind) : ProviderDiagnosticCode :=
  match k with
  | FK_AUTHENTICATION => PD_AUTHENTICATION_REQUIRED | FK_QUOTA_EXHAUSTED => PD_QUOTA_EXHAUSTED
  | FK_RATE_LIMIT => PD_RATE_LIMITED | FK_UNSUPPORTED => PD_UNSUPPORTED_VERSION
  | FK_INVALID_REQUEST => PD_CONFIGURATION_REQUIRED | FK_TIMEOUT => PD_PROVIDER_UNAVAILABLE
  | FK_PROCESS => PD_UNKNOWN_FAILURE | FK_TURN_LIMIT => PD_QUOTA_EXHAUSTED
  | FK_UNKNOWN => PD_UNKNOWN_FAILURE
  end.

(* @src diagnostics/codes.py:61-76 from_runtime_validation *)
Definition from_runtime_validation (c : RuntimeValidationCode) : ProviderDiagnosticCode :=
  match c with
  | RV_QUOTA_EXHAUSTED => PD_QUOTA_EXHAUSTED
  | RV_AUTHENTICATION_REQUIRED => PD_AUTHENTICATION_REQUIRED
  | RV_CONFIGURATION_REQUIRED => PD_CONFIGURATION_REQUIRED
  | RV_CAPABILITY_MISMATCH => PD_CAPABILITY_MISMATCH
  | RV_PROVIDER_UNAVAILABLE => PD_PROVIDER_UNAVAILABLE | RV_RUNTIME_CHANGED => PD_RUNTIME_CHANGED
  | RV_RATE_LIMITED => PD_RATE_LIMITED | RV_OFFLINE => PD_OFFLINE
  end.

(* @src diagnostics/codes.py:79-99 classify_detail *)
Definition classify_detail (detail : option string) : ProviderDiagnosticCode :=
  let low := lower (default "" detail) in
  let has part := str_in part low in
  if has "credential" && (has "missing" || has "not found") then PD_CREDENTIAL_MISSING
  else if has "expired" && (has "auth" || has "token" || has "login") then
    PD_AUTHENTICATION_EXPIRED
  else if has "api key" || has "configuration" then PD_CONFIGURATION_REQUIRED
  else if has "not logged" || has "authentication" || has "unauthorized" then
    PD_AUTHENTICATION_REQUIRED
  else if has "out of credits" || has "quota" then PD_QUOTA_EXHAUSTED
  else if has "rate limit" || has "429" then PD_RATE_LIMITED
  else if has "unsupported version" || has "upgrade required" then PD_UNSUPPORTED_VERSION
  else if has "unavailable" || has "offline" then PD_PROVIDER_UNAVAILABLE
  else PD_UNKNOWN_FAILURE.

(** ** Directives *)

(* @src execution/directive.py:13-27 ExecutionDirective *)
Record ExecutionDirective := {
  xd_execution_id : string;
  xd_attempt_id : string;
  xd_selected_harness : string;
  xd_allowed_fallbacks : list string;
  xd_required_capabilities : list Capability;
  xd_routing_decision_id : string;
  xd_runtime_projection_revision : string;
  xd_authorization_reference : string;
  xd_expires_at : Z;
  xd_fallback_authorization_references : list string
}.

(* @src execution/validation.py:15-27 DirectiveValidationError *)
Definition DirectiveValidationError (code : ProviderDiagnosticCode) (m : string) : exn :=
  Exn "DirectiveValidationError" (ProviderDiagnosticCode_value code) m.
Definition is_RuntimeLaunchError (e : exn) : bool := exn_class e == "RuntimeLaunchError".

(** The codes of a refused launch are diagnostic codes under the same names. *)
(* @src execution/validation.py:106-128 validate_directive *)
Definition as_directive_error (e : exn) : exn :=
  match enum_of RuntimeValidationCode_value
          [RV_QUOTA_EXHAUSTED; RV_AUTHENTICATION_REQUIRED; RV_CONFIGURATION_REQUIRED;
           RV_CAPABILITY_MISMATCH; RV_PROVIDER_UNAVAILABLE; RV_RUNTIME_CHANGED; RV_RATE_LIMITED;
           RV_OFFLINE] (exn_code e) with
  | Some c => DirectiveValidationError (from_runtime_validation c) (exn_msg e)
  | None => DirectiveValidationError PD_UNKNOWN_FAILURE (exn_msg e)
  end.

(** What a directive says for itself, with the time and the harnesses the user enabled. *)
(* @src execution/validation.py:40-90 validate_directive *)
Definition directive_claims (now : Z) (enabled_harnesses : list string)
    (harness_enabled : option bool) (is_fallback : bool) (d : ExecutionDirective) : res unit :=
  let refuse code m := Raise (DirectiveValidationError code m) in
  let enabled := match harness_enabled with
                 | Some b => b
                 | None => (enabled_harnesses == []) ||
                           (xd_selected_harness d in? enabled_harnesses)
                 end in
  if (xd_expires_at d <=? now)%Z then
    refuse PD_DIRECTIVE_EXPIRED "execution directive has expired"
  else if strip (xd_authorization_reference d) == "" then
    refuse (if is_fallback then PD_FALLBACK_NOT_AUTHORIZED else PD_UNKNOWN_FAILURE)
      "authorization reference is required"
  else if is_fallback && negb (xd_selected_harness d in? xd_allowed_fallbacks d) then
    refuse PD_FALLBACK_NOT_AUTHORIZED "selected harness is not an authorized fallback"
  else if is_fallback && negb (xd_fallback_authorization_references d == []) &&
          negb (xd_authorization_reference d in? xd_fallback_authorization_references d) then
    refuse PD_FALLBACK_NOT_AUTHORIZED "fallback authorization reference is not approved"
  else if negb enabled then
    refuse PD_PROVIDER_UNAVAILABLE ("harness disabled: " +:+ xd_selected_harness d)
  else Ok tt.

Section validation.
Context `{PyLib, QuotaLib, SumLib} {D : Type} (listener : RuntimeSnapshot → M D unit).

Definition remap (f : exn → exn) (these : exn → bool) {A} (m : M (SnapshotService D) A) :
    M (SnapshotService D) A :=
  catch m (λ e, raise (if these e then f e else e)).

(** [KeyError] of the registry becomes a refusal; so does a refused launch. *)
(* @src execution/validation.py:30-139 validate_directive *)
Definition validate_directive (d : ExecutionDirective) (enabled_harnesses : list string)
    (harness_enabled : option bool) (is_fallback : bool) : M (SnapshotService D) unit :=
  now ← in_quota qs_now;
  lift_res (directive_claims now enabled_harnesses harness_enabled is_fallback d);;
  s ← get_state;
  remap (λ _, DirectiveValidationError PD_PROVIDER_UNAVAILABLE
                ("unknown harness: " +:+ xd_selected_harness d))
    (λ e, exn_class e == "KeyError")
    (lift_res (get_adapter (ss_registry s) (xd_selected_harness d)));;
  remap as_directive_error is_RuntimeLaunchError
    (revalidate_for_launch listener (xd_selected_harness d) (xd_required_capabilities d) None);;
  e ← harness_snapshot listener (xd_selected_harness d) false;
  if auto_blocked (he_availability e) then
    raise (DirectiveValidationError (from_availability (he_availability e))
             ("harness unavailable: " +:+ Availability_value (he_availability e)))
  else mret tt.

(** ** What an accepted directive was *)

(** A harness that passes the check has what is required and is not blocked. *)
Definition fit (required : list Capability) (e : HarnessRuntimeSnapshot) : Prop :=
  auto_blocked (he_availability e) = false ∧
  ∀ c, c ∈ required → Capability_value c ∈ he_capabilities e.

Lemma revalidated_is_fit id required prior s e s' :
  revalidate_for_launch listener id required prior s = (Ok e, s') → fit required e.
Proof.
  unfold revalidate_for_launch. intros Hr.
  apply bind_Ok_inv in Hr as (e1 & s1 & _ & Hr). apply bind_Ok_inv in Hr as (s2 & s3 & _ & Hr).
  cbv zeta in Hr. set (lacking := List.filter _ _) in Hr.
  destruct (negb (sorted_strs lacking == [])) eqn:Hm; [done|].
  destruct (_availability_to_code (he_availability e1)) eqn:Hc; [by destruct (_ && _)|].
  injection Hr as <- <-. split.
  - destruct (auto_blocked (he_availability e1)) eqn:Hb; [|done].
    apply blocked_has_code in Hb as [? Hb]. congruence.
  - intros c Hin. apply negb_false_iff, bool_decide_eq_true in Hm.
    destruct (decide (Capability_value c ∈ he_capabilities e1)) as [|Hn]; [done|].
    assert (Capability_value c ∈ sorted_strs lacking) as Hl; [|by rewrite Hm in Hl; inversion Hl].
    apply (elem_of_py_sorted str_leb), elem_of_filter_bool. split; [by apply list_elem_of_fmap_2|].
    by rewrite bool_decide_eq_false_2.
Qed.

Lemma remap_Ok f these {A} (m : M (SnapshotService D) A) s a s' :
  remap f these m s = (Ok a, s') → m s = (Ok a, s').
Proof. by intros [|(e & s1 & _ & ?)]%catch_Ok_inv. Qed.

(** A directive is followed only when it had not expired, names an authorization, and, for
    a fallback, names a harness it allows as one under a reference that is approved; the harness
    is registered, enabled, and was found fit by a probe made for this launch. *)
Theorem accepted_directive_is_authorised d prefs enabled is_fallback s s' :
  validate_directive d prefs enabled is_fallback s = (Ok tt, s') →
  (clock (qs_clock (ss_quota s)) < xd_expires_at d)%Z ∧
  strip (xd_authorization_reference d) ≠ "" ∧
  (is_fallback = true →
     xd_selected_harness d ∈ xd_allowed_fallbacks d ∧
     (xd_fallback_authorization_references d ≠ [] →
      xd_authorization_reference d ∈ xd_fallback_authorization_references d)) ∧
  (enabled = None → prefs ≠ [] → xd_selected_harness d ∈ prefs) ∧ enabled ≠ Some false ∧
  (∃ a, get_adapter (ss_registry s) (xd_selected_harness d) = Ok a) ∧
  ∃ s1 e s2, revalidate_for_launch listener (xd_selected_harness d) (xd_required_capabilities d)
               None s1 = (Ok e, s2) ∧ fit (xd_required_capabilities d) e.
Proof.
  unfold validate_directive. intros Hv.
  apply bind_Ok_inv in Hv as (now & s1 & Hn & Hv). injection Hn as <- <-.
  apply bind_Ok_inv in Hv as (u & s2 & Hc & Hv).
  apply bind_Ok_inv in Hv as (s3 & s4 & Hg & Hv). injection Hg as <- <-.
  apply bind_Ok_inv in Hv as (a & s5 & Ha & Hv). apply remap_Ok in Ha.
  apply bind_Ok_inv in Hv as (e & s6 & He%remap_Ok & Hv).
  injection Hc as Hc <-. injection Ha as Ha <-. clear Hv.
  unfold directive_claims in Hc.
  destruct (xd_expires_at d <=? _)%Z eqn:E1; [done|].
  destruct (strip _ == "") eqn:E2; [done|].
  destruct (is_fallback && negb (_ in? _)) eqn:E3; [done|].
  destruct (is_fallback && _ && _) eqn:E4; [done|].
  match type of Hc with (if negb ?b then _ else _) = _ => destruct b eqn:E5; [|done] end.
  split_and!.
  - lia.
  - by apply bool_decide_eq_false in E2.
  - intros ->. simpl in E3, E4. apply negb_false_iff, bool_decide_eq_true in E3.
    split; [done|]. intros Hr. rewrite (bool_decide_eq_false_2 _ Hr) in E4. simpl in E4.
    by apply negb_false_iff, bool_decide_eq_true in E4.
  - intros -> Hp. rewrite (bool_decide_eq_false_2 _ Hp) in E5. by apply bool_decide_eq_true in E5.
  - by intros ->.
  - by exists a.
  - do 3 eexists. split; [exact He|]. by eapply revalidated_is_fit.
Qed.
End validation.

(** ** On concrete inputs *)

Definition a_directive : ExecutionDirective :=
  {| xd_execution_id := "x1"; xd_attempt_id := "a1"; xd_selected_harness := "codex";
     xd_allowed_fallbacks := ["codex"]; xd_required_capabilities := [C_FILE_WRITE];
     xd_routing_decision_id := "r1"; xd_runtime_projection_revision := "v1";
     xd_authorization_reference := "auth-1"; xd_expires_at := 100;
     xd_fallback_authorization_references := ["auth-1"] |}.

Abbreviation check_directive :=
  (@validate_directive named_lib working plain_sum _ note a_directive ["codex"] None true
     a_snapshot_service).

Lemma accepted_directive_is_authorised_witness :
  check_directive.1 = Ok tt ∧ "codex" ∈ ["codex"] ∧ (0 < 100)%Z.
Proof.
  assert (check_directive = (Ok tt, check_directive.2)) as E.
  { apply surjective_pairing_Ok. vm_compute; reflexivity. }
  pose proof (@accepted_directive_is_authorised named_lib working plain_sum _ note a_directive
    ["codex"] None true a_snapshot_service _ E) as (Ht & _ & Hf & _).
  split; [by rewrite E|]. split; [exact (proj1 (Hf eq_refl))|exact Ht].
Defined.

(** A login that is missing is told from one that ran out. *)
Example details_are_told_apart :
  classify_detail (Some "Not logged in") = PD_AUTHENTICATION_REQUIRED ∧
  classify_detail (Some "Login expired") = PD_AUTHENTICATION_EXPIRED ∧
  classify_detail (Some "HTTP 429") = PD_RATE_LIMITED ∧ classify_detail None = PD_UNKNOWN_FAILURE.
Proof. vm_compute. by split_and!. Qed.
