(* ===== verification/SessionRouting.v ===== *)
(** * Routes of a run: which harness, paid by which subscription

    [routing.py]. The router scores a candidate for every registered harness and each of its
    subscriptions, closes the routes that may not be taken, and selects the best of the open ones.
    The subscriptions, the number of active runs and what is installed are arguments: the database
    and the machine do not change while a preview is made. *)

From Stdlib Require Import SpecFloat.
From S2P Require Import Prelude.
From S2P Require Import SessionModels.
From S2P Require Import HarnessRegistry.
From S2P Require Import Quota.

(** The text of a float in the general format, the interpreter's. *)
Class FmtLib := { fmt_g : spec_float → string }.

(** [round(x, 4)]: the float next to the decimal. From 2^53 ten-thousandths on the decimal is
    closer to the number itself than to any other float. *)
Definition round4 (f : spec_float) : spec_float :=
  match f with
  | S754_finite sg m e =>
      let z := fixed_digits 4 m e in
      if (z <? 2 ^ 53)%Z then
        let r := fdiv (z_to_float z) (z_to_float 10000) in if sg then SFopp r else r
      else f
  | _ => f
  end.

(** A candidate while it is judged. *)
Record Judged := { jd_score : spec_float; jd_eligible : bool; jd_reasons : list string }.
Definition because (reason : string) (j : Judged) : Judged :=
  {| jd_score := jd_score j; jd_eligible := jd_eligible j; jd_reasons := jd_reasons j ++ [reason] |}.
Definition closed_if (closed : bool) (reason : string) (j : Judged) : Judged :=
  if closed then {| jd_score := jd_score j; jd_eligible := false;
                    jd_reasons := jd_reasons j ++ [reason] |} else j.
Definition add_score (x : spec_float) (j : Judged) : Judged :=
  {| jd_score := fadd (jd_score j) x; jd_eligible := jd_eligible j; jd_reasons := jd_reasons j |}.
Definition sub_score (x : spec_float) (j : Judged) : Judged :=
  {| jd_score := fsub (jd_score j) x; jd_eligible := jd_eligible j; jd_reasons := jd_reasons j |}.

Section router.
Context `{FmtLib}.

(** What a candidate is judged on. *)
Record Candidate := {
  ca_request : RoutePreviewRequest;
  ca_available : bool;
  ca_profile : option SubscriptionProfile;
  ca_harness_id : string;
  ca_capabilities : list Capability;
  ca_concurrency : Z;
  ca_maturity : AdapterMaturity;
  ca_certified : bool;
  ca_quota : option QuotaSnapshot;
  ca_active : Z
}.

Implicit Types c : Candidate.

(* @src routing.py:87-100 Router._candidate *)
Definition judge_adapter c (j : Judged) : Judged :=
  let immature := (ca_maturity c == MAT_EXPERIMENTAL) || (ca_maturity c == MAT_DISCOVERY_ONLY) in
  let j := because ("adapter maturity " +:+ AdapterMaturity_value (ca_maturity c))
             (if immature then sub_score (z_to_float 10) j else j) in
  if ca_certified c then because "adapter conformance passed" j
  else because "adapter conformance not certified" (sub_score (z_to_float 5) j).

Definition missing_of c : list string :=
  missing_capabilities (ca_capabilities c) (pq_required_capabilities (ca_request c)).

(* @src routing.py:102-120 Router._candidate *)
Definition judge_request c (j : Judged) : Judged :=
  let q := ca_request c in
  let j := closed_if (negb (ca_available c)) "harness unavailable" j in
  let j := match missing_of c with
           | [] => because "required capabilities satisfied" j
           | l => closed_if true ("missing capabilities: " +:+ join ", " l) j
           end in
  let j := if pq_preferred_harness q == Some (ca_harness_id c)
           then because "user preferred harness" (add_score (z_to_float 25) j) else j in
  let j := closed_if (negb (pq_allowed_harnesses q == []) &&
                      negb (ca_harness_id c in? pq_allowed_harnesses q))
             "excluded by harness allowlist" j in
  closed_if (ca_harness_id c in? pq_denied_harnesses q) "excluded by harness denylist" j.

(** The allowlist is this harness and nothing else. *)
(* @src routing.py:125-127 Router._candidate *)
Definition explicit_request c : bool :=
  (length (pq_allowed_harnesses (ca_request c)) =? 1)%nat &&
  (ca_harness_id c in? pq_allowed_harnesses (ca_request c)).

(* @src routing.py:128-137 Router._candidate *)
Definition judge_quota c (j : Judged) : Judged :=
  match ca_quota c with
  | None => j
  | Some s =>
      let '(hard_block, delta, reason) := routing_adjustment s (explicit_request c) in
      closed_if hard_block reason
        (if hard_block then add_score delta j else because reason (add_score delta j))
  end.

(** What is left of a manual quota, with the fraction the reason shows. *)
(* @src routing.py:158-169 Router._candidate *)
Definition judge_amount (p : SubscriptionProfile) (j : Judged) : Judged :=
  match sp_monthly_limit p with
  | Some limit =>
      if sp_quota_known p then
        let remaining := default (z_to_float 0) (remaining_fraction p) in
        let j := add_score (fmul remaining (z_to_float 10)) j in
        if fle (max_zero (fsub limit (sp_used_amount p))) (sp_quota_reserve p) then
          closed_if true "configured quota reserve reached" j
        else because ("manual quota " +:+ fmt_fixed 0 (fmul remaining (z_to_float 100)) +:+
                      "% remaining") j
      else because "unknown quota uncertainty penalty" (sub_score (z_to_float 15) j)
  | None =>
      if sp_quota_known p then j
      else because "unknown quota uncertainty penalty" (sub_score (z_to_float 15) j)
  end.

(* @src routing.py:139-175 Router._candidate *)
Definition judge_profile c (j : Judged) : Judged :=
  match ca_profile c with
  | Some p =>
      let j := closed_if (negb (sp_enabled p)) "subscription disabled" j in
      let j := closed_if (sp_state p == SUB_RATE_LIMITED) "subscription rate limited" j in
      let j := closed_if (sp_state p == SUB_EXHAUSTED) "subscription exhausted" j in
      let approved := pq_paid_routes_approved (ca_request c) in
      let j := if sp_requires_paid_approval p && negb approved then
                 closed_if true "paid route requires approval" j
               else if sp_requires_paid_approval p then because "paid route approved" j else j in
      because ("cost weight " +:+ fmt_g (sp_cost_weight p))
        (sub_score (sp_cost_weight p) (judge_amount p j))
  | None => closed_if true "no funding profile" (sub_score (z_to_float 30) j)
  end.

(* @src routing.py:140-143 Router._candidate *)
Definition concurrency_limit c : Z :=
  match ca_profile c with
  | Some p => Z.min (ca_concurrency c) (sp_max_concurrency p)
  | None => ca_concurrency c
  end.

(* @src routing.py:177-184 Router._candidate *)
Definition judge_concurrency c (j : Judged) : Judged :=
  let text := " (" +:+ pretty (ca_active c) +:+ "/" +:+ pretty (concurrency_limit c) +:+ ")" in
  if (concurrency_limit c <=? ca_active c)%Z then
    closed_if true ("concurrency limit reached" +:+ text) j
  else because ("concurrency available" +:+ text) j.

(* @src routing.py:71-192 Router._candidate *)
Definition _candidate c : RouteCandidate :=
  let j := judge_concurrency c (judge_profile c (judge_quota c (judge_request c (judge_adapter c
             {| jd_score := z_to_float 100; jd_eligible := true; jd_reasons := [] |})))) in
  {| rc_harness_id := ca_harness_id c; rc_subscription_id := sp_id <$> ca_profile c;
     rc_score := round4 (jd_score j); rc_eligible := jd_eligible j; rc_reasons := jd_reasons j |}.

(** ** The preview *)

(** [a < b] of the sort keys: open before closed, then the higher score, then the names. *)
(* @src routing.py:60-67 Router.preview *)
Definition before (a b : RouteCandidate) : bool :=
  let score r := SFopp (rc_score r) in
  let sub r := default "" (rc_subscription_id r) in
  let str_lt x y := str_leb x y && (x != y) in
  if negb (Bool.eqb (rc_eligible a) (rc_eligible b)) then rc_eligible a
  else if sf_eqb (score a) (score b) then
    (if rc_harness_id a == rc_harness_id b then str_lt (sub a) (sub b)
     else str_lt (rc_harness_id a) (rc_harness_id b))
  else flt (score a) (score b).
(* @src routing.py:60-67 Router.preview *)
Definition rank (l : list RouteCandidate) : list RouteCandidate :=
  py_sorted (λ a b, negb (before b a)) l.
(* @src routing.py:68-69 Router.preview *)
Definition preview_of (l : list RouteCandidate) : RoutePreview :=
  {| rp_selected := List.find rc_eligible (rank l); rp_candidates := rank l |}.
End router.

Section preview.
Context `{PyLib, QuotaLib, FmtLib}.
(** The registry, what is installed, the subscriptions in the order of the database, the
    number of active runs of a harness and a subscription, and whether quotas are looked at. *)
Context (registry : Registry) (installed : HarnessAdapter → option string)
  (subscriptions : list SubscriptionProfile) (active : string → option string → Z)
  (with_quota : bool).

(** The subscriptions of a harness; one empty place where it has none. *)
(* @src routing.py:42-44 Router.preview *)
Definition profiles_of (harness_id : string) : list (option SubscriptionProfile) :=
  match List.filter (λ p, sp_harness_id p == harness_id) subscriptions with
  | [] => [None]
  | l => Some <$> l
  end.

(** The quota is asked for every candidate; the cache answers from the second on. *)
(* @src routing.py:46-58 Router.preview *)
Fixpoint candidates_of (request : RoutePreviewRequest) (a : HarnessAdapter)
    (maturity : AdapterMaturity) (profiles : list (option SubscriptionProfile)) :
    M QuotaService (list RouteCandidate) :=
  match profiles with
  | [] => mret []
  | p :: profiles =>
      q ← (if with_quota then s ← quota_snapshot (ad_id a) false; mret (Some s) else mret None);
      l ← candidates_of request a maturity profiles;
      mret (_candidate
        {| ca_request := request; ca_available := bool_decide (is_Some (installed a));
           ca_profile := p; ca_harness_id := ad_id a;
           ca_capabilities := mf_capabilities (ad_manifest a);
           ca_concurrency := mf_max_concurrency (ad_manifest a); ca_maturity := maturity;
           ca_certified := ad_conformance_passed a; ca_quota := q;
           ca_active := active (ad_id a) (sp_id <$> p) |} :: l)
  end.

(* @src routing.py:39-58 Router.preview *)
Fixpoint all_candidates (request : RoutePreviewRequest) (adapters : list HarnessAdapter) :
    M QuotaService (list RouteCandidate) :=
  match adapters with
  | [] => mret []
  | a :: adapters =>
      d ← lift_res (definition registry (ad_id a));
      l ← candidates_of request a (hdf_maturity d) (profiles_of (ad_id a));
      l' ← all_candidates request adapters;
      mret (l ++ l')
  end.

(* @src routing.py:31-69 Router.preview *)
Definition preview (request : RoutePreviewRequest) : M QuotaService RoutePreview :=
  l ← all_candidates request (list_adapters registry);
  mret (preview_of l).
End preview.

(** ** When a route is open *)

Section eligibility.
Context `{FmtLib}.

Lemma closed_if_eligible b r j : jd_eligible (closed_if b r j) = jd_eligible j && negb b.
Proof. destruct b; simpl; [by rewrite andb_false_r|by rewrite andb_true_r]. Qed.

Lemma judge_adapter_eligible c j : jd_eligible (judge_adapter c j) = jd_eligible j.
Proof. unfold judge_adapter. by destruct (_ || _), (ca_certified c). Qed.

Definition request_allows (c : Candidate) : bool :=
  let q := ca_request c in
  ca_available c && (missing_of c == []) &&
  ((pq_allowed_harnesses q == []) || (ca_harness_id c in? pq_allowed_harnesses q)) &&
  negb (ca_harness_id c in? pq_denied_harnesses q).

Lemma judge_request_eligible c j :
  jd_eligible (judge_request c j) = jd_eligible j && request_allows c.
Proof.
  unfold judge_request, request_allows. rewrite !closed_if_eligible.
  destruct (pq_preferred_harness _ == _); simpl;
    destruct (missing_of c) as [|x l]; rewrite ?closed_if_eligible; simpl; rewrite ?closed_if_eligible;
    destruct (jd_eligible j), (ca_available c), (pq_allowed_harnesses (ca_request c) == []),
      (ca_harness_id c in? pq_allowed_harnesses _), (ca_harness_id c in? pq_denied_harnesses _);
    done.
Qed.

Definition quota_allows (c : Candidate) : bool :=
  match ca_quota c with
  | None => true
  | Some s => negb (auto_blocked (qt_availability s)) || explicit_request c
  end.

Lemma judge_quota_eligible c j : jd_eligible (judge_quota c j) = jd_eligible j && quota_allows c.
Proof.
  unfold judge_quota, quota_allows, routing_adjustment. destruct (ca_quota c) as [s|].
  - destruct (auto_blocked _), (explicit_request c); simpl; by rewrite ?andb_true_r, ?andb_false_r.
  - by rewrite andb_true_r.
Qed.

Definition profile_allows (c : Candidate) : bool :=
  match ca_profile c with
  | None => false
  | Some p =>
      sp_enabled p && negb (sp_state p == SUB_RATE_LIMITED) && negb (sp_state p == SUB_EXHAUSTED) &&
      (negb (sp_requires_paid_approval p) || pq_paid_routes_approved (ca_request c)) &&
      match sp_monthly_limit p with
      | Some limit => negb (sp_quota_known p &&
                            fle (max_zero (fsub limit (sp_used_amount p))) (sp_quota_reserve p))
      | None => true
      end
  end.

Lemma judge_profile_eligible c j :
  jd_eligible (judge_profile c j) = jd_eligible j && profile_allows c.
Proof.
  unfold judge_profile, profile_allows, judge_amount.
  destruct (ca_profile c) as [p|]; [|by rewrite closed_if_eligible].
  destruct (sp_monthly_limit p) as [limit|], (sp_quota_known p); simpl;
    try destruct (fle _ _); simpl; rewrite ?closed_if_eligible; simpl;
    destruct (sp_requires_paid_approval p), (pq_paid_routes_approved (ca_request c)); simpl;
    rewrite ?closed_if_eligible; simpl; rewrite ?closed_if_eligible;
    destruct (jd_eligible j), (sp_enabled p), (sp_state p == SUB_RATE_LIMITED),
      (sp_state p == SUB_EXHAUSTED); done.
Qed.

Lemma judge_concurrency_eligible c j :
  jd_eligible (judge_concurrency c j) = jd_eligible j && (ca_active c <? concurrency_limit c)%Z.
Proof.
  unfold judge_concurrency. destruct (Z.leb_spec (concurrency_limit c) (ca_active c)); simpl.
  - assert ((ca_active c <? concurrency_limit c)%Z = false) as -> by lia. by rewrite andb_false_r.
  - assert ((ca_active c <? concurrency_limit c)%Z = true) as -> by lia. by rewrite andb_true_r.
Qed.

Lemma judged_open c :
  rc_eligible (_candidate c) = request_allows c && quota_allows c && profile_allows c &&
                               (ca_active c <? concurrency_limit c)%Z.
Proof.
  unfold _candidate. simpl.
  by rewrite judge_concurrency_eligible, judge_profile_eligible, judge_quota_eligible,
    judge_request_eligible, judge_adapter_eligible.
Qed.

Lemma missing_none c :
  missing_of c = [] ↔ ∀ x, x ∈ pq_required_capabilities (ca_request c) → x ∈ ca_capabilities c.
Proof. apply missing_capabilities_nil. Qed.

(** a route is open for exactly these reasons: the harness is installed, declares every
    required capability and is neither excluded by the allowlist nor on the denylist; its quota
    is not blocked, unless the allowlist is this harness alone; a subscription pays for it that
    is enabled, not rate limited or exhausted, approved where it costs, and above its reserve
    where its quota is known; and fewer runs are active than harness and subscription take. *)
Theorem route_is_open_iff c :
  rc_eligible (_candidate c) = true ↔
  let q := ca_request c in
  (ca_available c = true ∧
   (∀ x, x ∈ pq_required_capabilities q → x ∈ ca_capabilities c) ∧
   (pq_allowed_harnesses q = [] ∨ ca_harness_id c ∈ pq_allowed_harnesses q) ∧
   ca_harness_id c ∉ pq_denied_harnesses q) ∧
  (∀ s, ca_quota c = Some s → auto_blocked (qt_availability s) = true →
     explicit_request c = true) ∧
  (∃ p, ca_profile c = Some p ∧ sp_enabled p = true ∧ sp_state p ≠ SUB_RATE_LIMITED ∧
     sp_state p ≠ SUB_EXHAUSTED ∧
     (sp_requires_paid_approval p = true → pq_paid_routes_approved q = true) ∧
     (∀ limit, sp_monthly_limit p = Some limit → sp_quota_known p = true →
        fle (max_zero (fsub limit (sp_used_amount p))) (sp_quota_reserve p) = false) ∧
     (ca_active c < Z.min (ca_concurrency c) (sp_max_concurrency p))%Z).
Proof.
  rewrite judged_open, !andb_true_iff. cbv zeta.
  assert (request_allows c = true ↔ ca_available c = true ∧
   (∀ x, x ∈ pq_required_capabilities (ca_request c) → x ∈ ca_capabilities c) ∧
   (pq_allowed_harnesses (ca_request c) = [] ∨
    ca_harness_id c ∈ pq_allowed_harnesses (ca_request c)) ∧
   ca_harness_id c ∉ pq_denied_harnesses (ca_request c)) as ->.
  { unfold request_allows. rewrite <- missing_none, !andb_true_iff, orb_true_iff, negb_true_iff,
      !bool_decide_eq_true, bool_decide_eq_false. tauto. }
  assert (quota_allows c = true ↔ ∀ s, ca_quota c = Some s →
    auto_blocked (qt_availability s) = true → explicit_request c = true) as ->.
  { unfold quota_allows. destruct (ca_quota c) as [s|]; [|by split].
    rewrite orb_true_iff, negb_true_iff. split.
    - intros [Hb|He] s' [= <-] Hs; [congruence|done].
    - intros Hs. destruct (auto_blocked (qt_availability s)) eqn:E; [right; by eapply Hs|by left]. }
  unfold profile_allows, concurrency_limit. destruct (ca_profile c) as [p|].
  2:{ split; [by intros [[_ ?] _]|by intros (_ & _ & p & ? & _)]. }
  rewrite !andb_true_iff, !negb_true_iff, !bool_decide_eq_false, orb_true_iff, negb_true_iff,
    Z.ltb_lt.
  split.
  - intros [[[Hr Hq] [[[[He Hl] Hx] Hp] Hm]] Hc]. split; [done|]. split; [done|].
    exists p. split_and!; try done.
    + intros Ha. destruct Hp as [Hp|]; [congruence|done].
    + intros limit El Hk. rewrite El, Hk in Hm. by apply negb_true_iff in Hm.
  - intros (Hr & Hq & p' & [= <-] & He & Hl & Hx & Hp & Hm & Hc).
    refine (conj (conj (conj Hr Hq) (conj (conj (conj (conj He Hl) Hx) _) _)) Hc).
    + destruct (sp_requires_paid_approval p); [right; auto|by left].
    + destruct (sp_monthly_limit p) as [limit|]; [|done]. apply negb_true_iff.
      destruct (sp_quota_known p) eqn:Hk; [simpl; by apply Hm|done].
Qed.
End eligibility.

(** ** The selection *)

Section selection.
Context `{PyLib, QuotaLib, FmtLib}.

(** Scores are numbers. *)
Definition number (r : RouteCandidate) : Prop := is_nan (rc_score r) = false.
Definition numbers (l : list RouteCandidate) : Prop := Forall number l.

Lemma opp_nan f : is_nan (SFopp f) = is_nan f.
Proof. by destruct f. Qed.

Definition score_key (r : RouteCandidate) : Z * Z * Z := float_key (SFopp (rc_score r)).
Definition sub_name (r : RouteCandidate) : string := default "" (rc_subscription_id r).
Definition comes_first (a b : RouteCandidate) : bool := negb (before b a).

Lemma negb_str_lt x y : negb (str_leb y x && (y != x)) = str_leb x y.
Proof.
  case_bool_decide as E; simpl; [subst; by rewrite andb_false_r, str_leb_refl|].
  rewrite andb_true_r. destruct (str_leb y x) eqn:E1, (str_leb x y) eqn:E2; try done.
  - by destruct E; apply str_leb_antisym.
  - destruct (str_leb_total x y); congruence.
Qed.

Lemma comes_first_spec a b :
  number a → number b →
  comes_first a b = true ↔
  (rc_eligible a = true ∧ rc_eligible b = false) ∨
  (rc_eligible a = rc_eligible b ∧
   ((key_le (score_key a) (score_key b) ∧ score_key a ≠ score_key b) ∨
    (score_key a = score_key b ∧
     ((rc_harness_id a ≠ rc_harness_id b ∧ str_leb (rc_harness_id a) (rc_harness_id b) = true) ∨
      (rc_harness_id a = rc_harness_id b ∧ str_leb (sub_name a) (sub_name b) = true))))).
Proof.
  intros Ha Hb. unfold number in *. rewrite <- opp_nan in Ha, Hb.
  unfold comes_first, before. cbv zeta beta. fold (sub_name a) (sub_name b).
  set (tied := if sf_eqb _ _ then _ else _).
  assert (negb tied = true ↔
   (key_le (score_key a) (score_key b) ∧ score_key a ≠ score_key b) ∨
    (score_key a = score_key b ∧
     ((rc_harness_id a ≠ rc_harness_id b ∧ str_leb (rc_harness_id a) (rc_harness_id b) = true) ∨
      (rc_harness_id a = rc_harness_id b ∧ str_leb (sub_name a) (sub_name b) = true)))) as Ht.
  { subst tied. unfold score_key. rewrite <- fle_key by done.
    destruct (sf_eqb _ _) eqn:E.
    - apply (sf_eqb_key _ _ Hb Ha) in E. rewrite <- (negb_str_lt (sub_name a)),
        <- (negb_str_lt (rc_harness_id a)).
      destruct (decide (rc_harness_id b = rc_harness_id a)) as [Eh|Eh];
        [rewrite !(bool_decide_eq_true_2 _ Eh)|rewrite !(bool_decide_eq_false_2 _ Eh)];
        naive_solver.
    - assert (float_key (SFopp (rc_score a)) ≠ float_key (SFopp (rc_score b))) as Hne.
      { intros He. apply eq_sym, (sf_eqb_key _ _ Hb Ha) in He. congruence. }
      rewrite flt_fle, negb_involutive by done. naive_solver. }
  destruct (rc_eligible a), (rc_eligible b); cbn [Bool.eqb negb]; rewrite ?Ht; naive_solver.
Qed.

Lemma comes_first_total a b :
  number a → number b → comes_first a b = true ∨ comes_first b a = true.
Proof.
  intros Ha Hb. rewrite !comes_first_spec by done.
  destruct (rc_eligible a), (rc_eligible b); try naive_solver;
    (destruct (decide (score_key a = score_key b)) as [E|E];
     [rewrite E; destruct (decide (rc_harness_id a = rc_harness_id b)) as [Eh|Eh];
      [rewrite Eh; destruct (str_leb_total (sub_name a) (sub_name b)); naive_solver
      |destruct (str_leb_total (rc_harness_id a) (rc_harness_id b)); naive_solver]|]).
  all: assert (key_le (score_key a) (score_key b) ∨ key_le (score_key b) (score_key a)) as []
    by (destruct (score_key a) as [[??]?], (score_key b) as [[??]?]; simpl; lia);
    naive_solver.
Qed.

Lemma key_le_trans x y z : key_le x y → key_le y z → key_le x z.
Proof. destruct x as [[??]?], y as [[??]?], z as [[??]?]. simpl. lia. Qed.
Lemma key_le_antisym x y : key_le x y → key_le y x → x = y.
Proof. destruct x as [[??]?], y as [[??]?]. simpl. intros. f_equal; [f_equal|]; lia. Qed.

Lemma names_trans a b c :
  (rc_harness_id a ≠ rc_harness_id b ∧ str_leb (rc_harness_id a) (rc_harness_id b) = true) ∨
    (rc_harness_id a = rc_harness_id b ∧ str_leb (sub_name a) (sub_name b) = true) →
  (rc_harness_id b ≠ rc_harness_id c ∧ str_leb (rc_harness_id b) (rc_harness_id c) = true) ∨
    (rc_harness_id b = rc_harness_id c ∧ str_leb (sub_name b) (sub_name c) = true) →
  (rc_harness_id a ≠ rc_harness_id c ∧ str_leb (rc_harness_id a) (rc_harness_id c) = true) ∨
    (rc_harness_id a = rc_harness_id c ∧ str_leb (sub_name a) (sub_name c) = true).
Proof.
  intros [[N1 L1]|[-> L1]] [[N2 L2]|[N2 L2]].
  - left. split; [|by eapply str_leb_trans]. intros He. apply N1. rewrite He in L1 |- *.
    by apply str_leb_antisym.
  - left. by rewrite <- N2.
  - by left.
  - right. split; [done|by eapply str_leb_trans].
Qed.

Lemma comes_first_trans a b c :
  number a → number b → number c →
  comes_first a b = true → comes_first b c = true → comes_first a c = true.
Proof.
  intros Ha Hb Hc. rewrite !comes_first_spec by done.
  intros [[E1 E1']|[E1 P1]] [[E2 E2']|[E2 P2]];
    [congruence|left; split; congruence|left; split; congruence|right; split; [congruence|]].
  destruct P1 as [[K1 N1]|[K1 P1]], P2 as [[K2 N2]|[K2 P2]].
  - left. split; [by eapply key_le_trans|]. intros He. rewrite He in K1. apply N2.
    by apply key_le_antisym.
  - left. by rewrite <- K2.
  - left. by rewrite K1.
  - right. split; [congruence|]. by eapply names_trans.
Qed.

Lemma fle_opp x y : fle (SFopp x) (SFopp y) = fle y x.
Proof.
  unfold fle, SFleb. destruct x as [sx|sx| |sx mx ex], y as [sy|sy| |sy my ey]; try done;
    try (destruct sx); try (destruct sy); try done; simpl;
    rewrite (Z.compare_antisym ey ex); destruct (Z.compare ey ex); simpl; try done;
    change (Pos.compare_cont Eq mx my) with (Pos.compare mx my);
    change (Pos.compare_cont Eq my mx) with (Pos.compare my mx);
    rewrite (Pos.compare_antisym my mx); by destruct (Pos.compare my mx).
Qed.

(** The first member of a sorted list that passes a test comes before the others that do. *)
Lemma find_sorted {A} (R : A → A → Prop) f l x y :
  StronglySorted R l → List.find f l = Some x → y ∈ l → f y = true → x = y ∨ R x y.
Proof.
  induction 1 as [|z l Hs IH Hz]; [done|]. simpl. intros Hf Hy Hfy.
  destruct (f z) eqn:E.
  - injection Hf as ->. apply elem_of_cons in Hy as [->|Hy]; [by left|right].
    rewrite Forall_forall in Hz. auto.
  - apply elem_of_cons in Hy as [->|Hy]; [congruence|auto].
Qed.

Lemma first_is_better a b :
  number a → number b → rc_eligible a = true → rc_eligible b = true → comes_first a b = true →
  fle (rc_score b) (rc_score a) = true ∧
  (sf_eqb (rc_score b) (rc_score a) = true → str_leb (rc_harness_id a) (rc_harness_id b) = true).
Proof.
  intros Ha Hb Ea Eb. rewrite comes_first_spec by done. unfold number in *.
  intros [[_ ?]|[_ Hk]]; [congruence|].
  assert (fle (rc_score b) (rc_score a) = true) as Hle.
  { rewrite <- fle_opp. apply fle_key; [by rewrite opp_nan..|]. fold (score_key a) (score_key b).
    destruct Hk as [[Hk _]|[-> _]]; [done|]. destruct (score_key b) as [[??]?]. simpl. lia. }
  split; [done|]. intros He.
  assert (fle (rc_score a) (rc_score b) = true) as Hle'.
  { apply fle_key; [done..|]. apply (sf_eqb_key _ _ Hb Ha) in He. rewrite He.
    destruct (float_key (rc_score a)) as [[??]?]. simpl. lia. }
  destruct Hk as [[Hk Hne]|[_ [[_ ?]|[-> _]]]]; [|done|apply str_leb_refl].
  destruct Hne. apply key_le_antisym; [done|]. rewrite <- fle_opp in Hle'.
  apply fle_key in Hle'; [done|by rewrite opp_nan..].
Qed.

(** the router selects the best open route: a route is selected exactly when one is open;
    the selected one was judged and is open, and no open route has a higher score, or the same
    score with an earlier name. *)
Theorem selected_route_is_the_best_open l r :
  numbers l → rp_selected (preview_of l) = r →
  match r with
  | None => ∀ r', r' ∈ l → rc_eligible r' = false
  | Some r => r ∈ l ∧ rc_eligible r = true ∧
      ∀ r', r' ∈ l → rc_eligible r' = true →
        fle (rc_score r') (rc_score r) = true ∧
        (sf_eqb (rc_score r') (rc_score r) = true →
         str_leb (rc_harness_id r) (rc_harness_id r') = true)
  end.
Proof.
  intros Hl Hr. simpl in Hr.
  assert (StronglySorted (λ a b, comes_first a b = true) (rank l)) as Hs.
  { apply (py_sorted_Sorted_on comes_first number); [exact comes_first_total|
      exact comes_first_trans|exact Hl]. }
  assert (∀ x, x ∈ rank l ↔ x ∈ l) as Hin by (intros x; apply (elem_of_py_sorted comes_first)).
  unfold numbers in Hl. rewrite Forall_forall in Hl. subst r.
  destruct (List.find rc_eligible (rank l)) as [r|] eqn:E.
  - pose proof (List.find_some _ _ E) as [Hr He]. apply list_elem_of_In, Hin in Hr.
    split_and!; [done..|]. intros r' Hr' He'.
    destruct (find_sorted _ _ _ _ r' Hs E (proj2 (Hin _) Hr') He') as [<-|Hc].
    + split; [|by intros; apply str_leb_refl].
      by destruct (fle_total (rc_score r) (rc_score r) (Hl _ Hr) (Hl _ Hr)).
    + apply first_is_better; auto.
  - intros r' Hr'. eapply List.find_none; [exact E|]. by apply list_elem_of_In, Hin.
Qed.
End selection.

(** ** On concrete inputs *)

Definition a_profile (id harness : string) : SubscriptionProfile :=
  {| sp_id := id; sp_harness_id := harness; sp_name := id; sp_enabled := true;
     sp_monthly_limit := None; sp_used_amount := z_to_float 0; sp_max_concurrency := 1;
     sp_cost_weight := z_to_float 1; sp_quota_reserve := z_to_float 0; sp_quota_known := true;
     sp_state := SUB_HEALTHY; sp_requires_paid_approval := false |}.
Definition a_preview_request (denied : list string) : RoutePreviewRequest :=
  {| pq_task := "t"; pq_workspace := "/w"; pq_required_capabilities := [C_FILE_WRITE];
     pq_preferred_harness := None; pq_allowed_harnesses := []; pq_denied_harnesses := denied;
     pq_paid_routes_approved := false |}.
Definition a_candidate (denied : list string) : Candidate :=
  {| ca_request := a_preview_request denied; ca_available := true;
     ca_profile := Some (a_profile "s1" "codex"); ca_harness_id := "codex";
     ca_capabilities := [C_FILE_READ; C_FILE_WRITE]; ca_concurrency := 1;
     ca_maturity := MAT_STABLE; ca_certified := true; ca_quota := None; ca_active := 0 |}.
Definition plain_fmt : FmtLib := {| fmt_g _ := "1" |}.
Abbreviation judged denied := (@_candidate plain_fmt (a_candidate denied)).

Lemma selected_route_is_the_best_open_witness :
  rc_score (judged []) = z_to_float 99 ∧
  rp_selected (preview_of [judged ["codex"]; judged []]) = Some (judged []) ∧
  fle (rc_score (judged [])) (rc_score (judged [])) = true.
Proof.
  assert (rp_selected (preview_of [judged ["codex"]; judged []]) = Some (judged [])) as E
    by (vm_compute; reflexivity).
  split; [vm_compute; reflexivity|]. split; [exact E|].
  assert (numbers [judged ["codex"]; judged []]) as Hn
    by (repeat constructor; vm_compute; reflexivity).
  destruct (selected_route_is_the_best_open [judged ["codex"]; judged []] _ Hn E)
    as (_ & _ & Hb).
  refine (proj1 (Hb _ _ _)); [apply list_elem_of_further, list_elem_of_here|].
  vm_compute; reflexivity.
Defined.

(** A subscription that is marked as disabled by its state is not left out: only the state
    rate limited, the state exhausted and the flag close a route. *)
Example disabled_state_is_open :
  let p := a_profile "s1" "codex" in
  let disabled := {| sp_id := sp_id p; sp_harness_id := sp_harness_id p; sp_name := sp_name p;
    sp_enabled := true; sp_monthly_limit := None; sp_used_amount := sp_used_amount p;
    sp_max_concurrency := 1; sp_cost_weight := sp_cost_weight p;
    sp_quota_reserve := sp_quota_reserve p; sp_quota_known := true; sp_state := SUB_DISABLED;
    sp_requires_paid_approval := false |} in
  rc_eligible (@_candidate plain_fmt
    {| ca_request := a_preview_request []; ca_available := true; ca_profile := Some disabled;
       ca_harness_id := "codex"; ca_capabilities := [C_FILE_WRITE]; ca_concurrency := 1;
       ca_maturity := MAT_STABLE; ca_certified := true; ca_quota := None; ca_active := 0 |}) = true.
Proof. vm_compute. reflexivity. Qed.
