(* ===== verification/SessionStore.v ===== *)
(** * What the sessions service keeps: runs, events, subscriptions, fallbacks, checkpoints

    The tables of [persistence.py] that a run touches, with the operations on them, and the
    checkpoint store of [execution/checkpoint.py]. A table is a dictionary by primary key, in the
    order of insertion, and one operation is one step. [append_event] reads the last number and
    commits under a lock of its own, so that nothing comes between the two; [update_run] writes
    the columns it was given, whatever the row holds; a created row fails on a key that is there.
    [record_usage] adds to an amount it has read: two that overlap may lose an addition, which
    is not modelled, and nothing is stated of the used amount. *)

From Stdlib Require Import SpecFloat.
From S2P Require Import Prelude.
From S2P Require Import SessionModels.

(* @src persistence.py:97-106 UsageRow *)
Record UsageRow := {
  ur_subscription_id : string;
  ur_run_id : option string;
  ur_amount : spec_float;
  ur_input_tokens : Z;
  ur_output_tokens : Z
}.

(* @src execution/checkpoint.py:15-34 ExecutionCheckpoint *)
Record ExecutionCheckpoint := {
  cp_execution_id : string;
  cp_attempt_id : string;
  cp_harness_id : string;
  cp_native_session_id : option string;
  cp_status : string;
  cp_directive : option dict;
  cp_updated_at : Z
}.

(** The rows of events are in the order they were written. *)
(* @src persistence.py:316-320 Database.__init__ *)
Record Database := {
  db_subscriptions : list (string * SubscriptionProfile);
  db_runs : list (string * Run);
  db_events : list NormalizedEvent;
  db_usage : list UsageRow;
  db_fallbacks : list (string * FallbackProposal)
}.
Definition empty_database : Database :=
  {| db_subscriptions := []; db_runs := []; db_events := []; db_usage := []; db_fallbacks := [] |}.

Definition on_subscriptions (f : list (string * SubscriptionProfile) →
    list (string * SubscriptionProfile)) : M Database unit :=
  modify_state (λ d, {| db_subscriptions := f (db_subscriptions d); db_runs := db_runs d;
    db_events := db_events d; db_usage := db_usage d; db_fallbacks := db_fallbacks d |}).
Definition on_runs (f : list (string * Run) → list (string * Run)) : M Database unit :=
  modify_state (λ d, {| db_subscriptions := db_subscriptions d; db_runs := f (db_runs d);
    db_events := db_events d; db_usage := db_usage d; db_fallbacks := db_fallbacks d |}).
Definition on_events (f : list NormalizedEvent → list NormalizedEvent) : M Database unit :=
  modify_state (λ d, {| db_subscriptions := db_subscriptions d; db_runs := db_runs d;
    db_events := f (db_events d); db_usage := db_usage d; db_fallbacks := db_fallbacks d |}).
Definition on_usage (f : list UsageRow → list UsageRow) : M Database unit :=
  modify_state (λ d, {| db_subscriptions := db_subscriptions d; db_runs := db_runs d;
    db_events := db_events d; db_usage := f (db_usage d); db_fallbacks := db_fallbacks d |}).
Definition on_fallbacks (f : list (string * FallbackProposal) →
    list (string * FallbackProposal)) : M Database unit :=
  modify_state (λ d, {| db_subscriptions := db_subscriptions d; db_runs := db_runs d;
    db_events := db_events d; db_usage := db_usage d; db_fallbacks := f (db_fallbacks d) |}).

Definition integrity_error : exn := Exn "IntegrityError" "" "UNIQUE constraint failed".

(** ** Subscriptions *)

(* @src persistence.py:346-365 Database.create_subscription *)
Definition db_create_subscription (p : SubscriptionProfile) : M Database SubscriptionProfile :=
  d ← get_state;
  if dict_has (sp_id p) (db_subscriptions d) then raise integrity_error
  else on_subscriptions (dict_set (sp_id p) p);; mret p.

(** Ordered by harness, then by identifier. *)
(* @src persistence.py:367-374 Database.list_subscriptions *)
Definition db_list_subscriptions (d : Database) : list SubscriptionProfile :=
  py_sorted (λ a b, if sp_harness_id a == sp_harness_id b then str_leb (sp_id a) (sp_id b)
                    else str_leb (sp_harness_id a) (sp_harness_id b))
    (dict_values (db_subscriptions d)).

Definition with_state (st : SubscriptionState) (used : spec_float) (p : SubscriptionProfile) :
    SubscriptionProfile :=
  {| sp_id := sp_id p; sp_harness_id := sp_harness_id p; sp_name := sp_name p;
     sp_enabled := sp_enabled p; sp_monthly_limit := sp_monthly_limit p; sp_used_amount := used;
     sp_max_concurrency := sp_max_concurrency p; sp_cost_weight := sp_cost_weight p;
     sp_quota_reserve := sp_quota_reserve p; sp_quota_known := sp_quota_known p; sp_state := st;
     sp_requires_paid_approval := sp_requires_paid_approval p |}.

(* @src persistence.py:376-382 Database.set_subscription_state *)
Definition db_set_subscription_state (id : string) (st : SubscriptionState) : M Database unit :=
  d ← get_state;
  match dict_get id (db_subscriptions d) with
  | None => raise (KeyError ("unknown subscription: " +:+ id))
  | Some p => on_subscriptions (dict_set id (with_state st (sp_used_amount p) p))
  end.

(** ** Runs *)

(* @src persistence.py:384-389 Database.create_run *)
Definition db_create_run (r : Run) : M Database Run :=
  d ← get_state;
  if dict_has (run_id r) (db_runs d) then raise integrity_error
  else on_runs (dict_set (run_id r) r);; mret r.

(* @src persistence.py:391-394 Database.get_run *)
Definition db_get_run (id : string) : M Database (option Run) :=
  d ← get_state; mret (dict_get id (db_runs d)).

(** What an update may set; an absent value leaves the column as it is. *)
Record RunUpdate := {
  up_status : option RunStatus;
  up_started_at : option Z;
  up_finished_at : option Z;
  up_exit_code : option Z;
  up_error : option string;
  up_native_session_id : option string;
  up_process_id : option Z
}.
Definition no_update : RunUpdate :=
  {| up_status := None; up_started_at := None; up_finished_at := None; up_exit_code := None;
     up_error := None; up_native_session_id := None; up_process_id := None |}.
Definition to_status (st : RunStatus) (finished exit_code : option Z) (error : option string) :
    RunUpdate :=
  {| up_status := Some st; up_started_at := None; up_finished_at := finished;
     up_exit_code := exit_code; up_error := error; up_native_session_id := None;
     up_process_id := None |}.

Definition keep {A} (new old : option A) : option A :=
  match new with Some x => Some x | None => old end.
Definition apply_update (u : RunUpdate) (r : Run) : Run :=
  {| run_id := run_id r; run_task := run_task r; run_workspace := run_workspace r;
     run_harness_id := run_harness_id r; run_subscription_id := run_subscription_id r;
     run_status := default (run_status r) (up_status u); run_created_at := run_created_at r;
     run_started_at := keep (up_started_at u) (run_started_at r);
     run_finished_at := keep (up_finished_at u) (run_finished_at r);
     run_exit_code := keep (up_exit_code u) (run_exit_code r);
     run_error := keep (up_error u) (run_error r); run_task_context_id := run_task_context_id r;
     run_continuation_of_run_id := run_continuation_of_run_id r;
     run_native_session_id := keep (up_native_session_id u) (run_native_session_id r);
     run_process_id := keep (up_process_id u) (run_process_id r) |}.

(* @src persistence.py:405-418 Database.update_run *)
Definition db_update_run (id : string) (u : RunUpdate) : M Database Run :=
  d ← get_state;
  match dict_get id (db_runs d) with
  | None => raise (KeyError ("unknown run: " +:+ id))
  | Some r => on_runs (dict_set id (apply_update u r));; mret (apply_update u r)
  end.

(** Queued and running runs of a harness, of one subscription when one is given. *)
(* @src persistence.py:449-461 Database.active_count *)
Definition db_active_count (d : Database) (harness_id : string) (subscription : option string) : Z :=
  Z.of_nat (length (List.filter (λ r,
    (run_harness_id r == harness_id) &&
    ((run_status r == RUN_QUEUED) || (run_status r == RUN_RUNNING)) &&
    (negb (otruthy subscription) || (run_subscription_id r == subscription)))
    (dict_values (db_runs d)))).

(** ** Events *)

Definition events_of (id : string) (l : list NormalizedEvent) : list NormalizedEvent :=
  List.filter (λ e, ev_run_id e == id) l.

(** [(maximum or 0) + 1]. *)
(* @src persistence.py:422-427 Database.append_event *)
Definition next_event_sequence (id : string) (l : list NormalizedEvent) : Z :=
  (foldr Z.max 0 (ev_sequence <$> events_of id l) + 1)%Z.

(* @src persistence.py:420-436 Database.append_event *)
Definition db_append_event (e : NormalizedEvent) : M Database NormalizedEvent :=
  d ← get_state;
  let row := {| ev_run_id := ev_run_id e;
                ev_sequence := next_event_sequence (ev_run_id e) (db_events d); ev_type := ev_type e;
                ev_message := ev_message e; ev_payload := json_dict (ev_payload e) |} in
  on_events (λ l, l ++ [row]);;
  mret row.

(* @src persistence.py:438-447 Database.list_events *)
Definition db_list_events (d : Database) (id : string) (after : Z) : list NormalizedEvent :=
  py_sorted (λ a b, (ev_sequence a <=? ev_sequence b)%Z)
    (List.filter (λ e, (ev_run_id e == id) && (after <? ev_sequence e)%Z) (db_events d)).

(** ** Usage and fallbacks *)

(* @src persistence.py:463-489 Database.record_usage *)
Definition db_record_usage (u : UsageRow) : M Database unit :=
  d ← get_state;
  match dict_get (ur_subscription_id u) (db_subscriptions d) with
  | None => raise (KeyError ("unknown subscription: " +:+ ur_subscription_id u))
  | Some p =>
      on_subscriptions (dict_set (ur_subscription_id u)
        (with_state (sp_state p) (fadd (sp_used_amount p) (ur_amount u)) p));;
      on_usage (λ l, l ++ [u])
  end.

(* @src persistence.py:499-513 Database.create_fallback *)
Definition db_create_fallback (p : FallbackProposal) : M Database unit :=
  d ← get_state;
  if dict_has (fp_id p) (db_fallbacks d) then raise integrity_error
  else on_fallbacks (dict_set (fp_id p) p).

(* @src persistence.py:522-532 Database.approve_fallback *)
Definition db_approve_fallback (id continuation : string) : M Database unit :=
  d ← get_state;
  match dict_get id (db_fallbacks d) with
  | None => raise (KeyError ("unknown fallback proposal: " +:+ id))
  | Some p =>
      on_fallbacks (dict_set id
        {| fp_id := fp_id p; fp_original_run_id := fp_original_run_id p; fp_route := fp_route p;
           fp_requires_approval := fp_requires_approval p; fp_approved := true;
           fp_continuation_run_id := Some continuation; fp_reason := fp_reason p;
           fp_created_at := fp_created_at p |})
  end.

(** ** Checkpoints *)

Abbreviation Checkpoints := (list (string * ExecutionCheckpoint)).

(** [ON CONFLICT(execution_id) DO UPDATE]. *)
(* @src execution/checkpoint.py:66-92 CheckpointStore.save *)
Definition cp_save (c : ExecutionCheckpoint) (l : Checkpoints) : Checkpoints :=
  dict_set (cp_execution_id c) c l.
(* @src execution/checkpoint.py:94-110 CheckpointStore.get *)
Definition cp_get (id : string) (l : Checkpoints) : option ExecutionCheckpoint := dict_get id l.

Definition resumable_status (s : string) : bool := s in? ["running"; "queued"; "interrupted"].
(** Oldest first. *)
(* @src execution/checkpoint.py:112-132 CheckpointStore.list_resumable *)
Definition cp_list_resumable (l : Checkpoints) : list ExecutionCheckpoint :=
  py_sorted (λ a b, (cp_updated_at a <=? cp_updated_at b)%Z)
    (List.filter (λ c, resumable_status (cp_status c)) (dict_values l)).

(* @src execution/checkpoint.py:134-147 CheckpointStore.mark_interrupted *)
Definition interrupt (now : Z) (c : ExecutionCheckpoint) : ExecutionCheckpoint :=
  if cp_status c in? ["running"; "queued"] then
    {| cp_execution_id := cp_execution_id c; cp_attempt_id := cp_attempt_id c;
       cp_harness_id := cp_harness_id c; cp_native_session_id := cp_native_session_id c;
       cp_status := "interrupted"; cp_directive := cp_directive c; cp_updated_at := now |}
  else c.
(* @src execution/checkpoint.py:134-147 CheckpointStore.mark_interrupted *)
Definition cp_mark_interrupted (now : Z) (l : Checkpoints) : Checkpoints * Z :=
  ((λ kv, (kv.1, interrupt now kv.2)) <$> l,
   Z.of_nat (length (List.filter (λ c, cp_status c in? ["running"; "queued"]) (dict_values l)))).

(** ** Events are numbered without gaps *)

(** The events of every run are numbered from one, in the order they were written. *)
Definition numbered (l : list NormalizedEvent) : Prop :=
  ∀ id, ev_sequence <$> events_of id l = Z.of_nat <$> seq 1 (length (events_of id l)).

Lemma fold_max_seq a n :
  foldr Z.max 0%Z (Z.of_nat <$> seq (S a) n) =
  if (n =? 0)%nat then 0%Z else Z.of_nat (a + n).
Proof.
  revert a. induction n as [|n IH]; intros a; [done|]. simpl. rewrite IH.
  destruct n as [|n]; simpl; lia.
Qed.

Lemma next_event_sequence_numbered id l :
  numbered l → next_event_sequence id l = (Z.of_nat (length (events_of id l)) + 1)%Z.
Proof.
  intros Hn. unfold next_event_sequence. rewrite Hn, (fold_max_seq 0).
  destruct (length (events_of id l)); simpl; lia.
Qed.

Lemma numbered_snoc l e :
  numbered l → ev_sequence e = next_event_sequence (ev_run_id e) l → numbered (l ++ [e]).
Proof.
  intros Hn He id. unfold events_of. rewrite List.filter_app. fold (events_of id l). simpl.
  case_bool_decide as E; [|by rewrite app_nil_r].
  rewrite length_app, seq_app, !fmap_app, <- Hn. f_equal. simpl. f_equal.
  rewrite He, E, next_event_sequence_numbered by done. lia.
Qed.

Lemma append_event_numbered e : keeps (λ d, numbered (db_events d)) (db_append_event e).
Proof. intros d Hd. by apply numbered_snoc. Qed.

(** After a restart no checkpoint says that its execution runs or waits. *)
Lemma restart_leaves_none_active now l c :
  c ∈ dict_values (cp_mark_interrupted now l).1 → cp_status c ∉ ["running"; "queued"].
Proof.
  unfold dict_values. simpl. rewrite <- list_fmap_compose. intros [[k x] [-> _]]%list_elem_of_fmap.
  simpl. unfold interrupt. case_bool_decide as E; [|done]. simpl. set_solver.
Qed.
