(* ===== verification/Sessions.v ===== *)
(** * The sessions service: runs of harnesses for the SDK, the API and the command line

    [service.py]: a run is routed, checked, started as a task of its own, followed line by line,
    ended and observed; it can be cancelled, and a rate limit leads to the proposal of another
    route. The state is the one after [initialize()]. What a child process does is an argument
    ([runtime.py] starts it and passes its lines on); the operations of durable delivery are a
    class, with [Delivery]'s as the instance.

    A task runs beside the operations of the service. Between two of its transactions any other
    operation may run: [TaskPoint] names the places where a task waits, [SessionOp] the operations
    and the stretches of a task between them, and [after] runs any sequence of these. *)

From Stdlib Require Import SpecFloat.
From S2P Require Import Prelude.
From S2P Require Import NodeSecurity.
From S2P Require Import SessionModels.
From S2P Require Import HarnessRegistry.
From S2P Require Import Quota.
From S2P Require Import RuntimeSnapshots.
From S2P Require Import LaunchValidation.
From S2P Require Import SessionRouting.
From S2P Require Import SessionStore.

(** ** What the service is given *)

(** [resolve_workspace] asks the file system; [read_directive] is pydantic's reading of a
    directive; [installed] is the search for a harness's executable. *)
Class SessionLib := {
  resolve_workspace : string → res string;
  read_directive : dict → res ExecutionDirective;
  installed : HarnessAdapter → option string
}.

(** What the service asks of durable delivery. *)
Class DeliveryOps (D : Type) := {
  deliver_snapshot : RuntimeSnapshot → M D unit;
  deliver_event : string → dict → string → M D unit;
  deliver_approval : dict → string → M D unit;
  deliver_flush : M D unit
}.

(** ** Failures *)

(* @src service.py:96-108 NoRouteError *)
Definition NoRouteError (code m : string) : exn := Exn "NoRouteError" code m.
(* @src service.py:68-73 TERMINAL_STATUSES *)
Definition terminal (s : RunStatus) : bool :=
  s in? [RUN_COMPLETED; RUN_FAILED; RUN_CANCELLED; RUN_TIMED_OUT].

(** An exception, or a group of them, as a task group raises it. *)
Inductive failure := Leaf (e : exn) | Group (l : list failure).

(* @src service.py:1206-1214 _exception_leaves *)
Fixpoint _exception_leaves (f : failure) : list exn :=
  match f with
  | Leaf e => [e]
  | Group l => concat (_exception_leaves <$> l)
  end.

(* @src service.py:1217-1226 _controlled_leaf_reason *)
Definition _controlled_leaf_reason (e : exn) : string :=
  if exn_class e == "HarnessStreamOverflowError" then "stream_record_overflow"
  else if exn_class e == "HarnessTimeoutError" then "harness_timeout"
  else if (exn_class e == "ValueError") && str_in "harness command cannot be empty" (exn_msg e)
  then "empty_harness_command"
  else "unexpected_error".

(** The wrapper's type and the type and reason of at most eight leaves. *)
(* @src service.py:1229-1246 classify_execution_exception *)
Definition classify_execution_exception (f : failure) : string * list (string * string) :=
  (match f with Leaf e => exn_class e | Group _ => "ExceptionGroup" end,
   (λ e, (exn_class e, _controlled_leaf_reason e)) <$> take 8 (_exception_leaves f)).
(* @src service.py:1229-1246 classify_execution_exception *)
Definition classification_dict (c : string * list (string * string)) : dict :=
  [("exception_type", PStr c.1);
   ("leaves", PList ((λ l, PDict [("type", PStr l.1); ("reason", PStr l.2)]) <$> c.2))].

(* @src service.py:1249-1268 format_safe_failure_error *)
Definition format_safe_failure_error (c : string * list (string * string)) : string :=
  let part (l : string * string) := (if l.1 == "" then "Exception" else l.1) +:+ ":" +:+ l.2 in
  match part <$> take 8 c.2 with
  | [] => "unexpected_error"
  | [p] => str_take 240 (if c.1 != "ExceptionGroup" then p
                         else "ExceptionGroup:[" +:+ p +:+ "]")
  | ps => str_take 240 ("ExceptionGroup:[" +:+ join "," ps +:+ "]")
  end.

(** ** Tasks *)

(** How the child process of a run ended: with a code, too late, by a cancellation of the
    task, or with another failure of its supervision. *)
Inductive Ended := EndExit (code : Z) | EndTimeout (m : string) | EndCancelled | EndFailed (f : failure).

(** What [HarnessRuntime.execute] meets: the process it starts (or why it does not), its
    lines in the order they are read, and its end. *)
(* @src runtime.py:79-148 HarnessRuntime.execute *)
Record ProcessRun := {
  pr_started : res Z;
  pr_lines : list (string * string);
  pr_end : Ended
}.

(** The local variables of [_execute]. *)
(* @src service.py:1010-1022 JoyMesh._execute *)
Record Running := {
  xr_run : Run;
  xr_request : RunRequest;
  xr_adapter : HarnessAdapter;
  xr_started_at : Z;
  xr_output : list string;
  xr_usage_input : Z;
  xr_usage_output : Z
}.
Definition with_line (line : string) (x : Running) : Running :=
  {| xr_run := xr_run x; xr_request := xr_request x; xr_adapter := xr_adapter x;
     xr_started_at := xr_started_at x; xr_output := xr_output x ++ [line];
     xr_usage_input := xr_usage_input x; xr_usage_output := xr_usage_output x |}.
Definition with_usage (u : UsageDelta) (x : Running) : Running :=
  {| xr_run := xr_run x; xr_request := xr_request x; xr_adapter := xr_adapter x;
     xr_started_at := xr_started_at x; xr_output := xr_output x;
     xr_usage_input := xr_usage_input x + ud_input_tokens u;
     xr_usage_output := xr_usage_output x + ud_output_tokens u |}.

(** Where a task is: not begun; with its process; the process ended, the run not looked at;
    the run looked at and found not cancelled, the end not written. *)
Inductive TaskPoint :=
| TaskNew
| TaskRunning (x : Running)
| TaskEnded (x : Running) (e : Ended)
| TaskDecided (x : Running) (code : Z).

(* @src service.py:112-193 JoyMesh.__init__ *)
Record JoyMesh (D : Type) := {
  jm_database : Database;
  jm_checkpoints : Checkpoints;
  jm_requests : list (string * RunRequest);
  jm_tasks : list (string * TaskPoint);
  jm_snapshots : SnapshotService D;
  jm_approvals : ApprovalService;
  jm_clock : nat;
  jm_uuids : nat
}.
Arguments jm_database {D}.
Arguments jm_checkpoints {D}.
Arguments jm_requests {D}.
Arguments jm_tasks {D}.
Arguments jm_snapshots {D}.
Arguments jm_approvals {D}.
Arguments jm_clock {D}.
Arguments jm_uuids {D}.

Section service.
Context `{PyLib, NodeLib, QuotaLib, SumLib, FmtLib, SessionLib} {D : Type} `{DeliveryOps D}.
Abbreviation St := (JoyMesh D).
Implicit Types s : St.

Definition set_jm (db : Database) (cp : Checkpoints) (rq : list (string * RunRequest))
    (tk : list (string * TaskPoint)) (sn : SnapshotService D) (ap : ApprovalService) (c u : nat) :
    St :=
  {| jm_database := db; jm_checkpoints := cp; jm_requests := rq; jm_tasks := tk;
     jm_snapshots := sn; jm_approvals := ap; jm_clock := c; jm_uuids := u |}.
Definition with_database (db : Database) s : St :=
  set_jm db (jm_checkpoints s) (jm_requests s) (jm_tasks s) (jm_snapshots s) (jm_approvals s)
    (jm_clock s) (jm_uuids s).
Definition with_snapshots (sn : SnapshotService D) s : St :=
  set_jm (jm_database s) (jm_checkpoints s) (jm_requests s) (jm_tasks s) sn (jm_approvals s)
    (jm_clock s) (jm_uuids s).
Definition with_approvals (ap : ApprovalService) s : St :=
  set_jm (jm_database s) (jm_checkpoints s) (jm_requests s) (jm_tasks s) (jm_snapshots s) ap
    (jm_clock s) (jm_uuids s).

Definition in_db {A} (m : M Database A) : M St A := zoom jm_database with_database m.
Definition in_snapshots {A} (m : M (SnapshotService D) A) : M St A :=
  zoom jm_snapshots with_snapshots m.
Definition in_delivery {A} (m : M D A) : M St A := in_snapshots (to_listener m).
Definition in_approvals {A} (m : M ApprovalService A) : M St A := zoom jm_approvals with_approvals m.
Definition on_checkpoints (f : Checkpoints → Checkpoints) : M St unit :=
  modify_state (λ s, set_jm (jm_database s) (f (jm_checkpoints s)) (jm_requests s) (jm_tasks s)
    (jm_snapshots s) (jm_approvals s) (jm_clock s) (jm_uuids s)).
Definition on_requests (f : list (string * RunRequest) → list (string * RunRequest)) : M St unit :=
  modify_state (λ s, set_jm (jm_database s) (jm_checkpoints s) (f (jm_requests s)) (jm_tasks s)
    (jm_snapshots s) (jm_approvals s) (jm_clock s) (jm_uuids s)).
Definition on_tasks (f : list (string * TaskPoint) → list (string * TaskPoint)) : M St unit :=
  modify_state (λ s, set_jm (jm_database s) (jm_checkpoints s) (jm_requests s) (f (jm_tasks s))
    (jm_snapshots s) (jm_approvals s) (jm_clock s) (jm_uuids s)).
Definition jm_now : M St Z := λ s,
  (Ok (clock (jm_clock s)),
   set_jm (jm_database s) (jm_checkpoints s) (jm_requests s) (jm_tasks s) (jm_snapshots s)
     (jm_approvals s) (S (jm_clock s)) (jm_uuids s)).
Definition jm_uuid : M St string := λ s,
  (Ok (uuid_str (jm_uuids s)),
   set_jm (jm_database s) (jm_checkpoints s) (jm_requests s) (jm_tasks s) (jm_snapshots s)
     (jm_approvals s) (jm_clock s) (S (jm_uuids s))).
Definition jm_registry s : Registry := ss_registry (jm_snapshots s).

(** The result of a computation, an exception included, with its effects. *)
Definition attempt {A} (m : M St A) : M St (res A) := λ s, let '(r, s') := m s in (Ok r, s').

(* @src service.py:1188-1203 JoyMesh._event *)
Definition _event (run_id : string) (type : EventType) (m : string) (payload : dict) :
    M St NormalizedEvent :=
  in_db (db_append_event {| ev_run_id := run_id; ev_sequence := 0; ev_type := type;
                            ev_message := Some m; ev_payload := payload |}).

(** ** Routing *)

Definition preview_error : exn := Exn "ValidationError" "" "task: at least 1 character".

(** The router reads the database as it is, and the quota service of the snapshots. *)
(* @src service.py:594-617 JoyMesh.preview_routes *)
Definition preview_routes (task workspace : string) (required : list Capability)
    (preferred : option string) (allowed denied : list string) (paid_approved : bool) :
    M St RoutePreview :=
  resolved ← lift_res (resolve_workspace workspace);
  (if task == "" then raise preview_error else mret tt);;
  s ← get_state;
  let db := jm_database s in
  in_snapshots (in_quota
    (preview (jm_registry s) installed (db_list_subscriptions db) (db_active_count db) true
       {| pq_task := task; pq_workspace := resolved; pq_required_capabilities := required;
          pq_preferred_harness := preferred; pq_allowed_harnesses := allowed;
          pq_denied_harnesses := denied; pq_paid_routes_approved := paid_approved |})).

(* @src service.py:578-592 JoyMesh.resolve_route *)
Definition resolve_route (q : RunRequest) (preferred : option string) : M St RouteCandidate :=
  p ← preview_routes (rq_task q) (rq_workspace q) (rq_required_capabilities q) preferred
        (rq_allowed_harnesses q) (rq_denied_harnesses q) (rq_paid_routes_approved q);
  match rp_selected p with
  | None => raise (NoRouteError "" "no eligible harness route")
  | Some r => mret r
  end.

(* @src service.py:619-639 JoyMesh._assert_capabilities *)
Definition _assert_capabilities (harness_id : string) (required : list Capability) : M St unit :=
  s ← get_state;
  a ← lift_res (get_adapter (jm_registry s) harness_id);
  match find_capability_mismatch harness_id (mf_capabilities (ad_manifest a)) required with
  | None => mret tt
  | Some c =>
      raise (NoRouteError "harness_capability_mismatch"
        ("harness capability mismatch: " +:+ harness_id +:+ " missing " +:+
         join ", " (cm_missing_capabilities c)))
  end.

(** ** Starting a run *)

Definition as_no_route (e : exn) : exn := NoRouteError (exn_code e) (exn_msg e).

(** The directive is checked when there is one; the harness is checked anew when not. *)
(* @src service.py:664-703 JoyMesh.start_run *)
Definition check_launch (q : RunRequest) (route : RouteCandidate) (is_fallback : bool) :
    M St unit :=
  match rq_directive q with
  | Some d =>
      catch
        (directive ← lift_res (read_directive d);
         in_snapshots (validate_directive deliver_snapshot directive [] (Some true) is_fallback);;
         if xd_selected_harness directive != rc_harness_id route then
           raise (NoRouteError "runtime_changed"
                    "directive selected_harness does not match route")
         else mret tt)
        (λ e, raise (if exn_class e == "DirectiveValidationError" then as_no_route e else e))
  | None =>
      catch
        (in_snapshots (revalidate_for_launch deliver_snapshot (rc_harness_id route)
                         (rq_required_capabilities q) None);;
         mret tt)
        (λ e, raise (if is_RuntimeLaunchError e then as_no_route e else e))
  end.

Definition launched_request (q : RunRequest) (workspace : string) (route : RouteCandidate) :
    RunRequest :=
  {| rq_task := rq_task q; rq_workspace := workspace; rq_route := Some route;
     rq_required_capabilities := rq_required_capabilities q;
     rq_preferred_harness := rq_preferred_harness q;
     rq_timeout_seconds := rq_timeout_seconds q; rq_resume_session_id := rq_resume_session_id q;
     rq_allowed_harnesses := rq_allowed_harnesses q; rq_denied_harnesses := rq_denied_harnesses q;
     rq_paid_routes_approved := rq_paid_routes_approved q;
     rq_permission_mode := rq_permission_mode q; rq_model := rq_model q;
     rq_provider := rq_provider q;
     rq_additional_writable_directories := rq_additional_writable_directories q;
     rq_correlation_id := rq_correlation_id q; rq_mission_id := rq_mission_id q;
     rq_trace_id := rq_trace_id q; rq_execution_id := rq_execution_id q;
     rq_directive := rq_directive q |}.

(* @src service.py:738-747 JoyMesh.start_run *)
Definition correlation_metadata (q : RunRequest) : dict :=
  omap (λ '(k, v), (λ x, (k, PStr x)) <$> v)
    [("correlation_id", rq_correlation_id q); ("mission_id", rq_mission_id q);
     ("trace_id", rq_trace_id q); ("execution_id", rq_execution_id q)].

(** [x or y] of an optional text. *)
Definition or_else (o : option string) (m : M St string) : M St string :=
  if otruthy o then mret (default "" o) else m.

(** Everything that may refuse a run; the workspace as it resolves. *)
(* @src service.py:649-704 JoyMesh.start_run *)
Definition check_start (q : RunRequest) (route : RouteCandidate)
    (continuation_of_run_id : option string) : M St string :=
  resolved ← lift_res (resolve_workspace (rq_workspace q));
  (if negb (rc_eligible route) then raise (NoRouteError "" "selected route is not eligible")
   else mret tt);;
  _assert_capabilities (rc_harness_id route) (rq_required_capabilities q);;
  check_launch q route (otruthy continuation_of_run_id);;
  s ← get_state;
  lift_res (get_adapter (jm_registry s) (rc_harness_id route));;
  mret resolved.

(** The row of the run, its checkpoint, its request, its first event and its task. *)
(* @src service.py:705-757 JoyMesh.start_run *)
Definition create_run (q : RunRequest) (route : RouteCandidate)
    (task_context_id continuation_of_run_id : option string) (resolved : string) : M St Run :=
  id ← jm_uuid;
  created ← jm_now;
  context ← or_else task_context_id jm_uuid;
  let run := {| run_id := id; run_task := rq_task q; run_workspace := resolved;
                run_harness_id := rc_harness_id route;
                run_subscription_id := rc_subscription_id route; run_status := RUN_QUEUED;
                run_created_at := created; run_started_at := None; run_finished_at := None;
                run_exit_code := None; run_error := None; run_task_context_id := context;
                run_continuation_of_run_id := continuation_of_run_id;
                run_native_session_id := None; run_process_id := None |} in
  in_db (db_create_run run);;
  now ← jm_now;
  on_checkpoints (cp_save
    {| cp_execution_id := if otruthy (rq_execution_id q) then default "" (rq_execution_id q) else id;
       cp_attempt_id := id; cp_harness_id := run_harness_id run; cp_native_session_id := None;
       cp_status := RunStatus_value RUN_QUEUED; cp_directive := rq_directive q;
       cp_updated_at := now |});;
  on_requests (dict_set id (launched_request q resolved route));;
  _event id E_RUN_QUEUED "Run queued"
    match correlation_metadata q with [] => [] | d => [("integration", PDict d)] end;;
  on_tasks (dict_set id TaskNew);;
  mret run.

(* @src service.py:641-757 JoyMesh.start_run *)
Definition start_run (q : RunRequest) (route : RouteCandidate)
    (task_context_id continuation_of_run_id : option string) : M St Run :=
  resolved ← check_start q route continuation_of_run_id;
  create_run q route task_context_id continuation_of_run_id resolved.

(** ** The task of a run *)

(** Up to the start of the process; a run that is gone has no task. A failure here ends the
    task and nothing else. *)
(* @src service.py:1011-1019 JoyMesh._execute *)
Definition exec_begin (id : string) : M St (option Running) :=
  run ← in_db (db_get_run id);
  s ← get_state;
  match run, dict_get id (jm_requests s) with
  | Some run, Some request =>
      adapter ← lift_res (get_adapter (jm_registry s) (run_harness_id run));
      started_at ← jm_now;
      in_db (db_update_run id
        {| up_status := Some RUN_RUNNING; up_started_at := Some started_at;
           up_finished_at := None; up_exit_code := None; up_error := None;
           up_native_session_id := None; up_process_id := None |});;
      _event id E_RUN_STARTED "Run started" [];;
      in_snapshots (mark_run_started (run_harness_id run));;
      mret (Some {| xr_run := run; xr_request := request; xr_adapter := adapter;
                    xr_started_at := started_at; xr_output := []; xr_usage_input := 0;
                    xr_usage_output := 0 |})
  | _, _ => mret None
  end.

(** One line of output: the event, the native session, the usage. The variables of the task
    keep what was counted before a failure. *)
(* @src service.py:1027-1055 JoyMesh._execute *)
Definition on_line (x : Running) (stream line : string) : M St (Running * res unit) :=
  let id := run_id (xr_run x) in
  let x := with_line line x in
  match ad_normalize_output (xr_adapter x) id 0 stream line with
  | Raise e => mret (x, Raise e)
  | Ok ob =>
      r ← attempt
        (in_db (db_append_event (ao_event ob));;
         if otruthy (ao_native_session_id ob) then
           in_db (db_update_run id
             {| up_status := None; up_started_at := None; up_finished_at := None;
                up_exit_code := None; up_error := None;
                up_native_session_id := ao_native_session_id ob; up_process_id := None |});;
           _event id E_SESSION_IDENTIFIED "Native session identified"
             [("native_session_id", ostr (ao_native_session_id ob))];;
           mret tt
         else mret tt);
      match r, ao_usage ob with
      | Raise e, _ => mret (x, Raise e)
      | Ok _, None => mret (x, Ok tt)
      | Ok _, Some u =>
          let x := with_usage u x in
          r ← attempt
            (if otruthy (run_subscription_id (xr_run x)) then
               in_db (db_record_usage
                 {| ur_subscription_id := default "" (run_subscription_id (xr_run x));
                    ur_run_id := Some id; ur_amount := default (z_to_float 0) (ud_cost u);
                    ur_input_tokens := ud_input_tokens u;
                    ur_output_tokens := ud_output_tokens u |});;
               _event id E_USAGE_RECORDED "Usage recorded" [];;
               mret tt
             else mret tt);
          mret (x, r)
      end
  end.

(** An exception of a callback stops the reading; the task group wraps it. *)
(* @src runtime.py:115-117 HarnessRuntime.execute *)
Definition in_group (e : exn) : Ended :=
  if is_Exception e then EndFailed (Group [Leaf e]) else EndCancelled.
Definition alone (e : exn) : Ended := if is_Exception e then EndFailed (Leaf e) else EndCancelled.

(* @src runtime.py:105-109 HarnessRuntime.execute *)
Fixpoint consume (x : Running) (lines : list (string * string)) : M St (Running * option exn) :=
  match lines with
  | [] => mret (x, None)
  | (stream, line) :: lines =>
      r ← on_line x stream line;
      match r with
      | (x, Ok _) => consume x lines
      | (x, Raise e) => mret (x, Some e)
      end
  end.

(** The command line of the harness; an empty one is refused. *)
(* @src runtime.py:87-97 HarnessRuntime.execute *)
Definition launch_of (x : Running) : res LaunchSpec :=
  res_bind (ad_build_launch_spec (xr_adapter x) (xr_request x)) (λ spec,
    if ls_argv spec == [] then Raise (ValueError "harness command cannot be empty") else Ok spec).

(* @src runtime.py:79-148 HarnessRuntime.execute *)
Definition runtime_execute (x : Running) (p : ProcessRun) : M St (Running * Ended) :=
  match res_bind (launch_of x) (λ _, pr_started p) with
  | Raise e => mret (x, alone e)
  | Ok pid =>
      r ← attempt (in_db (db_update_run (run_id (xr_run x))
            {| up_status := None; up_started_at := None; up_finished_at := None;
               up_exit_code := None; up_error := None; up_native_session_id := None;
               up_process_id := Some pid |}));
      match r with
      | Raise e => mret (x, alone e)
      | Ok _ =>
          r ← consume x (pr_lines p);
          match r with
          | (x, Some e) => mret (x, in_group e)
          | (x, None) => mret (x, pr_end p)
          end
      end
  end.

(** The run's time in milliseconds, from times in microseconds. *)
Definition duration_ms (started finished : Z) : spec_float :=
  max_zero (fmul (fdiv (z_to_float (finished - started)) (z_to_float 1000000)) (z_to_float 1000)).

(* @src service.py:1057-1080 JoyMesh._execute *)
Definition _publish_runtime_observation (x : Running) (success : bool)
    (failure_kind : option FailureKind) (detail : option string) : M St unit :=
  finished ← jm_now;
  c ← in_snapshots (observe_execution deliver_snapshot (run_harness_id (xr_run x)) success
        failure_kind detail (Some (duration_ms (xr_started_at x) finished)) (xr_usage_input x)
        (xr_usage_output x));
  _event (run_id (xr_run x)) E_RUNTIME_SNAPSHOT_UPDATED "Runtime snapshot updated"
    [("harness", from_option (λ e, PDict (HarnessRuntimeSnapshot_as_dict e)) PNone
                   (rt_harness (run_harness_id (xr_run x)) c))];;
  mret tt.

Definition unmark (x : Running) : M St unit :=
  in_snapshots (modify_state (λ sn, with_observations
    (mark_running (run_harness_id (xr_run x)) (-1) (ss_observations sn)) sn)).

(** The last lines, as many as are asked for. *)
Definition last_lines (n : nat) (l : list string) : list string := drop (length l - n) l.
Definition newline : string := String (Ascii.ascii_of_nat 10) "".

(** ** A rate limit *)

(** Another route is looked for with the task and its workspace, paid ones included. *)
(* @src service.py:1147-1177 JoyMesh._handle_rate_limit *)
Definition _handle_rate_limit (run : Run) : M St unit :=
  (if otruthy (run_subscription_id run) then
     in_db (db_set_subscription_state (default "" (run_subscription_id run)) SUB_RATE_LIMITED)
   else mret tt);;
  _event (run_id run) E_RATE_LIMIT_ENCOUNTERED "Rate limit encountered" [];;
  p ← preview_routes (run_task run) (run_workspace run) [] None [] [] true;
  match rp_selected p with
  | None => mret tt
  | Some route =>
      s ← get_state;
      let paid := match List.find (λ q, sp_id q == default "" (rc_subscription_id route))
                          (rev (db_list_subscriptions (jm_database s))) with
                  | Some q => sp_requires_paid_approval q
                  | None => false
                  end in
      id ← jm_uuid;
      created ← jm_now;
      in_db (db_create_fallback
        {| fp_id := id; fp_original_run_id := run_id run; fp_route := route;
           fp_requires_approval := paid; fp_approved := false; fp_continuation_run_id := None;
           fp_reason := "Selected harness encountered a rate limit"; fp_created_at := created |});;
      _event (run_id run) E_FALLBACK_PROPOSED "Fallback proposed" [];;
      if paid then
        _event (run_id run) E_APPROVAL_REQUESTED "Paid fallback requires approval" [];;
        mret tt
      else mret tt
  end.

(** ** The end of a run *)

(** The status is read once more; a run cancelled meanwhile is left as it is. *)
(* @src service.py:1089-1092 JoyMesh._execute *)
Definition exec_look (x : Running) : M St bool :=
  current ← in_db (db_get_run (run_id (xr_run x)));
  match current with
  | Some r => if run_status r == RUN_CANCELLED then unmark x;; mret false else mret true
  | None => unmark x;; mret false
  end.

(* @src service.py:1093-1118 JoyMesh._execute *)
Definition exec_settle (x : Running) (code : Z) : M St unit :=
  let id := run_id (xr_run x) in
  if code == 0%Z then
    now ← jm_now;
    in_db (db_update_run id (to_status RUN_COMPLETED (Some now) (Some 0%Z) None));;
    _publish_runtime_observation x true None None;;
    _event id E_RUN_COMPLETED "Run completed" [];;
    mret tt
  else
    let f := ad_classify_failure (xr_adapter x) code (join newline (xr_output x)) in
    now ← jm_now;
    in_db (db_update_run id (to_status RUN_FAILED (Some now) (Some code) (Some (hf_message f))));;
    _publish_runtime_observation x false (Some (hf_kind f))
      (Some (hf_message f +:+ newline +:+ join newline (last_lines 20 (xr_output x))));;
    _event id E_RUN_FAILED (hf_message f) [];;
    if hf_kind f == FK_RATE_LIMIT then _handle_rate_limit (xr_run x) else mret tt.

(* @src service.py:1119-1128 JoyMesh._execute *)
Definition exec_timed_out (x : Running) (m : string) : M St unit :=
  let id := run_id (xr_run x) in
  now ← jm_now;
  in_db (db_update_run id (to_status RUN_TIMED_OUT (Some now) None (Some m)));;
  _publish_runtime_observation x false (Some FK_TIMEOUT) (Some m);;
  _event id E_RUN_TIMED_OUT m [];;
  mret tt.

(* @src service.py:1129-1131 JoyMesh._execute *)
Definition exec_cancelled (x : Running) : M St unit := unmark x;; raise CancelledError.

(* @src service.py:1132-1143 JoyMesh._execute *)
Definition exec_failed (x : Running) (f : failure) : M St unit :=
  let id := run_id (xr_run x) in
  let c := classify_execution_exception f in
  let error := format_safe_failure_error c in
  now ← jm_now;
  in_db (db_update_run id (to_status RUN_FAILED (Some now) None (Some error)));;
  _publish_runtime_observation x false (Some FK_UNKNOWN) (Some error);;
  _event id E_RUN_FAILED error (classification_dict c);;
  mret tt.

(** The clauses around the settling of an exit code. *)
(* @src service.py:1119-1145 JoyMesh._execute *)
Definition settling (x : Running) (m : M St unit) : M St unit :=
  catch m (λ e,
    if exn_class e == "HarnessTimeoutError" then exec_timed_out x (exn_msg e)
    else if is_CancelledError e then exec_cancelled x
    else if is_Exception e then exec_failed x (Leaf e)
    else raise e).

Definition drop_request (x : Running) : M St unit := on_requests (dict_del (run_id (xr_run x))).

(** From the end of the process to the end of the task. *)
(* @src service.py:1082-1145 JoyMesh._execute *)
Definition exec_close (x : Running) (e : Ended) : M St unit :=
  finally
    match e with
    | EndExit code => settling x (go ← exec_look x; if (go : bool) then exec_settle x code else mret tt)
    | EndTimeout m => exec_timed_out x m
    | EndCancelled => exec_cancelled x
    | EndFailed f => exec_failed x f
    end
    (drop_request x).

(** The whole task, when nothing comes between. *)
(* @src service.py:1010-1145 JoyMesh._execute *)
Definition _execute (id : string) (p : ProcessRun) : M St unit :=
  x ← exec_begin id;
  match x with
  | None => mret tt
  | Some x => r ← runtime_execute x p; exec_close r.1 r.2
  end.

(** ** Cancelling *)

(* @src service.py:964-968 JoyMesh.cancel *)
Definition cancel_look (id : string) : M St Run :=
  run ← in_db (db_get_run id);
  match run with
  | None => raise (KeyError ("unknown run: " +:+ id))
  | Some run => mret run
  end.

(** The status is written whatever it is by now. *)
(* @src service.py:969-971 JoyMesh.cancel *)
Definition cancel_write (id : string) : M St Run :=
  now ← jm_now;
  in_db (db_update_run id (to_status RUN_CANCELLED (Some now) None None)).

(** The task is interrupted where it is: before it begins and inside its first stretch nothing
    is undone, from then on the count of running runs is and the request is dropped. *)
(* @src service.py:972-975 JoyMesh.cancel *)
Definition interrupt_task (id : string) : M St unit :=
  s ← get_state;
  match dict_get id (jm_tasks s) with
  | None => mret tt
  | Some TaskNew => on_tasks (dict_del id)
  | Some (TaskRunning x) | Some (TaskEnded x _) | Some (TaskDecided x _) =>
      unmark x;; drop_request x;; on_tasks (dict_del id)
  end.

(* @src service.py:976-1007 JoyMesh.cancel *)
Definition cancel_finish (id : string) (run : Run) (terminated : bool) : M St unit :=
  (if terminated then mret tt else interrupt_task id);;
  now ← jm_now;
  on_checkpoints (cp_save
    {| cp_execution_id := run_id run; cp_attempt_id := run_id run;
       cp_harness_id := run_harness_id run; cp_native_session_id := run_native_session_id run;
       cp_status := RunStatus_value RUN_CANCELLED; cp_directive := None; cp_updated_at := now |});;
  _event id E_RUN_CANCELLED "Run cancelled"
    [("process_tree_terminated", PBool terminated);
     ("native_session_id", ostr (run_native_session_id run))];;
  in_delivery (deliver_event (EventType_value E_RUN_CANCELLED)
    [("run_id", PStr id); ("harness_id", PStr (run_harness_id run));
     ("process_tree_terminated", PBool terminated)] ("cancel:" +:+ id));;
  in_delivery deliver_flush.

(** [terminated]: whether there was a process and it was ended. *)
(* @src service.py:962-1008 JoyMesh.cancel *)
Definition cancel (id : string) (terminated : bool) : M St Run :=
  run ← cancel_look id;
  if terminal (run_status run) then mret run
  else
    cancelled ← cancel_write id;
    cancel_finish id run terminated;;
    mret cancelled.

(** ** Approving a fallback *)

Definition plain_request (task workspace : string) : RunRequest :=
  {| rq_task := task; rq_workspace := workspace; rq_route := None; rq_required_capabilities := [];
     rq_preferred_harness := None; rq_timeout_seconds := Some (z_to_float 300);
     rq_resume_session_id := None; rq_allowed_harnesses := []; rq_denied_harnesses := [];
     rq_paid_routes_approved := false; rq_permission_mode := PM_DEFAULT; rq_model := None;
     rq_provider := None; rq_additional_writable_directories := []; rq_correlation_id := None;
     rq_mission_id := None; rq_trace_id := None; rq_execution_id := None; rq_directive := None |}.

(* @src service.py:916-960 JoyMesh.approve_fallback *)
Definition approve_fallback (proposal_id : string) : M St Run :=
  s ← get_state;
  match dict_get proposal_id (db_fallbacks (jm_database s)) with
  | None => raise (KeyError ("unknown fallback proposal: " +:+ proposal_id))
  | Some p =>
      match dict_get (fp_original_run_id p) (db_runs (jm_database s)) with
      | None => raise (KeyError "original run not found")
      | Some original =>
          request ← in_approvals (request_approval (run_id original) (fp_id p)
            [("proposal_id", PStr (fp_id p)); ("original_run_id", PStr (fp_original_run_id p));
             ("harness_id", PStr (rc_harness_id (fp_route p))); ("reason", PStr (fp_reason p))]
            (fp_reason p) None);
          response ← in_approvals (sign_response request true);
          in_approvals (verify_response response (run_id original) (fp_id p)
                          (eq_directive_hash request));;
          in_delivery (deliver_approval
            [("approval_id", PStr (eq_approval_id request));
             ("execution_id", PStr (run_id original)); ("attempt_id", PStr (fp_id p));
             ("reason", PStr (fp_reason p)); ("approved", PBool true)]
            ("approval:" +:+ eq_approval_id request));;
          continuation ← start_run (plain_request (run_task original) (run_workspace original))
            (fp_route p) (Some (run_task_context_id original)) (Some (run_id original));
          in_db (db_approve_fallback (fp_id p) (run_id continuation));;
          mret continuation
      end
  end.

(** ** Operations and tasks side by side *)

(** The operations of the service and the stretches of the tasks. A cancellation is in three
    parts: the run is read, its status is written, and the rest; the run it has read is an
    argument of the last. *)
Inductive SessionOp :=
| OpStart (q : RunRequest) (route : RouteCandidate) (context continuation : option string)
| OpBegin (id : string)
| OpSpawn (id : string) (started : res Z)
| OpLine (id stream line : string)
| OpEnd (id : string) (e : Ended)
| OpLook (id : string)
| OpSettle (id : string)
| OpCancelWrite (id : string)
| OpCancelFinish (id : string) (run : Run) (terminated : bool)
| OpApprove (proposal_id : string).

Definition done_with (id : string) : M St unit := on_tasks (dict_del id).
Definition at_point (id : string) (t : TaskPoint) : M St unit := on_tasks (dict_set id t).

(** The first stretch: up to the start of the process. *)
(* @src service.py:1011-1019 JoyMesh._execute *)
Definition task_begin (id : string) : M St unit :=
  r ← attempt (exec_begin id);
  match r with
  | Ok (Some x) => at_point id (TaskRunning x)
  | _ => done_with id
  end.

(** The process starts and its number is written, or the task is at its end. *)
(* @src runtime.py:87-103 HarnessRuntime.execute *)
Definition task_spawn (x : Running) (started : res Z) : M St unit :=
  let id := run_id (xr_run x) in
  r ← attempt
    (pid ← lift_res (res_bind (launch_of x) (λ _, started));
     in_db (db_update_run id
       {| up_status := None; up_started_at := None; up_finished_at := None;
          up_exit_code := None; up_error := None; up_native_session_id := None;
          up_process_id := Some pid |}));
  match r with
  | Ok _ => mret tt
  | Raise e => at_point id (TaskEnded x (alone e))
  end.

(* @src runtime.py:105-109 HarnessRuntime.execute *)
Definition task_line (x : Running) (stream line : string) : M St unit :=
  r ← on_line x stream line;
  at_point (run_id (xr_run x))
    match r with
    | (x, Ok _) => TaskRunning x
    | (x, Raise e) => TaskEnded x (in_group e)
    end.

(** After an exit the run is looked at; the other ends are written at once. *)
(* @src service.py:1089-1092 JoyMesh._execute *)
Definition task_look (x : Running) (e : Ended) : M St unit :=
  let id := run_id (xr_run x) in
  match e with
  | EndExit code =>
      go ← exec_look x;
      if (go : bool) then at_point id (TaskDecided x code)
      else drop_request x;; done_with id
  | _ => attempt (exec_close x e);; done_with id
  end.

(* @src service.py:1093-1145 JoyMesh._execute *)
Definition task_settle (x : Running) (code : Z) : M St unit :=
  attempt (finally (settling x (exec_settle x code)) (drop_request x));;
  done_with (run_id (xr_run x)).

(** A stretch of a task that is not at its place does nothing. *)
Definition perform (op : SessionOp) : M St unit :=
  s ← get_state;
  let point id := dict_get id (jm_tasks s) in
  match op with
  | OpStart q route context continuation => start_run q route context continuation;; mret tt
  | OpBegin id => match point id with Some TaskNew => task_begin id | _ => mret tt end
  | OpSpawn id started =>
      match point id with Some (TaskRunning x) => task_spawn x started | _ => mret tt end
  | OpLine id stream line =>
      match point id with Some (TaskRunning x) => task_line x stream line | _ => mret tt end
  | OpEnd id e =>
      match point id with
      | Some (TaskRunning x) => at_point id (TaskEnded x e)
      | _ => mret tt
      end
  | OpLook id => match point id with Some (TaskEnded x e) => task_look x e | _ => mret tt end
  | OpSettle id =>
      match point id with Some (TaskDecided x code) => task_settle x code | _ => mret tt end
  | OpCancelWrite id => cancel_write id;; mret tt
  | OpCancelFinish id run terminated => cancel_finish id run terminated
  | OpApprove id => approve_fallback id;; mret tt
  end.

Definition after (ops : list SessionOp) (s : St) : St := foldl (λ s op, (perform op s).2) s ops.
End service.
