(* ===== verification/SessionsProofs.v ===== *)
(** * What the sessions service keeps, and how its runs end

    The history of the service only grows: runs keep what they were created with, the events of
    a run are numbered from one without gaps in the order they were written, whatever operations
    and tasks run side by side. A run is created only when its route was open, its harness able
    and found fit; its task ends it as its process ended. *)

From Stdlib Require Import SpecFloat.
From S2P Require Import Prelude.
From S2P Require Import NodeSecurity.
From S2P Require Import SessionModels.
From S2P Require Import HarnessRegistry.
From S2P Require Import Quota.
From S2P Require Import RuntimeSnapshots.
From S2P Require Import LaunchValidation.
From S2P Require Import SessionRouting.
From S2P Require Import SessionStore.
From S2P Require Import Sessions.

(** ** The history of the database *)

(** What a run was created with. *)
Definition origin (r : Run) :=
  (run_id r, run_task r, run_workspace r, run_harness_id r, run_subscription_id r,
   run_created_at r, run_task_context_id r, run_continuation_of_run_id r).

(** What the status of a run says of its other columns. *)
Definition run_ok (r : Run) : Prop :=
  (run_status r = RUN_COMPLETED → run_exit_code r = Some 0%Z) ∧
  (terminal (run_status r) = true → run_finished_at r ≠ None) ∧
  (run_status r = RUN_RUNNING → run_started_at r ≠ None).

Definition db_ok (d : Database) : Prop :=
  numbered (db_events d) ∧ Forall (λ kv, run_id kv.2 = kv.1 ∧ run_ok kv.2) (db_runs d).

Record history (d d' : Database) : Prop := {
  hi_events : db_events d `prefix_of` db_events d';
  hi_usage : db_usage d `prefix_of` db_usage d';
  hi_runs id r : dict_get id (db_runs d) = Some r →
    ∃ r', dict_get id (db_runs d') = Some r' ∧ origin r' = origin r;
  hi_ok : db_ok d → db_ok d'
}.

#[export] Instance history_preorder : PreOrder history.
Proof.
  split.
  - intros d. split; [done|done| |done]. intros id r Hr. by exists r.
  - intros d1 d2 d3 [He Hu Hr Ho] [He' Hu' Hr' Ho'].
    split; [by etrans|by etrans| |auto]. intros id r (r2 & H2 & E2)%Hr.
    destruct (Hr' _ _ H2) as (r3 & H3 & E3). exists r3. split; [done|congruence].
Qed.

(** An update that leaves the columns as its status says. *)
Definition update_ok (u : RunUpdate) : bool :=
  match up_status u with
  | None => bool_decide (up_exit_code u = None)
  | Some RUN_COMPLETED => bool_decide (up_exit_code u = Some 0%Z) && bool_decide (is_Some (up_finished_at u))
  | Some RUN_RUNNING => bool_decide (is_Some (up_started_at u))
  | Some RUN_QUEUED => true
  | Some _ => bool_decide (is_Some (up_finished_at u))
  end.

Lemma keep_not_None {A} (n o : option A) : is_Some n ∨ o ≠ None → keep n o ≠ None.
Proof. destruct n; [done|]. intros [[? [=]]|?]; done. Qed.

Lemma apply_update_ok u r : update_ok u = true → run_ok r → run_ok (apply_update u r).
Proof.
  intros Hu (Hc & Hf & Hs). unfold run_ok, apply_update. simpl.
  assert (∀ A (n o : option A), is_Some n → keep n o ≠ None) as Hk
    by (intros; apply keep_not_None; by left).
  unfold update_ok in Hu. destruct (up_status u) as [[]|]; simpl in *; boolify;
    split_and!; try done; auto; intros ?; try (apply keep_not_None; by auto).
  - by rewrite H.
  - by rewrite Hu; auto.
Qed.

(** Operations that change neither runs nor events. *)
Lemma elsewhere_history (d d' : Database) :
  db_events d' = db_events d → db_runs d' = db_runs d → db_usage d `prefix_of` db_usage d' →
  history d d'.
Proof.
  intros He Hr Hu. split; [by rewrite He|done| |by unfold db_ok; rewrite He, Hr].
  rewrite Hr. eauto.
Qed.

Lemma within_db_append e : within history (db_append_event e).
Proof.
  intros d. split; simpl; [by eexists|done|eauto|].
  intros [Hn Hr]. split; [by apply append_event_numbered|done].
Qed.

Lemma within_create_run r :
  run_ok r → within history (db_create_run r).
Proof.
  intros Hok d. unfold db_create_run, mbind, M_bind. cbn.
  destruct (dict_has (run_id r) (db_runs d)) eqn:Hh; [reflexivity|]. cbn.
  split; [done|done| |].
  - intros id r0 Hr0. simpl. exists r0. split; [|done].
    destruct (decide (id = run_id r)) as [->|Hne]; [|by rewrite dict_get_set_ne].
    unfold dict_has in Hh. by rewrite Hr0 in Hh.
  - intros [Hn Hr]. split; [done|]. by apply dict_set_Forall.
Qed.

Lemma within_update_run id u : update_ok u = true → within history (db_update_run id u).
Proof.
  intros Hu d. unfold db_update_run, mbind, M_bind. cbn.
  destruct (dict_get id (db_runs d)) as [r|] eqn:Hg; [|reflexivity]. cbn.
  split; [done|done| |].
  - intros id' r0 Hr0. simpl. destruct (decide (id' = id)) as [->|Hne].
    + exists (apply_update u r). rewrite dict_get_set_eq. split; [done|].
      by simplify_eq.
    + exists r0. by rewrite dict_get_set_ne.
  - intros [Hn Hr]. split; [done|].
    assert (run_id r = id ∧ run_ok r) as [Hi Ho].
    { apply dict_get_Some_elem in Hg. rewrite Forall_forall in Hr. exact (Hr _ Hg). }
    apply dict_set_Forall; [|done]. split; [done|by apply apply_update_ok].
Qed.

Ltac elsewhere :=
  intros d; unfold mbind, M_bind; cbn;
  repeat (match goal with |- context [match ?x with _ => _ end] => destruct x end; cbn);
  try reflexivity; apply elsewhere_history; simpl; (done || by eexists).

Lemma within_get_run id : within history (db_get_run id).
Proof. elsewhere. Qed.
Lemma within_set_state id st : within history (db_set_subscription_state id st).
Proof. unfold db_set_subscription_state. elsewhere. Qed.
Lemma within_record_usage u : within history (db_record_usage u).
Proof. unfold db_record_usage. elsewhere. Qed.
Lemma within_create_fallback p : within history (db_create_fallback p).
Proof. unfold db_create_fallback. elsewhere. Qed.
Lemma within_approve id c : within history (db_approve_fallback id c).
Proof. unfold db_approve_fallback. elsewhere. Qed.
#[export] Hint Resolve within_db_append within_get_run within_set_state within_record_usage
  within_create_fallback within_approve : within.

(** ** The operations stay within the history *)

Section operations.
Context `{PyLib, NodeLib, QuotaLib, SumLib, FmtLib, SessionLib} {D : Type} `{DeliveryOps D}.
Abbreviation St := (JoyMesh D).
Implicit Types (s : St) (x : Running).

Definition recorded s s' : Prop := history (jm_database s) (jm_database s').
#[export] Instance recorded_preorder : PreOrder recorded.
Proof.
  split; unfold recorded; [intros s; reflexivity|]. intros s1 s2 s3 Ha Hb. by etrans.
Qed.

Lemma within_in_db {A} (m : M Database A) : within history m → within recorded (in_db m).
Proof.
  intros Hm s. unfold in_db, zoom. specialize (Hm (jm_database s)).
  by destruct (m (jm_database s)).
Qed.
Lemma within_in_snapshots {A} (m : M (SnapshotService D) A) : within recorded (in_snapshots m).
Proof. apply within_zoom. intros s t. unfold recorded. reflexivity. Qed.
Lemma within_in_approvals {A} (m : M ApprovalService A) : within recorded (in_approvals m).
Proof. apply within_zoom. intros s t. unfold recorded. reflexivity. Qed.
Lemma within_on_checkpoints f : within recorded (on_checkpoints f).
Proof. apply within_modify. intros s. unfold recorded. reflexivity. Qed.
Lemma within_on_requests f : within recorded (on_requests f).
Proof. apply within_modify. intros s. unfold recorded. reflexivity. Qed.
Lemma within_on_tasks f : within recorded (on_tasks f).
Proof. apply within_modify. intros s. unfold recorded. reflexivity. Qed.
Lemma within_jm_now : within recorded jm_now.
Proof. intros s. unfold recorded. reflexivity. Qed.
Lemma within_uuid : within recorded jm_uuid.
Proof. intros s. unfold recorded. reflexivity. Qed.
Lemma within_attempt {A} (m : M St A) : within recorded m → within recorded (attempt m).
Proof. intros Hm s. unfold attempt. specialize (Hm s). by destruct (m s). Qed.
Lemma within_db_update id u : update_ok u = true → within recorded (in_db (db_update_run id u)).
Proof. intros Hu. by apply within_in_db, within_update_run. Qed.
#[local] Hint Resolve within_in_db within_in_snapshots within_in_approvals within_on_checkpoints
  within_on_requests within_on_tasks within_jm_now within_uuid within_attempt within_db_update : within.

(** As [within_steps], with the computations whose result is looked at. *)
Ltac steps := repeat progress (cbv zeta; within_steps;
  try match goal with |- within _ (attempt _) => apply within_attempt end).

Lemma within_jm_event id t m p : within recorded (_event id t m p).
Proof. unfold _event. steps. Qed.
Lemma within_preview task w required preferred allowed denied paid :
  within recorded (preview_routes task w required preferred allowed denied paid).
Proof. unfold preview_routes. steps. Qed.
#[local] Hint Resolve within_jm_event within_preview : within.
Lemma within_assert id required : within recorded (_assert_capabilities id required).
Proof. unfold _assert_capabilities. steps. Qed.
Lemma within_check_launch q route b : within recorded (check_launch q route b).
Proof. unfold check_launch. steps. Qed.
Lemma within_or_else o m : within recorded m → within recorded (or_else o m).
Proof. intros Hm. unfold or_else. steps. Qed.
Lemma within_create r : run_ok r → within recorded (in_db (db_create_run r)).
Proof. intros Hr. by apply within_in_db, within_create_run. Qed.
#[local] Hint Extern 1 (run_ok _) => (by split_and!) : within.
#[local] Hint Resolve within_assert within_check_launch within_or_else within_create : within.
Lemma within_start_run q route c k : within recorded (start_run q route c k).
Proof. unfold start_run, check_start, create_run. steps. Qed.
Lemma within_exec_begin id : within recorded (exec_begin id).
Proof. unfold exec_begin. steps. Qed.
Lemma within_on_line x stream line : within recorded (on_line x stream line).
Proof. unfold on_line. steps. Qed.
Lemma within_publish x ok kind detail :
  within recorded (_publish_runtime_observation x ok kind detail).
Proof. unfold _publish_runtime_observation. steps. Qed.
Lemma within_unmark x : within recorded (unmark x).
Proof. apply within_in_snapshots. Qed.
Lemma within_rate_limit r : within recorded (_handle_rate_limit r).
Proof. unfold _handle_rate_limit. steps. Qed.
#[local] Hint Resolve within_start_run within_exec_begin within_on_line within_publish
  within_unmark within_rate_limit : within.
Lemma within_exec_look x : within recorded (exec_look x).
Proof. unfold exec_look. steps. Qed.
Lemma within_exec_settle x code : within recorded (exec_settle x code).
Proof. unfold exec_settle. steps. Qed.
Lemma within_exec_failed x f : within recorded (exec_failed x f).
Proof. unfold exec_failed. steps. Qed.
Lemma within_exec_timed_out x m : within recorded (exec_timed_out x m).
Proof. unfold exec_timed_out. steps. Qed.
Lemma within_exec_cancelled x : within recorded (exec_cancelled x).
Proof. unfold exec_cancelled. steps. Qed.
#[local] Hint Resolve within_exec_look within_exec_settle within_exec_failed within_exec_timed_out
  within_exec_cancelled : within.
Lemma within_settling x m : within recorded m → within recorded (settling x m).
Proof. intros Hm. unfold settling. steps. Qed.
Lemma within_drop x : within recorded (drop_request x).
Proof. apply within_on_requests. Qed.
#[local] Hint Resolve within_settling within_drop : within.
Lemma within_exec_close x e : within recorded (exec_close x e).
Proof. unfold exec_close. steps. apply within_settling. steps. Qed.
Lemma within_cancel_write id : within recorded (cancel_write id).
Proof. unfold cancel_write. steps. Qed.
Lemma within_interrupt id : within recorded (interrupt_task id).
Proof. unfold interrupt_task. steps. Qed.
#[local] Hint Resolve within_exec_close within_cancel_write within_interrupt : within.
Lemma within_cancel_finish id r b : within recorded (cancel_finish id r b).
Proof. unfold cancel_finish, in_delivery. steps. Qed.
Lemma within_approve_fallback id : within recorded (approve_fallback id).
Proof. unfold approve_fallback, in_delivery. steps. Qed.
#[local] Hint Resolve within_cancel_finish within_approve_fallback : within.
Lemma within_perform op : within recorded (perform op).
Proof.
  unfold perform, task_begin, task_spawn, task_line, task_look, task_settle, at_point, done_with.
  steps.
Qed.

Lemma after_recorded ops s : recorded s (after ops s).
Proof.
  revert s. induction ops as [|op ops IH]; intros s; [reflexivity|].
  etrans; [apply (within_perform op s)|apply IH].
Qed.

(** C36: Whatever operations, stretches of tasks and parts of cancellations follow one another:
    the rows of events and of usage that were written stay, in their order, the events of every
    run are numbered from one without gaps in the order they were written, a run keeps what it
    was created with, and its status agrees with its other columns (completed means the exit
    code zero, an ended run has its end, a running one its start). *)
Theorem sessions_keep_their_history ops s :
  db_ok (jm_database s) →
  let d := jm_database s in
  let d' := jm_database (after ops s) in
  db_events d `prefix_of` db_events d' ∧ db_usage d `prefix_of` db_usage d' ∧
  (∀ id, ev_sequence <$> events_of id (db_events d') =
         Z.of_nat <$> seq 1 (length (events_of id (db_events d')))) ∧
  (∀ id r, dict_get id (db_runs d) = Some r →
     ∃ r', dict_get id (db_runs d') = Some r' ∧ origin r' = origin r) ∧
  Forall (λ kv, run_id kv.2 = kv.1 ∧ run_ok kv.2) (db_runs d').
Proof.
  intros Hd. destruct (after_recorded ops s) as [He Hu Hr Ho].
  destruct (Ho Hd) as [Hn Hf]. by split_and!.
Qed.

(** ** A run that is started *)

(** Nothing of the service changed but its clocks and what it knows of the harnesses. *)
Definition undisturbed s s' : Prop :=
  jm_database s' = jm_database s ∧ jm_checkpoints s' = jm_checkpoints s ∧
  jm_requests s' = jm_requests s ∧ jm_tasks s' = jm_tasks s.
#[local] Instance undisturbed_preorder : PreOrder undisturbed.
Proof.
  split; unfold undisturbed; [done|]. intros s1 s2 s3 (Ha & Hb & Hc & Hd) (-> & -> & -> & ->).
  done.
Qed.





End operations.

(** ** How a run ends *)

(** Computations that keep an invariant and do not raise the time limit of a harness, which the
    task would take for its own. *)
Definition mild {S A} (I : S → Prop) (m : M S A) : Prop :=
  hoare I m (λ _, I) (λ e s, exn_class e ≠ "HarnessTimeoutError" ∧ I s).

Section mildness.
Context {S : Type} (I : S → Prop).
Lemma mild_ret {A} (a : A) : mild I (mret a).
Proof. by intros s Hs. Qed.
Lemma mild_raise {A} e : exn_class e ≠ "HarnessTimeoutError" → mild (A := A) I (raise e).
Proof. by intros He s Hs. Qed.
Lemma mild_lift {A} (r : res A) :
  (∀ e, r = Raise e → exn_class e ≠ "HarnessTimeoutError") → mild I (lift_res r).
Proof. intros Hr s Hs. destruct r as [a|e]; [done|]. split; [by apply Hr|done]. Qed.
Lemma mild_get : mild I get_state.
Proof. by intros s Hs. Qed.
Lemma mild_bind {A B} (m : M S A) (k : A → M S B) :
  mild I m → (∀ a, mild I (k a)) → mild I (m ≫= k).
Proof. intros Hm Hk. by eapply hoare_bind. Qed.
Lemma mild_zoom {T A} (J : T → Prop) (get : S → T) (set : T → S → S) (m : M T A) :
  (∀ s, I s → J (get s)) → (∀ s t, I s → J t → I (set t s)) → mild J m → mild I (zoom get set m).
Proof.
  intros Hg Hset Hm s Hs. unfold zoom. specialize (Hm (get s) (Hg s Hs)).
  destruct (m (get s)) as [[a|e] t]; [by apply Hset|]. destruct Hm as [He Ht].
  split; [done|by apply Hset].
Qed.
End mildness.

Lemma cancelled_is_mild e : is_Exception e = false → exn_class e ≠ "HarnessTimeoutError".
Proof.
  unfold is_Exception. intros Hn%negb_false_iff%bool_decide_eq_true. by rewrite Hn.
Qed.

Section ends.
Context `{PyLib, NodeLib, QuotaLib, SL : SumLib, !SumLaws, FmtLib, SessionLib} {D : Type}
  `{DeliveryOps D}.
Abbreviation St := (JoyMesh D).
Implicit Types (s : St) (x : Running).
(** Identifiers are not empty, the publisher of snapshots does not fail, and the search for a
    workspace has no time limit of its own. *)
Hypothesis uuid_nonempty : ∀ n, uuid_str n ≠ "".
Hypothesis publishes : ∀ c (d : D), ∃ d', deliver_snapshot c d = (Ok tt, d').
Hypothesis resolves : ∀ w e, resolve_workspace w = Raise e → exn_class e ≠ "HarnessTimeoutError".

Definition known_ok s : Prop := ss_ok (jm_snapshots s).

(** *** What does not touch the rows of runs *)

Definition rows_kept (d d' : Database) : Prop := db_runs d' = db_runs d.
#[local] Instance rows_kept_preorder : PreOrder rows_kept.
Proof. split; unfold rows_kept; congruence. Qed.
Definition same_rows s s' : Prop :=
  rows_kept (jm_database s) (jm_database s') ∧ jm_requests s' = jm_requests s.
#[local] Instance same_rows_preorder : PreOrder same_rows.
Proof.
  split; unfold same_rows; [by intros s|]. intros s1 s2 s3 [Ha Hb] [Hc Hd].
  split; [by etrans|congruence].
Qed.

Lemma same_in_db {A} (m : M Database A) : within rows_kept m → within same_rows (in_db m).
Proof.
  intros Hm s. unfold in_db, zoom. specialize (Hm (jm_database s)).
  by destruct (m (jm_database s)).
Qed.
Lemma same_in_snapshots {A} (m : M (SnapshotService D) A) : within same_rows (in_snapshots m).
Proof. by apply within_zoom. Qed.
Lemma same_now : within same_rows jm_now.
Proof. by intros s. Qed.
Lemma same_uuid : within same_rows jm_uuid.
Proof. by intros s. Qed.
Lemma rows_append e : within rows_kept (db_append_event e).
Proof. by intros d. Qed.
Lemma rows_set_state id st : within rows_kept (db_set_subscription_state id st).
Proof.
  intros d. unfold db_set_subscription_state, mbind, M_bind. cbn. by destruct (dict_get _ _).
Qed.
Lemma rows_fallback p : within rows_kept (db_create_fallback p).
Proof. intros d. unfold db_create_fallback, mbind, M_bind. cbn. by destruct (dict_has _ _). Qed.
#[local] Hint Resolve same_in_db same_in_snapshots same_now same_uuid rows_append rows_set_state
  rows_fallback : within.

Lemma same_event id t m p : within same_rows (_event id t m p).
Proof. unfold _event. within_steps. Qed.
Lemma same_preview task w required preferred allowed denied paid :
  within same_rows (preview_routes task w required preferred allowed denied paid).
Proof. unfold preview_routes. within_steps. Qed.
Lemma same_publish x ok kind detail :
  within same_rows (_publish_runtime_observation x ok kind detail).
Proof. unfold _publish_runtime_observation. pose proof same_event. within_steps. Qed.
Lemma same_unmark x : within same_rows (unmark x).
Proof. apply same_in_snapshots. Qed.
#[local] Hint Resolve same_event same_preview same_publish same_unmark : within.
Lemma same_rate_limit r : within same_rows (_handle_rate_limit r).
Proof. unfold _handle_rate_limit. within_steps. Qed.
#[local] Hint Resolve same_rate_limit : within.

(** *** What the parts may raise *)

Lemma mild_in_db {A} (m : M Database A) : mild (λ _, True) m → mild known_ok (in_db m).
Proof. intros Hm. by apply (mild_zoom _ (λ _, True)). Qed.
Lemma mild_in_snapshots {A} (m : M (SnapshotService D) A) :
  mild ss_ok m → mild known_ok (in_snapshots m).
Proof. intros Hm. by apply (mild_zoom _ ss_ok). Qed.
Lemma mild_now : mild known_ok jm_now.
Proof. by intros s Hs. Qed.
Lemma mild_uuid : mild known_ok jm_uuid.
Proof. by intros s Hs. Qed.
Lemma mild_event id t m p : mild known_ok (_event id t m p).
Proof. by apply mild_in_db. Qed.

Lemma mild_quota id b : mild quota_ok (quota_snapshot id b).
Proof.
  eapply hoare_conseq; [apply quota_snapshot_answers|done|by intros ? ? []|].
  intros e q [He Hq]. split; [by apply cancelled_is_mild|done].
Qed.
Lemma mild_candidates active q a m l b :
  mild quota_ok (candidates_of installed active b q a m l).
Proof.
  induction l as [|p l IH]; simpl; [apply mild_ret|].
  apply mild_bind; [|intros o; apply mild_bind; [done|intros ?; apply mild_ret]].
  destruct b; [|apply mild_ret]. apply mild_bind; [apply mild_quota|intros ?; apply mild_ret].
Qed.
Lemma mild_preview r subs active b q : mild quota_ok (preview r installed subs active b q).
Proof.
  unfold preview. apply mild_bind; [|intros l; apply mild_ret].
  induction (list_adapters r) as [|a l IH]; simpl; [apply mild_ret|].
  apply mild_bind; [apply mild_lift|intros d].
  - unfold definition, res_bind. intros e. destruct (resolve_id _ _) eqn:E.
    + destruct (dict_get _ _); by intros [= <-].
    + intros [= <-]. revert E. unfold resolve_id. repeat case_match; by intros [= <-].
  - apply mild_bind; [apply mild_candidates|intros l1].
    apply mild_bind; [done|intros l2; apply mild_ret].
Qed.

Lemma mild_routes task w : mild known_ok (preview_routes task w [] None [] [] true).
Proof.
  unfold preview_routes.
  apply mild_bind; [apply mild_lift; apply resolves|intros resolved].
  apply mild_bind; [case_bool_decide; [by apply mild_raise|apply mild_ret]|intros _].
  apply mild_bind; [apply mild_get|intros s]. cbv zeta.
  apply mild_in_snapshots, (mild_zoom _ quota_ok); [by intros sn []| |apply mild_preview].
  intros sn q (_ & Hr) Hq. by split.
Qed.

Lemma mild_rate_limit r : mild known_ok (_handle_rate_limit r).
Proof.
  unfold _handle_rate_limit. apply mild_bind.
  { destruct (otruthy _); [|apply mild_ret]. apply mild_in_db. intros d _.
    unfold db_set_subscription_state, mbind, M_bind. cbn. by destruct (dict_get _ _). }
  intros _. apply mild_bind; [apply mild_event|intros _].
  apply mild_bind; [apply mild_routes|intros p].
  destruct (rp_selected p) as [route|]; [|apply mild_ret].
  apply mild_bind; [apply mild_get|intros s]. cbv zeta.
  apply mild_bind; [apply mild_uuid|intros id]. apply mild_bind; [apply mild_now|intros created].
  apply mild_bind.
  { apply mild_in_db. intros d _. unfold db_create_fallback, mbind, M_bind. cbn.
    by destruct (dict_has _ _). }
  intros _. apply mild_bind; [apply mild_event|intros _].
  destruct (match List.find _ _ with Some _ => _ | None => _ end); [|apply mild_ret].
  apply mild_bind; [apply mild_event|intros _; apply mild_ret].
Qed.

(** The observation of a run is stopped by a cancellation only. *)
Definition only_cancelled_run (e : exn) s : Prop := is_Exception e = false ∧ known_ok s.
Lemma publish_answers x ok kind detail :
  hoare known_ok (_publish_runtime_observation x ok kind detail) (λ _, known_ok)
    only_cancelled_run.
Proof.
  intros s Hs. unfold _publish_runtime_observation, in_snapshots, zoom, mbind, M_bind. cbn [jm_now].
  set (dur := duration_ms _ _).
  pose proof (observe_hoare deliver_snapshot uuid_nonempty publishes
    (run_harness_id (xr_run x)) ok kind detail (Some dur) (xr_usage_input x) (xr_usage_output x)
    (jm_snapshots s) Hs) as Ho.
  cbn [jm_snapshots set_jm].
  destruct (observe_execution _ _ _ _ _ _ _ _ (jm_snapshots s)) as [[c|e] sn]; [|exact Ho].
  cbn. by destruct Ho.
Qed.

(** *** The end of a task *)

Definition at_status (id : string) (o : Run) (st : RunStatus) s : Prop :=
  ∃ r, dict_get id (db_runs (jm_database s)) = Some r ∧ origin r = origin o ∧ run_status r = st.

Lemma same_at_status id o st s s' : same_rows s s' → at_status id o st s → at_status id o st s'.
Proof. intros [Hr _] (r & Hg & Ho). exists r. by rewrite Hr. Qed.

(** The status is written, with the time of now; the rest follows. *)
Lemma status_is_written id o (u : Z → RunUpdate) st (k : M St unit) s :
  dict_get id (db_runs (jm_database s)) = Some o → (∀ now, up_status (u now) = Some st) →
  ∃ s', (now ← jm_now; in_db (db_update_run id (u now));; k) s = k s' ∧
        at_status id o st s' ∧ jm_snapshots s' = jm_snapshots s ∧ jm_requests s' = jm_requests s.
Proof.
  intros Hg Hu. unfold in_db, zoom, db_update_run, mbind, M_bind. cbn. rewrite Hg. cbn.
  eexists. split_and!; [done| |done..]. eexists. cbn. rewrite dict_get_set_eq.
  split_and!; [done..|]. simpl. by rewrite Hu.
Qed.

(** A clause that writes the status and then observes the run. *)
Lemma clause_ends id o (u : Z → RunUpdate) st (k : M St unit) s :
  dict_get id (db_runs (jm_database s)) = Some o → (∀ now, up_status (u now) = Some st) →
  within same_rows k →
  let s' := ((now ← jm_now; in_db (db_update_run id (u now));; k) s).2 in
  at_status id o st s' ∧ jm_requests s' = jm_requests s.
Proof.
  intros Hg Hu Hk. destruct (status_is_written id o u st k s Hg Hu) as (s' & -> & Ha & _ & Hq).
  specialize (Hk s'). split; [by eapply same_at_status|destruct Hk; congruence].
Qed.

Definition exit_status (code : Z) : RunStatus := if code == 0%Z then RUN_COMPLETED else RUN_FAILED.

(** What an exit code leads to: the status is written, and what is raised after that is not a
    time limit; after a success it is a cancellation if anything. *)
Lemma settle_ends x code o s :
  known_ok s → dict_get (run_id (xr_run x)) (db_runs (jm_database s)) = Some o →
  let '(r, s') := exec_settle x code s in
  at_status (run_id (xr_run x)) o (exit_status code) s' ∧ jm_requests s' = jm_requests s ∧
  match r with
  | Ok _ => True
  | Raise e => exn_class e ≠ "HarnessTimeoutError" ∧ (code = 0%Z → is_Exception e = false)
  end.
Proof.
  intros Hs Hg. unfold exec_settle, exit_status. case_bool_decide as E.
  - set (k := _publish_runtime_observation x true None None;; _).
    destruct (status_is_written _ o (λ now, to_status RUN_COMPLETED (Some now) (Some 0%Z) None)
      RUN_COMPLETED k s Hg ltac:(done)) as (s1 & -> & Ha & Hsn & Hq).
    assert (within same_rows k) as Hw by (subst k; within_steps).
    assert (hoare known_ok k (λ _ _, True) only_cancelled_run) as Hk.
    { subst k. eapply hoare_bind; [apply publish_answers|]. by intros _ s2. }
    assert (known_ok s1) as Hs1 by (unfold known_ok; by rewrite Hsn).
    specialize (Hw s1). specialize (Hk s1 Hs1). destruct (k s1) as [r s'].
    simpl in *. split_and!; [by eapply same_at_status|destruct Hw; congruence|].
    destruct r as [|e]; [done|]. destruct Hk as [Hk _]. split; [by apply cancelled_is_mild|done].
  - cbv zeta. set (f := ad_classify_failure _ _ _).
    set (k := _publish_runtime_observation x false _ _;; _).
    destruct (status_is_written _ o
      (λ now, to_status RUN_FAILED (Some now) (Some code) (Some (hf_message f)))
      RUN_FAILED k s Hg ltac:(done)) as (s1 & -> & Ha & Hsn & Hq).
    assert (within same_rows k) as Hw by (subst k; within_steps).
    assert (mild known_ok k) as Hk.
    { subst k. apply mild_bind.
      - eapply hoare_conseq; [apply publish_answers|done..|].
        intros e s2 [He Hs2]. split; [by apply cancelled_is_mild|done].
      - intros _. apply mild_bind; [apply mild_event|intros _].
        destruct (bool_decide _); [apply mild_rate_limit|apply mild_ret]. }
    assert (known_ok s1) as Hs1 by (unfold known_ok; by rewrite Hsn).
    specialize (Hw s1). specialize (Hk s1 Hs1). destruct (k s1) as [r s'].
    simpl in *. split_and!; [by eapply same_at_status|destruct Hw; congruence|].
    destruct r as [|e]; [done|]. destruct Hk as [Hk _]. done.
Qed.

Lemma timed_out_ends x m o s :
  dict_get (run_id (xr_run x)) (db_runs (jm_database s)) = Some o →
  let s' := (exec_timed_out x m s).2 in
  at_status (run_id (xr_run x)) o RUN_TIMED_OUT s' ∧ jm_requests s' = jm_requests s.
Proof. intros Hg. unfold exec_timed_out. apply clause_ends; [done..|within_steps]. Qed.

Lemma failed_ends x f o s :
  dict_get (run_id (xr_run x)) (db_runs (jm_database s)) = Some o →
  let s' := (exec_failed x f s).2 in
  at_status (run_id (xr_run x)) o RUN_FAILED s' ∧ jm_requests s' = jm_requests s.
Proof. intros Hg. unfold exec_failed. cbv zeta. apply clause_ends; [done..|within_steps]. Qed.

Lemma cancelled_same x : within same_rows (exec_cancelled x).
Proof. unfold exec_cancelled. within_steps. Qed.

Lemma settling_ends x code o s :
  known_ok s → dict_get (run_id (xr_run x)) (db_runs (jm_database s)) = Some o →
  let s' := (settling x (exec_settle x code) s).2 in
  at_status (run_id (xr_run x)) o (exit_status code) s' ∧ jm_requests s' = jm_requests s.
Proof.
  intros Hs Hg. pose proof (settle_ends x code o s Hs Hg) as Hse. unfold settling, catch.
  destruct (exec_settle x code s) as [[u|e] s1]; destruct Hse as (Ha & Hq & He); [done|].
  destruct He as [Ht Hc]. rewrite (bool_decide_eq_false_2 _ Ht).
  destruct (is_CancelledError e) eqn:Ec.
  { pose proof (cancelled_same x s1) as Hw. split; [by eapply same_at_status|].
    destruct Hw. simpl in *. congruence. }
  destruct (is_Exception e) eqn:Ee; [|done].
  unfold exit_status in *. case_bool_decide as E; [by discriminate (Hc E)|].
  destruct Ha as (r & Hr & Ho & _). destruct (failed_ends x (Leaf e) r s1 Hr) as [(r' & H1' & H2' & H3') Hq'].
  split; [exists r'; by rewrite H2'|congruence].
Qed.

Lemma look_spec x o s :
  dict_get (run_id (xr_run x)) (db_runs (jm_database s)) = Some o →
  exec_look x s = if run_status o == RUN_CANCELLED then (Ok false, (unmark x s).2)
                  else (Ok true, s).
Proof.
  intros Hg. destruct s. unfold exec_look, in_db, zoom, db_get_run, mbind, M_bind in *. cbn in *.
  rewrite Hg. by case_bool_decide.
Qed.

(** The status a run ends with, from how its process ended and the status it had by then. *)
Definition ended_status (e : Ended) (st : RunStatus) : RunStatus :=
  match e with
  | EndExit code => if st == RUN_CANCELLED then RUN_CANCELLED else exit_status code
  | EndTimeout _ => RUN_TIMED_OUT
  | EndFailed _ => RUN_FAILED
  | EndCancelled => st
  end.

(** a task ends its run as its process ended, whatever else goes wrong: completed exactly
    after the code zero, failed after any other code or an exception of the supervision, timed
    out after the time limit, and a run that was cancelled before the end of its process stays
    cancelled. Neither the observation of the run nor the search for a fallback can change that.
    The run keeps what it was created with, and its request is dropped. *)
Theorem run_ends_as_its_process x e o s :
  known_ok s → dict_get (run_id (xr_run x)) (db_runs (jm_database s)) = Some o →
  let s' := (exec_close x e s).2 in
  (∃ r, dict_get (run_id (xr_run x)) (db_runs (jm_database s')) = Some r ∧ origin r = origin o ∧
        run_status r = ended_status e (run_status o)) ∧
  jm_requests s' = dict_del (run_id (xr_run x)) (jm_requests s).
Proof.
  intros Hs Hg. unfold exec_close, finally.
  set (m := match e with EndExit _ => _ | EndTimeout _ => _ | EndCancelled => _ | EndFailed _ => _ end).
  assert (at_status (run_id (xr_run x)) o (ended_status e (run_status o)) (m s).2 ∧
          jm_requests (m s).2 = jm_requests s) as [Ha Hq].
  { subst m. destruct e as [code|t| |f]; simpl.
    - pose proof (settling_ends x code o s Hs Hg) as Hse. revert Hse.
      unfold settling, catch, mbind, M_bind. rewrite (look_spec x o s Hg).
      case_bool_decide as Ec; [|done]. intros _. pose proof (same_unmark x s) as Hw.
      split; [|apply Hw]. eapply same_at_status; [exact Hw|]. by exists o.
    - by apply timed_out_ends.
    - pose proof (cancelled_same x s) as Hw. split; [|apply Hw].
      eapply same_at_status; [exact Hw|]. by exists o.
    - by apply failed_ends. }
  destruct (m s) as [r s1]. simpl in *. unfold drop_request, on_requests. cbn.
  destruct r; (split; [exact Ha|by rewrite Hq]).
Qed.
End ends.

(** ** On concrete inputs *)

Definition a_session_lib : SessionLib :=
  {| resolve_workspace w := Ok w; read_directive _ := Raise (ValueError "no directive");
     installed a := if ad_id a == "codex" then Some "/bin/codex" else None |}.
(** Publishing keeps the snapshots and does nothing else. *)
Definition quiet_delivery : DeliveryOps (list RuntimeSnapshot) :=
  {| deliver_snapshot := note; deliver_event _ _ _ := mret tt; deliver_approval _ _ := mret tt;
     deliver_flush := mret tt |}.
Definition a_service (subscriptions : list (string * SubscriptionProfile)) :
    JoyMesh (list RuntimeSnapshot) :=
  {| jm_database := {| db_subscriptions := subscriptions; db_runs := []; db_events := [];
                       db_usage := []; db_fallbacks := [] |};
     jm_checkpoints := []; jm_requests := []; jm_tasks := []; jm_snapshots := a_snapshot_service;
     jm_approvals := {| as_default_ttl := 100; as_private_key := "k"; as_public_key := "k";
                        as_seen := []; as_pending := []; as_clock := 0; as_uuids := 0 |};
     jm_clock := 0; jm_uuids := 0 |}.
Definition a_route (subscription : option string) : RouteCandidate :=
  {| rc_harness_id := "codex"; rc_subscription_id := subscription; rc_score := z_to_float 1;
     rc_eligible := true; rc_reasons := [] |}.
Definition a_request : RunRequest := plain_request "add a test" "/w".

Abbreviation run_ops subs ops :=
  (@after named_lib toy_node_lib working plain_sum plain_fmt a_session_lib _ quiet_delivery ops
     (a_service subs)).
Abbreviation started := (OpStart a_request (a_route None) None None).
Definition status_of (id : string) (s : JoyMesh (list RuntimeSnapshot)) : option RunStatus :=
  run_status <$> dict_get id (db_runs (jm_database s)).
Definition events_seen (s : JoyMesh (list RuntimeSnapshot)) : list (string * Z * EventType) :=
  (λ e, (ev_run_id e, ev_sequence e, ev_type e)) <$> db_events (jm_database s).

(** Two runs side by side: each has events of its own numbering. *)
Abbreviation two_runs :=
  [started; started; OpBegin "id-0"; OpBegin "id-2"; OpSpawn "id-0" (Ok 7%Z);
   OpLine "id-0" "stdout" "working"; OpSpawn "id-2" (Raise (Exn "OSError" "" ""));
   OpEnd "id-0" (EndExit 0%Z); OpLook "id-2"; OpLook "id-0"; OpSettle "id-0"].

Example two_runs_end :
  status_of "id-0" (run_ops [] two_runs) = Some RUN_COMPLETED ∧
  status_of "id-2" (run_ops [] two_runs) = Some RUN_FAILED ∧
  jm_tasks (run_ops [] two_runs) = [].
Proof. vm_compute. by split_and!. Qed.

Lemma fresh_service_ok subs : db_ok (jm_database (a_service subs)).
Proof. split; [by intros id|constructor]. Qed.

Lemma sessions_keep_their_history_witness :
  events_seen (run_ops [] two_runs) =
    [("id-0", 1%Z, E_RUN_QUEUED); ("id-2", 1%Z, E_RUN_QUEUED); ("id-0", 2%Z, E_RUN_STARTED);
     ("id-2", 2%Z, E_RUN_STARTED); ("id-0", 3%Z, E_HARNESS_OUTPUT);
     ("id-2", 3%Z, E_RUNTIME_SNAPSHOT_UPDATED); ("id-2", 4%Z, E_RUN_FAILED);
     ("id-0", 4%Z, E_RUNTIME_SNAPSHOT_UPDATED); ("id-0", 5%Z, E_RUN_COMPLETED)] ∧
  Forall (λ kv, run_id kv.2 = kv.1 ∧ run_ok kv.2) (db_runs (jm_database (run_ops [] two_runs))).
Proof.
  split; [vm_compute; reflexivity|].
  refine (proj2 (proj2 (proj2 (proj2 (@sessions_keep_their_history named_lib toy_node_lib working
    plain_sum plain_fmt a_session_lib _ quiet_delivery two_runs (a_service []) _))))).
  apply fresh_service_ok.
Defined.

(** A run that is under way, and its task. *)
Definition a_run (id : string) : Run :=
  {| run_id := id; run_task := "add a test"; run_workspace := "/w"; run_harness_id := "codex";
     run_subscription_id := None; run_status := RUN_RUNNING; run_created_at := 0;
     run_started_at := Some 1%Z; run_finished_at := None; run_exit_code := None; run_error := None;
     run_task_context_id := "c1"; run_continuation_of_run_id := None;
     run_native_session_id := None; run_process_id := Some 7%Z |}.
Definition a_running : Running :=
  {| xr_run := a_run "r1"; xr_request := a_request; xr_adapter := an_adapter "codex";
     xr_started_at := 1; xr_output := ["no such file"]; xr_usage_input := 0;
     xr_usage_output := 0 |}.
Definition running_service (fallbacks : list (string * FallbackProposal)) :
    JoyMesh (list RuntimeSnapshot) :=
  {| jm_database := {| db_subscriptions := []; db_runs := [("r1", a_run "r1")]; db_events := [];
                       db_usage := []; db_fallbacks := fallbacks |};
     jm_checkpoints := []; jm_requests := [("r1", a_request)]; jm_tasks := [];
     jm_snapshots := a_snapshot_service; jm_approvals := jm_approvals (a_service []);
     jm_clock := 10; jm_uuids := 10 |}.
Abbreviation failing_end :=
  (@exec_close named_lib working plain_sum plain_fmt a_session_lib _ quiet_delivery a_running
     (EndExit 1%Z) (running_service [])).

Lemma run_ends_as_its_process_witness :
  status_of "r1" (running_service []) = Some RUN_RUNNING ∧
  ∃ r, dict_get "r1" (db_runs (jm_database failing_end.2)) = Some r ∧
       run_status r = RUN_FAILED ∧ jm_requests failing_end.2 = [].
Proof.
  split; [reflexivity|].
  destruct (@run_ends_as_its_process named_lib working plain_sum plain_sum_laws plain_fmt
    a_session_lib _ quiet_delivery named_uuids note_listens ltac:(done) a_running (EndExit 1%Z)
    (a_run "r1") (running_service []) a_snapshot_service_ok eq_refl) as [(r & Hg & _ & Hs) Hq].
  exists r. split; [exact Hg|]. split; [exact Hs|exact Hq].
Defined.

(** ** Where the service falls short *)

(** A cancellation that comes between the look at the run and the writing of its end is undone:
    the run is completed, and its events say that it was cancelled after that. *)
Abbreviation late_cancel :=
  (run_ops [] [started; OpBegin "id-0"; OpSpawn "id-0" (Ok 7%Z); OpEnd "id-0" (EndExit 0%Z);
               OpLook "id-0"; OpCancelWrite "id-0"; OpSettle "id-0";
               OpCancelFinish "id-0" (a_run "id-0") false]).
Example cancelled_run_is_completed :
  status_of "id-0" late_cancel = Some RUN_COMPLETED ∧
  last (events_seen late_cancel) = Some ("id-0", 5%Z, E_RUN_CANCELLED).
Proof. vm_compute. by split. Qed.

(** A task that begins while its run is being cancelled writes the status over: the task is then
    interrupted, and the run is said to run for ever. *)
Abbreviation early_cancel :=
  (run_ops [] [started; OpCancelWrite "id-0"; OpBegin "id-0";
               OpCancelFinish "id-0" (a_run "id-0") false]).
Example cancelled_run_stays_running :
  status_of "id-0" early_cancel = Some RUN_RUNNING ∧ jm_tasks early_cancel = [].
Proof. vm_compute. by split. Qed.

(** The checkpoint of a run is written when it is queued and, under the identifier of the run,
    when it is cancelled: a completed run is taken for interrupted work after a restart. *)
Abbreviation completed_run :=
  (run_ops [] [started; OpBegin "id-0"; OpSpawn "id-0" (Ok 7%Z); OpEnd "id-0" (EndExit 0%Z);
               OpLook "id-0"; OpSettle "id-0"]).
Example completed_run_is_resumable :
  status_of "id-0" completed_run = Some RUN_COMPLETED ∧
  cp_status <$> cp_list_resumable (cp_mark_interrupted 99 (jm_checkpoints completed_run)).1
    = ["interrupted"].
Proof. vm_compute. by split. Qed.

(** An approval of a fallback does not look whether it was approved: each starts a run. *)
Definition a_proposal : FallbackProposal :=
  {| fp_id := "f1"; fp_original_run_id := "r1"; fp_route := a_route None;
     fp_requires_approval := true; fp_approved := false; fp_continuation_run_id := None;
     fp_reason := "rate limit"; fp_created_at := 5 |}.
Abbreviation approved_twice :=
  (@after named_lib toy_node_lib working plain_sum plain_fmt a_session_lib _ quiet_delivery
     [OpApprove "f1"; OpApprove "f1"] (running_service [("f1", a_proposal)])).
Example fallback_runs_twice :
  run_continuation_of_run_id <$> dict_values (db_runs (jm_database approved_twice))
    = [None; Some "r1"; Some "r1"].
Proof. vm_compute. reflexivity. Qed.
